(* ===== verification/_CoqProject ===== *)
-Q . S2P
Prelude.v
Decimal.v
Dates.v
Json.v
Authority.v
StayPolicies.v
Taxes.v
Transactions.v
Db.v
LoyaltyRules.v
Packages.v
Folios.v
SampleHotel.v
FolioLedger.v
FolioFigures.v
FolioEffects.v
FolioNights.v
FolioMoves.v
FolioPayments.v
Refunds.v
Shifts.v
Pos.v
Till.v
Rooms.v
Housekeeping.v
SalesRules.v
Inventory.v
Rates.v
Guests.v
Notices.v
Loyalty.v
Bookings.v
StayChanges.v
StayEnds.v
Frames.v
Lifecycle.v
NoOverbooking.v
StayMoney.v
Books.v
NightAudit.v
NightClosed.v
HotelDay.v
SegmentRules.v
CampaignRender.v
Inbox.v
Marketing.v
Campaigns.v
Journals.v
JournalBooks.v
Marketplace.v
Takings.v
WebhookHttp.v
Webhooks.v
WebhookRuns.v
Privacy.v
Erasure.v
GroupBlocks.v
EventSpaces.v
Maintenance.v
Totp.v
Accounts.v
SecondFactor.v
SignIn.v
Membership.v
Passwords.v
Staff.v
AccountHistory.v
Sessions.v
SampleAccounts.v
Lockout.v
ResetLinks.v
Ownership.v
PublicBooking.v
PublicSafety.v
