(* ===== verification/Prelude.v ===== *)
(** * Roomick PMS backend

    The program under src/src is the server of a hotel management system
    (NestJS over Prisma and PostgreSQL). A tenant owns branches (hotels); a branch
    has rooms, rate plans, tax rules and policies; guests book stays, check in,
    are billed night by night and check out; a bill ("folio") takes charges,
    taxes, payments, corrections, transfers and refunds; cashiers work in drawers
    ("shifts"), outlets ring up sales; housekeeping and maintenance look after the
    rooms; a night audit closes each night. Groups hold allotments and venues are
    hired for events; guests book and look after their stay on the hotel's page, and
    are written to by campaigns; staff sign in, invite each other and hold roles;
    other systems read with keys, are told of changes through webhooks and get the
    day's figures as journals. Every request runs in one database transaction
    scoped to its tenant.

    ** How the code is modelled

    One tenant's database is the record [Db] of Db.v, one list of rows per table,
    each row a record with the columns the modelled services use under their
    schema names. An operation is a function in the monad [M A := Db -> res (Db * A)]:
    it reads and writes the state in the order the source does, and returns the
    error the source throws (HTTP class and code) where it throws. A transaction
    that throws is rolled back, so an error carries no state. A row is found by
    [List.find] and listed by [List.filter] in insertion order, which is what an
    unordered query gives no promise about: a claim that depends on the order of an
    unordered query is not made. Loops are [for_each], early exits [throw!]. Row
    locks only make concurrent transactions wait for each other and are left out;
    concurrency is the interleaving of whole transactions, as the step relations
    below have it.

    Money is a rational in lowest terms ([Qc]) under decimal.js's own rounding to
    20 significant digits, a parameter of the model with its documented laws
    ([DecimalLib], Decimal.v; a reference implementation shows they can hold); a
    NUMERIC(p,2) column rounds half away from zero and refuses what does not fit
    ([numeric_col]). Instants are milliseconds, dates the instant of their UTC
    midnight (Dates.v), the zone database a parameter ([Platform]). Ids come from a
    generator that never repeats ([Uuid]). Texts built for people (descriptions,
    messages, audit payloads) are left out, except where code reads them back.

    ** The files and what they model

    - Prelude, Decimal, Dates, Json: results and error codes, automation ([keeps_tac]
      and the [keeps] hint database), lists and options; decimal arithmetic; the
      branch clock (common/utils/branch-date.ts); JSON columns.
    - Authority: common/utils/{staff-authority,branch-roles}.ts,
      common/permissions, common/guards/roles.guard.ts.
    - StayPolicies: modules/reservations/{nightly-rates,policies,stay-fees,deposits,
      day-use}.ts. Taxes: modules/taxes. Packages, Rates: modules/rate-resolver.
    - Transactions: the transaction monad, its loops and guards, the tactics [m_inv]
      and [keeps_tac], and names of rows. Db: prisma/schema.prisma, webhook events.
    - Folios: modules/folios/folios.service.ts, with its theorems in FolioLedger
      (the ledger's invariant), FolioFigures (derived totals), FolioEffects
      (postings and corrections), FolioNights (room nights), FolioMoves (splits,
      transfers), FolioPayments (payments, closing). Refunds: refunds.service.ts.
    - Shifts, Pos: modules/shifts, modules/pos; Till puts them together.
    - LoyaltyRules, Loyalty: modules/loyalty. Guests: modules/guests. Notices:
      the messages, events and cards a booking leaves behind.
    - Rooms, Housekeeping, Maintenance: modules/property/rooms.service.ts,
      modules/housekeeping, modules/maintenance.
    - SalesRules: modules/revenue-management restrictions and allotments.
      Inventory: availability. GroupBlocks, EventSpaces: modules/sales-events. Bookings, StayChanges, StayEnds:
      modules/reservations/reservations.service.ts.
    - Frames, Books: classes of relations the operations keep ([Errands], [Upkeep],
      [Billing], [StayWrites]), with which one pass over a service serves every
      relation; Lifecycle, NoOverbooking, StayMoney: what the operations on stays
      promise together.
    - NightAudit: modules/night-audit; NightClosed and HotelDay its theorems.
    - PublicBooking: modules/public-booking, for organisations side by side;
      PublicSafety its theorems. Inbox: modules/comms-log/comms-log.service.ts.
    - SegmentRules, CampaignRender, Marketing: modules/marketing (who a campaign is
      for, what it says, and sending, tracking and consent); Campaigns its theorems.
    - Journals, Marketplace: modules/marketplace and its connectors; JournalBooks and
      Takings their theorems.
    - WebhookHttp, Webhooks: modules/integrations and common/auth/api-key-auth.service.ts;
      WebhookRuns what the dispatchers of several servers do together.
    - Privacy: modules/gdpr; Erasure its theorems.
    - Accounts: the rows of people, sessions, invitations and roles, over all
      organisations. Totp, SecondFactor, SignIn, Membership, Passwords:
      modules/auth and modules/tenants. Staff: modules/users and the status of
      accounts. AccountHistory: everything these services can do, as one relation
      over time; Sessions, Lockout, ResetLinks, Ownership: what holds over it.
    - SampleHotel, SampleAccounts: the small hotel and organisation the witnesses
      run on.

    A service that keeps rows no other modelled service reads has a state of its own
    that holds the hotel's [Db] (Marketing, Marketplace, PublicBooking), or stands
    beside it (Accounts, Webhooks, Privacy).

    ** What the theorems show

    - Composition: over any sequence of transactions of the desk, of the bills and
      of the night audit's batches, the ledger stays well formed and every guest in
      the house has a room of their own (HotelDay.hotel_invariant); the operations
      on stays refine an abstract machine over stays and rooms
      (Lifecycle.lifecycle_refines); a booking never sells a room that is not there
      (NoOverbooking).
    - Night audit: it ends and says so whatever is lost under way, bills or names
      every guest, and closes a night once (NightClosed).
    - Bills: append-only, exact corrections, nights billed once and all, conserved
      totals under moves, round trip of a transfer, payments and refunds within
      their bounds (Folio*, Refunds); cash (Shifts, Pos, Till).
    - Pricing and policy: taxes, nightly prices, cancellation terms, availability,
      restrictions as equivalences with their specifications.
    - Rooms, housekeeping, maintenance, loyalty, guests: each table's invariant and
      the functional behaviour of its operations.
    - Authority: what the guards let through is what the rules allow.
    - Groups and events: a block takes its allotment off sale and no more, no venue
      is sold twice, an event is billed once and in full.
    - The booking page: strangers are told nothing, a guest reaches one booking only,
      the bill shown adds up (PublicSafety).
    - Campaigns: they write once, to guests who agreed, go out after interruptions,
      and every message carries its reader's own unsubscribe link; saved segments
      read back (Campaigns, CampaignRender).
    - Accounts: sessions only for those who proved who they are, ended sessions stay
      ended, a refresh token works once, guessing is bounded, a reset shuts everyone
      else out, an organisation keeps its owner (Sessions, Lockout, ResetLinks,
      Ownership).
    - Integrations: exported journals balance and the file reads back; a stay is asked
      for a review once (Takings); a delivery is sent by one dispatcher at a time and
      delivered once, a revoked key opens nothing (WebhookRuns), and no webhook
      reaches into the server's own network (WebhookHttp).

    - Personal data: an erasure leaves no trace of the guest and touches nothing else, a
      retention run ends and amounts to one sweep (Erasure).

    Fuel: [batches_of] takes the length of the list, [createReservationRow] the
    number of attempts the source makes, [nights_between] counts the nights; [purgeTenant] is
    given one pass more than there are rows, which is proved to be enough; each other is
    enough by construction and no theorem is conditional on it.

    ** Not modelled

    Sending (mail, SMS, WhatsApp), the HTTP exchange of a webhook, files and PDFs
    (invoices, banquet orders, registration cards), the HTTP layer (controllers,
    validation pipes, interceptors), the process (configuration, metrics, backups,
    command line) are input and output. Reports, head office, alerts, the audit
    log's page and the competitor screen only read rows and lay them out. Cipher,
    hash, HMAC, the resolver and the reading of an address are parameters.
    The settings of a property and of an organisation, corporate accounts, feature flags and the page editor are not
    modelled. A night audit whose last transaction is itself lost leaves its row
    "running" until it is stale; that last loss is not modelled, the losses before it
    are. A webhook's dispatcher is taken to record an answer within the minute it
    holds a delivery (a send is cut off after ten seconds), or never.
*)
From stdpp Require Export prelude gmap strings list.
From Stdlib Require Import ZArith Lia.
From Stdlib Require Export Sorted.
Local Open Scope Z_scope.

(** ** Results of fallible operations *)

(** The HTTP class of a thrown NestJS exception. *)
Inductive http_exn :=
| BadRequestException
| ForbiddenException
| NotFoundException
| ConflictException
| UnauthorizedException
| TooManyRequests
| InternalServerError.

(** The stable codes of [ErrorCode] the modelled services throw. *)
Inductive ErrorCode :=
| VALIDATION_FAILED
| FORBIDDEN
| NOT_FOUND
| CONFLICT
| INTERNAL
| INVALID_STATUS_TRANSITION
| RESERVATION_NOT_AVAILABLE
| OVERBOOKING_NOT_ACKNOWLEDGED
| CANCELLATION_TERMS_CHANGED
| FOLIO_NOT_SETTLED
| AUDIT_ALREADY_RAN
| SHIFT_ALREADY_OPEN
| SHIFT_ALREADY_CLOSED
| SHIFT_REQUIRED
| EARLY_CHECK_IN
| FOLIO_CREDIT_BALANCE
| ROOM_NUMBERS_TAKEN
| INVALID_CREDENTIALS
| EMAIL_NOT_VERIFIED
| EMAIL_TAKEN
| TOKEN_INVALID
| TENANT_SUSPENDED
| INVITE_INVALID
| MFA_INVALID_CODE
| MFA_LOCKED
| MFA_REQUIRED.

#[global] Instance http_exn_eq_dec : EqDecision http_exn.
Proof. solve_decision. Defined.
#[global] Instance ErrorCode_eq_dec : EqDecision ErrorCode.
Proof. solve_decision. Defined.

(** A thrown exception: its class and its code (the prose message is dropped). *)
Record error := Throw { exn_class : http_exn; exn_code : ErrorCode }.

#[global] Instance error_eq_dec : EqDecision error.
Proof. solve_decision. Defined.

(** A computation that may throw. *)
Inductive res (A : Type) : Type :=
| Ok (a : A)
| Err (e : error).
Arguments Ok {A} a.
Arguments Err {A} e.

Definition res_bind {A B} (m : res A) (f : A -> res B) : res B :=
  match m with
  | Ok a => f a
  | Err e => Err e
  end.

(** [if (c) throw e;] *)
Definition throw_if (c : bool) (e : error) : res unit :=
  if c then Err e else Ok tt.

(** [const x = o; if (!x) throw e;] *)
Definition or_throw {A} (o : option A) (e : error) : res A :=
  match o with
  | Some a => Ok a
  | None => Err e
  end.

Declare Scope res_scope.
Delimit Scope res_scope with res.
Notation "'let?' x := m 'in' k" := (res_bind m (fun x => k))
  (at level 10, x name, m at level 100, k at level 200) : res_scope.
Notation "'let?' ' p := m 'in' k" := (res_bind m (fun y => let ' p := y in k))
  (at level 10, p pattern, m at level 100, k at level 200) : res_scope.
Notation "'check' c 'orelse' e 'in' k" := (res_bind (throw_if (negb c) e) (fun _ => k))
  (at level 10, c at level 100, e at level 100, k at level 200) : res_scope.
Notation "'throw' e 'when' c 'in' k" := (res_bind (throw_if c e) (fun _ => k))
  (at level 10, c at level 100, e at level 100, k at level 200) : res_scope.
Open Scope res_scope.

(** Sequencing a list of fallible steps, as a [for] loop that may throw. *)
Fixpoint res_mapM {A B} (f : A -> res B) (l : list A) : res (list B) :=
  match l with
  | [] => Ok []
  | x :: l => let? y := f x in let? ys := res_mapM f l in Ok (y :: ys)
  end.

Fixpoint res_foldM {A B} (f : A -> B -> res A) (a : A) (l : list B) : res A :=
  match l with
  | [] => Ok a
  | x :: l => let? a' := f a x in res_foldM f a' l
  end.

Definition is_ok {A} (m : res A) : bool :=
  match m with Ok _ => true | Err _ => false end.

Lemma res_bind_Ok {A B} (m : res A) (f : A -> res B) b :
  res_bind m f = Ok b <-> exists a, m = Ok a /\ f a = Ok b.
Proof. destruct m; simpl; naive_solver. Qed.

Lemma res_bind_Err {A B} (m : res A) (f : A -> res B) e :
  res_bind m f = Err e <-> m = Err e \/ exists a, m = Ok a /\ f a = Err e.
Proof. destruct m; simpl; naive_solver. Qed.

Lemma throw_if_Ok c e u : throw_if c e = Ok u <-> c = false.
Proof. destruct c, u; simpl; naive_solver. Qed.

Lemma throw_if_Err c e e' : throw_if c e = Err e' <-> c = true /\ e = e'.
Proof. destruct c; simpl; naive_solver. Qed.

Lemma or_throw_Ok {A} (o : option A) e a : or_throw o e = Ok a <-> o = Some a.
Proof. destruct o; simpl; naive_solver. Qed.

Lemma res_mapM_Ok {A B} (f : A -> res B) l ys :
  res_mapM f l = Ok ys <-> Forall2 (fun x y => f x = Ok y) l ys.
Proof.
  revert ys. induction l as [|x l IH]; intros ys; simpl.
  - split; [intros [= <-]; constructor | by inversion 1].
  - rewrite res_bind_Ok. split.
    + intros (y & Hy & H). apply res_bind_Ok in H as (zs & Hzs & [= <-]).
      constructor; [done | by apply IH].
    + inversion 1; subst. eexists; split; [done|].
      apply res_bind_Ok. eexists; split; [by apply IH | done].
Qed.

(** Splits a hypothesis [... = Ok _] along the binds, guards and lookups of a
    translated handler, one fact per guard. *)
Ltac res_step :=
  match goal with
  | H : Ok _ = Ok _ |- _ => injection H as H; subst
  | H : Err _ = Ok _ |- _ => discriminate H
  | H : Ok _ = Err _ |- _ => discriminate H
  | H : res_bind _ _ = Ok _ |- _ =>
      let a := fresh "v" in let H1 := fresh "Hstep" in
      apply res_bind_Ok in H as (a & H1 & H)
  | H : throw_if _ _ = Ok ?u |- _ =>
      apply throw_if_Ok in H; try (destruct u)
  | H : or_throw _ _ = Ok _ |- _ => apply or_throw_Ok in H
  | H : (let '(_, _) := ?p in _) = Ok _ |- _ => destruct p
  end.
Ltac res_inv := repeat (res_step; simpl in *; simplify_eq).

(** ** Booleans of the code against propositions *)
Create Rewrite HintDb boolprop.
#[export] Hint Rewrite Bool.andb_true_iff Bool.orb_true_iff Bool.negb_true_iff Bool.negb_false_iff
  Bool.andb_false_iff Bool.orb_false_iff
  Z.leb_le Z.ltb_lt Z.leb_gt Z.ltb_ge Z.eqb_eq Z.eqb_neq
  Nat.leb_le Nat.ltb_lt Nat.leb_gt Nat.ltb_ge Nat.eqb_eq Nat.eqb_neq
  String.eqb_eq String.eqb_neq @bool_decide_eq_true @bool_decide_eq_false : boolprop.
Ltac boolp := autorewrite with boolprop in *.

(** ** Fixed-width decimal numerals *)

(** The character of a digit [0..9]. *)
Definition digit_char (d : Z) : Ascii.ascii := Ascii.ascii_of_nat (Z.to_nat (48 + d)).
Definition char_digit (c : Ascii.ascii) : option Z :=
  let n := Z.of_nat (Ascii.nat_of_ascii c) - 48 in
  if (0 <=? n) && (n <=? 9) then Some n else None.

(** [String(n).padStart(w, '0')] for [0 <= n < 10^w], built from the left. *)
Fixpoint pad_digits (w : nat) (n : Z) : string :=
  match w with
  | O => EmptyString
  | S w' => String (digit_char (n / 10 ^ Z.of_nat w' mod 10)) (pad_digits w' n)
  end.

(** Reads [w] digits off the front of a string. *)
Fixpoint read_digits (w : nat) (acc : Z) (s : string) : option (Z * string) :=
  match w with
  | O => Some (acc, s)
  | S w' =>
      match s with
      | EmptyString => None
      | String c s' => match char_digit c with
                       | Some d => read_digits w' (10 * acc + d) s'
                       | None => None
                       end
      end
  end.

Lemma char_digit_char d : 0 <= d <= 9 -> char_digit (digit_char d) = Some d.
Proof.
  intros Hd. assert (d = 0 \/ d = 1 \/ d = 2 \/ d = 3 \/ d = 4 \/ d = 5 \/ d = 6 \/ d = 7 \/ d = 8 \/ d = 9)
    as Hc by lia.
  repeat destruct Hc as [->|Hc]; try reflexivity. by subst.
Qed.

Lemma pad_digits_length w n : String.length (pad_digits w n) = w.
Proof. induction w; simpl; congruence. Qed.

Lemma read_pad_digits w n acc s : 0 <= n < 10 ^ Z.of_nat w ->
  read_digits w acc (pad_digits w n +:+ s) = Some (acc * 10 ^ Z.of_nat w + n, s).
Proof.
  intros Hn. assert (forall w' a, (w' <= w)%nat ->
    read_digits w' a (pad_digits w' n +:+ s) = Some (a * 10 ^ Z.of_nat w' + n mod 10 ^ Z.of_nat w', s)) as H.
  { induction w' as [|w' IH]; intros a Hw; simpl.
    - rewrite Z.mod_1_r. do 2 f_equal. lia.
    - rewrite char_digit_char by (pose proof (Z.mod_pos_bound (n / 10 ^ Z.of_nat w') 10 ltac:(lia)); lia).
      rewrite IH by lia. do 2 f_equal. change (Z.pos (Pos.of_succ_nat w')) with (Z.of_nat (S w')).
      rewrite Nat2Z.inj_succ, Z.pow_succ_r by lia. rewrite (Z.mul_comm 10 (10 ^ _)), Z.rem_mul_r by lia. ring. }
  rewrite H by lia. by rewrite Z.mod_small.
Qed.

(** ** The order on strings, as JavaScript's [<] on ASCII strings *)
Lemma ascii_compare_digit a b : 0 <= a <= 9 -> 0 <= b <= 9 ->
  Ascii.compare (digit_char a) (digit_char b) = Z.compare a b.
Proof.
  intros Ha Hb.
  assert (a = 0 \/ a = 1 \/ a = 2 \/ a = 3 \/ a = 4 \/ a = 5 \/ a = 6 \/ a = 7 \/ a = 8 \/ a = 9) as Hc by lia.
  assert (b = 0 \/ b = 1 \/ b = 2 \/ b = 3 \/ b = 4 \/ b = 5 \/ b = 6 \/ b = 7 \/ b = 8 \/ b = 9) as Hd by lia.
  clear Ha Hb. decompose [or] Hc; decompose [or] Hd; subst; reflexivity.
Qed.

Lemma string_compare_app s1 s2 t1 t2 : String.length s1 = String.length s2 ->
  String.compare (s1 +:+ t1) (s2 +:+ t2) =
  match String.compare s1 s2 with Eq => String.compare t1 t2 | c => c end.
Proof.
  revert s2. induction s1 as [|c s1 IH]; intros [|c2 s2] Hl; simplify_eq/=; [done|].
  destruct (Ascii.compare c c2); auto.
Qed.

Lemma pad_digits_compare w a b : 0 <= a < 10 ^ Z.of_nat w -> 0 <= b < 10 ^ Z.of_nat w ->
  String.compare (pad_digits w a) (pad_digits w b) = Z.compare a b.
Proof.
  intros Ha Hb. rewrite <- (Z.mod_small a _ Ha), <- (Z.mod_small b _ Hb) at 2.
  clear Ha Hb. induction w as [|w IH]; simpl String.compare.
  - by rewrite !Z.mod_1_r.
  - assert (forall x, 0 <= x mod 10 <= 9) as Hd by (intros; pose proof (Z.mod_pos_bound x 10 ltac:(lia)); lia).
    rewrite ascii_compare_digit, IH by apply Hd.
    rewrite Nat2Z.inj_succ, Z.pow_succ_r by lia.
    rewrite (Z.mul_comm 10 (10 ^ _)), !Z.rem_mul_r by lia.
    pose proof (Z.mod_pos_bound a (10 ^ Z.of_nat w) ltac:(lia)).
    pose proof (Z.mod_pos_bound b (10 ^ Z.of_nat w) ltac:(lia)).
    set (p := 10 ^ Z.of_nat w) in *. set (x := a / p mod 10). set (y := b / p mod 10).
    destruct (Z.compare_spec x y) as [->|Hlt|Hlt]; symmetry.
    + destruct (Z.compare_spec (a mod p) (b mod p)); [apply Z.compare_eq_iff|apply Z.compare_lt_iff|apply Z.compare_gt_iff]; lia.
    + apply Z.compare_lt_iff. nia.
    + apply Z.compare_gt_iff. nia.
Qed.

(** Reads every digit at the front of a string: value, number of digits, rest. *)
Fixpoint read_num (acc : Z) (k : nat) (s : string) : Z * nat * string :=
  match s with
  | EmptyString => (acc, k, s)
  | String c s' => match char_digit c with
                   | Some d => read_num (10 * acc + d) (S k) s'
                   | None => (acc, k, s)
                   end
  end.

Lemma string_app_nil s : s +:+ "" = s.
Proof. induction s as [|c s IH]; [done|]. change (String c (s +:+ "") = String c s). by rewrite IH. Qed.

Lemma string_app_cons c s t : String c s +:+ t = String c (s +:+ t).
Proof. done. Qed.

Lemma read_num_pad_digits w n k acc s :
  (forall a j, read_num a j s = (a, j, s)) ->
  read_num acc k (pad_digits w n +:+ s) = (acc * 10 ^ Z.of_nat w + n mod 10 ^ Z.of_nat w, (k + w)%nat, s).
Proof.
  intros Hs. revert acc k. induction w as [|w IH]; intros acc k.
  - simpl pad_digits. change ("" +:+ s) with s. rewrite Hs, Z.mod_1_r, Nat.add_0_r. do 2 f_equal. lia.
  - simpl pad_digits. rewrite string_app_cons. simpl read_num.
    rewrite char_digit_char by (pose proof (Z.mod_pos_bound (n / 10 ^ Z.of_nat w) 10 ltac:(lia)); lia).
    rewrite IH. rewrite Nat2Z.inj_succ, Z.pow_succ_r by lia.
    rewrite (Z.mul_comm 10 (10 ^ _)), Z.rem_mul_r by lia. replace (S k + w)%nat with (k + S w)%nat by lia. do 2 f_equal. ring.
Qed.

(** ** ASCII case and whitespace *)
Definition ascii_map (f : Z -> Z) (c : Ascii.ascii) : Ascii.ascii :=
  Ascii.ascii_of_nat (Z.to_nat (f (Z.of_nat (Ascii.nat_of_ascii c)))).
Fixpoint string_map (f : Ascii.ascii -> Ascii.ascii) (s : string) : string :=
  match s with EmptyString => EmptyString | String c s => String (f c) (string_map f s) end.
(** [s.toUpperCase()] and [s.toLowerCase()] on ASCII text *)
Definition js_upper : string -> string :=
  string_map (ascii_map (fun n => if (97 <=? n) && (n <=? 122) then n - 32 else n)).
Definition js_lower : string -> string :=
  string_map (ascii_map (fun n => if (65 <=? n) && (n <=? 90) then n + 32 else n)).
Definition is_space (c : Ascii.ascii) : bool :=
  let n := Z.of_nat (Ascii.nat_of_ascii c) in (n =? 32) || ((9 <=? n) && (n <=? 13)).
Fixpoint trim_start (s : string) : string :=
  match s with
  | EmptyString => EmptyString
  | String c s' => if is_space c then trim_start s' else s
  end.
Fixpoint string_snoc (s : string) (c : Ascii.ascii) : string :=
  match s with EmptyString => String c EmptyString | String d s => String d (string_snoc s c) end.
Fixpoint string_rev (s : string) : string :=
  match s with EmptyString => EmptyString | String c s => string_snoc (string_rev s) c end.
(** [s.trim()] on ASCII text *)
Definition js_trim (s : string) : string := string_rev (trim_start (string_rev (trim_start s))).
Definition isNone {A} (o : option A) : bool := match o with None => true | Some _ => false end.
Definition isSome {A} (o : option A) : bool := negb (isNone o).
(** The characters of a text that pass a test: what [s.replace(/[...]/g, '')] leaves. *)
Fixpoint string_filter (p : Ascii.ascii -> bool) (s : string) : string :=
  match s with EmptyString => EmptyString | String c s => if p c then String c (string_filter p s) else string_filter p s end.
(** [s.replace(/\s+/g, ' ')] *)
Fixpoint collapse_spaces (after_space : bool) (s : string) : string :=
  match s with
  | EmptyString => EmptyString
  | String c s => if is_space c then if after_space then collapse_spaces true s else String (Ascii.ascii_of_nat 32) (collapse_spaces true s) else String c (collapse_spaces false s)
  end.

(** a string that is truthy *)
Definition nonempty (s : string) : bool := negb (bool_decide (s = "")).

(** [list.includes(x)] *)
Definition includes (x : string) (l : list string) : bool := bool_decide (x ∈ l).

Lemma includes_spec x l : includes x l = true <-> x ∈ l.
Proof. apply bool_decide_eq_true. Qed.

Lemma existsb_exists_elem {A} (f : A -> bool) l : existsb f l = true <-> exists x, x ∈ l /\ f x = true.
Proof. rewrite List.existsb_exists. by setoid_rewrite <- list_elem_of_In. Qed.

Lemma string_snoc_app s c : string_snoc s c = s +:+ String c EmptyString.
Proof. induction s as [|d s IH]; [done|]. simpl. rewrite IH. done. Qed.
Lemma string_app_assoc a b c : (a +:+ b) +:+ c = a +:+ (b +:+ c).
Proof. induction a as [|d a IH]; [done|]. rewrite !string_app_cons. by rewrite IH. Qed.
Lemma string_rev_app a b : string_rev (a +:+ b) = string_rev b +:+ string_rev a.
Proof.
  induction a as [|c a IH]; [by rewrite string_app_nil|].
  rewrite string_app_cons. simpl string_rev. rewrite IH, !string_snoc_app. by rewrite string_app_assoc.
Qed.
Lemma string_rev_involutive s : string_rev (string_rev s) = s.
Proof.
  induction s as [|c s IH]; [done|]. simpl string_rev. rewrite string_snoc_app, string_rev_app, IH. done.
Qed.

Lemma trim_start_suffix s : exists p, s = p +:+ trim_start s.
Proof.
  induction s as [|c s [p Hp]]; [by exists EmptyString|]. simpl. destruct (is_space c).
  - exists (String c p). rewrite string_app_cons. by rewrite <- Hp.
  - by exists EmptyString.
Qed.
Lemma trim_start_head s : trim_start s = EmptyString \/ exists c t, trim_start s = String c t /\ is_space c = false.
Proof. induction s as [|c s IH]; simpl; [by left|]. destruct (is_space c) eqn:E; [done|]. right. eauto. Qed.
Lemma trim_start_id s : (s = EmptyString \/ exists c t, s = String c t /\ is_space c = false) -> trim_start s = s.
Proof. intros [->|(c & t & -> & Hc)]; [done|]. simpl. by rewrite Hc. Qed.

Lemma js_trim_idemp s : js_trim (js_trim s) = js_trim s.
Proof.
  unfold js_trim. set (t := trim_start s). set (u := trim_start (string_rev t)).
  assert (trim_start (string_rev u) = string_rev u) as Hr.
  { apply trim_start_id. destruct (trim_start_suffix (string_rev t)) as [p Hp]. fold u in Hp.
    apply (f_equal string_rev) in Hp. rewrite string_rev_involutive, string_rev_app in Hp.
    destruct (string_rev u) as [|c v] eqn:Hu; [by left|]. right. exists c, v. split; [done|].
    rewrite string_app_cons in Hp. destruct (trim_start_head s) as [H0|(c' & t' & H0 & Hc')]; fold t in H0; congruence. }
  rewrite Hr, string_rev_involutive. f_equal. apply trim_start_id, trim_start_head.
Qed.

Lemma filter_length_le {A} (f : A -> bool) l : (length (List.filter f l) <= length l)%nat.
Proof. induction l; simpl; [lia|]. destruct (f _); simpl; lia. Qed.
Lemma elem_of_filterb {A} (f : A -> bool) l x : x ∈ List.filter f l <-> x ∈ l /\ f x = true.
Proof. by rewrite !list_elem_of_In, List.filter_In. Qed.
Lemma Forall_filterb {A} (P : A -> Prop) (f : A -> bool) l : Forall P l -> Forall P (List.filter f l).
Proof. rewrite !Forall_forall. intros H x Hx. apply elem_of_filterb in Hx as [Hx _]. auto. Qed.
Lemma filterb_nil {A} (f : A -> bool) l : (forall x, x ∈ l -> f x = false) -> List.filter f l = [].
Proof.
  intros Hf. destruct (List.filter f l) as [|x l'] eqn:E; [done|].
  assert (x ∈ List.filter f l) as Hx by (rewrite E; left). apply elem_of_filterb in Hx as [Hx Ht].
  by rewrite Hf in Ht.
Qed.

Lemma filterb_perm {A} (f : A -> bool) l l' : l ≡ₚ l' -> List.filter f l ≡ₚ List.filter f l'.
Proof.
  induction 1; simpl; [done| | |by etrans].
  - destruct (f x); [by constructor | done].
  - destruct (f x), (f y); try done. apply Permutation_swap.
Qed.
Lemma filterb_sub {A} (f g : A -> bool) l : (forall x, f x = true -> g x = true) -> List.filter f (List.filter g l) = List.filter f l.
Proof.
  intros Hfg. induction l as [|x l IH]; simpl; [done|]. destruct (g x) eqn:Eg; simpl; [by rewrite IH|].
  destruct (f x) eqn:Ef; [|done]. by rewrite (Hfg x Ef) in Eg.
Qed.

Lemma NoDup_fmap_filterb {A B} (g : A -> B) (f : A -> bool) l : NoDup (g <$> l) -> NoDup (g <$> List.filter f l).
Proof.
  induction l as [|x l IH]; csimpl; [done|]. intros [Hx Hl]%NoDup_cons. destruct (f x); csimpl; [|auto]. constructor; [|auto].
  intros (y & Hy & [Hin _]%elem_of_filterb)%list_elem_of_fmap. apply Hx. rewrite Hy. by apply list_elem_of_fmap_2.
Qed.

(** A key unique in a list names one element. *)
Lemma NoDup_fmap_inj {A B} (g : A -> B) l x y : NoDup (g <$> l) -> x ∈ l -> y ∈ l -> g x = g y -> x = y.
Proof.
  intros Hnd Hx Hy Hg. apply list_elem_of_lookup in Hx as [i Hi], Hy as [j Hj].
  assert (i = j) as ->; [|congruence]. eapply NoDup_lookup; [exact Hnd| |]; rewrite list_lookup_fmap; [by rewrite Hi|].
  rewrite Hj. simpl. by rewrite Hg.
Qed.

(** [[...new Set(l)]]: [unique_from []]. *)
Fixpoint unique_from (seen l : list string) : list string :=
  match l with
  | [] => []
  | x :: l => if includes x seen then unique_from seen l else x :: unique_from (x :: seen) l
  end.
Lemma elem_of_unique_from seen l x : x ∈ unique_from seen l <-> x ∈ l /\ x ∉ seen.
Proof.
  revert seen. induction l as [|y l IH]; intros seen; simpl; [by split; [intros ?%elem_of_nil | intros [?%elem_of_nil _]]|].
  unfold includes. case_bool_decide as Hy; [|rewrite elem_of_cons]; rewrite IH, !elem_of_cons; [naive_solver|].
  destruct (decide (x = y)) as [->|]; naive_solver.
Qed.
Lemma NoDup_unique_from seen l : NoDup (unique_from seen l).
Proof.
  revert seen. induction l as [|y l IH]; intros seen; simpl; [constructor|]. destruct (includes y seen); [done|].
  constructor; [|done]. rewrite elem_of_unique_from. set_solver.
Qed.

(** ** Sorting by an integer key, as a stable [Array.prototype.sort] *)
Fixpoint insert_by {A} (key : A -> Z) (x : A) (l : list A) : list A :=
  match l with
  | [] => [x]
  | y :: l' => if key x <=? key y then x :: l else y :: insert_by key x l'
  end.
Definition sort_by {A} (key : A -> Z) (l : list A) : list A := foldr (insert_by key) [] l.

Lemma insert_by_perm {A} (key : A -> Z) x l : insert_by key x l ≡ₚ x :: l.
Proof.
  induction l as [|y l IH]; simpl; [done|]. destruct (_ <=? _); [done|]. rewrite IH. apply Permutation_swap.
Qed.
Lemma sort_by_perm {A} (key : A -> Z) l : sort_by key l ≡ₚ l.
Proof. induction l as [|x l IH]; simpl; [done|]. by rewrite insert_by_perm, IH. Qed.
Lemma insert_by_sorted {A} (key : A -> Z) x l :
  StronglySorted (fun a b => key a <= key b) l -> StronglySorted (fun a b => key a <= key b) (insert_by key x l).
Proof.
  induction 1 as [|y l Hl IH Hy]; simpl; [repeat constructor|].
  destruct (Z.leb_spec (key x) (key y)) as [Hxy|Hxy].
  - constructor; [by constructor|]. constructor; [done|]. eapply Forall_impl; [exact Hy|]. simpl. lia.
  - constructor; [done|]. rewrite insert_by_perm. constructor; [lia|done].
Qed.
Lemma sort_by_sorted {A} (key : A -> Z) l : StronglySorted (fun a b => key a <= key b) (sort_by key l).
Proof. induction l; simpl; [constructor | by apply insert_by_sorted]. Qed.

(** ** Bits *)
Lemma lor_low w u x : 0 <= w -> 0 <= x < 2 ^ w -> Z.lor (u * 2 ^ w) x = u * 2 ^ w + x.
Proof.
  intros Hw Hx. assert (Z.land (u * 2 ^ w) x = 0) as Hland.
  { destruct (decide (x = 0)) as [->|Hx0]; [apply Z.land_0_r|]. apply Z.bits_inj'. intros i Hi. rewrite Z.land_spec, Z.bits_0, <- Z.shiftl_mul_pow2, Z.shiftl_spec by lia.
    destruct (Z.ltb_spec i w); [by rewrite Z.testbit_neg_r by lia|]. rewrite (Z.bits_above_log2 x i) ; [by rewrite andb_false_r|lia|].
    apply Z.log2_lt_pow2; [lia|]. eapply Z.lt_le_trans; [apply Hx|]. apply Z.pow_le_mono_r; lia. }
  rewrite <- Z.lxor_lor, <- Z.add_nocarry_lxor by done. done.
Qed.

(** ** Sums of integers *)
Definition zsum (l : list Z) : Z := foldr Z.add 0 l.
Lemma zsum_app l1 l2 : zsum (l1 ++ l2) = zsum l1 + zsum l2.
Proof. induction l1 as [|x l1 IH]; simpl; [done|]. rewrite IH. lia. Qed.
#[global] Instance zsum_perm : Proper ((≡ₚ) ==> (=)) zsum.
Proof. induction 1; simpl; lia. Qed.
Lemma zsum_nonneg l : Forall (fun x => 0 <= x) l -> 0 <= zsum l.
Proof. induction 1; simpl; lia. Qed.
