(* ===== verification/Decimal.v ===== *)
(** Decimal arithmetic of the money code *)
From S2P Require Import Prelude.
From Stdlib Require Import Ascii QArith Qcanon Qround Qabs Qpower Lqa.
Local Open Scope Z_scope.

Create Rewrite HintDb qcdb.

Section QcToQ.
Local Open Scope Q_scope.
Lemma this_plus (x y : Qc) : this (x + y)%Qc == this x + this y.
Proof. apply Qred_correct. Qed.
Lemma this_opp (x : Qc) : this (- x)%Qc == - this x.
Proof. apply Qred_correct. Qed.
Lemma this_minus (x y : Qc) : this (x - y)%Qc == this x - this y.
Proof. unfold Qcminus. rewrite this_plus, this_opp. reflexivity. Qed.
Lemma this_mult (x y : Qc) : this (x * y)%Qc == this x * this y.
Proof. apply Qred_correct. Qed.
Lemma this_inv (x : Qc) : this (/ x)%Qc == / this x.
Proof. apply Qred_correct. Qed.
Lemma this_div (x y : Qc) : this (x / y)%Qc == this x / this y.
Proof. unfold Qcdiv. rewrite this_mult, this_inv. reflexivity. Qed.
Lemma this_Q2Qc q : this (Q2Qc q) == q.
Proof. apply Qred_correct. Qed.
Lemma this_Z z : this (Qc_of_Z z) == inject_Z z.
Proof. reflexivity. Qed.
Lemma Qc_eq_this (x y : Qc) : x = y -> this x == this y.
Proof. by intros ->. Qed.
End QcToQ.
#[export] Hint Rewrite this_plus this_opp this_minus this_mult this_inv this_div this_Q2Qc this_Z : qcdb.

(** Carries a goal over [Qc] and its hypotheses to [Q], for [lra]. *)
Ltac qc_to_q :=
  repeat match goal with
  | H : ?x = ?y :> Qc |- _ => apply Qc_eq_this in H
  end;
  unfold Qcle, Qclt in *;
  try match goal with |- _ = _ :> Qc => apply Qc_is_canon end;
  autorewrite with qcdb in *.
Ltac qc_lra := qc_to_q; lra.


(** ** Rounding to an integer *)

(** Round half away from zero: the library's [ROUND_HALF_UP]. *)
Definition half_up (x : Qc) : Z :=
  if decide (0 <= x)%Qc then Qfloor (this x + (1 # 2))%Q
  else - Qfloor (- this x + (1 # 2))%Q.

(** Round towards zero: the library's [ROUND_DOWN]. *)
Definition round_down (x : Qc) : Z :=
  if decide (0 <= x)%Qc then Qfloor (this x) else - Qfloor (- this x)%Q.

Section Rounding.
Local Open Scope Q_scope.

Lemma half_up_pos_bounds (x : Qc) : (0 <= x)%Qc ->
  inject_Z (half_up x) - (1#2) <= this x /\ this x < inject_Z (half_up x) + (1#2).
Proof.
  intros Hx. unfold half_up. rewrite decide_True by done.
  pose proof (Qfloor_le (this x + (1#2))). pose proof (Qlt_floor (this x + (1#2))) as H1.
  rewrite inject_Z_plus in H1. change (inject_Z 1) with 1 in H1. split; lra.
Qed.

Lemma inject_Z_lt_succ (a b : Z) : inject_Z a < inject_Z b + 1 -> (a <= b)%Z.
Proof.
  intros H. replace (inject_Z b + 1) with (inject_Z (b + 1)) in H.
  - rewrite <- Zlt_Qlt in H. lia.
  - rewrite inject_Z_plus. reflexivity.
Qed.

Lemma half_up_Z (z : Z) : half_up (Qc_of_Z z) = z.
Proof.
  unfold half_up. case_decide as H.
  - change (this (Qc_of_Z z)) with (inject_Z z).
    set (f := Qfloor _). pose proof (Qfloor_le (inject_Z z + (1#2))) as H1.
    pose proof (Qlt_floor (inject_Z z + (1#2))) as H2. fold f in H1, H2.
    rewrite inject_Z_plus in H2. change (inject_Z 1) with 1 in H2.
    apply Z.le_antisymm; apply inject_Z_lt_succ; lra.
  - change (this (Qc_of_Z z)) with (inject_Z z).
    set (f := Qfloor _). pose proof (Qfloor_le (- inject_Z z + (1#2))) as H1.
    pose proof (Qlt_floor (- inject_Z z + (1#2))) as H2. fold f in H1, H2.
    rewrite inject_Z_plus in H2. change (inject_Z 1) with 1 in H2.
    apply Z.le_antisymm; apply inject_Z_lt_succ; rewrite inject_Z_opp; lra.
Qed.

Lemma half_up_opp (x : Qc) : half_up (- x)%Qc = (- half_up x)%Z.
Proof.
  unfold half_up. destruct (decide (x = 0)%Qc) as [->|Hx]; [reflexivity|].
  assert (~ this x == 0) as Hn. { intros ?. apply Hx. by apply Qc_is_canon. }
  case_decide as H1; case_decide as H2.
  - exfalso. qc_lra.
  - rewrite Z.opp_involutive. apply Qfloor_comp. rewrite this_opp. reflexivity.
  - f_equal. apply Qfloor_comp. rewrite this_opp. lra.
  - exfalso. qc_to_q. apply Qnot_le_lt in H1, H2. lra.
Qed.

Lemma half_up_nonneg x : (0 <= x)%Qc -> (0 <= half_up x)%Z.
Proof.
  intros H. destruct (half_up_pos_bounds x H). apply inject_Z_lt_succ.
  change (inject_Z 0) with 0. qc_lra.
Qed.

Lemma half_up_mono x y : (x <= y)%Qc -> (half_up x <= half_up y)%Z.
Proof.
  intros Hxy. unfold half_up. case_decide as H1; case_decide as H2.
  - apply Qfloor_resp_le. qc_lra.
  - exfalso. apply H2. qc_lra.
  - assert (0 <= Qfloor (- this x + (1#2)))%Z.
    { change 0%Z with (Qfloor 0). apply Qfloor_resp_le. qc_to_q. apply Qnot_le_lt in H1. lra. }
    assert (0 <= Qfloor (this y + (1#2)))%Z.
    { change 0%Z with (Qfloor 0). apply Qfloor_resp_le. qc_lra. }
    lia.
  - apply Z.opp_le_mono. rewrite !Z.opp_involutive. apply Qfloor_resp_le. qc_lra.
Qed.

Lemma half_up_err x : Qabs (inject_Z (half_up x) - this x) <= 1 # 2.
Proof.
  apply Qabs_Qle_condition. destruct (decide (0 <= x)%Qc) as [H|H].
  - destruct (half_up_pos_bounds x H); split; lra.
  - assert (0 <= - x)%Qc as H'. { qc_to_q. apply Qnot_le_lt in H. lra. }
    destruct (half_up_pos_bounds (- x)%Qc H') as [H1 H2].
    rewrite half_up_opp, inject_Z_opp, this_opp in H1, H2. split; lra.
Qed.
End Rounding.

(** ** Powers of ten *)
Definition p10 (k : Z) : Qc := Q2Qc (10 ^ k)%Q.

Section Powers.
Local Open Scope Q_scope.
Lemma this_p10 k : this (p10 k) == 10 ^ k.
Proof. apply Qred_correct. Qed.
Lemma p10_pos k : (0 < p10 k)%Qc.
Proof. unfold Qclt. rewrite this_p10. by apply Qpower_0_lt. Qed.
Lemma p10_plus a b : p10 (a + b) = (p10 a * p10 b)%Qc.
Proof. apply Qc_is_canon. rewrite this_mult, !this_p10. by apply Qpower_plus. Qed.
Lemma p10_0 : p10 0 = 1%Qc.
Proof. by apply Qc_is_canon. Qed.
Lemma p10_inv k : (p10 k * p10 (- k))%Qc = 1%Qc.
Proof. by rewrite <- p10_plus, Z.add_opp_diag_r. Qed.
Lemma p10_Z k : (0 <= k)%Z -> p10 k = Qc_of_Z (10 ^ k).
Proof.
  intros Hk. apply Qc_is_canon. rewrite this_p10, this_Z.
  change 10 with (inject_Z 10). symmetry. by apply Zpower_Qpower.
Qed.
Lemma p10_le a b : (a <= b)%Z -> (p10 a <= p10 b)%Qc.
Proof. intros. unfold Qcle. rewrite !this_p10. apply Qpower_le_compat_l; [lia | done]. Qed.
Lemma p10_lt_inv a b : (p10 a < p10 b)%Qc -> (a < b)%Z.
Proof.
  intros H. destruct (Z.lt_ge_cases a b) as [|Hle]; [done|].
  apply p10_le in Hle. by apply Qcle_not_lt in Hle.
Qed.
End Powers.

(** A decimal numeral [m * 10^k]. *)
Definition decimal (m k : Z) : Qc := (Qc_of_Z m * p10 k)%Qc.

(** ** The decimal library's interface

    Money is [Prisma.Decimal], the decimal.js type: a decimal value, every
    result of [plus], [minus], [mul] and [div] rounded to [precision] = 20
    significant digits, [toDecimalPlaces] and [floor] rounded to a place.  The
    library is not part of the repository; the development is parametric in it
    through this class, whose laws are the documented behaviour. *)
Definition precision : Z := 20.

Inductive Rounding := ROUND_HALF_UP | ROUND_DOWN.

(** What [new Decimal(text)] does: a value, a non-finite one, or an exception. *)
Inductive parsed := PFinite (x : Qc) | PNonFinite | PThrows.

Class DecimalLib := {
  (** the rounding of an operation's exact result to [precision] digits *)
  prec_round : Qc -> Qc;
  (** [x.toDecimalPlaces(dp, rm)] *)
  to_dp : Rounding -> Z -> Qc -> Qc;
  (** [new Decimal(text)] and [x.toFixed(2)] *)
  dec_parse : string -> parsed;
  to_fixed2 : Qc -> string;
  (** a result of at most [precision] significant digits is returned as it is *)
  prec_round_exact m k : Z.abs m < 10 ^ precision -> prec_round (decimal m k) = decimal m k;
  (** rounding to nearest is monotone ... *)
  prec_round_mono x y : (x <= y)%Qc -> (prec_round x <= prec_round y)%Qc;
  (** ... and symmetric, ties going away from zero *)
  prec_round_opp x : prec_round (- x)%Qc = (- prec_round x)%Qc;
  to_dp_half_up dp x : to_dp ROUND_HALF_UP dp x = decimal (half_up (x * p10 dp)%Qc) (- dp);
  to_dp_down dp x : to_dp ROUND_DOWN dp x = decimal (round_down (x * p10 dp)%Qc) (- dp);
  (** a printed amount reads back as the amount, rounded to the places printed *)
  dec_parse_to_fixed2 x : dec_parse (to_fixed2 x) = PFinite (to_dp ROUND_HALF_UP 2 x);
}.

Declare Scope dec_scope.
Delimit Scope dec_scope with dec.

Section Operations.
Context `{DecimalLib}.
Definition dplus (x y : Qc) : Qc := prec_round (x + y)%Qc.
Definition dminus (x y : Qc) : Qc := prec_round (x - y)%Qc.
Definition dmul (x y : Qc) : Qc := prec_round (x * y)%Qc.
Definition ddiv (x y : Qc) : Qc := prec_round (x / y)%Qc.
(** [x.toDecimalPlaces(2)]: the default mode is [ROUND_HALF_UP]. *)
Definition dp2 (x : Qc) : Qc := to_dp ROUND_HALF_UP 2 x.
Definition dp2_down (x : Qc) : Qc := to_dp ROUND_DOWN 2 x.
(** [x.floor().toNumber()] *)
Definition dfloor (x : Qc) : Z := Qfloor (this x).
(** [x.greaterThan(0)], [x.isZero()], [x.greaterThan(y)], [Decimal.min(x, y)] *)
Definition dgt (x y : Qc) : bool := bool_decide (y < x)%Qc.
Definition dge (x y : Qc) : bool := bool_decide (y <= x)%Qc.
Definition dis_zero (x : Qc) : bool := bool_decide (x = 0)%Qc.
Definition dmin (x y : Qc) : Qc := if decide (x <= y)%Qc then x else y.
Definition dmax (x y : Qc) : Qc := if decide (x <= y)%Qc then y else x.
(** [x.abs()] *)
Definition dabs (x : Qc) : Qc := if decide (0 <= x)%Qc then x else (- x)%Qc.
(** [l.reduce((sum, x) => sum.plus(x), ZERO)] *)
Definition dsum (l : list Qc) : Qc := foldl dplus 0%Qc l.
End Operations.

Lemma dgt_spec x y : reflect (y < x)%Qc (dgt x y).
Proof. apply bool_decide_reflect. Qed.
Lemma dge_spec x y : reflect (y <= x)%Qc (dge x y).
Proof. apply bool_decide_reflect. Qed.
Lemma dis_zero_spec x : reflect (x = 0)%Qc (dis_zero x).
Proof. apply bool_decide_reflect. Qed.

(** [x.greaterThan(0) ? x : 0] is the maximum with zero. *)
Lemma dgt_dmax x : (if dgt x 0%Qc then x else 0%Qc) = dmax 0%Qc x.
Proof.
  unfold dmax. destruct (dgt_spec x 0%Qc) as [H|H]; destruct (decide (0 <= x)%Qc) as [H'|H']; try done.
  - by apply Qclt_le_weak in H.
  - apply (anti_symm (≤)%Qc); [done | by apply Qcnot_lt_le].
Qed.

Infix "⊕" := dplus (at level 50, left associativity) : dec_scope.
Infix "⊖" := dminus (at level 50, left associativity) : dec_scope.
Infix "⊗" := dmul (at level 40, left associativity) : dec_scope.
Infix "⊘" := ddiv (at level 40, left associativity) : dec_scope.
Open Scope dec_scope.

(** ** Amounts of money: whole cents *)
Definition cents (z : Z) : Qc := decimal z (-2).

Section Cents.
Context `{DecimalLib}.

Lemma decimal_plus a b k : (decimal a k + decimal b k)%Qc = decimal (a + b) k.
Proof. unfold decimal. rewrite Z2Qc_inj_add. ring. Qed.
Lemma decimal_opp a k : (- decimal a k)%Qc = decimal (- a) k.
Proof. unfold decimal. rewrite Z2Qc_inj_opp. ring. Qed.
Lemma decimal_minus a b k : (decimal a k - decimal b k)%Qc = decimal (a - b) k.
Proof. unfold Qcminus. by rewrite decimal_opp, decimal_plus. Qed.
Lemma decimal_mult a b j k : (decimal a j * decimal b k)%Qc = decimal (a * b) (j + k).
Proof. unfold decimal. rewrite Z2Qc_inj_mul, p10_plus. ring. Qed.
Lemma decimal_0 k : decimal 0 k = 0%Qc.
Proof. unfold decimal. rewrite Z2Qc_inj_0. ring. Qed.
Lemma decimal_Z z : decimal z 0 = Qc_of_Z z.
Proof. unfold decimal. rewrite p10_0. ring. Qed.
Lemma decimal_le a b k : (decimal a k <= decimal b k)%Qc <-> a <= b.
Proof.
  unfold decimal. rewrite <- Qcmult_le_mono_pos_r by apply p10_pos. by rewrite Z2Qc_inj_le.
Qed.
Lemma decimal_lt a b k : (decimal a k < decimal b k)%Qc <-> a < b.
Proof.
  unfold decimal. rewrite <- Qcmult_lt_mono_pos_r by apply p10_pos. by rewrite Z2Qc_inj_lt.
Qed.
#[global] Instance decimal_inj k : Inj (=) (=) (fun a => decimal a k).
Proof.
  intros a b Hab. simpl in Hab. apply Z.le_antisymm; apply (decimal_le _ _ k); by rewrite Hab.
Qed.

Lemma cents_nonneg z : (0 <= cents z)%Qc <-> 0 <= z.
Proof. rewrite <- (decimal_0 (-2)). apply decimal_le. Qed.
Lemma cents_pos z : (0 < cents z)%Qc <-> 0 < z.
Proof. rewrite <- (decimal_0 (-2)). apply decimal_lt. Qed.

Lemma dplus_cents a b : Z.abs (a + b) < 10 ^ precision -> cents a ⊕ cents b = cents (a + b).
Proof. intros. unfold dplus, cents. rewrite decimal_plus. by apply prec_round_exact. Qed.
Lemma dminus_cents a b : Z.abs (a - b) < 10 ^ precision -> cents a ⊖ cents b = cents (a - b).
Proof. intros. unfold dminus, cents. rewrite decimal_minus. by apply prec_round_exact. Qed.
Lemma prec_round_0 : prec_round 0%Qc = 0%Qc.
Proof. rewrite <- (decimal_0 0). by apply prec_round_exact. Qed.
Lemma prec_round_nonneg x : (0 <= x)%Qc -> (0 <= prec_round x)%Qc.
Proof. intros. rewrite <- prec_round_0. by apply prec_round_mono. Qed.

Lemma dp2_spec x : dp2 x = cents (half_up (x * p10 2)%Qc).
Proof. apply to_dp_half_up. Qed.
Lemma cents_scale z : (cents z * p10 2)%Qc = Qc_of_Z z.
Proof.
  unfold cents, decimal. replace (Qc_of_Z z * p10 (-2) * p10 2)%Qc with (Qc_of_Z z * (p10 2 * p10 (- 2)))%Qc by ring.
  rewrite p10_inv. ring.
Qed.
Lemma dp2_cents z : dp2 (cents z) = cents z.
Proof. by rewrite dp2_spec, cents_scale, half_up_Z. Qed.
Lemma dp2_mono x y : (x <= y)%Qc -> (dp2 x <= dp2 y)%Qc.
Proof.
  intros. rewrite !dp2_spec. apply decimal_le, half_up_mono.
  apply Qcmult_le_mono_nonneg_r; [apply Qclt_le_weak, p10_pos | done].
Qed.
Lemma dp2_0 : dp2 0%Qc = 0%Qc.
Proof. rewrite <- (decimal_0 (-2)). apply dp2_cents. Qed.
Lemma dp2_nonneg x : (0 <= x)%Qc -> (0 <= dp2 x)%Qc.
Proof. intros. rewrite <- dp2_0. by apply dp2_mono. Qed.

End Cents.

(** ** Amounts of bounded size

    [money B x]: [x] is a whole number of cents of magnitude at most [B]. A
    [NUMERIC(12,2)] column is [money (10^12)]. *)
Definition money (B : Z) (x : Qc) : Prop := exists z, Z.abs z <= B /\ x = cents z.
Definition qsum (l : list Qc) : Qc := foldr Qcplus 0%Qc l.
Definition NUMERIC_12_2 : Z := 10 ^ 12.

Section Money.
Context `{DecimalLib}.

Lemma money_weaken B B' x : B <= B' -> money B x -> money B' x.
Proof. intros ? (z & ? & ->). exists z. split; [lia | done]. Qed.
Lemma money_0 B : 0 <= B -> money B 0%Qc.
Proof. exists 0. split; [done|]. symmetry. apply decimal_0. Qed.
Lemma money_cents z : money (Z.abs z) (cents z).
Proof. by exists z. Qed.
Lemma money_opp B x : money B x -> money B (- x)%Qc.
Proof. intros (z & ? & ->). exists (- z). split; [lia | apply decimal_opp]. Qed.
Lemma money_plus A B x y : money A x -> money B y -> money (A + B) (x + y)%Qc.
Proof. intros (a & ? & ->) (b & ? & ->). exists (a + b). split; [lia | apply decimal_plus]. Qed.
Lemma money_minus A B x y : money A x -> money B y -> money (A + B) (x - y)%Qc.
Proof. intros. unfold Qcminus. auto using money_plus, money_opp. Qed.

Lemma dplus_money A B x y : money A x -> money B y -> A + B < 10 ^ precision -> x ⊕ y = (x + y)%Qc.
Proof.
  intros (a & ? & ->) (b & ? & ->) ?. unfold cents. rewrite decimal_plus. apply dplus_cents. lia.
Qed.
Lemma dminus_money A B x y : money A x -> money B y -> A + B < 10 ^ precision -> x ⊖ y = (x - y)%Qc.
Proof.
  intros (a & ? & ->) (b & ? & ->) ?. unfold cents. rewrite decimal_minus. apply dminus_cents. lia.
Qed.
Lemma prec_round_money B x : money B x -> B < 10 ^ precision -> prec_round x = x.
Proof. intros (z & ? & ->) ?. apply prec_round_exact. lia. Qed.
Lemma dmul_money B x k : money B x -> B * Z.abs k < 10 ^ precision -> x ⊗ Qc_of_Z k = (x * Qc_of_Z k)%Qc /\ money (B * Z.abs k) (x * Qc_of_Z k)%Qc.
Proof.
  intros (z & ? & ->) Hb. unfold dmul, cents. rewrite <- (decimal_Z k), decimal_mult. split.
  - apply prec_round_exact. nia.
  - exists (z * k). split; [nia|]. unfold cents. f_equal.
Qed.

Lemma qsum_app l1 l2 : qsum (l1 ++ l2) = (qsum l1 + qsum l2)%Qc.
Proof. induction l1 as [|x l1 IH]; simpl; [ring | rewrite IH; ring]. Qed.
Lemma qsum_nonneg l : Forall (fun x => 0 <= x)%Qc l -> (0 <= qsum l)%Qc.
Proof. induction 1; simpl; [apply Qcle_refl|]. by apply Qcplus_nonneg_nonneg. Qed.
#[global] Instance qsum_perm : Proper ((≡ₚ) ==> (=)) qsum.
Proof. induction 1; simpl; [done | congruence | ring | congruence]. Qed.
Lemma qsum_money B l : Forall (money B) l -> 0 <= B -> money (B * Z.of_nat (length l)) (qsum l).
Proof.
  intros Hl HB. induction Hl as [|x l Hx Hl IH]; simpl; [apply money_0; lia|].
  eapply money_weaken; [|exact (money_plus _ _ _ _ Hx IH)].
  change (Z.pos (Pos.of_succ_nat (length l))) with (Z.of_nat (S (length l))). lia.
Qed.

(** A running total is exact while it keeps to [precision] digits: for a
    [NUMERIC(12,2)] column, any bill of fewer than 10^8 lines. *)
Lemma foldl_dplus_money A B l acc :
  money A acc -> Forall (money B) l -> 0 <= B -> A + B * Z.of_nat (length l) < 10 ^ precision ->
  foldl dplus acc l = (acc + qsum l)%Qc.
Proof.
  intros Ha Hl HB. revert A acc Ha. induction Hl as [|x l Hx Hl IH]; intros A acc Ha Hb; simpl.
  - ring.
  - simpl length in Hb. rewrite (dplus_money A B) by (done || nia).
    rewrite (IH (A + B)) by (auto using money_plus || nia). ring.
Qed.
Lemma dsum_money B l : Forall (money B) l -> 0 <= B -> B * Z.of_nat (length l) < 10 ^ precision -> dsum l = qsum l.
Proof.
  intros. unfold dsum. rewrite (foldl_dplus_money 0 B) by first [by apply money_0 | done | lia]. ring.
Qed.

Lemma foldl_dplus_nonneg l acc : (0 <= acc)%Qc -> Forall (fun x => 0 <= x)%Qc l -> (0 <= foldl dplus acc l)%Qc.
Proof.
  intros Ha Hl. revert acc Ha. induction Hl as [|x l Hx Hl IH]; intros acc Hacc; simpl; [done|].
  apply IH. unfold dplus. by apply prec_round_nonneg, Qcplus_nonneg_nonneg.
Qed.
Lemma dsum_nonneg l : Forall (fun x => 0 <= x)%Qc l -> (0 <= dsum l)%Qc.
Proof. apply foldl_dplus_nonneg, Qcle_refl. Qed.
Lemma prec_round_1 : prec_round 1%Qc = 1%Qc.
Proof. rewrite <- Z2Qc_inj_1, <- (decimal_Z 1). by apply prec_round_exact. Qed.

Lemma filter_sums {A} (f : A -> bool) (g : A -> Qc) l :
  (qsum (g <$> List.filter f l) + qsum (g <$> List.filter (fun x => negb (f x)) l) = qsum (g <$> l))%Qc.
Proof. induction l as [|x l IH]; csimpl; [ring|]. destruct (f x); csimpl; rewrite <- IH; ring. Qed.

Lemma dp2_money_bound B x : 0 <= B -> (0 <= x)%Qc -> (x <= cents B)%Qc -> money B (dp2 x).
Proof.
  intros HB H0 H1. apply dp2_mono in H0, H1. rewrite dp2_0 in H0. rewrite dp2_cents in H1.
  rewrite dp2_spec in *. eexists. split; [|done].
  rewrite <- (decimal_0 (-2)) in H0. apply decimal_le in H0, H1. lia.
Qed.
End Money.
Create HintDb money.
#[export] Hint Resolve money_0 money_cents money_opp money_plus money_minus : money.

(** ** A reference implementation of the interface *)
Module Reference.

(** Number of decimal digits of a positive integer; [fuel] bounds the digits,
    one per bit being plenty. *)
Fixpoint digits_fuel (fuel : nat) (n : Z) : Z :=
  match fuel with
  | O => 1
  | S f => if n <? 10 then 1 else 1 + digits_fuel f (n / 10)
  end.
Definition digits (n : Z) : Z := digits_fuel (S (Z.to_nat (Z.log2 n))) n.

(** The decimal exponent of a positive rational: [10^e <= x < 10^(e+1)]. *)
Definition mag (x : Qc) : Z :=
  let e := digits (Qnum (this x)) - digits (Zpos (Qden (this x))) in
  if decide (p10 e <= x)%Qc then e else e - 1.

Definition round_pos (x : Qc) : Qc :=
  let k := precision - 1 - mag x in decimal (half_up (x * p10 k)%Qc) (- k).

Definition round20 (x : Qc) : Qc :=
  if decide (x = 0)%Qc then 0%Qc
  else if decide (0 < x)%Qc then round_pos x else (- round_pos (- x))%Qc.

Lemma digits_fuel_spec f n : 0 < n -> n < 10 ^ Z.of_nat f ->
  10 ^ (digits_fuel f n - 1) <= n < 10 ^ digits_fuel f n /\ 1 <= digits_fuel f n.
Proof.
  revert n. induction f as [|f IH]; intros n Hn Hf.
  - simpl in Hf. lia.
  - simpl digits_fuel. destruct (Z.ltb_spec n 10).
    + change (10 ^ (1 - 1)) with 1. change (10 ^ 1) with 10. lia.
    + assert (0 < n / 10) by (apply Z.div_str_pos; lia).
      assert (n / 10 < 10 ^ Z.of_nat f).
      { apply Z.div_lt_upper_bound; [lia|]. rewrite Nat2Z.inj_succ, Z.pow_succ_r in Hf by lia. lia. }
      destruct (IH (n / 10)) as [[Hlo Hhi] Hge]; [done..|].
      set (d := digits_fuel f (n / 10)) in *.
      replace (1 + d - 1) with (Z.succ (d - 1)) by lia. replace (1 + d) with (Z.succ d) by lia.
      rewrite !Z.pow_succ_r by lia.
      pose proof (Z.div_mod n 10 ltac:(lia)). pose proof (Z.mod_pos_bound n 10 ltac:(lia)). lia.
Qed.

Lemma digits_spec n : 0 < n -> 10 ^ (digits n - 1) <= n < 10 ^ digits n /\ 1 <= digits n.
Proof.
  intros Hn. apply digits_fuel_spec; [done|].
  rewrite Nat2Z.inj_succ, Z2Nat.id by apply Z.log2_nonneg.
  destruct (Z.log2_spec n Hn) as [_ H2]. eapply Z.lt_le_trans; [exact H2|].
  apply Z.pow_le_mono_l. lia.
Qed.

Lemma Qc_num_den (x : Qc) : (x * Qc_of_Z (Zpos (Qden (this x))))%Qc = Qc_of_Z (Qnum (this x)).
Proof.
  apply Qc_is_canon. rewrite this_mult, !this_Z. destruct x as [[n d] Hc]. simpl.
  unfold Qeq, Qmult, inject_Z. simpl. lia.
Qed.

Lemma mag_spec x : (0 < x)%Qc -> (p10 (mag x) <= x /\ x < p10 (mag x + 1))%Qc.
Proof.
  intros Hx. unfold mag.
  set (n := Qnum (this x)). set (d := Zpos (Qden (this x))).
  assert (0 < n) as Hn. { unfold Qclt, Qlt in Hx. simpl in Hx. subst n. lia. }
  pose proof (Qc_num_den x) as Hnd. fold n d in Hnd.
  destruct (digits_spec n Hn) as [[Hn1 Hn2] Hn3].
  destruct (digits_spec d eq_refl) as [[Hd1 Hd2] Hd3].
  set (a := digits n) in *. set (b := digits d) in *.
  assert (0 < Qc_of_Z d)%Qc as Hdpos by by rewrite <- Z2Qc_inj_0, <- Z2Qc_inj_lt.
  rewrite Z2Qc_inj_lt, <- p10_Z in Hn2, Hd2 by lia.
  rewrite Z2Qc_inj_le, <- p10_Z in Hn1, Hd1 by lia.
  assert (x < p10 (a - b + 1))%Qc as Hup.
  { apply (Qcmult_lt_mono_pos_r _ _ (Qc_of_Z d)); [done|]. rewrite Hnd.
    eapply Qclt_le_trans; [exact Hn2|].
    replace a with (a - b + 1 + (b - 1)) at 1 by lia. rewrite p10_plus.
    apply Qcmult_le_mono_nonneg_l; [apply Qclt_le_weak, p10_pos | done]. }
  assert (p10 (a - b - 1) <= x)%Qc as Hlo.
  { apply (Qcmult_le_mono_pos_r _ _ (Qc_of_Z d)); [done|]. rewrite Hnd.
    eapply Qcle_trans; [|exact Hn1].
    replace (a - 1) with (a - b - 1 + b) by lia. rewrite p10_plus.
    apply Qcmult_le_mono_nonneg_l; apply Qclt_le_weak; [apply p10_pos | done]. }
  case_decide as Hc; [done|].
  split; [done|]. replace (a - b - 1 + 1) with (a - b) by lia. by apply Qcnot_le_lt.
Qed.

Lemma mag_unique x e : (p10 e <= x /\ x < p10 (e + 1))%Qc -> mag x = e.
Proof.
  intros [H1 H2].
  assert (0 < x)%Qc as Hx by (eapply Qclt_le_trans; [apply p10_pos | exact H1]).
  destruct (mag_spec x Hx) as [H3 H4].
  assert (mag x < e + 1) by (eapply p10_lt_inv, Qcle_lt_trans; eauto).
  assert (e < mag x + 1) by (eapply p10_lt_inv, Qcle_lt_trans; eauto). lia.
Qed.

Lemma decimal_shift m k j : 0 <= j -> decimal m (k + j) = decimal (m * 10 ^ j) k.
Proof. intros. unfold decimal. rewrite p10_plus, Z2Qc_inj_mul, (p10_Z j) by done. ring. Qed.

Lemma decimal_scale m k j : (decimal m k * p10 j)%Qc = decimal m (k + j).
Proof. unfold decimal. rewrite p10_plus. ring. Qed.

Lemma decimal_p10 m k j : 0 <= k + j -> (decimal m k * p10 j)%Qc = Qc_of_Z (m * 10 ^ (k + j)).
Proof.
  intros. rewrite decimal_scale. rewrite <- (Z.add_0_l (k + j)) at 1. rewrite decimal_shift by done. apply decimal_Z.
Qed.

Lemma round_pos_exact m k : 0 < m < 10 ^ precision -> round_pos (decimal m k) = decimal m k.
Proof.
  intros Hm. unfold round_pos. set (x := decimal m k).
  assert (0 < x)%Qc as Hx. { unfold x. rewrite <- (decimal_0 k). apply decimal_lt. lia. }
  destruct (mag_spec x Hx) as [H1 H2].
  assert (mag x < precision + k) as Hmag.
  { apply p10_lt_inv. eapply Qcle_lt_trans; [exact H1|]. unfold x, decimal. rewrite p10_plus.
    apply Qcmult_lt_mono_pos_r; [apply p10_pos|].
    rewrite p10_Z by done. rewrite <- Z2Qc_inj_lt. lia. }
  unfold x at 1. rewrite decimal_p10 by (unfold precision in *; lia). rewrite half_up_Z.
  rewrite <- decimal_shift by (unfold precision in *; lia). unfold x. f_equal. lia.
Qed.

Lemma round_pos_bounds x : (0 < x)%Qc ->
  (p10 (mag x) <= round_pos x /\ round_pos x <= p10 (mag x + 1))%Qc.
Proof.
  intros Hx. destruct (mag_spec x Hx) as [H1 H2]. unfold round_pos.
  set (k := precision - 1 - mag x). set (e := mag x) in *.
  assert (p10 e = decimal (10 ^ 19) (- k)) as He.
  { unfold decimal. rewrite <- (p10_Z 19) by done. rewrite <- p10_plus. f_equal. unfold k, precision. lia. }
  assert (p10 (e + 1) = decimal (10 ^ 20) (- k)) as He1.
  { unfold decimal. rewrite <- (p10_Z 20) by done. rewrite <- p10_plus. f_equal. unfold k, precision. lia. }
  assert (forall z, decimal z (- k) * p10 k = Qc_of_Z z)%Qc as Hs.
  { intros z. rewrite decimal_scale, Z.add_opp_diag_l. apply decimal_Z. }
  rewrite He, He1, !decimal_le, <- (half_up_Z (10 ^ 19)), <- (half_up_Z (10 ^ 20)), <- !Hs, <- He, <- He1.
  split; apply half_up_mono, Qcmult_le_mono_nonneg_r; auto using p10_pos, Qclt_le_weak.
Qed.

Lemma round_pos_mono x y : (0 < x)%Qc -> (x <= y)%Qc -> (round_pos x <= round_pos y)%Qc.
Proof.
  intros Hx Hxy. assert (0 < y)%Qc as Hy by (eapply Qclt_le_trans; eauto).
  destruct (mag_spec x Hx) as [Hx1 Hx2], (mag_spec y Hy) as [Hy1 Hy2].
  assert (mag x < mag y + 1).
  { eapply p10_lt_inv, Qcle_lt_trans; [exact Hx1|]. eapply Qcle_lt_trans; eauto. }
  destruct (decide (mag x = mag y)) as [Heq|Hne].
  - unfold round_pos. rewrite Heq. apply decimal_le, half_up_mono.
    apply Qcmult_le_mono_nonneg_r; [apply Qclt_le_weak, p10_pos | done].
  - eapply Qcle_trans; [apply round_pos_bounds; done|].
    eapply Qcle_trans; [|apply round_pos_bounds; done]. apply p10_le. lia.
Qed.

Lemma round_pos_pos x : (0 < x)%Qc -> (0 < round_pos x)%Qc.
Proof.
  intros Hx. eapply Qclt_le_trans; [apply (p10_pos (mag x))|]. by apply round_pos_bounds.
Qed.

Lemma round20_opp x : round20 (- x)%Qc = (- round20 x)%Qc.
Proof.
  unfold round20. destruct (decide (x = 0)%Qc) as [->|Hx]; [done|].
  rewrite (decide_False (P := (- x = 0)%Qc)).
  2:{ intros H. apply Hx. rewrite <- (Qcopp_involutive x), H. done. }
  destruct (decide (0 < x)%Qc) as [H1|H1], (decide (0 < - x)%Qc) as [H2|H2].
  - exfalso. qc_lra.
  - by rewrite Qcopp_involutive.
  - by rewrite Qcopp_involutive.
  - exfalso. apply Hx. apply (anti_symm (≤)%Qc); qc_to_q; apply Qnot_lt_le in H1, H2; lra.
Qed.

Lemma round20_exact m k : Z.abs m < 10 ^ precision -> round20 (decimal m k) = decimal m k.
Proof.
  intros Hm. unfold round20. case_decide as H0; [done|].
  rewrite <- (decimal_0 k) in H0 |- *. rewrite decimal_opp.
  assert (m <> 0) by (intros ->; done).
  case_decide as H1; [apply decimal_lt in H1 | rewrite decimal_lt in H1].
  - apply round_pos_exact. lia.
  - rewrite round_pos_exact by lia. by rewrite decimal_opp, Z.opp_involutive.
Qed.

Lemma round20_pos_eq x : (0 < x)%Qc -> round20 x = round_pos x.
Proof.
  intros Hx. unfold round20. rewrite decide_False; [by rewrite decide_True|].
  intros ->. by apply Qclt_not_eq in Hx.
Qed.

Lemma round20_nonneg x : (0 <= x)%Qc -> (0 <= round20 x)%Qc.
Proof.
  intros Hx. destruct (decide (x = 0)%Qc) as [->|Hne]; [done|].
  assert (0 < x)%Qc. { apply Qcle_lt_or_eq in Hx as [?|?]; [done | by subst]. }
  rewrite round20_pos_eq by done. by apply Qclt_le_weak, round_pos_pos.
Qed.

Lemma round20_mono x y : (x <= y)%Qc -> (round20 x <= round20 y)%Qc.
Proof.
  intros Hxy. destruct (decide (0 < x)%Qc) as [Hx|Hx].
  - rewrite !round20_pos_eq by (done || eapply Qclt_le_trans; eauto). by apply round_pos_mono.
  - apply Qcnot_lt_le in Hx. destruct (decide (0 <= y)%Qc) as [Hy|Hy].
    + assert (0 <= round20 (- x))%Qc by (apply round20_nonneg; qc_lra).
      rewrite round20_opp in *. pose proof (round20_nonneg y Hy). qc_lra.
    + assert (0 < - y)%Qc as Hy' by (qc_to_q; apply Qnot_le_lt in Hy; lra).
      assert (0 < - x)%Qc as Hx' by qc_lra.
      assert (round_pos (- y) <= round_pos (- x))%Qc as Hr by (apply round_pos_mono; [done | qc_lra]).
      rewrite <- !round20_pos_eq, !round20_opp in Hr by done. qc_lra.
Qed.

(** Printing and reading amounts. *)
Definition print2 (x : Qc) : string :=
  let z := half_up (x * p10 2)%Qc in
  let n := Z.abs z in
  (if bool_decide (x < 0)%Qc then "-" else "") +:+
  pad_digits (Z.to_nat (digits (n / 100))) (n / 100) +:+ "." +:+ pad_digits 2 n.

Definition parse_unsigned (s : string) : parsed :=
  match read_num 0 0 s with
  | (n, S _, EmptyString) => PFinite (decimal n 0)
  | (n, S _, String "."%char rest) =>
      match read_num 0 0 rest with
      | (f, S k, EmptyString) => PFinite (decimal (n * 10 ^ Z.of_nat (S k) + f) (- Z.of_nat (S k)))
      | _ => PThrows
      end
  | _ => PThrows
  end.

Definition parse (s : string) : parsed :=
  if bool_decide (s = "NaN" \/ s = "Infinity" \/ s = "-Infinity") then PNonFinite
  else match s with
       | String "-"%char s' =>
           match parse_unsigned s' with PFinite x => PFinite (- x)%Qc | r => r end
       | _ => parse_unsigned s
       end.

Lemma digits_nonneg n : 0 <= n -> 1 <= digits n /\ n < 10 ^ digits n.
Proof.
  intros Hn. destruct (decide (n = 0)) as [->|]; [done|].
  destruct (digits_spec n ltac:(lia)) as [[_ ?] ?]. done.
Qed.

Lemma parse_unsigned_print n : 0 <= n ->
  parse_unsigned (pad_digits (Z.to_nat (digits (n / 100))) (n / 100) +:+ "." +:+ pad_digits 2 n) = PFinite (cents n).
Proof.
  intros Hn. assert (0 <= n / 100) as Hq by (apply Z.div_pos; lia).
  destruct (digits_nonneg _ Hq) as [Hd1 Hd2]. unfold parse_unsigned.
  rewrite read_num_pad_digits by done. rewrite Z2Nat.id by lia.
  rewrite Z.mod_small by lia. destruct (Z.to_nat (digits (n / 100))) as [|w] eqn:Hw; [lia|].
  change ("." +:+ ?s) with (String "."%char s). cbv beta iota. simpl (0 + S w)%nat.
  rewrite <- (string_app_nil (pad_digits 2 n)), read_num_pad_digits by done.
  simpl (0 + 2)%nat. cbv beta iota. unfold cents. do 2 f_equal. 
  change (10 ^ Z.of_nat 2) with 100. pose proof (Z.div_mod n 100 ltac:(lia)). lia.
Qed.

Lemma pad_digits_head w n s : (0 < w)%nat ->
  exists d t, 0 <= d <= 9 /\ pad_digits w n +:+ s = String (digit_char d) t.
Proof.
  destruct w as [|w]; [lia|]. intros _. simpl pad_digits. rewrite string_app_cons.
  eexists _, _. split; [|done]. pose proof (Z.mod_pos_bound (n / 10 ^ Z.of_nat w) 10 ltac:(lia)). lia.
Qed.

Lemma digit_char_cases d : 0 <= d <= 9 ->
  digit_char d <> "-"%char /\ digit_char d <> "N"%char /\ digit_char d <> "I"%char.
Proof.
  intros Hd. pose proof (char_digit_char d Hd) as Hc. repeat split; intros He; by rewrite He in Hc.
Qed.

Lemma parse_print2 x : parse (print2 x) = PFinite (decimal (half_up (x * p10 2)%Qc) (- 2)).
Proof.
  unfold print2. set (z := half_up _). set (n := Z.abs z).
  assert (0 < Z.to_nat (digits (n / 100)))%nat as Hw.
  { destruct (digits_nonneg (n / 100)); [apply Z.div_pos; lia | lia]. }
  pose proof (parse_unsigned_print n ltac:(lia)) as Hp.
  destruct (pad_digits_head _ (n / 100) ("." +:+ pad_digits 2 n) Hw) as (d & t & Hd & Ht).
  destruct (digit_char_cases d Hd) as (H1 & H2 & H3). case_bool_decide as Hneg.
  - change ("-" +:+ ?s) with (String "-"%char s). rewrite Ht in Hp |- *. unfold parse.
    rewrite bool_decide_false by (intros [|[|]]; simplify_eq). rewrite Hp. do 2 f_equal.
    unfold cents. rewrite decimal_opp. f_equal.
    assert (z <= 0); [|lia]. unfold z. rewrite <- (half_up_Z 0). apply half_up_mono.
    rewrite Z2Qc_inj_0. apply Qclt_le_weak in Hneg.
    eapply Qcle_trans; [apply Qcmult_le_mono_nonneg_r; [apply Qclt_le_weak, p10_pos | exact Hneg]|].
    by rewrite Qcmult_0_l.
  - change ("" +:+ ?s) with s. rewrite Ht in Hp |- *. unfold parse.
    rewrite bool_decide_false by (intros [|[|]]; simplify_eq).
    replace (parse_unsigned (String (digit_char d) t)) with (PFinite (cents n)).
    assert (0 <= z) as Hz.
    { apply half_up_nonneg. apply Qcmult_nonneg_nonneg; [by apply Qcnot_lt_le | apply Qclt_le_weak, p10_pos]. }
    destruct (digit_char d) as [[] [] [] [] [] [] [] []]; try congruence; unfold n, cents; by rewrite Z.abs_eq.
Qed.

(** decimal.js with its default configuration. *)
#[export] Instance decimal_js : DecimalLib := {
  prec_round := round20;
  to_dp rm dp x :=
    decimal (match rm with ROUND_HALF_UP => half_up | ROUND_DOWN => round_down end (x * p10 dp)%Qc) (- dp);
  dec_parse := parse;
  to_fixed2 := print2;
  dec_parse_to_fixed2 := parse_print2;
  prec_round_exact := round20_exact;
  prec_round_mono := round20_mono;
  prec_round_opp := round20_opp;
  to_dp_half_up _ _ := eq_refl;
  to_dp_down _ _ := eq_refl;
}.

Lemma third_rounds : ddiv (Qc_of_Z 1) (Qc_of_Z 3) = decimal 33333333333333333333 (-20).
Proof. apply Qc_is_canon. vm_compute. reflexivity. Qed.
Lemma half_up_tie : dp2 (decimal 1005 (-3)) = cents 101 /\ dp2 (decimal (-1005) (-3)) = cents (-101).
Proof. split; apply Qc_is_canon; vm_compute; reflexivity. Qed.
End Reference.
