(* ===== verification/Dates.v ===== *)
(** Calendar dates, instants and the branch clock *)
From S2P Require Import Prelude.
From Stdlib Require Import Ascii.
Local Open Scope Z_scope.

(** A JavaScript [Date] is its time value: milliseconds since the epoch. *)
Definition DAY_MS : Z := 86400000.

(** The day a [Date] falls on, in UTC ([Day(t)] of the language). *)
Definition day_of (t : Z) : Z := t / DAY_MS.
Definition midnight (t : Z) : Prop := t mod DAY_MS = 0.

(** ** The proleptic Gregorian calendar

    Years are counted from 1 March, so that the leap day is the last of its
    year: [march_year n] and [march_doy n] are the year and the day of the year
    of a day number, [March.first y] the day a year starts on. *)
Definition era_days : Z := 146097.
Definition epoch_shift : Z := 719468.

Definition year_first (y : Z) : Z := 365 * y + y / 4 - y / 100 + y / 400.

Definition march_year (n : Z) : Z :=
  let doe := n mod era_days in
  let c := Z.min (doe / 36524) 3 in
  let q := (doe - 36524 * c) / 1461 in
  let y := Z.min ((doe - 36524 * c - 1461 * q) / 365) 3 in
  400 * (n / era_days) + 100 * c + 4 * q + y.

(** Month from March ([0..11]) of a day of the year, and the month's first day. *)
Definition march_month (doy : Z) : Z := (5 * doy + 2) / 153.
Definition month_first (mp : Z) : Z := (153 * mp + 2) / 5.

(** Year, month (1..12) and day of the month of a day number. *)
Definition civil_of_day (n : Z) : Z * Z * Z :=
  let z := n + epoch_shift in
  let y := march_year z in
  let doy := z - year_first y in
  let mp := march_month doy in
  (if mp <? 10 then y else y + 1, if mp <? 10 then mp + 3 else mp - 9, doy - month_first mp + 1).

Definition day_of_civil (y m d : Z) : Z :=
  let y' := if m <=? 2 then y - 1 else y in
  let mp := if m <=? 2 then m + 9 else m - 3 in
  year_first y' + month_first mp + d - 1 - epoch_shift.

Lemma march_year_spec n : year_first (march_year n) <= n < year_first (march_year n + 1).
Proof.
  unfold march_year, year_first, era_days.
  pose proof (Z.div_mod n 146097 ltac:(lia)) as Hn.
  pose proof (Z.mod_pos_bound n 146097 ltac:(lia)) as Hb.
  set (doe := n mod 146097) in *. set (e := n / 146097) in *. clearbody doe e. subst n.
  set (c := Z.min (doe / 36524) 3). 
  assert (0 <= c <= 3 /\ 36524 * c <= doe /\ (c < 3 -> doe < 36524 * c + 36524)) as Hc
    by (subst c; Z.div_mod_to_equations; lia).
  clearbody c. set (r := doe - 36524 * c) in *.
  set (q := r / 1461).
  assert (0 <= q <= 24 /\ 1461 * q <= r < 1461 * q + 1461) as Hq
    by (subst q r; Z.div_mod_to_equations; lia).
  clearbody q. set (y := Z.min ((r - 1461 * q) / 365) 3).
  assert (0 <= y <= 3 /\ 365 * y <= r - 1461 * q /\ (y < 3 -> r - 1461 * q < 365 * y + 365)) as Hy
    by (subst y; Z.div_mod_to_equations; lia).
  clearbody y. subst r.
  Z.div_mod_to_equations. lia.
Qed.

Lemma year_first_mono a b : a <= b -> year_first a <= year_first b.
Proof. unfold year_first. intros. Z.div_mod_to_equations. lia. Qed.

Lemma march_year_mono a b : a <= b -> march_year a <= march_year b.
Proof.
  intros Hab. destruct (Z.le_gt_cases (march_year a) (march_year b)) as [|Hgt]; [done|].
  pose proof (march_year_spec a). pose proof (march_year_spec b).
  pose proof (year_first_mono (march_year b + 1) (march_year a) ltac:(lia)). lia.
Qed.

Lemma march_year_unique n y : year_first y <= n < year_first (y + 1) -> march_year n = y.
Proof.
  intros Hn. pose proof (march_year_spec n) as Hs.
  destruct (Z.lt_trichotomy (march_year n) y) as [H|[H|H]]; [|done|].
  - pose proof (year_first_mono (march_year n + 1) y ltac:(lia)). lia.
  - pose proof (year_first_mono (y + 1) (march_year n) ltac:(lia)). lia.
Qed.

Lemma march_doy_bounds n : 0 <= n - year_first (march_year n) <= 365.
Proof.
  pose proof (march_year_spec n) as Hs. unfold year_first in *. Z.div_mod_to_equations. lia.
Qed.

Lemma march_month_spec doy : 0 <= doy <= 365 ->
  0 <= march_month doy <= 11 /\ 0 <= doy - month_first (march_month doy) <= 30.
Proof. unfold march_month, month_first. intros. Z.div_mod_to_equations. lia. Qed.

Lemma civil_of_day_bounds n y m d : civil_of_day n = (y, m, d) -> 1 <= m <= 12 /\ 1 <= d <= 31.
Proof.
  unfold civil_of_day. intros [= <- <- <-].
  destruct (march_month_spec _ (march_doy_bounds (n + epoch_shift))) as [? ?].
  destruct (Z.ltb_spec (march_month (n + epoch_shift - year_first (march_year (n + epoch_shift)))) 10); lia.
Qed.

Lemma day_of_civil_of_day n y m d : civil_of_day n = (y, m, d) -> day_of_civil y m d = n.
Proof.
  unfold civil_of_day, day_of_civil. intros [= <- <- <-].
  destruct (march_month_spec _ (march_doy_bounds (n + epoch_shift))) as [? ?].
  set (mp := march_month _) in *.
  destruct (Z.ltb_spec mp 10).
  - destruct (Z.leb_spec (mp + 3) 2); [lia|]. replace (mp + 3 - 3) with mp by lia. lia.
  - destruct (Z.leb_spec (mp - 9) 2); [|lia].
    replace (march_year (n + epoch_shift) + 1 - 1) with (march_year (n + epoch_shift)) by lia.
    replace (mp - 9 + 9) with mp by lia. lia.
Qed.

(** A calendar date as one number that orders as the triple does. *)
Definition civil_code (c : Z * Z * Z) : Z := let '(y, m, d) := c in (y * 12 + m) * 32 + d.

Lemma civil_code_mono a b : a < b -> civil_code (civil_of_day a) < civil_code (civil_of_day b).
Proof.
  intros Hab. unfold civil_code, civil_of_day.
  set (za := a + epoch_shift). set (zb := b + epoch_shift). assert (za < zb) as Hz by lia.
  pose proof (march_year_mono za zb ltac:(lia)) as Hy.
  pose proof (march_doy_bounds za) as Ba. pose proof (march_doy_bounds zb) as Bb.
  pose proof (march_month_spec _ Ba) as [Ma Da]. pose proof (march_month_spec _ Bb) as [Mb Db].
  assert (march_year za = march_year zb ->
    march_month (za - year_first (march_year za)) <= march_month (zb - year_first (march_year zb))) as Hm.
  { intros ->. unfold march_month. apply Z.div_le_mono; lia. }
  set (ya := march_year za) in *. set (yb := march_year zb) in *.
  set (ma := march_month (za - year_first ya)) in *. set (mb := march_month (zb - year_first yb)) in *.
  destruct (decide (ya = yb)) as [Heq|Hne].
  - specialize (Hm Heq). rewrite Heq in *.
    destruct (decide (ma = mb)) as [Hmeq|Hmne].
    + rewrite Hmeq in *. destruct (Z.ltb_spec mb 10); lia.
    + destruct (Z.ltb_spec ma 10), (Z.ltb_spec mb 10); lia.
  - destruct (Z.ltb_spec ma 10), (Z.ltb_spec mb 10); lia.
Qed.

Lemma civil_code_compare a b :
  Z.compare (civil_code (civil_of_day a)) (civil_code (civil_of_day b)) = Z.compare a b.
Proof.
  destruct (Z.compare_spec a b) as [->|H|H].
  - apply Z.compare_refl.
  - by apply Z.compare_lt_iff, civil_code_mono.
  - by apply Z.compare_gt_iff, civil_code_mono.
Qed.

(** ** Date strings

    [d.toISOString().slice(0, 10)] is [YYYY-MM-DD] for the years 0 to 9999;
    outside them the language prints a sign and six digits, of which the slice
    keeps ten characters. *)
Definition year_str (y : Z) : string :=
  if (0 <=? y) && (y <=? 9999) then pad_digits 4 y
  else (if y <? 0 then "-" else "+") +:+ pad_digits 6 (Z.abs y).

Definition iso_day (n : Z) : string :=
  let '(y, m, d) := civil_of_day n in
  String.substring 0 10 (year_str y +:+ "-" +:+ pad_digits 2 m +:+ "-" +:+ pad_digits 2 d).

(** [t.toISOString().slice(0, 10)] *)
Definition iso_date (t : Z) : string := iso_day (day_of t).

(** The days of the years 0 to 9999. *)
Definition in_iso_range (n : Z) : Prop := -719528 <= n <= 2932896.

(** [YYYY-MM-DD], with a year, month and day in the ranges of the calendar. *)
Definition parse_iso_day (s : string) : option Z :=
  match read_digits 4 0 s with
  | Some (y, String "-"%char s) =>
      match read_digits 2 0 s with
      | Some (m, String "-"%char s) =>
          match read_digits 2 0 s with
          | Some (d, EmptyString) =>
              let n := day_of_civil y m d in
              if bool_decide (civil_of_day n = (y, m, d)) then Some n else None
          | _ => None
          end
      | _ => None
      end
  | _ => None
  end.

(** [new Date(`${dateStr}T00:00:00.000Z`)]; [None] is the invalid date. *)
Definition toBranchDate (s : string) : option Z := (fun n => n * DAY_MS) <$> parse_iso_day s.

Lemma in_iso_range_year n y m d : in_iso_range n -> civil_of_day n = (y, m, d) -> 0 <= y <= 9999.
Proof.
  intros [H1 H2] Hc.
  assert (civil_code (civil_of_day (-719528)) <= civil_code (civil_of_day n)) as Hlo.
  { destruct (decide (n = -719528)) as [->|]; [done|]. apply Z.lt_le_incl, civil_code_mono. lia. }
  assert (civil_code (civil_of_day n) <= civil_code (civil_of_day 2932896)) as Hhi.
  { destruct (decide (n = 2932896)) as [->|]; [done|]. apply Z.lt_le_incl, civil_code_mono. lia. }
  destruct (civil_of_day_bounds _ _ _ _ Hc). rewrite Hc in *.
  change (civil_of_day (-719528)) with (0, 1, 1) in Hlo.
  change (civil_of_day 2932896) with (9999, 12, 31) in Hhi. unfold civil_code in *. lia.
Qed.

Lemma substring_full s n : String.length s = n -> String.substring 0 n s = s.
Proof.
  revert n. induction s as [|c s IH]; intros n <-; simpl; [done|]. f_equal. by apply IH.
Qed.

Lemma string_length_app s t : String.length (s +:+ t) = (String.length s + String.length t)%nat.
Proof. induction s as [|c s IH]; simpl; [done|]. by f_equal. Qed.

Lemma iso_day_eq n y m d : in_iso_range n -> civil_of_day n = (y, m, d) ->
  iso_day n = pad_digits 4 y +:+ "-" +:+ pad_digits 2 m +:+ "-" +:+ pad_digits 2 d.
Proof.
  intros Hr Hc. unfold iso_day. rewrite Hc. pose proof (in_iso_range_year _ _ _ _ Hr Hc).
  unfold year_str. destruct (Z.leb_spec 0 y), (Z.leb_spec y 9999); try lia. simpl andb. cbv iota.
  apply substring_full. rewrite !string_length_app, !pad_digits_length. done.
Qed.

(** Printing a date and reading it back is the identity. *)
Lemma parse_iso_day_iso n : in_iso_range n -> parse_iso_day (iso_day n) = Some n.
Proof.
  intros Hr. destruct (civil_of_day n) as [[y m] d] eqn:Hc.
  rewrite (iso_day_eq n y m d) by done. unfold parse_iso_day.
  pose proof (in_iso_range_year _ _ _ _ Hr Hc). destruct (civil_of_day_bounds _ _ _ _ Hc).
  assert (forall s, "-" +:+ s = String "-"%char s) as Hdash by done.
  rewrite <- (string_app_nil (pad_digits 2 d)).
  rewrite read_pad_digits, Hdash, read_pad_digits, Hdash, read_pad_digits by (simpl; lia).
  rewrite !Z.mul_0_l, !Z.add_0_l.
  rewrite (day_of_civil_of_day n) by done. by rewrite bool_decide_true.
Qed.

(** Date strings order as the dates do. *)
Lemma iso_day_compare a b : in_iso_range a -> in_iso_range b ->
  String.compare (iso_day a) (iso_day b) = Z.compare a b.
Proof.
  intros Ha Hb. destruct (civil_of_day a) as [[ya ma] da] eqn:Ca, (civil_of_day b) as [[yb mb] db] eqn:Cb.
  rewrite (iso_day_eq a ya ma da), (iso_day_eq b yb mb db) by done.
  pose proof (in_iso_range_year _ _ _ _ Ha Ca). pose proof (in_iso_range_year _ _ _ _ Hb Cb).
  destruct (civil_of_day_bounds _ _ _ _ Ca), (civil_of_day_bounds _ _ _ _ Cb).
  rewrite <- civil_code_compare, Ca, Cb. unfold civil_code.
  rewrite !string_compare_app by (rewrite ?pad_digits_length; done).
  rewrite !pad_digits_compare by (simpl; lia). simpl (String.compare "-" "-"). cbv iota.
  destruct (Z.compare_spec ya yb), (Z.compare_spec ma mb), (Z.compare_spec da db); symmetry;
    first [apply Z.compare_eq_iff | apply Z.compare_lt_iff | apply Z.compare_gt_iff]; lia.
Qed.

(** ** The branch clock

    The offset tables of the IANA zones, and how the server's own zone reads a
    wall-clock text, are the platform's. *)
Class Platform := {
  (** local wall time minus UTC, in ms, of a zone at an instant *)
  tz_offset : string -> Z -> Z;
  (** [new Date(text)] of a wall-clock text without a zone *)
  local_parse : Z -> Z;
}.

(** A server whose own zone has a fixed offset, and zone offsets in whole
    seconds (every current IANA offset is one of whole minutes). *)
Class PlatformOk `{Platform} (server : Z) := {
  local_parse_fixed w : local_parse w = w - server;
  tz_offset_seconds tz t : tz_offset tz t mod 1000 = 0;
}.

Section Clock.
Context `{Platform}.

(** A printed wall clock keeps whole seconds. *)
Definition whole_seconds (t : Z) : Z := t / 1000 * 1000.

(** [HH:MM:SS] of a time column, as seconds of the day. *)
Definition timeOfDay (t : Z) : Z := t / 1000 mod 86400.

Definition branchCutoffInstant (dateOnly time : Z) (timezone : string) : Z :=
  let guess := day_of dateOnly * DAY_MS + time * 1000 in
  let asUtc := local_parse (whole_seconds guess) in
  let asTz := local_parse (whole_seconds (guess + tz_offset timezone guess)) in
  guess + (asUtc - asTz).

Definition hasPassedBranchCutoff (dateOnly time : Z) (timezone : string) (now : Z) : bool :=
  branchCutoffInstant dateOnly time timezone <=? now.

Definition localDateOf (instant : Z) (timezone : string) : string :=
  iso_date (instant + tz_offset timezone instant).

Definition todayInTimezone (timezone : string) (now : Z) : string := localDateOf now timezone.

Definition branchDayStart (dateStr timezone : string) : option Z :=
  d ← toBranchDate dateStr; Some (branchCutoffInstant d 0 timezone).

Context {server : Z} `{!PlatformOk server}.

Lemma branchCutoffInstant_offset d time tz :
  let guess := day_of d * DAY_MS + time * 1000 in
  branchCutoffInstant d time tz = guess - tz_offset tz guess.
Proof.
  intros guess. unfold branchCutoffInstant. fold guess. rewrite !local_parse_fixed.
  unfold whole_seconds. pose proof (tz_offset_seconds tz guess) as Ho.
  assert (guess mod 1000 = 0) as Hg.
  { subst guess. unfold DAY_MS. replace (day_of d * 86400000 + time * 1000) with ((day_of d * 86400 + time) * 1000) by ring.
    apply Z.mod_mul. lia. }
  Z.div_mod_to_equations. lia.
Qed.

(** The branch's wall clock shows the posted time at the cutoff instant,
    wherever the zone's offset is the same at the two instants compared. *)
Lemma cutoff_wall_clock d time tz :
  let guess := day_of d * DAY_MS + time * 1000 in
  let at_ := branchCutoffInstant d time tz in
  tz_offset tz at_ = tz_offset tz guess -> at_ + tz_offset tz at_ = guess.
Proof. simpl. intros Heq. rewrite Heq, branchCutoffInstant_offset. lia. Qed.

Lemma day_of_midnight n : day_of (n * DAY_MS) = n.
Proof. apply Z.div_mul. done. Qed.
End Clock.

(** UTC servers and zones of a fixed offset: a platform the laws hold of. *)
Definition fixed_platform (off : string -> Z) : Platform :=
  {| tz_offset tz _ := off tz * 60000; local_parse w := w |}.
Lemma fixed_platform_ok off : @PlatformOk (fixed_platform off) 0.
Proof.
  split; simpl.
  - intros. lia.
  - intros tz _. replace (off tz * 60000) with (off tz * 60 * 1000) by ring. by apply Z.mod_mul.
Qed.
