(* ===== verification/Json.v ===== *)
(** JSON columns, as Prisma hands them to the policy readers *)
From S2P Require Import Prelude.
From Stdlib Require Import Qcanon.
Local Open Scope Z_scope.

(** [Prisma.JsonValue]. A number is the decimal value it is written as; JSON
    text has no NaN or infinity. An object keeps its members in order. *)
Inductive json :=
| JNull
| JBool (b : bool)
| JNum (x : Qc)
| JStr (s : string)
| JArr (l : list json)
| JObj (fields : list (string * json)).

(** [value.key]; [None] is [undefined]. *)
Fixpoint assoc (k : string) (fs : list (string * json)) : option json :=
  match fs with
  | [] => None
  | (k', v) :: fs => if bool_decide (k = k') then Some v else assoc k fs
  end.

Definition member (k : string) (j : option json) : option json :=
  match j with Some (JObj fs) => assoc k fs | _ => None end.

(** [typeof v === 'object' && v !== null && !Array.isArray(v)] *)
Definition as_object (j : option json) : option json :=
  match j with Some (JObj fs) => Some (JObj fs) | _ => None end.
Definition as_number (j : option json) : option Qc :=
  match j with Some (JNum x) => Some x | _ => None end.
Definition as_string (j : option json) : option string :=
  match j with Some (JStr s) => Some s | _ => None end.
Definition as_bool (j : option json) : option bool :=
  match j with Some (JBool b) => Some b | _ => None end.

(** [Number.isInteger(x)] *)
Definition is_integer (x : Qc) : bool := Pos.eqb (QArith_base.Qden (this x)) 1.

(** [typeof v === 'number' && Number.isFinite(v) && v > 0 ? v : null] *)
Definition positive_number (j : option json) : option Qc :=
  x ← as_number j; if bool_decide (0 < x)%Qc then Some x else None.
(** [typeof v === 'number' && Number.isInteger(v) && v >= 0] *)
Definition natural_number (j : option json) : option Z :=
  x ← as_number j;
  if is_integer x && bool_decide (0 <= x)%Qc then Some (QArith_base.Qnum (this x)) else None.

Lemma positive_number_pos j x : positive_number j = Some x -> (0 < x)%Qc.
Proof. unfold positive_number. destruct (as_number j); simpl; [case_bool_decide|]; naive_solver. Qed.

Lemma natural_number_nonneg j n : natural_number j = Some n -> 0 <= n.
Proof.
  unfold natural_number. destruct (as_number j) as [x|]; simpl; [|done].
  destruct (is_integer x); simpl; [|done]. case_bool_decide as Hx; [|done]. intros [= <-].
  unfold Qcle, QArith_base.Qle in Hx. simpl in Hx. lia.
Qed.
