(* ===== verification/Authority.v ===== *)
(** Who may do what: branch roles, staff authority, the permission catalogue and
    the roles guard (src/src/common/{utils,permissions,guards}). *)
From S2P Require Import Prelude Json.

(** A role a token carries: a name, at one branch or ([None]) at every branch. *)
Record HeldRole := { branchId : option string; role : string }.

Record ApiKeyPrincipal := { scopes : list string; key_branchId : option string }.

Record JwtPayload := { sub : string; roles : list HeldRole; apiKey : option ApiKeyPrincipal }.

Definition forbidden : error := Throw ForbiddenException FORBIDDEN.

(** ** Branch roles *)
Module BranchRoles.
Definition at_branch (b : string) (r : HeldRole) : bool :=
  bool_decide (branchId r = None) || bool_decide (branchId r = Some b).

Definition hasRoleAtBranch (actor : JwtPayload) (b : string) (names : list string) : bool :=
  existsb (fun r => includes (role r) names && at_branch b r) (roles actor).

Definition SUPERVISOR_ROLES : list string := ["owner"; "manager"].

Definition isSupervisorAt (actor : JwtPayload) (b : string) : bool := hasRoleAtBranch actor b SUPERVISOR_ROLES.

Definition assertRoleAtBranch (actor : JwtPayload) (b : string) (names : list string) : res unit :=
  throw_if (negb (hasRoleAtBranch actor b names)) forbidden.
End BranchRoles.
Import BranchRoles.

(** ** Staff authority *)
Module StaffAuthority.
Definition SENIOR_ROLES : list string := ["owner"; "manager"].

Definition isOwner (actor : JwtPayload) : bool := existsb (fun r => bool_decide (role r = "owner")) (roles actor).

Definition managesBranch (actor : JwtPayload) (b : option string) : bool :=
  if isOwner actor then true
  else match b with
       | None => false
       | Some b => existsb (fun r => bool_decide (role r = "manager") && at_branch b r) (roles actor)
       end.

Inductive reason :=
| one_owner | senior_by_owner_only | every_branch_by_owner_only | not_your_branch
| own_role | owner_role_fixed | manager_by_owner_only | own_account | owner_account_fixed | works_elsewhere.

Definition whyCannotGrant (actor : JwtPayload) (roleName : string) (b : option string) : option reason :=
  if bool_decide (roleName = "owner") then Some one_owner
  else if isOwner actor then None
  else if includes roleName SENIOR_ROLES then Some senior_by_owner_only
  else if bool_decide (b = None) then Some every_branch_by_owner_only
  else if negb (managesBranch actor b) then Some not_your_branch
  else None.

Definition refuse_with (r : option reason) : res unit :=
  match r with Some _ => Err forbidden | None => Ok tt end.

Definition assertMayGrant (actor : JwtPayload) (roleName : string) (b : option string) : res unit :=
  refuse_with (whyCannotGrant actor roleName b).

Definition holds (name : string) (held : list HeldRole) : bool :=
  existsb (fun r => bool_decide (role r = name)) held.
Definition holds_senior (held : list HeldRole) : bool :=
  existsb (fun r => includes (role r) SENIOR_ROLES) held.

Definition whyCannotChangeRoleAt (actor : JwtPayload) (target : string) (held : list HeldRole) (b : option string)
    : option reason :=
  if bool_decide (target = sub actor) then Some own_role
  else if holds "owner" held then Some owner_role_fixed
  else if negb (isOwner actor) && holds_senior held then Some manager_by_owner_only
  else if negb (managesBranch actor b) then
    Some (if bool_decide (b = None) then every_branch_by_owner_only else not_your_branch)
  else None.

Definition whyCannotManageAccount (actor : JwtPayload) (target : string) (held : list HeldRole) : option reason :=
  if bool_decide (target = sub actor) then Some own_account
  else if holds "owner" held then Some owner_account_fixed
  else if isOwner actor then None
  else if holds_senior held then Some manager_by_owner_only
  else if bool_decide (length held = 0%nat) || existsb (fun r => negb (managesBranch actor (branchId r))) held
  then Some works_elsewhere
  else None.

Definition assertMayManageAccount (actor : JwtPayload) (target : string) (held : list HeldRole) : res unit :=
  refuse_with (whyCannotManageAccount actor target held).
End StaffAuthority.

#[global] Instance HeldRole_eq_dec : EqDecision HeldRole.
Proof. solve_decision. Defined.

(** ** The permission catalogue *)
Module Permissions.
Inductive PermissionAction := read | create | update | delete_.
#[global] Instance PermissionAction_eq_dec : EqDecision PermissionAction.
Proof. solve_decision. Defined.

Definition MODULE_KEYS : list string :=
  ["reservations"; "guests"; "folios"; "housekeeping"; "maintenance"; "pos"; "shifts"; "comms"; "reports";
   "night_audit"; "property"; "taxes"; "alerts"; "sales_events"; "revenue"; "loyalty"; "marketing"].

Definition action_of (s : string) : option PermissionAction :=
  if bool_decide (s = "read") then Some read
  else if bool_decide (s = "create") then Some create
  else if bool_decide (s = "update") then Some update
  else if bool_decide (s = "delete") then Some delete_ else None.

Abbreviation PermissionMap := (gmap string (list PermissionAction)).

Definition invalid : error := Throw BadRequestException VALIDATION_FAILED.

(** [[...new Set(actions)]]: first occurrences, in order. *)
Fixpoint dedup (seen l : list PermissionAction) : list PermissionAction :=
  match l with
  | [] => []
  | a :: l => if bool_decide (a ∈ seen) then dedup seen l else a :: dedup (a :: seen) l
  end.

Definition parse_action (j : json) : res PermissionAction :=
  match j with
  | JStr s => or_throw (action_of s) invalid
  | _ => Err invalid
  end.

Definition parse_entry (parsed : PermissionMap) (e : string * json) : res PermissionMap :=
  let '(moduleKey, rawActions) := e in
  check includes moduleKey MODULE_KEYS orelse invalid in
  match rawActions with
  | JArr raw =>
      let? actions := res_mapM parse_action raw in
      let unique := dedup [] actions in
      Ok (if bool_decide (0 < length unique)%nat then <[moduleKey := unique]> parsed else parsed)
  | _ => Err invalid
  end.

(** [null] and [undefined] are the empty map; a value that is no object throws. *)
Definition parsePermissions (value : option json) : res PermissionMap :=
  match value with
  | None | Some JNull => Ok ∅
  | Some (JObj entries) => res_foldM parse_entry ∅ entries
  | Some _ => Err invalid
  end.

Definition permits (p : PermissionMap) (module : string) (action : PermissionAction) : bool :=
  bool_decide (action ∈ default [] (p !! module)).

Definition actionForMethod (method : string) : PermissionAction :=
  let m := js_upper method in
  if bool_decide (m = "POST") then create
  else if bool_decide (m = "PUT") || bool_decide (m = "PATCH") then update
  else if bool_decide (m = "DELETE") then delete_
  else read.

Record RoleGrant := { grant_id : string; grant_name : string; isSystem : bool; permissions : PermissionMap }.

(** A stored map that does not parse grants nothing. *)
Definition safeParse (value : option json) : PermissionMap :=
  match parsePermissions value with Ok p => p | Err _ => ∅ end.
End Permissions.
Import Permissions.

(** ** The roles guard *)
Module RolesGuard.

(** A route's metadata: [@Roles], [@Permission] and the record of [@BranchOf]. *)
Record Route := {
  required : option (list string);
  permission : option (string * option PermissionAction);
}.

(** The parts of a request the guard reads. [record_branch] is the branch of the
    record the route is addressed by, when there is one to find. *)
Record Request := {
  user : option JwtPayload;
  method : string;
  reveal : bool;
  param_branchId : option string;
  record_branch : option string;
}.

(** The tenant's roles by name, and the pages set per branch and role. *)
Record Grants := {
  rolesFor : gmap string RoleGrant;
  page_rows : gmap string (gmap string (list string));
  page_uses : string -> list string;
}.

Definition UNRESTRICTED_ROLES : list string := ["owner"; "manager"].

Definition request_branch (rq : Request) : option string :=
  match param_branchId rq with Some b => Some b | None => record_branch rq end.

(** Held here: at every branch, at this one, or the request names none. *)
Definition atThisBranch (b : option string) (r : HeldRole) : bool :=
  match branchId r, b with
  | None, _ | _, None => true
  | Some x, Some y => bool_decide (x = y)
  end.

Definition customRoleAllows (g : Grants) (rt : Route) (rq : Request) (roleNames : list string) : bool :=
  match roleNames, permission rt with
  | [], _ | _, None => false
  | _, Some (module, a) =>
      let action := default (actionForMethod (method rq)) a in
      existsb (fun name =>
        match rolesFor g !! name with
        | Some r => negb (isSystem r) && permits (permissions r) module action
        | None => false
        end) roleNames
  end.

(** [PageAccessService.modulesForUser]: [None] is "no restriction". The loop
    returns early at a role with no pages set, or on no branch to go by. *)
Fixpoint modules_of (g : Grants) (b : option string) (assignments : list HeldRole) (acc : list string)
    : option (list string) :=
  match assignments with
  | [] => Some acc
  | a :: rest =>
      match rolesFor g !! role a with
      | None => modules_of g b rest acc
      | Some r =>
          match (match b with Some b => Some b | None => branchId a end) with
          | None => None
          | Some at_b =>
              match page_rows g !! at_b ≫= (.!! grant_id r) with
              | None => None
              | Some stored => modules_of g b rest (acc ++ (stored ≫= page_uses g))
              end
          end
      end
  end.

Definition modulesForUser (g : Grants) (u : JwtPayload) (b : option string) : option (list string) :=
  if existsb (fun r => bool_decide (role r = "owner")) (roles u) then None
  else if bool_decide (page_rows g = ∅) then None
  else if existsb (fun r => includes (role r) UNRESTRICTED_ROLES && atThisBranch b r) (roles u) then None
  else
    let assignments := List.filter (atThisBranch b) (roles u) in
    if bool_decide (length assignments = 0%nat) then None
    else modules_of g b assignments [].

Definition assertWithinPageAccess (g : Grants) (rt : Route) (u : JwtPayload) (b : option string) : res unit :=
  match permission rt with
  | None => Ok tt
  | Some (module, _) =>
      match modulesForUser g u b with
      | Some modules => throw_if (negb (includes module modules)) forbidden
      | None => Ok tt
      end
  end.

Definition apiKeyMayRead (rt : Route) (rq : Request) (key : ApiKeyPrincipal) : res bool :=
  let m := js_upper (method rq) in
  check bool_decide (m = "GET") || bool_decide (m = "HEAD") orelse forbidden in
  match permission rt with
  | None => Err forbidden
  | Some (module, a) =>
      check bool_decide (default (actionForMethod m) a = read) orelse forbidden in
      check includes module (scopes key) orelse forbidden in
      throw forbidden when reveal rq in
      match key_branchId key with
      | None => Ok true
      | Some kb =>
          match request_branch rq with
          | None => Ok true
          | Some b => throw forbidden when negb (bool_decide (b = kb)) in Ok true
          end
      end
  end.

Definition canActivate (g : Grants) (rt : Route) (rq : Request) : res bool :=
  match user rq with
  | Some u =>
      match apiKey u with
      | Some key => apiKeyMayRead rt rq key
      | None =>
          let b := request_branch rq in
          let? _ :=
            match required rt with
            | Some (r0 :: rs) =>
                let allowed :=
                  existsb (fun a => includes (role a) (r0 :: rs) && atThisBranch b a) (roles u)
                  || customRoleAllows g rt rq (role <$> List.filter (atThisBranch b) (roles u)) in
                throw_if (negb allowed) forbidden
            | _ => Ok tt
            end in
          let? _ := assertWithinPageAccess g rt u b in
          Ok true
      end
  | None =>
      match required rt with
      | Some (_ :: _) => Ok false
      | _ => Ok true
      end
  end.
End RolesGuard.

(** ** Properties *)
Module AuthorityProps.
Import StaffAuthority RolesGuard.

Definition manager_at (a : JwtPayload) (b : string) : Prop :=
  exists r, r ∈ roles a /\ role r = "manager" /\ (branchId r = None \/ branchId r = Some b).
Definition owner (a : JwtPayload) : Prop := exists r, r ∈ roles a /\ role r = "owner".

Lemma isOwner_spec a : isOwner a = true <-> owner a.
Proof. unfold isOwner, owner. rewrite existsb_exists_elem. by setoid_rewrite bool_decide_eq_true. Qed.

Lemma at_branch_spec b r : at_branch b r = true <-> branchId r = None \/ branchId r = Some b.
Proof. unfold at_branch. by rewrite orb_true_iff, !bool_decide_eq_true. Qed.

Lemma managesBranch_spec a b :
  managesBranch a b = true <-> owner a \/ exists b', b = Some b' /\ manager_at a b'.
Proof.
  unfold managesBranch. destruct (isOwner a) eqn:Ho.
  - apply isOwner_spec in Ho. naive_solver.
  - assert (~ owner a) by (rewrite <- isOwner_spec; congruence). destruct b as [b|]; [|naive_solver].
    rewrite existsb_exists_elem. setoid_rewrite andb_true_iff. setoid_rewrite bool_decide_eq_true.
    setoid_rewrite at_branch_spec. unfold manager_at. naive_solver.
Qed.

Lemma holds_spec n held : holds n held = true <-> exists r, r ∈ held /\ role r = n.
Proof. unfold holds. rewrite existsb_exists_elem. by setoid_rewrite bool_decide_eq_true. Qed.

Lemma includes_senior n : includes n SENIOR_ROLES = true <-> n = "owner" \/ n = "manager".
Proof. rewrite includes_spec. unfold SENIOR_ROLES. rewrite !elem_of_cons, elem_of_nil. naive_solver. Qed.

Lemma holds_senior_spec held :
  holds_senior held = true <-> exists r, r ∈ held /\ (role r = "owner" \/ role r = "manager").
Proof. unfold holds_senior. rewrite existsb_exists_elem. by setoid_rewrite includes_senior. Qed.

(** a role is handed out exactly when the rules allow it: never "owner";
    by the owner anything else; by anyone else only a role below manager, at one
    named branch they manage. In particular nobody can raise themselves or
    another to manager or owner. *)
Theorem grant_authority (actor : JwtPayload) (roleName : string) (b : option string) :
  assertMayGrant actor roleName b = Ok tt <->
  roleName <> "owner" /\
  (owner actor \/ (roleName <> "manager" /\ exists b', b = Some b' /\ manager_at actor b')).
Proof.
  unfold assertMayGrant, refuse_with, whyCannotGrant. case_bool_decide as Hr; [naive_solver|].
  destruct (isOwner actor) eqn:Ho; [apply isOwner_spec in Ho; naive_solver|].
  assert (~ owner actor) by (rewrite <- isOwner_spec; congruence).
  destruct (includes roleName SENIOR_ROLES) eqn:Hs; [apply includes_senior in Hs; naive_solver|].
  assert (roleName <> "manager") by (intros ->; vm_compute in Hs; discriminate).
  destruct b as [b|]; [rewrite (bool_decide_false (Some b = None)) by done | naive_solver].
  destruct (managesBranch actor (Some b)) eqn:Hm; simpl.
  - apply managesBranch_spec in Hm. naive_solver.
  - assert (~ manager_at actor b) by (intros ?; rewrite (proj2 (managesBranch_spec _ _)) in Hm; naive_solver).
    naive_solver.
Qed.

(** an account is managed exactly by those above it: never one's own, never
    an owner's; the owner manages every other; a manager only people all of
    whose roles are below manager and at branches that manager runs. *)
Theorem account_authority (actor : JwtPayload) (target : string) (held : list HeldRole) :
  assertMayManageAccount actor target held = Ok tt <->
  target <> sub actor /\ (forall r, r ∈ held -> role r <> "owner") /\
  (owner actor \/
   (held <> [] /\ forall r, r ∈ held -> role r <> "manager" /\ exists b, branchId r = Some b /\ manager_at actor b)).
Proof.
  unfold assertMayManageAccount, refuse_with, whyCannotManageAccount. case_bool_decide as Hr; [naive_solver|].
  destruct (holds "owner" held) eqn:Hh; [apply holds_spec in Hh; naive_solver|].
  assert (forall r, r ∈ held -> role r <> "owner") as Hno.
  { intros r Hin Heq. rewrite (proj2 (holds_spec _ _)) in Hh; [done | eauto]. }
  destruct (isOwner actor) eqn:Ho; [apply isOwner_spec in Ho; naive_solver|].
  assert (~ owner actor) by (rewrite <- isOwner_spec; congruence).
  destruct (holds_senior held) eqn:Hs; [apply holds_senior_spec in Hs; naive_solver|].
  assert (forall r, r ∈ held -> role r <> "manager") as Hnm.
  { intros r Hin Heq. rewrite (proj2 (holds_senior_spec _)) in Hs; [done | eauto]. }
  destruct held as [|h held]; [naive_solver|].
  rewrite (bool_decide_false (length (h :: held) = 0%nat)) by done. rewrite orb_false_l.
  destruct (existsb _ (h :: held)) eqn:He.
  - apply existsb_exists_elem in He as (r & Hin & Hm). apply negb_true_iff in Hm.
    split; [done|]. intros (_ & _ & [?|[_ Hall]]); [done|]. destruct (Hall r Hin) as (_ & b & Hb & Hmg).
    rewrite (proj2 (managesBranch_spec _ _)) in Hm; naive_solver.
  - split; [|done]. intros _. split_and!; [done..|]. right. split; [done|]. intros r Hin. split; [auto|].
    destruct (managesBranch actor (branchId r)) eqn:Hm.
    + apply managesBranch_spec in Hm. naive_solver.
    + rewrite (proj2 (existsb_exists_elem _ _)) in He; [done|]. exists r. by rewrite Hm.
Qed.

Lemma dedup_subset seen l a : a ∈ dedup seen l -> a ∈ l.
Proof. revert seen. induction l as [|x l IH]; intros seen; simpl; [done|]. case_bool_decide; set_solver. Qed.

Lemma parse_entry_keys m e m' : parse_entry m e = Ok m' ->
  (forall k, is_Some (m !! k) -> k ∈ MODULE_KEYS) -> forall k, is_Some (m' !! k) -> k ∈ MODULE_KEYS.
Proof.
  destruct e as [key raw]. unfold parse_entry. intros H Hm k Hk. res_inv. boolp.
  match goal with H : includes _ _ = true |- _ => apply includes_spec in H end.
  destruct raw; try discriminate. res_inv. case_bool_decide; simplify_eq; [|auto].
  destruct (decide (k = key)) as [->|]; [done|]. rewrite lookup_insert_ne in Hk by done. auto.
Qed.

(** a permission map that parses grants nothing outside the catalogue: for
    every stored value, a role's permissions never name a module the catalogue
    does not list, so no custom role permits an action on such a module. *)
Theorem permissions_within_catalogue (value : option json) (module : string) (a : PermissionAction) :
  permits (safeParse value) module a = true -> module ∈ MODULE_KEYS.
Proof.
  unfold permits, safeParse. intros Hp. apply bool_decide_eq_true in Hp.
  destruct (parsePermissions value) as [p|] eqn:E; [|by rewrite lookup_empty in Hp; apply elem_of_nil in Hp].
  assert (is_Some (p !! module)) as Hs by (destruct (p !! module); [eauto | by apply elem_of_nil in Hp]).
  clear Hp. revert Hs. destruct value as [[| | | | |es]|]; simpl in E; simplify_eq;
    try (rewrite lookup_empty; intros [? ?]; done).
  assert (forall es m p, res_foldM parse_entry m es = Ok p ->
    (forall k, is_Some (m !! k) -> k ∈ MODULE_KEYS) -> forall k, is_Some (p !! k) -> k ∈ MODULE_KEYS) as Hf.
  { clear. induction es as [|e es IH]; intros m p Hf Hm; simpl in Hf; [by simplify_eq|].
    apply res_bind_Ok in Hf as (m' & Hm' & Hf). eauto using parse_entry_keys. }
  apply (Hf es ∅ p); [done|]. intros k [? Hk]. by rewrite lookup_empty in Hk.
Qed.

Lemma permissions_within_catalogue_witness :
  permits (safeParse (Some (JObj [("folios", JArr [JStr "read"; JStr "read"])]))) "folios" read = true /\ "folios" ∈ MODULE_KEYS.
Proof.
  split; [reflexivity|].
  apply (permissions_within_catalogue (Some (JObj [("folios", JArr [JStr "read"; JStr "read"])])) "folios" read). reflexivity.
Defined.

(** an API key only reads, and only what it was given: whenever the guard
    lets a key through, the request is a GET or HEAD, the route belongs to a
    module in the key's scopes with a reading action, reveals no document
    number, and names no branch other than the key's own. *)
Theorem api_key_reads_only (g : Grants) (rt : Route) (rq : Request) (u : JwtPayload) (key : ApiKeyPrincipal) :
  user rq = Some u -> apiKey u = Some key -> canActivate g rt rq = Ok true ->
  (js_upper (method rq) = "GET" \/ js_upper (method rq) = "HEAD") /\
  (exists module a, permission rt = Some (module, a) /\ module ∈ scopes key /\
     default (actionForMethod (js_upper (method rq))) a = read) /\
  reveal rq = false /\
  (forall kb b, key_branchId key = Some kb -> request_branch rq = Some b -> b = kb).
Proof.
  intros Hu Hk Hc. unfold canActivate in Hc. rewrite Hu, Hk in Hc. unfold apiKeyMayRead in Hc.
  res_inv. destruct (permission rt) as [[module a]|]; [|discriminate]. res_inv. boolp.
  match goal with H : includes _ _ = true |- _ => apply includes_spec in H end.
  split_and!; [naive_solver.. |]. intros kb b Hkb Hb. rewrite Hkb, Hb in Hc. res_inv. by boolp.
Qed.

Definition report_key : JwtPayload := {| sub := "key"; roles := []; apiKey := Some {| scopes := ["reports"]; key_branchId := Some "b1" |} |}.
Definition no_grants : Grants := {| rolesFor := ∅; page_rows := ∅; page_uses _ := [] |}.
Definition report_route : Route := {| required := Some ["owner"]; permission := Some ("reports", None) |}.
Definition report_request : Request :=
  {| user := Some report_key; method := "GET"; reveal := false; param_branchId := Some "b1"; record_branch := None |}.

Lemma api_key_reads_only_witness : canActivate no_grants report_route report_request = Ok true /\ reveal report_request = false.
Proof.
  split; [reflexivity|].
  exact (proj1 (proj2 (proj2 (api_key_reads_only no_grants report_route report_request report_key _ eq_refl eq_refl eq_refl)))).
Defined.

Lemma customRoleAllows_inv g rt rq names : customRoleAllows g rt rq names = true ->
  exists module a name r, permission rt = Some (module, a) /\ name ∈ names /\ rolesFor g !! name = Some r /\
    isSystem r = false /\ permits (permissions r) module (default (actionForMethod (method rq)) a) = true.
Proof.
  unfold customRoleAllows. destruct names as [|n names]; [done|]. destruct (permission rt) as [[module a]|]; [|done].
  intros He. apply existsb_exists_elem in He as (name & Hin & Hr).
  destruct (rolesFor g !! name) as [r|] eqn:E; [|done]. boolp. naive_solver.
Qed.

(** C40: a person passes a route that names roles only by holding, at the
    request's branch, one of those roles or a custom (not seeded) role whose
    permissions cover the route's own module and action; a route of no module
    is out of reach of every custom role. *)
Theorem roles_guard_sound (g : Grants) (rt : Route) (rq : Request) (u : JwtPayload) (r0 : string) (rs : list string) :
  user rq = Some u -> apiKey u = None -> required rt = Some (r0 :: rs) -> canActivate g rt rq = Ok true ->
  exists a, a ∈ roles u /\ atThisBranch (request_branch rq) a = true /\
    (role a ∈ r0 :: rs \/
     exists module act r, permission rt = Some (module, act) /\ rolesFor g !! role a = Some r /\ isSystem r = false /\
       permits (permissions r) module (default (actionForMethod (method rq)) act) = true).
Proof.
  intros Hu Hk Hr Hc. unfold canActivate in Hc. rewrite Hu, Hk, Hr in Hc. res_inv. boolp.
  match goal with H : _ \/ _ |- _ => destruct H as [H|H] end.
  - match goal with H : existsb _ _ = true |- _ => apply existsb_exists_elem in H as (a & Hin & Ha) end.
    boolp. destruct Ha as [Ha ?]. apply includes_spec in Ha. naive_solver.
  - match goal with H : customRoleAllows _ _ _ _ = true |- _ =>
      apply customRoleAllows_inv in H as (module & act & name & r & ? & Hin & ? & ? & ?) end.
    apply list_elem_of_fmap in Hin as (a & -> & Hin).
    apply list_elem_of_In, List.filter_In in Hin as [Hin ?]. apply list_elem_of_In in Hin. naive_solver.
Qed.

Definition desk : JwtPayload := {| sub := "u1"; roles := [{| branchId := Some "b1"; role := "front_desk" |}]; apiKey := None |}.
Definition desk_request : Request :=
  {| user := Some desk; method := "POST"; reveal := false; param_branchId := None; record_branch := Some "b1" |}.
Definition desk_route : Route := {| required := Some ["front_desk"]; permission := Some ("folios", None) |}.

Lemma roles_guard_sound_witness : canActivate no_grants desk_route desk_request = Ok true /\
  exists a, a ∈ roles desk /\ atThisBranch (Some "b1") a = true.
Proof.
  split; [reflexivity|].
  destruct (roles_guard_sound no_grants desk_route desk_request desk "front_desk" [] eq_refl eq_refl eq_refl eq_refl)
    as (a & Hin & Ha & _). exists a. split; [exact Hin | exact Ha].
Defined.
End AuthorityProps.
