(* ===== verification/StayPolicies.v ===== *)
(** Reservation policies: night prices, cancellation and no-show penalties,
    late check-out and early departure fees, deposits, day use
    (src/src/modules/reservations/{nightly-rates,policies,stay-fees,deposits,day-use}.ts). *)
From S2P Require Import Prelude Decimal Dates Json.
From stdpp Require Import pretty.
From Stdlib Require Import Ascii QArith Qcanon.
Local Open Scope Z_scope.

(** [Math.max(1, Math.round((out - in) / 86_400_000))] *)
Definition stay_nights (checkIn checkOut : Z) : Z :=
  Z.max 1 ((2 * (checkOut - checkIn) + DAY_MS) / (2 * DAY_MS)).

(** ** Nightly rates *)
Module NightlyRates.
Section S.
Context `{DecimalLib}.

(** [nights.find(n => typeof n === 'object' && n !== null && n.date === day)]:
    an array has no [date], so it never matches. *)
Fixpoint find_night (day : string) (l : list json) : option json :=
  match l with
  | [] => None
  | n :: l => match member "date" (Some n) with
              | Some (JStr d) => if bool_decide (d = day) then Some n else find_night day l
              | _ => find_night day l
              end
  end.

Definition nightlyRateFor (nightlyRates : option json) (serviceDate : Z) : res (option Qc) :=
  match nightlyRates with
  | Some (JArr nights) =>
      match find_night (iso_date serviceDate) nights with
      | None => Ok None
      | Some night =>
          match member "rate" (Some night) with
          | Some (JStr text) =>
              match dec_parse text with
              | PFinite r => Ok (Some r)
              | PNonFinite => Ok None
              | PThrows => Err (Throw InternalServerError INTERNAL)
              end
          | Some (JNum x) => Ok (Some x)
          | _ => Ok None
          end
      end
  | _ => Ok None
  end.

(** The stay's nights as the resolver writes them: a date and a printed rate. *)
Definition night_entry (n : Z * Qc) : json :=
  JObj [("date", JStr (iso_day (fst n))); ("rate", JStr (to_fixed2 (snd n)))].
End S.
End NightlyRates.
Import NightlyRates.

(** ** Cancellation policy *)
Module Cancellation.
Inductive PenaltyType := first_night | full_stay | flat_fee | none.
#[global] Instance PenaltyType_eq_dec : EqDecision PenaltyType.
Proof. solve_decision. Defined.

Definition PENALTY_TYPE_of (s : string) : option PenaltyType :=
  if bool_decide (s = "first_night") then Some first_night
  else if bool_decide (s = "full_stay") then Some full_stay
  else if bool_decide (s = "flat_fee") then Some flat_fee
  else if bool_decide (s = "none") then Some none else None.
Definition penalty_name (p : PenaltyType) : string :=
  match p with first_night => "first_night" | full_stay => "full_stay" | flat_fee => "flat_fee" | none => "none" end.

Record CancellationPolicy := {
  freeCancellationHours : Qc;
  lateCancellationPenalty : PenaltyType;
  flatFeeAmount : option Qc;
  allowOnlineCancellation : bool;
}.

Definition DEFAULT_CANCELLATION_POLICY : CancellationPolicy := {|
  freeCancellationHours := Qc_of_Z 24;
  lateCancellationPenalty := first_night;
  flatFeeAmount := None;
  allowOnlineCancellation := true;
|}.

Definition CANCELLABLE_STATUSES : list string := ["confirmed"; "waitlisted"].

Definition resolveCancellationPolicy (stored : option json) : CancellationPolicy := {|
  freeCancellationHours :=
    match as_number (member "freeCancellationHours" stored) with
    | Some h => if bool_decide (0 <= h)%Qc then h else freeCancellationHours DEFAULT_CANCELLATION_POLICY
    | None => freeCancellationHours DEFAULT_CANCELLATION_POLICY
    end;
  lateCancellationPenalty :=
    default (lateCancellationPenalty DEFAULT_CANCELLATION_POLICY)
      (s ← as_string (member "lateCancellationPenalty" stored); PENALTY_TYPE_of s);
  flatFeeAmount := positive_number (member "flatFeeAmount" stored);
  allowOnlineCancellation :=
    default (allowOnlineCancellation DEFAULT_CANCELLATION_POLICY) (as_bool (member "allowOnlineCancellation" stored));
|}.

Record PricedStay := {
  confirmedRate : Qc;
  overrideRate : option Qc;
  checkInDate : Z;
  checkOutDate : Z;
  nightlyRates : option json;
}.

Record CancellationTerms := {
  checkInAt : Z;
  freeUntil : Z;
  withinFreeWindow : bool;
  pastCheckInTime : bool;
  penaltyType : PenaltyType;
  penaltyAmount : Qc;
}.

Section S.
Context `{DecimalLib} `{Platform}.

Definition penaltyAmountFor (stay : PricedStay) (p : PenaltyType) (flat : option Qc) : res (option Qc) :=
  let nights := stay_nights (checkInDate stay) (checkOutDate stay) in
  match p with
  | first_night =>
      match overrideRate stay with
      | Some r => Ok (Some r)
      | None =>
          let? own := nightlyRateFor (nightlyRates stay) (checkInDate stay) in
          Ok (Some (match own with
                    | Some r => r
                    | None => dp2 (confirmedRate stay ⊘ Qc_of_Z nights)
                    end))
      end
  | full_stay => Ok (Some (confirmedRate stay))
  | flat_fee =>
      Ok (match flat with
          | Some f => if bool_decide (f = 0)%Qc then None else Some f
          | None => None
          end)
  | none => Ok None
  end.

Definition cancellationTermsFor (stay : PricedStay) (status : string)
    (timezone : string) (checkInTime : Z) (policy : CancellationPolicy) (now : Z) : res CancellationTerms :=
  let checkInAt := branchCutoffInstant (checkInDate stay) (timeOfDay checkInTime) timezone in
  let freeUntil := round_down (Qc_of_Z checkInAt - freeCancellationHours policy * Qc_of_Z 3600000)%Qc in
  let withinFreeWindow := bool_decide (status = "waitlisted") || (now <? freeUntil) in
  let? amount := (if withinFreeWindow then Ok None
                  else penaltyAmountFor stay (lateCancellationPenalty policy) (flatFeeAmount policy)) in
  let penaltyAmount := match amount with Some a => if dgt a 0%Qc then a else 0%Qc | None => 0%Qc end in
  Ok {| checkInAt := checkInAt; freeUntil := freeUntil; withinFreeWindow := withinFreeWindow;
        pastCheckInTime := checkInAt <=? now;
        penaltyType := if dis_zero penaltyAmount then none else lateCancellationPenalty policy;
        penaltyAmount := penaltyAmount |}.
End S.
End Cancellation.

(** ** Late check-out and early departure *)
Module StayFees.
Import Cancellation (PricedStay, confirmedRate, overrideRate, checkInDate, checkOutDate, nightlyRates).

Inductive LateFeeType := late_flat | percent_of_night.
Inductive EarlyFeeType := early_flat | early_first_night | percent_of_remaining.

Record LateCheckoutPolicy := { graceMinutes : Z; late_feeType : LateFeeType; late_amount : Qc }.
Record EarlyDeparturePolicy := { early_feeType : EarlyFeeType; early_amount : option Qc }.
Record StayFeePolicy := {
  lateCheckout : option LateCheckoutPolicy;
  earlyDeparture : option EarlyDeparturePolicy;
}.

Definition late_type_of (j : option json) : option LateFeeType :=
  s ← as_string j;
  if bool_decide (s = "flat") then Some late_flat
  else if bool_decide (s = "percent_of_night") then Some percent_of_night else None.
Definition early_type_of (j : option json) : option EarlyFeeType :=
  s ← as_string j;
  if bool_decide (s = "flat") then Some early_flat
  else if bool_decide (s = "first_night") then Some early_first_night
  else if bool_decide (s = "percent_of_remaining") then Some percent_of_remaining else None.

Definition over_100 (a : Qc) : bool := bool_decide (Qc_of_Z 100 < a)%Qc.

Definition resolveStayFeePolicy (stored : option json) : StayFeePolicy :=
  let s := as_object stored in
  let late := as_object (member "lateCheckout" s) in
  let early := as_object (member "earlyDeparture" s) in
  let lateAmount := positive_number (member "amount" late) in
  let lateType := late_type_of (member "feeType" late) in
  let grace := default 0 (natural_number (member "graceMinutes" late)) in
  let earlyType := early_type_of (member "feeType" early) in
  let earlyAmount := positive_number (member "amount" early) in
  {| lateCheckout :=
       match lateType, lateAmount with
       | Some t, Some a =>
           if (match t with percent_of_night => over_100 a | late_flat => false end) then None
           else Some {| graceMinutes := grace; late_feeType := t; late_amount := a |}
       | _, _ => None
       end;
     earlyDeparture :=
       match earlyType with
       | Some early_first_night => Some {| early_feeType := early_first_night; early_amount := None |}
       | Some t =>
           match earlyAmount with
           | Some a =>
               if (match t with percent_of_remaining => over_100 a | _ => false end) then None
               else Some {| early_feeType := t; early_amount := Some a |}
           | None => None
           end
       | None => None
       end |}.

Inductive FeeKind := late_checkout | early_departure.
Record StayFee := { kind : FeeKind; amount : Qc; description : string }.

(** The loop over nights, from [night] while before [stop]. [fuel] counts the
    days between them, so it never cuts the loop short ([nights_from_enough]). *)
Fixpoint nights_from (fuel : nat) (night stop : Z) : list Z :=
  match fuel with
  | O => []
  | S fuel => if night <? stop then night :: nights_from fuel (night + DAY_MS) stop else []
  end.
Definition nights_between (start stop : Z) : list Z :=
  nights_from (Z.to_nat ((stop - start) / DAY_MS + 1)) start stop.

Section S.
Context `{DecimalLib} `{Platform}.

Definition nightPrice (stay : PricedStay) (night : Z) : res Qc :=
  match overrideRate stay with
  | Some r => Ok r
  | None =>
      let nights := stay_nights (checkInDate stay) (checkOutDate stay) in
      let? own := nightlyRateFor (nightlyRates stay) night in
      Ok (match own with
          | Some r => r
          | None => dp2 (confirmedRate stay ⊘ Qc_of_Z nights)
          end)
  end.

Definition early_fee (p : EarlyDeparturePolicy) (stay : PricedStay) (remaining : list Z) : res Qc :=
  match early_feeType p with
  | early_flat => Ok (default 0%Qc (early_amount p))
  | early_first_night =>
      match remaining with
      | night :: _ => nightPrice stay night
      | [] => Ok 0%Qc
      end
  | percent_of_remaining =>
      let? total := res_foldM (fun sum night => let? p := nightPrice stay night in Ok (sum ⊕ p)) 0%Qc remaining in
      Ok (total ⊗ default 0%Qc (early_amount p) ⊘ Qc_of_Z 100)
  end.

Definition late_fee (p : LateCheckoutPolicy) (stay : PricedStay) : res Qc :=
  match late_feeType p with
  | late_flat => Ok (late_amount p)
  | percent_of_night =>
      let? price := nightPrice stay (checkOutDate stay - DAY_MS) in
      Ok (price ⊗ late_amount p ⊘ Qc_of_Z 100)
  end.

Definition nights_given_up (stay : PricedStay) (today : Z) (billedNights : gset string) : list Z :=
  filter (fun night => iso_date night ∉ billedNights)
    (nights_between (Z.max today (checkInDate stay)) (checkOutDate stay)).

Definition early_description (given : nat) : string :=
  "Early departure fee (" +:+ pretty given +:+ " night" +:+ (if decide (given = 1%nat) then "" else "s") +:+ " given up)".

Definition stayFeesFor (policy : StayFeePolicy) (stay : PricedStay) (timezone : string) (checkOutTime : Z)
    (today now : Z) (billedNights : gset string) : res (list StayFee) :=
  let? early :=
    match earlyDeparture policy with
    | Some p =>
        if today <? checkOutDate stay then
          let remaining := nights_given_up stay today billedNights in
          let? raw := early_fee p stay remaining in
          let amount := dp2 raw in
          let given := length remaining in
          Ok (if bool_decide (0 < given)%nat && dgt amount 0%Qc
              then [{| kind := early_departure; amount := amount; description := early_description given |}]
              else [])
        else Ok []
    | None => Ok []
    end in
  let? late :=
    match lateCheckout policy with
    | Some p =>
        if checkOutDate stay <=? today then
          let deadline := branchCutoffInstant today (timeOfDay checkOutTime) timezone + graceMinutes p * 60000 in
          if deadline <? now then
            let? raw := late_fee p stay in
            let amount := dp2 raw in
            Ok (if dgt amount 0%Qc
                then [{| kind := late_checkout; amount := amount; description := "Late check-out fee" |}]
                else [])
          else Ok []
        else Ok []
    | None => Ok []
    end in
  Ok (early ++ late).
End S.
End StayFees.

(** ** Deposits *)
Module Deposits.
Inductive DepositType := dep_first_night | percentage | fixed.

(** A resolved policy: [none] resolves to no policy at all. *)
Record DepositPolicy := { type : DepositType; value : option Qc; dueDaysBeforeArrival : Z }.

Definition deposit_type_of (s : string) : option DepositType :=
  if bool_decide (s = "first_night") then Some dep_first_night
  else if bool_decide (s = "percentage") then Some percentage
  else if bool_decide (s = "fixed") then Some fixed else None.

Definition resolveDepositPolicy (stored : option json) : option DepositPolicy :=
  s ← as_object stored;
  name ← as_string (member "type" (Some s));
  t ← deposit_type_of name;
  let value := positive_number (member "value" (Some s)) in
  let days := default 0 (natural_number (member "dueDaysBeforeArrival" (Some s))) in
  match t, value with
  | percentage, None | fixed, None => None
  | percentage, Some v => if bool_decide (Qc_of_Z 100 < v)%Qc then None
                          else Some {| type := t; value := value; dueDaysBeforeArrival := days |}
  | _, _ => Some {| type := t; value := value; dueDaysBeforeArrival := days |}
  end.

Record PricedForDeposit := { checkInDate : Z; subtotal : Qc; totalWithTax : Qc; firstNight : Qc }.

Section S.
Context `{DecimalLib}.

Definition deposit_raw (policy : DepositPolicy) (stay : PricedForDeposit) : Qc :=
  match type policy with
  | dep_first_night =>
      if dgt (subtotal stay) 0%Qc then firstNight stay ⊗ totalWithTax stay ⊘ subtotal stay else firstNight stay
  | percentage => totalWithTax stay ⊗ default 0%Qc (value policy) ⊘ Qc_of_Z 100
  | fixed => default 0%Qc (value policy)
  end.

Definition depositFor (policy : option DepositPolicy) (stay : PricedForDeposit) (bookedOn : Z) : option (Qc * Z) :=
  policy ← policy;
  let amount := dp2 (dmin (deposit_raw policy stay) (totalWithTax stay)) in
  if dgt amount 0%Qc then
    let due := checkInDate stay - dueDaysBeforeArrival policy * DAY_MS in
    Some (amount, if due <? bookedOn then bookedOn else due)
  else None.
End S.
End Deposits.

(** ** Day use *)
Module DayUse.
Record DayUseHours := { from : string; until : string }.

(** [/^([01]\d|2[0-3]):[0-5]\d$/] *)
Definition CLOCK (s : string) : bool :=
  match s with
  | String a (String b (String c (String d (String e EmptyString)))) =>
      match char_digit a, char_digit b, char_digit d, char_digit e with
      | Some h1, Some h2, Some m1, Some m2 =>
          ((h1 <=? 1) || ((h1 =? 2) && (h2 <=? 3))) && bool_decide (c = ":"%char) && (m1 <=? 5)
      | _, _, _, _ => false
      end
  | _ => false
  end.

Definition dayUseHoursFor (stored : option json) : option DayUseHours :=
  s ← as_object stored;
  from ← as_string (member "from" (Some s));
  until ← as_string (member "until" (Some s));
  if CLOCK from && CLOCK until && negb (String.leb until from)
  then Some {| from := from; until := until |} else None.
End DayUse.

(** ** Properties

    Witnesses run on the reference decimal library and on a server in UTC with
    branches one hour ahead of it. *)
#[local] Existing Instance Reference.decimal_js.
#[local] Instance lagos : Platform := fixed_platform (fun _ => 60).

Module NightlyRatesProps.
Section S.
Context `{DecimalLib}.

Lemma find_night_entry (nights : list (Z * Qc)) n r :
  Forall (fun x => in_iso_range (fst x)) nights -> in_iso_range n ->
  NoDup (fst <$> nights) -> (n, r) ∈ nights ->
  find_night (iso_day n) (night_entry <$> nights) = Some (night_entry (n, r)).
Proof.
  intros Hr Hn Hd Hin. induction nights as [|[m q] nights IH]; [by apply not_elem_of_nil in Hin|].
  inversion_clear Hr. inversion_clear Hd as [|? ? Hnot Hd']. simpl. case_bool_decide as Heq.
  - apply (f_equal parse_iso_day) in Heq. rewrite !parse_iso_day_iso in Heq by done.
    injection Heq as ->. apply elem_of_cons in Hin as [Hin|Hin]; [by simplify_eq|].
    exfalso. apply Hnot. apply list_elem_of_fmap. by exists (n, r).
  - apply IH; [done..|]. apply elem_of_cons in Hin as [Hin|Hin]; [by simplify_eq | done].
Qed.
End S.

(** a stay's nights, written as the resolver writes them, price each night
    at its own quoted rate: looking up the night's date gives back the rate
    stored for it, to the cent, and never another night's. *)
Theorem nightly_rate_roundtrip `{DecimalLib} (nights : list (Z * Qc)) (n : Z) (r : Qc) :
  Forall (fun x => in_iso_range (fst x)) nights -> NoDup (fst <$> nights) -> (n, r) ∈ nights ->
  nightlyRateFor (Some (JArr (night_entry <$> nights))) (n * DAY_MS) = Ok (Some (dp2 r)).
Proof.
  intros Hr Hd Hin. unfold nightlyRateFor, iso_date. rewrite day_of_midnight.
  assert (in_iso_range n) as Hn.
  { rewrite Forall_forall in Hr. by apply (Hr (n, r)). }
  rewrite (find_night_entry nights n r) by done. simpl. by rewrite dec_parse_to_fixed2.
Qed.

Lemma nightly_rate_roundtrip_witness :
  nightlyRateFor (Some (JArr (night_entry <$> [(20000, cents 12050); (20001, cents 9900)]))) (20001 * DAY_MS)
  = Ok (Some (dp2 (cents 9900))).
Proof.
  apply nightly_rate_roundtrip.
  - repeat constructor; unfold in_iso_range; simpl; lia.
  - repeat constructor; set_solver.
  - right. left.
Defined.
End NightlyRatesProps.

Module CancellationProps.
Import Cancellation.

Definition encode_policy (p : CancellationPolicy) : json :=
  JObj [("freeCancellationHours", JNum (freeCancellationHours p));
        ("lateCancellationPenalty", JStr (penalty_name (lateCancellationPenalty p)));
        ("flatFeeAmount", match flatFeeAmount p with Some f => JNum f | None => JNull end);
        ("allowOnlineCancellation", JBool (allowOnlineCancellation p))].

Definition policy_wf (p : CancellationPolicy) : Prop :=
  (0 <= freeCancellationHours p)%Qc /\ match flatFeeAmount p with Some f => (0 < f)%Qc | None => True end.

Lemma PENALTY_TYPE_of_name p : PENALTY_TYPE_of (penalty_name p) = Some p.
Proof. by destruct p. Qed.

(** Whatever is stored, the policy read from it is well formed. *)
Lemma resolve_wf stored : policy_wf (resolveCancellationPolicy stored).
Proof.
  unfold policy_wf, resolveCancellationPolicy. simpl. split.
  - destruct (as_number _); [case_bool_decide; [done|]|]; by vm_compute.
  - destruct (positive_number _) eqn:E; [|done]. by eapply positive_number_pos.
Qed.

Lemma resolve_encode p : policy_wf p -> resolveCancellationPolicy (Some (encode_policy p)) = p.
Proof.
  intros [Hh Hf]. destruct p as [h pen f on]. unfold resolveCancellationPolicy. simpl in *.
  rewrite PENALTY_TYPE_of_name. rewrite bool_decide_true by done. simpl. f_equal.
  destruct f as [f|]; [|done]. unfold positive_number. simpl. by rewrite bool_decide_true.
Qed.

(** reading a stored cancellation policy always gives a well-formed one
    (free hours not negative, a flat fee positive), whatever the JSON holds, and
    a well-formed policy is read back exactly as it was written. *)
Theorem cancellation_policy_roundtrip :
  (forall stored, policy_wf (resolveCancellationPolicy stored)) /\
  (forall stored, resolveCancellationPolicy (Some (encode_policy (resolveCancellationPolicy stored)))
                  = resolveCancellationPolicy stored).
Proof. split; intros; [apply resolve_wf | apply resolve_encode, resolve_wf]. Qed.

Section S.
Context `{DecimalLib} `{Platform}.

Lemma terms_inv stay st tz ct pol now t :
  cancellationTermsFor stay st tz ct pol now = Ok t ->
  checkInAt t = branchCutoffInstant (checkInDate stay) (timeOfDay ct) tz /\
  freeUntil t = round_down (Qc_of_Z (checkInAt t) - freeCancellationHours pol * Qc_of_Z 3600000)%Qc /\
  withinFreeWindow t = bool_decide (st = "waitlisted") || (now <? freeUntil t) /\
  pastCheckInTime t = (checkInAt t <=? now) /\
  penaltyType t = (if dis_zero (penaltyAmount t) then none else lateCancellationPenalty pol) /\
  (0 <= penaltyAmount t)%Qc /\
  (withinFreeWindow t = true -> penaltyAmount t = 0%Qc) /\
  (withinFreeWindow t = false -> exists a,
     penaltyAmountFor stay (lateCancellationPenalty pol) (flatFeeAmount pol) = Ok a /\
     penaltyAmount t = match a with Some a => if dgt a 0%Qc then a else 0%Qc | None => 0%Qc end).
Proof.
  unfold cancellationTermsFor. intros Ht.
  apply res_bind_Ok in Ht as (a & Ha & [= <-]). simpl. repeat (split; [done|]). split_and!.
  - destruct a as [a|]; [|apply Qcle_refl]. destruct (dgt_spec a 0%Qc); [by apply Qclt_le_weak | apply Qcle_refl].
  - intros Hw. rewrite Hw in Ha. by injection Ha as <-.
  - intros Hw. rewrite Hw in Ha. eauto.
Qed.
End S.

(** cancellation terms are what the policy says: before the free-until
    instant (or on a waitlisted booking) nothing is charged; after it the charge
    is the policy's penalty, never negative; the type reads "none" exactly when
    nothing is charged. *)
Theorem cancellation_terms_correct `{DecimalLib} `{Platform} stay st tz ct pol now t :
  cancellationTermsFor stay st tz ct pol now = Ok t ->
  (0 <= penaltyAmount t)%Qc /\
  (penaltyType t = none <-> penaltyAmount t = 0%Qc \/ lateCancellationPenalty pol = none) /\
  ((st = "waitlisted" \/ now < freeUntil t) -> penaltyAmount t = 0%Qc) /\
  (st <> "waitlisted" -> freeUntil t <= now ->
     exists a, penaltyAmountFor stay (lateCancellationPenalty pol) (flatFeeAmount pol) = Ok a /\
               penaltyAmount t = default 0%Qc (dmax 0%Qc <$> a)).
Proof.
  intros Ht. apply terms_inv in Ht as (_ & _ & Hw & _ & Hty & Hnn & Hfree & Hlate).
  split; [done|]. split; [|split].
  - rewrite Hty. destruct (dis_zero_spec (penaltyAmount t)); naive_solver.
  - intros Hc. apply Hfree. rewrite Hw. apply orb_true_iff. destruct Hc; [left | right]; boolp; done.
  - intros Hst Hnow. destruct Hlate as (a & Ha & ->).
    { rewrite Hw. apply orb_false_iff. split; boolp; done. }
    exists a. split; [done|]. destruct a as [a|]; [|done]. simpl. apply dgt_dmax.
Qed.

(** cancelling later never costs less: the charge is nothing up to the
    free-until instant and the same amount from then on. *)
Theorem cancellation_penalty_monotone `{DecimalLib} `{Platform} stay st tz ct pol now1 now2 t1 t2 :
  cancellationTermsFor stay st tz ct pol now1 = Ok t1 ->
  cancellationTermsFor stay st tz ct pol now2 = Ok t2 ->
  now1 <= now2 ->
  (penaltyAmount t1 <= penaltyAmount t2)%Qc /\
  (withinFreeWindow t2 = true -> withinFreeWindow t1 = true) /\
  (withinFreeWindow t1 = false -> penaltyAmount t1 = penaltyAmount t2).
Proof.
  intros H1 H2 Hle.
  apply terms_inv in H1 as (Hc1 & Hf1 & Hw1 & _ & _ & Hnn1 & Hfr1 & Hl1).
  apply terms_inv in H2 as (Hc2 & Hf2 & Hw2 & _ & _ & Hnn2 & Hfr2 & Hl2).
  assert (freeUntil t1 = freeUntil t2) as Heq by congruence.
  assert (withinFreeWindow t2 = true -> withinFreeWindow t1 = true) as Hmono.
  { rewrite Hw1, Hw2, Heq. rewrite !orb_true_iff. boolp. intros [?|?]; [by left | right; lia]. }
  assert (withinFreeWindow t1 = false -> penaltyAmount t1 = penaltyAmount t2) as Hsame.
  { intros Hfalse. destruct (withinFreeWindow t2) eqn:E2; [by rewrite Hmono in Hfalse|].
    destruct (Hl1 Hfalse) as (a & Ha & ->), (Hl2 eq_refl) as (b & Hb & ->). rewrite Ha in Hb. by injection Hb as ->. }
  split_and!; [|done..]. destruct (withinFreeWindow t1) eqn:E1.
  - by rewrite Hfr1.
  - rewrite Hsame by done. apply Qcle_refl.
Qed.

(** A two-night stay from 20 September 2026 booked at 200.00. *)
Definition sample_stay : PricedStay :=
  {| confirmedRate := cents 20000; overrideRate := None; checkInDate := 20716 * DAY_MS;
     checkOutDate := 20718 * DAY_MS; nightlyRates := None |}.

Lemma cancellation_terms_correct_witness : exists t,
  cancellationTermsFor sample_stay "confirmed" "Africa/Lagos" (14 * 3600000) DEFAULT_CANCELLATION_POLICY (20716 * DAY_MS) = Ok t /\
  (exists a, penaltyAmountFor sample_stay first_night None = Ok a /\ penaltyAmount t = default 0%Qc (dmax 0%Qc <$> a)).
Proof.
  eexists. split; [reflexivity|].
  edestruct (cancellation_terms_correct sample_stay "confirmed" "Africa/Lagos" (14 * 3600000)
    DEFAULT_CANCELLATION_POLICY (20716 * DAY_MS)) as (_ & _ & _ & Hlate); [reflexivity|].
  apply Hlate; [discriminate | vm_compute; discriminate].
Defined.

Lemma cancellation_penalty_monotone_witness : exists t1 t2,
  cancellationTermsFor sample_stay "confirmed" "Africa/Lagos" (14 * 3600000) DEFAULT_CANCELLATION_POLICY (20700 * DAY_MS) = Ok t1 /\
  cancellationTermsFor sample_stay "confirmed" "Africa/Lagos" (14 * 3600000) DEFAULT_CANCELLATION_POLICY (20716 * DAY_MS) = Ok t2 /\
  (penaltyAmount t1 <= penaltyAmount t2)%Qc.
Proof.
  eexists _, _. split; [reflexivity|]. split; [reflexivity|].
  edestruct (cancellation_penalty_monotone sample_stay "confirmed" "Africa/Lagos" (14 * 3600000)
    DEFAULT_CANCELLATION_POLICY (20700 * DAY_MS) (20716 * DAY_MS)) as (Hle & _);
    [reflexivity | reflexivity | vm_compute; discriminate | exact Hle].
Defined.
End CancellationProps.

Module StayFeesProps.
Import StayFees.
Import Cancellation (PricedStay, confirmedRate, overrideRate, checkInDate, checkOutDate, nightlyRates,
  penaltyAmountFor, first_night).

(** The loop's fuel is enough: more of it changes nothing. *)
Lemma nights_from_enough f night stop : stop <= night + Z.of_nat f * DAY_MS ->
  nights_from (S f) night stop = nights_from f night stop.
Proof.
  revert night. induction f as [|f IH]; intros night Hf; simpl in *.
  - destruct (Z.ltb_spec night stop); [lia | done].
  - destruct (night <? stop); [|done]. f_equal. apply (IH (night + DAY_MS)). lia.
Qed.

Lemma elem_of_nights_from f night stop n :
  n ∈ nights_from f night stop <-> exists i, (i < f)%nat /\ n = night + Z.of_nat i * DAY_MS /\ n < stop.
Proof.
  revert night. induction f as [|f IH]; intros night; simpl.
  - rewrite elem_of_nil. split; [done | intros (i & ? & _); lia].
  - destruct (Z.ltb_spec night stop) as [Hlt|Hge].
    + rewrite elem_of_cons, IH. split.
      * intros [->|(i & Hi & -> & Hs)]; [exists O; lia|]. exists (S i). unfold DAY_MS in *. lia.
      * intros ([|i] & Hi & -> & Hs); [left; lia|]. right. exists i. unfold DAY_MS in *. lia.
    + rewrite elem_of_nil. split; [done|]. intros (i & Hi & -> & Hs). unfold DAY_MS in *. lia.
Qed.

Lemma elem_of_nights_between start stop n :
  n ∈ nights_between start stop <-> exists i, 0 <= i /\ n = start + i * DAY_MS /\ n < stop.
Proof.
  unfold nights_between. rewrite elem_of_nights_from. split.
  - intros (i & Hi & -> & Hs). exists (Z.of_nat i). lia.
  - intros (i & Hi & -> & Hs). exists (Z.to_nat i). rewrite Z2Nat.id by lia.
    split_and!; [|done..]. apply Z2Nat.inj_lt; [lia| |].
    + pose proof (Z.div_pos (stop - start) DAY_MS ltac:(unfold DAY_MS in *; lia) ltac:(done)). lia.
    + assert (i <= (stop - start) / DAY_MS); [|lia]. apply Z.div_le_lower_bound; [done | lia].
Qed.

(** the nights an early departure gives up are exactly the stay's nights
    from tonight (or arrival) up to the booked departure that no bill carries
    yet: none before today, none outside the stay, none already billed. *)
Theorem nights_given_up_exact (stay : PricedStay) (today : Z) (billed : gset string) (n : Z) :
  (n ∈ nights_given_up stay today billed) <->
  (iso_date n ∉ billed) /\ n < checkOutDate stay /\
  exists i, 0 <= i /\ n = Z.max today (checkInDate stay) + i * DAY_MS.
Proof.
  unfold nights_given_up. rewrite list_elem_of_filter, elem_of_nights_between. naive_solver.
Qed.

(** one night has one price: what a first-night penalty charges is the
    price the fees take for the arrival night, whatever the stay holds. *)
Theorem first_night_priced_once `{DecimalLib} (stay : PricedStay) flat :
  penaltyAmountFor stay first_night flat =
  (let? p := nightPrice stay (checkInDate stay) in Ok (Some p)).
Proof.
  unfold penaltyAmountFor, nightPrice. destruct (overrideRate stay); [done|].
  destruct (nightlyRateFor (nightlyRates stay) (checkInDate stay)); reflexivity.
Qed.

(** leaving costs at most one fee: an early-departure fee only before the
    departure day and with a night given up, a late check-out fee only from the
    departure day on and after the deadline; every fee is positive and in whole
    cents. *)
Theorem stay_fees_exclusive `{DecimalLib} `{Platform} policy stay tz ct today now billed fees :
  stayFeesFor policy stay tz ct today now billed = Ok fees ->
  (length fees <= 1)%nat /\
  Forall (fun f => (0 < amount f)%Qc /\ (exists z, amount f = cents z) /\
    match kind f with
    | early_departure => today < checkOutDate stay /\ nights_given_up stay today billed <> []
    | late_checkout => checkOutDate stay <= today /\
        exists p, lateCheckout policy = Some p /\
          branchCutoffInstant today (timeOfDay ct) tz + graceMinutes p * 60000 < now
    end) fees.
Proof.
  unfold stayFeesFor. intros Hf. apply res_bind_Ok in Hf as (e & He & Hf).
  apply res_bind_Ok in Hf as (l & Hl & [= <-]).
  assert (e = [] \/ (today < checkOutDate stay /\ nights_given_up stay today billed <> [] /\
    exists z, (0 < cents z)%Qc /\ exists d, e = [{| kind := early_departure; amount := cents z; description := d |}])) as He'.
  { destruct (earlyDeparture policy) as [p|]; [|injection He as <-; by left].
    destruct (Z.ltb_spec today (checkOutDate stay)) as [Hlt|]; [|injection He as <-; by left].
    apply res_bind_Ok in He as (raw & _ & [= <-]). case_bool_decide as Hlen; simpl; [|by left].
    destruct (dgt_spec (dp2 raw) 0%Qc) as [Hpos|]; [|by left]. right. split; [done|]. split.
    - destruct (nights_given_up stay today billed); [simpl in Hlen; lia | done].
    - rewrite dp2_spec in *. eauto. }
  assert (l = [] \/ (checkOutDate stay <= today /\ (exists p, lateCheckout policy = Some p /\
      branchCutoffInstant today (timeOfDay ct) tz + graceMinutes p * 60000 < now) /\
    exists z, (0 < cents z)%Qc /\ exists d, l = [{| kind := late_checkout; amount := cents z; description := d |}])) as Hl'.
  { destruct (lateCheckout policy) as [p|]; [|injection Hl as <-; by left].
    destruct (Z.leb_spec (checkOutDate stay) today) as [Hle|]; [|injection Hl as <-; by left].
    destruct (Z.ltb_spec (branchCutoffInstant today (timeOfDay ct) tz + graceMinutes p * 60000) now) as [Hlt|];
      [|injection Hl as <-; by left].
    apply res_bind_Ok in Hl as (raw & _ & [= <-]).
    destruct (dgt_spec (dp2 raw) 0%Qc) as [Hpos|]; [|by left]. right. split; [done|]. split; [by exists p|].
    rewrite dp2_spec in *. eauto. }
  destruct He' as [->|(? & ? & z & ? & d & ->)], Hl' as [->|(? & ? & z' & ? & d' & ->)]; simpl;
    (split; [lia|]); repeat constructor; simpl; eauto; lia.
Qed.

Definition sample_policy : StayFeePolicy :=
  {| lateCheckout := Some {| graceMinutes := 30; late_feeType := percent_of_night; late_amount := Qc_of_Z 50 |};
     earlyDeparture := Some {| early_feeType := percent_of_remaining; early_amount := Some (Qc_of_Z 50) |} |}.

(** Leaving on the arrival day of the sample stay: two nights given up. *)
Lemma stay_fees_exclusive_witness : exists fees,
  stayFeesFor sample_policy CancellationProps.sample_stay "Africa/Lagos" (11 * 3600000)
    (20716 * DAY_MS) (20716 * DAY_MS) ∅ = Ok fees /\ (length fees <= 1)%nat.
Proof.
  eexists. split; [reflexivity|].
  edestruct (stay_fees_exclusive sample_policy CancellationProps.sample_stay "Africa/Lagos" (11 * 3600000)
    (20716 * DAY_MS) (20716 * DAY_MS) ∅) as (Hone & _); [reflexivity | exact Hone].
Defined.

Example early_fee_is_half_the_stay : exists d,
  stayFeesFor sample_policy CancellationProps.sample_stay "Africa/Lagos" (11 * 3600000)
    (20716 * DAY_MS) (20716 * DAY_MS) ∅ = Ok [{| kind := early_departure; amount := cents 10000; description := d |}].
Proof.
  eexists. vm_compute. reflexivity.
Qed.
End StayFeesProps.

Module DepositsProps.
Import Deposits.

Lemma resolve_value stored p : resolveDepositPolicy stored = Some p ->
  0 <= dueDaysBeforeArrival p /\
  match type p with
  | dep_first_night => True
  | percentage => exists v, value p = Some v /\ (0 < v /\ v <= Qc_of_Z 100)%Qc
  | fixed => exists v, value p = Some v /\ (0 < v)%Qc
  end.
Proof.
  unfold resolveDepositPolicy. intros Hr.
  destruct (as_object stored) as [s|]; cbv [mbind option_bind] in Hr; [|done].
  destruct (as_string _) as [nm|]; [|done]. destruct (deposit_type_of nm) as [t|]; [|done].
  assert (0 <= default 0 (natural_number (member "dueDaysBeforeArrival" (Some s)))) as Hd.
  { destruct (natural_number _) eqn:E; simpl; [by eapply natural_number_nonneg | lia]. }
  destruct (positive_number (member "value" (Some s))) as [v|] eqn:Ev.
  - apply positive_number_pos in Ev. destruct t; [injection Hr as <-; simpl; eauto| |injection Hr as <-; simpl; eauto].
    destruct (bool_decide_reflect (Qc_of_Z 100 < v)%Qc) as [|Hle]; [done|]. injection Hr as <-. simpl.
    split; [done|]. exists v. split_and!; [done..|]. by apply Qcnot_lt_le.
  - destruct t; [injection Hr as <-; simpl; eauto | done | done].
Qed.

(** a deposit asked for a stay is positive, in whole cents, never more than
    the stay with its tax, and due no earlier than the booking day and no later
    than arrival (or the booking day, when that is later). *)
Theorem deposit_bounds `{DecimalLib} stored stay bookedOn amount due t :
  depositFor (resolveDepositPolicy stored) stay bookedOn = Some (amount, due) ->
  totalWithTax stay = cents t ->
  (0 < amount)%Qc /\ (amount <= totalWithTax stay)%Qc /\ (exists z, amount = cents z) /\
  bookedOn <= due <= Z.max bookedOn (checkInDate stay).
Proof.
  unfold depositFor. intros Hd Ht.
  destruct (resolveDepositPolicy stored) as [p|] eqn:Hp; simpl in Hd; [|done].
  apply resolve_value in Hp as [Hdays _].
  destruct (dgt_spec (dp2 (dmin (deposit_raw p stay) (totalWithTax stay))) 0%Qc) as [Hpos|]; [|done].
  injection Hd as <- <-. split_and!; [done| | |..].
  - rewrite Ht at 2. rewrite <- dp2_cents, Ht. apply dp2_mono. unfold dmin. case_decide; [done | apply Qcle_refl].
  - rewrite dp2_spec. eauto.
  - destruct (Z.ltb_spec (checkInDate stay - dueDaysBeforeArrival p * DAY_MS) bookedOn); unfold DAY_MS in *; lia.
  - destruct (Z.ltb_spec (checkInDate stay - dueDaysBeforeArrival p * DAY_MS) bookedOn); unfold DAY_MS in *; lia.
Qed.

Definition half_deposit : json :=
  JObj [("type", JStr "percentage"); ("value", JNum (Qc_of_Z 50)); ("dueDaysBeforeArrival", JNum (Qc_of_Z 7))].
Definition sample_priced : PricedForDeposit :=
  {| checkInDate := 20716 * DAY_MS; subtotal := cents 20000; totalWithTax := cents 21500; firstNight := cents 10000 |}.

Lemma sample_deposit :
  depositFor (resolveDepositPolicy (Some half_deposit)) sample_priced (20700 * DAY_MS) = Some (cents 10750, 20709 * DAY_MS).
Proof. vm_compute. reflexivity. Qed.

Lemma deposit_bounds_witness :
  depositFor (resolveDepositPolicy (Some half_deposit)) sample_priced (20700 * DAY_MS) = Some (cents 10750, 20709 * DAY_MS) /\
  (cents 10750 <= totalWithTax sample_priced)%Qc.
Proof.
  split; [exact sample_deposit|].
  exact (proj1 (proj2 (deposit_bounds (Some half_deposit) sample_priced (20700 * DAY_MS) _ _ 21500 sample_deposit eq_refl))).
Defined.
End DepositsProps.
