(* ===== verification/Taxes.v ===== *)
(** The tax engine and the tax rules' administration
    (src/src/modules/taxes/taxes.service.ts). *)
From S2P Require Import Prelude Decimal Authority.
From Stdlib Require Import QArith Qcanon.
Import BranchRoles.
Local Open Scope Z_scope.

Inductive ChargeType := room | fnb | spa | laundry | minibar | transport | tax | penalty | correction | misc.
#[global] Instance ChargeType_eq_dec : EqDecision ChargeType.
Proof. solve_decision. Defined.

Inductive AdjustmentType := fixed | percentage.
#[global] Instance AdjustmentType_eq_dec : EqDecision AdjustmentType.
Proof. solve_decision. Defined.

Record TaxRule := {
  id : string;
  branchId : string;
  name : string;
  rate : Qc;
  type : AdjustmentType;
  fixedAmount : option Qc;
  inclusive : bool;
  appliesToChargeTypes : list ChargeType;
  jurisdiction : option string;
  isActive : bool;
}.

(** One rule's contribution to a charge. *)
Record ComputedTax := { tax_rule : TaxRule; taxAmount : Qc }.

Record PricedCharge := {
  price : Qc;
  net : Qc;
  taxes : list ComputedTax;
  taxTotal : Qc;
  includedTax : Qc;
  addedTax : Qc;
  total : Qc;
}.

Definition invalid : error := Throw BadRequestException VALIDATION_FAILED.
Definition NEVER_TAXED : list ChargeType := [tax; correction].
Definition TAX_ADMIN_ROLES : list string := ["owner"; "manager"; "accountant"].

(** The database's collation ([orderBy: { name: 'asc' }]) and its case-insensitive
    comparison ([mode: 'insensitive']) are the server's. *)
Class TaxDb := {
  order_by_name : list TaxRule -> list TaxRule;
  insensitive_eq : string -> string -> bool;
}.
Class TaxDbOk `{TaxDb} := {
  order_by_name_perm l : order_by_name l ≡ₚ l;
  insensitive_eq_sym a b : insensitive_eq a b = insensitive_eq b a;
}.

Section Engine.
Context `{DecimalLib} `{TaxDb}.

Definition rule_applies (b : string) (ct : ChargeType) (r : TaxRule) : bool :=
  bool_decide (branchId r = b) && isActive r &&
  (bool_decide (appliesToChargeTypes r = []) || bool_decide (ct ∈ appliesToChargeTypes r)).

Definition isFixed (r : TaxRule) : bool :=
  bool_decide (type r = fixed) && match fixedAmount r with Some _ => true | None => false end.
Definition fixedFor (units : Z) (r : TaxRule) : Qc := default 0%Qc (fixedAmount r) ⊗ Qc_of_Z units.

(** The pre-tax amount: the price less included fixed taxes, over one plus the
    included rates. *)
Definition tax_base (units : Z) (rules : list TaxRule) (price : Qc) : Qc :=
  let included := List.filter inclusive rules in
  let includedFixed := dsum (fixedFor units <$> List.filter isFixed included) in
  let includedRate := dsum (rate <$> List.filter (fun r => negb (isFixed r)) included) in
  (price ⊖ includedFixed) ⊘ (1%Qc ⊕ includedRate).

Definition compute_tax (units : Z) (base : Qc) (r : TaxRule) : ComputedTax :=
  {| tax_rule := r; taxAmount := dp2 (if isFixed r then fixedFor units r else base ⊗ rate r) |}.

Definition untaxed (price : Qc) : PricedCharge :=
  {| price := price; net := price; taxes := []; taxTotal := 0%Qc; includedTax := 0%Qc; addedTax := 0%Qc; total := price |}.

Definition priceCharge (table : list TaxRule) (b : string) (ct : ChargeType) (price : Qc) (units : Z) : res PricedCharge :=
  if bool_decide (ct ∈ NEVER_TAXED) || negb (dgt price 0%Qc) then Ok (untaxed price)
  else
    let rules := List.filter (rule_applies b ct) (order_by_name table) in
    if bool_decide (length rules = 0%nat) then Ok (untaxed price)
    else
      let base := tax_base units rules price in
      check dgt base 0%Qc orelse invalid in
      let taxes := List.filter (fun t => negb (dis_zero (taxAmount t))) (compute_tax units base <$> rules) in
      let includedTax := dsum (taxAmount <$> List.filter (fun t => inclusive (tax_rule t)) taxes) in
      let addedTax := dsum (taxAmount <$> List.filter (fun t => negb (inclusive (tax_rule t))) taxes) in
      Ok {| price := price; net := price ⊖ includedTax; taxes := taxes; taxTotal := includedTax ⊕ addedTax;
            includedTax := includedTax; addedTax := addedTax; total := price ⊕ addedTax |}.
End Engine.

(** ** Administration *)
Record AuditEntry := { audit_branch : string; audit_user : option string; audit_action : string; audit_entity : string }.

Record State := {
  branches : gset string;
  rules : list TaxRule;
  audit_log : list AuditEntry;
}.

Record CreateTaxRuleDto := {
  dto_name : string;
  dto_type : option AdjustmentType;
  dto_rate : option Qc;
  dto_fixedAmount : option Qc;
  dto_inclusive : option bool;
  dto_appliesToChargeTypes : option (list ChargeType);
  dto_jurisdiction : option string;
}.

Definition not_found : error := Throw NotFoundException NOT_FOUND.
Definition conflict : error := Throw ConflictException CONFLICT.

Section Admin.
Context `{TaxDb}.

(** [jurisdiction?.trim() || null] *)
Definition norm_jurisdiction (j : option string) : option string :=
  s ← js_trim <$> j; if bool_decide (s = "") then None else Some s.

(** The rule the DTO describes, at branch [b] with id [i]. *)
Definition assertShape (dto : CreateTaxRuleDto) (i b : string) : res TaxRule :=
  let nm := js_trim (dto_name dto) in
  throw invalid when bool_decide (nm = "") in
  let incl := default false (dto_inclusive dto) in
  let applies := default [] (dto_appliesToChargeTypes dto) in
  match default percentage (dto_type dto) with
  | fixed =>
      match dto_fixedAmount dto with
      | None => Err invalid
      | Some a =>
          throw invalid when negb (dgt a 0%Qc) in
          throw invalid when (match dto_rate dto with Some r => negb (dis_zero r) | None => false end) in
          Ok {| id := i; branchId := b; name := nm; rate := 0%Qc; type := fixed; fixedAmount := Some a; inclusive := incl;
                appliesToChargeTypes := applies; jurisdiction := norm_jurisdiction (dto_jurisdiction dto); isActive := true |}
      end
  | percentage =>
      match dto_rate dto with
      | None => Err invalid
      | Some r =>
          throw invalid when (match dto_fixedAmount dto with Some _ => true | None => false end) in
          Ok {| id := i; branchId := b; name := nm; rate := r; type := percentage; fixedAmount := None; inclusive := incl;
                appliesToChargeTypes := applies; jurisdiction := norm_jurisdiction (dto_jurisdiction dto); isActive := true |}
      end
  end.

Definition name_clash (b nm : string) (exceptId : option string) (r : TaxRule) : bool :=
  bool_decide (branchId r = b) && isActive r && insensitive_eq (name r) (js_trim nm) &&
  negb (bool_decide (exceptId = Some (id r))).

Definition assertNameFree (st : State) (b nm : string) (exceptId : option string) : res unit :=
  throw_if (existsb (name_clash b nm exceptId) (rules st)) conflict.

Definition findRule (st : State) (i : string) : res TaxRule :=
  or_throw (List.find (fun r => bool_decide (id r = i)) (rules st)) not_found.

Definition audit (b : string) (u : option string) (action i : string) (st : State) : State :=
  {| branches := branches st; rules := rules st;
     audit_log := audit_log st ++ [{| audit_branch := b; audit_user := u; audit_action := action; audit_entity := i |}] |}.

Definition with_rules (rs : list TaxRule) (st : State) : State :=
  {| branches := branches st; rules := rs; audit_log := audit_log st |}.

Definition set_active (i : string) (a : bool) (r : TaxRule) : TaxRule :=
  if bool_decide (id r = i) then
    {| id := id r; branchId := branchId r; name := name r; rate := rate r; type := type r; fixedAmount := fixedAmount r;
       inclusive := inclusive r; appliesToChargeTypes := appliesToChargeTypes r; jurisdiction := jurisdiction r; isActive := a |}
  else r.

(** [newId] is the row's generated id. *)
Definition createTaxRule (st : State) (b : string) (dto : CreateTaxRuleDto) (actorId : option string) (newId : string)
    : res (State * TaxRule) :=
  let? rule := assertShape dto newId b in
  check bool_decide (b ∈ branches st) orelse not_found in
  let? _ := assertNameFree st b (dto_name dto) None in
  Ok (audit b actorId "tax_rule.created" newId (with_rules (rules st ++ [rule]) st), rule).

Definition updateTaxRule (st : State) (i : string) (dto_isActive : option bool) (actor : option JwtPayload)
    : res (State * TaxRule) :=
  let? rule := findRule st i in
  let? _ := match actor with Some a => assertRoleAtBranch a (branchId rule) TAX_ADMIN_ROLES | None => Ok tt end in
  let? _ := (if bool_decide (dto_isActive = Some true) && negb (isActive rule)
             then assertNameFree st (branchId rule) (name rule) (Some (id rule)) else Ok tt) in
  match dto_isActive with
  | None => Ok (st, rule)
  | Some a =>
      let st' := with_rules (set_active i a <$> rules st) st in
      let st' := if Bool.eqb a (isActive rule) then st'
                 else audit (branchId rule) (sub <$> actor) (if a then "tax_rule.reinstated" else "tax_rule.retired") i st' in
      Ok (st', set_active i a rule)
  end.

Definition replaceTaxRule (st : State) (i : string) (dto : CreateTaxRuleDto) (actor : JwtPayload) (newId : string)
    : res (State * TaxRule) :=
  let? _ := assertShape dto newId "" in
  let? old := findRule st i in
  let? rule := assertShape dto newId (branchId old) in
  let? _ := assertRoleAtBranch actor (branchId old) TAX_ADMIN_ROLES in
  check isActive old orelse conflict in
  let? _ := assertNameFree st (branchId old) (dto_name dto) (Some (id old)) in
  Ok (audit (branchId old) (Some (sub actor)) "tax_rule.replaced" newId
        (with_rules ((set_active (id old) false <$> rules st) ++ [rule]) st), rule).
End Admin.

(** ** Properties of the engine *)
Definition rule_wf (r : TaxRule) : Prop :=
  (0 <= rate r /\ rate r <= Qc_of_Z 100)%Qc /\
  match fixedAmount r with Some f => (0 < f)%Qc /\ money NUMERIC_12_2 f | None => True end.

(** Bounds of the columns: prices and fixed taxes are [NUMERIC(12,2)], at most
    10^4 charges to a price and 10^3 rules to a branch. *)
Record charge_ok (table : list TaxRule) (p : Qc) (units : Z) : Prop := {
  ok_rules : Forall rule_wf table;
  ok_count : Z.of_nat (length table) <= 1000;
  ok_price : money NUMERIC_12_2 p;
  ok_units : 0 <= units <= 10000;
}.

Module EngineProps.
Section S.
Context `{DecimalLib} `{TaxDb} `{!TaxDbOk}.

Lemma fixedFor_money units r : rule_wf r -> 0 <= units <= 10000 ->
  (0 <= fixedFor units r)%Qc /\ money (10 ^ 16) (fixedFor units r).
Proof.
  intros [_ Hf] Hu. unfold fixedFor. destruct (fixedAmount r) as [f|]; simpl.
  - destruct Hf as [Hpos Hm]. destruct (dmul_money NUMERIC_12_2 f units Hm) as [-> Hm'].
    { unfold NUMERIC_12_2, precision. nia. }
    split; [|eapply money_weaken; [|exact Hm']; unfold NUMERIC_12_2; nia].
    apply Qcmult_nonneg_nonneg; [by apply Qclt_le_weak|]. rewrite <- Z2Qc_inj_0, <- Z2Qc_inj_le. lia.
  - unfold dmul. rewrite Qcmult_0_l, prec_round_0. split; [apply Qcle_refl | by apply money_0].
Qed.

Lemma tax_base_le units rs p : Forall rule_wf rs -> 0 <= units <= 10000 -> money NUMERIC_12_2 p ->
  (0 < p)%Qc -> (tax_base units rs p <= p)%Qc.
Proof.
  intros Hrs Hu Hp Hpos. unfold tax_base.
  assert (forall g, Forall rule_wf (List.filter g rs)) as Hfilt.
  { auto using Forall_filterb. }
  set (inc := List.filter inclusive rs).
  assert (forall g, Forall rule_wf (List.filter g inc)) as Hfilt2 by (intros; apply Forall_filterb, Hfilt).
  set (F := dsum (fixedFor units <$> _)). set (R := dsum (rate <$> _)).
  assert (0 <= F)%Qc as HF.
  { apply dsum_nonneg. rewrite Forall_fmap. eapply Forall_impl; [apply Hfilt2|].
    intros r Hr. by apply fixedFor_money. }
  assert (0 <= R)%Qc as HR.
  { apply dsum_nonneg. rewrite Forall_fmap. eapply Forall_impl; [apply Hfilt2|]. intros r Hr. apply Hr. }
  assert (prec_round p = p) as Hpp by (eapply prec_round_money; [exact Hp | reflexivity]).
  assert (1 <= 1 ⊕ R)%Qc as HD.
  { rewrite <- prec_round_1 at 1. unfold dplus. apply prec_round_mono. qc_lra. }
  assert (p ⊖ F <= p)%Qc as HX.
  { rewrite <- Hpp at 2. unfold dminus. apply prec_round_mono. qc_lra. }
  unfold ddiv. rewrite <- Hpp. apply prec_round_mono. rewrite Hpp.
  assert (0 < 1 ⊕ R)%Qc as HD0 by (eapply Qclt_le_trans; [|exact HD]; reflexivity).
  apply (Qcmult_le_mono_pos_r _ _ _ HD0).
  replace ((p ⊖ F) / (1 ⊕ R) * (1 ⊕ R))%Qc with (p ⊖ F)%Qc.
  2:{ rewrite Qcmult_comm, Qcmult_div_r; [done|]. intros Hz. rewrite Hz in HD0. by apply Qclt_not_eq in HD0. }
  eapply Qcle_trans; [exact HX|]. rewrite <- (Qcmult_1_r p) at 1.
  apply Qcmult_le_mono_nonneg_l; [by apply Qclt_le_weak | done].
Qed.

Lemma compute_tax_money units rs p r : rule_wf r -> 0 <= units <= 10000 -> money NUMERIC_12_2 p ->
  (0 < tax_base units rs p)%Qc -> (tax_base units rs p <= p)%Qc ->
  (0 <= taxAmount (compute_tax units (tax_base units rs p) r))%Qc /\
  money (10 ^ 16) (taxAmount (compute_tax units (tax_base units rs p) r)).
Proof.
  intros Hr Hu Hp Hb0 Hb. simpl. destruct (isFixed r).
  - destruct (fixedFor_money units r Hr Hu) as [Hn (z & Hz & Heq)]. rewrite Heq in *. rewrite dp2_cents.
    split; [done | by exists z].
  - destruct Hr as [[Hr0 Hr1] _]. set (b := tax_base units rs p) in *.
    assert (0 <= b ⊗ rate r)%Qc as Hn.
    { unfold dmul. apply prec_round_nonneg, Qcmult_nonneg_nonneg; [by apply Qclt_le_weak | done]. }
    split; [by apply dp2_nonneg|]. apply dp2_money_bound; [done..|].
    destruct Hp as (z & Hz & ->). assert (0 <= z) as Hz0.
    { apply cents_nonneg. eapply Qcle_trans; [|exact Hb]. by apply Qclt_le_weak. }
    eapply Qcle_trans; [apply prec_round_mono|].
    { eapply Qcle_trans; [apply Qcmult_le_mono_nonneg_r; [done | exact Hb]|].
      apply Qcmult_le_mono_nonneg_l; [|exact Hr1]. by apply cents_nonneg. }
    unfold cents. rewrite <- (decimal_Z 100), decimal_mult. unfold NUMERIC_12_2 in Hz.
    rewrite prec_round_exact by (unfold precision; lia). apply decimal_le. lia.
Qed.

End S.
End EngineProps.
Import EngineProps.

(** What a priced charge promises: every amount is whole cents, the tax lines
    are positive, and the lines add up exactly. *)
Record charge_balanced (c : PricedCharge) : Prop := {
  lines_positive : Forall (fun t => (0 < taxAmount t)%Qc /\ exists z, taxAmount t = cents z) (taxes c);
  net_splits : (net c + includedTax c)%Qc = price c;
  total_added : total c = (price c + addedTax c)%Qc;
  total_net : total c = (net c + taxTotal c)%Qc;
  taxTotal_lines : taxTotal c = qsum (taxAmount <$> taxes c);
  included_lines : includedTax c = qsum (taxAmount <$> List.filter (fun t => inclusive (tax_rule t)) (taxes c));
}.

Lemma untaxed_balanced p : charge_balanced (untaxed p).
Proof. split; simpl; first [ring | constructor]. Qed.

Lemma priceCharge_inv `{DecimalLib} `{TaxDb} table b ct p units c :
  priceCharge table b ct p units = Ok c ->
  c = untaxed p \/
  let rs := List.filter (rule_applies b ct) (order_by_name table) in
  let base := tax_base units rs p in
  let ts := List.filter (fun t => negb (dis_zero (taxAmount t))) (compute_tax units base <$> rs) in
  let incl := dsum (taxAmount <$> List.filter (fun t => inclusive (tax_rule t)) ts) in
  let added := dsum (taxAmount <$> List.filter (fun t => negb (inclusive (tax_rule t))) ts) in
  (0 < p)%Qc /\ (0 < base)%Qc /\
  c = {| price := p; net := p ⊖ incl; taxes := ts; taxTotal := incl ⊕ added; includedTax := incl;
         addedTax := added; total := p ⊕ added |}.
Proof.
  unfold priceCharge. destruct (bool_decide (ct ∈ NEVER_TAXED)); simpl; [intros [= <-]; by left|].
  destruct (dgt_spec p 0%Qc) as [Hp|]; simpl; [|intros [= <-]; by left].
  destruct (bool_decide (length (List.filter (rule_applies b ct) (order_by_name table)) = 0%nat)); [intros [= <-]; by left|].
  intros Hc. apply res_bind_Ok in Hc as ([] & Hb & [= <-]). apply throw_if_Ok, negb_false_iff in Hb.
  right. split; [done|]. by destruct (dgt_spec (tax_base units (List.filter (rule_applies b ct) (order_by_name table)) p) 0%Qc).
Qed.

Lemma charge_balances `{DecimalLib} `{TaxDb} `{!TaxDbOk} table b ct p units c :
  charge_ok table p units -> priceCharge table b ct p units = Ok c -> charge_balanced c /\ price c = p.
Proof.
  intros [Hrs Hlen Hp Hu] [->|(Hp0 & Hb0 & Hc)]%priceCharge_inv; [split; [apply untaxed_balanced | done]|].
  set (rs := List.filter (rule_applies b ct) (order_by_name table)) in *. set (base := tax_base units rs p) in *.
  assert (Forall rule_wf rs) as Hrs'.
  { unfold rs. apply Forall_filterb. by rewrite order_by_name_perm. }
  assert (length rs <= length table)%nat as Hl.
  { unfold rs. etrans; [apply filter_length_le|]. by rewrite order_by_name_perm. }
  assert (base <= p)%Qc as Hble by (by apply tax_base_le).
  set (ts := List.filter (fun t => negb (dis_zero (taxAmount t))) (compute_tax units base <$> rs)) in *.
  assert (Forall (fun t => (0 < taxAmount t)%Qc /\ money (10 ^ 16) (taxAmount t)) ts) as Hts.
  { unfold ts. apply Forall_forall. intros t Ht. apply elem_of_filterb in Ht as [Ht Hz].
    apply list_elem_of_fmap in Ht as (r & -> & Hr).
    destruct (compute_tax_money units rs p r (proj1 (Forall_forall _ _) Hrs' r Hr) Hu Hp Hb0 Hble) as [Hn Hm]. fold base in Hn, Hm.
    split; [|exact Hm].
    apply negb_true_iff in Hz. destruct (dis_zero_spec (taxAmount (compute_tax units base r))); [done|].
    by apply Qcle_lt_or_eq in Hn as [|]; [|congruence]. }
  assert (length ts <= 1000)%nat as Hlt.
  { unfold ts. etrans; [apply filter_length_le|]. rewrite length_fmap. lia. }
  assert (forall f, dsum (taxAmount <$> List.filter f ts) = qsum (taxAmount <$> List.filter f ts) /\
    money (10 ^ 19) (qsum (taxAmount <$> List.filter f ts))) as Hsum.
  { intros f. pose proof (filter_length_le f ts).
    assert (Forall (money (10 ^ 16)) (taxAmount <$> List.filter f ts)) as Hm.
    { rewrite Forall_fmap. apply Forall_filterb. eapply Forall_impl; [exact Hts|]. by intros t [_ ?]. }
    split.
    - apply (dsum_money (10 ^ 16)); [done..|]. rewrite length_fmap. unfold precision. lia.
    - eapply money_weaken; [|apply (qsum_money (10 ^ 16)); done]. rewrite length_fmap. lia. }
  destruct (Hsum (fun t => inclusive (tax_rule t))) as [Hi Hmi].
  destruct (Hsum (fun t => negb (inclusive (tax_rule t)))) as [Ha Hma].
  rewrite Hi, Ha in Hc. subst c. split; [|done].
  pose proof (filter_sums (fun t => inclusive (tax_rule t)) taxAmount ts) as Hadd.
  split; simpl.
  - eapply Forall_impl; [exact Hts|]. intros t [? (z & _ & Hz)]. eauto.
  - rewrite (dminus_money NUMERIC_12_2 (10 ^ 19)) by first [done | reflexivity]. ring.
  - by rewrite (dplus_money NUMERIC_12_2 (10 ^ 19)) by first [done | reflexivity].
  - rewrite (dminus_money NUMERIC_12_2 (10 ^ 19)), (dplus_money NUMERIC_12_2 (10 ^ 19)),
      (dplus_money (10 ^ 19) (10 ^ 19)) by first [done | reflexivity]. ring.
  - rewrite (dplus_money (10 ^ 19) (10 ^ 19)) by first [done | reflexivity]. exact Hadd.
  - done.
Qed.

(** C32: a priced charge balances to the cent: the net plus the included tax is
    the price, the price plus the added tax is the total, the total is the net
    plus every tax line, and every tax line is a positive number of cents (the
    database refuses a zero line). *)
Theorem price_charge_balanced `{DecimalLib} `{TaxDb} `{!TaxDbOk} table b ct p units c :
  charge_ok table p units -> priceCharge table b ct p units = Ok c -> charge_balanced c /\ price c = p.
Proof. apply charge_balances. Qed.

(** A database ordering rows as stored, comparing names by ASCII case folding. *)
Definition plain_db : TaxDb := {| order_by_name l := l; insensitive_eq a b := bool_decide (js_lower a = js_lower b) |}.
Lemma plain_db_ok : @TaxDbOk plain_db.
Proof. split; simpl; [done|]. intros a b. apply bool_decide_ext. naive_solver. Qed.

#[local] Existing Instance Reference.decimal_js.
#[local] Existing Instance plain_db.
#[local] Existing Instance plain_db_ok.

Definition mk_rule i n r f incl applies : TaxRule :=
  {| id := i; branchId := "b1"; name := n; rate := r; type := match f with Some _ => fixed | None => percentage end;
     fixedAmount := f; inclusive := incl; appliesToChargeTypes := applies; jurisdiction := None; isActive := true |}.
(** VAT of 7.5% included in the price, and a city tax of 5.00 on top. *)
Definition sample_rules : list TaxRule :=
  [mk_rule "r1" "VAT" (decimal 75 (-3)) None true []; mk_rule "r2" "City tax" 0%Qc (Some (cents 500)) false [room]].

Lemma sample_rules_ok : charge_ok sample_rules (cents 10750) 1.
Proof.
  split; [|vm_compute; discriminate | exists 10750; split; [vm_compute; discriminate | done] | lia].
  constructor; [|constructor; [|constructor]]; (split; [split; vm_compute; discriminate|]); simpl; [done|].
  split; [vm_compute; reflexivity|]. exists 500. split; [vm_compute; discriminate | done].
Qed.

Lemma price_charge_balanced_witness : exists c,
  priceCharge sample_rules "b1" room (cents 10750) 1 = Ok c /\ charge_balanced c.
Proof.
  eexists. split; [vm_compute; reflexivity|].
  refine (proj1 (price_charge_balanced sample_rules "b1" room (cents 10750) 1 _ sample_rules_ok _)).
  vm_compute. reflexivity.
Defined.

(** A room at 107.50 with VAT inside it: 100.00 net, 7.50 VAT, 5.00 city tax. *)
Example sample_charge : exists c, priceCharge sample_rules "b1" room (cents 10750) 1 = Ok c /\
  net c = cents 10000 /\ includedTax c = cents 750 /\ addedTax c = cents 500 /\ total c = cents 11250.
Proof. eexists. split; [vm_compute; reflexivity|]. repeat split; apply Qc_is_canon; vm_compute; reflexivity. Qed.

(** which charges are taxed at all: nothing is added to a tax or correction
    line, to a price of zero or less, or where no active rule of the branch
    covers the charge type. *)
Theorem price_charge_untaxed `{DecimalLib} `{TaxDb} `{!TaxDbOk} table b ct p units :
  (ct = tax \/ ct = correction \/ (p <= 0)%Qc \/ (forall r, r ∈ table -> rule_applies b ct r = false)) ->
  priceCharge table b ct p units = Ok (untaxed p).
Proof.
  intros Hc. unfold priceCharge. destruct (bool_decide (ct ∈ NEVER_TAXED)) eqn:Hn; simpl; [done|].
  apply bool_decide_eq_false in Hn. destruct (dgt_spec p 0%Qc) as [Hp|Hp]; simpl; [|done].
  rewrite bool_decide_true; [done|]. apply length_zero_iff_nil. destruct (List.filter _ _) as [|r rs] eqn:E; [done|].
  exfalso. assert (r ∈ List.filter (rule_applies b ct) (order_by_name table)) as Hr by (rewrite E; left).
  apply elem_of_filterb in Hr as [Hin Ha]. rewrite order_by_name_perm in Hin. destruct Hc as [->|[->|[Hle|Hno]]].
  - apply Hn. left.
  - apply Hn. right. left.
  - by apply Qcle_not_lt in Hle.
  - rewrite Hno in Ha; done.
Qed.

Lemma price_charge_untaxed_witness :
  priceCharge sample_rules "b1" fnb (cents (-500)) 1 = Ok (untaxed (cents (-500))).
Proof. apply price_charge_untaxed. right. right. left. vm_compute. discriminate. Defined.

Lemma dsum_nil `{DecimalLib} : dsum [] = 0%Qc.
Proof. done. Qed.

Lemma tax_base_exclusive `{DecimalLib} units rs p B :
  Forall (fun r => inclusive r = false) rs -> money B p -> B < 10 ^ precision -> tax_base units rs p = p.
Proof.
  intros Hrs Hp HB. unfold tax_base.
  rewrite (filterb_nil inclusive) by exact (proj1 (Forall_forall _ _) Hrs).
  simpl. unfold dminus, ddiv, dplus. change (dsum []) with 0%Qc.
  replace (p - 0)%Qc with p by ring. replace (1 + 0)%Qc with 1%Qc by ring.
  rewrite prec_round_1, (prec_round_money B p) by done. rewrite Qcdiv_right_id. by apply (prec_round_money B).
Qed.

(** taxes added on top are exact: where a branch includes no tax in its
    prices, each percentage tax line is the price times the rate, rounded half up
    to the cent, with no error from the decimal library's precision, and the
    charge posts at its own price. *)
Theorem exclusive_tax_exact `{DecimalLib} `{TaxDb} `{!TaxDbOk} table b ct p units c t m :
  0 < p <= NUMERIC_12_2 -> Forall (fun r => inclusive r = false) table ->
  priceCharge table b ct (cents p) units = Ok c ->
  t ∈ taxes c -> isFixed (tax_rule t) = false -> rate (tax_rule t) = decimal m (-4) -> 0 <= m < 10 ^ 6 ->
  taxAmount t = cents (half_up (cents p * decimal m (-4) * p10 2)%Qc) /\ net c = cents p.
Proof.
  intros Hp Hex [->|(Hp0 & Hb0 & ->)]%priceCharge_inv Ht Hnf Hrate Hm; simpl in Ht |- *; [by apply elem_of_nil in Ht|].
  set (rs := List.filter (rule_applies b ct) (order_by_name table)) in *.
  assert (Forall (fun r => inclusive r = false) rs) as Hrs.
  { unfold rs. apply Forall_filterb. by rewrite order_by_name_perm. }
  assert (money NUMERIC_12_2 (cents p)) as Hmp by (exists p; split; [lia | done]).
  rewrite (tax_base_exclusive units rs (cents p) NUMERIC_12_2) in * by (done || reflexivity).
  apply elem_of_filterb in Ht as [Ht _]. apply list_elem_of_fmap in Ht as (r & -> & Hr). simpl in *. split.
  - rewrite Hnf, Hrate, dp2_spec. unfold dmul.
    assert (prec_round (cents p * decimal m (-4)) = cents p * decimal m (-4))%Qc as ->; [|done].
    unfold cents. rewrite decimal_mult. apply prec_round_exact. unfold NUMERIC_12_2, precision in *. nia.
  - rewrite filterb_nil.
    { simpl. unfold dsum. simpl. unfold dminus. replace (cents p - 0)%Qc with (cents p) by ring.
      by apply (prec_round_money NUMERIC_12_2). }
    intros t Ht. apply elem_of_filterb in Ht as [Ht _]. apply list_elem_of_fmap in Ht as (x & -> & Hx).
    exact (proj1 (Forall_forall _ _) Hrs x Hx).
Qed.

Definition sample_exclusive : list TaxRule := [mk_rule "r1" "VAT" (decimal 750 (-4)) None false []].
Definition sample_priced : PricedCharge :=
  match priceCharge sample_exclusive "b1" room (cents 3333) 1 with Ok c => c | Err _ => untaxed 0%Qc end.
Definition sample_line : ComputedTax :=
  compute_tax 1 (tax_base 1 sample_exclusive (cents 3333)) (mk_rule "r1" "VAT" (decimal 750 (-4)) None false []).

(** 7.5% of 33.33 is 2.49975, charged as 2.50. *)
Lemma exclusive_tax_exact_witness :
  priceCharge sample_exclusive "b1" room (cents 3333) 1 = Ok sample_priced /\
  taxAmount sample_line = cents (half_up (cents 3333 * decimal 750 (-4) * p10 2)%Qc).
Proof.
  assert (priceCharge sample_exclusive "b1" room (cents 3333) 1 = Ok sample_priced) as Hc by (vm_compute; reflexivity).
  split; [exact Hc|].
  refine (proj1 (exclusive_tax_exact sample_exclusive "b1" room 3333 1 sample_priced sample_line 750 _ _ Hc _ _ _ _)).
  - vm_compute. split; [reflexivity | discriminate].
  - repeat constructor.
  - vm_compute. left.
  - reflexivity.
  - reflexivity.
  - lia.
Defined.

(** ** Properties of the administration *)
Module AdminProps.
Section S.
Context `{TaxDb} `{!TaxDbOk}.

(** One committed administrative operation; generated ids are fresh. *)
Inductive step (st : State) : State -> Prop :=
| step_create b dto u i st' r :
    (forall x, x ∈ rules st -> id x <> i) -> createTaxRule st b dto u i = Ok (st', r) -> step st st'
| step_update i a actor st' r : updateTaxRule st i a actor = Ok (st', r) -> step st st'
| step_replace i dto actor n st' r :
    (forall x, x ∈ rules st -> id x <> n) -> replaceTaxRule st i dto actor n = Ok (st', r) -> step st st'.

(** Ids are unique, names are trimmed, and no two active rules of one branch
    share a name up to case. *)
Record wf (st : State) : Prop := {
  wf_ids : NoDup (id <$> rules st);
  wf_trim r : r ∈ rules st -> js_trim (name r) = name r;
  wf_names r1 r2 : r1 ∈ rules st -> r2 ∈ rules st -> isActive r1 = true -> isActive r2 = true ->
    branchId r1 = branchId r2 -> insensitive_eq (name r1) (name r2) = true -> id r1 = id r2;
}.

(** What a step never touches: each rule keeps its terms, only [isActive] may change. *)
Definition same_terms (r r' : TaxRule) : Prop :=
  id r = id r' /\ branchId r = branchId r' /\ name r = name r' /\ rate r = rate r' /\ type r = type r' /\
  fixedAmount r = fixedAmount r' /\ inclusive r = inclusive r' /\ appliesToChargeTypes r = appliesToChargeTypes r'.

Lemma set_active_terms i a r : same_terms r (set_active i a r).
Proof. unfold set_active, same_terms. case_bool_decide; simpl; done. Qed.
Lemma set_active_id i a r : id (set_active i a r) = id r.
Proof. unfold set_active. by case_bool_decide. Qed.
Lemma set_active_ids i a (l : list TaxRule) : id <$> (set_active i a <$> l) = id <$> l.
Proof. rewrite <- list_fmap_compose. apply list_fmap_ext. intros ? r _. apply set_active_id. Qed.

Lemma assertShape_inv dto i b r : assertShape dto i b = Ok r ->
  id r = i /\ branchId r = b /\ name r = js_trim (dto_name dto) /\ isActive r = true.
Proof.
  unfold assertShape. intros Hs. res_inv. destruct (default percentage (dto_type dto)).
  - destruct (dto_fixedAmount dto); [|done]. res_inv. done.
  - destruct (dto_rate dto); [|done]. res_inv. done.
Qed.

Lemma assertNameFree_inv st b nm ex u r :
  assertNameFree st b nm ex = Ok u -> r ∈ rules st -> branchId r = b -> isActive r = true -> ex <> Some (id r) ->
  insensitive_eq (name r) (js_trim nm) = false.
Proof.
  intros Hf Hr Hb Ha Hex. apply throw_if_Ok in Hf. destruct (insensitive_eq _ _) eqn:E; [|done].
  rewrite (proj2 (existsb_exists_elem _ _)) in Hf; [done|]. exists r. split; [done|]. unfold name_clash.
  rewrite bool_decide_true, Ha, E, bool_decide_false by done. done.
Qed.

Lemma findRule_inv st i r : findRule st i = Ok r -> r ∈ rules st /\ id r = i.
Proof.
  intros Hf. apply or_throw_Ok, List.find_some in Hf as [Hin Hi]. split; [by apply list_elem_of_In | by boolp].
Qed.

Lemma wf_unique st r1 r2 : wf st -> r1 ∈ rules st -> r2 ∈ rules st -> id r1 = id r2 -> r1 = r2.
Proof.
  intros [Hids _ _] H1 H2 Hid. apply list_elem_of_lookup in H1 as [i Hi], H2 as [j Hj].
  assert (i = j) as ->; [|congruence]. eapply NoDup_lookup; [exact Hids| |]; rewrite list_lookup_fmap.
  - by rewrite Hi.
  - rewrite Hj. simpl. by rewrite Hid.
Qed.

(** Appending an active rule whose name is free keeps the invariant. *)
Lemma wf_append st r : wf st -> (forall x, x ∈ rules st -> id x <> id r) -> js_trim (name r) = name r ->
  (forall x, x ∈ rules st -> branchId x = branchId r -> isActive x = true -> insensitive_eq (name x) (name r) = false) ->
  wf (with_rules (rules st ++ [r]) st).
Proof.
  intros [Hids Htr Hnm] Hfresh Ht Hfree. split; simpl.
  - rewrite fmap_app. apply NoDup_app. split_and!; [done| |apply NoDup_singleton].
    intros x Hx. simpl. rewrite list_elem_of_singleton. intros ->.
    apply list_elem_of_fmap in Hx as (y & Hy & Hin). by eapply Hfresh.
  - intros x [Hx|Hx%list_elem_of_singleton]%elem_of_app; [auto | by subst].
  - intros r1 r2 [H1|H1%list_elem_of_singleton]%elem_of_app [H2|H2%list_elem_of_singleton]%elem_of_app Ha1 Ha2 Hb Heq;
      subst; [by eapply Hnm | | | done].
    + rewrite Hfree in Heq; done.
    + rewrite insensitive_eq_sym, Hfree in Heq; done.
Qed.

(** Switching one rule keeps it too, provided its name is free when it comes on. *)
Lemma wf_set_active st i a : wf st ->
  (a = true -> forall r x, r ∈ rules st -> id r = i -> x ∈ rules st -> id x <> i -> branchId x = branchId r ->
     isActive x = true -> insensitive_eq (name x) (name r) = false) ->
  wf (with_rules (set_active i a <$> rules st) st).
Proof.
  intros [Hids Htr Hnm] Hfree. split; simpl.
  - by rewrite set_active_ids.
  - intros r (x & -> & Hx)%list_elem_of_fmap. destruct (set_active_terms i a x) as (_ & _ & <- & _). auto.
  - intros r1 r2 (x & -> & Hx)%list_elem_of_fmap (y & -> & Hy)%list_elem_of_fmap.
    rewrite !set_active_id. unfold set_active. do 2 case_bool_decide; simpl; intros; subst; try (by eapply Hnm); try done.
    + exfalso. assert (insensitive_eq (name y) (name x) = false) as Hno by eauto. rewrite insensitive_eq_sym in Hno. congruence.
    + exfalso. assert (insensitive_eq (name x) (name y) = false) by eauto. congruence.
Qed.

Lemma wf_rules st st' : rules st = rules st' -> wf st -> wf st'.
Proof. intros Heq [? ? ?]. split; rewrite <- Heq; done. Qed.

Lemma step_wf st st' : step st st' -> wf st -> wf st'.
Proof.
  intros [b dto u i ? r Hf Hc|i a actor ? r Hu|i dto actor n ? r Hf Hr] Hwf.
  - unfold createTaxRule in Hc. res_inv.
    match goal with H : assertShape _ _ _ = Ok _ |- _ => apply assertShape_inv in H as (Hi & Hb & Hn & Ha) end.
    eapply wf_rules; [|apply (wf_append st r)]; [done|done|by rewrite Hi|by rewrite Hn, js_trim_idemp|].
    intros x Hx Hxb Hxa. rewrite Hn. eapply assertNameFree_inv; [eassumption..| |done|done]. by rewrite <- Hb.
  - unfold updateTaxRule in Hu. res_inv.
    match goal with H : findRule _ _ = Ok ?r0 |- _ => apply findRule_inv in H as [Hin Hid]; rename r0 into old end.
    destruct a as [a|]; [|by res_inv]. injection Hu as <- <-.
    eapply wf_rules; [|apply (wf_set_active st i a)]; [by destruct (Bool.eqb a (isActive old))|done|].
    intros -> r x Hr Hri Hx Hxi Hb Hxa. assert (r = old) as -> by (eapply wf_unique; eauto; congruence).
    destruct (isActive old) eqn:Hold.
    + destruct (insensitive_eq (name x) (name old)) eqn:E; [|done]. exfalso. apply Hxi.
      destruct Hwf as [_ _ Hnm]. rewrite <- Hri. by apply Hnm.
    + match goal with H : (if _ then _ else _) = Ok _ |- _ => simpl in H; rename H into Hfree end.
      rewrite <- (wf_trim _ Hwf old Hr). eapply assertNameFree_inv; [exact Hfree|done..|]. congruence.
  - unfold replaceTaxRule in Hr. res_inv.
    match goal with H : findRule _ _ = Ok ?r0 |- _ => apply findRule_inv in H as [Hin Hid]; rename r0 into old end.
    match goal with H : assertShape _ _ (branchId old) = Ok _ |- _ => apply assertShape_inv in H as (Hi & Hb & Hn & Ha) end.
    assert (wf (with_rules (set_active (id old) false <$> rules st) st)) as Hmid by (apply wf_set_active; [done|discriminate]).
    eapply wf_rules; [|apply (wf_append _ r Hmid)]; [done| |by rewrite Hn, js_trim_idemp|].
    + intros x. simpl. intros (y & -> & Hy)%list_elem_of_fmap. rewrite set_active_id, Hi. auto.
    + intros x. simpl. intros (y & -> & Hy)%list_elem_of_fmap. unfold set_active. case_bool_decide as Hyi; simpl; [done|].
      intros Hxb Hxa. rewrite Hn. eapply assertNameFree_inv; [eassumption|done| |done|congruence]. by rewrite Hxb, Hb.
Qed.

Lemma step_terms st st' r : step st st' -> r ∈ rules st -> exists r', r' ∈ rules st' /\ same_terms r r'.
Proof.
  assert (same_terms r r) as Hrefl by done.
  intros [b dto u i ? r0 Hf Hc|i a actor ? r0 Hu|i dto actor n ? r0 Hf Hr] Hin.
  - unfold createTaxRule in Hc. res_inv. exists r. split; [apply elem_of_app; by left | done].
  - unfold updateTaxRule in Hu. res_inv. destruct a as [a|]; [|res_inv; eauto]. injection Hu as <- <-.
    exists (set_active i a r). split; [|apply set_active_terms].
    match goal with |- context [Bool.eqb a ?x] => destruct (Bool.eqb a x) end; simpl; apply list_elem_of_fmap; eauto.
  - unfold replaceTaxRule in Hr. res_inv. eexists. split; [|apply set_active_terms]. simpl.
    apply elem_of_app. left. apply list_elem_of_fmap. eauto.
Qed.
End S.

(** tax rules are kept safely: from any consistent table, whatever sequence
    of creations, retirements, reinstatements and replacements commits, no two
    active rules of a branch ever share a name (up to case), and every rule that
    ever existed is still there with its terms unchanged, so a posted tax line
    always finds the rule it was charged under. *)
Theorem tax_rules_invariant `{TaxDb} `{!TaxDbOk} (st st' : State) :
  wf st -> rtc step st st' ->
  wf st' /\ forall r, r ∈ rules st -> exists r', r' ∈ rules st' /\ same_terms r r'.
Proof.
  intros Hwf Hs. revert Hwf. induction Hs as [st|st mid st' Hstep Hs IH]; intros Hwf.
  - split; [done|]. intros r Hr. by exists r.
  - destruct (IH (step_wf _ _ Hstep Hwf)) as [Hwf' Ht]. split; [done|]. intros r Hr.
    destruct (step_terms _ _ r Hstep Hr) as (m & Hm & Hsm). destruct (Ht m Hm) as (r' & Hr' & Hsr).
    exists r'. split; [done|]. unfold same_terms in *. intuition congruence.
Qed.

Definition vat_dto : CreateTaxRuleDto :=
  {| dto_name := " VAT "; dto_type := None; dto_rate := Some (decimal 75 (-3)); dto_fixedAmount := None;
     dto_inclusive := None; dto_appliesToChargeTypes := None; dto_jurisdiction := None |}.
Definition empty_state : State := {| branches := {["b1"]}; rules := []; audit_log := [] |}.

Definition vat_result : State * TaxRule :=
  match createTaxRule empty_state "b1" vat_dto None "r1" with
  | Ok p => p
  | Err _ => (empty_state, mk_rule "" "" 0%Qc None false [])
  end.

Lemma tax_rules_invariant_witness : length (rules (fst vat_result)) = 1%nat /\ wf (fst vat_result).
Proof.
  assert (rtc step empty_state (fst vat_result)) as Hs.
  { eapply rtc_once, (step_create empty_state "b1" vat_dto None "r1" _ (snd vat_result)); [|vm_compute; reflexivity].
    intros x Hx. by apply elem_of_nil in Hx. }
  split; [vm_compute; reflexivity|]. refine (proj1 (tax_rules_invariant empty_state _ _ Hs)).
  split; simpl; [constructor | intros ? Hx; by apply elem_of_nil in Hx | intros ? ? Hx; by apply elem_of_nil in Hx].
Defined.
End AdminProps.
