(* ===== verification/Transactions.v ===== *)
(** Transactions over a state that is threaded through the calls of a service, the
    loops and guards they are written with, and the tactics that take a committed
    one apart ([m_inv]) or show what it keeps ([keeps_tac]). *)
From S2P Require Import Prelude.
Local Open Scope Z_scope.

(** ** Transactions *)
(** A transaction on a state: it commits a new state and a result, or throws and leaves nothing. *)
Definition Tx (St A : Type) : Type := St -> res (St * A).

Definition ret {St A} (a : A) : Tx St A := fun d => Ok (d, a).
Definition bind {St A B} (m : Tx St A) (k : A -> Tx St B) : Tx St B :=
  fun d => match m d with Ok (d', a) => k a d' | Err e => Err e end.
Definition raise {St A} (e : error) : Tx St A := fun _ => Err e.
Definition lift {St A} (r : res A) : Tx St A := fun d => match r with Ok a => Ok (d, a) | Err e => Err e end.
Definition gets {St A} (f : St -> A) : Tx St A := fun d => Ok (d, f d).
Definition modify {St} (f : St -> St) : Tx St unit := fun d => Ok (f d, tt).

Notation "'let!' x := m 'in' k" := (bind m (fun x => k))
  (at level 10, x name, m at level 100, k at level 200) : res_scope.
Notation "'let!' ' p := m 'in' k" := (bind m (fun y => let ' p := y in k))
  (at level 10, p pattern, m at level 100, k at level 200) : res_scope.
Notation "'do!' m 'in' k" := (bind m (fun _ => k))
  (at level 10, m at level 100, k at level 200) : res_scope.
(** [if (c) throw e;] *)
Notation "'throw!' e 'when' c 'in' k" := (bind (lift (throw_if c e)) (fun _ => k))
  (at level 10, c at level 100, e at level 100, k at level 200) : res_scope.

(** [for (const x of l) { ... }], the loop's variables as [a]. *)
Fixpoint for_each {St A B} (l : list B) (a : A) (body : A -> B -> Tx St A) : Tx St A :=
  match l with
  | [] => ret a
  | x :: l => let! a' := body a x in for_each l a' body
  end.

(** [tx.table.findFirst({ where })], [findMany({ where })] *)
Definition findFirst {St A} (table : St -> list A) (where_ : A -> bool) : Tx St (option A) :=
  gets (fun d => List.find where_ (table d)).
Definition findMany {St A} (table : St -> list A) (where_ : A -> bool) : Tx St (list A) :=
  gets (fun d => List.filter where_ (table d)).
(** [tx.table.updateMany({ where, data })] on the rows of a table *)
Definition update_where {A} (where_ : A -> bool) (data : A -> A) (l : list A) : list A :=
  (fun x => if where_ x then data x else x) <$> l.
(** [const x = await ...; if (!x) throw e;] *)
Definition orThrow {St A} (m : Tx St (option A)) (e : error) : Tx St A := let! o := m in lift (or_throw o e).

(** [gen_random_uuid()]: the n-th id the database generates. *)
Class Uuid := {
  gen_random_uuid : nat -> string;
  gen_random_uuid_inj :: Inj (=) (=) gen_random_uuid;
}.

Lemma isSome_false {A} (o : option A) : isSome o = false -> o = None.
Proof. by destruct o. Qed.

(** ** Reasoning about transactions *)
Lemma bind_Ok {St A B} (m : Tx St A) (k : A -> Tx St B) d d' r :
  bind m k d = Ok (d', r) <-> exists d1 a, m d = Ok (d1, a) /\ k a d1 = Ok (d', r).
Proof. unfold bind. destruct (m d) as [[d1 a]|e]; naive_solver. Qed.
Lemma bind_run {St A B} (m : Tx St A) (k : A -> Tx St B) d d1 a : m d = Ok (d1, a) -> bind m k d = k a d1.
Proof. intros Hm. unfold bind. by rewrite Hm. Qed.
Lemma lift_Ok {St A} (r : res A) (d d' : St) a : lift r d = Ok (d', a) <-> r = Ok a /\ d' = d.
Proof. unfold lift. destruct r; naive_solver. Qed.
Lemma findFirst_Ok {St A} (t : St -> list A) w d d' o : findFirst t w d = Ok (d', o) <-> d' = d /\ o = List.find w (t d).
Proof. unfold findFirst, gets. naive_solver. Qed.
Lemma findMany_Ok {St A} (t : St -> list A) w d d' o : findMany t w d = Ok (d', o) <-> d' = d /\ o = List.filter w (t d).
Proof. unfold findMany, gets. naive_solver. Qed.
Lemma orThrow_Ok {St A} (m : Tx St (option A)) e d d' a : orThrow m e d = Ok (d', a) <-> m d = Ok (d', Some a).
Proof.
  unfold orThrow. rewrite bind_Ok. split.
  - intros (d1 & o & Hm & [Ho ->]%lift_Ok). apply or_throw_Ok in Ho. by subst.
  - intros Hm. exists d', (Some a). by rewrite lift_Ok.
Qed.
Lemma find_Some {A} (w : A -> bool) l x : List.find w l = Some x -> x ∈ l /\ w x = true.
Proof. rewrite list_elem_of_In. apply List.find_some. Qed.
Lemma find_None {A} (w : A -> bool) l x : List.find w l = None -> x ∈ l -> w x = false.
Proof. rewrite list_elem_of_In. intros Hf Hx. by eapply List.find_none. Qed.
Lemma find_existsb {A} (f : A -> bool) l : isSome (List.find f l) = existsb f l.
Proof. induction l as [|x l IH]; [done|]. simpl. by destruct (f x). Qed.
(** Splits a committed transaction into its steps, one fact per read, guard and write. *)
Ltac m_step :=
  match goal with
  | H : bind _ _ _ = Ok _ |- _ =>
      let d := fresh "d" in let a := fresh "v" in let H1 := fresh "Hm" in
      apply bind_Ok in H as (d & a & H1 & H)
  | H : lift _ _ = Ok _ |- _ => let E := fresh "E" in apply lift_Ok in H as [H E]; subst
  | H : findFirst _ _ _ = Ok _ |- _ => let E := fresh "Efind" in apply findFirst_Ok in H as [H E]; subst
  | H : findMany _ _ _ = Ok _ |- _ => let E := fresh "Efind" in apply findMany_Ok in H as [H E]; subst
  | H : orThrow _ _ _ = Ok _ |- _ => apply orThrow_Ok in H
  | H : ret _ _ = Ok _ |- _ => unfold ret in H; injection H as H; subst
  | H : gets _ _ = Ok _ |- _ => unfold gets in H; injection H as H; subst
  | H : modify _ _ = Ok _ |- _ => unfold modify in H; injection H as H; subst
  | H : raise _ _ = Ok _ |- _ => discriminate H
  | H : Ok _ = Ok _ |- _ => injection H as H; subst
  | H : Err _ = Ok _ |- _ => discriminate H
  | H : throw_if _ _ = Ok ?u |- _ => apply throw_if_Ok in H; try (destruct u)
  | H : or_throw _ _ = Ok _ |- _ => apply or_throw_Ok in H
  end.
Ltac m_inv := repeat m_step.

(** [keeps R m]: whatever [m] commits is related to what it started from. *)
Definition keeps {St} (R : St -> St -> Prop) {A} (m : Tx St A) : Prop := forall d d' a, m d = Ok (d', a) -> R d d'.

Section Keeps.
Context {St} (R : St -> St -> Prop) `{!PreOrder R}.

Lemma keeps_ret {A} (a : A) : keeps R (ret a).
Proof. intros d d' b Hm. m_inv. reflexivity. Qed.
Lemma keeps_raise {A} e : keeps R (raise (A := A) e).
Proof. intros d d' b Hm. m_inv. Qed.
Lemma keeps_lift {A} (r : res A) : keeps R (lift r).
Proof. intros d d' b Hm. m_inv. reflexivity. Qed.
Lemma keeps_gets {A} (f : St -> A) : keeps R (gets f).
Proof. intros d d' b Hm. unfold gets in Hm. simplify_eq. reflexivity. Qed.
Lemma keeps_bind {A B} (m : Tx St A) (k : A -> Tx St B) : keeps R m -> (forall a, keeps R (k a)) -> keeps R (bind m k).
Proof. intros Hm Hk d d' b (d1 & a & H1 & H2)%bind_Ok. transitivity d1; [by eapply Hm | by eapply Hk]. Qed.
Lemma keeps_bind_lift {A B} (r : res A) (k : A -> Tx St B) : (forall a, r = Ok a -> keeps R (k a)) -> keeps R (bind (lift r) k).
Proof. intros Hk d d' b (d1 & a & [Hr ->]%lift_Ok & H2)%bind_Ok. by eapply Hk. Qed.
Lemma keeps_for_each {A B} (l : list B) (a : A) body :
  (forall a x, keeps R (body a x)) -> keeps R (for_each l a body).
Proof. intros Hb. revert a. induction l; intros a'; simpl; auto using keeps_ret, keeps_bind. Qed.
Lemma keeps_findFirst {A} (t : St -> list A) w : keeps R (findFirst t w).
Proof. apply keeps_gets. Qed.
Lemma keeps_findMany {A} (t : St -> list A) w : keeps R (findMany t w).
Proof. apply keeps_gets. Qed.
Lemma keeps_orThrow {A} (m : Tx St (option A)) e : keeps R m -> keeps R (orThrow m e).
Proof. intros. apply keeps_bind; auto using keeps_lift. Qed.
Lemma keeps_modify f : (forall d, R d (f d)) -> keeps R (modify f).
Proof. intros Hf d d' b Hm. m_inv. auto. Qed.
End Keeps.
Create HintDb keeps.
#[export] Hint Resolve keeps_ret keeps_raise keeps_lift keeps_gets keeps_findFirst keeps_findMany : keeps.

(** Walks a transaction's text; what is left are the writes. *)
Ltac keeps_step :=
  match goal with
  | |- keeps _ (bind (lift _) _) => apply keeps_bind_lift; intros
  | |- keeps _ (bind _ _) => apply keeps_bind; [typeclasses eauto| |intros]
  | |- keeps _ (for_each _ _ _) => apply keeps_for_each; [typeclasses eauto|intros]
  | |- keeps _ (orThrow _ _) => apply keeps_orThrow; [typeclasses eauto|]
  | |- keeps _ (match ?x with _ => _ end) => destruct x
  | |- keeps _ _ => solve [eauto with keeps typeclass_instances]
  end.
Ltac keeps_tac := repeat (cbn beta; keeps_step).

(** ** Names of rows *)
(** Rows named apart, and by ids the database will not generate again. *)
Definition named `{Uuid} {A} (name : A -> string) (n : nat) (l : list A) : Prop :=
  NoDup (name <$> l) /\ forall x k, x ∈ l -> (n <= k)%nat -> name x <> gen_random_uuid k.
Lemma named_weaken `{Uuid} {A} (name : A -> string) n m l : (n <= m)%nat -> named name n l -> named name m l.
Proof. intros Hle [Hnd Hf]. split; [done|]. intros x k Hx Hk. apply Hf; [done | lia]. Qed.
Lemma named_app `{Uuid} {A} (name : A -> string) n l x : named name n l -> name x = gen_random_uuid n -> named name (S n) (l ++ [x]).
Proof.
  intros [Hnd Hf] Hx. split.
  - rewrite fmap_app. apply NoDup_app. split_and!; [done| |apply NoDup_singleton].
    intros y (z & -> & Hz)%list_elem_of_fmap. csimpl. rewrite list_elem_of_singleton, Hx. by apply Hf.
  - intros y k [Hy| ->%list_elem_of_singleton]%elem_of_app Hk; [apply Hf; [done|lia]|]. rewrite Hx. intros ->%(inj gen_random_uuid). lia.
Qed.
Lemma named_update `{Uuid} {A} (name : A -> string) n l w f : (forall x, name (f x) = name x) -> named name n l -> named name n (update_where w f l).
Proof.
  intros Hn [Hnd Hf]. split.
  - unfold update_where. rewrite <- list_fmap_compose. erewrite (list_fmap_ext _ name); [done|]. intros i x _. simpl. by destruct (w x).
  - intros x k (y & -> & Hy)%list_elem_of_fmap Hk. destruct (w y); [rewrite Hn|]; auto.
Qed.
Lemma named_inj `{Uuid} {A} (name : A -> string) n l x y : named name n l -> x ∈ l -> y ∈ l -> name x = name y -> x = y.
Proof. intros [Hnd _]. by apply NoDup_fmap_inj. Qed.
Lemma named_find `{Uuid} {A} (name : A -> string) n l x : named name n l -> x ∈ l -> List.find (fun y => bool_decide (name y = name x)) l = Some x.
Proof.
  intros Hn Hx. destruct (List.find _ l) as [y|] eqn:E.
  - apply find_Some in E as [Hy Hyx]. apply bool_decide_eq_true in Hyx. f_equal. by eapply named_inj.
  - apply (find_None _ _ _ E) in Hx. by rewrite bool_decide_true in Hx.
Qed.

Lemma named_filter `{Uuid} {A} (name : A -> string) n (p : A -> bool) l : named name n l -> named name n (List.filter p l).
Proof. intros [Hnd Hf]. split; [by apply NoDup_fmap_filterb|]. intros x k [Hx _]%elem_of_filterb. by apply Hf. Qed.
