(* ===== verification/Db.v ===== *)
(** The tenant's database, as the services see it through Prisma, and the
    transaction monad they run in.

    A transaction ([withTenant(tenantId, async (tx) => ...)]) reads and writes
    the rows of one tenant and either commits or throws, in which case nothing
    it wrote is kept: [M A] is a function from a database to a thrown error or
    the new database and a result. Tables are lists in insertion order; the
    columns kept are the ones the modelled services read, less prose (names of
    charges, audit payloads). The constraints of the migrations that a write can
    trip are part of the write. *)
From S2P Require Import Prelude Transactions Decimal Json StayPolicies Taxes.
Import Cancellation (PenaltyType).
From Stdlib Require Import QArith Qcanon.
Local Open Scope Z_scope.

Inductive ReservationStatus := waitlisted | confirmed | checked_in | checked_out | cancelled | no_show | walked.
#[global] Instance ReservationStatus_eq_dec : EqDecision ReservationStatus.
Proof. solve_decision. Defined.
Inductive FolioStatus := pending | open | settled | disputed.
#[global] Instance FolioStatus_eq_dec : EqDecision FolioStatus.
Proof. solve_decision. Defined.
Inductive PaymentMethod := cash | card | bank_transfer | voucher | loyalty_points.
#[global] Instance PaymentMethod_eq_dec : EqDecision PaymentMethod.
Proof. solve_decision. Defined.
Inductive PaymentPurpose := payment | deposit | deposit_application.
#[global] Instance PaymentPurpose_eq_dec : EqDecision PaymentPurpose.
Proof. solve_decision. Defined.
Inductive RefundStatus := refund_pending | refund_approved | refund_rejected | refund_processed.
#[global] Instance RefundStatus_eq_dec : EqDecision RefundStatus.
Proof. solve_decision. Defined.
Inductive PosSettlement := settle_room | settle_cash | settle_card | settle_split.
#[global] Instance PosSettlement_eq_dec : EqDecision PosSettlement.
Proof. solve_decision. Defined.
Inductive LoyaltyTxType := earn | redeem | adjust | expire | reversal.
#[global] Instance LoyaltyTxType_eq_dec : EqDecision LoyaltyTxType.
Proof. solve_decision. Defined.

(** A tier of the points programme, reached at [threshold] lifetime points. *)
Record LoyaltyTier := { tier_name : string; threshold : Z; benefits : list string }.

Inductive IssuePriority := low | medium | high | urgent.
Inductive IssueStatus := issue_open | issue_resolved | issue_carried_over.
#[global] Instance IssueStatus_eq_dec : EqDecision IssueStatus.
Proof. solve_decision. Defined.

(** The choices of a menu item: an option's price adds to the item's. *)
Inductive Selection := single | multi.
#[global] Instance Selection_eq_dec : EqDecision Selection.
Proof. solve_decision. Defined.
Record ModifierOption := { option_label : string; option_price : Qc }.
Record ModifierGroup := { group_name : string; selection : Selection; required : bool; options : list ModifierOption }.

(** How a message goes, which way, and how far it has got. *)
Inductive CommsChannel := by_email | by_sms | by_push | in_app_chat.
#[global] Instance CommsChannel_eq_dec : EqDecision CommsChannel.
Proof. solve_decision. Defined.
Inductive CommsDirection := outbound | inbound.
#[global] Instance CommsDirection_eq_dec : EqDecision CommsDirection.
Proof. solve_decision. Defined.
Inductive DeliveryStatus := msg_queued | msg_sent | msg_delivered | msg_failed | msg_opened | msg_bounced.
#[global] Instance DeliveryStatus_eq_dec : EqDecision DeliveryStatus.
Proof. solve_decision. Defined.
(** What somebody wrote, or the text the notice of that name renders (the templates are not modelled). *)
Inductive MessageBody := written (s : string) | rendered (trigger : string).
Record CateringLine := { cat_description : string; cat_quantity : Z; cat_unitPrice : Qc }.
Inductive NightAuditStatus := audit_running | audit_completed | audit_failed.
#[global] Instance NightAuditStatus_eq_dec : EqDecision NightAuditStatus.
Proof. solve_decision. Defined.
Inductive MaintenancePriority := prio_low | prio_medium | prio_high | prio_urgent.
#[global] Instance MaintenancePriority_eq_dec : EqDecision MaintenancePriority.
Proof. solve_decision. Defined.
Inductive MaintenanceStatus := order_open | order_in_progress | order_on_hold | order_resolved | order_cancelled.
#[global] Instance MaintenanceStatus_eq_dec : EqDecision MaintenanceStatus.
Proof. solve_decision. Defined.
Inductive OccupancyStatus := vacant | occupied.
#[global] Instance OccupancyStatus_eq_dec : EqDecision OccupancyStatus.
Proof. solve_decision. Defined.
Inductive CleanlinessStatus := dirty | cleaning | clean | inspected.
#[global] Instance CleanlinessStatus_eq_dec : EqDecision CleanlinessStatus.
Proof. solve_decision. Defined.
Inductive HeldStatus := out_of_order | blocked.
#[global] Instance HeldStatus_eq_dec : EqDecision HeldStatus.
Proof. solve_decision. Defined.
Inductive HousekeepingStatus := task_pending | task_in_progress | task_done | task_skipped.
#[global] Instance HousekeepingStatus_eq_dec : EqDecision HousekeepingStatus.
Proof. solve_decision. Defined.
Inductive ReservationChannel := direct | website | walk_in | booking_com | expedia | agoda | airbnb.
#[global] Instance ReservationChannel_eq_dec : EqDecision ReservationChannel.
Proof. solve_decision. Defined.
Inductive RateType := rate_base | rate_seasonal | rate_weekend | rate_corporate | rate_negotiated | rate_promotional.
#[global] Instance RateType_eq_dec : EqDecision RateType.
Proof. solve_decision. Defined.
Inductive AdjustmentType := adjust_fixed | adjust_percentage.
#[global] Instance AdjustmentType_eq_dec : EqDecision AdjustmentType.
Proof. solve_decision. Defined.

(** A branch (hotel) of the tenant. *)
Module Branch.
Record t := {
  id : string;
  timezone : string;
  currency : string;
  policies : option json;
  checkInTime : Z;
  checkOutTime : Z;
  cancellationPolicy : option json;
  depositPolicy : option json;
  noShowPolicy : option json;
  stayFeePolicy : option json;
  dayUsePolicy : option json;
  turndownPolicy : option json;
  name : string;
  regCardTemplate : option json;
  bookingSlug : option string;
  bookingEngineEnabled : bool;
  privacyNotice : option string;
  bookingTerms : option string;
  deletedAt : option Z;
}.
Definition with_published (v_bookingSlug : option string) (v_bookingEngineEnabled : bool) (x : t) : t :=
  {| id := id x; timezone := timezone x; currency := currency x; policies := policies x; checkInTime :=
     checkInTime x; checkOutTime := checkOutTime x; cancellationPolicy := cancellationPolicy x; depositPolicy :=
     depositPolicy x; noShowPolicy := noShowPolicy x; stayFeePolicy := stayFeePolicy x; dayUsePolicy :=
     dayUsePolicy x; turndownPolicy := turndownPolicy x; name := name x; regCardTemplate := regCardTemplate x;
     bookingSlug := v_bookingSlug; bookingEngineEnabled := v_bookingEngineEnabled; privacyNotice := privacyNotice
     x; bookingTerms := bookingTerms x; deletedAt := deletedAt x |}.
End Branch.

(** What one unit of another currency is worth at a branch. *)
Module ExchangeRate.
Record t := {
  branchId : string;
  currency : string;
  rate : Qc;
}.
End ExchangeRate.

(** A room type: its rack rate, whom it sleeps and what more people cost. *)
Module RoomType.
Record t := {
  id : string;
  branchId : string;
  name : string;
  baseRate : Qc;
  capacityAdults : Z;
  capacityChildren : Z;
  adultsIncluded : option Z;
  extraAdultRate : option Qc;
  childrenIncluded : Z;
  childRate : option Qc;
  dayUseRate : option Qc;
  deletedAt : option Z;
}.
End RoomType.

(** A company a bill can go to, and the rate it negotiated. *)
Module CorporateAccount.
Record t := {
  id : string;
  isActive : bool;
  ratePlanId : option string;
}.
End CorporateAccount.

(** A rate plan: an adjustment of its tier, or the nightly price itself. *)
Module RatePlan.
Record t := {
  id : string;
  branchId : string;
  roomTypeId : option string;
  type : RateType;
  amount : Qc;
  adjustmentType : option AdjustmentType;
  cascadeTier : Z;
  isOverride : bool;
  validFrom : option Z;
  validTo : option Z;
  minLOS : option Z;
  promoCode : option string;
  isActive : bool;
  createdAt : Z;
}.
Definition with_isActive (v_isActive : bool) (x : t) : t :=
  {| id := id x; branchId := branchId x; roomTypeId := roomTypeId x; type := type x; amount := amount x;
     adjustmentType := adjustmentType x; cascadeTier := cascadeTier x; isOverride := isOverride x; validFrom :=
     validFrom x; validTo := validTo x; minLOS := minLOS x; promoCode := promoCode x; isActive := v_isActive;
     createdAt := createdAt x |}.
End RatePlan.

(** How one night was priced. *)
Module RateAuditLog.
Record t := {
  id : Z;
  branchId : string;
  reservationId : option string;
  date : string;
  finalRate : string;
  overrideRatePlanId : option string;
  triggeredBy : string;
  userId : option string;
}.
Definition with_reservationId (v_reservationId : option string) (x : t) : t :=
  {| id := id x; branchId := branchId x; reservationId := v_reservationId; date := date x; finalRate := finalRate
     x; overrideRatePlanId := overrideRatePlanId x; triggeredBy := triggeredBy x; userId := userId x |}.
End RateAuditLog.

(** A building; the hidden default one has no name. *)
Module Building.
Record t := {
  id : string;
  branchId : string;
  name : option string;
}.
End Building.

(** A floor; the hidden default one has no label. *)
Module Floor.
Record t := {
  id : string;
  buildingId : string;
  label : option string;
}.
End Floor.

(** A room, on its three axes: occupancy, cleanliness, held. *)
Module Room.
Record t := {
  id : string;
  branchId : string;
  roomTypeId : string;
  floorId : string;
  number : string;
  occupancyStatus : OccupancyStatus;
  cleanlinessStatus : CleanlinessStatus;
  heldStatus : option HeldStatus;
  heldUntil : option Z;
  view : option string;
  notes : option string;
  statusChangedAt : option Z;
  statusChangedBy : option string;
  deletedAt : option Z;
}.
Definition with_status (v_occupancyStatus : OccupancyStatus) (v_cleanlinessStatus : CleanlinessStatus)
     (v_heldStatus : option HeldStatus) (v_heldUntil : option Z) (v_statusChangedAt : option Z) (v_statusChangedBy
     : option string) (x : t) : t :=
  {| id := id x; branchId := branchId x; roomTypeId := roomTypeId x; floorId := floorId x; number := number x;
     occupancyStatus := v_occupancyStatus; cleanlinessStatus := v_cleanlinessStatus; heldStatus := v_heldStatus;
     heldUntil := v_heldUntil; view := view x; notes := notes x; statusChangedAt := v_statusChangedAt;
     statusChangedBy := v_statusChangedBy; deletedAt := deletedAt x |}.
Definition with_cleanliness (v_cleanlinessStatus : CleanlinessStatus) (v_statusChangedAt : option Z)
     (v_statusChangedBy : option string) (x : t) : t :=
  {| id := id x; branchId := branchId x; roomTypeId := roomTypeId x; floorId := floorId x; number := number x;
     occupancyStatus := occupancyStatus x; cleanlinessStatus := v_cleanlinessStatus; heldStatus := heldStatus x;
     heldUntil := heldUntil x; view := view x; notes := notes x; statusChangedAt := v_statusChangedAt;
     statusChangedBy := v_statusChangedBy; deletedAt := deletedAt x |}.
Definition with_held (v_heldStatus : option HeldStatus) (v_heldUntil : option Z) (v_statusChangedAt : option Z)
     (v_statusChangedBy : option string) (x : t) : t :=
  {| id := id x; branchId := branchId x; roomTypeId := roomTypeId x; floorId := floorId x; number := number x;
     occupancyStatus := occupancyStatus x; cleanlinessStatus := cleanlinessStatus x; heldStatus := v_heldStatus;
     heldUntil := v_heldUntil; view := view x; notes := notes x; statusChangedAt := v_statusChangedAt;
     statusChangedBy := v_statusChangedBy; deletedAt := deletedAt x |}.
Definition with_details (v_number : string) (v_roomTypeId : string) (v_floorId : string) (v_view : option string)
     (v_notes : option string) (x : t) : t :=
  {| id := id x; branchId := branchId x; roomTypeId := v_roomTypeId; floorId := v_floorId; number := v_number;
     occupancyStatus := occupancyStatus x; cleanlinessStatus := cleanlinessStatus x; heldStatus := heldStatus x;
     heldUntil := heldUntil x; view := v_view; notes := v_notes; statusChangedAt := statusChangedAt x;
     statusChangedBy := statusChangedBy x; deletedAt := deletedAt x |}.
Definition with_restored (v_deletedAt : option Z) (v_roomTypeId : string) (v_floorId : string) (v_view : option
     string) (v_occupancyStatus : OccupancyStatus) (v_cleanlinessStatus : CleanlinessStatus) (v_heldStatus :
     option HeldStatus) (v_statusChangedAt : option Z) (v_statusChangedBy : option string) (x : t) : t :=
  {| id := id x; branchId := branchId x; roomTypeId := v_roomTypeId; floorId := v_floorId; number := number x;
     occupancyStatus := v_occupancyStatus; cleanlinessStatus := v_cleanlinessStatus; heldStatus := v_heldStatus;
     heldUntil := heldUntil x; view := v_view; notes := notes x; statusChangedAt := v_statusChangedAt;
     statusChangedBy := v_statusChangedBy; deletedAt := v_deletedAt |}.
Definition with_deletedAt (v_deletedAt : option Z) (x : t) : t :=
  {| id := id x; branchId := branchId x; roomTypeId := roomTypeId x; floorId := floorId x; number := number x;
     occupancyStatus := occupancyStatus x; cleanlinessStatus := cleanlinessStatus x; heldStatus := heldStatus x;
     heldUntil := heldUntil x; view := view x; notes := notes x; statusChangedAt := statusChangedAt x;
     statusChangedBy := statusChangedBy x; deletedAt := v_deletedAt |}.
End Room.

(** Nights a room is off sale, both ends included. *)
Module RoomBlock.
Record t := {
  id : string;
  roomId : string;
  fromDate : Z;
  toDate : Z;
}.
Definition with_toDate (v_toDate : Z) (x : t) : t :=
  {| id := id x; roomId := roomId x; fromDate := fromDate x; toDate := v_toDate |}.
End RoomBlock.

(** How far past its rooms a room type (or the branch) may sell. *)
Module OverbookingConfig.
Record t := {
  id : string;
  branchId : string;
  roomTypeId : option string;
  globalEnabled : bool;
  maxOverbookPct : option Qc;
  alertAtPct : option Qc;
  validFrom : option Z;
  validTo : option Z;
}.
Definition with_config (v_globalEnabled : bool) (v_maxOverbookPct : option Qc) (v_alertAtPct : option Qc)
     (v_validFrom : option Z) (v_validTo : option Z) (x : t) : t :=
  {| id := id x; branchId := branchId x; roomTypeId := roomTypeId x; globalEnabled := v_globalEnabled;
     maxOverbookPct := v_maxOverbookPct; alertAtPct := v_alertAtPct; validFrom := v_validFrom; validTo :=
     v_validTo |}.
End OverbookingConfig.

(** Rooms held for a group. *)
Module GroupBlock.
Record t := {
  id : string;
  branchId : string;
  roomTypeId : string;
  name : string;
  blockSize : Z;
  blockRate : Qc;
  cutoffDate : Z;
  status : string;
  arrivalDate : option Z;
  departureDate : option Z;
  contactName : option string;
  contactEmail : option string;
  contactPhone : option string;
  createdBy : option string;
  createdAt : Z;
}.
Definition with_status (v_status : string) (x : t) : t :=
  {| id := id x; branchId := branchId x; roomTypeId := roomTypeId x; name := name x; blockSize := blockSize x;
     blockRate := blockRate x; cutoffDate := cutoffDate x; status := v_status; arrivalDate := arrivalDate x;
     departureDate := departureDate x; contactName := contactName x; contactEmail := contactEmail x; contactPhone
     := contactPhone x; createdBy := createdBy x; createdAt := createdAt x |}.
End GroupBlock.

(** Rules about the nights [startDate, endDate). *)
Module AvailabilityRestriction.
Record t := {
  id : string;
  branchId : string;
  roomTypeId : option string;
  startDate : Z;
  endDate : Z;
  minLOS : option Z;
  maxLOS : option Z;
  closedToArrival : bool;
  stopSell : bool;
}.
End AvailabilityRestriction.

(** How many of a room type one channel may sell a night. *)
Module ChannelAllotment.
Record t := {
  id : string;
  branchId : string;
  roomTypeId : string;
  channel : ReservationChannel;
  fromDate : Z;
  toDate : Z;
  rooms : Z;
}.
Definition with_range (v_fromDate : Z) (v_toDate : Z) (v_rooms : Z) (x : t) : t :=
  {| id := id x; branchId := branchId x; roomTypeId := roomTypeId x; channel := channel x; fromDate := v_fromDate;
     toDate := v_toDate; rooms := v_rooms |}.
End ChannelAllotment.

(** Something sold with a stay. *)
Module Package.
Record t := {
  id : string;
  branchId : string;
  name : string;
  price : Qc;
  basis : string;
  chargeType : ChargeType;
  roomTypeIds : list string;
  showOnline : bool;
  isActive : bool;
  deletedAt : option Z;
}.
End Package.

(** A stay. *)
Module Reservation.
Record t := {
  id : string;
  branchId : string;
  guestId : string;
  status : ReservationStatus;
  checkInDate : Z;
  checkOutDate : Z;
  isDayUse : bool;
  overrideRate : option Qc;
  overrideReason : option string;
  confirmedRate : Qc;
  nightlyRates : option json;
  roomTypeId : string;
  roomId : option string;
  ratePlanId : option string;
  adults : Z;
  children : Z;
  packages : option json;
  billToFolioId : option string;
  groupBlockId : option string;
  corporateAccountId : option string;
  promoCode : option string;
  confirmationNumber : string;
  channel : ReservationChannel;
  actualCheckIn : option Z;
  actualCheckOut : option Z;
  depositAmount : option Qc;
  depositDueDate : option Z;
  cancellationPolicy : option json;
  createdBy : option string;
  termsAcceptedAt : option Z;
  preArrivalCompletedAt : option Z;
  houseRulesAcceptedAt : option Z;
  estimatedArrivalTime : option string;
  deletedAt : option Z;
}.
Definition with_status (v_status : ReservationStatus) (x : t) : t :=
  {| id := id x; branchId := branchId x; guestId := guestId x; status := v_status; checkInDate := checkInDate x;
     checkOutDate := checkOutDate x; isDayUse := isDayUse x; overrideRate := overrideRate x; overrideReason :=
     overrideReason x; confirmedRate := confirmedRate x; nightlyRates := nightlyRates x; roomTypeId := roomTypeId
     x; roomId := roomId x; ratePlanId := ratePlanId x; adults := adults x; children := children x; packages :=
     packages x; billToFolioId := billToFolioId x; groupBlockId := groupBlockId x; corporateAccountId :=
     corporateAccountId x; promoCode := promoCode x; confirmationNumber := confirmationNumber x; channel :=
     channel x; actualCheckIn := actualCheckIn x; actualCheckOut := actualCheckOut x; depositAmount :=
     depositAmount x; depositDueDate := depositDueDate x; cancellationPolicy := cancellationPolicy x; createdBy :=
     createdBy x; termsAcceptedAt := termsAcceptedAt x; preArrivalCompletedAt := preArrivalCompletedAt x;
     houseRulesAcceptedAt := houseRulesAcceptedAt x; estimatedArrivalTime := estimatedArrivalTime x; deletedAt :=
     deletedAt x |}.
Definition with_check_in (v_status : ReservationStatus) (v_roomId : option string) (v_actualCheckIn : option Z)
     (v_roomTypeId : string) (v_overrideRate : option Qc) (v_overrideReason : option string) (x : t) : t :=
  {| id := id x; branchId := branchId x; guestId := guestId x; status := v_status; checkInDate := checkInDate x;
     checkOutDate := checkOutDate x; isDayUse := isDayUse x; overrideRate := v_overrideRate; overrideReason :=
     v_overrideReason; confirmedRate := confirmedRate x; nightlyRates := nightlyRates x; roomTypeId :=
     v_roomTypeId; roomId := v_roomId; ratePlanId := ratePlanId x; adults := adults x; children := children x;
     packages := packages x; billToFolioId := billToFolioId x; groupBlockId := groupBlockId x; corporateAccountId
     := corporateAccountId x; promoCode := promoCode x; confirmationNumber := confirmationNumber x; channel :=
     channel x; actualCheckIn := v_actualCheckIn; actualCheckOut := actualCheckOut x; depositAmount :=
     depositAmount x; depositDueDate := depositDueDate x; cancellationPolicy := cancellationPolicy x; createdBy :=
     createdBy x; termsAcceptedAt := termsAcceptedAt x; preArrivalCompletedAt := preArrivalCompletedAt x;
     houseRulesAcceptedAt := houseRulesAcceptedAt x; estimatedArrivalTime := estimatedArrivalTime x; deletedAt :=
     deletedAt x |}.
Definition with_check_out (v_status : ReservationStatus) (v_actualCheckOut : option Z) (x : t) : t :=
  {| id := id x; branchId := branchId x; guestId := guestId x; status := v_status; checkInDate := checkInDate x;
     checkOutDate := checkOutDate x; isDayUse := isDayUse x; overrideRate := overrideRate x; overrideReason :=
     overrideReason x; confirmedRate := confirmedRate x; nightlyRates := nightlyRates x; roomTypeId := roomTypeId
     x; roomId := roomId x; ratePlanId := ratePlanId x; adults := adults x; children := children x; packages :=
     packages x; billToFolioId := billToFolioId x; groupBlockId := groupBlockId x; corporateAccountId :=
     corporateAccountId x; promoCode := promoCode x; confirmationNumber := confirmationNumber x; channel :=
     channel x; actualCheckIn := actualCheckIn x; actualCheckOut := v_actualCheckOut; depositAmount :=
     depositAmount x; depositDueDate := depositDueDate x; cancellationPolicy := cancellationPolicy x; createdBy :=
     createdBy x; termsAcceptedAt := termsAcceptedAt x; preArrivalCompletedAt := preArrivalCompletedAt x;
     houseRulesAcceptedAt := houseRulesAcceptedAt x; estimatedArrivalTime := estimatedArrivalTime x; deletedAt :=
     deletedAt x |}.
Definition with_dates (v_status : ReservationStatus) (v_checkInDate : Z) (v_checkOutDate : Z) (v_ratePlanId :
     option string) (v_confirmedRate : Qc) (v_nightlyRates : option json) (x : t) : t :=
  {| id := id x; branchId := branchId x; guestId := guestId x; status := v_status; checkInDate := v_checkInDate;
     checkOutDate := v_checkOutDate; isDayUse := isDayUse x; overrideRate := overrideRate x; overrideReason :=
     overrideReason x; confirmedRate := v_confirmedRate; nightlyRates := v_nightlyRates; roomTypeId := roomTypeId
     x; roomId := roomId x; ratePlanId := v_ratePlanId; adults := adults x; children := children x; packages :=
     packages x; billToFolioId := billToFolioId x; groupBlockId := groupBlockId x; corporateAccountId :=
     corporateAccountId x; promoCode := promoCode x; confirmationNumber := confirmationNumber x; channel :=
     channel x; actualCheckIn := actualCheckIn x; actualCheckOut := actualCheckOut x; depositAmount :=
     depositAmount x; depositDueDate := depositDueDate x; cancellationPolicy := cancellationPolicy x; createdBy :=
     createdBy x; termsAcceptedAt := termsAcceptedAt x; preArrivalCompletedAt := preArrivalCompletedAt x;
     houseRulesAcceptedAt := houseRulesAcceptedAt x; estimatedArrivalTime := estimatedArrivalTime x; deletedAt :=
     deletedAt x |}.
Definition with_changes (v_checkInDate : Z) (v_checkOutDate : Z) (v_roomTypeId : string) (v_ratePlanId : option
     string) (v_confirmedRate : Qc) (v_nightlyRates : option json) (v_adults : Z) (v_children : Z) (x : t) : t :=
  {| id := id x; branchId := branchId x; guestId := guestId x; status := status x; checkInDate := v_checkInDate;
     checkOutDate := v_checkOutDate; isDayUse := isDayUse x; overrideRate := overrideRate x; overrideReason :=
     overrideReason x; confirmedRate := v_confirmedRate; nightlyRates := v_nightlyRates; roomTypeId :=
     v_roomTypeId; roomId := roomId x; ratePlanId := v_ratePlanId; adults := v_adults; children := v_children;
     packages := packages x; billToFolioId := billToFolioId x; groupBlockId := groupBlockId x; corporateAccountId
     := corporateAccountId x; promoCode := promoCode x; confirmationNumber := confirmationNumber x; channel :=
     channel x; actualCheckIn := actualCheckIn x; actualCheckOut := actualCheckOut x; depositAmount :=
     depositAmount x; depositDueDate := depositDueDate x; cancellationPolicy := cancellationPolicy x; createdBy :=
     createdBy x; termsAcceptedAt := termsAcceptedAt x; preArrivalCompletedAt := preArrivalCompletedAt x;
     houseRulesAcceptedAt := houseRulesAcceptedAt x; estimatedArrivalTime := estimatedArrivalTime x; deletedAt :=
     deletedAt x |}.
Definition with_extension (v_checkOutDate : Z) (v_confirmedRate : Qc) (v_ratePlanId : option string)
     (v_nightlyRates : option json) (x : t) : t :=
  {| id := id x; branchId := branchId x; guestId := guestId x; status := status x; checkInDate := checkInDate x;
     checkOutDate := v_checkOutDate; isDayUse := isDayUse x; overrideRate := overrideRate x; overrideReason :=
     overrideReason x; confirmedRate := v_confirmedRate; nightlyRates := v_nightlyRates; roomTypeId := roomTypeId
     x; roomId := roomId x; ratePlanId := v_ratePlanId; adults := adults x; children := children x; packages :=
     packages x; billToFolioId := billToFolioId x; groupBlockId := groupBlockId x; corporateAccountId :=
     corporateAccountId x; promoCode := promoCode x; confirmationNumber := confirmationNumber x; channel :=
     channel x; actualCheckIn := actualCheckIn x; actualCheckOut := actualCheckOut x; depositAmount :=
     depositAmount x; depositDueDate := depositDueDate x; cancellationPolicy := cancellationPolicy x; createdBy :=
     createdBy x; termsAcceptedAt := termsAcceptedAt x; preArrivalCompletedAt := preArrivalCompletedAt x;
     houseRulesAcceptedAt := houseRulesAcceptedAt x; estimatedArrivalTime := estimatedArrivalTime x; deletedAt :=
     deletedAt x |}.
Definition with_room (v_roomId : option string) (v_roomTypeId : string) (v_overrideRate : option Qc)
     (v_overrideReason : option string) (v_confirmedRate : Qc) (x : t) : t :=
  {| id := id x; branchId := branchId x; guestId := guestId x; status := status x; checkInDate := checkInDate x;
     checkOutDate := checkOutDate x; isDayUse := isDayUse x; overrideRate := v_overrideRate; overrideReason :=
     v_overrideReason; confirmedRate := v_confirmedRate; nightlyRates := nightlyRates x; roomTypeId :=
     v_roomTypeId; roomId := v_roomId; ratePlanId := ratePlanId x; adults := adults x; children := children x;
     packages := packages x; billToFolioId := billToFolioId x; groupBlockId := groupBlockId x; corporateAccountId
     := corporateAccountId x; promoCode := promoCode x; confirmationNumber := confirmationNumber x; channel :=
     channel x; actualCheckIn := actualCheckIn x; actualCheckOut := actualCheckOut x; depositAmount :=
     depositAmount x; depositDueDate := depositDueDate x; cancellationPolicy := cancellationPolicy x; createdBy :=
     createdBy x; termsAcceptedAt := termsAcceptedAt x; preArrivalCompletedAt := preArrivalCompletedAt x;
     houseRulesAcceptedAt := houseRulesAcceptedAt x; estimatedArrivalTime := estimatedArrivalTime x; deletedAt :=
     deletedAt x |}.
Definition with_override (v_overrideRate : option Qc) (v_overrideReason : option string) (v_confirmedRate : Qc)
     (v_nightlyRates : option json) (x : t) : t :=
  {| id := id x; branchId := branchId x; guestId := guestId x; status := status x; checkInDate := checkInDate x;
     checkOutDate := checkOutDate x; isDayUse := isDayUse x; overrideRate := v_overrideRate; overrideReason :=
     v_overrideReason; confirmedRate := v_confirmedRate; nightlyRates := v_nightlyRates; roomTypeId := roomTypeId
     x; roomId := roomId x; ratePlanId := ratePlanId x; adults := adults x; children := children x; packages :=
     packages x; billToFolioId := billToFolioId x; groupBlockId := groupBlockId x; corporateAccountId :=
     corporateAccountId x; promoCode := promoCode x; confirmationNumber := confirmationNumber x; channel :=
     channel x; actualCheckIn := actualCheckIn x; actualCheckOut := actualCheckOut x; depositAmount :=
     depositAmount x; depositDueDate := depositDueDate x; cancellationPolicy := cancellationPolicy x; createdBy :=
     createdBy x; termsAcceptedAt := termsAcceptedAt x; preArrivalCompletedAt := preArrivalCompletedAt x;
     houseRulesAcceptedAt := houseRulesAcceptedAt x; estimatedArrivalTime := estimatedArrivalTime x; deletedAt :=
     deletedAt x |}.
Definition with_packages (v_packages : option json) (x : t) : t :=
  {| id := id x; branchId := branchId x; guestId := guestId x; status := status x; checkInDate := checkInDate x;
     checkOutDate := checkOutDate x; isDayUse := isDayUse x; overrideRate := overrideRate x; overrideReason :=
     overrideReason x; confirmedRate := confirmedRate x; nightlyRates := nightlyRates x; roomTypeId := roomTypeId
     x; roomId := roomId x; ratePlanId := ratePlanId x; adults := adults x; children := children x; packages :=
     v_packages; billToFolioId := billToFolioId x; groupBlockId := groupBlockId x; corporateAccountId :=
     corporateAccountId x; promoCode := promoCode x; confirmationNumber := confirmationNumber x; channel :=
     channel x; actualCheckIn := actualCheckIn x; actualCheckOut := actualCheckOut x; depositAmount :=
     depositAmount x; depositDueDate := depositDueDate x; cancellationPolicy := cancellationPolicy x; createdBy :=
     createdBy x; termsAcceptedAt := termsAcceptedAt x; preArrivalCompletedAt := preArrivalCompletedAt x;
     houseRulesAcceptedAt := houseRulesAcceptedAt x; estimatedArrivalTime := estimatedArrivalTime x; deletedAt :=
     deletedAt x |}.
Definition with_billTo (v_billToFolioId : option string) (x : t) : t :=
  {| id := id x; branchId := branchId x; guestId := guestId x; status := status x; checkInDate := checkInDate x;
     checkOutDate := checkOutDate x; isDayUse := isDayUse x; overrideRate := overrideRate x; overrideReason :=
     overrideReason x; confirmedRate := confirmedRate x; nightlyRates := nightlyRates x; roomTypeId := roomTypeId
     x; roomId := roomId x; ratePlanId := ratePlanId x; adults := adults x; children := children x; packages :=
     packages x; billToFolioId := v_billToFolioId; groupBlockId := groupBlockId x; corporateAccountId :=
     corporateAccountId x; promoCode := promoCode x; confirmationNumber := confirmationNumber x; channel :=
     channel x; actualCheckIn := actualCheckIn x; actualCheckOut := actualCheckOut x; depositAmount :=
     depositAmount x; depositDueDate := depositDueDate x; cancellationPolicy := cancellationPolicy x; createdBy :=
     createdBy x; termsAcceptedAt := termsAcceptedAt x; preArrivalCompletedAt := preArrivalCompletedAt x;
     houseRulesAcceptedAt := houseRulesAcceptedAt x; estimatedArrivalTime := estimatedArrivalTime x; deletedAt :=
     deletedAt x |}.
Definition with_promotion (v_status : ReservationStatus) (v_depositAmount : option Qc) (v_depositDueDate : option
     Z) (x : t) : t :=
  {| id := id x; branchId := branchId x; guestId := guestId x; status := v_status; checkInDate := checkInDate x;
     checkOutDate := checkOutDate x; isDayUse := isDayUse x; overrideRate := overrideRate x; overrideReason :=
     overrideReason x; confirmedRate := confirmedRate x; nightlyRates := nightlyRates x; roomTypeId := roomTypeId
     x; roomId := roomId x; ratePlanId := ratePlanId x; adults := adults x; children := children x; packages :=
     packages x; billToFolioId := billToFolioId x; groupBlockId := groupBlockId x; corporateAccountId :=
     corporateAccountId x; promoCode := promoCode x; confirmationNumber := confirmationNumber x; channel :=
     channel x; actualCheckIn := actualCheckIn x; actualCheckOut := actualCheckOut x; depositAmount :=
     v_depositAmount; depositDueDate := v_depositDueDate; cancellationPolicy := cancellationPolicy x; createdBy :=
     createdBy x; termsAcceptedAt := termsAcceptedAt x; preArrivalCompletedAt := preArrivalCompletedAt x;
     houseRulesAcceptedAt := houseRulesAcceptedAt x; estimatedArrivalTime := estimatedArrivalTime x; deletedAt :=
     deletedAt x |}.
Definition with_money (v_confirmedRate : Qc) (v_overrideRate : option Qc) (v_depositAmount : option Qc) (x : t) :
     t :=
  {| id := id x; branchId := branchId x; guestId := guestId x; status := status x; checkInDate := checkInDate x;
     checkOutDate := checkOutDate x; isDayUse := isDayUse x; overrideRate := v_overrideRate; overrideReason :=
     overrideReason x; confirmedRate := v_confirmedRate; nightlyRates := nightlyRates x; roomTypeId := roomTypeId
     x; roomId := roomId x; ratePlanId := ratePlanId x; adults := adults x; children := children x; packages :=
     packages x; billToFolioId := billToFolioId x; groupBlockId := groupBlockId x; corporateAccountId :=
     corporateAccountId x; promoCode := promoCode x; confirmationNumber := confirmationNumber x; channel :=
     channel x; actualCheckIn := actualCheckIn x; actualCheckOut := actualCheckOut x; depositAmount :=
     v_depositAmount; depositDueDate := depositDueDate x; cancellationPolicy := cancellationPolicy x; createdBy :=
     createdBy x; termsAcceptedAt := termsAcceptedAt x; preArrivalCompletedAt := preArrivalCompletedAt x;
     houseRulesAcceptedAt := houseRulesAcceptedAt x; estimatedArrivalTime := estimatedArrivalTime x; deletedAt :=
     deletedAt x |}.
Definition with_number (v_confirmationNumber : string) (x : t) : t :=
  {| id := id x; branchId := branchId x; guestId := guestId x; status := status x; checkInDate := checkInDate x;
     checkOutDate := checkOutDate x; isDayUse := isDayUse x; overrideRate := overrideRate x; overrideReason :=
     overrideReason x; confirmedRate := confirmedRate x; nightlyRates := nightlyRates x; roomTypeId := roomTypeId
     x; roomId := roomId x; ratePlanId := ratePlanId x; adults := adults x; children := children x; packages :=
     packages x; billToFolioId := billToFolioId x; groupBlockId := groupBlockId x; corporateAccountId :=
     corporateAccountId x; promoCode := promoCode x; confirmationNumber := v_confirmationNumber; channel :=
     channel x; actualCheckIn := actualCheckIn x; actualCheckOut := actualCheckOut x; depositAmount :=
     depositAmount x; depositDueDate := depositDueDate x; cancellationPolicy := cancellationPolicy x; createdBy :=
     createdBy x; termsAcceptedAt := termsAcceptedAt x; preArrivalCompletedAt := preArrivalCompletedAt x;
     houseRulesAcceptedAt := houseRulesAcceptedAt x; estimatedArrivalTime := estimatedArrivalTime x; deletedAt :=
     deletedAt x |}.
Definition with_id (v_id : string) (x : t) : t :=
  {| id := v_id; branchId := branchId x; guestId := guestId x; status := status x; checkInDate := checkInDate x;
     checkOutDate := checkOutDate x; isDayUse := isDayUse x; overrideRate := overrideRate x; overrideReason :=
     overrideReason x; confirmedRate := confirmedRate x; nightlyRates := nightlyRates x; roomTypeId := roomTypeId
     x; roomId := roomId x; ratePlanId := ratePlanId x; adults := adults x; children := children x; packages :=
     packages x; billToFolioId := billToFolioId x; groupBlockId := groupBlockId x; corporateAccountId :=
     corporateAccountId x; promoCode := promoCode x; confirmationNumber := confirmationNumber x; channel :=
     channel x; actualCheckIn := actualCheckIn x; actualCheckOut := actualCheckOut x; depositAmount :=
     depositAmount x; depositDueDate := depositDueDate x; cancellationPolicy := cancellationPolicy x; createdBy :=
     createdBy x; termsAcceptedAt := termsAcceptedAt x; preArrivalCompletedAt := preArrivalCompletedAt x;
     houseRulesAcceptedAt := houseRulesAcceptedAt x; estimatedArrivalTime := estimatedArrivalTime x; deletedAt :=
     deletedAt x |}.
Definition with_terms (v_termsAcceptedAt : option Z) (x : t) : t :=
  {| id := id x; branchId := branchId x; guestId := guestId x; status := status x; checkInDate := checkInDate x;
     checkOutDate := checkOutDate x; isDayUse := isDayUse x; overrideRate := overrideRate x; overrideReason :=
     overrideReason x; confirmedRate := confirmedRate x; nightlyRates := nightlyRates x; roomTypeId := roomTypeId
     x; roomId := roomId x; ratePlanId := ratePlanId x; adults := adults x; children := children x; packages :=
     packages x; billToFolioId := billToFolioId x; groupBlockId := groupBlockId x; corporateAccountId :=
     corporateAccountId x; promoCode := promoCode x; confirmationNumber := confirmationNumber x; channel :=
     channel x; actualCheckIn := actualCheckIn x; actualCheckOut := actualCheckOut x; depositAmount :=
     depositAmount x; depositDueDate := depositDueDate x; cancellationPolicy := cancellationPolicy x; createdBy :=
     createdBy x; termsAcceptedAt := v_termsAcceptedAt; preArrivalCompletedAt := preArrivalCompletedAt x;
     houseRulesAcceptedAt := houseRulesAcceptedAt x; estimatedArrivalTime := estimatedArrivalTime x; deletedAt :=
     deletedAt x |}.
Definition with_pre_arrival (v_preArrivalCompletedAt : option Z) (v_houseRulesAcceptedAt : option Z)
     (v_estimatedArrivalTime : option string) (x : t) : t :=
  {| id := id x; branchId := branchId x; guestId := guestId x; status := status x; checkInDate := checkInDate x;
     checkOutDate := checkOutDate x; isDayUse := isDayUse x; overrideRate := overrideRate x; overrideReason :=
     overrideReason x; confirmedRate := confirmedRate x; nightlyRates := nightlyRates x; roomTypeId := roomTypeId
     x; roomId := roomId x; ratePlanId := ratePlanId x; adults := adults x; children := children x; packages :=
     packages x; billToFolioId := billToFolioId x; groupBlockId := groupBlockId x; corporateAccountId :=
     corporateAccountId x; promoCode := promoCode x; confirmationNumber := confirmationNumber x; channel :=
     channel x; actualCheckIn := actualCheckIn x; actualCheckOut := actualCheckOut x; depositAmount :=
     depositAmount x; depositDueDate := depositDueDate x; cancellationPolicy := cancellationPolicy x; createdBy :=
     createdBy x; termsAcceptedAt := termsAcceptedAt x; preArrivalCompletedAt := v_preArrivalCompletedAt;
     houseRulesAcceptedAt := v_houseRulesAcceptedAt; estimatedArrivalTime := v_estimatedArrivalTime; deletedAt :=
     deletedAt x |}.
End Reservation.

(** A guest: who they are, their document, their points and whether they want offers. *)
Module GuestProfile.
Record t := {
  id : string;
  name : string;
  email : option string;
  phone : option string;
  phoneDigits : option string;
  vipLevel : option Z;
  idDocType : option string;
  idDocNumber : option string;
  idDocExpiryDate : option Z;
  nationality : option string;
  loyaltyPoints : option Z;
  loyaltyTier : option string;
  loyaltyEnrolledAt : option Z;
  marketingOptIn : bool;
  marketingOptInAt : option Z;
  marketingOptInSource : option string;
  marketingUnsubscribedAt : option Z;
  updatedAt : Z;
  deletedAt : option Z;
}.
Definition with_loyalty (v_loyaltyPoints : option Z) (v_loyaltyTier : option string) (v_loyaltyEnrolledAt : option
     Z) (v_updatedAt : Z) (x : t) : t :=
  {| id := id x; name := name x; email := email x; phone := phone x; phoneDigits := phoneDigits x; vipLevel :=
     vipLevel x; idDocType := idDocType x; idDocNumber := idDocNumber x; idDocExpiryDate := idDocExpiryDate x;
     nationality := nationality x; loyaltyPoints := v_loyaltyPoints; loyaltyTier := v_loyaltyTier;
     loyaltyEnrolledAt := v_loyaltyEnrolledAt; marketingOptIn := marketingOptIn x; marketingOptInAt :=
     marketingOptInAt x; marketingOptInSource := marketingOptInSource x; marketingUnsubscribedAt :=
     marketingUnsubscribedAt x; updatedAt := v_updatedAt; deletedAt := deletedAt x |}.
Definition with_contact (v_email : option string) (v_phone : option string) (v_phoneDigits : option string)
     (v_updatedAt : Z) (x : t) : t :=
  {| id := id x; name := name x; email := v_email; phone := v_phone; phoneDigits := v_phoneDigits; vipLevel :=
     vipLevel x; idDocType := idDocType x; idDocNumber := idDocNumber x; idDocExpiryDate := idDocExpiryDate x;
     nationality := nationality x; loyaltyPoints := loyaltyPoints x; loyaltyTier := loyaltyTier x;
     loyaltyEnrolledAt := loyaltyEnrolledAt x; marketingOptIn := marketingOptIn x; marketingOptInAt :=
     marketingOptInAt x; marketingOptInSource := marketingOptInSource x; marketingUnsubscribedAt :=
     marketingUnsubscribedAt x; updatedAt := v_updatedAt; deletedAt := deletedAt x |}.
Definition with_profile (v_name : string) (v_email : option string) (v_phone : option string) (v_phoneDigits :
     option string) (v_vipLevel : option Z) (v_updatedAt : Z) (x : t) : t :=
  {| id := id x; name := v_name; email := v_email; phone := v_phone; phoneDigits := v_phoneDigits; vipLevel :=
     v_vipLevel; idDocType := idDocType x; idDocNumber := idDocNumber x; idDocExpiryDate := idDocExpiryDate x;
     nationality := nationality x; loyaltyPoints := loyaltyPoints x; loyaltyTier := loyaltyTier x;
     loyaltyEnrolledAt := loyaltyEnrolledAt x; marketingOptIn := marketingOptIn x; marketingOptInAt :=
     marketingOptInAt x; marketingOptInSource := marketingOptInSource x; marketingUnsubscribedAt :=
     marketingUnsubscribedAt x; updatedAt := v_updatedAt; deletedAt := deletedAt x |}.
Definition with_idDocument (v_idDocType : option string) (v_idDocNumber : option string) (v_idDocExpiryDate :
     option Z) (v_nationality : option string) (v_updatedAt : Z) (x : t) : t :=
  {| id := id x; name := name x; email := email x; phone := phone x; phoneDigits := phoneDigits x; vipLevel :=
     vipLevel x; idDocType := v_idDocType; idDocNumber := v_idDocNumber; idDocExpiryDate := v_idDocExpiryDate;
     nationality := v_nationality; loyaltyPoints := loyaltyPoints x; loyaltyTier := loyaltyTier x;
     loyaltyEnrolledAt := loyaltyEnrolledAt x; marketingOptIn := marketingOptIn x; marketingOptInAt :=
     marketingOptInAt x; marketingOptInSource := marketingOptInSource x; marketingUnsubscribedAt :=
     marketingUnsubscribedAt x; updatedAt := v_updatedAt; deletedAt := deletedAt x |}.
Definition with_pre_arrival (v_phone : option string) (v_phoneDigits : option string) (v_nationality : option
     string) (v_updatedAt : Z) (x : t) : t :=
  {| id := id x; name := name x; email := email x; phone := v_phone; phoneDigits := v_phoneDigits; vipLevel :=
     vipLevel x; idDocType := idDocType x; idDocNumber := idDocNumber x; idDocExpiryDate := idDocExpiryDate x;
     nationality := v_nationality; loyaltyPoints := loyaltyPoints x; loyaltyTier := loyaltyTier x;
     loyaltyEnrolledAt := loyaltyEnrolledAt x; marketingOptIn := marketingOptIn x; marketingOptInAt :=
     marketingOptInAt x; marketingOptInSource := marketingOptInSource x; marketingUnsubscribedAt :=
     marketingUnsubscribedAt x; updatedAt := v_updatedAt; deletedAt := deletedAt x |}.
Definition with_marketing (v_marketingOptIn : bool) (v_marketingOptInAt : option Z) (v_marketingOptInSource :
     option string) (v_updatedAt : Z) (x : t) : t :=
  {| id := id x; name := name x; email := email x; phone := phone x; phoneDigits := phoneDigits x; vipLevel :=
     vipLevel x; idDocType := idDocType x; idDocNumber := idDocNumber x; idDocExpiryDate := idDocExpiryDate x;
     nationality := nationality x; loyaltyPoints := loyaltyPoints x; loyaltyTier := loyaltyTier x;
     loyaltyEnrolledAt := loyaltyEnrolledAt x; marketingOptIn := v_marketingOptIn; marketingOptInAt :=
     v_marketingOptInAt; marketingOptInSource := v_marketingOptInSource; marketingUnsubscribedAt :=
     marketingUnsubscribedAt x; updatedAt := v_updatedAt; deletedAt := deletedAt x |}.
End GuestProfile.

(** A note on a guest. *)
Module GuestNote.
Record t := {
  guestId : string;
  authorId : option string;
  body : string;
}.
End GuestNote.

(** A no-show and the penalty it posted. *)
Module NoShowRecord.
Record t := {
  id : string;
  reservationId : string;
  penaltyType : PenaltyType;
  penaltyAmount : option Qc;
  penaltyWaived : bool;
  waivedBy : option string;
  refundAmount : option Qc;
  markedBy : option string;
  penaltyLineItemId : option string;
  markedAt : Z;
}.
Definition with_waived (v_penaltyWaived : bool) (v_waivedBy : option string) (v_refundAmount : option Qc) (x : t)
     : t :=
  {| id := id x; reservationId := reservationId x; penaltyType := penaltyType x; penaltyAmount := penaltyAmount x;
     penaltyWaived := v_penaltyWaived; waivedBy := v_waivedBy; refundAmount := v_refundAmount; markedBy :=
     markedBy x; penaltyLineItemId := penaltyLineItemId x; markedAt := markedAt x |}.
End NoShowRecord.

(** A guest sent to another hotel. *)
Module WalkRecord.
Record t := {
  id : string;
  reservationId : string;
  relocationProperty : string;
  transportProvided : bool;
  transportCost : option Qc;
  compensationOffered : option string;
  approvedBy : option string;
}.
End WalkRecord.

(** A job for housekeeping. *)
Module HousekeepingTask.
Record t := {
  id : string;
  branchId : string;
  roomId : string;
  assigneeId : option string;
  taskDate : Z;
  status : HousekeepingStatus;
  priority : option Z;
  triggerEvent : option string;
  triggeredByReservationId : option string;
  notes : option string;
  completedAt : option Z;
  completedBy : option string;
}.
Definition with_assignee (v_assigneeId : option string) (x : t) : t :=
  {| id := id x; branchId := branchId x; roomId := roomId x; assigneeId := v_assigneeId; taskDate := taskDate x;
     status := status x; priority := priority x; triggerEvent := triggerEvent x; triggeredByReservationId :=
     triggeredByReservationId x; notes := notes x; completedAt := completedAt x; completedBy := completedBy x |}.
Definition with_started (v_status : HousekeepingStatus) (v_assigneeId : option string) (x : t) : t :=
  {| id := id x; branchId := branchId x; roomId := roomId x; assigneeId := v_assigneeId; taskDate := taskDate x;
     status := v_status; priority := priority x; triggerEvent := triggerEvent x; triggeredByReservationId :=
     triggeredByReservationId x; notes := notes x; completedAt := completedAt x; completedBy := completedBy x |}.
Definition with_done (v_status : HousekeepingStatus) (v_completedAt : option Z) (v_completedBy : option string) (x
     : t) : t :=
  {| id := id x; branchId := branchId x; roomId := roomId x; assigneeId := assigneeId x; taskDate := taskDate x;
     status := v_status; priority := priority x; triggerEvent := triggerEvent x; triggeredByReservationId :=
     triggeredByReservationId x; notes := notes x; completedAt := v_completedAt; completedBy := v_completedBy |}.
Definition with_skipped (v_status : HousekeepingStatus) (v_notes : option string) (x : t) : t :=
  {| id := id x; branchId := branchId x; roomId := roomId x; assigneeId := assigneeId x; taskDate := taskDate x;
     status := v_status; priority := priority x; triggerEvent := triggerEvent x; triggeredByReservationId :=
     triggeredByReservationId x; notes := v_notes; completedAt := completedAt x; completedBy := completedBy x |}.
End HousekeepingTask.

(** The card a guest signs at check-in. *)
Module RegistrationCard.
Record t := {
  id : string;
  branchId : string;
  reservationId : string;
  guestId : string;
}.
End RegistrationCard.

(** A bill. The primary one of a stay has no label. *)
Module Folio.
Record t := {
  id : string;
  branchId : string;
  reservationId : string;
  guestId : string;
  label : option string;
  status : FolioStatus;
  payerName : option string;
  corporateAccountId : option string;
  openedAt : option Z;
  closedAt : option Z;
  deletedAt : option Z;
}.
Definition with_opened (v_status : FolioStatus) (v_openedAt : option Z) (x : t) : t :=
  {| id := id x; branchId := branchId x; reservationId := reservationId x; guestId := guestId x; label := label x;
     status := v_status; payerName := payerName x; corporateAccountId := corporateAccountId x; openedAt :=
     v_openedAt; closedAt := closedAt x; deletedAt := deletedAt x |}.
Definition with_closed (v_status : FolioStatus) (v_closedAt : option Z) (x : t) : t :=
  {| id := id x; branchId := branchId x; reservationId := reservationId x; guestId := guestId x; label := label x;
     status := v_status; payerName := payerName x; corporateAccountId := corporateAccountId x; openedAt :=
     openedAt x; closedAt := v_closedAt; deletedAt := deletedAt x |}.
End Folio.

(** A line of a bill: a charge, a tax, or a correction. *)
Module LineItem.
Record t := {
  id : string;
  folioId : string;
  amount : Qc;
  taxAmount : Qc;
  chargeType : ChargeType;
  outletId : option string;
  taxRuleIds : list string;
  serviceDate : option Z;
  postedBy : option string;
  postedAt : Z;
  isVoid : bool;
  deletedAt : option Z;
  parentLineItemId : option string;
  correctsLineItemId : option string;
  stayReservationId : option string;
  roomTypeId : option string;
  packageId : option string;
  dayUse : bool;
}.
Definition with_folioId (v_folioId : string) (x : t) : t :=
  {| id := id x; folioId := v_folioId; amount := amount x; taxAmount := taxAmount x; chargeType := chargeType x;
     outletId := outletId x; taxRuleIds := taxRuleIds x; serviceDate := serviceDate x; postedBy := postedBy x;
     postedAt := postedAt x; isVoid := isVoid x; deletedAt := deletedAt x; parentLineItemId := parentLineItemId x;
     correctsLineItemId := correctsLineItemId x; stayReservationId := stayReservationId x; roomTypeId :=
     roomTypeId x; packageId := packageId x; dayUse := dayUse x |}.
End LineItem.

(** A payment on a bill; money handed back is a negative one. *)
Module Payment.
Record t := {
  id : string;
  folioId : string;
  method : PaymentMethod;
  amount : Qc;
  currency : string;
  foreignCurrency : option string;
  foreignAmount : option Qc;
  exchangeRate : option Qc;
  reference : option string;
  shiftId : option string;
  paymentPurpose : PaymentPurpose;
  isVoid : bool;
  voidedAt : option Z;
  voidedBy : option string;
  voidReason : option string;
  recordedBy : option string;
  deletedAt : option Z;
}.
Definition with_void (v_isVoid : bool) (v_voidedAt : option Z) (v_voidedBy : option string) (v_voidReason : option
     string) (x : t) : t :=
  {| id := id x; folioId := folioId x; method := method x; amount := amount x; currency := currency x;
     foreignCurrency := foreignCurrency x; foreignAmount := foreignAmount x; exchangeRate := exchangeRate x;
     reference := reference x; shiftId := shiftId x; paymentPurpose := paymentPurpose x; isVoid := v_isVoid;
     voidedAt := v_voidedAt; voidedBy := v_voidedBy; voidReason := v_voidReason; recordedBy := recordedBy x;
     deletedAt := deletedAt x |}.
End Payment.

(** A refund and where it stands. *)
Module Refund.
Record t := {
  id : string;
  folioId : string;
  paymentId : option string;
  amount : Qc;
  reason : string;
  status : RefundStatus;
  method : PaymentMethod;
  requestedBy : option string;
  approvedBy : option string;
  rejectionReason : option string;
  processedBy : option string;
  refundPaymentId : option string;
  processedAt : option Z;
}.
Definition with_approved (v_status : RefundStatus) (v_approvedBy : option string) (x : t) : t :=
  {| id := id x; folioId := folioId x; paymentId := paymentId x; amount := amount x; reason := reason x; status :=
     v_status; method := method x; requestedBy := requestedBy x; approvedBy := v_approvedBy; rejectionReason :=
     rejectionReason x; processedBy := processedBy x; refundPaymentId := refundPaymentId x; processedAt :=
     processedAt x |}.
Definition with_rejected (v_status : RefundStatus) (v_rejectionReason : option string) (x : t) : t :=
  {| id := id x; folioId := folioId x; paymentId := paymentId x; amount := amount x; reason := reason x; status :=
     v_status; method := method x; requestedBy := requestedBy x; approvedBy := approvedBy x; rejectionReason :=
     v_rejectionReason; processedBy := processedBy x; refundPaymentId := refundPaymentId x; processedAt :=
     processedAt x |}.
Definition with_processed (v_status : RefundStatus) (v_processedAt : option Z) (v_processedBy : option string) (x
     : t) : t :=
  {| id := id x; folioId := folioId x; paymentId := paymentId x; amount := amount x; reason := reason x; status :=
     v_status; method := method x; requestedBy := requestedBy x; approvedBy := approvedBy x; rejectionReason :=
     rejectionReason x; processedBy := v_processedBy; refundPaymentId := refundPaymentId x; processedAt :=
     v_processedAt |}.
Definition with_refundPaymentId (v_refundPaymentId : option string) (x : t) : t :=
  {| id := id x; folioId := folioId x; paymentId := paymentId x; amount := amount x; reason := reason x; status :=
     status x; method := method x; requestedBy := requestedBy x; approvedBy := approvedBy x; rejectionReason :=
     rejectionReason x; processedBy := processedBy x; refundPaymentId := v_refundPaymentId; processedAt :=
     processedAt x |}.
End Refund.

(** A move of charges between two bills. *)
Module FolioTransfer.
Record t := {
  id : string;
  sourceFolioId : string;
  targetFolioId : string;
  lineItemIds : list string;
  amount : Qc;
  reason : string;
  approvedBy : option string;
  reversedAt : option Z;
  reversedBy : option string;
  createdAt : Z;
}.
Definition with_reversed (v_reversedAt : option Z) (v_reversedBy : option string) (x : t) : t :=
  {| id := id x; sourceFolioId := sourceFolioId x; targetFolioId := targetFolioId x; lineItemIds := lineItemIds x;
     amount := amount x; reason := reason x; approvedBy := approvedBy x; reversedAt := v_reversedAt; reversedBy :=
     v_reversedBy; createdAt := createdAt x |}.
End FolioTransfer.

(** A cashier's drawer session. *)
Module Shift.
Record t := {
  id : string;
  branchId : string;
  agentId : string;
  closedAt : option Z;
  openingFloat : option Qc;
  systemCashTotal : option Qc;
  closingCashCounted : option Qc;
  variance : option Qc;
  foreignCashTotals : option (list (string * string));
  varianceExplanation : option string;
}.
Definition with_closed (v_closedAt : option Z) (v_systemCashTotal : option Qc) (v_closingCashCounted : option Qc)
     (v_variance : option Qc) (v_foreignCashTotals : option (list (string * string))) (v_varianceExplanation :
     option string) (x : t) : t :=
  {| id := id x; branchId := branchId x; agentId := agentId x; closedAt := v_closedAt; openingFloat :=
     openingFloat x; systemCashTotal := v_systemCashTotal; closingCashCounted := v_closingCashCounted; variance :=
     v_variance; foreignCashTotals := v_foreignCashTotals; varianceExplanation := v_varianceExplanation |}.
End Shift.

(** A sale of an outlet. *)
Module PosOrder.
Record t := {
  id : string;
  branchId : string;
  outletId : string;
  orderNo : Z;
  settlement : PosSettlement;
  subtotal : Qc;
  taxTotal : Qc;
  total : Qc;
  discountTotal : Qc;
  discountReason : option string;
  cashAmount : Qc;
  cardAmount : Qc;
  currency : string;
  reservationId : option string;
  folioId : option string;
  lineItemId : option string;
  shiftId : option string;
  createdBy : option string;
  voidedAt : option Z;
  voidedBy : option string;
  voidReason : option string;
}.
Definition with_folioId (v_folioId : option string) (x : t) : t :=
  {| id := id x; branchId := branchId x; outletId := outletId x; orderNo := orderNo x; settlement := settlement x;
     subtotal := subtotal x; taxTotal := taxTotal x; total := total x; discountTotal := discountTotal x;
     discountReason := discountReason x; cashAmount := cashAmount x; cardAmount := cardAmount x; currency :=
     currency x; reservationId := reservationId x; folioId := v_folioId; lineItemId := lineItemId x; shiftId :=
     shiftId x; createdBy := createdBy x; voidedAt := voidedAt x; voidedBy := voidedBy x; voidReason := voidReason
     x |}.
Definition with_void (v_voidedAt : option Z) (v_voidedBy : option string) (v_voidReason : option string) (x : t) :
     t :=
  {| id := id x; branchId := branchId x; outletId := outletId x; orderNo := orderNo x; settlement := settlement x;
     subtotal := subtotal x; taxTotal := taxTotal x; total := total x; discountTotal := discountTotal x;
     discountReason := discountReason x; cashAmount := cashAmount x; cardAmount := cardAmount x; currency :=
     currency x; reservationId := reservationId x; folioId := folioId x; lineItemId := lineItemId x; shiftId :=
     shiftId x; createdBy := createdBy x; voidedAt := v_voidedAt; voidedBy := v_voidedBy; voidReason :=
     v_voidReason |}.
End PosOrder.

(** The tenant's points programme. *)
Module LoyaltyProgram.
Record t := {
  isActive : bool;
  currency : string;
  pointsPerUnit : Qc;
  pointValue : Qc;
  tiers : list LoyaltyTier;
  pointsExpireAfterMonths : option Z;
}.
End LoyaltyProgram.

(** A row of the points ledger. *)
Module LoyaltyTransaction.
Record t := {
  id : string;
  guestId : string;
  branchId : option string;
  type : LoyaltyTxType;
  points : Z;
  earnReservationId : option string;
  paymentId : option string;
  expiresAt : option Z;
  createdBy : option string;
}.
End LoyaltyTransaction.

(** A listener for events. *)
Module Webhook.
Record t := {
  id : string;
  isActive : bool;
  eventTypes : list string;
  branchId : option string;
}.
End Webhook.

(** An event queued for a listener; [subject] is the payment it is about. *)
Module WebhookDelivery.
Record t := {
  webhookId : string;
  eventId : string;
  eventType : string;
  subject : string;
}.
End WebhookDelivery.

(** A row of the audit trail. *)
Module AuditLog.
Record t := {
  branchId : option string;
  userId : option string;
  action : string;
  entityType : string;
  entityId : string;
}.
End AuditLog.

(** Something a shift hands to the next. *)
Module ShiftIssue.
Record t := {
  id : string;
  shiftId : string;
  description : string;
  priority : IssuePriority;
  status : IssueStatus;
  resolution : option string;
  resolvedBy : option string;
  resolvedAt : option Z;
}.
Definition with_status (v_status : IssueStatus) (v_resolution : option string) (v_resolvedBy : option string)
     (v_resolvedAt : option Z) (x : t) : t :=
  {| id := id x; shiftId := shiftId x; description := description x; priority := priority x; status := v_status;
     resolution := v_resolution; resolvedBy := v_resolvedBy; resolvedAt := v_resolvedAt |}.
End ShiftIssue.

(** A bar, restaurant, spa or shop. *)
Module Outlet.
Record t := {
  id : string;
  branchId : string;
  chargeType : ChargeType;
  isActive : bool;
  staffDiscountLimitPct : option Qc;
}.
End Outlet.

(** An outlet a cashier may ring up at. *)
Module UserOutlet.
Record t := {
  userId : string;
  outletId : string;
}.
End UserOutlet.

(** One thing an outlet sells. *)
Module MenuItem.
Record t := {
  id : string;
  outletId : string;
  price : Qc;
  isAvailable : bool;
  modifiers : option (list ModifierGroup);
  deletedAt : option Z;
}.
End MenuItem.

(** A member of staff. *)
Module User.
Record t := {
  id : string;
  deletedAt : option Z;
}.
End User.

(** A role a member of staff holds, at one branch or at all of them. *)
Module UserBranchRole.
Record t := {
  userId : string;
  branchId : option string;
}.
End UserBranchRole.

(** A run of the night audit. *)
Module NightAuditLog.
Record t := {
  id : string;
  branchId : string;
  auditDate : Z;
  triggeredBy : option string;
  triggeredAt : Z;
  status : NightAuditStatus;
  foliosProcessed : option Z;
  chargesPosted : option Z;
  totalAmountPosted : option Qc;
  errors : option (list (string * string));
  completedAt : option Z;
}.
Definition with_taken (v_status : NightAuditStatus) (v_triggeredAt : Z) (v_triggeredBy : option string)
     (v_completedAt : option Z) (v_errors : option (list (string * string))) (x : t) : t :=
  {| id := id x; branchId := branchId x; auditDate := auditDate x; triggeredBy := v_triggeredBy; triggeredAt :=
     v_triggeredAt; status := v_status; foliosProcessed := foliosProcessed x; chargesPosted := chargesPosted x;
     totalAmountPosted := totalAmountPosted x; errors := v_errors; completedAt := v_completedAt |}.
Definition with_totals (v_chargesPosted : option Z) (v_totalAmountPosted : option Qc) (x : t) : t :=
  {| id := id x; branchId := branchId x; auditDate := auditDate x; triggeredBy := triggeredBy x; triggeredAt :=
     triggeredAt x; status := status x; foliosProcessed := foliosProcessed x; chargesPosted := v_chargesPosted;
     totalAmountPosted := v_totalAmountPosted; errors := errors x; completedAt := completedAt x |}.
Definition with_result (v_status : NightAuditStatus) (v_foliosProcessed : option Z) (v_chargesPosted : option Z)
     (v_totalAmountPosted : option Qc) (v_errors : option (list (string * string))) (v_completedAt : option Z) (x
     : t) : t :=
  {| id := id x; branchId := branchId x; auditDate := auditDate x; triggeredBy := triggeredBy x; triggeredAt :=
     triggeredAt x; status := v_status; foliosProcessed := v_foliosProcessed; chargesPosted := v_chargesPosted;
     totalAmountPosted := v_totalAmountPosted; errors := v_errors; completedAt := v_completedAt |}.
End NightAuditLog.

(** A work order. *)
Module MaintenanceOrder.
Record t := {
  id : string;
  branchId : string;
  roomId : option string;
  assetId : option string;
  title : string;
  description : option string;
  priority : MaintenancePriority;
  status : MaintenanceStatus;
  takesRoomOutOfService : bool;
  photoUrls : list string;
  reportedBy : option string;
  assignedTo : option string;
  completionNotes : option string;
  partsUsed : list string;
  resolvedAt : option Z;
}.
Definition with_work (v_status : MaintenanceStatus) (v_assignedTo : option string) (v_completionNotes : option
     string) (v_partsUsed : list string) (v_resolvedAt : option Z) (x : t) : t :=
  {| id := id x; branchId := branchId x; roomId := roomId x; assetId := assetId x; title := title x; description
     := description x; priority := priority x; status := v_status; takesRoomOutOfService := takesRoomOutOfService
     x; photoUrls := photoUrls x; reportedBy := reportedBy x; assignedTo := v_assignedTo; completionNotes :=
     v_completionNotes; partsUsed := v_partsUsed; resolvedAt := v_resolvedAt |}.
End MaintenanceOrder.

(** A piece of equipment. *)
Module Asset.
Record t := {
  id : string;
  branchId : string;
  roomId : option string;
  name : string;
  category : option string;
  serialNumber : option string;
  purchaseDate : option Z;
  warrantyUntil : option Z;
  serviceIntervalDays : option Z;
  notes : option string;
}.
End Asset.

(** A room let for events. *)
Module EventSpace.
Record t := {
  id : string;
  branchId : string;
  name : string;
  category : string;
  capacity : Z;
  setupCapacities : option json;
}.
End EventSpace.

(** An event and its banquet order. *)
Module EventBooking.
Record t := {
  id : string;
  eventSpaceId : string;
  title : string;
  startsAt : Z;
  endsAt : Z;
  contactName : option string;
  notes : option string;
  status : string;
  cancelledAt : option Z;
  setupStyle : option string;
  headcount : option Z;
  contactEmail : option string;
  contactPhone : option string;
  catering : option (list CateringLine);
  avRequirements : option string;
  spaceHireFee : option Qc;
  folioId : option string;
  billedAt : option Z;
  billedBy : option string;
}.
Definition with_details (v_title : string) (v_startsAt : Z) (v_endsAt : Z) (v_setupStyle : option string)
     (v_headcount : option Z) (v_contactName : option string) (v_contactEmail : option string) (v_contactPhone :
     option string) (v_catering : option (list CateringLine)) (v_avRequirements : option string) (v_notes : option
     string) (v_spaceHireFee : option Qc) (x : t) : t :=
  {| id := id x; eventSpaceId := eventSpaceId x; title := v_title; startsAt := v_startsAt; endsAt := v_endsAt;
     contactName := v_contactName; notes := v_notes; status := status x; cancelledAt := cancelledAt x; setupStyle
     := v_setupStyle; headcount := v_headcount; contactEmail := v_contactEmail; contactPhone := v_contactPhone;
     catering := v_catering; avRequirements := v_avRequirements; spaceHireFee := v_spaceHireFee; folioId :=
     folioId x; billedAt := billedAt x; billedBy := billedBy x |}.
Definition with_cancelled (v_status : string) (v_cancelledAt : option Z) (x : t) : t :=
  {| id := id x; eventSpaceId := eventSpaceId x; title := title x; startsAt := startsAt x; endsAt := endsAt x;
     contactName := contactName x; notes := notes x; status := v_status; cancelledAt := v_cancelledAt; setupStyle
     := setupStyle x; headcount := headcount x; contactEmail := contactEmail x; contactPhone := contactPhone x;
     catering := catering x; avRequirements := avRequirements x; spaceHireFee := spaceHireFee x; folioId :=
     folioId x; billedAt := billedAt x; billedBy := billedBy x |}.
Definition with_billed (v_folioId : option string) (v_billedAt : option Z) (v_billedBy : option string) (x : t) :
     t :=
  {| id := id x; eventSpaceId := eventSpaceId x; title := title x; startsAt := startsAt x; endsAt := endsAt x;
     contactName := contactName x; notes := notes x; status := status x; cancelledAt := cancelledAt x; setupStyle
     := setupStyle x; headcount := headcount x; contactEmail := contactEmail x; contactPhone := contactPhone x;
     catering := catering x; avRequirements := avRequirements x; spaceHireFee := spaceHireFee x; folioId :=
     v_folioId; billedAt := v_billedAt; billedBy := v_billedBy |}.
End EventBooking.

(** A message to a guest or from one. *)
Module CommunicationLog.
Record t := {
  branchId : string;
  reservationId : option string;
  guestId : string;
  channel : CommsChannel;
  subject : option MessageBody;
  body : MessageBody;
  trigger : string;
  direction : CommsDirection;
  readAt : option Z;
  deliveryStatus : DeliveryStatus;
  sentBy : option string;
  sentAt : Z;
}.
Definition with_readAt (v_readAt : option Z) (x : t) : t :=
  {| branchId := branchId x; reservationId := reservationId x; guestId := guestId x; channel := channel x; subject
     := subject x; body := body x; trigger := trigger x; direction := direction x; readAt := v_readAt;
     deliveryStatus := deliveryStatus x; sentBy := sentBy x; sentAt := sentAt x |}.
End CommunicationLog.

(** One tenant's rows. [clock] is what [new Date()] reads; [seq] counts the ids
    the database has generated. *)
Record Db := {
  clock : Z;
  seq : nat;
  reservationSeq : Z;
  loyaltyProgram : option LoyaltyProgram.t;
  branches : list Branch.t;
  taxRules : list TaxRule;
  exchangeRates : list ExchangeRate.t;
  roomTypes : list RoomType.t;
  corporateAccounts : list CorporateAccount.t;
  reservations : list Reservation.t;
  ratePlans : list RatePlan.t;
  rateAuditLogs : list RateAuditLog.t;
  buildings : list Building.t;
  floors : list Floor.t;
  rooms : list Room.t;
  roomBlocks : list RoomBlock.t;
  overbookingConfigs : list OverbookingConfig.t;
  groupBlocks : list GroupBlock.t;
  availabilityRestrictions : list AvailabilityRestriction.t;
  channelAllotments : list ChannelAllotment.t;
  packages : list Package.t;
  guestNotes : list GuestNote.t;
  noShowRecords : list NoShowRecord.t;
  walkRecords : list WalkRecord.t;
  housekeepingTasks : list HousekeepingTask.t;
  registrationCards : list RegistrationCard.t;
  guests : list GuestProfile.t;
  folios : list Folio.t;
  lineItems : list LineItem.t;
  payments : list Payment.t;
  refunds : list Refund.t;
  folioTransfers : list FolioTransfer.t;
  shifts : list Shift.t;
  posOrders : list PosOrder.t;
  loyaltyTransactions : list LoyaltyTransaction.t;
  webhooks : list Webhook.t;
  webhookDeliveries : list WebhookDelivery.t;
  auditLogs : list AuditLog.t;
  shiftIssues : list ShiftIssue.t;
  outlets : list Outlet.t;
  userOutlets : list UserOutlet.t;
  menuItems : list MenuItem.t;
  communicationLogs : list CommunicationLog.t;
  users : list User.t;
  userBranchRoles : list UserBranchRole.t;
  nightAuditLogs : list NightAuditLog.t;
  maintenanceOrders : list MaintenanceOrder.t;
  assets : list Asset.t;
  eventSpaces : list EventSpace.t;
  eventBookings : list EventBooking.t;
}.

Definition upd_seq (g : nat -> nat) (d : Db) : Db :=
  {| clock := clock d; seq := g (seq d); reservationSeq := reservationSeq d; loyaltyProgram := loyaltyProgram d;
     branches := branches d; taxRules := taxRules d; exchangeRates := exchangeRates d; roomTypes := roomTypes d;
     corporateAccounts := corporateAccounts d; reservations := reservations d; ratePlans := ratePlans d;
     rateAuditLogs := rateAuditLogs d; buildings := buildings d; floors := floors d; rooms := rooms d; roomBlocks
     := roomBlocks d; overbookingConfigs := overbookingConfigs d; groupBlocks := groupBlocks d;
     availabilityRestrictions := availabilityRestrictions d; channelAllotments := channelAllotments d; packages :=
     packages d; guestNotes := guestNotes d; noShowRecords := noShowRecords d; walkRecords := walkRecords d;
     housekeepingTasks := housekeepingTasks d; registrationCards := registrationCards d; guests := guests d;
     folios := folios d; lineItems := lineItems d; payments := payments d; refunds := refunds d; folioTransfers :=
     folioTransfers d; shifts := shifts d; posOrders := posOrders d; loyaltyTransactions := loyaltyTransactions d;
     webhooks := webhooks d; webhookDeliveries := webhookDeliveries d; auditLogs := auditLogs d; shiftIssues :=
     shiftIssues d; outlets := outlets d; userOutlets := userOutlets d; menuItems := menuItems d;
     communicationLogs := communicationLogs d; users := users d; userBranchRoles := userBranchRoles d;
     nightAuditLogs := nightAuditLogs d; maintenanceOrders := maintenanceOrders d; assets := assets d; eventSpaces
     := eventSpaces d; eventBookings := eventBookings d |}.
Definition upd_clock (g : Z -> Z) (d : Db) : Db :=
  {| clock := g (clock d); seq := seq d; reservationSeq := reservationSeq d; loyaltyProgram := loyaltyProgram d;
     branches := branches d; taxRules := taxRules d; exchangeRates := exchangeRates d; roomTypes := roomTypes d;
     corporateAccounts := corporateAccounts d; reservations := reservations d; ratePlans := ratePlans d;
     rateAuditLogs := rateAuditLogs d; buildings := buildings d; floors := floors d; rooms := rooms d; roomBlocks
     := roomBlocks d; overbookingConfigs := overbookingConfigs d; groupBlocks := groupBlocks d;
     availabilityRestrictions := availabilityRestrictions d; channelAllotments := channelAllotments d; packages :=
     packages d; guestNotes := guestNotes d; noShowRecords := noShowRecords d; walkRecords := walkRecords d;
     housekeepingTasks := housekeepingTasks d; registrationCards := registrationCards d; guests := guests d;
     folios := folios d; lineItems := lineItems d; payments := payments d; refunds := refunds d; folioTransfers :=
     folioTransfers d; shifts := shifts d; posOrders := posOrders d; loyaltyTransactions := loyaltyTransactions d;
     webhooks := webhooks d; webhookDeliveries := webhookDeliveries d; auditLogs := auditLogs d; shiftIssues :=
     shiftIssues d; outlets := outlets d; userOutlets := userOutlets d; menuItems := menuItems d;
     communicationLogs := communicationLogs d; users := users d; userBranchRoles := userBranchRoles d;
     nightAuditLogs := nightAuditLogs d; maintenanceOrders := maintenanceOrders d; assets := assets d; eventSpaces
     := eventSpaces d; eventBookings := eventBookings d |}.
Definition upd_branches (g : list Branch.t -> list Branch.t) (d : Db) : Db :=
  {| clock := clock d; seq := seq d; reservationSeq := reservationSeq d; loyaltyProgram := loyaltyProgram d;
     branches := g (branches d); taxRules := taxRules d; exchangeRates := exchangeRates d; roomTypes := roomTypes
     d; corporateAccounts := corporateAccounts d; reservations := reservations d; ratePlans := ratePlans d;
     rateAuditLogs := rateAuditLogs d; buildings := buildings d; floors := floors d; rooms := rooms d; roomBlocks
     := roomBlocks d; overbookingConfigs := overbookingConfigs d; groupBlocks := groupBlocks d;
     availabilityRestrictions := availabilityRestrictions d; channelAllotments := channelAllotments d; packages :=
     packages d; guestNotes := guestNotes d; noShowRecords := noShowRecords d; walkRecords := walkRecords d;
     housekeepingTasks := housekeepingTasks d; registrationCards := registrationCards d; guests := guests d;
     folios := folios d; lineItems := lineItems d; payments := payments d; refunds := refunds d; folioTransfers :=
     folioTransfers d; shifts := shifts d; posOrders := posOrders d; loyaltyTransactions := loyaltyTransactions d;
     webhooks := webhooks d; webhookDeliveries := webhookDeliveries d; auditLogs := auditLogs d; shiftIssues :=
     shiftIssues d; outlets := outlets d; userOutlets := userOutlets d; menuItems := menuItems d;
     communicationLogs := communicationLogs d; users := users d; userBranchRoles := userBranchRoles d;
     nightAuditLogs := nightAuditLogs d; maintenanceOrders := maintenanceOrders d; assets := assets d; eventSpaces
     := eventSpaces d; eventBookings := eventBookings d |}.
Definition upd_exchangeRates (g : list ExchangeRate.t -> list ExchangeRate.t) (d : Db) : Db :=
  {| clock := clock d; seq := seq d; reservationSeq := reservationSeq d; loyaltyProgram := loyaltyProgram d;
     branches := branches d; taxRules := taxRules d; exchangeRates := g (exchangeRates d); roomTypes := roomTypes
     d; corporateAccounts := corporateAccounts d; reservations := reservations d; ratePlans := ratePlans d;
     rateAuditLogs := rateAuditLogs d; buildings := buildings d; floors := floors d; rooms := rooms d; roomBlocks
     := roomBlocks d; overbookingConfigs := overbookingConfigs d; groupBlocks := groupBlocks d;
     availabilityRestrictions := availabilityRestrictions d; channelAllotments := channelAllotments d; packages :=
     packages d; guestNotes := guestNotes d; noShowRecords := noShowRecords d; walkRecords := walkRecords d;
     housekeepingTasks := housekeepingTasks d; registrationCards := registrationCards d; guests := guests d;
     folios := folios d; lineItems := lineItems d; payments := payments d; refunds := refunds d; folioTransfers :=
     folioTransfers d; shifts := shifts d; posOrders := posOrders d; loyaltyTransactions := loyaltyTransactions d;
     webhooks := webhooks d; webhookDeliveries := webhookDeliveries d; auditLogs := auditLogs d; shiftIssues :=
     shiftIssues d; outlets := outlets d; userOutlets := userOutlets d; menuItems := menuItems d;
     communicationLogs := communicationLogs d; users := users d; userBranchRoles := userBranchRoles d;
     nightAuditLogs := nightAuditLogs d; maintenanceOrders := maintenanceOrders d; assets := assets d; eventSpaces
     := eventSpaces d; eventBookings := eventBookings d |}.
Definition upd_guests (g : list GuestProfile.t -> list GuestProfile.t) (d : Db) : Db :=
  {| clock := clock d; seq := seq d; reservationSeq := reservationSeq d; loyaltyProgram := loyaltyProgram d;
     branches := branches d; taxRules := taxRules d; exchangeRates := exchangeRates d; roomTypes := roomTypes d;
     corporateAccounts := corporateAccounts d; reservations := reservations d; ratePlans := ratePlans d;
     rateAuditLogs := rateAuditLogs d; buildings := buildings d; floors := floors d; rooms := rooms d; roomBlocks
     := roomBlocks d; overbookingConfigs := overbookingConfigs d; groupBlocks := groupBlocks d;
     availabilityRestrictions := availabilityRestrictions d; channelAllotments := channelAllotments d; packages :=
     packages d; guestNotes := guestNotes d; noShowRecords := noShowRecords d; walkRecords := walkRecords d;
     housekeepingTasks := housekeepingTasks d; registrationCards := registrationCards d; guests := g (guests d);
     folios := folios d; lineItems := lineItems d; payments := payments d; refunds := refunds d; folioTransfers :=
     folioTransfers d; shifts := shifts d; posOrders := posOrders d; loyaltyTransactions := loyaltyTransactions d;
     webhooks := webhooks d; webhookDeliveries := webhookDeliveries d; auditLogs := auditLogs d; shiftIssues :=
     shiftIssues d; outlets := outlets d; userOutlets := userOutlets d; menuItems := menuItems d;
     communicationLogs := communicationLogs d; users := users d; userBranchRoles := userBranchRoles d;
     nightAuditLogs := nightAuditLogs d; maintenanceOrders := maintenanceOrders d; assets := assets d; eventSpaces
     := eventSpaces d; eventBookings := eventBookings d |}.
Definition upd_folios (g : list Folio.t -> list Folio.t) (d : Db) : Db :=
  {| clock := clock d; seq := seq d; reservationSeq := reservationSeq d; loyaltyProgram := loyaltyProgram d;
     branches := branches d; taxRules := taxRules d; exchangeRates := exchangeRates d; roomTypes := roomTypes d;
     corporateAccounts := corporateAccounts d; reservations := reservations d; ratePlans := ratePlans d;
     rateAuditLogs := rateAuditLogs d; buildings := buildings d; floors := floors d; rooms := rooms d; roomBlocks
     := roomBlocks d; overbookingConfigs := overbookingConfigs d; groupBlocks := groupBlocks d;
     availabilityRestrictions := availabilityRestrictions d; channelAllotments := channelAllotments d; packages :=
     packages d; guestNotes := guestNotes d; noShowRecords := noShowRecords d; walkRecords := walkRecords d;
     housekeepingTasks := housekeepingTasks d; registrationCards := registrationCards d; guests := guests d;
     folios := g (folios d); lineItems := lineItems d; payments := payments d; refunds := refunds d;
     folioTransfers := folioTransfers d; shifts := shifts d; posOrders := posOrders d; loyaltyTransactions :=
     loyaltyTransactions d; webhooks := webhooks d; webhookDeliveries := webhookDeliveries d; auditLogs :=
     auditLogs d; shiftIssues := shiftIssues d; outlets := outlets d; userOutlets := userOutlets d; menuItems :=
     menuItems d; communicationLogs := communicationLogs d; users := users d; userBranchRoles := userBranchRoles
     d; nightAuditLogs := nightAuditLogs d; maintenanceOrders := maintenanceOrders d; assets := assets d;
     eventSpaces := eventSpaces d; eventBookings := eventBookings d |}.
Definition upd_lineItems (g : list LineItem.t -> list LineItem.t) (d : Db) : Db :=
  {| clock := clock d; seq := seq d; reservationSeq := reservationSeq d; loyaltyProgram := loyaltyProgram d;
     branches := branches d; taxRules := taxRules d; exchangeRates := exchangeRates d; roomTypes := roomTypes d;
     corporateAccounts := corporateAccounts d; reservations := reservations d; ratePlans := ratePlans d;
     rateAuditLogs := rateAuditLogs d; buildings := buildings d; floors := floors d; rooms := rooms d; roomBlocks
     := roomBlocks d; overbookingConfigs := overbookingConfigs d; groupBlocks := groupBlocks d;
     availabilityRestrictions := availabilityRestrictions d; channelAllotments := channelAllotments d; packages :=
     packages d; guestNotes := guestNotes d; noShowRecords := noShowRecords d; walkRecords := walkRecords d;
     housekeepingTasks := housekeepingTasks d; registrationCards := registrationCards d; guests := guests d;
     folios := folios d; lineItems := g (lineItems d); payments := payments d; refunds := refunds d;
     folioTransfers := folioTransfers d; shifts := shifts d; posOrders := posOrders d; loyaltyTransactions :=
     loyaltyTransactions d; webhooks := webhooks d; webhookDeliveries := webhookDeliveries d; auditLogs :=
     auditLogs d; shiftIssues := shiftIssues d; outlets := outlets d; userOutlets := userOutlets d; menuItems :=
     menuItems d; communicationLogs := communicationLogs d; users := users d; userBranchRoles := userBranchRoles
     d; nightAuditLogs := nightAuditLogs d; maintenanceOrders := maintenanceOrders d; assets := assets d;
     eventSpaces := eventSpaces d; eventBookings := eventBookings d |}.
Definition upd_payments (g : list Payment.t -> list Payment.t) (d : Db) : Db :=
  {| clock := clock d; seq := seq d; reservationSeq := reservationSeq d; loyaltyProgram := loyaltyProgram d;
     branches := branches d; taxRules := taxRules d; exchangeRates := exchangeRates d; roomTypes := roomTypes d;
     corporateAccounts := corporateAccounts d; reservations := reservations d; ratePlans := ratePlans d;
     rateAuditLogs := rateAuditLogs d; buildings := buildings d; floors := floors d; rooms := rooms d; roomBlocks
     := roomBlocks d; overbookingConfigs := overbookingConfigs d; groupBlocks := groupBlocks d;
     availabilityRestrictions := availabilityRestrictions d; channelAllotments := channelAllotments d; packages :=
     packages d; guestNotes := guestNotes d; noShowRecords := noShowRecords d; walkRecords := walkRecords d;
     housekeepingTasks := housekeepingTasks d; registrationCards := registrationCards d; guests := guests d;
     folios := folios d; lineItems := lineItems d; payments := g (payments d); refunds := refunds d;
     folioTransfers := folioTransfers d; shifts := shifts d; posOrders := posOrders d; loyaltyTransactions :=
     loyaltyTransactions d; webhooks := webhooks d; webhookDeliveries := webhookDeliveries d; auditLogs :=
     auditLogs d; shiftIssues := shiftIssues d; outlets := outlets d; userOutlets := userOutlets d; menuItems :=
     menuItems d; communicationLogs := communicationLogs d; users := users d; userBranchRoles := userBranchRoles
     d; nightAuditLogs := nightAuditLogs d; maintenanceOrders := maintenanceOrders d; assets := assets d;
     eventSpaces := eventSpaces d; eventBookings := eventBookings d |}.
Definition upd_refunds (g : list Refund.t -> list Refund.t) (d : Db) : Db :=
  {| clock := clock d; seq := seq d; reservationSeq := reservationSeq d; loyaltyProgram := loyaltyProgram d;
     branches := branches d; taxRules := taxRules d; exchangeRates := exchangeRates d; roomTypes := roomTypes d;
     corporateAccounts := corporateAccounts d; reservations := reservations d; ratePlans := ratePlans d;
     rateAuditLogs := rateAuditLogs d; buildings := buildings d; floors := floors d; rooms := rooms d; roomBlocks
     := roomBlocks d; overbookingConfigs := overbookingConfigs d; groupBlocks := groupBlocks d;
     availabilityRestrictions := availabilityRestrictions d; channelAllotments := channelAllotments d; packages :=
     packages d; guestNotes := guestNotes d; noShowRecords := noShowRecords d; walkRecords := walkRecords d;
     housekeepingTasks := housekeepingTasks d; registrationCards := registrationCards d; guests := guests d;
     folios := folios d; lineItems := lineItems d; payments := payments d; refunds := g (refunds d);
     folioTransfers := folioTransfers d; shifts := shifts d; posOrders := posOrders d; loyaltyTransactions :=
     loyaltyTransactions d; webhooks := webhooks d; webhookDeliveries := webhookDeliveries d; auditLogs :=
     auditLogs d; shiftIssues := shiftIssues d; outlets := outlets d; userOutlets := userOutlets d; menuItems :=
     menuItems d; communicationLogs := communicationLogs d; users := users d; userBranchRoles := userBranchRoles
     d; nightAuditLogs := nightAuditLogs d; maintenanceOrders := maintenanceOrders d; assets := assets d;
     eventSpaces := eventSpaces d; eventBookings := eventBookings d |}.
Definition upd_folioTransfers (g : list FolioTransfer.t -> list FolioTransfer.t) (d : Db) : Db :=
  {| clock := clock d; seq := seq d; reservationSeq := reservationSeq d; loyaltyProgram := loyaltyProgram d;
     branches := branches d; taxRules := taxRules d; exchangeRates := exchangeRates d; roomTypes := roomTypes d;
     corporateAccounts := corporateAccounts d; reservations := reservations d; ratePlans := ratePlans d;
     rateAuditLogs := rateAuditLogs d; buildings := buildings d; floors := floors d; rooms := rooms d; roomBlocks
     := roomBlocks d; overbookingConfigs := overbookingConfigs d; groupBlocks := groupBlocks d;
     availabilityRestrictions := availabilityRestrictions d; channelAllotments := channelAllotments d; packages :=
     packages d; guestNotes := guestNotes d; noShowRecords := noShowRecords d; walkRecords := walkRecords d;
     housekeepingTasks := housekeepingTasks d; registrationCards := registrationCards d; guests := guests d;
     folios := folios d; lineItems := lineItems d; payments := payments d; refunds := refunds d; folioTransfers :=
     g (folioTransfers d); shifts := shifts d; posOrders := posOrders d; loyaltyTransactions :=
     loyaltyTransactions d; webhooks := webhooks d; webhookDeliveries := webhookDeliveries d; auditLogs :=
     auditLogs d; shiftIssues := shiftIssues d; outlets := outlets d; userOutlets := userOutlets d; menuItems :=
     menuItems d; communicationLogs := communicationLogs d; users := users d; userBranchRoles := userBranchRoles
     d; nightAuditLogs := nightAuditLogs d; maintenanceOrders := maintenanceOrders d; assets := assets d;
     eventSpaces := eventSpaces d; eventBookings := eventBookings d |}.
Definition upd_shifts (g : list Shift.t -> list Shift.t) (d : Db) : Db :=
  {| clock := clock d; seq := seq d; reservationSeq := reservationSeq d; loyaltyProgram := loyaltyProgram d;
     branches := branches d; taxRules := taxRules d; exchangeRates := exchangeRates d; roomTypes := roomTypes d;
     corporateAccounts := corporateAccounts d; reservations := reservations d; ratePlans := ratePlans d;
     rateAuditLogs := rateAuditLogs d; buildings := buildings d; floors := floors d; rooms := rooms d; roomBlocks
     := roomBlocks d; overbookingConfigs := overbookingConfigs d; groupBlocks := groupBlocks d;
     availabilityRestrictions := availabilityRestrictions d; channelAllotments := channelAllotments d; packages :=
     packages d; guestNotes := guestNotes d; noShowRecords := noShowRecords d; walkRecords := walkRecords d;
     housekeepingTasks := housekeepingTasks d; registrationCards := registrationCards d; guests := guests d;
     folios := folios d; lineItems := lineItems d; payments := payments d; refunds := refunds d; folioTransfers :=
     folioTransfers d; shifts := g (shifts d); posOrders := posOrders d; loyaltyTransactions :=
     loyaltyTransactions d; webhooks := webhooks d; webhookDeliveries := webhookDeliveries d; auditLogs :=
     auditLogs d; shiftIssues := shiftIssues d; outlets := outlets d; userOutlets := userOutlets d; menuItems :=
     menuItems d; communicationLogs := communicationLogs d; users := users d; userBranchRoles := userBranchRoles
     d; nightAuditLogs := nightAuditLogs d; maintenanceOrders := maintenanceOrders d; assets := assets d;
     eventSpaces := eventSpaces d; eventBookings := eventBookings d |}.
Definition upd_posOrders (g : list PosOrder.t -> list PosOrder.t) (d : Db) : Db :=
  {| clock := clock d; seq := seq d; reservationSeq := reservationSeq d; loyaltyProgram := loyaltyProgram d;
     branches := branches d; taxRules := taxRules d; exchangeRates := exchangeRates d; roomTypes := roomTypes d;
     corporateAccounts := corporateAccounts d; reservations := reservations d; ratePlans := ratePlans d;
     rateAuditLogs := rateAuditLogs d; buildings := buildings d; floors := floors d; rooms := rooms d; roomBlocks
     := roomBlocks d; overbookingConfigs := overbookingConfigs d; groupBlocks := groupBlocks d;
     availabilityRestrictions := availabilityRestrictions d; channelAllotments := channelAllotments d; packages :=
     packages d; guestNotes := guestNotes d; noShowRecords := noShowRecords d; walkRecords := walkRecords d;
     housekeepingTasks := housekeepingTasks d; registrationCards := registrationCards d; guests := guests d;
     folios := folios d; lineItems := lineItems d; payments := payments d; refunds := refunds d; folioTransfers :=
     folioTransfers d; shifts := shifts d; posOrders := g (posOrders d); loyaltyTransactions :=
     loyaltyTransactions d; webhooks := webhooks d; webhookDeliveries := webhookDeliveries d; auditLogs :=
     auditLogs d; shiftIssues := shiftIssues d; outlets := outlets d; userOutlets := userOutlets d; menuItems :=
     menuItems d; communicationLogs := communicationLogs d; users := users d; userBranchRoles := userBranchRoles
     d; nightAuditLogs := nightAuditLogs d; maintenanceOrders := maintenanceOrders d; assets := assets d;
     eventSpaces := eventSpaces d; eventBookings := eventBookings d |}.
Definition upd_loyaltyTransactions (g : list LoyaltyTransaction.t -> list LoyaltyTransaction.t) (d : Db) : Db :=
  {| clock := clock d; seq := seq d; reservationSeq := reservationSeq d; loyaltyProgram := loyaltyProgram d;
     branches := branches d; taxRules := taxRules d; exchangeRates := exchangeRates d; roomTypes := roomTypes d;
     corporateAccounts := corporateAccounts d; reservations := reservations d; ratePlans := ratePlans d;
     rateAuditLogs := rateAuditLogs d; buildings := buildings d; floors := floors d; rooms := rooms d; roomBlocks
     := roomBlocks d; overbookingConfigs := overbookingConfigs d; groupBlocks := groupBlocks d;
     availabilityRestrictions := availabilityRestrictions d; channelAllotments := channelAllotments d; packages :=
     packages d; guestNotes := guestNotes d; noShowRecords := noShowRecords d; walkRecords := walkRecords d;
     housekeepingTasks := housekeepingTasks d; registrationCards := registrationCards d; guests := guests d;
     folios := folios d; lineItems := lineItems d; payments := payments d; refunds := refunds d; folioTransfers :=
     folioTransfers d; shifts := shifts d; posOrders := posOrders d; loyaltyTransactions := g (loyaltyTransactions
     d); webhooks := webhooks d; webhookDeliveries := webhookDeliveries d; auditLogs := auditLogs d; shiftIssues
     := shiftIssues d; outlets := outlets d; userOutlets := userOutlets d; menuItems := menuItems d;
     communicationLogs := communicationLogs d; users := users d; userBranchRoles := userBranchRoles d;
     nightAuditLogs := nightAuditLogs d; maintenanceOrders := maintenanceOrders d; assets := assets d; eventSpaces
     := eventSpaces d; eventBookings := eventBookings d |}.
Definition upd_webhookDeliveries (g : list WebhookDelivery.t -> list WebhookDelivery.t) (d : Db) : Db :=
  {| clock := clock d; seq := seq d; reservationSeq := reservationSeq d; loyaltyProgram := loyaltyProgram d;
     branches := branches d; taxRules := taxRules d; exchangeRates := exchangeRates d; roomTypes := roomTypes d;
     corporateAccounts := corporateAccounts d; reservations := reservations d; ratePlans := ratePlans d;
     rateAuditLogs := rateAuditLogs d; buildings := buildings d; floors := floors d; rooms := rooms d; roomBlocks
     := roomBlocks d; overbookingConfigs := overbookingConfigs d; groupBlocks := groupBlocks d;
     availabilityRestrictions := availabilityRestrictions d; channelAllotments := channelAllotments d; packages :=
     packages d; guestNotes := guestNotes d; noShowRecords := noShowRecords d; walkRecords := walkRecords d;
     housekeepingTasks := housekeepingTasks d; registrationCards := registrationCards d; guests := guests d;
     folios := folios d; lineItems := lineItems d; payments := payments d; refunds := refunds d; folioTransfers :=
     folioTransfers d; shifts := shifts d; posOrders := posOrders d; loyaltyTransactions := loyaltyTransactions d;
     webhooks := webhooks d; webhookDeliveries := g (webhookDeliveries d); auditLogs := auditLogs d; shiftIssues
     := shiftIssues d; outlets := outlets d; userOutlets := userOutlets d; menuItems := menuItems d;
     communicationLogs := communicationLogs d; users := users d; userBranchRoles := userBranchRoles d;
     nightAuditLogs := nightAuditLogs d; maintenanceOrders := maintenanceOrders d; assets := assets d; eventSpaces
     := eventSpaces d; eventBookings := eventBookings d |}.
Definition upd_auditLogs (g : list AuditLog.t -> list AuditLog.t) (d : Db) : Db :=
  {| clock := clock d; seq := seq d; reservationSeq := reservationSeq d; loyaltyProgram := loyaltyProgram d;
     branches := branches d; taxRules := taxRules d; exchangeRates := exchangeRates d; roomTypes := roomTypes d;
     corporateAccounts := corporateAccounts d; reservations := reservations d; ratePlans := ratePlans d;
     rateAuditLogs := rateAuditLogs d; buildings := buildings d; floors := floors d; rooms := rooms d; roomBlocks
     := roomBlocks d; overbookingConfigs := overbookingConfigs d; groupBlocks := groupBlocks d;
     availabilityRestrictions := availabilityRestrictions d; channelAllotments := channelAllotments d; packages :=
     packages d; guestNotes := guestNotes d; noShowRecords := noShowRecords d; walkRecords := walkRecords d;
     housekeepingTasks := housekeepingTasks d; registrationCards := registrationCards d; guests := guests d;
     folios := folios d; lineItems := lineItems d; payments := payments d; refunds := refunds d; folioTransfers :=
     folioTransfers d; shifts := shifts d; posOrders := posOrders d; loyaltyTransactions := loyaltyTransactions d;
     webhooks := webhooks d; webhookDeliveries := webhookDeliveries d; auditLogs := g (auditLogs d); shiftIssues
     := shiftIssues d; outlets := outlets d; userOutlets := userOutlets d; menuItems := menuItems d;
     communicationLogs := communicationLogs d; users := users d; userBranchRoles := userBranchRoles d;
     nightAuditLogs := nightAuditLogs d; maintenanceOrders := maintenanceOrders d; assets := assets d; eventSpaces
     := eventSpaces d; eventBookings := eventBookings d |}.
Definition upd_loyaltyProgram (g : option LoyaltyProgram.t -> option LoyaltyProgram.t) (d : Db) : Db :=
  {| clock := clock d; seq := seq d; reservationSeq := reservationSeq d; loyaltyProgram := g (loyaltyProgram d);
     branches := branches d; taxRules := taxRules d; exchangeRates := exchangeRates d; roomTypes := roomTypes d;
     corporateAccounts := corporateAccounts d; reservations := reservations d; ratePlans := ratePlans d;
     rateAuditLogs := rateAuditLogs d; buildings := buildings d; floors := floors d; rooms := rooms d; roomBlocks
     := roomBlocks d; overbookingConfigs := overbookingConfigs d; groupBlocks := groupBlocks d;
     availabilityRestrictions := availabilityRestrictions d; channelAllotments := channelAllotments d; packages :=
     packages d; guestNotes := guestNotes d; noShowRecords := noShowRecords d; walkRecords := walkRecords d;
     housekeepingTasks := housekeepingTasks d; registrationCards := registrationCards d; guests := guests d;
     folios := folios d; lineItems := lineItems d; payments := payments d; refunds := refunds d; folioTransfers :=
     folioTransfers d; shifts := shifts d; posOrders := posOrders d; loyaltyTransactions := loyaltyTransactions d;
     webhooks := webhooks d; webhookDeliveries := webhookDeliveries d; auditLogs := auditLogs d; shiftIssues :=
     shiftIssues d; outlets := outlets d; userOutlets := userOutlets d; menuItems := menuItems d;
     communicationLogs := communicationLogs d; users := users d; userBranchRoles := userBranchRoles d;
     nightAuditLogs := nightAuditLogs d; maintenanceOrders := maintenanceOrders d; assets := assets d; eventSpaces
     := eventSpaces d; eventBookings := eventBookings d |}.
Definition upd_reservations (g : list Reservation.t -> list Reservation.t) (d : Db) : Db :=
  {| clock := clock d; seq := seq d; reservationSeq := reservationSeq d; loyaltyProgram := loyaltyProgram d;
     branches := branches d; taxRules := taxRules d; exchangeRates := exchangeRates d; roomTypes := roomTypes d;
     corporateAccounts := corporateAccounts d; reservations := g (reservations d); ratePlans := ratePlans d;
     rateAuditLogs := rateAuditLogs d; buildings := buildings d; floors := floors d; rooms := rooms d; roomBlocks
     := roomBlocks d; overbookingConfigs := overbookingConfigs d; groupBlocks := groupBlocks d;
     availabilityRestrictions := availabilityRestrictions d; channelAllotments := channelAllotments d; packages :=
     packages d; guestNotes := guestNotes d; noShowRecords := noShowRecords d; walkRecords := walkRecords d;
     housekeepingTasks := housekeepingTasks d; registrationCards := registrationCards d; guests := guests d;
     folios := folios d; lineItems := lineItems d; payments := payments d; refunds := refunds d; folioTransfers :=
     folioTransfers d; shifts := shifts d; posOrders := posOrders d; loyaltyTransactions := loyaltyTransactions d;
     webhooks := webhooks d; webhookDeliveries := webhookDeliveries d; auditLogs := auditLogs d; shiftIssues :=
     shiftIssues d; outlets := outlets d; userOutlets := userOutlets d; menuItems := menuItems d;
     communicationLogs := communicationLogs d; users := users d; userBranchRoles := userBranchRoles d;
     nightAuditLogs := nightAuditLogs d; maintenanceOrders := maintenanceOrders d; assets := assets d; eventSpaces
     := eventSpaces d; eventBookings := eventBookings d |}.
Definition upd_shiftIssues (g : list ShiftIssue.t -> list ShiftIssue.t) (d : Db) : Db :=
  {| clock := clock d; seq := seq d; reservationSeq := reservationSeq d; loyaltyProgram := loyaltyProgram d;
     branches := branches d; taxRules := taxRules d; exchangeRates := exchangeRates d; roomTypes := roomTypes d;
     corporateAccounts := corporateAccounts d; reservations := reservations d; ratePlans := ratePlans d;
     rateAuditLogs := rateAuditLogs d; buildings := buildings d; floors := floors d; rooms := rooms d; roomBlocks
     := roomBlocks d; overbookingConfigs := overbookingConfigs d; groupBlocks := groupBlocks d;
     availabilityRestrictions := availabilityRestrictions d; channelAllotments := channelAllotments d; packages :=
     packages d; guestNotes := guestNotes d; noShowRecords := noShowRecords d; walkRecords := walkRecords d;
     housekeepingTasks := housekeepingTasks d; registrationCards := registrationCards d; guests := guests d;
     folios := folios d; lineItems := lineItems d; payments := payments d; refunds := refunds d; folioTransfers :=
     folioTransfers d; shifts := shifts d; posOrders := posOrders d; loyaltyTransactions := loyaltyTransactions d;
     webhooks := webhooks d; webhookDeliveries := webhookDeliveries d; auditLogs := auditLogs d; shiftIssues := g
     (shiftIssues d); outlets := outlets d; userOutlets := userOutlets d; menuItems := menuItems d;
     communicationLogs := communicationLogs d; users := users d; userBranchRoles := userBranchRoles d;
     nightAuditLogs := nightAuditLogs d; maintenanceOrders := maintenanceOrders d; assets := assets d; eventSpaces
     := eventSpaces d; eventBookings := eventBookings d |}.
Definition upd_communicationLogs (g : list CommunicationLog.t -> list CommunicationLog.t) (d : Db) : Db :=
  {| clock := clock d; seq := seq d; reservationSeq := reservationSeq d; loyaltyProgram := loyaltyProgram d;
     branches := branches d; taxRules := taxRules d; exchangeRates := exchangeRates d; roomTypes := roomTypes d;
     corporateAccounts := corporateAccounts d; reservations := reservations d; ratePlans := ratePlans d;
     rateAuditLogs := rateAuditLogs d; buildings := buildings d; floors := floors d; rooms := rooms d; roomBlocks
     := roomBlocks d; overbookingConfigs := overbookingConfigs d; groupBlocks := groupBlocks d;
     availabilityRestrictions := availabilityRestrictions d; channelAllotments := channelAllotments d; packages :=
     packages d; guestNotes := guestNotes d; noShowRecords := noShowRecords d; walkRecords := walkRecords d;
     housekeepingTasks := housekeepingTasks d; registrationCards := registrationCards d; guests := guests d;
     folios := folios d; lineItems := lineItems d; payments := payments d; refunds := refunds d; folioTransfers :=
     folioTransfers d; shifts := shifts d; posOrders := posOrders d; loyaltyTransactions := loyaltyTransactions d;
     webhooks := webhooks d; webhookDeliveries := webhookDeliveries d; auditLogs := auditLogs d; shiftIssues :=
     shiftIssues d; outlets := outlets d; userOutlets := userOutlets d; menuItems := menuItems d;
     communicationLogs := g (communicationLogs d); users := users d; userBranchRoles := userBranchRoles d;
     nightAuditLogs := nightAuditLogs d; maintenanceOrders := maintenanceOrders d; assets := assets d; eventSpaces
     := eventSpaces d; eventBookings := eventBookings d |}.
Definition upd_reservationSeq (g : Z -> Z) (d : Db) : Db :=
  {| clock := clock d; seq := seq d; reservationSeq := g (reservationSeq d); loyaltyProgram := loyaltyProgram d;
     branches := branches d; taxRules := taxRules d; exchangeRates := exchangeRates d; roomTypes := roomTypes d;
     corporateAccounts := corporateAccounts d; reservations := reservations d; ratePlans := ratePlans d;
     rateAuditLogs := rateAuditLogs d; buildings := buildings d; floors := floors d; rooms := rooms d; roomBlocks
     := roomBlocks d; overbookingConfigs := overbookingConfigs d; groupBlocks := groupBlocks d;
     availabilityRestrictions := availabilityRestrictions d; channelAllotments := channelAllotments d; packages :=
     packages d; guestNotes := guestNotes d; noShowRecords := noShowRecords d; walkRecords := walkRecords d;
     housekeepingTasks := housekeepingTasks d; registrationCards := registrationCards d; guests := guests d;
     folios := folios d; lineItems := lineItems d; payments := payments d; refunds := refunds d; folioTransfers :=
     folioTransfers d; shifts := shifts d; posOrders := posOrders d; loyaltyTransactions := loyaltyTransactions d;
     webhooks := webhooks d; webhookDeliveries := webhookDeliveries d; auditLogs := auditLogs d; shiftIssues :=
     shiftIssues d; outlets := outlets d; userOutlets := userOutlets d; menuItems := menuItems d;
     communicationLogs := communicationLogs d; users := users d; userBranchRoles := userBranchRoles d;
     nightAuditLogs := nightAuditLogs d; maintenanceOrders := maintenanceOrders d; assets := assets d; eventSpaces
     := eventSpaces d; eventBookings := eventBookings d |}.
Definition upd_buildings (g : list Building.t -> list Building.t) (d : Db) : Db :=
  {| clock := clock d; seq := seq d; reservationSeq := reservationSeq d; loyaltyProgram := loyaltyProgram d;
     branches := branches d; taxRules := taxRules d; exchangeRates := exchangeRates d; roomTypes := roomTypes d;
     corporateAccounts := corporateAccounts d; reservations := reservations d; ratePlans := ratePlans d;
     rateAuditLogs := rateAuditLogs d; buildings := g (buildings d); floors := floors d; rooms := rooms d;
     roomBlocks := roomBlocks d; overbookingConfigs := overbookingConfigs d; groupBlocks := groupBlocks d;
     availabilityRestrictions := availabilityRestrictions d; channelAllotments := channelAllotments d; packages :=
     packages d; guestNotes := guestNotes d; noShowRecords := noShowRecords d; walkRecords := walkRecords d;
     housekeepingTasks := housekeepingTasks d; registrationCards := registrationCards d; guests := guests d;
     folios := folios d; lineItems := lineItems d; payments := payments d; refunds := refunds d; folioTransfers :=
     folioTransfers d; shifts := shifts d; posOrders := posOrders d; loyaltyTransactions := loyaltyTransactions d;
     webhooks := webhooks d; webhookDeliveries := webhookDeliveries d; auditLogs := auditLogs d; shiftIssues :=
     shiftIssues d; outlets := outlets d; userOutlets := userOutlets d; menuItems := menuItems d;
     communicationLogs := communicationLogs d; users := users d; userBranchRoles := userBranchRoles d;
     nightAuditLogs := nightAuditLogs d; maintenanceOrders := maintenanceOrders d; assets := assets d; eventSpaces
     := eventSpaces d; eventBookings := eventBookings d |}.
Definition upd_floors (g : list Floor.t -> list Floor.t) (d : Db) : Db :=
  {| clock := clock d; seq := seq d; reservationSeq := reservationSeq d; loyaltyProgram := loyaltyProgram d;
     branches := branches d; taxRules := taxRules d; exchangeRates := exchangeRates d; roomTypes := roomTypes d;
     corporateAccounts := corporateAccounts d; reservations := reservations d; ratePlans := ratePlans d;
     rateAuditLogs := rateAuditLogs d; buildings := buildings d; floors := g (floors d); rooms := rooms d;
     roomBlocks := roomBlocks d; overbookingConfigs := overbookingConfigs d; groupBlocks := groupBlocks d;
     availabilityRestrictions := availabilityRestrictions d; channelAllotments := channelAllotments d; packages :=
     packages d; guestNotes := guestNotes d; noShowRecords := noShowRecords d; walkRecords := walkRecords d;
     housekeepingTasks := housekeepingTasks d; registrationCards := registrationCards d; guests := guests d;
     folios := folios d; lineItems := lineItems d; payments := payments d; refunds := refunds d; folioTransfers :=
     folioTransfers d; shifts := shifts d; posOrders := posOrders d; loyaltyTransactions := loyaltyTransactions d;
     webhooks := webhooks d; webhookDeliveries := webhookDeliveries d; auditLogs := auditLogs d; shiftIssues :=
     shiftIssues d; outlets := outlets d; userOutlets := userOutlets d; menuItems := menuItems d;
     communicationLogs := communicationLogs d; users := users d; userBranchRoles := userBranchRoles d;
     nightAuditLogs := nightAuditLogs d; maintenanceOrders := maintenanceOrders d; assets := assets d; eventSpaces
     := eventSpaces d; eventBookings := eventBookings d |}.
Definition upd_overbookingConfigs (g : list OverbookingConfig.t -> list OverbookingConfig.t) (d : Db) : Db :=
  {| clock := clock d; seq := seq d; reservationSeq := reservationSeq d; loyaltyProgram := loyaltyProgram d;
     branches := branches d; taxRules := taxRules d; exchangeRates := exchangeRates d; roomTypes := roomTypes d;
     corporateAccounts := corporateAccounts d; reservations := reservations d; ratePlans := ratePlans d;
     rateAuditLogs := rateAuditLogs d; buildings := buildings d; floors := floors d; rooms := rooms d; roomBlocks
     := roomBlocks d; overbookingConfigs := g (overbookingConfigs d); groupBlocks := groupBlocks d;
     availabilityRestrictions := availabilityRestrictions d; channelAllotments := channelAllotments d; packages :=
     packages d; guestNotes := guestNotes d; noShowRecords := noShowRecords d; walkRecords := walkRecords d;
     housekeepingTasks := housekeepingTasks d; registrationCards := registrationCards d; guests := guests d;
     folios := folios d; lineItems := lineItems d; payments := payments d; refunds := refunds d; folioTransfers :=
     folioTransfers d; shifts := shifts d; posOrders := posOrders d; loyaltyTransactions := loyaltyTransactions d;
     webhooks := webhooks d; webhookDeliveries := webhookDeliveries d; auditLogs := auditLogs d; shiftIssues :=
     shiftIssues d; outlets := outlets d; userOutlets := userOutlets d; menuItems := menuItems d;
     communicationLogs := communicationLogs d; users := users d; userBranchRoles := userBranchRoles d;
     nightAuditLogs := nightAuditLogs d; maintenanceOrders := maintenanceOrders d; assets := assets d; eventSpaces
     := eventSpaces d; eventBookings := eventBookings d |}.
Definition upd_groupBlocks (g : list GroupBlock.t -> list GroupBlock.t) (d : Db) : Db :=
  {| clock := clock d; seq := seq d; reservationSeq := reservationSeq d; loyaltyProgram := loyaltyProgram d;
     branches := branches d; taxRules := taxRules d; exchangeRates := exchangeRates d; roomTypes := roomTypes d;
     corporateAccounts := corporateAccounts d; reservations := reservations d; ratePlans := ratePlans d;
     rateAuditLogs := rateAuditLogs d; buildings := buildings d; floors := floors d; rooms := rooms d; roomBlocks
     := roomBlocks d; overbookingConfigs := overbookingConfigs d; groupBlocks := g (groupBlocks d);
     availabilityRestrictions := availabilityRestrictions d; channelAllotments := channelAllotments d; packages :=
     packages d; guestNotes := guestNotes d; noShowRecords := noShowRecords d; walkRecords := walkRecords d;
     housekeepingTasks := housekeepingTasks d; registrationCards := registrationCards d; guests := guests d;
     folios := folios d; lineItems := lineItems d; payments := payments d; refunds := refunds d; folioTransfers :=
     folioTransfers d; shifts := shifts d; posOrders := posOrders d; loyaltyTransactions := loyaltyTransactions d;
     webhooks := webhooks d; webhookDeliveries := webhookDeliveries d; auditLogs := auditLogs d; shiftIssues :=
     shiftIssues d; outlets := outlets d; userOutlets := userOutlets d; menuItems := menuItems d;
     communicationLogs := communicationLogs d; users := users d; userBranchRoles := userBranchRoles d;
     nightAuditLogs := nightAuditLogs d; maintenanceOrders := maintenanceOrders d; assets := assets d; eventSpaces
     := eventSpaces d; eventBookings := eventBookings d |}.
Definition upd_ratePlans (g : list RatePlan.t -> list RatePlan.t) (d : Db) : Db :=
  {| clock := clock d; seq := seq d; reservationSeq := reservationSeq d; loyaltyProgram := loyaltyProgram d;
     branches := branches d; taxRules := taxRules d; exchangeRates := exchangeRates d; roomTypes := roomTypes d;
     corporateAccounts := corporateAccounts d; reservations := reservations d; ratePlans := g (ratePlans d);
     rateAuditLogs := rateAuditLogs d; buildings := buildings d; floors := floors d; rooms := rooms d; roomBlocks
     := roomBlocks d; overbookingConfigs := overbookingConfigs d; groupBlocks := groupBlocks d;
     availabilityRestrictions := availabilityRestrictions d; channelAllotments := channelAllotments d; packages :=
     packages d; guestNotes := guestNotes d; noShowRecords := noShowRecords d; walkRecords := walkRecords d;
     housekeepingTasks := housekeepingTasks d; registrationCards := registrationCards d; guests := guests d;
     folios := folios d; lineItems := lineItems d; payments := payments d; refunds := refunds d; folioTransfers :=
     folioTransfers d; shifts := shifts d; posOrders := posOrders d; loyaltyTransactions := loyaltyTransactions d;
     webhooks := webhooks d; webhookDeliveries := webhookDeliveries d; auditLogs := auditLogs d; shiftIssues :=
     shiftIssues d; outlets := outlets d; userOutlets := userOutlets d; menuItems := menuItems d;
     communicationLogs := communicationLogs d; users := users d; userBranchRoles := userBranchRoles d;
     nightAuditLogs := nightAuditLogs d; maintenanceOrders := maintenanceOrders d; assets := assets d; eventSpaces
     := eventSpaces d; eventBookings := eventBookings d |}.
Definition upd_rateAuditLogs (g : list RateAuditLog.t -> list RateAuditLog.t) (d : Db) : Db :=
  {| clock := clock d; seq := seq d; reservationSeq := reservationSeq d; loyaltyProgram := loyaltyProgram d;
     branches := branches d; taxRules := taxRules d; exchangeRates := exchangeRates d; roomTypes := roomTypes d;
     corporateAccounts := corporateAccounts d; reservations := reservations d; ratePlans := ratePlans d;
     rateAuditLogs := g (rateAuditLogs d); buildings := buildings d; floors := floors d; rooms := rooms d;
     roomBlocks := roomBlocks d; overbookingConfigs := overbookingConfigs d; groupBlocks := groupBlocks d;
     availabilityRestrictions := availabilityRestrictions d; channelAllotments := channelAllotments d; packages :=
     packages d; guestNotes := guestNotes d; noShowRecords := noShowRecords d; walkRecords := walkRecords d;
     housekeepingTasks := housekeepingTasks d; registrationCards := registrationCards d; guests := guests d;
     folios := folios d; lineItems := lineItems d; payments := payments d; refunds := refunds d; folioTransfers :=
     folioTransfers d; shifts := shifts d; posOrders := posOrders d; loyaltyTransactions := loyaltyTransactions d;
     webhooks := webhooks d; webhookDeliveries := webhookDeliveries d; auditLogs := auditLogs d; shiftIssues :=
     shiftIssues d; outlets := outlets d; userOutlets := userOutlets d; menuItems := menuItems d;
     communicationLogs := communicationLogs d; users := users d; userBranchRoles := userBranchRoles d;
     nightAuditLogs := nightAuditLogs d; maintenanceOrders := maintenanceOrders d; assets := assets d; eventSpaces
     := eventSpaces d; eventBookings := eventBookings d |}.
Definition upd_rooms (g : list Room.t -> list Room.t) (d : Db) : Db :=
  {| clock := clock d; seq := seq d; reservationSeq := reservationSeq d; loyaltyProgram := loyaltyProgram d;
     branches := branches d; taxRules := taxRules d; exchangeRates := exchangeRates d; roomTypes := roomTypes d;
     corporateAccounts := corporateAccounts d; reservations := reservations d; ratePlans := ratePlans d;
     rateAuditLogs := rateAuditLogs d; buildings := buildings d; floors := floors d; rooms := g (rooms d);
     roomBlocks := roomBlocks d; overbookingConfigs := overbookingConfigs d; groupBlocks := groupBlocks d;
     availabilityRestrictions := availabilityRestrictions d; channelAllotments := channelAllotments d; packages :=
     packages d; guestNotes := guestNotes d; noShowRecords := noShowRecords d; walkRecords := walkRecords d;
     housekeepingTasks := housekeepingTasks d; registrationCards := registrationCards d; guests := guests d;
     folios := folios d; lineItems := lineItems d; payments := payments d; refunds := refunds d; folioTransfers :=
     folioTransfers d; shifts := shifts d; posOrders := posOrders d; loyaltyTransactions := loyaltyTransactions d;
     webhooks := webhooks d; webhookDeliveries := webhookDeliveries d; auditLogs := auditLogs d; shiftIssues :=
     shiftIssues d; outlets := outlets d; userOutlets := userOutlets d; menuItems := menuItems d;
     communicationLogs := communicationLogs d; users := users d; userBranchRoles := userBranchRoles d;
     nightAuditLogs := nightAuditLogs d; maintenanceOrders := maintenanceOrders d; assets := assets d; eventSpaces
     := eventSpaces d; eventBookings := eventBookings d |}.
Definition upd_roomBlocks (g : list RoomBlock.t -> list RoomBlock.t) (d : Db) : Db :=
  {| clock := clock d; seq := seq d; reservationSeq := reservationSeq d; loyaltyProgram := loyaltyProgram d;
     branches := branches d; taxRules := taxRules d; exchangeRates := exchangeRates d; roomTypes := roomTypes d;
     corporateAccounts := corporateAccounts d; reservations := reservations d; ratePlans := ratePlans d;
     rateAuditLogs := rateAuditLogs d; buildings := buildings d; floors := floors d; rooms := rooms d; roomBlocks
     := g (roomBlocks d); overbookingConfigs := overbookingConfigs d; groupBlocks := groupBlocks d;
     availabilityRestrictions := availabilityRestrictions d; channelAllotments := channelAllotments d; packages :=
     packages d; guestNotes := guestNotes d; noShowRecords := noShowRecords d; walkRecords := walkRecords d;
     housekeepingTasks := housekeepingTasks d; registrationCards := registrationCards d; guests := guests d;
     folios := folios d; lineItems := lineItems d; payments := payments d; refunds := refunds d; folioTransfers :=
     folioTransfers d; shifts := shifts d; posOrders := posOrders d; loyaltyTransactions := loyaltyTransactions d;
     webhooks := webhooks d; webhookDeliveries := webhookDeliveries d; auditLogs := auditLogs d; shiftIssues :=
     shiftIssues d; outlets := outlets d; userOutlets := userOutlets d; menuItems := menuItems d;
     communicationLogs := communicationLogs d; users := users d; userBranchRoles := userBranchRoles d;
     nightAuditLogs := nightAuditLogs d; maintenanceOrders := maintenanceOrders d; assets := assets d; eventSpaces
     := eventSpaces d; eventBookings := eventBookings d |}.
Definition upd_availabilityRestrictions (g : list AvailabilityRestriction.t -> list AvailabilityRestriction.t) (d
     : Db) : Db :=
  {| clock := clock d; seq := seq d; reservationSeq := reservationSeq d; loyaltyProgram := loyaltyProgram d;
     branches := branches d; taxRules := taxRules d; exchangeRates := exchangeRates d; roomTypes := roomTypes d;
     corporateAccounts := corporateAccounts d; reservations := reservations d; ratePlans := ratePlans d;
     rateAuditLogs := rateAuditLogs d; buildings := buildings d; floors := floors d; rooms := rooms d; roomBlocks
     := roomBlocks d; overbookingConfigs := overbookingConfigs d; groupBlocks := groupBlocks d;
     availabilityRestrictions := g (availabilityRestrictions d); channelAllotments := channelAllotments d;
     packages := packages d; guestNotes := guestNotes d; noShowRecords := noShowRecords d; walkRecords :=
     walkRecords d; housekeepingTasks := housekeepingTasks d; registrationCards := registrationCards d; guests :=
     guests d; folios := folios d; lineItems := lineItems d; payments := payments d; refunds := refunds d;
     folioTransfers := folioTransfers d; shifts := shifts d; posOrders := posOrders d; loyaltyTransactions :=
     loyaltyTransactions d; webhooks := webhooks d; webhookDeliveries := webhookDeliveries d; auditLogs :=
     auditLogs d; shiftIssues := shiftIssues d; outlets := outlets d; userOutlets := userOutlets d; menuItems :=
     menuItems d; communicationLogs := communicationLogs d; users := users d; userBranchRoles := userBranchRoles
     d; nightAuditLogs := nightAuditLogs d; maintenanceOrders := maintenanceOrders d; assets := assets d;
     eventSpaces := eventSpaces d; eventBookings := eventBookings d |}.
Definition upd_channelAllotments (g : list ChannelAllotment.t -> list ChannelAllotment.t) (d : Db) : Db :=
  {| clock := clock d; seq := seq d; reservationSeq := reservationSeq d; loyaltyProgram := loyaltyProgram d;
     branches := branches d; taxRules := taxRules d; exchangeRates := exchangeRates d; roomTypes := roomTypes d;
     corporateAccounts := corporateAccounts d; reservations := reservations d; ratePlans := ratePlans d;
     rateAuditLogs := rateAuditLogs d; buildings := buildings d; floors := floors d; rooms := rooms d; roomBlocks
     := roomBlocks d; overbookingConfigs := overbookingConfigs d; groupBlocks := groupBlocks d;
     availabilityRestrictions := availabilityRestrictions d; channelAllotments := g (channelAllotments d);
     packages := packages d; guestNotes := guestNotes d; noShowRecords := noShowRecords d; walkRecords :=
     walkRecords d; housekeepingTasks := housekeepingTasks d; registrationCards := registrationCards d; guests :=
     guests d; folios := folios d; lineItems := lineItems d; payments := payments d; refunds := refunds d;
     folioTransfers := folioTransfers d; shifts := shifts d; posOrders := posOrders d; loyaltyTransactions :=
     loyaltyTransactions d; webhooks := webhooks d; webhookDeliveries := webhookDeliveries d; auditLogs :=
     auditLogs d; shiftIssues := shiftIssues d; outlets := outlets d; userOutlets := userOutlets d; menuItems :=
     menuItems d; communicationLogs := communicationLogs d; users := users d; userBranchRoles := userBranchRoles
     d; nightAuditLogs := nightAuditLogs d; maintenanceOrders := maintenanceOrders d; assets := assets d;
     eventSpaces := eventSpaces d; eventBookings := eventBookings d |}.
Definition upd_guestNotes (g : list GuestNote.t -> list GuestNote.t) (d : Db) : Db :=
  {| clock := clock d; seq := seq d; reservationSeq := reservationSeq d; loyaltyProgram := loyaltyProgram d;
     branches := branches d; taxRules := taxRules d; exchangeRates := exchangeRates d; roomTypes := roomTypes d;
     corporateAccounts := corporateAccounts d; reservations := reservations d; ratePlans := ratePlans d;
     rateAuditLogs := rateAuditLogs d; buildings := buildings d; floors := floors d; rooms := rooms d; roomBlocks
     := roomBlocks d; overbookingConfigs := overbookingConfigs d; groupBlocks := groupBlocks d;
     availabilityRestrictions := availabilityRestrictions d; channelAllotments := channelAllotments d; packages :=
     packages d; guestNotes := g (guestNotes d); noShowRecords := noShowRecords d; walkRecords := walkRecords d;
     housekeepingTasks := housekeepingTasks d; registrationCards := registrationCards d; guests := guests d;
     folios := folios d; lineItems := lineItems d; payments := payments d; refunds := refunds d; folioTransfers :=
     folioTransfers d; shifts := shifts d; posOrders := posOrders d; loyaltyTransactions := loyaltyTransactions d;
     webhooks := webhooks d; webhookDeliveries := webhookDeliveries d; auditLogs := auditLogs d; shiftIssues :=
     shiftIssues d; outlets := outlets d; userOutlets := userOutlets d; menuItems := menuItems d;
     communicationLogs := communicationLogs d; users := users d; userBranchRoles := userBranchRoles d;
     nightAuditLogs := nightAuditLogs d; maintenanceOrders := maintenanceOrders d; assets := assets d; eventSpaces
     := eventSpaces d; eventBookings := eventBookings d |}.
Definition upd_noShowRecords (g : list NoShowRecord.t -> list NoShowRecord.t) (d : Db) : Db :=
  {| clock := clock d; seq := seq d; reservationSeq := reservationSeq d; loyaltyProgram := loyaltyProgram d;
     branches := branches d; taxRules := taxRules d; exchangeRates := exchangeRates d; roomTypes := roomTypes d;
     corporateAccounts := corporateAccounts d; reservations := reservations d; ratePlans := ratePlans d;
     rateAuditLogs := rateAuditLogs d; buildings := buildings d; floors := floors d; rooms := rooms d; roomBlocks
     := roomBlocks d; overbookingConfigs := overbookingConfigs d; groupBlocks := groupBlocks d;
     availabilityRestrictions := availabilityRestrictions d; channelAllotments := channelAllotments d; packages :=
     packages d; guestNotes := guestNotes d; noShowRecords := g (noShowRecords d); walkRecords := walkRecords d;
     housekeepingTasks := housekeepingTasks d; registrationCards := registrationCards d; guests := guests d;
     folios := folios d; lineItems := lineItems d; payments := payments d; refunds := refunds d; folioTransfers :=
     folioTransfers d; shifts := shifts d; posOrders := posOrders d; loyaltyTransactions := loyaltyTransactions d;
     webhooks := webhooks d; webhookDeliveries := webhookDeliveries d; auditLogs := auditLogs d; shiftIssues :=
     shiftIssues d; outlets := outlets d; userOutlets := userOutlets d; menuItems := menuItems d;
     communicationLogs := communicationLogs d; users := users d; userBranchRoles := userBranchRoles d;
     nightAuditLogs := nightAuditLogs d; maintenanceOrders := maintenanceOrders d; assets := assets d; eventSpaces
     := eventSpaces d; eventBookings := eventBookings d |}.
Definition upd_walkRecords (g : list WalkRecord.t -> list WalkRecord.t) (d : Db) : Db :=
  {| clock := clock d; seq := seq d; reservationSeq := reservationSeq d; loyaltyProgram := loyaltyProgram d;
     branches := branches d; taxRules := taxRules d; exchangeRates := exchangeRates d; roomTypes := roomTypes d;
     corporateAccounts := corporateAccounts d; reservations := reservations d; ratePlans := ratePlans d;
     rateAuditLogs := rateAuditLogs d; buildings := buildings d; floors := floors d; rooms := rooms d; roomBlocks
     := roomBlocks d; overbookingConfigs := overbookingConfigs d; groupBlocks := groupBlocks d;
     availabilityRestrictions := availabilityRestrictions d; channelAllotments := channelAllotments d; packages :=
     packages d; guestNotes := guestNotes d; noShowRecords := noShowRecords d; walkRecords := g (walkRecords d);
     housekeepingTasks := housekeepingTasks d; registrationCards := registrationCards d; guests := guests d;
     folios := folios d; lineItems := lineItems d; payments := payments d; refunds := refunds d; folioTransfers :=
     folioTransfers d; shifts := shifts d; posOrders := posOrders d; loyaltyTransactions := loyaltyTransactions d;
     webhooks := webhooks d; webhookDeliveries := webhookDeliveries d; auditLogs := auditLogs d; shiftIssues :=
     shiftIssues d; outlets := outlets d; userOutlets := userOutlets d; menuItems := menuItems d;
     communicationLogs := communicationLogs d; users := users d; userBranchRoles := userBranchRoles d;
     nightAuditLogs := nightAuditLogs d; maintenanceOrders := maintenanceOrders d; assets := assets d; eventSpaces
     := eventSpaces d; eventBookings := eventBookings d |}.
Definition upd_housekeepingTasks (g : list HousekeepingTask.t -> list HousekeepingTask.t) (d : Db) : Db :=
  {| clock := clock d; seq := seq d; reservationSeq := reservationSeq d; loyaltyProgram := loyaltyProgram d;
     branches := branches d; taxRules := taxRules d; exchangeRates := exchangeRates d; roomTypes := roomTypes d;
     corporateAccounts := corporateAccounts d; reservations := reservations d; ratePlans := ratePlans d;
     rateAuditLogs := rateAuditLogs d; buildings := buildings d; floors := floors d; rooms := rooms d; roomBlocks
     := roomBlocks d; overbookingConfigs := overbookingConfigs d; groupBlocks := groupBlocks d;
     availabilityRestrictions := availabilityRestrictions d; channelAllotments := channelAllotments d; packages :=
     packages d; guestNotes := guestNotes d; noShowRecords := noShowRecords d; walkRecords := walkRecords d;
     housekeepingTasks := g (housekeepingTasks d); registrationCards := registrationCards d; guests := guests d;
     folios := folios d; lineItems := lineItems d; payments := payments d; refunds := refunds d; folioTransfers :=
     folioTransfers d; shifts := shifts d; posOrders := posOrders d; loyaltyTransactions := loyaltyTransactions d;
     webhooks := webhooks d; webhookDeliveries := webhookDeliveries d; auditLogs := auditLogs d; shiftIssues :=
     shiftIssues d; outlets := outlets d; userOutlets := userOutlets d; menuItems := menuItems d;
     communicationLogs := communicationLogs d; users := users d; userBranchRoles := userBranchRoles d;
     nightAuditLogs := nightAuditLogs d; maintenanceOrders := maintenanceOrders d; assets := assets d; eventSpaces
     := eventSpaces d; eventBookings := eventBookings d |}.
Definition upd_registrationCards (g : list RegistrationCard.t -> list RegistrationCard.t) (d : Db) : Db :=
  {| clock := clock d; seq := seq d; reservationSeq := reservationSeq d; loyaltyProgram := loyaltyProgram d;
     branches := branches d; taxRules := taxRules d; exchangeRates := exchangeRates d; roomTypes := roomTypes d;
     corporateAccounts := corporateAccounts d; reservations := reservations d; ratePlans := ratePlans d;
     rateAuditLogs := rateAuditLogs d; buildings := buildings d; floors := floors d; rooms := rooms d; roomBlocks
     := roomBlocks d; overbookingConfigs := overbookingConfigs d; groupBlocks := groupBlocks d;
     availabilityRestrictions := availabilityRestrictions d; channelAllotments := channelAllotments d; packages :=
     packages d; guestNotes := guestNotes d; noShowRecords := noShowRecords d; walkRecords := walkRecords d;
     housekeepingTasks := housekeepingTasks d; registrationCards := g (registrationCards d); guests := guests d;
     folios := folios d; lineItems := lineItems d; payments := payments d; refunds := refunds d; folioTransfers :=
     folioTransfers d; shifts := shifts d; posOrders := posOrders d; loyaltyTransactions := loyaltyTransactions d;
     webhooks := webhooks d; webhookDeliveries := webhookDeliveries d; auditLogs := auditLogs d; shiftIssues :=
     shiftIssues d; outlets := outlets d; userOutlets := userOutlets d; menuItems := menuItems d;
     communicationLogs := communicationLogs d; users := users d; userBranchRoles := userBranchRoles d;
     nightAuditLogs := nightAuditLogs d; maintenanceOrders := maintenanceOrders d; assets := assets d; eventSpaces
     := eventSpaces d; eventBookings := eventBookings d |}.
Definition upd_nightAuditLogs (g : list NightAuditLog.t -> list NightAuditLog.t) (d : Db) : Db :=
  {| clock := clock d; seq := seq d; reservationSeq := reservationSeq d; loyaltyProgram := loyaltyProgram d;
     branches := branches d; taxRules := taxRules d; exchangeRates := exchangeRates d; roomTypes := roomTypes d;
     corporateAccounts := corporateAccounts d; reservations := reservations d; ratePlans := ratePlans d;
     rateAuditLogs := rateAuditLogs d; buildings := buildings d; floors := floors d; rooms := rooms d; roomBlocks
     := roomBlocks d; overbookingConfigs := overbookingConfigs d; groupBlocks := groupBlocks d;
     availabilityRestrictions := availabilityRestrictions d; channelAllotments := channelAllotments d; packages :=
     packages d; guestNotes := guestNotes d; noShowRecords := noShowRecords d; walkRecords := walkRecords d;
     housekeepingTasks := housekeepingTasks d; registrationCards := registrationCards d; guests := guests d;
     folios := folios d; lineItems := lineItems d; payments := payments d; refunds := refunds d; folioTransfers :=
     folioTransfers d; shifts := shifts d; posOrders := posOrders d; loyaltyTransactions := loyaltyTransactions d;
     webhooks := webhooks d; webhookDeliveries := webhookDeliveries d; auditLogs := auditLogs d; shiftIssues :=
     shiftIssues d; outlets := outlets d; userOutlets := userOutlets d; menuItems := menuItems d;
     communicationLogs := communicationLogs d; users := users d; userBranchRoles := userBranchRoles d;
     nightAuditLogs := g (nightAuditLogs d); maintenanceOrders := maintenanceOrders d; assets := assets d;
     eventSpaces := eventSpaces d; eventBookings := eventBookings d |}.
Definition upd_maintenanceOrders (g : list MaintenanceOrder.t -> list MaintenanceOrder.t) (d : Db) : Db :=
  {| clock := clock d; seq := seq d; reservationSeq := reservationSeq d; loyaltyProgram := loyaltyProgram d;
     branches := branches d; taxRules := taxRules d; exchangeRates := exchangeRates d; roomTypes := roomTypes d;
     corporateAccounts := corporateAccounts d; reservations := reservations d; ratePlans := ratePlans d;
     rateAuditLogs := rateAuditLogs d; buildings := buildings d; floors := floors d; rooms := rooms d; roomBlocks
     := roomBlocks d; overbookingConfigs := overbookingConfigs d; groupBlocks := groupBlocks d;
     availabilityRestrictions := availabilityRestrictions d; channelAllotments := channelAllotments d; packages :=
     packages d; guestNotes := guestNotes d; noShowRecords := noShowRecords d; walkRecords := walkRecords d;
     housekeepingTasks := housekeepingTasks d; registrationCards := registrationCards d; guests := guests d;
     folios := folios d; lineItems := lineItems d; payments := payments d; refunds := refunds d; folioTransfers :=
     folioTransfers d; shifts := shifts d; posOrders := posOrders d; loyaltyTransactions := loyaltyTransactions d;
     webhooks := webhooks d; webhookDeliveries := webhookDeliveries d; auditLogs := auditLogs d; shiftIssues :=
     shiftIssues d; outlets := outlets d; userOutlets := userOutlets d; menuItems := menuItems d;
     communicationLogs := communicationLogs d; users := users d; userBranchRoles := userBranchRoles d;
     nightAuditLogs := nightAuditLogs d; maintenanceOrders := g (maintenanceOrders d); assets := assets d;
     eventSpaces := eventSpaces d; eventBookings := eventBookings d |}.
Definition upd_assets (g : list Asset.t -> list Asset.t) (d : Db) : Db :=
  {| clock := clock d; seq := seq d; reservationSeq := reservationSeq d; loyaltyProgram := loyaltyProgram d;
     branches := branches d; taxRules := taxRules d; exchangeRates := exchangeRates d; roomTypes := roomTypes d;
     corporateAccounts := corporateAccounts d; reservations := reservations d; ratePlans := ratePlans d;
     rateAuditLogs := rateAuditLogs d; buildings := buildings d; floors := floors d; rooms := rooms d; roomBlocks
     := roomBlocks d; overbookingConfigs := overbookingConfigs d; groupBlocks := groupBlocks d;
     availabilityRestrictions := availabilityRestrictions d; channelAllotments := channelAllotments d; packages :=
     packages d; guestNotes := guestNotes d; noShowRecords := noShowRecords d; walkRecords := walkRecords d;
     housekeepingTasks := housekeepingTasks d; registrationCards := registrationCards d; guests := guests d;
     folios := folios d; lineItems := lineItems d; payments := payments d; refunds := refunds d; folioTransfers :=
     folioTransfers d; shifts := shifts d; posOrders := posOrders d; loyaltyTransactions := loyaltyTransactions d;
     webhooks := webhooks d; webhookDeliveries := webhookDeliveries d; auditLogs := auditLogs d; shiftIssues :=
     shiftIssues d; outlets := outlets d; userOutlets := userOutlets d; menuItems := menuItems d;
     communicationLogs := communicationLogs d; users := users d; userBranchRoles := userBranchRoles d;
     nightAuditLogs := nightAuditLogs d; maintenanceOrders := maintenanceOrders d; assets := g (assets d);
     eventSpaces := eventSpaces d; eventBookings := eventBookings d |}.
Definition upd_eventSpaces (g : list EventSpace.t -> list EventSpace.t) (d : Db) : Db :=
  {| clock := clock d; seq := seq d; reservationSeq := reservationSeq d; loyaltyProgram := loyaltyProgram d;
     branches := branches d; taxRules := taxRules d; exchangeRates := exchangeRates d; roomTypes := roomTypes d;
     corporateAccounts := corporateAccounts d; reservations := reservations d; ratePlans := ratePlans d;
     rateAuditLogs := rateAuditLogs d; buildings := buildings d; floors := floors d; rooms := rooms d; roomBlocks
     := roomBlocks d; overbookingConfigs := overbookingConfigs d; groupBlocks := groupBlocks d;
     availabilityRestrictions := availabilityRestrictions d; channelAllotments := channelAllotments d; packages :=
     packages d; guestNotes := guestNotes d; noShowRecords := noShowRecords d; walkRecords := walkRecords d;
     housekeepingTasks := housekeepingTasks d; registrationCards := registrationCards d; guests := guests d;
     folios := folios d; lineItems := lineItems d; payments := payments d; refunds := refunds d; folioTransfers :=
     folioTransfers d; shifts := shifts d; posOrders := posOrders d; loyaltyTransactions := loyaltyTransactions d;
     webhooks := webhooks d; webhookDeliveries := webhookDeliveries d; auditLogs := auditLogs d; shiftIssues :=
     shiftIssues d; outlets := outlets d; userOutlets := userOutlets d; menuItems := menuItems d;
     communicationLogs := communicationLogs d; users := users d; userBranchRoles := userBranchRoles d;
     nightAuditLogs := nightAuditLogs d; maintenanceOrders := maintenanceOrders d; assets := assets d; eventSpaces
     := g (eventSpaces d); eventBookings := eventBookings d |}.
Definition upd_eventBookings (g : list EventBooking.t -> list EventBooking.t) (d : Db) : Db :=
  {| clock := clock d; seq := seq d; reservationSeq := reservationSeq d; loyaltyProgram := loyaltyProgram d;
     branches := branches d; taxRules := taxRules d; exchangeRates := exchangeRates d; roomTypes := roomTypes d;
     corporateAccounts := corporateAccounts d; reservations := reservations d; ratePlans := ratePlans d;
     rateAuditLogs := rateAuditLogs d; buildings := buildings d; floors := floors d; rooms := rooms d; roomBlocks
     := roomBlocks d; overbookingConfigs := overbookingConfigs d; groupBlocks := groupBlocks d;
     availabilityRestrictions := availabilityRestrictions d; channelAllotments := channelAllotments d; packages :=
     packages d; guestNotes := guestNotes d; noShowRecords := noShowRecords d; walkRecords := walkRecords d;
     housekeepingTasks := housekeepingTasks d; registrationCards := registrationCards d; guests := guests d;
     folios := folios d; lineItems := lineItems d; payments := payments d; refunds := refunds d; folioTransfers :=
     folioTransfers d; shifts := shifts d; posOrders := posOrders d; loyaltyTransactions := loyaltyTransactions d;
     webhooks := webhooks d; webhookDeliveries := webhookDeliveries d; auditLogs := auditLogs d; shiftIssues :=
     shiftIssues d; outlets := outlets d; userOutlets := userOutlets d; menuItems := menuItems d;
     communicationLogs := communicationLogs d; users := users d; userBranchRoles := userBranchRoles d;
     nightAuditLogs := nightAuditLogs d; maintenanceOrders := maintenanceOrders d; assets := assets d; eventSpaces
     := eventSpaces d; eventBookings := g (eventBookings d) |}.

(** ** Transactions *)
Abbreviation M := (Tx Db).

(** A [NUMERIC(p,2)] column ([bound] is [10^p]): the value is stored rounded half away from zero
    to the cent; one that needs more digits is refused. *)
Definition internal : error := Throw InternalServerError INTERNAL.
Definition numeric_col (bound : Z) (x : Qc) : res Qc :=
  let z := half_up (x * p10 2)%Qc in if Z.abs z <? bound then Ok (cents z) else Err internal.
Abbreviation numeric := (numeric_col NUMERIC_12_2).

Definition new_id `{Uuid} : M string :=
  let! n := gets seq in do! modify (upd_seq S) in ret (gen_random_uuid n).
Definition now : M Z := gets clock.

Section Audit.
Context `{Uuid}.

Definition listens (b : string) (types : list string) (w : Webhook.t) : bool :=
  Webhook.isActive w && existsb (fun type => bool_decide (type ∈ Webhook.eventTypes w)) types &&
  match Webhook.branchId w with None => true | Some b' => bool_decide (b' = b) end.

(** [emit]: for each event type one event, and for each active webhook of the
    tenant or the branch that listens for it one delivery. [subject] stands for
    the payload, which only repeats rows of the database. *)
Definition emit (b : string) (types : list string) (subject : string) : M unit :=
  let! hooks := findMany webhooks (listens b types) in
  if bool_decide (length hooks = 0%nat) then ret tt
  else
    let! rows := for_each types [] (fun rows type =>
      let! eventId := new_id in
      ret (rows ++ ((fun w => {| WebhookDelivery.webhookId := Webhook.id w; WebhookDelivery.eventId := eventId;
                                 WebhookDelivery.eventType := type; WebhookDelivery.subject := subject |})
                    <$> List.filter (fun w => bool_decide (type ∈ Webhook.eventTypes w)) hooks))) in
    modify (upd_webhookDeliveries (fun l => l ++ rows)).

Definition paymentRecorded (b : string) (type : string) (paymentId : string) : M unit := emit b [type] paymentId.

Definition auditLog (b : option string) (u : option string) (action entityType entityId : string) : M unit :=
  modify (upd_auditLogs (fun l => l ++ [{| AuditLog.branchId := b; AuditLog.userId := u; AuditLog.action := action;
                                           AuditLog.entityType := entityType; AuditLog.entityId := entityId |}])).
End Audit.

Definition assertBranch (b : string) : M Branch.t :=
  orThrow (findFirst branches (fun x => bool_decide (Branch.id x = b) && isNone (Branch.deletedAt x))) not_found.

Lemma numeric_Ok x y : numeric x = Ok y <-> y = cents (half_up (x * p10 2)%Qc) /\ Z.abs (half_up (x * p10 2)%Qc) < NUMERIC_12_2.
Proof. unfold numeric_col. destruct (Z.ltb_spec (Z.abs (half_up (x * p10 2)%Qc)) NUMERIC_12_2); naive_solver lia. Qed.
Lemma numeric_money x y : numeric x = Ok y -> money NUMERIC_12_2 y.
Proof. intros [-> H]%numeric_Ok. eexists. split; [|done]. lia. Qed.
Lemma numeric_cents z y : numeric (cents z) = Ok y -> y = cents z.
Proof. intros [-> _]%numeric_Ok. by rewrite cents_scale, half_up_Z. Qed.
Lemma numeric_id B x y : money B x -> numeric x = Ok y -> y = x.
Proof. intros (z & _ & ->). apply numeric_cents. Qed.

Lemma new_id_spec `{Uuid} d d' i : new_id d = Ok (d', i) -> d' = upd_seq S d /\ i = gen_random_uuid (seq d).
Proof. unfold new_id. intros Hm. m_inv. done. Qed.
