(* ===== verification/LoyaltyRules.v ===== *)
(** Loyalty: the programme's pure rules and the points ledger's writes
    (src/src/modules/loyalty/{loyalty-rules,loyalty-ledger}.ts). *)
From S2P Require Import Prelude Decimal Dates Transactions Db.
From Stdlib Require Import QArith Qcanon Lqa.
Local Open Scope Z_scope.

(** ** Rules *)
Definition sortTiers (tiers : list LoyaltyTier) : list LoyaltyTier := sort_by threshold tiers.

(** The tiers of the [reached] kind, in order. *)
Definition tiers_reached (tiers : list LoyaltyTier) (lifetime : Z) : list LoyaltyTier :=
  List.filter (fun t => threshold t <=? lifetime) (sortTiers tiers).
Definition tierFor (tiers : list LoyaltyTier) (lifetime : Z) : option LoyaltyTier := last (tiers_reached tiers lifetime).

Definition nextTierFor (tiers : list LoyaltyTier) (lifetime : Z) : option (string * Z) :=
  (fun t => (tier_name t, threshold t - lifetime)) <$> List.find (fun t => lifetime <? threshold t) (sortTiers tiers).

Section Points.
Context `{DecimalLib}.

Definition pointsForSpend (spend pointsPerUnit : Qc) : Z :=
  if negb (dgt spend 0%Qc) then 0 else dfloor (spend ⊗ pointsPerUnit).

Definition redemptionValue (points : Z) (pointValue : Qc) : Qc := dp2_down (pointValue ⊗ Qc_of_Z points).
End Points.

(** [pointsExpireAt]: the same time of day on the same day of the month,
    [months] later, clamped to that month's last day. *)
Definition month_days (y m : Z) : Z :=
  (if m =? 12 then day_of_civil (y + 1) 1 1 else day_of_civil y (m + 1) 1) - day_of_civil y m 1.
Definition add_months (day months : Z) : Z :=
  let '(y, m, d) := civil_of_day day in
  let i := y * 12 + (m - 1) + months in
  let y' := i / 12 in
  let m' := i mod 12 + 1 in
  day_of_civil y' m' (Z.min d (month_days y' m')).
Definition pointsExpireAt (earnedAt : Z) (months : option Z) : option Z :=
  match months with
  | None => None
  | Some n => if n =? 0 then None else Some (add_months (day_of earnedAt) n * DAY_MS + earnedAt mod DAY_MS)
  end.

(** ** Lapsing *)
Record LedgerRow := { row_type : LoyaltyTxType; row_points : Z; row_expiresAt : option Z }.

(** A row's effect on [spent]. *)
Definition spent_by (r : LedgerRow) : Z :=
  (if bool_decide (row_type r = redeem) || bool_decide (row_type r = expire)
      || (bool_decide (row_type r = adjust) && (row_points r <? 0)) then - row_points r else 0)
  - (if bool_decide (row_type r = reversal) then row_points r else 0).
Definition spent_of (rows : list LedgerRow) : Z := foldl (fun s r => s + spent_by r) 0 rows.

Definition expiry (r : LedgerRow) : Z := default 0 (row_expiresAt r).
Definition lots_of (rows : list LedgerRow) : list LedgerRow :=
  sort_by expiry (List.filter (fun r => bool_decide (row_type r = earn) && isSome (row_expiresAt r)) rows).

(** The loop over the lots: [spent] left to draw, [due], [next]. *)
Fixpoint lapse_loop (now : Z) (lots : list LedgerRow) (spent due : Z) (next : option (Z * Z)) : Z * option (Z * Z) :=
  match lots with
  | [] => (due, next)
  | lot :: lots =>
      let used := Z.min (row_points lot) spent in
      let spent := spent - used in
      let unspent := row_points lot - used in
      if unspent <=? 0 then lapse_loop now lots spent due next
      else if expiry lot <=? now then lapse_loop now lots spent (due + unspent) next
      else match next with
           | None => lapse_loop now lots spent due (Some (unspent, expiry lot))
           | Some (p, on) => if on =? expiry lot then lapse_loop now lots spent due (Some (p + unspent, on))
                             else lapse_loop now lots spent due next
           end
  end.

Definition balance_of (rows : list LedgerRow) : Z := foldl (fun s r => s + row_points r) 0 rows.

Definition lapsedPoints (rows : list LedgerRow) (now : Z) : Z * option (Z * Z) :=
  let spent := Z.max 0 (spent_of rows) in
  let '(due, next) := lapse_loop now (lots_of rows) spent 0 None in
  (Z.max 0 (Z.min due (balance_of rows)), next).

(** ** The ledger *)
Record LoyaltyEntry := {
  entry_type : LoyaltyTxType;
  entry_points : Z;
  entry_branchId : option string;
  entry_earnReservationId : option string;
  entry_paymentId : option string;
  entry_expiresAt : option Z;
  entry_actorId : option string;
}.

Definition findLoyaltyGuest (g : string) : M GuestProfile.t :=
  orThrow (findFirst guests (fun x => bool_decide (GuestProfile.id x = g) && isNone (GuestProfile.deletedAt x)))
    (Throw NotFoundException NOT_FOUND).
(** The row lock only makes concurrent transactions wait. *)
Definition lockLoyaltyGuest (g : string) : M GuestProfile.t := findLoyaltyGuest g.

(** [LIFETIME_POINTS_WHERE] *)
Definition counts_for_life (t : LoyaltyTransaction.t) : bool :=
  (0 <? LoyaltyTransaction.points t) &&
  bool_decide (LoyaltyTransaction.type t ∈ [earn; adjust]).
Definition lifetime_in (d : Db) (g : string) : Z :=
  zsum (LoyaltyTransaction.points <$> List.filter (fun t => bool_decide (LoyaltyTransaction.guestId t = g) && counts_for_life t)
          (loyaltyTransactions d)).
Definition lifetimeLoyaltyPoints (g : string) : M Z := gets (fun d => lifetime_in d g).

Section Ledger.
Context `{Uuid}.

(** [earnReservationId] and [paymentId] are unique columns. *)
Definition clashes (a b : option string) : bool := isSome a && bool_decide (a = b).
Definition create_loyaltyTransaction (g : string) (e : LoyaltyEntry) : M unit :=
  let! dup := findFirst loyaltyTransactions (fun t =>
    clashes (entry_earnReservationId e) (LoyaltyTransaction.earnReservationId t) ||
    clashes (entry_paymentId e) (LoyaltyTransaction.paymentId t)) in
  throw! internal when isSome dup in
  let! i := new_id in
  modify (upd_loyaltyTransactions (fun l => l ++ [{|
    LoyaltyTransaction.id := i; LoyaltyTransaction.guestId := g; LoyaltyTransaction.branchId := entry_branchId e;
    LoyaltyTransaction.type := entry_type e; LoyaltyTransaction.points := entry_points e;
    LoyaltyTransaction.earnReservationId := entry_earnReservationId e; LoyaltyTransaction.paymentId := entry_paymentId e;
    LoyaltyTransaction.expiresAt := entry_expiresAt e; LoyaltyTransaction.createdBy := entry_actorId e |}])).

(** [tiers.findIndex(p)], [-1] when there is none. *)
Definition findIndex {A} (p : A -> bool) (l : list A) : Z :=
  match list_find (fun x => p x = true) l with Some (i, _) => Z.of_nat i | None => -1 end.

(** The balance moves by [increment]: a NULL one stays NULL. *)
Definition applyLoyaltyPoints (guest : GuestProfile.t) (e : LoyaltyEntry) : M (option LoyaltyTier) :=
  do! create_loyaltyTransaction (GuestProfile.id guest) e in
  let! program := gets loyaltyProgram in
  let tiers := sortTiers (match program with Some p => LoyaltyProgram.tiers p | None => [] end) in
  let! lifetime := lifetimeLoyaltyPoints (GuestProfile.id guest) in
  let reached := match program with Some _ => tierFor tiers lifetime | None => None end in
  let before := findIndex (fun t => bool_decide (Some (tier_name t) = GuestProfile.loyaltyTier guest)) tiers in
  let after := match reached with Some _ => Z.of_nat (length (tiers_reached tiers lifetime)) - 1 | None => -1 end in
  let! at_ := now in
  do! modify (upd_guests (update_where (fun g => bool_decide (GuestProfile.id g = GuestProfile.id guest)) (fun g =>
        GuestProfile.with_loyalty
          ((fun p => p + entry_points e) <$> GuestProfile.loyaltyPoints g)
          (match program with Some _ => tier_name <$> reached | None => GuestProfile.loyaltyTier guest end)
          (Some (default at_ (GuestProfile.loyaltyEnrolledAt guest))) at_ g))) in
  ret (match reached with Some t => if before <? after then Some t else None | None => None end).
End Ledger.

(** ** Properties *)
Module RulesProps.

Lemma last_elem {A} (l : list A) x : last l = Some x -> x ∈ l.
Proof. intros Hl. apply last_Some in Hl as [l' ->]. apply elem_of_app. right. by apply list_elem_of_singleton. Qed.

Lemma last_max {A} (key : A -> Z) l x y :
  StronglySorted (fun a b => key a <= key b) l -> last l = Some x -> y ∈ l -> key y <= key x.
Proof.
  intros Hs Hl. apply last_Some in Hl as [l' ->]. rewrite elem_of_app, list_elem_of_singleton.
  intros [Hy| ->]; [|lia]. induction l' as [|z l' IH]; [by apply elem_of_nil in Hy|].
  apply StronglySorted_inv in Hs as [Hs Hz]. apply elem_of_cons in Hy as [->|Hy]; [|auto].
  rewrite Forall_forall in Hz. apply Hz, elem_of_app. right. by apply list_elem_of_singleton.
Qed.

Lemma filter_sorted {A} (R : A -> A -> Prop) (f : A -> bool) l : StronglySorted R l -> StronglySorted R (List.filter f l).
Proof. induction 1; simpl; [constructor|]. destruct (f a); [|done]. constructor; auto using Forall_filterb. Qed.

Lemma tierFor_spec tiers p t : tierFor tiers p = Some t ->
  t ∈ tiers /\ threshold t <= p /\ forall t', t' ∈ tiers -> threshold t' <= p -> threshold t' <= threshold t.
Proof.
  unfold tierFor, tiers_reached. intros Ht. pose proof (last_elem _ _ Ht) as Hin.
  apply elem_of_filterb in Hin as [Hin Hle]. apply Z.leb_le in Hle. unfold sortTiers in Hin.
  rewrite sort_by_perm in Hin. split_and!; [done..|]. intros t' Hin' Hle'.
  eapply (last_max threshold); [|exact Ht|].
  - apply filter_sorted, sort_by_sorted.
  - apply elem_of_filterb. unfold sortTiers. rewrite sort_by_perm. split; [done | by apply Z.leb_le].
Qed.

Lemma tierFor_None tiers p t : tierFor tiers p = None -> t ∈ tiers -> p < threshold t.
Proof.
  unfold tierFor. intros Ht Hin. apply last_None in Ht. destruct (Z.le_gt_cases (threshold t) p) as [Hle|]; [|done].
  exfalso. assert (t ∈ tiers_reached tiers p) as Hr.
  { apply elem_of_filterb. unfold sortTiers. rewrite sort_by_perm. split; [done | by apply Z.leb_le]. }
  rewrite Ht in Hr. by apply elem_of_nil in Hr.
Qed.

(** a member's tier is the highest one their lifetime points reach, and more
    points never lower it: with at least as many points a member who held a tier
    still holds one, whose threshold is at least as high. *)
Theorem tier_monotone tiers p q t : p <= q -> tierFor tiers p = Some t ->
  exists t', tierFor tiers q = Some t' /\ t' ∈ tiers /\ threshold t <= threshold t' <= q /\
             forall u, u ∈ tiers -> threshold u <= q -> threshold u <= threshold t'.
Proof.
  intros Hpq Ht. destruct (tierFor_spec _ _ _ Ht) as (Hin & Hle & _).
  destruct (tierFor tiers q) as [t'|] eqn:Hq.
  - destruct (tierFor_spec _ _ _ Hq) as (Hin' & Hle' & Hmax). exists t'. split_and!; auto. apply Hmax; [done | lia].
  - pose proof (tierFor_None _ _ _ Hq Hin). lia.
Qed.

Definition sample_tiers : list LoyaltyTier :=
  [{| tier_name := "Gold"; threshold := 1500; benefits := [] |}; {| tier_name := "Member"; threshold := 0; benefits := [] |};
   {| tier_name := "Silver"; threshold := 500; benefits := [] |}].

Lemma tier_monotone_witness : exists t', tierFor sample_tiers 2000 = Some t' /\ 500 <= threshold t'.
Proof.
  destruct (tier_monotone sample_tiers 700 2000 {| tier_name := "Silver"; threshold := 500; benefits := [] |})
    as (t' & Ht & _ & Hle & _); [lia | reflexivity|]. exists t'. split; [done | apply Hle].
Defined.

(** *** Lapsing, against its closed form *)
Lemma foldl_zsum {A} (f : A -> Z) l s : foldl (fun s r => s + f r) s l = s + zsum (f <$> l).
Proof. revert s. induction l as [|x l IH]; intros s; csimpl; [lia|]. rewrite IH. lia. Qed.
Lemma spent_of_sum rows : spent_of rows = zsum (spent_by <$> rows).
Proof. apply (foldl_zsum spent_by rows 0). Qed.
Lemma balance_of_sum rows : balance_of rows = zsum (row_points <$> rows).
Proof. apply (foldl_zsum row_points rows 0). Qed.

(** Points earned that have reached their lapse date. *)
Definition lapsing (now : Z) (rows : list LedgerRow) : Z :=
  zsum (row_points <$> List.filter (fun r => bool_decide (row_type r = earn) && isSome (row_expiresAt r) && (expiry r <=? now)) rows).

Lemma lapse_loop_after now lots s due next :
  Forall (fun r => now < expiry r) lots -> fst (lapse_loop now lots s due next) = due.
Proof.
  intros Hl. revert s next. induction Hl as [|r lots Hr Hl IH]; intros s next; simpl; [done|].
  destruct (_ <=? 0); [auto|]. destruct (Z.leb_spec (expiry r) now); [lia|]. destruct next as [[p on]|]; [|auto].
  destruct (_ =? _); auto.
Qed.

Lemma lapse_loop_closed now lots s due next :
  StronglySorted (fun a b => expiry a <= expiry b) lots -> Forall (fun r => 0 <= row_points r) lots -> 0 <= s ->
  fst (lapse_loop now lots s due next) =
  due + Z.max 0 (zsum (row_points <$> List.filter (fun r => expiry r <=? now) lots) - s).
Proof.
  intros Hs Hp. revert s due next. induction Hs as [|r lots Hs IH Hr]; intros s due next Hs0; [simpl; lia|].
  apply Forall_cons in Hp as [Hr0 Hp]. csimpl. destruct (Z.leb_spec (expiry r) now) as [Hle|Hgt].
  - assert (0 <= zsum (row_points <$> List.filter (fun r => expiry r <=? now) lots)).
    { apply zsum_nonneg. rewrite Forall_fmap. by apply Forall_filterb. }
    csimpl. destruct (Z.leb_spec (row_points r - Z.min (row_points r) s) 0); rewrite IH by (done || lia); lia.
  - assert (Forall (fun r => now < expiry r) lots) as Hall.
    { eapply Forall_impl; [exact Hr|]. simpl. lia. }
    rewrite (filterb_nil (fun r => expiry r <=? now)).
    2:{ intros x Hx. rewrite Forall_forall in Hall. specialize (Hall x Hx). apply Z.leb_gt. lia. }
    change (zsum (row_points <$> [])) with 0. rewrite Z.max_l by lia.
    destruct (_ <=? 0); [rewrite lapse_loop_after by done; lia|].
    destruct next as [[p on]|]; [destruct (_ =? _)|]; rewrite lapse_loop_after by done; lia.
Qed.

Lemma filter_filter {A} (f g : A -> bool) l : List.filter f (List.filter g l) = List.filter (fun x => g x && f x) l.
Proof. induction l as [|x l IH]; simpl; [done|]. destruct (g x); simpl; [destruct (f x); by rewrite IH | done]. Qed.

Definition earns_nonneg (rows : list LedgerRow) : Prop := Forall (fun r => row_type r = earn -> 0 <= row_points r) rows.

Lemma lapsedPoints_closed rows now : earns_nonneg rows ->
  fst (lapsedPoints rows now) =
  Z.max 0 (Z.min (Z.max 0 (lapsing now rows - Z.max 0 (spent_of rows))) (balance_of rows)).
Proof.
  intros Hp. unfold lapsedPoints.
  destruct (lapse_loop _ _ _ _ _) as [due next] eqn:E. simpl. apply (f_equal fst) in E. simpl in E. subst due.
  rewrite lapse_loop_closed; [|apply sort_by_sorted| |lia].
  - rewrite Z.add_0_l. do 3 f_equal. unfold lots_of, lapsing.
    rewrite (filterb_perm _ _ _ (sort_by_perm expiry _)), filter_filter. done.
  - unfold lots_of. rewrite sort_by_perm. apply Forall_forall. intros x [Hx He]%elem_of_filterb.
    unfold earns_nonneg in Hp. rewrite Forall_forall in Hp. apply Hp; [done|]. by boolp; destruct He.
Qed.

Definition expire_row (due : Z) : LedgerRow := {| row_type := expire; row_points := - due; row_expiresAt := None |}.

(** the expiry sweep takes exactly what has lapsed unspent and is safe to
    repeat: what it finds due is the points past their lapse date that spending
    has not used up, never more than the balance, and once the [expire] row is
    written a second sweep at the same moment finds nothing. *)
Theorem expiry_sweep rows at_ due :
  earns_nonneg rows -> 0 <= spent_of rows -> fst (lapsedPoints rows at_) = due ->
  due = Z.max 0 (Z.min (lapsing at_ rows - spent_of rows) (balance_of rows)) /\
  fst (lapsedPoints (rows ++ [expire_row due]) at_) = 0.
Proof.
  intros Hp Hs Hd. rewrite lapsedPoints_closed in Hd by done. split; [lia|].
  rewrite lapsedPoints_closed by (apply Forall_app; split; [done | by repeat constructor]).
  rewrite spent_of_sum, balance_of_sum in *. unfold lapsing in *.
  rewrite !fmap_app, !zsum_app, List.filter_app, fmap_app, zsum_app. cbn [expire_row].
  change (zsum (spent_by <$> [expire_row due])) with (- - due - 0 + 0).
  change (zsum (row_points <$> [expire_row due])) with (- due + 0).
  change (zsum (row_points <$> List.filter _ [expire_row due])) with 0. lia.
Qed.

Definition sample_ledger : list LedgerRow :=
  [{| row_type := earn; row_points := 300; row_expiresAt := Some 100 |}; {| row_type := earn; row_points := 200; row_expiresAt := Some 900 |};
   {| row_type := redeem; row_points := -120; row_expiresAt := None |}].
(** 300 lapse at 100, of which 120 were spent: 180 are due at 500. *)
Lemma expiry_sweep_witness :
  fst (lapsedPoints sample_ledger 500) = 180 /\ fst (lapsedPoints (sample_ledger ++ [expire_row 180]) 500) = 0.
Proof.
  split; [reflexivity|]. refine (proj2 (expiry_sweep sample_ledger 500 180 _ _ _)).
  - repeat constructor; simpl; intros; first [lia | discriminate].
  - vm_compute. discriminate.
  - reflexivity.
Defined.

(** *** What points are worth *)
Lemma round_down_bounds x : (0 <= x)%Qc -> (Qc_of_Z (round_down x) <= x /\ x < Qc_of_Z (round_down x) + 1)%Qc.
Proof.
  intros Hx. unfold round_down. rewrite decide_True by done. split; unfold Qcle, Qclt.
  - rewrite this_Z. apply Qround.Qfloor_le.
  - rewrite this_plus, this_Z. pose proof (Qround.Qlt_floor (this x)) as Hf. rewrite inject_Z_plus in Hf. exact Hf.
Qed.

(** points are never worth more at redemption than the programme says, and
    the guest loses less than a cent to rounding: for a point value of four
    decimals, the value of [n] points is at most [n] times it, in whole cents,
    and within a cent of it. *)
Theorem redemption_bounds `{DecimalLib} (n m : Z) :
  0 <= n -> 0 <= m -> n * m < 10 ^ precision ->
  let exact := (decimal m (-4) * Qc_of_Z n)%Qc in
  (redemptionValue n (decimal m (-4)) <= exact)%Qc /\
  (exact < redemptionValue n (decimal m (-4)) + cents 1)%Qc /\
  exists z, redemptionValue n (decimal m (-4)) = cents z /\ 0 <= z.
Proof.
  intros Hn Hm Hb. cbv zeta. unfold redemptionValue, dp2_down. rewrite to_dp_down. unfold dmul.
  rewrite <- (decimal_Z n), decimal_mult. rewrite prec_round_exact by nia.
  change (-4 + 0) with (-4). change (- (2)) with (-2). fold (cents (round_down (decimal (m * n) (-4) * p10 2)%Qc)).
  set (e := decimal (m * n) (-4)). assert (0 <= e)%Qc as He.
  { rewrite <- (decimal_0 (-4)). apply decimal_le. nia. }
  assert (0 <= e * p10 2)%Qc as He2.
  { apply Qcmult_nonneg_nonneg; [done|]. apply Qclt_le_weak, p10_pos. }
  destruct (round_down_bounds _ He2) as [Hlo Hhi]. set (z := round_down _) in *.
  assert (forall a b, (a * p10 2 <= b * p10 2)%Qc -> (a <= b)%Qc) as Hmul.
  { intros a b. apply Qcmult_le_mono_pos_r, p10_pos. }
  assert (forall a b, (a * p10 2 < b * p10 2)%Qc -> (a < b)%Qc) as Hmul'.
  { intros a b. apply Qcmult_lt_mono_pos_r, p10_pos. }
  split_and!.
  - apply Hmul. by rewrite cents_scale.
  - apply Hmul'. rewrite Qcmult_plus_distr_l, !cents_scale. exact Hhi.
  - exists z. split; [done|]. unfold z, round_down. rewrite decide_True by done.
    change 0 with (Qround.Qfloor 0). apply Qround.Qfloor_resp_le. exact He2.
Qed.

Lemma redemption_bounds_witness :
  (@redemptionValue Reference.decimal_js 333 (decimal 1275 (-4)) <= decimal 1275 (-4) * Qc_of_Z 333)%Qc.
Proof. apply (@redemption_bounds Reference.decimal_js 333 1275); [lia | lia | reflexivity]. Defined.
End RulesProps.
