(* ===== verification/Packages.v ===== *)
(** Packages sold with a stay and how they price
    (src/src/modules/rate-resolver/package-pricing.ts). *)
From S2P Require Import Prelude Decimal Dates Json Taxes Transactions Db.
From Stdlib Require Import QArith Qcanon.
Local Open Scope Z_scope.

Inductive PackageBasis := per_night | per_stay | per_person_per_night.
#[global] Instance PackageBasis_eq_dec : EqDecision PackageBasis.
Proof. solve_decision. Defined.

Definition basis_of (s : string) : option PackageBasis :=
  if bool_decide (s = "per_night") then Some per_night
  else if bool_decide (s = "per_stay") then Some per_stay
  else if bool_decide (s = "per_person_per_night") then Some per_person_per_night
  else None.
Definition basis_name (b : PackageBasis) : string :=
  match b with per_night => "per_night" | per_stay => "per_stay" | per_person_per_night => "per_person_per_night" end.

Definition charge_type_names : list (string * ChargeType) :=
  [("room", room); ("fnb", fnb); ("spa", spa); ("laundry", laundry); ("minibar", minibar); ("transport", transport);
   ("tax", tax); ("penalty", penalty); ("correction", correction); ("misc", misc)].
Definition charge_type_of (s : string) : option ChargeType :=
  snd <$> List.find (fun p => bool_decide (fst p = s)) charge_type_names.

(** A package as a stay holds it. [chargeType] is a value of the enum, or a
    text the database refuses ([None]). *)
Record PackageSnapshot := {
  packageId : string;
  pkg_price : string;
  basis : PackageBasis;
  pkg_chargeType : option ChargeType;
  addedOn : option string;
}.

Definition parse_snapshot (entry : json) : option PackageSnapshot :=
  i ← as_string (member "packageId" (Some entry));
  p ← as_string (member "price" (Some entry));
  b ← (s ← as_string (member "basis" (Some entry)); basis_of s);
  Some {| packageId := i; pkg_price := p; basis := b;
          pkg_chargeType := (s ← as_string (member "chargeType" (Some entry)); charge_type_of s);
          addedOn := as_string (member "addedOn" (Some entry)) |}.

Definition parsePackageSnapshots (value : option json) : list PackageSnapshot :=
  match value with Some (JArr l) => omap parse_snapshot l | _ => [] end.

Section Pricing.
Context `{DecimalLib}.

Definition new_decimal (s : string) : res Qc :=
  match dec_parse s with PFinite x => Ok x | _ => Err (Throw InternalServerError INTERNAL) end.

Definition chargePerPosting (pkg : PackageSnapshot) (guests : Z) : res Qc :=
  let? price := new_decimal (pkg_price pkg) in
  Ok (if bool_decide (basis pkg = per_person_per_night) then price ⊗ Qc_of_Z (Z.max 1 guests) else price).

Definition postingsFor (pkg : PackageSnapshot) (nights : Z) : Z :=
  if bool_decide (basis pkg = per_stay) then 1 else Z.max 0 nights.

Definition packageTotal (pkg : PackageSnapshot) (nights guests : Z) : res Qc :=
  let? c := chargePerPosting pkg guests in Ok (c ⊗ Qc_of_Z (postingsFor pkg nights)).
End Pricing.
