(* ===== verification/Folios.v ===== *)
(** Bills: provisioning, room-night accrual, charges and their taxes, payments,
    corrections, transfers, settlement and the figures derived from them
    (src/src/modules/folios/folios.service.ts). *)
From S2P Require Import Prelude Decimal Dates Json StayPolicies Taxes Transactions Db LoyaltyRules Packages.
From Stdlib Require Import QArith Qcanon.
Import NightlyRates StayFees.
Local Open Scope Z_scope.

Definition TRANSFER_REVERSAL_WINDOW_MS : Z := 24 * 60 * 60 * 1000.
Definition BEFORE_ARRIVAL : list ReservationStatus := [confirmed; waitlisted].
Definition status_transition : error := Throw ConflictException INVALID_STATUS_TRANSITION.
Definition shiftRequired : error := Throw ConflictException SHIFT_REQUIRED.
Definition alreadyCorrected : error := conflict.

Record FolioTotals := {
  subTotal : Qc;
  taxTotal_ : Qc;
  totalCost : Qc;
  paymentsTotal : Qc;
  depositsTotal : Qc;
  balanceDue : Qc;
}.

(** [where: { folioId, isVoid: false, deletedAt: null }] *)
Definition standing (f : string) (l : LineItem.t) : bool :=
  bool_decide (LineItem.folioId l = f) && negb (LineItem.isVoid l) && isNone (LineItem.deletedAt l).
Definition standing_payment (f : string) (p : Payment.t) : bool :=
  bool_decide (Payment.folioId p = f) && negb (Payment.isVoid p) && isNone (Payment.deletedAt p).

Section Folios.
Context `{DecimalLib} `{TaxDb} `{Platform} `{Uuid}.

(** ** Shared internals *)
Definition findFolioOrThrow (f : string) : M Folio.t :=
  orThrow (findFirst folios (fun x => bool_decide (Folio.id x = f) && isNone (Folio.deletedAt x))) not_found.

Definition assertFolioOpen (f : Folio.t) : res unit := throw_if (bool_decide (Folio.status f = settled)) conflict.

Definition audit (b : string) (u : option string) (action entityId : string) : M unit :=
  do! auditLog (Some b) u action "folio" entityId in
  if bool_decide (action = "payment.recorded") then paymentRecorded b "payment.received" entityId else ret tt.

(** The loop over the bill's lines, then the one over its payments. *)
Definition line_totals (items : list LineItem.t) : Qc * Qc :=
  foldl (fun '(sub, tx) l =>
           if bool_decide (LineItem.chargeType l = tax) then (sub, tx ⊕ LineItem.amount l)
           else (sub ⊕ LineItem.amount l, tx)) (0%Qc, 0%Qc) items.
Definition payment_totals (ps : list Payment.t) : Qc * Qc :=
  foldl (fun '(paid, dep) p =>
           (paid ⊕ Payment.amount p,
            if bool_decide (Payment.paymentPurpose p = deposit) then dep ⊕ Payment.amount p else dep)) (0%Qc, 0%Qc) ps.

Definition totals_in (d : Db) (f : string) : FolioTotals :=
  let '(sub, tx) := line_totals (List.filter (standing f) (lineItems d)) in
  let '(paid, dep) := payment_totals (List.filter (standing_payment f) (payments d)) in
  let total := sub ⊕ tx in
  {| subTotal := sub; taxTotal_ := tx; totalCost := total; paymentsTotal := paid; depositsTotal := dep;
     balanceDue := total ⊖ paid |}.
Definition computeTotals (f : string) : M FolioTotals := gets (fun d => totals_in d f).

(** [groupBy({ by: ['folioId'], _sum: { amount: true } })]: SQL sums are exact. *)
Definition group_sums (rows : list (string * Qc)) : gmap string Qc :=
  foldr (fun '(k, x) m => <[k := (x + default 0 (m !! k))%Qc]> m) ∅ rows.
Definition fold_balances (op : Qc -> Qc -> Qc) (sums balances : gmap string Qc) : gmap string Qc :=
  foldl (fun b '(k, s) => <[k := op (default 0%Qc (b !! k)) s]> b) balances (map_to_list sums).
Definition balancesFor (ids : list string) : M (gmap string Qc) :=
  let! charges := findMany lineItems (fun l => bool_decide (LineItem.folioId l ∈ ids) && negb (LineItem.isVoid l) && isNone (LineItem.deletedAt l)) in
  let! paid := findMany payments (fun p => bool_decide (Payment.folioId p ∈ ids) && negb (Payment.isVoid p) && isNone (Payment.deletedAt p)) in
  let start : gmap string Qc := list_to_map ((fun i => (i, 0%Qc)) <$> ids) in
  ret (fold_balances dminus (group_sums ((fun p => (Payment.folioId p, Payment.amount p)) <$> paid))
        (fold_balances dplus (group_sums ((fun l => (LineItem.folioId l, LineItem.amount l)) <$> charges)) start)).

(** [tx.lineItem.create]: the columns' width, [CHECK (amount <> 0)] and the
    unique [correctsLineItemId], whose violation the one writer of it reports as
    [alreadyCorrected]. The row's own id and time come from the database. *)
Definition create_lineItem (l : LineItem.t) : M LineItem.t :=
  let! amount := lift (numeric (LineItem.amount l)) in
  let! taxAmount := lift (numeric (LineItem.taxAmount l)) in
  throw! internal when dis_zero amount in
  let! dup := findFirst lineItems (fun x => isSome (LineItem.correctsLineItemId l) &&
                bool_decide (LineItem.correctsLineItemId x = LineItem.correctsLineItemId l)) in
  throw! alreadyCorrected when isSome dup in
  let! i := new_id in
  let! at_ := now in
  let row := {|
    LineItem.id := i; LineItem.folioId := LineItem.folioId l; LineItem.amount := amount; LineItem.taxAmount := taxAmount;
    LineItem.chargeType := LineItem.chargeType l; LineItem.outletId := LineItem.outletId l;
    LineItem.taxRuleIds := LineItem.taxRuleIds l; LineItem.serviceDate := LineItem.serviceDate l;
    LineItem.postedBy := LineItem.postedBy l; LineItem.postedAt := at_; LineItem.isVoid := LineItem.isVoid l;
    LineItem.deletedAt := LineItem.deletedAt l; LineItem.parentLineItemId := LineItem.parentLineItemId l;
    LineItem.correctsLineItemId := LineItem.correctsLineItemId l; LineItem.stayReservationId := LineItem.stayReservationId l;
    LineItem.roomTypeId := LineItem.roomTypeId l; LineItem.packageId := LineItem.packageId l; LineItem.dayUse := LineItem.dayUse l |} in
  do! modify (upd_lineItems (fun t => t ++ [row])) in
  ret row.

Record ChargeInput := {
  in_branchId : string;
  in_folioId : string;
  in_amount : Qc;
  in_chargeType : ChargeType;
  in_serviceDate : Z;
  in_outletId : option string;
  in_stayReservationId : option string;
  in_roomTypeId : option string;
  in_packageId : option string;
  in_dayUse : bool;
  in_actorId : option string;
}.

Definition charge_line (i : ChargeInput) (p : PricedCharge) : LineItem.t := {|
  LineItem.id := ""; LineItem.folioId := in_folioId i; LineItem.amount := net p; LineItem.taxAmount := taxTotal p;
  LineItem.chargeType := in_chargeType i; LineItem.outletId := in_outletId i; LineItem.taxRuleIds := [];
  LineItem.serviceDate := Some (in_serviceDate i); LineItem.postedBy := in_actorId i; LineItem.postedAt := 0;
  LineItem.isVoid := false; LineItem.deletedAt := None; LineItem.parentLineItemId := None; LineItem.correctsLineItemId := None;
  LineItem.stayReservationId := in_stayReservationId i; LineItem.roomTypeId := in_roomTypeId i;
  LineItem.packageId := in_packageId i; LineItem.dayUse := in_dayUse i |}.
Definition tax_line (i : ChargeInput) (parent : string) (t : ComputedTax) : LineItem.t := {|
  LineItem.id := ""; LineItem.folioId := in_folioId i; LineItem.amount := taxAmount t; LineItem.taxAmount := 0%Qc;
  LineItem.chargeType := tax; LineItem.outletId := in_outletId i; LineItem.taxRuleIds := [Taxes.id (tax_rule t)];
  LineItem.serviceDate := Some (in_serviceDate i); LineItem.postedBy := in_actorId i; LineItem.postedAt := 0;
  LineItem.isVoid := false; LineItem.deletedAt := None; LineItem.parentLineItemId := Some parent;
  LineItem.correctsLineItemId := None; LineItem.stayReservationId := None; LineItem.roomTypeId := None;
  LineItem.packageId := None; LineItem.dayUse := false |}.

Definition writeChargeWithTaxes (i : ChargeInput) : M (option LineItem.t) :=
  if dis_zero (in_amount i) then ret None
  else
    throw! internal when dgt 0%Qc (in_amount i) in
    let! rules := gets taxRules in
    let! priced := lift (priceCharge rules (in_branchId i) (in_chargeType i) (in_amount i) 1) in
    let! parent := create_lineItem (charge_line i priced) in
    do! for_each (taxes priced) tt (fun _ t => let! _ := create_lineItem (tax_line i (LineItem.id parent) t) in ret tt) in
    do! audit (in_branchId i) (in_actorId i) "line_item.posted" (LineItem.id parent) in
    ret (Some parent).

(** ** Provisioning and room-night accrual *)
Definition ensurePrimaryFolio (r : Reservation.t) (actorId : option string) : M Folio.t :=
  let arrived := negb (bool_decide (Reservation.status r ∈ BEFORE_ARRIVAL)) in
  let! existing := findFirst folios (fun f => bool_decide (Folio.reservationId f = Reservation.id r) && isNone (Folio.label f) && isNone (Folio.deletedAt f)) in
  let! at_ := now in
  match existing with
  | Some f =>
      if negb (bool_decide (Folio.status f = pending)) || negb arrived then ret f
      else
        do! modify (upd_folios (update_where (fun x => bool_decide (Folio.id x = Folio.id f)) (Folio.with_opened open (Some at_)))) in
        ret (Folio.with_opened open (Some at_) f)
  | None =>
      let! i := new_id in
      let folio := {| Folio.id := i; Folio.branchId := Reservation.branchId r; Folio.reservationId := Reservation.id r;
                      Folio.guestId := Reservation.guestId r; Folio.label := None; Folio.status := if arrived then open else pending;
                      Folio.payerName := None; Folio.corporateAccountId := None;
                      Folio.openedAt := if arrived then Some at_ else None; Folio.closedAt := None; Folio.deletedAt := None |} in
      do! modify (upd_folios (fun t => t ++ [folio])) in
      do! audit (Reservation.branchId r) actorId "folio.opened" i in
      ret folio
  end.

Definition routedFolio (r : Reservation.t) (folio : Folio.t) : M Folio.t :=
  match Reservation.billToFolioId r with
  | None => ret folio
  | Some b =>
      if bool_decide (b = Folio.id folio) then ret folio
      else
        let! routed := findFirst folios (fun f => bool_decide (Folio.id f = b) && isNone (Folio.deletedAt f)) in
        ret (match routed with
             | Some x => if negb (bool_decide (Folio.status x = settled)) && bool_decide (Folio.branchId x = Reservation.branchId r)
                         then x else folio
             | None => folio
             end)
  end.

Definition is_day_use_of (s : string) (l : LineItem.t) : bool :=
  bool_decide (LineItem.stayReservationId l = Some s) && LineItem.dayUse l && negb (LineItem.isVoid l) && isNone (LineItem.deletedAt l).
Definition dayUseCharged (s : string) : M bool :=
  gets (fun d => Nat.ltb 0 (length (List.filter (is_day_use_of s) (lineItems d)))).

Definition postDayUseCharge (r : Reservation.t) (folio : Folio.t) (actorId : option string) : M (option LineItem.t) :=
  let! billTo := routedFolio r folio in
  let amount := default (Reservation.confirmedRate r) (Reservation.overrideRate r) in
  if negb (dgt amount 0%Qc) then ret None
  else writeChargeWithTaxes {|
    in_branchId := Reservation.branchId r; in_folioId := Folio.id billTo; in_amount := amount; in_chargeType := room;
    in_serviceDate := Reservation.checkInDate r; in_outletId := None; in_stayReservationId := Some (Reservation.id r);
    in_roomTypeId := Some (Reservation.roomTypeId r); in_packageId := None; in_dayUse := true; in_actorId := actorId |}.

(** A night already billed: a room line of the stay for the date, on whichever
    bill it sits now, or one posted by hand on this bill. *)
Definition billed_night (s f : string) (date : Z) (l : LineItem.t) : bool :=
  bool_decide (LineItem.chargeType l = room) && bool_decide (LineItem.serviceDate l = Some date) && negb (LineItem.dayUse l) &&
  negb (LineItem.isVoid l) && isNone (LineItem.deletedAt l) &&
  (bool_decide (LineItem.stayReservationId l = Some s) ||
   (isNone (LineItem.stayReservationId l) && bool_decide (LineItem.folioId l = f))).

Definition night_rate (r : Reservation.t) (serviceDate : Z) : M Qc :=
  let nights := stay_nights (Reservation.checkInDate r) (Reservation.checkOutDate r) in
  if Reservation.isDayUse r then
    let! rt := findFirst roomTypes (fun t => bool_decide (RoomType.id t = Reservation.roomTypeId r)) in
    ret (match rt with Some t => RoomType.baseRate t | None => Reservation.confirmedRate r end)
  else match Reservation.overrideRate r with
       | Some o => ret o
       | None =>
           let! own := lift (nightlyRateFor (Reservation.nightlyRates r) serviceDate) in
           ret (match own with Some x => x | None => dp2 (Reservation.confirmedRate r ⊘ Qc_of_Z nights) end)
       end.

Definition postRoomNight (r : Reservation.t) (folio : Folio.t) (serviceDate : Z) (actorId : option string) : M (option LineItem.t) :=
  let! already := findFirst lineItems (billed_night (Reservation.id r) (Folio.id folio) serviceDate) in
  match already with
  | Some _ => ret None
  | None =>
      let! billTo := routedFolio r folio in
      let! perNight := night_rate r serviceDate in
      if dge 0%Qc perNight then ret None
      else writeChargeWithTaxes {|
        in_branchId := Reservation.branchId r; in_folioId := Folio.id billTo; in_amount := perNight; in_chargeType := room;
        in_serviceDate := serviceDate; in_outletId := None; in_stayReservationId := Some (Reservation.id r);
        in_roomTypeId := Some (Reservation.roomTypeId r); in_packageId := None; in_dayUse := false; in_actorId := actorId |}
  end.

(** A charge of the package already made for the stay (on the date, unless it is
    charged once for the stay); a reversal is not one. *)
Definition billed_package (s : string) (pkg : PackageSnapshot) (date : Z) (l : LineItem.t) : bool :=
  bool_decide (LineItem.stayReservationId l = Some s) && bool_decide (LineItem.packageId l = Some (packageId pkg)) &&
  (bool_decide (basis pkg = per_stay) || bool_decide (LineItem.serviceDate l = Some date)) &&
  isNone (LineItem.correctsLineItemId l) && negb (LineItem.isVoid l) && isNone (LineItem.deletedAt l).

(** [pkg.addedOn && serviceDate < toBranchDate(pkg.addedOn)] *)
Definition before_added (pkg : PackageSnapshot) (date : Z) : bool :=
  match addedOn pkg with
  | Some s => negb (bool_decide (s = "")) && match toBranchDate s with Some a => date <? a | None => false end
  | None => false
  end.

Definition package_due (r : Reservation.t) (pkg : PackageSnapshot) (date : Z) : bool :=
  let arrival := date =? Reservation.checkInDate r in
  let aNight := if Reservation.isDayUse r then arrival else (Reservation.checkInDate r <=? date) && (date <? Reservation.checkOutDate r) in
  let aDay := (Reservation.checkInDate r <=? date) && (date <=? Reservation.checkOutDate r) in
  if bool_decide (basis pkg = per_stay) then aDay else aNight.

(** One package of the loop; [billTo] is found at the first posting. *)
Definition postPackage (r : Reservation.t) (folio : Folio.t) (date : Z) (actorId : option string)
    (billTo : option Folio.t) (pkg : PackageSnapshot) : M (option Folio.t) :=
  if before_added pkg date then ret billTo
  else if negb (package_due r pkg date) then ret billTo
  else
    let! already := findFirst lineItems (billed_package (Reservation.id r) pkg date) in
    match already with
    | Some _ => ret billTo
    | None =>
        let! b := match billTo with Some b => ret b | None => routedFolio r folio end in
        let! amount := lift (chargePerPosting pkg (Reservation.adults r + Reservation.children r)) in
        let! _ := match pkg_chargeType pkg with
                  | None => if dis_zero amount then ret None else raise internal
                  | Some ct => writeChargeWithTaxes {|
                      in_branchId := Reservation.branchId r; in_folioId := Folio.id b; in_amount := amount; in_chargeType := ct;
                      in_serviceDate := date; in_outletId := None; in_stayReservationId := Some (Reservation.id r);
                      in_roomTypeId := None; in_packageId := Some (packageId pkg); in_dayUse := false; in_actorId := actorId |}
                  end in
        ret (Some b)
    end.
Definition postPackageCharges (r : Reservation.t) (folio : Folio.t) (date : Z) (actorId : option string) : M unit :=
  do! for_each (parsePackageSnapshots (Reservation.packages r)) None (postPackage r folio date actorId) in
  ret tt.

Definition postPackagesForDate := postPackageCharges.

Definition postRoomChargeForDate (r : Reservation.t) (folio : Folio.t) (date : Z) (actorId : option string) : M (option LineItem.t) :=
  let! charged := (if Reservation.isDayUse r then dayUseCharged (Reservation.id r) else ret true) in
  let! night := (if Reservation.isDayUse r && negb charged then postDayUseCharge r folio actorId
                 else postRoomNight r folio date actorId) in
  do! postPackageCharges r folio date actorId in
  ret night.

Definition backfillRoomCharges (r : Reservation.t) (folio : Folio.t) (today : Z) (actorId : option string) : M Z :=
  let lastBillable := if today <? Reservation.checkOutDate r then today else Reservation.checkOutDate r in
  for_each (nights_between (Reservation.checkInDate r) lastBillable) 0 (fun posted night =>
    let! result := postRoomChargeForDate r folio night actorId in
    ret (if isSome result then posted + 1 else posted)).

(** ** Charges, payments, corrections *)
Definition plain_charge (branch folio : string) (amount : Qc) (ct : ChargeType) (date : Z) (outlet actorId : option string) : ChargeInput := {|
  in_branchId := branch; in_folioId := folio; in_amount := amount; in_chargeType := ct; in_serviceDate := date;
  in_outletId := outlet; in_stayReservationId := None; in_roomTypeId := None; in_packageId := None; in_dayUse := false;
  in_actorId := actorId |}.

Definition postAdHocCharge (r : Reservation.t) (folio : Folio.t) (ct : ChargeType) (amount : Qc) (actorId : option string) : M (option LineItem.t) :=
  writeChargeWithTaxes (plain_charge (Reservation.branchId r) (Folio.id folio) amount ct (Reservation.checkInDate r) None actorId).

Definition postOutletCharge (folio : Folio.t) (outletId : string) (ct : ChargeType) (amount : Qc) (date : Z) (actorId : string) : M (option LineItem.t) :=
  writeChargeWithTaxes (plain_charge (Folio.branchId folio) (Folio.id folio) amount ct date (Some outletId) (Some actorId)).

Definition previewCharge (b : string) (ct : ChargeType) (price : Qc) : M PricedCharge :=
  let! rules := gets taxRules in lift (priceCharge rules b ct price 1).

Definition postChargeInTx (folio : Folio.t) (amount : Qc) (ct : ChargeType) (date : Z) (actorId : option string) : M (option LineItem.t) :=
  do! lift (assertFolioOpen folio) in
  writeChargeWithTaxes (plain_charge (Folio.branchId folio) (Folio.id folio) amount ct date None actorId).

Definition postCharge (folioId : string) (amount : Qc) (ct : ChargeType) (date : option string) (actorId : string) : M LineItem.t :=
  let! folio := findFolioOrThrow folioId in
  do! lift (assertFolioOpen folio) in
  let! branch := assertBranch (Folio.branchId folio) in
  let! at_ := now in
  let! serviceDate := lift (or_throw (toBranchDate (default (todayInTimezone (Branch.timezone branch) at_) date)) internal) in
  let! item := writeChargeWithTaxes (plain_charge (Folio.branchId folio) folioId amount ct serviceDate None (Some actorId)) in
  lift (or_throw item invalid).

Definition primary_of (s : string) (f : Folio.t) : bool :=
  bool_decide (Folio.reservationId f = s) && isNone (Folio.label f) && isNone (Folio.deletedAt f).
Definition primaryFolioBalances (ids : list string) : M (gmap string (string * Qc)) :=
  gets (fun d => foldl (fun m f => <[Folio.reservationId f := (Folio.id f, balanceDue (totals_in d (Folio.id f)))]> m) ∅
    (List.filter (fun f => bool_decide (Folio.reservationId f ∈ ids) && isNone (Folio.label f) && isNone (Folio.deletedAt f)) (folios d))).
Definition paidOnPrimaryFolio (s : string) : M Qc :=
  let! folio := findFirst folios (primary_of s) in
  match folio with
  | None => ret 0%Qc
  | Some f => let! t := computeTotals (Folio.id f) in ret (paymentsTotal t)
  end.

Definition create_payment (p : string -> Payment.t) : M Payment.t :=
  let! i := new_id in
  let row := p i in
  do! modify (upd_payments (fun t => t ++ [row])) in
  ret row.

Definition open_shift_of (b agent : string) (s : Shift.t) : bool :=
  bool_decide (Shift.branchId s = b) && bool_decide (Shift.agentId s = agent) && isNone (Shift.closedAt s).

Record PaymentDto := { dto_amount : Qc; dto_method : PaymentMethod; dto_reference : option string; dto_currency : option string }.

(** The branch's own amount, and what was handed over when it was paid in
    another currency. *)
Definition in_branch_currency (branch : Branch.t) (dto : PaymentDto) : M (Qc * option (string * Qc * Qc)) :=
  match js_upper <$> dto_currency dto with
  | None => ret (dto_amount dto, None)
  | Some c =>
      if bool_decide (c = "") || bool_decide (c = Branch.currency branch) then ret (dto_amount dto, None)
      else
        let! rate := orThrow (findFirst exchangeRates (fun x => bool_decide (ExchangeRate.branchId x = Branch.id branch) && bool_decide (ExchangeRate.currency x = c))) invalid in
        let amount := dp2 (dto_amount dto ⊗ ExchangeRate.rate rate) in
        throw! invalid when negb (dgt amount 0%Qc) in
        ret (amount, Some (c, dto_amount dto, ExchangeRate.rate rate))
  end.

Definition recordPaymentInTx (folio : Folio.t) (dto : PaymentDto) (purpose : PaymentPurpose) (actorId : string) : M Payment.t :=
  throw! invalid when bool_decide (dto_method dto = loyalty_points) in
  do! lift (assertFolioOpen folio) in
  let! branch := assertBranch (Folio.branchId folio) in
  let! ' (amount, foreign) := in_branch_currency branch dto in
  let! openShift := (if bool_decide (dto_method dto = cash) then findFirst shifts (open_shift_of (Folio.branchId folio) actorId) else ret None) in
  throw! shiftRequired when (bool_decide (dto_method dto = cash) && isNone openShift) in
  let! stored := lift (numeric amount) in
  let! foreignAmount := match foreign with
                        | Some (_, a, _) => let! x := lift (numeric_col (10 ^ 14) a) in ret (Some x)
                        | None => ret None
                        end in
  let! p := create_payment (fun i => {|
    Payment.id := i; Payment.folioId := Folio.id folio; Payment.method := dto_method dto; Payment.amount := stored;
    Payment.currency := Branch.currency branch; Payment.foreignCurrency := (fun x => fst (fst x)) <$> foreign;
    Payment.foreignAmount := foreignAmount; Payment.exchangeRate := snd <$> foreign; Payment.reference := dto_reference dto;
    Payment.shiftId := Shift.id <$> openShift; Payment.paymentPurpose := purpose; Payment.isVoid := false;
    Payment.voidedAt := None; Payment.voidedBy := None; Payment.voidReason := None; Payment.recordedBy := Some actorId;
    Payment.deletedAt := None |}) in
  do! audit (Folio.branchId folio) (Some actorId) "payment.recorded" (Payment.id p) in
  ret p.

Definition recordPayment (folioId : string) (dto : PaymentDto) (purpose : option PaymentPurpose) (actorId : string) : M Payment.t :=
  let! folio := findFolioOrThrow folioId in
  recordPaymentInTx folio dto (default payment purpose) actorId.

Definition findReservation (s : string) : M Reservation.t :=
  orThrow (findFirst reservations (fun r => bool_decide (Reservation.id r = s) && isNone (Reservation.deletedAt r))) not_found.

Definition recordDeposit (reservationId : string) (dto : PaymentDto) (actorId : string) : M Payment.t :=
  let! r := findReservation reservationId in
  throw! status_transition when negb (bool_decide (Reservation.status r ∈ BEFORE_ARRIVAL)) in
  let! folio := ensurePrimaryFolio r (Some actorId) in
  recordPaymentInTx folio dto deposit actorId.

Definition voidPayment (paymentId reason actorId : string) : M Payment.t :=
  let! p := orThrow (findFirst payments (fun x => bool_decide (Payment.id x = paymentId) && isNone (Payment.deletedAt x))) not_found in
  let! payout := findFirst refunds (fun x => bool_decide (Refund.refundPaymentId x = Some paymentId)) in
  let! points := findFirst loyaltyTransactions (fun x => bool_decide (LoyaltyTransaction.paymentId x = Some paymentId)) in
  throw! conflict when Payment.isVoid p in
  throw! conflict when (isSome payout || negb (dgt (Payment.amount p) 0%Qc)) in
  let! folio := findFolioOrThrow (Payment.folioId p) in
  throw! conflict when bool_decide (Folio.status folio = settled) in
  let! asked := findMany refunds (fun x => bool_decide (Refund.paymentId x = Some paymentId) &&
                  bool_decide (Refund.status x ∈ [refund_pending; refund_approved; refund_processed])) in
  throw! conflict when (Nat.ltb 0 (length asked)) in
  do! match Payment.shiftId p with
      | None => ret tt
      | Some s =>
          let! shift := findFirst shifts (fun x => bool_decide (Shift.id x = s)) in
          lift (throw_if (match shift with Some x => isSome (Shift.closedAt x) | None => false end) conflict)
      end in
  let! at_ := now in
  let voided := Payment.with_void true (Some at_) (Some actorId) (Some (js_trim reason)) in
  do! modify (upd_payments (update_where (fun x => bool_decide (Payment.id x = paymentId)) voided)) in
  do! match points with
      | Some t =>
          if bool_decide (Payment.method p = loyalty_points) then
            let! guest := lockLoyaltyGuest (LoyaltyTransaction.guestId t) in
            let! _ := applyLoyaltyPoints guest {|
              entry_type := reversal; entry_points := - LoyaltyTransaction.points t; entry_branchId := Some (Folio.branchId folio);
              entry_earnReservationId := None; entry_paymentId := None; entry_expiresAt := None; entry_actorId := Some actorId |} in
            ret tt
          else ret tt
      | None => ret tt
      end in
  do! audit (Folio.branchId folio) (Some actorId) "payment.voided" paymentId in
  ret (voided p).

Definition recordLoyaltyPaymentInTx (folioId : string) (amount : Qc) (reference : string) (actorId : string) : M Payment.t :=
  let! folio := findFolioOrThrow folioId in
  do! lift (assertFolioOpen folio) in
  let! totals := computeTotals folioId in
  throw! conflict when dgt amount (balanceDue totals) in
  let! branch := assertBranch (Folio.branchId folio) in
  let! stored := lift (numeric amount) in
  let! p := create_payment (fun i => {|
    Payment.id := i; Payment.folioId := folioId; Payment.method := loyalty_points; Payment.amount := stored;
    Payment.currency := Branch.currency branch; Payment.foreignCurrency := None; Payment.foreignAmount := None;
    Payment.exchangeRate := None; Payment.reference := Some reference; Payment.shiftId := None;
    Payment.paymentPurpose := payment; Payment.isVoid := false; Payment.voidedAt := None; Payment.voidedBy := None;
    Payment.voidReason := None; Payment.recordedBy := Some actorId; Payment.deletedAt := None |}) in
  do! audit (Folio.branchId folio) (Some actorId) "payment.recorded" (Payment.id p) in
  ret p.

(** *** Corrections *)
Definition corrected_by (d : Db) (i : string) : option LineItem.t :=
  List.find (fun x => bool_decide (LineItem.correctsLineItemId x = Some i)) (lineItems d).

(** The tax lines of a charge still standing on its bill. *)
Definition standing_tax_of (o : LineItem.t) (l : LineItem.t) : bool :=
  bool_decide (LineItem.parentLineItemId l = Some (LineItem.id o)) && bool_decide (LineItem.folioId l = LineItem.folioId o) &&
  bool_decide (LineItem.chargeType l = tax) && negb (LineItem.isVoid l) && isNone (LineItem.deletedAt l).
Definition taxes_to_reverse (d : Db) (o : LineItem.t) : list LineItem.t :=
  if bool_decide (LineItem.chargeType o = tax) then []
  else List.filter (fun t => isNone (corrected_by d (LineItem.id t))) (List.filter (standing_tax_of o) (lineItems d)).

Definition correction_line (o : LineItem.t) (taxTotal : Qc) (actorId : option string) : LineItem.t :=
  let isTaxLine := bool_decide (LineItem.chargeType o = tax) in {|
  LineItem.id := ""; LineItem.folioId := LineItem.folioId o; LineItem.amount := (- LineItem.amount o)%Qc;
  LineItem.taxAmount := (- taxTotal)%Qc; LineItem.chargeType := if isTaxLine then tax else correction;
  LineItem.outletId := LineItem.outletId o; LineItem.taxRuleIds := if isTaxLine then LineItem.taxRuleIds o else [];
  LineItem.serviceDate := LineItem.serviceDate o; LineItem.postedBy := actorId; LineItem.postedAt := 0;
  LineItem.isVoid := false; LineItem.deletedAt := None; LineItem.parentLineItemId := None;
  LineItem.correctsLineItemId := Some (LineItem.id o); LineItem.stayReservationId := None; LineItem.roomTypeId := None;
  LineItem.packageId := None; LineItem.dayUse := false |}.
Definition tax_reversal_line (correctionId : string) (t : LineItem.t) (actorId : option string) : LineItem.t := {|
  LineItem.id := ""; LineItem.folioId := LineItem.folioId t; LineItem.amount := (- LineItem.amount t)%Qc; LineItem.taxAmount := 0%Qc;
  LineItem.chargeType := tax; LineItem.outletId := LineItem.outletId t; LineItem.taxRuleIds := LineItem.taxRuleIds t;
  LineItem.serviceDate := LineItem.serviceDate t; LineItem.postedBy := actorId; LineItem.postedAt := 0;
  LineItem.isVoid := false; LineItem.deletedAt := None; LineItem.parentLineItemId := Some correctionId;
  LineItem.correctsLineItemId := Some (LineItem.id t); LineItem.stayReservationId := None; LineItem.roomTypeId := None;
  LineItem.packageId := None; LineItem.dayUse := false |}.

Definition reverseLineItem (o : LineItem.t) (folio : Folio.t) (actorId : option string) : M LineItem.t :=
  let! already := gets (fun d => corrected_by d (LineItem.id o)) in
  throw! alreadyCorrected when isSome already in
  let! reversing := gets (fun d => taxes_to_reverse d o) in
  let! c := create_lineItem (correction_line o (dsum (LineItem.amount <$> reversing)) actorId) in
  do! for_each reversing tt (fun _ t => let! _ := create_lineItem (tax_reversal_line (LineItem.id c) t actorId) in ret tt) in
  do! audit (Folio.branchId folio) actorId "line_item.corrected" (LineItem.id c) in
  ret c.

Definition find_line (lineItemId : string) : M (option LineItem.t) :=
  findFirst lineItems (fun l => bool_decide (LineItem.id l = lineItemId) && isNone (LineItem.deletedAt l)).

Definition correctLineItemInTx (lineItemId reason actorId : string) : M LineItem.t :=
  let! o := orThrow (find_line lineItemId) not_found in
  let! folio := findFolioOrThrow (LineItem.folioId o) in
  do! lift (assertFolioOpen folio) in
  let! c := reverseLineItem o folio (Some actorId) in
  let! at_ := now in
  do! modify (upd_posOrders (update_where
        (fun x => bool_decide (PosOrder.lineItemId x = Some (LineItem.id o)) && isNone (PosOrder.voidedAt x))
        (PosOrder.with_void (Some at_) (Some actorId) (Some (String.substring 0 500 ("Taken off the guest's bill: " +:+ reason)))))) in
  ret c.
Definition correctLineItem := correctLineItemInTx.

Definition reverseChargeInTx (lineItemId : string) (actorId : option string) : M (option LineItem.t) :=
  let! o := findFirst lineItems (fun l => bool_decide (LineItem.id l = lineItemId) && isNone (LineItem.deletedAt l) && negb (LineItem.isVoid l)) in
  match o with
  | None => ret None
  | Some o =>
      let! reversed := gets (fun d => corrected_by d (LineItem.id o)) in
      if isSome reversed then ret None
      else
        let! folio := findFolioOrThrow (LineItem.folioId o) in
        let! c := reverseLineItem o folio actorId in
        ret (Some c)
  end.

(** ** Additional folios, transfers *)
Record AdditionalFolio := { add_label : string; add_payerName : option string; add_corporateAccountId : option string }.

(** [s?.trim() || null] *)
Definition trimmed (s : option string) : option string :=
  t ← js_trim <$> s; if bool_decide (t = "") then None else Some t.
(** an id given and not empty *)
Definition given (s : option string) : bool := match s with Some x => negb (bool_decide (x = "")) | None => false end.

Definition createAdditionalFolio (reservationId : string) (input : AdditionalFolio) (actorId : string) : M Folio.t :=
  let! r := findReservation reservationId in
  let! account := findFirst corporateAccounts (fun a => bool_decide (Some (CorporateAccount.id a) = add_corporateAccountId input) && CorporateAccount.isActive a) in
  throw! invalid when (given (add_corporateAccountId input) && isNone account) in
  let! i := new_id in
  let! at_ := now in
  let folio := {| Folio.id := i; Folio.branchId := Reservation.branchId r; Folio.reservationId := reservationId;
                  Folio.guestId := Reservation.guestId r; Folio.label := Some (js_trim (add_label input)); Folio.status := open;
                  Folio.payerName := trimmed (add_payerName input); Folio.corporateAccountId := add_corporateAccountId input;
                  Folio.openedAt := Some at_; Folio.closedAt := None; Folio.deletedAt := None |} in
  do! modify (upd_folios (fun t => t ++ [folio])) in
  do! audit (Reservation.branchId r) (Some actorId) "folio.opened" i in
  ret folio.

(** [withDependents]: breadth first along [parentLineItemId] and
    [correctsLineItemId], on one bill. Each round but the last adds a line of the
    bill, so [length lines] rounds and one more are enough. *)
Definition hangs_off (frontier : list string) (l : LineItem.t) : bool :=
  match LineItem.parentLineItemId l with Some p => bool_decide (p ∈ frontier) | None => false end ||
  match LineItem.correctsLineItemId l with Some c => bool_decide (c ∈ frontier) | None => false end.

(** The inner [for] over what was found: [result], [seen] (the ids in [result]), new frontier. *)
Definition take_new (found : list LineItem.t) (result : list LineItem.t) : list LineItem.t * list string :=
  foldl (fun '(res, fr) l => if bool_decide (LineItem.id l ∈ LineItem.id <$> res) then (res, fr)
                              else (res ++ [l], fr ++ [LineItem.id l])) (result, []) found.
Fixpoint dependents_loop (fuel : nat) (lines : list LineItem.t) (f : string) (result : list LineItem.t) (frontier : list string) : list LineItem.t :=
  match fuel with
  | O => result
  | S fuel =>
      match frontier with
      | [] => result
      | _ =>
          let found := List.filter (fun l => standing f l && hangs_off frontier l) lines in
          let '(result', frontier') := take_new found result in
          dependents_loop fuel lines f result' frontier'
      end
  end.
Definition withDependents (f : string) (items : list LineItem.t) : M (list LineItem.t) :=
  gets (fun d => dependents_loop (S (length (lineItems d))) (lineItems d) f items (LineItem.id <$> items)).

Definition anchorOf (l : LineItem.t) : option string :=
  match LineItem.parentLineItemId l with
  | Some p => if bool_decide (LineItem.chargeType l = tax) then Some p else LineItem.correctsLineItemId l
  | None => LineItem.correctsLineItemId l
  end.

Inductive MoveKind := split | transfer.
#[global] Instance MoveKind_eq_dec : EqDecision MoveKind.
Proof. solve_decision. Defined.
Record MoveChargesInput := { mv_targetFolioId : string; mv_lineItemIds : option (list string); mv_transferAll : bool; mv_reason : string }.

(** [updateMany({ where: { id: { in } }, data: { folioId } })] on the lines, and
    on the outlet orders of those lines. *)
Definition move_lines (ids : list string) (to : string) : M unit :=
  do! modify (upd_lineItems (update_where (fun l => bool_decide (LineItem.id l ∈ ids)) (LineItem.with_folioId to))) in
  modify (upd_posOrders (update_where (fun o => match PosOrder.lineItemId o with Some i => bool_decide (i ∈ ids) | None => false end)
                           (PosOrder.with_folioId (Some to)))).

Definition selected_lines (source : string) (dto : MoveChargesInput) (d : Db) : list LineItem.t :=
  if mv_transferAll dto then sort_by LineItem.postedAt (List.filter (standing source) (lineItems d))
  else List.filter (fun l => bool_decide (LineItem.id l ∈ default [] (mv_lineItemIds dto)) && standing source l) (lineItems d).

Definition moveCharges (sourceFolioId : string) (dto : MoveChargesInput) (actorId : string) (kind : MoveKind) : M FolioTransfer.t :=
  throw! invalid when bool_decide (sourceFolioId = mv_targetFolioId dto) in
  let requested := default [] (mv_lineItemIds dto) in
  throw! invalid when (negb (mv_transferAll dto) && bool_decide (length requested = 0%nat)) in
  let! source := findFolioOrThrow sourceFolioId in
  let! target := findFolioOrThrow (mv_targetFolioId dto) in
  do! lift (assertFolioOpen source) in
  do! lift (assertFolioOpen target) in
  throw! invalid when negb (bool_decide (Folio.branchId source = Folio.branchId target)) in
  let sameStay := bool_decide (Folio.reservationId source = Folio.reservationId target) in
  throw! invalid when (bool_decide (kind = split) && negb sameStay) in
  let! selected := gets (selected_lines sourceFolioId dto) in
  throw! invalid when (mv_transferAll dto && bool_decide (length selected = 0%nat)) in
  throw! invalid when (negb (mv_transferAll dto) && negb (bool_decide (length selected = length requested))) in
  let! toMove := withDependents sourceFolioId selected in
  let movedIds := LineItem.id <$> toMove in
  throw! invalid when (existsb (fun l => match anchorOf l with Some a => negb (bool_decide (a ∈ movedIds)) | None => false end) selected) in
  let amount := dsum (LineItem.amount <$> toMove) in
  do! move_lines movedIds (mv_targetFolioId dto) in
  let! stored := lift (numeric amount) in
  let! i := new_id in
  let! at_ := now in
  let row := {| FolioTransfer.id := i; FolioTransfer.sourceFolioId := sourceFolioId; FolioTransfer.targetFolioId := mv_targetFolioId dto;
                FolioTransfer.lineItemIds := movedIds; FolioTransfer.amount := stored; FolioTransfer.reason := mv_reason dto;
                FolioTransfer.approvedBy := Some actorId; FolioTransfer.reversedAt := None; FolioTransfer.reversedBy := None;
                FolioTransfer.createdAt := at_ |} in
  do! modify (upd_folioTransfers (fun t => t ++ [row])) in
  do! audit (Folio.branchId source) (Some actorId) (match kind with split => "folio.split" | transfer => "folio.transferred" end) sourceFolioId in
  ret row.
Definition splitFolio (source : string) (dto : MoveChargesInput) (actorId : string) : M FolioTransfer.t := moveCharges source dto actorId split.
Definition transferCharges (source : string) (dto : MoveChargesInput) (actorId : string) : M FolioTransfer.t := moveCharges source dto actorId transfer.

Definition reverseTransfer (transferId actorId : string) : M FolioTransfer.t :=
  let! t := orThrow (findFirst folioTransfers (fun x => bool_decide (FolioTransfer.id x = transferId))) not_found in
  throw! conflict when isSome (FolioTransfer.reversedAt t) in
  let! at_ := now in
  throw! conflict when (TRANSFER_REVERSAL_WINDOW_MS <? at_ - FolioTransfer.createdAt t) in
  let! source := findFolioOrThrow (FolioTransfer.sourceFolioId t) in
  let! target := findFolioOrThrow (FolioTransfer.targetFolioId t) in
  do! lift (assertFolioOpen source) in
  do! lift (assertFolioOpen target) in
  let! moved := findMany lineItems (fun l => bool_decide (LineItem.id l ∈ FolioTransfer.lineItemIds t)) in
  throw! conflict when (existsb (fun l => negb (bool_decide (LineItem.folioId l = FolioTransfer.targetFolioId t))) moved) in
  let! toReturn := withDependents (FolioTransfer.targetFolioId t) moved in
  do! move_lines (LineItem.id <$> toReturn) (FolioTransfer.sourceFolioId t) in
  do! modify (upd_folioTransfers (update_where (fun x => bool_decide (FolioTransfer.id x = transferId)) (FolioTransfer.with_reversed (Some at_) (Some actorId)))) in
  do! audit (Folio.branchId source) (Some actorId) "folio.transfer_reversed" (FolioTransfer.sourceFolioId t) in
  ret (FolioTransfer.with_reversed (Some at_) (Some actorId) t).

(** ** Settlement *)
Definition closeFolio (folioId actorId : string) : M Folio.t :=
  let! folio := findFolioOrThrow folioId in
  if bool_decide (Folio.status folio = settled) then ret folio
  else
    let! totals := computeTotals folioId in
    throw! (Throw ConflictException FOLIO_NOT_SETTLED) when dgt (balanceDue totals) 0%Qc in
    throw! (Throw ConflictException FOLIO_CREDIT_BALANCE) when dgt 0%Qc (balanceDue totals) in
    let! at_ := now in
    do! modify (upd_folios (update_where (fun x => bool_decide (Folio.id x = folioId)) (Folio.with_closed settled (Some at_)))) in
    do! audit (Folio.branchId folio) (Some actorId) "folio.closed" folioId in
    ret (Folio.with_closed settled (Some at_) folio).

Definition reopenFolio (folioId actorId : string) : M Folio.t :=
  let! folio := findFolioOrThrow folioId in
  let reopening f := bool_decide (Folio.id f = folioId) && bool_decide (Folio.status f = settled) in
  let! matching := findMany folios reopening in
  throw! conflict when bool_decide (length matching = 0%nat) in
  do! modify (upd_folios (update_where reopening (Folio.with_closed open None))) in
  do! audit (Folio.branchId folio) (Some actorId) "folio.reopened" folioId in
  orThrow (findFirst folios (fun f => bool_decide (Folio.id f = folioId))) internal.

Definition settleIfFullyPaid (folio : Folio.t) (actorId : option string) : M bool :=
  let! totals := computeTotals (Folio.id folio) in
  if negb (dis_zero (balanceDue totals)) then ret false
  else
    let! at_ := now in
    do! modify (upd_folios (update_where (fun x => bool_decide (Folio.id x = Folio.id folio)) (Folio.with_closed settled (Some at_)))) in
    do! audit (Folio.branchId folio) actorId "folio.closed" (Folio.id folio) in
    ret true.

(** ** Reads *)
Inductive FolioGuestStatus := in_house | city_ledger | refund_due | deposit_held.
#[global] Instance FolioGuestStatus_eq_dec : EqDecision FolioGuestStatus.
Proof. solve_decision. Defined.
Definition deriveGuestStatus (status : option ReservationStatus) (balance : Qc) : option FolioGuestStatus :=
  if dgt 0%Qc balance then
    Some (match status with
          | Some s => if bool_decide (s ∈ BEFORE_ARRIVAL) then deposit_held else refund_due
          | None => refund_due
          end)
  else if negb (dgt balance 0%Qc) then None
  else match status with
       | Some checked_out | Some no_show | Some cancelled => Some city_ledger
       | Some checked_in => Some in_house
       | _ => None
       end.

Inductive FolioListFilter := filter_all | filter_outstanding | filter_overdue | filter_in_house | filter_refund_due.
#[global] Instance FolioListFilter_eq_dec : EqDecision FolioListFilter.
Proof. solve_decision. Defined.
Record FolioRow := { fr_folio : Folio.t; fr_reservation : option Reservation.t; fr_balance : Qc; fr_guestStatus : option FolioGuestStatus }.

Definition reservation_of (d : Db) (f : Folio.t) : option Reservation.t :=
  List.find (fun r => bool_decide (Reservation.id r = Folio.reservationId f)) (reservations d).
(** The [where] of each list. *)
Definition listed (d : Db) (b : string) (flt : FolioListFilter) (f : Folio.t) : bool :=
  bool_decide (Folio.branchId f = b) && isNone (Folio.deletedAt f) &&
  (bool_decide (flt = filter_all) || negb (bool_decide (Folio.status f = settled))) &&
  (negb (bool_decide (flt = filter_in_house)) ||
   match reservation_of d f with Some r => bool_decide (Reservation.status r = checked_in) && isNone (Reservation.deletedAt r) | None => false end).

Definition FOLIO_LIST_LIMIT : Z := 200.
Definition FOLIO_LIST_MAX : Z := 500.
(** [orderBy: { openedAt: { sort: 'desc', nulls: 'last' } }] *)
Definition newest_first (fs : list Folio.t) : list Folio.t :=
  sort_by (fun f => - default 0 (Folio.openedAt f)) (List.filter (fun f => isSome (Folio.openedAt f)) fs) ++
  List.filter (fun f => isNone (Folio.openedAt f)) fs.
(** [take] and [skip], which only the full list has. *)
Definition paged (flt : FolioListFilter) (limit offset : option Z) (fs : list Folio.t) : list Folio.t :=
  if bool_decide (flt = filter_all)
  then firstn (Z.to_nat (Z.min (Z.max (default FOLIO_LIST_LIMIT limit) 1) FOLIO_LIST_MAX))
         (skipn (Z.to_nat (Z.max (default 0 offset) 0)) fs)
  else fs.
Definition folio_row (d : Db) (balances : gmap string Qc) (f : Folio.t) : FolioRow :=
  let r := reservation_of d f in
  let balance := default 0%Qc (balances !! Folio.id f) in
  {| fr_folio := f; fr_reservation := r; fr_balance := balance;
     fr_guestStatus := deriveGuestStatus (Reservation.status <$> r) balance |}.
Definition row_kept (flt : FolioListFilter) (today : Z) (r : FolioRow) : bool :=
  match flt with
  | filter_outstanding => dgt (fr_balance r) 0%Qc
  | filter_refund_due => bool_decide (fr_guestStatus r = Some refund_due)
  | filter_overdue => bool_decide (fr_guestStatus r = Some city_ledger) &&
                      match fr_reservation r with Some x => Reservation.checkOutDate x <? today | None => false end
  | _ => true
  end.

Definition listFolios (b : string) (flt : FolioListFilter) (limit offset : option Z) : M (list FolioRow) :=
  let! branch := assertBranch b in
  let! fs := gets (fun d => paged flt limit offset (newest_first (List.filter (listed d b flt) (folios d)))) in
  let! balances := balancesFor (Folio.id <$> fs) in
  let! at_ := now in
  let! today := lift (or_throw (toBranchDate (todayInTimezone (Branch.timezone branch) at_)) internal) in
  let! rows := gets (fun d => folio_row d balances <$> fs) in
  ret (List.filter (row_kept flt today) rows).

Record FolioView := { fv_folio : Folio.t; fv_lineItems : list LineItem.t; fv_payments : list Payment.t;
                      fv_totals : FolioTotals; fv_currency : string; fv_guestStatus : option FolioGuestStatus }.
Definition getFolio (folioId : string) : M FolioView :=
  let! folio := findFolioOrThrow folioId in
  let! items := findMany lineItems (fun l => bool_decide (LineItem.folioId l = folioId) && isNone (LineItem.deletedAt l)) in
  let! ps := findMany payments (fun p => bool_decide (Payment.folioId p = folioId) && isNone (Payment.deletedAt p)) in
  let! totals := computeTotals folioId in
  let! branch := assertBranch (Folio.branchId folio) in
  let! r := gets (fun d => reservation_of d folio) in
  ret {| fv_folio := folio; fv_lineItems := sort_by LineItem.postedAt items; fv_payments := ps; fv_totals := totals;
         fv_currency := Branch.currency branch; fv_guestStatus := deriveGuestStatus (Reservation.status <$> r) (balanceDue totals) |}.

(** The bills of a stay, oldest first; one that is not open yet comes last. *)
Definition listFoliosForReservation (s : string) : M (list (Folio.t * Qc)) :=
  let! fs := findMany folios (fun f => bool_decide (Folio.reservationId f = s) && isNone (Folio.deletedAt f)) in
  let ordered := sort_by (fun f => default 0 (Folio.openedAt f)) (List.filter (fun f => isSome (Folio.openedAt f)) fs) ++
                 List.filter (fun f => isNone (Folio.openedAt f)) fs in
  gets (fun d => (fun f => (f, balanceDue (totals_in d (Folio.id f)))) <$> ordered).

(** Every transfer a bill was either end of, newest first. *)
Definition getTransferHistory (folioId : string) : M (list FolioTransfer.t) :=
  let! _ := findFolioOrThrow folioId in
  let! ts := findMany folioTransfers (fun x => bool_decide (FolioTransfer.sourceFolioId x = folioId) || bool_decide (FolioTransfer.targetFolioId x = folioId)) in
  ret (sort_by (fun x => - FolioTransfer.createdAt x) ts).
(** Every move at a branch in a range of days, newest first, 500 at most. *)
Definition listBranchTransfers (b : string) (from to : option Z) : M (list FolioTransfer.t * string) :=
  let! branch := assertBranch b in
  let! ts := gets (fun d => List.filter (fun x =>
    match List.find (fun f => bool_decide (Folio.id f = FolioTransfer.sourceFolioId x)) (folios d) with
    | Some f => bool_decide (Folio.branchId f = b) | None => false end &&
    match from with Some a => a <=? FolioTransfer.createdAt x | None => true end &&
    match to with Some a => FolioTransfer.createdAt x <? a + DAY_MS | None => true end) (folioTransfers d)) in
  ret (firstn 500 (sort_by (fun x => - FolioTransfer.createdAt x) ts), Branch.currency branch).

(** The tax breakdown: one row per rule, in the order the rules first appear. *)
Record TaxRow := { tr_ruleId : string; tr_rule : option TaxRule; tr_collected : Qc; tr_base : Qc }.
Definition add_tax_row (rules : list TaxRule) (ruleId : string) (amount : Qc) (base : option Qc) (rows : list TaxRow) : list TaxRow :=
  let bump r := {| tr_ruleId := tr_ruleId r; tr_rule := tr_rule r; tr_collected := tr_collected r ⊕ amount;
                   tr_base := match base with Some b => tr_base r ⊕ b | None => tr_base r end |} in
  if existsb (fun r => bool_decide (tr_ruleId r = ruleId)) rows
  then (fun r => if bool_decide (tr_ruleId r = ruleId) then bump r else r) <$> rows
  else rows ++ [bump {| tr_ruleId := ruleId; tr_rule := List.find (fun r => bool_decide (Taxes.id r = ruleId)) rules;
                        tr_collected := 0%Qc; tr_base := 0%Qc |}].
Definition parent_amount (lines : list LineItem.t) (l : LineItem.t) : option Qc :=
  p ← LineItem.parentLineItemId l;
  LineItem.amount <$> List.find (fun x => bool_decide (LineItem.id x = p)) lines.
Definition tax_rows (rules : list TaxRule) (lines items : list LineItem.t) : list TaxRow :=
  foldl (fun rows l => match LineItem.taxRuleIds l with
                       | [] => rows
                       | ruleId :: _ => if bool_decide (ruleId = "") then rows
                                        else add_tax_row rules ruleId (LineItem.amount l) (parent_amount lines l) rows
                       end) [] items.
Definition taxableBase (r : TaxRow) : Qc :=
  match tr_rule r with
  | Some rule => if bool_decide (Taxes.type rule = fixed) then dp2 (tr_base r)
                 else if dis_zero (Taxes.rate rule) then 0%Qc else dp2 (tr_collected r ⊘ Taxes.rate rule)
  | None => 0%Qc
  end.
Definition getTaxBreakdown (folioId : string) : M (list (TaxRow * Qc) * Qc) :=
  let! _ := findFolioOrThrow folioId in
  gets (fun d =>
    let items := List.filter (fun l => standing folioId l && bool_decide (LineItem.chargeType l = tax)) (lineItems d) in
    let rows := tax_rows (taxRules d) (lineItems d) items in
    ((fun r => (r, taxableBase r)) <$> rows, dsum (tr_collected <$> rows))).
End Folios.
