(* ===== verification/SampleHotel.v ===== *)
(** A small hotel on which the theorems about the database are tried: one
    branch, one stay with two bills, one tax, one open drawer, one loyalty
    member, one outlet. *)
From stdpp Require Import pretty.
From Stdlib Require Import QArith Qcanon.
From S2P Require Import Prelude Decimal Dates Json Taxes Transactions Db LoyaltyRules Packages Folios.
Local Open Scope Z_scope.

Module Hotel.
#[export] Existing Instance Reference.decimal_js.
#[export] Existing Instance plain_db.
#[export] Existing Instance plain_db_ok.
#[export] Instance lagos_time : Platform := fixed_platform (fun _ => 60).
#[export] Instance counted_ids : Uuid := {| gen_random_uuid := fun n : nat => pretty n |}.

Definition day (n : Z) : Z := n * DAY_MS.
Definition hotel_branch : Branch.t :=
  {| Branch.id := "b1"; Branch.timezone := "Africa/Lagos"; Branch.currency := "NGN"; Branch.policies := None;
     Branch.checkInTime := 14 * 3600000; Branch.checkOutTime := 11 * 3600000; Branch.cancellationPolicy := None; Branch.depositPolicy := None;
     Branch.noShowPolicy := Some (JObj [("defaultPenalty", JStr "first_night")]); Branch.stayFeePolicy := None; Branch.dayUsePolicy := None;
     Branch.turndownPolicy := None; Branch.name := "Lagoon House"; Branch.regCardTemplate := None; Branch.bookingSlug := None; Branch.bookingEngineEnabled := false;
     Branch.privacyNotice := None; Branch.bookingTerms := None; Branch.deletedAt := None |}.
(** Two nights, from day 20000, at 150.00 in all; breakfast each night. *)
Definition hotel_stay : Reservation.t := {|
  Reservation.id := "s1"; Reservation.branchId := "b1"; Reservation.guestId := "g1"; Reservation.status := checked_in;
  Reservation.checkInDate := day 20000; Reservation.checkOutDate := day 20002; Reservation.isDayUse := false;
  Reservation.overrideRate := None; Reservation.overrideReason := None; Reservation.confirmedRate := cents 15000; Reservation.nightlyRates := None;
  Reservation.roomTypeId := "rt1"; Reservation.roomId := Some "101"; Reservation.ratePlanId := None; Reservation.adults := 2; Reservation.children := 0;
  Reservation.packages := Some (JArr [JObj [("packageId", JStr "p1"); ("name", JStr "Breakfast"); ("price", JStr "10.00");
                                            ("basis", JStr "per_person_per_night"); ("chargeType", JStr "fnb")]]);
  Reservation.billToFolioId := None; Reservation.groupBlockId := None; Reservation.corporateAccountId := None; Reservation.promoCode := None;
  Reservation.confirmationNumber := "RES-2024-00001"; Reservation.channel := direct; Reservation.actualCheckIn := Some (day 20000);
  Reservation.actualCheckOut := None; Reservation.depositAmount := None; Reservation.depositDueDate := None; Reservation.cancellationPolicy := None;
  Reservation.createdBy := Some "u1"; Reservation.termsAcceptedAt := None; Reservation.preArrivalCompletedAt := None; Reservation.houseRulesAcceptedAt := None;
  Reservation.estimatedArrivalTime := None; Reservation.deletedAt := None |}.
Definition hotel_folio (i : string) (label : option string) : Folio.t := {|
  Folio.id := i; Folio.branchId := "b1"; Folio.reservationId := "s1"; Folio.guestId := "g1"; Folio.label := label;
  Folio.status := open; Folio.payerName := None; Folio.corporateAccountId := None; Folio.openedAt := Some 0;
  Folio.closedAt := None; Folio.deletedAt := None |}.
Definition hotel_guest : GuestProfile.t := {|
  GuestProfile.id := "g1"; GuestProfile.name := "Ada Obi"; GuestProfile.email := Some "ada@example.com"; GuestProfile.phone := None;
  GuestProfile.phoneDigits := None; GuestProfile.vipLevel := None; GuestProfile.idDocType := None; GuestProfile.idDocNumber := None;
  GuestProfile.idDocExpiryDate := None; GuestProfile.nationality := None; GuestProfile.loyaltyPoints := Some 0; GuestProfile.loyaltyTier := None;
  GuestProfile.loyaltyEnrolledAt := None; GuestProfile.marketingOptIn := false; GuestProfile.marketingOptInAt := None; GuestProfile.marketingOptInSource := None;
  GuestProfile.marketingUnsubscribedAt := None; GuestProfile.updatedAt := 0; GuestProfile.deletedAt := None |}.
(** Two doubles, the stay's guest in the first. *)
Definition hotel_double : RoomType.t := {|
  RoomType.id := "rt1"; RoomType.branchId := "b1"; RoomType.name := "Double"; RoomType.baseRate := cents 7500; RoomType.capacityAdults := 2; RoomType.capacityChildren := 1;
  RoomType.adultsIncluded := Some 1; RoomType.extraAdultRate := Some (cents 1000); RoomType.childrenIncluded := 0; RoomType.childRate := None;
  RoomType.dayUseRate := None; RoomType.deletedAt := None |}.
Definition hotel_room (i : string) (o : OccupancyStatus) : Room.t := {|
  Room.id := i; Room.branchId := "b1"; Room.roomTypeId := "rt1"; Room.floorId := "fl0"; Room.number := i; Room.occupancyStatus := o; Room.cleanlinessStatus := clean;
  Room.heldStatus := None; Room.heldUntil := None; Room.view := None; Room.notes := None; Room.statusChangedAt := None; Room.statusChangedBy := None; Room.deletedAt := None |}.
(** A bar that sells one dish, with a side to choose. *)
Definition hotel_bar : Outlet.t :=
  {| Outlet.id := "o1"; Outlet.branchId := "b1"; Outlet.chargeType := fnb; Outlet.isActive := true; Outlet.staffDiscountLimitPct := None |}.
Definition hotel_stew : MenuItem.t := {|
  MenuItem.id := "m1"; MenuItem.outletId := "o1"; MenuItem.price := cents 2000; MenuItem.isAvailable := true;
  MenuItem.modifiers := Some [{| group_name := "Side"; selection := single; required := true;
    options := [{| option_label := "Rice"; option_price := cents 500 |}; {| option_label := "Plantain"; option_price := cents 750 |}] |}];
  MenuItem.deletedAt := None |}.
Definition hotel : Db := {|
  clock := day 20001 + 3600000; seq := 0; reservationSeq := 1; branches := [hotel_branch];
  loyaltyProgram := Some {| LoyaltyProgram.isActive := true; LoyaltyProgram.currency := "NGN"; LoyaltyProgram.pointsPerUnit := decimal 1 (-2);
    LoyaltyProgram.pointValue := Qc_of_Z 1; LoyaltyProgram.tiers := RulesProps.sample_tiers; LoyaltyProgram.pointsExpireAfterMonths := Some 12 |};
  taxRules := [mk_rule "r1" "VAT" (decimal 75 (-3)) None false []]; exchangeRates := []; roomTypes := [hotel_double]; corporateAccounts := [];
  reservations := [hotel_stay];
  guests := [hotel_guest];
  folios := [hotel_folio "f1" None; hotel_folio "f2" (Some "Company")]; lineItems := []; payments := []; refunds := []; folioTransfers := [];
  shifts := [{| Shift.id := "d1"; Shift.branchId := "b1"; Shift.agentId := "u1"; Shift.closedAt := None; Shift.openingFloat := Some (cents 10000);
                Shift.systemCashTotal := None; Shift.closingCashCounted := None; Shift.variance := None; Shift.foreignCashTotals := None;
                Shift.varianceExplanation := None |}];
  posOrders := []; loyaltyTransactions := []; webhooks := []; webhookDeliveries := []; auditLogs := []; shiftIssues := []; outlets := [hotel_bar]; userOutlets := [];
  menuItems := [hotel_stew]; communicationLogs := [];
  ratePlans := []; rateAuditLogs := []; buildings := []; floors := []; rooms := [hotel_room "101" occupied; hotel_room "102" vacant]; roomBlocks := []; overbookingConfigs := [];
  groupBlocks := []; availabilityRestrictions := []; channelAllotments := []; packages := []; guestNotes := []; noShowRecords := []; walkRecords := [];
  housekeepingTasks := []; registrationCards := []; users := [{| User.id := "u1"; User.deletedAt := None |}];
  userBranchRoles := [{| UserBranchRole.userId := "u1"; UserBranchRole.branchId := None |}];
  nightAuditLogs := []; maintenanceOrders := []; assets := [];
  eventSpaces := [{| EventSpace.id := "hall"; EventSpace.branchId := "b1"; EventSpace.name := "Hall"; EventSpace.category := "ballroom"; EventSpace.capacity := 100;
                     EventSpace.setupCapacities := None |}]; eventBookings := [] |}.

(** A transaction that commits has a result. *)
Lemma run_ok {A} (m : M A) d : is_ok (m d) = true -> exists d' a, m d = Ok (d', a).
Proof. destruct (m d) as [[d' a]|e]; [eauto | done]. Qed.

(** The database after a transaction, unchanged when it throws. *)
Definition after {A} (m : M A) (d : Db) : Db := match m d with Ok (d', _) => d' | Err _ => d end.
Lemma after_ok {A} (m : M A) d : is_ok (m d) = true -> exists a, m d = Ok (after m d, a).
Proof. unfold after. destruct (m d) as [[d' a]|e]; [eauto | done]. Qed.

(** The stay's bill once both nights have been posted. *)
Definition hotel_billed : Db := after (backfillRoomCharges hotel_stay (hotel_folio "f1" None) (day 20005) (Some "u1")) hotel.
Lemma hotel_billed_ok : is_ok (backfillRoomCharges hotel_stay (hotel_folio "f1" None) (day 20005) (Some "u1") hotel) = true.
Proof. vm_compute. reflexivity. Qed.
End Hotel.
