(* ===== verification/FolioLedger.v ===== *)
(** What the bills promise: the ledger is append-only and well formed, the
    derived figures are exact, a night is billed once, a correction nets to
    zero, and a move keeps every total. *)
From S2P Require Import Prelude Decimal Dates StayPolicies Taxes Transactions Db LoyaltyRules Packages Folios SampleHotel.
From Stdlib Require Import QArith Qcanon Lqa.
Import StayFees.
Local Open Scope Z_scope.

(** ** Append-only tables *)

(** A line as it was, on whichever bill it sits now. *)
Definition same_line (a b : LineItem.t) : Prop := exists f, b = LineItem.with_folioId f a.
(** A payment as it was, or voided. *)
Definition same_payment (a b : Payment.t) : Prop :=
  b = a \/ exists w u r, b = Payment.with_void true w u r a.

Definition extends {A} (R : A -> A -> Prop) (l l' : list A) : Prop :=
  exists kept new, l' = kept ++ new /\ Forall2 R l kept.

(** [ledger_le d d']: every line, payment, points row and audit entry of [d] is
    still there in [d'], in its place, as it was (a line may sit on another bill,
    a payment may have been voided), and only new ones follow. *)
Record ledger_le (d d' : Db) : Prop := {
  le_lines : extends same_line (lineItems d) (lineItems d');
  le_payments : extends same_payment (payments d) (payments d');
  le_points : extends eq (loyaltyTransactions d) (loyaltyTransactions d');
  le_audit : extends eq (auditLogs d) (auditLogs d');
}.

Section Extends.
Context {A : Type} (R : A -> A -> Prop) `{!Reflexive R} `{!Transitive R}.
#[local] Instance extends_refl : Reflexive (extends R).
Proof. intros l. exists l, []. rewrite app_nil_r. split; [done|]. by apply Forall_Forall2_diag, Forall_true. Qed.
#[local] Instance extends_trans : Transitive (extends R).
Proof.
  intros l1 l2 l3 (k1 & n1 & -> & H1) (k2 & n2 & -> & H2).
  apply Forall2_app_inv_l in H2 as (k2a & k2b & H2a & H2b & ->).
  exists k2a, (k2b ++ n2). rewrite app_assoc. split; [done|]. eapply Forall2_trans; [|exact H1|exact H2a].
  intros x y z. apply transitivity.
Qed.
Lemma extends_app l new : extends R l (l ++ new).
Proof. exists l, new. split; [done|]. by apply Forall_Forall2_diag, Forall_true. Qed.
Lemma extends_update w f l : (forall x, w x = true -> R x (f x)) -> extends R l (update_where w f l).
Proof.
  intros Hf. exists (update_where w f l), []. rewrite app_nil_r. split; [done|].
  unfold update_where. apply Forall2_fmap_r, Forall_Forall2_diag, Forall_true. intros x. simpl. destruct (w x) eqn:E; [auto | done].
Qed.
End Extends.

#[global] Instance same_line_refl : Reflexive same_line.
Proof. intros a. exists (LineItem.folioId a). by destruct a. Qed.
#[global] Instance same_line_trans : Transitive same_line.
Proof. intros a b c [f ->] [g ->]. by exists g. Qed.
#[global] Instance same_payment_refl : Reflexive same_payment.
Proof. by left. Qed.
#[global] Instance same_payment_trans : Transitive same_payment.
Proof.
  intros a b c [->|(w & u & r & ->)] [->|(w' & u' & r' & ->)]; [by left|right; eauto 10..].
Qed.

#[global] Instance ledger_le_preorder : PreOrder ledger_le.
Proof.
  split.
  - intros d. split; apply extends_refl; apply _.
  - intros d1 d2 d3 [] []. split; eapply extends_trans; eauto with typeclass_instances.
Qed.

(** A write to a table outside the ledger, an append to one of its tables, a
    move of lines, a void. *)
Ltac ledger_write :=
  intros; split; simpl;
  first [ apply extends_refl; apply _
        | apply extends_app; apply _
        | apply extends_update; [apply _ | intros; eexists; reflexivity] ].

Section AppendOnly.
Context `{DecimalLib} `{TaxDb} `{Platform} `{Uuid}.

Lemma le_modify f : (forall d, ledger_le d (f d)) -> keeps ledger_le (modify f).
Proof. apply keeps_modify; apply _. Qed.
Lemma le_new_id : keeps ledger_le new_id.
Proof. unfold new_id. keeps_tac. apply le_modify. ledger_write. Qed.
Lemma le_auditLog b u a t i : keeps ledger_le (auditLog b u a t i).
Proof. apply le_modify. ledger_write. Qed.
Lemma le_emit b t i : keeps ledger_le (emit b t i).
Proof. unfold emit. keeps_tac; [apply le_new_id|]. apply le_modify. ledger_write. Qed.
Lemma le_audit_folio b u a i : keeps ledger_le (Folios.audit b u a i).
Proof. unfold Folios.audit, paymentRecorded. keeps_tac; [apply le_auditLog | apply le_emit]. Qed.
Lemma le_create_lineItem l : keeps ledger_le (create_lineItem l).
Proof. unfold create_lineItem, now. keeps_tac; [apply le_new_id|]. apply le_modify. ledger_write. Qed.
Lemma le_create_payment p : keeps ledger_le (create_payment p).
Proof. unfold create_payment. keeps_tac; [apply le_new_id|]. apply le_modify. ledger_write. Qed.
Lemma le_applyLoyaltyPoints g e : keeps ledger_le (applyLoyaltyPoints g e).
Proof.
  unfold applyLoyaltyPoints, create_loyaltyTransaction, lifetimeLoyaltyPoints, now.
  keeps_tac; try apply le_new_id; apply le_modify; ledger_write.
Qed.
Lemma le_move_lines ids f : keeps ledger_le (move_lines ids f).
Proof. unfold move_lines. keeps_tac; apply le_modify; ledger_write. Qed.
Lemma le_upd_folios f : keeps ledger_le (modify (upd_folios f)).
Proof. apply le_modify. ledger_write. Qed.
Lemma le_upd_folioTransfers f : keeps ledger_le (modify (upd_folioTransfers f)).
Proof. apply le_modify. ledger_write. Qed.
Lemma le_upd_posOrders f : keeps ledger_le (modify (upd_posOrders f)).
Proof. apply le_modify. ledger_write. Qed.
End AppendOnly.
#[export] Hint Resolve le_new_id le_auditLog le_emit le_audit_folio le_create_lineItem le_create_payment le_applyLoyaltyPoints
  le_move_lines le_upd_folios le_upd_folioTransfers le_upd_posOrders : keeps.

(** Every operation of the service that writes. *)
Inductive folio_op `{DecimalLib} `{TaxDb} `{Platform} `{Uuid} : forall {A}, M A -> Prop :=
| op_ensurePrimaryFolio r u : folio_op (ensurePrimaryFolio r u)
| op_postRoomChargeForDate r f t u : folio_op (postRoomChargeForDate r f t u)
| op_postPackagesForDate r f t u : folio_op (postPackagesForDate r f t u)
| op_backfillRoomCharges r f t u : folio_op (backfillRoomCharges r f t u)
| op_postAdHocCharge r f ct a u : folio_op (postAdHocCharge r f ct a u)
| op_postOutletCharge f o ct a t u : folio_op (postOutletCharge f o ct a t u)
| op_postChargeInTx f a ct t u : folio_op (postChargeInTx f a ct t u)
| op_postCharge f a ct t u : folio_op (postCharge f a ct t u)
| op_recordPayment f dto p u : folio_op (recordPayment f dto p u)
| op_recordDeposit r dto u : folio_op (recordDeposit r dto u)
| op_voidPayment p why u : folio_op (voidPayment p why u)
| op_recordLoyaltyPayment f a why u : folio_op (recordLoyaltyPaymentInTx f a why u)
| op_correctLineItem l why u : folio_op (correctLineItem l why u)
| op_reverseCharge l u : folio_op (reverseChargeInTx l u)
| op_createAdditionalFolio r i u : folio_op (createAdditionalFolio r i u)
| op_splitFolio f dto u : folio_op (splitFolio f dto u)
| op_transferCharges f dto u : folio_op (transferCharges f dto u)
| op_reverseTransfer t u : folio_op (reverseTransfer t u)
| op_closeFolio f u : folio_op (closeFolio f u)
| op_reopenFolio f u : folio_op (reopenFolio f u)
| op_settleIfFullyPaid f u : folio_op (settleIfFullyPaid f u).

Section AppendOnlyOps.
Context `{DecimalLib} `{TaxDb} `{Platform} `{Uuid}.

Lemma le_writeCharge i : keeps ledger_le (writeChargeWithTaxes i).
Proof. unfold writeChargeWithTaxes. keeps_tac. Qed.
Lemma le_ensurePrimaryFolio r u : keeps ledger_le (ensurePrimaryFolio r u).
Proof. unfold ensurePrimaryFolio, now. keeps_tac. Qed.
Lemma le_routedFolio r f : keeps ledger_le (routedFolio r f).
Proof. unfold routedFolio. keeps_tac. Qed.
#[local] Hint Resolve le_writeCharge le_ensurePrimaryFolio le_routedFolio : keeps.
Lemma le_postPackageCharges r f t u : keeps ledger_le (postPackageCharges r f t u).
Proof. unfold postPackageCharges, postPackage. keeps_tac. Qed.
#[local] Hint Resolve le_postPackageCharges : keeps.
Lemma le_postRoomChargeForDate r f t u : keeps ledger_le (postRoomChargeForDate r f t u).
Proof. unfold postRoomChargeForDate, dayUseCharged, postDayUseCharge, postRoomNight, night_rate. keeps_tac. Qed.
#[local] Hint Resolve le_postRoomChargeForDate : keeps.
Lemma le_recordPaymentInTx f dto p u : keeps ledger_le (recordPaymentInTx f dto p u).
Proof. unfold recordPaymentInTx, assertBranch, in_branch_currency. keeps_tac. Qed.
Lemma le_reverseLineItem o f u : keeps ledger_le (reverseLineItem o f u).
Proof. unfold reverseLineItem. keeps_tac. Qed.
#[local] Hint Resolve le_recordPaymentInTx le_reverseLineItem : keeps.
Lemma le_voidPayment p why u : keeps ledger_le (voidPayment p why u).
Proof.
  unfold voidPayment, findFolioOrThrow, lockLoyaltyGuest, findLoyaltyGuest, now. keeps_tac.
  all: apply le_modify; intros; split; simpl; try (apply extends_refl; apply _).
  all: apply extends_update; [apply _|]; intros x _; right; eauto.
Qed.
Lemma le_moveCharges f dto u k : keeps ledger_le (moveCharges f dto u k).
Proof. unfold moveCharges, findFolioOrThrow, withDependents, now. keeps_tac. Qed.
#[local] Hint Resolve le_voidPayment le_moveCharges : keeps.

Lemma folio_op_append_only {A} (m : M A) : folio_op m -> keeps ledger_le m.
Proof.
  destruct 1; unfold postPackagesForDate, backfillRoomCharges, postAdHocCharge, postOutletCharge, postChargeInTx, postCharge,
    recordPayment, recordDeposit, recordLoyaltyPaymentInTx, computeTotals, correctLineItem, correctLineItemInTx,
    find_line, reverseChargeInTx, createAdditionalFolio, splitFolio, transferCharges, reverseTransfer, withDependents, closeFolio,
    reopenFolio, settleIfFullyPaid, findReservation, findFolioOrThrow, assertBranch, now; keeps_tac.
Qed.
End AppendOnlyOps.

(** A committed operation of the service. *)
Definition folio_step `{DecimalLib} `{TaxDb} `{Platform} `{Uuid} (d d' : Db) : Prop :=
  exists (A : Type) (m : M A) (a : A), folio_op m /\ m d = Ok (d', a).

(** the ledger is append-only: whatever sequence of billing operations
    commits (postings, payments, voids, corrections, transfers, settlement),
    every line, payment, points row and audit entry that existed is still in its
    place with every amount, link and date as posted; a line may have moved to
    another bill, a payment may have been marked void, and nothing else. *)
Theorem ledger_append_only `{DecimalLib} `{TaxDb} `{Platform} `{Uuid} (d d' : Db) :
  rtc folio_step d d' -> ledger_le d d'.
Proof.
  induction 1 as [d|d d1 d' (A & m & a & Hop & Hm) _ IH]; [reflexivity|].
  etrans; [by eapply folio_op_append_only | exact IH].
Qed.

(** ** Writing a line *)
(** A stored row carries the columns it was created with; its amount is the
    one given, to the cent, and not zero. *)
Record stored_as (l row : LineItem.t) : Prop := {
  st_amount : numeric (LineItem.amount l) = Ok (LineItem.amount row);
  st_nonzero : LineItem.amount row <> 0%Qc;
  st_taxAmount : numeric (LineItem.taxAmount l) = Ok (LineItem.taxAmount row);
  st_folio : LineItem.folioId row = LineItem.folioId l;
  st_type : LineItem.chargeType row = LineItem.chargeType l;
  st_date : LineItem.serviceDate row = LineItem.serviceDate l;
  st_void : LineItem.isVoid row = LineItem.isVoid l;
  st_deleted : LineItem.deletedAt row = LineItem.deletedAt l;
  st_parent : LineItem.parentLineItemId row = LineItem.parentLineItemId l;
  st_corrects : LineItem.correctsLineItemId row = LineItem.correctsLineItemId l;
  st_stay : LineItem.stayReservationId row = LineItem.stayReservationId l;
  st_package : LineItem.packageId row = LineItem.packageId l;
  st_dayUse : LineItem.dayUse row = LineItem.dayUse l;
}.

(** The tables a posting leaves alone. *)
Record frame (d d' : Db) : Prop := {
  fr_payments : payments d' = payments d;
  fr_folios : folios d' = folios d;
  fr_roomTypes : roomTypes d' = roomTypes d;
  fr_reservations : reservations d' = reservations d;
  fr_refunds : refunds d' = refunds d;
  fr_posOrders : posOrders d' = posOrders d;
  fr_taxRules : taxRules d' = taxRules d;
  fr_transfers : folioTransfers d' = folioTransfers d;
  fr_shifts : shifts d' = shifts d;
  fr_clock : clock d' = clock d;
}.
#[global] Instance frame_preorder : PreOrder frame.
Proof. split; [done|]. intros d1 d2 d3 [] []. split; congruence. Qed.

Section Writing.
Context `{DecimalLib} `{TaxDb} `{Platform} `{Uuid}.


Lemma create_lineItem_spec l d d' row : create_lineItem l d = Ok (d', row) ->
  d' = upd_lineItems (fun t => t ++ [row]) (upd_seq S d) /\ LineItem.id row = gen_random_uuid (seq d) /\
  stored_as l row /\ (forall i, LineItem.correctsLineItemId l = Some i -> corrected_by d i = None).
Proof.
  unfold create_lineItem, now. intros Hm. m_inv.
  match goal with H : new_id _ = _ |- _ => apply new_id_spec in H as [-> ->] end. m_inv.
  split_and!; [done..| |].
  - split; simpl; try done. by destruct (dis_zero_spec v).
  - intros i Hi. rewrite Hi in *. simpl in *. unfold corrected_by.
    match goal with H : isSome ?o = false |- _ => destruct o eqn:E; [done|] end.
    done.
Qed.

Lemma for_each_inv {A B} (I : Db -> Prop) (l : list B) (a a' : A) body d d' :
  (forall x a d d' a', x ∈ l -> I d -> body a x d = Ok (d', a') -> I d') -> I d ->
  for_each l a body d = Ok (d', a') -> I d'.
Proof.
  revert a d. induction l as [|x l IH]; intros a d Hb Hd Hm; simpl in Hm; m_inv; [done|].
  eapply IH; [|eapply Hb; [left|exact Hd|eassumption]|eassumption].
  intros y b e e' b' Hy. apply Hb. by right.
Qed.

(** A loop of creations appends one row for each input, in order. *)
Lemma for_create_spec {B} (f : B -> LineItem.t) (l : list B) d d' u :
  for_each l tt (fun _ t => let! _ := create_lineItem (f t) in ret tt) d = Ok (d', u) ->
  frame d d' /\ exists rows, lineItems d' = lineItems d ++ rows /\ Forall2 (fun t row => stored_as (f t) row) l rows.
Proof.
  revert d. induction l as [|t l IH]; intros d Hm; simpl in Hm; m_inv.
  - split; [reflexivity|]. exists []. by rewrite app_nil_r.
  - match goal with H : create_lineItem _ _ = _ |- _ => apply create_lineItem_spec in H as (-> & Hid & Hst & _) end.
    apply IH in Hm as [Hf (rows & Hrows & Hall)]. split; [etrans; [|exact Hf]; done|].
    match goal with H : stored_as (f t) ?row |- _ => exists (row :: rows) end. simpl in Hrows. rewrite Hrows, <- app_assoc. split; [done | by constructor].
Qed.

Lemma frame_modify f : (forall d, frame d (f d)) -> keeps frame (modify f).
Proof. apply keeps_modify; apply _. Qed.
Lemma frame_audit b u a i : keeps frame (Folios.audit b u a i).
Proof. unfold Folios.audit, paymentRecorded, emit, auditLog, new_id. keeps_tac; by apply frame_modify. Qed.
End Writing.

(** ** The well-formed ledger *)
(** The stay's night a standing line bills, if it bills one: a room charge of a
    stay that is neither its day-use charge nor a package. *)
Definition night_key (l : LineItem.t) : option (string * Z) :=
  if bool_decide (LineItem.chargeType l = room) && negb (LineItem.dayUse l) && isNone (LineItem.packageId l) &&
     negb (LineItem.isVoid l) && isNone (LineItem.deletedAt l)
  then s ← LineItem.stayReservationId l; t ← LineItem.serviceDate l; Some (s, t) else None.

Record ledger_wf `{Uuid} (d : Db) : Prop := {
  (** ids are unique, and only the database made them *)
  wf_ids : NoDup (LineItem.id <$> lineItems d);
  wf_seq l : l ∈ lineItems d -> exists k, (k < seq d)%nat /\ LineItem.id l = gen_random_uuid k;
  (** amounts are whole cents that fit the column, and no line is of nothing *)
  wf_money l : l ∈ lineItems d -> money NUMERIC_12_2 (LineItem.amount l) /\ LineItem.amount l <> 0%Qc;
  wf_paid p : p ∈ payments d -> money NUMERIC_12_2 (Payment.amount p);
  (** a line is reversed at most once, and by exactly its amount *)
  wf_once l1 l2 : l1 ∈ lineItems d -> l2 ∈ lineItems d -> isSome (LineItem.correctsLineItemId l1) = true ->
    LineItem.correctsLineItemId l1 = LineItem.correctsLineItemId l2 -> LineItem.id l1 = LineItem.id l2;
  wf_exact c i : c ∈ lineItems d -> LineItem.correctsLineItemId c = Some i ->
    exists o, o ∈ lineItems d /\ LineItem.id o = i /\ LineItem.amount c = (- LineItem.amount o)%Qc;
  (** a night of a stay is billed at most once *)
  wf_night l1 l2 : l1 ∈ lineItems d -> l2 ∈ lineItems d -> isSome (night_key l1) = true ->
    night_key l1 = night_key l2 -> LineItem.id l1 = LineItem.id l2;
  (** payments are named apart too *)
  wf_pay_ids : NoDup (Payment.id <$> payments d);
  wf_pay_seq p : p ∈ payments d -> exists k, (k < seq d)%nat /\ Payment.id p = gen_random_uuid k;
}.

Definition wf_keep `{Uuid} (d d' : Db) : Prop := ledger_wf d -> ledger_wf d'.
#[global] Instance wf_keep_preorder `{Uuid} : PreOrder wf_keep.
Proof. split; [by intros d Hd|]. intros d1 d2 d3 H1 H2 Hd. by apply H2, H1. Qed.

Section Wf.
Context `{Uuid}.

Lemma isSome_eq {A} (o : option A) : isSome o = true <-> exists x, o = Some x.
Proof. destruct o; naive_solver. Qed.
Lemma isNone_eq {A} (o : option A) : isNone o = true <-> o = None.
Proof. by destruct o. Qed.

Lemma wf_append_line d row :
  ledger_wf d -> LineItem.id row = gen_random_uuid (seq d) ->
  money NUMERIC_12_2 (LineItem.amount row) -> LineItem.amount row <> 0%Qc ->
  (forall i, LineItem.correctsLineItemId row = Some i -> corrected_by d i = None /\
     exists o, o ∈ lineItems d /\ LineItem.id o = i /\ LineItem.amount row = (- LineItem.amount o)%Qc) ->
  (forall k l, night_key row = Some k -> l ∈ lineItems d -> night_key l <> Some k) ->
  ledger_wf (upd_lineItems (fun t => t ++ [row]) (upd_seq S d)).
Proof.
  intros [Hids Hseq Hmon Hpaid Honce Hex Hn Hpi Hps] Hid Hm Hz Hc Hnew. split; simpl.
  - rewrite fmap_app. apply NoDup_app. split_and!; [done| |apply NoDup_singleton].
    intros x (l & -> & Hl)%list_elem_of_fmap. simpl. rewrite list_elem_of_singleton. rewrite Hid.
    destruct (Hseq l Hl) as (k & Hk & ->). intros ->%(inj gen_random_uuid). lia.
  - intros l [Hl| ->%list_elem_of_singleton]%elem_of_app; [|by exists (seq d); split; [lia|]].
    destruct (Hseq l Hl) as (k & Hk & ->). exists k. split; [lia | done].
  - by intros l [Hl| ->%list_elem_of_singleton]%elem_of_app; [auto|].
  - done.
  - intros l1 l2 [H1| ->%list_elem_of_singleton]%elem_of_app [H2| ->%list_elem_of_singleton]%elem_of_app Hs Heq; auto; exfalso.
    + apply isSome_eq in Hs as [i Hi]. rewrite Hi in Heq. destruct (Hc i) as [Hf _]; [done|].
      pose proof (find_None _ _ _ Hf H1) as Hno. simpl in Hno. by apply bool_decide_eq_false in Hno.
    + apply isSome_eq in Hs as [i Hi]. destruct (Hc i Hi) as [Hf _].
      pose proof (find_None _ _ _ Hf H2) as Hno. simpl in Hno. apply bool_decide_eq_false in Hno. congruence.
  - intros c i [Hcl| ->%list_elem_of_singleton]%elem_of_app Hi.
    + destruct (Hex c i Hcl Hi) as (o & Ho & ?). exists o. split; [apply elem_of_app; by left | done].
    + destruct (Hc i Hi) as [_ (o & Ho & ?)]. exists o. split; [apply elem_of_app; by left | done].
  - intros l1 l2 [H1| ->%list_elem_of_singleton]%elem_of_app [H2| ->%list_elem_of_singleton]%elem_of_app Hs Heq; auto; exfalso.
    + apply isSome_eq in Hs as [k Hk]. eapply (Hnew k l1); congruence.
    + apply isSome_eq in Hs as [k Hk]. eapply (Hnew k l2); congruence.
  - done.
  - intros p Hp. destruct (Hps p Hp) as (k & Hk & ?). exists k. split; [lia | done].
Qed.

(** A write that leaves lines and payments alone. *)
Lemma wf_other d d' : lineItems d' = lineItems d -> payments d' = payments d -> (seq d <= seq d')%nat -> wf_keep d d'.
Proof.
  intros Hl Hp Hs [Hids Hseq ? ? ? ? ? ? Hps]. split; rewrite ?Hl, ?Hp; try done.
  - intros l Hin. destruct (Hseq l Hin) as (k & Hk & ?). exists k. split; [lia | done].
  - intros p Hin. destruct (Hps p Hin) as (k & Hk & ?). exists k. split; [lia | done].
Qed.

Lemma with_folioId_id f l : LineItem.id (LineItem.with_folioId f l) = LineItem.id l.
Proof. done. Qed.

(** Moving lines between bills. *)
Lemma wf_move d w f : wf_keep d (upd_lineItems (update_where w (LineItem.with_folioId f)) d).
Proof.
  intros [Hids Hseq Hmon Hpaid Honce Hex Hn Hpi Hps].
  assert (forall l, l ∈ update_where w (LineItem.with_folioId f) (lineItems d) ->
            exists o, o ∈ lineItems d /\ LineItem.id l = LineItem.id o /\ LineItem.amount l = LineItem.amount o /\
              LineItem.correctsLineItemId l = LineItem.correctsLineItemId o /\ night_key l = night_key o) as Hback.
  { intros l (o & -> & Ho)%list_elem_of_fmap. exists o. split; [done|]. by destruct (w o). }
  assert (forall o, o ∈ lineItems d -> exists l, l ∈ update_where w (LineItem.with_folioId f) (lineItems d) /\
            LineItem.id l = LineItem.id o /\ LineItem.amount l = LineItem.amount o) as Hfwd.
  { intros o Ho. eexists. split; [by apply list_elem_of_fmap_2|]. by destruct (w o). }
  split; simpl; try done.
  - unfold update_where. rewrite <- list_fmap_compose.
    erewrite (list_fmap_ext _ LineItem.id); [done|]. intros i x _. simpl. by destruct (w x).
  - intros l (o & Ho & -> & _)%Hback. auto.
  - intros l (o & Ho & _ & -> & _)%Hback. auto.
  - intros l1 l2 (o1 & H1 & -> & _ & -> & _)%Hback (o2 & H2 & -> & _ & -> & _)%Hback. eauto.
  - intros c i (x & Hx & _ & -> & -> & _)%Hback Hi. destruct (Hex x i Hx Hi) as (o & Ho & Hoi & ->).
    destruct (Hfwd o Ho) as (l & Hl & Hli & Hla). exists l. rewrite Hli, Hla. done.
  - intros l1 l2 (o1 & H1 & -> & _ & _ & ->)%Hback (o2 & H2 & -> & _ & _ & ->)%Hback. eauto.
Qed.
End Wf.

Lemma stored_night_key l row : stored_as l row -> night_key row = night_key l.
Proof. intros [? ? ? ? Ht Hd Hv Hdel ? ? Hs Hp Hu]. unfold night_key. by rewrite Ht, Hd, Hv, Hdel, Hs, Hp, Hu. Qed.
Lemma stored_money l row : stored_as l row -> money NUMERIC_12_2 (LineItem.amount row).
Proof. intros []. by eapply numeric_money. Qed.

Section WfOps.
Context `{DecimalLib} `{TaxDb} `{Platform} `{Uuid}.

Lemma wf_modify f : (forall d, wf_keep d (f d)) -> keeps wf_keep (modify f).
Proof. apply keeps_modify; apply _. Qed.
Ltac wf_elsewhere := apply wf_modify; intros; apply wf_other; simpl; done || lia.
Lemma wf_new_id : keeps wf_keep new_id.
Proof. unfold new_id. keeps_tac. wf_elsewhere. Qed.
Lemma wf_auditLog b u a t i : keeps wf_keep (auditLog b u a t i).
Proof. wf_elsewhere. Qed.
Lemma wf_emit b t i : keeps wf_keep (emit b t i).
Proof. unfold emit. keeps_tac; [apply wf_new_id | wf_elsewhere]. Qed.
Lemma wf_audit b u a i : keeps wf_keep (Folios.audit b u a i).
Proof. unfold Folios.audit, paymentRecorded. keeps_tac; [apply wf_auditLog | apply wf_emit]. Qed.
Lemma wf_upd_folios f : keeps wf_keep (modify (upd_folios f)).
Proof. wf_elsewhere. Qed.
Lemma wf_upd_folioTransfers f : keeps wf_keep (modify (upd_folioTransfers f)).
Proof. wf_elsewhere. Qed.
Lemma wf_upd_posOrders f : keeps wf_keep (modify (upd_posOrders f)).
Proof. wf_elsewhere. Qed.
Lemma wf_applyLoyaltyPoints g e : keeps wf_keep (applyLoyaltyPoints g e).
Proof.
  unfold applyLoyaltyPoints, create_loyaltyTransaction, lifetimeLoyaltyPoints, now.
  keeps_tac; first [apply wf_new_id | wf_elsewhere].
Qed.
Lemma wf_move_lines ids f : keeps wf_keep (move_lines ids f).
Proof. unfold move_lines. keeps_tac; [|wf_elsewhere]. apply wf_modify. intros. apply wf_move. Qed.

Lemma wf_create l d d' row : create_lineItem l d = Ok (d', row) ->
  (forall i, LineItem.correctsLineItemId l = Some i ->
     exists o, o ∈ lineItems d /\ LineItem.id o = i /\ LineItem.amount l = (- LineItem.amount o)%Qc /\ money NUMERIC_12_2 (LineItem.amount o)) ->
  (forall k x, night_key l = Some k -> x ∈ lineItems d -> night_key x <> Some k) ->
  wf_keep d d'.
Proof.
  intros (-> & Hid & Hst & Hf)%create_lineItem_spec Hc Hn Hwf.
  apply wf_append_line; [done|done|by eapply stored_money|by apply Hst| |by rewrite (stored_night_key _ _ Hst)].
  intros i Hi. rewrite (st_corrects _ _ Hst) in Hi. split; [auto|].
  destruct (Hc i Hi) as (o & Ho & Hoi & Hoa & Hm). exists o. split_and!; [done..|].
  eapply numeric_id; [|rewrite <- Hoa; apply Hst]. by apply money_opp.
Qed.

(** A line that reverses nothing and bills no night. *)
Lemma wf_create_plain l : LineItem.correctsLineItemId l = None -> night_key l = None -> keeps wf_keep (create_lineItem l).
Proof. intros Hc Hn d d' row Hm. eapply wf_create; [exact Hm| |]; congruence. Qed.

(** The night a charge bills; the price does not matter. *)
Definition input_key (i : ChargeInput) : option (string * Z) := night_key (charge_line i (untaxed 0%Qc)).

Lemma writeCharge_inv i d d' r : writeChargeWithTaxes i d = Ok (d', r) ->
  (r = None /\ d' = d /\ in_amount i = 0%Qc) \/
  exists p parent d1 d2 u,
    (0 < in_amount i)%Qc /\
    priceCharge (taxRules d) (in_branchId i) (in_chargeType i) (in_amount i) 1 = Ok p /\
    create_lineItem (charge_line i p) d = Ok (d1, parent) /\
    for_each (taxes p) tt (fun _ t => let! _ := create_lineItem (tax_line i (LineItem.id parent) t) in ret tt) d1 = Ok (d2, u) /\
    Folios.audit (in_branchId i) (in_actorId i) "line_item.posted" (LineItem.id parent) d2 = Ok (d', tt) /\
    r = Some parent.
Proof.
  unfold writeChargeWithTaxes. destruct (dis_zero_spec (in_amount i)) as [Hz|Hz]; intros Hm; m_inv; [by left|].
  right. match goal with H : Folios.audit _ _ _ _ _ = Ok (_, ?x) |- _ => destruct x end.
  do 5 eexists. split_and!; try eassumption; [|done].
  match goal with H : dgt _ _ = false |- _ => destruct (dgt_spec 0%Qc (in_amount i)) as [?|Hge]; [done|] end.
  apply Qcnot_lt_le in Hge. apply Qcle_lt_or_eq in Hge as [?|?]; [done | congruence].
Qed.

Lemma wf_writeCharge i d d' r : writeChargeWithTaxes i d = Ok (d', r) ->
  (forall k x, input_key i = Some k -> x ∈ lineItems d -> night_key x <> Some k) -> wf_keep d d'.
Proof.
  intros [(_ & -> & _)|(p & parent & d1 & d2 & u & _ & _ & Hc & Hl & Ha & _)]%writeCharge_inv Hn; [reflexivity|].
  transitivity d1; [eapply wf_create; [exact Hc|done|exact Hn]|]. transitivity d2; [|by eapply wf_audit].
  revert Hl. apply (keeps_for_each wf_keep). intros [] t. keeps_tac. by apply wf_create_plain.
Qed.

Lemma wf_writeCharge_plain i : input_key i = None -> keeps wf_keep (writeChargeWithTaxes i).
Proof. intros Hk d d' r Hm. eapply wf_writeCharge; [exact Hm | congruence]. Qed.

Lemma routedFolio_same r f : keeps eq (routedFolio r f).
Proof. unfold routedFolio. keeps_tac. Qed.
Lemma night_rate_same r t : keeps eq (night_rate r t).
Proof. unfold night_rate. keeps_tac. Qed.

(** The night a room posting bills. *)
Lemma billed_night_key s f t x : night_key x = Some (s, t) -> billed_night s f t x = true.
Proof.
  unfold night_key, billed_night. destruct (_ && _) eqn:E; [|done]. boolp. destruct E as ((((Hr & Hd) & Hp) & Hv) & Hdel).
  destruct (LineItem.stayReservationId x) as [s'|]; [|done]. destruct (LineItem.serviceDate x) as [t'|]; [|done].
  cbv [mbind option_bind]. intros [= -> ->]. split_and!; auto.
Qed.

Lemma postRoomNight_inv r f t u d d' res : postRoomNight r f t u d = Ok (d', res) ->
  (d' = d /\ res = None /\ (isSome (List.find (billed_night (Reservation.id r) (Folio.id f) t) (lineItems d)) = true \/
     exists rate, night_rate r t d = Ok (d, rate) /\ (rate <= 0)%Qc)) \/
  (List.find (billed_night (Reservation.id r) (Folio.id f) t) (lineItems d) = None /\
   exists b rate, routedFolio r f d = Ok (d, b) /\ night_rate r t d = Ok (d, rate) /\ (0 < rate)%Qc /\
     writeChargeWithTaxes {|
        in_branchId := Reservation.branchId r; in_folioId := Folio.id b; in_amount := rate; in_chargeType := room;
        in_serviceDate := t; in_outletId := None; in_stayReservationId := Some (Reservation.id r);
        in_roomTypeId := Some (Reservation.roomTypeId r); in_packageId := None; in_dayUse := false; in_actorId := u |} d = Ok (d', res)).
Proof.
  unfold postRoomNight. intros Hm. m_inv.
  destruct (List.find _ (lineItems d)) as [x|] eqn:E; m_inv; [left; by split_and!; [..|left]|].
  match goal with H : routedFolio _ _ _ = _ |- _ => pose proof H as Hr; apply routedFolio_same in H; subst end.
  match goal with H : night_rate _ _ _ = _ |- _ => pose proof H as Hrate; apply night_rate_same in H; subst end.
  match type of Hm with context [dge ?a ?b] => destruct (dge_spec a b) as [Hle|Hgt] end; m_inv.
  - left. split_and!; [done..|]. right. eauto.
  - right. split; [done|]. do 2 eexists. split_and!; try eassumption. by apply Qcnot_le_lt.
Qed.

Lemma wf_postRoomNight r f t u : keeps wf_keep (postRoomNight r f t u).
Proof.
  intros d d' res [(-> & _ & _)|(Hno & b & rate & _ & _ & _ & Hw)]%postRoomNight_inv; [reflexivity|].
  eapply wf_writeCharge; [exact Hw|]. intros k x Hk Hx Hxk. simplify_eq/=.
  cbv in Hk. injection Hk as <-. pose proof (find_None _ _ _ Hno Hx) as Hf.
  rewrite (billed_night_key _ _ _ _ Hxk) in Hf. done.
Qed.

Lemma night_key_no_stay l : LineItem.stayReservationId l = None -> night_key l = None.
Proof. intros Hs. unfold night_key. rewrite Hs. by destruct (_ && _). Qed.
Lemma input_key_plain b f a ct t o u : input_key (plain_charge b f a ct t o u) = None.
Proof. by apply night_key_no_stay. Qed.
Lemma night_key_package l : isSome (LineItem.packageId l) = true -> night_key l = None.
Proof.
  intros Hp. unfold night_key, isSome in *. apply negb_true_iff in Hp. rewrite Hp.
  by destruct (bool_decide _), (negb (LineItem.dayUse l)).
Qed.
#[local] Hint Resolve wf_new_id wf_auditLog wf_emit wf_audit wf_upd_folios wf_upd_folioTransfers wf_upd_posOrders
  wf_applyLoyaltyPoints wf_move_lines wf_postRoomNight : keeps.

Lemma wf_plain_charge b f a ct t o u : keeps wf_keep (writeChargeWithTaxes (plain_charge b f a ct t o u)).
Proof. apply wf_writeCharge_plain, input_key_plain. Qed.
Lemma wf_routedFolio r f : keeps wf_keep (routedFolio r f).
Proof. intros d d' a Hm. apply routedFolio_same in Hm. by subst. Qed.
#[local] Hint Resolve wf_plain_charge wf_routedFolio : keeps.

Lemma wf_postDayUseCharge r f u : keeps wf_keep (postDayUseCharge r f u).
Proof. unfold postDayUseCharge. keeps_tac. by apply wf_writeCharge_plain. Qed.
Lemma wf_postPackageCharges r f t u : keeps wf_keep (postPackageCharges r f t u).
Proof. unfold postPackageCharges, postPackage. keeps_tac. apply wf_writeCharge_plain. by apply night_key_package. Qed.
#[local] Hint Resolve wf_postDayUseCharge wf_postPackageCharges : keeps.
Lemma wf_postRoomChargeForDate r f t u : keeps wf_keep (postRoomChargeForDate r f t u).
Proof. unfold postRoomChargeForDate, dayUseCharged. keeps_tac. Qed.
Lemma wf_ensurePrimaryFolio r u : keeps wf_keep (ensurePrimaryFolio r u).
Proof. unfold ensurePrimaryFolio, now. keeps_tac. Qed.
#[local] Hint Resolve wf_postRoomChargeForDate wf_ensurePrimaryFolio : keeps.

Lemma create_payment_spec p d d' row : create_payment p d = Ok (d', row) ->
  row = p (gen_random_uuid (seq d)) /\ d' = upd_payments (fun t => t ++ [row]) (upd_seq S d).
Proof. unfold create_payment. intros Hm. m_inv. match goal with H : new_id _ = _ |- _ => by apply new_id_spec in H as [-> ->] end. Qed.

Lemma wf_append_payment d p : ledger_wf d -> Payment.id p = gen_random_uuid (seq d) -> money NUMERIC_12_2 (Payment.amount p) ->
  ledger_wf (upd_payments (fun t => t ++ [p]) (upd_seq S d)).
Proof.
  intros [Hids Hseq Hmon Hpaid ? ? ? Hpi Hps] Hid Ha. split; simpl; try done.
  - intros l Hl. destruct (Hseq l Hl) as (k & Hk & ?). exists k. split; [lia | done].
  - by intros x [Hx| ->%list_elem_of_singleton]%elem_of_app; [auto|].
  - rewrite fmap_app. apply NoDup_app. split_and!; [done| |apply NoDup_singleton].
    intros x (y & -> & Hy)%list_elem_of_fmap. csimpl. rewrite list_elem_of_singleton, Hid.
    destruct (Hps y Hy) as (k & Hk & ->). intros ->%(inj gen_random_uuid). lia.
  - intros x [Hx| ->%list_elem_of_singleton]%elem_of_app.
    + destruct (Hps x Hx) as (k & Hk & ?). exists k. split; [lia | done].
    + exists (seq d). split; [lia | done].
Qed.
Lemma wf_create_payment p : (forall i, Payment.id (p i) = i /\ money NUMERIC_12_2 (Payment.amount (p i))) -> keeps wf_keep (create_payment p).
Proof. intros Hp d d' row [-> ->]%create_payment_spec Hwf. apply wf_append_payment; [done | apply Hp..]. Qed.

Lemma wf_recordPaymentInTx f dto p u : keeps wf_keep (recordPaymentInTx f dto p u).
Proof.
  unfold recordPaymentInTx, assertBranch, in_branch_currency. keeps_tac.
  all: apply wf_create_payment; intros; simpl; split; [done | by eapply numeric_money].
Qed.

Lemma wf_reverseLineItem o f u d d' c : reverseLineItem o f u d = Ok (d', c) -> o ∈ lineItems d -> wf_keep d d'.
Proof.
  unfold reverseLineItem. intros Hm Ho Hwf. m_inv. match goal with Ho : o ∈ lineItems ?e |- _ => rename e into d end.
  match goal with H : create_lineItem _ _ = Ok (?d1, _) |- _ => rename H into Hc, d1 into dc end.
  match goal with H : for_each _ _ _ _ = _ |- _ => rename H into Hl end.
  match goal with H : Folios.audit _ _ _ _ _ = _ |- _ => apply wf_audit in H; apply H; clear H end.
  assert (ledger_wf dc) as Hwf1.
  { eapply wf_create; [exact Hc| |by intros ?? Hk; rewrite night_key_no_stay in Hk|exact Hwf]. simpl. intros i [= <-]. exists o. split_and!; try done. by apply Hwf. }
  apply create_lineItem_spec in Hc as (-> & _).
  eapply (for_each_inv (fun e => ledger_wf e /\ Forall (fun t => t ∈ lineItems e) (taxes_to_reverse d o))); [| |exact Hl].
  - intros t [] e e' [] Ht [He Hall] Hb. m_inv.
    match goal with H : create_lineItem _ _ = _ |- _ => rename H into Hb end. split.
    + eapply wf_create; [exact Hb| |by intros ?? Hk; rewrite night_key_no_stay in Hk|exact He]. simpl. intros i [= <-].
      rewrite Forall_forall in Hall. exists t. split_and!; auto. by apply He, Hall.
    + apply create_lineItem_spec in Hb as (-> & _). eapply Forall_impl; [exact Hall|]. intros x Hx. simpl.
      apply elem_of_app. by left.
  - split; [done|]. apply Forall_forall. unfold taxes_to_reverse. destruct (bool_decide _); [by intros x Hx%elem_of_nil|].
    intros t [[Ht _]%elem_of_filterb _]%elem_of_filterb. simpl. apply elem_of_app. by left.
Qed.

Lemma wf_voidPayment p why u : keeps wf_keep (voidPayment p why u).
Proof.
  unfold voidPayment, findFolioOrThrow, lockLoyaltyGuest, findLoyaltyGuest, now. keeps_tac.
  all: apply wf_modify; intros d [Hids Hseq Hmon Hpaid ? ? ? Hpi Hps]; split; simpl; try done.
  all: try (intros x (y & -> & Hy)%list_elem_of_fmap; case_match; simpl; auto).
  all: unfold update_where; rewrite <- list_fmap_compose; erewrite (list_fmap_ext _ Payment.id); [done|]; intros ? x _; simpl; by case_match.
Qed.
Lemma wf_moveCharges f dto u k : keeps wf_keep (moveCharges f dto u k).
Proof. unfold moveCharges, findFolioOrThrow, withDependents, now. keeps_tac. Qed.
#[local] Hint Resolve wf_recordPaymentInTx wf_voidPayment wf_moveCharges : keeps.

Lemma wf_correctLineItem l why u : keeps wf_keep (correctLineItem l why u).
Proof.
  unfold correctLineItem, correctLineItemInTx, find_line, findFolioOrThrow, now. intros d d' c Hm. m_inv.
  match goal with H : Some _ = List.find _ (lineItems _) |- _ => symmetry in H; apply find_Some in H as [? _] end.
  match goal with H : reverseLineItem _ _ _ _ = _ |- _ => apply wf_reverseLineItem in H; [|done]; rename H into Hr end.
  etrans; [exact Hr|]. apply wf_other; simpl; done || lia.
Qed.
Lemma wf_reverseCharge l u : keeps wf_keep (reverseChargeInTx l u).
Proof.
  unfold reverseChargeInTx, findFolioOrThrow. intros d d' c Hm. m_inv.
  destruct (List.find _ (lineItems d)) as [o|] eqn:E; m_inv; [|reflexivity]. apply find_Some in E as [Ho _].
  destruct (isSome _); m_inv; [reflexivity|]. by eapply wf_reverseLineItem.
Qed.
#[local] Hint Resolve wf_correctLineItem wf_reverseCharge : keeps.

Lemma folio_op_wf {A} (m : M A) : folio_op m -> keeps wf_keep m.
Proof.
  destruct 1; unfold postPackagesForDate, backfillRoomCharges, postAdHocCharge, postOutletCharge, postChargeInTx, postCharge,
    recordPayment, recordDeposit, recordLoyaltyPaymentInTx, computeTotals,
    createAdditionalFolio, splitFolio, transferCharges, reverseTransfer, withDependents, closeFolio,
    reopenFolio, settleIfFullyPaid, findReservation, findFolioOrThrow, assertBranch, now; keeps_tac.
  all: apply wf_create_payment; intros; simpl; split; [done | by eapply numeric_money].
Qed.
End WfOps.

(** the ledger stays well formed: whatever sequence of billing operations
    commits, line ids stay unique, every amount is a non-zero whole number of
    cents that fits its column, every reversal is of exactly the amount of the
    line it reverses and no line is reversed twice, and no night of a stay is
    billed twice, whichever bills its charges were moved to. *)
Theorem ledger_invariant `{DecimalLib} `{TaxDb} `{Platform} `{Uuid} (d d' : Db) :
  ledger_wf d -> rtc folio_step d d' -> ledger_wf d'.
Proof.
  intros Hwf Hs. revert Hwf. induction Hs as [d|d d1 d' (A & m & a & Hop & Hm) _ IH]; [done|].
  intros Hwf. apply IH. by eapply folio_op_wf.
Qed.

Module LedgerWitness.
Import Hotel.

Lemma hotel_wf : ledger_wf hotel.
Proof. split; simpl; intros; try match goal with Hx : _ ∈ [] |- _ => by apply elem_of_nil in Hx end. all: constructor. Qed.

Lemma billing_step : rtc folio_step hotel hotel_billed.
Proof.
  apply rtc_once. destruct (after_ok _ _ hotel_billed_ok) as [n Hn]. do 3 eexists. split; [|exact Hn]. constructor.
Qed.

Lemma ledger_append_only_witness : ledger_le hotel hotel_billed /\ length (lineItems hotel_billed) = 8%nat.
Proof. split; [exact (ledger_append_only hotel hotel_billed billing_step) | vm_compute; reflexivity]. Defined.

Lemma ledger_invariant_witness : ledger_wf hotel_billed /\ length (lineItems hotel_billed) = 8%nat.
Proof. split; [exact (ledger_invariant hotel hotel_billed hotel_wf billing_step) | vm_compute; reflexivity]. Defined.
End LedgerWitness.
