(* ===== verification/FolioFigures.v ===== *)
(** The figures derived from a bill, and what each operation does to them. *)
From S2P Require Import Prelude Decimal Dates StayPolicies Taxes Transactions Db LoyaltyRules Packages Folios SampleHotel FolioLedger.
From Stdlib Require Import QArith Qcanon Lqa.
Import StayFees.
Local Open Scope Z_scope.

(** ** What a bill owes, exactly *)
Definition charges_on (d : Db) (f : string) : Qc := qsum (LineItem.amount <$> List.filter (standing f) (lineItems d)).
Definition paid_on (d : Db) (f : string) : Qc := qsum (Payment.amount <$> List.filter (standing_payment f) (payments d)).
Definition balance (d : Db) (f : string) : Qc := (charges_on d f - paid_on d f)%Qc.

(** A payment added, a payment voided. *)
Lemma paid_on_app d d' p f : payments d' = payments d ++ [p] ->
  paid_on d' f = (paid_on d f + (if standing_payment f p then Payment.amount p else 0))%Qc.
Proof.
  intros Hp. unfold paid_on. rewrite Hp, List.filter_app, fmap_app, qsum_app. f_equal.
  simpl. destruct (standing_payment f p); simpl; ring.
Qed.
Lemma paid_on_void d d' p f w u r : NoDup (Payment.id <$> payments d) -> p ∈ payments d -> Payment.isVoid p = false ->
  Payment.deletedAt p = None ->
  payments d' = update_where (fun x => bool_decide (Payment.id x = Payment.id p)) (Payment.with_void true w u r) (payments d) ->
  paid_on d' f = (paid_on d f - (if bool_decide (Payment.folioId p = f) then Payment.amount p else 0))%Qc.
Proof.
  intros Hnd Hp Hv Hdel Hd'. unfold paid_on. rewrite Hd'. clear Hd'.
  induction (payments d) as [|x l IH]; [by apply elem_of_nil in Hp|].
  csimpl in Hnd. apply NoDup_cons in Hnd as [Hx Hnd]. csimpl.
  assert (forall l' : list Payment.t, (forall y, y ∈ l' -> Payment.id y <> Payment.id p) ->
    update_where (fun x => bool_decide (Payment.id x = Payment.id p)) (Payment.with_void true w u r) l' = l') as Hsame.
  { intros l' Hl'. unfold update_where. etrans; [|apply list_fmap_id]. apply list_fmap_ext. intros i y Hy. simpl.
    rewrite bool_decide_false; [done|]. apply Hl'. by eapply list_elem_of_lookup_2. }
  apply elem_of_cons in Hp as [<-|Hp].
  - rewrite bool_decide_true by done. rewrite Hsame.
    + unfold standing_payment. csimpl. rewrite Hv, Hdel, andb_false_r. simpl. rewrite !andb_true_r.
      destruct (bool_decide _); csimpl; ring.
    + intros y Hy Heq. apply Hx. rewrite <- Heq. by apply list_elem_of_fmap_2.
  - rewrite bool_decide_false; [|intros Heq; apply Hx; rewrite Heq; by apply list_elem_of_fmap_2].
    specialize (IH Hnd Hp). destruct (standing_payment f x); csimpl; rewrite IH; ring.
Qed.
Lemma charges_on_same d d' f : lineItems d' = lineItems d -> charges_on d' f = charges_on d f.
Proof. intros Hl. unfold charges_on. by rewrite Hl. Qed.

(** A tenant's tables hold fewer than ten million lines and payments: running
    totals of [NUMERIC(12,2)] amounts then fit the decimal library's precision. *)
Record few_rows (d : Db) : Prop := {
  few_lines : Z.of_nat (length (lineItems d)) < 10 ^ 7;
  few_payments : Z.of_nat (length (payments d)) < 10 ^ 7;
}.

Section Figures.
Context `{DecimalLib} `{TaxDb} `{Platform} `{Uuid}.

Definition is_tax (l : LineItem.t) : bool := bool_decide (LineItem.chargeType l = tax).

(** The loops, as two sums. *)
Lemma line_totals_sums l a b :
  foldl (fun '(sub, tx) l => if is_tax l then (sub, tx ⊕ LineItem.amount l) else (sub ⊕ LineItem.amount l, tx)) (a, b) l =
  (foldl dplus a (LineItem.amount <$> List.filter (fun x => negb (is_tax x)) l), foldl dplus b (LineItem.amount <$> List.filter is_tax l)).
Proof. revert a b. induction l as [|x l IH]; intros a b; csimpl; [done|]. destruct (is_tax x); csimpl; by rewrite IH. Qed.
Lemma payment_totals_sums l a b :
  foldl (fun '(paid, dep) p => (paid ⊕ Payment.amount p,
           if bool_decide (Payment.paymentPurpose p = deposit) then dep ⊕ Payment.amount p else dep)) (a, b) l =
  (foldl dplus a (Payment.amount <$> l),
   foldl dplus b (Payment.amount <$> List.filter (fun p => bool_decide (Payment.paymentPurpose p = deposit)) l)).
Proof. revert a b. induction l as [|x l IH]; intros a b; csimpl; [done|]. destruct (bool_decide _); csimpl; by rewrite IH. Qed.

Lemma lines_money d (f g : LineItem.t -> bool) : ledger_wf d ->
  Forall (money NUMERIC_12_2) (LineItem.amount <$> List.filter f (List.filter g (lineItems d))).
Proof.
  intros Hwf. rewrite Forall_fmap. do 2 apply Forall_filterb. apply Forall_forall. intros l Hl. by apply (wf_money d Hwf).
Qed.
Lemma sum_money (l : list Qc) : Forall (money NUMERIC_12_2) l -> Z.of_nat (length l) < 10 ^ 7 ->
  foldl dplus 0%Qc l = qsum l /\ money (10 ^ 19) (qsum l).
Proof.
  intros Hm Hl. split.
  - apply (dsum_money NUMERIC_12_2); [done|unfold NUMERIC_12_2; lia|]. unfold NUMERIC_12_2, precision. lia.
  - eapply money_weaken; [|by apply qsum_money]. unfold NUMERIC_12_2. lia.
Qed.

Lemma filter2_length {A} (f g : A -> bool) l n : Z.of_nat (length l) < n -> Z.of_nat (length (List.filter f (List.filter g l))) < n.
Proof. pose proof (filter_length_le f (List.filter g l)). pose proof (filter_length_le g l). lia. Qed.

Lemma sum_lines d f g : ledger_wf d -> few_rows d ->
  let l := LineItem.amount <$> List.filter f (List.filter g (lineItems d)) in
  foldl dplus 0%Qc l = qsum l /\ money (10 ^ 19) (qsum l).
Proof.
  intros Hwf [Hl _] l. apply sum_money; [by apply lines_money|]. unfold l. rewrite length_fmap. by apply filter2_length.
Qed.
Lemma sum_payments d g : ledger_wf d -> few_rows d ->
  let l := Payment.amount <$> List.filter g (payments d) in
  foldl dplus 0%Qc l = qsum l /\ money (10 ^ 19) (qsum l).
Proof.
  intros Hwf [_ Hp] l. apply sum_money; unfold l.
  - rewrite Forall_fmap. apply Forall_filterb, Forall_forall. apply (wf_paid d Hwf).
  - rewrite length_fmap. pose proof (filter_length_le g (payments d)). lia.
Qed.

Lemma totals_exact_lemma d f : ledger_wf d -> few_rows d ->
  let t := totals_in d f in
  totalCost t = charges_on d f /\ (subTotal t + taxTotal_ t)%Qc = totalCost t /\ paymentsTotal t = paid_on d f /\
  balanceDue t = balance d f.
Proof.
  intros Hwf [Hl Hp]. unfold totals_in, line_totals, payment_totals.
  change (fun '(sub, tx) l => if bool_decide (LineItem.chargeType l = tax) then _ else _)
    with (fun '(sub, tx) l => if is_tax l then (sub, tx ⊕ LineItem.amount l) else (sub ⊕ LineItem.amount l, tx)).
  rewrite line_totals_sums, payment_totals_sums. simpl.
  destruct (sum_lines d (fun x => negb (is_tax x)) (standing f)) as [-> Hs]; [done..|].
  destruct (sum_lines d is_tax (standing f)) as [-> Ht]; [done..|].
  destruct (sum_payments d (standing_payment f)) as [-> Hpd]; [done..|].
  rewrite (dplus_money (10 ^ 19) (10 ^ 19) _ _ Hs Ht) by reflexivity.
  assert (qsum (LineItem.amount <$> List.filter (fun x => negb (is_tax x)) (List.filter (standing f) (lineItems d)))
    + qsum (LineItem.amount <$> List.filter is_tax (List.filter (standing f) (lineItems d))) = charges_on d f)%Qc as Hc.
  { unfold charges_on. rewrite <- (filter_sums is_tax LineItem.amount (List.filter (standing f) (lineItems d))). ring. }
  rewrite Hc. split_and!; [done..|].
  rewrite (dminus_money (2 * 10 ^ 19) (10 ^ 19)); [done| |exact Hpd|reflexivity].
  rewrite <- Hc. eapply money_weaken; [|apply (money_plus _ _ _ _ Hs Ht)]. lia.
Qed.

Lemma charges_money d f : ledger_wf d -> few_rows d -> money (10 ^ 19) (charges_on d f).
Proof.
  intros Hwf Hfew. unfold charges_on. eapply money_weaken; [|apply (qsum_money NUMERIC_12_2)].
  - rewrite length_fmap. pose proof (filter_length_le (standing f) (lineItems d)). destruct Hfew. unfold NUMERIC_12_2. lia.
  - rewrite Forall_fmap. apply Forall_filterb, Forall_forall. intros l Hl. by apply (wf_money d Hwf).
  - unfold NUMERIC_12_2. lia.
Qed.
Lemma start_lookup (ids : list string) f : f ∈ ids ->
  (list_to_map ((fun i => (i, 0%Qc)) <$> ids) : gmap string Qc) !! f = Some 0%Qc.
Proof.
  induction ids as [|i ids IH]; [by intros ?%elem_of_nil|]. intros Hf. csimpl.
  destruct (decide (i = f)) as [->|]; [apply lookup_insert_eq|]. rewrite lookup_insert_ne by done. apply IH. set_solver.
Qed.

(** The grouped sums. *)
Lemma group_sums_lookup rows k :
  group_sums rows !! k =
  if bool_decide (k ∈ rows.*1) then Some (qsum ((List.filter (fun r => bool_decide (fst r = k)) rows).*2)) else None.
Proof.
  induction rows as [|[k' x] rows IH]; [by rewrite bool_decide_false by apply not_elem_of_nil|].
  csimpl. destruct (decide (k' = k)) as [->|Hne].
  - rewrite lookup_insert_eq, IH. rewrite (bool_decide_true (k ∈ _ :: _)) by left. rewrite (bool_decide_true (k = k)) by done.
    csimpl. f_equal. case_bool_decide as Hin; [done|]. simpl. f_equal. rewrite filterb_nil; [done|].
    intros r Hr. apply bool_decide_eq_false. intros <-. apply Hin. by apply list_elem_of_fmap_2.
  - rewrite lookup_insert_ne, IH by done. rewrite (bool_decide_false (k' = k)) by done.
    rewrite (bool_decide_ext (k ∈ k' :: _) (k ∈ rows.*1)) by set_solver. done.
Qed.

Lemma fold_balances_lookup op sums b k :
  fold_balances op sums b !! k = match sums !! k with Some s => Some (op (default 0%Qc (b !! k)) s) | None => b !! k end.
Proof.
  unfold fold_balances. destruct (sums !! k) as [s|] eqn:E.
  - apply elem_of_map_to_list in E. pose proof (NoDup_fst_map_to_list sums) as Hnd.
    induction (map_to_list sums) as [|[k' s'] l IH] in b, E, Hnd |- *; [by apply elem_of_nil in E|].
    csimpl in Hnd. apply NoDup_cons in Hnd as [Hk' Hnd]. apply elem_of_cons in E as [[= <- <-]|E]; csimpl.
    + assert (forall b' : gmap string Qc, foldl (fun b '(k, s) => <[k:=op (default 0%Qc (b !! k)) s]> b) b' l !! k = b' !! k) as ->.
      { clear IH Hnd. induction l as [|[k2 s2] l IH]; intros b'; csimpl; [done|]. rewrite IH by set_solver.
        apply lookup_insert_ne. set_solver. }
      apply lookup_insert_eq.
    + rewrite IH by done. rewrite lookup_insert_ne; [done|]. intros ->. apply Hk'.
      change k with (fst (k, s)). by apply list_elem_of_fmap_2.
  - assert (forall x, (k, x) ∉ map_to_list sums) as Hno by (intros x Hx%elem_of_map_to_list; congruence).
    induction (map_to_list sums) as [|[k' s'] l IH] in b, Hno |- *; csimpl; [done|].
    rewrite IH by set_solver. apply lookup_insert_ne. intros ->. apply (Hno s'). left.
Qed.

(** The rows of one bill among the rows of several. *)
Lemma group_filter {A} (key : A -> string) (val : A -> Qc) (ok1 ok2 : A -> bool) (ids : list string) f l : f ∈ ids ->
  List.filter (fun r => bool_decide (fst r = f))
    ((fun x => (key x, val x)) <$> List.filter (fun x => bool_decide (key x ∈ ids) && ok1 x && ok2 x) l) =
  (fun x => (key x, val x)) <$> List.filter (fun x => bool_decide (key x = f) && ok1 x && ok2 x) l.
Proof.
  intros Hf. induction l as [|x l IH]; csimpl; [done|]. destruct (decide (key x = f)) as [Heq|Hne].
  - rewrite Heq, !bool_decide_true by done. simpl. destruct (_ && _); csimpl; [|done].
    rewrite Heq, bool_decide_true by done. by rewrite IH.
  - rewrite (bool_decide_false (key x = f)) by done. simpl. destruct (_ && _ && _); csimpl; [|done].
    by rewrite bool_decide_false.
Qed.

(** Folding one side's sums into the running balances is adding (or taking) the
    group's sum, nothing when the group is empty. *)
Lemma fold_group (op : Qc -> Qc -> Qc) rows b f x :
  b !! f = Some x -> op x 0%Qc = x ->
  fold_balances op (group_sums rows) b !! f =
  Some (op x (qsum ((List.filter (fun r => bool_decide (fst r = f)) rows).*2))).
Proof.
  intros Hb Hop. rewrite fold_balances_lookup, group_sums_lookup. case_bool_decide as Hin; [by rewrite Hb|].
  rewrite filterb_nil; [by rewrite Hb; csimpl; rewrite Hop|].
  intros r Hr. apply bool_decide_eq_false. intros <-. apply Hin. by apply list_elem_of_fmap_2.
Qed.
End Figures.

(** C37: the list's balances agree with the bill's: for every bill asked for, the
    two grouped sums give exactly the balance the bill itself shows, charges and
    taxes less payments, with no rounding anywhere. *)
Theorem balances_agree `{DecimalLib} `{Uuid} (d : Db) (ids : list string) (f : string) :
  ledger_wf d -> few_rows d -> f ∈ ids ->
  exists m, balancesFor ids d = Ok (d, m) /\ m !! f = Some (balanceDue (totals_in d f)) /\
            balanceDue (totals_in d f) = (charges_on d f - paid_on d f)%Qc.
Proof.
  intros Hwf Hfew Hf. destruct (totals_exact_lemma d f Hwf Hfew) as (_ & _ & _ & Hb).
  unfold balancesFor. eexists. split; [cbv [bind findMany gets ret]; reflexivity|]. split; [|exact Hb]. rewrite Hb.
  pose proof (charges_money d f Hwf Hfew) as Hc. destruct (sum_payments d (standing_payment f) Hwf Hfew) as [_ Hp].
  assert (forall x, money (10 ^ 19) x -> (x ⊕ 0)%Qc = x /\ (x ⊖ 0)%Qc = x /\ (0 ⊕ x)%Qc = x) as Hz.
  { intros x Hx. unfold dplus, dminus. replace (x + 0)%Qc with x by ring. replace (x - 0)%Qc with x by ring.
    replace (0 + x)%Qc with x by ring. rewrite (prec_round_money (10 ^ 19)) by done. done. }
  rewrite (fold_group dminus _ _ f (charges_on d f)); [| |by apply Hz].
  - rewrite (group_filter Payment.folioId Payment.amount) by done. rewrite <- list_fmap_compose. f_equal.
    apply (dminus_money (10 ^ 19) (10 ^ 19)); [done|done|reflexivity].
  - rewrite (fold_group dplus _ _ f 0%Qc); [|apply start_lookup; done|apply Hz, money_0; lia].
    rewrite (group_filter LineItem.folioId LineItem.amount) by done. rewrite <- list_fmap_compose. f_equal. by apply Hz.
Qed.

Module FiguresWitness.
Import Hotel LedgerWitness.
Lemma hotel_billed_wf : ledger_wf hotel_billed.
Proof.
  destruct (after_ok _ _ hotel_billed_ok) as [n Hn].
  exact (folio_op_wf _ (op_backfillRoomCharges _ _ _ _) _ _ _ Hn hotel_wf).
Qed.
Lemma hotel_billed_few : few_rows hotel_billed.
Proof. split; vm_compute; reflexivity. Qed.

Lemma balances_agree_witness : exists m, balancesFor ["f1"; "f2"] hotel_billed = Ok (hotel_billed, m) /\
  m !! "f1" = Some (balanceDue (totals_in hotel_billed "f1")).
Proof.
  destruct (balances_agree hotel_billed ["f1"; "f2"] "f1" hotel_billed_wf hotel_billed_few) as (m & Hm & Hl & _); [left|].
  exists m. split; [exact Hm | exact Hl].
Defined.
End FiguresWitness.
