(* ===== verification/FolioEffects.v ===== *)
(** What postings, corrections, payments and settlement do to a bill. *)
From S2P Require Import Prelude Decimal Dates StayPolicies Taxes Transactions Db LoyaltyRules Packages Folios SampleHotel FolioLedger FolioFigures.
From Stdlib Require Import QArith Qcanon Lqa.
Import StayFees.
Local Open Scope Z_scope.

(** A write elsewhere. *)
Definition same_lines (d d' : Db) : Prop := lineItems d' = lineItems d.
#[global] Instance same_lines_preorder : PreOrder same_lines.
Proof. split; [done|]. intros d1 d2 d3. unfold same_lines. congruence. Qed.

Section Effects.
Context `{DecimalLib} `{TaxDb} `{Platform} `{Uuid}.

Definition if_on (f g : string) (x : Qc) : Qc := if bool_decide (f = g) then x else 0%Qc.

Lemma charges_on_app d d' rows f : lineItems d' = lineItems d ++ rows ->
  charges_on d' f = (charges_on d f + qsum (LineItem.amount <$> List.filter (standing f) rows))%Qc.
Proof. intros Hl. unfold charges_on. by rewrite Hl, List.filter_app, fmap_app, qsum_app. Qed.

(** New rows of one bill. *)
Lemma standing_rows f g (rows : list LineItem.t) :
  Forall (fun l => LineItem.folioId l = g /\ LineItem.isVoid l = false /\ LineItem.deletedAt l = None) rows ->
  qsum (LineItem.amount <$> List.filter (standing f) rows) = if_on g f (qsum (LineItem.amount <$> rows)).
Proof.
  unfold if_on. induction 1 as [|l rows (Hg & Hv & Hd) Hrows IH]; csimpl; [by case_bool_decide|].
  unfold standing at 1. rewrite Hg, Hv, Hd. case_bool_decide; csimpl; by rewrite IH.
Qed.

Lemma audit_frame_lines b u a i d d' x : Folios.audit b u a i d = Ok (d', x) -> frame d d' /\ lineItems d' = lineItems d.
Proof.
  intros Hm. split; [by eapply frame_audit|]. revert d d' x Hm. change (keeps same_lines (Folios.audit b u a i)).
  unfold Folios.audit, paymentRecorded, emit, auditLog, new_id. keeps_tac; apply keeps_modify; done || apply _.
Qed.

(** The rows a posting appends. *)
Lemma writeCharge_rows i d d' r : writeChargeWithTaxes i d = Ok (d', Some r) ->
  frame d d' /\ exists p rows,
    priceCharge (taxRules d) (in_branchId i) (in_chargeType i) (in_amount i) 1 = Ok p /\ (0 < in_amount i)%Qc /\
    lineItems d' = lineItems d ++ r :: rows /\ stored_as (charge_line i p) r /\
    Forall2 (fun t row => stored_as (tax_line i (LineItem.id r) t) row) (taxes p) rows.
Proof.
  intros [(? & _)|(p & parent & d1 & d2 & u & Hpos & Hp & Hc & Hl & Ha & [= ->])]%writeCharge_inv; [done|].
  apply create_lineItem_spec in Hc as (-> & _ & Hst & _). apply for_create_spec in Hl as [Hf (rows & Hrows & Hall)].
  apply audit_frame_lines in Ha as [Hf2 Ha]. split.
  - etrans; [|exact Hf2]. etrans; [|exact Hf]. done.
  - exists p, rows. split_and!; try done. rewrite Ha, Hrows. simpl. by rewrite <- app_assoc.
Qed.

Lemma stored_tax_rows i parent ts rows :
  Forall (fun t => (0 < taxAmount t)%Qc /\ exists z, taxAmount t = cents z) ts ->
  Forall2 (fun t row => stored_as (tax_line i parent t) row) ts rows ->
  Forall (fun l => LineItem.folioId l = in_folioId i /\ LineItem.isVoid l = false /\ LineItem.deletedAt l = None) rows /\
  qsum (LineItem.amount <$> rows) = qsum (taxAmount <$> ts).
Proof.
  intros Ht Hall. induction Hall as [|t row ts rows Hst Hall IH]; [done|]. apply Forall_cons in Ht as [[_ [z Hz]] Ht].
  destruct (IH Ht) as [IH1 IH2]. split.
  - constructor; [|done]. by destruct Hst.
  - csimpl. rewrite IH2. f_equal. rewrite Hz. eapply numeric_cents. rewrite <- Hz. apply Hst.
Qed.

Lemma net_cents p : charge_balanced p -> (exists z, price p = cents z) -> exists z, net p = cents z.
Proof.
  intros [Hl Hn _ _ _ Hi] [a Ha]. assert (exists b, includedTax p = cents b) as [b Hb].
  { rewrite Hi. clear Hi. assert (Forall (fun t => exists z, taxAmount t = cents z) (List.filter (fun t => inclusive (tax_rule t)) (taxes p))) as Hf.
    { apply Forall_filterb. eapply Forall_impl; [exact Hl|]. by intros t [_ ?]. }
    clear Hl Hn Ha. induction Hf as [|t ts [z Hz] Hts [b Hb]]; csimpl; [exists 0; symmetry; apply decimal_0|].
    exists (z + b). rewrite Hz, Hb. apply decimal_plus. }
  exists (a - b). replace (net p) with (price p - includedTax p)%Qc by (rewrite <- Hn; ring). rewrite Ha, Hb. apply decimal_minus.
Qed.
End Effects.

Lemma posting_quoted `{DecimalLib} `{TaxDb} `{!TaxDbOk} `{Platform} `{Uuid} i d d' r :
  charge_ok (taxRules d) (in_amount i) 1 -> writeChargeWithTaxes i d = Ok (d', Some r) ->
  exists p, previewCharge (in_branchId i) (in_chargeType i) (in_amount i) d = Ok (d, p) /\ charge_balanced p /\
    LineItem.amount r = net p /\
    forall f, balance d' f = (balance d f + if_on (in_folioId i) f (total p))%Qc.
Proof.
  intros Hok [Hf (p & rows & Hp & Hpos & Hl & Hst & Hall)]%writeCharge_rows.
  destruct (charge_balances _ _ _ _ _ _ Hok Hp) as [Hbal Hprice]. exists p.
  split; [unfold previewCharge; cbv [bind gets lift]; by rewrite Hp|]. split; [done|].
  assert (LineItem.amount r = net p) as Hnet.
  { destruct (net_cents p Hbal) as [z Hz].
    { rewrite Hprice. destruct (ok_price _ _ _ Hok) as (z & _ & ->). by exists z. }
    pose proof (st_amount _ _ Hst) as Ha. simpl in Ha. rewrite Hz in *. by eapply numeric_cents. }
  split; [done|]. intros f. destruct (stored_tax_rows _ _ _ _ (lines_positive _ Hbal) Hall) as [Hrows Hsum].
  unfold balance, paid_on. rewrite (fr_payments _ _ Hf), (charges_on_app d d' (r :: rows) f Hl).
  rewrite (standing_rows f (in_folioId i)) by (constructor; [by destruct Hst | done]).
  csimpl. rewrite Hsum, Hnet, <- (taxTotal_lines _ Hbal), <- (total_net _ Hbal). unfold Qcminus. ring.
Qed.

(** a charge posts what it was quoted: when a posting commits, the quote for
    it ([previewCharge]) succeeds on the same tables, its lines balance, and the
    bill charged owes exactly the quoted total more while every other bill's
    balance is unchanged. *)
Theorem posting_as_quoted `{DecimalLib} `{TaxDb} `{!TaxDbOk} `{Platform} `{Uuid} i d d' r :
  charge_ok (taxRules d) (in_amount i) 1 -> writeChargeWithTaxes i d = Ok (d', Some r) ->
  exists p, previewCharge (in_branchId i) (in_chargeType i) (in_amount i) d = Ok (d, p) /\ charge_balanced p /\
    LineItem.amount r = net p /\
    forall f, balance d' f = (balance d f + if_on (in_folioId i) f (total p))%Qc.
Proof. apply posting_quoted. Qed.

Module PostingWitness.
Import Hotel LedgerWitness FiguresWitness.
Definition minibar_charge : ChargeInput := plain_charge "b1" "f1" (cents 5000) minibar (day 20000) None (Some "u1").
Lemma minibar_ok : is_ok (writeChargeWithTaxes minibar_charge hotel) = true.
Proof. vm_compute. reflexivity. Qed.
Lemma hotel_charge_ok z : 0 < z < NUMERIC_12_2 -> charge_ok (taxRules hotel) (cents z) 1.
Proof.
  intros Hz. split; [|vm_compute; discriminate | exists z; split; [lia | reflexivity] | lia].
  constructor; [|constructor]. split; [split; vm_compute; discriminate | exact I].
Qed.

Lemma posting_as_quoted_witness : exists d' r p,
  writeChargeWithTaxes minibar_charge hotel = Ok (d', Some r) /\ balance d' "f1" = (balance hotel "f1" + if_on "f1" "f1" (total p))%Qc.
Proof.
  destruct (run_ok _ _ minibar_ok) as (d' & o & Hm). destruct o as [r|].
  - destruct (posting_as_quoted minibar_charge hotel d' r (hotel_charge_ok 5000 ltac:(unfold NUMERIC_12_2; lia)) Hm)
      as (p & _ & _ & _ & Hb).
    exists d', r, p. split; [exact Hm | exact (Hb "f1")].
  - exfalso. apply writeCharge_inv in Hm as [(_ & _ & Hz)|(? & ? & ? & ? & ? & Hrest)].
    + revert Hz. vm_compute. discriminate.
    + destruct Hrest as (_ & _ & _ & _ & _ & Hsome). discriminate Hsome.
Defined.
End PostingWitness.

(** ** Corrections *)
Section Corrections.
Context `{DecimalLib} `{TaxDb} `{Platform} `{Uuid}.

Lemma taxes_to_reverse_in d o t : t ∈ taxes_to_reverse d o ->
  t ∈ lineItems d /\ standing_tax_of o t = true /\ corrected_by d (LineItem.id t) = None /\ LineItem.chargeType o <> tax.
Proof.
  unfold taxes_to_reverse. case_bool_decide as Ht; [by intros ?%elem_of_nil|].
  intros [[Hin Hs]%elem_of_filterb Hc]%elem_of_filterb. apply isNone_eq in Hc. done.
Qed.

Lemma negated_stored l row : money NUMERIC_12_2 (LineItem.amount l) ->
  numeric (- LineItem.amount l)%Qc = Ok (LineItem.amount row) -> LineItem.amount row = (- LineItem.amount l)%Qc.
Proof. intros Hm. apply numeric_id with NUMERIC_12_2. by apply money_opp. Qed.

Lemma reverse_rows o f u d d' c : reverseLineItem o f u d = Ok (d', c) -> ledger_wf d -> o ∈ lineItems d ->
  corrected_by d (LineItem.id o) = None /\ frame d d' /\ exists revs,
    lineItems d' = lineItems d ++ c :: revs /\
    Forall (fun l => LineItem.folioId l = LineItem.folioId o /\ LineItem.isVoid l = false /\ LineItem.deletedAt l = None) (c :: revs) /\
    LineItem.correctsLineItemId c = Some (LineItem.id o) /\ LineItem.amount c = (- LineItem.amount o)%Qc /\
    LineItem.parentLineItemId c = None /\
    Forall2 (fun t row => LineItem.correctsLineItemId row = Some (LineItem.id t) /\ LineItem.amount row = (- LineItem.amount t)%Qc /\
               LineItem.parentLineItemId row = Some (LineItem.id c)) (taxes_to_reverse d o) revs.
Proof.
  unfold reverseLineItem. intros Hm Hwf Ho. m_inv. match goal with Ho : o ∈ lineItems ?e |- _ => rename e into d end.
  match goal with H : create_lineItem _ _ = Ok _ |- _ => apply create_lineItem_spec in H as (-> & _ & Hst & _) end.
  match goal with H : for_each _ _ _ _ = _ |- _ => apply for_create_spec in H as [Hf (rows & Hrows & Hall)] end.
  match goal with H : Folios.audit _ _ _ _ _ = _ |- _ => apply audit_frame_lines in H as [Hf2 Ha] end.
  split; [by destruct (corrected_by d (LineItem.id o))|]. split; [etrans; [|exact Hf2]; etrans; [|exact Hf]; done|].
  exists rows. split_and!.
  - rewrite Ha, Hrows. simpl. by rewrite <- app_assoc.
  - constructor; [by destruct Hst|]. apply Forall_forall. intros row Hrow.
    apply list_elem_of_lookup in Hrow as [k Hk]. destruct (Forall2_lookup_r _ _ _ _ _ Hall Hk) as (t & Ht & Hrst).
    apply list_elem_of_lookup_2, taxes_to_reverse_in in Ht as (_ & Hs & _). destruct Hrst. simpl in *.
    unfold standing_tax_of in Hs. boolp. destruct_and!. split_and!; congruence.
  - by destruct Hst.
  - eapply negated_stored; [by apply (wf_money d Hwf)|]. apply Hst.
  - by destruct Hst.
  - apply Forall2_same_length_lookup. split; [by eapply Forall2_length|]. intros k t row Ht Hr.
    pose proof (Forall2_lookup_lr _ _ _ _ _ _ Hall Ht Hr) as Hrst.
    apply list_elem_of_lookup_2, taxes_to_reverse_in in Ht as (Hin & _). split_and!; [by destruct Hrst| |by destruct Hrst].
    eapply negated_stored; [by apply (wf_money d Hwf)|]. apply Hrst.
Qed.

Lemma reversed_sum (ts rows : list LineItem.t) (P : LineItem.t -> LineItem.t -> Prop) :
  (forall t row, P t row -> LineItem.amount row = (- LineItem.amount t)%Qc) -> Forall2 P ts rows ->
  qsum (LineItem.amount <$> rows) = (- qsum (LineItem.amount <$> ts))%Qc.
Proof. intros HP. induction 1 as [|t row ts rows Hst Hall IH]; csimpl; [ring|]. rewrite IH, (HP _ _ Hst). ring. Qed.

(** A line reversed stays reversed as the ledger grows. *)
Lemma corrected_by_app d d' rows c i : lineItems d' = lineItems d ++ rows -> c ∈ rows ->
  LineItem.correctsLineItemId c = Some i -> isSome (corrected_by d' i) = true.
Proof.
  intros Hl Hc Hi. unfold corrected_by. destruct (List.find _ (lineItems d')) as [x|] eqn:E; [done|]. exfalso.
  assert (c ∈ lineItems d') as Hin by (rewrite Hl; apply elem_of_app; by right).
  pose proof (find_None _ _ _ E Hin) as Hno. simpl in Hno. by apply bool_decide_eq_false in Hno.
Qed.

Lemma find_app {A} (w : A -> bool) l1 l2 x : List.find w l1 = Some x -> List.find w (l1 ++ l2) = Some x.
Proof. induction l1 as [|y l1 IH]; simpl; [done|]. destruct (w y); auto. Qed.
Lemma corrected_by_old d d' rows i : lineItems d' = lineItems d ++ rows -> corrected_by d' i = None -> corrected_by d i = None.
Proof.
  intros Hl. unfold corrected_by. rewrite Hl. destruct (List.find _ (lineItems d)) as [x|] eqn:E; [|done].
  by rewrite (find_app _ _ _ _ E).
Qed.

Lemma no_tax_left o f u d d' c : reverseLineItem o f u d = Ok (d', c) -> ledger_wf d -> o ∈ lineItems d ->
  taxes_to_reverse d' o = [].
Proof.
  intros Hm Hwf Ho. pose proof (wf_reverseLineItem _ _ _ _ _ _ Hm Ho Hwf) as Hwf'.
  destruct (reverse_rows _ _ _ _ _ _ Hm Hwf Ho) as (_ & _ & revs & Hl & _ & _ & _ & Hcp & Hall).
  destruct (taxes_to_reverse d' o) as [|t ts] eqn:E; [done|]. exfalso.
  assert (t ∈ taxes_to_reverse d' o) as Ht by (rewrite E; left). clear E.
  destruct (taxes_to_reverse_in _ _ _ Ht) as (Hin & Hs & Hun & Hnt). rewrite Hl in Hin.
  apply elem_of_app in Hin as [Hin|Hin].
  - assert (t ∈ taxes_to_reverse d o) as Hold.
    { unfold taxes_to_reverse. rewrite bool_decide_false by done. rewrite !elem_of_filterb. split; [done|].
      by rewrite (corrected_by_old _ _ _ _ Hl Hun). }
    apply list_elem_of_lookup in Hold as [k Hk]. destruct (Forall2_lookup_l _ _ _ _ _ Hall Hk) as (row & Hrow & Hcr & _).
    apply list_elem_of_lookup_2 in Hrow.
    pose proof (corrected_by_app d d' (c :: revs) row _ Hl ltac:(by right) Hcr) as Hbad. by rewrite Hun in Hbad.
  - assert (LineItem.parentLineItemId t = Some (LineItem.id o)) as Hpar.
    { unfold standing_tax_of in Hs. boolp. by destruct_and!. }
    assert (LineItem.id c <> LineItem.id o) as Hne.
    { pose proof (wf_ids _ Hwf') as Hnd. rewrite Hl, fmap_app in Hnd. apply NoDup_app in Hnd as (_ & Hd & _).
      intros Heq. apply (Hd (LineItem.id o)); [by apply list_elem_of_fmap_2|]. csimpl. rewrite Heq. left. }
    apply elem_of_cons in Hin as [->|Hin]; [congruence|].
    apply list_elem_of_lookup in Hin as [k Hk]. destruct (Forall2_lookup_r _ _ _ _ _ Hall Hk) as (x & _ & _ & _ & Hp). congruence.
Qed.

Lemma reverse_balance o f u d d' c g : reverseLineItem o f u d = Ok (d', c) -> ledger_wf d -> o ∈ lineItems d ->
  balance d' g = (balance d g - if_on (LineItem.folioId o) g (LineItem.amount o + qsum (LineItem.amount <$> taxes_to_reverse d o)))%Qc.
Proof.
  intros Hm Hwf Ho. destruct (reverse_rows _ _ _ _ _ _ Hm Hwf Ho) as (_ & Hf & revs & Hl & Hrows & _ & Hc & _ & Hall).
  assert (qsum (LineItem.amount <$> revs) = - qsum (LineItem.amount <$> taxes_to_reverse d o))%Qc as Hs.
  { eapply reversed_sum; [|exact Hall]. by intros ? ? (_ & ? & _). }
  unfold balance, paid_on. rewrite (fr_payments _ _ Hf), (charges_on_app d d' _ g Hl), (standing_rows g (LineItem.folioId o)) by done.
  csimpl. rewrite Hc, Hs. unfold if_on. case_bool_decide; ring.
Qed.
End Corrections.

(** C30: a correction takes a charge back exactly, and once: the bill it sits on
    owes the charge and every tax still standing on it less, no other bill
    changes, no tax of the charge is left standing, and a second correction of
    the same line is refused. *)
Theorem correction_exact `{DecimalLib} `{TaxDb} `{Platform} `{Uuid} i why u d d' c :
  ledger_wf d -> correctLineItem i why u d = Ok (d', c) ->
  exists o, o ∈ lineItems d /\ LineItem.id o = i /\ LineItem.amount c = (- LineItem.amount o)%Qc /\
    (forall f, balance d' f = (balance d f - if_on (LineItem.folioId o) f
                                 (LineItem.amount o + qsum (LineItem.amount <$> taxes_to_reverse d o)))%Qc) /\
    taxes_to_reverse d' o = [] /\
    (forall why' u', correctLineItem i why' u' d' = Err conflict).
Proof.
  unfold correctLineItem, correctLineItemInTx, find_line, findFolioOrThrow, now. intros Hwf Hm. m_inv.
  match goal with H : Some ?x = List.find _ (lineItems ?e) |- _ => rename x into o, e into d, H into Hfo end.
  match goal with H : Some ?x = List.find _ (folios _) |- _ => rename x into fo, H into Hff end.
  match goal with H : reverseLineItem _ _ _ _ = Ok (?e, _) |- _ => rename H into Hr, e into d1 end.
  match goal with H : assertFolioOpen _ = Ok _ |- _ => rename H into Hopen end.
  symmetry in Hfo, Hff. pose proof (find_Some _ _ _ Hfo) as [Ho Hid]. apply andb_true_iff in Hid as [Hid _]. apply bool_decide_eq_true in Hid.
  destruct (reverse_rows _ _ _ _ _ _ Hr Hwf Ho) as (_ & Hf & revs & Hl & _ & Hcc & Hca & _).
  exists o. split_and!; [done..| | |].
  - intros f. change (balance d1 f = (balance d f - if_on (LineItem.folioId o) f
                        (LineItem.amount o + qsum (LineItem.amount <$> taxes_to_reverse d o)))%Qc). by eapply reverse_balance.
  - exact (no_tax_left _ _ _ _ _ _ Hr Hwf Ho).
  - intros why' u'. pose proof (corrected_by_app d d1 (c :: revs) c _ Hl ltac:(left) Hcc) as Hdone.
    cbv [orThrow findFirst gets bind lift]. simpl lineItems. rewrite Hl, (find_app _ _ _ _ Hfo). simpl or_throw. cbv iota beta.
    simpl folios. rewrite (fr_folios _ _ Hf), Hff. simpl or_throw. cbv iota beta. rewrite Hopen.
    unfold reverseLineItem. cbv [bind gets lift]. unfold corrected_by in *. simpl lineItems. by rewrite Hdone.
Qed.

Module CorrectionWitness.
Import Hotel LedgerWitness FiguresWitness.
Lemma correct_ok : is_ok (correctLineItem "4" "wrong night" "u1" hotel_billed) = true.
Proof. vm_compute. reflexivity. Qed.
Lemma correction_exact_witness : exists d' c o,
  correctLineItem "4" "wrong night" "u1" hotel_billed = Ok (d', c) /\ LineItem.id o = "4" /\ taxes_to_reverse d' o = [].
Proof.
  destruct (run_ok _ _ correct_ok) as (d' & c & Hm).
  destruct (correction_exact "4" "wrong night" "u1" hotel_billed d' c hotel_billed_wf Hm) as (o & _ & Hid & _ & _ & Ht & _).
  exists d', c, o. split; [exact Hm|]. split; [exact Hid | exact Ht].
Defined.
End CorrectionWitness.
