(* ===== verification/FolioNights.v ===== *)
(** Room-night accrual: every night elapsed is billed, once, however many times
    and from however many places the posting runs. *)
From S2P Require Import Prelude Decimal Dates StayPolicies Taxes Transactions Db LoyaltyRules Packages Folios SampleHotel FolioLedger FolioFigures FolioEffects.
From Stdlib Require Import QArith Qcanon Lqa.
Import StayFees NightlyRates.
Local Open Scope Z_scope.

Definition lines_ext (d d' : Db) : Prop := exists new, lineItems d' = lineItems d ++ new.
#[global] Instance lines_ext_preorder : PreOrder lines_ext.
Proof.
  split; [intros d; exists []; by rewrite app_nil_r|]. intros d1 d2 d3 [n1 H1] [n2 H2]. exists (n1 ++ n2). by rewrite H2, H1, app_assoc.
Qed.

(** A step is [settled] once it has run: whatever lines come after, running it
    again changes nothing. *)
Definition settles {A B} (Q : A -> A -> Prop) (body : A -> B -> M A) (x : B) : Prop :=
  forall a d d' a', body a x d = Ok (d', a') ->
  lines_ext d d' /\ forall a2 d1, lines_ext d' d1 -> exists a3, body a2 x d1 = Ok (d1, a3) /\ Q a2 a3.

Definition any {A} (_ _ : A) : Prop := True.
#[global] Instance any_preorder {A} : PreOrder (any (A := A)).
Proof. by split. Qed.

Lemma for_each_settles {A B} (Q : A -> A -> Prop) `{!PreOrder Q} (body : A -> B -> M A) l a d d' a' :
  (forall x, x ∈ l -> settles Q body x) -> for_each l a body d = Ok (d', a') ->
  lines_ext d d' /\ forall a2 d1, lines_ext d' d1 -> exists a3, for_each l a2 body d1 = Ok (d1, a3) /\ Q a2 a3.
Proof.
  revert a d. induction l as [|x l IH]; intros a d Hb Hm; simpl in Hm.
  - m_inv. split; [reflexivity|]. intros a2 d1 _. exists a2. by split.
  - apply bind_Ok in Hm as (dm & am & Hx & Hl). destruct (Hb x ltac:(left) _ _ _ _ Hx) as [He1 Hr1].
    destruct (IH am dm ltac:(intros; apply Hb; by right) Hl) as [He2 Hr2]. split; [by etrans|].
    intros a2 d1 Hext. destruct (Hr1 a2 d1 ltac:(by etrans)) as (a3 & Hb3 & HQ3).
    destruct (Hr2 a3 d1 Hext) as (a4 & Hb4 & HQ4). exists a4. split; [|by etrans].
    simpl. unfold bind. by rewrite Hb3.
Qed.

Section Nights.
Context `{DecimalLib} `{TaxDb} `{Platform} `{Uuid}.

Lemma find_ext {A} (w : A -> bool) l1 l2 : isSome (List.find w l1) = true -> isSome (List.find w (l1 ++ l2)) = true.
Proof. destruct (List.find w l1) as [x|] eqn:E; [|done]. by rewrite (find_app _ _ _ _ E). Qed.
Lemma find_elem {A} (w : A -> bool) l x : x ∈ l -> w x = true -> isSome (List.find w l) = true.
Proof. intros Hx Hw. destruct (List.find w l) eqn:E; [done|]. by rewrite (find_None _ _ _ E Hx) in Hw. Qed.

Lemma writeCharge_ext i d d' r : writeChargeWithTaxes i d = Ok (d', r) -> lines_ext d d'.
Proof.
  intros Hm. destruct r as [r|].
  - apply writeCharge_rows in Hm as [_ (p & rows & _ & _ & Hl & _)]. by exists (r :: rows).
  - apply writeCharge_inv in Hm as [(_ & -> & _)|(? & ? & ? & ? & ? & _ & _ & _ & _ & _ & Hs)]; [reflexivity | done].
Qed.

Lemma writeCharge_zero i d : in_amount i = 0%Qc -> writeChargeWithTaxes i d = Ok (d, None).
Proof. intros Hz. unfold writeChargeWithTaxes. by destruct (dis_zero_spec (in_amount i)). Qed.
(** A posting of a positive amount leaves its line. *)
Lemma writeCharge_posts i d d' r : writeChargeWithTaxes i d = Ok (d', r) -> in_amount i <> 0%Qc ->
  exists l, r = Some l /\ l ∈ lineItems d' /\ LineItem.chargeType l = in_chargeType i /\
    LineItem.serviceDate l = Some (in_serviceDate i) /\ LineItem.dayUse l = in_dayUse i /\ LineItem.isVoid l = false /\
    LineItem.deletedAt l = None /\ LineItem.stayReservationId l = in_stayReservationId i /\
    LineItem.packageId l = in_packageId i /\ LineItem.correctsLineItemId l = None.
Proof.
  intros Hm Hnz. pose proof Hm as [(_ & _ & Hz)|(? & l & ? & ? & ? & _ & _ & _ & _ & _ & ->)]%writeCharge_inv; [done|].
  apply writeCharge_rows in Hm as [_ (p & rows & _ & _ & Hl & Hst & _)]. exists l. destruct Hst. split_and!; try done.
  rewrite Hl. apply elem_of_app. right. left.
Qed.

Lemma routedFolio_total r f d : exists b, routedFolio r f d = Ok (d, b).
Proof.
  unfold routedFolio. destruct (Reservation.billToFolioId r); [|by eexists]. destruct (bool_decide _); [by eexists|].
  cbv [bind findFirst gets ret]. by eexists.
Qed.

Lemma night_rate_stable r t d d1 rate : Reservation.isDayUse r = false ->
  night_rate r t d = Ok (d, rate) -> night_rate r t d1 = Ok (d1, rate).
Proof.
  intros Hd. unfold night_rate. rewrite Hd. destruct (Reservation.overrideRate r); [by intros [= ->]|].
  intros Hm. m_inv. cbv [bind lift ret]. by rewrite Hm0.
Qed.

Lemma postRoomNight_settles r f t u : Reservation.isDayUse r = false ->
  forall d d' x, postRoomNight r f t u d = Ok (d', x) ->
  lines_ext d d' /\ forall d1, lines_ext d' d1 -> postRoomNight r f t u d1 = Ok (d1, None).
Proof.
  intros Hdu d d' x Hm.
  assert (forall d1, isSome (List.find (billed_night (Reservation.id r) (Folio.id f) t) (lineItems d1)) = true ->
            postRoomNight r f t u d1 = Ok (d1, None)) as Hbilled.
  { intros d1 Hs. unfold postRoomNight. cbv [bind findFirst gets]. by destruct (List.find _ _). }
  apply postRoomNight_inv in Hm as [(-> & -> & Hcase)|(Hno & b & rate & _ & _ & Hpos & Hw)].
  - split; [reflexivity|]. intros d1 [new Hl]. destruct Hcase as [Hs|(rate & Hr & Hle)].
    + apply Hbilled. rewrite Hl. by apply find_ext.
    + destruct (isSome (List.find (billed_night (Reservation.id r) (Folio.id f) t) (lineItems d1))) eqn:E; [by apply Hbilled|].
      unfold postRoomNight. destruct (routedFolio_total r f d1) as [b Hb].
      cbv [bind findFirst gets]. destruct (List.find _ _); [done|]. rewrite Hb, (night_rate_stable r t d d1 rate Hdu Hr).
      by destruct (dge_spec 0%Qc rate).
  - split; [by eapply writeCharge_ext|]. intros d1 [new Hl]. apply Hbilled. rewrite Hl. apply find_ext.
    destruct (writeCharge_posts _ _ _ _ Hw) as (l & _ & Hin & Hct & Hsd & Hday & Hv & Hdel & Hst & _).
    { simpl. intros ->. by apply Qclt_not_eq in Hpos. }
    eapply find_elem; [exact Hin|]. unfold billed_night. simpl in *. rewrite Hct, Hsd, Hday, Hv, Hdel, Hst.
    rewrite (bool_decide_true (Some t = _)), (bool_decide_true (Some (Reservation.id r) = _)) by done. done.
Qed.

Lemma postPackage_settles r f t u pkg : settles any (postPackage r f t u) pkg.
Proof.
  intros bt d d' bt' Hm.
  assert (forall bt2 d1, isSome (List.find (billed_package (Reservation.id r) pkg t) (lineItems d1)) = true ->
            exists a3, postPackage r f t u bt2 pkg d1 = Ok (d1, a3) /\ True) as Hbilled.
  { intros bt2 d1 Hs. unfold postPackage. destruct (before_added pkg t); [by eexists|].
    destruct (package_due r pkg t); [|by eexists]. simpl. cbv [bind findFirst gets]. destruct (List.find _ _); [by eexists | done]. }
  unfold postPackage in Hm. destruct (before_added pkg t) eqn:Eadd.
  { m_inv. split; [reflexivity|]. intros bt2 d1 _. unfold postPackage. rewrite Eadd. by eexists. }
  destruct (package_due r pkg t) eqn:Edue; simpl in Hm.
  2:{ m_inv. split; [reflexivity|]. intros bt2 d1 _. unfold postPackage. rewrite Eadd, Edue. by eexists. }
  m_inv. destruct (List.find _ _) as [x|] eqn:Efind.
  { m_inv. split; [reflexivity|]. intros bt2 d1 [new Hl]. apply Hbilled. rewrite Hl. apply find_ext. by rewrite Efind. }
  m_inv.
  match goal with H : match bt with _ => _ end _ = Ok (?e, _) |- _ => assert (e = d) as -> by (destruct bt; [by m_inv | by apply routedFolio_same in H]); clear H end.
  match goal with H : chargePerPosting _ _ = Ok ?a |- _ => rename H into Hamt, a into amount end.
  match goal with H : match pkg_chargeType pkg with _ => _ end _ = Ok _ |- _ => rename H into Hw end.
  destruct (dis_zero_spec amount) as [Hz|Hnz].
  - assert (d' = d) as ->.
    { destruct (pkg_chargeType pkg); [|by m_inv].
      apply writeCharge_inv in Hw as [(_ & -> & _)|(? & ? & ? & ? & ? & Hpos & _)]; [done|]. simpl in Hpos. subst. by destruct (Qclt_not_eq _ _ Hpos). }
    split; [reflexivity|]. intros bt2 d1 _.
    destruct (isSome (List.find (billed_package (Reservation.id r) pkg t) (lineItems d1))) eqn:E; [by apply Hbilled|].
    unfold postPackage. rewrite Eadd, Edue. cbn [negb]. subst amount.
    erewrite bind_run by reflexivity. cbv beta. destruct (List.find _ (lineItems d1)); [done|].
    destruct (routedFolio_total r f d1) as [b Hb].
    assert (exists b', (match bt2 with Some b => ret b | None => routedFolio r f end) d1 = Ok (d1, b')) as [b' Hb'].
    { destruct bt2; eauto. }
    rewrite (bind_run _ _ _ _ _ Hb'). rewrite (bind_run _ _ d1 d1 0%Qc) by (unfold lift; by rewrite Hamt).
    rewrite (bind_run _ _ d1 d1 None); [by eexists|]. destruct (pkg_chargeType pkg); [by apply writeCharge_zero | done].
  - destruct (pkg_chargeType pkg) as [ct|]; [|by m_inv].
    split; [by eapply writeCharge_ext|]. intros bt2 d1 [new Hl]. apply Hbilled. rewrite Hl. apply find_ext.
    destruct (writeCharge_posts _ _ _ _ Hw Hnz) as (l & _ & Hin & _ & Hsd & _ & Hv & Hdel & Hst & Hp & Hc).
    eapply find_elem; [exact Hin|]. unfold billed_package. simpl in *. rewrite Hsd, Hv, Hdel, Hst, Hp, Hc.
    rewrite (bool_decide_true (Some t = _)), !bool_decide_true by done. by rewrite orb_true_r.
Qed.

Lemma postPackageCharges_ext r f t u d d' x : postPackageCharges r f t u d = Ok (d', x) -> lines_ext d d'.
Proof.
  unfold postPackageCharges. intros Hm. m_inv.
  match goal with H : for_each _ _ _ _ = _ |- _ =>
    by destruct (for_each_settles any _ _ _ _ _ _ (fun x _ => postPackage_settles r f t u x) H) end.
Qed.

Lemma postRoomChargeForDate_settles r f t u : Reservation.isDayUse r = false ->
  forall d d' x, postRoomChargeForDate r f t u d = Ok (d', x) ->
  lines_ext d d' /\ forall d1, lines_ext d' d1 -> postRoomChargeForDate r f t u d1 = Ok (d1, None).
Proof.
  intros Hdu d d' x Hm. unfold postRoomChargeForDate in Hm. rewrite Hdu in Hm. simpl in Hm. unfold postPackageCharges in Hm. m_inv.
  match goal with H : postRoomNight _ _ _ _ _ = _ |- _ => destruct (postRoomNight_settles r f t u Hdu _ _ _ H) as [He1 Hr1] end.
  match goal with H : for_each _ _ _ _ = _ |- _ =>
    destruct (for_each_settles any _ _ _ _ _ _ (fun x _ => postPackage_settles r f t u x) H) as [He2 Hr2] end.
  split; [by etrans|]. intros e Hext. unfold postRoomChargeForDate, postPackageCharges. rewrite Hdu. simpl. cbv [bind ret].
  rewrite (Hr1 e) by (by etrans). destruct (Hr2 None e Hext) as (a3 & -> & _). done.
Qed.
End Nights.

(** The check-out loop, one night at a time. *)
Lemma backfill_settles `{DecimalLib} `{TaxDb} `{Platform} `{Uuid} r f today u d d' n :
  Reservation.isDayUse r = false -> backfillRoomCharges r f today u d = Ok (d', n) ->
  lines_ext d d' /\ forall d1, lines_ext d' d1 -> backfillRoomCharges r f today u d1 = Ok (d1, 0).
Proof.
  intros Hdu Hm. unfold backfillRoomCharges in *. eapply (for_each_settles eq) in Hm as [He Hr].
  - split; [exact He|]. intros d1 Hext. destruct (Hr 0 d1 Hext) as (a3 & Ha & <-). exact Ha.
  - intros t _ a e e' a' Hb. m_inv.
    match goal with H : postRoomChargeForDate _ _ _ _ _ = _ |- _ => destruct (postRoomChargeForDate_settles r f t u Hdu _ _ _ H) as [Hx Hs] end.
    split; [exact Hx|]. intros a2 e1 Hxx. exists a2. by rewrite (bind_run _ _ _ _ _ (Hs e1 Hxx)).
Qed.

(** accrual is safe to repeat: once a stay's elapsed nights (and packages)
    have been posted, running the posting again, from check-out, the night audit
    or twice in a row, and after whatever other lines were added meanwhile,
    posts nothing and changes nothing. *)
Theorem accrual_idempotent `{DecimalLib} `{TaxDb} `{Platform} `{Uuid} r f today u d d' n :
  Reservation.isDayUse r = false -> backfillRoomCharges r f today u d = Ok (d', n) ->
  forall d1, lines_ext d' d1 -> backfillRoomCharges r f today u d1 = Ok (d1, 0).
Proof. intros Hdu Hm. by apply (backfill_settles r f today u d d' n). Qed.

(** Each turn of a committed loop ran, on a state between the first and the last. *)
Lemma for_each_turn {A B} (R : Db -> Db -> Prop) `{!PreOrder R} (l : list B) (a a' : A) body d d' x :
  (forall a x, keeps R (body a x)) -> for_each l a body d = Ok (d', a') -> x ∈ l ->
  exists a1 a2 e e', body a1 x e = Ok (e', a2) /\ R d e /\ R e' d'.
Proof.
  intros Hb. revert a d. induction l as [|y l IH]; intros a d Hm Hx; [by apply elem_of_nil in Hx|].
  simpl in Hm. apply bind_Ok in Hm as (dm & am & Hy & Hl). apply elem_of_cons in Hx as [->|Hx].
  - exists a, am, d, dm. split_and!; [done|reflexivity|]. eapply keeps_for_each; [apply _|exact Hb|exact Hl].
  - destruct (IH am dm Hl Hx) as (a1 & a2 & e & e' & ? & He & ?). exists a1, a2, e, e'. split_and!; [done| |done].
    etrans; [by eapply Hb | exact He].
Qed.

Lemma postRoomNight_bills `{DecimalLib} `{TaxDb} `{Platform} `{Uuid} r f t u d0 d d' x rate :
  Reservation.isDayUse r = false -> postRoomNight r f t u d = Ok (d', x) ->
  night_rate r t d0 = Ok (d0, rate) -> (0 < rate)%Qc ->
  isSome (List.find (billed_night (Reservation.id r) (Folio.id f) t) (lineItems d')) = true.
Proof.
  intros Hdu Hm Hrate Hpos. destruct (postRoomNight_settles r f t u Hdu _ _ _ Hm) as [_ Hs].
  specialize (Hs d' ltac:(reflexivity)).
  apply postRoomNight_inv in Hs as [(_ & _ & [?|(rate' & Hr & Hle)])|(Hno & b & rate' & Hb & Hr & Hp & Hw)]; [done| |].
  - apply (night_rate_stable r t d' d0) in Hr; [|done]. rewrite Hrate in Hr. simplify_eq. by apply Qcle_not_lt in Hle.
  - exfalso. destruct (writeCharge_posts _ _ _ _ Hw) as (l & Hl & _); [|done].
    simpl. intros ->. by apply Qclt_not_eq in Hp.
Qed.

(** C31: no elapsed night goes unbilled: when the check-out posting commits, every
    night from arrival up to today (the departure day itself is never one) whose
    rate is positive has a standing room line, for this stay on whichever bill
    it sits or posted by hand on this one. *)
Theorem nights_all_billed `{DecimalLib} `{TaxDb} `{Platform} `{Uuid} r f today u d d' n i rate :
  Reservation.isDayUse r = false -> backfillRoomCharges r f today u d = Ok (d', n) ->
  let night := Reservation.checkInDate r + i * DAY_MS in
  0 <= i -> night < today -> night < Reservation.checkOutDate r ->
  night_rate r night d = Ok (d, rate) -> (0 < rate)%Qc ->
  exists l, l ∈ lineItems d' /\ billed_night (Reservation.id r) (Folio.id f) night l = true.
Proof.
  intros Hdu Hm night Hi Ht Hc Hrate Hpos.
  eapply (for_each_turn lines_ext _ _ _ _ _ _ night) in Hm as (a1 & a2 & e & e' & Hb & _ & new & Hl).
  - m_inv. match goal with H : postRoomChargeForDate _ _ _ _ _ = _ |- _ => unfold postRoomChargeForDate in H; rewrite Hdu in H; simpl in H end. m_inv.
    match goal with H : postRoomNight _ _ _ _ _ = _ |- _ => pose proof (postRoomNight_bills r f night u d _ _ _ rate Hdu H Hrate Hpos) as Hs end.
    match goal with H : postPackageCharges _ _ _ _ _ = Ok _ |- _ => apply postPackageCharges_ext in H as [new2 Hl2] end.
    rewrite Hl2 in Hl. apply find_ext with (l2 := new2 ++ new) in Hs. rewrite app_assoc, <- Hl in Hs.
    apply isSome_eq in Hs as [l Hf]. exists l. by apply find_Some.
  - intros a t e e' a' Hb. m_inv. match goal with H : postRoomChargeForDate _ _ _ _ _ = _ |- _ => by apply (postRoomChargeForDate_settles r f t u Hdu) in H as [? _] end.
  - apply StayFeesProps.elem_of_nights_between. exists i. split_and!; [done..|]. destruct (Z.ltb_spec today (Reservation.checkOutDate r)); lia.
Qed.

Module NightsWitness.
Import Hotel LedgerWitness FiguresWitness.
Lemma accrual_idempotent_witness :
  backfillRoomCharges hotel_stay (hotel_folio "f1" None) (day 20005) (Some "u1") hotel_billed = Ok (hotel_billed, 0).
Proof.
  destruct (after_ok _ _ hotel_billed_ok) as [n Hn].
  refine (accrual_idempotent hotel_stay (hotel_folio "f1" None) (day 20005) (Some "u1") hotel hotel_billed n eq_refl Hn hotel_billed _).
  reflexivity.
Defined.

Lemma nights_all_billed_witness : exists l, l ∈ lineItems hotel_billed /\ billed_night "s1" "f1" (day 20001) l = true.
Proof.
  destruct (after_ok _ _ hotel_billed_ok) as [n Hn].
  refine (nights_all_billed hotel_stay (hotel_folio "f1" None) (day 20005) (Some "u1") hotel hotel_billed n 1
            (dp2 (cents 15000 ⊘ Qc_of_Z 2)) eq_refl Hn _ _ _ _ _).
  - lia.
  - reflexivity.
  - reflexivity.
  - reflexivity.
  - vm_compute. reflexivity.
Defined.
End NightsWitness.
