(* ===== verification/FolioMoves.v ===== *)
(** Splits, transfers and their reversal: a charge moves with everything that
    hangs off it, and the bills together owe what they owed. *)
From S2P Require Import Prelude Decimal Dates Taxes Transactions Db LoyaltyRules Packages Folios SampleHotel FolioLedger FolioFigures FolioEffects.
From Stdlib Require Import QArith Qcanon Lqa.
Local Open Scope Z_scope.

Abbreviation ids l := (LineItem.id <$> l).

(** ** What moves along with a charge *)
Lemma take_new_spec found result :
  exists new, take_new found result = (result ++ new, ids new) /\
    (NoDup (ids result) -> NoDup (ids (result ++ new))) /\ new ⊆ found /\
    (forall l, l ∈ found -> LineItem.id l ∈ ids (result ++ new)).
Proof.
  unfold take_new. assert (forall fr, exists new,
    foldl (fun '(res, fr) l => if bool_decide (LineItem.id l ∈ ids res) then (res, fr) else (res ++ [l], fr ++ [LineItem.id l])) (result, fr) found
      = (result ++ new, fr ++ ids new) /\
    (NoDup (ids result) -> NoDup (ids (result ++ new))) /\ new ⊆ found /\ (forall l, l ∈ found -> LineItem.id l ∈ ids (result ++ new))) as Hg.
  2:{ destruct (Hg []) as (new & He & ?). exists new. by rewrite He. }
  induction found as [|x found IH] in result |- *; intros fr; simpl.
  - exists []. rewrite !app_nil_r. split_and!; [done..|]. by intros l ?%elem_of_nil.
  - case_bool_decide as Hin.
    + destruct (IH result fr) as (new & He & Hnd & Hsub & Hall). exists new. split_and!; [done..|set_solver|].
      intros l [->|Hl]%elem_of_cons; [|auto]. rewrite fmap_app. apply elem_of_app. by left.
    + destruct (IH (result ++ [x]) (fr ++ [LineItem.id x])) as (new & He & Hnd & Hsub & Hall).
      exists (x :: new). rewrite He, <- !app_assoc. simpl. rewrite <- app_assoc in Hnd, Hall. split_and!; [done| |set_solver|].
      * intros Hr. apply Hnd. rewrite fmap_app. apply NoDup_app. split_and!; [done| |apply NoDup_singleton].
        intros y Hy. csimpl. rewrite list_elem_of_singleton. by intros ->.
      * intros l [->|Hl]%elem_of_cons; [|auto]. rewrite fmap_app. apply elem_of_app. right. left.
Qed.

(** Everything on the bill hanging off the result, but for what hangs off the frontier only. *)
Definition closed_upto (lines : list LineItem.t) (f : string) (result : list LineItem.t) (frontier : list string) : Prop :=
  forall l p, l ∈ lines -> standing f l = true -> p ∈ ids result -> p ∉ frontier -> hangs_off [p] l = true -> LineItem.id l ∈ ids result.

Lemma hangs_off_in a l : hangs_off a l = true -> exists p, p ∈ a /\ hangs_off [p] l = true.
Proof.
  unfold hangs_off. intros [Hp|Hc]%orb_true_iff.
  - destruct (LineItem.parentLineItemId l) as [p|]; [|done]. exists p. apply bool_decide_eq_true in Hp. split; [done|].
    rewrite bool_decide_true; [done | left].
  - destruct (LineItem.correctsLineItemId l) as [c|]; [|done]. exists c. apply bool_decide_eq_true in Hc. split; [done|].
    rewrite (bool_decide_true (c ∈ [c])) by left. apply orb_true_r.
Qed.
Lemma hangs_off_mono a b l : a ⊆ b -> hangs_off a l = true -> hangs_off b l = true.
Proof.
  intros Hs. unfold hangs_off. rewrite !orb_true_iff. intros [Hp|Hc]; [left|right].
  - destruct (LineItem.parentLineItemId l); [|done]. apply bool_decide_eq_true in Hp. apply bool_decide_eq_true. auto.
  - destruct (LineItem.correctsLineItemId l); [|done]. apply bool_decide_eq_true in Hc. apply bool_decide_eq_true. auto.
Qed.

(** The loop stops with nothing left out, and [fuel] is enough. *)
Lemma dependents_loop_spec fuel lines f result frontier :
  NoDup (ids lines) -> NoDup (ids result) -> result ⊆ lines ->
  closed_upto lines f result frontier -> (length lines - length result < fuel)%nat ->
  let final := dependents_loop fuel lines f result frontier in
  NoDup (ids final) /\ final ⊆ lines /\ result ⊆ final /\ closed_upto lines f final [] /\
  (forall l, l ∈ final -> l ∈ result \/ standing f l = true).
Proof.
  intros Hnl. revert result frontier. induction fuel as [|fuel IH]; intros result frontier Hnd Hsub Hcl Hfuel; [lia|].
  simpl. destruct frontier as [|p0 fr].
  { split_and!; try done. by left. }
  set (found := List.filter _ lines). destruct (take_new_spec found result) as (new & -> & Hnd' & Hnew & Hall).
  assert (new ⊆ lines) as Hnl2.
  { intros x Hx. apply Hnew, elem_of_filterb in Hx as [Hx _]. done. }
  assert (closed_upto lines f (result ++ new) (ids new)) as Hcl'.
  { intros l p Hl Hs Hp Hnf Hh. destruct (decide (p ∈ p0 :: fr)) as [Hpf|Hpf].
    - apply Hall, elem_of_filterb. split; [done|]. rewrite Hs. simpl. eapply hangs_off_mono; [|exact Hh]. set_solver.
    - rewrite fmap_app in Hp. apply elem_of_app in Hp as [Hp|Hp]; [|done].
      rewrite fmap_app. apply elem_of_app. left. by eapply Hcl. }
  destruct new as [|x new].
  - rewrite app_nil_r in *. simpl. destruct fuel; simpl; split_and!; try done; by left.
  - destruct (IH (result ++ x :: new) (ids (x :: new))) as (H1 & H2 & H3 & H4 & H5).
    + auto.
    + set_solver.
    + exact Hcl'.
    + assert (length (result ++ x :: new) <= length lines)%nat.
      { rewrite <- (length_fmap LineItem.id lines), <- (length_fmap LineItem.id (result ++ x :: new)).
        apply submseteq_length, NoDup_submseteq; [by apply Hnd'|]. intros i (y & -> & Hy)%list_elem_of_fmap.
        apply list_elem_of_fmap_2. set_solver. }
      rewrite length_app in *. simpl in *. lia.
    + split_and!; [done..|set_solver|done|]. intros l Hl. destruct (H5 l Hl) as [Hr|Hs]; [|by right].
      apply elem_of_app in Hr as [Hr|Hr]; [by left|]. right. apply Hnew, elem_of_filterb in Hr as [_ Hr]. by apply andb_true_iff in Hr as [? _].
Qed.

Section Moves.
Context `{DecimalLib} `{TaxDb} `{Platform} `{Uuid}.

Lemma withDependents_spec f items d d' moved :
  withDependents f items d = Ok (d', moved) -> NoDup (ids (lineItems d)) ->
  items ⊆ lineItems d -> NoDup (ids items) -> (forall l, l ∈ items -> standing f l = true) ->
  d' = d /\ NoDup (ids moved) /\ moved ⊆ lineItems d /\ items ⊆ moved /\ (forall l, l ∈ moved -> standing f l = true) /\
  (forall l, l ∈ lineItems d -> standing f l = true -> hangs_off (ids moved) l = true -> LineItem.id l ∈ ids moved).
Proof.
  unfold withDependents. intros Hm Hnl Hsub Hnd Hst. apply (f_equal (fun r => match r with Ok p => Some p | Err _ => None end)) in Hm.
  unfold gets in Hm. injection Hm as <- <-.
  destruct (dependents_loop_spec (S (length (lineItems d))) (lineItems d) f items (ids items)) as (H1' & H2' & H3' & H4' & H5');
    [done..| |lia|].
  { intros l p _ _ Hp Hnp. done. }
  split_and!; [done..| |].
  - intros l Hl. destruct (H5' l Hl) as [?|?]; auto.
  - intros l Hl Hs Hh. apply hangs_off_in in Hh as (p & Hp & Hh). eapply H4'; [done..|apply not_elem_of_nil|done].
Qed.

(** Moving the lines of [mv], all standing on [s], to [t]. *)
Lemma moved_charges (lines : list LineItem.t) (mv : list string) s t g :
  (forall l, l ∈ lines -> LineItem.id l ∈ mv -> standing s l = true) ->
  qsum (LineItem.amount <$> List.filter (standing g) (update_where (fun l => bool_decide (LineItem.id l ∈ mv)) (LineItem.with_folioId t) lines)) =
  (qsum (LineItem.amount <$> List.filter (standing g) lines)
   + if_on t g (qsum (LineItem.amount <$> List.filter (fun l => bool_decide (LineItem.id l ∈ mv)) lines))
   - if_on s g (qsum (LineItem.amount <$> List.filter (fun l => bool_decide (LineItem.id l ∈ mv)) lines)))%Qc.
Proof.
  unfold if_on. induction lines as [|l lines IH]; intros Hst; csimpl; [repeat case_bool_decide; ring|].
  specialize (IH ltac:(intros; apply Hst; [by right | done])). fold (update_where (fun l => bool_decide (LineItem.id l ∈ mv)) (LineItem.with_folioId t) lines) in *.
  destruct (decide (LineItem.id l ∈ mv)) as [Hin|Hin].
  - rewrite !(bool_decide_true (LineItem.id l ∈ mv)) by done. specialize (Hst l ltac:(left) Hin). unfold standing in Hst.
    apply andb_true_iff in Hst as [[Hf Hv]%andb_true_iff Hd]. apply bool_decide_eq_true in Hf.
    assert (standing g (LineItem.with_folioId t l) = bool_decide (t = g)) as -> by (unfold standing; simpl; by rewrite Hv, Hd, !andb_true_r).
    assert (standing g l = bool_decide (s = g)) as -> by (unfold standing; by rewrite Hf, Hv, Hd, !andb_true_r).
    revert IH. repeat case_bool_decide; csimpl; intros IH; rewrite IH; ring.
  - rewrite !(bool_decide_false (LineItem.id l ∈ mv)) by done. destruct (standing g l); csimpl; rewrite IH; ring.
Qed.

(** The lines with the ids of [moved] are those of [moved]. *)
Lemma moved_perm (lines moved : list LineItem.t) : NoDup (ids lines) -> NoDup (ids moved) -> moved ⊆ lines ->
  List.filter (fun l => bool_decide (LineItem.id l ∈ ids moved)) lines ≡ₚ moved.
Proof.
  intros Hnl Hnm Hsub. apply NoDup_Permutation.
  - by apply (NoDup_fmap_1 LineItem.id), NoDup_fmap_filterb.
  - by apply (NoDup_fmap_1 LineItem.id).
  - intros x. rewrite elem_of_filterb. split.
    + intros [Hx (y & Hy & Hin)%bool_decide_eq_true%list_elem_of_fmap]. by rewrite (NoDup_fmap_inj LineItem.id lines x y Hnl Hx (Hsub _ Hin) Hy).
    + intros Hx. split; [auto|]. apply bool_decide_eq_true. by apply list_elem_of_fmap_2.
Qed.

Lemma selected_spec src dto d : ledger_wf d ->
  selected_lines src dto d ⊆ lineItems d /\ NoDup (ids (selected_lines src dto d)) /\
  (forall l, l ∈ selected_lines src dto d -> standing src l = true).
Proof.
  intros Hwf. pose proof (wf_ids d Hwf) as Hnd.
  pose proof (fun g => NoDup_fmap_filterb LineItem.id g _ Hnd) as Hf.
  unfold selected_lines. destruct (mv_transferAll dto).
  - split_and!.
    + intros l. rewrite sort_by_perm, elem_of_filterb. tauto.
    + rewrite sort_by_perm. apply Hf.
    + intros l. rewrite sort_by_perm, elem_of_filterb. tauto.
  - split_and!; [|apply Hf|].
    + intros l. rewrite elem_of_filterb. tauto.
    + intros l. rewrite elem_of_filterb, andb_true_iff. tauto.
Qed.

Lemma assertFolioOpen_Ok f u : assertFolioOpen f = Ok u -> Folio.status f <> settled.
Proof. unfold assertFolioOpen. intros Hf. apply throw_if_Ok, bool_decide_eq_false in Hf. done. Qed.

Definition open_in (d : Db) (f : string) : Prop := exists x,
  List.find (fun x => bool_decide (Folio.id x = f) && isNone (Folio.deletedAt x)) (folios d) = Some x /\ Folio.status x <> settled.

(** What a committed move is: the charges picked and everything hanging off
    them, taken from the source to the target, and the record of it. *)
Record moved_as (src tgt : string) (d d' : Db) (t : FolioTransfer.t) (moved : list LineItem.t) : Prop := {
  mv_distinct : src <> tgt;
  mv_nodup : NoDup (ids moved);
  mv_lines : moved ⊆ lineItems d;
  mv_standing l : l ∈ moved -> standing src l = true;
  mv_closed l : l ∈ lineItems d -> standing src l = true -> hangs_off (ids moved) l = true -> LineItem.id l ∈ ids moved;
  mv_ids : FolioTransfer.lineItemIds t = ids moved;
  mv_amount : numeric (dsum (LineItem.amount <$> moved)) = Ok (FolioTransfer.amount t);
  mv_ends : FolioTransfer.sourceFolioId t = src /\ FolioTransfer.targetFolioId t = tgt;
  mv_fresh : FolioTransfer.reversedAt t = None /\ FolioTransfer.createdAt t = clock d' /\ clock d' = clock d;
  mv_after : lineItems d' = update_where (fun l => bool_decide (LineItem.id l ∈ ids moved)) (LineItem.with_folioId tgt) (lineItems d);
  mv_payments : payments d' = payments d;
  mv_folios : folios d' = folios d;
  mv_transfers : folioTransfers d' = folioTransfers d ++ [t];
  mv_id : FolioTransfer.id t = gen_random_uuid (seq d);
  mv_open_source : open_in d src;
  mv_open_target : open_in d tgt;
}.

Lemma moveCharges_inv src dto u k d d' t : moveCharges src dto u k d = Ok (d', t) -> ledger_wf d ->
  exists moved, moved_as src (mv_targetFolioId dto) d d' t moved.
Proof.
  unfold moveCharges, findFolioOrThrow, now. intros Hm Hwf. m_inv.
  match goal with Hwf : ledger_wf ?e |- _ => rename e into d end.
  destruct (selected_spec src dto d Hwf) as (Hs1 & Hs2 & Hs3).
  match goal with H : withDependents _ _ _ = Ok (_, ?m) |- _ => rename m into moved;
    destruct (withDependents_spec _ _ _ _ _ H (wf_ids d Hwf) Hs1 Hs2 Hs3) as (-> & Hnd & Hsub & Hsel & Hst & Hcl) end.
  unfold move_lines in *. m_inv. match goal with H : new_id _ = _ |- _ => apply new_id_spec in H as [-> ->] end.
  match goal with H : Folios.audit _ _ _ _ _ = _ |- _ => apply audit_frame_lines in H as [Hf Hl] end.
  repeat match goal with H : assertFolioOpen _ = Ok _ |- _ => apply assertFolioOpen_Ok in H end.
  exists moved. destruct Hf. split; simpl in *; try done; try (by eexists).
  by match goal with H : bool_decide (src = _) = false |- _ => apply bool_decide_eq_false in H end.
Qed.

Lemma moved_balance src tgt d d' t moved g : moved_as src tgt d d' t moved -> ledger_wf d ->
  balance d' g = (balance d g + if_on tgt g (qsum (LineItem.amount <$> moved)) - if_on src g (qsum (LineItem.amount <$> moved)))%Qc.
Proof.
  intros Hmv Hwf. unfold balance, paid_on, charges_on. rewrite (mv_payments _ _ _ _ _ _ Hmv), (mv_after _ _ _ _ _ _ Hmv).
  rewrite (moved_charges _ _ src).
  - rewrite (moved_perm _ _ (wf_ids d Hwf) (mv_nodup _ _ _ _ _ _ Hmv) (mv_lines _ _ _ _ _ _ Hmv)). ring.
  - intros l Hl (x & Hx & Hin)%list_elem_of_fmap. rewrite (NoDup_fmap_inj LineItem.id _ l x (wf_ids d Hwf) Hl (mv_lines _ _ _ _ _ _ Hmv _ Hin) Hx).
    by apply Hmv.
Qed.

Lemma moved_amount src tgt d d' t moved : moved_as src tgt d d' t moved -> ledger_wf d -> few_rows d ->
  FolioTransfer.amount t = qsum (LineItem.amount <$> moved).
Proof.
  intros Hmv Hwf [Hfew _]. assert (Forall (money NUMERIC_12_2) (LineItem.amount <$> moved)) as Hmon.
  { rewrite Forall_fmap. apply Forall_forall. intros l Hl. apply (wf_money d Hwf). by apply Hmv. }
  assert (Z.of_nat (length moved) < 10 ^ 7) as Hlen.
  { eapply Z.le_lt_trans; [|exact Hfew]. apply inj_le. rewrite <- (length_fmap LineItem.id moved), <- (length_fmap LineItem.id (lineItems d)).
    apply submseteq_length, NoDup_submseteq; [by apply Hmv|]. intros i (x & -> & Hx)%list_elem_of_fmap. apply list_elem_of_fmap_2. by apply Hmv. }
  destruct (sum_money (LineItem.amount <$> moved) Hmon) as [Hs Hm]; [by rewrite length_fmap|].
  pose proof (mv_amount _ _ _ _ _ _ Hmv) as Ha. unfold dsum in Ha. rewrite Hs in Ha. by eapply numeric_id in Ha.
Qed.
End Moves.

(** C33: moving charges changes who owes, never how much: the target owes exactly
    the recorded amount more and the source exactly that less, every other bill
    is as it was, and nothing that hangs off a moved charge (its tax, its
    correction, the correction's tax) is left standing on the source. *)
Theorem move_conserves `{DecimalLib} `{TaxDb} `{Platform} `{Uuid} src dto u k d d' t :
  ledger_wf d -> few_rows d -> moveCharges src dto u k d = Ok (d', t) ->
  (forall g, balance d' g = (balance d g + if_on (mv_targetFolioId dto) g (FolioTransfer.amount t) - if_on src g (FolioTransfer.amount t))%Qc) /\
  (balance d' src + balance d' (mv_targetFolioId dto) = balance d src + balance d (mv_targetFolioId dto))%Qc /\
  (forall l, l ∈ lineItems d' -> standing src l = true -> hangs_off (FolioTransfer.lineItemIds t) l = false).
Proof.
  intros Hwf Hfew Hm. destruct (moveCharges_inv _ _ _ _ _ _ _ Hm Hwf) as [moved Hmv].
  assert (forall g, balance d' g = (balance d g + if_on (mv_targetFolioId dto) g (FolioTransfer.amount t) - if_on src g (FolioTransfer.amount t))%Qc) as Hb.
  { intros g. rewrite (moved_amount _ _ _ _ _ _ Hmv Hwf Hfew). by eapply moved_balance. }
  pose proof (mv_distinct _ _ _ _ _ _ Hmv) as Hne. split_and!; [exact Hb| |].
  - rewrite !Hb. unfold if_on. repeat case_bool_decide; first [congruence | ring].
  - intros l Hl Hs. rewrite (mv_ids _ _ _ _ _ _ Hmv). apply not_true_iff_false. intros Hh.
    rewrite (mv_after _ _ _ _ _ _ Hmv) in Hl. apply list_elem_of_fmap in Hl as (x & -> & Hx). case_bool_decide as Hin.
    + unfold standing in Hs. simpl in Hs. rewrite bool_decide_false in Hs by congruence. done.
    + apply Hin. by eapply mv_closed.
Qed.

Section Reversal.
Context `{DecimalLib} `{TaxDb} `{Platform} `{Uuid}.

Lemma take_new_nothing found result : (forall l, l ∈ found -> LineItem.id l ∈ ids result) -> take_new found result = (result, []).
Proof.
  unfold take_new. assert (forall fr, (forall l, l ∈ found -> LineItem.id l ∈ ids result) ->
    foldl (fun '(res, fr) l => if bool_decide (LineItem.id l ∈ ids res) then (res, fr) else (res ++ [l], fr ++ [LineItem.id l])) (result, fr) found
      = (result, fr)) as Hg; [|auto].
  induction found as [|x found IH]; intros fr Hall; simpl; [done|].
  rewrite bool_decide_true by (apply Hall; left). apply IH. intros l Hl. apply Hall. by right.
Qed.

Lemma dependents_loop_nothing fuel lines f result frontier :
  (forall l, l ∈ lines -> standing f l = true -> hangs_off frontier l = true -> LineItem.id l ∈ ids result) ->
  dependents_loop fuel lines f result frontier = result.
Proof.
  intros Hall. destruct fuel as [|fuel]; simpl; [done|]. destruct frontier as [|p fr]; [done|].
  rewrite take_new_nothing; [by destruct fuel|]. intros l [Hl [Hs Hh]%andb_true_iff]%elem_of_filterb. auto.
Qed.

Lemma for_each_total {A B} (l : list B) (a : A) (body : A -> B -> M A) d : (forall a x d, exists d' a', body a x d = Ok (d', a')) ->
  exists d' a', for_each l a body d = Ok (d', a').
Proof.
  intros Hb. revert a d. induction l as [|x l IH]; intros a d; simpl; [by do 2 eexists|].
  destruct (Hb a x d) as (d1 & a1 & Hx). rewrite (bind_run _ _ _ _ _ Hx). apply IH.
Qed.
Lemma emit_total b t i d : exists d', emit b t i d = Ok (d', tt).
Proof.
  unfold emit. rewrite (bind_run _ _ d d (List.filter (listens b t) (webhooks d)) eq_refl). destruct (bool_decide _); [by eexists|].
  match goal with |- context [for_each t ?r ?body] => destruct (for_each_total t r body d) as (d1 & rows & Hr) end; [intros; by do 2 eexists|].
  rewrite (bind_run _ _ _ _ _ Hr). by eexists.
Qed.
Lemma audit_total b u a i d : exists d', Folios.audit b u a i d = Ok (d', tt).
Proof.
  unfold Folios.audit. erewrite bind_run by reflexivity. destruct (bool_decide _); [apply emit_total | by eexists].
Qed.

(** The lines of a move, as the reversal finds them. *)
Lemma moved_found src tgt d d' t moved :
  moved_as src tgt d d' t moved -> ledger_wf d ->
  let back := List.filter (fun l => bool_decide (LineItem.id l ∈ ids moved)) (lineItems d') in
  (forall l, l ∈ back -> LineItem.folioId l = tgt) /\ (forall i, i ∈ ids back <-> i ∈ ids moved) /\
  update_where (fun l => bool_decide (LineItem.id l ∈ ids back)) (LineItem.with_folioId src) (lineItems d') = lineItems d.
Proof.
  intros Hmv Hwf. cbv zeta. rewrite (mv_after _ _ _ _ _ _ Hmv). set (back := List.filter _ _).
  assert (forall i, i ∈ ids back <-> i ∈ ids moved) as Hids.
  { intros i. split.
    - intros (l & -> & [_ Hin]%elem_of_filterb)%list_elem_of_fmap. by apply bool_decide_eq_true in Hin.
    - intros (l & -> & Hl)%list_elem_of_fmap. apply list_elem_of_fmap. exists (LineItem.with_folioId tgt l). split; [done|].
      apply elem_of_filterb. split; [|apply bool_decide_eq_true; simpl; by apply list_elem_of_fmap_2].
      apply list_elem_of_fmap. exists l. rewrite bool_decide_true by by apply list_elem_of_fmap_2. split; [done|]. by apply Hmv. }
  split_and!; [|exact Hids|].
  - intros l [(x & -> & Hx)%list_elem_of_fmap Hin]%elem_of_filterb. apply bool_decide_eq_true in Hin.
    case_bool_decide as Hx2; [done|]. done.
  - unfold update_where. rewrite <- list_fmap_compose.
    rewrite <- (list_fmap_id (lineItems d)) at 2. apply list_fmap_ext. intros k l Hk. apply list_elem_of_lookup_2 in Hk. simpl.
    case_bool_decide as Hin; case_bool_decide as Hin2; simpl in *; rewrite ?Hids in *; try done.
    apply list_elem_of_fmap in Hin as (x & Hx & Hinx).
    rewrite (NoDup_fmap_inj LineItem.id _ l x (wf_ids d Hwf) Hk (mv_lines _ _ _ _ _ _ Hmv _ Hinx) Hx).
    pose proof (mv_standing _ _ _ _ _ _ Hmv x Hinx) as Hs. unfold standing in Hs.
    apply andb_true_iff in Hs as [[Hf _]%andb_true_iff _]. apply bool_decide_eq_true in Hf. destruct x; simpl in *. by subst.
Qed.

(** Nothing on the target hangs off the moved lines but they themselves. *)
Lemma back_closed src tgt d d' t moved l :
  moved_as src tgt d d' t moved -> ledger_wf d ->
  (forall l, l ∈ lineItems d -> standing tgt l = true -> hangs_off (FolioTransfer.lineItemIds t) l = false) ->
  let back := List.filter (fun l => bool_decide (LineItem.id l ∈ ids moved)) (lineItems d') in
  l ∈ lineItems d' -> standing tgt l = true -> hangs_off (ids back) l = true -> LineItem.id l ∈ ids back.
Proof.
  intros Hmv Hwf Hnone back Hl Hs Hh. destruct (moved_found _ _ _ _ _ _ Hmv Hwf) as (_ & Hids & _). fold back in Hids.
  apply Hids. rewrite (mv_after _ _ _ _ _ _ Hmv) in Hl. apply list_elem_of_fmap in Hl as (x & -> & Hx).
  case_bool_decide as Hin; [done|]. exfalso. specialize (Hnone x Hx Hs). rewrite (mv_ids _ _ _ _ _ _ Hmv) in Hnone.
  rewrite (hangs_off_mono (ids back) (ids moved)) in Hnone; [done| |exact Hh]. intros i. apply Hids.
Qed.
Lemma existsb_false {A} (f : A -> bool) l : (forall x, x ∈ l -> f x = false) -> existsb f l = false.
Proof. intros Hf. apply not_true_iff_false. intros (x & Hx & Ht)%existsb_exists_elem. by rewrite Hf in Ht. Qed.

Lemma open_run d f : open_in d f -> exists x, findFolioOrThrow f d = Ok (d, x) /\ assertFolioOpen x = Ok tt.
Proof.
  intros (x & Hf & Hs). exists x. split.
  - unfold findFolioOrThrow, orThrow. erewrite bind_run by reflexivity. cbv beta. by rewrite Hf.
  - unfold assertFolioOpen. by rewrite bool_decide_false.
Qed.
End Reversal.

(** C34: a move can be undone exactly, for a day: within 24 hours of a transfer,
    while nothing else happened to it and nothing already on the target hangs
    off the moved charges, reversing it succeeds and puts every line back as it
    was; after that it is refused. *)
Theorem transfer_roundtrip `{DecimalLib} `{TaxDb} `{Platform} `{Uuid} src dto u k d d1 t delta u' :
  ledger_wf d -> moveCharges src dto u k d = Ok (d1, t) ->
  FolioTransfer.id t ∉ (FolioTransfer.id <$> folioTransfers d) ->
  (forall l, l ∈ lineItems d -> standing (mv_targetFolioId dto) l = true -> hangs_off (FolioTransfer.lineItemIds t) l = false) ->
  let later := upd_clock (Z.add delta) d1 in
  (delta <= TRANSFER_REVERSAL_WINDOW_MS ->
     exists d2 t', reverseTransfer (FolioTransfer.id t) u' later = Ok (d2, t') /\ lineItems d2 = lineItems d /\ payments d2 = payments d) /\
  (TRANSFER_REVERSAL_WINDOW_MS < delta -> reverseTransfer (FolioTransfer.id t) u' later = Err conflict).
Proof.
  intros Hwf Hm Hid Hnone later. destruct (moveCharges_inv _ _ _ _ _ _ _ Hm Hwf) as [moved Hmv].
  pose proof (moved_found _ _ _ _ _ _ Hmv Hwf) as (Hback & Hids & Hrestore).
  set (back := List.filter _ _) in *.
  assert (orThrow (findFirst folioTransfers (fun x => bool_decide (FolioTransfer.id x = FolioTransfer.id t))) not_found later = Ok (later, t)) as Hfind.
  { apply orThrow_Ok, findFirst_Ok. split; [done|]. simpl. rewrite (mv_transfers _ _ _ _ _ _ Hmv).
    destruct (List.find _ (_ ++ _)) as [x|] eqn:E.
    - apply find_Some in E as [Hx Hx2]. apply bool_decide_eq_true in Hx2. apply elem_of_app in Hx as [Hx| ->%list_elem_of_singleton]; [|done].
      exfalso. apply Hid. rewrite <- Hx2. by apply list_elem_of_fmap_2.
    - exfalso. apply (find_None _ _ t) in E; [by apply bool_decide_eq_false in E|]. apply elem_of_app. right. by apply list_elem_of_singleton. }
  destruct (mv_fresh _ _ _ _ _ _ Hmv) as (Hrev & Hcre & _). destruct (mv_ends _ _ _ _ _ _ Hmv) as [Hsrc Htgt].
  split.
  - intros Hd. assert (open_in later src /\ open_in later (mv_targetFolioId dto)) as [Ho1 Ho2].
    { unfold open_in. simpl. rewrite (mv_folios _ _ _ _ _ _ Hmv). split; apply Hmv. }
    destruct (open_run _ _ Ho1) as (so & Hso & Hso2), (open_run _ _ Ho2) as (ta & Hta & Hta2).
    assert (findMany lineItems (fun l => bool_decide (LineItem.id l ∈ FolioTransfer.lineItemIds t)) later = Ok (later, back)) as Hmany.
    { apply findMany_Ok. split; [done|]. unfold back. by rewrite (mv_ids _ _ _ _ _ _ Hmv). }
    assert (withDependents (mv_targetFolioId dto) back later = Ok (later, back)) as Hdep.
    { unfold withDependents, gets. do 2 f_equal. apply dependents_loop_nothing. intros l Hl Hs Hh.
      eapply back_closed; [exact Hmv|exact Hwf|exact Hnone|exact Hl|exact Hs|exact Hh]. }
    unfold reverseTransfer. rewrite (bind_run _ _ _ _ _ Hfind), Hrev. erewrite bind_run by reflexivity.
    unfold now. erewrite (bind_run (gets clock)) by reflexivity. simpl clock. rewrite Hcre.
    rewrite (proj2 (Z.ltb_ge _ _)) by lia. erewrite bind_run by reflexivity. rewrite Hsrc, Htgt.
    rewrite (bind_run _ _ _ _ _ Hso), (bind_run _ _ _ _ _ Hta), Hso2, Hta2. do 2 erewrite bind_run by reflexivity.
    rewrite (bind_run _ _ _ _ _ Hmany). rewrite (existsb_false _ back).
    2:{ intros l Hl. by rewrite bool_decide_true by auto. }
    erewrite bind_run by reflexivity. rewrite (bind_run _ _ _ _ _ Hdep). do 2 erewrite bind_run by reflexivity.
    match goal with |- context [Folios.audit ?b ?w ?a ?i] => match goal with |- context [bind (Folios.audit b w a i) _ ?e] =>
      destruct (audit_total b w a i e) as [d2 Ha] end end.
    rewrite (bind_run _ _ _ _ _ Ha). apply audit_frame_lines in Ha as [Hf Hl]. do 2 eexists. split; [reflexivity|].
    rewrite Hl, (fr_payments _ _ Hf). simpl. split; [exact Hrestore | apply Hmv].
  - intros Hd. unfold reverseTransfer. rewrite (bind_run _ _ _ _ _ Hfind), Hrev. erewrite bind_run by reflexivity.
    unfold now. erewrite (bind_run (gets clock)) by reflexivity. simpl clock. rewrite Hcre.
    rewrite (proj2 (Z.ltb_lt _ _)) by lia. reflexivity.
Qed.

Module MoveWitness.
Import Hotel LedgerWitness FiguresWitness.
Definition split_dto : MoveChargesInput := {| mv_targetFolioId := "f2"; mv_lineItemIds := Some ["4"]; mv_transferAll := false; mv_reason := "company pays the room" |}.
Lemma split_ok : is_ok (moveCharges "f1" split_dto "u1" Folios.split hotel_billed) = true.
Proof. vm_compute. reflexivity. Qed.
Lemma move_conserves_witness : exists d' t, moveCharges "f1" split_dto "u1" Folios.split hotel_billed = Ok (d', t) /\
  (balance d' "f1" + balance d' "f2" = balance hotel_billed "f1" + balance hotel_billed "f2")%Qc.
Proof.
  destruct (run_ok _ _ split_ok) as (d' & t & Hm). exists d', t. split; [exact Hm|].
  exact (proj1 (proj2 (move_conserves "f1" split_dto "u1" Folios.split hotel_billed d' t hotel_billed_wf hotel_billed_few Hm))).
Defined.

Lemma company_empty : forallb (fun l => negb (standing "f2" l)) (lineItems hotel_billed) = true.
Proof. vm_compute. reflexivity. Qed.
Lemma no_transfers_yet : FolioTransfer.id <$> folioTransfers hotel_billed = [].
Proof. vm_compute. reflexivity. Qed.

(** The night and its tax move to the company's bill and come back an hour later. *)
Lemma transfer_roundtrip_witness : exists d1 t d2 t', moveCharges "f1" split_dto "u1" Folios.split hotel_billed = Ok (d1, t) /\
  reverseTransfer (FolioTransfer.id t) "u2" (upd_clock (Z.add 3600000) d1) = Ok (d2, t') /\
  lineItems d2 = lineItems hotel_billed.
Proof.
  destruct (run_ok _ _ split_ok) as (d1 & t & Hm).
  assert (FolioTransfer.id t ∉ (FolioTransfer.id <$> folioTransfers hotel_billed)) as Hid.
  { rewrite no_transfers_yet. apply not_elem_of_nil. }
  assert (forall l, l ∈ lineItems hotel_billed -> standing "f2" l = true -> hangs_off (FolioTransfer.lineItemIds t) l = false) as Hnone.
  { intros l Hl Hs. exfalso. pose proof (proj1 (List.forallb_forall _ _) company_empty l (proj1 (list_elem_of_In _ _) Hl)) as Hno.
    cbv beta in Hno. rewrite Hs in Hno. discriminate Hno. }
  destruct (transfer_roundtrip "f1" split_dto "u1" Folios.split hotel_billed d1 t 3600000 "u2" hotel_billed_wf Hm Hid Hnone) as [Hr _].
  destruct Hr as (d2 & t' & Hr & Hl & _); [unfold TRANSFER_REVERSAL_WINDOW_MS; lia|].
  exists d1, t, d2, t'. split; [exact Hm|]. split; [exact Hr | exact Hl].
Defined.
End MoveWitness.
