(* ===== verification/FolioPayments.v ===== *)
(** Payments on a bill: recording one, voiding one, and closing the bill. *)
From S2P Require Import Prelude Decimal Dates StayPolicies Taxes Transactions Db LoyaltyRules Packages Folios SampleHotel FolioLedger FolioFigures FolioEffects FolioMoves.
From Stdlib Require Import QArith Qcanon Lqa.
Local Open Scope Z_scope.

(** The bill another line or payment does not sit on keeps its balance; the one
    it sits on moves by its amount. *)
Definition pays (d d' : Db) (f : string) (a : Qc) : Prop :=
  forall g, balance d' g = (balance d g - if_on f g a)%Qc.

(** The tables an operation's closing steps leave alone. *)
Record money_frame (d d' : Db) : Prop := {
  mf_lines : lineItems d' = lineItems d;
  mf_payments : payments d' = payments d;
  mf_refunds : refunds d' = refunds d;
  mf_shifts : shifts d' = shifts d;
  mf_orders : posOrders d' = posOrders d;
  mf_seq : (seq d <= seq d')%nat;
}.
#[global] Instance money_frame_preorder : PreOrder money_frame.
Proof. split; [by split|]. intros d1 d2 d3 [] []. split; congruence || lia. Qed.

Section Payments.
Context `{DecimalLib} `{TaxDb} `{Platform} `{Uuid}.

Lemma findFolio_spec f d d' x : findFolioOrThrow f d = Ok (d', x) -> d' = d /\ x ∈ folios d /\ Folio.id x = f /\ Folio.deletedAt x = None.
Proof.
  unfold findFolioOrThrow. intros Hm. m_inv. split; [done|].
  match goal with E : Some x = List.find _ _ |- _ => symmetry in E; apply find_Some in E as [? Hw] end.
  boolp. destruct Hw as [? Hn]. by apply isNone_eq in Hn.
Qed.

Lemma mf_modify f : (forall d, money_frame d (f d)) -> keeps money_frame (modify f).
Proof. apply keeps_modify; apply _. Qed.
Lemma mf_new_id : keeps money_frame new_id.
Proof. unfold new_id. keeps_tac. apply mf_modify. split; simpl; done || lia. Qed.
Lemma mf_auditLog b u a t i : keeps money_frame (auditLog b u a t i).
Proof. apply mf_modify. by split. Qed.
Lemma mf_emit b t i : keeps money_frame (emit b t i).
Proof. unfold emit. keeps_tac; [apply mf_new_id|]. apply mf_modify. by split. Qed.
Lemma mf_applyLoyaltyPoints g e : keeps money_frame (applyLoyaltyPoints g e).
Proof.
  unfold applyLoyaltyPoints, create_loyaltyTransaction, lifetimeLoyaltyPoints, now.
  keeps_tac; first [apply mf_new_id | apply mf_modify; by split].
Qed.
Lemma mf_audit b u a i : keeps money_frame (Folios.audit b u a i).
Proof. unfold Folios.audit, paymentRecorded. keeps_tac; [apply mf_auditLog | apply mf_emit]. Qed.

(** The closing entry of an operation leaves the money alone. *)
Lemma audit_money b u a i d d' x : Folios.audit b u a i d = Ok (d', x) -> lineItems d' = lineItems d /\ payments d' = payments d.
Proof. intros Ha. pose proof (frame_audit _ _ _ _ _ _ _ Ha) as [Hp _ _ _ _ _ _ _ _ _]. split; [by eapply audit_frame_lines|done]. Qed.

(** A payment taken on a bill that stands. *)
Lemma pays_app d d' p : lineItems d' = lineItems d -> payments d' = payments d ++ [p] ->
  Payment.isVoid p = false -> Payment.deletedAt p = None -> pays d d' (Payment.folioId p) (Payment.amount p).
Proof.
  intros Hl Hp Hv Hdel g. unfold balance. rewrite (charges_on_same _ _ g Hl), (paid_on_app _ _ _ g Hp).
  unfold standing_payment, if_on. rewrite Hv, Hdel. simpl. rewrite !andb_true_r. destruct (bool_decide _); ring.
Qed.

(** Cash goes through the agent's own open drawer. *)
Lemma drawer_spec (m : PaymentMethod) b u d d' s :
  (if bool_decide (m = cash) then findFirst shifts (open_shift_of b u) else ret None) d = Ok (d', s) ->
  bool_decide (m = cash) && isNone s = false ->
  d' = d /\ (m = cash -> exists x, s = Some x /\ x ∈ shifts d /\ open_shift_of b u x = true).
Proof.
  intros Hm Hs. destruct (bool_decide_reflect (m = cash)); m_inv; [|done]. split; [done|]. intros _.
  destruct (List.find _ _) as [x|] eqn:E; [|done]. apply find_Some in E as [? ?]. eauto.
Qed.

(** What was handed over, in the branch's own money. *)
Definition converted (d : Db) (b : string) (dto : PaymentDto) (p : Payment.t) : Prop :=
  (numeric (dto_amount dto) = Ok (Payment.amount p) /\ Payment.foreignCurrency p = None /\ Payment.exchangeRate p = None) \/
  exists x, x ∈ exchangeRates d /\ ExchangeRate.branchId x = b /\ Some (ExchangeRate.currency x) = js_upper <$> dto_currency dto /\
    numeric (dp2 (dto_amount dto ⊗ ExchangeRate.rate x)) = Ok (Payment.amount p) /\
    Payment.foreignCurrency p = Some (ExchangeRate.currency x) /\ Payment.exchangeRate p = Some (ExchangeRate.rate x).

Lemma in_branch_currency_spec branch dto d d' amount foreign : in_branch_currency branch dto d = Ok (d', (amount, foreign)) ->
  d' = d /\ ((amount = dto_amount dto /\ foreign = None) \/
    exists x, x ∈ exchangeRates d /\ ExchangeRate.branchId x = Branch.id branch /\ Some (ExchangeRate.currency x) = js_upper <$> dto_currency dto /\
      amount = dp2 (dto_amount dto ⊗ ExchangeRate.rate x) /\ foreign = Some (ExchangeRate.currency x, dto_amount dto, ExchangeRate.rate x)).
Proof.
  unfold in_branch_currency. intros Hm. destruct (js_upper <$> dto_currency dto) as [c|]; [|m_inv; auto].
  destruct (_ || _); m_inv; [auto|]. split; [done|].
  match goal with E : Some ?x = List.find _ _ |- _ => symmetry in E; apply find_Some in E as [? Hw]; right; exists x end.
  boolp. destruct Hw as [? Hc]. by subst.
Qed.

Lemma recordPaymentInTx_spec folio dto purpose u d d' p : recordPaymentInTx folio dto purpose u d = Ok (d', p) ->
  lineItems d' = lineItems d /\ payments d' = payments d ++ [p] /\ Payment.folioId p = Folio.id folio /\
  Payment.isVoid p = false /\ Payment.deletedAt p = None /\ Payment.method p = dto_method dto /\ Payment.paymentPurpose p = purpose /\
  dto_method dto <> loyalty_points /\ Folio.status folio <> settled /\ converted d (Folio.branchId folio) dto p /\
  (dto_method dto = cash -> exists s, s ∈ shifts d /\ open_shift_of (Folio.branchId folio) u s = true /\ Payment.shiftId p = Some (Shift.id s)) /\
  Payment.id p = gen_random_uuid (seq d) /\ money_frame (upd_payments (fun t => t ++ [p]) (upd_seq S d)) d'.
Proof.
  unfold recordPaymentInTx, assertBranch. intros Hm. m_inv.
  match goal with x : (Qc * _)%type |- _ => destruct x as [amount foreign] end. m_inv.
  match goal with H : in_branch_currency _ _ _ = _ |- _ => apply in_branch_currency_spec in H as [-> Hconv] end.
  match goal with H : (if bool_decide _ then _ else _) _ = _ |- _ => apply drawer_spec in H as [-> Hs]; [|assumption] end.
  match goal with H : match foreign with _ => _ end ?e = Ok (?e', _) |- _ => assert (e' = e) as -> by (destruct foreign as [[[]]|]; m_inv; done); clear H end.
  match goal with H : create_payment _ _ = _ |- _ => apply create_payment_spec in H as [-> ->] end.
  match goal with H : Folios.audit _ _ _ _ _ = _ |- _ => pose proof (mf_audit _ _ _ _ _ _ _ H) as Hmf; apply audit_money in H as [-> ->] end.
  match goal with H : Some ?x = List.find _ (branches _) |- _ => symmetry in H; apply find_Some in H as [_ Hb] end.
  match goal with H : assertFolioOpen _ = _ |- _ => apply assertFolioOpen_Ok in H end. boolp. destruct Hb as [Hb _].
  do 9 (split; [done|]). split; [|split; [|split; [done|exact Hmf]]].
  - destruct Hconv as [(-> & ->)|(x & Hx & Hxb & Hxc & -> & ->)]; [by left|right]. exists x. rewrite <- Hb. done.
  - intros Hc. destruct (Hs Hc) as (x & -> & Hx & Ho). by exists x.
Qed.


Lemma recordLoyaltyPayment_spec f a why u d d' p : recordLoyaltyPaymentInTx f a why u d = Ok (d', p) ->
  Payment.folioId p = f /\ Payment.method p = loyalty_points /\ Payment.isVoid p = false /\ Payment.deletedAt p = None /\
  numeric a = Ok (Payment.amount p) /\ (a <= balanceDue (totals_in d f))%Qc /\
  Payment.id p = gen_random_uuid (seq d) /\ money_frame (upd_payments (fun t => t ++ [p]) (upd_seq S d)) d'.
Proof.
  unfold recordLoyaltyPaymentInTx, assertBranch, computeTotals. intros Hm. m_inv.
  match goal with H : findFolioOrThrow _ _ = _ |- _ => apply findFolio_spec in H as (-> & _) end.
  match goal with H : create_payment _ _ = _ |- _ => apply create_payment_spec in H as [-> ->] end.
  match goal with H : Folios.audit _ _ _ _ _ = _ |- _ => apply mf_audit in H end.
  split_and!; try done. match goal with H : dgt ?x ?y = false |- _ => destruct (dgt_spec x y); [done | by apply Qcnot_lt_le] end.
Qed.
End Payments.
#[export] Hint Resolve mf_new_id mf_auditLog mf_emit mf_audit mf_applyLoyaltyPoints : keeps.

(** a payment recorded counts once: the bill it is taken on owes exactly that
    much less and no other bill changes; the bill was not settled; cash is
    recorded against the agent's own open drawer at that branch; money in
    another currency counts at the branch's rate, kept on the payment; points
    are never taken through this path. *)
Theorem payment_recorded `{DecimalLib} `{Uuid} (f : string) (dto : PaymentDto) (purpose : option PaymentPurpose) (u : string) (d d' : Db) (p : Payment.t) :
  recordPayment f dto purpose u d = Ok (d', p) ->
  pays d d' f (Payment.amount p) /\ p ∈ payments d' /\ dto_method dto <> loyalty_points /\
  exists folio, folio ∈ folios d /\ Folio.id folio = f /\ Folio.status folio <> settled /\ converted d (Folio.branchId folio) dto p /\
    (dto_method dto = cash -> exists s, s ∈ shifts d /\ open_shift_of (Folio.branchId folio) u s = true /\ Payment.shiftId p = Some (Shift.id s)).
Proof.
  unfold recordPayment. intros Hm. m_inv.
  match goal with H : findFolioOrThrow _ _ = _ |- _ => apply findFolio_spec in H as (-> & Hf & <- & _) end.
  apply recordPaymentInTx_spec in Hm as (Hl & Hp & Hpf & Hv & Hdel & _ & _ & Hlp & Hst & Hc & Hcash & _).
  split; [rewrite <- Hpf; by apply pays_app|]. split; [rewrite Hp; apply elem_of_app; right; left|]. split; [done|]. eexists. split; [exact Hf | done].
Qed.



(** ** Relations the billing operations keep *)
(** A relation between databases that does not look at what the bills' lines,
    statuses and trails are, only (if at all) at payments: it is enough to show
    that the three operations that write payments keep it. *)
Class LedgerWrites `{DecimalLib} `{Uuid} (R : Db -> Db -> Prop) : Prop := {
  lw_preorder :: PreOrder R;
  lw_seq d : R d (upd_seq S d);
  lw_audit g d : R d (upd_auditLogs g d);
  lw_deliveries g d : R d (upd_webhookDeliveries g d);
  lw_lines g d : R d (upd_lineItems g d);
  lw_folios g d : R d (upd_folios g d);
  lw_transfers g d : R d (upd_folioTransfers g d);
  lw_orders w f d : R d (upd_posOrders (update_where w (PosOrder.with_folioId f)) d);
  lw_order_void l w u r d : R d (upd_posOrders (update_where (fun x => bool_decide (PosOrder.lineItemId x = Some l) &&
                                   isNone (PosOrder.voidedAt x)) (PosOrder.with_void w u r)) d);
  lw_pay f dto p u : keeps R (recordPaymentInTx f dto p u);
  lw_void i why u : keeps R (voidPayment i why u);
  lw_points_pay f a why u : keeps R (recordLoyaltyPaymentInTx f a why u);
}.

Section LedgerWritesOps.
Context `{DecimalLib} `{TaxDb} `{Platform} `{Uuid} (R : Db -> Db -> Prop) `{!LedgerWrites R}.

Lemma lw_modify f : (forall d, R d (f d)) -> keeps R (modify f).
Proof. apply keeps_modify; apply _. Qed.
Lemma lw_new_id : keeps R new_id.
Proof. unfold new_id. keeps_tac. apply lw_modify, lw_seq. Qed.
Lemma lw_auditLog b u a s i : keeps R (auditLog b u a s i).
Proof. apply lw_modify. intros. apply lw_audit. Qed.
Lemma lw_emit b s i : keeps R (emit b s i).
Proof. unfold emit. keeps_tac; [apply lw_new_id|]. apply lw_modify. intros. apply lw_deliveries. Qed.
Lemma lw_folio_audit b u a i : keeps R (Folios.audit b u a i).
Proof. unfold Folios.audit, paymentRecorded. keeps_tac; [apply lw_auditLog | apply lw_emit]. Qed.
Lemma lw_create_lineItem l : keeps R (create_lineItem l).
Proof. unfold create_lineItem, now. keeps_tac; [apply lw_new_id|]. apply lw_modify. intros. apply lw_lines. Qed.
Lemma lw_upd_orders w f : keeps R (modify (upd_posOrders (update_where w (PosOrder.with_folioId f)))).
Proof. apply lw_modify. intros. apply lw_orders. Qed.
Lemma lw_move_lines ids f : keeps R (move_lines ids f).
Proof. unfold move_lines. keeps_tac; [|apply lw_upd_orders]. apply lw_modify. intros. apply lw_lines. Qed.
Lemma lw_upd_folios g : keeps R (modify (upd_folios g)).
Proof. apply lw_modify. intros. apply lw_folios. Qed.
Lemma lw_upd_transfers g : keeps R (modify (upd_folioTransfers g)).
Proof. apply lw_modify. intros. apply lw_transfers. Qed.
#[local] Hint Resolve lw_new_id lw_auditLog lw_emit lw_folio_audit lw_create_lineItem lw_upd_orders lw_move_lines lw_upd_folios
  lw_upd_transfers lw_pay lw_void lw_points_pay : keeps.

Lemma lw_writeCharge i : keeps R (writeChargeWithTaxes i).
Proof. unfold writeChargeWithTaxes. keeps_tac. Qed.
Lemma lw_ensurePrimaryFolio r u : keeps R (ensurePrimaryFolio r u).
Proof. unfold ensurePrimaryFolio, now. keeps_tac. Qed.
#[local] Hint Resolve lw_writeCharge lw_ensurePrimaryFolio : keeps.
Lemma lw_postPackageCharges r f s u : keeps R (postPackageCharges r f s u).
Proof. unfold postPackageCharges, postPackage, routedFolio. keeps_tac. Qed.
#[local] Hint Resolve lw_postPackageCharges : keeps.
Lemma lw_postRoomChargeForDate r f s u : keeps R (postRoomChargeForDate r f s u).
Proof. unfold postRoomChargeForDate, dayUseCharged, postDayUseCharge, postRoomNight, night_rate, routedFolio. keeps_tac. Qed.
Lemma lw_reverseLineItem o f u : keeps R (reverseLineItem o f u).
Proof. unfold reverseLineItem. keeps_tac. Qed.
Lemma lw_moveCharges f dto u k : keeps R (moveCharges f dto u k).
Proof. unfold moveCharges, findFolioOrThrow, withDependents, now. keeps_tac. Qed.
#[local] Hint Resolve lw_postRoomChargeForDate lw_reverseLineItem lw_moveCharges : keeps.
Lemma folio_op_keeps {A} (m : M A) : folio_op m -> keeps R m.
Proof.
  destruct 1; unfold postPackagesForDate, backfillRoomCharges, postAdHocCharge, postOutletCharge, postChargeInTx, postCharge,
    recordPayment, recordDeposit, computeTotals, correctLineItem, correctLineItemInTx,
    find_line, reverseChargeInTx, createAdditionalFolio, splitFolio, transferCharges, reverseTransfer, withDependents, closeFolio,
    reopenFolio, settleIfFullyPaid, findReservation, findFolioOrThrow, assertBranch, now; keeps_tac.
  apply lw_modify. intros. apply lw_order_void.
Qed.
End LedgerWritesOps.

(** ** Voids *)
Section Voids.
Context `{DecimalLib} `{TaxDb} `{Platform} `{Uuid}.

Lemma applyLoyaltyPoints_rows g e d d' t : applyLoyaltyPoints g e d = Ok (d', t) ->
  exists row, loyaltyTransactions d' = loyaltyTransactions d ++ [row] /\ LoyaltyTransaction.guestId row = GuestProfile.id g /\
    LoyaltyTransaction.type row = entry_type e /\ LoyaltyTransaction.points row = entry_points e /\
    LoyaltyTransaction.paymentId row = entry_paymentId e.
Proof.
  unfold applyLoyaltyPoints, create_loyaltyTransaction, lifetimeLoyaltyPoints, now. intros Hm. m_inv.
  match goal with H : new_id _ = _ |- _ => apply new_id_spec in H as [-> ->] end. eexists. split; [reflexivity|]. done.
Qed.
Lemma audit_points b u a i d d' x : Folios.audit b u a i d = Ok (d', x) -> loyaltyTransactions d' = loyaltyTransactions d.
Proof.
  set (R := fun d d' : Db => loyaltyTransactions d' = loyaltyTransactions d).
  assert (PreOrder R) as HR by (split; [done|]; intros d1 d2 d3 H12 H23; exact (eq_trans H23 H12)).
  enough (keeps R (Folios.audit b u a i)) as Hk by apply Hk.
  unfold Folios.audit, paymentRecorded, auditLog, emit, new_id. keeps_tac; by apply (keeps_modify R).
Qed.

(** The points a payment was made with come back as one row. *)
Definition points_back (d d' : Db) (p : Payment.t) : Prop :=
  match List.find (fun x => bool_decide (LoyaltyTransaction.paymentId x = Some (Payment.id p))) (loyaltyTransactions d) with
  | Some t => if bool_decide (Payment.method p = loyalty_points)
              then exists row, loyaltyTransactions d' = loyaltyTransactions d ++ [row] /\ LoyaltyTransaction.type row = reversal /\
                     LoyaltyTransaction.guestId row = LoyaltyTransaction.guestId t /\
                     LoyaltyTransaction.points row = - LoyaltyTransaction.points t
              else loyaltyTransactions d' = loyaltyTransactions d
  | None => loyaltyTransactions d' = loyaltyTransactions d
  end.

Lemma voidPayment_spec i why u d d' p' : voidPayment i why u d = Ok (d', p') ->
  exists p, p ∈ payments d /\ Payment.id p = i /\ Payment.deletedAt p = None /\ Payment.isVoid p = false /\ (0 < Payment.amount p)%Qc /\
    (forall r, r ∈ refunds d -> Refund.refundPaymentId r <> Some i) /\
    (forall r, r ∈ refunds d -> Refund.paymentId r = Some i -> Refund.status r = refund_rejected) /\
    (forall s x, Payment.shiftId p = Some s -> List.find (fun x => bool_decide (Shift.id x = s)) (shifts d) = Some x -> Shift.closedAt x = None) /\
    money_frame (upd_payments (update_where (fun x => bool_decide (Payment.id x = i))
       (Payment.with_void true (Some (clock d)) (Some u) (Some (js_trim why)))) d) d' /\
    points_back d d' p.
Proof.
  unfold voidPayment, now. intros Hm. m_inv.
  match goal with H : Some ?x = List.find _ (payments ?e) |- _ =>
    rename x into p, e into d0; symmetry in H; apply find_Some in H as [Hp Hw] end. boolp. destruct Hw as [Hi Hdel%isNone_eq].
  match goal with H : findFolioOrThrow _ _ = _ |- _ => apply findFolio_spec in H as (-> & _) end.
  match goal with H : match Payment.shiftId p with _ => _ end ?e = Ok (?e', _) |- _ =>
    assert (e' = e /\ forall s x, Payment.shiftId p = Some s -> List.find (fun x => bool_decide (Shift.id x = s)) (shifts e) = Some x -> Shift.closedAt x = None) as [-> Hsh] end.
  { destruct (Payment.shiftId p) as [s|]; m_inv; [|done]. split; [done|]. intros ? x [= <-] Hx. rewrite Hx in *. by destruct (Shift.closedAt x). }
  set (dv := upd_payments _ d0) in *.
  match goal with H : match List.find _ (loyaltyTransactions d0) with _ => _ end dv = Ok (?e, _), H2 : Folios.audit _ _ _ _ ?e = _ |- _ =>
    assert (money_frame dv d' /\ points_back d0 d' p) as [Hmf Hpts]; [|rename H into Hk] end.
  { match goal with H : Folios.audit _ _ _ _ _ = _ |- _ => rename H into Ha end. unfold points_back. rewrite Hi, (audit_points _ _ _ _ _ _ _ Ha).
    apply mf_audit in Ha. destruct (List.find _ (loyaltyTransactions d0)) as [t|]; [|by m_inv].
    destruct (bool_decide (Payment.method p = _)); [|by m_inv].
    unfold lockLoyaltyGuest, findLoyaltyGuest in *. m_inv.
    match goal with H : Some ?g = List.find _ (guests _) |- _ => symmetry in H; apply find_Some in H as [_ Hg] end. boolp.
    match goal with H : applyLoyaltyPoints _ _ _ = _ |- _ => pose proof (mf_applyLoyaltyPoints _ _ _ _ _ H) as Hl; apply applyLoyaltyPoints_rows in H as (row & Hrow & Hrg & Hrt & Hrp & _) end.
    split; [by etrans|]. exists row. rewrite Hrow, Hrg, Hrt, Hrp. by destruct Hg as [-> _]. }
  match goal with H : isSome _ = false /\ _ |- _ => destruct H as [Hno Hpos] end.
  exists p. do 4 (split; [done|]). split; [by destruct (dgt_spec (Payment.amount p) 0%Qc)|]. split_and!; [| |exact Hsh|exact Hmf|exact Hpts].
  - intros r Hr Hri. destruct (List.find _ (refunds d0)) eqn:E; [done|]. apply (find_None _ _ _ E) in Hr. by apply bool_decide_eq_false in Hr.
  - intros r Hr Hri. match goal with H : (length ?l <= 0)%nat |- _ => assert (r ∉ l) as Hnot by (destruct l; [apply not_elem_of_nil | simpl in H; lia]) end.
    destruct (Refund.status r) eqn:E; [exfalso; apply Hnot, elem_of_filterb; split; [done|]; boolp; split; [done|]; rewrite E; set_solver..|done|].
    exfalso; apply Hnot, elem_of_filterb; split; [done|]; boolp; split; [done|]; rewrite E; set_solver.
Qed.
End Voids.

(** a void takes back exactly one payment, once: the bill owes that much more
    and no other bill changes, the points it was made with return as one row,
    a pay-out or a payment a refund stands against is never voided, nor one
    whose drawer is closed, and voiding it a second time is refused. *)
Theorem void_exact_once `{DecimalLib} `{Uuid} (i why u : string) (d d' : Db) (p' : Payment.t) :
  ledger_wf d -> voidPayment i why u d = Ok (d', p') ->
  exists p, p ∈ payments d /\ Payment.id p = i /\ Payment.isVoid p = false /\ (0 < Payment.amount p)%Qc /\
    pays d' d (Payment.folioId p) (Payment.amount p) /\ points_back d d' p /\
    (forall r, r ∈ refunds d -> Refund.refundPaymentId r <> Some i) /\
    (forall r, r ∈ refunds d -> Refund.paymentId r = Some i -> Refund.status r = refund_rejected) /\
    (forall s x, Payment.shiftId p = Some s -> List.find (fun x => bool_decide (Shift.id x = s)) (shifts d) = Some x -> Shift.closedAt x = None) /\
    (forall why' u', voidPayment i why' u' d' = Err conflict).
Proof.
  intros Hwf (p & Hp & Hi & Hdel & Hv & Hpos & Hno & Hrej & Hsh & Hmf & Hpts)%voidPayment_spec.
  exists p. do 4 (split; [done|]). split; [|split_and!; [done..|]].
  - intros g. unfold balance. rewrite (charges_on_same _ _ g (mf_lines _ _ Hmf)). change (lineItems (upd_payments _ d)) with (lineItems d).
    pose proof (mf_payments _ _ Hmf) as Hpay. simpl in Hpay. subst i.
    rewrite (paid_on_void d d' p g _ _ _ (wf_pay_ids _ Hwf) Hp Hv Hdel Hpay). unfold if_on.
    change (charges_on (upd_payments _ d) g) with (charges_on d g). destruct (bool_decide _); ring.
  - intros why' u'. unfold voidPayment, findFirst, orThrow, gets, bind.
    destruct (List.find _ (payments d')) as [x|] eqn:E.
    + apply find_Some in E as [Hx Hw]. boolp. destruct Hw as [Hxi _]. simpl.
      rewrite (mf_payments _ _ Hmf) in Hx. simpl in Hx. apply list_elem_of_fmap in Hx as (y & -> & Hy).
      destruct (bool_decide_reflect (Payment.id y = i)) as [Hyi|Hyi]; [|done]. reflexivity.
    + exfalso. assert (Payment.with_void true (Some (clock d)) (Some u) (Some (js_trim why)) p ∈ payments d') as Hin.
      { rewrite (mf_payments _ _ Hmf). simpl. apply list_elem_of_fmap. exists p. by rewrite bool_decide_true. }
      apply (find_None _ _ _ E) in Hin. simpl in Hin. by rewrite bool_decide_true, Hdel in Hin.
Qed.


(** ** Closing *)
(** The balance decides: what closing an open bill answers. *)
Definition close_spec (d : Db) (f : string) (r : res (Db * Folio.t)) : Prop :=
  ((0 < balance d f)%Qc -> r = Err (Throw ConflictException FOLIO_NOT_SETTLED)) /\
  ((balance d f < 0)%Qc -> r = Err (Throw ConflictException FOLIO_CREDIT_BALANCE)) /\
  (balance d f = 0%Qc -> exists d' folio, r = Ok (d', folio) /\ Folio.id folio = f /\ Folio.status folio = settled /\
     (forall x, x ∈ folios d' -> Folio.id x = f -> Folio.status x = settled /\ Folio.closedAt x = Some (clock d)) /\
     (forall g, balance d' g = balance d g)).

(** a bill closes exactly when nothing is owed either way: a bill with a
    balance is refused with the code that says on which side, and one at zero
    is settled, with no bill's balance moved. *)
Theorem close_exactly_settled `{DecimalLib} `{Uuid} (f u : string) (d : Db) :
  ledger_wf d -> few_rows d -> open_in d f -> close_spec d f (closeFolio f u d).
Proof.
  intros Hwf Hfew Hopen. destruct (open_run _ _ Hopen) as (x & Hx & Ho).
  pose proof (findFolio_spec _ _ _ _ Hx) as (_ & Hin & Hi & _). apply assertFolioOpen_Ok in Ho.
  destruct (totals_exact_lemma d f Hwf Hfew) as (_ & _ & _ & Hb).
  unfold close_spec, closeFolio. rewrite (bind_run _ _ _ _ _ Hx), (bool_decide_false _ Ho).
  unfold computeTotals. erewrite bind_run by reflexivity. rewrite Hb.
  split_and!.
  - intros Hgt. unfold bind at 1, lift. by destruct (dgt_spec (balance d f) 0%Qc).
  - intros Hlt. erewrite bind_run; [|rewrite (proj2 (throw_if_Ok _ _ tt)); [reflexivity|]].
    + unfold bind at 1. unfold lift. by destruct (dgt_spec 0%Qc (balance d f)).
    + destruct (dgt_spec (balance d f) 0%Qc); [|done]. exfalso. by eapply Qclt_not_le, Qclt_le_weak.
  - intros Heq. rewrite Heq. unfold now. do 4 (erewrite bind_run by reflexivity).
    match goal with |- context [bind (Folios.audit ?b ?w ?a ?i) _ ?e] => destruct (audit_total b w a i e) as [d2 Ha]; set (ds := e) in * end.
    rewrite (bind_run _ _ _ _ _ Ha). pose proof (audit_frame_lines _ _ _ _ _ _ _ Ha) as [Hf Hl].
    do 2 eexists. split; [reflexivity|]. split; [done|]. split; [done|]. split.
    + intros y. rewrite (fr_folios _ _ Hf). simpl. intros (z & -> & Hz)%list_elem_of_fmap.
      by destruct (bool_decide_reflect (Folio.id z = f)).
    + intros g. unfold balance, charges_on, paid_on. by rewrite Hl, (fr_payments _ _ Hf).
Qed.

Module PaymentsWitness.
Import Hotel LedgerWitness FiguresWitness.
Definition cash_dto : PaymentDto := {| dto_amount := cents 20000; dto_method := cash; dto_reference := None; dto_currency := None |}.
Definition hotel_paid : Db := after (recordPayment "f1" cash_dto None "u1") hotel_billed.
Lemma hotel_paid_ok : is_ok (recordPayment "f1" cash_dto None "u1" hotel_billed) = true.
Proof. vm_compute. reflexivity. Qed.
Lemma hotel_paid_wf : ledger_wf hotel_paid.
Proof. destruct (after_ok _ _ hotel_paid_ok) as [p Hp]. exact (folio_op_wf _ (op_recordPayment _ _ _ _) _ _ _ Hp hotel_billed_wf). Qed.
Lemma hotel_paid_few : few_rows hotel_paid.
Proof. split; vm_compute; reflexivity. Qed.

Lemma payment_recorded_witness : exists p, recordPayment "f1" cash_dto None "u1" hotel_billed = Ok (hotel_paid, p) /\
  pays hotel_billed hotel_paid "f1" (Payment.amount p).
Proof.
  destruct (after_ok _ _ hotel_paid_ok) as [p Hp]. exists p. split; [exact Hp|].
  exact (proj1 (payment_recorded "f1" cash_dto None "u1" hotel_billed hotel_paid p Hp)).
Defined.

Definition paid_id : string := gen_random_uuid (seq hotel_billed).
Lemma void_ok : is_ok (voidPayment paid_id "wrong bill" "u1" hotel_paid) = true.
Proof. vm_compute. reflexivity. Qed.
Lemma void_exact_once_witness : exists d' p', voidPayment paid_id "wrong bill" "u1" hotel_paid = Ok (d', p') /\
  voidPayment paid_id "again" "u2" d' = Err conflict.
Proof.
  destruct (run_ok _ _ void_ok) as (d' & p' & Hv). exists d', p'. split; [exact Hv|].
  destruct (void_exact_once paid_id "wrong bill" "u1" hotel_paid d' p' hotel_paid_wf Hv) as (_ & _ & _ & _ & _ & _ & _ & _ & _ & _ & Hagain).
  exact (Hagain "again" "u2").
Defined.

Lemma f1_open : open_in hotel_billed "f1".
Proof. exists (hotel_folio "f1" None). split; [vm_compute; reflexivity | discriminate]. Qed.
Lemma close_exactly_settled_witness : (0 < balance hotel_billed "f1")%Qc /\
  closeFolio "f1" "u1" hotel_billed = Err (Throw ConflictException FOLIO_NOT_SETTLED).
Proof.
  assert (0 < balance hotel_billed "f1")%Qc as Hb by (vm_compute; reflexivity).
  split; [exact Hb|]. exact (proj1 (close_exactly_settled "f1" "u1" hotel_billed hotel_billed_wf hotel_billed_few f1_open) Hb).
Defined.
End PaymentsWitness.
