(* ===== verification/Refunds.v ===== *)
(** Refunds: requested against a bill's credit, approved or turned down, paid
    out as a negative payment (src/src/modules/folios/refunds.service.ts). *)
From S2P Require Import Prelude Decimal Dates Taxes Authority Transactions Db LoyaltyRules Packages Folios SampleHotel FolioLedger FolioFigures FolioEffects FolioMoves FolioPayments.
From Stdlib Require Import QArith Qcanon Lqa.
Import BranchRoles.
Local Open Scope Z_scope.

Definition APPROVER_ROLES : list string := ["owner"; "manager"].
Definition OUTSTANDING : list RefundStatus := [refund_pending; refund_approved].
Definition ENDED_STAYS : list ReservationStatus := [checked_out; cancelled; no_show; walked].
Definition REFUND_METHODS : list PaymentMethod := [cash; card; bank_transfer].
Definition changedMeanwhile : error := conflict.

Record RequestRefundDto := { rq_amount : Qc; rq_paymentId : option string; rq_method : option PaymentMethod; rq_reason : string }.

Section Refunds.
Context `{DecimalLib} `{TaxDb} `{Platform} `{Uuid}.

Definition audit (b u action entityId : string) : M unit := auditLog (Some b) (Some u) action "refund" entityId.

(** The refund with the branch of its bill. *)
Definition findOrThrow (refundId : string) : M (Refund.t * string) :=
  let! r := orThrow (findFirst refunds (fun x => bool_decide (Refund.id x = refundId))) not_found in
  let! f := orThrow (findFirst folios (fun x => bool_decide (Folio.id x = Refund.folioId r))) internal in
  ret (r, Folio.branchId f).

(** SQL sums of refunds. *)
Definition outstanding_on (d : Db) (f : string) (exceptId : option string) : Qc :=
  qsum (Refund.amount <$> List.filter (fun x => bool_decide (Refund.folioId x = f) && bool_decide (Refund.status x ∈ OUTSTANDING) &&
                                               negb (bool_decide (exceptId = Some (Refund.id x)))) (refunds d)).
Definition refundedAgainst (p : string) : M Qc :=
  gets (fun d => qsum (Refund.amount <$> List.filter (fun x => bool_decide (Refund.paymentId x = Some p) &&
                                                     bool_decide (Refund.status x ∈ OUTSTANDING ++ [refund_processed])) (refunds d))).

(** A bill's credit, and what of it no refund is already on its way for. *)
Definition refundable (f : string) (exceptId : option string) : M (Qc * Qc) :=
  let! t := computeTotals f in
  let credit := (- balanceDue t)%Qc in
  let! out := gets (fun d => outstanding_on d f exceptId) in
  let left := credit ⊖ out in
  ret (credit, if dgt left 0%Qc then left else 0%Qc).

(** [tx.refund.create], with [CHECK ("amount" > 0)]. *)
Definition create_refund (r : string -> Refund.t) : M Refund.t :=
  let! i := new_id in
  let row := r i in
  throw! internal when negb (dgt (Refund.amount row) 0%Qc) in
  do! modify (upd_refunds (fun t => t ++ [row])) in
  ret row.

Definition requestInTx (folioId branchId : string) (dto : RequestRefundDto) (actor : JwtPayload) : M Refund.t :=
  let! p := (if given (rq_paymentId dto) then
               findFirst payments (fun x => bool_decide (Some (Payment.id x) = rq_paymentId dto) && standing_payment folioId x)
             else ret None) in
  throw! invalid when (given (rq_paymentId dto) && match p with Some x => negb (dgt (Payment.amount x) 0%Qc) | None => true end) in
  let! method := lift (or_throw (match rq_method dto with Some m => Some m | None => Payment.method <$> p end) invalid) in
  throw! invalid when negb (bool_decide (method ∈ REFUND_METHODS)) in
  let amount := rq_amount dto in
  let! ' (_, available) := refundable folioId None in
  throw! invalid when dgt amount available in
  do! match p with
      | Some x => let! used := refundedAgainst (Payment.id x) in
                  lift (throw_if (dgt amount (Payment.amount x ⊖ used)) invalid)
      | None => ret tt
      end in
  let selfApproved := hasRoleAtBranch actor branchId APPROVER_ROLES in
  let! stored := lift (numeric amount) in
  let! r := create_refund (fun i => {|
    Refund.id := i; Refund.folioId := folioId; Refund.paymentId := Payment.id <$> p; Refund.amount := stored;
    Refund.reason := js_trim (rq_reason dto); Refund.status := if selfApproved then refund_approved else refund_pending;
    Refund.method := method; Refund.requestedBy := Some (sub actor); Refund.approvedBy := if selfApproved then Some (sub actor) else None;
    Refund.rejectionReason := None; Refund.processedBy := None; Refund.refundPaymentId := None; Refund.processedAt := None |}) in
  do! audit branchId (sub actor) "refund.requested" (Refund.id r) in
  ret r.

Definition request (folioId : string) (dto : RequestRefundDto) (actor : JwtPayload) : M Refund.t :=
  let! f := findFolioOrThrow folioId in
  requestInTx (Folio.id f) (Folio.branchId f) dto actor.

(** [updateMany({ where: { id, status }, data })], refusing when nothing matched. *)
Definition claim (refundId : string) (from : list RefundStatus) (data : Refund.t -> Refund.t) : M unit :=
  let claimed x := bool_decide (Refund.id x = refundId) && bool_decide (Refund.status x ∈ from) in
  let! hits := findMany refunds claimed in
  throw! changedMeanwhile when bool_decide (length hits = 0%nat) in
  modify (upd_refunds (update_where claimed data)).
Definition refund_now (refundId : string) : M Refund.t :=
  orThrow (findFirst refunds (fun x => bool_decide (Refund.id x = refundId))) internal.

Definition approve (refundId : string) (actor : JwtPayload) : M Refund.t :=
  let! ' (r, b) := findOrThrow refundId in
  throw! conflict when negb (bool_decide (Refund.status r = refund_pending)) in
  let! ' (_, available) := refundable (Refund.folioId r) (Some (Refund.id r)) in
  throw! conflict when dgt (Refund.amount r) available in
  do! claim refundId [refund_pending] (Refund.with_approved refund_approved (Some (sub actor))) in
  do! audit b (sub actor) "refund.approved" refundId in
  refund_now refundId.

Definition reject (refundId reason : string) (actor : JwtPayload) : M Refund.t :=
  let! ' (r, b) := findOrThrow refundId in
  throw! conflict when negb (bool_decide (Refund.status r ∈ OUTSTANDING)) in
  do! claim refundId OUTSTANDING (Refund.with_rejected refund_rejected (Some (js_trim reason))) in
  do! audit b (sub actor) "refund.rejected" refundId in
  refund_now refundId.

(** The bill of a stay that is over, brought to nothing, is closed. *)
Definition settle_ended (folioId actorId : string) : M unit :=
  let! f := findFirst folios (fun x => bool_decide (Folio.id x = folioId)) in
  match f with
  | None => ret tt
  | Some f =>
      let! r := findFirst reservations (fun x => bool_decide (Reservation.id x = Folio.reservationId f)) in
      match r with
      | Some r =>
          if bool_decide (Reservation.status r ∈ ENDED_STAYS) && negb (bool_decide (Folio.status f = settled))
          then let! _ := settleIfFullyPaid f (Some actorId) in ret tt
          else ret tt
      | None => ret tt
      end
  end.

Definition payOut (refundId : string) (actor : JwtPayload) : M Refund.t :=
  let! ' (r, b) := findOrThrow refundId in
  throw! conflict when negb (bool_decide (Refund.status r = refund_approved)) in
  let! t := computeTotals (Refund.folioId r) in
  throw! conflict when dgt (Refund.amount r) (- balanceDue t)%Qc in
  let! branch := assertBranch b in
  let! openShift := (if bool_decide (Refund.method r = cash) then findFirst shifts (open_shift_of b (sub actor)) else ret None) in
  throw! shiftRequired when (bool_decide (Refund.method r = cash) && isNone openShift) in
  let! at_ := now in
  do! claim refundId [refund_approved] (Refund.with_processed refund_processed (Some at_) (Some (sub actor))) in
  let! stored := lift (numeric (- Refund.amount r)%Qc) in
  let! p := create_payment (fun i => {|
    Payment.id := i; Payment.folioId := Refund.folioId r; Payment.method := Refund.method r; Payment.amount := stored;
    Payment.currency := Branch.currency branch; Payment.foreignCurrency := None; Payment.foreignAmount := None;
    Payment.exchangeRate := None; Payment.reference := Some (Refund.reason r); Payment.shiftId := Shift.id <$> openShift;
    Payment.paymentPurpose := payment; Payment.isVoid := false; Payment.voidedAt := None; Payment.voidedBy := None;
    Payment.voidReason := None; Payment.recordedBy := Some (sub actor); Payment.deletedAt := None |}) in
  do! modify (upd_refunds (update_where (fun x => bool_decide (Refund.id x = refundId)) (Refund.with_refundPaymentId (Some (Payment.id p))))) in
  let! paid := refund_now refundId in
  do! audit b (sub actor) "refund.paid_out" refundId in
  do! paymentRecorded b "refund.paid" (Payment.id p) in
  do! settle_ended (Refund.folioId r) (sub actor) in
  ret paid.
End Refunds.

(** ** What refunds promise *)
(** The refunds of a well-formed database: named apart, of whole positive
    cents, and each one paid out has its own standing payment of its amount,
    the other way round, on its bill. *)
Definition payout_of (d : Db) (r : Refund.t) (p : Payment.t) : Prop :=
  p ∈ payments d /\ Refund.refundPaymentId r = Some (Payment.id p) /\ Payment.folioId p = Refund.folioId r /\
  Payment.amount p = (- Refund.amount r)%Qc /\ Payment.method p = Refund.method r /\
  Payment.isVoid p = false /\ Payment.deletedAt p = None.
Record refunds_wf `{Uuid} (d : Db) : Prop := {
  rf_ids : NoDup (Refund.id <$> refunds d);
  rf_seq r : r ∈ refunds d -> exists k, (k < seq d)%nat /\ Refund.id r = gen_random_uuid k;
  rf_money r : r ∈ refunds d -> money NUMERIC_12_2 (Refund.amount r) /\ (0 < Refund.amount r)%Qc;
  rf_paid r : r ∈ refunds d -> Refund.status r = refund_processed -> exists p, payout_of d r p;
  rf_unpaid r : r ∈ refunds d -> Refund.status r <> refund_processed -> Refund.refundPaymentId r = None;
  rf_apart r1 r2 : r1 ∈ refunds d -> r2 ∈ refunds d -> isSome (Refund.refundPaymentId r1) = true ->
    Refund.refundPaymentId r1 = Refund.refundPaymentId r2 -> Refund.id r1 = Refund.id r2;
}.

Section RefundLemmas.
Context `{DecimalLib} `{TaxDb} `{Platform} `{Uuid}.

Lemma mf_settle_ended f u : keeps money_frame (settle_ended f u).
Proof.
  unfold settle_ended, settleIfFullyPaid, computeTotals, Folios.audit, paymentRecorded, now. keeps_tac; apply mf_modify; by split.
Qed.

Lemma findOrThrow_spec i d d' r b : findOrThrow i d = Ok (d', (r, b)) ->
  d' = d /\ r ∈ refunds d /\ Refund.id r = i.
Proof.
  unfold findOrThrow. intros Hm. m_inv.
  match goal with H : Some r = List.find _ (refunds _) |- _ => symmetry in H; apply find_Some in H as [? Hi] end.
  by apply bool_decide_eq_true in Hi.
Qed.
Lemma claim_spec i from data d d' u : claim i from data d = Ok (d', u) ->
  d' = upd_refunds (update_where (fun x => bool_decide (Refund.id x = i) && bool_decide (Refund.status x ∈ from)) data) d /\
  exists r, r ∈ refunds d /\ Refund.id r = i /\ Refund.status r ∈ from.
Proof.
  unfold claim. intros Hm. m_inv. split; [done|].
  match goal with H : bool_decide (length ?l = _) = false |- _ => destruct l as [|r rs] eqn:E; [done|] end.
  assert (r ∈ r :: rs) as Hr by left. rewrite <- E in Hr. apply elem_of_filterb in Hr as [? Hw]. boolp. eauto.
Qed.

(** What a committed pay-out did, step by step. *)
Lemma payOut_inv i actor d d' r' : payOut i actor d = Ok (d', r') ->
  exists r b p s, r ∈ refunds d /\ Refund.id r = i /\ Refund.status r = refund_approved /\
    (Refund.amount r <= - balanceDue (totals_in d (Refund.folioId r)))%Qc /\
    (Refund.method r = cash -> exists x, s = Some x /\ x ∈ shifts d /\ open_shift_of b (sub actor) x = true) /\
    numeric (- Refund.amount r)%Qc = Ok (Payment.amount p) /\ Payment.id p = gen_random_uuid (seq d) /\
    Payment.folioId p = Refund.folioId r /\ Payment.method p = Refund.method r /\ Payment.shiftId p = Shift.id <$> s /\
    Payment.isVoid p = false /\ Payment.deletedAt p = None /\
    money_frame (upd_refunds (fun l => update_where (fun x => bool_decide (Refund.id x = i)) (Refund.with_refundPaymentId (Some (Payment.id p)))
        (update_where (fun x => bool_decide (Refund.id x = i) && bool_decide (Refund.status x ∈ [refund_approved]))
           (Refund.with_processed refund_processed (Some (clock d)) (Some (sub actor))) l))
      (upd_payments (fun t => t ++ [p]) (upd_seq S d))) d' /\
    List.find (fun x => bool_decide (Refund.id x = i)) (refunds d') = Some r'.
Proof.
  unfold payOut, computeTotals, refund_now, now, assertBranch. intros Hm. m_inv.
  match goal with x : (Refund.t * string)%type |- _ => destruct x as [r b] end. m_inv.
  match goal with H : findOrThrow _ ?e = _ |- _ => rename e into d0; apply findOrThrow_spec in H as (-> & Hr & Hi) end.
  match goal with H : claim _ _ _ _ = _ |- _ => apply claim_spec in H as (-> & _) end.
  match goal with H : create_payment _ _ = _ |- _ => apply create_payment_spec in H as [-> ->] end.
  match goal with H : (if bool_decide _ then _ else _) _ = Ok (_, ?o) |- _ => apply drawer_spec in H as [-> Hs]; [|assumption]; rename o into s end.
  match goal with H : audit _ _ _ _ ?e = Ok _, H2 : paymentRecorded _ _ _ _ = Ok _, H3 : settle_ended _ _ _ = Ok _ |- _ =>
    set (dp := e) in *; assert (money_frame dp d') as Hmf by
      (etrans; [exact (mf_auditLog _ _ _ _ _ _ _ _ H)|etrans; [exact (mf_emit _ _ _ _ _ _ H2)|exact (mf_settle_ended _ _ _ _ _ H3)]]) end.
  match goal with dp := context [_ ++ [?p]] |- _ => exists r, b, p, s end. split; [done|]. split; [done|]. boolp. split; [done|].
  split; [match goal with H : dgt _ _ = false |- _ => destruct (dgt_spec (Refund.amount r) (- balanceDue (totals_in d0 (Refund.folioId r)))%Qc); [done|by apply Qcnot_lt_le] end|].
  split; [exact Hs|]. split; [eassumption|].
  do 6 (split; [reflexivity|]). split; [exact Hmf|]. rewrite (mf_refunds _ _ Hmf). by symmetry.
Qed.

(** ** The operations, as steps *)
Inductive refund_op : forall {A}, M A -> Prop :=
| op_request f dto a : refund_op (request f dto a)
| op_requestInTx f b dto a : refund_op (requestInTx f b dto a)
| op_approve i a : refund_op (approve i a)
| op_reject i why a : refund_op (reject i why a)
| op_payOut i a : refund_op (payOut i a).
Definition billing_step (d d' : Db) : Prop :=
  folio_step d d' \/ exists (A : Type) (m : M A) (a : A), refund_op m /\ m d = Ok (d', a).

(** *** What every other billing operation leaves of the refunds *)
Record payouts_kept (d d' : Db) : Prop := {
  pk_refunds : refunds d' = refunds d;
  pk_seq : (seq d <= seq d')%nat;
  pk_payments p : p ∈ payments d -> p ∈ payments d' \/ forall r, r ∈ refunds d -> Refund.refundPaymentId r <> Some (Payment.id p);
}.
#[global] Instance payouts_kept_preorder : PreOrder payouts_kept.
Proof.
  split; [split; auto|]. intros d1 d2 d3 [Hr1 Hs1 Hp1] [Hr2 Hs2 Hp2]. split; [congruence|lia|].
  intros p [Hp|Hp]%Hp1; [|by right]. apply Hp2 in Hp as [Hp|Hp]; [by left|right]. by rewrite <- Hr1.
Qed.
#[global] Instance pk_writes : LedgerWrites payouts_kept.
Proof.
  assert (forall p, keeps payouts_kept (create_payment p)) as Hpay.
  { intros p d d' row [-> ->]%create_payment_spec. split; simpl; [done|lia|]. intros x Hx. left. apply elem_of_app. by left. }
  assert (forall b u a i, keeps payouts_kept (Folios.audit b u a i)) as Ha.
  { intros b u a i d d' x [_ Hp Hr _ _ Hs]%mf_audit. split; [done..|]. rewrite Hp. auto. }
  split; [apply _|try (intros; split; simpl; auto; fail)..| | |].
  - intros. unfold recordPaymentInTx, assertBranch, in_branch_currency. keeps_tac.
  - intros i why u d d' p' (p & _ & Hi & _ & _ & _ & Hno & _ & _ & Hmf & _)%voidPayment_spec. split.
    + by rewrite (mf_refunds _ _ Hmf).
    + exact (mf_seq _ _ Hmf).
    + intros x Hx. rewrite (mf_payments _ _ Hmf). simpl. destruct (decide (Payment.id x = i)) as [->|Hne]; [by right|left].
      apply list_elem_of_fmap. exists x. by rewrite bool_decide_false.
  - intros. unfold recordLoyaltyPaymentInTx, assertBranch, findFolioOrThrow, computeTotals. keeps_tac.
Qed.

Lemma wf_payouts_kept d d' : payouts_kept d d' -> refunds_wf d -> refunds_wf d'.
Proof.
  intros [Hr Hs Hp] [Hids Hseq Hmon Hpaid Hun Hap]. split; rewrite ?Hr; try done.
  - intros r Hin. destruct (Hseq r Hin) as (k & Hk & ?). exists k. split; [lia|done].
  - intros r Hin Hst. destruct (Hpaid r Hin Hst) as (p & Hpin & Hpi & Hrest). exists p. split; [|done].
    destruct (Hp p Hpin) as [?|Hno]; [done|]. exfalso. by apply (Hno r Hin).
Qed.

(** *** The refund operations keep the invariant *)
Lemma mf_wf d d' : money_frame d d' -> ledger_wf d /\ refunds_wf d -> ledger_wf d' /\ refunds_wf d'.
Proof.
  intros [Hl Hp Hr _ _ Hs] [Hwf Hrf]. split; [by apply (wf_other d)|]. apply (wf_payouts_kept d); [|done].
  split; [done..|]. rewrite Hp. auto.
Qed.

Lemma request_spec f b dto actor d d' r : requestInTx f b dto actor d = Ok (d', r) ->
    money_frame (upd_refunds (fun l => l ++ [r]) (upd_seq S d)) d' /\ Refund.id r = gen_random_uuid (seq d) /\
    numeric (rq_amount dto) = Ok (Refund.amount r) /\ (0 < Refund.amount r)%Qc /\ Refund.folioId r = f /\
    Refund.refundPaymentId r = None /\ Refund.method r ∈ REFUND_METHODS /\
    Refund.status r = (if hasRoleAtBranch actor b APPROVER_ROLES then refund_approved else refund_pending) /\
    (let left := (- balanceDue (totals_in d f))%Qc ⊖ outstanding_on d f None in
     (rq_amount dto <= if dgt left 0%Qc then left else 0%Qc)%Qc) /\
    (forall i, Refund.paymentId r = Some i -> exists p, p ∈ payments d /\ Payment.id p = i /\ standing_payment f p = true /\
       (rq_amount dto <= Payment.amount p ⊖ qsum (Refund.amount <$> List.filter (fun x => bool_decide (Refund.paymentId x = Some i) &&
          bool_decide (Refund.status x ∈ OUTSTANDING ++ [refund_processed])) (refunds d)))%Qc).
Proof.
  unfold requestInTx, refundable, computeTotals, refundedAgainst, create_refund. intros Hm. m_inv.
  match goal with H : (if given _ then _ else _) ?e = Ok (?e', ?o) |- _ => rename o into p;
    assert (e' = e /\ forall x, p = Some x -> x ∈ payments e /\ standing_payment f x = true) as [-> Hp];
      [destruct (given _); m_inv; [|done]; split; [done|]; intros x Hx%find_Some; boolp; naive_solver | clear H] end.
  match goal with H : match p with _ => _ end ?e = Ok (?e', _) |- _ => rename H into Hu;
    assert (e' = e) as -> by (destruct p; m_inv; done) end.
  match goal with H : new_id _ = _ |- _ => apply new_id_spec in H as [-> ->] end.
  match goal with H : audit _ _ _ _ _ = _ |- _ => apply mf_auditLog in H as Hmf end.
  boolp. match goal with H : dgt (Refund.amount _) _ = true |- _ => rename H into Hpos end.
  assert (forall a x, dgt a x = false -> (a <= x)%Qc) as Hdgt by (intros a x; destruct (dgt_spec a x); [done | intros _; by apply Qcnot_lt_le]).
  split; [exact Hmf|]. split; [done|]. split; [eassumption|].
  split; [match type of Hpos with dgt ?a ?b = true => by destruct (dgt_spec a b) end|]. do 2 (split; [done|]). split; [assumption|].
  split; [done|]. split; [by apply Hdgt|]. intros i Hi. simpl in Hi. destruct p as [x|]; [|done]. injection Hi as <-.
  destruct (Hp x eq_refl) as [Hx Hs]. m_inv. exists x. do 3 (split; [done|]). by apply Hdgt.
Qed.

Definition sound (d : Db) : Prop := ledger_wf d /\ refunds_wf d.

Lemma sound_append d r : sound d -> Refund.id r = gen_random_uuid (seq d) -> money NUMERIC_12_2 (Refund.amount r) -> (0 < Refund.amount r)%Qc ->
  Refund.status r <> refund_processed -> Refund.refundPaymentId r = None -> sound (upd_refunds (fun l => l ++ [r]) (upd_seq S d)).
Proof.
  intros [Hwf [Hids Hseq Hmon Hpaid Hun Hap]] Hid Hm Hpos Hst Hpi. split; [apply (wf_other d); simpl; done || lia|].
  split; simpl.
  - rewrite fmap_app. apply NoDup_app. split_and!; [done| |apply NoDup_singleton].
    intros x (y & -> & Hy)%list_elem_of_fmap. csimpl. rewrite list_elem_of_singleton, Hid.
    destruct (Hseq y Hy) as (k & Hk & ->). intros ->%(inj gen_random_uuid). lia.
  - intros x [Hx| ->%list_elem_of_singleton]%elem_of_app; [|by exists (seq d); split; [lia|]].
    destruct (Hseq x Hx) as (k & Hk & ?). exists k. split; [lia|done].
  - by intros x [Hx| ->%list_elem_of_singleton]%elem_of_app; [auto|].
  - by intros x [Hx| ->%list_elem_of_singleton]%elem_of_app; [apply Hpaid|].
  - by intros x [Hx| ->%list_elem_of_singleton]%elem_of_app; [apply Hun|].
  - intros x y [Hx| ->%list_elem_of_singleton]%elem_of_app [Hy| ->%list_elem_of_singleton]%elem_of_app Hs He; auto.
    + rewrite He, Hpi in Hs. done.
    + rewrite Hpi in Hs. done.
Qed.

(** Approving and turning down: only what is not paid out changes, and only its status. *)
Lemma sound_update d w data : sound d -> (forall x, w x = true -> Refund.status x <> refund_processed) ->
  (forall x, Refund.id (data x) = Refund.id x /\ Refund.amount (data x) = Refund.amount x /\
     Refund.refundPaymentId (data x) = Refund.refundPaymentId x /\ Refund.status (data x) <> refund_processed) ->
  sound (upd_refunds (update_where w data) d).
Proof.
  intros [Hwf [Hids Hseq Hmon Hpaid Hun Hap]] Hw Hd. split; [by apply (wf_other d)|].
  assert (forall x, x ∈ update_where w data (refunds d) -> exists y, y ∈ refunds d /\ Refund.id x = Refund.id y /\
    Refund.amount x = Refund.amount y /\ Refund.refundPaymentId x = Refund.refundPaymentId y /\
    (x = y \/ Refund.status y <> refund_processed /\ Refund.status x <> refund_processed)) as Hback.
  { intros x (y & -> & Hy)%list_elem_of_fmap. exists y. split; [done|]. destruct (w y) eqn:E; [|auto 10]. destruct (Hd y) as (-> & -> & -> & ?). auto 10. }
  split; simpl.
  - unfold update_where. rewrite <- list_fmap_compose. erewrite (list_fmap_ext _ Refund.id); [done|].
    intros i x _. simpl. destruct (w x); [apply Hd | done].
  - intros x (y & Hy & -> & _)%Hback. auto.
  - intros x (y & Hy & _ & -> & _)%Hback. auto.
  - intros x (y & Hy & _ & _ & _ & [->|[? ?]])%Hback; [apply Hpaid, Hy | done].
  - intros x (y & Hy & _ & _ & -> & [->|[? ?]])%Hback ?; by apply Hun.
  - intros x1 x2 (y1 & Hy1 & -> & _ & -> & _)%Hback (y2 & Hy2 & -> & _ & -> & _)%Hback. by apply Hap.
Qed.

Lemma sound_claim i from data d d' u : claim i from data d = Ok (d', u) -> sound d -> refund_processed ∉ from ->
  (forall x, Refund.id (data x) = Refund.id x /\ Refund.amount (data x) = Refund.amount x /\
     Refund.refundPaymentId (data x) = Refund.refundPaymentId x /\ Refund.status (data x) <> refund_processed) -> sound d'.
Proof. intros [-> _]%claim_spec Hs Hn Hd. apply sound_update; [done| |done]. intros x Hx. boolp. destruct Hx as [_ Hx]. intros Hst. by rewrite Hst in Hx. Qed.

(** The row a pay-out leaves. *)
Definition paid_row (i : string) (pid : string) (at_ : Z) (u : string) (x : Refund.t) : Refund.t :=
  Refund.with_refundPaymentId (Some pid) (Refund.with_processed refund_processed (Some at_) (Some u) x).
Lemma pay_rows i pid at_ u l r : NoDup (Refund.id <$> l) -> r ∈ l -> Refund.id r = i -> Refund.status r = refund_approved ->
  update_where (fun x => bool_decide (Refund.id x = i)) (Refund.with_refundPaymentId (Some pid))
    (update_where (fun x => bool_decide (Refund.id x = i) && bool_decide (Refund.status x ∈ [refund_approved]))
       (Refund.with_processed refund_processed (Some at_) (Some u)) l) =
  (fun x => if bool_decide (Refund.id x = i) then paid_row i pid at_ u x else x) <$> l.
Proof.
  intros Hnd Hr Hi Hst. unfold update_where. rewrite <- list_fmap_compose. apply list_fmap_ext. intros k x Hx. simpl.
  destruct (bool_decide_reflect (Refund.id x = i)) as [Hxi|Hxi]; simpl; [|by rewrite bool_decide_false].
  assert (x = r) as ->. { eapply (NoDup_fmap_inj Refund.id); try done; [by eapply list_elem_of_lookup_2 | congruence]. }
  rewrite Hst, (bool_decide_true (_ ∈ _)) by left. simpl. by rewrite bool_decide_true.
Qed.

Lemma sound_payOut i actor d d' r' : payOut i actor d = Ok (d', r') -> sound d -> sound d'.
Proof.
  intros (r & b & p & s & Hr & Hi & Hst & _ & _ & Hamt & Hpid & Hpf & Hpm & _ & Hv & Hdel & Hmf & _)%payOut_inv [Hwf Hrf].
  apply (mf_wf _ _ Hmf). clear Hmf. assert (Payment.amount p = - Refund.amount r)%Qc as Hpa.
  { eapply numeric_id; [|exact Hamt]. apply money_opp, (rf_money _ Hrf), Hr. }
  assert (money NUMERIC_12_2 (Payment.amount p)) as Hpm' by (rewrite Hpa; apply money_opp, (rf_money _ Hrf), Hr).
  split; [apply (wf_other (upd_payments (fun t => t ++ [p]) (upd_seq S d))); [done..|by apply wf_append_payment]|].
  destruct Hrf as [Hids Hseq Hmon Hpaid Hun Hap].
  assert (forall x q, x ∈ refunds d -> Refund.refundPaymentId x = Some q -> exists k, (k < seq d)%nat /\ q = gen_random_uuid k) as Hold.
  { intros x q Hx Hq. destruct (decide (Refund.status x = refund_processed)) as [Hs|Hs]; [|by rewrite Hun in Hq].
    destruct (Hpaid x Hx Hs) as (y & Hy & Hyi & _). rewrite Hq in Hyi. injection Hyi as ->. by apply (wf_pay_seq _ Hwf). }
  split; simpl; rewrite (pay_rows _ _ _ _ _ r) by done.
  - rewrite <- list_fmap_compose. erewrite (list_fmap_ext _ Refund.id); [done|]. intros k x _. simpl. by case_bool_decide.
  - intros x (y & -> & Hy)%list_elem_of_fmap. destruct (Hseq y Hy) as (k & Hk & ?). exists k. split; [lia|]. by case_bool_decide.
  - intros x (y & -> & Hy)%list_elem_of_fmap. case_bool_decide; apply (Hmon y Hy).
  - intros x (y & -> & Hy)%list_elem_of_fmap Hs. case_bool_decide as Hyi.
    + assert (y = r) as -> by (eapply (NoDup_fmap_inj Refund.id); try done; congruence).
      exists p. split; [apply elem_of_app; right; left | done].
    + destruct (Hpaid y Hy Hs) as (q & Hq & ?). exists q. split; [simpl; apply elem_of_app; by left | done].
  - intros x (y & -> & Hy)%list_elem_of_fmap Hs. case_bool_decide; [done | by apply Hun].
  - intros x1 x2 (y1 & -> & Hy1)%list_elem_of_fmap (y2 & -> & Hy2)%list_elem_of_fmap Hs He.
    repeat case_bool_decide; simpl in *; [congruence| | |by apply Hap].
    + exfalso. rewrite Hpid in He. destruct (Hold y2 _ Hy2 (eq_sym He)) as (k & Hk & Hkk). apply (inj gen_random_uuid) in Hkk. lia.
    + exfalso. rewrite Hpid in He. destruct (Hold y1 _ Hy1 He) as (k & Hk & Hkk). apply (inj gen_random_uuid) in Hkk. lia.
Qed.

Lemma read_same {A} (tb : Db -> list A) w e d d' a : orThrow (findFirst tb w) e d = Ok (d', a) -> d' = d.
Proof. intros Hm. by m_inv. Qed.
Lemma sound_request f b dto actor d d' r : requestInTx f b dto actor d = Ok (d', r) -> sound d -> sound d'.
Proof.
  intros (Hmf & Hid & Hnum & Hpos & _ & Hpi & _ & Hst & _)%request_spec Hs. apply (mf_wf _ _ Hmf).
  apply sound_append; [done|done|by eapply numeric_money|done| |done]. rewrite Hst. by destruct (hasRoleAtBranch _ _ _).
Qed.
Lemma approve_inv i actor d d' r : approve i actor d = Ok (d', r) -> exists d1 u,
  claim i [refund_pending] (Refund.with_approved refund_approved (Some (sub actor))) d = Ok (d1, u) /\ money_frame d1 d'.
Proof.
  unfold approve, refund_now. intros Hm. m_inv. match goal with x : (Refund.t * string)%type |- _ => destruct x as [r0 b] end. m_inv.
  match goal with x : (Qc * Qc)%type |- _ => destruct x as [c av] end. m_inv.
  match goal with H : findOrThrow _ _ = _ |- _ => apply findOrThrow_spec in H as (-> & _) end.
  match goal with H : refundable _ _ _ = _ |- _ => unfold refundable, computeTotals in H; m_inv end.
  match goal with H : audit _ _ _ _ _ = _ |- _ => apply mf_auditLog in H end. eauto.
Qed.
Lemma reject_inv i why actor d d' r : reject i why actor d = Ok (d', r) -> exists d1 u,
  claim i OUTSTANDING (Refund.with_rejected refund_rejected (Some (js_trim why))) d = Ok (d1, u) /\ money_frame d1 d'.
Proof.
  unfold reject, refund_now. intros Hm. m_inv. match goal with x : (Refund.t * string)%type |- _ => destruct x as [r0 b] end. m_inv.
  match goal with H : findOrThrow _ _ = _ |- _ => apply findOrThrow_spec in H as (-> & _) end.
  match goal with H : audit _ _ _ _ _ = _ |- _ => apply mf_auditLog in H end. eauto.
Qed.
Lemma sound_approve i actor d d' r : approve i actor d = Ok (d', r) -> sound d -> sound d'.
Proof.
  intros (d1 & u & Hc & Hmf)%approve_inv Hs. apply (mf_wf _ _ Hmf).
  eapply sound_claim; [exact Hc|done|by rewrite list_elem_of_singleton|done].
Qed.
Lemma sound_reject i why actor d d' r : reject i why actor d = Ok (d', r) -> sound d -> sound d'.
Proof.
  intros (d1 & u & Hc & Hmf)%reject_inv Hs. apply (mf_wf _ _ Hmf).
  eapply sound_claim; [exact Hc|done| |done]. unfold OUTSTANDING. set_solver.
Qed.
Lemma sound_step d d' : billing_step d d' -> sound d -> sound d'.
Proof.
  intros [(A & m & a & Hop & Hm)|(A & m & a & Hop & Hm)] Hs.
  - destruct Hs as [Hwf Hrf]. split; [by eapply folio_op_wf|]. eapply wf_payouts_kept; [by eapply (folio_op_keeps payouts_kept) | done].
  - destruct Hop; [|by eapply sound_request|by eapply sound_approve|by eapply sound_reject|by eapply sound_payOut].
    unfold request in Hm. m_inv. match goal with H : findFolioOrThrow _ _ = _ |- _ => apply findFolio_spec in H as (-> & _) end.
    by eapply sound_request.
Qed.
End RefundLemmas.

(** refunds stay accountable: whatever sequence of billing and refund
    operations commits, every refund has its own id and a positive amount of
    whole cents, and every one paid out points at a payment of its own, which
    stands on the same bill, is of exactly its amount the other way round and is
    never voided; one that is not paid out points at none. *)
Theorem refunds_invariant `{DecimalLib} `{TaxDb} `{Platform} `{Uuid} (d d' : Db) :
  ledger_wf d -> refunds_wf d -> rtc billing_step d d' -> refunds_wf d'.
Proof.
  intros Hwf Hrf Hs. enough (sound d') as [_ ?] by done. assert (sound d) as Hd by done. clear Hwf Hrf.
  induction Hs as [d|d d1 d' Hd1 _ IH]; [done|]. apply IH. by eapply sound_step.
Qed.

(** a refund pays out what the bill owes the guest and no more: only an
    approved refund is paid, the bill's balance rises by exactly its amount and
    stays at or below zero, no other bill changes, cash leaves the actor's own
    open drawer, the refund is marked processed with its payment, and paying
    it out again is refused. *)
Theorem payout_within_credit `{DecimalLib} `{TaxDb} `{Platform} `{Uuid} (i : string) (actor : JwtPayload) (d d' : Db) (r' : Refund.t) :
  ledger_wf d -> refunds_wf d -> few_rows d -> payOut i actor d = Ok (d', r') ->
  exists r p, r ∈ refunds d /\ Refund.id r = i /\ Refund.status r = refund_approved /\
    (forall g, balance d' g = (balance d g + if_on (Refund.folioId r) g (Refund.amount r))%Qc) /\
    (balance d' (Refund.folioId r) <= 0)%Qc /\
    Refund.status r' = refund_processed /\ Refund.amount r' = Refund.amount r /\ payout_of d' r' p /\
    (Refund.method r = cash -> exists s, s ∈ shifts d /\ Shift.agentId s = sub actor /\ Shift.closedAt s = None /\ Payment.shiftId p = Some (Shift.id s)) /\
    (forall actor', is_ok (payOut i actor' d') = false).
Proof.
  intros Hwf Hrf Hfew (r & b & p & s & Hr & Hi & Hst & Hcred & Hcash & Hamt & Hpid & Hpf & Hpm & Hps & Hv & Hdel & Hmf & Hnow)%payOut_inv.
  assert (Payment.amount p = - Refund.amount r)%Qc as Hpa.
  { eapply numeric_id; [|exact Hamt]. apply money_opp, (rf_money _ Hrf), Hr. }
  assert (refunds d' = (fun x => if bool_decide (Refund.id x = i) then paid_row i (Payment.id p) (clock d) (sub actor) x else x) <$> refunds d) as Hrows.
  { rewrite (mf_refunds _ _ Hmf). simpl. apply (pay_rows _ _ _ _ _ r); [apply Hrf|done..]. }
  assert (forall x, x ∈ refunds d' -> Refund.id x = i -> x = paid_row i (Payment.id p) (clock d) (sub actor) r) as Hrow.
  { rewrite Hrows. intros x (y & -> & Hy)%list_elem_of_fmap. case_bool_decide; [|done]. intros _. f_equal.
    eapply (NoDup_fmap_inj Refund.id); [apply Hrf|done|done|congruence]. }
  assert (forall g, balance d' g = balance d g + if_on (Refund.folioId r) g (Refund.amount r))%Qc as Hbal.
  { intros g. pose proof (pays_app d d' p (mf_lines _ _ Hmf) (mf_payments _ _ Hmf) Hv Hdel g) as Hb. rewrite Hb, Hpa, Hpf. unfold if_on. case_bool_decide; ring. }
  destruct (totals_exact_lemma d (Refund.folioId r) Hwf Hfew) as (_ & _ & _ & Hdue). rewrite Hdue in Hcred.
  apply find_Some in Hnow as [Hin Hri]. apply bool_decide_eq_true in Hri. specialize (Hrow r' Hin Hri) as Hr'.
  exists r, p. do 3 (split; [done|]). split; [exact Hbal|]. split; [|split; [by rewrite Hr'|split; [by rewrite Hr'|split; [|split]]]].
  - rewrite Hbal. unfold if_on. rewrite bool_decide_true by done. clear -Hcred. qc_lra.
  - rewrite Hr'. split; [rewrite (mf_payments _ _ Hmf); simpl; apply elem_of_app; right; left | done].
  - intros Hc. destruct (Hcash Hc) as (x & -> & Hx & Hox). unfold open_shift_of in Hox. boolp. destruct Hox as [[_ Ha] Hcl%isNone_eq]. by exists x.
  - intros actor'. destruct (payOut i actor' d') as [[d2 r2]|e] eqn:E; [|done]. exfalso.
    apply payOut_inv in E as (r2' & _ & _ & _ & Hr2 & Hi2 & Hst2 & _). rewrite (Hrow _ Hr2 Hi2) in Hst2. done.
Qed.



(** ** Requests *)
Definition refunded_against (d : Db) (p : string) : Qc :=
  qsum (Refund.amount <$> List.filter (fun x => bool_decide (Refund.paymentId x = Some p) &&
          bool_decide (Refund.status x ∈ OUTSTANDING ++ [refund_processed])) (refunds d)).

(** A stored amount does not exceed whole cents the given one does not exceed. *)
Lemma numeric_le a s x B : numeric a = Ok s -> money B x -> (a <= x)%Qc -> (s <= x)%Qc.
Proof.
  intros [-> _]%numeric_Ok (z & _ & ->) Ha. apply decimal_le. rewrite <- (half_up_Z z), <- cents_scale. apply half_up_mono.
  apply Qcmult_le_compat_r; [done|]. apply Qclt_le_weak, p10_pos.
Qed.
Lemma sum_refunds `{Uuid} d w : refunds_wf d -> Z.of_nat (length (refunds d)) < 10 ^ 7 ->
  money (10 ^ 19) (qsum (Refund.amount <$> List.filter w (refunds d))).
Proof.
  intros Hrf Hl. eapply money_weaken; [|apply (qsum_money NUMERIC_12_2)].
  - rewrite length_fmap. pose proof (filter_length_le w (refunds d)). unfold NUMERIC_12_2. lia.
  - rewrite Forall_fmap. apply Forall_filterb, Forall_forall. intros r Hr. by apply (rf_money _ Hrf).
  - unfold NUMERIC_12_2. lia.
Qed.
Lemma refund_sum_app w l r : qsum (Refund.amount <$> List.filter w (l ++ [r])) =
  (qsum (Refund.amount <$> List.filter w l) + (if w r then Refund.amount r else 0))%Qc.
Proof. rewrite List.filter_app, fmap_app, qsum_app. f_equal. simpl. destruct (w r); simpl; ring. Qed.

Lemma outstanding_app d d' f r : refunds d' = refunds d ++ [r] ->
  exists b : bool, outstanding_on d' f None = (outstanding_on d f None + (if b then Refund.amount r else 0))%Qc.
Proof. intros Hr. unfold outstanding_on. rewrite Hr, refund_sum_app. by eexists. Qed.

Lemma refunded_app d d' i r : refunds d' = refunds d ++ [r] ->
  exists b : bool, refunded_against d' i = (refunded_against d i + (if b then Refund.amount r else 0))%Qc.
Proof. intros Hr. unfold refunded_against. rewrite Hr, refund_sum_app. by eexists. Qed.

(** refunds asked for never come to more than what the guest is owed: once a
    request commits, everything still outstanding on the bill is within its
    credit, and, for one made against a payment, everything refunded or asked
    for against that payment is within the payment; the request moves no money,
    and is approved at once exactly when a manager or owner asks. *)
Theorem request_within_credit `{DecimalLib} `{TaxDb} `{Platform} `{Uuid} (f : string) (dto : RequestRefundDto) (actor : JwtPayload) (d d' : Db) (r : Refund.t) :
  ledger_wf d -> refunds_wf d -> few_rows d -> Z.of_nat (length (refunds d)) < 10 ^ 7 ->
  request f dto actor d = Ok (d', r) ->
  Refund.folioId r = f /\ (0 < Refund.amount r)%Qc /\ (forall g, balance d' g = balance d g) /\
  (outstanding_on d' f None <= - balance d' f)%Qc /\
  (forall i, Refund.paymentId r = Some i -> exists p, p ∈ payments d /\ Payment.id p = i /\ standing_payment f p = true /\
     (refunded_against d' i <= Payment.amount p)%Qc) /\
  exists folio, folio ∈ folios d /\ Folio.id folio = f /\
    Refund.status r = if hasRoleAtBranch actor (Folio.branchId folio) APPROVER_ROLES then refund_approved else refund_pending.
Proof.
  intros Hwf Hrf Hfew Hfr Hm. unfold request in Hm. m_inv.
  match goal with H : findFolioOrThrow _ _ = _ |- _ => apply findFolio_spec in H as (-> & Hfo & Hfi & _) end. rewrite Hfi in Hm.
  apply request_spec in Hm as (Hmf & Hid & Hnum & Hpos & Hrfo & Hpi & Hmeth & Hst & Hleft & Hpay).
  assert (forall g, balance d' g = balance d g) as Hb.
  { intros g. unfold balance, charges_on, paid_on. by rewrite (mf_lines _ _ Hmf), (mf_payments _ _ Hmf). }
  split; [done|]. split; [done|]. split; [exact Hb|]. split; [|split; [|by eexists; split; [exact Hfo|]]].
  - rewrite Hb. destruct (outstanding_app d d' f r (mf_refunds _ _ Hmf)) as [o ->].
    destruct (totals_exact_lemma d f Hwf Hfew) as (_ & _ & _ & Hdue). rewrite Hdue in Hleft.
    assert (money (2 * 10 ^ 19) (balance d f)) as Hbm.
    { eapply money_weaken; [|apply (money_minus (10 ^ 19) (10 ^ 19))]; [lia|by apply charges_money|by apply sum_payments]. }
    pose proof (sum_refunds d (fun x => bool_decide (Refund.folioId x = f) && bool_decide (Refund.status x ∈ OUTSTANDING) &&
                                               negb (bool_decide (None = Some (Refund.id x)))) Hrf Hfr) as Hom.
    fold (outstanding_on d f None) in Hom. cbv zeta in Hleft.
    rewrite (dminus_money (2 * 10 ^ 19) (10 ^ 19) _ _ (money_opp _ _ Hbm) Hom eq_refl) in Hleft.
    pose proof (money_minus _ _ _ _ (money_opp _ _ Hbm) Hom) as Hlm. rewrite dgt_dmax in Hleft.
    assert (Refund.amount r <= dmax 0 (- balance d f - outstanding_on d f None))%Qc as Hle.
    { eapply numeric_le; [exact Hnum| |exact Hleft]. unfold dmax. case_decide; [exact Hlm|apply money_0; lia]. }
    clear -Hle Hpos. unfold dmax in Hle. case_decide.
    + destruct o; qc_lra.
    + exfalso. by apply (Qclt_not_le _ _ Hpos).
  - intros i Hi. destruct (Hpay i Hi) as (p & Hp & Hpid & Hps & Hle). exists p. do 3 (split; [done|]).
    destruct (refunded_app d d' i r (mf_refunds _ _ Hmf)) as [o ->]. fold (refunded_against d i) in Hle.
    pose proof (sum_refunds d (fun x => bool_decide (Refund.paymentId x = Some i) && bool_decide (Refund.status x ∈ OUTSTANDING ++ [refund_processed])) Hrf Hfr) as Hom.
    fold (refunded_against d i) in Hom. pose proof (wf_paid _ Hwf p Hp) as Hpm.
    rewrite (dminus_money _ _ _ _ Hpm Hom) in Hle by (unfold NUMERIC_12_2, precision; lia).
    assert (Refund.amount r <= Payment.amount p - refunded_against d i)%Qc as Hle2 by (eapply numeric_le; [exact Hnum|apply (money_minus _ _ _ _ Hpm Hom)|exact Hle]).
    clear -Hle2 Hpos. destruct o; qc_lra.
Qed.

(** ** The life of a refund *)
Inductive refund_edge : RefundStatus -> RefundStatus -> Prop :=
| edge_approve : refund_edge refund_pending refund_approved
| edge_turn_down : refund_edge refund_pending refund_rejected
| edge_withdraw : refund_edge refund_approved refund_rejected
| edge_pay_out : refund_edge refund_approved refund_processed.

(** The same request, further along. *)
Record refund_moves (a b : Refund.t) : Prop := {
  rm_id : Refund.id b = Refund.id a;
  rm_folio : Refund.folioId b = Refund.folioId a;
  rm_payment : Refund.paymentId b = Refund.paymentId a;
  rm_amount : Refund.amount b = Refund.amount a;
  rm_method : Refund.method b = Refund.method a;
  rm_reason : Refund.reason b = Refund.reason a;
  rm_status : rtc refund_edge (Refund.status a) (Refund.status b);
}.
#[global] Instance refund_moves_preorder : PreOrder refund_moves.
Proof. split; [by split|]. intros a b c [] []. split; try congruence. by etrans. Qed.

Section Lifecycle.
Context `{DecimalLib} `{TaxDb} `{Platform} `{Uuid}.
Definition refunds_le (d d' : Db) : Prop := extends refund_moves (refunds d) (refunds d').
#[local] Instance refunds_le_preorder : PreOrder refunds_le.
Proof. split; [intros d; apply extends_refl; apply _|]. intros d1 d2 d3. apply extends_trans; apply _. Qed.

Lemma rl_same d d' : refunds d' = refunds d -> refunds_le d d'.
Proof. intros Hr. unfold refunds_le. rewrite Hr. apply extends_refl; apply _. Qed.
Lemma rl_claim i from data d d' u : claim i from data d = Ok (d', u) ->
  (forall x, Refund.status x ∈ from -> refund_moves x (data x)) -> refunds_le d d'.
Proof. intros [-> _]%claim_spec Hd. apply extends_update; [apply _|]. intros x Hx. boolp. by apply Hd, Hx. Qed.

Lemma rl_request f b dto actor : keeps refunds_le (requestInTx f b dto actor).
Proof. intros d d' r (Hmf & _)%request_spec. unfold refunds_le. rewrite (mf_refunds _ _ Hmf). simpl. apply extends_app; apply _. Qed.
Lemma rl_payOut i actor : keeps refunds_le (payOut i actor).
Proof.
  intros d d' r' (r & b & p & s & Hr & Hi & Hst & _ & _ & _ & _ & _ & _ & _ & _ & _ & Hmf & _)%payOut_inv.
  unfold refunds_le. rewrite (mf_refunds _ _ Hmf). simpl. eapply extends_trans; [apply _| |apply extends_update; [apply _ | by intros x _]].
  apply extends_update; [apply _|]. intros x Hx. boolp. destruct Hx as [_ Hx%list_elem_of_singleton].
  split; try done. rewrite Hx. apply rtc_once. constructor.
Qed.
Lemma rl_step d d' : billing_step d d' -> refunds_le d d'.
Proof.
  intros [(A & m & a & Hop & Hm)|(A & m & a & Hop & Hm)].
  - apply rl_same. exact (pk_refunds _ _ (folio_op_keeps payouts_kept _ Hop _ _ _ Hm)).
  - destruct Hop; [|by eapply rl_request| | |by eapply rl_payOut].
    + unfold request in Hm. m_inv. match goal with H : findFolioOrThrow _ _ = _ |- _ => apply findFolio_spec in H as (-> & _) end. by eapply rl_request.
    + apply approve_inv in Hm as (d1 & u & Hc & Hmf). transitivity d1; [|apply rl_same, Hmf].
      eapply rl_claim; [exact Hc|]. intros x Hx%list_elem_of_singleton. split; try done. rewrite Hx. apply rtc_once. constructor.
    + apply reject_inv in Hm as (d1 & u & Hc & Hmf). transitivity d1; [|apply rl_same, Hmf].
      eapply rl_claim; [exact Hc|]. intros x Hx. split; try done. apply rtc_once. simpl.
      unfold OUTSTANDING in Hx. rewrite elem_of_cons, list_elem_of_singleton in Hx. destruct Hx as [->| ->]; constructor.
Qed.
Lemma edge_final a b : rtc refund_edge a b -> a = refund_processed \/ a = refund_rejected -> b = a.
Proof. destruct 1 as [|a b c He _]; [done|]. intros [-> | ->]; inversion He. Qed.
End Lifecycle.

(** a refund only moves forward: whatever billing and refund operations
    commit, every refund keeps its place, bill, payment, amount, method and
    reason, goes from pending to approved to processed or is rejected on the
    way, and once processed or rejected stays so. *)
Theorem refund_lifecycle `{DecimalLib} `{TaxDb} `{Platform} `{Uuid} (d d' : Db) (k : nat) (r : Refund.t) :
  rtc billing_step d d' -> refunds d !! k = Some r ->
  exists r', refunds d' !! k = Some r' /\ refund_moves r r' /\
    (Refund.status r = refund_processed \/ Refund.status r = refund_rejected -> Refund.status r' = Refund.status r).
Proof.
  intros Hs Hk. assert (refunds_le d d') as (kept & new & Hd' & Hall).
  { clear Hk. induction Hs as [d|d d1 d' Hd1 _ IH]; [apply extends_refl; apply _|].
    eapply extends_trans; [apply _|by apply rl_step|exact IH]. }
  destruct (Forall2_lookup_l _ _ _ _ _ Hall Hk) as (r' & Hr' & Hm). exists r'.
  split; [rewrite Hd'; by apply lookup_app_l_Some|]. split; [done|]. intros Hfin. apply edge_final; [apply Hm | done].
Qed.

Module RefundsWitness.
Import Hotel FiguresWitness.
Definition manager : JwtPayload := {| sub := "u1"; roles := [{| branchId := Some "b1"; role := "manager" |}]; apiKey := None |}.
Definition big_dto : PaymentDto := {| dto_amount := cents 100000; dto_method := card; dto_reference := None; dto_currency := None |}.
(** The bill overpaid, and fifty of it asked back in cash. *)
Definition hotel_credit : Db := after (recordPayment "f1" big_dto None "u1") hotel_billed.
Lemma hotel_credit_ok : is_ok (recordPayment "f1" big_dto None "u1" hotel_billed) = true.
Proof. vm_compute. reflexivity. Qed.
Lemma credit_wf : ledger_wf hotel_credit.
Proof. destruct (after_ok _ _ hotel_credit_ok) as [p Hp]. exact (folio_op_wf _ (op_recordPayment _ _ _ _) _ _ _ Hp hotel_billed_wf). Qed.
Lemma credit_few : few_rows hotel_credit.
Proof. split; vm_compute; reflexivity. Qed.
Lemma credit_refunds : refunds hotel_credit = [].
Proof. vm_compute. reflexivity. Qed.
Lemma credit_refunds_wf : refunds_wf hotel_credit.
Proof. split; rewrite credit_refunds; try (intros x Hx; by apply elem_of_nil in Hx); [constructor|]. intros x y Hx. by apply elem_of_nil in Hx. Qed.
Lemma credit_few_refunds : Z.of_nat (length (refunds hotel_credit)) < 10 ^ 7.
Proof. rewrite credit_refunds. reflexivity. Qed.

Definition cash_back : RequestRefundDto := {| rq_amount := cents 5000; rq_paymentId := None; rq_method := Some cash; rq_reason := "overpaid" |}.
Definition hotel_asked : Db := after (request "f1" cash_back manager) hotel_credit.
Lemma hotel_asked_ok : is_ok (request "f1" cash_back manager hotel_credit) = true.
Proof. vm_compute. reflexivity. Qed.
Lemma request_within_credit_witness : (outstanding_on hotel_asked "f1" None <= - balance hotel_asked "f1")%Qc.
Proof.
  destruct (after_ok _ _ hotel_asked_ok) as [r Hr].
  exact (proj1 (proj2 (proj2 (proj2 (request_within_credit "f1" cash_back manager hotel_credit hotel_asked r credit_wf credit_refunds_wf credit_few credit_few_refunds Hr))))).
Defined.
Lemma asked_sound : sound hotel_asked.
Proof.
  destruct (after_ok _ _ hotel_asked_ok) as [r Hr]. apply (sound_step hotel_credit); [|split; [exact credit_wf | exact credit_refunds_wf]].
  right. do 3 eexists. split; [|exact Hr]. constructor.
Qed.
Lemma asked_few : few_rows hotel_asked.
Proof. split; vm_compute; reflexivity. Qed.

Definition asked_id : string := gen_random_uuid (Db.seq hotel_credit).
Lemma payOut_ok : is_ok (payOut asked_id manager hotel_asked) = true.
Proof. vm_compute. reflexivity. Qed.
Lemma payout_within_credit_witness : exists d' r', payOut asked_id manager hotel_asked = Ok (d', r') /\ is_ok (payOut asked_id manager d') = false.
Proof.
  destruct (run_ok _ _ payOut_ok) as (d' & r' & Hp). exists d', r'. split; [exact Hp|].
  destruct (payout_within_credit asked_id manager hotel_asked d' r' (proj1 asked_sound) (proj2 asked_sound) asked_few Hp)
    as (_ & _ & _ & _ & _ & _ & _ & _ & _ & _ & _ & Hagain). exact (Hagain manager).
Defined.

Lemma paying_steps : exists d', rtc billing_step hotel_credit d' /\ is_ok (payOut asked_id manager hotel_asked) = true.
Proof.
  destruct (after_ok _ _ hotel_asked_ok) as [r Hr], (run_ok _ _ payOut_ok) as (d' & r' & Hp). exists d'. split; [|exact payOut_ok].
  apply (rtc_l _ _ hotel_asked); [|apply rtc_once].
  - right. exists Refund.t, (request "f1" cash_back manager), r. split; [constructor | exact Hr].
  - right. exists Refund.t, (payOut asked_id manager), r'. split; [constructor | exact Hp].
Qed.
Lemma refunds_invariant_witness : exists d', rtc billing_step hotel_credit d' /\ refunds_wf d'.
Proof.
  destruct paying_steps as (d' & Hs & _). exists d'. split; [exact Hs|].
  exact (refunds_invariant hotel_credit d' credit_wf credit_refunds_wf Hs).
Defined.
Lemma asked_first : is_ok (or_throw (refunds hotel_asked !! 0%nat) internal) = true.
Proof. vm_compute. reflexivity. Qed.
Lemma refund_lifecycle_witness : exists r r' d', refunds hotel_asked !! 0%nat = Some r /\ refunds d' !! 0%nat = Some r' /\ refund_moves r r'.
Proof.
  destruct (run_ok _ _ payOut_ok) as (d' & x & Hp). pose proof asked_first as Hf.
  destruct (refunds hotel_asked !! 0%nat) as [r|] eqn:Er; [|discriminate Hf].
  assert (rtc billing_step hotel_asked d') as Hs by (apply rtc_once; right; do 3 eexists; split; [|exact Hp]; constructor).
  destruct (refund_lifecycle hotel_asked d' 0 r Hs Er) as (r' & Hr' & Hm & _). exists r, r', d'. split; [reflexivity|]. split; [exact Hr' | exact Hm].
Defined.
End RefundsWitness.
