(* ===== verification/Shifts.v ===== *)
(** Cash drawers (src/src/modules/shifts/shifts.service.ts): a cashier's shift
    opens with a float and closes against everything the drawer took. *)
From S2P Require Import Prelude Decimal Json Dates Taxes Authority Transactions Db LoyaltyRules Packages Folios SampleHotel FolioLedger FolioFigures FolioEffects FolioMoves FolioPayments Refunds.
From Stdlib Require Import QArith Qcanon Lqa.
Import BranchRoles.
Local Open Scope Z_scope.

Definition DEFAULT_VARIANCE_THRESHOLD : Qc := Qc_of_Z 5.
Definition shift_already_open : error := Throw ConflictException SHIFT_ALREADY_OPEN.
Definition shift_already_closed : error := Throw ConflictException SHIFT_ALREADY_CLOSED.

Record AddShiftIssueDto := { si_description : string; si_priority : option IssuePriority }.
Record CloseShiftDto := { cl_counted : Qc; cl_explanation : option string; cl_issues : list AddShiftIssueDto }.
Record UpdateShiftIssueDto := { us_resolved : bool; us_resolution : option string }.

Section Shifts.
Context `{DecimalLib} `{Uuid}.

Definition audit (b u action entityId : string) : M unit := auditLog (Some b) (Some u) action "shift" entityId.

(** [tx.shift.create], with the partial unique index on the open drawers. *)
Definition create_shift (s : string -> Shift.t) : M Shift.t :=
  let! i := new_id in
  let row := s i in
  let! clash := findFirst shifts (open_shift_of (Shift.branchId row) (Shift.agentId row)) in
  throw! internal when isSome clash in
  do! modify (upd_shifts (fun t => t ++ [row])) in
  ret row.

Definition openShift (b : string) (openingFloat : Qc) (actorId : string) : M Shift.t :=
  let! _ := assertBranch b in
  let! existing := findFirst shifts (open_shift_of b actorId) in
  throw! shift_already_open when isSome existing in
  let! stored := lift (numeric openingFloat) in
  let! s := create_shift (fun i => {|
    Shift.id := i; Shift.branchId := b; Shift.agentId := actorId; Shift.closedAt := None; Shift.openingFloat := Some stored;
    Shift.systemCashTotal := None; Shift.closingCashCounted := None; Shift.variance := None; Shift.foreignCashTotals := None;
    Shift.varianceExplanation := None |}) in
  do! audit b actorId "shift.opened" (Shift.id s) in
  ret s.

Definition create_issue (shiftId : string) (dto : AddShiftIssueDto) : M ShiftIssue.t :=
  let! i := new_id in
  let row := {| ShiftIssue.id := i; ShiftIssue.shiftId := shiftId; ShiftIssue.description := si_description dto;
                ShiftIssue.priority := default medium (si_priority dto); ShiftIssue.status := issue_open;
                ShiftIssue.resolution := None; ShiftIssue.resolvedBy := None; ShiftIssue.resolvedAt := None |} in
  do! modify (upd_shiftIssues (fun t => t ++ [row])) in
  ret row.

(** The cash a drawer took: payments in the branch's own money, and the outlets' sales. *)
Definition own_cash (s : string) (p : Payment.t) : bool :=
  bool_decide (Payment.shiftId p = Some s) && bool_decide (Payment.method p = cash) && negb (Payment.isVoid p) &&
  isNone (Payment.foreignCurrency p).
Definition cash_paid (d : Db) (s : string) : Qc := qsum (Payment.amount <$> List.filter (own_cash s) (payments d)).
Definition sold_in (s : string) (o : PosOrder.t) : bool := bool_decide (PosOrder.shiftId o = Some s) && isNone (PosOrder.voidedAt o).
Definition cash_sold (d : Db) (s : string) : Qc := qsum (PosOrder.cashAmount <$> List.filter (sold_in s) (posOrders d)).

(** Notes in other currencies, grouped by currency in its order. *)
Fixpoint add_currency (c : string) (a : Qc) (l : list (string * Qc)) : list (string * Qc) :=
  match l with
  | [] => [(c, a)]
  | (c', a') :: r => if bool_decide (c = c') then (c', (a' + a)%Qc) :: r
                     else if String.ltb c c' then (c, a) :: l else (c', a') :: add_currency c a r
  end.
Definition foreign_cash (d : Db) (s : string) : list (string * Qc) :=
  foldl (fun l p =>
    if bool_decide (Payment.shiftId p = Some s) && bool_decide (Payment.method p = cash) && negb (Payment.isVoid p)
    then match Payment.foreignCurrency p, Payment.foreignAmount p with
         | Some c, Some a => if bool_decide (c = "") then l else add_currency c a l
         | _, _ => l
         end
    else l) [] (payments d).

(** The branch's own threshold, five when it sets none. *)
Definition variance_threshold (branch : Branch.t) : Qc :=
  default DEFAULT_VARIANCE_THRESHOLD (as_number (member "cashVarianceThreshold" (Branch.policies branch))).

Definition closeShift (shiftId : string) (dto : CloseShiftDto) (actor : JwtPayload) : M Shift.t :=
  let! shift := orThrow (findFirst shifts (fun x => bool_decide (Shift.id x = shiftId))) not_found in
  throw! shift_already_closed when isSome (Shift.closedAt shift) in
  throw! forbidden when (negb (bool_decide (Shift.agentId shift = sub actor)) && negb (isSupervisorAt actor (Shift.branchId shift))) in
  let! branch := assertBranch (Shift.branchId shift) in
  let! paid := gets (fun d => cash_paid d shiftId) in
  let! foreign := gets (fun d => foreign_cash d shiftId) in
  let! sold := gets (fun d => cash_sold d shiftId) in
  let foreignCashTotals := List.map (fun r => (fst r, to_fixed2 (snd r))) foreign in
  let cashMovement := paid ⊕ sold in
  let openingFloat := default 0%Qc (Shift.openingFloat shift) in
  let systemCashTotal := openingFloat ⊕ cashMovement in
  let variance := cl_counted dto ⊖ systemCashTotal in
  let threshold := variance_threshold branch in
  throw! invalid when (dgt (dabs variance) threshold && negb (given (cl_explanation dto))) in
  let! at_ := now in
  let! total' := lift (numeric systemCashTotal) in
  let! counted' := lift (numeric (cl_counted dto)) in
  let! variance' := lift (numeric variance) in
  let closed := Shift.with_closed (Some at_) (Some total') (Some counted') (Some variance')
                  (if bool_decide (length foreignCashTotals = 0%nat) then None else Some foreignCashTotals) (cl_explanation dto) in
  do! modify (upd_shifts (update_where (fun x => bool_decide (Shift.id x = shiftId)) closed)) in
  do! for_each (cl_issues dto) tt (fun _ i => let! _ := create_issue shiftId i in ret tt) in
  do! audit (Shift.branchId shift) (sub actor) "shift.closed" (Shift.id shift) in
  ret (closed shift).

(** The caller's own open drawer. *)
Definition getCurrentShift (b actorId : string) : M (option Shift.t) := findFirst shifts (open_shift_of b actorId).

Definition addShiftIssue (shiftId : string) (dto : AddShiftIssueDto) (actorId : string) : M ShiftIssue.t :=
  let! shift := orThrow (findFirst shifts (fun x => bool_decide (Shift.id x = shiftId))) not_found in
  throw! shift_already_closed when isSome (Shift.closedAt shift) in
  let! issue := create_issue shiftId dto in
  do! audit (Shift.branchId shift) actorId "shift_issue.created" (ShiftIssue.id issue) in
  ret issue.

Definition updateShiftIssue (issueId : string) (dto : UpdateShiftIssueDto) (actorId : string) : M ShiftIssue.t :=
  let! issue := orThrow (findFirst shiftIssues (fun x => bool_decide (ShiftIssue.id x = issueId))) not_found in
  let! shift := orThrow (findFirst shifts (fun x => bool_decide (Shift.id x = ShiftIssue.shiftId issue))) internal in
  throw! conflict when bool_decide (ShiftIssue.status issue = issue_resolved) in
  let! at_ := now in
  let data x := if us_resolved dto
                then ShiftIssue.with_status issue_resolved (us_resolution dto) (Some actorId) (Some at_) x
                else ShiftIssue.with_status issue_carried_over (us_resolution dto) (ShiftIssue.resolvedBy x) (ShiftIssue.resolvedAt x) x in
  do! modify (upd_shiftIssues (update_where (fun x => bool_decide (ShiftIssue.id x = issueId)) data)) in
  do! audit (Shift.branchId shift) actorId (if us_resolved dto then "shift_issue.resolved" else "shift_issue.carried_over") (ShiftIssue.id issue) in
  ret (data issue).
End Shifts.

(** ** Reconciliation *)
(** Floats and takings are whole cents that fit their columns, and the tables
    are of a size whose sums the decimal library holds exactly. *)
Record till_wf (d : Db) : Prop := {
  tw_float x a : x ∈ shifts d -> Shift.openingFloat x = Some a -> money NUMERIC_12_2 a;
  tw_cash o : o ∈ posOrders d -> money NUMERIC_12_2 (PosOrder.cashAmount o);
  tw_few : Z.of_nat (length (posOrders d)) < 10 ^ 7;
}.
(** What a drawer should hold. *)
Definition drawer_total (d : Db) (x : Shift.t) : Qc :=
  (default 0 (Shift.openingFloat x) + (cash_paid d (Shift.id x) + cash_sold d (Shift.id x)))%Qc.

Section Drawers.
Context `{DecimalLib} `{Uuid}.

Lemma cash_paid_money d s : ledger_wf d -> few_rows d -> money (10 ^ 19) (cash_paid d s).
Proof. intros Hwf Hfew. by apply (sum_payments d (own_cash s)). Qed.
Lemma cash_sold_money d s : till_wf d -> money (10 ^ 19) (cash_sold d s).
Proof.
  intros [_ Hc Hl]. unfold cash_sold. apply sum_money.
  - rewrite Forall_fmap. apply Forall_filterb, Forall_forall, Hc.
  - rewrite length_fmap. pose proof (filter_length_le (sold_in s) (posOrders d)). lia.
Qed.

Lemma mf_create_issue s i : keeps money_frame (create_issue s i).
Proof. unfold create_issue. keeps_tac. apply mf_modify. by split. Qed.

(** What closing a drawer read and wrote. *)
Lemma closeShift_inv s dto actor d d' x : closeShift s dto actor d = Ok (d', x) ->
  exists x0 branch t c v fc, x0 ∈ shifts d /\ Shift.id x0 = s /\ Shift.closedAt x0 = None /\
    (Shift.agentId x0 = sub actor \/ isSupervisorAt actor (Shift.branchId x0) = true) /\
    branch ∈ branches d /\ Branch.id branch = Shift.branchId x0 /\
    (let total := default 0%Qc (Shift.openingFloat x0) ⊕ (cash_paid d s ⊕ cash_sold d s) in
     numeric total = Ok t /\ numeric (cl_counted dto) = Ok c /\ numeric (cl_counted dto ⊖ total) = Ok v /\
     (dgt (dabs (cl_counted dto ⊖ total)) (variance_threshold branch) = true -> given (cl_explanation dto) = true)) /\
    x = Shift.with_closed (Some (clock d)) (Some t) (Some c) (Some v) fc (cl_explanation dto) x0 /\
    money_frame (upd_shifts (update_where (fun y => bool_decide (Shift.id y = s))
      (Shift.with_closed (Some (clock d)) (Some t) (Some c) (Some v) fc (cl_explanation dto))) d) d'.
Proof.
  unfold closeShift, assertBranch, now. intros Hm. m_inv.
  match goal with H : Some ?y = List.find _ (shifts ?e) |- _ => rename y into x0, e into d0; symmetry in H; apply find_Some in H as [Hx0 Hi] end.
  match goal with H : Some ?y = List.find _ (branches _) |- _ => rename y into br; symmetry in H; apply find_Some in H as [Hbr Hb] end.
  match goal with H : for_each _ _ _ ?e = Ok (?e1, _), H2 : audit _ _ _ _ _ = _ |- _ =>
    assert (money_frame e d') as Hmf by (transitivity e1; [|exact (mf_auditLog _ _ _ _ _ _ _ _ H2)];
      revert H; apply (keeps_for_each money_frame); intros [] y; keeps_tac; apply mf_create_issue) end.
  boolp. do 6 eexists. split; [exact Hx0|]. split; [done|]. split; [by destruct (Shift.closedAt x0)|]. split; [naive_solver|].
  split; [exact Hbr|]. split; [by destruct Hb|]. split; [|split; [reflexivity | exact Hmf]].
  cbv zeta. split_and!; [eassumption..|]. intros Hd. match goal with H : _ \/ _ |- _ => destruct H as [Hf|?]; [congruence | done] end.
Qed.
Lemma closed_again s d' l x0 z t c v fc e dto actor : x0 ∈ l -> Shift.id x0 = s ->
  shifts d' = update_where (fun y => bool_decide (Shift.id y = s)) (Shift.with_closed (Some z) t c v fc e) l ->
  closeShift s dto actor d' = Err shift_already_closed.
Proof.
  intros Hx0 Hi Hs. unfold closeShift, findFirst, orThrow, gets, bind. rewrite Hs.
  destruct (List.find _ _) as [y|] eqn:E.
  - apply find_Some in E as [Hy Hyi]. apply bool_decide_eq_true in Hyi. apply list_elem_of_fmap in Hy as (w & -> & Hw).
    by destruct (bool_decide_reflect (Shift.id w = s)).
  - exfalso. apply (find_None _ _ (Shift.with_closed (Some z) t c v fc e x0)) in E.
    + simpl in E. by rewrite bool_decide_true in E.
    + apply list_elem_of_fmap. exists x0. by rewrite bool_decide_true.
Qed.
End Drawers.

(** a drawer closes against everything it took: only its own agent or a
    supervisor closes it, the total it is held to is exactly the opening float
    plus every standing cash payment in the branch's money plus every standing
    outlet sale's cash, the variance is exactly the count less that total, a
    variance over the branch's threshold is never stored without an
    explanation, closing moves no money, and a closed drawer cannot be closed
    again. *)
Theorem drawer_reconciles `{DecimalLib} `{Uuid} (s : string) (dto : CloseShiftDto) (actor : JwtPayload) (d d' : Db) (x : Shift.t) :
  ledger_wf d -> few_rows d -> till_wf d -> money NUMERIC_12_2 (cl_counted dto) ->
  closeShift s dto actor d = Ok (d', x) ->
  exists x0 branch, x0 ∈ shifts d /\ Shift.id x0 = s /\ Shift.closedAt x0 = None /\
    (Shift.agentId x0 = sub actor \/ isSupervisorAt actor (Shift.branchId x0) = true) /\
    branch ∈ branches d /\ Branch.id branch = Shift.branchId x0 /\
    Shift.systemCashTotal x = Some (drawer_total d x0) /\ Shift.closingCashCounted x = Some (cl_counted dto) /\
    Shift.variance x = Some (cl_counted dto - drawer_total d x0)%Qc /\
    ((variance_threshold branch < dabs (cl_counted dto - drawer_total d x0))%Qc -> given (Shift.varianceExplanation x) = true) /\
    payments d' = payments d /\ posOrders d' = posOrders d /\ x ∈ shifts d' /\
    (forall dto' actor', closeShift s dto' actor' d' = Err shift_already_closed).
Proof.
  intros Hwf Hfew Htill Hcm (x0 & branch & t & c & v & fc & Hx0 & Hi & Hopen & Hwho & Hbr & Hb & Htot & -> & Hmf)%closeShift_inv.
  pose proof (cash_paid_money d s Hwf Hfew) as Hpm. pose proof (cash_sold_money d s Htill) as Hsm.
  assert (money NUMERIC_12_2 (default 0%Qc (Shift.openingFloat x0))) as Hfm.
  { destruct (Shift.openingFloat x0) as [a|] eqn:Ea; simpl; [by eapply (tw_float _ Htill)|apply money_0; unfold NUMERIC_12_2; lia]. }
  cbv zeta in Htot. rewrite (dplus_money _ _ _ _ Hpm Hsm) in Htot by reflexivity. pose proof (money_plus _ _ _ _ Hpm Hsm) as Hmm.
  rewrite (dplus_money _ _ _ _ Hfm Hmm) in Htot by (unfold NUMERIC_12_2, precision; lia). pose proof (money_plus _ _ _ _ Hfm Hmm) as Htm.
  rewrite (dminus_money _ _ _ _ Hcm Htm) in Htot by (unfold NUMERIC_12_2, precision; lia). pose proof (money_minus _ _ _ _ Hcm Htm) as Hvm.
  destruct Htot as (Ht & Hc & Hv & Hexp). apply (numeric_id _ _ _ Htm) in Ht as ->. apply (numeric_id _ _ _ Hcm) in Hc as ->. apply (numeric_id _ _ _ Hvm) in Hv as ->.
  exists x0, branch. unfold drawer_total. rewrite Hi. split_and!; try done; try apply Hmf.
  - intros Hgt. apply Hexp. match goal with |- dgt ?a ?b = true => by destruct (dgt_spec a b) end.
  - rewrite (mf_shifts _ _ Hmf). simpl. apply list_elem_of_fmap. exists x0. by rewrite bool_decide_true.
  - intros dto' actor'. eapply closed_again; [exact Hx0|exact Hi|exact (mf_shifts _ _ Hmf)].
Qed.

Module ShiftsWitness.
Import Hotel PaymentsWitness RefundsWitness.
(** The drawer of the sample hotel, one hundred to start with and a guest's two
    hundred since, counted one short. *)
Definition count_dto : CloseShiftDto := {| cl_counted := cents 29900; cl_explanation := None; cl_issues := [{| si_description := "short"; si_priority := None |}] |}.
Lemma close_ok : is_ok (closeShift "d1" count_dto manager hotel_paid) = true.
Proof. vm_compute. reflexivity. Qed.
Lemma till_one d x : shifts d = [x] -> posOrders d = [] -> (forall a, Shift.openingFloat x = Some a -> money NUMERIC_12_2 a) -> till_wf d.
Proof.
  intros Hs Ho Hf. split; rewrite ?Hs, ?Ho; [|intros o Hx; by apply elem_of_nil in Hx|reflexivity].
  intros y a ->%list_elem_of_singleton. apply Hf.
Qed.
Lemma hotel_till : till_wf hotel_paid.
Proof.
  eapply till_one; [vm_compute; reflexivity | vm_compute; reflexivity|].
  intros a [= <-]. exists 10000. split; [vm_compute; discriminate | vm_compute; reflexivity].
Qed.
Lemma drawer_reconciles_witness : exists d' x, closeShift "d1" count_dto manager hotel_paid = Ok (d', x) /\
  closeShift "d1" count_dto manager d' = Err shift_already_closed.
Proof.
  destruct (run_ok _ _ close_ok) as (d' & x & Hc). exists d', x. split; [exact Hc|].
  assert (money NUMERIC_12_2 (cl_counted count_dto)) as Hm by (exists 29900; split; [vm_compute; discriminate | reflexivity]).
  destruct (drawer_reconciles "d1" count_dto manager hotel_paid d' x hotel_paid_wf hotel_paid_few hotel_till Hm Hc)
    as (x0 & b & _ & _ & _ & _ & _ & _ & _ & _ & _ & _ & _ & _ & _ & Hagain). exact (Hagain count_dto manager).
Defined.
End ShiftsWitness.
