(* ===== verification/Pos.v ===== *)
(** Point of Sale: pricing a basket from the menu
    (src/src/modules/pos/pos-pricing.ts) and ringing it up or voiding it
    (src/src/modules/pos/pos.service.ts). *)
From S2P Require Import Prelude Decimal Json Dates Taxes Authority Transactions Db LoyaltyRules Packages Folios SampleHotel FolioLedger FolioFigures FolioEffects FolioMoves FolioPayments Refunds.
From Stdlib Require Import QArith Qcanon Lqa.
Import BranchRoles.
Local Open Scope Z_scope.

(** ** Pricing *)
Inductive OutletCategory := restaurant | bar | category_spa | category_laundry | retail | room_service.
Definition OUTLET_CHARGE_TYPES (c : OutletCategory) : ChargeType :=
  match c with
  | restaurant | bar | room_service => fnb
  | category_spa => spa
  | category_laundry => laundry
  | retail => misc
  end.

Record PricedModifier := { pm_group : string; pm_label : string; pm_price : string }.
Record PricedLine := { pl_menuItemId : string; pl_qty : Z; pl_unitPrice : string; pl_modifiers : list PricedModifier; pl_lineTotal : string }.
Record Choice := { ch_group : string; ch_options : list string }.
Record RequestedLine := { rl_menuItemId : string; rl_qty : Z; rl_modifiers : option (list Choice) }.
Inductive DiscountType := percentage | fixed_amount.
#[global] Instance DiscountType_eq_dec : EqDecision DiscountType.
Proof. solve_decision. Defined.
Record OrderDiscount := { od_type : DiscountType; od_value : Qc; od_reason : option string }.

Definition parseModifierGroups (m : option (list ModifierGroup)) : list ModifierGroup := default [] m.

(** [groupNames] and [labels] are the lower-cased names met so far. *)
Fixpoint normaliseOptions (seen : list string) (os : list ModifierOption) : res (list ModifierOption) :=
  match os with
  | [] => Ok []
  | o :: os =>
      let label := js_trim (option_label o) in
      throw invalid when (bool_decide (label = "")) in
      throw invalid when (includes (js_lower label) seen) in
      let? rest := normaliseOptions (js_lower label :: seen) os in
      Ok ({| option_label := label; option_price := option_price o |} :: rest)
  end.
Fixpoint normalise_from (seen : list string) (gs : list ModifierGroup) : res (list ModifierGroup) :=
  match gs with
  | [] => Ok []
  | g :: gs =>
      let name := js_trim (group_name g) in
      throw invalid when (bool_decide (name = "")) in
      throw invalid when (includes (js_lower name) seen) in
      let? os := normaliseOptions [] (options g) in
      let? rest := normalise_from (js_lower name :: seen) gs in
      Ok ({| group_name := name; selection := selection g; required := required g; options := os |} :: rest)
  end.
Definition normaliseModifierGroups (gs : list ModifierGroup) : res (list ModifierGroup) := normalise_from [] gs.

Section Pricing.
Context `{DecimalLib}.

(** The options picked from a group. *)
Definition picked (chosen : list Choice) (g : ModifierGroup) : list string :=
  unique_from [] (match List.find (fun c => bool_decide (ch_group c = group_name g)) chosen with Some c => ch_options c | None => [] end).
Definition find_option (g : ModifierGroup) (label : string) : option ModifierOption :=
  List.find (fun o => bool_decide (option_label o = label)) (options g).
(** [for (const label of picked)] *)
Fixpoint add_options (g : ModifierGroup) (labels : list string) (unitPrice : Qc) (mods : list PricedModifier) : res (Qc * list PricedModifier) :=
  match labels with
  | [] => Ok (unitPrice, mods)
  | label :: labels =>
      let? o := or_throw (find_option g label) invalid in
      add_options g labels (unitPrice ⊕ option_price o)
        (mods ++ [{| pm_group := group_name g; pm_label := option_label o; pm_price := to_fixed2 (option_price o) |}])
  end.
(** [for (const group of groups)] *)
Fixpoint add_groups (gs : list ModifierGroup) (chosen : list Choice) (unitPrice : Qc) (mods : list PricedModifier) : res (Qc * list PricedModifier) :=
  match gs with
  | [] => Ok (unitPrice, mods)
  | g :: gs =>
      let labels := picked chosen g in
      throw invalid when (required g && bool_decide (length labels = 0%nat)) in
      throw invalid when (bool_decide (selection g = single) && Nat.ltb 1 (length labels)) in
      let? ' (u, ms) := add_options g labels unitPrice mods in
      add_groups gs chosen u ms
  end.
(** One line: its unit price and what is printed of it. *)
Definition price_line (items : list MenuItem.t) (r : RequestedLine) : res (Qc * PricedLine) :=
  let? item := or_throw (last (List.filter (fun i => bool_decide (MenuItem.id i = rl_menuItemId r)) items)) not_found in
  throw conflict when (negb (MenuItem.isAvailable item)) in
  let groups := parseModifierGroups (MenuItem.modifiers item) in
  let chosen := default [] (rl_modifiers r) in
  throw invalid when (existsb (fun c => negb (existsb (fun g => bool_decide (group_name g = ch_group c)) groups)) chosen) in
  let? ' (unitPrice, mods) := add_groups groups chosen (MenuItem.price item) [] in
  let lineTotal := unitPrice ⊗ Qc_of_Z (rl_qty r) in
  Ok (lineTotal, {| pl_menuItemId := MenuItem.id item; pl_qty := rl_qty r; pl_unitPrice := to_fixed2 unitPrice; pl_modifiers := mods;
                    pl_lineTotal := to_fixed2 lineTotal |}).
Fixpoint price_lines (items : list MenuItem.t) (requested : list RequestedLine) (lines : list PricedLine) (subtotal : Qc) : res (list PricedLine * Qc) :=
  match requested with
  | [] => Ok (lines, subtotal)
  | r :: requested =>
      let? ' (lineTotal, l) := price_line items r in
      price_lines items requested (lines ++ [l]) (subtotal ⊕ lineTotal)
  end.
Definition priceOrder (items : list MenuItem.t) (requested : list RequestedLine) : res (list PricedLine * Qc) :=
  price_lines items requested [] 0%Qc.

Definition discountOff (subtotal : Qc) (discount : option OrderDiscount) : res Qc :=
  match discount with
  | None => Ok 0%Qc
  | Some dc =>
      match od_type dc with
      | percentage =>
          throw invalid when (dgt (od_value dc) (Qc_of_Z 100)) in
          Ok (dp2 ((subtotal ⊗ od_value dc) ⊘ Qc_of_Z 100))
      | fixed_amount =>
          throw invalid when (dgt (od_value dc) subtotal) in
          Ok (od_value dc)
      end
  end.
Definition discountPct (subtotal discount : Qc) : Qc :=
  if dis_zero subtotal then 0%Qc else (discount ⊘ subtotal) ⊗ Qc_of_Z 100.
End Pricing.

(** ** Selling *)
Definition ALL_OUTLET_ROLES : list string := ["owner"; "manager"; "front_desk"].
Definition POS_STAFF : list string := ["pos_staff"].

Record CreatePosOrderDto := {
  po_outletId : string; po_items : list RequestedLine; po_discount : option OrderDiscount; po_settlement : PosSettlement;
  po_cashAmount : option Qc; po_reservationId : option string }.

Section Selling.
Context `{DecimalLib} `{TaxDb} `{Platform} `{Uuid}.

Definition audit (b u action entityId : string) : M unit := auditLog (Some b) (Some u) action "pos_order" entityId.
Definition requireText (value : string) : res string :=
  let trimmed := js_trim value in throw invalid when (bool_decide (trimmed = "")) in Ok trimmed.

Definition findOutletOrThrow (o : string) : M Outlet.t :=
  orThrow (findFirst outlets (fun x => bool_decide (Outlet.id x = o))) not_found.
Definition assertOutletActive (o : Outlet.t) : res unit := throw_if (negb (Outlet.isActive o)) conflict.
Definition hasRoleAt := hasRoleAtBranch.
Definition assertSupervisorAt (actor : JwtPayload) (b : string) : res unit := throw_if (negb (hasRoleAt actor b SUPERVISOR_ROLES)) forbidden.
Definition assertCanRingUp (actor : JwtPayload) (o : Outlet.t) : M unit :=
  if hasRoleAt actor (Outlet.branchId o) ALL_OUTLET_ROLES then ret tt
  else if hasRoleAt actor (Outlet.branchId o) POS_STAFF then
    let! assigned := findFirst userOutlets (fun x => bool_decide (UserOutlet.userId x = sub actor) && bool_decide (UserOutlet.outletId x = Outlet.id o)) in
    lift (throw_if (isNone assigned) forbidden)
  else raise forbidden.

(** A discount is a manager's to give, or the staff's up to the outlet's limit. *)
Definition assertMayDiscount (actor : JwtPayload) (o : Outlet.t) (subtotal discount : Qc) : res unit :=
  if dgt discount 0%Qc && negb (hasRoleAt actor (Outlet.branchId o) SUPERVISOR_ROLES) then
    match Outlet.staffDiscountLimitPct o with
    | None => Err forbidden
    | Some limit => throw forbidden when (dis_zero limit) in throw_if (dgt (discountPct subtotal discount) limit) forbidden
    end
  else Ok tt.

Definition priceBasket (o : Outlet.t) (items : list RequestedLine) (asked : option OrderDiscount) (actor : JwtPayload)
  : M (list PricedLine * string * Qc * PricedCharge) :=
  let! menu := findMany menuItems (fun i => bool_decide (MenuItem.outletId i = Outlet.id o) &&
                 bool_decide (MenuItem.id i ∈ rl_menuItemId <$> items) && isNone (MenuItem.deletedAt i)) in
  let! ' (lines, subtotal) := lift (priceOrder menu items) in
  let! discount := lift (discountOff subtotal asked) in
  do! lift (assertMayDiscount actor o subtotal discount) in
  let! priced := previewCharge (Outlet.branchId o) (Outlet.chargeType o) (subtotal ⊖ discount) in
  ret (lines, to_fixed2 subtotal, discount, priced).

Definition quote (outletId : string) (items : list RequestedLine) (asked : option OrderDiscount) (actor : JwtPayload) : M (string * string * Qc * PricedCharge) :=
  let! o := findOutletOrThrow outletId in
  do! lift (assertOutletActive o) in
  do! assertCanRingUp actor o in
  let! branch := assertBranch (Outlet.branchId o) in
  let! ' (_, itemsTotal, discount, priced) := priceBasket o items asked actor in
  ret (Branch.currency branch, itemsTotal, discount, priced).

(** The next number of an outlet's orders. *)
Definition next_orderNo (d : Db) (o : string) : Z :=
  match PosOrder.orderNo <$> List.filter (fun x => bool_decide (PosOrder.outletId x = o)) (posOrders d) with
  | [] => 0 + 1
  | n :: ns => foldl Z.max n ns + 1
  end.

(** [tx.posOrder.create], with its unique columns. *)
Definition create_order (r : string -> PosOrder.t) : M PosOrder.t :=
  let! i := new_id in
  let row := r i in
  let! clash := findFirst posOrders (fun x =>
    (bool_decide (PosOrder.outletId x = PosOrder.outletId row) && bool_decide (PosOrder.orderNo x = PosOrder.orderNo row)) ||
    (isSome (PosOrder.lineItemId row) && bool_decide (PosOrder.lineItemId x = PosOrder.lineItemId row))) in
  throw! internal when isSome clash in
  do! modify (upd_posOrders (fun t => t ++ [row])) in
  ret row.

(** A room charge: what the ledger posted, and where. *)
Definition charge_to_room (o : Outlet.t) (branch : Branch.t) (reservationId : option string) (price : Qc) (actor : JwtPayload)
  : M (Qc * Qc * (string * string * string)) :=
  let! r := orThrow (findFirst reservations (fun x => bool_decide (Some (Reservation.id x) = reservationId) &&
              bool_decide (Reservation.branchId x = Outlet.branchId o) && isNone (Reservation.deletedAt x))) not_found in
  throw! conflict when negb (bool_decide (Reservation.status r = checked_in)) in
  let! folio := ensurePrimaryFolio r (Some (sub actor)) in
  throw! conflict when bool_decide (Folio.status folio = settled) in
  let! at_ := now in
  let! today := lift (or_throw (toBranchDate (todayInTimezone (Branch.timezone branch) at_)) internal) in
  let! posted := postOutletCharge folio (Outlet.id o) (Outlet.chargeType o) price today (sub actor) in
  let! l := lift (or_throw posted invalid) in
  ret (LineItem.amount l, LineItem.taxAmount l, (Reservation.id r, Folio.id folio, LineItem.id l)).

(** Where a sale goes: onto the guest's bill, into the cashier's drawer, or by card. *)
Definition settle_sale (o : Outlet.t) (branch : Branch.t) (dto : CreatePosOrderDto) (priced : PricedCharge) (actor : JwtPayload)
  : M (Qc * Qc * option (string * string * string) * option string) :=
  match po_settlement dto with
  | settle_room =>
      let! ' (n, t, r) := charge_to_room o branch (po_reservationId dto) (price priced) actor in
      ret (n, t, Some r, None)
  | settle_cash | settle_split =>
      let! s := orThrow (findFirst shifts (open_shift_of (Outlet.branchId o) (sub actor))) shiftRequired in
      ret (net priced, taxTotal priced, None, Some (Shift.id s))
  | settle_card => ret (net priced, taxTotal priced, None, None)
  end.

(** How a sale was taken: cash, card. *)
Definition takings (settlement : PosSettlement) (asked : option Qc) (total : Qc) : res (Qc * Qc) :=
  match settlement with
  | settle_room => Ok (0%Qc, 0%Qc)
  | settle_cash => Ok (total, 0%Qc)
  | settle_card => Ok (0%Qc, total)
  | settle_split =>
      let cashAmount := default 0%Qc asked in
      throw invalid when (negb (dgt total cashAmount)) in
      Ok (cashAmount, total ⊖ cashAmount)
  end.

Definition createOrder (dto : CreatePosOrderDto) (actor : JwtPayload) : M PosOrder.t :=
  let! o := findOutletOrThrow (po_outletId dto) in
  do! lift (assertOutletActive o) in
  do! assertCanRingUp actor o in
  let! branch := assertBranch (Outlet.branchId o) in
  let settlement := po_settlement dto in
  throw! invalid when (bool_decide (settlement = settle_room) && negb (given (po_reservationId dto))) in
  throw! invalid when (negb (bool_decide (settlement = settle_room)) && given (po_reservationId dto)) in
  throw! invalid when (negb (bool_decide (settlement = settle_split)) && isSome (po_cashAmount dto)) in
  let! orderNo := gets (fun d => next_orderNo d (Outlet.id o)) in
  let! ' (_, _, discount, priced) := priceBasket o (po_items dto) (po_discount dto) actor in
  throw! invalid when negb (dgt (price priced) 0%Qc) in
  let! discountReason := (if dgt discount 0%Qc
       then let! why := lift (requireText (default "" (p ← po_discount dto; od_reason p))) in ret (Some why)
       else ret None) in
  let! ' (net_, taxTotal_, room_, shiftId_) :=
    settle_sale o branch dto priced actor in
  let total_ := net_ ⊕ taxTotal_ in
  let! ' (cashAmount, cardAmount) := lift (takings settlement (po_cashAmount dto) total_) in
  let! subtotal' := lift (numeric net_) in
  let! tax' := lift (numeric taxTotal_) in
  let! total' := lift (numeric total_) in
  let! discount' := lift (numeric discount) in
  let! cash' := lift (numeric cashAmount) in
  let! card' := lift (numeric cardAmount) in
  let! order := create_order (fun i => {|
    PosOrder.id := i; PosOrder.branchId := Outlet.branchId o; PosOrder.outletId := Outlet.id o; PosOrder.orderNo := orderNo;
    PosOrder.settlement := settlement; PosOrder.subtotal := subtotal'; PosOrder.taxTotal := tax'; PosOrder.total := total';
    PosOrder.discountTotal := discount'; PosOrder.discountReason := discountReason; PosOrder.cashAmount := cash'; PosOrder.cardAmount := card'; PosOrder.currency := Branch.currency branch;
    PosOrder.reservationId := (fun r => fst (fst r)) <$> room_; PosOrder.folioId := (fun r => snd (fst r)) <$> room_;
    PosOrder.lineItemId := snd <$> room_; PosOrder.shiftId := shiftId_; PosOrder.createdBy := Some (sub actor);
    PosOrder.voidedAt := None; PosOrder.voidedBy := None; PosOrder.voidReason := None |}) in
  do! audit (Outlet.branchId o) (sub actor) "pos_order.created" (PosOrder.id order) in
  ret order.

Definition voidOrder (orderId reason : string) (actor : JwtPayload) : M PosOrder.t :=
  let! order := orThrow (findFirst posOrders (fun x => bool_decide (PosOrder.id x = orderId))) not_found in
  do! lift (assertSupervisorAt actor (PosOrder.branchId order)) in
  do! match PosOrder.shiftId order with
      | Some s =>
          if dgt (PosOrder.cashAmount order) 0%Qc then
            let! shift := findFirst shifts (fun x => bool_decide (Shift.id x = s)) in
            lift (throw_if (match shift with Some x => isSome (Shift.closedAt x) | None => false end) conflict)
          else ret tt
      | None => ret tt
      end in
  let! why := lift (requireText reason) in
  let! at_ := now in
  let claimed x := bool_decide (PosOrder.id x = orderId) && isNone (PosOrder.voidedAt x) in
  let! hits := findMany posOrders claimed in
  throw! conflict when bool_decide (length hits = 0%nat) in
  do! modify (upd_posOrders (update_where claimed (PosOrder.with_void (Some at_) (Some (sub actor)) (Some why)))) in
  do! match PosOrder.lineItemId order with
      | Some l =>
          let! existing := findFirst lineItems (fun x => bool_decide (LineItem.correctsLineItemId x = Some l)) in
          if isSome existing then ret tt
          else let! _ := correctLineItemInTx l why (sub actor) in ret tt
      | None => ret tt
      end in
  do! audit (PosOrder.branchId order) (sub actor) "pos_order.voided" orderId in
  orThrow (findFirst posOrders (fun x => bool_decide (PosOrder.id x = orderId))) internal.
End Selling.

(** ** What a sale leaves behind *)
Section Orders.
Context `{DecimalLib} `{TaxDb} `{!TaxDbOk} `{Platform} `{Uuid}.

Lemma priceBasket_same o items asked actor : keeps eq (priceBasket o items asked actor).
Proof. unfold priceBasket, previewCharge. keeps_tac. Qed.
Lemma ringUp_same actor o : keeps eq (assertCanRingUp actor o).
Proof. unfold assertCanRingUp. keeps_tac. Qed.

(** The tables a sale reads and opening a bill leaves alone. *)
Record sale_frame (d d' : Db) : Prop := {
  sf_lines : lineItems d' = lineItems d;
  sf_payments : payments d' = payments d;
  sf_taxRules : taxRules d' = taxRules d;
  sf_orders : posOrders d' = posOrders d;
  sf_shifts : shifts d' = shifts d;
}.
#[local] Instance sale_frame_preorder : PreOrder sale_frame.
Proof. split; [by split|]. intros d1 d2 d3 [] []. split; congruence. Qed.
Lemma sf_ensurePrimaryFolio r u : keeps sale_frame (ensurePrimaryFolio r u).
Proof.
  unfold ensurePrimaryFolio, Folios.audit, paymentRecorded, emit, auditLog, new_id, now. keeps_tac; apply keeps_modify; apply _ || by split.
Qed.
Lemma ensurePrimaryFolio_of r u d d' f : ensurePrimaryFolio r u d = Ok (d', f) -> Folio.reservationId f = Reservation.id r /\ Folio.label f = None.
Proof.
  unfold ensurePrimaryFolio, now. intros Hm. m_inv. destruct (List.find _ _) as [x|] eqn:E; m_inv; [|done].
  apply find_Some in E as [_ Hw]. boolp. destruct Hw as [[Hr Hl%isNone_eq] _]. destruct (_ || _); m_inv; done.
Qed.

(** A room charge posts on the guest's own bill. *)
Lemma charge_to_room_spec o branch rid p actor d d' n t room : charge_to_room o branch rid p actor d = Ok (d', (n, t, room)) ->
  charge_ok (taxRules d) p 1 ->
  exists c r f l, priceCharge (taxRules d) (Folio.branchId f) (Outlet.chargeType o) p 1 = Ok c /\ n = net c /\ numeric (taxTotal c) = Ok t /\
    r ∈ reservations d /\ Reservation.status r = checked_in /\ Reservation.branchId r = Outlet.branchId o /\
    Folio.status f <> settled /\ Folio.reservationId f = Reservation.id r /\ Folio.label f = None /\
    room = (Reservation.id r, Folio.id f, l) /\
    (forall g, balance d' g = (balance d g + if_on (Folio.id f) g (total c))%Qc) /\
    posOrders d' = posOrders d /\ shifts d' = shifts d.
Proof.
  unfold charge_to_room, now, postOutletCharge. intros Hm Hok. m_inv.
  match goal with E : Some ?x = List.find _ _ |- _ => rename x into r; symmetry in E; apply find_Some in E as [Hr Hw] end.
  match goal with E : ensurePrimaryFolio _ _ _ = Ok (?e, ?x) |- _ => rename E into Hf, x into f, e into d1 end.
  match goal with E : ?o = Some ?x |- _ => subst o; rename x into l end.
  match goal with E : writeChargeWithTaxes _ _ = _ |- _ => rename E into Hc end.
  pose proof (sf_ensurePrimaryFolio _ _ _ _ _ Hf) as [Hl Hp Ht Ho Hs]. apply ensurePrimaryFolio_of in Hf as [Hfr Hfl]. boolp. destruct Hw as [[_ Hb] _].
  rewrite <- Ht in Hok |- *. destruct (writeCharge_rows _ _ _ _ Hc) as [Hfr2 (c & rows & Hpc & _ & _ & Hst & _)].
  destruct (posting_quoted (plain_charge _ _ p _ _ _ _) _ _ _ Hok Hc) as (c' & Hq & Hbal & Hnet & Hrise). simpl in Hpc, Hq, Hrise.
  assert (c' = c) as ->. { unfold previewCharge in Hq. cbv [bind gets lift] in Hq. rewrite Hpc in Hq. by injection Hq as ->. }
  exists c, r, f, (LineItem.id l). split; [exact Hpc|]. split; [exact Hnet|]. split; [exact (st_taxAmount _ _ Hst)|]. split_and!; try done.
  - intros g. rewrite Hrise. f_equal. unfold balance, charges_on, paid_on. by rewrite Hl, Hp.
  - by rewrite (fr_posOrders _ _ Hfr2), Ho.
  - by rewrite (fr_shifts _ _ Hfr2), Hs.
Qed.
Lemma createOrder_inv dto actor d d' order : createOrder dto actor d = Ok (d', order) ->
  exists o branch lines it discount priced n t room sh d1 cashA cardA,
    o ∈ outlets d /\ Outlet.id o = po_outletId dto /\ Outlet.isActive o = true /\
    priceBasket o (po_items dto) (po_discount dto) actor d = Ok (d, (lines, it, discount, priced)) /\ (0 < price priced)%Qc /\
    settle_sale o branch dto priced actor d = Ok (d1, (n, t, room, sh)) /\
    takings (po_settlement dto) (po_cashAmount dto) (n ⊕ t) = Ok (cashA, cardA) /\
    numeric n = Ok (PosOrder.subtotal order) /\ numeric t = Ok (PosOrder.taxTotal order) /\ numeric (n ⊕ t) = Ok (PosOrder.total order) /\
    numeric cashA = Ok (PosOrder.cashAmount order) /\ numeric cardA = Ok (PosOrder.cardAmount order) /\
    PosOrder.id order = gen_random_uuid (seq d1) /\ PosOrder.voidedAt order = None /\
    PosOrder.settlement order = po_settlement dto /\ PosOrder.outletId order = Outlet.id o /\ PosOrder.orderNo order = next_orderNo d (Outlet.id o) /\
    PosOrder.folioId order = (fun r => snd (fst r)) <$> room /\ PosOrder.lineItemId order = snd <$> room /\ PosOrder.shiftId order = sh /\
    money_frame (upd_posOrders (fun l => l ++ [order]) (upd_seq S d1)) d'.
Proof.
  unfold createOrder, assertBranch, findOutletOrThrow, create_order. intros Hm. m_inv.
  match goal with x : (list PricedLine * string * Qc * PricedCharge)%type |- _ => destruct x as [[[lines it] discount] priced] end. m_inv.
  match goal with x : (Qc * Qc * _ * _)%type |- _ => destruct x as [[[n t] room] sh] end. m_inv.
  match goal with x : (Qc * Qc)%type |- _ => destruct x as [cashA cardA] end. m_inv.
  match goal with E : assertCanRingUp _ _ _ = _ |- _ => apply ringUp_same in E as <- end.
  match goal with E : priceBasket _ _ _ _ _ = Ok (?e, _) |- _ => pose proof (priceBasket_same _ _ _ _ _ _ _ E) as <-; rename E into Hb end.
  match goal with E : (if dgt discount _ then _ else _) ?e = Ok (?e', _) |- _ => assert (e' = e) as -> by (destruct (dgt discount _); m_inv; done); clear E end.
  match goal with E : Some ?x = List.find _ (outlets _) |- _ => symmetry in E; apply find_Some in E as [Ho Hoi]; apply bool_decide_eq_true in Hoi end.
  match goal with E : assertOutletActive _ = _ |- _ => apply throw_if_Ok, negb_false_iff in E; rename E into Hact end.
  match goal with E : new_id _ = _ |- _ => apply new_id_spec in E as [-> ->] end.
  match goal with E : audit _ _ _ _ ?e = _ |- _ => apply mf_auditLog in E; rename E into Hmf end.
  match goal with E : negb (dgt (price priced) _) = false |- _ => apply negb_false_iff in E; rename E into Hpos end.
  do 13 eexists. split; [exact Ho|]. split; [exact Hoi|]. split; [exact Hact|]. split; [exact Hb|].
  split; [by destruct (dgt_spec (price priced) 0%Qc)|]. split; [eassumption|]. split; [eassumption|]. do 5 (split; [eassumption|]).
  do 8 (split; [reflexivity|]). exact Hmf.
Qed.

Lemma priceBasket_price o items asked actor d lines it discount c : priceBasket o items asked actor d = Ok (d, (lines, it, discount, c)) ->
  exists p, priceCharge (taxRules d) (Outlet.branchId o) (Outlet.chargeType o) p 1 = Ok c /\ price c = p.
Proof.
  unfold priceBasket, previewCharge. intros Hm. m_inv. match goal with x : (list PricedLine * Qc)%type |- _ => destruct x as [ls sub] end. m_inv.
  match goal with E : priceCharge _ _ _ ?p 1 = Ok _ |- _ => exists p; split; [exact E|]; apply priceCharge_inv in E as [->|(_ & _ & ->)] end; done.
Qed.
Lemma cents_sum (l : list Qc) : Forall (fun x => exists z, x = cents z) l -> exists z, qsum l = cents z.
Proof. induction 1 as [|x l [z ->] _ [w Hw]]; [exists 0; symmetry; apply decimal_0|]. exists (z + w). simpl. rewrite Hw. apply decimal_plus. Qed.
Lemma charge_cents c : charge_balanced c -> (exists z, price c = cents z) -> (exists z, net c = cents z) /\ (exists z, taxTotal c = cents z).
Proof.
  intros Hb Hp. split; [by apply net_cents|]. rewrite (taxTotal_lines _ Hb). apply cents_sum. rewrite Forall_fmap.
  eapply Forall_impl; [apply (lines_positive _ Hb)|]. by intros x [_ ?].
Qed.
(** What is stored of a charge that balances is the charge. *)
Lemma stored_total c n t a b s : charge_balanced c -> (exists z, price c = cents z) -> n = net c -> t = taxTotal c ->
  numeric n = Ok a -> numeric t = Ok b -> numeric (n ⊕ t) = Ok s -> n ⊕ t = total c /\ s = total c /\ money NUMERIC_12_2 (total c).
Proof.
  intros Hb Hp -> -> Ha Hbt Hs. destruct (charge_cents c Hb Hp) as [[x Hx] [y Hy]]. rewrite Hx, Hy in *.
  pose proof (numeric_money _ _ Ha) as Hm1. apply numeric_cents in Ha as ->. pose proof (numeric_money _ _ Hbt) as Hm2. apply numeric_cents in Hbt as ->.
  rewrite (dplus_money _ _ _ _ Hm1 Hm2) in * by (unfold NUMERIC_12_2, precision; lia). rewrite (total_net _ Hb), Hx, Hy.
  assert (cents x + cents y = cents (x + y))%Qc as Hxy by apply decimal_plus. rewrite Hxy in *.
  pose proof (numeric_money _ _ Hs) as Hm. by apply numeric_cents in Hs as ->.
Qed.
Lemma next_orderNo_max d o x : x ∈ posOrders d -> PosOrder.outletId x = o -> PosOrder.orderNo x < next_orderNo d o.
Proof.
  intros Hx Ho. unfold next_orderNo. assert (PosOrder.orderNo x ∈ PosOrder.orderNo <$> List.filter (fun x => bool_decide (PosOrder.outletId x = o)) (posOrders d)) as Hin.
  { apply list_elem_of_fmap_2, elem_of_filterb. by rewrite bool_decide_true. }
  assert (forall l a, a <= foldl Z.max a l /\ forall y, y ∈ l -> y <= foldl Z.max a l) as Hmax.
  { induction l as [|b l IH]; intros a; simpl; [split; [lia|by intros y ?%elem_of_nil]|]. destruct (IH (Z.max a b)) as [H1' H2'].
    split; [lia|]. intros y [->|Hy]%elem_of_cons; [lia | auto]. }
  destruct (_ <$> _) as [|n ns]; [by apply elem_of_nil in Hin|]. apply elem_of_cons in Hin as [->|Hin].
  - pose proof (proj1 (Hmax ns n)). lia.
  - pose proof (proj2 (Hmax ns n) _ Hin). lia.
Qed.

Lemma settle_other o branch dto c actor d d1 n t room sh : po_settlement dto <> settle_room ->
  settle_sale o branch dto c actor d = Ok (d1, (n, t, room, sh)) ->
  d1 = d /\ n = net c /\ t = taxTotal c /\ room = None /\ (po_settlement dto = settle_card -> sh = None) /\
  (po_settlement dto <> settle_card -> exists x, x ∈ shifts d /\ Shift.agentId x = sub actor /\ Shift.closedAt x = None /\ sh = Some (Shift.id x)).
Proof.
  unfold settle_sale. intros Hne Hs. destruct (po_settlement dto); [done|..]; m_inv; split_and!; try done; intros _.
  all: match goal with E : Some ?x = List.find _ _ |- _ => symmetry in E; apply find_Some in E as [Hx Ho]; exists x end.
  all: unfold open_shift_of in Ho; boolp; destruct Ho as [[_ Ha] Hc%isNone_eq]; done.
Qed.
(** The cash and card parts of a sale that is not charged to a room. *)
Lemma takings_sum st asked T a b a' b' : st <> settle_room -> money NUMERIC_12_2 T -> (forall x, asked = Some x -> exists z, x = cents z) ->
  takings st asked T = Ok (a, b) -> numeric a = Ok a' -> numeric b = Ok b' ->
  (a' + b')%Qc = T /\ (st = settle_card -> a' = 0%Qc).
Proof.
  intros Hne HT Hask Htk Ha Hb. assert (money NUMERIC_12_2 0%Qc) as H0' by (apply money_0; unfold NUMERIC_12_2; lia).
  destruct st; [done|..]; simpl in Htk; simplify_eq.
  - apply (numeric_id _ _ _ HT) in Ha as ->. apply (numeric_id _ _ _ H0') in Hb as ->. split; [ring | done].
  - apply (numeric_id _ _ _ H0') in Ha as ->. apply (numeric_id _ _ _ HT) in Hb as ->. split; [ring | done].
  - res_inv. assert (exists z, default 0%Qc asked = cents z) as [z Hz].
    { destruct asked as [x|]; simpl; [by apply Hask|]. exists 0. symmetry. apply decimal_0. }
    rewrite Hz in *. pose proof (numeric_money _ _ Ha) as Hm. apply numeric_cents in Ha as ->.
    rewrite (dminus_money _ _ _ _ HT Hm) in Hb by (unfold NUMERIC_12_2, precision; lia).
    apply (numeric_id _ _ _ (money_minus _ _ _ _ HT Hm)) in Hb as ->. split; [ring | done].
Qed.
End Orders.

(** Where a sale's money is. *)
Definition sale_accounted `{Uuid} (d d' : Db) (actor : JwtPayload) (order : PosOrder.t) : Prop :=
  match PosOrder.settlement order with
  | settle_room =>
      PosOrder.cashAmount order = 0%Qc /\ PosOrder.cardAmount order = 0%Qc /\ PosOrder.shiftId order = None /\
      exists f r, PosOrder.folioId order = Some (Folio.id f) /\ Folio.status f <> settled /\ Folio.reservationId f = Reservation.id r /\ Folio.label f = None /\
        r ∈ reservations d /\ Reservation.status r = checked_in /\
        forall g, balance d' g = (balance d g + if_on (Folio.id f) g (PosOrder.total order))%Qc
  | s =>
      (forall g, balance d' g = balance d g) /\ PosOrder.folioId order = None /\ PosOrder.lineItemId order = None /\
      (PosOrder.cashAmount order + PosOrder.cardAmount order)%Qc = PosOrder.total order /\
      (s = settle_card -> PosOrder.cashAmount order = 0%Qc /\ PosOrder.shiftId order = None) /\
      (s <> settle_card -> exists x, x ∈ shifts d /\ Shift.agentId x = sub actor /\ Shift.closedAt x = None /\ PosOrder.shiftId order = Some (Shift.id x))
  end.



Module PosWitness.
Import Hotel PostingWitness RefundsWitness.
(** Two stews with rice, ten per cent off, paid in cash or put on the room. *)
Definition stew_dto (st : PosSettlement) (r : option string) : CreatePosOrderDto := {|
  po_outletId := "o1"; po_items := [{| rl_menuItemId := "m1"; rl_qty := 2; rl_modifiers := Some [{| ch_group := "Side"; ch_options := ["Rice"] |}] |}];
  po_discount := Some {| od_type := percentage; od_value := Qc_of_Z 10; od_reason := Some "slow kitchen" |};
  po_settlement := st; po_cashAmount := None; po_reservationId := r |}.
Definition hotel_sold : Db := after (createOrder (stew_dto settle_room (Some "s1")) manager) hotel.
Lemma stew_ok : is_ok (createOrder (stew_dto settle_room (Some "s1")) manager hotel) = true.
Proof. vm_compute. reflexivity. Qed.
Lemma cash_stew_ok : is_ok (createOrder (stew_dto settle_cash None) manager hotel_sold) = true.
Proof. vm_compute. reflexivity. Qed.

(** The price a basket came to. *)
Definition basket_price (r : res (Db * (list PricedLine * string * Qc * PricedCharge))) : option Q :=
  match r with Ok (_, (_, _, _, c)) => Some (this (price c)) | Err _ => None end.
Lemma stew_in_range st rid o lines it q c : o ∈ outlets hotel ->
  priceBasket o (po_items (stew_dto st rid)) (po_discount (stew_dto st rid)) manager hotel = Ok (hotel, (lines, it, q, c)) ->
  charge_ok (taxRules hotel) (price c) 1.
Proof.
  intros Ho Hb. simpl in Ho. apply list_elem_of_singleton in Ho as ->.
  assert (basket_price (priceBasket hotel_bar (po_items (stew_dto st rid)) (po_discount (stew_dto st rid)) manager hotel) = Some (this (cents 4500))) as Hp
    by (vm_compute; reflexivity).
  rewrite Hb in Hp. injection Hp as Hp. assert (price c = cents 4500) as -> by (apply Qc_is_canon; rewrite Hp; reflexivity). apply hotel_charge_ok. vm_compute. split; reflexivity.
Qed.
End PosWitness.
