(* ===== verification/Till.v ===== *)
(** What the drawers promise across the services: bills, refunds, outlets and
    shifts all move cash, and none of them touches a drawer once it is closed
    and counted. *)
From S2P Require Import Prelude Decimal Json Dates Taxes Authority Transactions Db LoyaltyRules Packages Folios SampleHotel FolioLedger FolioFigures FolioEffects FolioMoves FolioPayments Refunds Shifts Pos.
From Stdlib Require Import QArith Qcanon Lqa.
Import BranchRoles.
Local Open Scope Z_scope.

(** A sum over the rows that count, row by row. *)
Lemma counted_sum {A} (p : A -> bool) (g : A -> Qc) l : qsum (g <$> List.filter p l) = qsum ((fun x => if p x then g x else 0%Qc) <$> l).
Proof. induction l as [|x l IH]; csimpl; [done|]. destruct (p x); csimpl; rewrite IH; [done | ring]. Qed.
Lemma counted_update {A} (p : A -> bool) (g : A -> Qc) w f l :
  (forall x, x ∈ l -> w x = true -> (if p (f x) then g (f x) else 0)%Qc = (if p x then g x else 0)%Qc) ->
  qsum (g <$> List.filter p (update_where w f l)) = qsum (g <$> List.filter p l).
Proof.
  intros Hf. rewrite !counted_sum. unfold update_where. rewrite <- list_fmap_compose. f_equal. apply list_fmap_ext.
  intros i x Hx. simpl. destruct (w x) eqn:E; [|done]. apply Hf; [by eapply list_elem_of_lookup_2 | done].
Qed.
Lemma counted_app {A} (p : A -> bool) (g : A -> Qc) l x : p x = false -> qsum (g <$> List.filter p (l ++ [x])) = qsum (g <$> List.filter p l).
Proof. intros Hp. rewrite List.filter_app, fmap_app, qsum_app. simpl. rewrite Hp. simpl. ring. Qed.

(** The drawers of a well-formed database. *)
Record drawers_ok `{Uuid} (d : Db) : Prop := {
  dk_shifts : named Shift.id (seq d) (shifts d);
  dk_payments : named Payment.id (seq d) (payments d);
  dk_orders : named PosOrder.id (seq d) (posOrders d);
  (** one open drawer for an agent at a branch *)
  dk_one x y : x ∈ shifts d -> y ∈ shifts d -> Shift.closedAt x = None -> Shift.closedAt y = None ->
    Shift.branchId x = Shift.branchId y -> Shift.agentId x = Shift.agentId y -> Shift.id x = Shift.id y;
  (** a room charge is in no drawer, and no sale takes less than nothing in cash *)
  dk_room o : o ∈ posOrders d -> isSome (PosOrder.lineItemId o) = true -> PosOrder.shiftId o = None;
  dk_cash o : o ∈ posOrders d -> (0 <= PosOrder.cashAmount o)%Qc;
}.
(** A closed drawer as it was, with the cash it was counted against. *)
Definition stands (d d' : Db) (x : Shift.t) : Prop :=
  x ∈ shifts d' /\ cash_paid d' (Shift.id x) = cash_paid d (Shift.id x) /\ cash_sold d' (Shift.id x) = cash_sold d (Shift.id x).
Definition drawers_le `{Uuid} (d d' : Db) : Prop :=
  drawers_ok d -> drawers_ok d' /\ forall x, x ∈ shifts d -> isSome (Shift.closedAt x) = true -> stands d d' x.
#[global] Instance drawers_le_preorder `{Uuid} : PreOrder drawers_le.
Proof.
  split; [by intros d Hd|]. intros d1 d2 d3 H12 H23 Hd. destruct (H12 Hd) as [Hd2 Hx2]. destruct (H23 Hd2) as [Hd3 Hx3]. split; [done|].
  intros x Hx Hc. destruct (Hx2 x Hx Hc) as (Hin & Hp & Hs). destruct (Hx3 x Hin Hc) as (Hin' & Hp' & Hs'). split; [done|]. by rewrite Hp', Hs', Hp, Hs.
Qed.

Section Drawers.
Context `{DecimalLib} `{TaxDb} `{Platform} `{Uuid}.

(** A write elsewhere. *)
Lemma dl_same d d' : shifts d' = shifts d -> payments d' = payments d -> posOrders d' = posOrders d -> (seq d <= seq d')%nat -> drawers_le d d'.
Proof.
  intros Hs Hp Ho Hn [H1' H2' H3' H4' H5' H6']. split.
  - split; rewrite ?Hs, ?Hp, ?Ho; try done; by eapply named_weaken.
  - intros x Hx _. unfold stands, cash_paid, cash_sold. by rewrite Hs, Hp, Ho.
Qed.
Lemma dl_frame d d' : money_frame d d' -> drawers_le d d'.
Proof. intros [_ Hp _ Hs Ho Hn]. by apply dl_same. Qed.

(** The closed drawer an open one is not. *)
Lemma open_not_closed d x y : drawers_ok d -> x ∈ shifts d -> y ∈ shifts d -> isSome (Shift.closedAt x) = true -> Shift.closedAt y = None ->
  Shift.id y <> Shift.id x.
Proof. intros Hd Hx Hy Hc Ho Heq. assert (y = x) as -> by (eapply named_inj; [apply Hd|done..]). by rewrite Ho in Hc. Qed.

(** A payment taken: cash of the branch's money only into an open drawer. *)
Lemma dl_pay d d' p : Payment.id p = gen_random_uuid (seq d) ->
  (Payment.method p = cash -> exists x, x ∈ shifts d /\ Shift.closedAt x = None /\ Payment.shiftId p = Some (Shift.id x)) ->
  money_frame (upd_payments (fun t => t ++ [p]) (upd_seq S d)) d' -> drawers_le d d'.
Proof.
  intros Hid Hcash Hmf. transitivity (upd_payments (fun t => t ++ [p]) (upd_seq S d)); [|by apply dl_frame].
  intros Hd. pose proof Hd as [H1' H2' H3' H4' H5' H6']. split.
  - split; simpl; try done; try (eapply named_weaken; [|done]; lia). apply named_app; [exact H2' | exact Hid].
  - intros x Hx Hc. split; [done|]. split; [|done]. unfold cash_paid. simpl. apply counted_app. unfold own_cash.
    destruct (bool_decide_reflect (Payment.method p = cash)) as [Hm|Hm]; [|by rewrite andb_false_r].
    destruct (Hcash Hm) as (y & Hy & Ho & ->). rewrite bool_decide_false; [done|]. intros [= Heq]. exact (open_not_closed d x y Hd Hx Hy Hc Ho Heq).
Qed.

(** Orders updated without touching what a closed drawer counts. *)
Lemma dl_orders d w f : 
  (forall x, PosOrder.id (f x) = PosOrder.id x /\ PosOrder.shiftId (f x) = PosOrder.shiftId x /\ PosOrder.lineItemId (f x) = PosOrder.lineItemId x /\
     PosOrder.cashAmount (f x) = PosOrder.cashAmount x) ->
  (drawers_ok d -> forall s o, s ∈ shifts d -> isSome (Shift.closedAt s) = true -> o ∈ posOrders d -> w o = true -> PosOrder.shiftId o = Some (Shift.id s) ->
     isNone (PosOrder.voidedAt (f o)) = isNone (PosOrder.voidedAt o) \/ PosOrder.cashAmount o = 0%Qc) ->
  drawers_le d (upd_posOrders (update_where w f) d).
Proof.
  intros Hf Hsold Hd. pose proof Hd as [H1' H2' H3' H4' H5' H6']. split.
  - split; simpl; try done.
    + apply named_update; [intros x; apply Hf | done].
    + intros o (y & -> & Hy)%list_elem_of_fmap. destruct (w y); [|by apply H5']. destruct (Hf y) as (_ & -> & -> & _). by apply H5'.
    + intros o (y & -> & Hy)%list_elem_of_fmap. destruct (w y); [|by apply H6']. destruct (Hf y) as (_ & _ & _ & ->). by apply H6'.
  - intros x Hx Hc. split; [done|]. split; [done|]. unfold cash_sold. simpl. apply counted_update. intros o Ho Hw.
    unfold sold_in. destruct (Hf o) as (_ & -> & _ & ->). destruct (bool_decide_reflect (PosOrder.shiftId o = Some (Shift.id x))) as [Hs|Hs]; [|done].
    simpl. destruct (Hsold Hd x o Hx Hc Ho Hw Hs) as [->| ->]; [done|]. by do 2 destruct (isNone _).
Qed.

(** *** Bills *)
#[global] Instance drawers_writes : LedgerWrites drawers_le.
Proof.
  split; [apply _|try (intros; apply dl_same; simpl; done || lia)..| | | | |].
  - intros w f d. apply dl_orders; [done|]. intros _ s o _ _ _ _ _. by left.
  - intros l w u r d. apply dl_orders; [done|]. intros Hd s o _ _ Ho Hw Hs. boolp. destruct Hw as [Hl _].
    rewrite (dk_room _ Hd o Ho) in Hs; [done | by rewrite Hl].
  - intros f dto pu u d d' p (_ & _ & _ & _ & _ & Hm & _ & _ & _ & _ & Hcash & Hid & Hmf)%recordPaymentInTx_spec. eapply dl_pay; [exact Hid| |exact Hmf].
    rewrite Hm. intros Hc. destruct (Hcash Hc) as (x & Hx & Ho & Hs). exists x. unfold open_shift_of in Ho. boolp. destruct Ho as [_ Ho%isNone_eq]. done.
  - intros i why u d d' p' (p & Hp & Hi & _ & _ & _ & _ & _ & Hsh & Hmf & _)%voidPayment_spec.
    etrans; [|exact (dl_frame _ _ Hmf)]. intros Hd. pose proof Hd as [H1' H2' H3' H4' H5' H6']. split.
    + split; simpl; try done. by apply named_update.
    + intros x Hx Hc. split; [done|]. split; [|done]. unfold cash_paid. simpl. apply counted_update. intros y Hy Hyi. apply bool_decide_eq_true in Hyi.
      assert (y = p) as -> by (eapply named_inj; [apply H2'|done|done|congruence]). unfold own_cash. simpl.
      destruct (bool_decide_reflect (Payment.shiftId p = Some (Shift.id x))) as [Hs|Hs]; [|done]. exfalso.
      pose proof (Hsh _ x Hs (named_find _ _ _ _ H1' Hx)) as Hno. by rewrite Hno in Hc.
  - intros f a why u d d' p (_ & Hm & _ & _ & _ & _ & Hid & Hmf)%recordLoyaltyPayment_spec. eapply dl_pay; [exact Hid| |exact Hmf]. by rewrite Hm.
Qed.

(** *** Refunds *)
Lemma dl_refund_op {A} (m : M A) : refund_op m -> keeps drawers_le m.
Proof.
  assert (forall f b dto a, keeps drawers_le (requestInTx f b dto a)) as Hreq.
  { intros f b dto a d d' r (Hmf & _)%request_spec. etrans; [|exact (dl_frame _ _ Hmf)]. apply dl_same; simpl; done || lia. }
  assert (forall i from data d d' u, claim i from data d = Ok (d', u) -> drawers_le d d') as Hclaim.
  { intros i from data d d' u [-> _]%claim_spec. apply dl_same; simpl; done || lia. }
  destruct 1; try apply Hreq; intros d d' r Hm.
  - unfold request in Hm. m_inv. match goal with E : findFolioOrThrow _ _ = _ |- _ => apply findFolio_spec in E as (-> & _) end. by eapply Hreq.
  - apply approve_inv in Hm as (d1 & u & Hc & Hmf). etrans; [by eapply Hclaim | by apply dl_frame].
  - apply reject_inv in Hm as (d1 & u & Hc & Hmf). etrans; [by eapply Hclaim | by apply dl_frame].
  - apply payOut_inv in Hm as (r0 & b & p & s & _ & _ & _ & _ & Hcash & _ & Hid & _ & Hpm & Hps & _ & _ & Hmf & _).
    etrans; [|exact (dl_frame _ _ Hmf)]. transitivity (upd_payments (fun t => t ++ [p]) (upd_seq S d)); [|by apply dl_same].
    eapply dl_pay; [exact Hid| |reflexivity]. rewrite Hpm. intros Hc. destruct (Hcash Hc) as (x & -> & Hx & Ho). exists x.
    unfold open_shift_of in Ho. boolp. destruct Ho as [_ Ho%isNone_eq]. done.
Qed.

(** *** Shifts *)
Inductive shift_op : forall {A}, M A -> Prop :=
| op_openShift b f u : shift_op (openShift b f u)
| op_closeShift s dto a : shift_op (closeShift s dto a)
| op_addShiftIssue s dto u : shift_op (addShiftIssue s dto u)
| op_updateShiftIssue i dto u : shift_op (updateShiftIssue i dto u).

Lemma openShift_inv b f u d d' s : openShift b f u d = Ok (d', s) ->
  List.find (open_shift_of b u) (shifts d) = None /\ Shift.id s = gen_random_uuid (seq d) /\ Shift.branchId s = b /\ Shift.agentId s = u /\
  Shift.closedAt s = None /\ money_frame (upd_shifts (fun t => t ++ [s]) (upd_seq S d)) d'.
Proof.
  unfold openShift, assertBranch, create_shift. intros Hm. m_inv.
  match goal with E : new_id _ = _ |- _ => apply new_id_spec in E as [-> ->] end.
  match goal with E : Shifts.audit _ _ _ _ _ = _ |- _ => apply mf_auditLog in E as Hmf end.
  repeat match goal with E : isSome ?o = false |- _ => destruct o eqn:?; [done|]; clear E end. done.
Qed.

Lemma dl_shift_op {A} (m : M A) : shift_op m -> keeps drawers_le m.
Proof.
  destruct 1; intros d d' r Hm.
  - apply openShift_inv in Hm as (Hno & Hid & Hb & Ha & Hop & Hmf). etrans; [|exact (dl_frame _ _ Hmf)].
    intros [H1' H2' H3' H4' H5' H6']. split.
    + split; simpl; try done; try (eapply named_weaken; [|done]; lia); [by apply named_app|].
      assert (forall x, x ∈ shifts d -> Shift.closedAt x = None -> Shift.branchId x = b -> Shift.agentId x = u -> False) as Hnone.
      { intros x Hx Hxo Hxb Hxa. apply (find_None _ _ _ Hno) in Hx. unfold open_shift_of in Hx. by rewrite !bool_decide_true, Hxo in Hx. }
      intros x y [Hx| ->%list_elem_of_singleton]%elem_of_app [Hy| ->%list_elem_of_singleton]%elem_of_app Hxo Hyo Hbb Haa; [by apply H4'|..|done].
      * exfalso. apply (Hnone x); congruence.
      * exfalso. apply (Hnone y); congruence.
    + intros x Hx _. split; [simpl; apply elem_of_app; by left | done].
  - apply closeShift_inv in Hm as (x0 & branch & t & c & v & fc & Hx0 & Hi & Hopen & _ & _ & _ & _ & _ & Hmf). etrans; [|exact (dl_frame _ _ Hmf)].
    intros [H1' H2' H3' H4' H5' H6']. split.
    + split; simpl; try done; [by apply named_update|].
      intros x y (x' & -> & Hx')%list_elem_of_fmap (y' & -> & Hy')%list_elem_of_fmap. repeat case_bool_decide; simpl; [done..|]. by apply H4'.
    + intros x Hx Hc. split; [|done]. simpl. apply list_elem_of_fmap. exists x. rewrite bool_decide_false; [done|]. intros Hxi.
      assert (x = x0) as -> by (eapply named_inj; [apply H1'|done|done|congruence]). by rewrite Hopen in Hc.
  - unfold addShiftIssue in Hm. m_inv.
    match goal with E : create_issue _ _ _ = _ |- _ => apply mf_create_issue in E end.
    match goal with E : Shifts.audit _ _ _ _ _ = _ |- _ => apply mf_auditLog in E end. apply dl_frame. by etrans.
  - unfold updateShiftIssue, now in Hm. m_inv. match goal with E : Shifts.audit _ _ _ _ _ = _ |- _ => apply mf_auditLog in E as Hmf end.
    etrans; [|exact (dl_frame _ _ Hmf)]. by apply dl_same.
Qed.

(** *** Outlets *)
Lemma dl_settle o branch dto c actor : keeps drawers_le (settle_sale o branch dto c actor).
Proof.
  unfold settle_sale, charge_to_room, postOutletCharge, now. keeps_tac; [apply (lw_ensurePrimaryFolio drawers_le) | apply (lw_writeCharge drawers_le)].
Qed.
(** A sale settled into a drawer goes into an open one; one on a bill into none. *)
Lemma settle_drawer o branch dto c actor d d1 n t room sh : settle_sale o branch dto c actor d = Ok (d1, (n, t, room, sh)) ->
  (isSome room = true -> sh = None) /\ forall s, sh = Some s -> exists x, x ∈ shifts d1 /\ Shift.closedAt x = None /\ s = Shift.id x.
Proof.
  intros Hs. destruct (decide (po_settlement dto = settle_room)) as [Hr|Hr].
  - unfold settle_sale in Hs. rewrite Hr in Hs. m_inv. match goal with x : (Qc * Qc * _)%type |- _ => destruct x as [[n' t'] room'] end. m_inv. done.
  - destruct (settle_other _ _ _ _ _ _ _ _ _ _ _ Hr Hs) as (-> & _ & _ & -> & Hcard & Hcash). split; [done|]. intros s ->.
    destruct (decide (po_settlement dto = settle_card)) as [Hc|Hc]; [by specialize (Hcard Hc)|].
    destruct (Hcash Hc) as (x & Hx & _ & Ho & [= ->]). eauto.
Qed.
Lemma dl_createOrder dto actor d d' order : createOrder dto actor d = Ok (d', order) -> (0 <= PosOrder.cashAmount order)%Qc -> drawers_le d d'.
Proof.
  intros (o & branch & lines & it & q & c & n & t & room & sh & d1 & cashA & cardA & _ & _ & _ & _ & _ & Hs & _ & _ & _ & _ & _ & _ & Hid & _ &
    _ & _ & _ & _ & Hli & Hsh & Hmf)%createOrder_inv Hcash.
  transitivity d1; [by eapply dl_settle|]. etrans; [|exact (dl_frame _ _ Hmf)]. apply settle_drawer in Hs as [Hroom Hopen].
  intros Hd. pose proof Hd as [H1' H2' H3' H4' H5' H6']. split.
  - split; simpl; try done; try (eapply named_weaken; [|done]; lia); [by apply named_app|..].
    + intros x [Hx| ->%list_elem_of_singleton]%elem_of_app; [by apply H5'|]. rewrite Hli, Hsh. by destruct room.
    + by intros x [Hx| ->%list_elem_of_singleton]%elem_of_app; [apply H6'|].
  - intros x Hx Hc. split; [done|]. split; [done|]. unfold cash_sold. simpl. apply counted_app. unfold sold_in. rewrite Hsh.
    destruct sh as [s|]; [|by rewrite bool_decide_false]. destruct (Hopen s eq_refl) as (y & Hy & Ho & ->).
    rewrite bool_decide_false; [done|]. intros [= Heq]. exact (open_not_closed d1 x y Hd Hx Hy Hc Ho Heq).
Qed.

Lemma dl_voidOrder i why actor : keeps drawers_le (voidOrder i why actor).
Proof.
  intros d d' r Hm. unfold voidOrder, now in Hm. m_inv.
  match goal with E : Some ?x = List.find _ (posOrders ?e), E2 : match PosOrder.lineItemId ?x with _ => _ end _ = _ |- _ =>
    rename x into order; symmetry in E; apply find_Some in E as [Ho Hi]; apply bool_decide_eq_true in Hi end.
  match goal with E : match PosOrder.shiftId order with _ => _ end ?e = Ok (?e', _) |- _ =>
    assert (e' = e /\ forall s x, PosOrder.shiftId order = Some s -> (0 < PosOrder.cashAmount order)%Qc ->
      List.find (fun y => bool_decide (Shift.id y = s)) (shifts e) = Some x -> Shift.closedAt x = None) as [-> Hguard] end.
  { destruct (PosOrder.shiftId order) as [s|]; [|by m_inv]. destruct (dgt_spec (PosOrder.cashAmount order) 0%Qc) as [Hp|Hp]; m_inv; [|by split; [|intros ?? [= <-]]].
    split; [done|]. intros ? x [= <-] _ Hx. rewrite Hx in *. by destruct (Shift.closedAt x). }
  match goal with E : Pos.audit _ _ _ _ ?e = _, E2 : match PosOrder.lineItemId order with _ => _ end ?dv = _ |- _ =>
    transitivity dv; [|transitivity e; [|exact (dl_frame _ _ (mf_auditLog _ _ _ _ _ _ _ _ E))]] end.
  - apply dl_orders; [done|]. intros Hd s o Hs Hc Hoin Hw Hso. boolp. right. destruct Hw as [Hoi _].
    assert (o = order) as -> by (eapply named_inj; [apply Hd|done|done|congruence]).
    destruct (Qcle_lt_or_eq _ _ (dk_cash _ Hd order Ho)) as [Hp|Hz]; [|done]. exfalso.
    pose proof (Hguard _ s Hso Hp (named_find _ _ _ _ (dk_shifts _ Hd) Hs)) as Hno. by rewrite Hno in Hc.
  - match goal with E : match PosOrder.lineItemId order with _ => _ end _ = _ |- _ => rename E into Hl end.
    destruct (PosOrder.lineItemId order) as [l|]; m_inv; [|reflexivity].
    match goal with E : (if isSome ?o then _ else _) _ = _ |- _ => destruct (isSome o) end; m_inv; [reflexivity|].
    match goal with E : correctLineItemInTx _ _ _ _ = _ |- _ => exact (folio_op_keeps drawers_le _ (op_correctLineItem _ _ _) _ _ _ E) end.
Qed.

(** A committed step of any service that moves cash. A sale takes no negative
    cash: its price is positive and the tax on it is never negative. *)
Inductive till_step : Db -> Db -> Prop :=
| till_billing d d' : billing_step d d' -> till_step d d'
| till_shift {A} (m : M A) d d' a : shift_op m -> m d = Ok (d', a) -> till_step d d'
| till_sale dto actor d d' order : createOrder dto actor d = Ok (d', order) -> (0 <= PosOrder.cashAmount order)%Qc -> till_step d d'
| till_void i why actor d d' order : voidOrder i why actor d = Ok (d', order) -> till_step d d'.
Lemma dl_step d d' : till_step d d' -> drawers_le d d'.
Proof.
  destruct 1 as [d d' [(A & m & a & Hop & Hm)|(A & m & a & Hop & Hm)]|A m d d' a Hop Hm|dto actor d d' order Hm Hc|i why actor d d' order Hm].
  - exact (folio_op_keeps drawers_le _ Hop _ _ _ Hm).
  - exact (dl_refund_op _ Hop _ _ _ Hm).
  - exact (dl_shift_op _ Hop _ _ _ Hm).
  - by eapply dl_createOrder.
  - by eapply dl_voidOrder.
Qed.
End Drawers.

(** a closed drawer stands: whatever billing, refund, shift and outlet
    operations commit after it was closed and counted, its row keeps every
    figure and the cash recorded against it, payments and sales both, sums to
    what it did; and an agent never has two open drawers at a branch. *)
Theorem closed_drawer_stands `{DecimalLib} `{TaxDb} `{Platform} `{Uuid} (d d' : Db) :
  drawers_ok d -> rtc till_step d d' ->
  (forall x, x ∈ shifts d -> isSome (Shift.closedAt x) = true -> stands d d' x) /\
  (forall x y, x ∈ shifts d' -> y ∈ shifts d' -> Shift.closedAt x = None -> Shift.closedAt y = None ->
     Shift.branchId x = Shift.branchId y -> Shift.agentId x = Shift.agentId y -> x = y).
Proof.
  intros Hd Hs. assert (drawers_le d d') as Hle.
  { clear Hd. induction Hs as [d|d d1 d' Hd1 _ IH]; [reflexivity|]. etrans; [by apply dl_step | exact IH]. }
  destruct (Hle Hd) as [Hd' Hst]. split; [exact Hst|]. intros x y Hx Hy Hxo Hyo Hb Ha.
  eapply named_inj; [apply (dk_shifts _ Hd')|done|done|]. by apply (dk_one _ Hd').
Qed.


Module TillWitness.
Import Hotel RefundsWitness ShiftsWitness PosWitness.
(** A drawer opened and closed, then another opened and a stew sold into it. *)
Definition day0 : Db := upd_shifts (fun _ => []) hotel.
Definition opened : Db := after (openShift "b1" (cents 10000) "u1") day0.
Definition first_id : string := gen_random_uuid (seq day0).
Definition float_dto : CloseShiftDto := {| cl_counted := cents 10000; cl_explanation := None; cl_issues := [] |}.
Definition closed : Db := after (closeShift first_id float_dto manager) opened.
Definition reopened : Db := after (openShift "b1" (cents 5000) "u1") closed.
Definition sold : Db := after (createOrder (stew_dto settle_cash None) manager) reopened.
Lemma opened_ok : is_ok (openShift "b1" (cents 10000) "u1" day0) = true.
Proof. vm_compute. reflexivity. Qed.
Lemma closed_ok : is_ok (closeShift first_id float_dto manager opened) = true.
Proof. vm_compute. reflexivity. Qed.
Lemma reopened_ok : is_ok (openShift "b1" (cents 5000) "u1" closed) = true.
Proof. vm_compute. reflexivity. Qed.
Lemma sold_ok : match createOrder (stew_dto settle_cash None) manager reopened with Ok (_, o) => Qle_bool 0 (this (PosOrder.cashAmount o)) | Err _ => false end = true.
Proof. vm_compute. reflexivity. Qed.

Lemma drawers_none d : shifts d = [] -> payments d = [] -> posOrders d = [] -> drawers_ok d.
Proof.
  intros Hs Hp Ho. split; rewrite ?Hs, ?Hp, ?Ho; try (split; [constructor|]); intros; by repeat match goal with Hx : _ ∈ [] |- _ => apply elem_of_nil in Hx end.
Qed.
Lemma closed_drawers : drawers_ok closed.
Proof.
  destruct (after_ok _ _ opened_ok) as [x Hx], (after_ok _ _ closed_ok) as [y Hy].
  assert (drawers_ok day0) as H0 by (apply drawers_none; vm_compute; reflexivity).
  apply (dl_shift_op _ (op_closeShift _ _ _) _ _ _ Hy), (dl_shift_op _ (op_openShift _ _ _) _ _ _ Hx H0).
Qed.
Lemma closed_drawer_stands_witness : exists x, x ∈ shifts closed /\ isSome (Shift.closedAt x) = true /\ stands closed sold x.
Proof.
  destruct (after_ok _ _ reopened_ok) as [y Hy]. pose proof sold_ok as Hs.
  destruct (createOrder (stew_dto settle_cash None) manager reopened) as [[d' o]|e] eqn:Ho; [|discriminate Hs].
  assert (sold = d') as Hd by (unfold sold, after; rewrite Ho; reflexivity). rewrite Hd.
  assert (rtc till_step closed d') as Hsteps.
  { apply (rtc_l _ _ reopened); [|apply rtc_once].
    - exact (till_shift _ _ _ _ (op_openShift "b1" (cents 5000) "u1") Hy).
    - refine (till_sale _ _ _ _ _ Ho _). exact (proj1 (Qle_bool_iff _ _) Hs). }
  assert (exists x, shifts closed = [x] /\ isSome (Shift.closedAt x) = true) as (x & Hx & Hc) by (eexists; split; vm_compute; reflexivity).
  assert (x ∈ shifts closed) as Hin by (rewrite Hx; left). exists x. split; [exact Hin|]. split; [exact Hc|].
  exact (proj1 (closed_drawer_stands closed d' closed_drawers Hsteps) x Hin Hc).
Defined.
End TillWitness.
