(* ===== verification/Rooms.v ===== *)
(** Rooms (src/src/modules/property/rooms.service.ts): adding, changing and
    removing them, their three status axes, and the nights they are blocked. *)
From stdpp Require Import pretty.
From S2P Require Import Prelude Decimal Json Dates StayPolicies Taxes Authority Transactions Db SampleHotel.
From Stdlib Require Import QArith Qcanon.
Import BranchRoles StayFees.
Local Open Scope Z_scope.

Definition status_transition : error := Throw ConflictException INVALID_STATUS_TRANSITION.
Definition numbers_taken : error := Throw ConflictException ROOM_NUMBERS_TAKEN.

(** The housekeeping ladder: dirty, cleaning, clean, inspected; any may drop back to dirty. *)
Definition CLEANLINESS_TRANSITIONS (from : CleanlinessStatus) : list CleanlinessStatus :=
  match from with
  | dirty => [cleaning]
  | cleaning => [clean; dirty]
  | clean => [inspected; dirty]
  | inspected => [dirty]
  end.
Definition ladder_allows (from to : CleanlinessStatus) : bool :=
  bool_decide (from = to) || bool_decide (to ∈ CLEANLINESS_TRANSITIONS from).

(** [toBranchDate(todayInTimezone(branch.timezone))] *)
Definition branch_today `{Platform} (branch : Branch.t) : M Z :=
  let! at_ := now in lift (or_throw (toBranchDate (todayInTimezone (Branch.timezone branch) at_)) internal).
(** [toBranchDate(s)]: a malformed date is an invalid [Date], which no column takes. *)
Definition a_date (s : string) : M Z := lift (or_throw (toBranchDate s) internal).

Record RoomRange := { range_from : Z; range_to : Z; range_prefix : option string }.
Record BulkCreateRoomsDto := { bulk_roomTypeId : string; bulk_floorId : option string; bulk_range : option RoomRange;
                               bulk_numbers : option (list string); bulk_view : option string }.
Record UpdateRoomDto := { ur_number : option string; ur_roomTypeId : option string; ur_floorId : option string; ur_view : option string; ur_notes : option string }.
(** [None] is [undefined], [Some None] is [null]. *)
Record ChangeRoomStatusDto := { cs_occupancy : option OccupancyStatus; cs_cleanliness : option CleanlinessStatus;
                                cs_held : option (option HeldStatus); cs_heldUntil : option (option string) }.

(** [for (let n = from; n <= to; n++)] *)
Fixpoint range_numbers (fuel : nat) (n : Z) (prefix : string) : list string :=
  match fuel with O => [] | S fuel => (prefix +:+ pretty n) :: range_numbers fuel (n + 1) prefix end.
Definition expandNumbers (dto : BulkCreateRoomsDto) : res (list string) :=
  let? ranged := match bulk_range dto with
                 | Some r =>
                     throw invalid when (range_to r <? range_from r) in
                     throw invalid when (500 <? range_to r - range_from r + 1) in
                     Ok (range_numbers (Z.to_nat (range_to r - range_from r + 1)) (range_from r) (default "" (range_prefix r)))
                 | None => Ok []
                 end in
  let listed := match bulk_numbers dto with Some l => List.filter nonempty (js_trim <$> l) | None => [] end in
  let unique := unique_from [] (ranged ++ listed) in
  throw invalid when (bool_decide (length unique = 0%nat)) in
  Ok unique.

Section Rooms.
Context `{Platform} `{Uuid}.

Definition audit (b : option string) (u action entityType entityId : string) : M unit := auditLog b (Some u) action entityType entityId.
Definition isSupervisorAt (actor : JwtPayload) (b : string) : bool :=
  existsb (fun r => bool_decide (role r ∈ SUPERVISOR_ROLES) && match branchId r with None => true | Some b' => bool_decide (b' = b) end) (roles actor).

Definition live_room (i : string) (x : Room.t) : bool := bool_decide (Room.id x = i) && isNone (Room.deletedAt x).
Definition room_where (i : string) (x : Room.t) : bool := bool_decide (Room.id x = i).
Definition findRoom (i : string) : M Room.t := orThrow (findFirst rooms (live_room i)) not_found.
Definition type_at (t b : string) (x : RoomType.t) : bool :=
  bool_decide (RoomType.id x = t) && bool_decide (RoomType.branchId x = b) && isNone (RoomType.deletedAt x).
Definition floor_at (d : Db) (f b : string) (x : Floor.t) : bool :=
  bool_decide (Floor.id x = f) && existsb (fun g => bool_decide (Building.id g = Floor.buildingId x) && bool_decide (Building.branchId g = b)) (buildings d).

Definition findOrCreateDefaultBuilding (b : string) : M Building.t :=
  let! existing := findFirst buildings (fun x => bool_decide (Building.branchId x = b) && isNone (Building.name x)) in
  match existing with
  | Some x => ret x
  | None =>
      let! i := new_id in
      let row := {| Building.id := i; Building.branchId := b; Building.name := None |} in
      do! modify (upd_buildings (fun l => l ++ [row])) in
      ret row
  end.
Definition findOrCreateDefaultFloor (b : string) : M Floor.t :=
  let! g := findOrCreateDefaultBuilding b in
  let! existing := findFirst floors (fun x => bool_decide (Floor.buildingId x = Building.id g) && isNone (Floor.label x)) in
  match existing with
  | Some x => ret x
  | None =>
      let! i := new_id in
      let row := {| Floor.id := i; Floor.buildingId := Building.id g; Floor.label := None |} in
      do! modify (upd_floors (fun l => l ++ [row])) in
      ret row
  end.

(** A room just made: vacant and clean. *)
Definition new_room (i b t f n : string) (v : option string) : Room.t := {|
  Room.id := i; Room.branchId := b; Room.roomTypeId := t; Room.floorId := f; Room.number := n; Room.occupancyStatus := vacant;
  Room.cleanlinessStatus := clean; Room.heldStatus := None; Room.heldUntil := None; Room.view := v; Room.notes := None;
  Room.statusChangedAt := None; Room.statusChangedBy := None; Room.deletedAt := None |}.

Definition bulkCreateRooms (b : string) (dto : BulkCreateRoomsDto) (actorId : string) : M (list Room.t) :=
  let! numbers := lift (expandNumbers dto) in
  let! _ := assertBranch b in
  let! _ := orThrow (findFirst roomTypes (type_at (bulk_roomTypeId dto) b)) not_found in
  let! floorId := match bulk_floorId dto with
                  | Some f =>
                      if nonempty f then
                        let! d := gets (fun d => d) in
                        let! x := orThrow (findFirst floors (floor_at d f b)) not_found in
                        ret f
                      else let! x := findOrCreateDefaultFloor b in ret (Floor.id x)
                  | None => let! x := findOrCreateDefaultFloor b in ret (Floor.id x)
                  end in
  let! clashes := findMany rooms (fun x => bool_decide (Room.branchId x = b) && bool_decide (Room.number x ∈ numbers)) in
  throw! numbers_taken when existsb (fun c => isNone (Room.deletedAt c)) clashes in
  let removedRooms := List.filter (fun c => isSome (Room.deletedAt c)) clashes in
  let restored := Room.number <$> removedRooms in
  do! for_each removedRooms tt (fun _ removed =>
    let! at_ := now in
    modify (upd_rooms (update_where (room_where (Room.id removed))
      (Room.with_restored None (bulk_roomTypeId dto) floorId (bulk_view dto) vacant dirty None (Some at_) (Some actorId))))) in
  let fresh := List.filter (fun n => negb (includes n restored)) numbers in
  do! for_each fresh tt (fun _ n =>
    let! i := new_id in
    modify (upd_rooms (fun l => l ++ [new_room i b (bulk_roomTypeId dto) floorId n (bulk_view dto)]))) in
  do! audit (Some b) actorId "room.bulk_created" "room" (bulk_roomTypeId dto) in
  findMany rooms (fun x => bool_decide (Room.branchId x = b) && bool_decide (Room.number x ∈ numbers)).

(** The stays that need a room of a type from [today] on, and the nights each needs it. *)
Definition holding (s : ReservationStatus) : bool := bool_decide (s = confirmed) || bool_decide (s = checked_in).
Definition needs_room (b t : string) (today : Z) (r : Reservation.t) : bool :=
  bool_decide (Reservation.branchId r = b) && bool_decide (Reservation.roomTypeId r = t) && isNone (Reservation.deletedAt r) &&
  ((holding (Reservation.status r) && (today <? Reservation.checkOutDate r)) || bool_decide (Reservation.status r = checked_in)).
Definition needed_nights (today : Z) (r : Reservation.t) : list Z :=
  let end_ := if bool_decide (Reservation.status r = checked_in) && (Reservation.checkOutDate r <=? today) then today + DAY_MS else Reservation.checkOutDate r in
  nights_between (Z.max (Reservation.checkInDate r) today) end_.
(** [perNight.set(key, (perNight.get(key) ?? 0) + 1)] *)
Fixpoint bump (k : string) (m : list (string * Z)) : list (string * Z) :=
  match m with
  | [] => [(k, 1)]
  | (k', n) :: m => if bool_decide (k = k') then (k', n + 1) :: m else (k', n) :: bump k m
  end.
Definition per_night (today : Z) (stays : list Reservation.t) : list (string * Z) :=
  foldl (fun m night => bump (iso_date night) m) [] (stays ≫= needed_nights today).
Definition assertTypeCanSpareARoom (b t : string) : M unit :=
  let! branch := assertBranch b in
  let! today := branch_today branch in
  let! pool := findMany rooms (fun x => bool_decide (Room.branchId x = b) && bool_decide (Room.roomTypeId x = t) && isNone (Room.deletedAt x)) in
  let! stays := findMany reservations (needs_room b t today) in
  match sort_by (fun e => - snd e) (per_night today stays) with
  | (_, booked) :: _ => lift (throw_if (Z.of_nat (length pool) - 1 <? booked) conflict)
  | [] => ret tt
  end.

(** A new value for a text field: [Some v] when it changes to [v]. *)
Definition text_change (asked : option string) (current : option string) : option (option string) :=
  s ← asked;
  let v := if nonempty (js_trim s) then Some (js_trim s) else None in
  if bool_decide (v = current) then None else Some v.
Definition updateRoom (roomId : string) (dto : UpdateRoomDto) (actorId : string) : M Room.t :=
  let! room := findRoom roomId in
  let asked := js_trim <$> ur_number dto in
  let! number := match asked with
                 | Some n =>
                     if nonempty n && negb (bool_decide (n = Room.number room)) then
                       let! taken := findFirst rooms (fun x => bool_decide (Room.branchId x = Room.branchId room) && bool_decide (Room.number x = n) &&
                                                               negb (bool_decide (Room.id x = roomId))) in
                       throw! numbers_taken when isSome taken in
                       ret (Some n)
                     else ret None
                 | None => ret None
                 end in
  let! type_ := match ur_roomTypeId dto with
                | Some t =>
                    if nonempty t && negb (bool_decide (t = Room.roomTypeId room)) then
                      let! rt := orThrow (findFirst roomTypes (type_at t (Room.branchId room))) not_found in
                      throw! conflict when bool_decide (Room.occupancyStatus room = occupied) in
                      do! assertTypeCanSpareARoom (Room.branchId room) (Room.roomTypeId room) in
                      ret (Some (RoomType.id rt))
                    else ret None
                | None => ret None
                end in
  let! floor := match ur_floorId dto with
                | Some f =>
                    if nonempty f && negb (bool_decide (f = Room.floorId room)) then
                      let! d := gets (fun d => d) in
                      let! x := orThrow (findFirst floors (floor_at d f (Room.branchId room))) not_found in
                      ret (Some (Floor.id x))
                    else ret None
                | None => ret None
                end in
  let view := text_change (ur_view dto) (Room.view room) in
  let notes := text_change (ur_notes dto) (Room.notes room) in
  if isNone number && isNone type_ && isNone floor && isNone view && isNone notes then ret room
  else
    let data x := Room.with_details (default (Room.number x) number) (default (Room.roomTypeId x) type_) (default (Room.floorId x) floor)
                    (default (Room.view x) view) (default (Room.notes x) notes) x in
    do! modify (upd_rooms (update_where (room_where roomId) data)) in
    do! audit (Some (Room.branchId room)) actorId "room.updated" "room" roomId in
    ret (data room).

Definition removeRoom (roomId actorId : string) : M Room.t :=
  let! room := findRoom roomId in
  throw! conflict when bool_decide (Room.occupancyStatus room = occupied) in
  do! assertTypeCanSpareARoom (Room.branchId room) (Room.roomTypeId room) in
  let! at_ := now in
  do! modify (upd_rooms (update_where (room_where roomId) (Room.with_deletedAt (Some at_)))) in
  do! audit (Some (Room.branchId room)) actorId "room.removed" "room" roomId in
  ret (Room.with_deletedAt (Some at_) room).
End Rooms.

(** ** Status: occupancy, cleanliness, held *)
Section Status.
Context `{Platform} `{Uuid}.

(** The release date to write: [None] leaves it, [Some None] clears it. *)
Definition held_until (dto : ChangeRoomStatusDto) (room : Room.t) : M (option (option Z)) :=
  let heldAfter := match cs_held dto with Some h => h | None => Room.heldStatus room end in
  let cleared := if isSome (Room.heldUntil room) then Some None else None in
  match cs_heldUntil dto with
  | Some asked =>
      match asked with
      | Some s =>
          if nonempty s then
            throw! invalid when isNone heldAfter in
            let! branch := assertBranch (Room.branchId room) in
            let! at_ := now in
            throw! invalid when negb (String.ltb (todayInTimezone (Branch.timezone branch) at_) s) in
            let! day := a_date s in
            ret (Some (Some day))
          else ret cleared
      | None => ret cleared
      end
  | None => ret (if isNone heldAfter then cleared else None)
  end.

Definition changeStatus (roomId : string) (dto : ChangeRoomStatusDto) (actor : JwtPayload) : M Room.t :=
  throw! invalid when (isNone (cs_occupancy dto) && isNone (cs_cleanliness dto) && isNone (cs_held dto) && isNone (cs_heldUntil dto)) in
  let! room := findRoom roomId in
  let supervisor := isSupervisorAt actor (Room.branchId room) in
  throw! forbidden when (isSome (cs_occupancy dto) && negb supervisor) in
  do! match cs_cleanliness dto with
      | Some to =>
          throw! status_transition when negb (ladder_allows (Room.cleanlinessStatus room) to) in
          throw! forbidden when (bool_decide (to = inspected) && negb supervisor) in
          ret tt
      | None => ret tt
      end in
  throw! forbidden when ((isSome (cs_held dto) || isSome (cs_heldUntil dto)) && negb supervisor) in
  let! heldUntil := held_until dto room in
  let! at_ := now in
  let data x := Room.with_status (default (Room.occupancyStatus x) (cs_occupancy dto)) (default (Room.cleanlinessStatus x) (cs_cleanliness dto))
                  (default (Room.heldStatus x) (cs_held dto)) (default (Room.heldUntil x) heldUntil) (Some at_) (Some (sub actor)) x in
  do! modify (upd_rooms (update_where (room_where roomId) data)) in
  do! audit (Some (Room.branchId room)) (sub actor) "room.status_changed" "room" roomId in
  ret (data room).

(** One tenant's rooms due back. *)
Definition releaseDueHolds : M Z :=
  let! due := findMany rooms (fun x => isNone (Room.deletedAt x) && isSome (Room.heldStatus x) && isSome (Room.heldUntil x)) in
  for_each due 0 (fun count room =>
    let! branch := orThrow (findFirst branches (fun b => bool_decide (Branch.id b = Room.branchId room))) internal in
    let! today := branch_today branch in
    if match Room.heldUntil room with Some u => today <? u | None => false end then ret count
    else
      let! at_ := now in
      let claimed x := bool_decide (Room.id x = Room.id room) && bool_decide (Room.heldStatus x = Room.heldStatus room) &&
                       bool_decide (Room.heldUntil x = Room.heldUntil room) in
      let! hits := findMany rooms claimed in
      do! modify (upd_rooms (update_where claimed (Room.with_held None None (Some at_) None))) in
      if bool_decide (length hits = 0%nat) then ret count
      else do! auditLog (Some (Room.branchId room)) None "room.hold_released" "room" (Room.id room) in ret (count + 1)).

Definition applyReservationOccupancy (roomId : string) (occupancy : OccupancyStatus) (cleanliness : option CleanlinessStatus) (actorId : string) : M Room.t :=
  let! room := findRoom roomId in
  let! at_ := now in
  let data x := Room.with_status occupancy (default (Room.cleanlinessStatus x) cleanliness) (Room.heldStatus x) (Room.heldUntil x) (Some at_) (Some actorId) x in
  do! modify (upd_rooms (update_where (room_where roomId) data)) in
  do! audit (Some (Room.branchId room)) actorId "room.status_changed" "room" roomId in
  ret (data room).

(** ** Blocks *)
(** The night a stay gives a room up. *)
Definition leaves (today : Z) (r : Reservation.t) : Z :=
  if bool_decide (Reservation.status r = checked_in) && (Reservation.checkOutDate r <? today) then today + DAY_MS else Reservation.checkOutDate r.
Definition blockRoom (roomId fromDate toDate actorId : string) : M RoomBlock.t :=
  let! from := a_date fromDate in
  let! to := a_date toDate in
  throw! invalid when (to <? from) in
  let! room := findRoom roomId in
  let! overlapping := findFirst roomBlocks (fun x => bool_decide (RoomBlock.roomId x = roomId) && (RoomBlock.fromDate x <=? to) && (from <=? RoomBlock.toDate x)) in
  throw! conflict when isSome overlapping in
  let! branch := assertBranch (Room.branchId room) in
  let! today := branch_today branch in
  let! stays := findMany reservations (fun r => bool_decide (Reservation.roomId r = Some roomId) && isNone (Reservation.deletedAt r) &&
                                                holding (Reservation.status r) && (Reservation.checkInDate r <=? to)) in
  throw! conflict when existsb (fun r => negb (leaves today r <=? from)) stays in
  let! i := new_id in
  let row := {| RoomBlock.id := i; RoomBlock.roomId := roomId; RoomBlock.fromDate := from; RoomBlock.toDate := to |} in
  do! modify (upd_roomBlocks (fun l => l ++ [row])) in
  do! audit (Some (Room.branchId room)) actorId "room.blocked" "room_block" i in
  ret row.

Definition unblockRoom (blockId actorId : string) : M RoomBlock.t :=
  let! block := orThrow (findFirst roomBlocks (fun x => bool_decide (RoomBlock.id x = blockId))) not_found in
  let! room := orThrow (findFirst rooms (room_where (RoomBlock.roomId block))) internal in
  let! branch := assertBranch (Room.branchId room) in
  let! today := branch_today branch in
  throw! status_transition when (RoomBlock.toDate block <? today) in
  if today <=? RoomBlock.fromDate block then
    do! modify (upd_roomBlocks (List.filter (fun x => negb (bool_decide (RoomBlock.id x = blockId))))) in
    do! audit (Some (Room.branchId room)) actorId "room.block_cancelled" "room_block" blockId in
    ret block
  else
    let lastNight := today - DAY_MS in
    (** the table's CHECK: a block ends no earlier than it starts *)
    throw! internal when (lastNight <? RoomBlock.fromDate block) in
    do! modify (upd_roomBlocks (update_where (fun x => bool_decide (RoomBlock.id x = blockId)) (RoomBlock.with_toDate lastNight))) in
    do! audit (Some (Room.branchId room)) actorId "room.unblocked" "room_block" blockId in
    ret (RoomBlock.with_toDate lastNight block).
End Status.

(** ** What the operations on rooms promise *)
(** Date columns hold midnights. *)
Record dates_wf (d : Db) : Prop := {
  dw_in r : r ∈ reservations d -> midnight (Reservation.checkInDate r);
  dw_out r : r ∈ reservations d -> midnight (Reservation.checkOutDate r);
}.
Lemma toBranchDate_midnight s t : toBranchDate s = Some t -> midnight t.
Proof. unfold toBranchDate, midnight. destruct (parse_iso_day s); [|done]. intros [= <-]. by apply Z_mod_mult. Qed.
Lemma branch_today_spec `{Platform} b d d' t : branch_today b d = Ok (d', t) ->
  d' = d /\ midnight t /\ toBranchDate (todayInTimezone (Branch.timezone b) (clock d)) = Some t.
Proof. unfold branch_today, now. intros Hm. m_inv. split_and!; [done|by eapply toBranchDate_midnight|done]. Qed.
Lemma elem_of_nights_midnight a b n : midnight a -> midnight n -> n ∈ nights_between a b <-> a <= n < b.
Proof.
  intros Ha Hn. rewrite StayFeesProps.elem_of_nights_between. unfold midnight in *. split.
  - clear. unfold DAY_MS. intros (i & Hi & -> & Hlt). lia.
  - intros [Hle Hlt]. exists ((n - a) / DAY_MS).
    pose proof (Z_div_mod_eq_full (n - a) DAY_MS) as Hq. rewrite (Zminus_mod n a), Ha, Hn in Hq. change ((0 - 0) mod DAY_MS) with 0 in Hq.
    assert (0 <= (n - a) / DAY_MS) as Hpos by (apply Z.div_pos; [lia | done]). revert Hq Hpos. generalize ((n - a) / DAY_MS). intros q Hq Hpos. lia.
Qed.
Lemma midnight_day t : midnight t -> midnight (t + DAY_MS).
Proof. unfold midnight. intros Ht. by rewrite Z.add_mod, Ht by done. Qed.

(** *** Counting nights *)
Fixpoint val (k : string) (m : list (string * Z)) : Z :=
  match m with [] => 0 | (k', n) :: m => if bool_decide (k = k') then n else val k m end.
Lemma val_bump k k' m : val k (bump k' m) = val k m + (if bool_decide (k = k') then 1 else 0).
Proof.
  induction m as [|[k0 n] m IH]; simpl.
  - by destruct (bool_decide (k = k')).
  - destruct (bool_decide_reflect (k' = k0)) as [->|Hne]; simpl.
    + destruct (bool_decide_reflect (k = k0)); lia.
    + destruct (bool_decide_reflect (k = k0)) as [->|]; [rewrite bool_decide_false by done; lia | exact IH].
Qed.
Lemma val_elem k m : val k m <> 0 -> (k, val k m) ∈ m.
Proof.
  induction m as [|[k0 n] m IH]; simpl; [done|]. destruct (bool_decide_reflect (k = k0)) as [->|]; [left|]. intros Hv. right. by apply IH.
Qed.
Lemma val_count k ks m : val k (foldl (fun m x => bump (iso_date x) m) m ks) =
  val k m + Z.of_nat (length (List.filter (fun x => bool_decide (k = iso_date x)) ks)).
Proof.
  revert m. induction ks as [|x ks IH]; intros m; simpl; [lia|]. rewrite IH, val_bump. destruct (bool_decide (k = iso_date x)); simpl; lia.
Qed.
Lemma filter_bind_ge {A} (p : A -> bool) (f : A -> list Z) (q : Z -> bool) l : (forall x, x ∈ l -> p x = true -> exists y, y ∈ f x /\ q y = true) ->
  (length (List.filter p l) <= length (List.filter q (l ≫= f)))%nat.
Proof.
  induction l as [|x l IH]; intros Hp; [done|]. rewrite bind_cons, List.filter_app, length_app. simpl.
  assert (length (List.filter p l) <= length (List.filter q (l ≫= f)))%nat by (apply IH; intros; apply Hp; [by right | done]).
  destruct (p x) eqn:E; simpl; [|lia]. destruct (Hp x ltac:(left) E) as (y & Hy & Hq).
  assert (y ∈ List.filter q (f x)) as Hin by by apply elem_of_filterb. destruct (List.filter q (f x)); [by apply elem_of_nil in Hin | simpl; lia].
Qed.
Lemma sorted_max (m : list (string * Z)) e l x : sort_by (fun e => - snd e) m = e :: l -> x ∈ m -> snd x <= snd e.
Proof.
  intros Hs Hx. pose proof (sort_by_sorted (fun e => - snd e) m) as Hsort. rewrite Hs in Hsort.
  rewrite <- (sort_by_perm (fun e => - snd e) m), Hs in Hx. apply elem_of_cons in Hx as [->|Hx]; [lia|].
  inversion Hsort as [|? ? _ Hall]; subst. rewrite Forall_forall in Hall. specialize (Hall _ Hx). simpl in Hall. lia.
Qed.

(** The stays of a type that need a room on a night, and the rooms there are. *)
Definition needs_on (b t : string) (today night : Z) (r : Reservation.t) : bool :=
  needs_room b t today r && (Reservation.checkInDate r <=? night) && (today <=? night) &&
  (night <? (if bool_decide (Reservation.status r = checked_in) && (Reservation.checkOutDate r <=? today) then today + DAY_MS else Reservation.checkOutDate r)).
Definition rooms_of (b t : string) (d : Db) : list Room.t :=
  List.filter (fun x => bool_decide (Room.branchId x = b) && bool_decide (Room.roomTypeId x = t) && isNone (Room.deletedAt x)) (rooms d).

Section Props.
Context `{Platform} `{Uuid}.

Lemma can_spare b t d d' u : dates_wf d -> assertTypeCanSpareARoom b t d = Ok (d', u) ->
  d' = d /\ exists br today, br ∈ branches d /\ Branch.id br = b /\ toBranchDate (todayInTimezone (Branch.timezone br) (clock d)) = Some today /\
    forall night, midnight night -> (length (List.filter (needs_on b t today night) (reservations d)) < length (rooms_of b t d))%nat \/
                                    List.filter (needs_on b t today night) (reservations d) = [].
Proof.
  intros Hw. unfold assertTypeCanSpareARoom, assertBranch. intros Hm. m_inv.
  match goal with E : Some ?x = List.find _ (branches _) |- _ => rename x into br; symmetry in E; apply find_Some in E as [Hb1 Hb2] end.
  match goal with E : branch_today _ _ = Ok (_, ?x) |- _ => rename x into today; apply branch_today_spec in E as (-> & Ht & Htoday) end.
  boolp. destruct Hb2 as [Hid _]. set (stays := List.filter (needs_room b t today) (reservations d)) in *.
  assert (forall night, midnight night -> Z.of_nat (length (List.filter (needs_on b t today night) (reservations d))) <= val (iso_date night) (per_night today stays)) as Hcount.
  { intros night Hn. unfold per_night. rewrite val_count. simpl.
    transitivity (Z.of_nat (length (List.filter (needs_on b t today night) stays))).
    { subst stays. rewrite filterb_sub; [lia|]. intros x Hx. unfold needs_on in Hx. boolp. naive_solver. }
    apply inj_le, filter_bind_ge. intros r Hr Hon. exists night. rewrite bool_decide_true by done. split; [|done].
    apply elem_of_filterb in Hr as [Hr _]. unfold needs_on in Hon. boolp. destruct Hon as [[[_ H1] H2] H3]. unfold needed_nights.
    apply elem_of_nights_midnight; [|done|lia]. destruct (Z.max_spec (Reservation.checkInDate r) today) as [[_ ->]|[_ ->]]; [done|by apply Hw]. }
  destruct (sort_by _ (per_night today stays)) as [|[w booked] l] eqn:Es.
  - m_inv. split; [done|]. exists br, today. split; [done|]. split; [done|]. split; [done|]. intros night Hn. right. specialize (Hcount night Hn).
    assert (per_night today stays = []) as Hnil by (apply Permutation_nil_r; rewrite <- Es; symmetry; apply sort_by_perm).
    rewrite Hnil in Hcount. simpl in Hcount. destruct (List.filter (needs_on _ _ _ _) _); [done | simpl in Hcount; lia].
  - m_inv. split; [done|]. exists br, today. split; [done|]. split; [done|]. split; [done|]. intros night Hn. specialize (Hcount night Hn).
    destruct (decide (val (iso_date night) (per_night today stays) = 0)) as [Hz|Hz].
    + right. destruct (List.filter (needs_on _ _ _ _) _); [done | simpl in Hcount; lia].
    + left. apply val_elem in Hz. apply (sorted_max _ _ _ _ Es) in Hz. simpl in Hz. unfold rooms_of.
      match goal with E : (_ <? _) = false |- _ => apply Z.ltb_ge in E end. lia.
Qed.
End Props.

(** Updating the one row of a name takes at most that one out of a count. *)
Lemma filter_name_one {A} (name : A -> string) i l : NoDup (name <$> l) -> (length (List.filter (fun x => bool_decide (name x = i)) l) <= 1)%nat.
Proof.
  intros Hnd. apply (NoDup_fmap_filterb _ (fun x => bool_decide (name x = i))) in Hnd.
  destruct (List.filter _ l) as [|x [|y r]] eqn:E; simpl; [lia..|]. exfalso. rewrite <- E in Hnd.
  assert (x ∈ List.filter (fun x => bool_decide (name x = i)) l) as Hx by (rewrite E; left).
  assert (y ∈ List.filter (fun x => bool_decide (name x = i)) l) as Hy by (rewrite E; right; left).
  apply elem_of_filterb in Hx as [_ Hx], Hy as [_ Hy]. apply bool_decide_eq_true in Hx, Hy. rewrite E in Hnd. csimpl in Hnd.
  apply NoDup_cons in Hnd as [Hno _]. apply Hno. rewrite Hx, Hy. left.
Qed.
Lemma filter_update_ge {A} (p w : A -> bool) f l :
  (length (List.filter p l) <= length (List.filter p (update_where w f l)) + length (List.filter w l))%nat.
Proof. induction l as [|x l IH]; csimpl; [lia|]. destruct (w x), (p x); simpl; try lia; destruct (p (f x)); simpl; lia. Qed.

(** a room is only taken out of the inventory when nobody is in it and its
    type can spare it: after a removal that commits, on every night from today
    the stays that need a room of the type (booked, in house, or in house past
    their departure) are no more than the rooms of the type that are left. *)
Theorem removal_leaves_enough `{Platform} `{Uuid} (i u : string) (d d' : Db) (room : Room.t) :
  dates_wf d -> NoDup (Room.id <$> rooms d) -> removeRoom i u d = Ok (d', room) ->
  Room.occupancyStatus room = vacant /\ List.find (live_room i) (rooms d') = None /\
  exists br today, br ∈ branches d /\ Branch.id br = Room.branchId room /\
    toBranchDate (todayInTimezone (Branch.timezone br) (clock d)) = Some today /\
    forall night, midnight night ->
      (length (List.filter (needs_on (Room.branchId room) (Room.roomTypeId room) today night) (reservations d'))
       <= length (rooms_of (Room.branchId room) (Room.roomTypeId room) d'))%nat.
Proof.
  intros Hw Hnd. unfold removeRoom, findRoom, now, audit, auditLog. intros Hm. m_inv.
  match goal with E : Some ?x = List.find (live_room i) _ |- _ => rename x into r end.
  match goal with E : assertTypeCanSpareARoom _ _ _ = _ |- _ => apply (can_spare _ _ _ _ _ Hw) in E as (-> & br & today & Hbr & Hb & Ht & Hn) end.
  split; [simpl; by destruct (Room.occupancyStatus r)|]. split.
  - simpl. destruct (List.find (live_room i) (update_where _ _ _)) as [y|] eqn:E; [|done]. apply find_Some in E as [Hy Hl].
    apply list_elem_of_fmap in Hy as (z & -> & _). unfold live_room, room_where in Hl.
    destruct (bool_decide_reflect (Room.id z = i)) as [Hz|Hz]; [by rewrite andb_false_r in Hl|]. by rewrite bool_decide_false in Hl.
  - exists br, today. split; [done|]. split; [done|]. split; [done|]. intros night Hmid. simpl. specialize (Hn night Hmid).
    pose proof (filter_update_ge (fun x => bool_decide (Room.branchId x = Room.branchId r) && bool_decide (Room.roomTypeId x = Room.roomTypeId r) && isNone (Room.deletedAt x))
      (room_where i) (Room.with_deletedAt (Some (clock d))) (rooms d)) as Hge.
    pose proof (filter_name_one Room.id i (rooms d) Hnd) as Hone. unfold room_where in Hge.
    destruct Hn as [Hlt| ->]; [|simpl; lia]. unfold rooms_of in *. simpl. unfold room_where. lia.
Qed.

(** The blocks of a room never overlap, and each ends no earlier than it starts. *)
Record blocks_wf `{Uuid} (d : Db) : Prop := {
  bw_named : named RoomBlock.id (seq d) (roomBlocks d);
  bw_order x : x ∈ roomBlocks d -> RoomBlock.fromDate x <= RoomBlock.toDate x;
  bw_apart x y : x ∈ roomBlocks d -> y ∈ roomBlocks d -> RoomBlock.roomId x = RoomBlock.roomId y -> x <> y ->
    RoomBlock.toDate x < RoomBlock.fromDate y \/ RoomBlock.toDate y < RoomBlock.fromDate x;
}.
(** A committed change to the blocks. *)
Inductive block_step `{Platform} `{Uuid} (d d' : Db) : Prop :=
| step_block r f t u x : blockRoom r f t u d = Ok (d', x) -> block_step d d'
| step_unblock i u x : unblockRoom i u d = Ok (d', x) -> block_step d d'.

Section Blocks.
Context `{Platform} `{Uuid}.

(** What a new block was checked against. *)
Lemma blockRoom_inv r f t u d d' x : blockRoom r f t u d = Ok (d', x) ->
  roomBlocks d' = roomBlocks d ++ [x] /\ seq d' = S (seq d) /\ RoomBlock.id x = gen_random_uuid (seq d) /\ RoomBlock.roomId x = r /\
  RoomBlock.fromDate x <= RoomBlock.toDate x /\ reservations d' = reservations d /\
  (forall y, y ∈ roomBlocks d -> RoomBlock.roomId y = r -> RoomBlock.toDate y < RoomBlock.fromDate x \/ RoomBlock.toDate x < RoomBlock.fromDate y) /\
  exists br today, br ∈ branches d /\ toBranchDate (todayInTimezone (Branch.timezone br) (clock d)) = Some today /\
    forall s, s ∈ reservations d -> Reservation.roomId s = Some r -> Reservation.deletedAt s = None -> holding (Reservation.status s) = true ->
      RoomBlock.toDate x < Reservation.checkInDate s \/ leaves today s <= RoomBlock.fromDate x.
Proof.
  unfold blockRoom, findRoom, a_date, audit, auditLog, assertBranch. intros Hm. m_inv.
  match goal with E : branch_today _ _ = Ok (_, ?x) |- _ => rename x into today; apply branch_today_spec in E as (-> & _ & Htoday) end.
  match goal with E : Some ?x = List.find _ (branches _) |- _ => rename x into br; symmetry in E; apply find_Some in E as [Hbr _] end.
  match goal with E : new_id _ = _ |- _ => apply new_id_spec in E as [-> ->] end.
  match goal with E : (?b <? ?a) = false |- _ => apply Z.ltb_ge in E; rename a into from, b into to, E into Hft end.
  simpl. split_and!; try done.
  - intros y Hy Hr. match goal with E : isSome (List.find ?w _) = false |- _ => destruct (List.find w _) eqn:Ef; [done|]; apply (find_None _ _ y Ef) in Hy end.
    rewrite bool_decide_true in Hy by done. simpl in Hy. apply andb_false_iff in Hy as [Hy|Hy]; lia.
  - exists br, today. split_and!; [done..|]. intros s Hs Hr Hd Hh. destruct (Z.leb_spec (Reservation.checkInDate s) to) as [Hin|Hin]; [|by left].
    right. match goal with E : existsb _ (List.filter ?w _) = false |- _ => rename E into Hno; assert (s ∈ List.filter w (reservations d)) as Hf end.
    { apply elem_of_filterb. split; [done|]. rewrite bool_decide_true, Hd, Hh by done. by apply Z.leb_le. }
    destruct (Z.leb_spec (leaves today s) from) as [Hle|Hgt]; [done|]. exfalso. apply not_true_iff_false in Hno. apply Hno.
    apply existsb_exists_elem. exists s. split; [done|]. apply negb_true_iff. by apply Z.leb_gt.
Qed.
Lemma unblockRoom_inv i u d d' x : unblockRoom i u d = Ok (d', x) -> seq d' = seq d /\ reservations d' = reservations d /\
  (roomBlocks d' = List.filter (fun x => negb (bool_decide (RoomBlock.id x = i))) (roomBlocks d) \/
   exists y z, y ∈ roomBlocks d /\ RoomBlock.id y = i /\ RoomBlock.fromDate y <= z <= RoomBlock.toDate y /\
     roomBlocks d' = update_where (fun x => bool_decide (RoomBlock.id x = i)) (RoomBlock.with_toDate z) (roomBlocks d)).
Proof.
  unfold unblockRoom, audit, auditLog, assertBranch. intros Hm. m_inv.
  match goal with E : branch_today _ _ = Ok (_, ?x) |- _ => rename x into today; apply branch_today_spec in E as (-> & _ & Htoday) end.
  match goal with E : Some ?x = List.find _ (roomBlocks _) |- _ => rename x into y; symmetry in E; apply find_Some in E as [Hy Hyi]; apply bool_decide_eq_true in Hyi end.
  match goal with E : (RoomBlock.toDate y <? today) = false |- _ => apply Z.ltb_ge in E; rename E into Hto end.
  destruct (Z.leb_spec today (RoomBlock.fromDate y)) as [Hle|Hgt]; m_inv; simpl; (split; [done|]; split; [done|]); [by left|].
  right. match goal with E : (_ <? RoomBlock.fromDate y) = false |- _ => apply Z.ltb_ge in E end. exists y, (today - DAY_MS). split_and!; try done; unfold DAY_MS in *; lia.
Qed.
Lemma blocks_step d d' : block_step d d' -> blocks_wf d -> blocks_wf d'.
Proof.
  intros [r f t u x (Hb & Hs & Hid & Hr & Hle & _ & Hap & _)%blockRoom_inv|i u x (Hs & _ & Hc)%unblockRoom_inv] [Hn Ho Ha].
  - split; rewrite ?Hs, Hb; [by apply named_app|..].
    + intros y [Hy| ->%list_elem_of_singleton]%elem_of_app; auto.
    + intros y z [Hy| ->%list_elem_of_singleton]%elem_of_app [Hz| ->%list_elem_of_singleton]%elem_of_app Hyz Hne; [auto|..|done].
      * apply Hap; congruence.
      * apply or_comm, Hap; congruence.
  - destruct Hc as [Hc|(y & z & Hy & Hyi & Hz & Hc)]; split; rewrite ?Hs, Hc.
    + by apply named_filter.
    + intros a [Ha' _]%elem_of_filterb. auto.
    + intros a b [Ha' _]%elem_of_filterb [Hb' _]%elem_of_filterb. auto.
    + by apply named_update.
    + intros a (w & -> & Hw)%list_elem_of_fmap. case_bool_decide as Hwi; [|auto]. simpl.
      assert (w = y) as -> by (eapply named_inj; [exact Hn|done..|congruence]). lia.
    + intros a b (w & -> & Hw)%list_elem_of_fmap (v & -> & Hv)%list_elem_of_fmap.
      assert (forall w, w ∈ roomBlocks d -> RoomBlock.id w = i -> z <= RoomBlock.toDate w) as Hsh.
      { intros w' Hw' Hwi'. assert (w' = y) as -> by (eapply named_inj; [exact Hn|done..|congruence]). lia. }
      repeat case_bool_decide; simpl; intros Hr Hne.
      * exfalso. apply Hne. f_equal. eapply named_inj; [exact Hn|done..|congruence].
      * destruct (Ha w v Hw Hv Hr ltac:(congruence)) as [?|?]; [left; specialize (Hsh w Hw ltac:(done)); lia | by right].
      * destruct (Ha w v Hw Hv Hr ltac:(congruence)) as [?|?]; [by left | right; specialize (Hsh v Hv ltac:(done)); lia].
      * auto.
Qed.
End Blocks.

(** the blocks of a room never overlap and never end before they start,
    however many are made and ended; and a block is only made over nights no
    booked or in-house stay has the room for (a guest past their departure has
    it tonight too). *)
Theorem blocks_invariant `{Platform} `{Uuid} (d d' : Db) : blocks_wf d -> rtc block_step d d' ->
  blocks_wf d' /\
  forall r f t u d2 x, blockRoom r f t u d' = Ok (d2, x) ->
    exists br today, br ∈ branches d' /\ toBranchDate (todayInTimezone (Branch.timezone br) (clock d')) = Some today /\
      forall s, s ∈ reservations d2 -> Reservation.roomId s = Some r -> Reservation.deletedAt s = None -> holding (Reservation.status s) = true ->
        RoomBlock.toDate x < Reservation.checkInDate s \/ leaves today s <= RoomBlock.fromDate x.
Proof.
  intros Hd Hs. split.
  - induction Hs; [done|]. apply IHHs. by eapply blocks_step.
  - intros r f t u d2 x (_ & _ & _ & _ & _ & Hr & _ & br & today & Hbr & Ht & Hc)%blockRoom_inv. exists br, today. rewrite Hr. done.
Qed.

(** A release date goes with a hold. *)
Definition hold_wf (x : Room.t) : Prop := isSome (Room.heldUntil x) = true -> isSome (Room.heldStatus x) = true.

Section Axes.
Context `{Platform} `{Uuid}.

Lemma held_until_inv dto room d d' h : held_until dto room d = Ok (d', h) -> d' = d /\
  (hold_wf room -> isSome (default (Room.heldUntil room) h) = true -> isSome (default (Room.heldStatus room) (cs_held dto)) = true) /\
  (hold_wf room -> cs_held dto = None -> cs_heldUntil dto = None -> default (Room.heldUntil room) h = Room.heldUntil room).
Proof.
  unfold held_until, assertBranch, a_date, now, hold_wf. intros Hm.
  destruct (cs_heldUntil dto) as [[s|]|]; [destruct (nonempty s)|..]; m_inv.
  - match goal with E : isNone (match cs_held dto with _ => _ end) = false |- _ => rename E into Hh end. split; [done|]. split; [|done]. intros _ _.
    destruct (cs_held dto) as [[?|]|]; try done. simpl. unfold isSome. by rewrite Hh.
  - split; [done|]. split; [|done]. by destruct (Room.heldUntil room).
  - split; [done|]. split; [|done]. by destruct (Room.heldUntil room).
  - split; [done|]. split.
    + intros Hw. destruct (cs_held dto) as [[?|]|]; simpl; try done; [by destruct (Room.heldUntil room)|].
      destruct (Room.heldStatus room) eqn:E; simpl; [done|]. destruct (Room.heldUntil room); simpl; [|done]. by intros _; apply Hw.
    + intros Hw Hc _. rewrite Hc. destruct (Room.heldStatus room); simpl; [done|]. destruct (Room.heldUntil room); simpl; [|done]. exfalso. by specialize (Hw eq_refl).
Qed.

Lemma changeStatus_inv i dto actor d d' x : changeStatus i dto actor d = Ok (d', x) ->
  exists room h, List.find (live_room i) (rooms d) = Some room /\ held_until dto room d = Ok (d, h) /\
    (let s := isSupervisorAt actor (Room.branchId room) in
     (isSome (cs_occupancy dto) = true -> s = true) /\ (isSome (cs_held dto) || isSome (cs_heldUntil dto) = true -> s = true) /\
     (forall to, cs_cleanliness dto = Some to -> ladder_allows (Room.cleanlinessStatus room) to = true /\ (to = inspected -> s = true))) /\
    (let data x := Room.with_status (default (Room.occupancyStatus x) (cs_occupancy dto)) (default (Room.cleanlinessStatus x) (cs_cleanliness dto))
                  (default (Room.heldStatus x) (cs_held dto)) (default (Room.heldUntil x) h) (Some (clock d)) (Some (sub actor)) x in
     x = data room /\ rooms d' = update_where (room_where i) data (rooms d)).
Proof.
  unfold changeStatus, findRoom, now, audit, auditLog. intros Hm. m_inv.
  match goal with E : Some ?y = List.find (live_room i) _ |- _ => rename y into room; symmetry in E; rename E into Hf end.
  match goal with E : match cs_cleanliness dto with _ => _ end ?e = Ok (?e', _) |- _ => rename E into Hc;
    assert (e' = e) as -> by (destruct (cs_cleanliness dto); m_inv; done) end.
  match goal with E : held_until _ _ _ = Ok (?e, ?y) |- _ => pose proof (proj1 (held_until_inv _ _ _ _ _ E)) as ->; rename E into Hh, y into h end.
  match goal with E : isSome (cs_occupancy dto) && _ = false |- _ => rename E into Ho end.
  match goal with E : (isSome (cs_held dto) || _) && _ = false |- _ => rename E into Hhu end.
  exists room, h. split; [done|]. split; [done|]. split; [|done]. cbv zeta. split_and!.
  - intros Hs. rewrite Hs in Ho. by destruct (isSupervisorAt _ _).
  - intros Hs. rewrite Hs in Hhu. by destruct (isSupervisorAt _ _).
  - intros to Ht. rewrite Ht in Hc. m_inv. split; [by apply negb_false_iff|]. intros ->.
    match goal with E : bool_decide _ && negb _ = false |- _ => rewrite bool_decide_true in E by done; by apply negb_false_iff in E end.
Qed.
End Axes.

(** a room's three axes move as their rules say. After any committed change
    the room's cleanliness has taken at most one step of the ladder (dirty,
    cleaning, clean, inspected, or back to dirty); only a supervisor of the
    branch marks a room inspected, corrects its occupancy, or holds, dates or
    releases it; a release date is never left without a hold; and no other room
    changes. *)
Theorem room_status_authority `{Platform} `{Uuid} (i : string) (dto : ChangeRoomStatusDto) (actor : JwtPayload) (d d' : Db) (x : Room.t) :
  NoDup (Room.id <$> rooms d) -> (forall r, r ∈ rooms d -> hold_wf r) -> changeStatus i dto actor d = Ok (d', x) ->
  exists room, List.find (live_room i) (rooms d) = Some room /\
    ladder_allows (Room.cleanlinessStatus room) (Room.cleanlinessStatus x) = true /\
    (Room.cleanlinessStatus x = inspected -> Room.cleanlinessStatus room <> inspected -> isSupervisorAt actor (Room.branchId room) = true) /\
    (Room.occupancyStatus x <> Room.occupancyStatus room \/ Room.heldStatus x <> Room.heldStatus room \/ Room.heldUntil x <> Room.heldUntil room ->
       isSupervisorAt actor (Room.branchId room) = true) /\
    (forall r, r ∈ rooms d' -> hold_wf r) /\ x ∈ rooms d' /\
    (forall r, r ∈ rooms d' -> Room.id r <> i -> r ∈ rooms d).
Proof.
  intros Hnd Hwf (room & h & Hf & Hh & (Hocc & Hhu & Hcl) & -> & Hrooms)%changeStatus_inv. exists room. split; [done|].
  apply find_Some in Hf as [Hin Hl]. unfold live_room in Hl. boolp. destruct Hl as [Hid _].
  destruct (held_until_inv _ _ _ _ _ Hh) as (_ & Hgo & Hkeep). specialize (Hgo (Hwf _ Hin)). specialize (Hkeep (Hwf _ Hin)).
  assert (forall r, r ∈ rooms d -> Room.id r = i -> r = room) as Huniq by (intros r Hr Hri; eapply NoDup_fmap_inj; [exact Hnd|done..|congruence]).
  simpl. split_and!.
  - destruct (cs_cleanliness dto) as [to|]; simpl; [by apply Hcl|]. unfold ladder_allows. by rewrite bool_decide_true.
  - destruct (cs_cleanliness dto) as [to|]; simpl; [|done]. intros -> _. by apply (Hcl inspected).
  - intros Hch. destruct (isSupervisorAt actor (Room.branchId room)); [done|]. exfalso.
    destruct (cs_occupancy dto); [by specialize (Hocc eq_refl)|]. destruct (cs_held dto); [by specialize (Hhu (or_introl eq_refl))|].
    destruct (cs_heldUntil dto); [by specialize (Hhu (or_intror eq_refl))|]. simpl in *. rewrite Hkeep in Hch by done. naive_solver.
  - intros r. rewrite Hrooms. intros (y & -> & Hy)%list_elem_of_fmap. unfold room_where. case_bool_decide as Hyi; [|by apply Hwf].
    rewrite (Huniq y Hy Hyi). unfold hold_wf. simpl. exact Hgo.
  - rewrite Hrooms. apply list_elem_of_fmap. exists room. unfold room_where. by rewrite bool_decide_true.
  - intros r. rewrite Hrooms. intros (y & -> & Hy)%list_elem_of_fmap. unfold room_where. case_bool_decide as Hyi; [|done]. simpl. by intros [].
Qed.

(** *** The sweep of due holds *)
(** A live room held with a date, and whether its branch's day has come. *)
Definition dated_hold (x : Room.t) : bool := isNone (Room.deletedAt x) && isSome (Room.heldStatus x) && isSome (Room.heldUntil x).
Definition today_at `{Platform} (d : Db) (b : string) : option Z :=
  br ← List.find (fun br => bool_decide (Branch.id br = b)) (branches d); toBranchDate (todayInTimezone (Branch.timezone br) (clock d)).
Definition due `{Platform} (d : Db) (x : Room.t) : bool :=
  dated_hold x && match today_at d (Room.branchId x), Room.heldUntil x with Some t, Some u => u <=? t | _, _ => false end.

Section Sweep.
Context `{Platform}.

(** What the sweep leaves of a room. *)
Definition swept (l : list Room.t) (d : Db) (x : Room.t) : Room.t :=
  if existsb (fun r => bool_decide (Room.id r = Room.id x) && bool_decide (Room.heldStatus r = Room.heldStatus x) && bool_decide (Room.heldUntil r = Room.heldUntil x) && due d r) l
  then Room.with_held None None (Some (clock d)) None x else x.
Record sweep_frame (d d' : Db) : Prop := {
  sw_clock : clock d' = clock d;
  sw_branches : branches d' = branches d;
  sw_reservations : reservations d' = reservations d;
}.
Lemma today_at_frame d d' b : sweep_frame d d' -> today_at d' b = today_at d b.
Proof. intros [Hc Hb _]. unfold today_at. by rewrite Hc, Hb. Qed.
Lemma swept_cons r l d x : dated_hold r = true -> swept (r :: l) d x = swept l d (swept [r] d x).
Proof.
  intros Hr. unfold swept. simpl. rewrite orb_false_r. destruct (bool_decide (Room.id r = Room.id x) && _ && _ && due d r) eqn:E; [|done]. simpl.
  destruct (existsb _ l) eqn:E2; [|done]. apply existsb_exists_elem in E2 as (y & _ & Hy). boolp. destruct Hy as [[[_ _] _] Hdue].
  unfold Room.with_held. by destruct x.
Qed.

(** One pass releases every hold that is due and no other. *)
Definition release_one (count : Z) (room : Room.t) : M Z :=
  let! branch := orThrow (findFirst branches (fun b => bool_decide (Branch.id b = Room.branchId room))) internal in
  let! today := branch_today branch in
  if match Room.heldUntil room with Some u => today <? u | None => false end then ret count
  else
    let! at_ := now in
    let claimed x := bool_decide (Room.id x = Room.id room) && bool_decide (Room.heldStatus x = Room.heldStatus room) &&
                     bool_decide (Room.heldUntil x = Room.heldUntil room) in
    let! hits := findMany rooms claimed in
    do! modify (upd_rooms (update_where claimed (Room.with_held None None (Some at_) None))) in
    if bool_decide (length hits = 0%nat) then ret count
    else do! auditLog (Some (Room.branchId room)) None "room.hold_released" "room" (Room.id room) in ret (count + 1).
Lemma release_one_run d0 d room n : sweep_frame d0 d -> dated_hold room = true -> is_Some (today_at d0 (Room.branchId room)) ->
  exists d' n', release_one n room d = Ok (d', n') /\ sweep_frame d0 d' /\ rooms d' = swept [room] d0 <$> rooms d.
Proof.
  intros Hf Hdh [t Ht]. pose proof Hf as [Hc Hb Hr]. unfold release_one, branch_today, findFirst, orThrow, now, gets, bind, lift. cbn beta iota. rewrite Hb.
  unfold today_at in Ht. destruct (List.find _ (branches d0)) as [br|] eqn:Eb; [|done]. simpl in Ht |- *. rewrite Hc, Ht. simpl.
  unfold dated_hold in Hdh. destruct (Room.heldUntil room) as [u|] eqn:Eu; [|by rewrite andb_false_r in Hdh].
  assert (due d0 room = (u <=? t)) as Hdue. { unfold due, dated_hold, today_at. rewrite Eu, Hdh, Eb. simpl. by rewrite Ht. }
  destruct (Z.ltb_spec t u) as [Hlt|Hge].
  - do 2 eexists. split; [reflexivity|]. split; [done|]. symmetry. rewrite <- (list_fmap_id (rooms d)) at 2. apply list_fmap_ext. intros k x _.
    unfold swept. simpl. rewrite Hdue. destruct (Z.leb_spec u t); [lia|]. by rewrite andb_false_r.
  - unfold findMany, modify, auditLog, gets. simpl.
    match goal with |- context [bool_decide (length ?l = 0%nat)] => destruct (bool_decide (length l = 0%nat)) end;
    (do 2 eexists; split; [reflexivity|]; split; [by split|]; simpl; unfold update_where; apply list_fmap_ext; intros k x _; unfold swept; simpl;
     rewrite Hdue, Eu; destruct (Z.leb_spec u t); [|lia]; rewrite orb_false_r, andb_true_r; unfold update_where;
     rewrite (bool_decide_ext (Room.id room = Room.id x) (Room.id x = Room.id room)) by naive_solver;
     rewrite (bool_decide_ext (Room.heldStatus room = Room.heldStatus x) (Room.heldStatus x = Room.heldStatus room)) by naive_solver;
     rewrite (bool_decide_ext (Some u = Room.heldUntil x) (Room.heldUntil x = Some u)) by naive_solver; by rewrite Hc).
Qed.
End Sweep.

Section SweepAll.
Context `{Platform}.
Lemma sweep_run d0 l n d : sweep_frame d0 d -> (forall r, r ∈ l -> dated_hold r = true /\ is_Some (today_at d0 (Room.branchId r))) ->
  exists d' n', for_each l n release_one d = Ok (d', n') /\ sweep_frame d0 d' /\ rooms d' = swept l d0 <$> rooms d.
Proof.
  revert n d. induction l as [|r l IH]; intros n d Hf Hl; simpl.
  - exists d, n. split; [done|]. split; [done|]. symmetry. rewrite <- (list_fmap_id (rooms d)) at 2. by apply list_fmap_ext.
  - destruct (Hl r ltac:(left)) as [Hr Ht]. destruct (release_one_run d0 d r n Hf Hr Ht) as (d1 & n1 & H1 & Hf1 & Hr1).
    rewrite (bind_run _ _ _ _ _ H1). destruct (IH n1 d1 Hf1 ltac:(intros; apply Hl; by right)) as (d2 & n2 & H2 & Hf2 & Hr2).
    exists d2, n2. split; [done|]. split; [done|]. rewrite Hr2, Hr1, <- list_fmap_compose. apply list_fmap_ext. intros k x _. simpl. by rewrite (swept_cons r l).
Qed.
End SweepAll.

(** the hourly sweep always finishes and puts back exactly the rooms that are
    due: once it has run no live room is still held past its release date, a
    room it released is in service with neither hold nor date, and a room that
    was not due is as it was. *)
Theorem due_holds_released `{Platform} (d : Db) :
  NoDup (Room.id <$> rooms d) -> (forall r, r ∈ rooms d -> dated_hold r = true -> is_Some (today_at d (Room.branchId r))) ->
  exists d' n, releaseDueHolds d = Ok (d', n) /\
    (forall x, x ∈ rooms d' -> due d' x = false) /\
    (forall k x, rooms d !! k = Some x -> rooms d' !! k = Some (if due d x then Room.with_held None None (Some (clock d)) None x else x)).
Proof.
  intros Hnd Ht. set (l := List.filter (fun x => isNone (Room.deletedAt x) && isSome (Room.heldStatus x) && isSome (Room.heldUntil x)) (rooms d)).
  destruct (sweep_run d l 0 d) as (d' & n & Hrun & Hf & Hr); [by split|..].
  { intros r [Hin Hd]%elem_of_filterb. split; [exact Hd | by apply Ht]. }
  assert (forall x, x ∈ rooms d -> swept l d x = if due d x then Room.with_held None None (Some (clock d)) None x else x) as Hsw.
  { intros x Hx. unfold swept. destruct (existsb _ l) eqn:E.
    - apply existsb_exists_elem in E as (y & [Hy _]%elem_of_filterb & Hm). boolp. destruct Hm as [[[Hid _] _] Hdue].
      assert (y = x) as -> by (by eapply NoDup_fmap_inj). by rewrite Hdue.
    - destruct (due d x) eqn:Ed; [|done]. apply not_true_iff_false in E. exfalso. apply E, existsb_exists_elem. exists x.
      split; [|rewrite !bool_decide_true by done; simpl; exact Ed]. apply elem_of_filterb. split; [done|]. unfold due, dated_hold in Ed. boolp. naive_solver. }
  exists d', n. split; [exact Hrun|]. split.
  - intros x. rewrite Hr. intros (y & -> & Hy)%list_elem_of_fmap. rewrite (Hsw y Hy). unfold due at 1. rewrite !(today_at_frame d d' _ Hf).
    destruct (due d y) eqn:E; [|exact E]. unfold dated_hold. simpl. by rewrite andb_false_r.
  - intros k x Hk. rewrite Hr, list_lookup_fmap, Hk. simpl. f_equal. apply Hsw. by eapply list_elem_of_lookup_2.
Qed.

Module RoomsWitness.
Import Hotel.
Definition owner : JwtPayload := {| sub := "u1"; roles := [{| branchId := None; role := "owner" |}]; apiKey := None |}.
Definition hold_dto (until : option (option string)) : ChangeRoomStatusDto :=
  {| cs_occupancy := None; cs_cleanliness := None; cs_held := Some (Some out_of_order); cs_heldUntil := until |}.

Lemma hotel_rooms_apart : NoDup (Room.id <$> rooms hotel).
Proof. apply (bool_decide_unpack _). vm_compute. exact I. Qed.
Lemma hotel_dates : dates_wf hotel.
Proof. split; intros r Hr; simpl in Hr; apply list_elem_of_singleton in Hr as ->; vm_compute; reflexivity. Qed.
Lemma hotel_holds r : r ∈ rooms hotel -> hold_wf r.
Proof. simpl. intros [->|[->|Hr]%elem_of_cons]%elem_of_cons; [vm_compute; discriminate..|by apply elem_of_nil in Hr]. Qed.

(** The second room, free tonight, can go; the night's one guest keeps theirs. *)
Lemma remove_ok : is_ok (removeRoom "102" "u1" hotel) = true.
Proof. vm_compute. reflexivity. Qed.
Lemma removal_leaves_enough_witness : exists d' room, removeRoom "102" "u1" hotel = Ok (d', room) /\ Room.occupancyStatus room = vacant.
Proof.
  destruct (run_ok _ _ remove_ok) as (d' & room & Hr). exists d', room. split; [exact Hr|].
  exact (proj1 (removal_leaves_enough "102" "u1" hotel d' room hotel_dates hotel_rooms_apart Hr)).
Defined.

Lemma hold_ok : is_ok (changeStatus "102" (hold_dto (Some (Some "2030-01-01"))) owner hotel) = true.
Proof. vm_compute. reflexivity. Qed.
Definition hotel_held : Db := after (changeStatus "102" (hold_dto (Some (Some "2030-01-01"))) owner) hotel.
Lemma room_status_authority_witness : exists x, changeStatus "102" (hold_dto (Some (Some "2030-01-01"))) owner hotel = Ok (hotel_held, x) /\ x ∈ rooms hotel_held.
Proof.
  destruct (after_ok _ _ hold_ok) as [x Hx]. exists x. split; [exact Hx|].
  destruct (room_status_authority "102" (hold_dto (Some (Some "2030-01-01"))) owner hotel hotel_held x hotel_rooms_apart hotel_holds Hx)
    as (room & _ & _ & _ & _ & _ & Hin & _). exact Hin.
Defined.

(** In the year 2030 the sweep finds it due. *)
Definition hotel_2030 : Db := upd_clock (fun _ => day 21915) hotel_held.
Lemma rooms_2030_apart : NoDup (Room.id <$> rooms hotel_2030).
Proof. apply (bool_decide_unpack _). vm_compute. exact I. Qed.
Lemma today_2030 r : r ∈ rooms hotel_2030 -> dated_hold r = true -> is_Some (today_at hotel_2030 (Room.branchId r)).
Proof.
  intros Hr _. assert (Forall (fun x => Room.branchId x = "b1") (rooms hotel_2030)) as Hall by (vm_compute; repeat constructor).
  rewrite Forall_forall in Hall. rewrite (Hall r Hr). vm_compute. eauto.
Qed.
Lemma due_holds_released_witness : exists d' n, releaseDueHolds hotel_2030 = Ok (d', n) /\ existsb (due hotel_2030) (rooms hotel_2030) = true /\
  forall x, x ∈ rooms d' -> due d' x = false.
Proof.
  destruct (due_holds_released hotel_2030 rooms_2030_apart today_2030) as (d' & n & Hr & Hdue & _).
  exists d', n. split; [exact Hr|]. split; [vm_compute; reflexivity | exact Hdue].
Defined.

Lemma hotel_blocks : blocks_wf hotel.
Proof. split; [split; [constructor|]|..]; intros x; intros; by match goal with Hx : _ ∈ roomBlocks hotel |- _ => apply elem_of_nil in Hx | Hx : _ ∈ [] |- _ => apply elem_of_nil in Hx end. Qed.
Lemma block_ok : is_ok (blockRoom "102" "2024-10-05" "2024-10-09" "u1" hotel) = true.
Proof. vm_compute. reflexivity. Qed.
Lemma blocks_invariant_witness : exists d', rtc block_step hotel d' /\ length (roomBlocks d') = 1%nat /\ blocks_wf d'.
Proof.
  destruct (after_ok _ _ block_ok) as [x Hx]. exists (after (blockRoom "102" "2024-10-05" "2024-10-09" "u1") hotel).
  assert (rtc block_step hotel (after (blockRoom "102" "2024-10-05" "2024-10-09" "u1") hotel)) as Hs by exact (rtc_once _ _ (step_block _ _ _ _ _ _ _ Hx)).
  split; [exact Hs|]. split; [vm_compute; reflexivity|]. exact (proj1 (blocks_invariant _ _ hotel_blocks Hs)).
Defined.

(** A room removed while it is held with a date and later added back is in
    service again, but still carries the date: the next hold put on it, meant to
    last until someone lifts it, ends on the old date. *)
Definition readd : BulkCreateRoomsDto := {| bulk_roomTypeId := "rt1"; bulk_floorId := None; bulk_range := None; bulk_numbers := Some ["102"]; bulk_view := None |}.
Example restored_room_keeps_release_date :
  let hold_again := let! _ := changeStatus "102" (hold_dto (Some (Some "2030-01-01"))) owner in
                    let! _ := removeRoom "102" "u1" in
                    let! _ := bulkCreateRooms "b1" readd "u1" in
                    changeStatus "102" (hold_dto None) owner in
  match hold_again hotel with Ok (_, x) => Room.heldUntil x = toBranchDate "2030-01-01" /\ Room.heldStatus x = Some out_of_order | Err _ => False end.
Proof. vm_compute. split; reflexivity. Qed.
End RoomsWitness.
