(* ===== verification/Housekeeping.v ===== *)
(** Housekeeping (src/src/modules/housekeeping): the task board, its three
    ways onto it (by hand, the night audit's daily service, the evening
    turndown) and the work on a task, which moves the room's cleanliness. *)
From stdpp Require Import pretty.
From S2P Require Import Prelude Decimal Json Dates StayPolicies Taxes Authority Transactions Db SampleHotel Rooms.
From Stdlib Require Import QArith Qcanon.
Import BranchRoles StayFees.
Local Open Scope Z_scope.

(** ** Turndown (turndown.ts) *)
Inductive TurndownScope := scope_all | scope_vip.
Definition TURNDOWN : string := "turndown".
Definition turndownScopeFor (stored : option json) : option TurndownScope :=
  match as_string (member "scope" (as_object stored)) with
  | Some s => if bool_decide (s = "all") then Some scope_all else if bool_decide (s = "vip") then Some scope_vip else None
  | None => None
  end.
Definition wantsTurndown (scope : option TurndownScope) (vipLevel : option Z) : bool :=
  match scope with
  | Some scope_all => true
  | Some scope_vip => 1 <=? default 0 vipLevel
  | None => false
  end.

(** ** The board *)
Record CreateTaskDto := { ct_roomId : string; ct_priority : option Z; ct_notes : option string; ct_kind : option string }.
Record TaskOpts := { to_roomId : string; to_priority : option Z; to_notes : option string; to_triggerEvent : string;
                     to_reservationId : option string; to_taskDate : Z; to_actorId : option string }.

#[global] Instance HousekeepingTask_eq_dec : EqDecision HousekeepingTask.t.
Proof. solve_decision. Defined.
Definition task_where (i : string) (x : HousekeepingTask.t) : bool := bool_decide (HousekeepingTask.id x = i).
Definition is_turndown (x : HousekeepingTask.t) : bool := bool_decide (HousekeepingTask.triggerEvent x = Some TURNDOWN).
Definition is_open (x : HousekeepingTask.t) : bool :=
  bool_decide (HousekeepingTask.status x = task_pending) || bool_decide (HousekeepingTask.status x = task_in_progress).
(** An open task of a kind on a room. *)
Definition waiting_on (room : string) (turndown : bool) (x : HousekeepingTask.t) : bool :=
  bool_decide (HousekeepingTask.roomId x = room) && is_open x && Bool.eqb (is_turndown x) turndown.

(** [task.notes ? `${task.notes}\n${why}` : why] *)
Definition newline : string := String (Ascii.ascii_of_nat 10) EmptyString.
Definition append_note (notes : option string) (why : string) : string :=
  match notes with Some n => if nonempty n then n +:+ newline +:+ why else why | None => why end.
(** Claimed by someone else. *)
Definition claimed_by_other (x : HousekeepingTask.t) (actorId : string) : bool :=
  match HousekeepingTask.assigneeId x with Some a => nonempty a && negb (bool_decide (a = actorId)) | None => false end.

Section Housekeeping.
Context `{Platform} `{Uuid}.

Definition task_audit (b : string) (u : option string) (action i : string) : M unit := auditLog (Some b) u action "housekeeping_task" i.
Definition findTaskOrThrow (i : string) : M HousekeepingTask.t := orThrow (findFirst housekeepingTasks (task_where i)) not_found.

Definition transitionRoomCleanliness (roomId : string) (to : CleanlinessStatus) (actorId : option string) : M unit :=
  let! room := findRoom roomId in
  throw! status_transition when negb (ladder_allows (Room.cleanlinessStatus room) to) in
  if bool_decide (Room.cleanlinessStatus room = to) then ret tt
  else
    let! at_ := now in
    do! modify (upd_rooms (update_where (room_where roomId) (Room.with_cleanliness to (Some at_) actorId))) in
    auditLog (Some (Room.branchId room)) actorId "room.status_changed" "room" roomId.

Definition createTaskInTx (b : string) (opts : TaskOpts) : M HousekeepingTask.t :=
  do! (if bool_decide (to_triggerEvent opts = TURNDOWN) then ret tt
       else
         let! room := findFirst rooms (live_room (to_roomId opts)) in
         match room with
         | Some r => if bool_decide (Room.cleanlinessStatus r = clean) || bool_decide (Room.cleanlinessStatus r = inspected)
                     then transitionRoomCleanliness (to_roomId opts) dirty (to_actorId opts) else ret tt
         | None => ret tt
         end) in
  let! i := new_id in
  let row := {| HousekeepingTask.id := i; HousekeepingTask.branchId := b; HousekeepingTask.roomId := to_roomId opts; HousekeepingTask.assigneeId := None;
                HousekeepingTask.taskDate := to_taskDate opts; HousekeepingTask.status := task_pending; HousekeepingTask.priority := to_priority opts;
                HousekeepingTask.triggerEvent := Some (to_triggerEvent opts); HousekeepingTask.triggeredByReservationId := to_reservationId opts;
                HousekeepingTask.notes := to_notes opts; HousekeepingTask.completedAt := None; HousekeepingTask.completedBy := None |} in
  do! modify (upd_housekeepingTasks (fun l => l ++ [row])) in
  do! task_audit b (to_actorId opts) "housekeeping.task_created" i in
  ret row.

Definition createTask (b : string) (dto : CreateTaskDto) (actorId : string) : M HousekeepingTask.t :=
  let! branch := assertBranch b in
  let! room := orThrow (findFirst rooms (fun x => live_room (ct_roomId dto) x && bool_decide (Room.branchId x = b))) not_found in
  let turndown := bool_decide (ct_kind dto = Some TURNDOWN) in
  let! waiting := findFirst housekeepingTasks (waiting_on (Room.id room) turndown) in
  throw! conflict when isSome waiting in
  let! today := branch_today branch in
  createTaskInTx b {| to_roomId := ct_roomId dto; to_priority := ct_priority dto; to_notes := ct_notes dto;
                      to_triggerEvent := (if turndown then TURNDOWN else "manual"); to_reservationId := None; to_taskDate := today; to_actorId := Some actorId |}.

Definition ensureStayoverTaskInTx (b roomId reservationId : string) (taskDate : Z) : M bool :=
  let! waiting := findFirst housekeepingTasks (waiting_on roomId false) in
  if isSome waiting then ret false
  else
    do! createTaskInTx b {| to_roomId := roomId; to_priority := Some 3; to_notes := None; to_triggerEvent := "stayover"; to_reservationId := Some reservationId;
                            to_taskDate := taskDate; to_actorId := None |} in
    ret true.

Definition ensureTurndownTaskInTx (b roomId reservationId : string) (taskDate : Z) : M bool :=
  let! raised := findFirst housekeepingTasks (fun x => bool_decide (HousekeepingTask.roomId x = roomId) && bool_decide (HousekeepingTask.taskDate x = taskDate) && is_turndown x) in
  if isSome raised then ret false
  else
    do! createTaskInTx b {| to_roomId := roomId; to_priority := Some 3; to_notes := Some "Evening turndown"; to_triggerEvent := TURNDOWN;
                            to_reservationId := Some reservationId; to_taskDate := taskDate; to_actorId := None |} in
    ret true.

Definition supersedeStayoverTasksInTx (b roomId why : string) (actorId : option string) : M Z :=
  let! waiting := findMany housekeepingTasks (fun x => bool_decide (HousekeepingTask.roomId x = roomId) && bool_decide (HousekeepingTask.status x = task_pending) &&
    (bool_decide (HousekeepingTask.triggerEvent x = Some "stayover") || is_turndown x)) in
  do! for_each waiting tt (fun _ task =>
    do! modify (upd_housekeepingTasks (update_where (task_where (HousekeepingTask.id task))
          (HousekeepingTask.with_skipped task_skipped (Some (append_note (HousekeepingTask.notes task) why))))) in
    task_audit b actorId "housekeeping.task_superseded" (HousekeepingTask.id task)) in
  ret (Z.of_nat (length waiting)).

Definition assignTask (taskId assigneeId : string) (actor : JwtPayload) : M HousekeepingTask.t :=
  let! task := findTaskOrThrow taskId in
  throw! forbidden when negb (Rooms.isSupervisorAt actor (HousekeepingTask.branchId task)) in
  throw! status_transition when negb (is_open task) in
  let! d := gets (fun d => d) in
  let! assignee := findFirst userBranchRoles (fun r => bool_decide (UserBranchRole.userId r = assigneeId) &&
    match UserBranchRole.branchId r with None => true | Some b => bool_decide (b = HousekeepingTask.branchId task) end &&
    existsb (fun u => bool_decide (User.id u = UserBranchRole.userId r) && isNone (User.deletedAt u)) (users d)) in
  throw! invalid when isNone assignee in
  do! modify (upd_housekeepingTasks (update_where (task_where taskId) (HousekeepingTask.with_assignee (Some assigneeId)))) in
  do! task_audit (HousekeepingTask.branchId task) (Some (sub actor)) "housekeeping.task_assigned" taskId in
  ret (HousekeepingTask.with_assignee (Some assigneeId) task).

Definition startTask (taskId actorId : string) : M HousekeepingTask.t :=
  let! task := findTaskOrThrow taskId in
  throw! status_transition when negb (bool_decide (HousekeepingTask.status task = task_pending)) in
  throw! forbidden when claimed_by_other task actorId in
  do! (if is_turndown task then ret tt else transitionRoomCleanliness (HousekeepingTask.roomId task) cleaning (Some actorId)) in
  let data := HousekeepingTask.with_started task_in_progress (Some (default actorId (HousekeepingTask.assigneeId task))) in
  do! modify (upd_housekeepingTasks (update_where (task_where taskId) data)) in
  do! task_audit (HousekeepingTask.branchId task) (Some actorId) "housekeeping.task_started" taskId in
  ret (data task).

Definition completeTask (taskId actorId : string) : M HousekeepingTask.t :=
  let! task := findTaskOrThrow taskId in
  throw! status_transition when negb (bool_decide (HousekeepingTask.status task = task_in_progress)) in
  throw! forbidden when claimed_by_other task actorId in
  do! (if is_turndown task then ret tt else transitionRoomCleanliness (HousekeepingTask.roomId task) clean (Some actorId)) in
  let! at_ := now in
  let data := HousekeepingTask.with_done task_done (Some at_) (Some actorId) in
  do! modify (upd_housekeepingTasks (update_where (task_where taskId) data)) in
  do! task_audit (HousekeepingTask.branchId task) (Some actorId) "housekeeping.task_completed" taskId in
  ret (data task).

Definition reportIssue (taskId areaOfIssue description actorId : string) : M HousekeepingTask.t :=
  let! task := findTaskOrThrow taskId in
  throw! status_transition when bool_decide (HousekeepingTask.status task = task_done) in
  let note := "[" +:+ areaOfIssue +:+ "] " +:+ description in
  do! (if bool_decide (HousekeepingTask.status task = task_in_progress) && negb (is_turndown task)
       then transitionRoomCleanliness (HousekeepingTask.roomId task) dirty (Some actorId) else ret tt) in
  let data := HousekeepingTask.with_skipped task_skipped (Some (append_note (HousekeepingTask.notes task) note)) in
  do! modify (upd_housekeepingTasks (update_where (task_where taskId) data)) in
  do! task_audit (HousekeepingTask.branchId task) (Some actorId) "housekeeping.issue_reported" taskId in
  ret (data task).
End Housekeeping.

(** ** What the board promises *)
Definition room_state (d : Db) : list Room.t := rooms d.
Definition board (d : Db) : nat * list HousekeepingTask.t := (seq d, housekeepingTasks d).

(** Where a task may go: it is started, then finished or given up, and never comes back. *)
Definition may_go (from to : HousekeepingStatus) : bool :=
  match from, to with
  | task_pending, _ => true
  | task_in_progress, task_pending => false
  | task_in_progress, _ => true
  | task_done, task_done => true
  | task_skipped, task_skipped => true
  | _, _ => false
  end.
(** Work under way is somebody's; work done says when and by whom. *)
Definition task_ok (x : HousekeepingTask.t) : Prop :=
  match HousekeepingTask.status x with
  | task_in_progress => isSome (HousekeepingTask.assigneeId x) = true
  | task_done => isSome (HousekeepingTask.completedAt x) = true /\ isSome (HousekeepingTask.completedBy x) = true
  | _ => True
  end.
Record becomes (x y : HousekeepingTask.t) : Prop := {
  same_id : HousekeepingTask.id y = HousekeepingTask.id x;
  same_room : HousekeepingTask.roomId y = HousekeepingTask.roomId x;
  same_trigger : HousekeepingTask.triggerEvent y = HousekeepingTask.triggerEvent x;
  status_goes : may_go (HousekeepingTask.status x) (HousekeepingTask.status y) = true;
  done_stays : HousekeepingTask.status x = task_done -> y = x;
}.
#[global] Instance becomes_preorder : PreOrder becomes.
Proof.
  split.
  - intros x. constructor; try done. by destruct (HousekeepingTask.status x).
  - intros x y z [] []. constructor; try congruence.
    + destruct (HousekeepingTask.status x), (HousekeepingTask.status y), (HousekeepingTask.status z); done.
    + intros Hd. rewrite <- done_stays0 by done. apply done_stays1. by rewrite done_stays0.
Qed.
Lemma becomes_open x y : becomes x y -> is_open y = true -> is_open x = true.
Proof. intros [_ _ _ Hg _]. unfold is_open. destruct (HousekeepingTask.status x), (HousekeepingTask.status y); done. Qed.
Lemma becomes_turndown x y : becomes x y -> is_turndown y = is_turndown x.
Proof. intros [_ _ Ht _ _]. unfold is_turndown. by rewrite Ht. Qed.

Record board_ok `{Uuid} (p : nat * list HousekeepingTask.t) : Prop := {
  tasks_named : named HousekeepingTask.id p.1 p.2;
  tasks_ok x : x ∈ p.2 -> task_ok x;
  (** one clean at a time per room *)
  one_clean x y : x ∈ p.2 -> y ∈ p.2 -> is_open x = true -> is_open y = true -> is_turndown x = false -> is_turndown y = false ->
    HousekeepingTask.roomId x = HousekeepingTask.roomId y -> x = y;
}.

(** What one operation does to the board. *)
Inductive change `{Uuid} : nat * list HousekeepingTask.t -> nat * list HousekeepingTask.t -> Prop :=
| change_add n l row : HousekeepingTask.id row = gen_random_uuid n -> HousekeepingTask.status row = task_pending ->
    (is_turndown row = false -> List.find (waiting_on (HousekeepingTask.roomId row) false) l = None) -> change (n, l) (S n, l ++ [row])
| change_task n l t f : t ∈ l -> (forall x, HousekeepingTask.id (f x) = HousekeepingTask.id x) -> becomes t (f t) -> task_ok (f t) ->
    change (n, l) (n, update_where (task_where (HousekeepingTask.id t)) f l).

Section Board.
Context `{Platform} `{Uuid}.

Lemma update_one n l t f x : named HousekeepingTask.id n l -> t ∈ l -> x ∈ update_where (task_where (HousekeepingTask.id t)) f l ->
  x = f t \/ (x ∈ l /\ x <> t).
Proof.
  intros Hn Ht (y & -> & Hy)%list_elem_of_fmap. unfold task_where. case_bool_decide as E.
  - left. by rewrite (named_inj _ _ _ _ _ Hn Hy Ht E).
  - right. split; [done|]. by intros ->.
Qed.

Lemma change_ok p q : change p q -> board_ok p -> board_ok q.
Proof.
  intros [n l row Hi Hs Hfree|n l t f Ht Hf Hb Hk] [Hn Hok H1]; simpl in *; constructor; simpl.
  - by apply named_app.
  - intros x [Hx|Hx%list_elem_of_singleton]%elem_of_app; [auto|]. subst x. unfold task_ok. by rewrite Hs.
  - assert (forall x, x ∈ l -> is_open x = true -> is_turndown x = false -> is_turndown row = false ->
      HousekeepingTask.roomId x = HousekeepingTask.roomId row -> False) as Hnone.
    { intros x Hx Ho Hx1 Hr Hroom. pose proof (find_None _ _ _ (Hfree Hr) Hx) as Hw. unfold waiting_on in Hw. by rewrite bool_decide_true, Ho, Hx1 in Hw. }
    intros x y [Hx|Hx%list_elem_of_singleton]%elem_of_app [Hy|Hy%list_elem_of_singleton]%elem_of_app Ox Oy Tx Ty Er; subst; try done; [auto| |].
    + exfalso. by eapply (Hnone x).
    + exfalso. by eapply (Hnone y).
  - by apply named_update.
  - intros x Hx. destruct (update_one _ _ _ _ _ Hn Ht Hx) as [->|[Hl _]]; auto.
  - assert (forall x, x ∈ update_where (task_where (HousekeepingTask.id t)) f l -> exists x0, x0 ∈ l /\ becomes x0 x /\ (x0 = t -> x = f t) /\ (x0 <> t -> x = x0)) as Hpre.
    { intros x Hx. destruct (update_one _ _ _ _ _ Hn Ht Hx) as [->|[Hl Hne]]; [by exists t | by exists x]. }
    intros x y Hx Hy Ox Oy Tx Ty Er. destruct (Hpre x Hx) as (x0 & Hx0 & Bx & Hxt & Hxn), (Hpre y Hy) as (y0 & Hy0 & By & Hyt & Hyn).
    assert (x0 = y0) as <-; [|destruct (decide (x0 = t)); [rewrite Hxt, Hyt | rewrite Hxn, Hyn]; done].
    apply H1; eauto using becomes_open; [by rewrite <- (becomes_turndown _ _ Bx) | by rewrite <- (becomes_turndown _ _ By)|].
    by rewrite <- (same_room _ _ Bx), <- (same_room _ _ By).
Qed.
Lemma change_becomes p q x : change p q -> board_ok p -> x ∈ p.2 -> exists y, y ∈ q.2 /\ becomes x y.
Proof.
  intros [n l row Hi Hs Hfree|n l t f Ht Hf Hb Hk] [Hn _ _] Hx; simpl in *.
  - exists x. split; [by apply elem_of_app; left | reflexivity].
  - destruct (decide (HousekeepingTask.id x = HousekeepingTask.id t)) as [E|E].
    + rewrite (named_inj _ _ _ _ _ Hn Hx Ht E). exists (f t). split; [|done]. apply list_elem_of_fmap. exists t. unfold task_where. by rewrite bool_decide_true.
    + exists x. split; [|reflexivity]. apply list_elem_of_fmap. exists x. unfold task_where. by rewrite bool_decide_false.
Qed.
Lemma changes_ok p q : rtc change p q -> board_ok p -> board_ok q /\ forall x, x ∈ p.2 -> exists y, y ∈ q.2 /\ becomes x y.
Proof.
  induction 1 as [p|p q r Hc _ IH]; intros Hp; [split; [done|]; intros x Hx; by exists x|].
  destruct (IH (change_ok _ _ Hc Hp)) as [Hr Hb]. split; [done|]. intros x Hx.
  destruct (change_becomes _ _ _ Hc Hp Hx) as (y & Hy & Hxy). destruct (Hb y Hy) as (z & Hz & Hyz). exists z. split; [done|]. by transitivity y.
Qed.

(** Rooms and the audit trail change behind the board's back. *)
Definition same_board (d d' : Db) : Prop := board d' = board d.
#[local] Instance same_board_preorder : PreOrder same_board.
Proof. split; [done|]. unfold same_board. intros ??? -> ->. done. Qed.
Lemma transition_board i to u : keeps same_board (transitionRoomCleanliness i to u).
Proof. unfold transitionRoomCleanliness, findRoom, auditLog, now. keeps_tac; apply keeps_modify; done. Qed.

Lemma createTaskInTx_inv b o d d' row : createTaskInTx b o d = Ok (d', row) ->
  HousekeepingTask.id row = gen_random_uuid (seq d) /\ HousekeepingTask.status row = task_pending /\ HousekeepingTask.assigneeId row = None /\
  HousekeepingTask.roomId row = to_roomId o /\ HousekeepingTask.triggerEvent row = Some (to_triggerEvent o) /\
  board d' = (S (seq d), housekeepingTasks d ++ [row]).
Proof.
  unfold createTaskInTx, task_audit, auditLog. intros Hm. m_step.
  assert (same_board d d0) as Hb.
  { match goal with H : (if _ then _ else _) d = _ |- _ => revert H end. case_bool_decide; [by intros Hr; m_inv|]. intros Hr. m_inv.
    destruct (List.find _ _); [|by m_inv]. destruct (_ || _); [by eapply transition_board | by m_inv]. }
  unfold same_board, board in Hb. simplify_eq Hb. intros Hs Ht. m_step. match goal with H : new_id _ = _ |- _ => apply new_id_spec in H as [-> ->] end.
  m_inv. rewrite <- Hs, <- Ht. done.
Qed.

(** One step of the board: an operation of the service that commits. *)
Inductive board_step (d d' : Db) : Prop :=
| step_create b dto u t : createTask b dto u d = Ok (d', t) -> board_step d d'
| step_stayover b r s at_ ok : ensureStayoverTaskInTx b r s at_ d = Ok (d', ok) -> board_step d d'
| step_turndown b r s at_ ok : ensureTurndownTaskInTx b r s at_ d = Ok (d', ok) -> board_step d d'
| step_supersede b r why u n : supersedeStayoverTasksInTx b r why u d = Ok (d', n) -> board_step d d'
| step_assign i a actor t : assignTask i a actor d = Ok (d', t) -> board_step d d'
| step_start i u t : startTask i u d = Ok (d', t) -> board_step d d'
| step_complete i u t : completeTask i u d = Ok (d', t) -> board_step d d'
| step_report i area text u t : reportIssue i area text u d = Ok (d', t) -> board_step d d'.

Lemma create_changes b o d d' row : createTaskInTx b o d = Ok (d', row) ->
  (to_triggerEvent o <> TURNDOWN -> List.find (waiting_on (to_roomId o) false) (housekeepingTasks d) = None) -> change (board d) (board d').
Proof.
  intros (Hi & Hs & _ & Hr & Ht & ->)%createTaskInTx_inv Hfree. apply change_add; [done..|]. intros Hx. rewrite Hr. apply Hfree.
  intros E. unfold is_turndown in Hx. by rewrite Ht, E, bool_decide_true in Hx.
Qed.
Lemma find_task i d t : List.find (task_where i) (housekeepingTasks d) = Some t -> t ∈ housekeepingTasks d /\ HousekeepingTask.id t = i.
Proof. intros [Ht Hi%bool_decide_eq_true]%find_Some. done. Qed.
Lemma work_changes d d0 d' i t f : List.find (task_where i) (housekeepingTasks d) = Some t -> same_board d d0 ->
  board d' = board (upd_housekeepingTasks (update_where (task_where i) f) d0) -> (forall x, HousekeepingTask.id (f x) = HousekeepingTask.id x) ->
  becomes t (f t) -> task_ok (f t) -> change (board d) (board d').
Proof.
  intros [Ht <-]%find_task Hb -> Hf Hbec Hok. unfold same_board, board in *. simplify_eq Hb. intros Hs Hl. cbn. rewrite Hs, Hl. by apply change_task.
Qed.

Lemma supersede_changes b r why u d d' n : supersedeStayoverTasksInTx b r why u d = Ok (d', n) -> rtc change (board d) (board d').
Proof.
  unfold supersedeStayoverTasksInTx. intros Hm. m_step. m_inv.
  match goal with H : for_each ?w _ _ _ = Ok (?e, _) |- _ => assert (forall t, t ∈ w -> exists x, x ∈ housekeepingTasks d /\ HousekeepingTask.id x = HousekeepingTask.id t /\
    (HousekeepingTask.status x = task_pending \/ HousekeepingTask.status x = task_skipped)) as Hw; [|revert Hw; rename H into Hf; generalize dependent w] end.
  { intros t [Ht Hp]%elem_of_filterb. exists t. boolp. naive_solver. }
  intros w. revert d. induction w as [|t w IH]; intros d Hf Hw; simpl in Hf; [by m_inv|].
  unfold task_audit, auditLog in Hf. m_inv. destruct (Hw t) as (x & Hx & Hid & Hst); [by left|].
  eapply rtc_l; [|eapply IH; [eassumption|]].
  - unfold board. cbn. rewrite <- Hid. apply change_task; [done|done| |done]. constructor; try done; cbn; destruct Hst as [-> | ->]; done.
  - intros t' Ht'. destruct (Hw t') as (x' & Hx' & Hid' & Hst'); [by right|]. cbn.
    destruct (decide (HousekeepingTask.id x' = HousekeepingTask.id t)) as [E|E].
    + eexists. split; [apply list_elem_of_fmap; exists x'; split; [reflexivity|done]|]. unfold task_where. rewrite bool_decide_true by done. cbn. auto.
    + exists x'. split; [|done]. apply list_elem_of_fmap. exists x'. unfold task_where. by rewrite bool_decide_false.
Qed.

Lemma createTask_changes b dto u d d' t : createTask b dto u d = Ok (d', t) -> change (board d) (board d').
Proof.
  unfold createTask, assertBranch. intros Hm. repeat (m_step; try match goal with H : branch_today _ _ = _ |- _ => apply branch_today_spec in H as (-> & _ & _) end).
  match goal with H : Some ?v = List.find (fun x => _ && _) _ |- _ => symmetry in H; apply find_Some in H as [_ Hv] end. boolp. destruct Hv as [Hl _].
  unfold live_room in Hl. boolp. destruct Hl as [Hid _].
  match goal with H : createTaskInTx _ _ _ = _ |- _ => eapply create_changes; [exact H|]; cbn end.
  match goal with H : isSome _ = false |- _ => apply isSome_false in H; rewrite Hid in H; revert H end. case_bool_decide; [done|]. intros Hn _. exact Hn.
Qed.
Lemma ensure_changes b o d d' (waiting : option HousekeepingTask.t) ok :
  (if isSome waiting then ret false else do! createTaskInTx b o in ret true) d = Ok (d', ok) ->
  (waiting = None -> to_triggerEvent o <> TURNDOWN -> List.find (waiting_on (to_roomId o) false) (housekeepingTasks d) = None) -> rtc change (board d) (board d').
Proof.
  intros Hm Hw. destruct waiting as [w|]; simpl in Hm; m_inv; [done|]. apply rtc_once. eapply create_changes; [eassumption|]. auto.
Qed.

Lemma turndown_or_board (c : bool) r to u d d' x : (if c then ret tt else transitionRoomCleanliness r to u) d = Ok (d', x) -> same_board d d'.
Proof. destruct c; [by intros; m_inv | apply transition_board]. Qed.
Lemma board_or_turndown (c : bool) r to u d d' x : (if c then transitionRoomCleanliness r to u else ret tt) d = Ok (d', x) -> same_board d d'.
Proof. destruct c; [apply transition_board | by intros; m_inv]. Qed.

Lemma audit_board b u action i d d' x : task_audit b u action i d = Ok (d', x) -> board d' = board d.
Proof. unfold task_audit, auditLog. intros Hm. by m_inv. Qed.

Lemma assign_changes i a actor d d' t : assignTask i a actor d = Ok (d', t) -> change (board d) (board d').
Proof.
  unfold assignTask, findTaskOrThrow. intros Hm. m_inv. match goal with H : negb (is_open ?v) = false |- _ => rename H into Ho; rename v into x end.
  unfold is_open in Ho. boolp. eapply (work_changes _ _ _ i x); [by symmetry|reflexivity|by eapply audit_board|done|constructor|]; try done.
  all: unfold task_ok; cbn; destruct Ho as [-> | ->]; done.
Qed.
Lemma start_changes i u d d' t : startTask i u d = Ok (d', t) -> change (board d) (board d').
Proof.
  unfold startTask, findTaskOrThrow. intros Hm. m_inv. match goal with H : Some ?v = _ |- _ => rename H into Hx; rename v into x; symmetry in Hx end.
  match goal with H : (if _ then _ else _) _ = _ |- _ => apply turndown_or_board in H; rename H into Hb end. boolp.
  eapply (work_changes _ _ _ i x _ Hx Hb); [by eapply audit_board|done|constructor|]; try done; cbn; try congruence.
  match goal with H : HousekeepingTask.status x = _ |- _ => by rewrite H end.
Qed.
Lemma complete_changes i u d d' t : completeTask i u d = Ok (d', t) -> change (board d) (board d').
Proof.
  unfold completeTask, findTaskOrThrow, now. intros Hm. m_inv. match goal with H : Some ?v = _ |- _ => rename H into Hx; rename v into x; symmetry in Hx end.
  match goal with H : (if _ then _ else _) _ = _ |- _ => apply turndown_or_board in H; rename H into Hb end. boolp.
  eapply (work_changes _ _ _ i x _ Hx Hb); [by eapply audit_board|done|constructor|]; try done; cbn; try congruence.
  match goal with H : HousekeepingTask.status x = _ |- _ => by rewrite H end.
Qed.
Lemma report_changes i area text u d d' t : reportIssue i area text u d = Ok (d', t) -> change (board d) (board d').
Proof.
  unfold reportIssue, findTaskOrThrow. intros Hm. m_inv. match goal with H : Some ?v = _ |- _ => rename H into Hx; rename v into x; symmetry in Hx end.
  match goal with H : (if _ then _ else _) _ = _ |- _ => apply board_or_turndown in H; rename H into Hb end. boolp.
  eapply (work_changes _ _ _ i x _ Hx Hb); [by eapply audit_board|done|constructor|]; try done; cbn; try congruence.
  by destruct (HousekeepingTask.status x).
Qed.

Lemma step_changes d d' : board_step d d' -> rtc change (board d) (board d').
Proof.
  intros [b dto u t Hm|b r s at_ ok Hm|b r s at_ ok Hm|b r why u n Hm|i a actor t Hm|i u t Hm|i u t Hm|i area text u t Hm];
    [apply rtc_once; by eapply createTask_changes| | |by eapply supersede_changes|apply rtc_once..].
  - unfold ensureStayoverTaskInTx in Hm. m_step. m_step. eapply ensure_changes; [exact Hm|]. cbn. auto.
  - unfold ensureTurndownTaskInTx in Hm. m_step. m_step. eapply ensure_changes; [exact Hm|]. cbn. done.
  - by eapply assign_changes.
  - by eapply start_changes.
  - by eapply complete_changes.
  - by eapply report_changes.
Qed.
End Board.

(** the task board stays coherent however its operations follow one another
    (raising tasks by hand, for a stay-over or a turndown, superseding,
    assigning, starting, completing and reporting them): no room ever has two
    cleans open, work under way belongs to somebody and finished work says when
    and by whom. And every task is followed for good: it keeps its room and
    its kind, goes from waiting to under way to done or given up and never
    back, and once done its record no longer changes. *)
Theorem board_invariant `{Platform} `{Uuid} (d d' : Db) : board_ok (board d) -> rtc board_step d d' ->
  board_ok (board d') /\ forall x, x ∈ housekeepingTasks d -> exists y, y ∈ housekeepingTasks d' /\ becomes x y.
Proof.
  intros Hok Hs. assert (rtc change (board d) (board d')) as Hc; [|exact (changes_ok _ _ Hc Hok)].
  induction Hs as [|d e f Hde _ IH]; [done|]. transitivity (board e); [by apply step_changes|].
  apply IH. by apply (changes_ok _ _ (step_changes _ _ Hde)).
Qed.

(** ** A task raised can be worked *)
Section Work.
Context `{Platform} `{Uuid}.

Lemma find_update_same {A} (p w : A -> bool) f l : (forall x, p (f x) = p x) -> (forall x, p x = true -> w x = true) ->
  List.find p (update_where w f l) = f <$> List.find p l.
Proof.
  intros Hp Hw. unfold update_where. induction l as [|x l IH]; csimpl; [done|]. destruct (p x) eqn:E.
  - rewrite (Hw x E), Hp, E. done.
  - destruct (w x); [rewrite Hp|]; by rewrite E.
Qed.
Lemma find_app_new {A} (p : A -> bool) l x : (forall y, y ∈ l -> p y = false) -> p x = true -> List.find p (l ++ [x]) = Some x.
Proof.
  intros Hl Hx. induction l as [|y l IH]; simpl; [by rewrite Hx|]. rewrite Hl by left. apply IH. intros z Hz. apply Hl. by right.
Qed.

(** The room a task is about, as it stands. *)
Definition room_of (i : string) (d : Db) : option Room.t := List.find (live_room i) (rooms d).

Lemma transition_run i to u d room : room_of i d = Some room -> ladder_allows (Room.cleanlinessStatus room) to = true ->
  exists d', transitionRoomCleanliness i to u d = Ok (d', tt) /\ board d' = board d /\ clock d' = clock d /\
    (exists room', room_of i d' = Some room' /\ Room.cleanlinessStatus room' = to).
Proof.
  intros Hr Hl. unfold transitionRoomCleanliness, findRoom, orThrow, findFirst, gets, bind, lift. unfold room_of in Hr. rewrite Hr. cbn. rewrite Hl. cbn.
  case_bool_decide as E; [exists d; unfold room_of; by eauto 10|]. refine (ex_intro _ _ (conj eq_refl _)). split; [done|]. split; [done|].
  unfold room_of. cbn. rewrite find_update_same; [|done|by intros x [? _]%andb_true_iff]. rewrite Hr. cbn. eauto.
Qed.

Definition raises_clean (o : TaskOpts) : Prop := to_triggerEvent o <> TURNDOWN.
Lemma create_room b o d d' t : createTaskInTx b o d = Ok (d', t) ->
  (to_triggerEvent o = TURNDOWN -> rooms d' = rooms d) /\
  (raises_clean o -> is_Some (room_of (to_roomId o) d) -> exists room, room_of (to_roomId o) d' = Some room /\
    (Room.cleanlinessStatus room = dirty \/ Room.cleanlinessStatus room = cleaning)).
Proof.
  unfold createTaskInTx, task_audit, auditLog, raises_clean. intros Hm. m_step. match goal with H : (if _ then _ else _) d = _ |- _ => rename H into Hr end.
  repeat (m_step; try match goal with H : new_id _ = _ |- _ => apply new_id_spec in H as [-> ->] end). cbn. unfold room_of. cbn. revert Hr. case_bool_decide as E; intros Hr; [m_inv; done|].
  split; [done|]. intros _ [room Hroom]. m_inv. fold (room_of (to_roomId o) d) in Hr. unfold room_of in Hr. rewrite Hroom in Hr. cbn in Hr.
  destruct (_ || _) eqn:Ec.
  - destruct (transition_run (to_roomId o) dirty (to_actorId o) d room Hroom) as (d2 & Hd2 & _ & _ & room' & Hroom' & Hdirty).
    + destruct (Room.cleanlinessStatus room); done.
    + rewrite Hd2 in Hr. m_inv. unfold room_of in Hroom'. eauto.
  - m_inv. exists room. split; [done|]. destruct (Room.cleanlinessStatus room); auto; done.
Qed.

Lemma room_step (c : bool) i to u d room : (c = false -> room_of i d = Some room /\ ladder_allows (Room.cleanlinessStatus room) to = true) ->
  exists d', (if c then ret tt else transitionRoomCleanliness i to u) d = Ok (d', tt) /\ board d' = board d /\ clock d' = clock d /\
    (c = true -> rooms d' = rooms d) /\ (c = false -> exists room', room_of i d' = Some room' /\ Room.cleanlinessStatus room' = to).
Proof.
  intros Hc. destruct c; [exists d; naive_solver|]. destruct (Hc eq_refl) as [Hr Hl].
  destruct (transition_run i to u d room Hr Hl) as (d' & ? & ? & ? & ?). exists d'. split_and!; done.
Qed.
Lemma start_run d t u room : List.find (task_where (HousekeepingTask.id t)) (housekeepingTasks d) = Some t -> HousekeepingTask.status t = task_pending ->
  HousekeepingTask.assigneeId t = None ->
  (is_turndown t = false -> room_of (HousekeepingTask.roomId t) d = Some room /\ ladder_allows (Room.cleanlinessStatus room) cleaning = true) ->
  exists d', startTask (HousekeepingTask.id t) u d = Ok (d', HousekeepingTask.with_started task_in_progress (Some u) t) /\
    List.find (task_where (HousekeepingTask.id t)) (housekeepingTasks d') = Some (HousekeepingTask.with_started task_in_progress (Some u) t) /\
    (is_turndown t = true -> rooms d' = rooms d) /\
    (is_turndown t = false -> exists room', room_of (HousekeepingTask.roomId t) d' = Some room' /\ Room.cleanlinessStatus room' = cleaning).
Proof.
  intros Ht Hs Ha Hr. destruct (room_step (is_turndown t) _ cleaning (Some u) d room Hr) as (d1 & H1 & Hb & _ & Hno & Hyes).
  eexists. split.
  - unfold startTask, findTaskOrThrow, orThrow, findFirst, gets, bind, lift. rewrite Ht. cbn. rewrite bool_decide_true by done. cbn.
    unfold claimed_by_other. rewrite Ha. cbn. unfold ret in H1 |- *. rewrite H1. cbn. reflexivity.
  - cbn. unfold board in Hb. simplify_eq Hb. intros _ ->. rewrite find_update_same; [|done|done]. rewrite Ht. cbn. split; [done|]. auto.
Qed.
Lemma complete_run d t u room : List.find (task_where (HousekeepingTask.id t)) (housekeepingTasks d) = Some t -> HousekeepingTask.status t = task_in_progress ->
  HousekeepingTask.assigneeId t = Some u ->
  (is_turndown t = false -> room_of (HousekeepingTask.roomId t) d = Some room /\ ladder_allows (Room.cleanlinessStatus room) clean = true) ->
  exists d', completeTask (HousekeepingTask.id t) u d = Ok (d', HousekeepingTask.with_done task_done (Some (clock d)) (Some u) t) /\
    (is_turndown t = true -> rooms d' = rooms d) /\
    (is_turndown t = false -> exists room', room_of (HousekeepingTask.roomId t) d' = Some room' /\ Room.cleanlinessStatus room' = clean).
Proof.
  intros Ht Hs Ha Hr. destruct (room_step (is_turndown t) _ clean (Some u) d room Hr) as (d1 & H1 & Hb & Hcl & Hno & Hyes).
  eexists. split.
  - unfold completeTask, findTaskOrThrow, orThrow, findFirst, gets, bind, lift, now, gets. rewrite Ht. cbn. rewrite bool_decide_true by done. cbn.
    unfold claimed_by_other. rewrite Ha. cbn. rewrite (bool_decide_true (u = u)) by done. rewrite andb_false_r. cbn. unfold ret in H1 |- *. rewrite H1. cbn. rewrite Hcl. reflexivity.
  - cbn. auto.
Qed.
End Work.

(** a task put on the board can be worked, whatever state its room is in
    (the room that was clean or inspected goes back to dirty with it, so that
    starting is never refused): whoever starts it succeeds and can complete it,
    a clean leaves the room clean and still to be inspected, a turndown leaves
    every room as it was, the record names who did it, and between the two
    nobody else can finish it. *)
Theorem raised_task_can_be_worked `{Platform} `{Uuid} (b : string) (o : TaskOpts) (u : string) (d d1 : Db) (t : HousekeepingTask.t) :
  named HousekeepingTask.id (seq d) (housekeepingTasks d) -> (raises_clean o -> is_Some (room_of (to_roomId o) d)) -> u <> "" ->
  createTaskInTx b o d = Ok (d1, t) ->
  exists d2 t2 d3 t3, startTask (HousekeepingTask.id t) u d1 = Ok (d2, t2) /\ completeTask (HousekeepingTask.id t) u d2 = Ok (d3, t3) /\
    HousekeepingTask.status t3 = task_done /\ HousekeepingTask.completedBy t3 = Some u /\
    (raises_clean o -> exists room, room_of (to_roomId o) d3 = Some room /\ Room.cleanlinessStatus room = clean) /\
    (to_triggerEvent o = TURNDOWN -> rooms d3 = rooms d) /\
    forall v, v <> u -> completeTask (HousekeepingTask.id t) v d2 = Err forbidden.
Proof.
  intros [_ Hfresh] Hroom Hu Hm. destruct (create_room _ _ _ _ _ Hm) as [Hkeep Hclean].
  destruct (createTaskInTx_inv _ _ _ _ _ Hm) as (Hid & Hst & Has & Hr & Htr & Hb). unfold board in Hb. simplify_eq Hb. intros Hseq Hl.
  assert (is_turndown t = bool_decide (to_triggerEvent o = TURNDOWN)) as Hturn.
  { unfold is_turndown. rewrite Htr. apply bool_decide_ext. split; [by intros [= ->] | by intros ->]. }
  assert (List.find (task_where (HousekeepingTask.id t)) (housekeepingTasks d1) = Some t) as Ht.
  { rewrite Hl. apply find_app_new; [|by apply bool_decide_true]. intros x Hx. apply bool_decide_false. rewrite Hid. by apply Hfresh. }
  assert (exists room, is_turndown t = false -> room_of (HousekeepingTask.roomId t) d1 = Some room /\ ladder_allows (Room.cleanlinessStatus room) cleaning = true) as [room Hrd].
  { rewrite Hturn, Hr. case_bool_decide as E; [by eexists (new_room "" "" "" "" "" None)|]. destruct (Hclean E (Hroom E)) as (room & Hf & Hc). exists room.
    intros _. split; [done|]. by destruct Hc as [-> | ->]. }
  destruct (start_run d1 t u room Ht Hst Has Hrd) as (d2 & Hs2 & Ht2 & Hno2 & Hyes2). set (t2 := HousekeepingTask.with_started _ _ t) in *.
  assert (exists room, is_turndown t2 = false -> room_of (HousekeepingTask.roomId t2) d2 = Some room /\ ladder_allows (Room.cleanlinessStatus room) clean = true) as [room2 Hrd2].
  { change (is_turndown t2) with (is_turndown t). destruct (is_turndown t); [by eexists room|]. destruct (Hyes2 eq_refl) as (r2 & Hr2 & Hc2). exists r2. rewrite Hc2. done. }
  destruct (complete_run d2 t2 u room2 Ht2 eq_refl eq_refl Hrd2) as (d3 & Hs3 & Hno3 & Hyes3).
  eexists _, _, _, _. split; [exact Hs2|]. split; [exact Hs3|]. split; [done|]. split; [done|]. change (is_turndown t2) with (is_turndown t) in *.
  rewrite Hturn in *. split_and!.
  - intros E. rewrite bool_decide_false in Hyes3 by done. rewrite <- Hr. auto.
  - intros E. rewrite bool_decide_true in Hno2, Hno3 by done. rewrite Hno3, Hno2 by done. auto.
  - intros v Hv. unfold completeTask, findTaskOrThrow, orThrow, findFirst, gets, bind, lift. rewrite Ht2. cbn.
    unfold claimed_by_other. cbn. unfold nonempty. rewrite (bool_decide_false (u = "")), (bool_decide_false (u = v)) by congruence. done.
Qed.

Module HousekeepingWitness.
Import Hotel.
Lemma hotel_board : board_ok (board hotel).
Proof. constructor; simpl; [split; [by apply NoDup_nil_2|intros ? ? []%elem_of_nil] | intros ? []%elem_of_nil | intros ? ? []%elem_of_nil]. Qed.
Definition towels : CreateTaskDto := {| ct_roomId := "101"; ct_priority := Some 1; ct_notes := None; ct_kind := None |}.
Lemma towels_ok : is_ok (createTask "b1" towels "u1" hotel) = true.
Proof. vm_compute. reflexivity. Qed.
Lemma board_invariant_witness : exists d', rtc board_step hotel d' /\ length (housekeepingTasks d') = 1%nat /\ board_ok (board d').
Proof.
  destruct (run_ok _ _ towels_ok) as (d' & t & Hm). exists d'.
  assert (rtc board_step hotel d') as Hs by (apply rtc_once; eapply step_create; exact Hm). split; [exact Hs|]. split.
  - assert (length (housekeepingTasks (after (createTask "b1" towels "u1") hotel)) = 1%nat) as Hl by (vm_compute; reflexivity).
    unfold after in Hl. rewrite Hm in Hl. exact Hl.
  - apply (board_invariant hotel d' hotel_board Hs).
Defined.

Definition checkout_clean : TaskOpts := {| to_roomId := "102"; to_priority := None; to_notes := None; to_triggerEvent := "checkout"; to_reservationId := None;
  to_taskDate := day 20001; to_actorId := Some "u1" |}.
Lemma checkout_clean_ok : is_ok (createTaskInTx "b1" checkout_clean hotel) = true.
Proof. vm_compute. reflexivity. Qed.
Lemma raised_task_can_be_worked_witness : exists d1 t d3 t3, createTaskInTx "b1" checkout_clean hotel = Ok (d1, t) /\
  completeTask (HousekeepingTask.id t) "u1" (after (startTask (HousekeepingTask.id t) "u1") d1) = Ok (d3, t3) /\ HousekeepingTask.status t3 = task_done.
Proof.
  destruct (run_ok _ _ checkout_clean_ok) as (d1 & t & Hm).
  destruct (raised_task_can_be_worked "b1" checkout_clean "u1" hotel d1 t) as (d2 & t2 & d3 & t3 & Hs & Hc & Hd & _);
    [exact (tasks_named _ hotel_board) | intros _; vm_compute; eauto | done | exact Hm |].
  exists d1, t, d3, t3. unfold after. rewrite Hs. auto.
Defined.
End HousekeepingWitness.
