(* ===== verification/SalesRules.v ===== *)
(** What may be sold: restrictions on the nights
    (src/src/modules/revenue-management/restrictions.service.ts), how much of a
    room type one channel may sell (channel-allotments.service.ts) and the
    nights a group's bookings keep to (sales-events/group-block-window.ts). *)
From stdpp Require Import pretty.
From S2P Require Import Prelude Decimal Json Dates StayPolicies Taxes Authority Transactions Db SampleHotel Rooms.
From Stdlib Require Import QArith Qcanon.
Import StayFees StayFeesProps.
Local Open Scope Z_scope.

Definition not_available : error := Throw ConflictException RESERVATION_NOT_AVAILABLE.
(** [Math.round((to - from) / 86_400_000)] *)
Definition round_days (from to : Z) : Z := (2 * (to - from) + DAY_MS) / (2 * DAY_MS).
(** [n && p(n)] on an optional number: absent and zero are falsy. *)
Definition when_set (n : option Z) (p : Z -> bool) : bool := match n with Some n => negb (n =? 0) && p n | None => false end.
Definition for_type (t : string) (o : option string) : bool := match o with None => true | Some t' => bool_decide (t' = t) end.

(** A room type named in a request is one of the branch. *)
Definition known_type (o : option string) (b : string) : M unit :=
  match o with
  | Some t => let! _ := orThrow (findFirst roomTypes (type_at t b)) not_found in ret tt
  | None => ret tt
  end.

(** ** Restrictions *)
Record CreateRestrictionDto := { cr_roomTypeId : option string; cr_startDate : string; cr_endDate : string; cr_minLOS : option Z; cr_maxLOS : option Z;
                                 cr_closedToArrival : option bool; cr_stopSell : option bool }.

Section Restrictions.
Context `{Uuid}.

Definition restriction_audit (b : string) (u : option string) (action i : string) : M unit := auditLog (Some b) u action "availability_restriction" i.

Definition createRestriction (b : string) (dto : CreateRestrictionDto) (actorId : string) : M AvailabilityRestriction.t :=
  let! start := lift (or_throw (toBranchDate (cr_startDate dto)) invalid) in
  let! end_ := lift (or_throw (toBranchDate (cr_endDate dto)) invalid) in
  throw! invalid when negb (start <? end_) in
  throw! invalid when when_set (cr_minLOS dto) (fun lo => when_set (cr_maxLOS dto) (fun hi => hi <? lo)) in
  throw! invalid when (negb (when_set (cr_minLOS dto) (fun _ => true)) && negb (when_set (cr_maxLOS dto) (fun _ => true)) &&
                       negb (default false (cr_closedToArrival dto)) && negb (default false (cr_stopSell dto))) in
  do! known_type (cr_roomTypeId dto) b in
  let! overlapping := findFirst availabilityRestrictions (fun r => bool_decide (AvailabilityRestriction.branchId r = b) && bool_decide (AvailabilityRestriction.roomTypeId r = cr_roomTypeId dto) &&
    (AvailabilityRestriction.startDate r <? end_) && (start <? AvailabilityRestriction.endDate r)) in
  throw! conflict when isSome overlapping in
  let! i := new_id in
  let row := {| AvailabilityRestriction.id := i; AvailabilityRestriction.branchId := b; AvailabilityRestriction.roomTypeId := cr_roomTypeId dto; AvailabilityRestriction.startDate := start; AvailabilityRestriction.endDate := end_; AvailabilityRestriction.minLOS := cr_minLOS dto; AvailabilityRestriction.maxLOS := cr_maxLOS dto;
                AvailabilityRestriction.closedToArrival := default false (cr_closedToArrival dto); AvailabilityRestriction.stopSell := default false (cr_stopSell dto) |} in
  do! modify (upd_availabilityRestrictions (fun l => l ++ [row])) in
  do! restriction_audit b (Some actorId) "availability_restriction.created" i in
  ret row.

Definition deleteRestriction (i : string) (actorId : option string) : M unit :=
  let! restriction := orThrow (findFirst availabilityRestrictions (fun r => bool_decide (AvailabilityRestriction.id r = i))) not_found in
  do! modify (upd_availabilityRestrictions (List.filter (fun r => negb (bool_decide (AvailabilityRestriction.id r = i))))) in
  restriction_audit (AvailabilityRestriction.branchId restriction) actorId "availability_restriction.removed" i.

(** The rules that touch a stay of a room type. *)
Definition touches (b t : string) (from to : Z) (r : AvailabilityRestriction.t) : bool :=
  bool_decide (AvailabilityRestriction.branchId r = b) && for_type t (AvailabilityRestriction.roomTypeId r) && (AvailabilityRestriction.startDate r <? to) && (from <? AvailabilityRestriction.endDate r).

Definition assertNoViolation (b t : string) (checkIn checkOut : Z) : M unit :=
  let! restrictions := findMany availabilityRestrictions (touches b t checkIn checkOut) in
  let stayLength := round_days checkIn checkOut in
  for_each restrictions tt (fun _ r =>
    throw! not_available when AvailabilityRestriction.stopSell r in
    throw! not_available when (AvailabilityRestriction.closedToArrival r && (AvailabilityRestriction.startDate r <=? checkIn) && (checkIn <? AvailabilityRestriction.endDate r)) in
    throw! not_available when when_set (AvailabilityRestriction.minLOS r) (fun lo => stayLength <? lo) in
    throw! not_available when when_set (AvailabilityRestriction.maxLOS r) (fun hi => hi <? stayLength) in
    ret tt).

Definition assertExtensionAllowed (b t : string) (checkIn oldCheckOut newCheckOut : Z) : M unit :=
  let! restrictions := findMany availabilityRestrictions (touches b t checkIn newCheckOut) in
  let stayLength := round_days checkIn newCheckOut in
  for_each restrictions tt (fun _ r =>
    throw! not_available when (AvailabilityRestriction.stopSell r && ((AvailabilityRestriction.startDate r <? newCheckOut) && (oldCheckOut <? AvailabilityRestriction.endDate r))) in
    throw! not_available when when_set (AvailabilityRestriction.maxLOS r) (fun hi => hi <? stayLength) in
    ret tt).
End Restrictions.

(** ** Channel allotments *)
Record CreateAllotmentDto := { ca_roomTypeId : string; ca_channel : ReservationChannel; ca_fromDate : string; ca_toDate : string; ca_rooms : Z }.
Record UpdateAllotmentDto := { ua_fromDate : option string; ua_toDate : option string; ua_rooms : option Z }.

Section Allotments.
Context `{Uuid}.

Definition allotment_audit (b u action i : string) : M unit := auditLog (Some b) (Some u) action "channel_allotment" i.
(** [if (toDate < fromDate) throw], on the ISO strings *)
Definition assertDates (from to : string) : M unit := lift (throw_if (String.ltb to from) invalid).
(** The table's checks: a range that ends no earlier than it starts, and no negative number of rooms. *)
Definition allotment_checked (row : ChannelAllotment.t) : M unit := lift (throw_if ((ChannelAllotment.toDate row <? ChannelAllotment.fromDate row) || (ChannelAllotment.rooms row <? 0)) internal).

Definition createAllotment (b : string) (dto : CreateAllotmentDto) (actorId : string) : M ChannelAllotment.t :=
  let! _ := assertBranch b in
  let! _ := orThrow (findFirst roomTypes (type_at (ca_roomTypeId dto) b)) not_found in
  do! assertDates (ca_fromDate dto) (ca_toDate dto) in
  let! from := a_date (ca_fromDate dto) in
  let! to := a_date (ca_toDate dto) in
  let! i := new_id in
  let row := {| ChannelAllotment.id := i; ChannelAllotment.branchId := b; ChannelAllotment.roomTypeId := ca_roomTypeId dto; ChannelAllotment.channel := ca_channel dto; ChannelAllotment.fromDate := from; ChannelAllotment.toDate := to; ChannelAllotment.rooms := ca_rooms dto |} in
  do! allotment_checked row in
  do! modify (upd_channelAllotments (fun l => l ++ [row])) in
  do! allotment_audit b actorId "channel_allotment.created" i in
  ret row.

Definition updateAllotment (i : string) (dto : UpdateAllotmentDto) (actorId : string) : M ChannelAllotment.t :=
  let! existing := orThrow (findFirst channelAllotments (fun a => bool_decide (ChannelAllotment.id a = i))) not_found in
  let fromDate := default (iso_date (ChannelAllotment.fromDate existing)) (ua_fromDate dto) in
  let toDate := default (iso_date (ChannelAllotment.toDate existing)) (ua_toDate dto) in
  do! assertDates fromDate toDate in
  let! from := a_date fromDate in
  let! to := a_date toDate in
  let data x := ChannelAllotment.with_range from to (default (ChannelAllotment.rooms x) (ua_rooms dto)) x in
  do! allotment_checked (data existing) in
  do! modify (upd_channelAllotments (update_where (fun a => bool_decide (ChannelAllotment.id a = i)) data)) in
  do! allotment_audit (ChannelAllotment.branchId existing) actorId "channel_allotment.updated" i in
  ret (data existing).

Definition removeAllotment (i actorId : string) : M unit :=
  let! existing := orThrow (findFirst channelAllotments (fun a => bool_decide (ChannelAllotment.id a = i))) not_found in
  do! modify (upd_channelAllotments (List.filter (fun a => negb (bool_decide (ChannelAllotment.id a = i))))) in
  allotment_audit (ChannelAllotment.branchId existing) actorId "channel_allotment.removed" i.

Record CoveredNight := { cn_night : string; cn_limit : Z; cn_sold : Z }.
(** [Math.min(...l)] of a non-empty list *)
Definition min_of (x : Z) (l : list Z) : Z := foldl Z.min x l.
Definition sold_through (b t : string) (c : ReservationChannel) (from to : Z) (except : option string) (r : Reservation.t) : bool :=
  bool_decide (Reservation.branchId r = b) && bool_decide (Reservation.roomTypeId r = t) && bool_decide (Reservation.channel r = c) &&
  isNone (Reservation.deletedAt r) && negb (Reservation.isDayUse r) && holding (Reservation.status r) &&
  (Reservation.checkInDate r <? to) && (from <? Reservation.checkOutDate r) &&
  match except with Some i => negb (bool_decide (Reservation.id r = i)) | None => true end.
Definition on_night (night : Z) (r : Reservation.t) : bool := (Reservation.checkInDate r <=? night) && (night <? Reservation.checkOutDate r).

Definition coveredNights (b t : string) (c : ReservationChannel) (from to : Z) (except : option string) : M (list CoveredNight) :=
  let! allotments := findMany channelAllotments (fun a => bool_decide (ChannelAllotment.branchId a = b) && bool_decide (ChannelAllotment.roomTypeId a = t) && bool_decide (ChannelAllotment.channel a = c) &&
    (ChannelAllotment.fromDate a <? to) && (from <=? ChannelAllotment.toDate a)) in
  if bool_decide (length allotments = 0%nat) then ret []
  else
    let! stays := findMany reservations (sold_through b t c from to except) in
    ret (nights_between from to ≫= fun night =>
      match ChannelAllotment.rooms <$> List.filter (fun a => (ChannelAllotment.fromDate a <=? night) && (night <=? ChannelAllotment.toDate a)) allotments with
      | [] => []
      | x :: l => [{| cn_night := iso_date night; cn_limit := min_of x l; cn_sold := Z.of_nat (length (List.filter (on_night night) stays)) |}]
      end).

Definition assertWithinAllotment (b t : string) (c : ReservationChannel) (from to : Z) (except : option string) : M unit :=
  let! nights := coveredNights b t c from to except in
  for_each nights tt (fun _ n => lift (throw_if (cn_limit n <? cn_sold n + 1) not_available)).

Definition remainingByNight (b t : string) (c : ReservationChannel) (from to : Z) : M (list (string * Z)) :=
  let! covered := coveredNights b t c from to None in
  ret ((fun n => (cn_night n, Z.max 0 (cn_limit n - cn_sold n))) <$> covered).
End Allotments.

(** ** Group blocks *)
Definition SHOULDER_NIGHTS : Z := 2.
(** Whether the stay falls outside the block; the explanation is dropped. *)
Definition outsideGroupBlock (arrivalDate departureDate : option Z) (checkIn checkOut : string) : bool :=
  match arrivalDate, departureDate with
  | Some arrival, Some departure =>
      let shift (t n : Z) := iso_date (t + n * DAY_MS) in
      String.ltb checkIn (shift (day_of arrival * DAY_MS) (- SHOULDER_NIGHTS)) || String.ltb (shift (day_of departure * DAY_MS) SHOULDER_NIGHTS) checkOut
  | _, _ => false
  end.

(** ** What the rules promise *)
(** A loop that only checks throws at the first element that fails. *)
Lemma for_each_guard {B} (l : list B) (bad : B -> bool) e (body : unit -> B -> M unit) d :
  (forall x, body tt x d = if bad x then Err e else Ok (d, tt)) -> for_each l tt body d = if existsb bad l then Err e else Ok (d, tt).
Proof.
  intros Hb. induction l as [|x l IH]; simpl; [done|]. unfold bind. rewrite Hb. by destruct (bad x).
Qed.

(** A rule is in force on a night. *)
Definition in_force (r : AvailabilityRestriction.t) (night : Z) : Prop := AvailabilityRestriction.startDate r <= night < AvailabilityRestriction.endDate r.
Definition los_ok (r : AvailabilityRestriction.t) (n : Z) : Prop :=
  (forall lo, AvailabilityRestriction.minLOS r = Some lo -> lo <> 0 -> lo <= n) /\ (forall hi, AvailabilityRestriction.maxLOS r = Some hi -> hi <> 0 -> n <= hi).
(** Night by night: none is off sale, the arrival night takes arrivals, and the
    length suits every rule in force on one of them. *)
Definition stay_allowed (d : Db) (b t : string) (checkIn checkOut : Z) : Prop :=
  forall r, r ∈ availabilityRestrictions d -> AvailabilityRestriction.branchId r = b -> for_type t (AvailabilityRestriction.roomTypeId r) = true ->
    (in_force r checkIn -> AvailabilityRestriction.closedToArrival r = false) /\
    (forall night, night ∈ nights_between checkIn checkOut -> in_force r night ->
       AvailabilityRestriction.stopSell r = false /\ los_ok r (Z.of_nat (length (nights_between checkIn checkOut)))).
Record restriction_dates (d : Db) : Prop := {
  rd_start r : r ∈ availabilityRestrictions d -> midnight (AvailabilityRestriction.startDate r);
  rd_end r : r ∈ availabilityRestrictions d -> midnight (AvailabilityRestriction.endDate r);
  rd_order r : r ∈ availabilityRestrictions d -> AvailabilityRestriction.startDate r < AvailabilityRestriction.endDate r;
}.

Lemma midnight_mul t : midnight t -> exists k, t = k * DAY_MS.
Proof. intros Ht. exists (t / DAY_MS). unfold midnight in Ht. pose proof (Z.div_mod t DAY_MS ltac:(done)). lia. Qed.
Lemma nights_from_length fuel k m : (Z.to_nat (m - k) <= fuel)%nat -> length (nights_from fuel (k * DAY_MS) (m * DAY_MS)) = Z.to_nat (m - k).
Proof.
  revert k. induction fuel as [|fuel IH]; intros k Hf; simpl; [lia|]. destruct (Z.ltb_spec (k * DAY_MS) (m * DAY_MS)) as [Hlt|Hge].
  - apply Z.mul_lt_mono_pos_r in Hlt; [|done]. simpl. replace (k * DAY_MS + DAY_MS) with ((k + 1) * DAY_MS) by ring. rewrite IH; lia.
  - apply Z.mul_le_mono_pos_r in Hge; [|done]. simpl. lia.
Qed.
Lemma round_days_nights from to : midnight from -> midnight to -> from <= to -> round_days from to = Z.of_nat (length (nights_between from to)).
Proof.
  intros [k ->]%midnight_mul [m ->]%midnight_mul Hle. apply Z.mul_le_mono_pos_r in Hle; [|done]. unfold round_days, nights_between.
  replace (m * DAY_MS - k * DAY_MS) with ((m - k) * DAY_MS) by ring. rewrite Z.div_mul by done. rewrite nights_from_length by lia. rewrite Z2Nat.id by lia.
  replace (2 * ((m - k) * DAY_MS) + DAY_MS) with (DAY_MS + (m - k) * (2 * DAY_MS)) by ring. rewrite Z.div_add by done. reflexivity.
Qed.
Lemma when_set_spec o p : when_set o p = true <-> exists n, o = Some n /\ n <> 0 /\ p n = true.
Proof. unfold when_set. destruct o as [n|]; [|naive_solver]. rewrite andb_true_iff, negb_true_iff, Z.eqb_neq. naive_solver. Qed.

Definition breaks (r : AvailabilityRestriction.t) (checkIn n : Z) : bool :=
  AvailabilityRestriction.stopSell r || (AvailabilityRestriction.closedToArrival r && (AvailabilityRestriction.startDate r <=? checkIn) && (checkIn <? AvailabilityRestriction.endDate r)) ||
  when_set (AvailabilityRestriction.minLOS r) (fun lo => n <? lo) || when_set (AvailabilityRestriction.maxLOS r) (fun hi => hi <? n).
Lemma assertNoViolation_run b t i o d : assertNoViolation b t i o d =
  if existsb (fun r => breaks r i (round_days i o)) (List.filter (touches b t i o) (availabilityRestrictions d)) then Err not_available else Ok (d, tt).
Proof.
  unfold assertNoViolation. erewrite bind_run by reflexivity. apply for_each_guard. intros r. unfold breaks, bind, lift, throw_if.
  destruct (AvailabilityRestriction.stopSell r); [done|]. cbn. destruct (_ && _ && _); [done|]. cbn. destruct (when_set _ _); [done|]. cbn. by destruct (when_set _ _).
Qed.

Lemma in_force_touches b t i o r night : AvailabilityRestriction.branchId r = b -> for_type t (AvailabilityRestriction.roomTypeId r) = true -> i <= night < o -> in_force r night -> touches b t i o r = true.
Proof. unfold in_force, touches. intros Hb -> Hn Hf. rewrite bool_decide_true by done. apply andb_true_iff. split; [apply andb_true_iff; split; [done|]|]; apply Z.ltb_lt; lia. Qed.
Lemma breaks_spec r i n : breaks r i n = false <->
  AvailabilityRestriction.stopSell r = false /\ (in_force r i -> AvailabilityRestriction.closedToArrival r = false) /\ los_ok r n.
Proof.
  unfold breaks, in_force, los_ok. rewrite !orb_false_iff, <- !not_true_iff_false, !when_set_spec, !andb_true_iff, Z.leb_le, !Z.ltb_lt. split.
  - intros [[[Hs Hc] Hlo] Hhi]. split; [done|]. split; [intros Hf; tauto|]. split; intros x Hx H0.
    + destruct (Z.le_gt_cases x n) as [|Hgt%Z.ltb_lt]; [done|]. destruct Hlo. eauto.
    + destruct (Z.le_gt_cases n x) as [|Hgt%Z.ltb_lt]; [done|]. destruct Hhi. eauto.
  - intros (Hs & Hc & Hlo & Hhi). split; [split; [split|]|]; [done|tauto| |].
    + intros (x & Hx & H0 & Hlt%Z.ltb_lt). specialize (Hlo x Hx H0). lia.
    + intros (x & Hx & H0 & Hlt%Z.ltb_lt). specialize (Hhi x Hx H0). lia.
Qed.
Lemma touches_night d b t i o r : restriction_dates d -> r ∈ availabilityRestrictions d -> midnight i -> midnight o -> i < o -> touches b t i o r = true ->
  AvailabilityRestriction.branchId r = b /\ for_type t (AvailabilityRestriction.roomTypeId r) = true /\ exists night, night ∈ nights_between i o /\ in_force r night.
Proof.
  intros [Hs _ Ho] Hr Hi _ Hio. unfold touches. rewrite !andb_true_iff, bool_decide_eq_true, !Z.ltb_lt. intros [[[Hb Ht] H1] H2]. split; [done|]. split; [done|].
  exists (Z.max (AvailabilityRestriction.startDate r) i). specialize (Ho _ Hr). rewrite elem_of_nights_midnight; [unfold in_force; lia|done|].
  destruct (Z.max_spec (AvailabilityRestriction.startDate r) i) as [[_ ->]|[_ ->]]; auto.
Qed.

(** the rules a booking meets are the rules night by night: the check passes
    exactly when no night of the stay is under a stop-sell, the arrival night is
    open to arrivals, and the number of nights lies within every minimum and
    maximum in force on one of them, for this room type or for all; otherwise
    the booking is refused as not available, and nothing else happens. *)
Theorem restrictions_enforced (b t : string) (checkIn checkOut : Z) (d : Db) :
  restriction_dates d -> midnight checkIn -> midnight checkOut -> checkIn < checkOut ->
  (stay_allowed d b t checkIn checkOut /\ assertNoViolation b t checkIn checkOut d = Ok (d, tt)) \/
  (~ stay_allowed d b t checkIn checkOut /\ assertNoViolation b t checkIn checkOut d = Err not_available).
Proof.
  intros Hd Hi Ho Hio. rewrite assertNoViolation_run, round_days_nights by (done || lia). set (n := Z.of_nat _).
  destruct (existsb _ _) eqn:E; [right|left]; (split; [|done]).
  - apply existsb_exists_elem in E as (r & [Hr Ht]%elem_of_filterb & Hb). intros Hall.
    destruct (touches_night _ _ _ _ _ _ Hd Hr Hi Ho Hio Ht) as (Hbr & Hty & night & Hn & Hf).
    destruct (Hall r Hr Hbr Hty) as [Hc Hnights]. destruct (Hnights night Hn Hf) as [Hs Hlos].
    rewrite (proj2 (breaks_spec r checkIn n)) in Hb; done.
  - intros r Hr Hbr Hty. assert (forall night, checkIn <= night < checkOut -> in_force r night -> breaks r checkIn n = false) as Hno.
    { intros night Hn Hf. apply not_true_iff_false. intros Hb. rewrite <- not_true_iff_false, existsb_exists_elem in E. apply E. exists r. split; [|done].
      apply elem_of_filterb. split; [done|]. by eapply in_force_touches. }
    split.
    + intros Hf. pose proof (Hno checkIn (conj (Z.le_refl _) Hio) Hf) as Hb. apply breaks_spec in Hb as (_ & Hc & _). auto.
    + intros night Hn Hf. apply elem_of_nights_between in Hn as (k & Hk & -> & Hlt).
      assert (breaks r checkIn n = false) as Hb by (apply Hno in Hf; [done | unfold DAY_MS in *; lia]). by apply breaks_spec in Hb as (Hs & _ & Hlos).
Qed.

Lemma known_type_same o b d d' x : known_type o b d = Ok (d', x) -> d' = d.
Proof. unfold known_type. destruct o; intros Hm; by m_inv. Qed.

(** *** The rules themselves *)
Record restriction_ok (r : AvailabilityRestriction.t) : Prop := {
  ro_order : AvailabilityRestriction.startDate r < AvailabilityRestriction.endDate r;
  ro_says : AvailabilityRestriction.stopSell r = true \/ AvailabilityRestriction.closedToArrival r = true \/ when_set (AvailabilityRestriction.minLOS r) (fun _ => true) = true \/ when_set (AvailabilityRestriction.maxLOS r) (fun _ => true) = true;
  ro_los lo hi : AvailabilityRestriction.minLOS r = Some lo -> AvailabilityRestriction.maxLOS r = Some hi -> lo <> 0 -> hi <> 0 -> lo <= hi;
}.
Record restrictions_wf `{Uuid} (d : Db) : Prop := {
  rw_named : named AvailabilityRestriction.id (seq d) (availabilityRestrictions d);
  rw_ok r : r ∈ availabilityRestrictions d -> restriction_ok r;
  rw_dates : restriction_dates d;
  (** for one room type (or for all of them), one rule per night *)
  rw_apart r s night : r ∈ availabilityRestrictions d -> s ∈ availabilityRestrictions d -> AvailabilityRestriction.branchId r = AvailabilityRestriction.branchId s -> AvailabilityRestriction.roomTypeId r = AvailabilityRestriction.roomTypeId s ->
    in_force r night -> in_force s night -> r = s;
}.
Inductive restriction_step `{Uuid} (d d' : Db) : Prop :=
| rs_create b dto u r : createRestriction b dto u d = Ok (d', r) -> restriction_step d d'
| rs_delete i u x : deleteRestriction i u d = Ok (d', x) -> restriction_step d d'.

Lemma createRestriction_inv `{Uuid} b dto u d d' r : createRestriction b dto u d = Ok (d', r) ->
  seq d' = S (seq d) /\ availabilityRestrictions d' = availabilityRestrictions d ++ [r] /\ AvailabilityRestriction.id r = gen_random_uuid (seq d) /\
  midnight (AvailabilityRestriction.startDate r) /\ midnight (AvailabilityRestriction.endDate r) /\ restriction_ok r /\
  forall s, s ∈ availabilityRestrictions d -> AvailabilityRestriction.branchId s = AvailabilityRestriction.branchId r -> AvailabilityRestriction.roomTypeId s = AvailabilityRestriction.roomTypeId r -> ~ (AvailabilityRestriction.startDate s < AvailabilityRestriction.endDate r /\ AvailabilityRestriction.startDate r < AvailabilityRestriction.endDate s).
Proof.
  unfold createRestriction, restriction_audit, auditLog. intros Hm.
  repeat (m_step; try match goal with H : new_id _ = _ |- _ => apply new_id_spec in H as [-> ->] | H : known_type _ _ _ = _ |- _ => apply known_type_same in H as -> end).
  cbn. split; [done|]. split; [done|]. split; [done|]. split; [by eapply toBranchDate_midnight|]. split; [by eapply toBranchDate_midnight|].
  match goal with H : negb (_ <? _) = false |- _ => apply negb_false_iff, Z.ltb_lt in H end.
  match goal with H : when_set _ (fun lo => when_set _ _) = false |- _ => rename H into Hlos end.
  match goal with H : _ && negb (default false (cr_stopSell dto)) = false |- _ => rename H into Hsays end.
  match goal with H : isSome _ = false |- _ => apply isSome_false in H; rename H into Hfree end. split.
  - split; cbn; [done| |].
    + boolp. naive_solver.
    + intros lo hi Hlo Hhi H1 H2. rewrite Hlo, Hhi in Hlos. cbn in Hlos. rewrite !(proj2 (Z.eqb_neq _ _)) in Hlos by done. cbn in Hlos. by apply Z.ltb_ge in Hlos.
  - intros s Hs Hb Ht [H1 H2]. pose proof (find_None _ _ _ Hfree Hs) as Hno. cbn in Hno. rewrite (bool_decide_true _ Hb), (bool_decide_true _ Ht) in Hno. cbn in Hno.
    rewrite (proj2 (Z.ltb_lt _ _) H1), (proj2 (Z.ltb_lt _ _) H2) in Hno. done.
Qed.
Lemma deleteRestriction_inv `{Uuid} i u d d' x : deleteRestriction i u d = Ok (d', x) ->
  seq d' = seq d /\ availabilityRestrictions d' = List.filter (fun r => negb (bool_decide (AvailabilityRestriction.id r = i))) (availabilityRestrictions d).
Proof. unfold deleteRestriction, restriction_audit, auditLog. intros Hm. m_inv. done. Qed.

Lemma restriction_step_wf `{Uuid} d d' : restriction_step d d' -> restrictions_wf d -> restrictions_wf d'.
Proof.
  intros [b dto u r Hm|i u x Hm] [Hn Hok [Ds De Do] Ha].
  - destruct (createRestriction_inv _ _ _ _ _ _ Hm) as (Hseq & Hl & Hid & Hms & Hme & Hr & Hfree).
    assert (forall s, s ∈ availabilityRestrictions d' -> s ∈ availabilityRestrictions d \/ s = r) as Hin.
    { intros s. rewrite Hl, elem_of_app, list_elem_of_singleton. done. }
    constructor; [rewrite Hl, Hseq; by apply named_app| |constructor|].
    1-4: intros s Hs; destruct (Hin s Hs) as [?| ->]; auto. { by destruct Hr. }
    intros s s' night Hs Hs' Hb Ht F F'. destruct (Hin s Hs) as [Hs1| ->], (Hin s' Hs') as [Hs2| ->]; eauto; exfalso; unfold in_force in *.
    + apply (Hfree s Hs1 Hb Ht). lia.
    + apply (Hfree s' Hs2); [done..|lia].
  - destruct (deleteRestriction_inv _ _ _ _ _ Hm) as [Hseq Hl].
    assert (forall s, s ∈ availabilityRestrictions d' -> s ∈ availabilityRestrictions d) as Hin by (intros s; rewrite Hl; by intros [? _]%elem_of_filterb).
    constructor; [rewrite Hl, Hseq; by apply named_filter| |constructor|]; eauto.
Qed.

(** the rules on sale never contradict one another: adding and removing them
    in any order, every rule covers at least one night and says something, its
    minimum stay is never above its maximum, and for one room type (or for all
    of them) no night is under two rules. *)
Theorem restrictions_invariant `{Uuid} (d d' : Db) : restrictions_wf d -> rtc restriction_step d d' -> restrictions_wf d'.
Proof. intros Hd. induction 1; eauto using restriction_step_wf. Qed.

(** *** The channel's share *)
Definition channel_stay (b t : string) (c : ReservationChannel) (except : option string) (night : Z) (r : Reservation.t) : bool :=
  bool_decide (Reservation.branchId r = b) && bool_decide (Reservation.roomTypeId r = t) && bool_decide (Reservation.channel r = c) &&
  isNone (Reservation.deletedAt r) && negb (Reservation.isDayUse r) && holding (Reservation.status r) && on_night night r &&
  match except with Some i => negb (bool_decide (Reservation.id r = i)) | None => true end.
Definition channel_sold (d : Db) (b t : string) (c : ReservationChannel) (except : option string) (night : Z) : Z :=
  Z.of_nat (length (List.filter (channel_stay b t c except night) (reservations d))).
Definition allots (b t : string) (c : ReservationChannel) (night : Z) (a : ChannelAllotment.t) : Prop :=
  ChannelAllotment.branchId a = b /\ ChannelAllotment.roomTypeId a = t /\ ChannelAllotment.channel a = c /\ ChannelAllotment.fromDate a <= night <= ChannelAllotment.toDate a.
(** One more stay through the channel keeps every night within every allotment over it. *)
Definition within_allotment (d : Db) (b t : string) (c : ReservationChannel) (except : option string) (from to : Z) : Prop :=
  forall night a, night ∈ nights_between from to -> a ∈ channelAllotments d -> allots b t c night a -> channel_sold d b t c except night + 1 <= ChannelAllotment.rooms a.

Lemma min_of_le x l y : y <= min_of x l <-> y <= x /\ forall z, z ∈ l -> y <= z.
Proof.
  unfold min_of. revert x. induction l as [|z l IH]; intros x; simpl; [split; [split; [done|] | tauto]; intros z []%elem_of_nil|].
  rewrite IH. setoid_rewrite elem_of_cons. split; [intros [H1 H2]; split; [lia|]; intros w [->|Hw]; [lia|auto] | intros [H1 H2]].
  split; [|auto]. specialize (H2 z (or_introl eq_refl)). lia.
Qed.
Lemma filter_andb {A} (p q : A -> bool) l : List.filter p (List.filter q l) = List.filter (fun x => q x && p x) l.
Proof. induction l as [|x l IH]; simpl; [done|]. destruct (q x); simpl; [destruct (p x)|]; by rewrite IH. Qed.
Lemma filter_extb {A} (p q : A -> bool) l : (forall x, x ∈ l -> p x = q x) -> List.filter p l = List.filter q l.
Proof. intros Hpq. induction l as [|x l IH]; simpl; [done|]. rewrite Hpq, IH; [done| |left]. intros y Hy. apply Hpq. by right. Qed.

Lemma sold_on_night b t c from to ex d night : from <= night < to ->
  Z.of_nat (length (List.filter (on_night night) (List.filter (sold_through b t c from to ex) (reservations d)))) = channel_sold d b t c ex night.
Proof.
  intros Hn. unfold channel_sold. do 2 f_equal. rewrite filter_andb. apply filter_extb. intros r _. unfold sold_through, channel_stay, on_night.
  destruct (Z.leb_spec (Reservation.checkInDate r) night), (Z.ltb_spec night (Reservation.checkOutDate r));
    rewrite ?andb_false_r, ?andb_true_r; try done.
  by rewrite (proj2 (Z.ltb_lt (Reservation.checkInDate r) to)), (proj2 (Z.ltb_lt from (Reservation.checkOutDate r))), !andb_true_r by lia.
Qed.

Lemma assertWithinAllotment_run b t c from to ex d :
  (within_allotment d b t c ex from to /\ assertWithinAllotment b t c from to ex d = Ok (d, tt)) \/
  (~ within_allotment d b t c ex from to /\ assertWithinAllotment b t c from to ex d = Err not_available).
Proof.
  set (mine := List.filter (fun a => bool_decide (ChannelAllotment.branchId a = b) && bool_decide (ChannelAllotment.roomTypeId a = t) && bool_decide (ChannelAllotment.channel a = c) &&
    (ChannelAllotment.fromDate a <? to) && (from <=? ChannelAllotment.toDate a)) (channelAllotments d)).
  assert (forall night a, night ∈ nights_between from to -> a ∈ channelAllotments d -> allots b t c night a <->
    a ∈ List.filter (fun a => (ChannelAllotment.fromDate a <=? night) && (night <=? ChannelAllotment.toDate a)) mine) as Hmine.
  { intros night a Hn Ha. apply elem_of_nights_between in Hn as (k & Hk & -> & Hlt). unfold mine, allots. rewrite filter_andb, elem_of_filterb.
    rewrite !andb_true_iff, !bool_decide_eq_true, !Z.leb_le, Z.ltb_lt. unfold DAY_MS in *. split; [intros (? & ? & ? & ?) | intros (? & ((((? & ?) & ?) & ?) & ?) & ? & ?)]; split_and!; try done; lia. }
  set (full n := cn_limit n <? cn_sold n + 1).
  assert (exists nights, coveredNights b t c from to ex d = Ok (d, nights) /\ (existsb full nights = false <-> within_allotment d b t c ex from to)) as (nights & Hc & Hw).
  { unfold coveredNights. erewrite bind_run by reflexivity. fold mine. case_bool_decide as E.
    - exists []. split; [done|]. split; [|done]. intros _ night a Hn Ha Hal. apply (Hmine night a Hn Ha) in Hal as [Hal _]%elem_of_filterb.
      destruct mine; [by apply elem_of_nil in Hal | done].
    - erewrite bind_run by reflexivity. eexists. split; [reflexivity|]. rewrite <- not_true_iff_false, existsb_exists_elem. setoid_rewrite list_elem_of_bind. split.
      + intros Hno night a Hn Ha Hal. pose proof Hn as (k & Hk & -> & Hlt)%elem_of_nights_between. apply (Hmine _ a Hn Ha) in Hal. rewrite <- (sold_on_night b t c from to) by (unfold DAY_MS in *; lia).
        apply Z.nlt_ge. intros Hfull. apply Hno. clear Hno. apply (list_elem_of_fmap_2 ChannelAllotment.rooms) in Hal.
        destruct (ChannelAllotment.rooms <$> _) as [|x l] eqn:El; [by apply elem_of_nil in Hal|]. eexists. split; [eexists; split; [|exact Hn]; rewrite El; by left|].
        apply Z.ltb_lt. simpl. assert (min_of x l <= ChannelAllotment.rooms a); [|lia].
        destruct (proj1 (min_of_le x l _) (Z.le_refl _)) as [Hx Hl]. apply elem_of_cons in Hal as [->|Hal]; auto.
      + intros Hall (n & (night & Hin & Hn) & Hf). pose proof Hn as (k & Hk & -> & Hlt)%elem_of_nights_between.
        destruct (ChannelAllotment.rooms <$> _) as [|x l] eqn:El; [by apply elem_of_nil in Hin|]. apply list_elem_of_singleton in Hin as ->.
        unfold full in Hf. simpl in Hf. apply Z.ltb_lt in Hf. rewrite (sold_on_night b t c from to) in Hf by (unfold DAY_MS in *; lia).
        apply Z.lt_nge in Hf. apply Hf. apply min_of_le.
        assert (forall z, z ∈ x :: l -> channel_sold d b t c ex (from + k * DAY_MS) + 1 <= z) as Hz.
        { intros z. rewrite <- El. intros (a & -> & Ha)%list_elem_of_fmap. assert (a ∈ channelAllotments d) as Hal by (apply elem_of_filterb in Ha as [[Ha _]%elem_of_filterb _]; exact Ha).
          apply (Hall _ a Hn Hal). by apply (Hmine _ a Hn Hal). }
        split; [apply Hz; by left | intros z Hz'; apply Hz; by right]. }
  unfold assertWithinAllotment. rewrite (bind_run _ _ _ _ _ Hc), (for_each_guard _ full not_available) by (intros n; unfold full; by destruct (_ <? _)).
  destruct (existsb full nights); [right | left]; split; try done; [|by apply Hw]. intros Hall%Hw. done.
Qed.

Module SalesRulesWitness.
Import Hotel.
(** Two nights at least for the doubles, from day 20010 to day 20020. *)
Definition two_nights : CreateRestrictionDto := {|
  cr_roomTypeId := Some "rt1"; cr_startDate := "2024-10-14"; cr_endDate := "2024-10-24"; cr_minLOS := Some 2; cr_maxLOS := None;
  cr_closedToArrival := None; cr_stopSell := None |}.
Lemma two_nights_ok : is_ok (createRestriction "b1" two_nights "u1" hotel) = true.
Proof. vm_compute. reflexivity. Qed.
Definition ruled : Db := after (createRestriction "b1" two_nights "u1") hotel.
Lemma hotel_unruled : restrictions_wf hotel.
Proof.
  split; [split; [apply NoDup_nil_2 | by intros x k ?%elem_of_nil] | by intros r ?%elem_of_nil | split; by intros r ?%elem_of_nil | by intros r s night ?%elem_of_nil].
Qed.
Lemma ruled_step : rtc restriction_step hotel ruled.
Proof. destruct (after_ok _ _ two_nights_ok) as [r Hr]. eapply rtc_once. by econstructor. Qed.
Lemma restrictions_invariant_witness : length (availabilityRestrictions ruled) = 1%nat /\ restrictions_wf ruled.
Proof. split; [vm_compute; reflexivity | exact (restrictions_invariant hotel ruled hotel_unruled ruled_step)]. Defined.
Lemma ruled_dates : restriction_dates ruled.
Proof. split; intros r Hr; vm_compute in Hr; apply list_elem_of_singleton in Hr as ->; vm_compute; reflexivity. Qed.
Lemma restrictions_enforced_witness : stay_allowed ruled "b1" "rt1" (day 20011) (day 20013) /\ ~ stay_allowed ruled "b1" "rt1" (day 20011) (day 20012).
Proof.
  split.
  - destruct (restrictions_enforced "b1" "rt1" (day 20011) (day 20013) ruled ruled_dates) as [[Ha _]|[_ Hr]];
      [vm_compute; reflexivity | vm_compute; reflexivity | vm_compute; reflexivity | exact Ha | vm_compute in Hr; discriminate Hr].
  - destruct (restrictions_enforced "b1" "rt1" (day 20011) (day 20012) ruled ruled_dates) as [[_ Hr]|[Ha _]];
      [vm_compute; reflexivity | vm_compute; reflexivity | vm_compute; reflexivity | vm_compute in Hr; discriminate Hr | exact Ha].
Defined.
End SalesRulesWitness.
