(* ===== verification/Inventory.v ===== *)
(** Availability (src/src/modules/reservations/reservations.service.ts,
    property/property.service.ts): how many rooms of a type are for sale each
    night, and the checks a booking makes against them. *)
From stdpp Require Import pretty.
From Stdlib Require Import QArith Qcanon Floats.SpecFloat.
From S2P Require Import Prelude Decimal Json Dates StayPolicies Taxes Authority Transactions Db SampleHotel Rooms SalesRules.
Import StayFees StayFeesProps.
Local Open Scope Z_scope.

(** ** Doubles *)
(** The one computation of the code on JavaScript numbers that are not whole:
    IEEE 754 binary64, as the Standard Library specifies it. *)
Module Double.
Definition of_Z (z : Z) : spec_float := binary_normalize 53 1024 z 0 false.
Definition add : spec_float -> spec_float -> spec_float := SFadd 53 1024.
Definition mul : spec_float -> spec_float -> spec_float := SFmul 53 1024.
Definition div : spec_float -> spec_float -> spec_float := SFdiv 53 1024.
(** [Number(decimal)]: the nearest double, when numerator and denominator are doubles. *)
Definition of_Qc (x : Qc) : spec_float := div (of_Z (Qnum (this x))) (of_Z (Z.pos (Qden (this x)))).
(** [Math.floor] of a finite number *)
Definition floor (f : spec_float) : Z :=
  match f with
  | S754_finite s m e => let z := if s then Z.neg m else Z.pos m in if 0 <=? e then z * 2 ^ e else z / 2 ^ (- e)
  | _ => 0
  end.
End Double.
(** [Math.floor(netCapacity * (1 + Number(maxOverbookPct ?? 0) / 100))] *)
Definition overbooked_capacity (net : Z) (maxOverbookPct : option Qc) : Z :=
  Double.floor (Double.mul (Double.of_Z net) (Double.add (Double.of_Z 1) (Double.div (Double.of_Qc (default 0%Qc maxOverbookPct)) (Double.of_Z 100)))).
(** [Math.floor(netCapacity * (Number(alertAtPct) / 100))] *)
Definition alert_threshold (net : Z) (alertAtPct : Qc) : Z := Double.floor (Double.mul (Double.of_Z net) (Double.div (Double.of_Qc alertAtPct) (Double.of_Z 100))).

Definition MAX_STAY_NIGHTS : Z := 92.
(** 9999-12-31 *)
Definition OPEN_ENDED : Z := 2932896 * DAY_MS.
Definition assertValidRange (from to : Z) : M unit :=
  throw! invalid when (to <=? from) in
  throw! invalid when (MAX_STAY_NIGHTS <? round_days from to) in
  ret tt.

(** ** Overbooking (property.service.ts) *)
(** [None] leaves a field; for the dates, [Some None] clears it. *)
Record UpdateOverbookingConfigDto := { oc_roomTypeId : option string; oc_globalEnabled : option bool; oc_maxOverbookPct : option Qc; oc_alertAtPct : option Qc;
                                       oc_validFrom : option (option string); oc_validTo : option (option string) }.
Section Overbooking.
Context `{Uuid}.

Definition date_change (o : option (option string)) : M (option (option Z)) :=
  match o with
  | None => ret None
  | Some None => ret (Some None)
  | Some (Some s) => if nonempty s then let! t := a_date s in ret (Some (Some t)) else ret None
  end.
Definition updateOverbookingConfig (b : string) (dto : UpdateOverbookingConfigDto) (actorId : string) : M OverbookingConfig.t :=
  let! _ := assertBranch b in
  do! known_type (oc_roomTypeId dto) b in
  let! from := date_change (oc_validFrom dto) in
  let! to := date_change (oc_validTo dto) in
  let data x := OverbookingConfig.with_config (default (OverbookingConfig.globalEnabled x) (oc_globalEnabled dto)) (match oc_maxOverbookPct dto with Some p => Some p | None => OverbookingConfig.maxOverbookPct x end)
                  (match oc_alertAtPct dto with Some p => Some p | None => OverbookingConfig.alertAtPct x end) (default (OverbookingConfig.validFrom x) from) (default (OverbookingConfig.validTo x) to) x in
  let! existing := findFirst overbookingConfigs (fun c => bool_decide (OverbookingConfig.branchId c = b) && bool_decide (OverbookingConfig.roomTypeId c = oc_roomTypeId dto)) in
  let! config := match existing with
                 | Some c =>
                     do! modify (upd_overbookingConfigs (update_where (fun x => bool_decide (OverbookingConfig.id x = OverbookingConfig.id c)) data)) in
                     ret (data c)
                 | None =>
                     let! i := new_id in
                     let row := data {| OverbookingConfig.id := i; OverbookingConfig.branchId := b; OverbookingConfig.roomTypeId := oc_roomTypeId dto; OverbookingConfig.globalEnabled := false; OverbookingConfig.maxOverbookPct := None; OverbookingConfig.alertAtPct := None;
                                        OverbookingConfig.validFrom := None; OverbookingConfig.validTo := None |} in
                     do! modify (upd_overbookingConfigs (fun l => l ++ [row])) in
                     ret row
                 end in
  do! auditLog (Some b) (Some actorId) "branch.overbooking_config_updated" "overbooking_config" (OverbookingConfig.id config) in
  ret config.
End Overbooking.

(** ** Rooms, stays and holds of a night *)
Definition sellable (b t : string) (x : Room.t) : bool :=
  bool_decide (Room.branchId x = b) && bool_decide (Room.roomTypeId x = t) && isNone (Room.deletedAt x) && (isNone (Room.heldStatus x) || isSome (Room.heldUntil x)).
Definition sellableRooms (b t : string) : M (list (string * option Z)) :=
  let! pool := findMany rooms (sellable b t) in
  ret ((fun x => (Room.id x, if isSome (Room.heldStatus x) then Room.heldUntil x else None)) <$> pool).
Definition back_by (night : Z) (backFrom : option Z) : bool := match backFrom with None => true | Some from => from <=? night end.
(** A set of room ids, as the list of them without repeats. *)
Definition inServiceOn (pool : list (string * option Z)) (night : Z) : list string :=
  unique_from [] (fst <$> List.filter (fun p => back_by night (snd p)) pool).
Definition blocks_over (d : Db) (b t : string) (from to : Z) (x : RoomBlock.t) : bool :=
  existsb (fun r => bool_decide (Room.id r = RoomBlock.roomId x) && sellable b t r) (rooms d) && (RoomBlock.fromDate x <? to) && (from <=? RoomBlock.toDate x).
Definition blockedOn (blocks : list RoomBlock.t) (inService : list string) (night : Z) : list string :=
  unique_from [] (RoomBlock.roomId <$> List.filter (fun x => includes (RoomBlock.roomId x) inService && (RoomBlock.fromDate x <=? night) && (night <=? RoomBlock.toDate x)) blocks).
Definition other_than (except : option string) (i : string) : bool := match except with Some e => negb (bool_decide (i = e)) | None => true end.

Section Inventory.
Context `{Platform}.

Definition holdingStays (b t : string) (from to : Z) (except : option string) : M (list (Z * Z)) :=
  let! stays := findMany reservations (fun r => bool_decide (Reservation.branchId r = b) && bool_decide (Reservation.roomTypeId r = t) && isNone (Reservation.deletedAt r) &&
    holding (Reservation.status r) && (Reservation.checkInDate r <? to) &&
    ((from <? Reservation.checkOutDate r) || bool_decide (Reservation.status r = checked_in)) && other_than except (Reservation.id r)) in
  let! at_ := now in
  let mayBeOverdue := existsb (fun r => bool_decide (Reservation.status r = checked_in) && (Reservation.checkOutDate r <=? at_ + DAY_MS)) stays in
  let! branch := if mayBeOverdue then findFirst branches (fun x => bool_decide (Branch.id x = b)) else ret None in
  let overdue r := match branch with
                   | Some x => bool_decide (Reservation.status r = checked_in) &&
                               hasPassedBranchCutoff (Reservation.checkOutDate r) (timeOfDay (Branch.checkOutTime x)) (Branch.timezone x) at_
                   | None => false
                   end in
  ret (List.filter (fun p => from <? snd p)
        ((fun r => (Reservation.checkInDate r, if overdue r then OPEN_ENDED else Reservation.checkOutDate r)) <$> stays)).

Definition governs (night : Z) (c : OverbookingConfig.t) : bool :=
  OverbookingConfig.globalEnabled c && match OverbookingConfig.validFrom c with None => true | Some v => v <=? night end && match OverbookingConfig.validTo c with None => true | Some v => night <=? v end.
Definition overbookingConfigFor (roomTypeConfig branchConfig : option OverbookingConfig.t) (night : Z) : option OverbookingConfig.t :=
  match roomTypeConfig with
  | Some c => if governs night c then Some c else match branchConfig with Some c' => if governs night c' then Some c' else None | None => None end
  | None => match branchConfig with Some c' => if governs night c' then Some c' else None | None => None end
  end.
Definition config_of (t : option string) (configs : list OverbookingConfig.t) : option OverbookingConfig.t := List.find (fun c => bool_decide (OverbookingConfig.roomTypeId c = t)) configs.

Definition in_block_pickup (s : ReservationStatus) : bool := holding s || bool_decide (s = checked_out).
Definition in_block (i : string) (r : Reservation.t) : bool := bool_decide (Reservation.groupBlockId r = Some i).
(** Rooms the blocks still hold on a night. *)
Definition block_hold (booked pickups : list Reservation.t) (night : Z) (g : GroupBlock.t) : Z :=
  match GroupBlock.arrivalDate g, GroupBlock.departureDate g with
  | Some arrival, Some departure =>
      if (night <? arrival) || (departure <=? night) then 0
      else
        let bookedTonight := Z.of_nat (length (List.filter (fun r => in_block (GroupBlock.id g) r && on_night night r) booked)) in
        let stillBookable := GroupBlock.blockSize g - Z.of_nat (length (List.filter (in_block (GroupBlock.id g)) pickups)) in
        Z.max 0 (Z.min (GroupBlock.blockSize g - bookedTonight) stillBookable)
  | _, _ => 0
  end.
Definition among (holding_ : list GroupBlock.t) (r : Reservation.t) : bool := existsb (fun g => in_block (GroupBlock.id g) r) holding_.
Definition groupBlockHolds (b t : string) (from to : Z) (into : option string) : M (list (string * Z)) :=
  let! blocks := findMany groupBlocks (fun g => bool_decide (GroupBlock.branchId g = b) && bool_decide (GroupBlock.roomTypeId g = t) && bool_decide (GroupBlock.status g = "active") &&
    match GroupBlock.arrivalDate g with Some a => a <? to | None => false end && match GroupBlock.departureDate g with Some x => from <? x | None => false end && other_than into (GroupBlock.id g)) in
  if bool_decide (length blocks = 0%nat) then ret []
  else
    let! branch := findFirst branches (fun x => bool_decide (Branch.id x = b)) in
    let! at_ := now in
    let! today := a_date (todayInTimezone (match branch with Some x => Branch.timezone x | None => "UTC" end) at_) in
    let holding_ := List.filter (fun g => today <=? GroupBlock.cutoffDate g) blocks in
    if bool_decide (length holding_ = 0%nat) then ret []
    else
      let! booked := findMany reservations (fun r => among holding_ r && isNone (Reservation.deletedAt r) && holding (Reservation.status r) &&
        (Reservation.checkInDate r <? to) && (from <? Reservation.checkOutDate r)) in
      let! pickups := findMany reservations (fun r => among holding_ r && isNone (Reservation.deletedAt r) && in_block_pickup (Reservation.status r)) in
      ret (nights_between from to ≫= fun night =>
        let held := zsum (block_hold booked pickups night <$> holding_) in
        if 0 <? held then [(iso_date night, held)] else []).
(** [held.get(date) ?? 0] *)
Fixpoint held_on (held : list (string * Z)) (date : string) : Z :=
  match held with [] => 0 | (k, n) :: held => if bool_decide (k = date) then n else held_on held date end.

Definition computeAvailabilityPerNight (b t : string) (from to : Z) (except into : option string) : M (list (string * Z)) :=
  let! pool := sellableRooms b t in
  let! d := gets (fun d => d) in
  let! blocks := findMany roomBlocks (blocks_over d b t from to) in
  let! stays := holdingStays b t from to except in
  let! configs := findMany overbookingConfigs (fun c => bool_decide (OverbookingConfig.branchId c = b) && for_type t (OverbookingConfig.roomTypeId c)) in
  let! heldForGroups := groupBlockHolds b t from to into in
  ret ((fun night =>
    let inService := inServiceOn pool night in
    let blocked := blockedOn blocks inService night in
    let reserved := Z.of_nat (length (List.filter (fun p => (fst p <=? night) && (night <? snd p)) stays)) in
    let net := Z.of_nat (length inService) - Z.of_nat (length blocked) in
    let capacity := match overbookingConfigFor (config_of (Some t) configs) (config_of None configs) night with
                    | Some c => overbooked_capacity net (OverbookingConfig.maxOverbookPct c)
                    | None => net
                    end in
    let date := iso_date night in
    (date, Z.max 0 (capacity - reserved - held_on heldForGroups date))) <$> nights_between from to).

Definition assertAvailableForStay (b t : string) (checkIn checkOut : Z) (except into : option string) : M unit :=
  let! perNight := computeAvailabilityPerNight b t checkIn checkOut except into in
  lift (throw_if (existsb (fun n => snd n <? 1) perNight) not_available).

(** ** Reads *)
Definition getAvailability (b t from to : string) : M (list (string * Z)) :=
  let! from := a_date from in
  let! to := a_date to in
  do! assertValidRange from to in
  let! _ := assertBranch b in
  computeAvailabilityPerNight b t from to None None.
Definition availabilityPerNightInTx (b t : string) (from to : Z) : M (list (string * Z)) := computeAvailabilityPerNight b t from to None None.
(** Every room type's nights; the types come in the order of the table, the code's by name. *)
Definition per_type {A} (b : string) (f : RoomType.t -> M A) : M (list (string * A)) :=
  let! types := findMany roomTypes (fun x => bool_decide (RoomType.branchId x = b) && isNone (RoomType.deletedAt x)) in
  for_each types [] (fun acc x => let! v := f x in ret (acc ++ [(RoomType.id x, v)])).
Definition getAvailabilityForRange (b : string) (from to : Z) : M (list (string * list (string * Z))) :=
  do! assertValidRange from to in
  let! _ := assertBranch b in
  per_type b (fun x => computeAvailabilityPerNight b (RoomType.id x) from to None None).
(** [Date.UTC(year, month, 1)], months counted from 0 *)
Definition month_start (year month : Z) : Z := day_of_civil (year + month / 12) (month mod 12 + 1) 1 * DAY_MS.
Definition getAvailabilityCalendar (b : string) (year month : Z) : M (list (string * list (string * Z))) :=
  let! _ := assertBranch b in
  per_type b (fun x => computeAvailabilityPerNight b (RoomType.id x) (month_start year (month - 1)) (month_start year month) None None).

Record NightExposure := { ne_date : string; ne_physicalPool : Z; ne_netCapacity : Z; ne_ceilingCapacity : Z; ne_reservedCount : Z; ne_isOverbooked : bool; ne_isAlerting : bool }.
Definition exposure_of (b t : string) (from to : Z) : M (list NightExposure) :=
  let! pool := sellableRooms b t in
  let! d := gets (fun d => d) in
  let! blocks := findMany roomBlocks (blocks_over d b t from to) in
  let! stays := holdingStays b t from to None in
  let! configs := findMany overbookingConfigs (fun c => bool_decide (OverbookingConfig.branchId c = b) && for_type t (OverbookingConfig.roomTypeId c)) in
  ret ((fun night =>
    let inService := inServiceOn pool night in
    let physicalPool := Z.of_nat (length inService) in
    let blockedCount := Z.of_nat (length (blockedOn blocks inService night)) in
    let reserved := Z.of_nat (length (List.filter (fun p => (fst p <=? night) && (night <? snd p)) stays)) in
    let net := physicalPool - blockedCount in
    let config := overbookingConfigFor (config_of (Some t) configs) (config_of None configs) night in
    let ceiling := match config with Some c => overbooked_capacity net (OverbookingConfig.maxOverbookPct c) | None => net end in
    let alert := match config with Some c => alert_threshold net <$> OverbookingConfig.alertAtPct c | None => None end in
    {| ne_date := iso_date night; ne_physicalPool := physicalPool; ne_netCapacity := net; ne_ceilingCapacity := ceiling; ne_reservedCount := reserved;
       ne_isOverbooked := net <? reserved; ne_isAlerting := match alert with Some a => a <=? reserved | None => false end |}) <$> nights_between from to).
Definition getOverbookingExposure (b : string) (year month : Z) : M (list (string * list NightExposure)) :=
  let! _ := assertBranch b in
  per_type b (fun x => exposure_of b (RoomType.id x) (month_start year (month - 1)) (month_start year month)).

(** ** The checks of a booking *)
Definition assertRoomType (b t : string) : M RoomType.t := orThrow (findFirst roomTypes (type_at t b)) not_found.
Definition assertWithinCapacity (x : RoomType.t) (adults children : Z) : M unit :=
  lift (throw_if ((RoomType.capacityAdults x <? adults) || (RoomType.capacityChildren x <? children)) invalid).

Definition assertGroupBlockOpen (i b t : string) : M GroupBlock.t :=
  let! block := orThrow (findFirst groupBlocks (fun g => bool_decide (GroupBlock.id g = i) && bool_decide (GroupBlock.branchId g = b))) not_found in
  throw! conflict when negb (bool_decide (GroupBlock.status block = "active")) in
  throw! invalid when negb (bool_decide (GroupBlock.roomTypeId block = t)) in
  let! pickup := findMany reservations (fun r => in_block i r && isNone (Reservation.deletedAt r) && in_block_pickup (Reservation.status r)) in
  throw! conflict when (GroupBlock.blockSize block <=? Z.of_nat (length pickup)) in
  ret block.

Definition assertStaysInGroupBlock (i t : string) (checkIn checkOut : Z) : M unit :=
  let! block := findFirst groupBlocks (fun g => bool_decide (GroupBlock.id g = i)) in
  match block with
  | None => ret tt
  | Some g =>
      throw! invalid when negb (bool_decide (GroupBlock.roomTypeId g = t)) in
      throw! invalid when outsideGroupBlock (GroupBlock.arrivalDate g) (GroupBlock.departureDate g) (iso_date checkIn) (iso_date checkOut) in
      ret tt
  end.

Definition of_type (b t : string) (dayUse : bool) (r : Reservation.t) : bool :=
  bool_decide (Reservation.branchId r = b) && bool_decide (Reservation.roomTypeId r = t) && isNone (Reservation.deletedAt r) && Bool.eqb (Reservation.isDayUse r) dayUse &&
  holding (Reservation.status r).
Definition assertDayUseAvailable (b t : string) (day : Z) : M unit :=
  let! pool := sellableRooms b t in
  let inService := inServiceOn pool day in
  let! blocked := findMany roomBlocks (fun x => includes (RoomBlock.roomId x) inService && (RoomBlock.fromDate x <=? day) && (day <=? RoomBlock.toDate x)) in
  let free := Z.of_nat (length inService) - Z.of_nat (length (unique_from [] (RoomBlock.roomId <$> blocked))) in
  let! throughTheDay := findMany reservations (fun r => of_type b t false r && (Reservation.checkInDate r <? day) && (day <? Reservation.checkOutDate r)) in
  let! arriving := findMany reservations (fun r => of_type b t false r && bool_decide (Reservation.checkInDate r = day)) in
  let! dayUses := findMany reservations (fun r => of_type b t true r && (day <=? Reservation.checkInDate r) && (Reservation.checkInDate r <? day + DAY_MS)) in
  lift (throw_if (free - Z.of_nat (length throughTheDay) - Z.of_nat (length arriving) - Z.of_nat (length dayUses) <=? 0) not_available).

Definition assertRoomCheckInReady (room : Room.t) (b t : string) (checkIn checkOut : Z) : M unit :=
  throw! invalid when (negb (bool_decide (Room.branchId room = b)) || negb (bool_decide (Room.roomTypeId room = t))) in
  throw! not_available when (negb (bool_decide (Room.occupancyStatus room = vacant)) || isSome (Room.heldStatus room)) in
  let! block := findFirst roomBlocks (fun x => bool_decide (RoomBlock.roomId x = Room.id room) && (RoomBlock.fromDate x <? checkOut) && (checkIn <=? RoomBlock.toDate x)) in
  lift (throw_if (isSome block) not_available).
End Inventory.

(** ** Availability against the tables, night by night *)
(** No zone is a day or more away from UTC. *)
Class ZonesWithinADay `{Platform} := zone_within tz t : Z.abs (tz_offset tz t) <= DAY_MS.

Section Reference.
Context `{Platform}.

Definition in_service (b t : string) (night : Z) (x : Room.t) : bool :=
  sellable b t x && back_by night (if isSome (Room.heldStatus x) then Room.heldUntil x else None).
Definition blocked_on (d : Db) (night : Z) (i : string) : bool :=
  existsb (fun k => bool_decide (RoomBlock.roomId k = i) && (RoomBlock.fromDate k <=? night) && (night <=? RoomBlock.toDate k)) (roomBlocks d).
(** The rooms of a type that can be slept in that night. *)
Definition rooms_for (d : Db) (b t : string) (night : Z) : Z :=
  Z.of_nat (length (List.filter (fun x => in_service b t night x && negb (blocked_on d night (Room.id x))) (rooms d))).

Definition config_at (d : Db) (b : string) (t : option string) : option OverbookingConfig.t :=
  List.find (fun c => bool_decide (OverbookingConfig.branchId c = b) && bool_decide (OverbookingConfig.roomTypeId c = t)) (overbookingConfigs d).
Definition capacity_on (d : Db) (b t : string) (night : Z) : Z :=
  match overbookingConfigFor (config_at d b (Some t)) (config_at d b None) night with
  | Some c => overbooked_capacity (rooms_for d b t night) (OverbookingConfig.maxOverbookPct c)
  | None => rooms_for d b t night
  end.

(** Still in the house after the branch's check-out time on the day they were to leave. *)
Definition overdue_at (d : Db) (b : string) (r : Reservation.t) : bool :=
  bool_decide (Reservation.status r = checked_in) &&
  match List.find (fun x => bool_decide (Branch.id x = b)) (branches d) with
  | Some x => hasPassedBranchCutoff (Reservation.checkOutDate r) (timeOfDay (Branch.checkOutTime x)) (Branch.timezone x) (clock d)
  | None => false
  end.
(** A stay that takes a room of the type that night. *)
Definition occupies (d : Db) (b t : string) (except : option string) (night : Z) (r : Reservation.t) : bool :=
  bool_decide (Reservation.branchId r = b) && bool_decide (Reservation.roomTypeId r = t) && isNone (Reservation.deletedAt r) && holding (Reservation.status r) &&
  other_than except (Reservation.id r) && (Reservation.checkInDate r <=? night) && ((night <? Reservation.checkOutDate r) || overdue_at d b r).
Definition stays_on (d : Db) (b t : string) (except : option string) (night : Z) : Z :=
  Z.of_nat (length (List.filter (occupies d b t except night) (reservations d))).

Definition branch_zone (d : Db) (b : string) : string :=
  match List.find (fun x => bool_decide (Branch.id x = b)) (branches d) with Some x => Branch.timezone x | None => "UTC" end.
Definition block_booked (d : Db) (g : GroupBlock.t) (night : Z) : Z :=
  Z.of_nat (length (List.filter (fun r => in_block (GroupBlock.id g) r && isNone (Reservation.deletedAt r) && holding (Reservation.status r) && on_night night r) (reservations d))).
Definition block_pickup (d : Db) (g : GroupBlock.t) : Z :=
  Z.of_nat (length (List.filter (fun r => in_block (GroupBlock.id g) r && isNone (Reservation.deletedAt r) && in_block_pickup (Reservation.status r)) (reservations d))).
(** What a block open to its group keeps off sale that night: what it has not
    sold of it, but never more than the bookings it can still take. *)
Definition block_keeps (d : Db) (b t : string) (into : option string) (today night : Z) (g : GroupBlock.t) : Z :=
  if bool_decide (GroupBlock.branchId g = b) && bool_decide (GroupBlock.roomTypeId g = t) && bool_decide (GroupBlock.status g = "active") &&
     other_than into (GroupBlock.id g) && (today <=? GroupBlock.cutoffDate g) &&
     match GroupBlock.arrivalDate g, GroupBlock.departureDate g with Some a, Some x => (a <=? night) && (night <? x) | _, _ => false end
  then Z.max 0 (Z.min (GroupBlock.blockSize g - block_booked d g night) (GroupBlock.blockSize g - block_pickup d g)) else 0.
Definition groups_keep (d : Db) (b t : string) (into : option string) (today night : Z) : Z :=
  zsum (block_keeps d b t into today night <$> groupBlocks d).

(** Rooms left to sell that night. *)
Definition left_on (d : Db) (b t : string) (except into : option string) (today night : Z) : Z :=
  capacity_on d b t night - stays_on d b t except night - groups_keep d b t into today night.
End Reference.

Lemma unique_from_id seen l : NoDup l -> (forall x, x ∈ l -> x ∉ seen) -> unique_from seen l = l.
Proof.
  intros Hl. revert seen. induction Hl as [|x l Hx Hl IH]; intros seen Hs; simpl; [done|]. unfold includes. rewrite bool_decide_false by (apply Hs; left).
  f_equal. apply IH. intros y Hy [->|Hin]%elem_of_cons; [done|]. apply (Hs y); [by right|done].
Qed.
Lemma filter_fmap {A B} (f : A -> B) (p : B -> bool) l : List.filter p (f <$> l) = f <$> List.filter (fun x => p (f x)) l.
Proof. induction l as [|x l IH]; csimpl; [done|]. destruct (p (f x)); csimpl; by rewrite IH. Qed.
Lemma filter_split {A} (p : A -> bool) l : (length (List.filter p l) + length (List.filter (fun x => negb (p x)) l))%nat = length l.
Proof. induction l as [|x l IH]; simpl; [done|]. destruct (p x); simpl; lia. Qed.

Section Nights.
Context (d : Db) (rooms_apart : NoDup (Room.id <$> rooms d)).

Lemma in_service_ids b t night :
  inServiceOn ((fun x => (Room.id x, if isSome (Room.heldStatus x) then Room.heldUntil x else None)) <$> List.filter (sellable b t) (rooms d)) night =
  Room.id <$> List.filter (in_service b t night) (rooms d).
Proof.
  unfold inServiceOn. rewrite filter_fmap, filter_andb, <- list_fmap_compose. simpl. rewrite unique_from_id; [done| |intros ? _; apply not_elem_of_nil].
  by apply NoDup_fmap_filterb.
Qed.
Lemma net_rooms b t from to night : from <= night < to ->
  let inService := Room.id <$> List.filter (in_service b t night) (rooms d) in
  Z.of_nat (length inService) - Z.of_nat (length (blockedOn (List.filter (blocks_over d b t from to) (roomBlocks d)) inService night)) = rooms_for d b t night.
Proof.
  intros Hn inService. unfold rooms_for. rewrite <- filter_andb, <- (length_fmap Room.id), <- (filter_fmap Room.id (fun i => negb (blocked_on d night i))). fold inService.
  assert (NoDup inService) as Hnd by (by apply NoDup_fmap_filterb).
  rewrite <- (filter_split (blocked_on d night) inService) at 1. assert (blockedOn (List.filter (blocks_over d b t from to) (roomBlocks d)) inService night ≡ₚ List.filter (blocked_on d night) inService) as ->; [|lia].
  apply NoDup_Permutation; [apply NoDup_unique_from|apply NoDup_ListNoDup, List.NoDup_filter, NoDup_ListNoDup; done|].
  intros i. unfold blockedOn. rewrite elem_of_unique_from, elem_of_filterb, list_elem_of_fmap. unfold blocked_on. rewrite existsb_exists_elem. split.
  - intros [(k & -> & Hk) _]. rewrite filter_andb, elem_of_filterb in Hk. destruct Hk as [Hk Hp]. rewrite !andb_true_iff, includes_spec in Hp.
    destruct Hp as (_ & (Hin & Hf) & Hto). split; [done|]. exists k. split; [done|]. by rewrite bool_decide_true, Hf, Hto.
  - intros [Hin (k & Hk & Hp)]. rewrite !andb_true_iff, bool_decide_eq_true in Hp. destruct Hp as [[<- Hf] Ht]. split; [|apply not_elem_of_nil].
    exists k. split; [done|]. rewrite filter_andb, elem_of_filterb. split; [done|]. rewrite Hf, Ht, (proj2 (includes_spec _ _) Hin), !andb_true_r.
    apply list_elem_of_fmap in Hin as (x & Hx & [Hin Hs]%elem_of_filterb). unfold blocks_over. apply Z.leb_le in Hf, Ht.
    rewrite (proj2 (Z.ltb_lt _ _)), (proj2 (Z.leb_le from _)), !andb_true_r by lia. apply existsb_exists_elem. exists x. split; [done|].
    rewrite bool_decide_true by done. by apply andb_true_iff in Hs as [-> _].
Qed.
End Nights.

Section Stays.
Context `{Platform} {server : Z} `{!PlatformOk server} `{!ZonesWithinADay}.

(** Only a stay due out by tomorrow can be overdue, so the branch need not be read otherwise. *)
Lemma overdue_soon d b r : midnight (Reservation.checkOutDate r) -> overdue_at d b r = true ->
  bool_decide (Reservation.status r = checked_in) = true /\ Reservation.checkOutDate r <= clock d + DAY_MS.
Proof.
  intros Hm. unfold overdue_at. rewrite andb_true_iff. intros [Hs Hp]. split; [done|]. destruct (List.find _ _) as [x|]; [|done].
  unfold hasPassedBranchCutoff in Hp. apply Z.leb_le in Hp. rewrite branchCutoffInstant_offset in Hp. cbv zeta in Hp.
  set (guess := day_of _ * DAY_MS + _) in Hp. pose proof (zone_within (Branch.timezone x) guess).
  assert (Reservation.checkOutDate r <= guess); [|lia]. unfold guess, day_of. unfold midnight in Hm. unfold timeOfDay.
  pose proof (Z.mod_pos_bound (Branch.checkOutTime x / 1000) 86400 ltac:(lia)). pose proof (Z.div_mod (Reservation.checkOutDate r) DAY_MS ltac:(done)). lia.
Qed.

Lemma holdingStays_run b t from to ex d : dates_wf d -> to <= OPEN_ENDED ->
  exists stays, holdingStays b t from to ex d = Ok (d, stays) /\
  forall night, from <= night < to -> Z.of_nat (length (List.filter (fun p => (fst p <=? night) && (night <? snd p)) stays)) = stays_on d b t ex night.
Proof.
  intros [_ Hout] Hto. unfold holdingStays. erewrite bind_run by reflexivity. unfold now. erewrite bind_run by reflexivity.
  set (cand := List.filter _ (reservations d)). set (may := existsb _ cand).
  set (branch := if may then List.find (fun x => bool_decide (Branch.id x = b)) (branches d) else None).
  erewrite (bind_run _ _ _ _ branch) by (unfold branch; destruct may; done). eexists. split; [reflexivity|]. intros night Hn.
  unfold stays_on. f_equal. rewrite filter_andb, filter_fmap, length_fmap. simpl. unfold cand. rewrite filter_andb. f_equal. apply filter_extb. intros r Hr.
  set (odr := match branch with Some x => _ | None => false end). unfold occupies.
  assert (r ∈ cand -> odr = overdue_at d b r) as Hod.
  { intros Hc. unfold odr, branch. destruct may eqn:Em; [unfold overdue_at; by destruct (List.find _ _); rewrite ?andb_false_r|].
    symmetry. apply not_true_iff_false. intros [Hs Hsoon]%overdue_soon; [|by apply Hout]. apply not_true_iff_false in Em. apply Em. apply existsb_exists_elem.
    exists r. split; [done|]. apply andb_true_iff. split; [done|]. by apply Z.leb_le. }
  unfold cand in Hod. rewrite elem_of_filterb in Hod.
  assert (overdue_at d b r = true -> bool_decide (Reservation.status r = checked_in) = true) as Hin by (unfold overdue_at; by intros [? _]%andb_true_iff).
  destruct (bool_decide (Reservation.branchId r = b)); [|done]. destruct (bool_decide (Reservation.roomTypeId r = t)); [|done].
  destruct (isNone (Reservation.deletedAt r)); [|done]. destruct (holding (Reservation.status r)); [|done].
  destruct (other_than ex (Reservation.id r)); [|by rewrite !andb_false_r]. rewrite !andb_true_l, !andb_true_r in *.
  destruct (Z.ltb_spec (Reservation.checkInDate r) to), (Z.leb_spec (Reservation.checkInDate r) night); rewrite ?andb_false_r, ?andb_false_l; try done; try lia.
  destruct (Z.ltb_spec from (Reservation.checkOutDate r)) as [Hf|Hf], (bool_decide (Reservation.status r = checked_in)) eqn:Es; simpl in Hod |- *.
  4: { destruct (overdue_at d b r); [by specialize (Hin eq_refl)|]. rewrite orb_false_r. symmetry. apply Z.ltb_ge. lia. }
  all: rewrite Hod by done; destruct (overdue_at d b r) eqn:Eo; rewrite ?orb_true_r, ?orb_false_r; unfold OPEN_ENDED in *.
  all: try by specialize (Hin eq_refl).
  all: repeat match goal with |- context [?x <? ?y] => destruct (Z.ltb_spec x y) end; try done; lia.
Qed.
End Stays.

Section Groups.
Context `{Platform}.

Lemma zsum_filter {A} (p : A -> bool) (f : A -> Z) l : zsum (f <$> List.filter p l) = zsum ((fun x => if p x then f x else 0) <$> l).
Proof. induction l as [|x l IH]; csimpl; [done|]. destruct (p x); csimpl; by rewrite IH. Qed.
Lemma held_on_nights (F : Z -> Z) l night : (forall n, n ∈ l -> iso_date n = iso_date night -> n = night) -> (forall n, 0 <= F n) -> night ∈ l ->
  held_on (l ≫= fun n => if 0 <? F n then [(iso_date n, F n)] else []) (iso_date night) = F night.
Proof.
  intros Hinj Hpos. induction l as [|n l IH]; [by intros ?%elem_of_nil|]. intros Hin. csimpl.
  assert (night ∉ l -> held_on (l ≫= fun n => if 0 <? F n then [(iso_date n, F n)] else []) (iso_date night) = 0) as Hout.
  { clear IH Hin. intros Hnot. induction l as [|m l IH]; csimpl; [done|]. rewrite not_elem_of_cons in Hnot. destruct Hnot as [Hne Hnot].
    assert (iso_date m <> iso_date night) as Hm by (intros E%Hinj; [done | right; by left]).
    assert (held_on (l ≫= fun n => if 0 <? F n then [(iso_date n, F n)] else []) (iso_date night) = 0) as Hrec.
    { apply IH; [|done]. intros x [->|Hx]%elem_of_cons; apply Hinj; [left | by right; right]. }
    destruct (0 <? F m); csimpl; [rewrite bool_decide_false by done|]; done. }
  destruct (Z.ltb_spec 0 (F n)); csimpl.
  - case_bool_decide as E; [by rewrite (Hinj n (ltac:(left)) E)|]. apply elem_of_cons in Hin as [->|Hin]; [done|]. apply IH; [|done]. intros m Hm. apply Hinj. by right.
  - destruct (decide (night ∈ l)) as [Hl|Hl]; [apply IH; [|done]; intros m Hm; apply Hinj; by right|]. rewrite Hout by done.
    apply elem_of_cons in Hin as [->|]; [|done]. specialize (Hpos n). lia.
Qed.
Lemma iso_date_inj a b : midnight a -> midnight b -> in_iso_range (day_of a) -> in_iso_range (day_of b) -> iso_date a = iso_date b -> a = b.
Proof.
  intros [k ->]%midnight_mul [m ->]%midnight_mul. rewrite !day_of_midnight. intros Hk Hm. unfold iso_date. rewrite !day_of_midnight. intros E.
  apply (f_equal parse_iso_day) in E. rewrite !parse_iso_day_iso in E by done. by simplify_eq.
Qed.

Lemma block_hold_counts d b t from to into today night g : from <= night < to ->
  let window g := bool_decide (GroupBlock.branchId g = b) && bool_decide (GroupBlock.roomTypeId g = t) && bool_decide (GroupBlock.status g = "active") &&
    match GroupBlock.arrivalDate g with Some a => a <? to | None => false end && match GroupBlock.departureDate g with Some x => from <? x | None => false end && other_than into (GroupBlock.id g) in
  let holding_ := List.filter (fun g => today <=? GroupBlock.cutoffDate g) (List.filter window (groupBlocks d)) in
  let booked := List.filter (fun r => among holding_ r && isNone (Reservation.deletedAt r) && holding (Reservation.status r) &&
        (Reservation.checkInDate r <? to) && (from <? Reservation.checkOutDate r)) (reservations d) in
  let pickups := List.filter (fun r => among holding_ r && isNone (Reservation.deletedAt r) && in_block_pickup (Reservation.status r)) (reservations d) in
  g ∈ groupBlocks d -> (if window g && (today <=? GroupBlock.cutoffDate g) then block_hold booked pickups night g else 0) = block_keeps d b t into today night g.
Proof.
  intros Hn window holding_ booked pickups Hg. destruct (window g && (today <=? GroupBlock.cutoffDate g)) eqn:Ew.
  - assert (forall r, in_block (GroupBlock.id g) r = true -> among holding_ r = true) as Ham.
    { intros r Hr. unfold among. apply existsb_exists_elem. exists g. split; [|done]. unfold holding_. by rewrite filter_andb, elem_of_filterb. }
    assert (length (List.filter (fun r => in_block (GroupBlock.id g) r && on_night night r) booked) =
            length (List.filter (fun r => in_block (GroupBlock.id g) r && isNone (Reservation.deletedAt r) && holding (Reservation.status r) && on_night night r) (reservations d))) as Hb.
    { unfold booked. rewrite filter_andb. f_equal. apply filter_extb. intros r _. destruct (in_block _ r) eqn:Ei; [rewrite Ham by done|by rewrite !andb_false_r].
      unfold on_night. destruct (isNone _), (holding _); try done; rewrite ?andb_true_l.
      repeat match goal with |- context [?x <? ?y] => destruct (Z.ltb_spec x y) | |- context [?x <=? ?y] => destruct (Z.leb_spec x y) end; try done; lia. }
    assert (length (List.filter (in_block (GroupBlock.id g)) pickups) =
            length (List.filter (fun r => in_block (GroupBlock.id g) r && isNone (Reservation.deletedAt r) && in_block_pickup (Reservation.status r)) (reservations d))) as Hp.
    { unfold pickups. rewrite filter_andb. f_equal. apply filter_extb. intros r _. destruct (in_block _ r) eqn:Ei; [rewrite Ham by done|by rewrite !andb_false_r]. by rewrite !andb_true_r. }
    unfold block_hold, block_keeps, block_booked, block_pickup. rewrite Hb, Hp. unfold window in Ew. rewrite !andb_true_iff in Ew.
    destruct Ew as ((((((-> & ->) & ->) & Ha) & Hx) & ->) & ->). destruct (GroupBlock.arrivalDate g) as [a|], (GroupBlock.departureDate g) as [x|]; try done.
    rewrite !andb_true_l. destruct (Z.ltb_spec night a), (Z.leb_spec x night), (Z.leb_spec a night), (Z.ltb_spec night x); simpl; try done; lia.
  - unfold block_keeps. match goal with |- _ = (if ?c then _ else _) => destruct c eqn:Ek; [|done] end. exfalso. apply not_true_iff_false in Ew. apply Ew. unfold window. rewrite !andb_true_iff in Ek |- *.
    destruct Ek as (((((-> & ->) & ->) & ->) & ->) & Hd). destruct (GroupBlock.arrivalDate g), (GroupBlock.departureDate g); try done.
    rewrite andb_true_iff, Z.leb_le, Z.ltb_lt in Hd. rewrite !Z.ltb_lt. lia.
Qed.

Lemma block_hold_nonneg booked pickups night g : 0 <= block_hold booked pickups night g.
Proof. unfold block_hold. destruct (GroupBlock.arrivalDate g), (GroupBlock.departureDate g); try done. destruct (_ || _); lia. Qed.

Lemma groupBlockHolds_run b t from to into d today : midnight from -> in_iso_range (day_of from) -> to <= OPEN_ENDED ->
  toBranchDate (todayInTimezone (branch_zone d b) (clock d)) = Some today ->
  exists held, groupBlockHolds b t from to into d = Ok (d, held) /\
  forall night, night ∈ nights_between from to -> held_on held (iso_date night) = groups_keep d b t into today night.
Proof.
  intros Hfrom Hrange Hto Htoday. set (window g := bool_decide (GroupBlock.branchId g = b) && bool_decide (GroupBlock.roomTypeId g = t) && bool_decide (GroupBlock.status g = "active") &&
    match GroupBlock.arrivalDate g with Some a => a <? to | None => false end && match GroupBlock.departureDate g with Some x => from <? x | None => false end && other_than into (GroupBlock.id g)).
  set (holding_ := List.filter (fun g => today <=? GroupBlock.cutoffDate g) (List.filter window (groupBlocks d))).
  set (booked := List.filter (fun r => among holding_ r && isNone (Reservation.deletedAt r) && holding (Reservation.status r) &&
        (Reservation.checkInDate r <? to) && (from <? Reservation.checkOutDate r)) (reservations d)).
  set (pickups := List.filter (fun r => among holding_ r && isNone (Reservation.deletedAt r) && in_block_pickup (Reservation.status r)) (reservations d)).
  set (F night := zsum (block_hold booked pickups night <$> holding_)).
  assert (forall night, night ∈ nights_between from to -> F night = groups_keep d b t into today night) as HF.
  { intros night Hn. pose proof Hn as (k & Hk & Ek & Hlt)%elem_of_nights_between. unfold F, holding_, groups_keep. rewrite filter_andb, zsum_filter. f_equal.
    apply list_fmap_ext. intros i g Hg. apply (block_hold_counts d b t from to); [unfold DAY_MS in *; lia | by eapply list_elem_of_lookup_2]. }
  assert (exists held, groupBlockHolds b t from to into d = Ok (d, held) /\ (holding_ = [] /\ held = [] \/
    held = (nights_between from to ≫= fun night => if 0 <? F night then [(iso_date night, F night)] else []))) as (held & Hrun & Hheld).
  { unfold groupBlockHolds. erewrite bind_run by reflexivity. fold window. case_bool_decide as E.
    { exists []. split; [done|]. left. split; [|done]. unfold holding_. apply length_zero_iff_nil in E. by rewrite E. }
    erewrite bind_run by reflexivity. unfold now. erewrite bind_run by reflexivity. unfold branch_zone in Htoday. unfold a_date. rewrite Htoday. erewrite bind_run by reflexivity.
    fold holding_. case_bool_decide as E'; [exists []; split; [done|]; left; split; [by apply length_zero_iff_nil|done]|].
    erewrite bind_run by reflexivity. erewrite bind_run by reflexivity. eexists. split; [reflexivity|]. right. done. }
  exists held. split; [done|]. intros night Hn. rewrite <- HF by done. destruct Hheld as [[Hnil ->]| ->]; [unfold F; by rewrite Hnil|].
  apply held_on_nights; [|intros n; unfold F; apply zsum_nonneg, Forall_fmap, Forall_true; intros; apply block_hold_nonneg|done].
  assert (forall n, n ∈ nights_between from to -> midnight n /\ in_iso_range (day_of n)) as Hok; [|intros n Hn' E; destruct (Hok n Hn'), (Hok night Hn); by apply iso_date_inj].
  intros n (k & Hk & -> & Hlt)%elem_of_nights_between. apply midnight_mul in Hfrom as [m ->]. replace (m * DAY_MS + k * DAY_MS) with ((m + k) * DAY_MS) in * by ring.
  rewrite day_of_midnight in *. split; [by apply Z_mod_mult|]. unfold in_iso_range, OPEN_ENDED, DAY_MS in *. lia.
Qed.
End Groups.

Lemma find_filterb {A} (p q : A -> bool) l : List.find p (List.filter q l) = List.find (fun x => q x && p x) l.
Proof. induction l as [|x l IH]; simpl; [done|]. destruct (q x); simpl; [destruct (p x)|]; by rewrite ?IH. Qed.
Lemma config_filtered d b t o : o = Some t \/ o = None ->
  config_of o (List.filter (fun c => bool_decide (OverbookingConfig.branchId c = b) && for_type t (OverbookingConfig.roomTypeId c)) (overbookingConfigs d)) = config_at d b o.
Proof.
  intros Ho. unfold config_of, config_at. rewrite find_filterb. induction (overbookingConfigs d) as [|c l IH]; simpl; [done|]. rewrite IH.
  destruct (bool_decide (OverbookingConfig.branchId c = b)); [|done]. simpl. unfold for_type.
  destruct Ho as [-> | ->], (OverbookingConfig.roomTypeId c) as [t'|]; simpl; rewrite ?andb_false_r, ?andb_true_l; try done.
  destruct (decide (t' = t)) as [->|Hne]; [by rewrite !bool_decide_true|]. rewrite !bool_decide_false by congruence. done.
Qed.

Lemma availability_run `{Platform} {server : Z} `{!PlatformOk server} `{!ZonesWithinADay} (b t : string) (from to today : Z) (except into : option string) (d : Db) :
  NoDup (Room.id <$> rooms d) -> dates_wf d -> midnight from -> in_iso_range (day_of from) -> to <= OPEN_ENDED ->
  toBranchDate (todayInTimezone (branch_zone d b) (clock d)) = Some today ->
  computeAvailabilityPerNight b t from to except into d =
    Ok (d, (fun night => (iso_date night, Z.max 0 (left_on d b t except into today night))) <$> nights_between from to).
Proof.
  intros Hrooms Hdates Hfrom Hrange Hto Htoday. unfold computeAvailabilityPerNight, sellableRooms.
  destruct (holdingStays_run b t from to except d Hdates Hto) as (stays & Hstays & Hs).
  destruct (groupBlockHolds_run b t from to into d today Hfrom Hrange Hto Htoday) as (held & Hheld & Hh).
  erewrite bind_run by reflexivity. erewrite bind_run by reflexivity. erewrite bind_run by reflexivity. rewrite (bind_run _ _ _ _ _ Hstays).
  erewrite bind_run by reflexivity. rewrite (bind_run _ _ _ _ _ Hheld). unfold ret. do 2 f_equal. apply list_fmap_ext. intros k night Hk.
  apply list_elem_of_lookup_2 in Hk. pose proof Hk as (m & Hm & Em & Hlt)%elem_of_nights_between. assert (from <= night < to) as Hn by (unfold DAY_MS in *; lia).
  cbn [snd]. rewrite Hh, Hs, in_service_ids, (net_rooms d Hrooms b t from to night Hn) by done. unfold left_on, capacity_on. by rewrite !config_filtered by auto.
Qed.

(** C39: what the availability screen, the booking pages and every booking check
    work from is the inventory itself, night by night: the rooms of the type in
    service that night and not blocked (or what overbooking makes of them, when
    a setting governs the night), less every stay that takes one (a guest who
    has not left counts until they do), less what the groups' blocks still keep,
    and never below zero. *)
Theorem availability_exact `{Platform} {server : Z} `{!PlatformOk server} `{!ZonesWithinADay} (b t : string) (from to today : Z) (except into : option string) (d : Db) :
  NoDup (Room.id <$> rooms d) -> dates_wf d -> midnight from -> in_iso_range (day_of from) -> to <= OPEN_ENDED ->
  toBranchDate (todayInTimezone (branch_zone d b) (clock d)) = Some today ->
  computeAvailabilityPerNight b t from to except into d =
    Ok (d, (fun night => (iso_date night, Z.max 0 (left_on d b t except into today night))) <$> nights_between from to).
Proof. apply (availability_run (server := server)). Qed.

(** A booking passes exactly when a room is left on each of its nights. *)
Lemma assertAvailableForStay_run `{Platform} {server : Z} `{!PlatformOk server} `{!ZonesWithinADay} (b t : string) (from to today : Z) (except into : option string) (d : Db) :
  NoDup (Room.id <$> rooms d) -> dates_wf d -> midnight from -> in_iso_range (day_of from) -> to <= OPEN_ENDED ->
  toBranchDate (todayInTimezone (branch_zone d b) (clock d)) = Some today ->
  forall d' x, assertAvailableForStay b t from to except into d = Ok (d', x) -> d' = d /\ forall night, night ∈ nights_between from to -> 1 <= left_on d b t except into today night.
Proof.
  intros Hrooms Hdates Hfrom Hrange Hto Htoday d' x. unfold assertAvailableForStay. 
  rewrite (bind_run _ _ _ _ _ (availability_run (server := server) b t from to today except into d Hrooms Hdates Hfrom Hrange Hto Htoday)).
  intros [Hx ->]%lift_Ok. split; [done|]. apply throw_if_Ok in Hx. intros night Hn. apply not_true_iff_false in Hx. rewrite existsb_exists_elem in Hx.
  apply Z.nlt_ge. intros Hlt. apply Hx. eexists. split; [by apply list_elem_of_fmap_2|]. apply Z.ltb_lt. cbn [snd]. lia.
Qed.

Module InventoryWitness.
Import Hotel.
#[export] Instance lagos_ok : PlatformOk 0 := fixed_platform_ok (fun _ => 60).
#[export] Instance lagos_within : ZonesWithinADay.
Proof. intros tz t. vm_compute. discriminate. Qed.
Lemma availability_exact_witness :
  computeAvailabilityPerNight "b1" "rt1" (day 20001) (day 20003) None None hotel = Ok (hotel, [("2024-10-05", 1); ("2024-10-06", 2)]).
Proof.
  rewrite (availability_exact (server := 0) "b1" "rt1" (day 20001) (day 20003) (day 20001)); [vm_compute; reflexivity|..].
  - apply (bool_decide_unpack _). vm_compute. exact I.
  - split; intros r Hr; simpl in Hr; apply list_elem_of_singleton in Hr as ->; vm_compute; reflexivity.
  - vm_compute. reflexivity.
  - vm_compute. split; discriminate.
  - vm_compute. discriminate.
  - vm_compute. reflexivity.
Defined.

(** Twenty-five rooms at 16% over come to 28, not the 29 that 25 × 1.16 is. *)
Example overbooking_short_of_its_percentage : overbooked_capacity 25 (Some (cents 1600)) = 28 /\ 25 * (100 + 16) = 29 * 100.
Proof. split; vm_compute; reflexivity. Qed.
End InventoryWitness.
