(* ===== verification/Rates.v ===== *)
(** Rates (src/src/modules/rate-resolver): the plans, what each night of a stay
    costs under them, and the packages sold with it (packages.service.ts). *)
From stdpp Require Import pretty.
From Stdlib Require Import QArith Qcanon.
From S2P Require Import Prelude Decimal Json Dates StayPolicies Taxes Authority Transactions Db Packages SampleHotel Rooms SalesRules Inventory.
Import BranchRoles NightlyRates StayFees StayFeesProps.
Local Open Scope Z_scope.

(** ** Weekends and the people in the room *)
Definition DEFAULT_WEEKEND_NIGHTS : list Z := [5; 6].
(** [[...new Set(days)]] *)
Fixpoint unique_days (seen l : list Z) : list Z :=
  match l with
  | [] => []
  | x :: l => if bool_decide (x ∈ seen) then unique_days seen l else x :: unique_days (x :: seen) l
  end.
Definition week_day (j : json) : option Z :=
  x ← as_number (Some j);
  let n := Qnum (this x) in if is_integer x && (0 <=? n) && (n <=? 6) then Some n else None.
Definition weekendNightsFor (policies : option json) : list Z :=
  match member "weekendNights" (as_object policies) with
  | Some (JArr raw) =>
      let days := omap week_day raw in
      if (0 <? Z.of_nat (length days)) then unique_days [] days else DEFAULT_WEEKEND_NIGHTS
  | _ => DEFAULT_WEEKEND_NIGHTS
  end.
(** [date.getUTCDay()]: 1970-01-01 was a Thursday. *)
Definition utc_day (t : Z) : Z := (day_of t + 4) mod 7.

Record Occupancy := { occ_adults : Z; occ_children : Z }.

Definition CASCADE_TIER_BY_TYPE (type : RateType) : option Z :=
  match type with rate_base => Some 1 | rate_seasonal => Some 2 | rate_weekend => Some 3 | rate_corporate => Some 4 | _ => None end.
Definition OVERRIDE_TYPES : list RateType := [rate_negotiated; rate_promotional].

Record CascadeStep := { cs_tier : Z; cs_ratePlanId : string; cs_amountBefore : Qc; cs_adjustment : Qc; cs_amountAfter : Qc }.
Record NightResolution := { nr_date : string; nr_finalRate : Qc; nr_isOverride : bool; nr_overrideRatePlanId : option string; nr_cascade : list CascadeStep }.
Record PerNight := { pn_date : string; pn_finalRate : string; pn_isOverride : bool; pn_ratePlanId : option string }.
Inductive RuleApplied := rule_override | rule_cascade | rule_base.
Record StayResolution := { sr_nightlyRate : Qc; sr_subtotal : Qc; sr_taxTotal : Qc; sr_taxIncluded : Qc; sr_totalWithTax : Qc; sr_occupancySurcharge : Qc;
                           sr_ratePlanId : option string; sr_ruleApplied : RuleApplied; sr_perNight : list PerNight; sr_auditLogIds : list Z }.
Record Deal := { deal_promoCode : option string; deal_corporateAccountId : option string; deal_occupancy : option Occupancy }.
Record PriceContext := { pc_triggeredBy : string; pc_userId : option string; pc_reservationId : option string; pc_persistAudit : bool }.

(** ** One night *)
Section Night.
Context `{DecimalLib}.

Definition occupancySurcharge (x : RoomType.t) (occupancy : option Occupancy) : Qc :=
  match occupancy with
  | None => 0%Qc
  | Some o =>
      let extraAdults := match RoomType.adultsIncluded x, RoomType.extraAdultRate x with
                         | Some included, Some _ => Z.max 0 (occ_adults o - included)
                         | _, _ => 0
                         end in
      let extraChildren := match RoomType.childRate x with Some _ => Z.max 0 (occ_children o - RoomType.childrenIncluded x) | None => 0 end in
      (default 0%Qc (RoomType.extraAdultRate x) ⊗ Qc_of_Z extraAdults) ⊕ (default 0%Qc (RoomType.childRate x) ⊗ Qc_of_Z extraChildren)
  end.

Definition valid_on (date : Z) (p : RatePlan.t) : bool :=
  match RatePlan.validFrom p with None => true | Some v => v <=? date end && match RatePlan.validTo p with None => true | Some v => date <=? v end.
Definition applies_on (weekend : list Z) (date : Z) (p : RatePlan.t) : bool :=
  valid_on date p && (negb (bool_decide (RatePlan.type p = rate_weekend)) || bool_decide (utc_day date ∈ weekend)).
(** Whether a plan replaces the one its tier has so far. *)
Definition outranks (p existing : RatePlan.t) : bool :=
  let specific q := isSome (RatePlan.roomTypeId q) in
  (specific p && negb (specific existing)) || (Bool.eqb (specific p) (specific existing) && (RatePlan.createdAt existing <? RatePlan.createdAt p)).
Fixpoint tier_set (p : RatePlan.t) (byTier : list (Z * RatePlan.t)) : list (Z * RatePlan.t) :=
  match byTier with
  | [] => [(RatePlan.cascadeTier p, p)]
  | (k, q) :: byTier => if k =? RatePlan.cascadeTier p then (k, if outranks p q then p else q) :: byTier else (k, q) :: tier_set p byTier
  end.
Definition by_tier (plans : list RatePlan.t) : list (Z * RatePlan.t) := foldl (fun m p => tier_set p m) [] plans.

Definition cascade_step (running : Qc) (p : RatePlan.t) : CascadeStep :=
  let adjustment := if bool_decide (RatePlan.adjustmentType p = Some adjust_percentage) then dp2 ((running ⊗ RatePlan.amount p) ⊘ Qc_of_Z 100) else RatePlan.amount p in
  {| cs_tier := RatePlan.cascadeTier p; cs_ratePlanId := RatePlan.id p; cs_amountBefore := running; cs_adjustment := adjustment; cs_amountAfter := dp2 (running ⊕ adjustment) |}.
Fixpoint cascade_from (running : Qc) (applied : list RatePlan.t) : Qc * list CascadeStep :=
  match applied with
  | [] => (running, [])
  | p :: applied => let step := cascade_step running p in let '(final, steps) := cascade_from (cs_amountAfter step) applied in (final, step :: steps)
  end.

Definition resolveNight (x : RoomType.t) (date : Z) (plans : list RatePlan.t) (promoCode corporateRatePlanId : option string) (weekend : list Z) : NightResolution :=
  let applicable := List.filter (applies_on weekend date) plans in
  let overridePlans := List.filter RatePlan.isOverride applicable in
  let negotiated := match corporateRatePlanId with
                    | Some i => if nonempty i then List.find (fun p => bool_decide (RatePlan.type p = rate_negotiated) && bool_decide (RatePlan.id p = i)) overridePlans else None
                    | None => None
                    end in
  let promotional := match promoCode with
                     | Some c => if nonempty c then List.find (fun p => bool_decide (RatePlan.type p = rate_promotional) && bool_decide (RatePlan.promoCode p = Some c)) overridePlans else None
                     | None => None
                     end in
  match (match negotiated with Some p => Some p | None => promotional end) with
  | Some winner => {| nr_date := iso_date date; nr_finalRate := RatePlan.amount winner; nr_isOverride := true; nr_overrideRatePlanId := Some (RatePlan.id winner); nr_cascade := [] |}
  | None =>
      let applied := snd <$> sort_by fst (by_tier (List.filter (fun p => negb (RatePlan.isOverride p)) applicable)) in
      let '(final, steps) := cascade_from (RoomType.baseRate x) applied in
      {| nr_date := iso_date date; nr_finalRate := final; nr_isOverride := false; nr_overrideRatePlanId := None; nr_cascade := steps |}
  end.
Definition surcharged (surcharge : Qc) (n : NightResolution) : NightResolution :=
  if dis_zero surcharge then n
  else {| nr_date := nr_date n; nr_finalRate := nr_finalRate n ⊕ surcharge; nr_isOverride := nr_isOverride n; nr_overrideRatePlanId := nr_overrideRatePlanId n; nr_cascade := nr_cascade n |}.
(** [n.overrideRatePlanId ?? n.cascade.at(-1)?.ratePlanId ?? null] *)
Definition night_plan (n : NightResolution) : option string :=
  match nr_overrideRatePlanId n with Some i => Some i | None => cs_ratePlanId <$> last (nr_cascade n) end.
Definition per_night_of (n : NightResolution) : PerNight :=
  {| pn_date := nr_date n; pn_finalRate := to_fixed2 (nr_finalRate n); pn_isOverride := nr_isOverride n; pn_ratePlanId := night_plan n |}.
End Night.

(** ** The stay *)
Section Stay.
Context `{DecimalLib} `{TaxDb}.

Definition plan_open (b : string) (x : RoomType.t) (checkIn checkOut stayLength : Z) (p : RatePlan.t) : bool :=
  bool_decide (RatePlan.branchId p = b) && RatePlan.isActive p && for_type (RoomType.id x) (RatePlan.roomTypeId p) &&
  match RatePlan.validFrom p with None => true | Some v => v <=? checkOut end && match RatePlan.validTo p with None => true | Some v => checkIn <=? v end &&
  match RatePlan.minLOS p with None => true | Some n => n <=? stayLength end.

(** The next value of the trail's own sequence. *)
Definition next_trail_id (d : Db) : Z := 1 + foldr (fun r => Z.max (RateAuditLog.id r)) 0 (rateAuditLogs d).
Definition trail_row (b : string) (context : PriceContext) (n : NightResolution) : M Z :=
  let! i := gets next_trail_id in
  do! modify (upd_rateAuditLogs (fun l => l ++ [{| RateAuditLog.id := i; RateAuditLog.branchId := b; RateAuditLog.reservationId := pc_reservationId context;
        RateAuditLog.date := nr_date n; RateAuditLog.finalRate := to_fixed2 (nr_finalRate n); RateAuditLog.overrideRatePlanId := nr_overrideRatePlanId n;
        RateAuditLog.triggeredBy := pc_triggeredBy context; RateAuditLog.userId := pc_userId context |}])) in
  ret i.

(** The plan of the company a stay is booked for: [(account exists, its plan)]. *)
Definition company_plan (o : option string) : M (bool * option string) :=
  match o with
  | Some i =>
      if nonempty i then
        let! account := findFirst corporateAccounts (fun a => bool_decide (CorporateAccount.id a = i) && CorporateAccount.isActive a) in
        ret (isSome account, a ← account; CorporateAccount.ratePlanId a)
      else ret (false, None)
  | None => ret (false, None)
  end.

Definition resolveStay (b : string) (x : RoomType.t) (checkIn checkOut : Z) (options : Deal) (context : PriceContext) : M StayResolution :=
  let stayLength := round_days checkIn checkOut in
  throw! invalid when (MAX_STAY_NIGHTS <? stayLength) in
  let nights := nights_between checkIn checkOut in
  let! company := company_plan (deal_corporateAccountId options) in
  let! plans := findMany ratePlans (plan_open b x checkIn checkOut stayLength) in
  let eligible := if fst company then plans else List.filter (fun p => negb (bool_decide (RatePlan.type p = rate_corporate))) plans in
  let! branch := findFirst branches (fun y => bool_decide (Branch.id y = b)) in
  let weekend := weekendNightsFor (y ← branch; Branch.policies y) in
  let surcharge := occupancySurcharge x (deal_occupancy options) in
  let perNight := (fun date => surcharged surcharge (resolveNight x date eligible (deal_promoCode options) (snd company) weekend)) <$> nights in
  throw! invalid when existsb (fun n => negb (dgt (nr_finalRate n) 0%Qc)) perNight in
  let! auditLogIds := for_each (if pc_persistAudit context then perNight else []) [] (fun ids n => let! i := trail_row b context n in ret (ids ++ [i])) in
  let subtotal := dsum (nr_finalRate <$> perNight) in
  let nightlyRate := if stayLength =? 0 then 0%Qc else dp2 (subtotal ⊘ Qc_of_Z stayLength) in
  let! rules := gets taxRules in
  let! priced := lift (priceCharge rules b room subtotal (Z.of_nat (length perNight))) in
  ret {| sr_nightlyRate := nightlyRate; sr_subtotal := subtotal; sr_taxTotal := addedTax priced; sr_taxIncluded := includedTax priced; sr_totalWithTax := total priced;
         sr_occupancySurcharge := surcharge; sr_ratePlanId := match perNight with [] => None | arrival :: _ => night_plan arrival end;
         sr_ruleApplied := match perNight with
                           | [] => rule_base
                           | arrival :: _ => if nr_isOverride arrival then rule_override else match nr_cascade arrival with [] => rule_base | _ => rule_cascade end
                           end;
         sr_perNight := per_night_of <$> perNight; sr_auditLogIds := auditLogIds |}.

Definition linkAuditLogsToReservation (ids : list Z) (reservationId : string) : M unit :=
  if bool_decide (length ids = 0%nat) then ret tt
  else modify (upd_rateAuditLogs (update_where (fun r => bool_decide (RateAuditLog.id r ∈ ids)) (RateAuditLog.with_reservationId (Some reservationId)))).

Record CalculateRateDto := { cq_roomTypeId : string; cq_checkInDate : string; cq_checkOutDate : string; cq_promoCode : option string; cq_corporateAccountId : option string;
                             cq_adults : option Z; cq_children : option Z }.
(** The quote and its currency. *)
Definition calculateQuote (b : string) (dto : CalculateRateDto) (userId : option string) (persistAudit : bool) : M (StayResolution * string) :=
  let! branch := assertBranch b in
  let! x := orThrow (findFirst roomTypes (type_at (cq_roomTypeId dto) b)) not_found in
  let! checkIn := a_date (cq_checkInDate dto) in
  let! checkOut := a_date (cq_checkOutDate dto) in
  throw! invalid when (checkOut <=? checkIn) in
  let occupancy := if when_set (cq_adults dto) (fun _ => true) then Some {| occ_adults := default 0 (cq_adults dto); occ_children := default 0 (cq_children dto) |} else None in
  let! resolution := resolveStay b x checkIn checkOut {| deal_promoCode := cq_promoCode dto; deal_corporateAccountId := cq_corporateAccountId dto; deal_occupancy := occupancy |}
                       {| pc_triggeredBy := "booking_create"; pc_userId := userId; pc_reservationId := None; pc_persistAudit := persistAudit |} in
  ret (resolution, Branch.currency branch).

Definition getAuditTrail (reservationId : string) (actor : JwtPayload) : M (list RateAuditLog.t) :=
  let! r := orThrow (findFirst reservations (fun r => bool_decide (Reservation.id r = reservationId))) not_found in
  do! lift (assertRoleAtBranch actor (Reservation.branchId r) ["owner"; "manager"; "accountant"]) in
  findMany rateAuditLogs (fun l => bool_decide (RateAuditLog.reservationId l = Some reservationId)).

(** The nights of a resolution, as a stay keeps them. *)
Definition nightlyRatesOf (resolved : StayResolution) : json :=
  JArr ((fun n => JObj [("date", JStr (pn_date n)); ("rate", JStr (pn_finalRate n))]) <$> sr_perNight resolved).
End Stay.

(** ** Plans *)
Record CreateRatePlanDto := { rp_roomTypeId : option string; rp_type : RateType; rp_amount : Qc; rp_adjustmentType : option AdjustmentType; rp_validFrom : option string;
                              rp_validTo : option string; rp_minLOS : option Z; rp_promoCode : option string }.
Section Plans.
Context `{Uuid}.

Definition optional_date (o : option string) : M (option Z) :=
  match o with Some s => if nonempty s then let! t := a_date s in ret (Some t) else ret None | None => ret None end.
Definition set_text (o : option string) : bool := match o with Some s => nonempty s | None => false end.
Definition createRatePlan (b : string) (dto : CreateRatePlanDto) : M RatePlan.t :=
  let! _ := assertBranch b in
  do! known_type (rp_roomTypeId dto) b in
  let isOverride := bool_decide (rp_type dto ∈ OVERRIDE_TYPES) in
  throw! invalid when (isOverride && isSome (rp_adjustmentType dto)) in
  throw! invalid when (negb isOverride && isNone (rp_adjustmentType dto)) in
  throw! invalid when (bool_decide (rp_type dto = rate_promotional) && negb (set_text (rp_promoCode dto))) in
  throw! invalid when (isOverride && negb (dgt (rp_amount dto) 0%Qc)) in
  throw! invalid when (bool_decide (rp_adjustmentType dto = Some adjust_percentage) && (negb (dgt (rp_amount dto) (Qc_of_Z (-100))) || dgt (rp_amount dto) (Qc_of_Z 1000))) in
  throw! invalid when (set_text (rp_validFrom dto) && set_text (rp_validTo dto) && String.ltb (default "" (rp_validTo dto)) (default "" (rp_validFrom dto))) in
  let! from := optional_date (rp_validFrom dto) in
  let! to := optional_date (rp_validTo dto) in
  let! amount := lift (numeric (rp_amount dto)) in
  let! i := new_id in
  let! at_ := now in
  let row := {| RatePlan.id := i; RatePlan.branchId := b; RatePlan.roomTypeId := rp_roomTypeId dto; RatePlan.type := rp_type dto; RatePlan.amount := amount;
                RatePlan.adjustmentType := if isOverride then None else rp_adjustmentType dto; RatePlan.cascadeTier := default 0 (CASCADE_TIER_BY_TYPE (rp_type dto));
                RatePlan.isOverride := isOverride; RatePlan.validFrom := from; RatePlan.validTo := to; RatePlan.minLOS := rp_minLOS dto;
                RatePlan.promoCode := if bool_decide (rp_type dto = rate_promotional) then rp_promoCode dto else None; RatePlan.isActive := true; RatePlan.createdAt := at_ |} in
  do! modify (upd_ratePlans (fun l => l ++ [row])) in
  ret row.

Definition updateRatePlan (i : string) (isActive : option bool) : M RatePlan.t :=
  let! plan := orThrow (findFirst ratePlans (fun p => bool_decide (RatePlan.id p = i))) not_found in
  let data p := RatePlan.with_isActive (default (RatePlan.isActive p) isActive) p in
  do! modify (upd_ratePlans (update_where (fun p => bool_decide (RatePlan.id p = i)) data)) in
  ret (data plan).
End Plans.

(** ** Packages (packages.service.ts) *)
Section PackageSales.
Context `{DecimalLib} `{TaxDb}.

Definition charge_type_name (c : ChargeType) : string :=
  default "" (fst <$> List.find (fun p => bool_decide (snd p = c)) charge_type_names).
(** A package as a stay will keep it. *)
Definition snapshot_entry (p : Package.t) (addedOn : option string) : json :=
  JObj ([("packageId", JStr (Package.id p)); ("name", JStr (Package.name p)); ("price", JStr (to_fixed2 (Package.price p))); ("basis", JStr (Package.basis p));
         ("chargeType", JStr (charge_type_name (Package.chargeType p)))] ++ match addedOn with Some s => [("addedOn", JStr s)] | None => [] end).

Definition snapshotsFor (b t : string) (packageIds : list string) (online : bool) : M (list Package.t) :=
  let ids := unique_from [] packageIds in
  let! packages := findMany packages (fun p => includes (Package.id p) ids && bool_decide (Package.branchId p = b) && isNone (Package.deletedAt p) && Package.isActive p) in
  let find_pkg i := List.find (fun p => bool_decide (Package.id p = i)) packages in
  do! for_each ids tt (fun _ i =>
    match find_pkg i with
    | None => raise invalid
    | Some p =>
        throw! invalid when (online && negb (Package.showOnline p)) in
        throw! invalid when (negb (bool_decide (length (Package.roomTypeIds p) = 0%nat)) && negb (includes t (Package.roomTypeIds p))) in
        ret tt
    end) in
  ret (omap find_pkg ids).

Record QuoteLine := { ql_packageId : string; ql_amount : string; ql_tax : string; ql_total : string }.
Record PackagesQuote := { pq_lines : list QuoteLine; pq_subtotal : string; pq_taxTotal : string; pq_total : string }.
Definition quote_line (rules : list TaxRule) (b : string) (nights guests : Z) (p : PackageSnapshot) : res (QuoteLine * (Qc * Qc * Qc)) :=
  let? amount := packageTotal p nights guests in
  let? ct := or_throw (pkg_chargeType p) internal in
  let? priced := priceCharge rules b ct amount (postingsFor p nights) in
  Ok ({| ql_packageId := packageId p; ql_amount := to_fixed2 amount; ql_tax := to_fixed2 (addedTax priced); ql_total := to_fixed2 (total priced) |},
      (amount, addedTax priced, total priced)).
Definition quote (b : string) (picked : list PackageSnapshot) (nights guests : Z) : M PackagesQuote :=
  let! rules := gets taxRules in
  let! lines := lift (res_mapM (quote_line rules b nights guests) picked) in
  ret {| pq_lines := fst <$> lines; pq_subtotal := to_fixed2 (dsum ((fun l => fst (fst (snd l))) <$> lines));
         pq_taxTotal := to_fixed2 (dsum ((fun l => snd (fst (snd l))) <$> lines)); pq_total := to_fixed2 (dsum ((fun l => snd (snd l)) <$> lines)) |}.
Definition quoteForStay (b t : string) (packageIds : list string) (nights guests : Z) (online : bool) : M PackagesQuote :=
  let! picked := snapshotsFor b t packageIds online in
  quote b (omap (fun p => parse_snapshot (snapshot_entry p None)) picked) nights guests.
End PackageSales.

(** ** What the resolver promises *)
Lemma find_perm {A} (p : A -> bool) l l' : l ≡ₚ l' -> (forall x y, x ∈ l -> y ∈ l -> p x = true -> p y = true -> x = y) -> List.find p l = List.find p l'.
Proof.
  intros Hp Hu. destruct (List.find p l) as [x|] eqn:E, (List.find p l') as [y|] eqn:E'; try done.
  - apply find_Some in E as [Hx Px], E' as [Hy Py]. f_equal. apply Hu; try done. by rewrite Hp.
  - apply find_Some in E as [Hx Px]. rewrite Hp in Hx. by rewrite (find_None _ _ _ E' Hx) in Px.
  - apply find_Some in E' as [Hx Px]. rewrite <- Hp in Hx. by rewrite (find_None _ _ _ E Hx) in Px.
Qed.
(** Plans no two of which the resolver cannot tell apart. *)
Record ranked (plans : list RatePlan.t) : Prop := {
  rk_tier p q : p ∈ plans -> q ∈ plans -> RatePlan.cascadeTier p = RatePlan.cascadeTier q -> isSome (RatePlan.roomTypeId p) = isSome (RatePlan.roomTypeId q) ->
    RatePlan.createdAt p = RatePlan.createdAt q -> p = q;
  rk_id p q : p ∈ plans -> q ∈ plans -> RatePlan.id p = RatePlan.id q -> p = q;
  rk_promo p q : p ∈ plans -> q ∈ plans -> RatePlan.type p = rate_promotional -> RatePlan.type q = rate_promotional -> RatePlan.promoCode p = RatePlan.promoCode q -> p = q;
}.
Lemma ranked_sub plans plans' : (forall p, p ∈ plans' -> p ∈ plans) -> ranked plans -> ranked plans'.
Proof. intros Hsub []. constructor; eauto. Qed.

Lemma outranks_irrefl p : outranks p p = false.
Proof. unfold outranks. rewrite Z.ltb_irrefl. by destruct (isSome _). Qed.
Lemma outranks_total plans p q : ranked plans -> p ∈ plans -> q ∈ plans -> RatePlan.cascadeTier p = RatePlan.cascadeTier q -> p <> q -> outranks p q = negb (outranks q p).
Proof.
  intros Hr Hp Hq Ht Hne. unfold outranks. pose proof (rk_tier _ Hr p q Hp Hq Ht) as Hu.
  destruct (isSome (RatePlan.roomTypeId p)), (isSome (RatePlan.roomTypeId q)); simpl; try done;
    destruct (Z.ltb_spec (RatePlan.createdAt p) (RatePlan.createdAt q)), (Z.ltb_spec (RatePlan.createdAt q) (RatePlan.createdAt p)); try done; try lia;
    exfalso; apply Hne, Hu; try done; lia.
Qed.
Lemma outranks_trans p q r : outranks p q = true -> outranks q r = true -> outranks p r = true.
Proof.
  unfold outranks. destruct (isSome (RatePlan.roomTypeId p)), (isSome (RatePlan.roomTypeId q)), (isSome (RatePlan.roomTypeId r)); simpl; try done;
    rewrite ?Z.ltb_lt; lia.
Qed.

(** The plan a tier applies: one of them, and none of the others outranks it. *)
Definition best (plans : list RatePlan.t) (k : Z) (q : RatePlan.t) : Prop :=
  q ∈ plans /\ RatePlan.cascadeTier q = k /\ forall p, p ∈ plans -> RatePlan.cascadeTier p = k -> outranks p q = false.
Lemma best_unique plans k p q : ranked plans -> best plans k p -> best plans k q -> p = q.
Proof.
  intros Hr (Hp & Kp & Bp) (Hq & Kq & Bq). destruct (decide (RatePlan.id p = RatePlan.id q)) as [E|Hne]; [by eapply rk_id|].
  pose proof (outranks_total plans p q Hr Hp Hq ltac:(congruence) ltac:(congruence)) as Ht. rewrite (Bq p Hp Kp), (Bp q Hq Kq) in Ht. done.
Qed.
Definition tiers_of (plans : list RatePlan.t) (m : list (Z * RatePlan.t)) : Prop :=
  NoDup (fst <$> m) /\ (forall k q, (k, q) ∈ m <-> best plans k q) /\ forall p, p ∈ plans -> RatePlan.cascadeTier p ∈ fst <$> m.
Lemma tier_set_keys p m k : k ∈ fst <$> tier_set p m <-> k = RatePlan.cascadeTier p \/ k ∈ fst <$> m.
Proof.
  induction m as [|[k' q] m IH]; csimpl; [rewrite list_elem_of_singleton; set_solver|]. destruct (Z.eqb_spec k' (RatePlan.cascadeTier p)); csimpl; rewrite !elem_of_cons; [naive_solver|].
  rewrite IH. naive_solver.
Qed.
Lemma tier_set_nodup p m : NoDup (fst <$> m) -> NoDup (fst <$> tier_set p m).
Proof.
  induction m as [|[k' q] m IH]; csimpl; [by repeat constructor; apply not_elem_of_nil|]. intros [Hk Hm]%NoDup_cons.
  destruct (Z.eqb_spec k' (RatePlan.cascadeTier p)); csimpl; [by constructor|]. constructor; [|auto]. rewrite tier_set_keys. naive_solver.
Qed.
Lemma elem_tier_set p m k q : NoDup (fst <$> m) -> (k, q) ∈ tier_set p m <->
  (k <> RatePlan.cascadeTier p /\ (k, q) ∈ m) \/
  (k = RatePlan.cascadeTier p /\ ((q = p /\ forall r, (k, r) ∈ m -> outranks p r = true) \/ ((k, q) ∈ m /\ outranks p q = false))).
Proof.
  induction m as [|[k' r] m IH]; csimpl.
  - intros _. rewrite list_elem_of_singleton. setoid_rewrite elem_of_nil. naive_solver.
  - intros [Hk Hm]%NoDup_cons. assert (forall s, (k', s) ∉ m) as Hno by (intros s Hs; apply Hk, list_elem_of_fmap; by exists (k', s)).
    destruct (Z.eqb_spec k' (RatePlan.cascadeTier p)) as [E|E]; csimpl; rewrite !elem_of_cons; setoid_rewrite elem_of_cons.
    + assert (forall s, (k, s) ∈ m -> k <> k') as Hm' by (intros s Hs ->; by apply (Hno s)). destruct (outranks p r) eqn:Eo; (split; [intros [H1|H1]|intros [[H1 [H2|H2]]|[H1 [[-> H2]|[[H2|H2] H3]]]]]);
        simplify_eq; try (by exfalso; eapply Hm'; eauto); try congruence; eauto.
      * right. split; [done|]. left. split; [done|]. intros s [H1|H1]; [by simplify_eq|]. by apply Hno in H1.
      * right. split; [done|]. right. split; [by left|done].
      * exfalso. specialize (H2 r (or_introl eq_refl)). congruence.
    + rewrite IH by done. split.
      * intros [H1|[[H1 H2]|[H1 [[-> H2]|[H2 H3]]]]]; [simplify_eq; left; split; [done|by left]|left; split; [done|by right]| |right; split; [done|]; right; split; [by right|done]].
        right. split; [done|]. left. split; [done|]. intros s [H3|H3]; [by simplify_eq|auto].
      * intros [[H1 [H2|H2]]|[H1 [[-> H2]|[[H2|H2] H3]]]]; [by left|right; left; done|right; right; split; [done|]; left; split; [done|]; intros s Hs; apply H2; by right|by simplify_eq|].
        right; right. split; [done|]. right. done.
Qed.

Lemma best_snoc l p k q : ranked (l ++ [p]) -> (forall s, s ∈ l -> RatePlan.cascadeTier s = k -> exists r, best l k r) ->
  best (l ++ [p]) k q <-> (k <> RatePlan.cascadeTier p /\ best l k q) \/
    (k = RatePlan.cascadeTier p /\ ((q = p /\ forall r, best l k r -> outranks p r = true) \/ (best l k q /\ outranks p q = false))).
Proof.
  intros Hr Hex. assert (forall s, s ∈ l -> s ∈ l ++ [p]) as Hl by (intros s Hs; apply elem_of_app; by left). assert (p ∈ l ++ [p]) as Hp by (apply elem_of_app; right; left).
  split.
  - intros (Hq & Kq & Bq). destruct (decide (RatePlan.id q ∈ RatePlan.id <$> l)) as [(s & Es & Hs)%list_elem_of_fmap|Hnot].
    + assert (best l k q) as Hb by (rewrite (rk_id _ Hr q s Hq (Hl s Hs) Es) in *; split_and!; auto).
      destruct (decide (k = RatePlan.cascadeTier p)); [right|left]; split; auto.
    + assert (q = p) as ->. { apply elem_of_app in Hq as [Hq|Hq%list_elem_of_singleton]; [|done]. destruct Hnot. by apply list_elem_of_fmap_2. }
      right. split; [done|]. left. split; [done|]. intros r (Hr1 & Kr & _). rewrite (outranks_total _ p r Hr Hp (Hl r Hr1)); [by rewrite Bq by auto|congruence|].
      intros <-. destruct Hnot. by apply list_elem_of_fmap_2.
  - assert (forall s, s ∈ l ++ [p] -> s ∈ l \/ s = p) as Hin by (intros s [?|?%list_elem_of_singleton]%elem_of_app; auto).
    intros [[Hk (Hq & Kq & Bq)]|[Hk [[-> Hbest]|[(Hq & Kq & Bq) Hp']]]]; (split; [auto|split; [done|]]); intros s Hs Ks; destruct (Hin s Hs) as [Hs1| ->]; auto; [by rewrite Ks in Hk| |apply outranks_irrefl].
    destruct (Hex s Hs1 Ks) as (r & Hbr). pose proof (Hbest r Hbr) as Hpr. destruct Hbr as (_ & _ & Br). apply not_true_iff_false. intros Hsp.
    pose proof (outranks_trans _ _ _ Hsp Hpr) as Hsr. by rewrite Br in Hsr.
Qed.
Lemma by_tier_best plans : ranked plans -> tiers_of plans (by_tier plans).
Proof.
  unfold by_tier. induction plans as [|p l IH] using rev_ind; intros Hr.
  { split; [by apply NoDup_nil_2|]. split; [|by intros ? ?%elem_of_nil]. intros k q. rewrite elem_of_nil. split; [done|]. by intros ([]%elem_of_nil & _). }
  rewrite foldl_app. simpl. destruct IH as (Hnd & Hb & Hk). { eapply ranked_sub; [|exact Hr]. intros s Hs. apply elem_of_app. by left. }
  split; [by apply tier_set_nodup|]. split.
  - intros k q. rewrite elem_tier_set, best_snoc by (done || intros s Hs <-; apply Hk in Hs as ([k' r] & -> & Hin)%list_elem_of_fmap; exists r; by apply Hb).
    rewrite Hb. setoid_rewrite Hb. done.
  - intros s [Hs|Hs%list_elem_of_singleton]%elem_of_app; rewrite tier_set_keys; [right; auto | left; by subst].
Qed.

Lemma sort_by_perm_eq {A} (key : A -> Z) l l' : l ≡ₚ l' -> (forall x y, x ∈ l -> y ∈ l -> key x = key y -> x = y) -> sort_by key l = sort_by key l'.
Proof.
  intros Hp Hu. assert (sort_by key l ≡ₚ sort_by key l') as Hs by (by rewrite !sort_by_perm).
  assert (forall x, x ∈ sort_by key l -> x ∈ l) as Hin by (intros x; by rewrite sort_by_perm).
  pose proof (sort_by_sorted key l) as S1. pose proof (sort_by_sorted key l') as S2. revert Hs S1 S2 Hin. generalize (sort_by key l) (sort_by key l'). clear Hp.
  intros s1. induction s1 as [|x s1 IH]; intros s2 Hs S1 S2 Hin; [by apply Permutation_nil_l in Hs as ->|].
  destruct s2 as [|y s2]; [by apply Permutation_nil_r in Hs|]. apply StronglySorted_inv in S1 as [S1 Hx], S2 as [S2 Hy].
  assert (x = y) as ->.
  { apply Hu; [apply Hin; left|apply Hin; rewrite Hs; left|]. rewrite Forall_forall in Hx, Hy.
    assert (y ∈ x :: s1) as [->|H1]%elem_of_cons by (rewrite Hs; left); [done|]. assert (x ∈ y :: s2) as [->|H2]%elem_of_cons by (rewrite <- Hs; left); [done|].
    specialize (Hx y H1). specialize (Hy x H2). simpl in *. lia. }
  f_equal. apply IH; [by apply Permutation_cons_inv in Hs|done|done|]. intros z Hz. apply Hin. by right.
Qed.

(** what a night costs depends on the rate plans and not on the order the
    database happens to list them in: a company's negotiated rate, else the
    promotion asked for, else the rack rate adjusted once per tier (base,
    seasonal, weekend, corporate, in that order) by the tier's best plan, one
    for the room type before one for the whole branch, then the newest. *)
Theorem night_price_determined `{DecimalLib} (x : RoomType.t) (date : Z) (plans plans' : list RatePlan.t) (promoCode corporateRatePlanId : option string) (weekend : list Z) :
  ranked plans -> plans ≡ₚ plans' ->
  resolveNight x date plans promoCode corporateRatePlanId weekend = resolveNight x date plans' promoCode corporateRatePlanId weekend /\
  forall k p, (k, p) ∈ by_tier plans <-> best plans k p.
Proof.
  intros Hr Hp. split; [|by destruct (by_tier_best plans Hr) as (_ & Hb & _)].
  unfold resolveNight. set (app := List.filter (applies_on weekend date) plans). set (app' := List.filter (applies_on weekend date) plans').
  assert (app ≡ₚ app') as Ha by (by apply filterb_perm). assert (ranked app) as Hra by (eapply ranked_sub; [|exact Hr]; by intros ? [? _]%elem_of_filterb).
  set (ov := List.filter RatePlan.isOverride app). set (ov' := List.filter RatePlan.isOverride app').
  assert (ov ≡ₚ ov') as Ho by (by apply filterb_perm). assert (ranked ov) as Hro by (eapply ranked_sub; [|exact Hra]; by intros ? [? _]%elem_of_filterb).
  assert (forall i, List.find (fun p => bool_decide (RatePlan.type p = rate_negotiated) && bool_decide (RatePlan.id p = i)) ov =
                    List.find (fun p => bool_decide (RatePlan.type p = rate_negotiated) && bool_decide (RatePlan.id p = i)) ov') as Hneg.
  { intros i. apply find_perm; [done|]. intros p q Hp' Hq. rewrite !andb_true_iff, !bool_decide_eq_true. intros [_ Ep] [_ Eq]. eapply (rk_id _ Hro); congruence. }
  assert (forall c, List.find (fun p => bool_decide (RatePlan.type p = rate_promotional) && bool_decide (RatePlan.promoCode p = Some c)) ov =
                    List.find (fun p => bool_decide (RatePlan.type p = rate_promotional) && bool_decide (RatePlan.promoCode p = Some c)) ov') as Hpro.
  { intros c. apply find_perm; [done|]. intros p q Hp' Hq. rewrite !andb_true_iff, !bool_decide_eq_true. intros [Tp Ep] [Tq Eq]. eapply (rk_promo _ Hro); congruence. }
  set (cas := List.filter (fun p => negb (RatePlan.isOverride p)) app). set (cas' := List.filter (fun p => negb (RatePlan.isOverride p)) app').
  assert (sort_by fst (by_tier cas) = sort_by fst (by_tier cas')) as Hsort.
  { assert (cas ≡ₚ cas') as Hc by (by apply filterb_perm). assert (ranked cas) as Hrc by (eapply ranked_sub; [|exact Hra]; by intros ? [? _]%elem_of_filterb).
    destruct (by_tier_best cas Hrc) as (N1 & B1 & _). assert (ranked cas') as Hrc' by (eapply ranked_sub; [|exact Hrc]; intros s; by rewrite Hc).
    destruct (by_tier_best cas' Hrc') as (N2 & B2 & _). apply sort_by_perm_eq.
    - apply NoDup_Permutation; [by eapply NoDup_fmap_1|by eapply NoDup_fmap_1|]. intros [k q]. rewrite B1, B2. unfold best. by setoid_rewrite Hc.
    - intros [k p] [k' q] H1 H2 E. simpl in E. subst k'. f_equal. apply B1 in H1, H2. exact (best_unique cas k p q Hrc H1 H2). }
  rewrite Hsort. destruct corporateRatePlanId, promoCode; by rewrite ?Hneg, ?Hpro.
Qed.

(** Pricing a stay writes its trail and nothing else. *)
Definition only_trail (d d' : Db) : Prop := exists l, d' = upd_rateAuditLogs (fun _ => l) d.
#[global] Instance only_trail_preorder : PreOrder only_trail.
Proof. split; [intros d; exists (rateAuditLogs d); by destruct d|]. intros d1 d2 d3 [l ->] [l' ->]. by exists l'. Qed.

Lemma nights_from_ge fuel a b n : n ∈ nights_from fuel a b -> a <= n.
Proof. revert a. induction fuel as [|fuel IH]; intros a; simpl; [by intros ?%elem_of_nil|]. destruct (a <? b); [|by intros ?%elem_of_nil]. intros [->|Hn%IH]%elem_of_cons; unfold DAY_MS in *; lia. Qed.
Lemma nights_between_NoDup a b : NoDup (nights_between a b).
Proof.
  unfold nights_between. generalize (Z.to_nat ((b - a) / DAY_MS + 1)). intros fuel. revert a. induction fuel as [|fuel IH]; intros a; simpl; [constructor|].
  destruct (a <? b); constructor; [|apply IH]. intros Hn%nights_from_ge. unfold DAY_MS in *. lia.
Qed.

Section StayPrice.
Context `{DecimalLib} `{TaxDb}.

Lemma trail_row_inv b ctx n d d' i : trail_row b ctx n d = Ok (d', i) -> only_trail d d' /\
  exists row, rateAuditLogs d' = rateAuditLogs d ++ [row] /\ RateAuditLog.id row = i /\ RateAuditLog.date row = nr_date n /\ RateAuditLog.finalRate row = to_fixed2 (nr_finalRate n) /\
    RateAuditLog.reservationId row = pc_reservationId ctx.
Proof. unfold trail_row. intros Hm. m_inv. split; [by eexists|]. eexists. split; [reflexivity|]. done. Qed.
Lemma trail_inv b ctx ns ids d d' ids' : for_each ns ids (fun ids n => let! i := trail_row b ctx n in ret (ids ++ [i])) d = Ok (d', ids') -> only_trail d d' /\
  exists rows, rateAuditLogs d' = rateAuditLogs d ++ rows /\ ids' = ids ++ (RateAuditLog.id <$> rows) /\ RateAuditLog.date <$> rows = nr_date <$> ns /\
    RateAuditLog.finalRate <$> rows = (fun n => to_fixed2 (nr_finalRate n)) <$> ns.
Proof.
  revert d ids. induction ns as [|n ns IH]; intros d ids Hm; simpl in Hm.
  { m_inv. split; [reflexivity|]. exists []. by rewrite !app_nil_r. }
  m_inv. match goal with H : trail_row _ _ _ _ = _ |- _ => apply trail_row_inv in H as (Ho & row & Hl & <- & Hd & Hf & _) end.
  destruct (IH _ _ Hm) as (Ho' & rows & Hl' & -> & Hd' & Hf'). split; [by etrans|]. exists (row :: rows). csimpl. rewrite Hl', Hl, <- !app_assoc, Hd', Hf', Hd, Hf. done.
Qed.

Record stay_price (checkIn checkOut : Z) (r : StayResolution) (ns : list NightResolution) : Prop := {
  sp_nights : nr_date <$> ns = iso_date <$> nights_between checkIn checkOut;
  sp_positive : Forall (fun n => (0 < nr_finalRate n)%Qc) ns;
  sp_subtotal : sr_subtotal r = dsum (nr_finalRate <$> ns);
  sp_perNight : sr_perNight r = per_night_of <$> ns;
  sp_length : round_days checkIn checkOut <= MAX_STAY_NIGHTS;
}.
Lemma resolveNight_date x date plans promo corp wk : nr_date (resolveNight x date plans promo corp wk) = iso_date date.
Proof. unfold resolveNight. match goal with |- nr_date (match ?m with _ => _ end) = _ => destruct m end; [done|]. by destruct (cascade_from _ _). Qed.
Lemma surcharged_date s n : nr_date (surcharged s n) = nr_date n.
Proof. unfold surcharged. by destruct (dis_zero s). Qed.

Lemma resolveStay_inv b x i o deal ctx d d' r : resolveStay b x i o deal ctx d = Ok (d', r) -> only_trail d d' /\
  exists ns, stay_price i o r ns /\ (pc_persistAudit ctx = true -> exists rows, rateAuditLogs d' = rateAuditLogs d ++ rows /\ sr_auditLogIds r = RateAuditLog.id <$> rows /\
    RateAuditLog.date <$> rows = nr_date <$> ns /\ RateAuditLog.finalRate <$> rows = (fun n => to_fixed2 (nr_finalRate n)) <$> ns).
Proof.
  unfold resolveStay. intros Hm. repeat m_step.
  match goal with H : company_plan _ _ = Ok (?d2, _) |- _ => assert (d2 = d) as -> by (unfold company_plan in H; destruct (deal_corporateAccountId deal) as [c|]; [destruct (nonempty c)|]; by m_inv); clear H end.
  match goal with H : for_each (if _ then ?l else _) _ _ _ = _ |- _ => set (ns := l) in *; apply trail_inv in H as (Ho & rows & Hl & Hids & Hd & Hf) end.
  split; [done|]. exists ns. split.
  - constructor; try done.
    + unfold ns. rewrite <- list_fmap_compose. apply list_fmap_ext. intros k date _. simpl. by rewrite surcharged_date, resolveNight_date.
    + apply Forall_forall. intros n Hn. match goal with H : existsb _ ns = false |- _ => rename H into Hex end. apply not_true_iff_false in Hex. rewrite existsb_exists_elem in Hex.
      destruct (dgt_spec (nr_finalRate n) 0%Qc) as [|Hle]; [done|]. destruct Hex. exists n. split; [done|]. by destruct (dgt_spec (nr_finalRate n) 0%Qc).
    + match goal with H : (_ <? _) = false |- _ => by apply Z.ltb_ge in H end.
  - intros Hp. rewrite Hp in *. exists rows. done.
Qed.

(** The night-by-night list a stay keeps prices each night at its own rate. *)
Lemma nightly_entry_lookup i o r ns k n : midnight i -> in_iso_range (day_of i) -> o <= OPEN_ENDED -> stay_price i o r ns -> ns !! k = Some n ->
  exists night, nights_between i o !! k = Some night /\ nightlyRateFor (Some (nightlyRatesOf r)) night = Ok (Some (dp2 (nr_finalRate n))).
Proof.
  intros Hi Hrange Ho [Hd _ _ Hp _] Hk.
  assert (exists night, nights_between i o !! k = Some night /\ nr_date n = iso_date night) as (night & Hn & Hdate).
  { assert ((nr_date <$> ns) !! k = Some (nr_date n)) as Hx by (by rewrite list_lookup_fmap, Hk). rewrite Hd, list_lookup_fmap in Hx. by destruct (nights_between i o !! k) as [m|]; simplify_eq/=; eauto. }
  exists night. split; [done|]. unfold nightlyRatesOf. rewrite Hp, <- list_fmap_compose. unfold nightlyRateFor.
  assert (find_night (iso_date night) (((fun n => JObj [("date", JStr (pn_date n)); ("rate", JStr (pn_finalRate n))]) ∘ per_night_of) <$> ns) =
          Some (JObj [("date", JStr (nr_date n)); ("rate", JStr (to_fixed2 (nr_finalRate n)))])) as ->; [|simpl; by rewrite dec_parse_to_fixed2].
  assert (forall m, m ∈ nights_between i o -> midnight m /\ in_iso_range (day_of m)) as Hok.
  { intros m (j & Hj & -> & Hlt)%elem_of_nights_between. apply midnight_mul in Hi as [q ->]. replace (q * DAY_MS + j * DAY_MS) with ((q + j) * DAY_MS) in * by ring.
    rewrite day_of_midnight in *. split; [by apply Z_mod_mult|]. unfold in_iso_range, OPEN_ENDED, DAY_MS in *. lia. }
  assert (NoDup (nr_date <$> ns)) as Hnd.
  { rewrite Hd. apply NoDup_fmap_2_strong; [|apply nights_between_NoDup]. intros x y Hx Hy E. destruct (Hok x Hx), (Hok y Hy). by apply iso_date_inj. }
  clear -Hk Hnd Hdate. revert k Hk. induction ns as [|m ns IH]; intros k Hk; [done|]. csimpl in *. apply NoDup_cons in Hnd as [Hm Hnd]. destruct k as [|k]; simplify_eq/=.
  - by rewrite bool_decide_true.
  - rewrite bool_decide_false; [by eapply IH|]. rewrite <- Hdate. intros E. apply Hm. rewrite E. apply list_elem_of_fmap_2. by eapply list_elem_of_lookup_2.
Qed.
End StayPrice.

Module RatesWitness.
Import Hotel.
Definition plan (i : string) (rt : option string) (type : RateType) (amount : Z) (adj : option AdjustmentType) (code : option string) (created : Z) : RatePlan.t := {|
  RatePlan.id := i; RatePlan.branchId := "b1"; RatePlan.roomTypeId := rt; RatePlan.type := type; RatePlan.amount := cents amount; RatePlan.adjustmentType := adj;
  RatePlan.cascadeTier := default 0 (CASCADE_TIER_BY_TYPE type); RatePlan.isOverride := bool_decide (type ∈ OVERRIDE_TYPES); RatePlan.validFrom := None; RatePlan.validTo := None;
  RatePlan.minLOS := None; RatePlan.promoCode := code; RatePlan.isActive := true; RatePlan.createdAt := created |}.
Definition season_all : RatePlan.t := plan "p1" None rate_seasonal 1000 (Some adjust_percentage) None 1.
Definition season_double : RatePlan.t := plan "p2" (Some "rt1") rate_seasonal 2000 (Some adjust_percentage) None 0.
Lemma seasons_ranked : ranked [season_all; season_double].
Proof.
  constructor; intros p q [->|[->|Hp]%elem_of_cons]%elem_of_cons [->|[->|Hq]%elem_of_cons]%elem_of_cons; try done; try (by apply elem_of_nil in Hp); by apply elem_of_nil in Hq.
Qed.
(** A double in season, whichever way the two plans are listed: its own plan's 20% on 75.00. *)
Lemma night_price_determined_witness :
  resolveNight hotel_double (day 20001) [season_all; season_double] None None DEFAULT_WEEKEND_NIGHTS =
    resolveNight hotel_double (day 20001) [season_double; season_all] None None DEFAULT_WEEKEND_NIGHTS /\
  this (nr_finalRate (resolveNight hotel_double (day 20001) [season_double; season_all] None None DEFAULT_WEEKEND_NIGHTS)) = this (cents 9000).
Proof.
  split; [apply (night_price_determined hotel_double (day 20001) [season_all; season_double] [season_double; season_all] None None DEFAULT_WEEKEND_NIGHTS seasons_ranked); apply Permutation_swap|].
  vm_compute. reflexivity.
Defined.

(** Two promotions under one code: which one a guest pays is the order of the rows. *)
Definition promo_a : RatePlan.t := plan "p3" None rate_promotional 5000 None (Some "SUMMER") 0.
Definition promo_b : RatePlan.t := plan "p4" None rate_promotional 6000 None (Some "SUMMER") 1.
Example promotions_share_a_code :
  this (nr_finalRate (resolveNight hotel_double (day 20001) [promo_a; promo_b] (Some "SUMMER") None [])) = this (cents 5000) /\
  this (nr_finalRate (resolveNight hotel_double (day 20001) [promo_b; promo_a] (Some "SUMMER") None [])) = this (cents 6000).
Proof. split; vm_compute; reflexivity. Qed.
End RatesWitness.
