(* ===== verification/Guests.v ===== *)
(** Guests (src/src/modules/guests/guests.service.ts): their profiles, and whose
    profile a booking joins. *)
From stdpp Require Import pretty.
From Stdlib Require Import QArith Qcanon.
From S2P Require Import Prelude Decimal Json Dates StayPolicies Taxes Authority Transactions Db SampleHotel Rooms SalesRules.
Local Open Scope Z_scope.

(** ** Names and numbers *)
Definition is_digit (c : Ascii.ascii) : bool := isSome (char_digit c).
Definition phoneDigitsOf (phone : option string) : option string :=
  let digits := string_filter is_digit (default "" phone) in
  if (0 <? Z.of_nat (String.length digits)) then Some digits else None.
Definition PHONE_MATCH_DIGITS : nat := 9.
(** [s.slice(-n)] *)
Definition last_chars (n : nat) (s : string) : string := String.substring (String.length s - n) n s.
(** [s.endsWith(t)] *)
Definition ends_with (t s : string) : bool := (String.length t <=? String.length s)%nat && bool_decide (last_chars (String.length t) s = t).
Definition plain_name (s : string) : string := js_lower (collapse_spaces false (js_trim s)).
Definition sameName (a b : string) : bool := bool_decide (plain_name a = plain_name b).
Definition samePhone (a b : option string) : bool :=
  match phoneDigitsOf a, phoneDigitsOf b with
  | Some x, Some y => (PHONE_MATCH_DIGITS <=? String.length x)%nat && (PHONE_MATCH_DIGITS <=? String.length y)%nat &&
                      bool_decide (last_chars PHONE_MATCH_DIGITS x = last_chars PHONE_MATCH_DIGITS y)
  | _, _ => false
  end.

Record CreateGuestDto := { cg_name : string; cg_email : option string; cg_phone : option string }.
(** [None] leaves a field, [Some None] clears it. *)
Record UpdateGuestDto := { ug_name : option string; ug_email : option (option string); ug_phone : option (option string); ug_vipLevel : option (option Z) }.
Record RecordIdDocumentDto := { id_docType : string; id_docNumber : string; id_docExpiryDate : option string; id_nationality : option string }.
(** [{ guestId } | { guest }] *)
Inductive GuestInput := by_id (guestId : string) | by_details (guest : CreateGuestDto).
Inductive IdCheckState := first_visit | id_valid | id_expired.

Definition guest_where (i : string) (g : GuestProfile.t) : bool := bool_decide (GuestProfile.id g = i).
Definition live_guest (g : GuestProfile.t) : bool := isNone (GuestProfile.deletedAt g).
(** [{ equals: email, mode: 'insensitive' }] *)
Definition has_email (email : string) (g : GuestProfile.t) : bool :=
  match GuestProfile.email g with Some e => bool_decide (js_lower e = js_lower email) | None => false end.
Definition has_phone_end (e : string) (g : GuestProfile.t) : bool := match GuestProfile.phoneDigits g with Some s => ends_with e s | None => false end.
(** [orderBy: { updatedAt: 'desc' }] *)
Definition newest_first (l : list GuestProfile.t) : list GuestProfile.t := sort_by (fun g => - GuestProfile.updatedAt g) l.
Definition set_string (o : option string) : option string := match o with Some s => if nonempty s then Some s else None | None => None end.

Section Guests.
Context `{Uuid}.

Definition createGuestInTx (dto : CreateGuestDto) : M GuestProfile.t :=
  let! i := new_id in
  let! at_ := now in
  let row := {| GuestProfile.id := i; GuestProfile.name := cg_name dto; GuestProfile.email := cg_email dto; GuestProfile.phone := cg_phone dto;
                GuestProfile.phoneDigits := phoneDigitsOf (cg_phone dto); GuestProfile.vipLevel := Some 0; GuestProfile.idDocType := None; GuestProfile.idDocNumber := None;
                GuestProfile.idDocExpiryDate := None; GuestProfile.nationality := None; GuestProfile.loyaltyPoints := Some 0; GuestProfile.loyaltyTier := None;
                GuestProfile.loyaltyEnrolledAt := None; GuestProfile.marketingOptIn := false; GuestProfile.marketingOptInAt := None;
                GuestProfile.marketingOptInSource := None; GuestProfile.marketingUnsubscribedAt := None; GuestProfile.updatedAt := at_; GuestProfile.deletedAt := None |} in
  do! modify (upd_guests (fun l => l ++ [row])) in
  ret row.

(** The email and the end of the phone number a booking is matched by. *)
Definition match_email (dto : CreateGuestDto) : option string := set_string ((fun e => js_lower (js_trim e)) <$> cg_email dto).
Definition match_phone (dto : CreateGuestDto) : option string :=
  digits ← phoneDigitsOf (cg_phone dto);
  if (PHONE_MATCH_DIGITS <=? String.length digits)%nat then Some (last_chars PHONE_MATCH_DIGITS digits) else None.
Definition on_file (email phoneEnd : option string) (g : GuestProfile.t) : bool :=
  live_guest g && (match email with Some e => has_email e g | None => false end || match phoneEnd with Some e => has_phone_end e g | None => false end).
Definition knownGuest (dto : CreateGuestDto) (fillIn : bool) : M (option GuestProfile.t) :=
  let email := match_email dto in
  let phoneEnd := match_phone dto in
  if isNone email && isNone phoneEnd then ret None
  else
    let! rows := findMany guests (on_file email phoneEnd) in
    match newest_first rows with
    | [] => ret None
    | found :: _ =>
        if negb fillIn then ret (Some found)
        else
          let fill_email := match set_string (GuestProfile.email found) with Some _ => None | None => email end in
          let fill_phone := match set_string (GuestProfile.phone found) with Some _ => None | None => set_string (cg_phone dto) end in
          if isNone fill_email && isNone fill_phone then ret (Some found)
          else
            let! at_ := now in
            let data g := GuestProfile.with_contact (match fill_email with Some e => Some e | None => GuestProfile.email g end)
                            (match fill_phone with Some p => Some p | None => GuestProfile.phone g end)
                            (match fill_phone with Some _ => phoneDigitsOf (cg_phone dto) | None => GuestProfile.phoneDigits g end) at_ g in
            do! modify (upd_guests (update_where (guest_where (GuestProfile.id found)) data)) in
            ret (Some (data found))
    end.

(** [newest] 25 profiles with the email, the first whose name is the one typed. *)
Definition publicBookingGuest (dto : CreateGuestDto) : M GuestProfile.t :=
  let! found := match set_string (js_trim <$> cg_email dto) with
                | Some email =>
                    let! rows := findMany guests (fun g => live_guest g && has_email email g) in
                    ret (List.find (fun g => sameName (GuestProfile.name g) (cg_name dto)) (take 25 (newest_first rows)))
                | None => ret None
                end in
  match found with
  | Some g =>
      do! (match set_string (js_trim <$> cg_phone dto) with
           | Some phone =>
               if samePhone (GuestProfile.phone g) (cg_phone dto) then ret tt
               else modify (upd_guestNotes (fun l => l ++ [{| GuestNote.guestId := GuestProfile.id g; GuestNote.authorId := None;
                      GuestNote.body := "Booked online giving the phone number " +:+ phone +:+
                        match set_string (GuestProfile.phone g) with Some p => ", not the " +:+ p +:+ " on this profile" | None => "" end +:+ ". Check which is right at check-in." |}]))
           | None => ret tt
           end) in
      ret g
  | None => createGuestInTx dto
  end.

Definition findOrCreateGuestInTx (input : GuestInput) (publicBooking : bool) : M GuestProfile.t :=
  match input with
  | by_details dto =>
      if publicBooking then publicBookingGuest dto
      else let! known := knownGuest dto true in match known with Some g => ret g | None => createGuestInTx dto end
  | by_id i => orThrow (findFirst guests (fun g => guest_where i g && live_guest g)) not_found
  end.

Definition createGuest (dto : CreateGuestDto) : M GuestProfile.t :=
  let! known := knownGuest dto false in
  throw! conflict when isSome known in
  createGuestInTx dto.

Definition findGuest (i : string) : M GuestProfile.t := orThrow (findFirst guests (fun g => guest_where i g && live_guest g)) not_found.
Definition updateGuest (i : string) (dto : UpdateGuestDto) (actorId : string) : M unit :=
  let! existing := findGuest i in
  do! match ug_email dto with
      | Some (Some e) =>
          if nonempty e then
            let! clash := findFirst guests (fun g => has_email e g && negb (guest_where i g) && live_guest g) in
            lift (throw_if (isSome clash) conflict)
          else ret tt
      | _ => ret tt
      end in
  let! at_ := now in
  do! modify (upd_guests (update_where (guest_where i) (fun g =>
        GuestProfile.with_profile (default (GuestProfile.name g) (ug_name dto)) (default (GuestProfile.email g) (ug_email dto)) (default (GuestProfile.phone g) (ug_phone dto))
          (match ug_phone dto with Some p => phoneDigitsOf p | None => GuestProfile.phoneDigits g end) (default (GuestProfile.vipLevel g) (ug_vipLevel dto)) at_ g))) in
  auditLog None (Some actorId) "guest.updated" "guest_profile" i.
Definition addGuestNote (i body actorId : string) : M GuestNote.t :=
  let! _ := findGuest i in
  let note := {| GuestNote.guestId := i; GuestNote.authorId := Some actorId; GuestNote.body := body |} in
  do! modify (upd_guestNotes (fun l => l ++ [note])) in
  do! auditLog None (Some actorId) "guest.note_added" "guest_profile" i in
  ret note.

(** The number is stored encrypted; the photo goes to the document store. *)
Definition recordIdDocumentInTx (encrypt : string -> string) (b i : string) (dto : RecordIdDocumentDto) (actorId : string) : M unit :=
  let! expiry := match id_docExpiryDate dto with Some s => if nonempty s then let! t := a_date s in ret (Some t) else ret None | None => ret None end in
  let! at_ := now in
  do! modify (upd_guests (update_where (guest_where i) (fun g =>
        GuestProfile.with_idDocument (Some (id_docType dto)) (Some (encrypt (id_docNumber dto))) expiry
          (match id_nationality dto with Some n => Some n | None => GuestProfile.nationality g end) at_ g))) in
  auditLog (Some b) (Some actorId) "guest.id_document_recorded" "guest_profile" i.
Definition deriveIdCheckState (expiry : option Z) : M IdCheckState :=
  let! at_ := now in ret (match expiry with None => first_visit | Some e => if at_ <=? e then id_valid else id_expired end).
End Guests.

(** ** Matching *)
Module GuestMatching.
Lemma js_lower_idemp s : js_lower (js_lower s) = js_lower s.
Proof.
  unfold js_lower. induction s as [|c s IH]; simpl; [done|]. rewrite IH. f_equal.
  destruct c as [[] [] [] [] [] [] [] []]; vm_compute; reflexivity.
Qed.
Lemma substring_length n m s : String.length (String.substring n m s) = Nat.min m (String.length s - n).
Proof.
  revert n m. induction s as [|c s IH]; intros [|n] [|m]; simpl; try done; rewrite ?IH; simpl; try lia.
Qed.
Lemma ends_with_last n s : (n <= String.length s)%nat -> ends_with (last_chars n s) s = true.
Proof.
  intros Hn. assert (String.length (last_chars n s) = n) as E by (unfold last_chars; rewrite substring_length; lia).
  unfold ends_with. rewrite E. apply andb_true_intro. split; [by apply Nat.leb_le | by apply bool_decide_true].
Qed.
Lemma set_string_Some o s : set_string o = Some s <-> o = Some s /\ nonempty s = true.
Proof. destruct o as [x|]; simpl; [destruct (nonempty x) eqn:E|]; split; intros ?; destruct_and?; simplify_eq; auto; congruence. Qed.

Section Matching.
Context `{Uuid}.

(** The profile a booking's details are written to, as a new guest. *)
Definition written (dto : CreateGuestDto) (d : Db) (g : GuestProfile.t) : Prop :=
  GuestProfile.id g = gen_random_uuid (seq d) /\ GuestProfile.name g = cg_name dto /\ GuestProfile.email g = cg_email dto /\
  GuestProfile.phone g = cg_phone dto /\ GuestProfile.phoneDigits g = phoneDigitsOf (cg_phone dto) /\ GuestProfile.deletedAt g = None.
Lemma create_run dto d : exists d' g, createGuestInTx dto d = Ok (d', g) /\ written dto d g /\ guests d' = guests d ++ [g] /\ guestNotes d' = guestNotes d.
Proof.
  unfold createGuestInTx, new_id, now, gets, modify, ret, bind. do 2 eexists. split; [reflexivity|]. by repeat split.
Qed.

Lemma newest_in l g r : newest_first l = g :: r -> g ∈ l /\ forall x, x ∈ l -> GuestProfile.updatedAt x <= GuestProfile.updatedAt g.
Proof.
  unfold newest_first. intros E. pose proof (sort_by_perm (fun g => - GuestProfile.updatedAt g) l) as P. rewrite E in P.
  pose proof (sort_by_sorted (fun g => - GuestProfile.updatedAt g) l) as S. rewrite E in S. apply StronglySorted_inv in S as [_ S].
  split; [rewrite <- P; apply list_elem_of_here|]. intros x Hx. rewrite <- P in Hx. apply elem_of_cons in Hx as [->|Hx]; [done|].
  rewrite Forall_forall in S. specialize (S x Hx). simpl in S. lia.
Qed.
Lemma newest_nil l : newest_first l = [] -> l = [].
Proof. intros E. apply Permutation_nil. pose proof (sort_by_perm (fun g => - GuestProfile.updatedAt g) l) as P. unfold newest_first in E. by rewrite E in P. Qed.
Lemma filterb_nil_inv {A} (p : A -> bool) l x : List.filter p l = [] -> x ∈ l -> p x = false.
Proof. intros E Hx. destruct (p x) eqn:Ep; [|done]. assert (x ∈ List.filter p l) as Hi by by apply elem_of_filterb. rewrite E in Hi. by apply not_elem_of_nil in Hi. Qed.

(** A booking on the public page always finds its guest and never changes
    a profile: it joins a live profile that has both the email and the name
    typed, leaving at most one unsigned note on it, or it opens a new profile
    with what was typed and touches no other. *)
Theorem public_booking_changes_no_profile dto d :
  exists d' g, findOrCreateGuestInTx (by_details dto) true d = Ok (d', g) /\
    ((g ∈ guests d /\ live_guest g = true /\ sameName (GuestProfile.name g) (cg_name dto) = true /\
      (exists e, cg_email dto = Some e /\ nonempty (js_trim e) = true /\ has_email (js_trim e) g = true) /\ guests d' = guests d /\
      exists notes, guestNotes d' = guestNotes d ++ notes /\ (length notes <= 1)%nat /\
        Forall (fun n => GuestNote.guestId n = GuestProfile.id g /\ GuestNote.authorId n = None) notes) \/
     (written dto d g /\ guests d' = guests d ++ [g] /\ guestNotes d' = guestNotes d)).
Proof.
  unfold findOrCreateGuestInTx, publicBookingGuest.
  destruct (create_run dto d) as (d' & g & Hrun & Hw & Hg & Hn).
  destruct (set_string (js_trim <$> cg_email dto)) as [email|] eqn:Ee.
  2:{ exists d', g. split; [exact Hrun | by right]. }
  apply set_string_Some in Ee as [Ee He]. destruct (cg_email dto) as [e|] eqn:Edto; simplify_eq/=.
  set (found := List.find (fun g => sameName (GuestProfile.name g) (cg_name dto))
                  (take 25 (newest_first (List.filter (fun g => live_guest g && has_email (js_trim e) g) (guests d))))).
  erewrite (bind_run _ _ _ d found); [|reflexivity]. cbn beta. destruct found as [found0|] eqn:Ef; subst found.
  -
    apply find_Some in Ef as [Hin Hname]. apply elem_of_take in Hin as (i & Hin & _). apply list_elem_of_lookup_2 in Hin.
    unfold newest_first in Hin. rewrite sort_by_perm in Hin. apply elem_of_filterb in Hin as [Hin [Hl Hm]%andb_true_iff].
    destruct (set_string (js_trim <$> cg_phone dto)) as [phone|] eqn:Ep; [destruct (samePhone _ _) eqn:Es|];
      (do 2 eexists; split; [reflexivity|]; left; repeat split; try done; [by eauto|]);
      first [exists []; repeat split; simpl; [by rewrite app_nil_r | lia | constructor] | eexists [_]; repeat split; simpl; [lia | repeat constructor]].
  - exists d', g. split; [exact Hrun | by right].
Qed.

(** A profile filled in from a booking: what it had stays, and only an email
    or a phone it lacked is new. *)
Definition filled (x y : GuestProfile.t) : Prop :=
  y = GuestProfile.with_contact (GuestProfile.email y) (GuestProfile.phone y) (GuestProfile.phoneDigits y) (GuestProfile.updatedAt y) x /\
  (forall e, set_string (GuestProfile.email x) = Some e -> GuestProfile.email y = Some e) /\
  (forall p, set_string (GuestProfile.phone x) = Some p -> GuestProfile.phone y = Some p).
Lemma filled_refl x : filled x x.
Proof. split; [by destruct x|]. by split; intros ? [-> _]%set_string_Some. Qed.
Lemma match_phone_ends dto e : match_phone dto = Some e -> exists s, phoneDigitsOf (cg_phone dto) = Some s /\ ends_with e s = true.
Proof.
  unfold match_phone. destruct (phoneDigitsOf _) as [s|]; cbn -[Nat.leb PHONE_MATCH_DIGITS]; [|done]. destruct (Nat.leb _ _) eqn:E; [|done]. intros [= <-].
  exists s. split; [done|]. apply ends_with_last. by apply Nat.leb_le.
Qed.
Lemma match_email_nonempty dto e : match_email dto = Some e -> nonempty e = true /\ js_lower e = e.
Proof. intros [E ?]%set_string_Some. destruct (cg_email dto); simplify_eq/=. split; [done | apply js_lower_idemp]. Qed.

(** The fields a booking fills in. *)
Definition fills (dto : CreateGuestDto) (found g : GuestProfile.t) (at_ : Z) : GuestProfile.t :=
  let fe := match set_string (GuestProfile.email found) with Some _ => None | None => match_email dto end in
  let fp := match set_string (GuestProfile.phone found) with Some _ => None | None => set_string (cg_phone dto) end in
  GuestProfile.with_contact (match fe with Some e => Some e | None => GuestProfile.email g end) (match fp with Some p => Some p | None => GuestProfile.phone g end)
    (match fp with Some _ => phoneDigitsOf (cg_phone dto) | None => GuestProfile.phoneDigits g end) at_ g.
Lemma fills_filled dto x at_ : filled x (fills dto x x at_).
Proof.
  split; [by destruct x|]. unfold fills; simpl. split.
  - intros e E. rewrite E. by apply set_string_Some in E as [-> _].
  - intros p E. rewrite E. by apply set_string_Some in E as [-> _].
Qed.
Lemma fills_on_file dto x at_ : on_file (match_email dto) (match_phone dto) x = true -> on_file (match_email dto) (match_phone dto) (fills dto x x at_) = true.
Proof.
  unfold on_file. intros [Hl Hm]%andb_true_iff. apply andb_true_iff. split; [done|]. apply orb_true_iff. apply orb_true_iff in Hm as [Hm|Hm].
  - left. destruct (match_email dto) as [e|] eqn:Ee; [|done]. destruct (match_email_nonempty _ _ Ee) as [Hne Hlow].
    unfold has_email, fills in *; simpl. destruct (set_string (GuestProfile.email x)); [done|]. rewrite Ee. by rewrite bool_decide_true.
  - right. destruct (match_phone dto) as [e|] eqn:Ee; [|done]. unfold has_phone_end, fills in *; simpl.
    destruct (set_string (GuestProfile.phone x)); [done|]. destruct (set_string (cg_phone dto)); [|done].
    by destruct (match_phone_ends _ _ Ee) as (? & -> & ?).
Qed.

Lemma known_run dto d : exists d1 o, knownGuest dto true d = Ok (d1, o) /\ guestNotes d1 = guestNotes d /\ seq d1 = seq d /\
  match o with
  | None => d1 = d /\ forall x, x ∈ guests d -> on_file (match_email dto) (match_phone dto) x = false
  | Some g => exists f k, f ∈ guests d /\ on_file (match_email dto) (match_phone dto) f = true /\
      (forall x, x ∈ guests d -> on_file (match_email dto) (match_phone dto) x = true -> GuestProfile.updatedAt x <= GuestProfile.updatedAt f) /\
      guests d1 = update_where (guest_where (GuestProfile.id f)) k (guests d) /\ g = k f /\ filled f (k f) /\
      on_file (match_email dto) (match_phone dto) (k f) = true
  end.
Proof.
  unfold knownGuest. destruct (isNone (match_email dto) && isNone (match_phone dto)) eqn:E0.
  { exists d, None. repeat split. intros x _. apply andb_true_iff in E0 as [E1 E2]. unfold on_file.
    destruct (match_email dto), (match_phone dto); try done. apply andb_false_r. }
  erewrite bind_run; [|reflexivity]. cbn beta.
  destruct (newest_first _) as [|f rest] eqn:En.
  { exists d, None. repeat split. intros x Hx. apply newest_nil in En. by eapply filterb_nil_inv. }
  apply newest_in in En as [[Hin Hon]%elem_of_filterb Hnew].
  assert (forall x, x ∈ guests d -> on_file (match_email dto) (match_phone dto) x = true -> GuestProfile.updatedAt x <= GuestProfile.updatedAt f) as Hnew'
    by (intros; apply Hnew; by apply elem_of_filterb).
  simpl (negb true). cbn iota zeta. clear E0. destruct (isNone _ && isNone _).
  - exists d, (Some f). do 3 (split; [done|]). exists f, (fun g => g). split; [done|]. split; [done|]. split; [done|]. split; [|by split; [done | split; [apply filled_refl | done]]].
    unfold update_where. symmetry. clear. induction (guests d) as [|x l IH]; simpl; [done|]. f_equal; [by destruct (guest_where _ x) | exact IH].
  - erewrite bind_run; [|reflexivity]. cbn beta. erewrite bind_run; [|reflexivity].
    do 2 eexists. split; [reflexivity|]. do 2 (split; [done|]). exists f, (fun g => fills dto f g (clock d)).
    split; [done|]. split; [done|]. split; [done|]. split; [done|]. split; [done|]. split; [apply fills_filled | by apply fills_on_file].
Qed.

Lemma update_filled l f (k : GuestProfile.t -> GuestProfile.t) : NoDup (GuestProfile.id <$> l) -> f ∈ l -> filled f (k f) ->
  Forall2 filled l (update_where (guest_where (GuestProfile.id f)) k l) /\ k f ∈ update_where (guest_where (GuestProfile.id f)) k l.
Proof.
  intros Hnd Hin Hk. unfold update_where. split.
  - apply Forall2_fmap_r, Forall_Forall2_diag, Forall_forall. intros x Hx. change (filled x (if guest_where (GuestProfile.id f) x then k x else x)). destruct (guest_where (GuestProfile.id f) x) eqn:E; [|apply filled_refl].
    apply bool_decide_eq_true in E. by rewrite (NoDup_fmap_inj _ _ _ _ Hnd Hx Hin E).
  - apply list_elem_of_fmap. exists f. split; [|done]. unfold guest_where. by rewrite bool_decide_true.
Qed.
Lemma known_again dto d g : g ∈ guests d -> on_file (match_email dto) (match_phone dto) g = true ->
  exists d1 g1, findOrCreateGuestInTx (by_details dto) false d = Ok (d1, g1) /\ length (guests d1) = length (guests d).
Proof.
  intros Hg Hon. destruct (known_run dto d) as (d1 & o & Hrun & _ & _ & Ho). unfold findOrCreateGuestInTx. cbn iota.
  rewrite (bind_run _ _ _ _ _ Hrun). destruct o as [g1|].
  - exists d1, g1. split; [done|]. destruct Ho as (f & k & _ & _ & _ & -> & _). apply length_fmap.
  - destruct Ho as [_ Ho]. by rewrite (Ho g Hg) in Hon.
Qed.
Lemma create_refused dto d g : g ∈ guests d -> on_file (match_email dto) (match_phone dto) g = true -> createGuest dto d = Err conflict.
Proof.
  intros Hg Hon. unfold createGuest, knownGuest. destruct (isNone (match_email dto) && isNone (match_phone dto)) eqn:E0.
  { apply andb_true_iff in E0 as [E1 E2]. unfold on_file in Hon. destruct (match_email dto), (match_phone dto); try done. by rewrite andb_false_r in Hon. }
  destruct (newest_first (List.filter (on_file (match_email dto) (match_phone dto)) (guests d))) as [|f r] eqn:En.
  { apply newest_nil in En. rewrite (filterb_nil_inv _ _ _ En Hg) in Hon. done. }
  erewrite (bind_run _ _ _ d (Some f)); [reflexivity|]. erewrite bind_run; [|reflexivity]. cbn beta. rewrite En. reflexivity.
Qed.
Lemma new_on_file dto d g : written dto d g -> (forall e, cg_email dto = Some e -> js_trim e = e) ->
  isSome (match_email dto) || isSome (match_phone dto) = true -> on_file (match_email dto) (match_phone dto) g = true.
Proof.
  intros (_ & _ & He & _ & Hp & Hl) Htrim Hsome. unfold on_file, live_guest. rewrite Hl. simpl. apply orb_true_iff in Hsome as [Hs|Hs]; apply orb_true_iff.
  - left. destruct (match_email dto) as [m|] eqn:Em; [|done]. apply set_string_Some in Em as [Em _]. unfold has_email. rewrite He.
    destruct (cg_email dto) as [e|]; simplify_eq/=. rewrite (Htrim e eq_refl), js_lower_idemp. by apply bool_decide_true.
  - right. destruct (match_phone dto) as [m|] eqn:Em; [|done]. unfold has_phone_end. rewrite Hp. by destruct (match_phone_ends _ _ Em) as (? & -> & ?).
Qed.

(** A booking at the desk always finds its guest, and one person keeps one
    profile. When the email, or the last nine digits of the phone, is on file
    it joins the most recently changed such profile and only fills in what
    that profile lacked; otherwise it opens a profile. Booking again with the
    same details adds none, and creating the guest outright is refused. The
    email is as the request's validation leaves it, without spaces around it. *)
Theorem desk_booking_never_duplicates dto d :
  NoDup (GuestProfile.id <$> guests d) -> (forall e, cg_email dto = Some e -> js_trim e = e) ->
  exists d1 g, findOrCreateGuestInTx (by_details dto) false d = Ok (d1, g) /\ g ∈ guests d1 /\ guestNotes d1 = guestNotes d /\
    (if existsb (on_file (match_email dto) (match_phone dto)) (guests d)
     then Forall2 filled (guests d) (guests d1) /\
          exists f, f ∈ guests d /\ filled f g /\ on_file (match_email dto) (match_phone dto) f = true /\
            forall x, x ∈ guests d -> on_file (match_email dto) (match_phone dto) x = true -> GuestProfile.updatedAt x <= GuestProfile.updatedAt f
     else written dto d g /\ guests d1 = guests d ++ [g]) /\
    (isSome (match_email dto) || isSome (match_phone dto) = true ->
     createGuest dto d1 = Err conflict /\
     exists d2 g2, findOrCreateGuestInTx (by_details dto) false d1 = Ok (d2, g2) /\ length (guests d2) = length (guests d1)).
Proof.
  intros Hnd Htrim. destruct (known_run dto d) as (d0 & o & Hrun & Hnotes & _ & Ho). destruct o as [g|].
  - destruct Ho as (f & k & Hf & Hon & Hnew & Hg & -> & Hk & Hon'). destruct (update_filled _ _ _ Hnd Hf Hk) as [Hall Hin]. rewrite <- Hg in Hall, Hin.
    exists d0, (k f). split; [unfold findOrCreateGuestInTx; cbn iota; by rewrite (bind_run _ _ _ _ _ Hrun)|]. split; [done|]. split; [done|].
    split; [|intros _; split; [by eapply create_refused | by eapply known_again]].
    replace (existsb _ _) with true by (symmetry; apply existsb_exists_elem; eauto). eauto 10.
  - destruct Ho as [-> Hnone]. destruct (create_run dto d) as (d1 & g & Hc & Hw & Hg & Hn).
    assert (g ∈ guests d1) as Hin by (rewrite Hg; apply elem_of_app; right; by apply list_elem_of_singleton).
    exists d1, g. split; [unfold findOrCreateGuestInTx; cbn iota; by rewrite (bind_run _ _ _ _ _ Hrun)|]. split; [done|]. split; [done|].
    split; [|intros Hs; pose proof (new_on_file dto d g Hw Htrim Hs); split; [by eapply create_refused | by eapply known_again]].
    destruct (existsb _ _) eqn:E; [|done]. apply existsb_exists_elem in E as (x & Hx & Ex). by rewrite (Hnone x Hx) in Ex.
Qed.
End Matching.
End GuestMatching.

Module GuestsWitness.
Import Hotel GuestMatching.
(** Ada books at the desk with the email on her profile and a phone it lacks. *)
Definition ada : CreateGuestDto := {| cg_name := "Ada"; cg_email := Some "Ada@Example.com"; cg_phone := Some "+234 803 123 4567" |}.
Lemma ada_profiles : NoDup (GuestProfile.id <$> guests hotel).
Proof. apply NoDup_singleton. Qed.
Lemma ada_email e : cg_email ada = Some e -> js_trim e = e.
Proof. intros [= <-]. vm_compute. reflexivity. Qed.
Lemma desk_booking_never_duplicates_witness :
  existsb (on_file (match_email ada) (match_phone ada)) (guests hotel) = true /\
  exists d1 g, findOrCreateGuestInTx (by_details ada) false hotel = Ok (d1, g) /\ createGuest ada d1 = Err conflict.
Proof.
  split; [vm_compute; reflexivity|].
  destruct (desk_booking_never_duplicates ada hotel ada_profiles ada_email) as (d1 & g & Hrun & _ & _ & _ & Hagain).
  exists d1, g. split; [exact Hrun|]. apply Hagain. vm_compute. reflexivity.
Defined.
End GuestsWitness.
