(* ===== verification/Notices.v ===== *)
(** What a change to a booking leaves behind for others: the guest's messages
    (src/src/modules/comms-log/comms-log.service.ts), the webhook events
    (src/src/modules/integrations/webhook-events.ts and
    webhook-events.service.ts) and the registration card
    (src/src/modules/registration-cards/registration-cards.service.ts). *)
From S2P Require Import Prelude Decimal Dates Json Taxes Authority Transactions Db Folios.
Local Open Scope Z_scope.

(** Every notice goes by email; its subject and body are rendered from a template. *)
Definition logAutomatedInTx (b : string) (reservationId : option string) (guestId trigger : string) : M unit :=
  let! at_ := now in
  modify (upd_communicationLogs (fun l => l ++ [{|
    CommunicationLog.branchId := b; CommunicationLog.reservationId := reservationId; CommunicationLog.guestId := guestId;
    CommunicationLog.channel := by_email; CommunicationLog.subject := Some (rendered trigger); CommunicationLog.body := rendered trigger; CommunicationLog.trigger := trigger;
    CommunicationLog.direction := outbound; CommunicationLog.readAt := None; CommunicationLog.deliveryStatus := msg_queued; CommunicationLog.sentBy := None;
    CommunicationLog.sentAt := at_ |}])).

Definition RESERVATION_ACTION_EVENTS : list (string * list string) :=
  [("reservation.created", ["reservation.created"]);
   ("reservation.walk_in", ["reservation.created"; "reservation.checked_in"]);
   ("reservation.checked_in", ["reservation.checked_in"]);
   ("reservation.checked_out", ["reservation.checked_out"]);
   ("reservation.cancelled", ["reservation.cancelled"]);
   ("reservation.no_show", ["reservation.no_show"]);
   ("reservation.reinstated", ["reservation.updated"]);
   ("reservation.modified", ["reservation.updated"]);
   ("reservation.extended", ["reservation.updated"]);
   ("reservation.rate_overridden", ["reservation.updated"]);
   ("reservation.promoted", ["reservation.updated"]);
   ("reservation.walked", ["reservation.walked"]);
   ("reservation.room_moved", ["reservation.room_moved"])].

Section Notices.
Context `{Uuid}.

Definition reservationChanged (b action reservationId : string) : M unit :=
  match List.find (fun e => bool_decide (fst e = action)) RESERVATION_ACTION_EVENTS with
  | None => ret tt
  | Some (_, types) => emit b types reservationId
  end.

(** [ReservationsService.audit]: the audit row and the webhook events. *)
Definition reservation_audit (b : string) (u : option string) (action entityId : string) : M unit :=
  do! auditLog (Some b) u action "reservation" entityId in
  reservationChanged b action entityId.

(** The card's printed fields are a copy of the stay's. *)
Definition generateCardInTx (r : Reservation.t) (actorId : string) : M RegistrationCard.t :=
  let! existing := findFirst registrationCards (fun c => bool_decide (RegistrationCard.reservationId c = Reservation.id r)) in
  match existing with
  | Some c => ret c
  | None =>
      let! i := new_id in
      let row := {| RegistrationCard.id := i; RegistrationCard.branchId := Reservation.branchId r; RegistrationCard.reservationId := Reservation.id r;
                     RegistrationCard.guestId := Reservation.guestId r |} in
      do! modify (upd_registrationCards (fun l => l ++ [row])) in
      do! auditLog (Some (Reservation.branchId r)) (Some actorId) "registration_card.generated" "registration_card" i in
      ret row
  end.
Definition generateCard (reservationId actorId : string) : M RegistrationCard.t :=
  let! r := orThrow (findFirst reservations (fun r => bool_decide (Reservation.id r = reservationId) && isNone (Reservation.deletedAt r))) not_found in
  throw! status_transition when negb (bool_decide (Reservation.status r = checked_in)) in
  generateCardInTx r actorId.
End Notices.
