(* ===== verification/Loyalty.v ===== *)
(** The loyalty programme (src/src/modules/loyalty/loyalty.service.ts): its
    settings, membership, and every movement of points. *)
From stdpp Require Import pretty.
From Stdlib Require Import QArith Qcanon.
From S2P Require Import Prelude Decimal Dates Json Taxes Authority Transactions Db LoyaltyRules Folios Notices FolioLedger SampleHotel.
Local Open Scope Z_scope.

Definition REDEEM_ROLES : list string := ["owner"; "manager"; "front_desk"].
Record SaveLoyaltyProgramDto := {
  sp_isActive : bool; sp_currency : string; sp_pointsPerUnit : Qc; sp_pointValue : Qc; sp_tiers : list LoyaltyTier;
  (** [None]: left out; [Some None]: never lapse *)
  sp_pointsExpireAfterMonths : option (option Z) }.
(** [n.toLocaleString('en-US')]: digits in threes *)
Fixpoint commas (k : nat) (s : string) : string :=
  match s with
  | EmptyString => EmptyString
  | String c s => match k with O => String (Ascii.ascii_of_nat 44) (String c (commas 2 s)) | S k => String c (commas k s) end
  end.
Definition locale_number (n : Z) : string := (if n <? 0 then "-" else "") +:+ string_rev (commas 3 (string_rev (pretty (Z.abs n)))).
Record RedemptionResult := { rr_paymentId : string; rr_pointsRedeemed : Z; rr_amount : Qc; rr_balance : Z }.

Definition tidy_tier (t : LoyaltyTier) : LoyaltyTier := {| tier_name := js_trim (tier_name t); threshold := threshold t; benefits := unique_from [] (benefits t) |}.
(** The tiers' names and thresholds, each seen once. *)
Fixpoint tiers_checked (names : list string) (thresholds : list Z) (tiers : list LoyaltyTier) : res unit :=
  match tiers with
  | [] => Ok tt
  | t :: tiers =>
      let? _ := throw_if (negb (nonempty (tier_name t))) invalid in
      let? _ := throw_if (includes (js_lower (tier_name t)) names) invalid in
      let? _ := throw_if (bool_decide (threshold t ∈ thresholds)) invalid in
      tiers_checked (js_lower (tier_name t) :: names) (threshold t :: thresholds) tiers
  end.

(** [movingTo]: the members each tier gains. *)
Fixpoint join_tier (tier : option string) (i : string) (groups : list (option string * list string)) : list (option string * list string) :=
  match groups with
  | [] => [(tier, [i])]
  | (t, ids) :: groups => if bool_decide (t = tier) then (t, ids ++ [i]) :: groups else (t, ids) :: join_tier tier i groups
  end.
Definition is_member (g : GuestProfile.t) : bool :=
  isNone (GuestProfile.deletedAt g) && (isSome (GuestProfile.loyaltyEnrolledAt g) || match GuestProfile.loyaltyPoints g with Some p => 0 <? p | None => false end).
Definition with_tier (tier : option string) (at_ : Z) (g : GuestProfile.t) : GuestProfile.t :=
  GuestProfile.with_loyalty (GuestProfile.loyaltyPoints g) tier (GuestProfile.loyaltyEnrolledAt g) at_ g.
Definition tier_of_life (tiers : list LoyaltyTier) (lifetime : Z) : option string := tier_name <$> tierFor tiers lifetime.
Definition movingTo (d : Db) (tiers : list LoyaltyTier) (members : list GuestProfile.t) : list (option string * list string) :=
  foldl (fun groups m =>
    let tier := tier_of_life tiers (lifetime_in d (GuestProfile.id m)) in
    if bool_decide (tier = GuestProfile.loyaltyTier m) then groups else join_tier tier (GuestProfile.id m) groups) [] members.

Definition ledger_row (t : LoyaltyTransaction.t) : LedgerRow :=
  {| row_type := LoyaltyTransaction.type t; row_points := LoyaltyTransaction.points t; row_expiresAt := LoyaltyTransaction.expiresAt t |}.
Definition of_guest (g : string) (t : LoyaltyTransaction.t) : bool := bool_decide (LoyaltyTransaction.guestId t = g).
Definition guest_ledger (d : Db) (g : string) : list LedgerRow := ledger_row <$> List.filter (of_guest g) (loyaltyTransactions d).
(** A guest with points to lapse: a lot past its date, and a balance. *)
Definition may_lapse (d : Db) (at_ : Z) (t : LoyaltyTransaction.t) : bool :=
  bool_decide (LoyaltyTransaction.type t = earn) && match LoyaltyTransaction.expiresAt t with Some e => e <=? at_ | None => false end &&
  existsb (fun g => bool_decide (GuestProfile.id g = LoyaltyTransaction.guestId t) && match GuestProfile.loyaltyPoints g with Some p => 0 <? p | None => false end) (guests d).

Section Loyalty.
Context `{DecimalLib} `{TaxDb} `{Platform} `{Uuid}.

Definition branchCurrencies : M (list string) :=
  let! bs := findMany branches (fun b => isNone (Branch.deletedAt b)) in ret (unique_from [] (Branch.currency <$> bs)).

Definition saveProgram (dto : SaveLoyaltyProgramDto) (actorId : string) : M LoyaltyProgram.t :=
  let tiers := sortTiers (tidy_tier <$> sp_tiers dto) in
  do! lift (tiers_checked [] [] tiers) in
  let! currencies := branchCurrencies in
  throw! invalid when negb (includes (sp_currency dto) currencies) in
  let! existing := gets loyaltyProgram in
  let program := {| LoyaltyProgram.isActive := sp_isActive dto; LoyaltyProgram.currency := sp_currency dto; LoyaltyProgram.pointsPerUnit := sp_pointsPerUnit dto;
                    LoyaltyProgram.pointValue := sp_pointValue dto; LoyaltyProgram.tiers := tiers;
                    LoyaltyProgram.pointsExpireAfterMonths := default (p ← existing; LoyaltyProgram.pointsExpireAfterMonths p) (sp_pointsExpireAfterMonths dto) |} in
  do! modify (upd_loyaltyProgram (fun _ => Some program)) in
  let! members := findMany guests is_member in
  let! groups := gets (fun d => movingTo d tiers members) in
  do! for_each groups tt (fun _ e =>
    let! at_ := now in
    modify (upd_guests (update_where (fun g => includes (GuestProfile.id g) (snd e)) (with_tier (fst e) at_)))) in
  do! auditLog None (Some actorId) "loyalty_program.saved" "loyalty_program" "" in
  ret program.

Definition enroll (guestId actorId : string) : M unit :=
  let! program := gets loyaltyProgram in
  match program with
  | None => raise conflict
  | Some p =>
      throw! conflict when negb (LoyaltyProgram.isActive p) in
      let! guest := lockLoyaltyGuest guestId in
      if isSome (GuestProfile.loyaltyEnrolledAt guest) then ret tt
      else
        let! lifetime := lifetimeLoyaltyPoints (GuestProfile.id guest) in
        let! at_ := now in
        let tier := match tierFor (sortTiers (LoyaltyProgram.tiers p)) lifetime with Some t => Some (tier_name t) | None => GuestProfile.loyaltyTier guest end in
        do! modify (upd_guests (update_where (fun g => bool_decide (GuestProfile.id g = GuestProfile.id guest)) (fun g =>
              GuestProfile.with_loyalty (GuestProfile.loyaltyPoints g) tier (Some at_) at_ g))) in
        auditLog None (Some actorId) "loyalty.enrolled" "guest_profile" (GuestProfile.id guest)
  end.

Definition adjust_points (guestId : string) (points : Z) (actorId : string) : M unit :=
  let! guest := lockLoyaltyGuest guestId in
  throw! conflict when (default 0 (GuestProfile.loyaltyPoints guest) + points <? 0) in
  let! _ := applyLoyaltyPoints guest {| entry_type := adjust; entry_points := points; entry_branchId := None; entry_earnReservationId := None;
                                        entry_paymentId := None; entry_expiresAt := None; entry_actorId := Some actorId |} in
  auditLog None (Some actorId) "loyalty.adjusted" "guest_profile" (GuestProfile.id guest).

(** What a stay cost before tax, over all its bills. *)
Definition spend_before_tax (d : Db) (s : string) : Qc :=
  qsum (LineItem.amount <$> List.filter (fun l => negb (bool_decide (LineItem.chargeType l = tax)) && negb (LineItem.isVoid l) && isNone (LineItem.deletedAt l) &&
    existsb (fun f => bool_decide (Folio.id f = LineItem.folioId l) && bool_decide (Folio.reservationId f = s)) (folios d)) (lineItems d)).

Definition earnForStayInTx (r : Reservation.t) (actorId : option string) : M Z :=
  let! program := gets loyaltyProgram in
  match program with
  | None => ret 0
  | Some p =>
      if negb (LoyaltyProgram.isActive p) then ret 0
      else
        let! branch := findFirst branches (fun b => bool_decide (Branch.id b = Reservation.branchId r)) in
        if negb (bool_decide ((Branch.currency <$> branch) = Some (LoyaltyProgram.currency p))) then ret 0
        else
          let! earned := findFirst loyaltyTransactions (fun t => bool_decide (LoyaltyTransaction.earnReservationId t = Some (Reservation.id r))) in
          if isSome earned then ret 0
          else
            let! spend := gets (fun d => spend_before_tax d (Reservation.id r)) in
            let points := pointsForSpend spend (LoyaltyProgram.pointsPerUnit p) in
            if points <=? 0 then ret 0
            else
              let! guest := findFirst guests (fun x => bool_decide (GuestProfile.id x = Reservation.guestId r) && isNone (GuestProfile.deletedAt x)) in
              match guest with
              | None => ret 0
              | Some guest =>
                  let! at_ := now in
                  let! upgradedTo := applyLoyaltyPoints guest {|
                    entry_type := earn; entry_points := points; entry_branchId := Some (Reservation.branchId r); entry_earnReservationId := Some (Reservation.id r);
                    entry_paymentId := None; entry_expiresAt := pointsExpireAt at_ (LoyaltyProgram.pointsExpireAfterMonths p); entry_actorId := actorId |} in
                  do! (if isSome upgradedTo then logAutomatedInTx (Reservation.branchId r) (Some (Reservation.id r)) (GuestProfile.id guest) "loyalty_tier_upgrade" else ret tt) in
                  ret points
              end
  end.

Definition redeem_points (folioId : string) (points : Z) (actor : JwtPayload) : M RedemptionResult :=
  let! folio := orThrow (findFirst folios (fun f => bool_decide (Folio.id f = folioId) && isNone (Folio.deletedAt f))) not_found in
  do! lift (BranchRoles.assertRoleAtBranch actor (Folio.branchId folio) REDEEM_ROLES) in
  let! program := gets loyaltyProgram in
  match program with
  | None => raise conflict
  | Some p =>
      throw! conflict when negb (LoyaltyProgram.isActive p) in
      let! branch := findFirst branches (fun b => bool_decide (Branch.id b = Folio.branchId folio)) in
      throw! conflict when negb (bool_decide ((Branch.currency <$> branch) = Some (LoyaltyProgram.currency p))) in
      let! guest := lockLoyaltyGuest (Folio.guestId folio) in
      let balance := default 0 (GuestProfile.loyaltyPoints guest) in
      throw! conflict when (balance <? points) in
      let amount := redemptionValue points (LoyaltyProgram.pointValue p) in
      throw! invalid when negb (dgt amount 0%Qc) in
      let! paid := recordLoyaltyPaymentInTx (Folio.id folio) amount (locale_number points +:+ " loyalty points") (sub actor) in
      let! _ := applyLoyaltyPoints guest {|
        entry_type := redeem; entry_points := - points; entry_branchId := Some (Folio.branchId folio); entry_earnReservationId := None;
        entry_paymentId := Some (Payment.id paid); entry_expiresAt := None; entry_actorId := Some (sub actor) |} in
      ret {| rr_paymentId := Payment.id paid; rr_pointsRedeemed := points; rr_amount := amount; rr_balance := balance - points |}
  end.

(** One organisation's sweep; it runs in batches of two hundred members. *)
Definition expireLapsedPoints (at_ : Z) : M Z :=
  let! candidates := gets (fun d => unique_from [] (LoyaltyTransaction.guestId <$> List.filter (may_lapse d at_) (loyaltyTransactions d))) in
  for_each candidates 0 (fun lapsed guestId =>
    let! guest := findFirst guests (fun x => bool_decide (GuestProfile.id x = guestId) && isNone (GuestProfile.deletedAt x)) in
    match guest with
    | None => ret lapsed
    | Some guest =>
        let! ledger := gets (fun d => guest_ledger d guestId) in
        let due := fst (lapsedPoints ledger at_) in
        if due <=? 0 then ret lapsed
        else
          let! _ := applyLoyaltyPoints guest {| entry_type := expire; entry_points := - due; entry_branchId := None; entry_earnReservationId := None;
                                                entry_paymentId := None; entry_expiresAt := None; entry_actorId := None |} in
          ret (lapsed + due)
    end).
End Loyalty.

Example locale_numbers : locale_number 1234567 = "1,234,567" /\ locale_number 100 = "100" /\ locale_number 1200 = "1,200".
Proof. vm_compute. auto. Qed.

(** ** The ledger and the profiles agree *)
Definition points_in (d : Db) (g : string) : Z := zsum (LoyaltyTransaction.points <$> List.filter (of_guest g) (loyaltyTransactions d)).
Definition life_tier (d : Db) (p : LoyaltyProgram.t) (g : string) : option string := tier_of_life (sortTiers (LoyaltyProgram.tiers p)) (lifetime_in d g).
Record points_ok (d : Db) : Prop := {
  pk_ids : NoDup (GuestProfile.id <$> guests d);
  (** a balance is the sum of its ledger and never negative *)
  pk_balance g : g ∈ guests d -> GuestProfile.loyaltyPoints g = Some (points_in d (GuestProfile.id g)) /\ 0 <= points_in d (GuestProfile.id g);
  (** a payment only takes points *)
  pk_paid t i : t ∈ loyaltyTransactions d -> LoyaltyTransaction.paymentId t = Some i -> LoyaltyTransaction.points t <= 0;
  (** a member's tier is the one their lifetime points reach *)
  pk_tier g p : g ∈ guests d -> GuestProfile.deletedAt g = None -> isSome (GuestProfile.loyaltyEnrolledAt g) = true -> loyaltyProgram d = Some p ->
    GuestProfile.loyaltyTier g = life_tier d p (GuestProfile.id g);
  pk_outside g : g ∈ guests d -> GuestProfile.loyaltyEnrolledAt g = None ->
    GuestProfile.loyaltyTier g = None /\ forall t, t ∈ loyaltyTransactions d -> LoyaltyTransaction.guestId t <> GuestProfile.id g;
}.
(** The tables the ledger's invariant reads. *)
Definition loyal (d : Db) : list GuestProfile.t * list LoyaltyTransaction.t * option LoyaltyProgram.t := (guests d, loyaltyTransactions d, loyaltyProgram d).
Definition same_loyal (d d' : Db) : Prop := loyal d' = loyal d.
#[global] Instance same_loyal_preorder : PreOrder same_loyal.
Proof. split; [done | intros a b c Hab Hbc; unfold same_loyal in *; congruence]. Qed.
Lemma points_in_eq d d' g : same_loyal d d' -> points_in d' g = points_in d g.
Proof. unfold same_loyal, loyal, points_in. by intros [= _ -> _]. Qed.
Lemma life_tier_eq d d' p g : same_loyal d d' -> life_tier d' p g = life_tier d p g.
Proof. unfold same_loyal, loyal, life_tier, lifetime_in. by intros [= _ -> _]. Qed.
Lemma same_loyal_ok d d' : same_loyal d d' -> points_ok d -> points_ok d'.
Proof.
  intros Hs [H1 H2 H3 H4 H5]. pose proof Hs as Hs'. unfold same_loyal, loyal in Hs'. injection Hs' as Hg Ht Hp. split; rewrite ?Hg, ?Ht, ?Hp; [done| | done | |done].
  - intros g Hin. rewrite (points_in_eq _ _ _ Hs). auto.
  - intros g p Hin Hl He Hpr. rewrite (life_tier_eq _ _ _ _ Hs). auto.
Qed.

Section Invariant.
Context `{DecimalLib} `{TaxDb} `{Platform} `{Uuid}.

Definition txn_of (i : string) (g : string) (e : LoyaltyEntry) : LoyaltyTransaction.t := {|
  LoyaltyTransaction.id := i; LoyaltyTransaction.guestId := g; LoyaltyTransaction.branchId := entry_branchId e;
  LoyaltyTransaction.type := entry_type e; LoyaltyTransaction.points := entry_points e;
  LoyaltyTransaction.earnReservationId := entry_earnReservationId e; LoyaltyTransaction.paymentId := entry_paymentId e;
  LoyaltyTransaction.expiresAt := entry_expiresAt e; LoyaltyTransaction.createdBy := entry_actorId e |}.
Definition moved (d : Db) (guest : GuestProfile.t) (e : LoyaltyEntry) (g : GuestProfile.t) : GuestProfile.t :=
  GuestProfile.with_loyalty ((fun p => p + entry_points e) <$> GuestProfile.loyaltyPoints g)
    (match loyaltyProgram d with Some p => life_tier d p (GuestProfile.id guest) | None => GuestProfile.loyaltyTier guest end)
    (Some (default (clock d) (GuestProfile.loyaltyEnrolledAt guest))) (clock d) g.
Lemma apply_inv guest e d d' u : applyLoyaltyPoints guest e d = Ok (d', u) -> exists i,
  loyaltyTransactions d' = loyaltyTransactions d ++ [txn_of i (GuestProfile.id guest) e] /\
  guests d' = update_where (fun g => bool_decide (GuestProfile.id g = GuestProfile.id guest)) (moved d' guest e) (guests d) /\
  loyaltyProgram d' = loyaltyProgram d.
Proof.
  unfold applyLoyaltyPoints, create_loyaltyTransaction, lifetimeLoyaltyPoints, new_id, now. intros Hm. m_inv. eexists. split; [reflexivity|]. split; [|reflexivity].
  simpl. unfold update_where. apply list_fmap_ext. intros i g _. destruct (bool_decide _); [|done]. unfold moved, life_tier, tier_of_life. simpl.
  by case_match.
Qed.

Lemma points_in_app d d' g t : loyaltyTransactions d' = loyaltyTransactions d ++ [t] ->
  points_in d' g = points_in d g + (if bool_decide (LoyaltyTransaction.guestId t = g) then LoyaltyTransaction.points t else 0).
Proof.
  unfold points_in, of_guest. intros ->. rewrite List.filter_app, fmap_app, zsum_app. f_equal. simpl. destruct (bool_decide _); csimpl; lia.
Qed.
Lemma lifetime_app d d' g t : loyaltyTransactions d' = loyaltyTransactions d ++ [t] -> LoyaltyTransaction.guestId t <> g -> lifetime_in d' g = lifetime_in d g.
Proof.
  unfold lifetime_in. intros -> Hg. rewrite List.filter_app, fmap_app, zsum_app. simpl. rewrite bool_decide_false by done. simpl. lia.
Qed.
Lemma apply_ok guest e d d' u : points_ok d -> guest ∈ guests d -> 0 <= points_in d (GuestProfile.id guest) + entry_points e ->
  (forall i, entry_paymentId e = Some i -> entry_points e <= 0) -> applyLoyaltyPoints guest e d = Ok (d', u) -> points_ok d'.
Proof.
  intros [Hids Hbal Hpaid Htier Hout] Hguest Hpos Hpay (i & Ht & Hg & Hp)%apply_inv.
  assert (forall g, g ∈ guests d' -> g = moved d' guest e guest \/ (g ∈ guests d /\ GuestProfile.id guest <> GuestProfile.id g)) as Hcase.
  { intros g. rewrite Hg. unfold update_where. intros (x & -> & Hx)%list_elem_of_fmap. case_bool_decide as E; [left|right; auto].
    by rewrite (NoDup_fmap_inj _ _ _ _ Hids Hx Hguest E). }
  split.
  - rewrite Hg. unfold update_where. rewrite <- list_fmap_compose. erewrite list_fmap_ext; [exact Hids|]. intros k x _. simpl. by destruct (bool_decide _).
  - intros g [->|[Hx Hne]]%Hcase; rewrite (points_in_app _ _ _ _ Ht); simpl; [|rewrite bool_decide_false, Z.add_0_r by done; auto].
    rewrite bool_decide_true by done. destruct (Hbal guest Hguest) as [-> _]. done.
  - intros t j. rewrite Ht. intros [Hin| ->%list_elem_of_singleton]%elem_of_app; [eauto|]. simpl. apply Hpay.
  - intros g p [->|[Hx Hne]]%Hcase; rewrite Hp; intros Hl He Hpr; [simpl; by rewrite Hp, Hpr|].
    unfold life_tier. rewrite (lifetime_app _ _ _ _ Ht) by done. by apply Htier.
  - intros g [->|[Hx Hne]]%Hcase; [done|]. intros He. destruct (Hout g Hx He) as [Hn Hno]. split; [done|].
    intros t. rewrite Ht. intros [Hin| ->%list_elem_of_singleton]%elem_of_app; [auto | done].
Qed.

(** *** Saving the programme *)
Definition grouped (groups : list (option string * list string)) (tier : option string) (i : string) : Prop := exists e, e ∈ groups /\ e.1 = tier /\ i ∈ e.2.
Lemma join_tier_spec tier i groups t j : grouped (join_tier tier i groups) t j <-> grouped groups t j \/ (t = tier /\ j = i).
Proof.
  unfold grouped. induction groups as [|[t0 ids] groups IH]; simpl.
  - setoid_rewrite list_elem_of_singleton. split.
    + intros (e & -> & <- & Hj%list_elem_of_singleton). auto.
    + intros [(e & []%elem_of_nil & _)|[-> ->]]. exists (tier, [i]). split; [done|]. split; [done|]. by left.
  - case_bool_decide as E; setoid_rewrite elem_of_cons; [subst t0|].
    + split.
      * intros (e & [->|He] & <- & Hj); [apply elem_of_app in Hj as [Hj|Hj%list_elem_of_singleton]; [|auto]|]; left; [exists (tier, ids) | exists e]; auto.
      * intros [(e & [->|He] & <- & Hj)|[-> ->]]; [exists (tier, ids ++ [i]) | exists e | exists (tier, ids ++ [i])]; repeat split; auto; set_solver.
    + split.
      * intros (e & [->|He] & <- & Hj); [left; exists (t0, ids); auto|].
        destruct (proj1 IH (ex_intro _ e (conj He (conj eq_refl Hj)))) as [(e' & ? & ? & ?)|[? ?]]; [left; exists e'; auto | by right].
      * intros [(e & [->|He] & <- & Hj)|Hj]; [exists (t0, ids); auto| |].
        -- destruct (proj2 IH (or_introl (ex_intro _ e (conj He (conj eq_refl Hj))))) as (e' & ? & ? & ?). exists e'. auto.
        -- destruct (proj2 IH (or_intror Hj)) as (e' & ? & ? & ?). exists e'. auto.
Qed.
Lemma movingTo_spec d tiers members t j : grouped (movingTo d tiers members) t j <->
  exists m, m ∈ members /\ GuestProfile.id m = j /\ t = tier_of_life tiers (lifetime_in d j) /\ t <> GuestProfile.loyaltyTier m.
Proof.
  unfold movingTo. set (step := fun groups m => _). assert (forall l groups, grouped (foldl step groups l) t j <->
    grouped groups t j \/ exists m, m ∈ l /\ GuestProfile.id m = j /\ t = tier_of_life tiers (lifetime_in d j) /\ t <> GuestProfile.loyaltyTier m) as Hl.
  { induction l as [|m l IH]; intros groups; simpl; [split; [by left | intros [?|(m & []%elem_of_nil & _)]; done]|].
    rewrite IH. setoid_rewrite elem_of_cons. unfold step at 1. case_bool_decide as E.
    - split; [intros [?|(m' & ? & ?)]; [by left | right; eauto]|]. intros [?|(m' & [->|?] & <- & Ht & Hne)]; [by left | congruence | right; eauto].
    - rewrite join_tier_spec. split.
      + intros [[?|[-> ->]]|(m' & ? & ?)]; [by left | right; exists m; auto | right; eauto].
      + intros [?|(m' & [->|?] & <- & Ht & Hne)]; [auto | left; right; auto | right; eauto]. }
  rewrite Hl. split; [intros [(e & []%elem_of_nil & _)|?]; done | by right].
Qed.

Definition retier (at_ : Z) (groups : list (option string * list string)) (g : GuestProfile.t) : GuestProfile.t :=
  foldl (fun g e => if includes (GuestProfile.id g) (snd e) then with_tier (fst e) at_ g else g) g groups.
Lemma retier_same at_ groups g : let h := retier at_ groups g in GuestProfile.id h = GuestProfile.id g /\ GuestProfile.loyaltyPoints h = GuestProfile.loyaltyPoints g /\
  GuestProfile.loyaltyEnrolledAt h = GuestProfile.loyaltyEnrolledAt g /\ GuestProfile.deletedAt h = GuestProfile.deletedAt g.
Proof.
  cbn. unfold retier. revert g. induction groups as [|e groups IH]; intros g; simpl; [done|]. destruct (includes _ _); [|apply IH]. destruct (IH (with_tier (fst e) at_ g)) as (-> & -> & -> & ->). done.
Qed.
Lemma retier_tier at_ groups g t : (forall u, grouped groups u (GuestProfile.id g) -> u = t) ->
  (GuestProfile.loyaltyTier (retier at_ groups g) = GuestProfile.loyaltyTier g /\ forall u, ~ grouped groups u (GuestProfile.id g)) \/
  (GuestProfile.loyaltyTier (retier at_ groups g) = t /\ grouped groups t (GuestProfile.id g)).
Proof.
  unfold retier. revert g. induction groups as [|e groups IH]; intros g Ht; simpl; [left; split; [done | intros u (e & []%elem_of_nil & _)]|].
  assert (forall u i, grouped groups u i -> grouped (e :: groups) u i) as Hc by (intros u i (x & ? & ? & ?); exists x; repeat split; auto; by right).
  destruct (includes (GuestProfile.id g) (snd e)) eqn:E.
  - apply includes_spec in E. right. assert (grouped (e :: groups) (fst e) (GuestProfile.id g)) as He by (exists e; repeat split; [by left | done]).
    rewrite <- (Ht _ He). split; [|done]. destruct (IH (with_tier (fst e) at_ g)) as [[-> _]|[-> _]]; [intros u Hu; apply Ht, Hc, Hu | done | by rewrite <- (Ht _ He)].
  - destruct (IH g) as [[-> Hn]|[-> Hin]]; [auto | left | right; auto]. split; [done|]. intros u (x & [->|Hx]%elem_of_cons & <- & Hin); [apply includes_spec in Hin; congruence|].
    by apply (Hn (x.1)); exists x.
Qed.
Lemma retier_loop groups d d' x : for_each groups tt (fun _ e => let! at_ := now in modify (upd_guests (update_where (fun g => includes (GuestProfile.id g) (snd e)) (with_tier (fst e) at_)))) d = Ok (d', x) ->
  guests d' = retier (clock d) groups <$> guests d /\ loyaltyTransactions d' = loyaltyTransactions d /\ loyaltyProgram d' = loyaltyProgram d.
Proof.
  revert d. induction groups as [|e groups IH]; intros d; simpl; intros Hm; [m_inv; split; [symmetry; apply list_fmap_id | done]|].
  apply bind_Ok in Hm as (d1 & [] & Hx1 & Hx2). unfold now in Hx1. m_inv. apply IH in Hx2 as (-> & -> & ->). simpl. split; [|done].
  unfold update_where. rewrite <- list_fmap_compose. apply list_fmap_ext. intros i g _. simpl. by destruct (includes _ _).
Qed.

(** *** Every step *)
Lemma sl_auditLog b u a t i : keeps same_loyal (auditLog b u a t i).
Proof. unfold auditLog. by apply keeps_modify. Qed.
Lemma sl_new_id : keeps same_loyal new_id.
Proof. intros d d' i [-> _]%new_id_spec. done. Qed.
Lemma sl_log b r g t : keeps same_loyal (logAutomatedInTx b r g t).
Proof. by apply keeps_modify. Qed.
Lemma sl_emit b ts i : keeps same_loyal (emit b ts i).
Proof. unfold emit. pose proof sl_new_id. keeps_tac. by apply keeps_modify. Qed.
Lemma sl_record f a why u : keeps same_loyal (recordLoyaltyPaymentInTx f a why u).
Proof.
  unfold recordLoyaltyPaymentInTx, findFolioOrThrow, computeTotals, create_payment, assertBranch, audit, now. pose proof sl_auditLog. pose proof sl_new_id. pose proof sl_emit. unfold paymentRecorded. keeps_tac; by apply keeps_modify.
Qed.
Lemma find_guest_in i d g : List.find (fun x => bool_decide (GuestProfile.id x = i) && isNone (GuestProfile.deletedAt x)) (guests d) = Some g ->
  g ∈ guests d /\ GuestProfile.id g = i /\ GuestProfile.deletedAt g = None.
Proof. intros [Hin [Hi%bool_decide_eq_true Hd]%andb_true_iff]%find_Some. split; [done|]. split; [done|]. by destruct (GuestProfile.deletedAt g). Qed.
Lemma balance_default d g : points_ok d -> g ∈ guests d -> default 0 (GuestProfile.loyaltyPoints g) = points_in d (GuestProfile.id g).
Proof. intros Hok Hg. by destruct (pk_balance d Hok g Hg) as [-> _]. Qed.

Lemma sort_sorted {A} (key : A -> Z) l : StronglySorted (fun a b => key a <= key b) l -> sort_by key l = l.
Proof.
  induction 1 as [|x l Hl IH Hx]; simpl; [done|]. change (insert_by key x (sort_by key l) = x :: l). rewrite IH. destruct l as [|y l]; simpl; [done|].
  apply Forall_cons in Hx as [Hx _]. by rewrite (proj2 (Z.leb_le _ _)).
Qed.
Lemma save_ok dto u d d' p : points_ok d -> saveProgram dto u d = Ok (d', p) -> points_ok d'.
Proof.
  intros [Hids Hbal Hpaid Htier Hout]. unfold saveProgram, branchCurrencies. intros Hm.
  apply bind_Ok in Hm as (d1 & [] & [_ ->]%lift_Ok & Hm). apply bind_Ok in Hm as (d2 & cs & Hc & Hm). assert (d2 = d) as -> by (by m_inv).
  apply bind_Ok in Hm as (d3 & [] & [_ ->]%lift_Ok & Hm). apply bind_Ok in Hm as (d4 & ex & Hex & Hm). injection Hex as <- <-.
  apply bind_Ok in Hm as (d5 & [] & Hmod & Hm). injection Hmod as <-.
  apply bind_Ok in Hm as (d6 & members & [-> ->]%findMany_Ok & Hm). apply bind_Ok in Hm as (d7 & groups & Hgr & Hm). injection Hgr as <- <-.
  apply bind_Ok in Hm as (d8 & [] & Hloop & Hm). apply bind_Ok in Hm as (d9 & [] & Haud & Hm). injection Hm as <- _.
  apply (same_loyal_ok d8 d9); [by eapply sl_auditLog|]. apply retier_loop in Hloop as (Hg & Ht & Hp). simpl in Hg, Ht, Hp.
  set (tiers := sortTiers (tidy_tier <$> sp_tiers dto)) in *. set (groups := movingTo _ _ _) in *.
  assert (forall g u, g ∈ guests d -> grouped groups u (GuestProfile.id g) -> u = tier_of_life tiers (lifetime_in d (GuestProfile.id g))) as Htarget
    by (intros g w Hin (m & _ & _ & -> & _)%movingTo_spec; done).
  assert (forall g, points_in d8 g = points_in d g) as Hpi by (intros g; unfold points_in; by rewrite Ht).
  assert (forall g, lifetime_in d8 g = lifetime_in d g) as Hli by (intros g; unfold lifetime_in; by rewrite Ht).
  split; rewrite ?Hg, ?Ht.
  - rewrite <- list_fmap_compose. erewrite list_fmap_ext; [exact Hids|]. intros i g _. simpl. apply retier_same.
  - intros h (g & -> & Hin)%list_elem_of_fmap. destruct (retier_same (clock d) groups g) as (-> & -> & _). rewrite Hpi. auto.
  - done.
  - intros h q (g & -> & Hin)%list_elem_of_fmap. destruct (retier_same (clock d) groups g) as (-> & _ & -> & ->). rewrite Hp. intros Hl He [= <-].
    unfold life_tier. simpl. rewrite Hli. replace (sortTiers tiers) with tiers by (symmetry; apply sort_sorted, sort_by_sorted).
    destruct (retier_tier (clock d) groups g _ (fun w => Htarget g w Hin)) as [[-> Hno]|[-> _]]; [|done].
    destruct (decide (GuestProfile.loyaltyTier g = tier_of_life tiers (lifetime_in d (GuestProfile.id g)))) as [|Hne]; [done|]. exfalso. eapply Hno.
    apply movingTo_spec. exists g. split; [|split; [done | split; [reflexivity | done]]]. apply elem_of_filterb. split; [done|]. unfold is_member. by rewrite Hl, He.
  - intros h (g & -> & Hin)%list_elem_of_fmap. destruct (retier_same (clock d) groups g) as (-> & _ & -> & _). intros He. destruct (Hout g Hin He) as [Hn Hrows]. split; [|done].
    destruct (retier_tier (clock d) groups g _ (fun w => Htarget g w Hin)) as [[-> _]|[_ Hgr]]; [done|]. exfalso.
    apply movingTo_spec in Hgr as (m & [Hm Hmem]%elem_of_filterb & Hid & _). rewrite (NoDup_fmap_inj _ _ _ _ Hids Hm Hin Hid) in Hmem.
    unfold is_member in Hmem. rewrite He in Hmem. destruct (Hbal g Hin) as [Hb _]. rewrite Hb in Hmem. simpl in Hmem. apply andb_true_iff in Hmem as [_ Hpos%Z.ltb_lt].
    enough (points_in d (GuestProfile.id g) = 0) by lia. unfold points_in. rewrite (filterb_nil (of_guest (GuestProfile.id g))); [done|]. intros t Hin'. unfold of_guest.
    apply bool_decide_false. auto.
Qed.

Lemma enroll_ok i u d d' x : points_ok d -> enroll i u d = Ok (d', x) -> points_ok d'.
Proof.
  intros Hok. unfold enroll, lockLoyaltyGuest, findLoyaltyGuest, lifetimeLoyaltyPoints, now. intros Hm.
  apply bind_Ok in Hm as (d0 & prog & Hpr & Hm). injection Hpr as <- <-. destruct (loyaltyProgram d) as [p|] eqn:Ep; [|by m_inv].
  apply bind_Ok in Hm as (d1 & [] & [_ ->]%lift_Ok & Hm). apply bind_Ok in Hm as (d2 & guest & [-> Hf]%orThrow_Ok%findFirst_Ok & Hm). symmetry in Hf.
  apply find_guest_in in Hf as (Hin & _ & Hdel). destruct (isSome (GuestProfile.loyaltyEnrolledAt guest)) eqn:He; [by m_inv|].
  apply isSome_false in He. destruct (pk_outside d Hok guest Hin He) as [Hnone Hrows].
  apply bind_Ok in Hm as (d3 & life & Hl & Hm). injection Hl as <- <-. apply bind_Ok in Hm as (d4 & at_ & Hat & Hm). injection Hat as <- <-.
  apply bind_Ok in Hm as (d5 & [] & Hmod & Haud). injection Hmod as <-. apply sl_auditLog in Haud. refine (same_loyal_ok _ _ Haud _). clear Haud.
  destruct Hok as [Hids Hbal Hpaid Htier Hout]. rewrite Hnone. set (f := fun g => GuestProfile.with_loyalty _ _ _ _ g).
  assert (forall h, h ∈ update_where (fun g => bool_decide (GuestProfile.id g = GuestProfile.id guest)) f (guests d) -> h = f guest \/ (h ∈ guests d /\ GuestProfile.id h <> GuestProfile.id guest)) as Hcase.
  { unfold update_where. intros h (g & -> & Hg)%list_elem_of_fmap. case_bool_decide as E; [left; f_equal; by eapply NoDup_fmap_inj | by right]. }
  split; simpl.
  - unfold update_where. rewrite <- list_fmap_compose. erewrite list_fmap_ext; [exact Hids|]. intros k g _. simpl. by destruct (bool_decide _).
  - intros h [->|[Hh _]]%Hcase; [|exact (Hbal h Hh)]. exact (Hbal guest Hin).
  - done.
  - intros h q [->|[Hh _]]%Hcase Hl He' Hq; [|exact (Htier h q Hh Hl He' Hq)]. rewrite Ep in Hq. injection Hq as <-. simpl. unfold life_tier, tier_of_life, lifetime_in. simpl. by case_match.
  - intros h [->|[Hh _]]%Hcase; [done | exact (Hout h Hh)].
Qed.

Lemma adjust_ok i n u d d' x : points_ok d -> adjust_points i n u d = Ok (d', x) -> points_ok d'.
Proof.
  intros Hok. unfold adjust_points, lockLoyaltyGuest, findLoyaltyGuest. intros Hm.
  apply bind_Ok in Hm as (d0 & guest & [-> Hf]%orThrow_Ok%findFirst_Ok & Hm). symmetry in Hf. apply find_guest_in in Hf as (Hin & _ & _).
  apply bind_Ok in Hm as (d1 & [] & [Hb%throw_if_Ok%Z.ltb_ge ->]%lift_Ok & Hm). apply bind_Ok in Hm as (d2 & up & Hap & Haud).
  refine (same_loyal_ok _ _ (sl_auditLog _ _ _ _ _ _ _ _ Haud) _). rewrite (balance_default _ _ Hok Hin) in Hb. eapply apply_ok; [done | done | | |exact Hap]; simpl; [lia | done].
Qed.

Lemma earn_ok d r u d' n : points_ok d -> earnForStayInTx r u d = Ok (d', n) -> points_ok d'.
Proof.
  intros Hok. unfold earnForStayInTx, now. intros Hm. apply bind_Ok in Hm as (d0 & prog & Hpr & Hm). injection Hpr as <- <-.
  destruct (loyaltyProgram d) as [p|]; [|by m_inv]. destruct (negb (LoyaltyProgram.isActive p)); [by m_inv|].
  apply bind_Ok in Hm as (d1 & br & [-> _]%findFirst_Ok & Hm). destruct (negb _); [by m_inv|].
  apply bind_Ok in Hm as (d2 & ea & [-> _]%findFirst_Ok & Hm). destruct (isSome ea); [by m_inv|].
  apply bind_Ok in Hm as (d3 & spend & Hs & Hm). injection Hs as <- <-. destruct (Z.leb_spec (pointsForSpend (spend_before_tax d (Reservation.id r)) (LoyaltyProgram.pointsPerUnit p)) 0); [by m_inv|].
  apply bind_Ok in Hm as (d4 & og & [-> Hf]%findFirst_Ok & Hm). destruct og as [guest|]; [|by m_inv]. symmetry in Hf. apply find_guest_in in Hf as (Hin & _ & _).
  apply bind_Ok in Hm as (d5 & at_ & Hat & Hm). injection Hat as <- <-. apply bind_Ok in Hm as (d6 & up & Hap & Hm). apply bind_Ok in Hm as (d7 & [] & Hlog & Hm). injection Hm as <- _.
  assert (points_ok d6) as Hok6 by (eapply apply_ok; [done | done | | |exact Hap]; simpl; [pose proof (pk_balance d Hok guest Hin); lia | done]).
  refine (same_loyal_ok _ _ _ Hok6). destruct (isSome up); [by eapply sl_log | by m_inv].
Qed.

Lemma redeem_ok f n actor d d' x : 0 <= n -> points_ok d -> redeem_points f n actor d = Ok (d', x) -> points_ok d'.
Proof.
  intros Hn Hok. unfold redeem_points, lockLoyaltyGuest, findLoyaltyGuest. intros Hm.
  apply bind_Ok in Hm as (d0 & folio & [-> _]%orThrow_Ok%findFirst_Ok & Hm). apply bind_Ok in Hm as (d1 & [] & [_ ->]%lift_Ok & Hm).
  apply bind_Ok in Hm as (d2 & prog & Hpr & Hm). injection Hpr as <- <-. destruct (loyaltyProgram d) as [p|]; [|by m_inv].
  apply bind_Ok in Hm as (d3 & [] & [_ ->]%lift_Ok & Hm). apply bind_Ok in Hm as (d4 & br & [-> _]%findFirst_Ok & Hm). apply bind_Ok in Hm as (d5 & [] & [_ ->]%lift_Ok & Hm).
  apply bind_Ok in Hm as (d6 & guest & [-> Hf]%orThrow_Ok%findFirst_Ok & Hm). symmetry in Hf. apply find_guest_in in Hf as (Hin & _ & _).
  apply bind_Ok in Hm as (d7 & [] & [Hb%throw_if_Ok%Z.ltb_ge ->]%lift_Ok & Hm). apply bind_Ok in Hm as (d8 & [] & [_ ->]%lift_Ok & Hm).
  apply bind_Ok in Hm as (d9 & paid & Hpay & Hm). apply bind_Ok in Hm as (d10 & up & Hap & Hm). injection Hm as <- _.
  pose proof (sl_record _ _ _ _ _ _ _ Hpay) as Hsame. rewrite (balance_default _ _ Hok Hin) in Hb. pose proof (same_loyal_ok _ _ Hsame Hok) as Hok9.
  rewrite <- (points_in_eq _ _ _ Hsame) in Hb. unfold same_loyal, loyal in Hsame. injection Hsame as Hg _ _.
  eapply apply_ok; [exact Hok9 | by rewrite Hg | | |exact Hap]; simpl; [lia | intros; lia].
Qed.

Lemma expire_ok at_ d d' n : points_ok d -> expireLapsedPoints at_ d = Ok (d', n) -> points_ok d'.
Proof.
  intros Hok Hm. unfold expireLapsedPoints in Hm. apply bind_Ok in Hm as (d0 & cs & Hcs & Hm). injection Hcs as <- Hcs. clear Hcs. revert d Hok Hm. generalize 0 at 1.
  induction cs as [|i cs IH]; intros acc d Hok Hm; simpl in Hm; [by m_inv|]. apply bind_Ok in Hm as (d1 & acc' & Hone & Hm). refine (IH acc' d1 _ Hm). clear IH Hm.
  apply bind_Ok in Hone as (d2 & og & [-> Hf]%findFirst_Ok & Hone). destruct og as [guest|]; [|by m_inv]. symmetry in Hf. apply find_guest_in in Hf as (Hin & Hid & _).
  apply bind_Ok in Hone as (d3 & rows & Hrows & Hone). injection Hrows as <- <-. destruct (Z.leb_spec (fst (lapsedPoints (guest_ledger d i) at_)) 0) as [Hz|Hpos]; [by m_inv|].
  apply bind_Ok in Hone as (d4 & up & Hap & Hone). injection Hone as <- _. eapply apply_ok; [done | done | | |exact Hap]; simpl; [|done].
  assert (balance_of (guest_ledger d i) = points_in d (GuestProfile.id guest)) as Hbal.
  { rewrite RulesProps.balance_of_sum. unfold guest_ledger, points_in. rewrite Hid, <- list_fmap_compose. done. }
  unfold lapsedPoints in *. destruct (lapse_loop _ _ _ _ _) as [due next]. simpl in *. rewrite Hbal in *. pose proof (pk_balance d Hok guest Hin). lia.
Qed.

Lemma void_points_ok i why u d d' x : points_ok d -> voidPayment i why u d = Ok (d', x) -> points_ok d'.
Proof.
  intros Hok. unfold voidPayment, findFolioOrThrow, now. intros Hm.
  apply bind_Ok in Hm as (d0 & pay & [-> _]%orThrow_Ok%findFirst_Ok & Hm). apply bind_Ok in Hm as (d1 & po & [-> _]%findFirst_Ok & Hm). apply bind_Ok in Hm as (d2 & points & [-> Hpt]%findFirst_Ok & Hm).
  apply bind_Ok in Hm as (d3 & [] & [_ ->]%lift_Ok & Hm). apply bind_Ok in Hm as (d4 & [] & [_ ->]%lift_Ok & Hm). apply bind_Ok in Hm as (d5 & folio & [-> _]%orThrow_Ok%findFirst_Ok & Hm).
  apply bind_Ok in Hm as (d6 & [] & [_ ->]%lift_Ok & Hm). apply bind_Ok in Hm as (d7 & asked & [-> _]%findMany_Ok & Hm). apply bind_Ok in Hm as (d8 & [] & [_ ->]%lift_Ok & Hm).
  apply bind_Ok in Hm as (d9 & [] & Hsh & Hm). assert (d9 = d) as -> by (destruct (Payment.shiftId pay); by m_inv). clear Hsh.
  apply bind_Ok in Hm as (d10 & at_ & Hat & Hm). injection Hat as <- <-. apply bind_Ok in Hm as (d11 & [] & Hmod & Hm). injection Hmod as <-.
  apply bind_Ok in Hm as (d12 & [] & Hpts & Hm). apply bind_Ok in Hm as (d13 & [] & Haud & Hm). injection Hm as <- _. refine (same_loyal_ok _ _ (sl_auditLog _ _ _ _ _ _ _ _ Haud) _). clear Haud.
  set (d1 := upd_payments _ d) in *. assert (points_ok d1) as Hok1 by (apply (same_loyal_ok d); done).
  destruct points as [t|]; [|by m_inv]. case_bool_decide; [|by m_inv]. symmetry in Hpt. apply find_Some in Hpt as [Hint Hpid%bool_decide_eq_true].
  apply bind_Ok in Hpts as (d3 & guest & [-> Hf]%orThrow_Ok%findFirst_Ok & Hpts). symmetry in Hf. apply find_guest_in in Hf as (Hin & _ & _).
  apply bind_Ok in Hpts as (d4 & up & Hap & Hpts). injection Hpts as <-. eapply apply_ok; [exact Hok1 | done | | |exact Hap]; simpl; [|done].
  pose proof (pk_paid d Hok t i Hint Hpid). pose proof (pk_balance d1 Hok1 guest Hin). lia.
Qed.

Inductive loyalty_step (d d' : Db) : Prop :=
| ls_save dto u p : saveProgram dto u d = Ok (d', p) -> loyalty_step d d'
| ls_enroll i u x : enroll i u d = Ok (d', x) -> loyalty_step d d'
| ls_adjust i n u x : adjust_points i n u d = Ok (d', x) -> loyalty_step d d'
| ls_earn r u n : earnForStayInTx r u d = Ok (d', n) -> loyalty_step d d'
| ls_redeem f n actor x : 0 <= n -> redeem_points f n actor d = Ok (d', x) -> loyalty_step d d'
| ls_expire at_ n : expireLapsedPoints at_ d = Ok (d', n) -> loyalty_step d d'
| ls_void i why u x : voidPayment i why u d = Ok (d', x) -> loyalty_step d d'.
End Invariant.

(** C36: points never go missing. Whatever order the programme is saved,
    guests join, stays earn, managers adjust, points are redeemed, lapse, or
    come back with a voided payment, every guest's balance is the sum of their
    ledger and never negative, a redemption never adds points, and every
    member's tier is the highest one their lifetime points have reached. *)
Theorem points_invariant `{DecimalLib} `{TaxDb} `{Platform} `{Uuid} d d' : points_ok d -> rtc loyalty_step d d' -> points_ok d'.
Proof.
  intros Hok Hs. induction Hs as [|d d1 d2 Hst _ IH]; [done|]. apply IH. clear IH.
  destruct Hst; eauto using save_ok, enroll_ok, adjust_ok, earn_ok, redeem_ok, expire_ok, void_points_ok.
Qed.

Module LoyaltyWitness.
Import Hotel.
(** Ada is given 600 points and becomes Silver. *)
Lemma goodwill_ok : is_ok (adjust_points "g1" 600 "u1" hotel) = true.
Proof. vm_compute. reflexivity. Qed.
Definition rewarded : Db := after (adjust_points "g1" 600 "u1") hotel.
Lemma hotel_points : points_ok hotel.
Proof.
  split; simpl.
  - apply NoDup_singleton.
  - intros g ->%list_elem_of_singleton. by vm_compute.
  - by intros t i ?%elem_of_nil.
  - intros g p ->%list_elem_of_singleton. done.
  - intros g ->%list_elem_of_singleton _. split; [done|]. by intros t ?%elem_of_nil.
Qed.
Lemma rewarded_step : rtc loyalty_step hotel rewarded.
Proof. destruct (after_ok _ _ goodwill_ok) as [x Hx]. eapply rtc_once, ls_adjust. exact Hx. Qed.
Lemma points_invariant_witness : (GuestProfile.loyaltyTier <$> guests rewarded) = [Some "Silver"] /\ points_ok rewarded.
Proof. split; [vm_compute; reflexivity | exact (points_invariant hotel rewarded hotel_points rewarded_step)]. Defined.
End LoyaltyWitness.
