(* ===== verification/Bookings.v ===== *)
(** Taking a booking and letting the guest in: [createReservation], [walkIn],
    [checkIn] and [checkInGroup] with what they share
    (src/src/modules/reservations/reservations.service.ts). Row locks only make
    concurrent transactions wait and are left out. *)
From stdpp Require Import pretty.
From Stdlib Require Import QArith Qcanon.
From S2P Require Import Prelude Decimal Json Dates StayPolicies Taxes Authority Transactions Db Packages Folios Notices SampleHotel Rooms Housekeeping SalesRules Inventory Rates Guests.
Import StayFees StayFeesProps.
Local Open Scope Z_scope.

(** ** Requests *)
Record CreateReservationDto := {
  cd_guestId : option string; cd_guest : option CreateGuestDto; cd_roomTypeId : string; cd_checkInDate : string; cd_checkOutDate : string;
  cd_adults : Z; cd_children : option Z; cd_channel : option ReservationChannel; cd_joinWaitlist : bool; cd_dayUse : bool;
  cd_packageIds : option (list string); cd_promoCode : option string; cd_corporateAccountId : option string }.
Record WalkInReservationDto := {
  wd_guestId : option string; wd_guest : option CreateGuestDto; wd_roomTypeId : string; wd_roomId : string; wd_checkOutDate : option string;
  wd_adults : Z; wd_children : option Z; wd_dayUse : bool; wd_packageIds : option (list string); wd_promoCode : option string;
  wd_corporateAccountId : option string; wd_idDocument : option RecordIdDocumentDto }.
Record CheckInDto := { ci_roomId : option string; ci_overrideReason : option string; ci_idDocument : option RecordIdDocumentDto }.
Record GroupCheckInDto := { gc_assignments : list (string * string); gc_leadReservationId : option string }.

Definition resolveGuestInput (guestId : option string) (guest : option CreateGuestDto) : res GuestInput :=
  match set_string guestId, guest with
  | Some _, Some _ => Err invalid
  | Some i, None => Ok (by_id i)
  | None, Some g => Ok (by_details g)
  | None, None => Err invalid
  end.

(** ** Text *)
Definition take_chars (n : nat) (s : string) : string := String.substring 0 n s.
(** [`${a} — ${b}`.slice(0, n)]: the dash is one character of three. *)
Definition with_reason (n : nat) (a b : string) : string :=
  let l := String.length a in
  if (n <=? l)%nat then take_chars n a
  else match (n - l)%nat with
       | 1%nat => a +:+ " "
       | 2%nat => a +:+ " —"
       | k => a +:+ " — " +:+ take_chars (k - 3) b
       end.
(** [String(n).padStart(5, '0')] *)
Fixpoint zeros (n : nat) : string := match n with O => "" | S n => String (Ascii.ascii_of_nat 48) (zeros n) end.
Definition pad_start (w : nat) (n : Z) : string := zeros (w - String.length (pretty n)) +:+ pretty n.

(** ** Rows *)
(** The table's date check: nights, or a day use that leaves the day it arrives. *)
Definition dates_ok (r : Reservation.t) : bool :=
  if Reservation.isDayUse r then bool_decide (Reservation.checkOutDate r = Reservation.checkInDate r) else Reservation.checkInDate r <? Reservation.checkOutDate r.
Definition stored_amount (o : option Qc) : res (option Qc) := match o with Some x => let? y := numeric x in Ok (Some y) | None => Ok None end.
(** A row as the columns and the check let it be written. *)
Definition stay_row (r : Reservation.t) : res Reservation.t :=
  let? rate := numeric (Reservation.confirmedRate r) in
  let? pinned := stored_amount (Reservation.overrideRate r) in
  let? deposit := stored_amount (Reservation.depositAmount r) in
  let? _ := throw_if (negb (dates_ok r)) internal in
  Ok (Reservation.with_money rate pinned deposit r).
Definition stay_where (i : string) (r : Reservation.t) : bool := bool_decide (Reservation.id r = i).
(** [tx.reservation.update({ where: { id }, data })] on a row already read. *)
Definition update_stay (r : Reservation.t) (data : Reservation.t -> Reservation.t) : M Reservation.t :=
  let! row := lift (stay_row (data r)) in
  do! modify (upd_reservations (update_where (stay_where (Reservation.id r)) (fun _ => row))) in
  ret row.

Record Pricing := { pr_subtotal : Qc; pr_totalWithTax : Qc; pr_nightlyRates : json }.

Section Bookings.
Context `{DecimalLib} `{TaxDb} `{Platform} `{Uuid} (encrypt : string -> string).

(** The server's clock is UTC. *)
Definition generateConfirmationNumber : M string :=
  do! modify (upd_reservationSeq Z.succ) in
  let! n := gets reservationSeq in
  let! at_ := now in
  let '(year, _, _) := civil_of_day (day_of at_) in
  ret ("RES-" +:+ pretty year +:+ "-" +:+ pad_start 5 n).
(** Three attempts at a number nobody has. *)
Fixpoint createReservationRow (attempts : nat) (data : Reservation.t) : M Reservation.t :=
  match attempts with
  | O => raise conflict
  | S attempts =>
      let! row := lift (stay_row data) in
      let! taken := findFirst reservations (fun r => bool_decide (Reservation.confirmationNumber r = Reservation.confirmationNumber row)) in
      match taken with
      | None =>
          let! i := new_id in
          let created := Reservation.with_id i row in
          do! modify (upd_reservations (fun l => l ++ [created])) in
          ret created
      | Some _ =>
          match attempts with
          | O => raise conflict
          | S _ => let! n := generateConfirmationNumber in createReservationRow attempts (Reservation.with_number n data)
          end
      end
  end.

(** ** Prices *)
Definition rate_entry (night : Z) (rate : Qc) : json := JObj [("date", JStr (iso_date night)); ("rate", JStr (to_fixed2 rate))].
Definition price_room (b : string) (amount : Qc) (units : Z) : M PricedCharge := let! rules := gets taxRules in lift (priceCharge rules b room amount units).
Definition blockPricing (b : string) (blockRate : Qc) (checkIn checkOut : Z) : M Pricing :=
  let nights := nights_between checkIn checkOut in
  let! priced := price_room b (blockRate ⊗ Qc_of_Z (Z.of_nat (length nights))) (Z.of_nat (length nights)) in
  ret {| pr_subtotal := price priced; pr_totalWithTax := total priced; pr_nightlyRates := JArr ((fun n => rate_entry n blockRate) <$> nights) |}.
Definition resolved_pricing (s : StayResolution) : Pricing := {| pr_subtotal := sr_subtotal s; pr_totalWithTax := sr_totalWithTax s; pr_nightlyRates := nightlyRatesOf s |}.
(** What a re-dated stay is recorded at: a pinned rate stays pinned. *)
Definition repricedStay (r : Reservation.t) (resolved : StayResolution) (checkIn checkOut : Z) : M Pricing :=
  match Reservation.overrideRate r with
  | None => ret (resolved_pricing resolved)
  | Some o => blockPricing (Reservation.branchId r) o checkIn checkOut
  end.
Definition dayUseHours (branch : Branch.t) : M DayUse.DayUseHours := lift (or_throw (DayUse.dayUseHoursFor (Branch.dayUsePolicy branch)) invalid).
Definition dayUsePricing (branch : Branch.t) (x : RoomType.t) : M Pricing :=
  let! _ := dayUseHours branch in
  match RoomType.dayUseRate x with
  | None => raise invalid
  | Some rate =>
      let! priced := price_room (Branch.id branch) rate 1 in
      ret {| pr_subtotal := rate; pr_totalWithTax := total priced; pr_nightlyRates := JArr [] |}
  end.
Definition depositAskedFor (branch : Branch.t) (checkIn : Z) (subtotal totalWithTax : Qc) (nightlyRates : option json) : M (option (Qc * Z)) :=
  let nights := match nightlyRates with Some (JArr l) => Z.of_nat (length l) | _ => 0 end in
  let! own := lift (NightlyRates.nightlyRateFor nightlyRates checkIn) in
  let firstNight := match own with Some x => x | None => if 0 <? nights then dp2 (subtotal ⊘ Qc_of_Z nights) else subtotal end in
  let! today := branch_today branch in
  ret (Deposits.depositFor (Deposits.resolveDepositPolicy (Branch.depositPolicy branch))
    {| Deposits.checkInDate := checkIn; Deposits.subtotal := subtotal; Deposits.totalWithTax := totalWithTax; Deposits.firstNight := firstNight |} today).

(** ** Terms *)
Definition dealTerms (promoCode corporateAccountId : option string) : M (option string * option string) :=
  let promo := set_string (js_trim <$> promoCode) in
  match set_string corporateAccountId with
  | None => ret (promo, None)
  | Some i =>
      let! account := orThrow (findFirst corporateAccounts (fun a => bool_decide (CorporateAccount.id a = i) && CorporateAccount.isActive a)) invalid in
      ret (promo, Some (CorporateAccount.id account))
  end.
Definition storedDeal (r : Reservation.t) (occupancy : option Occupancy) : Deal := {|
  deal_promoCode := Reservation.promoCode r; deal_corporateAccountId := Reservation.corporateAccountId r;
  deal_occupancy := Some (default {| occ_adults := Reservation.adults r; occ_children := Reservation.children r |} occupancy) |}.
Definition party_deal (deal : option string * option string) (adults children : Z) : Deal := {|
  deal_promoCode := fst deal; deal_corporateAccountId := snd deal; deal_occupancy := Some {| occ_adults := adults; occ_children := children |} |}.
Definition trigger_of (triggeredBy : string) (u reservationId : option string) : PriceContext := {|
  pc_triggeredBy := triggeredBy; pc_userId := u; pc_reservationId := reservationId; pc_persistAudit := true |}.
Definition package_entries (picked : list Package.t) : option json := match picked with [] => None | _ => Some (JArr ((fun p => snapshot_entry p None) <$> picked)) end.
Definition turndownTonight (branch : Branch.t) (r : Reservation.t) : M unit :=
  let! today := branch_today branch in
  match Reservation.roomId r with
  | None => ret tt
  | Some roomId =>
      if Reservation.isDayUse r || (Reservation.checkOutDate r <=? today) then ret tt
      else
        let! guest := findFirst guests (guest_where (Reservation.guestId r)) in
        if negb (wantsTurndown (turndownScopeFor (Branch.turndownPolicy branch)) (g ← guest; GuestProfile.vipLevel g)) then ret tt
        else let! _ := ensureTurndownTaskInTx (Branch.id branch) roomId (Reservation.id r) today in ret tt
  end.

(** ** Booking *)
Definition createReservation (b : string) (dto : CreateReservationDto) (actorId : option string) (intoBlock : option string) (publicBooking : bool) : M Reservation.t :=
  let dayUse := cd_dayUse dto in
  let! checkIn := a_date (cd_checkInDate dto) in
  let! checkOut := if dayUse then ret checkIn else a_date (cd_checkOutDate dto) in
  do! (if dayUse then ret tt else assertValidRange checkIn checkOut) in
  throw! invalid when (dayUse && (cd_joinWaitlist dto || isSome (set_string intoBlock))) in
  let channel := default direct (cd_channel dto) in
  let children := default 0 (cd_children dto) in
  let! guestInput := lift (resolveGuestInput (cd_guestId dto) (cd_guest dto)) in
  let! branch := assertBranch b in
  let! x := assertRoomType b (cd_roomTypeId dto) in
  do! assertWithinCapacity x (cd_adults dto) children in
  do! (if dayUse then ret tt else assertNoViolation b (cd_roomTypeId dto) checkIn checkOut) in
  let! picked := snapshotsFor b (cd_roomTypeId dto) (default [] (cd_packageIds dto)) publicBooking in
  let! guest := findOrCreateGuestInTx guestInput publicBooking in
  let! block := match set_string intoBlock with
                | Some i => let! g := assertGroupBlockOpen i b (cd_roomTypeId dto) in ret (Some g)
                | None => ret None
                end in
  do! (if dayUse then assertDayUseAvailable b (cd_roomTypeId dto) checkIn
       else if cd_joinWaitlist dto then ret tt
       else
         do! assertAvailableForStay b (cd_roomTypeId dto) checkIn checkOut None (GroupBlock.id <$> block) in
         assertWithinAllotment b (cd_roomTypeId dto) channel checkIn checkOut None) in
  let! deal := dealTerms (cd_promoCode dto) (cd_corporateAccountId dto) in
  let! resolved := if dayUse then ret None
                   else let! s := resolveStay b x checkIn checkOut (party_deal deal (cd_adults dto) children) (trigger_of "booking_create" actorId None) in ret (Some s) in
  let! pricing := match resolved, block with
                  | None, _ => dayUsePricing branch x
                  | Some _, Some g => blockPricing b (GroupBlock.blockRate g) checkIn checkOut
                  | Some s, None => ret (resolved_pricing s)
                  end in
  let! number := generateConfirmationNumber in
  let! deposit := if cd_joinWaitlist dto then ret None
                  else depositAskedFor branch checkIn (pr_subtotal pricing) (pr_totalWithTax pricing) (Some (pr_nightlyRates pricing)) in
  let! r := createReservationRow 3 {|
    Reservation.id := ""; Reservation.branchId := b; Reservation.guestId := GuestProfile.id guest;
    Reservation.status := if cd_joinWaitlist dto then waitlisted else confirmed;
    Reservation.checkInDate := checkIn; Reservation.checkOutDate := checkOut; Reservation.isDayUse := dayUse;
    Reservation.overrideRate := GroupBlock.blockRate <$> block; Reservation.overrideReason := (fun g => "Group block: " +:+ GroupBlock.name g) <$> block;
    Reservation.confirmedRate := pr_subtotal pricing; Reservation.nightlyRates := Some (pr_nightlyRates pricing);
    Reservation.roomTypeId := cd_roomTypeId dto; Reservation.roomId := None; Reservation.ratePlanId := s ← resolved; sr_ratePlanId s;
    Reservation.adults := cd_adults dto; Reservation.children := children; Reservation.packages := package_entries picked;
    Reservation.billToFolioId := None; Reservation.groupBlockId := GroupBlock.id <$> block; Reservation.corporateAccountId := snd deal; Reservation.promoCode := fst deal;
    Reservation.confirmationNumber := number; Reservation.channel := channel; Reservation.actualCheckIn := None; Reservation.actualCheckOut := None;
    Reservation.depositAmount := fst <$> deposit; Reservation.depositDueDate := snd <$> deposit;
    Reservation.cancellationPolicy := Some (CancellationProps.encode_policy (Cancellation.resolveCancellationPolicy (Branch.cancellationPolicy branch)));
    Reservation.createdBy := actorId; Reservation.termsAcceptedAt := None; Reservation.preArrivalCompletedAt := None; Reservation.houseRulesAcceptedAt := None;
    Reservation.estimatedArrivalTime := None; Reservation.deletedAt := None |} in
  do! match resolved with Some s => linkAuditLogsToReservation (sr_auditLogIds s) (Reservation.id r) | None => ret tt end in
  do! reservation_audit b actorId "reservation.created" (Reservation.id r) in
  do! (if cd_joinWaitlist dto then ret tt else logAutomatedInTx b (Some (Reservation.id r)) (GuestProfile.id guest) "booking_confirmation") in
  ret r.

(** The first night on the bill, the evening turndown, the document and the card: what every arrival does. *)
Definition settle_in (branch : Branch.t) (r : Reservation.t) (idDocument : option RecordIdDocumentDto) (actorId : string) : M unit :=
  let! folio := ensurePrimaryFolio r (Some actorId) in
  let! _ := postRoomChargeForDate r folio (Reservation.checkInDate r) (Some actorId) in
  do! turndownTonight branch r in
  do! match idDocument with Some doc => recordIdDocumentInTx encrypt (Reservation.branchId r) (Reservation.guestId r) doc actorId | None => ret tt end in
  let! _ := generateCardInTx r actorId in
  ret tt.

Definition walkIn (b : string) (dto : WalkInReservationDto) (actorId : string) : M Reservation.t :=
  let! guestInput := lift (resolveGuestInput (wd_guestId dto) (wd_guest dto)) in
  let! branch := assertBranch b in
  let dayUse := wd_dayUse dto in
  let children := default 0 (wd_children dto) in
  let! checkIn := branch_today branch in
  let! checkOut := if dayUse then ret checkIn else a_date (default "" (wd_checkOutDate dto)) in
  do! (if dayUse then ret tt else assertValidRange checkIn checkOut) in
  let! x := assertRoomType b (wd_roomTypeId dto) in
  do! assertWithinCapacity x (wd_adults dto) children in
  do! (if dayUse then ret tt else assertNoViolation b (wd_roomTypeId dto) checkIn checkOut) in
  let! picked := snapshotsFor b (wd_roomTypeId dto) (default [] (wd_packageIds dto)) false in
  let! guest := findOrCreateGuestInTx guestInput false in
  let! given_room := orThrow (findFirst rooms (live_room (wd_roomId dto))) not_found in
  do! assertRoomCheckInReady given_room b (wd_roomTypeId dto) checkIn checkOut in
  do! (if dayUse then assertDayUseAvailable b (wd_roomTypeId dto) checkIn
       else
         do! assertAvailableForStay b (wd_roomTypeId dto) checkIn checkOut None None in
         assertWithinAllotment b (wd_roomTypeId dto) walk_in checkIn checkOut None) in
  let! deal := dealTerms (wd_promoCode dto) (wd_corporateAccountId dto) in
  let! resolved := if dayUse then ret None
                   else let! s := resolveStay b x checkIn checkOut (party_deal deal (wd_adults dto) children) (trigger_of "walkin" (Some actorId) None) in ret (Some s) in
  let! pricing := match resolved with Some s => ret (resolved_pricing s) | None => dayUsePricing branch x end in
  let! number := generateConfirmationNumber in
  let! at_ := now in
  let! r := createReservationRow 3 {|
    Reservation.id := ""; Reservation.branchId := b; Reservation.guestId := GuestProfile.id guest; Reservation.status := checked_in;
    Reservation.checkInDate := checkIn; Reservation.checkOutDate := checkOut; Reservation.isDayUse := dayUse;
    Reservation.overrideRate := None; Reservation.overrideReason := None;
    Reservation.confirmedRate := pr_subtotal pricing; Reservation.nightlyRates := Some (pr_nightlyRates pricing);
    Reservation.roomTypeId := wd_roomTypeId dto; Reservation.roomId := Some (wd_roomId dto); Reservation.ratePlanId := s ← resolved; sr_ratePlanId s;
    Reservation.adults := wd_adults dto; Reservation.children := children; Reservation.packages := package_entries picked;
    Reservation.billToFolioId := None; Reservation.groupBlockId := None; Reservation.corporateAccountId := snd deal; Reservation.promoCode := fst deal;
    Reservation.confirmationNumber := number; Reservation.channel := walk_in; Reservation.actualCheckIn := Some at_; Reservation.actualCheckOut := None;
    Reservation.depositAmount := None; Reservation.depositDueDate := None; Reservation.cancellationPolicy := None;
    Reservation.createdBy := Some actorId; Reservation.termsAcceptedAt := None; Reservation.preArrivalCompletedAt := None; Reservation.houseRulesAcceptedAt := None;
    Reservation.estimatedArrivalTime := None; Reservation.deletedAt := None |} in
  do! match resolved with Some s => linkAuditLogsToReservation (sr_auditLogIds s) (Reservation.id r) | None => ret tt end in
  let! _ := applyReservationOccupancy (wd_roomId dto) occupied None actorId in
  do! settle_in branch r (wd_idDocument dto) actorId in
  do! reservation_audit b (Some actorId) "reservation.walk_in" (Reservation.id r) in
  do! logAutomatedInTx b (Some (Reservation.id r)) (GuestProfile.id guest) "checkin_receipt" in
  ret r.

(** ** Arrival *)
Definition early_check_in : error := Throw ConflictException EARLY_CHECK_IN.
(** [confirmedRate / nights], to the cent *)
Definition booked_nightly (r : Reservation.t) : Qc := dp2 (Reservation.confirmedRate r ⊘ Qc_of_Z (stay_nights (Reservation.checkInDate r) (Reservation.checkOutDate r))).
Definition checkInInTx (i : string) (dto : CheckInDto) (actorId : string) : M Reservation.t :=
  let! r := findReservation i in
  throw! status_transition when negb (bool_decide (Reservation.status r = confirmed)) in
  let! branch := assertBranch (Reservation.branchId r) in
  let! today := branch_today branch in
  throw! early_check_in when (today <? Reservation.checkInDate r) in
  let! roomId := lift (or_throw (set_string (match Reservation.roomId r with Some x => Some x | None => ci_roomId dto end)) invalid) in
  let! given_room := orThrow (findFirst rooms (live_room roomId)) not_found in
  let overrideReason := set_string (js_trim <$> ci_overrideReason dto) in
  let typeChanges := negb (bool_decide (Room.roomTypeId given_room = Reservation.roomTypeId r)) in
  let! override := if typeChanges && bool_decide (Room.branchId given_room = Reservation.branchId r) then
                     let! _ := assertRoomType (Reservation.branchId r) (Reservation.roomTypeId r) in
                     let! given_type := assertRoomType (Reservation.branchId r) (Room.roomTypeId given_room) in
                     let! why := lift (or_throw overrideReason invalid) in
                     do! assertAvailableForStay (Reservation.branchId r) (Room.roomTypeId given_room) (Reservation.checkInDate r) (Reservation.checkOutDate r) (Some i) None in
                     ret (Room.roomTypeId given_room,
                          match Reservation.overrideRate r with
                          | Some o => (Some o, Reservation.overrideReason r)
                          | None => (Some (booked_nightly r), Some (with_reason 500 ("Given a " +:+ RoomType.name given_type +:+ " at check-in at the booked rate") why))
                          end)
                   else ret (Reservation.roomTypeId r, (Reservation.overrideRate r, Reservation.overrideReason r)) in
  do! assertRoomCheckInReady given_room (Reservation.branchId r) (if typeChanges then Room.roomTypeId given_room else Reservation.roomTypeId r) (Reservation.checkInDate r) (Reservation.checkOutDate r) in
  let! at_ := now in
  let! updated := update_stay r (Reservation.with_check_in checked_in (Some roomId) (Some at_) (fst override) (fst (snd override)) (snd (snd override))) in
  let! _ := applyReservationOccupancy roomId occupied None actorId in
  do! settle_in branch updated (ci_idDocument dto) actorId in
  do! reservation_audit (Reservation.branchId r) (Some actorId) "reservation.checked_in" i in
  do! logAutomatedInTx (Reservation.branchId r) (Some i) (Reservation.guestId updated) "checkin_receipt" in
  ret updated.
Definition checkIn := checkInInTx.

Definition checkInGroup (blockId : string) (dto : GroupCheckInDto) (actorId : string) : M (list Reservation.t * option string) :=
  let ids := fst <$> gc_assignments dto in
  let roomIds := snd <$> gc_assignments dto in
  throw! invalid when negb (bool_decide (length (unique_from [] ids) = length ids)) in
  throw! invalid when negb (bool_decide (length (unique_from [] roomIds) = length roomIds)) in
  let! block := orThrow (findFirst groupBlocks (fun g => bool_decide (GroupBlock.id g = blockId))) not_found in
  let! members := findMany reservations (fun r => includes (Reservation.id r) ids && in_block blockId r && isNone (Reservation.deletedAt r)) in
  throw! invalid when negb (bool_decide (length members = length ids)) in
  let! masterFolioId := match gc_leadReservationId dto with
                        | None => ret None
                        | Some leadId =>
                            let! lead := orThrow (findFirst reservations (fun r => bool_decide (Reservation.id r = leadId) && in_block blockId r && isNone (Reservation.deletedAt r))) invalid in
                            let! master := createAdditionalFolio (Reservation.id lead)
                                             {| add_label := "Group — " +:+ take_chars 92 (GroupBlock.name block); add_payerName := GroupBlock.contactName block; add_corporateAccountId := None |} actorId in
                            do! modify (upd_reservations (update_where (fun r => includes (Reservation.id r) ids) (Reservation.with_billTo (Some (Folio.id master))))) in
                            ret (Some (Folio.id master))
                        end in
  let! checkedIn := for_each (gc_assignments dto) [] (fun done_ a =>
    let! stay := checkInInTx (fst a) {| ci_roomId := Some (snd a); ci_overrideReason := None; ci_idDocument := None |} actorId in
    ret (done_ ++ [stay])) in
  do! auditLog (Some (GroupBlock.branchId block)) (Some actorId) "group_block.checked_in" "group_block" blockId in
  ret (checkedIn, masterFolioId).
End Bookings.
