(* ===== verification/StayChanges.v ===== *)
(** Changing a stay: its dates, room type and party, its length, its room, its
    rate, its packages, and the waitlist
    (src/src/modules/reservations/reservations.service.ts). *)
From stdpp Require Import pretty.
From Stdlib Require Import QArith Qcanon.
From S2P Require Import Prelude Decimal Json Dates StayPolicies Taxes Authority Transactions Db Packages Folios Notices SampleHotel Rooms Housekeeping SalesRules Inventory Rates Guests Bookings.
Import StayFees StayFeesProps.
Local Open Scope Z_scope.

Record ModifyReservationDto := { md_checkInDate : option string; md_checkOutDate : option string; md_roomTypeId : option string; md_adults : option Z; md_children : option Z }.
Record MoveRoomDto := { mv_roomId : string; mv_reason : string; mv_chargeNewRate : bool }.
Record RoomMovePlan := { mp_nightsLeft : list Z; mp_tonightAlreadyBilled : bool; mp_currentNightly : Qc; mp_newNightly : Qc; mp_newTotal : Qc }.
Record RoomMoveQuote := { mq_nightsLeft : Z; mq_firstNight : option string; mq_tonightAlreadyBilled : bool; mq_currentNightly : string; mq_keepTotal : string;
                          mq_newNightly : string; mq_newTotal : string }.

(** A night of the stay on a bill: posted for it, or by hand on one of its bills. *)
Definition room_line_of (d : Db) (s : string) (l : LineItem.t) : bool :=
  bool_decide (LineItem.chargeType l = room) && negb (LineItem.isVoid l) && isNone (LineItem.deletedAt l) &&
  (bool_decide (LineItem.stayReservationId l = Some s) ||
   (isNone (LineItem.stayReservationId l) && existsb (fun f => bool_decide (Folio.id f = LineItem.folioId l) && bool_decide (Folio.reservationId f = s)) (folios d))).

Section StayChanges.
Context `{DecimalLib} `{TaxDb} `{Platform} `{Uuid}.

(** ** Before arrival *)
(** [s ? toBranchDate(s) : current] *)
Definition date_or (asked : option string) (current : Z) : M Z := match set_string asked with Some s => a_date s | None => ret current end.
Definition modifyReservation (i : string) (dto : ModifyReservationDto) (actorId : string) : M Reservation.t :=
  let! r := findReservation i in
  throw! status_transition when negb (bool_decide (Reservation.status r ∈ [confirmed; waitlisted])) in
  throw! status_transition when Reservation.isDayUse r in
  let! checkIn := date_or (md_checkInDate dto) (Reservation.checkInDate r) in
  let! checkOut := date_or (md_checkOutDate dto) (Reservation.checkOutDate r) in
  do! assertValidRange checkIn checkOut in
  let b := Reservation.branchId r in
  let t := default (Reservation.roomTypeId r) (md_roomTypeId dto) in
  let adults := default (Reservation.adults r) (md_adults dto) in
  let children := default (Reservation.children r) (md_children dto) in
  let! x := assertRoomType b t in
  do! assertWithinCapacity x adults children in
  do! match set_string (Reservation.groupBlockId r) with Some g => assertStaysInGroupBlock g t checkIn checkOut | None => ret tt end in
  let changed := negb (checkIn =? Reservation.checkInDate r) || negb (checkOut =? Reservation.checkOutDate r) || negb (bool_decide (t = Reservation.roomTypeId r)) in
  do! (if changed then assertNoViolation b t checkIn checkOut else ret tt) in
  do! (if changed && bool_decide (Reservation.status r = confirmed) then
         do! assertAvailableForStay b t checkIn checkOut (Some i) (Reservation.groupBlockId r) in
         assertWithinAllotment b t (Reservation.channel r) checkIn checkOut (Some i)
       else ret tt) in
  let! resolved := resolveStay b x checkIn checkOut (storedDeal r (Some {| occ_adults := adults; occ_children := children |})) (trigger_of "modify" (Some actorId) (Some i)) in
  let! pricing := repricedStay r resolved checkIn checkOut in
  let! updated := update_stay r (Reservation.with_changes checkIn checkOut t (sr_ratePlanId resolved) (pr_subtotal pricing) (Some (pr_nightlyRates pricing)) adults children) in
  do! reservation_audit b (Some actorId) "reservation.modified" i in
  ret updated.

Definition promoteFromWaitlist (i actorId : string) : M Reservation.t :=
  let! r := findReservation i in
  throw! status_transition when negb (bool_decide (Reservation.status r = waitlisted)) in
  let b := Reservation.branchId r in
  do! assertAvailableForStay b (Reservation.roomTypeId r) (Reservation.checkInDate r) (Reservation.checkOutDate r) None None in
  do! assertWithinAllotment b (Reservation.roomTypeId r) (Reservation.channel r) (Reservation.checkInDate r) (Reservation.checkOutDate r) (Some i) in
  let! branch := assertBranch b in
  let! priced := price_room b (Reservation.confirmedRate r) (stay_nights (Reservation.checkInDate r) (Reservation.checkOutDate r)) in
  let! deposit := depositAskedFor branch (Reservation.checkInDate r) (Reservation.confirmedRate r) (total priced) (Reservation.nightlyRates r) in
  let! updated := update_stay r (Reservation.with_promotion confirmed (fst <$> deposit) (snd <$> deposit)) in
  do! reservation_audit b (Some actorId) "reservation.promoted" i in
  do! logAutomatedInTx b (Some i) (Reservation.guestId updated) "booking_confirmation" in
  ret updated.

(** ** A pinned rate *)
(** [postedByNight]: what each night is on the bill at, its reversal taken off. *)
Definition reversal_of (d : Db) (l : LineItem.t) : Qc :=
  match corrected_by d (LineItem.id l) with
  | Some c => if negb (LineItem.isVoid c) && isNone (LineItem.deletedAt c) then LineItem.amount c else 0%Qc
  | None => 0%Qc
  end.
Definition posted_on (d : Db) (s : string) (night : string) : option Qc :=
  match List.filter (fun l => room_line_of d s l && match LineItem.serviceDate l with Some t => bool_decide (iso_date t = night) | None => false end) (lineItems d) with
  | [] => None
  | l :: ls => Some (foldl (fun sum l => (sum ⊕ LineItem.amount l) ⊕ reversal_of d l) 0%Qc (l :: ls))
  end.
Definition pricedWithPinnedRate (r : Reservation.t) (nightly : Qc) : M (Qc * json) :=
  gets (fun d =>
    let rates := (fun night => (night, default nightly (posted_on d (Reservation.id r) (iso_date night)))) <$> nights_between (Reservation.checkInDate r) (Reservation.checkOutDate r) in
    (dsum (snd <$> rates), JArr ((fun e => rate_entry (fst e) (snd e)) <$> rates))).
Definition setRateOverride (i : string) (rate : Qc) (reason : string) (actorId : string) : M Reservation.t :=
  let! r := findReservation i in
  throw! status_transition when negb (holding (Reservation.status r)) in
  let! priced := pricedWithPinnedRate r rate in
  let! updated := update_stay r (Reservation.with_override (Some rate) (Some reason) (fst priced) (Some (snd priced))) in
  do! reservation_audit (Reservation.branchId r) (Some actorId) "reservation.rate_overridden" i in
  ret updated.

(** ** Under way *)
Definition extendStay (i checkOutDate actorId : string) : M Reservation.t :=
  let! r := findReservation i in
  throw! status_transition when negb (bool_decide (Reservation.status r = checked_in)) in
  let! roomId := lift (or_throw (set_string (Reservation.roomId r)) invalid) in
  let! newCheckOut := a_date checkOutDate in
  throw! invalid when (newCheckOut <=? Reservation.checkOutDate r) in
  let b := Reservation.branchId r in
  let t := Reservation.roomTypeId r in
  let oldCheckOut := Reservation.checkOutDate r in
  do! assertExtensionAllowed b t (Reservation.checkInDate r) oldCheckOut newCheckOut in
  throw! status_transition when Reservation.isDayUse r in
  do! assertAvailableForStay b t oldCheckOut newCheckOut (Some i) (Reservation.groupBlockId r) in
  do! assertWithinAllotment b t (Reservation.channel r) oldCheckOut newCheckOut (Some i) in
  let! block := findFirst roomBlocks (fun x => bool_decide (RoomBlock.roomId x = roomId) && (RoomBlock.fromDate x <? newCheckOut) && (oldCheckOut <=? RoomBlock.toDate x)) in
  throw! not_available when isSome block in
  let! x := assertRoomType b t in
  let! resolved := resolveStay b x (Reservation.checkInDate r) newCheckOut (storedDeal r None) (trigger_of "extend_stay" (Some actorId) (Some i)) in
  let! priced := match Reservation.overrideRate r with
                 | Some o => pricedWithPinnedRate (Reservation.with_extension newCheckOut (Reservation.confirmedRate r) (Reservation.ratePlanId r) (Reservation.nightlyRates r) r) o
                 | None => ret (sr_subtotal resolved, nightlyRatesOf resolved)
                 end in
  let! updated := update_stay r (Reservation.with_extension newCheckOut (fst priced) (sr_ratePlanId resolved) (Some (snd priced))) in
  do! reservation_audit b (Some actorId) "reservation.extended" i in
  do! logAutomatedInTx b (Some i) (Reservation.guestId r) "stay_extended" in
  ret updated.

(** The room the guest is in: only a guest checked in can change rooms. *)
Definition assertMovable (r : Reservation.t) : M string :=
  throw! status_transition when negb (bool_decide (Reservation.status r = checked_in)) in
  lift (or_throw (set_string (Reservation.roomId r)) status_transition).
Definition tonight_of (r : Reservation.t) (today : Z) : Z := if Reservation.checkInDate r <? today then today else Reservation.checkInDate r.
(** The dates on the stay's bills. *)
Definition billed_dates (d : Db) (s : string) : list string := omap (fun l => iso_date <$> LineItem.serviceDate l) (List.filter (room_line_of d s) (lineItems d)).
(** [resolved.perNight] of the nights left, added up. *)
Definition total_of_left (left_ : list string) (perNight : list PerNight) : res Qc :=
  foldl (fun sum n => let? sum := sum in if includes (pn_date n) left_ then let? x := new_decimal (pn_finalRate n) in Ok (sum ⊕ x) else Ok sum) (Ok 0%Qc) perNight.
Definition roomMovePlan (r : Reservation.t) (newType : RoomType.t) (persistAudit : bool) (actorId : option string) : M RoomMovePlan :=
  let! branch := assertBranch (Reservation.branchId r) in
  let! today := branch_today branch in
  let tonight := tonight_of r today in
  let! billed := gets (fun d => billed_dates d (Reservation.id r)) in
  let nightsLeft := List.filter (fun n => negb (includes (iso_date n) billed)) (nights_between tonight (Reservation.checkOutDate r)) in
  let currentNightly := default (booked_nightly r) (Reservation.overrideRate r) in
  let! newTotal := match nightsLeft with
                   | [] => ret 0%Qc
                   | first :: _ =>
                       let! resolved := resolveStay (Reservation.branchId r) newType first (Reservation.checkOutDate r) (storedDeal r None)
                         {| pc_triggeredBy := "room_move"; pc_userId := actorId; pc_reservationId := Some (Reservation.id r); pc_persistAudit := persistAudit |} in
                       lift (total_of_left (iso_date <$> nightsLeft) (sr_perNight resolved))
                   end in
  ret {| mp_nightsLeft := nightsLeft; mp_tonightAlreadyBilled := includes (iso_date tonight) billed && (tonight <? Reservation.checkOutDate r); mp_currentNightly := currentNightly;
         mp_newNightly := match nightsLeft with [] => 0%Qc | _ => dp2 (newTotal ⊘ Qc_of_Z (Z.of_nat (length nightsLeft))) end; mp_newTotal := newTotal |}.
Definition roomMoveQuote (i roomTypeId : string) : M RoomMoveQuote :=
  let! r := findReservation i in
  let! _ := assertMovable r in
  let! x := assertRoomType (Reservation.branchId r) roomTypeId in
  let! plan := roomMovePlan r x false None in
  let n := Z.of_nat (length (mp_nightsLeft plan)) in
  ret {| mq_nightsLeft := n; mq_firstNight := iso_date <$> head (mp_nightsLeft plan); mq_tonightAlreadyBilled := mp_tonightAlreadyBilled plan;
         mq_currentNightly := to_fixed2 (mp_currentNightly plan); mq_keepTotal := to_fixed2 (mp_currentNightly plan ⊗ Qc_of_Z n);
         mq_newNightly := to_fixed2 (mp_newNightly plan); mq_newTotal := to_fixed2 (mp_newTotal plan) |}.

(** What a move does to the rate: the rate pinned, its reason, the stay's total. *)
Definition move_rate (r : Reservation.t) (newType : RoomType.t) (plan : RoomMovePlan) (typeChanges chargeNewRate : bool) (reason : string) : option Qc * option string * Qc :=
  match mp_nightsLeft plan with
  | _ :: _ as left_ =>
      if chargeNewRate then
        let nights := stay_nights (Reservation.checkInDate r) (Reservation.checkOutDate r) in
        let n := Z.of_nat (length left_) in
        (Some (dp2 (mp_newTotal plan ⊘ Qc_of_Z n)), Some (with_reason 500 ("Room move to " +:+ RoomType.name newType) reason),
         (mp_currentNightly plan ⊗ Qc_of_Z (nights - n)) ⊕ mp_newTotal plan)
      else if typeChanges && isNone (Reservation.overrideRate r) then
        (Some (mp_currentNightly plan), Some (with_reason 500 ("Moved to " +:+ RoomType.name newType +:+ " at the booked rate") reason), Reservation.confirmedRate r)
      else (Reservation.overrideRate r, Reservation.overrideReason r, Reservation.confirmedRate r)
  | [] =>
      if typeChanges && isNone (Reservation.overrideRate r) then
        (Some (mp_currentNightly plan), Some (with_reason 500 ("Moved to " +:+ RoomType.name newType +:+ " at the booked rate") reason), Reservation.confirmedRate r)
      else (Reservation.overrideRate r, Reservation.overrideReason r, Reservation.confirmedRate r)
  end.
Definition moveRoom (i : string) (dto : MoveRoomDto) (actorId : string) : M Reservation.t :=
  let! r := findReservation i in
  let! fromRoomId := assertMovable r in
  throw! invalid when bool_decide (mv_roomId dto = fromRoomId) in
  let! to_ := orThrow (findFirst rooms (live_room (mv_roomId dto))) not_found in
  throw! not_found when negb (bool_decide (Room.branchId to_ = Reservation.branchId r)) in
  let b := Reservation.branchId r in
  let! branch := assertBranch b in
  let! today := branch_today branch in
  let tonight := tonight_of r today in
  do! assertRoomCheckInReady to_ b (Room.roomTypeId to_) tonight (Z.max (Reservation.checkOutDate r) tonight) in
  let typeChanges := negb (bool_decide (Room.roomTypeId to_ = Reservation.roomTypeId r)) in
  do! (if typeChanges && (tonight <? Reservation.checkOutDate r) then assertAvailableForStay b (Room.roomTypeId to_) tonight (Reservation.checkOutDate r) (Some i) None else ret tt) in
  let! folio := ensurePrimaryFolio r (Some actorId) in
  let! _ := backfillRoomCharges r folio today (Some actorId) in
  let! newType := assertRoomType b (Room.roomTypeId to_) in
  let! plan := roomMovePlan r newType true (Some actorId) in
  let '(rate, why, total_) := move_rate r newType plan typeChanges (mv_chargeNewRate dto) (js_trim (mv_reason dto)) in
  let! updated := update_stay r (Reservation.with_room (Some (Room.id to_)) (Room.roomTypeId to_) rate why total_) in
  let! _ := applyReservationOccupancy fromRoomId vacant (Some dirty) actorId in
  let! _ := supersedeStayoverTasksInTx b fromRoomId ("Guest moved to room " +:+ Room.number to_ +:+ " — the move's clean replaces this") (Some actorId) in
  let! _ := createTaskInTx b {| to_roomId := fromRoomId; to_priority := None; to_notes := Some ("Guest moved to room " +:+ Room.number to_); to_triggerEvent := "room_move";
                                to_reservationId := Some i; to_taskDate := today; to_actorId := Some actorId |} in
  let! _ := applyReservationOccupancy (Room.id to_) occupied None actorId in
  do! turndownTonight branch updated in
  do! reservation_audit b (Some actorId) "reservation.room_moved" i in
  ret updated.

(** ** Packages *)
(** The entries of [reservation.packages] that parse and are asked for again, as stored. *)
Definition kept_entries (value : option json) (packageIds : list string) : list json :=
  match value with
  | Some (JArr l) => List.filter (fun e => match parse_snapshot e with Some p => includes (packageId p) packageIds | None => false end) l
  | _ => []
  end.
Definition setPackages (i : string) (packageIds : list string) (actorId : string) : M Reservation.t :=
  let! r := findReservation i in
  throw! status_transition when negb (bool_decide (Reservation.status r ∈ [waitlisted; confirmed; checked_in])) in
  let underWay := bool_decide (Reservation.status r = checked_in) in
  let! branch := assertBranch (Reservation.branchId r) in
  let! at_ := now in
  let today := todayInTimezone (Branch.timezone branch) at_ in
  let kept := kept_entries (Reservation.packages r) packageIds in
  let held := packageId <$> omap parse_snapshot kept in
  let! added := snapshotsFor (Reservation.branchId r) (Reservation.roomTypeId r) (List.filter (fun x => negb (includes x held)) packageIds) false in
  let entries := kept ++ ((fun p => snapshot_entry p (if underWay then Some today else None)) <$> added) in
  let! updated := update_stay r (Reservation.with_packages (match entries with [] => Some JNull | _ => Some (JArr entries) end)) in
  do! (if underWay && Nat.ltb 0 (length added) then
         let! folio := ensurePrimaryFolio updated (Some actorId) in
         let! date := a_date today in
         postPackagesForDate updated folio date (Some actorId)
       else ret tt) in
  do! reservation_audit (Reservation.branchId r) (Some actorId) "reservation.packages_changed" i in
  ret updated.
End StayChanges.
