(* ===== verification/StayEnds.v ===== *)
(** How a stay ends: check-out, cancellation, no-show (and its waiver and
    reinstatement) and being walked to another property
    (src/src/modules/reservations/reservations.service.ts). *)
From stdpp Require Import pretty.
From Stdlib Require Import QArith Qcanon.
From S2P Require Import Prelude Decimal Json Dates StayPolicies Taxes Authority Transactions Db Packages Folios Notices SampleHotel Loyalty Refunds Rooms Housekeeping SalesRules Inventory Rates Guests Bookings StayChanges.
Import BranchRoles StayFees StayFeesProps.
Import Cancellation (PenaltyType).
Local Open Scope Z_scope.

Definition forbidden_ : error := Throw ForbiddenException FORBIDDEN.
Definition terms_changed : error := Throw ConflictException CANCELLATION_TERMS_CHANGED.
Record CheckOutDto := { co_waiveFees : bool; co_waiverReason : option string }.
Record CancelOpts := { co_actorId : option string; co_waiver : option string; co_acknowledgedPenaltyTotal : option Qc }.
Record CancellationQuote := {
  cq_cancellable : bool; cq_policy : Cancellation.CancellationPolicy; cq_terms : Cancellation.CancellationTerms; cq_penaltyAmount : Qc; cq_penaltyTax : Qc; cq_penaltyTaxIncluded : Qc; cq_penaltyTotal : Qc;
  cq_paidSoFar : Qc; cq_refundDue : Qc; cq_amountOwed : Qc }.
Record ReinstateNoShowDto := { rn_checkInDate : string; rn_checkOutDate : string; rn_waivePenalty : bool }.
Record WalkReservationDto := { wk_relocationProperty : string; wk_transportProvided : option bool; wk_transportCost : option Qc; wk_compensationOffered : option string }.

(** The parts of a row the policies read. *)
Definition priced_stay (r : Reservation.t) : Cancellation.PricedStay := {|
  Cancellation.confirmedRate := Reservation.confirmedRate r; Cancellation.overrideRate := Reservation.overrideRate r;
  Cancellation.checkInDate := Reservation.checkInDate r; Cancellation.checkOutDate := Reservation.checkOutDate r; Cancellation.nightlyRates := Reservation.nightlyRates r |}.
Definition status_name (s : ReservationStatus) : string :=
  match s with
  | waitlisted => "waitlisted" | confirmed => "confirmed" | checked_in => "checked_in" | checked_out => "checked_out"
  | cancelled => "cancelled" | no_show => "no_show" | walked => "walked"
  end.
(** [/^\d{2}:\d{2}$/] *)
Definition is_clock (s : string) : bool :=
  match s with
  | String a (String b (String c (String d (String e EmptyString)))) => forallb is_digit [a; b; d; e] && bool_decide (c = Ascii.ascii_of_nat 58)
  | _ => false
  end.
(** [new Date(`1970-01-01T${hh:mm}:00.000Z`)] of a clock time *)
Definition clock_ms (s : string) : Z :=
  match (fun c => default 0 (char_digit c)) <$> String.list_ascii_of_string s with
  | [a; b; _; d; e] => ((a * 10 + b) * 60 + (d * 10 + e)) * 60000
  | _ => 0
  end.

(** A time the calendar has; the end of the day counts. *)
Definition time_exists (s : string) : bool := DayUse.CLOCK s || bool_decide (s = "24:00").

Section StayEnds.
Context `{DecimalLib} `{TaxDb} `{Platform} `{Uuid}.

(** ** Check-out *)
Definition stayFeesNow (r : Reservation.t) (branch : Branch.t) : M (list StayFee) :=
  let! leaveBy := if Reservation.isDayUse r then let! hours := dayUseHours branch in ret (clock_ms (DayUse.until hours)) else ret (Branch.checkOutTime branch) in
  let! today := branch_today branch in
  let! billed := findMany lineItems (fun l => bool_decide (LineItem.stayReservationId l = Some (Reservation.id r)) && bool_decide (LineItem.chargeType l = room) &&
    negb (LineItem.dayUse l) && negb (LineItem.isVoid l) && isNone (LineItem.deletedAt l) && match LineItem.serviceDate l with Some t => today <=? t | None => false end) in
  let! at_ := now in
  lift (stayFeesFor (resolveStayFeePolicy (Branch.stayFeePolicy branch)) (priced_stay r) (Branch.timezone branch) leaveBy today at_
          (list_to_set (omap (fun l => iso_date <$> LineItem.serviceDate l) billed))).
Definition getCheckOutQuote (i : string) : M (list (FeeKind * Qc * Qc * Qc)) :=
  let! r := findReservation i in
  let! branch := assertBranch (Reservation.branchId r) in
  let! fees := if bool_decide (Reservation.status r = checked_in) then stayFeesNow r branch else ret [] in
  for_each fees [] (fun rows fee =>
    let! priced := previewCharge (Branch.id branch) penalty (amount fee) in
    ret (rows ++ [(kind fee, amount fee, addedTax priced, total priced)])).

Definition checkOut (i : string) (actor : JwtPayload) (dto : CheckOutDto) : M Reservation.t :=
  let actorId := sub actor in
  let! r := findReservation i in
  throw! status_transition when negb (bool_decide (Reservation.status r = checked_in)) in
  throw! forbidden_ when (co_waiveFees dto && negb (isSupervisorAt actor (Reservation.branchId r))) in
  throw! invalid when (co_waiveFees dto && isNone (set_string (js_trim <$> co_waiverReason dto))) in
  let! roomId := lift (or_throw (set_string (Reservation.roomId r)) status_transition) in
  let! at_ := now in
  let! updated := update_stay r (Reservation.with_check_out checked_out (Some at_)) in
  let! branch := assertBranch (Reservation.branchId r) in
  let! _ := applyReservationOccupancy roomId vacant (Some dirty) actorId in
  let! _ := supersedeStayoverTasksInTx (Reservation.branchId r) roomId "Guest checked out — the check-out clean replaces this" (Some actorId) in
  let! today := branch_today branch in
  let! _ := createTaskInTx (Reservation.branchId r) {| to_roomId := roomId; to_priority := None; to_notes := None; to_triggerEvent := "checkout";
                                                       to_reservationId := Some i; to_taskDate := today; to_actorId := Some actorId |} in
  let! folio := ensurePrimaryFolio updated (Some actorId) in
  let! _ := backfillRoomCharges updated folio today (Some actorId) in
  let! fees := stayFeesNow r branch in
  do! (if co_waiveFees dto then
         if Nat.ltb 0 (length fees) then reservation_audit (Reservation.branchId r) (Some actorId) "reservation.check_out_fees_waived" i else ret tt
       else for_each fees tt (fun _ fee => let! _ := postChargeInTx folio (amount fee) penalty today (Some actorId) in ret tt)) in
  let! _ := settleIfFullyPaid folio (Some actorId) in
  let! _ := earnForStayInTx updated (Some actorId) in
  do! reservation_audit (Reservation.branchId r) (Some actorId) "reservation.checked_out" i in
  do! logAutomatedInTx (Reservation.branchId r) (Some i) (Reservation.guestId updated) "post_stay" in
  ret updated.

(** ** Cancellation *)
(** The quote's amounts are printed to the cent and read back from that text. *)
Definition printed (x : Qc) : Qc := dp2 x.
Definition buildCancellationQuote (r : Reservation.t) (branch : Branch.t) (at_ : Z) : M CancellationQuote :=
  let policy := Cancellation.resolveCancellationPolicy (match Reservation.cancellationPolicy r with Some p => Some p | None => Branch.cancellationPolicy branch end) in
  let! terms := lift (Cancellation.cancellationTermsFor (priced_stay r) (status_name (Reservation.status r)) (Branch.timezone branch) (Branch.checkInTime branch) policy at_) in
  let! priced := previewCharge (Reservation.branchId r) penalty (Cancellation.penaltyAmount terms) in
  let! paidSoFar := paidOnPrimaryFolio (Reservation.id r) in
  let net_ := paidSoFar ⊖ total priced in
  ret {| cq_cancellable := includes (status_name (Reservation.status r)) Cancellation.CANCELLABLE_STATUSES; cq_policy := policy; cq_terms := terms;
         cq_penaltyAmount := printed (Cancellation.penaltyAmount terms); cq_penaltyTax := printed (addedTax priced); cq_penaltyTaxIncluded := printed (includedTax priced);
         cq_penaltyTotal := printed (total priced); cq_paidSoFar := printed paidSoFar;
         cq_refundDue := printed (if dgt net_ 0%Qc then net_ else 0%Qc); cq_amountOwed := printed (if dgt 0%Qc net_ then (- net_)%Qc else 0%Qc) |}.
Definition quoteCancellationInTx (i : string) (at_ : Z) : M CancellationQuote :=
  let! r := findReservation i in
  let! branch := assertBranch (Reservation.branchId r) in
  buildCancellationQuote r branch at_.

Definition cancelInTx (i : string) (opts : CancelOpts) : M (Reservation.t * CancellationQuote * Qc) :=
  let! r := findReservation i in
  throw! status_transition when negb (includes (status_name (Reservation.status r)) Cancellation.CANCELLABLE_STATUSES) in
  let! branch := assertBranch (Reservation.branchId r) in
  let! at_ := now in
  let! quote := buildCancellationQuote r branch at_ in
  throw! terms_changed when match co_acknowledgedPenaltyTotal opts with Some x => negb (bool_decide (x = cq_penaltyTotal quote)) | None => false end in
  let! updated := update_stay r (Reservation.with_status cancelled) in
  let waived := isSome (set_string (co_waiver opts)) && negb (dis_zero (cq_penaltyAmount quote)) in
  let! charged := if negb (dis_zero (cq_penaltyAmount quote)) && negb waived then
                    let! folio := ensurePrimaryFolio updated (co_actorId opts) in
                    let! _ := postAdHocCharge updated folio penalty (cq_penaltyAmount quote) (co_actorId opts) in
                    let! _ := settleIfFullyPaid folio (co_actorId opts) in
                    ret (cq_penaltyTotal quote)
                  else ret 0%Qc in
  do! reservation_audit (Reservation.branchId r) (co_actorId opts) "reservation.cancelled" i in
  do! logAutomatedInTx (Reservation.branchId r) (Some i) (Reservation.guestId updated) "cancellation" in
  ret (updated, quote, charged).

Definition getCancellationQuote (i : string) : M CancellationQuote := let! at_ := now in quoteCancellationInTx i at_.
Definition cancel (i : string) (acknowledged : option Qc) (actorId : string) : M Reservation.t :=
  let! ' (r, _, _) := cancelInTx i {| co_actorId := Some actorId; co_waiver := None; co_acknowledgedPenaltyTotal := acknowledged |} in ret r.
Definition cancelWithWaiver (i : string) (acknowledged : option Qc) (waiverReason : string) (actorId : string) : M Reservation.t :=
  let! ' (r, _, _) := cancelInTx i {| co_actorId := Some actorId; co_waiver := Some waiverReason; co_acknowledgedPenaltyTotal := acknowledged |} in ret r.

(** ** No-show *)
(** Confirmed stays due by today, in order of arrival. *)
Definition listPendingNoShows (b : string) : M (list Reservation.t) :=
  let! branch := assertBranch b in
  let! today := branch_today branch in
  let! due := findMany reservations (fun r => bool_decide (Reservation.branchId r = b) && isNone (Reservation.deletedAt r) && bool_decide (Reservation.status r = confirmed) &&
    (Reservation.checkInDate r <=? today)) in
  ret (sort_by Reservation.checkInDate due).
(** Postgres takes only the enum's own values. *)
Definition no_show_penalty (policy : option json) : res PenaltyType :=
  match member "defaultPenalty" policy with
  | None | Some JNull => Ok Cancellation.none
  | Some (JStr s) => or_throw (Cancellation.PENALTY_TYPE_of s) internal
  | Some _ => Err internal
  end.
Definition markNoShowInTx (r : Reservation.t) (penaltyType : PenaltyType) (flatFeeAmount : option Qc) (markedBy : option string) : M (Reservation.t * NoShowRecord.t) :=
  let! updated := update_stay r (Reservation.with_status no_show) in
  let! penaltyAmount := lift (Cancellation.penaltyAmountFor (priced_stay r) penaltyType flatFeeAmount) in
  let! folio := ensurePrimaryFolio updated markedBy in
  let! line := match penaltyAmount with
               | Some a => if dis_zero a then ret None else postAdHocCharge updated folio penalty a markedBy
               | None => ret None
               end in
  let! stored := lift (stored_amount penaltyAmount) in
  let! i := new_id in
  let! at_ := now in
  let record := {| NoShowRecord.id := i; NoShowRecord.reservationId := Reservation.id r; NoShowRecord.penaltyType := penaltyType; NoShowRecord.penaltyAmount := stored;
                   NoShowRecord.penaltyWaived := false; NoShowRecord.waivedBy := None; NoShowRecord.refundAmount := None; NoShowRecord.markedBy := markedBy;
                   NoShowRecord.penaltyLineItemId := LineItem.id <$> line; NoShowRecord.markedAt := at_ |} in
  do! modify (upd_noShowRecords (fun l => l ++ [record])) in
  let! _ := settleIfFullyPaid folio markedBy in
  do! reservation_audit (Reservation.branchId r) markedBy "reservation.no_show" (Reservation.id r) in
  do! logAutomatedInTx (Reservation.branchId r) (Some (Reservation.id r)) (Reservation.guestId updated) "no_show_notice" in
  ret (updated, record).
Definition markNoShow (i actorId : string) : M (Reservation.t * NoShowRecord.t) :=
  let! r := findReservation i in
  throw! status_transition when negb (bool_decide (Reservation.status r = confirmed)) in
  let! branch := assertBranch (Reservation.branchId r) in
  let policy := Branch.noShowPolicy branch in
  let! today := branch_today branch in
  throw! status_transition when (today <? Reservation.checkInDate r) in
  let! at_ := now in
  let cutoff := s ← as_string (member "cutoffTime" policy); if is_clock s then Some s else None in
  throw! status_transition when match cutoff with
                                | Some c => (Reservation.checkInDate r =? today) && negb (time_exists c && hasPassedBranchCutoff today (clock_ms c) (Branch.timezone branch) at_)
                                | None => false
                                end in
  let! penaltyType := lift (no_show_penalty policy) in
  markNoShowInTx r penaltyType (as_number (member "flatFeeAmount" policy)) (Some actorId).

(** The lines' texts are not modelled; which of them start with the no-show label is a parameter. *)
Context (no_show_label : LineItem.t -> bool).
Definition findUnreversedNoShowPenalty (d : Db) (folioId : string) : option string :=
  LineItem.id <$> head (sort_by (fun l => - LineItem.postedAt l) (List.filter (fun l =>
    bool_decide (LineItem.folioId l = folioId) && bool_decide (LineItem.chargeType l = penalty) && no_show_label l && negb (LineItem.isVoid l) && isNone (LineItem.deletedAt l) &&
    isNone (corrected_by d (LineItem.id l))) (lineItems d))).
Definition waiveNoShowPenaltyInTx (record : NoShowRecord.t) (actorId : string) : M NoShowRecord.t :=
  if NoShowRecord.penaltyWaived record then ret record
  else
    let waive := NoShowRecord.with_waived true (Some actorId) (NoShowRecord.penaltyAmount record) in
    do! modify (upd_noShowRecords (update_where (fun x => bool_decide (NoShowRecord.id x = NoShowRecord.id record)) waive)) in
    let! r := findReservation (NoShowRecord.reservationId record) in
    do! match NoShowRecord.penaltyAmount record with
        | Some a =>
            if dis_zero a then ret tt
            else
              let! folio := ensurePrimaryFolio r (Some actorId) in
              let! lineId := match NoShowRecord.penaltyLineItemId record with
                             | Some l => ret (Some l)
                             | None => gets (fun d => findUnreversedNoShowPenalty d (Folio.id folio))
                             end in
              do! match lineId with Some l => let! _ := reverseChargeInTx l (Some actorId) in ret tt | None => ret tt end in
              let! _ := settleIfFullyPaid folio (Some actorId) in
              ret tt
        | None => ret tt
        end in
    do! reservation_audit (Reservation.branchId r) (Some actorId) "no_show.penalty_waived" (NoShowRecord.id record) in
    ret (waive record).
Definition waiveNoShowPenalty (recordId actorId : string) : M NoShowRecord.t :=
  let! record := orThrow (findFirst noShowRecords (fun x => bool_decide (NoShowRecord.id x = recordId))) not_found in
  waiveNoShowPenaltyInTx record actorId.

Definition reinstateFromNoShow (i : string) (dto : ReinstateNoShowDto) (actorId : string) : M Reservation.t :=
  let! r := findReservation i in
  throw! status_transition when negb (bool_decide (Reservation.status r = no_show)) in
  let! checkIn := a_date (rn_checkInDate dto) in
  let! checkOut := a_date (rn_checkOutDate dto) in
  do! assertValidRange checkIn checkOut in
  let b := Reservation.branchId r in
  let t := Reservation.roomTypeId r in
  let! x := assertRoomType b t in
  do! match set_string (Reservation.groupBlockId r) with Some g => assertStaysInGroupBlock g t checkIn checkOut | None => ret tt end in
  do! assertNoViolation b t checkIn checkOut in
  do! assertAvailableForStay b t checkIn checkOut (Some i) (Reservation.groupBlockId r) in
  let! resolved := resolveStay b x checkIn checkOut (storedDeal r None) (trigger_of "modify" (Some actorId) (Some i)) in
  let! pricing := repricedStay r resolved checkIn checkOut in
  let! updated := update_stay r (Reservation.with_dates confirmed checkIn checkOut (sr_ratePlanId resolved) (pr_subtotal pricing) (Some (pr_nightlyRates pricing))) in
  do! (if rn_waivePenalty dto then
         let! records := findMany noShowRecords (fun x => bool_decide (NoShowRecord.reservationId x = i)) in
         match sort_by (fun x => - NoShowRecord.markedAt x) records with
         | record :: _ => if NoShowRecord.penaltyWaived record then ret tt else let! _ := waiveNoShowPenaltyInTx record actorId in ret tt
         | [] => ret tt
         end
       else ret tt) in
  do! reservation_audit b (Some actorId) "reservation.reinstated" i in
  ret updated.

(** ** Walked *)
Definition walkReservation (i : string) (dto : WalkReservationDto) (actor : JwtPayload) : M (Reservation.t * WalkRecord.t * Qc) :=
  let! r := findReservation i in
  throw! status_transition when negb (bool_decide (Reservation.status r = confirmed)) in
  let! cost := lift (stored_amount (wk_transportCost dto)) in
  let! j := new_id in
  let record := {| WalkRecord.id := j; WalkRecord.reservationId := i; WalkRecord.relocationProperty := wk_relocationProperty dto;
                   WalkRecord.transportProvided := default false (wk_transportProvided dto); WalkRecord.transportCost := cost;
                   WalkRecord.compensationOffered := wk_compensationOffered dto; WalkRecord.approvedBy := Some (sub actor) |} in
  do! modify (upd_walkRecords (fun l => l ++ [record])) in
  let! updated := update_stay r (Reservation.with_status walked) in
  let! folio := findFirst folios (fun f => bool_decide (Folio.reservationId f = i) && isNone (Folio.deletedAt f)) in
  let! refundRequested := match folio with
                          | None => ret 0%Qc
                          | Some f =>
                              let! ' (_, available) := refundable (Folio.id f) None in
                              if negb (dgt available 0%Qc) then ret 0%Qc
                              else
                                let! paid := findMany payments (fun p => bool_decide (Payment.folioId p = Folio.id f) && negb (Payment.isVoid p) && isNone (Payment.deletedAt p) &&
                                  dgt (Payment.amount p) 0%Qc && bool_decide (Payment.method p ∈ REFUND_METHODS)) in
                                let! _ := requestInTx (Folio.id f) (Folio.branchId f)
                                  {| rq_amount := dp2 available; rq_paymentId := None;
                                     rq_method := Some (match last paid with Some p => Payment.method p | None => bank_transfer end);
                                     rq_reason := "Walked to " +:+ wk_relocationProperty dto |} actor in
                                ret available
                          end in
  do! reservation_audit (Reservation.branchId r) (Some (sub actor)) "reservation.walked" i in
  ret (updated, record, refundRequested).
End StayEnds.
