(* ===== verification/Frames.v ===== *)
(** What the operations on a stay leave alone. A relation between databases that
    every table written in passing keeps is kept by every service the
    reservations call; the relations used are that the stays and the rooms'
    occupancy are as they were, that everything availability reads is, and that
    the ledger stays well formed. *)
From stdpp Require Import pretty.
From Stdlib Require Import QArith Qcanon.
From S2P Require Import Prelude Decimal Json Dates StayPolicies Taxes Authority Transactions Db LoyaltyRules Packages Folios FolioLedger FolioPayments Notices SampleHotel Loyalty Refunds Rooms Housekeeping SalesRules Inventory Rates Guests Bookings StayChanges StayEnds.
Import StayFees StayFeesProps.
Local Open Scope Z_scope.

(** The tables written in passing: messages, cards, trails, counters, guests, points, refunds. *)
Class Errands `{Uuid} (R : Db -> Db -> Prop) : Prop := {
  er_preorder :: PreOrder R;
  er_seq d : R d (upd_seq S d);
  er_audit g d : R d (upd_auditLogs g d);
  er_deliveries g d : R d (upd_webhookDeliveries g d);
  bs_guests g d : R d (upd_guests g d);
  bs_notes g d : R d (upd_guestNotes g d);
  bs_trail g d : R d (upd_rateAuditLogs g d);
  bs_number g d : R d (upd_reservationSeq g d);
  bs_comms g d : R d (upd_communicationLogs g d);
  bs_cards g d : R d (upd_registrationCards g d);
  bs_no_shows g d : R d (upd_noShowRecords g d);
  bs_walks g d : R d (upd_walkRecords g d);
  bs_points g d : R d (upd_loyaltyTransactions g d);
  bs_refunds g d : R d (upd_refunds g d);
}.
(** And the housekeeping board, with the cleanliness of the rooms it cleans. *)
Class Upkeep `{Uuid} (R : Db -> Db -> Prop) : Prop := {
  uk_errands :: Errands R;
  uk_tasks g d : R d (upd_housekeepingTasks g d);
  uk_rooms w c at_ u d : R d (upd_rooms (update_where w (Room.with_cleanliness c at_ u)) d);
}.
(** The tables of the bills, where a relation lets them be written freely. *)
Class BillTables (R : Db -> Db -> Prop) : Prop := {
  bt_lines g d : R d (upd_lineItems g d);
  bt_folios g d : R d (upd_folios g d);
  bt_transfers g d : R d (upd_folioTransfers g d);
  bt_orders g d : R d (upd_posOrders g d);
  bt_payments g d : R d (upd_payments g d);
}.
(** And the bills, through the operations on them. *)
Class Billing `{DecimalLib} `{TaxDb} `{Platform} `{Uuid} (R : Db -> Db -> Prop) : Prop := { bs_folio {A} (m : M A) : folio_op m -> keeps R m }.
#[global] Instance ledger_billing `{DecimalLib} `{TaxDb} `{Platform} `{Uuid} R `{!LedgerWrites R} : Billing R.
Proof. split. intros A m. apply (folio_op_keeps R). Qed.
#[global] Instance wf_errands `{Uuid} : Errands wf_keep.
Proof. split; [apply _|..]; intros; apply wf_other; simpl; done || lia. Qed.
#[global] Instance wf_upkeep `{Uuid} : Upkeep wf_keep.
Proof. split; [apply _|..]; intros; apply wf_other; simpl; done || lia. Qed.
#[global] Instance wf_billing `{DecimalLib} `{TaxDb} `{Platform} `{Uuid} : Billing wf_keep.
Proof. split. intros A m. apply folio_op_wf. Qed.

Section Errands.
Context `{DecimalLib} `{TaxDb} `{Platform} `{Uuid} (R : Db -> Db -> Prop) `{!Errands R}.

Lemma bs_modify f : (forall d, R d (f d)) -> keeps R (modify f).
Proof. apply keeps_modify; apply _. Qed.
Lemma er_new_id : keeps R new_id.
Proof. unfold new_id. keeps_tac. apply bs_modify, er_seq. Qed.
Lemma er_auditLog b u a t i : keeps R (auditLog b u a t i).
Proof. apply bs_modify. intros. apply er_audit. Qed.
#[local] Hint Resolve er_new_id er_auditLog : keeps.
Lemma er_emit b t i : keeps R (emit b t i).
Proof. unfold emit. keeps_tac. apply bs_modify. intros. apply er_deliveries. Qed.
#[local] Hint Resolve er_emit : keeps.
Lemma er_folio_audit b u a i : keeps R (Folios.audit b u a i).
Proof. unfold Folios.audit, paymentRecorded. keeps_tac. Qed.
#[local] Hint Resolve er_folio_audit : keeps.
Ltac write := apply bs_modify; intros; first [apply bs_guests | apply bs_notes | apply bs_trail | apply bs_number | apply bs_comms | apply bs_cards | apply bs_no_shows
  | apply bs_walks | apply bs_points | apply bs_refunds].

Lemma bs_log b r g t : keeps R (logAutomatedInTx b r g t).
Proof. write. Qed.
Lemma bs_audit b u a i : keeps R (reservation_audit b u a i).
Proof. unfold reservation_audit, reservationChanged. keeps_tac. Qed.
Lemma bs_card r u : keeps R (generateCardInTx r u).
Proof. unfold generateCardInTx. keeps_tac. write. Qed.
Lemma bs_today branch : keeps R (branch_today branch).
Proof. unfold branch_today, now. keeps_tac. Qed.
Lemma bs_assertBranch b : keeps R (assertBranch b).
Proof. unfold assertBranch. keeps_tac. Qed.
#[local] Hint Resolve bs_log bs_audit bs_card bs_today bs_assertBranch : keeps.

Lemma bs_guest input public : keeps R (findOrCreateGuestInTx input public).
Proof. unfold findOrCreateGuestInTx, publicBookingGuest, knownGuest, createGuestInTx, now. keeps_tac; write. Qed.
Lemma bs_document enc b g doc u : keeps R (recordIdDocumentInTx enc b g doc u).
Proof. unfold recordIdDocumentInTx, a_date, now. keeps_tac. write. Qed.
Lemma bs_snapshots b t ids o : keeps R (snapshotsFor b t ids o).
Proof. unfold snapshotsFor. keeps_tac. Qed.
Lemma bs_violation b t i o : keeps R (assertNoViolation b t i o).
Proof. unfold assertNoViolation. keeps_tac. Qed.
Lemma bs_extension b t i o n : keeps R (assertExtensionAllowed b t i o n).
Proof. unfold assertExtensionAllowed. keeps_tac. Qed.
Lemma bs_allotment b t c i o ex : keeps R (assertWithinAllotment b t c i o ex).
Proof. unfold assertWithinAllotment, coveredNights. keeps_tac. Qed.
Lemma bs_available b t i o ex into : keeps R (assertAvailableForStay b t i o ex into).
Proof. unfold assertAvailableForStay, computeAvailabilityPerNight, sellableRooms, holdingStays, groupBlockHolds, now. keeps_tac. Qed.
Lemma bs_dayUse b t day : keeps R (assertDayUseAvailable b t day).
Proof. unfold assertDayUseAvailable, sellableRooms. keeps_tac. Qed.
Lemma bs_ready x b t i o : keeps R (assertRoomCheckInReady x b t i o).
Proof. unfold assertRoomCheckInReady. keeps_tac. Qed.
Lemma bs_type b t : keeps R (assertRoomType b t).
Proof. unfold assertRoomType. keeps_tac. Qed.
Lemma bs_capacity x a c : keeps R (assertWithinCapacity x a c).
Proof. unfold assertWithinCapacity. keeps_tac. Qed.
Lemma bs_range i o : keeps R (assertValidRange i o).
Proof. unfold assertValidRange. keeps_tac. Qed.
Lemma bs_block_open i b t : keeps R (assertGroupBlockOpen i b t).
Proof. unfold assertGroupBlockOpen. keeps_tac. Qed.
Lemma bs_in_block i t a o : keeps R (assertStaysInGroupBlock i t a o).
Proof. unfold assertStaysInGroupBlock. keeps_tac. Qed.
Lemma bs_resolve b x i o deal ctx : keeps R (resolveStay b x i o deal ctx).
Proof. unfold resolveStay, company_plan, trail_row. keeps_tac. write. Qed.
Lemma bs_link ids i : keeps R (linkAuditLogsToReservation ids i).
Proof. unfold linkAuditLogsToReservation. keeps_tac. write. Qed.
Lemma bs_deal p c : keeps R (dealTerms p c).
Proof. unfold dealTerms. keeps_tac. Qed.
Lemma bs_confirmation : keeps R generateConfirmationNumber.
Proof. unfold generateConfirmationNumber, now. keeps_tac. write. Qed.
#[local] Hint Resolve bs_guest bs_document bs_snapshots bs_violation bs_extension bs_allotment bs_available bs_dayUse bs_ready bs_type bs_capacity bs_range bs_block_open bs_in_block
  bs_resolve bs_link bs_deal bs_confirmation : keeps.
Lemma bs_price_room b a n : keeps R (price_room b a n).
Proof. unfold price_room. keeps_tac. Qed.
#[local] Hint Resolve bs_price_room : keeps.
Lemma bs_blockPricing b rate i o : keeps R (blockPricing b rate i o).
Proof. unfold blockPricing. keeps_tac. Qed.
#[local] Hint Resolve bs_blockPricing : keeps.
Lemma bs_repriced r s i o : keeps R (repricedStay r s i o).
Proof. unfold repricedStay. keeps_tac. Qed.
Lemma bs_hours branch : keeps R (dayUseHours branch).
Proof. unfold dayUseHours. keeps_tac. Qed.
#[local] Hint Resolve bs_hours : keeps.
Lemma bs_dayUsePricing branch x : keeps R (dayUsePricing branch x).
Proof. unfold dayUsePricing. keeps_tac. Qed.
Lemma bs_deposit branch i s t n : keeps R (depositAskedFor branch i s t n).
Proof. unfold depositAskedFor. keeps_tac. Qed.
Lemma bs_pinned r n : keeps R (pricedWithPinnedRate r n).
Proof. unfold pricedWithPinnedRate. keeps_tac. Qed.
Lemma bs_plan r x p u : keeps R (roomMovePlan r x p u).
Proof. unfold roomMovePlan. keeps_tac. Qed.
Lemma bs_fees r branch : keeps R (stayFeesNow r branch).
Proof. unfold stayFeesNow, now. keeps_tac. Qed.
Lemma bs_apply g e : keeps R (applyLoyaltyPoints g e).
Proof. unfold applyLoyaltyPoints, create_loyaltyTransaction, lifetimeLoyaltyPoints, now. keeps_tac; write. Qed.
#[local] Hint Resolve bs_apply : keeps.
Lemma bs_earn r u : keeps R (earnForStayInTx r u).
Proof. unfold earnForStayInTx, now. keeps_tac. Qed.
Lemma bs_preview b ct a : keeps R (previewCharge b ct a).
Proof. unfold previewCharge. keeps_tac. Qed.
Lemma bs_totals f : keeps R (computeTotals f).
Proof. unfold computeTotals. keeps_tac. Qed.
Lemma bs_paid s : keeps R (paidOnPrimaryFolio s).
Proof. unfold paidOnPrimaryFolio, computeTotals. keeps_tac. Qed.
#[local] Hint Resolve bs_preview bs_paid bs_totals : keeps.
Lemma bs_quote r branch at_ : keeps R (buildCancellationQuote r branch at_).
Proof. unfold buildCancellationQuote. keeps_tac. Qed.
Lemma bs_refundable f ex : keeps R (refundable f ex).
Proof. unfold refundable. keeps_tac. Qed.
#[local] Hint Resolve bs_refundable : keeps.
Lemma bs_request f b dto actor : keeps R (requestInTx f b dto actor).
Proof. unfold requestInTx, refundedAgainst, create_refund, Refunds.audit. keeps_tac; write. Qed.
Lemma bs_find_stay i : keeps R (findReservation i).
Proof. unfold findReservation. keeps_tac. Qed.
End Errands.

Section Upkeep.
Context `{DecimalLib} `{TaxDb} `{Platform} `{Uuid} (R : Db -> Db -> Prop) `{!Upkeep R}.
#[local] Hint Resolve er_new_id er_auditLog bs_today : keeps.
Lemma uk_clean r to u : keeps R (transitionRoomCleanliness r to u).
Proof. unfold transitionRoomCleanliness, findRoom, now. keeps_tac. apply (bs_modify R). intros. apply uk_rooms. Qed.
#[local] Hint Resolve uk_clean : keeps.
Lemma uk_task b o : keeps R (createTaskInTx b o).
Proof. unfold createTaskInTx, task_audit. keeps_tac. apply (bs_modify R). intros. apply uk_tasks. Qed.
#[local] Hint Resolve uk_task : keeps.
Lemma uk_supersede b r why u : keeps R (supersedeStayoverTasksInTx b r why u).
Proof. unfold supersedeStayoverTasksInTx, task_audit. keeps_tac. apply (bs_modify R). intros. apply uk_tasks. Qed.
Lemma uk_turndown branch r : keeps R (turndownTonight branch r).
Proof. unfold turndownTonight, ensureTurndownTaskInTx. keeps_tac. Qed.
#[local] Hint Resolve uk_turndown bs_folio op_ensurePrimaryFolio op_postRoomChargeForDate bs_document bs_card : keeps.
Lemma uk_settle_in `{!Billing R} enc branch r doc u : keeps R (settle_in enc branch r doc u).
Proof. unfold settle_in. keeps_tac. Qed.
End Upkeep.

(** Whoever does not look at the bills is untouched by the operations on them. *)
#[global] Instance tables_ledger `{DecimalLib} `{Uuid} R `{!Errands R} `{!BillTables R} : LedgerWrites R.
Proof.
  pose proof (er_folio_audit R) as Ha. pose proof (er_auditLog R) as Hl. pose proof (er_new_id R) as Hn.
  assert (forall p, keeps R (create_payment p)) as Hp by (intros; unfold create_payment; keeps_tac; apply (bs_modify R); intros; apply bt_payments).
  assert (forall g, keeps R (modify (upd_payments g))) as Hm by (intros; apply (bs_modify R); intros; apply bt_payments).
  assert (forall g, keeps R (modify (upd_guests g))) as Hg by (intros; apply (bs_modify R); intros; apply bs_guests).
  assert (forall g, keeps R (modify (upd_loyaltyTransactions g))) as Ht by (intros; apply (bs_modify R); intros; apply bs_points).
  split; [apply _|intros; first [apply er_seq | apply er_audit | apply er_deliveries | apply bt_lines | apply bt_folios | apply bt_transfers | apply bt_orders]..| | |].
  - intros. unfold recordPaymentInTx, assertBranch, in_branch_currency, now. keeps_tac.
  - intros. unfold voidPayment, findFolioOrThrow, lockLoyaltyGuest, findLoyaltyGuest, applyLoyaltyPoints, create_loyaltyTransaction, lifetimeLoyaltyPoints, now. keeps_tac.
  - intros. unfold recordLoyaltyPaymentInTx, assertBranch, findFolioOrThrow, computeTotals. keeps_tac.
Qed.
