(* ===== verification/Lifecycle.v ===== *)
(** The life of a stay: every operation on reservations follows one abstract
    machine over the stays and the rooms, and no room has two guests. *)
From stdpp Require Import pretty.
From Stdlib Require Import QArith Qcanon.
From S2P Require Import Prelude Decimal Json Dates StayPolicies Taxes Authority Transactions Db LoyaltyRules Packages Folios FolioLedger FolioPayments Notices SampleHotel Loyalty Refunds Rooms Housekeeping SalesRules Inventory Rates Guests Bookings StayChanges StayEnds Frames.
Import StayFees StayFeesProps.
Local Open Scope Z_scope.

(** ** The abstract machine *)
(** Whom the rooms hold: the stays, and which rooms are occupied. *)
Definition occupancy (d : Db) : list (string * OccupancyStatus) := (fun x => (Room.id x, Room.occupancyStatus x)) <$> rooms d.
Definition house (d : Db) : list Reservation.t * list (string * OccupancyStatus) := (reservations d, occupancy d).
Definition set_occ (i : string) (o : OccupancyStatus) (l : list (string * OccupancyStatus)) : list (string * OccupancyStatus) :=
  (fun e => if bool_decide (fst e = i) then (i, o) else e) <$> l.
Definition put (r row : Reservation.t) (l : list Reservation.t) : list Reservation.t := update_where (stay_where (Reservation.id r)) (fun _ => row) l.
(** A stay's course before and after its time in a room. *)
Definition may_become (s s' : ReservationStatus) : bool :=
  match s, s' with
  | waitlisted, confirmed | waitlisted, cancelled | confirmed, cancelled | confirmed, no_show | confirmed, walked | no_show, confirmed => true
  | _, _ => false
  end.
Definition same_person (r row : Reservation.t) : Prop :=
  Reservation.id row = Reservation.id r /\ Reservation.branchId row = Reservation.branchId r /\ Reservation.guestId row = Reservation.guestId r /\
  Reservation.confirmationNumber row = Reservation.confirmationNumber r /\ Reservation.channel row = Reservation.channel r /\ Reservation.groupBlockId row = Reservation.groupBlockId r.
Inductive house_step : list Reservation.t * list (string * OccupancyStatus) -> list Reservation.t * list (string * OccupancyStatus) -> Prop :=
| hs_book l o row : Reservation.id row ∉ Reservation.id <$> l -> Reservation.status row = waitlisted \/ Reservation.status row = confirmed -> Reservation.roomId row = None ->
    house_step (l, o) (l ++ [row], o)
| hs_walk_in l o row i : Reservation.id row ∉ Reservation.id <$> l -> Reservation.status row = checked_in -> Reservation.roomId row = Some i -> (i, vacant) ∈ o ->
    house_step (l, o) (l ++ [row], set_occ i occupied o)
| hs_change l o r row : r ∈ l -> same_person r row -> Reservation.roomId row = Reservation.roomId r ->
    Reservation.status row = Reservation.status r \/ may_become (Reservation.status r) (Reservation.status row) = true ->
    house_step (l, o) (put r row l, o)
| hs_check_in l o r row i : r ∈ l -> same_person r row -> Reservation.status r = confirmed -> Reservation.status row = checked_in -> Reservation.roomId row = Some i -> (i, vacant) ∈ o ->
    house_step (l, o) (put r row l, set_occ i occupied o)
| hs_check_out l o r row i : r ∈ l -> same_person r row -> Reservation.status r = checked_in -> Reservation.roomId r = Some i -> Reservation.status row = checked_out ->
    house_step (l, o) (put r row l, set_occ i vacant o)
| hs_move l o r row i j : r ∈ l -> same_person r row -> Reservation.status r = checked_in -> Reservation.status row = checked_in -> Reservation.roomId r = Some i ->
    Reservation.roomId row = Some j -> i <> j -> (j, vacant) ∈ o ->
    house_step (l, o) (put r row l, set_occ j occupied (set_occ i vacant o))
| hs_master l o (f : Reservation.t -> Reservation.t) : (forall r, same_person r (f r) /\ Reservation.roomId (f r) = Reservation.roomId r /\ Reservation.status (f r) = Reservation.status r) ->
    house_step (l, o) (f <$> l, o).

(** ** Nothing but the stays and the rooms moves them *)
Record quiet (d d' : Db) : Prop := { q_house : house d' = house d; q_seq : (seq d <= seq d')%nat }.
#[global] Instance quiet_preorder : PreOrder quiet.
Proof. split; [by split | intros a b c [H1 H2] [H3 H4]; split; [congruence | lia]]. Qed.
Lemma quiet_write f : (forall d, house (f d) = house d) -> (forall d, (seq d <= seq (f d))%nat) -> keeps quiet (modify f).
Proof. intros. apply keeps_modify. split; auto. Qed.
Ltac quietly := apply quiet_write; [done | simpl; intros; done || lia].
#[global] Instance quiet_upkeep `{Uuid} : Upkeep quiet.
Proof.
  split; [split; [apply _|..]; intros; split; simpl; done || lia|by split|].
  intros w c at_ u d. split; [|done]. unfold house, occupancy. simpl. f_equal. unfold update_where. rewrite <- list_fmap_compose. apply list_fmap_ext. intros i x _. simpl. by destruct (w x).
Qed.
#[global] Instance quiet_bills : BillTables quiet.
Proof. by split. Qed.

Section Follows.
Context `{DecimalLib} `{TaxDb} `{Platform} `{Uuid} (encrypt : string -> string) (no_show_label : LineItem.t -> bool).

(** Every stay has its own id, and no later one will get it. *)
Definition stays_ok (d : Db) : Prop := named Reservation.id (seq d) (reservations d).
Definition follows (d d' : Db) : Prop := stays_ok d -> stays_ok d' /\ rtc house_step (house d) (house d').
#[global] Instance follows_preorder : PreOrder follows.
Proof.
  split; [by intros d Hd; split; [|apply rtc_refl]|]. intros a b c Hab Hbc Ha. destruct (Hab Ha) as [Hb H1']. destruct (Hbc Hb) as [Hc H2']. split; [done | by etrans].
Qed.

Lemma named_ids {A} (name : A -> string) n l : named name n l <-> NoDup (name <$> l) /\ forall i k, i ∈ name <$> l -> (n <= k)%nat -> i <> gen_random_uuid k.
Proof.
  unfold named. split; intros [Hn Hf]; (split; [done|]).
  - intros i k (x & -> & Hx)%list_elem_of_fmap. auto.
  - intros x k Hx. apply Hf. by apply list_elem_of_fmap_2.
Qed.
Lemma quiet_follows d d' : quiet d d' -> follows d d'.
Proof.
  intros [Hh Hs] Hd. split; [|rewrite Hh; apply rtc_refl]. unfold stays_ok. replace (reservations d') with (reservations d) by (unfold house in Hh; congruence). by eapply named_weaken.
Qed.
Lemma same_ids_follows d d' : Reservation.id <$> reservations d' = Reservation.id <$> reservations d -> (seq d <= seq d')%nat ->
  (stays_ok d -> house_step (house d) (house d')) -> follows d d'.
Proof.
  intros Hi Hs Hstep Hd. split; [|by apply rtc_once, Hstep]. unfold stays_ok in *. rewrite named_ids, Hi, <- named_ids. by eapply named_weaken.
Qed.
Lemma new_id_follows d d' row k : reservations d' = reservations d ++ [row] -> Reservation.id row = gen_random_uuid k -> (seq d <= k)%nat -> (k < seq d')%nat ->
  (Reservation.id row ∉ Reservation.id <$> reservations d -> house_step (house d) (house d')) -> follows d d'.
Proof.
  intros Hr Hid Hk Hk' Hstep Hd. assert (Reservation.id row ∉ Reservation.id <$> reservations d) as Hn.
  { intros Hin. apply named_ids in Hd as [_ Hf]. exact (Hf _ k Hin Hk Hid). }
  split; [|by apply rtc_once, Hstep]. unfold stays_ok in *. rewrite named_ids, Hr, fmap_app. apply named_ids in Hd as [Hnd Hf]. simpl. split.
  - apply NoDup_app. split; [done|]. split; [by intros x Hx ->%list_elem_of_singleton | apply NoDup_singleton].
  - intros i j [Hi|Hi%list_elem_of_singleton]%elem_of_app Hj; [apply Hf; [done | lia]|]. rewrite Hi, Hid. intros E%gen_random_uuid_inj. lia.
Qed.

Lemma put_ids r row l : Reservation.id row = Reservation.id r -> Reservation.id <$> put r row l = Reservation.id <$> l.
Proof.
  intros E. unfold put, update_where. rewrite <- list_fmap_compose. apply list_fmap_ext. intros i x _. unfold stay_where. simpl. case_bool_decide; simpl; congruence.
Qed.
Lemma update_stay_inv r f d d' row : update_stay r f d = Ok (d', row) ->
  d' = upd_reservations (put r row) d /\ dates_ok row = true /\ exists a b c, row = Reservation.with_money a b c (f r).
Proof.
  unfold update_stay. intros Hm. apply bind_Ok in Hm as (d1 & x & [Hrow ->]%lift_Ok & Hm). apply bind_Ok in Hm as (d2 & [] & Hmod & Hret). injection Hmod as <-. injection Hret as <- <-.
  split; [done|]. unfold stay_row in Hrow. apply res_bind_Ok in Hrow as (a & _ & Hrow). apply res_bind_Ok in Hrow as (b & _ & Hrow). apply res_bind_Ok in Hrow as (c & _ & Hrow).
  apply res_bind_Ok in Hrow as ([] & Hdates%throw_if_Ok & Hrow). injection Hrow as <-. apply negb_false_iff in Hdates. split; [exact Hdates | eauto].
Qed.
Lemma occupy_inv i o c u d d' x : applyReservationOccupancy i o c u d = Ok (d', x) -> reservations d' = reservations d /\ occupancy d' = set_occ i o (occupancy d) /\ (seq d <= seq d')%nat.
Proof.
  unfold applyReservationOccupancy, findRoom, Rooms.audit, auditLog, now. intros Hm. m_inv. split; [done|]. split; [|done].
  unfold occupancy, set_occ. simpl. unfold update_where. rewrite <- !list_fmap_compose. apply list_fmap_ext. intros k y _. simpl. unfold room_where.
  case_bool_decide as E; simpl; [by rewrite E | done].
Qed.
Lemma find_stay_inv i d d' r : findReservation i d = Ok (d', r) -> d' = d /\ r ∈ reservations d /\ Reservation.id r = i.
Proof.
  unfold findReservation. intros [-> Hf]%orThrow_Ok%findFirst_Ok. symmetry in Hf. apply find_Some in Hf as [Hin [Hi%bool_decide_eq_true _]%andb_true_iff]. done.
Qed.
Lemma create_row_inv n data d d' row : createReservationRow n data d = Ok (d', row) -> exists k number a b c,
  row = Reservation.with_id (gen_random_uuid k) (Reservation.with_money a b c (Reservation.with_number number data)) /\ dates_ok row = true /\
  (seq d <= k)%nat /\ (k < seq d')%nat /\ reservations d' = reservations d ++ [row] /\ occupancy d' = occupancy d.
Proof.
  revert data d. induction n as [|n IH]; intros data d Hm; [discriminate|]. cbn [createReservationRow] in Hm.
  apply bind_Ok in Hm as (d1 & r & [Hrow ->]%lift_Ok & Hm). apply bind_Ok in Hm as (d2 & taken & [-> _]%findFirst_Ok & Hm). destruct taken as [t|].
  - destruct n as [|n]; [discriminate|]. apply bind_Ok in Hm as (d3 & m & Hn & Hm). pose proof (bs_confirmation quiet _ _ _ Hn) as [Hq Hs].
    apply IH in Hm as (k & number & a & b & c & -> & Hd & Hk & Hk' & Hr & Ho). exists k, number, a, b, c. unfold house in Hq. injection Hq as Hr' Ho'.
    rewrite Hr', Ho' in *. split; [done|]. split; [done|]. split; [lia | done].
  - apply bind_Ok in Hm as (d3 & i & [-> ->]%new_id_spec & Hm). apply bind_Ok in Hm as (d4 & [] & Hmod & Hret). injection Hmod as <-. injection Hret as <- <-.
    unfold stay_row in Hrow. apply res_bind_Ok in Hrow as (a & _ & Hrow). apply res_bind_Ok in Hrow as (b & _ & Hrow). apply res_bind_Ok in Hrow as (c & _ & Hrow).
    apply res_bind_Ok in Hrow as ([] & Hdates%throw_if_Ok & Hrow). injection Hrow as <-. apply negb_false_iff in Hdates.
    exists (seq d), (Reservation.confirmationNumber data), a, b, c. split; [by destruct data|]. split; [exact Hdates|]. simpl. split; [lia|]. split; [lia | done].
Qed.

(** ** Reading a transaction against the machine *)
(** From any state with the house [h] and the counter at [n] or more, what [m] commits follows [d0]. *)
Definition from (d0 : Db) (n : nat) (h : list Reservation.t * list (string * OccupancyStatus)) {A} (m : M A) : Prop :=
  forall d d' y, house d = h -> (n <= seq d)%nat -> m d = Ok (d', y) -> follows d0 d'.
Lemma from_keeps {A} (m : M A) : (forall d0, from d0 (seq d0) (house d0) m) -> keeps follows m.
Proof. intros Hm d d' y. by apply (Hm d d d'). Qed.
Lemma from_bind {A B} d0 n h (m : M A) (k : A -> M B) : keeps quiet m -> (forall d d1 x, house d = h -> m d = Ok (d1, x) -> from d0 n h (k x)) -> from d0 n h (bind m k).
Proof.
  intros Hq Hk d d' y Hh Hn (d1 & x & Hm & Hkx)%bind_Ok. destruct (Hq _ _ _ Hm) as [Hh' Hs]. eapply (Hk d d1 x Hh Hm d1); [congruence | lia | exact Hkx].
Qed.
Lemma from_find {A} d0 n h i (k : Reservation.t -> M A) : (forall r, r ∈ fst h -> Reservation.id r = i -> from d0 n h (k r)) -> from d0 n h (bind (findReservation i) k).
Proof. intros Hk d d' y Hh Hn (d1 & r & Hm & Hkx)%bind_Ok. apply find_stay_inv in Hm as (-> & Hin & Hi). eapply (Hk r); [by subst h | done..]. Qed.
Lemma from_lift {A B} d0 n h (x : res A) (k : A -> M B) : (forall a, x = Ok a -> from d0 n h (k a)) -> from d0 n h (bind (lift x) k).
Proof. intros Hk d d' y Hh Hn (d1 & a & [Ha ->]%lift_Ok & Hkx)%bind_Ok. by eapply (Hk a). Qed.
Lemma from_update {A} d0 n h r f (k : Reservation.t -> M A) :
  (forall a b c, from d0 n (put r (Reservation.with_money a b c (f r)) (fst h), snd h) (k (Reservation.with_money a b c (f r)))) -> from d0 n h (bind (update_stay r f) k).
Proof.
  intros Hk d d' y Hh Hn (d1 & row & Hm & Hkx)%bind_Ok. apply update_stay_inv in Hm as (-> & _ & a & b & c & ->). eapply (Hk a b c (upd_reservations _ d)); [by subst h | done | exact Hkx].
Qed.
Lemma from_occupy {A} d0 n h i o c u (k : Room.t -> M A) : (forall x, from d0 n (fst h, set_occ i o (snd h)) (k x)) -> from d0 n h (bind (applyReservationOccupancy i o c u) k).
Proof.
  intros Hk d d' y Hh Hn (d1 & x & Hm & Hkx)%bind_Ok. apply occupy_inv in Hm as (Hr & Ho & Hs). eapply (Hk x d1); [|lia|exact Hkx]. subst h. unfold house. simpl. congruence.
Qed.
Lemma from_create {A} d0 n h tries data (k : Reservation.t -> M A) : (seq d0 <= n)%nat ->
  (forall i number a b c, let row := Reservation.with_id (gen_random_uuid i) (Reservation.with_money a b c (Reservation.with_number number data)) in
    (seq d0 <= i)%nat -> from d0 (S i) (fst h ++ [row], snd h) (k row)) -> from d0 n h (bind (createReservationRow tries data) k).
Proof.
  intros Hle Hk d d' y Hh Hn (d1 & row & Hm & Hkx)%bind_Ok. apply create_row_inv in Hm as (i & number & a & b & c & -> & _ & Hi & Hi' & Hr & Ho).
  eapply (Hk i number a b c ltac:(lia) d1); [subst h; unfold house; simpl; congruence | lia | exact Hkx].
Qed.
Lemma from_done {A} d0 n h (m : M A) : keeps quiet m -> (forall d, house d = h -> (n <= seq d)%nat -> follows d0 d) -> from d0 n h m.
Proof. intros Hq Hf d d' y Hh Hn Hm. destruct (Hq _ _ _ Hm) as [Hh' Hs]. apply Hf; [congruence | lia]. Qed.

Lemma from_room {A} d0 n h i (k : Room.t -> M A) : (forall x, Room.id x = i -> (i, Room.occupancyStatus x) ∈ snd h -> from d0 n h (k x)) ->
  from d0 n h (bind (orThrow (findFirst rooms (live_room i)) not_found) k).
Proof.
  intros Hk d d' y Hh Hn (d1 & x & [-> Hf]%orThrow_Ok%findFirst_Ok & Hkx)%bind_Ok. symmetry in Hf. apply find_Some in Hf as [Hin [Hi%bool_decide_eq_true _]%andb_true_iff].
  eapply (Hk x Hi); [|done..]. subst h i. unfold house, occupancy. simpl. exact (list_elem_of_fmap_2 (fun x => (Room.id x, Room.occupancyStatus x)) _ _ Hin).
Qed.
Lemma from_ready {A} d0 n h x b t i o (k : unit -> M A) : (Room.occupancyStatus x = vacant -> from d0 n h (k tt)) -> from d0 n h (bind (assertRoomCheckInReady x b t i o) k).
Proof.
  intros Hk d d' y Hh Hn (d1 & [] & Hm & Hkx)%bind_Ok. pose proof (bs_ready quiet _ _ _ _ _ _ _ _ Hm) as [Hq Hs]. eapply Hk; [| |etrans; [exact Hn | exact Hs]|exact Hkx]; [|congruence].
  unfold assertRoomCheckInReady in Hm. apply bind_Ok in Hm as (d2 & [] & [_ ->]%lift_Ok & Hm). apply bind_Ok in Hm as (d2 & [] & [Hv%throw_if_Ok ->]%lift_Ok & _).
  apply orb_false_iff in Hv as [Hv%negb_false_iff%bool_decide_eq_true _]. done.
Qed.

Lemma set_string_room o e i : or_throw (set_string o) e = Ok i -> o = Some i.
Proof. intros Hs%or_throw_Ok. destruct o as [s|]; [|done]. simpl in Hs. by case_match. Qed.
Lemma from_movable {A} d0 n h r (k : string -> M A) : (forall i, Reservation.status r = checked_in -> Reservation.roomId r = Some i -> from d0 n h (k i)) -> from d0 n h (bind (assertMovable r) k).
Proof.
  intros Hk d d' y Hh Hn (d1 & i & Hm & Hkx)%bind_Ok. unfold assertMovable in Hm. apply bind_Ok in Hm as (d2 & [] & [Hc%throw_if_Ok ->]%lift_Ok & [Hi%set_string_room ->]%lift_Ok).
  apply negb_false_iff, bool_decide_eq_true in Hc. by eapply (Hk i).
Qed.

(** The three ways a transaction ends: one stay replaced, one added, nothing. *)
Lemma end_put {A} d0 n r row o (m : M A) : keeps quiet m -> (seq d0 <= n)%nat -> Reservation.id row = Reservation.id r ->
  house_step (house d0) (put r row (reservations d0), o) -> from d0 n (put r row (reservations d0), o) m.
Proof.
  intros Hq Hn Hid Hs. apply from_done; [done|]. intros d Hh Hd. apply same_ids_follows; [|lia|by rewrite Hh]. unfold house in Hh. injection Hh as -> _. by apply put_ids.
Qed.
Lemma end_add {A} d0 i row o (m : M A) : keeps quiet m -> (seq d0 <= i)%nat -> Reservation.id row = gen_random_uuid i ->
  (Reservation.id row ∉ Reservation.id <$> reservations d0 -> house_step (house d0) (reservations d0 ++ [row], o)) -> from d0 (S i) (reservations d0 ++ [row], o) m.
Proof.
  intros Hq Hi Hid Hs. apply from_done; [done|]. intros d Hh Hd. eapply (new_id_follows _ _ row i); [|done..|by rewrite Hh]. unfold house in Hh. by injection Hh as -> _.
Qed.
Lemma end_change {A} d0 r row (m : M A) : keeps quiet m -> r ∈ reservations d0 -> same_person r row -> Reservation.roomId row = Reservation.roomId r ->
  Reservation.status row = Reservation.status r \/ may_become (Reservation.status r) (Reservation.status row) = true -> from d0 (seq d0) (put r row (reservations d0), occupancy d0) m.
Proof. intros Hq Hin Hp Hr Hs. apply end_put; [done | done | apply Hp | by apply hs_change]. Qed.
End Follows.

(** ** Every operation follows the machine *)
Section Operations.
Context `{DecimalLib} `{TaxDb} `{Platform} `{Uuid} (encrypt : string -> string) (no_show_label : LineItem.t -> bool).

#[local] Hint Resolve er_new_id er_auditLog er_emit er_folio_audit op_ensurePrimaryFolio op_postRoomChargeForDate
  bs_log bs_audit bs_card bs_today bs_assertBranch bs_guest bs_document bs_snapshots bs_violation bs_extension bs_allotment bs_available bs_dayUse bs_ready bs_type bs_capacity
  bs_range bs_block_open bs_in_block bs_resolve bs_link bs_deal bs_confirmation bs_price_room bs_blockPricing bs_repriced bs_hours bs_dayUsePricing bs_deposit bs_pinned
  bs_plan bs_fees bs_apply bs_earn bs_preview bs_totals bs_paid bs_quote bs_refundable bs_request bs_find_stay bs_folio
  uk_clean uk_task uk_supersede uk_turndown uk_settle_in
  op_backfillRoomCharges op_postAdHocCharge op_postChargeInTx op_settleIfFullyPaid op_reverseCharge op_postPackagesForDate op_createAdditionalFolio : keeps.
Ltac hush := unfold a_date, date_or, now, assertMovable; keeps_tac; try (by apply keeps_modify; intros; split; simpl; [done | lia]).
Ltac is_vacant := match goal with E : Room.occupancyStatus ?x = vacant, Hin : (_, Room.occupancyStatus ?x) ∈ _, Hid : Room.id ?x = _ |- _ => simpl; rewrite ?Hid, <- E; exact Hin end.
(** The reads and checks of the text, up to its first write. *)
Ltac reading := cbn beta iota zeta; repeat
  match goal with
  | |- from _ _ _ (bind (update_stay _ _) _) => fail 1
  | |- from _ _ _ (bind (applyReservationOccupancy _ _ _ _) _) => fail 1
  | |- from _ _ _ (bind (createReservationRow _ _) _) => fail 1
  | |- from _ _ _ (bind (findReservation _) _) => apply from_find; intros ? ? ?
  | |- from _ _ _ (bind (orThrow (findFirst rooms _) _) _) => apply from_room; intros ? ? ?
  | |- from _ _ _ (bind (assertRoomCheckInReady _ _ _ _ _) _) => apply from_ready; intros ?
  | |- from _ _ _ (bind (assertMovable _) _) => apply from_movable; intros ? ? ?
  | |- from _ _ _ (bind (lift (throw_if _ _)) _) => apply from_lift; intros ? ?%throw_if_Ok
  | |- from _ _ _ (bind (lift _) _) => apply from_lift; intros ? ?
  | |- from _ _ _ (bind _ _) => apply from_bind; [solve [hush] | intros ? ? ? ? ?]
  | |- from _ _ _ (let '(_, _) := ?x in _) => destruct x
  end.
Ltac guards := repeat match goal with
  | E : bool_decide _ = false |- _ => apply bool_decide_eq_false in E
  | E : negb (bool_decide _) = false |- _ => apply negb_false_iff, bool_decide_eq_true in E
  end.
Ltac changing := apply end_change; [hush | done | done | done | guards; (by left) || (right; simpl; guards; try match goal with E : Reservation.status _ = _ |- _ => rewrite E end; done)].

Lemma setRateOverride_follows i rate why u : keeps follows (setRateOverride i rate why u).
Proof. apply from_keeps. intros d0. unfold setRateOverride. reading. apply from_update. intros. changing. Qed.
Lemma extendStay_follows i c u : keeps follows (extendStay i c u).
Proof. apply from_keeps. intros d0. unfold extendStay. reading. apply from_update. intros. changing. Qed.
Lemma setPackages_follows i ids u : keeps follows (setPackages i ids u).
Proof. apply from_keeps. intros d0. unfold setPackages. reading. apply from_update. intros. changing. Qed.
Lemma modifyReservation_follows i dto u : keeps follows (modifyReservation i dto u).
Proof. apply from_keeps. intros d0. unfold modifyReservation. reading. apply from_update. intros. changing. Qed.
Lemma promoteFromWaitlist_follows i u : keeps follows (promoteFromWaitlist i u).
Proof. apply from_keeps. intros d0. unfold promoteFromWaitlist. reading. apply from_update. intros. changing. Qed.
Lemma walkReservation_follows i dto u : keeps follows (walkReservation i dto u).
Proof. apply from_keeps. intros d0. unfold walkReservation. reading. apply from_update. intros. changing. Qed.
Lemma markNoShowInTx_from d0 r p a u : r ∈ reservations d0 -> Reservation.status r = confirmed -> from d0 (seq d0) (house d0) (markNoShowInTx r p a u).
Proof. intros Hin Hs. unfold markNoShowInTx. apply from_update. intros. changing. Qed.
Lemma markNoShow_follows i u : keeps follows (markNoShow i u).
Proof. apply from_keeps. intros d0. unfold markNoShow. reading. guards. by apply markNoShowInTx_from. Qed.
Lemma waive_quiet record u : keeps quiet (waiveNoShowPenaltyInTx no_show_label record u).
Proof. unfold waiveNoShowPenaltyInTx. hush. Qed.
#[local] Hint Resolve waive_quiet : keeps.
Lemma waiveNoShowPenalty_follows i u : keeps follows (waiveNoShowPenalty no_show_label i u).
Proof. intros d d' x Hm. apply quiet_follows. revert d d' x Hm. change (keeps quiet (waiveNoShowPenalty no_show_label i u)). unfold waiveNoShowPenalty. hush. Qed.
Lemma reinstateFromNoShow_follows i dto u : keeps follows (reinstateFromNoShow no_show_label i dto u).
Proof. apply from_keeps. intros d0. unfold reinstateFromNoShow. reading. apply from_update. intros. changing. Qed.
Lemma cancelInTx_follows i opts : keeps follows (cancelInTx i opts).
Proof.
  apply from_keeps. intros d0. unfold cancelInTx. reading. apply from_update. intros. apply end_change; [hush | done..|]. right.
  match goal with E : negb (includes (status_name (Reservation.status ?r)) _) = false |- _ => destruct r as [? ? ? [] ?] end; done.
Qed.

Lemma createReservation_follows b dto u into public : keeps follows (createReservation b dto u into public).
Proof.
  apply from_keeps. intros d0. unfold createReservation. reading. apply from_create; [done|]. intros. apply end_add; [hush | done | done |]. intros Hn. apply hs_book; [done | | done].
  simpl. destruct (cd_joinWaitlist dto); auto.
Qed.
Lemma walkIn_follows b dto u : keeps follows (walkIn encrypt b dto u).
Proof.
  apply from_keeps. intros d0. unfold walkIn. reading. apply from_create; [done|]. intros. apply from_bind; [hush | intros]. apply from_occupy. intros.
  apply end_add; [hush | done | done |]. intros Hn. apply hs_walk_in; [done..|]. is_vacant.
Qed.
Lemma checkInInTx_follows i dto u : keeps follows (checkInInTx encrypt i dto u).
Proof.
  apply from_keeps. intros d0. unfold checkInInTx. reading. apply from_update. intros. apply from_occupy. intros. guards.
  apply end_put; [hush | done | done |]. eapply hs_check_in; [done..|]. is_vacant.
Qed.
Lemma checkOut_follows i actor dto : keeps follows (checkOut i actor dto).
Proof.
  apply from_keeps. intros d0. unfold checkOut. reading. apply from_update. intros. apply from_bind; [hush | intros]. apply from_occupy. intros. guards.
  apply end_put; [hush | done | done |]. eapply hs_check_out; [done..| |done]. by eapply set_string_room.
Qed.
Lemma moveRoom_follows i dto u : keeps follows (moveRoom i dto u).
Proof.
  apply from_keeps. intros d0. unfold moveRoom. reading. apply from_update. intros. apply from_occupy. intros. do 2 (apply from_bind; [hush | intros]). apply from_occupy. intros.
  apply end_put; [hush | done | done |]. guards. eapply hs_move; [done..| congruence | is_vacant].
Qed.

Lemma quiet_keeps_follows {A} (m : M A) : keeps quiet m -> keeps follows m.
Proof. intros Hm d d' x Hd. by eapply quiet_follows, Hm. Qed.
Lemma billTo_follows w f : keeps follows (modify (upd_reservations (update_where w (Reservation.with_billTo f)))).
Proof.
  apply keeps_modify. intros d. apply same_ids_follows; [|done|].
  - simpl. unfold update_where. rewrite <- list_fmap_compose. apply list_fmap_ext. intros i x _. simpl. by destruct (w x).
  - intros _. exact (hs_master (reservations d) (occupancy d) (fun x => if w x then Reservation.with_billTo f x else x) ltac:(intros r; cbn beta; destruct (w r); by repeat split)).
Qed.
Lemma checkInGroup_follows i dto u : keeps follows (checkInGroup encrypt i dto u).
Proof.
  unfold checkInGroup. keeps_tac; [apply quiet_keeps_follows; hush | apply billTo_follows | apply checkInInTx_follows | apply quiet_keeps_follows; hush].
Qed.
End Operations.

(** ** One guest per room *)
(** Every guest checked in has a room, that room is marked occupied, and no two of them share one. *)
Record roomed (h : list Reservation.t * list (string * OccupancyStatus)) : Prop := {
  rm_ids : NoDup (Reservation.id <$> fst h);
  rm_rooms : NoDup (fst <$> snd h);
  rm_in r : r ∈ fst h -> Reservation.status r = checked_in -> exists i, Reservation.roomId r = Some i /\ (i, occupied) ∈ snd h;
  rm_alone r r' : r ∈ fst h -> r' ∈ fst h -> Reservation.status r = checked_in -> Reservation.status r' = checked_in -> Reservation.roomId r = Reservation.roomId r' -> r = r';
}.
Lemma set_occ_rooms i v o : fst <$> set_occ i v o = fst <$> o.
Proof. unfold set_occ. rewrite <- list_fmap_compose. apply list_fmap_ext. intros k [j x] _. simpl. by case_bool_decide; simplify_eq/=. Qed.
Lemma set_occ_other i j v x o : (j, x) ∈ o -> j <> i -> (j, x) ∈ set_occ i v o.
Proof. intros Hin Hj. unfold set_occ. apply list_elem_of_fmap. exists (j, x). split; [|done]. simpl. by rewrite bool_decide_eq_false_2. Qed.
Lemma set_occ_this i v x o : (i, x) ∈ o -> (i, v) ∈ set_occ i v o.
Proof. intros Hin. unfold set_occ. apply list_elem_of_fmap. exists (i, x). split; [|done]. simpl. by rewrite bool_decide_eq_true_2. Qed.
Lemma elem_of_put r row l x : x ∈ put r row l -> x = row \/ (x ∈ l /\ Reservation.id x <> Reservation.id r).
Proof. unfold put, update_where, stay_where. intros (y & -> & Hy)%list_elem_of_fmap. case_bool_decide; auto. Qed.
Lemma roomed_put l o r row o' : roomed (l, o) -> r ∈ l -> Reservation.id row = Reservation.id r -> fst <$> o' = fst <$> o ->
  (forall x k, x ∈ l -> x <> r -> Reservation.status x = checked_in -> Reservation.roomId x = Some k -> (k, occupied) ∈ o') ->
  (Reservation.status row = checked_in -> exists i, Reservation.roomId row = Some i /\ (i, occupied) ∈ o' /\
    forall x, x ∈ l -> x <> r -> Reservation.status x = checked_in -> Reservation.roomId x <> Some i) -> roomed (put r row l, o').
Proof.
  intros [Hid Hro Hin Hal] Hr Eid Er Hoth Hrow. simpl in *. assert (forall x, x ∈ put r row l -> x = row \/ x ∈ l /\ x <> r) as Hput.
  { intros x [->| [Hx Hne]]%elem_of_put; [by left | right]. split; [done | congruence]. }
  split; simpl.
  - by rewrite put_ids.
  - by rewrite Er.
  - intros x [->| [Hx Hne]]%Hput Hs; [destruct (Hrow Hs) as (i & ? & ? & _); eauto|]. destruct (Hin _ Hx Hs) as (k & Hk & _). eauto.
  - intros x y [->| [Hx Hne]]%Hput [->| [Hy Hne']]%Hput Hsx Hsy E; [done| | |by apply Hal].
    + destruct (Hrow Hsx) as (i & Hi & _ & Hno). destruct (Hno _ Hy Hne' Hsy). congruence.
    + destruct (Hrow Hsy) as (i & Hi & _ & Hno). destruct (Hno _ Hx Hne Hsx). congruence.
Qed.
Lemma roomed_add l o row o' : roomed (l, o) -> Reservation.id row ∉ Reservation.id <$> l -> fst <$> o' = fst <$> o ->
  (forall x k, x ∈ l -> Reservation.status x = checked_in -> Reservation.roomId x = Some k -> (k, occupied) ∈ o') ->
  (Reservation.status row = checked_in -> exists i, Reservation.roomId row = Some i /\ (i, occupied) ∈ o' /\
    forall x, x ∈ l -> Reservation.status x = checked_in -> Reservation.roomId x <> Some i) -> roomed (l ++ [row], o').
Proof.
  intros [Hid Hro Hin Hal] Hn Er Hoth Hrow. simpl in *. split; simpl.
  - rewrite fmap_app. apply NoDup_app. split; [done|]. split; [by intros i Hi ->%list_elem_of_singleton | apply NoDup_singleton].
  - by rewrite Er.
  - intros x [Hx| ->%list_elem_of_singleton]%elem_of_app Hs; [destruct (Hin _ Hx Hs) as (k & Hk & _); eauto|]. destruct (Hrow Hs) as (i & ? & ? & _); eauto.
  - intros x y [Hx| ->%list_elem_of_singleton]%elem_of_app [Hy| ->%list_elem_of_singleton]%elem_of_app Hsx Hsy E; [by apply Hal| | |done].
    + destruct (Hrow Hsy) as (i & Hi & _ & Hno). destruct (Hno _ Hx Hsx). congruence.
    + destruct (Hrow Hsx) as (i & Hi & _ & Hno). destruct (Hno _ Hy Hsy). congruence.
Qed.
(** A vacant room is nobody's. *)
Lemma roomed_free l o x k j : roomed (l, o) -> (j, vacant) ∈ o -> x ∈ l -> Reservation.status x = checked_in -> Reservation.roomId x = Some k -> (k, occupied) ∈ o /\ k <> j.
Proof.
  intros [_ Hro Hin _] Hv Hx Hs Hk. destruct (Hin _ Hx Hs) as (k' & Hk' & Ho). simplify_eq/=. split; [done|]. intros ->.
  pose proof (NoDup_fmap_inj fst _ _ _ Hro Hv Ho eq_refl). done.
Qed.
Lemma roomed_step h h' : house_step h h' -> roomed h -> roomed h'.
Proof.
  intros Hs Hh. destruct Hs as [l o row Hn Hst Hr|l o row i Hn Hst Hr Hv|l o r row Hin (Eid & _) Hr Hst|l o r row i Hin (Eid & _) Hc Hst Hr Hv|l o r row i Hin (Eid & _) Hc Hr Hst
    |l o r row i j Hin (Eid & _) Hc Hst Hr Hr' Hne Hv|l o f Hf].
  - apply (roomed_add l o); [done..| |intros Hc; destruct Hst; congruence]. intros x k Hx Hc Hk. destruct (rm_in _ Hh _ Hx Hc) as (k' & ? & ?). simplify_eq. done.
  - apply (roomed_add l o); [done..|by rewrite set_occ_rooms| |].
    + intros x k Hx Hc Hk. destruct (roomed_free _ _ _ _ _ Hh Hv Hx Hc Hk). by apply set_occ_other.
    + intros _. exists i. split; [done|]. split; [by eapply set_occ_this|]. intros x Hx Hc Hk. by destruct (roomed_free _ _ _ _ _ Hh Hv Hx Hc Hk).
  - apply (roomed_put l o); [done..| |].
    + intros x k Hx _ Hc Hk. destruct (rm_in _ Hh _ Hx Hc) as (k' & ? & ?). simplify_eq. done.
    + intros Hc. assert (Reservation.status r = checked_in) as Hcr by (destruct Hst as [<-|Hm]; [done|]; by destruct (Reservation.status r), (Reservation.status row)).
      destruct (rm_in _ Hh _ Hin Hcr) as (i & Hi & Ho). exists i. split; [congruence|]. split; [done|]. intros x Hx Hne Hcx Hk. destruct Hne. apply (rm_alone _ Hh); simpl; congruence.
  - apply (roomed_put l o); [done..|by rewrite set_occ_rooms| |].
    + intros x k Hx _ Hc' Hk. destruct (roomed_free _ _ _ _ _ Hh Hv Hx Hc' Hk). by apply set_occ_other.
    + intros _. exists i. split; [done|]. split; [by eapply set_occ_this|]. intros x Hx _ Hc' Hk. by destruct (roomed_free _ _ _ _ _ Hh Hv Hx Hc' Hk).
  - apply (roomed_put l o); [done..|by rewrite set_occ_rooms| |congruence].
    intros x k Hx Hne Hc' Hk. destruct (rm_in _ Hh _ Hx Hc') as (k' & ? & ?). simplify_eq. apply set_occ_other; [done|]. intros ->. destruct Hne. apply (rm_alone _ Hh); simpl; congruence.
  - apply (roomed_put l o); [done..|by rewrite !set_occ_rooms| |].
    + intros x k Hx Hne' Hc' Hk. destruct (roomed_free _ _ _ _ _ Hh Hv Hx Hc' Hk). apply set_occ_other; [|done]. apply set_occ_other; [done|]. intros ->. destruct Hne'.
      apply (rm_alone _ Hh); simpl; congruence.
    + intros _. exists j. split; [done|]. split; [eapply set_occ_this, set_occ_other; [exact Hv | done]|]. intros x Hx _ Hc' Hk. by destruct (roomed_free _ _ _ _ _ Hh Hv Hx Hc' Hk).
  - destruct Hh as [Hid Hro Hin Hal]. simpl in *. split; simpl; [|done| |].
    + rewrite <- list_fmap_compose. erewrite list_fmap_ext; [exact Hid|]. intros i x _. apply Hf.
    + intros x (y & -> & Hy)%list_elem_of_fmap Hs. destruct (Hf y) as (_ & Er & Es). rewrite Er. apply Hin; [done | congruence].
    + intros x y (x' & -> & Hx)%list_elem_of_fmap (y' & -> & Hy)%list_elem_of_fmap. destruct (Hf x') as (_ & Er & Es), (Hf y') as (_ & Er' & Es'). rewrite Er, Er', Es, Es'. intros. f_equal. auto.
Qed.

(** ** How a stay ends *)
Definition over (s : ReservationStatus) : bool := match s with checked_out | cancelled | walked => true | _ => false end.
Lemma same_person_refl r : same_person r r.
Proof. by repeat split. Qed.
Lemma same_person_trans x y z : same_person x y -> same_person y z -> same_person x z.
Proof. unfold same_person. intuition congruence. Qed.
Lemma put_over l r0 row r : NoDup (Reservation.id <$> l) -> r0 ∈ l -> r ∈ l -> same_person r0 row -> (Reservation.status row = Reservation.status r0 \/ over (Reservation.status r0) = false) ->
  over (Reservation.status r) = true -> exists r', r' ∈ put r0 row l /\ same_person r r' /\ Reservation.status r' = Reservation.status r.
Proof.
  intros Hn Hr0 Hr Hp Hs Ho. unfold put, update_where, stay_where. destruct (decide (Reservation.id r = Reservation.id r0)) as [E|E].
  - apply (NoDup_fmap_inj Reservation.id _ _ _ Hn Hr Hr0) in E as ->. exists row. split; [|destruct Hs; [done | congruence]].
    apply list_elem_of_fmap. exists r0. by rewrite bool_decide_eq_true_2.
  - exists r. split; [|split; [apply same_person_refl | done]]. apply list_elem_of_fmap. exists r. by rewrite bool_decide_eq_false_2.
Qed.
Lemma over_step h h' r : house_step h h' -> NoDup (Reservation.id <$> fst h) -> r ∈ fst h -> over (Reservation.status r) = true ->
  NoDup (Reservation.id <$> fst h') /\ exists r', r' ∈ fst h' /\ same_person r r' /\ Reservation.status r' = Reservation.status r.
Proof.
  intros Hs Hn Hr Ho. destruct Hs as [l o row Hid|l o row i Hid|l o r0 row Hin Hp _ Hst|l o r0 row i Hin Hp Hc|l o r0 row i Hin Hp Hc|l o r0 row i j Hin Hp Hc|l o f Hf]; simpl in *.
  1-2: split; [rewrite fmap_app; apply NoDup_app; split; [done|]; split; [by intros x Hx ->%list_elem_of_singleton | apply NoDup_singleton]
              |exists r; split; [apply elem_of_app; by left | split; [apply same_person_refl | done]]].
  1-4: split; [rewrite put_ids; [done | apply Hp]|]; eapply put_over; try done.
  - destruct Hst as [->|Hm]; [by left | right]. by destruct (Reservation.status r0).
  - right. by rewrite Hc.
  - right. by rewrite Hc.
  - right. by rewrite Hc.
  - split; [|exists (f r); split; [by apply list_elem_of_fmap_2 | split; apply Hf]]. rewrite <- list_fmap_compose. erewrite list_fmap_ext; [exact Hn|]. intros i x _. apply Hf.
Qed.
Lemma over_steps h h' r : rtc house_step h h' -> NoDup (Reservation.id <$> fst h) -> r ∈ fst h -> over (Reservation.status r) = true ->
  exists r', r' ∈ fst h' /\ same_person r r' /\ Reservation.status r' = Reservation.status r.
Proof.
  intros Hs. revert r. induction Hs as [h|h h1 h' Hs _ IH]; intros r Hn Hr Ho; [exists r; split; [done | split; [apply same_person_refl | done]]|].
  destruct (over_step _ _ _ Hs Hn Hr Ho) as (Hn' & r1 & Hr1 & Hp & Est). destruct (IH r1 Hn' Hr1 ltac:(by rewrite Est)) as (r2 & Hr2 & Hp' & Est').
  exists r2. split; [done|]. split; [by eapply same_person_trans | congruence].
Qed.

(** ** The claims *)
Section Claims.
Context `{DecimalLib} `{TaxDb} `{Platform} `{Uuid} (encrypt : string -> string) (no_show_label : LineItem.t -> bool).
(** Every operation that moves a stay along. *)
Inductive stay_op : forall {A}, M A -> Prop :=
| so_create b dto u into public : stay_op (createReservation b dto u into public)
| so_walk_in b dto u : stay_op (walkIn encrypt b dto u)
| so_check_in i dto u : stay_op (checkInInTx encrypt i dto u)
| so_check_in_group i dto u : stay_op (checkInGroup encrypt i dto u)
| so_check_out i actor dto : stay_op (checkOut i actor dto)
| so_cancel i opts : stay_op (cancelInTx i opts)
| so_no_show i u : stay_op (markNoShow i u)
| so_waive i u : stay_op (waiveNoShowPenalty no_show_label i u)
| so_reinstate i dto u : stay_op (reinstateFromNoShow no_show_label i dto u)
| so_walk i dto actor : stay_op (walkReservation i dto actor)
| so_modify i dto u : stay_op (modifyReservation i dto u)
| so_promote i u : stay_op (promoteFromWaitlist i u)
| so_extend i c u : stay_op (extendStay i c u)
| so_move i dto u : stay_op (moveRoom i dto u)
| so_override i rate why u : stay_op (setRateOverride i rate why u)
| so_packages i ids u : stay_op (setPackages i ids u).
Definition stay_step (d d' : Db) : Prop := exists (A : Type) (m : M A) (a : A), stay_op m /\ m d = Ok (d', a).
Lemma stay_op_follows {A} (m : M A) : stay_op m -> keeps follows m.
Proof.
  destruct 1; [apply createReservation_follows | apply walkIn_follows | apply checkInInTx_follows | apply checkInGroup_follows | apply checkOut_follows | apply cancelInTx_follows
  | apply markNoShow_follows | apply waiveNoShowPenalty_follows | apply reinstateFromNoShow_follows | apply walkReservation_follows | apply modifyReservation_follows
  | apply promoteFromWaitlist_follows | apply extendStay_follows | apply moveRoom_follows | apply setRateOverride_follows | apply setPackages_follows].
Qed.
Lemma stay_steps_follow d d' : rtc stay_step d d' -> follows d d'.
Proof. induction 1 as [d|d d1 d' (A & m & a & Hop & Hm) _ IH]; [done|]. etrans; [by eapply stay_op_follows | exact IH]. Qed.
Lemma roomed_steps h h' : rtc house_step h h' -> roomed h -> roomed h'.
Proof. induction 1 as [|h h1 h' Hs _ IH]; eauto using roomed_step. Qed.

(** C2: However bookings, walk-ins, arrivals, departures, changes, moves,
    cancellations, no-shows and walks follow each other, what they do to the
    stays and to the rooms' occupancy is a run of the abstract machine
    [house_step]: a stay is booked, waits or is confirmed, comes in to a vacant
    room, moves to a vacant room and leaves, ends as cancelled, no-show or walked
    only before it arrived, and never changes its guest, number, channel or
    block; each new stay has an id no other has. *)
Theorem lifecycle_refines d d' : stays_ok d -> rtc stay_step d d' -> stays_ok d' /\ rtc house_step (house d) (house d').
Proof. intros Hd Hs. by apply stay_steps_follow. Qed.

(** No room ever holds two guests: from a state in which every guest
    checked in has a room of their own that is marked occupied, every sequence
    of operations on stays leads to such a state. *)
Theorem one_guest_per_room d d' : stays_ok d -> roomed (house d) -> rtc stay_step d d' -> roomed (house d').
Proof. intros Hd Hr Hs. eapply roomed_steps; [|exact Hr]. by apply stay_steps_follow. Qed.

(** What is over stays over: a stay checked out, cancelled or walked is
    still there, with its guest and its status, after any sequence of
    operations on stays. *)
Theorem ended_stays_are_final d d' r : stays_ok d -> rtc stay_step d d' -> r ∈ reservations d -> over (Reservation.status r) = true ->
  exists r', r' ∈ reservations d' /\ same_person r r' /\ Reservation.status r' = Reservation.status r.
Proof. intros Hd Hs Hr Ho. eapply (over_steps (house d) (house d')); [by apply stay_steps_follow | apply Hd | done..]. Qed.
End Claims.

(** ** A day at the sample hotel *)
Module LifecycleWitness.
Import Hotel.
(** A letter starts no number. *)
Definition s_char : Ascii.ascii := Ascii.ascii_of_nat 115.
Lemma pretty_no_s (n : nat) t : String s_char t <> pretty n.
Proof.
  unfold pretty, pretty_nat, pretty, pretty_N. case_decide; [done|]. enough (forall x u, (forall v, u <> String s_char v) -> pretty_N_go x u <> String s_char t) as Hg.
  { intros E. exact (Hg (N.of_nat n) "" ltac:(done) (eq_sym E)). }
  intros x. induction (N.lt_wf_0 x) as [x _ IH]. intros u Hu. destruct (decide (0 < x)%N) as [Hx|Hx].
  - rewrite pretty_N_go_step by done. apply IH; [by apply N.div_lt|]. intros v [= E _]. unfold pretty_N_char in E. repeat case_match; discriminate.
  - assert (x = 0%N) as -> by lia. rewrite pretty_N_go_0. apply Hu.
Qed.
Lemma hotel_stays : stays_ok hotel.
Proof. split; [apply NoDup_singleton|]. intros x k ->%list_elem_of_singleton _. apply pretty_no_s. Qed.
Lemma hotel_roomed : roomed (house hotel).
Proof.
  split; simpl.
  - apply NoDup_singleton.
  - apply NoDup_cons. split; [by intros E%list_elem_of_singleton | apply NoDup_singleton].
  - intros r ->%list_elem_of_singleton _. exists "101". split; [done | left].
  - by intros r r' ->%list_elem_of_singleton ->%list_elem_of_singleton.
Qed.
(** Ada moves to 102, Tunde walks in to 101, a booking is taken for later, Ada leaves. *)
Definition owner : JwtPayload := {| sub := "u1"; roles := []; apiKey := None |}.
Definition tunde : WalkInReservationDto := {|
  wd_guestId := None; wd_guest := Some {| cg_name := "Tunde"; cg_email := Some "tunde@example.com"; cg_phone := None |}; wd_roomTypeId := "rt1"; wd_roomId := "101";
  wd_checkOutDate := Some "2024-10-06"; wd_adults := 1; wd_children := None; wd_dayUse := false; wd_packageIds := None; wd_promoCode := None;
  wd_corporateAccountId := None; wd_idDocument := None |}.
Definition later : CreateReservationDto := {|
  cd_guestId := Some "g1"; cd_guest := None; cd_roomTypeId := "rt1"; cd_checkInDate := "2024-12-01"; cd_checkOutDate := "2024-12-03"; cd_adults := 2; cd_children := None;
  cd_channel := None; cd_joinWaitlist := false; cd_dayUse := false; cd_packageIds := None; cd_promoCode := None; cd_corporateAccountId := None |}.
Definition to_102 : MoveRoomDto := {| mv_roomId := "102"; mv_reason := "Noise"; mv_chargeNewRate := false |}.
Definition as_is (s : string) : string := s.
Definition d_moved : Db := after (moveRoom "s1" to_102 "u1") hotel.
Definition d_walked_in : Db := after (walkIn as_is "b1" tunde "u1") d_moved.
Definition d_booked : Db := after (createReservation "b1" later (Some "u1") None false) d_walked_in.
Definition d_left : Db := after (checkOut "s1" owner {| co_waiveFees := false; co_waiverReason := None |}) d_booked.
Lemma day_ok : is_ok (moveRoom "s1" to_102 "u1" hotel) && is_ok (walkIn as_is "b1" tunde "u1" d_moved) && is_ok (createReservation "b1" later (Some "u1") None false d_walked_in) &&
  is_ok (checkOut "s1" owner {| co_waiveFees := false; co_waiverReason := None |} d_booked) = true.
Proof. vm_compute. reflexivity. Qed.
Definition no_label (l : LineItem.t) : bool := false.
Lemma step_after {A} (m : M A) d : stay_op as_is no_label m -> is_ok (m d) = true -> stay_step as_is no_label d (after m d).
Proof. intros Hop Hok. destruct (after_ok _ _ Hok) as [a Ha]. exists A, m, a. by split. Qed.
Lemma day_steps : rtc (stay_step as_is no_label) hotel d_left.
Proof.
  pose proof day_ok as Hok. rewrite !andb_true_iff in Hok. destruct Hok as [[[Hm Hw] Hb] Hl].
  apply (rtc_l _ hotel d_moved); [exact (step_after (moveRoom "s1" to_102 "u1") hotel (so_move _ _ _ _ _) Hm)|].
  apply (rtc_l _ d_moved d_walked_in); [exact (step_after (walkIn as_is "b1" tunde "u1") d_moved (so_walk_in _ _ _ _ _) Hw)|].
  apply (rtc_l _ d_walked_in d_booked); [exact (step_after (createReservation "b1" later (Some "u1") None false) d_walked_in (so_create _ _ _ _ _ _ _) Hb)|].
  apply rtc_once. exact (step_after (checkOut "s1" owner {| co_waiveFees := false; co_waiverReason := None |}) d_booked (so_check_out _ _ _ _ _) Hl).
Qed.
(** Three stays, one of them in a room. *)
Lemma day_house : (fun r => (Reservation.status r, Reservation.roomId r)) <$> reservations d_left = [(checked_out, Some "102"); (checked_in, Some "101"); (confirmed, None)] /\
  occupancy d_left = [("101", occupied); ("102", vacant)].
Proof. split; vm_compute; reflexivity. Qed.
Lemma lifecycle_refines_witness : length (reservations d_left) = 3%nat /\ stays_ok d_left /\ rtc house_step (house hotel) (house d_left).
Proof. split; [vm_compute; reflexivity | exact (lifecycle_refines as_is no_label hotel d_left hotel_stays day_steps)]. Defined.
Lemma one_guest_per_room_witness : occupancy d_left = [("101", occupied); ("102", vacant)] /\ roomed (house d_left).
Proof. split; [apply day_house | exact (one_guest_per_room as_is no_label hotel d_left hotel_stays hotel_roomed day_steps)]. Defined.
(** Ada's stay is over; then the later booking is called off. *)
Definition d_off : Db := after (cancelInTx "11" {| co_actorId := None; co_waiver := None; co_acknowledgedPenaltyTotal := None |}) d_left.
Lemma off_ok : is_ok (cancelInTx "11" {| co_actorId := None; co_waiver := None; co_acknowledgedPenaltyTotal := None |} d_left) = true.
Proof. vm_compute. reflexivity. Qed.
Lemma hd_in {A B} (f : A -> B) x l y ys : f <$> l = y :: ys -> List.hd x l ∈ l.
Proof. destruct l; [done | left]. Qed.
Definition ada_left : Reservation.t := List.hd hotel_stay (reservations d_left).
Lemma ada_in : ada_left ∈ reservations d_left.
Proof. exact (hd_in _ _ _ _ _ (proj1 day_house)). Qed.
Lemma ended_stays_are_final_witness : Reservation.status ada_left = checked_out /\
  exists r', r' ∈ reservations d_off /\ same_person ada_left r' /\ Reservation.status r' = Reservation.status ada_left.
Proof.
  split; [vm_compute; reflexivity|].
  apply (ended_stays_are_final as_is no_label d_left d_off ada_left).
  - exact (proj1 (stay_steps_follow as_is no_label _ _ day_steps hotel_stays)).
  - apply rtc_once. exact (step_after (cancelInTx "11" {| co_actorId := None; co_waiver := None; co_acknowledgedPenaltyTotal := None |}) d_left (so_cancel _ _ _ _) off_ok).
  - exact ada_in.
  - vm_compute. reflexivity.
Defined.
End LifecycleWitness.
