(* ===== verification/NoOverbooking.v ===== *)
(** A booking never sells a night twice over: from the availability check to
    the row it writes nothing changes what availability reads. *)
From stdpp Require Import pretty.
From Stdlib Require Import QArith Qcanon.
From S2P Require Import Prelude Decimal Json Dates StayPolicies Taxes Authority Transactions Db LoyaltyRules Packages Folios FolioLedger FolioPayments Notices SampleHotel Loyalty Refunds Rooms Housekeeping SalesRules Inventory Rates Guests Bookings StayChanges StayEnds Frames Lifecycle.
Import StayFees StayFeesProps.
Local Open Scope Z_scope.

(** Everything availability reads. *)
Definition stock (d : Db) := (rooms d, roomBlocks d, overbookingConfigs d, branches d, clock d, groupBlocks d, reservations d, channelAllotments d).
Definition stable (d d' : Db) : Prop := stock d' = stock d.
#[global] Instance stable_preorder : PreOrder stable.
Proof. split; [done | intros a b c H1 H2; unfold stable in *; congruence]. Qed.
Lemma stable_write f : (forall d, stock (f d) = stock d) -> keeps stable (modify f).
Proof. intros. apply keeps_modify. auto. Qed.
Ltac stably := by apply stable_write.
#[global] Instance stable_errands `{Uuid} : Errands stable.
Proof. by split; [apply _|..]. Qed.

(** ** Availability is a function of the stock *)
Section Stock.
Context `{Platform}.
Lemma left_on_stock d d' b t ex into today night : stable d d' -> left_on d' b t ex into today night = left_on d b t ex into today night.
Proof.
  unfold stable, stock. intros [= E1 E2 E3 E4 E5 E6 E7 E8].
  unfold left_on, capacity_on, config_at, rooms_for, blocked_on, stays_on, occupies, overdue_at, groups_keep, block_keeps, block_booked, block_pickup. by rewrite E1, E2, E3, E4, E5, E6, E7.
Qed.
Lemma channel_sold_stock d d' b t c ex night : stable d d' -> channel_sold d' b t c ex night = channel_sold d b t c ex night.
Proof. unfold stable, stock. intros [= E1 E2 E3 E4 E5 E6 E7 E8]. unfold channel_sold. by rewrite E7. Qed.
Definition booked (row : Reservation.t) (d : Db) : Db := upd_reservations (fun l => l ++ [row]) d.
Lemma filter_one {A} (p : A -> bool) l x : (length (List.filter p (l ++ [x])) <= length (List.filter p l) + 1)%nat.
Proof. rewrite List.filter_app, length_app. simpl. destruct (p x); simpl; lia. Qed.
Lemma filter_none {A} (p : A -> bool) l x : p x = false -> List.filter p (l ++ [x]) = List.filter p l.
Proof. intros E. rewrite List.filter_app. simpl. by rewrite E, app_nil_r. Qed.
(** A booking takes at most one room off a night, its own group's block apart. *)
Lemma left_on_booked d row b t today night : left_on d b t None (Reservation.groupBlockId row) today night - 1 <= left_on (booked row d) b t None (Reservation.groupBlockId row) today night.
Proof.
  unfold left_on. assert (capacity_on (booked row d) b t night = capacity_on d b t night) as -> by done.
  assert (groups_keep (booked row d) b t (Reservation.groupBlockId row) today night = groups_keep d b t (Reservation.groupBlockId row) today night) as ->.
  { unfold groups_keep. simpl. f_equal. apply list_fmap_ext. intros i g _. unfold block_keeps. destruct (other_than (Reservation.groupBlockId row) (GroupBlock.id g)) eqn:Eo;
      [|by rewrite !andb_false_r]. assert (in_block (GroupBlock.id g) row = false) as Hb.
    { unfold in_block. apply bool_decide_eq_false_2. intros E. rewrite E in Eo. unfold other_than in Eo. simpl in Eo. by rewrite bool_decide_eq_true_2 in Eo. }
    unfold block_booked, block_pickup, booked. simpl. by rewrite !filter_none by (by rewrite Hb). }
  assert (stays_on (booked row d) b t None night <= stays_on d b t None night + 1); [|lia]. unfold stays_on. simpl.
  pose proof (filter_one (occupies d b t None night) (reservations d) row). assert (occupies (booked row d) b t None night = occupies d b t None night) as -> by done. lia.
Qed.
Lemma channel_sold_booked d row b t c night : channel_sold (booked row d) b t c None night <= channel_sold d b t c None night + 1.
Proof. unfold channel_sold. simpl. pose proof (filter_one (channel_stay b t c None night) (reservations d) row). lia. Qed.
End Stock.

(** ** Dates that parse are in the calendar's range *)
Lemma char_digit_bounds c x : char_digit c = Some x -> 0 <= x <= 9.
Proof. unfold char_digit. intros E. case_match; simplify_eq; lia. Qed.
Lemma read_digits_bounds w acc s y u : 0 <= acc -> read_digits w acc s = Some (y, u) -> 0 <= y < (acc + 1) * 10 ^ Z.of_nat w.
Proof.
  revert acc s. induction w as [|w IH]; intros acc s Ha E; [simpl in *; simplify_eq; lia|]. destruct s as [|c s]; [done|]. cbn [read_digits] in E. destruct (char_digit c) as [x|] eqn:Ec; [|done].
  apply char_digit_bounds in Ec. apply IH in E; [|lia]. rewrite Nat2Z.inj_succ, Z.pow_succ_r by lia. assert (0 < 10 ^ Z.of_nat w) by lia. nia.
Qed.
Lemma parse_iso_day_range s n : parse_iso_day s = Some n -> in_iso_range n.
Proof.
  unfold parse_iso_day. intros E. repeat case_match; simplify_eq. match goal with Hr : read_digits 4 0 _ = Some (?y, _) |- _ => apply read_digits_bounds in Hr as Hy; [|done] end.
  match goal with Hc : bool_decide (civil_of_day ?n = _) = true |- _ => apply bool_decide_eq_true in Hc; set (n' := n) in *; pose proof (civil_of_day_bounds _ _ _ _ Hc) as [] end.
  change (10 ^ Z.of_nat 4) with 10000 in Hy. unfold in_iso_range. split; apply Z.nlt_ge; intros Hlt%civil_code_mono.
  - change (civil_of_day (-719528)) with (0, 1, 1) in Hlt. match goal with Hc : civil_of_day n' = _ |- _ => rewrite Hc in Hlt end. unfold civil_code in Hlt. lia.
  - change (civil_of_day 2932896) with (9999, 12, 31) in Hlt. match goal with Hc : civil_of_day n' = _ |- _ => rewrite Hc in Hlt end. unfold civil_code in Hlt. lia.
Qed.
Lemma branch_date_range s t : toBranchDate s = Some t -> midnight t /\ in_iso_range (day_of t) /\ t <= OPEN_ENDED.
Proof.
  intros Ht. split; [by eapply toBranchDate_midnight|]. unfold toBranchDate in Ht. apply fmap_Some in Ht as (n & Hn%parse_iso_day_range & ->). rewrite day_of_midnight. split; [done|].
  unfold in_iso_range, OPEN_ENDED, DAY_MS in *. lia.
Qed.

Section Booking.
Context `{DecimalLib} `{TaxDb} `{Platform} {server : Z} `{!PlatformOk server} `{!ZonesWithinADay} `{Uuid}.

(** From any state with that stock, what [m] returns and commits satisfies [Q]. *)
Definition runs (d0 : Db) {A} (m : M A) (Q : Db -> A -> Prop) : Prop := forall d d' y, stable d0 d -> m d = Ok (d', y) -> Q d' y.
Lemma runs_bind {A B} d0 (m : M A) (k : A -> M B) Q : keeps stable m -> (forall x, runs d0 (k x) Q) -> runs d0 (bind m k) Q.
Proof. intros Hm Hk d d' y Hd (d1 & x & Hx & Hkx)%bind_Ok. eapply (Hk x d1); [|exact Hkx]. etrans; [exact Hd | by eapply Hm]. Qed.
Lemma runs_lift {A B} d0 (r : res A) (k : A -> M B) Q : (forall x, r = Ok x -> runs d0 (k x) Q) -> runs d0 (bind (lift r) k) Q.
Proof. intros Hk d d' y Hd (d1 & x & [Hx ->]%lift_Ok & Hkx)%bind_Ok. by eapply (Hk x). Qed.
Lemma create_row_stock n data d d' row : createReservationRow n data d = Ok (d', row) -> stable (booked row d) d'.
Proof.
  revert data d. induction n as [|n IH]; intros data d Hm; [discriminate|]. cbn [createReservationRow] in Hm.
  apply bind_Ok in Hm as (d1 & r & [Hrow ->]%lift_Ok & Hm). apply bind_Ok in Hm as (d2 & taken & [-> _]%findFirst_Ok & Hm). destruct taken as [t|].
  - destruct n as [|n]; [discriminate|]. apply bind_Ok in Hm as (d3 & m & Hn & Hm). pose proof (bs_confirmation stable _ _ _ Hn) as Hs. apply IH in Hm.
    unfold stable, stock in *. simpl in *. congruence.
  - apply bind_Ok in Hm as (d3 & i & [-> ->]%new_id_spec & Hm). apply bind_Ok in Hm as (d4 & [] & Hmod & Hret). injection Hmod as <-. injection Hret as <- <-. done.
Qed.
(** What the row just written leaves of its nights. *)
Definition fits (b t : string) (c : ReservationChannel) (into : option string) (today from to : Z) (d : Db) : Prop := forall night, night ∈ nights_between from to ->
  0 <= left_on d b t None into today night /\ (forall a, a ∈ channelAllotments d -> allots b t c night a -> channel_sold d b t c None night <= ChannelAllotment.rooms a).
Lemma fits_stable b t c into today from to d d' : stable d d' -> fits b t c into today from to d -> fits b t c into today from to d'.
Proof.
  intros Hs Hf night Hn. destruct (Hf night Hn) as [Hl Ha]. rewrite (left_on_stock _ _ _ _ _ _ _ _ Hs), (channel_sold_stock _ _ _ _ _ _ _ Hs). split; [done|]. intros a Hin. apply Ha.
  unfold stable, stock in Hs. congruence.
Qed.
Definition fits_row (b : string) (today : Z) (d : Db) (r : Reservation.t) : Prop := Reservation.branchId r = b /\
  fits b (Reservation.roomTypeId r) (Reservation.channel r) (Reservation.groupBlockId r) today (Reservation.checkInDate r) (Reservation.checkOutDate r) d.
(** The rest of the transaction touches none of the stock and hands the row back. *)
Definition returns (row : Reservation.t) (m : M Reservation.t) : Prop := forall d d' y, m d = Ok (d', y) -> stable d d' /\ y = row.
Lemma returns_bind {A} row (m : M A) k : keeps stable m -> (forall x, returns row (k x)) -> returns row (bind m k).
Proof. intros Hm Hk d d' y (d1 & x & Hx & Hkx)%bind_Ok. destruct (Hk x _ _ _ Hkx) as [Hs ->]. split; [|done]. etrans; [by eapply Hm | exact Hs]. Qed.
Lemma returns_ret row : returns row (ret row).
Proof. intros d d' y E. injection E as <- <-. done. Qed.
Lemma runs_create d0 n data k today :
  (forall night, night ∈ nights_between (Reservation.checkInDate data) (Reservation.checkOutDate data) ->
     1 <= left_on d0 (Reservation.branchId data) (Reservation.roomTypeId data) None (Reservation.groupBlockId data) today night) ->
  within_allotment d0 (Reservation.branchId data) (Reservation.roomTypeId data) (Reservation.channel data) None (Reservation.checkInDate data) (Reservation.checkOutDate data) ->
  (forall row, returns row (k row)) -> runs d0 (bind (createReservationRow n data) k) (fits_row (Reservation.branchId data) today).
Proof.
  intros Hleft Hwithin Hk d d' y Hd (d1 & row & Hm & Hkx)%bind_Ok. pose proof (create_row_stock _ _ _ _ _ Hm) as Hs. apply create_row_inv in Hm as (i & number & x & z & w & Erow & _).
  destruct (Hk row _ _ _ Hkx) as [Hs' ->]. split; [by rewrite Erow|]. eapply fits_stable; [exact Hs'|]. eapply fits_stable; [exact Hs|].
  replace (Reservation.checkInDate data) with (Reservation.checkInDate row) in * by (by rewrite Erow). replace (Reservation.checkOutDate data) with (Reservation.checkOutDate row) in * by (by rewrite Erow).
  replace (Reservation.branchId data) with (Reservation.branchId row) in * by (by rewrite Erow). replace (Reservation.roomTypeId data) with (Reservation.roomTypeId row) in * by (by rewrite Erow).
  replace (Reservation.groupBlockId data) with (Reservation.groupBlockId row) in * by (by rewrite Erow). replace (Reservation.channel data) with (Reservation.channel row) in * by (by rewrite Erow).
  clear Erow. intros night Hn. split.
  - specialize (Hleft night Hn). pose proof (left_on_booked d row (Reservation.branchId row) (Reservation.roomTypeId row) today night) as Hb. rewrite (left_on_stock _ _ _ _ _ _ _ _ Hd) in Hb. lia.
  - intros a Ha Hal. pose proof (channel_sold_booked d row (Reservation.branchId row) (Reservation.roomTypeId row) (Reservation.channel row) night) as Hb. rewrite (channel_sold_stock _ _ _ _ _ _ _ Hd) in Hb.
    unfold stable, stock in Hd. simpl in Ha. assert (channelAllotments d = channelAllotments d0) as E by congruence. rewrite E in Ha. specialize (Hwithin night a Hn Ha Hal). lia.
Qed.
(** The two checks in front of the row. *)
Lemma runs_available {A} d0 b t from to today ex into (k : unit -> M A) Q : NoDup (Room.id <$> rooms d0) -> dates_wf d0 ->
  toBranchDate (todayInTimezone (branch_zone d0 b) (clock d0)) = Some today -> midnight from -> in_iso_range (day_of from) -> to <= OPEN_ENDED ->
  ((forall night, night ∈ nights_between from to -> 1 <= left_on d0 b t ex into today night) -> runs d0 (k tt) Q) -> runs d0 (bind (assertAvailableForStay b t from to ex into) k) Q.
Proof.
  intros Hr Hw Ht Hm Hi Ho Hk d d' y Hd (d1 & [] & Hx & Hkx)%bind_Ok. pose proof Hd as Hd'. unfold stable, stock in Hd'. injection Hd' as E1 E2 E3 E4 E5 E6 E7 E8.
  apply (assertAvailableForStay_run (server := server) b t from to today) in Hx as [-> Hl]; [|by rewrite E1| |done|done|done|].
  - apply (Hk ltac:(intros night Hn; rewrite <- (left_on_stock d0 d) by done; by apply Hl) d); done.
  - destruct Hw as [Hin Hout]. split; rewrite E7; auto.
  - unfold branch_zone in *. by rewrite E4, E5.
Qed.
Lemma runs_allotment {A} d0 b t c from to ex (k : unit -> M A) Q : (within_allotment d0 b t c ex from to -> runs d0 (k tt) Q) -> runs d0 (bind (assertWithinAllotment b t c from to ex) k) Q.
Proof.
  intros Hk d d' y Hd (d1 & [] & Hx & Hkx)%bind_Ok. destruct (assertWithinAllotment_run b t c from to ex d) as [[Hw E]|[_ E]]; [|congruence].
  assert (d1 = d) as -> by congruence. apply (Hk ltac:(intros night a Hn Ha; specialize (Hw night a Hn); rewrite (channel_sold_stock d0 d) in Hw by done; unfold stable, stock in Hd;
    replace (channelAllotments d) with (channelAllotments d0) in Hw by congruence; auto) d); done.
Qed.

Lemma runs_assoc {A B C} d0 (m : M A) (n : A -> M B) (k : B -> M C) Q : runs d0 (bind m (fun x => bind (n x) k)) Q -> runs d0 (bind (bind m n) k) Q.
Proof.
  intros Hr d d' y Hd (d1 & x & (d2 & z & Hm & Hn)%bind_Ok & Hk)%bind_Ok. eapply Hr; [exact Hd|]. apply bind_Ok. exists d2, z. split; [done|]. apply bind_Ok. eauto.
Qed.
#[local] Hint Resolve er_new_id er_auditLog er_emit bs_log bs_audit bs_today bs_assertBranch bs_guest bs_snapshots bs_violation bs_type bs_capacity
  bs_range bs_block_open bs_resolve bs_link bs_deal bs_confirmation bs_price_room bs_blockPricing bs_hours bs_dayUsePricing bs_deposit : keeps.
Lemma booking_within_inventory_run b dto u into public d d' r today : NoDup (Room.id <$> rooms d) -> dates_wf d ->
  toBranchDate (todayInTimezone (branch_zone d b) (clock d)) = Some today -> cd_dayUse dto = false -> cd_joinWaitlist dto = false ->
  createReservation b dto u into public d = Ok (d', r) -> fits_row b today d' r.
Proof.
  intros Hrooms Hdates Htoday Hday Hwait Hrun. enough (runs d (createReservation b dto u into public) (fits_row b today)) as Hr by (by eapply Hr).
  clear Hrun. unfold createReservation. rewrite Hday, Hwait. unfold a_date. apply runs_lift. intros from Hfrom%or_throw_Ok%branch_date_range.
  apply runs_lift. intros to Hto%or_throw_Ok%branch_date_range. cbn beta iota zeta. apply runs_bind; [keeps_tac | intros _]. apply runs_lift. intros _ _. apply runs_lift. intros guestInput _.
  do 6 (apply runs_bind; [keeps_tac | intros ?]). apply runs_bind; [keeps_tac | intros block]. apply runs_assoc. apply (runs_available d _ _ _ _ today); [tauto..|]. intros Hleft.
  apply runs_allotment. intros Hwithin. do 5 (apply runs_bind; [keeps_tac | intros ?]). apply runs_create; [exact Hleft | exact Hwithin|]. intros row.
  do 3 (apply returns_bind; [keeps_tac | intros ?]). apply returns_ret.
Qed.

(** C3: A booking never takes what is not there. Whoever makes it and through
    whichever channel, once a reservation that is to hold a room is written,
    every one of its nights still fits: the stays that take a room of its type
    and what the other groups' blocks keep are within the rooms in service (or
    what overbooking makes of them), and its channel has sold no more than each
    allotment over that night gives it. *)
Theorem booking_within_inventory (b : string) (dto : CreateReservationDto) (u into : option string) (public : bool) (d d' : Db) (r : Reservation.t) (today : Z) :
  NoDup (Room.id <$> rooms d) -> dates_wf d -> toBranchDate (todayInTimezone (branch_zone d b) (clock d)) = Some today -> cd_dayUse dto = false -> cd_joinWaitlist dto = false ->
  createReservation b dto u into public d = Ok (d', r) ->
  forall night, night ∈ nights_between (Reservation.checkInDate r) (Reservation.checkOutDate r) ->
  stays_on d' b (Reservation.roomTypeId r) None night + groups_keep d' b (Reservation.roomTypeId r) (Reservation.groupBlockId r) today night <= capacity_on d' b (Reservation.roomTypeId r) night /\
  forall a, a ∈ channelAllotments d' -> allots b (Reservation.roomTypeId r) (Reservation.channel r) night a -> channel_sold d' b (Reservation.roomTypeId r) (Reservation.channel r) None night <= ChannelAllotment.rooms a.
Proof.
  intros Hrooms Hdates Htoday Hday Hwait Hrun night Hn. destruct (booking_within_inventory_run _ _ _ _ _ _ _ _ _ Hrooms Hdates Htoday Hday Hwait Hrun) as [_ Hf].
  destruct (Hf night Hn) as [Hl Ha]. unfold left_on in Hl. split; [lia | exact Ha].
Qed.
End Booking.

Module NoOverbookingWitness.
Import Hotel InventoryWitness LifecycleWitness.
(** Ada, in 101 for two nights, books the house's other room over the second. *)
Definition another : CreateReservationDto := {|
  cd_guestId := Some "g1"; cd_guest := None; cd_roomTypeId := "rt1"; cd_checkInDate := "2024-10-05"; cd_checkOutDate := "2024-10-07"; cd_adults := 2; cd_children := None;
  cd_channel := None; cd_joinWaitlist := false; cd_dayUse := false; cd_packageIds := None; cd_promoCode := None; cd_corporateAccountId := None |}.
Lemma another_ok : is_ok (createReservation "b1" another (Some "u1") None false hotel) = true.
Proof. vm_compute. reflexivity. Qed.
Definition full_house : Db := after (createReservation "b1" another (Some "u1") None false) hotel.
(** The night of the 5th is full, and a third booking is turned away. *)
Lemma booking_within_inventory_witness : exists r, createReservation "b1" another (Some "u1") None false hotel = Ok (full_house, r) /\
  (forall night, night ∈ nights_between (Reservation.checkInDate r) (Reservation.checkOutDate r) ->
     stays_on full_house "b1" (Reservation.roomTypeId r) None night + groups_keep full_house "b1" (Reservation.roomTypeId r) (Reservation.groupBlockId r) (day 20001) night
     <= capacity_on full_house "b1" (Reservation.roomTypeId r) night) /\
  is_ok (createReservation "b1" another (Some "u1") None false full_house) = false.
Proof.
  destruct (after_ok _ _ another_ok) as [r Hr]. exists r. split; [exact Hr|]. split; [|vm_compute; reflexivity]. intros night Hn.
  refine (proj1 (booking_within_inventory (server := 0) "b1" another (Some "u1") None false hotel full_house r (day 20001) _ _ _ eq_refl eq_refl Hr night Hn)).
  - apply (bool_decide_unpack _). vm_compute. exact I.
  - split; intros x Hx; simpl in Hx; apply list_elem_of_singleton in Hx as ->; vm_compute; reflexivity.
  - vm_compute. reflexivity.
Defined.
End NoOverbookingWitness.
