(* ===== verification/StayMoney.v ===== *)
(** What ending a stay does to its bill: a cancellation charges the quote. *)
From stdpp Require Import pretty.
From Stdlib Require Import QArith Qcanon.
From S2P Require Import Prelude Decimal Json Dates StayPolicies Taxes Authority Transactions Db LoyaltyRules Packages Folios FolioLedger FolioFigures FolioEffects FolioPayments Notices SampleHotel Loyalty Refunds Pos Rooms Housekeeping SalesRules Inventory Rates Guests Bookings StayChanges StayEnds Frames Lifecycle.
Import StayFees StayFeesProps.
Local Open Scope Z_scope.

(** Nothing is charged or paid, and a stay's own bill stays its own bill. *)
Record same_money (s : string) (d d' : Db) : Prop := {
  sm_lines : lineItems d' = lineItems d;
  sm_payments : payments d' = payments d;
  sm_rules : taxRules d' = taxRules d;
  sm_primary f : f ∈ folios d -> primary_of s f = true -> exists f', f' ∈ folios d' /\ Folio.id f' = Folio.id f /\ primary_of s f' = true;
}.
#[global] Instance same_money_preorder s : PreOrder (same_money s).
Proof.
  split; [split; eauto|]. intros a b c [L P R F] [L' P' R' F']. split; [congruence..|]. intros f Hf Hp. destruct (F f Hf Hp) as (f1 & Hf1 & E1 & Hp1).
  destruct (F' f1 Hf1 Hp1) as (f2 & Hf2 & E2 & Hp2). exists f2. split; [done|]. split; [congruence | done].
Qed.
Lemma same_money_balance s d d' g : same_money s d d' -> balance d' g = balance d g.
Proof. intros [L P _ _]. unfold balance, charges_on, paid_on. by rewrite L, P. Qed.
Lemma money_write s f : (forall d, lineItems (f d) = lineItems d) -> (forall d, payments (f d) = payments d) -> (forall d, taxRules (f d) = taxRules d) -> (forall d, folios (f d) = folios d) -> keeps (same_money s) (modify f).
Proof. intros L P R F. apply keeps_modify. intros d. split; [auto..|]. intros x Hx Hp. rewrite F. eauto. Qed.
Ltac elsewhere := by apply money_write.
Lemma money_bill s w f : (forall x, Folio.id (f x) = Folio.id x /\ primary_of s (f x) = primary_of s x) -> keeps (same_money s) (modify (upd_folios (update_where w f))).
Proof.
  intros Hf. apply keeps_modify. intros d. split; [done..|]. intros x Hx Hp. exists (if w x then f x else x). split; [unfold update_where; simpl; apply list_elem_of_fmap; eauto|].
  destruct (w x); [|done]. destruct (Hf x) as [-> ->]. done.
Qed.

Section Charged.
Context `{DecimalLib} `{TaxDb} `{!TaxDbOk} `{Platform} `{Uuid}.
Lemma money_audit s b u a i : keeps (same_money s) (Folios.audit b u a i).
Proof. unfold Folios.audit, paymentRecorded, emit, auditLog, new_id. keeps_tac; elsewhere. Qed.
Lemma money_stay_audit s b u a i : keeps (same_money s) (reservation_audit b u a i).
Proof. unfold reservation_audit, reservationChanged, emit, auditLog, new_id. keeps_tac; elsewhere. Qed.
Lemma money_log s b r g t : keeps (same_money s) (logAutomatedInTx b r g t).
Proof. unfold logAutomatedInTx. keeps_tac; elsewhere. Qed.
#[local] Hint Resolve money_audit money_stay_audit money_log : keeps.
Lemma money_settle s f u : keeps (same_money s) (settleIfFullyPaid f u).
Proof. unfold settleIfFullyPaid, computeTotals, now. keeps_tac. by apply money_bill. Qed.
Lemma primary_run s r u : Reservation.id r = s -> forall d d' f, ensurePrimaryFolio r u d = Ok (d', f) ->
  same_money s d d' /\ exists f', f' ∈ folios d' /\ Folio.id f' = Folio.id f /\ primary_of s f' = true.
Proof.
  intros Hs d d' f Hm. unfold ensurePrimaryFolio in Hm. apply bind_Ok in Hm as (d1 & o & [-> Ho]%findFirst_Ok & Hm). apply bind_Ok in Hm as (d2 & at_ & Hnow & Hm). injection Hnow as <- <-.
  destruct o as [x|].
  - symmetry in Ho. apply find_Some in Ho as [Hin Hp]. rewrite Hs in Hp. assert (primary_of s x = true) as Hpx by (exact Hp). clear Hp. destruct (_ || _).
    + injection Hm as <- <-. split; [done | eauto].
    + apply bind_Ok in Hm as (d3 & [] & Hmod & Hret). injection Hret as <- <-. assert (same_money s d d3) as Hsm by (eapply (money_bill s); [|exact Hmod]; done). split; [done|].
      exact (sm_primary _ _ _ Hsm x Hin Hpx).
  - apply bind_Ok in Hm as (d3 & i & [-> ->]%new_id_spec & Hm). apply bind_Ok in Hm as (d4 & [] & Hmod & Hm). injection Hmod as <-.
    apply bind_Ok in Hm as (d5 & [] & Ha%(money_audit s) & Hret). injection Hret as <- <-. set (x := Folio.Build_t _ _ _ _ _ _ _ _ _ _ _) in *.
    assert (primary_of s x = true) as Hx by (unfold primary_of; simpl; by rewrite bool_decide_eq_true_2).
    destruct (sm_primary _ _ _ Ha x) as (f' & Hf' & E & Hp); [simpl; apply elem_of_app; right; apply list_elem_of_singleton; done | done|].
    split; [|eauto]. etrans; [|exact Ha]. split; [done..|]. intros y Hy Hpy. exists y. split; [simpl; apply elem_of_app; by left | done].
Qed.

Lemma charge_total_cents p : charge_balanced p -> (exists z, price p = cents z) -> exists z, total p = cents z.
Proof. intros Hb Hp. destruct (charge_cents _ Hb Hp) as [[a Ha] [b Hb']]. exists (a + b). rewrite (total_net _ Hb), Ha, Hb'. apply decimal_plus. Qed.
(** A priced penalty, printed and read back, is itself. *)
Lemma printed_charge p a rules b ct : charge_ok rules a 1 -> priceCharge rules b ct a 1 = Ok p -> printed (total p) = total p /\ printed a = a.
Proof.
  intros Hok Hp. destruct (charge_balances _ _ _ _ _ _ Hok Hp) as [Hb Ha]. destruct (ok_price _ _ _ Hok) as (z & _ & Hz). unfold printed.
  destruct (charge_total_cents p Hb) as [t Ht]; [rewrite Ha; by exists z|]. by rewrite Ht, Hz, !dp2_cents.
Qed.
Lemma quote_inv r branch at_ d d' q : buildCancellationQuote r branch at_ d = Ok (d', q) -> d' = d /\ exists p,
  priceCharge (taxRules d) (Reservation.branchId r) penalty (Cancellation.penaltyAmount (cq_terms q)) 1 = Ok p /\
  cq_penaltyAmount q = printed (Cancellation.penaltyAmount (cq_terms q)) /\ cq_penaltyTotal q = printed (total p).
Proof.
  unfold buildCancellationQuote, previewCharge, paidOnPrimaryFolio, computeTotals. intros Hm. apply bind_Ok in Hm as (d1 & terms & [_ ->]%lift_Ok & Hm).
  apply bind_Ok in Hm as (d1 & p & Hp & Hm). apply bind_Ok in Hp as (d2 & rules & Hr & [Hp ->]%lift_Ok). injection Hr as <- <-.
  apply bind_Ok in Hm as (d2 & paid & Hpaid & Hm). injection Hm as <- <-. split; [|eauto].
  apply bind_Ok in Hpaid as (d3 & o & [-> _]%findFirst_Ok & Hpaid). destruct o as [f|]; [|by injection Hpaid as <- <-]. apply bind_Ok in Hpaid as (d4 & t & Ht & Hret). injection Hret as <- <-.
  by injection Ht as <- <-.
Qed.
Lemma update_stay_money s r f d d' row : update_stay r f d = Ok (d', row) -> same_money s d d'.
Proof. intros (-> & _)%update_stay_inv. split; [done..|]. intros x Hx Hp. eauto. Qed.

(** The bill once the penalty is posted and, when nothing is left to pay, settled. *)
Lemma penalty_posted r folio a u d d' (x y : Qc) : charge_ok (taxRules d) a 1 -> dis_zero a = false ->
  bind (postAdHocCharge r folio penalty a u) (fun _ => bind (settleIfFullyPaid folio u) (fun _ => ret x)) d = Ok (d', y) -> forall s f,
  f ∈ folios d -> Folio.id f = Folio.id folio -> primary_of s f = true -> exists p, priceCharge (taxRules d) (Reservation.branchId r) penalty a 1 = Ok p /\
  (exists f', f' ∈ folios d' /\ Folio.id f' = Folio.id folio /\ primary_of s f' = true) /\ forall g, balance d' g = (balance d g + if_on (Folio.id folio) g (total p))%Qc.
Proof.
  intros Hok Hz Hm s f Hf Ef Hp. apply bind_Ok in Hm as (d1 & line & Hpost & Hm). apply bind_Ok in Hm as (d2 & b & Hset%(money_settle s) & Hret). injection Hret as <- _.
  destruct line as [l|].
  - unfold postAdHocCharge in Hpost. pose proof (writeCharge_rows _ _ _ _ Hpost) as [Hfr _]. destruct (posting_quoted (plain_charge _ _ _ _ _ _ _) _ _ _ Hok Hpost) as (p & Hq & Hb & _ & Hbal). exists p.
    unfold previewCharge in Hq. apply bind_Ok in Hq as (d3 & rules & Hr & [Hq _]%lift_Ok). injection Hr as <- <-. split; [exact Hq|]. split.
    + rewrite <- Ef. apply (sm_primary _ _ _ Hset); [by rewrite (fr_folios _ _ Hfr) | done].
    + intros g. rewrite (same_money_balance _ _ _ _ Hset). apply Hbal.
  - exfalso. apply writeCharge_inv in Hpost as [(_ & _ & Hz')|(? & ? & ? & ? & ? & Hrest)]; [simpl in Hz'; rewrite Hz' in Hz; by vm_compute in Hz|]. destruct Hrest as (_ & _ & _ & _ & _ & Hsome). discriminate Hsome.
Qed.

(** Whether a cancellation is charged: there is a penalty and no reason to waive it. *)
Definition charges (opts : CancelOpts) (q : CancellationQuote) : bool := negb (dis_zero (cq_penaltyAmount q)) && negb (isSome (set_string (co_waiver opts))).

(** C35: A cancellation costs what was quoted. When a stay is cancelled it is
    cancelled at the terms the quote for that moment shows (those the guest
    agreed to, when a figure was agreed); if they carry a penalty that is not
    waived, the stay's own bill then owes exactly the quoted total more, tax
    included, and no other bill changes; otherwise no bill changes at all. *)
Theorem cancellation_as_quoted (i : string) (opts : CancelOpts) (d d' : Db) (r : Reservation.t) (q : CancellationQuote) (charged : Qc) :
  charge_ok (taxRules d) (Cancellation.penaltyAmount (cq_terms q)) 1 -> cancelInTx i opts d = Ok (d', (r, q, charged)) ->
  Reservation.status r = cancelled /\ quoteCancellationInTx i (clock d) d = Ok (d, q) /\ (forall x, co_acknowledgedPenaltyTotal opts = Some x -> x = cq_penaltyTotal q) /\
  if charges opts q then charged = cq_penaltyTotal q /\ exists f, f ∈ folios d' /\ primary_of i f = true /\ forall g, balance d' g = (balance d g + if_on (Folio.id f) g (cq_penaltyTotal q))%Qc
  else charged = 0%Qc /\ forall g, balance d' g = balance d g.
Proof.
  intros Hok Hm. unfold cancelInTx in Hm. apply bind_Ok in Hm as (d1 & r0 & Hfind & Hm). pose proof (find_stay_inv _ _ _ _ Hfind) as (-> & _ & Hid).
  apply bind_Ok in Hm as (d1 & [] & [_ ->]%lift_Ok & Hm). apply bind_Ok in Hm as (d1 & branch & Hbranch & Hm). pose proof Hbranch as [-> _]%orThrow_Ok%findFirst_Ok.
  apply bind_Ok in Hm as (d1 & at_ & Hnow & Hm). injection Hnow as <- <-. apply bind_Ok in Hm as (d1 & quote & Hquote & Hm). pose proof (quote_inv _ _ _ _ _ _ Hquote) as [-> (p & Hp & Ea & Et)].
  apply bind_Ok in Hm as (d1 & [] & [Hack%throw_if_Ok ->]%lift_Ok & Hm). apply bind_Ok in Hm as (d1 & row & Hupd & Hm).
  pose proof (update_stay_money i _ _ _ _ _ Hupd) as Hsm. apply update_stay_inv in Hupd as (_ & _ & x & y & z & ->).
  apply bind_Ok in Hm as (d2 & c & Hcharge & Hm). apply bind_Ok in Hm as (d3 & [] & Haud%(money_stay_audit i) & Hm). apply bind_Ok in Hm as (d4 & [] & Hlog%(money_log i) & Hret).
  injection Hret as <- <- <- <-. assert (same_money i d2 d4) as Hend by (etrans; eauto).
  split; [done|]. split; [unfold quoteCancellationInTx; by rewrite (bind_run _ _ _ _ _ Hfind), (bind_run _ _ _ _ _ Hbranch)|]. split.
  { intros a Ha. rewrite Ha in Hack. by apply negb_false_iff, bool_decide_eq_true in Hack. }
  destruct (printed_charge _ _ _ _ _ Hok Hp) as [Ept Epa]. rewrite Ept in Et. rewrite Epa in Ea. unfold charges. rewrite Ea in *.
  destruct (dis_zero (Cancellation.penaltyAmount (cq_terms quote))) eqn:Ez, (isSome (set_string (co_waiver opts))) eqn:Ew; simpl in Hcharge |- *.
  1-3: injection Hcharge as <- <-; split; [done|]; intros g; rewrite (same_money_balance _ _ _ _ Hend); apply (same_money_balance _ _ _ _ Hsm).
  apply bind_Ok in Hcharge as (d5 & folio & Hfolio & Hcharge). destruct (primary_run i (Reservation.with_money x y z (Reservation.with_status cancelled r0)) _ Hid _ _ _ Hfolio) as (Hsm' & f & Hf & Ef & Hpf).
  assert (c = cq_penaltyTotal quote) as -> by (by apply bind_Ok in Hcharge as (? & ? & _ & (? & ? & _ & [= _ <-])%bind_Ok)). split; [done|].
  assert (taxRules d5 = taxRules d) as Er by (by rewrite (sm_rules _ _ _ Hsm'), (sm_rules _ _ _ Hsm)).
  rewrite <- Er in Hok, Hp. destruct (penalty_posted _ _ _ _ _ _ _ _ Hok Ez Hcharge i f Hf Ef Hpf) as (p' & Hp' & (f' & Hf' & Ef' & Hpf') & Hbal).
  assert (p' = p) as -> by (simpl in Hp'; congruence). destruct (sm_primary _ _ _ Hend f' Hf' Hpf') as (f2 & Hf2 & E2 & Hp2). exists f2. split; [done|]. split; [done|].
  intros g. rewrite (same_money_balance _ _ _ _ Hend), Hbal, (same_money_balance _ _ _ _ Hsm'), (same_money_balance _ _ _ _ Hsm), Et. by rewrite E2, Ef'.
Qed.
End Charged.

Module StayMoneyWitness.
Import Hotel LedgerWitness FiguresWitness PostingWitness LifecycleWitness.
(** A stay confirmed for the night of day 20001 at 75.00 and cancelled that morning, past its free window. *)
Definition d_due : Db := upd_reservations (fmap (fun r => Reservation.with_check_in confirmed None None "rt1" None None r)) hotel.
Definition by_desk : CancelOpts := {| co_actorId := Some "u1"; co_waiver := None; co_acknowledgedPenaltyTotal := None |}.
Lemma called_off_ok : is_ok (cancelInTx "s1" by_desk d_due) = true.
Proof. vm_compute. reflexivity. Qed.
Definition quote_due : CancellationQuote := match cancelInTx "s1" by_desk d_due with Ok (_, (_, q, _)) => q | Err _ => Build_CancellationQuote false Cancellation.DEFAULT_CANCELLATION_POLICY (Cancellation.Build_CancellationTerms 0 0 false false Cancellation.none 0%Qc) 0 0 0 0 0 0 0 end.
(** The penalty is the first night, 75.00. *)
Lemma due_charge_ok : this (Cancellation.penaltyAmount (cq_terms quote_due)) = this (cents 7500).
Proof. vm_compute. reflexivity. Qed.
Lemma cancellation_as_quoted_witness : exists d' r charged, cancelInTx "s1" by_desk d_due = Ok (d', (r, quote_due, charged)) /\ Reservation.status r = cancelled /\
  exists f, f ∈ folios d' /\ primary_of "s1" f = true /\ forall g, balance d' g = (balance d_due g + if_on (Folio.id f) g (cq_penaltyTotal quote_due))%Qc.
Proof.
  assert (charge_ok (taxRules d_due) (Cancellation.penaltyAmount (cq_terms quote_due)) 1) as Hok.
  { replace (Cancellation.penaltyAmount (cq_terms quote_due)) with (cents 7500) by (apply Qc_is_canon; rewrite due_charge_ok; reflexivity). apply hotel_charge_ok. unfold NUMERIC_12_2. lia. }
  assert (charges by_desk quote_due = true) as Hc by (vm_compute; reflexivity).
  pose proof called_off_ok as H. unfold quote_due in *. destruct (cancelInTx "s1" by_desk d_due) as [[d' [[r q] charged]]|e] eqn:E; [|done].
  destruct (cancellation_as_quoted "s1" by_desk d_due d' r q charged Hok E) as (Hs & _ & _ & Hrest). rewrite Hc in Hrest. destruct Hrest as [_ Hf]. exists d', r, charged. exact (conj eq_refl (conj Hs Hf)).
Defined.
End StayMoneyWitness.
