(* ===== verification/Books.v ===== *)
(** The books and the house together: the operations on stays are operations on
    the ledger too, and keep it well formed. *)
From stdpp Require Import pretty.
From Stdlib Require Import QArith Qcanon.
From S2P Require Import Prelude Decimal Json Dates StayPolicies Taxes Authority Transactions Db LoyaltyRules Packages Folios FolioLedger FolioPayments Notices SampleHotel Loyalty Refunds Rooms Housekeeping SalesRules Inventory Rates Guests Bookings StayChanges StayEnds Frames Lifecycle.
Import StayFees StayFeesProps.
Local Open Scope Z_scope.

(** The stays and the rooms are written freely. *)
Class StayWrites (R : Db -> Db -> Prop) : Prop := {
  sw_stays g d : R d (upd_reservations g d);
  sw_rooms g d : R d (upd_rooms g d);
}.
#[global] Instance wf_stays `{Uuid} : StayWrites wf_keep.
Proof. split; intros; by apply wf_other. Qed.

Section Books.
Context `{DecimalLib} `{TaxDb} `{Platform} `{Uuid} (encrypt : string -> string) (no_show_label : LineItem.t -> bool).
Context (R : Db -> Db -> Prop) `{!Upkeep R} `{!Billing R} `{!StayWrites R}.
#[local] Hint Resolve er_new_id er_auditLog er_emit er_folio_audit op_ensurePrimaryFolio op_postRoomChargeForDate
  bs_log bs_audit bs_card bs_today bs_assertBranch bs_guest bs_document bs_snapshots bs_violation bs_extension bs_allotment bs_available bs_dayUse bs_ready bs_type bs_capacity
  bs_range bs_block_open bs_in_block bs_resolve bs_link bs_deal bs_confirmation bs_price_room bs_blockPricing bs_repriced bs_hours bs_dayUsePricing bs_deposit bs_pinned
  bs_plan bs_fees bs_apply bs_earn bs_preview bs_totals bs_paid bs_quote bs_refundable bs_request bs_find_stay bs_folio
  uk_clean uk_task uk_supersede uk_turndown uk_settle_in
  op_backfillRoomCharges op_postAdHocCharge op_postChargeInTx op_settleIfFullyPaid op_reverseCharge op_postPackagesForDate op_createAdditionalFolio : keeps.
Ltac writing := apply keeps_modify; intros; first [apply sw_stays | apply sw_rooms | apply bs_no_shows | apply bs_walks].
Lemma sw_update r f : keeps R (update_stay r f).
Proof. unfold update_stay. keeps_tac. writing. Qed.
Lemma sw_create n data : keeps R (createReservationRow n data).
Proof.
  revert data. induction n as [|n IH]; intros data; cbn [createReservationRow]; [apply keeps_raise|]. keeps_tac; writing.
Qed.
Lemma sw_occupy i o c u : keeps R (applyReservationOccupancy i o c u).
Proof. unfold applyReservationOccupancy, findRoom, Rooms.audit, now. keeps_tac; writing. Qed.
#[local] Hint Resolve sw_update sw_create sw_occupy : keeps.
Lemma sw_no_show r p a u : keeps R (markNoShowInTx r p a u).
Proof. unfold markNoShowInTx, now. keeps_tac. writing. Qed.
Lemma sw_waive record u : keeps R (waiveNoShowPenaltyInTx no_show_label record u).
Proof. unfold waiveNoShowPenaltyInTx. keeps_tac; writing. Qed.
Lemma sw_check_in i dto u : keeps R (checkInInTx encrypt i dto u).
Proof. unfold checkInInTx, now. keeps_tac. Qed.
#[local] Hint Resolve sw_no_show sw_waive sw_check_in : keeps.
Lemma stay_op_keeps {A} (m : M A) : stay_op encrypt no_show_label m -> keeps R m.
Proof.
  destruct 1; unfold createReservation, walkIn, checkInGroup, checkOut, cancelInTx, markNoShow, waiveNoShowPenalty, reinstateFromNoShow, walkReservation, modifyReservation,
    promoteFromWaitlist, extendStay, moveRoom, setRateOverride, setPackages, assertMovable, date_or, a_date, now; keeps_tac; writing.
Qed.
End Books.
