(* ===== verification/NightAudit.v ===== *)
(** The night audit: closing a branch's night
    (src/src/modules/night-audit/night-audit.service.ts). *)
From stdpp Require Import pretty.
From Stdlib Require Import QArith Qcanon.
From S2P Require Import Prelude Decimal Json Dates StayPolicies Taxes Authority Transactions Db LoyaltyRules Packages Folios FolioLedger FolioEffects FolioNights FolioPayments Notices SampleHotel Loyalty Refunds Rooms Housekeeping SalesRules Inventory Rates Guests Bookings StayChanges StayEnds Frames Lifecycle Books.
Import StayFees StayFeesProps.
Local Open Scope Z_scope.

Definition CATCH_UP_DAYS : Z := 7.
Definition STAY_BATCH : nat := 25.
Definition STALE_RUN_MS : Z := 10 * 60000.
Definition NUMERIC_14_2 : Z := 10 ^ 14.
Definition audit_ran : error := Throw ConflictException AUDIT_ALREADY_RAN.

(** [inBatches(items, size)] *)
Fixpoint batches_of {A} (fuel size : nat) (l : list A) : list (list A) :=
  match fuel, l with
  | S fuel, _ :: _ => take size l :: batches_of fuel size (drop size l)
  | _, _ => []
  end.
Definition inBatches {A} (l : list A) (size : nat) : list (list A) := batches_of (length l) size l.

(** [orderBy: { id: 'asc' }] *)
Fixpoint insert_id (i : string) (l : list string) : list string :=
  match l with [] => [i] | j :: l => if String.leb i j then i :: j :: l else j :: insert_id i l end.
Definition sort_ids (l : list string) : list string := foldr insert_id [] l.

Record AuditClaim := { cl_logId : string; cl_chargesPosted : Z; cl_totalAmountPosted : Qc }.
Record BatchDone := { bd_processed : Z; bd_posted : Z; bd_amount : Qc; bd_errors : list (string * string) }.
Record NightAuditRunResult := {
  rr_auditDate : string; rr_foliosProcessed : Z; rr_chargesPosted : Z; rr_totalAmountPosted : Qc; rr_noShowsMarked : Z;
  rr_errors : list (string * string); rr_status : NightAuditStatus }.

(** A transaction or a savepoint of its own: what fails inside it is rolled back, and the caller goes on. *)
Definition attempt {A} (m : M A) : M (A + error) := fun d => match m d with Ok (d', a) => Ok (d', inl a) | Err e => Ok (d, inr e) end.

Definition audit_row (b : string) (date : Z) (x : NightAuditLog.t) : bool := bool_decide (NightAuditLog.branchId x = b) && bool_decide (NightAuditLog.auditDate x = date).
Definition log_where (i : string) (x : NightAuditLog.t) : bool := bool_decide (NightAuditLog.id x = i).
(** Who is in the house that night, and who was to have come by then. *)
Definition in_house_on (b : string) (date : Z) (r : Reservation.t) : bool :=
  bool_decide (Reservation.branchId r = b) && isNone (Reservation.deletedAt r) && bool_decide (Reservation.status r = checked_in) && (Reservation.checkInDate r <=? date).
Definition unarrived_by (b : string) (date : Z) (r : Reservation.t) : bool :=
  bool_decide (Reservation.branchId r = b) && isNone (Reservation.deletedAt r) && bool_decide (Reservation.status r = confirmed) && (Reservation.checkInDate r <=? date).

Section NightAudit.
Context `{DecimalLib} `{TaxDb} `{Platform} `{Uuid}.
(** [error.message]; the texts are not modelled. *)
Context (reasonOf : error -> string).
(** Whether the database was lost during a run's [k]-th transaction. *)
Context (outage : nat -> option error).

Definition transaction {A} (k : nat) (m : M A) : M (A + error) := attempt (match outage k with Some e => raise e | None => m end).

Definition yesterdayForBranch (timezone : string) (at_ : Z) : res string :=
  let? today := or_throw (toBranchDate (todayInTimezone timezone at_)) internal in Ok (iso_date (today - DAY_MS)).

Definition claimRun (b : string) (auditDate : Z) (triggeredBy : option string) : M AuditClaim :=
  let! branch := assertBranch b in
  let! at_ := now in
  let! latest := lift (yesterdayForBranch (Branch.timezone branch) at_) in
  throw! invalid when String.ltb latest (iso_date auditDate) in
  let! existing := findFirst nightAuditLogs (audit_row b auditDate) in
  match existing with
  | Some x =>
      throw! audit_ran when bool_decide (NightAuditLog.status x = audit_completed) in
      let staleBefore := at_ - STALE_RUN_MS in
      throw! conflict when (bool_decide (NightAuditLog.status x = audit_running) && (staleBefore <=? NightAuditLog.triggeredAt x)) in
      let mine y := log_where (NightAuditLog.id x) y && bool_decide (NightAuditLog.status y = NightAuditLog.status x) &&
                    (if bool_decide (NightAuditLog.status x = audit_running) then NightAuditLog.triggeredAt y <? staleBefore else true) in
      let! taken := findMany nightAuditLogs mine in
      do! modify (upd_nightAuditLogs (update_where mine (NightAuditLog.with_taken audit_running at_ triggeredBy None None))) in
      throw! conflict when bool_decide (length taken = 0%nat) in
      ret {| cl_logId := NightAuditLog.id x; cl_chargesPosted := default 0 (NightAuditLog.chargesPosted x);
             cl_totalAmountPosted := default 0%Qc (NightAuditLog.totalAmountPosted x) |}
  | None =>
      let! i := new_id in
      do! modify (upd_nightAuditLogs (fun l => l ++ [{|
        NightAuditLog.id := i; NightAuditLog.branchId := b; NightAuditLog.auditDate := auditDate; NightAuditLog.triggeredBy := triggeredBy; NightAuditLog.triggeredAt := at_;
        NightAuditLog.status := audit_running; NightAuditLog.foliosProcessed := None; NightAuditLog.chargesPosted := None; NightAuditLog.totalAmountPosted := None;
        NightAuditLog.errors := None; NightAuditLog.completedAt := None |}])) in
      ret {| cl_logId := i; cl_chargesPosted := 0; cl_totalAmountPosted := 0%Qc |}
  end.

(** One stay of a batch: its night, then its housekeeping, each under its own savepoint. *)
Definition bill_night (auditDate : Z) (triggeredBy : option string) (r : Reservation.t) : M (option LineItem.t) :=
  let! folio := ensurePrimaryFolio r triggeredBy in
  postRoomChargeForDate r folio auditDate triggeredBy.
Definition serve_room (b : string) (serviceDate : Z) (scope : option TurndownScope) (r : Reservation.t) (roomId : string) : M unit :=
  let! _ := ensureStayoverTaskInTx b roomId (Reservation.id r) serviceDate in
  let! guest := findFirst guests (guest_where (Reservation.guestId r)) in
  if negb (Reservation.isDayUse r) && (serviceDate <? Reservation.checkOutDate r) && wantsTurndown scope (g ← guest; GuestProfile.vipLevel g) then
    let! _ := ensureTurndownTaskInTx b roomId (Reservation.id r) serviceDate in ret tt
  else ret tt.
Definition closeStay (b : string) (auditDate : Z) (triggeredBy : option string) (scope : option TurndownScope) (done : BatchDone) (r : Reservation.t) : M BatchDone :=
  let! posted := attempt (bill_night auditDate triggeredBy r) in
  let done := match posted with
              | inl (Some l) => {| bd_processed := bd_processed done + 1; bd_posted := bd_posted done + 1;
                                   bd_amount := (bd_amount done ⊕ LineItem.amount l) ⊕ LineItem.taxAmount l; bd_errors := bd_errors done |}
              | inl None => {| bd_processed := bd_processed done + 1; bd_posted := bd_posted done; bd_amount := bd_amount done; bd_errors := bd_errors done |}
              | inr e => {| bd_processed := bd_processed done; bd_posted := bd_posted done; bd_amount := bd_amount done; bd_errors := bd_errors done ++ [(Reservation.id r, reasonOf e)] |}
              end in
  match set_string (Reservation.roomId r) with
  | None => ret done
  | Some roomId =>
      let! served := attempt (serve_room b (auditDate + DAY_MS) scope r roomId) in
      ret (match served with
           | inl _ => done
           | inr e => {| bd_processed := bd_processed done; bd_posted := bd_posted done; bd_amount := bd_amount done;
                         bd_errors := bd_errors done ++ [(Reservation.id r, "Housekeeping task: " +:+ reasonOf e)] |}
           end)
  end.
Definition closeBatch (b : string) (auditDate : Z) (triggeredBy : option string) (scope : option TurndownScope) (logId : string) (chargesPosted : Z) (total : Qc) (ids : list string) : M BatchDone :=
  let! stays := findMany reservations (fun r => includes (Reservation.id r) ids && in_house_on b auditDate r) in
  let! done := for_each stays {| bd_processed := 0; bd_posted := 0; bd_amount := 0%Qc; bd_errors := [] |} (closeStay b auditDate triggeredBy scope) in
  let! stored := lift (numeric_col NUMERIC_14_2 (total ⊕ bd_amount done)) in
  do! modify (upd_nightAuditLogs (update_where (log_where logId) (NightAuditLog.with_totals (Some (chargesPosted + bd_posted done)) (Some stored)))) in
  ret done.

(** The run so far: stays processed, charges and their total, what went wrong, whether something was left, the transactions made. *)
Record Run := { ru_processed : Z; ru_posted : Z; ru_total : Qc; ru_errors : list (string * string); ru_unfinished : bool; ru_tx : nat }.
Definition next_tx (s : Run) : Run :=
  {| ru_processed := ru_processed s; ru_posted := ru_posted s; ru_total := ru_total s; ru_errors := ru_errors s; ru_unfinished := ru_unfinished s; ru_tx := S (ru_tx s) |}.
Definition left_over (what : string) (ids : list string) (e : error) (s : Run) : Run :=
  {| ru_processed := ru_processed s; ru_posted := ru_posted s; ru_total := ru_total s; ru_errors := ru_errors s ++ ((fun i => (i, what +:+ reasonOf e)) <$> ids);
     ru_unfinished := true; ru_tx := S (ru_tx s) |}.
Definition closeStays (b : string) (auditDate : Z) (triggeredBy : option string) (scope : option TurndownScope) (logId : string) (s : Run) (ids : list string) : M Run :=
  let! batch := transaction (ru_tx s) (closeBatch b auditDate triggeredBy scope logId (ru_posted s) (ru_total s) ids) in
  ret (match batch with
       | inl done => {| ru_processed := ru_processed s + bd_processed done; ru_posted := ru_posted s + bd_posted done; ru_total := ru_total s ⊕ bd_amount done;
                        ru_errors := ru_errors s ++ bd_errors done; ru_unfinished := ru_unfinished s; ru_tx := S (ru_tx s) |}
       | inr e => left_over "Not closed this run, run it again: " ids e s
       end).

(** ** No-shows *)
Definition autoMark (policy : option json) : bool := match as_bool (member "autoMark" policy) with Some false => false | _ => true end.
Definition markOne (policy : option json) (triggeredBy : option string) (acc : Z * list (string * string)) (r : Reservation.t) : M (Z * list (string * string)) :=
  let! marked := attempt (let! p := lift (no_show_penalty policy) in markNoShowInTx r p (as_number (member "flatFeeAmount" policy)) triggeredBy) in
  ret (match marked with inl _ => (fst acc + 1, snd acc) | inr e => (fst acc, snd acc ++ [(Reservation.id r, reasonOf e)]) end).
Definition markBatch (b : string) (auditDate : Z) (policy : option json) (triggeredBy : option string) (ids : list string) : M (Z * list (string * string)) :=
  let! unarrived := findMany reservations (fun r => includes (Reservation.id r) ids && unarrived_by b auditDate r) in
  for_each unarrived (0, []) (markOne policy triggeredBy).
Definition markStays (b : string) (auditDate : Z) (policy : option json) (triggeredBy : option string) (acc : Z * Run) (ids : list string) : M (Z * Run) :=
  let '(marked, s) := acc in
  let! batch := transaction (ru_tx s) (markBatch b auditDate policy triggeredBy ids) in
  ret (match batch with
       | inl (n, es) => (marked + n, {| ru_processed := ru_processed s; ru_posted := ru_posted s; ru_total := ru_total s; ru_errors := ru_errors s ++ es;
                                        ru_unfinished := ru_unfinished s; ru_tx := S (ru_tx s) |})
       | inr e => (marked, left_over "Not marked this run, run it again: " ids e s)
       end).
Definition to_mark (b : string) (auditDate : Z) : M (option json * list string) :=
  let! branch := findFirst branches (fun x => bool_decide (Branch.id x = b)) in
  let policy := x ← branch; Branch.noShowPolicy x in
  if autoMark policy then
    let! unarrived := findMany reservations (unarrived_by b auditDate) in
    ret (policy, sort_ids (Reservation.id <$> unarrived))
  else ret (policy, []).

(** ** The run *)
Definition stopped (e : error) (s : Run) : Run :=
  {| ru_processed := ru_processed s; ru_posted := ru_posted s; ru_total := ru_total s; ru_errors := ru_errors s ++ [("", "The run stopped: " +:+ reasonOf e)];
     ru_unfinished := true; ru_tx := S (ru_tx s) |}.
Definition closeNight (b : string) (auditDate : Z) (triggeredBy : option string) (logId : string) (s : Run) : M (Z * Run) :=
  let! ids := transaction (ru_tx s) (let! stays := findMany reservations (in_house_on b auditDate) in ret (sort_ids (Reservation.id <$> stays))) in
  match ids with
  | inr e => ret (0, stopped e s)
  | inl stayIds =>
      let s := next_tx s in
      let! branch := transaction (ru_tx s) (findFirst branches (fun x => bool_decide (Branch.id x = b))) in
      match branch with
      | inr e => ret (0, stopped e s)
      | inl branch =>
          let scope := turndownScopeFor (x ← branch; Branch.turndownPolicy x) in
          let! s := for_each (inBatches stayIds STAY_BATCH) (next_tx s) (closeStays b auditDate triggeredBy scope logId) in
          let! plan := transaction (ru_tx s) (to_mark b auditDate) in
          match plan with
          | inr e => ret (0, stopped e s)
          | inl (policy, ids) => for_each (inBatches ids STAY_BATCH) (0, next_tx s) (markStays b auditDate policy triggeredBy)
          end
      end
  end.
Definition runStatus (s : Run) : NightAuditStatus :=
  if ru_unfinished s || (negb (bool_decide (length (ru_errors s) = 0%nat)) && (ru_posted s =? 0) && (ru_processed s =? 0)) then audit_failed else audit_completed.
Definition runAudit (b auditDateStr : string) (triggeredBy : option string) : M NightAuditRunResult :=
  let! auditDate := a_date auditDateStr in
  let! claim := claimRun b auditDate triggeredBy in
  let! ' (marked, s) := closeNight b auditDate triggeredBy (cl_logId claim)
    {| ru_processed := 0; ru_posted := cl_chargesPosted claim; ru_total := cl_totalAmountPosted claim; ru_errors := []; ru_unfinished := false; ru_tx := 0 |} in
  let! at_ := now in
  let! stored := lift (numeric_col NUMERIC_14_2 (ru_total s)) in
  do! modify (upd_nightAuditLogs (update_where (log_where (cl_logId claim)) (NightAuditLog.with_result (runStatus s) (Some (ru_processed s)) (Some (ru_posted s)) (Some stored)
        (match ru_errors s with [] => None | es => Some es end) (Some at_)))) in
  ret {| rr_auditDate := auditDateStr; rr_foliosProcessed := ru_processed s; rr_chargesPosted := ru_posted s; rr_totalAmountPosted := ru_total s; rr_noShowsMarked := marked;
         rr_errors := ru_errors s; rr_status := runStatus s |}.

(** ** The sweep *)
Definition datesToAuditInTx (b timezone : string) : M (list string) :=
  let! at_ := now in
  let! yesterday := lift (let? y := yesterdayForBranch timezone at_ in or_throw (toBranchDate y) internal) in
  let earliest := yesterday - (CATCH_UP_DAYS - 1) * DAY_MS in
  let! done := findMany nightAuditLogs (fun x => bool_decide (NightAuditLog.branchId x = b) && (earliest <=? NightAuditLog.auditDate x) && (NightAuditLog.auditDate x <=? yesterday) &&
    (bool_decide (NightAuditLog.status x = audit_completed) || (bool_decide (NightAuditLog.status x = audit_running) && (at_ - STALE_RUN_MS <=? NightAuditLog.triggeredAt x)))) in
  let doneDates := (fun x => iso_date (NightAuditLog.auditDate x)) <$> done in
  let! mine := findMany nightAuditLogs (fun x => bool_decide (NightAuditLog.branchId x = b)) in
  let latest := NightAuditLog.auditDate <$> head (sort_by (fun x => - NightAuditLog.auditDate x) mine) in
  let start := match latest with Some l => if earliest <=? l then l else yesterday | None => yesterday end in
  ret (List.filter (fun date => negb (includes date doneDates)) (iso_date <$> nights_between start (yesterday + DAY_MS))).
(** The hour a branch's clock shows. *)
Definition local_hour (timezone : string) (at_ : Z) : Z := ((at_ + tz_offset timezone at_) mod DAY_MS) / 3600000.
(** Nights close in order: a night that failed holds the later ones back. *)
Fixpoint runDates (b : string) (dates : list string) : M (list NightAuditRunResult) :=
  match dates with
  | [] => ret []
  | date :: dates =>
      let! run := attempt (runAudit b date None) in
      match run with
      | inr _ => ret []
      | inl result => if bool_decide (rr_status result = audit_failed) then ret [result] else let! rest := runDates b dates in ret (result :: rest)
      end
  end.
Definition sweepBranch (auditHourLocal : Z) (branch : Branch.t) : M (list NightAuditRunResult) :=
  let! at_ := now in
  if local_hour (Branch.timezone branch) at_ <? auditHourLocal then ret []
  else
    let! dates := attempt (datesToAuditInTx (Branch.id branch) (Branch.timezone branch)) in
    match dates with inl dates => runDates (Branch.id branch) dates | inr _ => ret [] end.
Definition runScheduledSweep (auditHourLocal : Z) : M unit :=
  let! all := findMany branches (fun x => isNone (Branch.deletedAt x)) in
  for_each all tt (fun _ branch => let! _ := sweepBranch auditHourLocal branch in ret tt).
End NightAudit.

(** ** What a run keeps *)
Lemma keeps_attempt R `{!PreOrder R} {A} (m : M A) : keeps R m -> keeps R (attempt m).
Proof. intros Hm d d' x. unfold attempt. destruct (m d) as [[d1 a]|e] eqn:E; intros [= <- <-]; [by eapply Hm | reflexivity]. Qed.
Lemma keeps_transaction R `{!PreOrder R} outage k {A} (m : M A) : keeps R m -> keeps R (transaction outage k m).
Proof. intros Hm. apply keeps_attempt; [done|]. destruct (outage k); [apply keeps_raise | done]. Qed.

(** The log of the runs: a row is added, and a row's figures change. *)
Definition log_key (x : NightAuditLog.t) : string * string * Z := (NightAuditLog.id x, NightAuditLog.branchId x, NightAuditLog.auditDate x).
Class AuditLogged (R : Db -> Db -> Prop) : Prop := {
  al_append row d : R d (upd_nightAuditLogs (fun l => l ++ [row]) d);
  al_update w f d : (forall x, log_key (f x) = log_key x) -> R d (upd_nightAuditLogs (update_where w f) d);
}.
#[global] Instance wf_audit_log `{Uuid} : AuditLogged wf_keep.
Proof. split; intros; by apply wf_other. Qed.
#[global] Instance quiet_audit_log : AuditLogged quiet.
Proof. by split. Qed.
(** The operations on bills a run uses. *)
Class NightBills `{DecimalLib} `{TaxDb} `{Platform} `{Uuid} (R : Db -> Db -> Prop) : Prop := {
  nb_folio r u : keeps R (ensurePrimaryFolio r u);
  nb_night r f t u : keeps R (postRoomChargeForDate r f t u);
  nb_fee r f ct a u : keeps R (postAdHocCharge r f ct a u);
  nb_settle f u : keeps R (settleIfFullyPaid f u);
}.
#[global] Instance billing_night `{DecimalLib} `{TaxDb} `{Platform} `{Uuid} R `{!Billing R} : NightBills R.
Proof. split; intros; apply bs_folio; constructor. Qed.

Section Kept.
Context `{DecimalLib} `{TaxDb} `{Platform} `{Uuid} (reasonOf : error -> string) (outage : nat -> option error) (R : Db -> Db -> Prop) `{!Upkeep R} `{!NightBills R} `{!AuditLogged R}.
#[local] Hint Resolve er_new_id er_auditLog bs_assertBranch bs_log bs_audit nb_folio nb_night nb_fee nb_settle uk_task : keeps.
Ltac keeping := repeat (keeps_tac; first [apply keeps_attempt; [typeclasses eauto|] | apply keeps_transaction; [typeclasses eauto|]
  | apply keeps_modify; intros; first [apply al_append | by apply al_update | apply bs_no_shows | apply sw_stays]]).
Lemma claim_keeps b t u : keeps R (claimRun b t u).
Proof. unfold claimRun, now. keeping. Qed.
Lemma bill_keeps t u r : keeps R (bill_night t u r).
Proof. unfold bill_night. keeps_tac. Qed.
Lemma serve_keeps b t scope r i : keeps R (serve_room b t scope r i).
Proof. unfold serve_room, ensureStayoverTaskInTx, ensureTurndownTaskInTx. keeps_tac. Qed.
#[local] Hint Resolve bill_keeps serve_keeps : keeps.
Lemma close_keeps b t u scope s r : keeps R (closeStay reasonOf b t u scope s r).
Proof. unfold closeStay. keeping. Qed.
#[local] Hint Resolve close_keeps : keeps.
Lemma batch_keeps b t u scope i n total ids : keeps R (closeBatch reasonOf b t u scope i n total ids).
Proof. unfold closeBatch. keeping. Qed.
#[local] Hint Resolve batch_keeps : keeps.
Lemma stays_keeps b t u scope i s ids : keeps R (closeStays reasonOf outage b t u scope i s ids).
Proof. unfold closeStays. keeping. Qed.
Lemma no_show_keeps `{!StayWrites R} r p a u : keeps R (markNoShowInTx r p a u).
Proof. unfold markNoShowInTx, update_stay, now. keeping. Qed.
#[local] Hint Resolve claim_keeps stays_keeps no_show_keeps : keeps.
Lemma mark_keeps `{!StayWrites R} b t policy u acc ids : keeps R (markStays reasonOf outage b t policy u acc ids).
Proof. unfold markStays, markBatch, markOne. keeping. Qed.
#[local] Hint Resolve mark_keeps : keeps.
Lemma night_keeps `{!StayWrites R} b t u i s : keeps R (closeNight reasonOf outage b t u i s).
Proof. unfold closeNight, to_mark. keeping. Qed.
#[local] Hint Resolve night_keeps : keeps.
Lemma run_keeps `{!StayWrites R} b date u : keeps R (runAudit reasonOf outage b date u).
Proof. unfold runAudit, a_date, now. keeping. Qed.
#[local] Hint Resolve run_keeps : keeps.
Lemma dates_keeps `{!StayWrites R} b dates : keeps R (runDates reasonOf outage b dates).
Proof. induction dates as [|date dates IH]; cbn [runDates]; keeping. Qed.
#[local] Hint Resolve dates_keeps : keeps.
Lemma sweep_keeps `{!StayWrites R} hour : keeps R (runScheduledSweep reasonOf outage hour).
Proof. unfold runScheduledSweep, sweepBranch, datesToAuditInTx, now. keeping. Qed.
End Kept.

(** ** The run and the house *)
Section RunFollows.
Context `{DecimalLib} `{TaxDb} `{Platform} `{Uuid} (reasonOf : error -> string) (outage : nat -> option error).
#[local] Hint Resolve er_new_id bs_log bs_audit bs_folio op_ensurePrimaryFolio op_postAdHocCharge op_settleIfFullyPaid : keeps.
(** A no-show changes the row of the stay it marks and no other. *)
Lemma no_show_others r p a u d d' x y : markNoShowInTx r p a u d = Ok (d', x) -> y ∈ reservations d -> Reservation.id y <> Reservation.id r -> y ∈ reservations d'.
Proof.
  unfold markNoShowInTx. intros (d1 & row & Hup & Hrest)%bind_Ok Hy Hne. apply update_stay_inv in Hup as (-> & _).
  set (d1 := upd_reservations (put r row) d) in *. assert (reservations d' = reservations d1) as ->.
  { match type of Hrest with ?m d1 = _ => assert (keeps quiet m) as Hq end.
    { unfold now. keeps_tac. apply keeps_modify. by split. }
    destruct (Hq _ _ _ Hrest) as [Hh _]. unfold house in Hh. by injection Hh. }
  simpl. unfold put, update_where, stay_where. apply list_elem_of_fmap. exists y. by rewrite bool_decide_eq_false_2.
Qed.
Lemma mark_list_follows policy u l : forall acc d d' x, NoDup (Reservation.id <$> l) -> (forall r, r ∈ l -> r ∈ reservations d /\ Reservation.status r = confirmed) ->
  for_each l acc (markOne reasonOf policy u) d = Ok (d', x) -> follows d d'.
Proof.
  induction l as [|r l IH]; intros acc d d' x Hn Hl Hm; [injection Hm as <- _; done|]. cbn [for_each] in Hm. apply bind_Ok in Hm as (d1 & acc1 & Hone & Hm).
  cbn in Hn. apply NoDup_cons in Hn as [Hr Hn]. destruct (Hl r ltac:(left)) as [Hin Hs]. unfold markOne in Hone. apply bind_Ok in Hone as (d2 & o & Hat & Hret). injection Hret as <- _.
  unfold attempt in Hat. destruct (bind _ _ d) as [[d3 y]|e] eqn:E; injection Hat as <- _.
  - apply bind_Ok in E as (d4 & p & [_ ->]%lift_Ok & E). etrans; [by eapply (markNoShowInTx_from d r p)|]. eapply IH; [done| |exact Hm].
    intros z Hz. destruct (Hl z ltac:(by right)) as [Hzin Hzs]. split; [|done]. eapply no_show_others; [exact E | done|]. intros Eid. apply Hr. rewrite <- Eid. by apply list_elem_of_fmap_2.
  - eapply IH; [done| |exact Hm]. intros z Hz. apply Hl. by right.
Qed.
Lemma mark_batch_follows b t policy u ids : keeps follows (markBatch reasonOf b t policy u ids).
Proof.
  intros d d' x (d1 & l & [-> ->]%findMany_Ok & Hm)%bind_Ok Hd. refine (mark_list_follows _ _ _ _ _ _ _ _ _ Hm Hd).
  - apply NoDup_fmap_filterb, Hd.
  - intros r [Hin Hw]%elem_of_filterb. split; [done|]. unfold unarrived_by in Hw. apply andb_true_iff in Hw as [_ Hw]. rewrite !andb_true_iff in Hw. by destruct Hw as ((_ & Hs%bool_decide_eq_true) & _).
Qed.
Lemma run_follows b date u : keeps follows (runAudit reasonOf outage b date u).
Proof.
  assert (forall A (m : M A), keeps quiet m -> keeps follows m) as Hq by (intros A m Hm; by apply quiet_keeps_follows).
  assert (forall b t policy u acc ids, keeps follows (markStays reasonOf outage b t policy u acc ids)) as Hmark.
  { intros ? ? ? ? [n s] ?. unfold markStays. keeps_tac. apply keeps_transaction; [apply _|]. apply mark_batch_follows. }
  unfold runAudit, closeNight, a_date, now. keeps_tac; try (apply keeps_transaction; [apply _|]); try apply Hmark; try (apply Hq; first [apply (claim_keeps quiet) | apply (stays_keeps _ _ quiet)
    | apply keeps_modify; intros; by split | unfold to_mark; keeps_tac]).
Qed.
End RunFollows.
