(* ===== verification/NightClosed.v ===== *)
(** What a night audit achieves: it always comes to an end that is on record, and
    it bills every guest in the house or names the one it could not bill. *)
From stdpp Require Import pretty.
From Stdlib Require Import QArith Qcanon.
From S2P Require Import Prelude Decimal Json Dates StayPolicies Taxes Authority Transactions Db LoyaltyRules Packages Folios FolioLedger FolioEffects FolioNights FolioPayments Notices SampleHotel Loyalty Refunds Rooms Housekeeping SalesRules Inventory Rates Guests Bookings StayChanges StayEnds Frames Lifecycle Books NightAudit.
Local Open Scope Z_scope.

(** ** Loops *)
(** Each turn of a committed loop ran, with the state and the tally in between. *)
Lemma for_each_at {A B} (Q : Db * A -> Db * A -> Prop) `{!PreOrder Q} (l : list B) a a' body d d' x :
  (forall a y e e' a', body a y e = Ok (e', a') -> Q (e, a) (e', a')) -> for_each l a body d = Ok (d', a') ->
  Q (d, a) (d', a') /\ (x ∈ l -> exists a1 a2 e e', body a1 x e = Ok (e', a2) /\ Q (d, a) (e, a1) /\ Q (e', a2) (d', a')).
Proof.
  intros Hb. revert a d. induction l as [|y l IH]; intros a d Hm.
  - injection Hm as <- <-. split; [reflexivity | by intros ?%elem_of_nil].
  - cbn [for_each] in Hm. apply bind_Ok in Hm as (dm & am & Hy & Hl). destruct (IH am dm Hl) as [Hq Hx]. split; [etrans; [by eapply Hb | exact Hq]|].
    intros [->|Hin]%elem_of_cons; [by exists a, am, d, dm|]. destruct (Hx Hin) as (a1 & a2 & e & e' & ? & He & ?). exists a1, a2, e, e'. split_and!; [done | etrans; [by eapply Hb | exact He] | done].
Qed.
Lemma for_each_returns {A B} (P : A -> Prop) (body : A -> B -> M A) l a d :
  (forall a x d, P a -> exists d' a', body a x d = Ok (d', a') /\ P a') -> P a -> exists d' a', for_each l a body d = Ok (d', a') /\ P a'.
Proof.
  intros Hb. revert a d. induction l as [|x l IH]; intros a d Ha; [by exists d, a|].
  destruct (Hb a x d Ha) as (d1 & a1 & E & H1'). destruct (IH a1 d1 H1') as (d2 & a2 & E2 & H2'). exists d2, a2. split; [|done]. cbn [for_each]. by rewrite (bind_run _ _ _ _ _ E).
Qed.
(** Every item is in a batch. *)
Lemma batches_cover {A} (fuel size : nat) (l : list A) x : (0 < size)%nat -> (length l <= fuel)%nat -> x ∈ l -> exists batch, batch ∈ batches_of fuel size l /\ x ∈ batch.
Proof.
  intros Hs. revert l. induction fuel as [|fuel IH]; intros [|y l] Hf Hx; try by apply elem_of_nil in Hx. { simpl in Hf. lia. }
  cbn [batches_of]. rewrite <- (take_drop size (y :: l)) in Hx. apply elem_of_app in Hx as [Hx|Hx].
  - exists (take size (y :: l)). split; [left | done].
  - destruct (IH (drop size (y :: l))) as (batch & Hb & Hin); [rewrite length_drop; simpl in *; lia | done|]. exists batch. split; [by right | done].
Qed.
Lemma elem_of_insert_id i j l : i ∈ insert_id j l <-> i = j \/ i ∈ l.
Proof.
  induction l as [|k l IH]; cbn [insert_id]; [set_solver|]. destruct (String.leb j k); rewrite ?elem_of_cons, ?IH; naive_solver.
Qed.
Lemma elem_of_sort_ids i l : i ∈ sort_ids l <-> i ∈ l.
Proof. induction l as [|j l IH]; [done|]. unfold sort_ids in *. cbn [foldr]. rewrite elem_of_insert_id, IH, elem_of_cons. done. Qed.

(** ** The run comes to an end *)
Definition storable (x : Qc) : Prop := exists y, numeric_col NUMERIC_14_2 x = Ok y.
(** The totals on record fit their column. *)
Definition logs_fit (d : Db) : Prop := forall x t, x ∈ nightAuditLogs d -> NightAuditLog.totalAmountPosted x = Some t -> storable t.
Definition log_keys (d : Db) : list (string * string * Z) := log_key <$> nightAuditLogs d.
(** The rows of the log keep their names, nights and branches; the branches and the clock are read only. *)
Record log_kept (d d' : Db) : Prop := { lk_keys : log_keys d `prefix_of` log_keys d'; lk_branches : branches d' = branches d; lk_clock : clock d' = clock d }.
#[global] Instance log_kept_preorder : PreOrder log_kept.
Proof. split; [by split | intros a b c [] []; split; [by etrans | congruence..]]. Qed.
#[global] Instance log_upkeep `{Uuid} : Upkeep log_kept.
Proof. split; [split; [apply _|..]|..]; intros; by split. Qed.
#[global] Instance log_bills : BillTables log_kept.
Proof. split; intros; by split. Qed.
#[global] Instance log_stays : StayWrites log_kept.
Proof. split; intros; by split. Qed.
Lemma update_keys w f l : (forall x, log_key (f x) = log_key x) -> log_key <$> update_where w f l = log_key <$> l.
Proof. intros Hf. unfold update_where. rewrite <- list_fmap_compose. apply list_fmap_ext. intros i x _. simpl. by destruct (w x). Qed.
#[global] Instance log_logged : AuditLogged log_kept.
Proof.
  split; intros; (split; [|done..]); unfold log_keys; simpl; [rewrite fmap_app; by eexists | by rewrite update_keys].
Qed.
(** The row of a night is found by its key. *)
Definition key_of (b : string) (t : Z) (k : string * string * Z) : bool := bool_decide (snd (fst k) = b) && bool_decide (snd k = t).
Lemma find_key b t l : log_key <$> List.find (audit_row b t) l = List.find (key_of b t) (log_key <$> l).
Proof. induction l as [|x l IH]; [done|]. simpl. unfold audit_row at 1, key_of at 1. simpl. destruct (_ && _); done. Qed.
Lemma found_key b t l x : List.find (audit_row b t) l = Some x -> List.find (key_of b t) (log_key <$> l) = Some (NightAuditLog.id x, b, t).
Proof.
  intros Hf. rewrite <- find_key, Hf. apply find_Some in Hf as [_ Hx]. unfold audit_row in Hx. apply andb_true_iff in Hx as [Hb%bool_decide_eq_true Ht%bool_decide_eq_true].
  simpl. unfold log_key. by rewrite Hb, Ht.
Qed.
Lemma key_kept b t d d' k : List.find (key_of b t) (log_keys d) = Some k -> log_kept d d' -> List.find (key_of b t) (log_keys d') = Some k.
Proof. intros Hf [[new ->] _ _]. by apply find_app. Qed.

Section Ends.
Context `{DecimalLib} `{TaxDb} `{Platform} `{Uuid} (reasonOf : error -> string) (outage : nat -> option error).
Lemma transaction_total k {A} (m : M A) d : exists d' x, transaction outage k m d = Ok (d', x) /\ forall a, x = inl a -> m d = Ok (d', a).
Proof.
  unfold transaction, attempt. destruct (outage k); [by eexists _, _|]. destruct (m d) as [[d' a]|e]; eexists _, _; (split; [reflexivity|]); [by intros ? [= ->] | done].
Qed.
Lemma closeBatch_fits b t u scope i n total ids d d' batch : closeBatch reasonOf b t u scope i n total ids d = Ok (d', batch) -> storable (total ⊕ bd_amount batch).
Proof. unfold closeBatch. intros Hm. m_inv. by eexists. Qed.
Lemma closeStays_total b t u scope i s ids d : storable (ru_total s) -> exists d' s', closeStays reasonOf outage b t u scope i s ids d = Ok (d', s') /\ storable (ru_total s').
Proof.
  intros Hs. unfold closeStays. destruct (transaction_total (ru_tx s) (closeBatch reasonOf b t u scope i (ru_posted s) (ru_total s) ids) d) as (d' & x & E & Hx).
  rewrite (bind_run _ _ _ _ _ E). eexists _, _. split; [reflexivity|]. destruct x as [batch|e]; [|done]. by eapply closeBatch_fits, Hx.
Qed.
Lemma markStays_total b t policy u acc ids d : storable (ru_total (snd acc)) -> exists d' acc', markStays reasonOf outage b t policy u acc ids d = Ok (d', acc') /\ storable (ru_total (snd acc')).
Proof.
  destruct acc as [n s]. intros Hs. unfold markStays. destruct (transaction_total (ru_tx s) (markBatch reasonOf b t policy u ids) d) as (d' & x & E & _).
  rewrite (bind_run _ _ _ _ _ E). eexists _, _. split; [reflexivity|]. by destruct x as [[m es]|e].
Qed.
Lemma closeNight_total b t u i s d : storable (ru_total s) -> exists d' acc, closeNight reasonOf outage b t u i s d = Ok (d', acc) /\ storable (ru_total (snd acc)).
Proof.
  intros Hs. unfold closeNight.
  match goal with |- context [bind (transaction outage ?k ?m) _] => destruct (transaction_total k m d) as (d1 & x & E & _); rewrite (bind_run _ _ _ _ _ E); clear E end.
  destruct x as [stayIds|e]; [|by eexists _, _]. cbv zeta.
  match goal with |- context [bind (transaction outage ?k ?m) _] => destruct (transaction_total k m d1) as (d2 & x & E & _); rewrite (bind_run _ _ _ _ _ E); clear E end.
  destruct x as [branch|e]; [|by eexists _, _].
  match goal with |- context [bind (for_each ?l ?a ?body) _] =>
    destruct (for_each_returns (fun s => storable (ru_total s)) body l a d2) as (d3 & s3 & E & H3'); [intros; by apply closeStays_total | done|]; rewrite (bind_run _ _ _ _ _ E); clear E end.
  match goal with |- context [bind (transaction outage ?k ?m) _] => destruct (transaction_total k m d3) as (d4 & x & E & _); rewrite (bind_run _ _ _ _ _ E); clear E end.
  destruct x as [[policy ids]|e]; [|by eexists _, _].
  apply (for_each_returns (fun acc => storable (ru_total (snd acc)))); [intros; by apply markStays_total | done].
Qed.
(** The claimed row is the night's. *)
Lemma claim_row b t u d d1 claim : claimRun b t u d = Ok (d1, claim) -> List.find (key_of b t) (log_keys d1) = Some (cl_logId claim, b, t).
Proof.
  intros Hm. pose proof (claim_keeps log_kept b t u d d1 claim Hm) as Hk. unfold claimRun, assertBranch, now in Hm. m_inv.
  destruct (List.find (audit_row b t) (nightAuditLogs _)) as [x|] eqn:Ex.
  - eapply key_kept; [|exact Hk]. apply found_key in Ex. m_inv. exact Ex.
  - m_inv. match goal with E : new_id _ = _ |- _ => apply new_id_spec in E as [-> ->] end. refine (found_key b t (nightAuditLogs (upd_nightAuditLogs _ _)) {| NightAuditLog.id := _ |} _). simpl.
    apply find_app_new; [|unfold audit_row; by rewrite !bool_decide_true]. intros y Hy. by eapply find_None.
Qed.
Lemma claim_fits b t u d d1 claim : claimRun b t u d = Ok (d1, claim) -> logs_fit d -> storable (cl_totalAmountPosted claim).
Proof.
  assert (storable 0%Qc) as H0' by (by exists (cents 0)). unfold claimRun, assertBranch, now. intros Hm Hfit. m_inv.
  destruct (List.find (audit_row b t) (nightAuditLogs _)) as [x|] eqn:Ex; m_inv; [|done]. apply find_Some in Ex as [Hx _]. simpl.
  destruct (NightAuditLog.totalAmountPosted x) eqn:Et; [by eapply Hfit | done].
Qed.
(** What the final update writes. *)
Lemma final_row i f d : (forall x, log_key (f x) = log_key x) -> i ∈ NightAuditLog.id <$> nightAuditLogs d ->
  exists x, f x ∈ nightAuditLogs (upd_nightAuditLogs (update_where (log_where i) f) d) /\ NightAuditLog.id (f x) = i.
Proof.
  intros Hf (x & -> & Hx)%list_elem_of_fmap. exists x. split; [|by specialize (Hf x) as [= ]]. simpl. apply list_elem_of_fmap. exists x. unfold log_where. by rewrite bool_decide_true.
Qed.

End Ends.

(** ** Every guest in the house is billed or named *)
(** A run adds lines and takes none away. *)
#[global] Instance ext_upkeep `{Uuid} : Upkeep lines_ext.
Proof. split; [split; [apply _|..]|..]; intros; exists []; by rewrite app_nil_r. Qed.
#[global] Instance ext_stays : StayWrites lines_ext.
Proof. split; intros; exists []; by rewrite app_nil_r. Qed.
#[global] Instance ext_logged : AuditLogged lines_ext.
Proof. split; intros; exists []; by rewrite app_nil_r. Qed.
#[global] Instance ext_night `{DecimalLib} `{TaxDb} `{Platform} `{Uuid} : NightBills lines_ext.
Proof.
  assert (forall i, keeps lines_ext (writeChargeWithTaxes i)) as Hw by (intros i d d' r; apply writeCharge_ext).
  assert (forall g, keeps lines_ext (modify (upd_folios g))) as Hf by (intros; apply keeps_modify; intros; exists []; by rewrite app_nil_r).
  pose proof (er_folio_audit lines_ext). pose proof (er_new_id lines_ext).
  split; intros.
  - unfold ensurePrimaryFolio, now. keeps_tac.
  - unfold postRoomChargeForDate, dayUseCharged, postDayUseCharge, postRoomNight, postPackageCharges, postPackage, routedFolio, night_rate, now. keeps_tac.
  - unfold postAdHocCharge. keeps_tac.
  - unfold settleIfFullyPaid, computeTotals, now. keeps_tac.
Qed.

Section Closes.
Context `{DecimalLib} `{TaxDb} `{Platform} `{Uuid} (reasonOf : error -> string) (outage : nat -> option error).
Definition night_billed (t : Z) (r : Reservation.t) (d : Db) : Prop := exists l f, l ∈ lineItems d /\ billed_night (Reservation.id r) f t l = true.
Definition named_in (i : string) (errors : list (string * string)) : Prop := exists why, (i, why) ∈ errors.
Lemma billed_later t r d d' : night_billed t r d -> lines_ext d d' -> night_billed t r d'.
Proof. intros (l & f & Hl & Hb) [new Hnew]. exists l, f. split; [|done]. rewrite Hnew. apply elem_of_app. by left. Qed.
Lemma named_later i es es' : named_in i es -> es `prefix_of` es' -> named_in i es'.
Proof. intros [why Hw] [new ->]. exists why. apply elem_of_app. by left. Qed.
(** A state and what went wrong so far, later on. *)
Definition later {A} (R : Db -> Db -> Prop) (errs : A -> list (string * string)) (x y : Db * A) : Prop := R (fst x) (fst y) /\ errs (snd x) `prefix_of` errs (snd y).
#[local] Instance later_preorder {A} R `{!PreOrder R} (errs : A -> list (string * string)) : PreOrder (later R errs).
Proof. split; [by intros x; split | intros x y z (H1' & H2') (H3' & H4'); split; by etrans]. Qed.
Definition adds (d d' : Db) : Prop := lines_ext d d' /\ quiet d d'.
#[local] Instance adds_preorder : PreOrder adds.
Proof. split; [by intros x; split | intros x y z (H1' & H2') (H3' & H4'); split; by etrans]. Qed.

Lemma bill_bills t u r d0 d d' x rate : Reservation.isDayUse r = false -> bill_night t u r d = Ok (d', x) -> night_rate r t d0 = Ok (d0, rate) -> (0 < rate)%Qc -> night_billed t r d'.
Proof.
  intros Hdu (d1 & f & _ & Hm)%bind_Ok Hrate Hpos. unfold postRoomChargeForDate in Hm. rewrite Hdu in Hm. simpl in Hm. m_inv.
  match goal with H : postRoomNight _ _ _ _ _ = _ |- _ => pose proof (postRoomNight_bills r f t u d0 _ _ _ rate Hdu H Hrate Hpos) as Hs end.
  match goal with H : postPackageCharges _ _ _ _ _ = Ok _ |- _ => apply postPackageCharges_ext in H as Hext end.
  apply isSome_eq in Hs as [l [Hl Hb]%find_Some]. eapply billed_later; [|exact Hext]. by exists l, (Folio.id f).
Qed.
Lemma attempt_inv {A} (m : M A) d d' x : attempt m d = Ok (d', x) -> match x with inl a => m d = Ok (d', a) | inr e => d' = d /\ m d = Err e end.
Proof. unfold attempt. destruct (m d) as [[d1 a]|e]; by intros [= <- <-]. Qed.
Lemma transaction_inv k {A} (m : M A) d d' x : transaction outage k m d = Ok (d', x) -> match x with inl a => m d = Ok (d', a) | inr _ => d' = d end.
Proof. intros Hm%attempt_inv. destruct x; destruct (outage k); try done; by destruct Hm. Qed.
Lemma closeStay_inv b t u scope s r e e' s' : closeStay reasonOf b t u scope s r e = Ok (e', s') ->
  exists e1 x, attempt (bill_night t u r) e = Ok (e1, x) /\ lines_ext e1 e' /\ (bd_errors s ++ match x with inl _ => [] | inr err => [(Reservation.id r, reasonOf err)] end) `prefix_of` bd_errors s'.
Proof.
  unfold closeStay. intros (e1 & x & Hx & Hm)%bind_Ok. exists e1, x. split; [exact Hx|]. cbv zeta in Hm.
  set (s1 := match x with inl (Some _) => _ | inl None => _ | inr _ => _ end) in Hm.
  assert (bd_errors s1 = bd_errors s ++ match x with inl _ => [] | inr err => [(Reservation.id r, reasonOf err)] end) as <-.
  { subst s1. by destruct x as [[l|]|err]; simpl; rewrite ?app_nil_r. }
  destruct (set_string (Reservation.roomId r)) as [i|]; [|by injection Hm as <- <-].
  apply bind_Ok in Hm as (e2 & y & Hy & Hret). injection Hret as <- <-. split.
  - eapply (keeps_attempt lines_ext); [|exact Hy]. apply (serve_keeps lines_ext).
  - destruct y; simpl; [done | by eexists].
Qed.
Lemma closeStay_later b t u scope s r e e' s' : closeStay reasonOf b t u scope s r e = Ok (e', s') -> later adds bd_errors (e, s) (e', s').
Proof.
  intros Hm. split; [split; [by eapply (close_keeps _ lines_ext) | by eapply (close_keeps _ quiet)]|]. apply closeStay_inv in Hm as (e1 & x & _ & _ & Hp). simpl. etrans; [|exact Hp]. by eexists.
Qed.
(** A batch that commits has billed or named each of its guests. *)
Lemma closeBatch_closes b t u scope i n total ids d0 d d' batch r rate : closeBatch reasonOf b t u scope i n total ids d = Ok (d', batch) ->
  r ∈ reservations d -> Reservation.id r ∈ ids -> in_house_on b t r = true -> Reservation.isDayUse r = false -> night_rate r t d0 = Ok (d0, rate) -> (0 < rate)%Qc ->
  night_billed t r d' \/ named_in (Reservation.id r) (bd_errors batch).
Proof.
  unfold closeBatch. intros Hm Hr Hid Hin Hdu Hrate Hpos. m_inv.
  match goal with E : for_each ?l _ _ d = _ |- _ => destruct (for_each_at (later adds bd_errors) l _ _ _ _ _ r ltac:(intros; by eapply closeStay_later) E) as [_ Hx] end.
  destruct Hx as (s1 & s2 & e & e' & Hone & _ & ([Hlines _] & Herr)).
  { apply elem_of_filterb. split; [done|]. by rewrite Hin, (proj2 (includes_spec _ _) Hid). }
  apply closeStay_inv in Hone as (e1 & x & Hx%attempt_inv & He1 & Hp). simpl in *. destruct x as [l|err].
  - left. eapply billed_later; [by eapply bill_bills|]. etrans; [exact He1|]. etrans; [exact Hlines|]. exists []. by rewrite app_nil_r.
  - right. eapply named_later; [|exact Herr]. eapply named_later; [|exact Hp]. exists (reasonOf err). apply elem_of_app. right. left.
Qed.
Lemma closeStays_later b t u scope i s ids e e' s' : closeStays reasonOf outage b t u scope i s ids e = Ok (e', s') -> later adds ru_errors (e, s) (e', s').
Proof.
  intros Hm. split; [split; [by eapply (stays_keeps _ _ lines_ext) | by eapply (stays_keeps _ _ quiet)]|]. unfold closeStays in Hm. m_inv. simpl. destruct v; simpl; by eexists.
Qed.
Lemma closeStays_closes b t u scope i s ids d0 d d' s' r rate : closeStays reasonOf outage b t u scope i s ids d = Ok (d', s') ->
  r ∈ reservations d -> Reservation.id r ∈ ids -> in_house_on b t r = true -> Reservation.isDayUse r = false -> night_rate r t d0 = Ok (d0, rate) -> (0 < rate)%Qc ->
  night_billed t r d' \/ named_in (Reservation.id r) (ru_errors s').
Proof.
  unfold closeStays. intros (d1 & x & Hx%transaction_inv & Hret)%bind_Ok Hr Hid Hin Hdu Hrate Hpos. injection Hret as <- <-. destruct x as [batch|e]; simpl.
  - destruct (closeBatch_closes _ _ _ _ _ _ _ _ _ _ _ _ _ _ Hx Hr Hid Hin Hdu Hrate Hpos) as [?|[why Hw]]; [by left|]. right. exists why. apply elem_of_app. by right.
  - right. eexists. apply elem_of_app. right. by apply (list_elem_of_fmap_2 (fun i => (i, _))).
Qed.
Lemma markStays_later b t policy u acc ids e e' acc' : markStays reasonOf outage b t policy u acc ids e = Ok (e', acc') -> later lines_ext (fun acc => ru_errors (snd acc)) (e, acc) (e', acc').
Proof.
  intros Hm. split; [by eapply (mark_keeps _ _ lines_ext)|]. unfold markStays in Hm. destruct acc as [n s]. m_inv. destruct v as [[m es]|err]; simpl; by eexists.
Qed.
(** What a run that was not cut off has done of each guest. *)
Lemma closeNight_closes b t u i s d0 d d' acc r rate : closeNight reasonOf outage b t u i s d = Ok (d', acc) ->
  r ∈ reservations d -> in_house_on b t r = true -> Reservation.isDayUse r = false -> night_rate r t d0 = Ok (d0, rate) -> (0 < rate)%Qc ->
  night_billed t r d' \/ named_in (Reservation.id r) (ru_errors (snd acc)) \/ (ru_unfinished (snd acc) = true /\ named_in "" (ru_errors (snd acc))).
Proof.
  intros Hm Hr Hin Hdu Hrate Hpos. assert (forall e s, named_in "" (ru_errors (stopped reasonOf e s))) as Hstop.
  { intros e s1. eexists. apply elem_of_app. right. by apply list_elem_of_singleton. }
  unfold closeNight in Hm. apply bind_Ok in Hm as (d1 & x & Hx%transaction_inv & Hm). destruct x as [stayIds|e]; [|injection Hm as <- <-; right; right; split; [done | apply Hstop]].
  m_inv. match goal with E : transaction _ _ _ _ = _ |- _ => apply transaction_inv in E as Hb end. destruct v as [branch|e]; [|m_inv; right; right; split; [done | apply Hstop]]. m_inv.
  match goal with E : for_each _ _ _ ?e1 = Ok (?e2, ?s2), E2 : transaction _ _ (to_mark _ _) ?e2 = Ok (?e3, ?x) |- _ =>
    rename E into Hloop, E2 into Hplan, s2 into sb, e2 into db, e3 into dm, x into plan; rename e1 into dl end.
  assert (night_billed t r db \/ named_in (Reservation.id r) (ru_errors sb)) as Hdone.
  { assert (Reservation.id r ∈ sort_ids (Reservation.id <$> List.filter (in_house_on b t) (reservations dl))) as Hid by (by apply elem_of_sort_ids, list_elem_of_fmap_2, elem_of_filterb).
    destruct (batches_cover _ STAY_BATCH _ _ ltac:(unfold STAY_BATCH; lia) (le_n _) Hid) as (batch & Hbatch & Hidb).
    destruct (for_each_at (later adds ru_errors) _ _ _ _ _ _ batch ltac:(intros; by eapply closeStays_later) Hloop) as [_ (s1 & s2 & e & e' & Hone & ([_ [Hh _]] & _) & ([Hl _] & He))]; [exact Hbatch|].
    simpl in *. replace (reservations dl) with (reservations e) in Hr by (unfold house in Hh; congruence).
    destruct (closeStays_closes _ _ _ _ _ _ _ _ _ _ _ _ _ Hone Hr Hidb Hin Hdu Hrate Hpos) as [?|?]; [left; by eapply billed_later | right; by eapply named_later]. }
  assert (lines_ext db dm) as Hpl.
  { eapply (keeps_transaction lines_ext outage); [|exact Hplan]. unfold to_mark. keeps_tac. }
  assert (lines_ext dm d' /\ ru_errors sb `prefix_of` ru_errors (snd acc)) as [Hrest Herr].
  { destruct plan as [[policy ids]|e]; [|injection Hm as <- <-; split; [done | by eexists]].
    destruct (for_each_at (later lines_ext (fun acc => ru_errors (snd acc))) _ _ _ _ _ _ [] ltac:(intros; by eapply markStays_later) Hm) as [[Hl Hp] _]. by split. }
  destruct Hdone as [Hd|Hd]; [left | right; left; by eapply named_later]. eapply billed_later; [exact Hd | by etrans].
Qed.
End Closes.

(** C5: the night audit leaves no guest out: for every guest in the house on the
    night it closes (an overnight stay with a positive rate for it), when the run
    returns the night stands on a bill, or the run's errors name the stay, or the
    run failed as a whole and says so; in particular a run that says it completed
    has billed everyone its errors do not name. *)
Theorem audit_bills_every_guest `{DecimalLib} `{TaxDb} `{Platform} `{Uuid} reasonOf outage b date t u d d' res r rate :
  a_date date d = Ok (d, t) -> runAudit reasonOf outage b date u d = Ok (d', res) ->
  r ∈ reservations d -> in_house_on b t r = true -> Reservation.isDayUse r = false -> night_rate r t d = Ok (d, rate) -> (0 < rate)%Qc ->
  night_billed t r d' \/ named_in (Reservation.id r) (rr_errors res) \/ (rr_status res = audit_failed /\ named_in "" (rr_errors res)).
Proof.
  intros Hdate Hm Hr Hin Hdu Hrate Hpos. unfold runAudit in Hm. rewrite (bind_run _ _ _ _ _ Hdate) in Hm. apply bind_Ok in Hm as (d1 & claim & Hclaim & Hm).
  apply bind_Ok in Hm as (d2 & [n s] & Hnight & Hm). pose proof (claim_keeps quiet _ _ _ _ _ _ Hclaim) as [Hh _].
  replace (reservations d) with (reservations d1) in Hr by (unfold house in Hh; congruence).
  pose proof (closeNight_closes _ _ _ _ _ _ _ _ _ _ _ _ _ Hnight Hr Hin Hdu Hrate Hpos) as Hdone. unfold now in Hm. m_inv. simpl in *.
  destruct Hdone as [Hd|[Hd|[Hu Hd]]]; [left | by right; left | right; right]; [|unfold runStatus; by rewrite Hu].
  eapply billed_later; [exact Hd|]. exists []. by rewrite app_nil_r.
Qed.


Lemma closed_row b t i f l : (forall x, log_key (f x) = log_key x) -> (forall x, NightAuditLog.status (f x) = audit_completed) -> List.find (key_of b t) (log_key <$> l) = Some (i, b, t) ->
  exists x, List.find (audit_row b t) (update_where (log_where i) f l) = Some x /\ NightAuditLog.status x = audit_completed.
Proof.
  intros Hf Hs Hk. rewrite <- (update_keys (log_where i) f), <- find_key in Hk by done. destruct (List.find _ _) as [x|] eqn:Ex; [|done]. exists x. split; [done|].
  apply find_Some in Ex as [(y & -> & Hy)%list_elem_of_fmap _]. simpl in Hk. unfold log_where in *. case_bool_decide as Hi; [apply Hs|]. by injection Hk.
Qed.
Lemma claim_refused `{Platform} `{Uuid} b t u u' d d' y x : claimRun b t u d = Ok y -> branches d' = branches d -> clock d' = clock d ->
  List.find (audit_row b t) (nightAuditLogs d') = Some x -> NightAuditLog.status x = audit_completed -> claimRun b t u' d' = Err audit_ran.
Proof.
  destruct y as [d1 claim]. unfold claimRun, assertBranch, now. intros Hm Hb Hc Hx Hs. m_inv.
  rewrite (bind_run _ _ d' d' v) by (cbv [bind orThrow findFirst gets lift]; by rewrite Hb, <- Efind).
  rewrite (bind_run _ _ d' d' (clock d')) by done. rewrite Hc, (bind_run _ _ d' d' v1) by (by unfold lift; rewrite Hm2).
  rewrite Hm3. simpl. unfold bind at 1. simpl. rewrite (bind_run _ _ d' d' (Some x)) by (by unfold findFirst, gets; rewrite Hx). by rewrite Hs.
Qed.


Module NightClosedWitness.
Import Hotel.
Definition no_reason (e : error) : string := "".
(** The connection is lost in the third transaction, the batch of stays. *)
Definition cut_off (k : nat) : option error := if (k =? 2)%nat then Some internal else None.
Definition steady (k : nat) : option error := None.
Definition t4 : Z := day 20000.
Definition night : Db := after (runAudit no_reason steady "b1" "2024-10-04" None) hotel.
Lemma claimed : match claimRun "b1" t4 None hotel with Ok (d, c) => bool_decide (length (nightAuditLogs d) = 1%nat) | Err _ => false end = true.
Proof. vm_compute. reflexivity. Qed.
Lemma no_logs : logs_fit hotel.
Proof. by intros x t ?%elem_of_nil. Qed.
Lemma night_done : match runAudit no_reason steady "b1" "2024-10-04" None hotel with Ok (_, r) => bool_decide (rr_status r = audit_completed) && bool_decide (length (rr_errors r) = 0%nat) | Err _ => false end = true.
Proof. vm_compute. reflexivity. Qed.
Lemma ada_rate : match night_rate hotel_stay t4 hotel with Ok (_, x) => negb (Qle_bool (this x) 0) | Err _ => false end = true.
Proof. vm_compute. reflexivity. Qed.
Lemma audit_bills_every_guest_witness : exists d' res, runAudit no_reason steady "b1" "2024-10-04" None hotel = Ok (d', res) /\
  (night_billed t4 hotel_stay d' \/ named_in "s1" (rr_errors res) \/ (rr_status res = audit_failed /\ named_in "" (rr_errors res))).
Proof.
  pose proof night_done as Hn. destruct (runAudit no_reason steady "b1" "2024-10-04" None hotel) as [[d' res]|e] eqn:E; [|discriminate Hn]. exists d', res. split; [reflexivity|].
  pose proof ada_rate as Hr. destruct (night_rate hotel_stay t4 hotel) as [[d2 rate]|e] eqn:Er; [|discriminate Hr].
  assert (d2 = hotel) as -> by (unfold night_rate in Er; simpl in Er; m_inv; reflexivity).
  refine (audit_bills_every_guest no_reason steady "b1" "2024-10-04" t4 None hotel d' res hotel_stay rate eq_refl E _ _ eq_refl Er _).
  - left.
  - vm_compute. reflexivity.
  - apply negb_true_iff in Hr. apply Qcnot_le_lt. intros Hle. apply (Qle_bool_iff (this rate) 0) in Hle. rewrite Hle in Hr. discriminate Hr.
Defined.
End NightClosedWitness.
