(* ===== verification/HotelDay.v ===== *)
(** A hotel's day: the desk, the till's bills and the night audit working on one
    database, one transaction after another in any order. *)
From stdpp Require Import pretty.
From Stdlib Require Import QArith Qcanon.
From S2P Require Import Prelude Decimal Json Dates StayPolicies Taxes Authority Transactions Db LoyaltyRules Packages Folios FolioLedger FolioPayments Notices SampleHotel Loyalty Refunds Rooms Housekeeping SalesRules Inventory Rates Guests Bookings StayChanges StayEnds Frames Lifecycle Books NightAudit.
Local Open Scope Z_scope.

Section HotelDay.
Context `{DecimalLib} `{TaxDb} `{Platform} `{Uuid} (encrypt : string -> string) (no_show_label : LineItem.t -> bool) (reasonOf : error -> string) (outage : nat -> option error).
(** The bills are in order, every stay is one stay, and every guest in the house has a room of their own. *)
Record hotel_ok (d : Db) : Prop := { ho_ledger : ledger_wf d; ho_stays : stays_ok d; ho_roomed : roomed (house d) }.
(** A transaction of the day. A night audit is several, which other transactions may come between; or it runs undisturbed. *)
Inductive hotel_op : forall {A}, M A -> Prop :=
| ho_folio {A} (m : M A) : folio_op m -> hotel_op m
| ho_stay {A} (m : M A) : stay_op encrypt no_show_label m -> hotel_op m
| ho_claim b date u : hotel_op (claimRun b date u)
| ho_close b date u scope i n total ids : hotel_op (closeBatch reasonOf b date u scope i n total ids)
| ho_mark b date policy u ids : hotel_op (markBatch reasonOf b date policy u ids)
| ho_audit b date u : hotel_op (runAudit reasonOf outage b date u).
Definition hotel_step (d d' : Db) : Prop := exists (A : Type) (m : M A) (a : A), hotel_op m /\ m d = Ok (d', a).

#[local] Hint Resolve sw_no_show : keeps.
Lemma hotel_op_wf {A} (m : M A) : hotel_op m -> keeps wf_keep m.
Proof.
  destruct 1 as [A m Hop|A m Hop| | | |].
  - by apply folio_op_wf.
  - by eapply (stay_op_keeps encrypt no_show_label wf_keep).
  - apply (claim_keeps wf_keep).
  - apply (batch_keeps _ wf_keep).
  - unfold markBatch, markOne. keeps_tac. apply keeps_attempt; [apply _|]. keeps_tac.
  - apply (run_keeps _ _ wf_keep).
Qed.
Lemma hotel_op_follows {A} (m : M A) : hotel_op m -> keeps follows m.
Proof.
  destruct 1 as [A m Hop|A m Hop| | | |].
  - apply quiet_keeps_follows. by apply (bs_folio (R := quiet)).
  - by eapply stay_op_follows.
  - apply quiet_keeps_follows, (claim_keeps quiet).
  - apply quiet_keeps_follows, (batch_keeps _ quiet).
  - apply mark_batch_follows.
  - apply run_follows.
Qed.
Lemma hotel_ok_step d d' : hotel_step d d' -> hotel_ok d -> hotel_ok d'.
Proof.
  intros (A & m & a & Hop & Hm) [Hl Hs Hr]. destruct (hotel_op_follows m Hop _ _ _ Hm Hs) as [Hs' Hsteps].
  split; [by eapply (hotel_op_wf m Hop) | done | by eapply roomed_steps].
Qed.

(** C1: whatever transactions of the front desk (bookings, walk-ins, arrivals,
    moves, departures, cancellations, no-shows, reinstatements, walks and changes
    of stay), of the bills (charges, payments, corrections, transfers, splits) and
    of the night audit commit, in any order and with the audit's batches in
    between the rest, the hotel stays in order: no night of a stay is billed
    twice and no line reversed twice, every amount is whole cents, ids are
    unique, every guest in the house has a room, and no two share one. *)
Theorem hotel_invariant d d' : hotel_ok d -> rtc hotel_step d d' -> hotel_ok d'.
Proof. intros Hd Hs. induction Hs as [d|d d1 d' Hstep _ IH]; [done|]. by apply IH, (hotel_ok_step d). Qed.
End HotelDay.

Module HotelDayWitness.
Import Hotel LifecycleWitness.
Definition no_reason (e : error) : string := "".
Definition no_outage (k : nat) : option error := None.
(** The night of the 4th is closed, then Ada moves to 102 and Tunde walks in to 101. *)
Definition d_night : Db := after (runAudit no_reason no_outage "b1" "2024-10-04" None) hotel.
Definition d_moved_on : Db := after (moveRoom "s1" to_102 "u1") d_night.
Definition d_two_in : Db := after (walkIn as_is "b1" tunde "u1") d_moved_on.
Lemma night_ok : is_ok (runAudit no_reason no_outage "b1" "2024-10-04" None hotel) && is_ok (moveRoom "s1" to_102 "u1" d_night) && is_ok (walkIn as_is "b1" tunde "u1" d_moved_on) = true.
Proof. vm_compute. reflexivity. Qed.
Lemma night_figures : match runAudit no_reason no_outage "b1" "2024-10-04" None hotel with
  | Ok (d, r) => (rr_foliosProcessed r, rr_chargesPosted r, rr_status r, this (rr_totalAmountPosted r), length (lineItems d)) | Err _ => (0, 0, audit_failed, 0%Q, 0%nat) end
  = (1, 1, audit_completed, (8063 # 100)%Q, 4%nat).
Proof. vm_compute. reflexivity. Qed.
Lemma hotel_in_order : hotel_ok hotel.
Proof. split; [apply LedgerWitness.hotel_wf | apply hotel_stays | apply hotel_roomed]. Qed.
Lemma op_after {A} (m : M A) d : hotel_op as_is no_label no_reason no_outage m -> is_ok (m d) = true -> hotel_step as_is no_label no_reason no_outage d (after m d).
Proof. intros Hop Hok. destruct (after_ok _ _ Hok) as [a Ha]. exists A, m, a. by split. Qed.
Lemma hotel_steps : rtc (hotel_step as_is no_label no_reason no_outage) hotel d_two_in.
Proof.
  pose proof night_ok as Hok. rewrite !andb_true_iff in Hok. destruct Hok as [[Hn Hm] Hw].
  apply (rtc_l _ hotel d_night); [exact (op_after (runAudit no_reason no_outage "b1" "2024-10-04" None) hotel (ho_audit _ _ _ _ _ _ _) Hn)|].
  apply (rtc_l _ d_night d_moved_on); [exact (op_after (moveRoom "s1" to_102 "u1") d_night (ho_stay _ _ _ _ _ (so_move _ _ _ _ _)) Hm)|].
  apply rtc_once. exact (op_after (walkIn as_is "b1" tunde "u1") d_moved_on (ho_stay _ _ _ _ _ (so_walk_in _ _ _ _ _)) Hw).
Qed.
Lemma hotel_invariant_witness : length (reservations d_two_in) = 2%nat /\ hotel_ok d_two_in.
Proof. split; [vm_compute; reflexivity | exact (hotel_invariant as_is no_label no_reason no_outage hotel d_two_in hotel_in_order hotel_steps)]. Defined.
End HotelDayWitness.
