(* ===== verification/SegmentRules.v ===== *)
(** Saved audiences (src/src/modules/marketing/segment-rules.ts): reading the
    rules of a segment, and who they choose. A number is the decimal it is
    written as; the conversion of a string to a number is a parameter. The
    sentences that describe the rules are left out. *)
From Stdlib Require Import QArith Qcanon.
From S2P Require Import Prelude Decimal Json Dates Taxes Transactions Db Folios.
Local Open Scope Z_scope.

(** The platform's [Number(s)] on a string; [None] when it is not finite. *)
Class StringToNumber := string_to_number : string -> option Qc.

Record SegmentCriteria := {
  vipLevelMin : option Qc; loyaltyTiers : option (list string); tags : option (list string); nationalities : option (list string); branchIds : option (list string);
  minStays : option Qc; minTotalSpend : option Qc; lastStayWithinDays : option Qc; notStayedForDays : option Qc }.
Definition SEGMENT_CRITERIA_KEYS : list string :=
  ["vipLevelMin"; "loyaltyTiers"; "tags"; "nationalities"; "branchIds"; "minStays"; "minTotalSpend"; "lastStayWithinDays"; "notStayedForDays"].
Record GuestAggregates := { stays : Z; totalSpend : Qc; lastStayAt : option Z }.

(** ** Reading the rules *)
Section Reading.
Context `{StringToNumber}.
(** [typeof v === 'number' ? v : Number(v)]; an array is converted as the text of its one element. *)
Fixpoint to_number (v : json) : option Qc :=
  match v with
  | JNull => Some 0%Qc
  | JBool b => Some (if b then 1 else 0)%Qc
  | JNum x => Some x
  | JStr s => string_to_number s
  | JArr [] => Some 0%Qc
  | JArr [JBool _] => None
  | JArr [x] => to_number x
  | JArr _ | JObj _ => None
  end.
(** [raw[key]], with [null] and [undefined] alike. *)
Definition given (key : string) (raw : list (string * json)) : option json :=
  match assoc key raw with Some JNull | None => None | Some v => Some v end.
Definition number_rule (key : string) (raw : list (string * json)) : res (option Qc) :=
  match given key raw with
  | None => Ok None
  | Some v => let? x := or_throw (to_number v) invalid in
              throw invalid when bool_decide (x < 0)%Qc in Ok (Some x)
  end.
Definition list_item (v : json) : res string :=
  match v with JStr s => throw invalid when negb (nonempty (js_trim s)) in Ok (js_trim s) | _ => Err invalid end.
Definition list_rule (key : string) (raw : list (string * json)) : res (option (list string)) :=
  match given key raw with
  | None => Ok None
  | Some (JArr l) => let? items := res_mapM list_item l in Ok (match items with [] => None | _ => Some items end)
  | Some _ => Err invalid
  end.
Definition assertCriteriaCoherent (c : SegmentCriteria) : res unit :=
  throw invalid when match lastStayWithinDays c, notStayedForDays c with Some within, Some not_for => bool_decide (not_for <= within)%Qc | _, _ => false end in
  throw_if match vipLevelMin c with Some v => bool_decide (Qc_of_Z 5 < v)%Qc | None => false end invalid.
Definition parseCriteria (value : json) : res SegmentCriteria :=
  match value with
  | JObj raw =>
      throw invalid when existsb (fun k => isSome (given k raw) && negb (includes k SEGMENT_CRITERIA_KEYS)) (fst <$> raw) in
      let? vip := number_rule "vipLevelMin" raw in
      let? nights := number_rule "minStays" raw in
      let? spend := number_rule "minTotalSpend" raw in
      let? within := number_rule "lastStayWithinDays" raw in
      let? not_for := number_rule "notStayedForDays" raw in
      let? tiers := list_rule "loyaltyTiers" raw in
      let? tagged := list_rule "tags" raw in
      let? countries := list_rule "nationalities" raw in
      let? properties := list_rule "branchIds" raw in
      let c := {| vipLevelMin := vip; loyaltyTiers := tiers; tags := tagged; nationalities := countries; branchIds := properties; minStays := nights; minTotalSpend := spend;
                  lastStayWithinDays := within; notStayedForDays := not_for |} in
      let? _ := assertCriteriaCoherent c in
      Ok c
  | _ => Err invalid
  end.
(** What is stored: the rules that are set. *)
Definition num_field (key : string) (x : option Qc) : list (string * json) := match x with Some x => [(key, JNum x)] | None => [] end.
Definition list_field (key : string) (l : option (list string)) : list (string * json) := match l with Some l => [(key, JArr (JStr <$> l))] | None => [] end.
Definition criteria_json (c : SegmentCriteria) : json :=
  JObj (num_field "vipLevelMin" (vipLevelMin c) ++ num_field "minStays" (minStays c) ++ num_field "minTotalSpend" (minTotalSpend c) ++
        num_field "lastStayWithinDays" (lastStayWithinDays c) ++ num_field "notStayedForDays" (notStayedForDays c) ++ list_field "loyaltyTiers" (loyaltyTiers c) ++
        list_field "tags" (tags c) ++ list_field "nationalities" (nationalities c) ++ list_field "branchIds" (branchIds c)).
End Reading.

(** ** Who they choose *)
(** [new Date(now.getTime() - days * 86_400_000)], cut to whole milliseconds. *)
Definition daysBefore (now : Z) (days : Qc) : Z :=
  let t := (Qc_of_Z now - days * Qc_of_Z DAY_MS)%Qc in Z.quot (QArith_base.Qnum (this t)) (Zpos (QArith_base.Qden (this t))).
Definition MAX_DATE : Z := 8640000000000000.
Definition matchesAggregates (a : GuestAggregates) (c : SegmentCriteria) (now : Z) : bool :=
  match minStays c with Some n => negb (bool_decide (Qc_of_Z (stays a) < n)%Qc) | None => true end &&
  match minTotalSpend c with Some s => negb (bool_decide (totalSpend a < s)%Qc) | None => true end &&
  match lastStayWithinDays c with Some n => match lastStayAt a with Some t => negb (t <? daysBefore now n) | None => false end | None => true end &&
  match notStayedForDays c with Some n => match lastStayAt a with Some t => negb (daysBefore now n <=? t) | None => true end | None => true end.
Definition completedStay (g : string) (r : Reservation.t) : bool :=
  bool_decide (Reservation.guestId r = g) && bool_decide (Reservation.status r = checked_out) && isNone (Reservation.deletedAt r).
(** [{ marketingOptIn: true, email: { not: null } }] *)
Definition MARKETING_CONSENT_FLOOR (g : GuestProfile.t) : bool := GuestProfile.marketingOptIn g && isSome (GuestProfile.email g).
(** The guests the database returns; [tagged] is the tags of each profile. *)
Definition guestWhereFor (d : Db) (tagged : string -> list string) (c : SegmentCriteria) (now : Z) (g : GuestProfile.t) : bool :=
  isNone (GuestProfile.deletedAt g) &&
  match vipLevelMin c with Some n => match GuestProfile.vipLevel g with Some v => bool_decide (n <= Qc_of_Z v)%Qc | None => false end | None => true end &&
  match loyaltyTiers c with Some l => match GuestProfile.loyaltyTier g with Some t => includes t l | None => false end | None => true end &&
  match tags c with Some l => existsb (fun t => includes t l) (tagged (GuestProfile.id g)) | None => true end &&
  match nationalities c with Some l => match GuestProfile.nationality g with Some n => includes n l | None => false end | None => true end &&
  match branchIds c with Some l => existsb (fun r => completedStay (GuestProfile.id g) r && includes (Reservation.branchId r) l) (reservations d) | None => true end &&
  match lastStayWithinDays c with Some n => existsb (fun r => completedStay (GuestProfile.id g) r && (daysBefore now n <=? Reservation.checkOutDate r)) (reservations d) | None => true end &&
  match notStayedForDays c with Some n => negb (existsb (fun r => completedStay (GuestProfile.id g) r && (daysBefore now n <=? Reservation.checkOutDate r)) (reservations d)) | None => true end.
(** The database takes whole numbers for the level and dates it can hold. *)
Definition askable (c : SegmentCriteria) (now : Z) : bool :=
  let holds x := match x with Some n => Z.abs (daysBefore now n) <=? MAX_DATE | None => true end in
  match vipLevelMin c with Some n => is_integer n | None => true end && holds (lastStayWithinDays c) && holds (notStayedForDays c).
Definition needsAggregates (c : SegmentCriteria) : bool := isSome (minStays c) || isSome (minTotalSpend c).

(** ** What is stored reads back *)
Section Stored.
Context `{StringToNumber}.
(** The rules as reading them leaves them. *)
Definition number_ok (x : option Qc) : Prop := match x with Some x => (0 <= x)%Qc | None => True end.
Definition item_ok (s : string) : Prop := js_trim s = s /\ nonempty s = true.
Definition list_ok (l : option (list string)) : Prop := match l with Some l => l <> [] /\ Forall item_ok l | None => True end.
Record criteria_ok (c : SegmentCriteria) : Prop := {
  ok_numbers : number_ok (vipLevelMin c) /\ number_ok (minStays c) /\ number_ok (minTotalSpend c) /\ number_ok (lastStayWithinDays c) /\ number_ok (notStayedForDays c);
  ok_lists : list_ok (loyaltyTiers c) /\ list_ok (tags c) /\ list_ok (nationalities c) /\ list_ok (branchIds c);
  ok_coherent : assertCriteriaCoherent c = Ok tt;
}.
Lemma number_rule_ok k raw x : number_rule k raw = Ok x -> number_ok x.
Proof.
  unfold number_rule. destruct (given k raw) as [v|]; [|by intros [= <-]]. intros (y & _ & Hx)%res_bind_Ok. apply res_bind_Ok in Hx as ([] & Hy%throw_if_Ok & Hx).
  injection Hx as <-. apply bool_decide_eq_false in Hy. simpl. by apply Qcnot_lt_le.
Qed.
Lemma list_items_ok l items : res_mapM list_item l = Ok items -> Forall item_ok items.
Proof.
  revert items. induction l as [|v l IH]; simpl; intros items Hm; [by injection Hm as <-|]. apply res_bind_Ok in Hm as (s & Hs & Hm). apply res_bind_Ok in Hm as (rest & Hr & Hm).
  injection Hm as <-. constructor; [|by apply IH]. destruct v; try done. simpl in Hs. apply res_bind_Ok in Hs as ([] & Hn%throw_if_Ok & Hs). injection Hs as <-.
  split; [apply js_trim_idemp | by apply negb_false_iff].
Qed.
Lemma list_rule_ok k raw l : list_rule k raw = Ok l -> list_ok l.
Proof.
  unfold list_rule. destruct (given k raw) as [[]|]; try done; [|by intros [= <-]]. intros (items & Hi%list_items_ok & Hl)%res_bind_Ok. injection Hl as <-. by destruct items.
Qed.
Lemma parse_ok v c : parseCriteria v = Ok c -> criteria_ok c.
Proof.
  destruct v as [| | | | |raw]; try done. unfold parseCriteria. intros (u & _ & Hm)%res_bind_Ok.
  do 5 (apply res_bind_Ok in Hm as (? & ?%number_rule_ok & Hm)). do 4 (apply res_bind_Ok in Hm as (? & ?%list_rule_ok & Hm)).
  apply res_bind_Ok in Hm as ([] & Hc & Hm). injection Hm as <-. by split.
Qed.

Lemma assoc_app k a b : assoc k (a ++ b) = match assoc k a with Some v => Some v | None => assoc k b end.
Proof. induction a as [|[k' v] a IH]; [done|]. simpl. by case_bool_decide. Qed.
Lemma assoc_num k k' x : assoc k (num_field k' x) = if bool_decide (k = k') then JNum <$> x else None.
Proof. destruct x; simpl; by case_bool_decide. Qed.
Lemma assoc_list k k' l : assoc k (list_field k' l) = if bool_decide (k = k') then (fun l => JArr (JStr <$> l)) <$> l else None.
Proof. destruct l; simpl; by case_bool_decide. Qed.
Lemma given_num k raw x : assoc k raw = JNum <$> x -> number_ok x -> number_rule k raw = Ok x.
Proof.
  unfold number_rule, given. intros -> Hx. destruct x as [x|]; [|done]. simpl. rewrite bool_decide_false; [done|]. by apply Qcle_not_lt.
Qed.
Lemma given_list k raw l : assoc k raw = (fun l => JArr (JStr <$> l)) <$> l -> list_ok l -> list_rule k raw = Ok l.
Proof.
  unfold list_rule, given. intros -> Hl. destruct l as [l|]; [|done]. destruct Hl as [Hne Hl].
  assert (res_mapM list_item (JStr <$> l) = Ok l) as E; [|change (res_bind (res_mapM list_item (JStr <$> l)) (fun items => Ok (match items with [] => None | _ => Some items end)) = Ok (Some l)); rewrite E; by destruct l].
  clear Hne. induction Hl as [|s l [Hs Hn] _ IH]; [done|]. csimpl. rewrite Hs, Hn. simpl. by rewrite IH.
Qed.
Definition all_known (raw : list (string * json)) : bool := forallb (fun k => includes k SEGMENT_CRITERIA_KEYS) (fst <$> raw).
Lemma known_app a b : all_known a = true -> all_known b = true -> all_known (a ++ b) = true.
Proof. unfold all_known. rewrite fmap_app, forallb_app. by intros -> ->. Qed.
Lemma known_num k x : includes k SEGMENT_CRITERIA_KEYS = true -> all_known (num_field k x) = true.
Proof. destruct x; unfold all_known; simpl; [by intros ->|done]. Qed.
Lemma known_list k x : includes k SEGMENT_CRITERIA_KEYS = true -> all_known (list_field k x) = true.
Proof. destruct x; unfold all_known; simpl; [by intros ->|done]. Qed.
Lemma known_none raw : all_known raw = true -> existsb (fun k => isSome (given k raw) && negb (includes k SEGMENT_CRITERIA_KEYS)) (fst <$> raw) = false.
Proof.
  intros Hk. apply not_true_iff_false. intros (k & Hin & [_ Hn]%andb_true_iff)%existsb_exists_elem. unfold all_known in Hk. rewrite forallb_forall in Hk.
  by rewrite (Hk k) in Hn by (by apply list_elem_of_In).
Qed.
(** The value a stored key has. *)
Ltac stored raw x := unfold raw; rewrite !assoc_app, !assoc_num, !assoc_list; repeat (case_bool_decide; [try discriminate | try done]); simpl; by destruct x.
Lemma stored_reads_back c : criteria_ok c -> parseCriteria (criteria_json c) = Ok c.
Proof.
  intros [(N1 & N2 & N3 & N4 & N5) (L1 & L2 & L3 & L4) Hc]. unfold criteria_json, parseCriteria. set (raw := _ ++ _).
  rewrite known_none by (unfold raw; repeat (apply known_app; [first [by apply known_num | by apply known_list]|]); by apply known_list). simpl throw_if. cbn [res_bind].
  rewrite (given_num "vipLevelMin" raw (vipLevelMin c)); [|stored raw (vipLevelMin c)|done]. rewrite (given_num "minStays" raw (minStays c)); [|stored raw (minStays c)|done].
  rewrite (given_num "minTotalSpend" raw (minTotalSpend c)); [|stored raw (minTotalSpend c)|done].
  rewrite (given_num "lastStayWithinDays" raw (lastStayWithinDays c)); [|stored raw (lastStayWithinDays c)|done].
  rewrite (given_num "notStayedForDays" raw (notStayedForDays c)); [|stored raw (notStayedForDays c)|done].
  rewrite (given_list "loyaltyTiers" raw (loyaltyTiers c)); [|stored raw (loyaltyTiers c)|done]. rewrite (given_list "tags" raw (tags c)); [|stored raw (tags c)|done].
  rewrite (given_list "nationalities" raw (nationalities c)); [|stored raw (nationalities c)|done]. rewrite (given_list "branchIds" raw (branchIds c)); [|stored raw (branchIds c)|done].
  destruct c. cbn [res_bind vipLevelMin loyaltyTiers tags nationalities branchIds minStays minTotalSpend lastStayWithinDays notStayedForDays]. by rewrite Hc.
Qed.
End Stored.

(** ** The two halves of a match *)
Section Halves.
Context `{DecimalLib}.
(** [_max: { checkOutDate: true }] *)
Definition latest (l : list Reservation.t) : option Z :=
  foldr (fun r acc => Some (match acc with Some t => Z.max (Reservation.checkOutDate r) t | None => Reservation.checkOutDate r end)) None l.
Definition spent_on (d : Db) (f : string) : Qc := qsum (Payment.amount <$> List.filter (standing_payment f) (payments d)).
Definition spent_by (d : Db) (g : string) : Qc :=
  foldl (fun sum f => if existsb (standing_payment (Folio.id f)) (payments d) then sum ⊕ spent_on d (Folio.id f) else sum) 0%Qc
        (List.filter (fun f => bool_decide (Folio.guestId f = g)) (folios d)).
Definition aggregates_of (d : Db) (g : string) : GuestAggregates :=
  let done_ := List.filter (completedStay g) (reservations d) in
  {| stays := Z.of_nat (length done_); totalSpend := spent_by d g; lastStayAt := latest done_ |}.

Lemma latest_reached cutoff g l :
  existsb (fun r => completedStay g r && (cutoff <=? Reservation.checkOutDate r)) l =
  match latest (List.filter (completedStay g) l) with Some t => cutoff <=? t | None => false end.
Proof.
  induction l as [|r l IH]; [done|]. simpl. rewrite IH. destruct (completedStay g r); simpl; [|done].
  destruct (latest _) as [t|]; simpl; [|by rewrite orb_false_r]. destruct (cutoff <=? Reservation.checkOutDate r) eqn:E1, (cutoff <=? t) eqn:E2; simpl; symmetry; boolp; lia.
Qed.
(** When a guest was last there is decided alike by the database and by the second
    pass: the second pass leaves out only guests with too few stays or too little spent. *)
Lemma second_pass d tagged c now g : guestWhereFor d tagged c now g = true ->
  matchesAggregates (aggregates_of d (GuestProfile.id g)) c now =
  match minStays c with Some n => negb (bool_decide (Qc_of_Z (stays (aggregates_of d (GuestProfile.id g))) < n)%Qc) | None => true end &&
  match minTotalSpend c with Some s => negb (bool_decide (totalSpend (aggregates_of d (GuestProfile.id g)) < s)%Qc) | None => true end.
Proof.
  unfold guestWhereFor, matchesAggregates. rewrite !andb_true_iff. intros [[_ Hw] Hn]. simpl lastStayAt.
  set (last := latest _).
  assert (forall n, existsb (fun r => completedStay (GuestProfile.id g) r && (daysBefore now n <=? Reservation.checkOutDate r)) (reservations d) =
                    match last with Some t => daysBefore now n <=? t | None => false end) as Hl by (intros; apply latest_reached).
  clearbody last. match goal with |- _ && ?w && ?n = ?ab => assert (w = true /\ n = true) as [-> ->]; [|by rewrite !andb_true_r] end. split.
  - destruct (lastStayWithinDays c) as [within|]; [|done]. rewrite Hl in Hw. destruct last as [t|]; [|done]. by rewrite Z.ltb_antisym, Hw.
  - destruct (notStayedForDays c) as [n|]; [|done]. rewrite Hl in Hn. by destruct last as [t|].
Qed.
End Halves.
