(* ===== verification/CampaignRender.v ===== *)
(** From a template to a message
    (src/src/modules/marketing/campaign-render.ts): merge fields, tracked links,
    the unsubscribe link, the HTML part and the A/B split. A text is its UTF-8
    bytes; its white space is ASCII. A regular expression is a function that
    matches at the start of a text, and [scan] is [matchAll]. The HMAC is a
    parameter. *)
From Stdlib Require Import QArith Qcanon Ascii Floats.SpecFloat.
From S2P Require Import Prelude Decimal Inventory.
Local Open Scope Z_scope.

Abbreviation text := (list Ascii.ascii).
Definition chars : string -> text := String.list_ascii_of_string.
Coercion chars : string >-> list.
Definition NL : text := [ascii_of_nat 10].
Definition QUOTE : text := [ascii_of_nat 34].

(** ** Matching *)
(** A match: what was captured, its text, and what follows it. *)
Inductive piece (A : Type) := Chr (c : Ascii.ascii) | Hit (a : A) (whole : text).
Arguments Chr {A} c.
Arguments Hit {A} a whole.
Definition matcher (A : Type) : Type := text -> option (A * text * text).
(** [text.matchAll(re)] with what lies between; a match is not empty, so the length of the text is fuel enough. *)
Fixpoint scan_from {A} (fuel : nat) (m : matcher A) (s : text) : list (piece A) :=
  match fuel with
  | O => []
  | S n => match m s with
           | Some (a, whole, rest) => Hit a whole :: scan_from n m rest
           | None => match s with [] => [] | c :: s' => Chr c :: scan_from n m s' end
           end
  end.
Definition scan {A} (m : matcher A) (s : text) : list (piece A) := scan_from (S (length s)) m s.
(** [text.replace(re, f)] *)
Definition replaced {A} (f : A -> text -> text) (l : list (piece A)) : text := l ≫= fun p => match p with Chr c => [c] | Hit a whole => f a whole end.
Definition replace_all {A} (m : matcher A) (f : A -> text -> text) (s : text) : text := replaced f (scan m s).
Definition hits {A} (l : list (piece A)) : list A := l ≫= fun p => match p with Chr _ => [] | Hit a _ => [a] end.

Fixpoint strip (p s : text) : option text :=
  match p, s with
  | [], _ => Some s
  | c :: p, d :: s => if bool_decide (c = d) then strip p s else None
  | _, [] => None
  end.
Fixpoint take_while (f : Ascii.ascii -> bool) (s : text) : text := match s with c :: s' => if f c then c :: take_while f s' else [] | [] => [] end.
Fixpoint drop_while (f : Ascii.ascii -> bool) (s : text) : text := match s with c :: s' => if f c then drop_while f s' else s | [] => [] end.
(** [s.trimEnd()] *)
Definition trim_end (s : text) : text := reverse (drop_while is_space (reverse s)).
Definition literal (p : text) : matcher unit := fun s => match strip p s with Some rest => Some (tt, p, rest) | None => None end.

Definition between_codes (a b : nat) (c : Ascii.ascii) : bool := ((a <=? nat_of_ascii c) && (nat_of_ascii c <=? b))%nat.
Definition is_word (c : Ascii.ascii) : bool := between_codes 97 122 c || between_codes 65 90 c || between_codes 48 57 c || (nat_of_ascii c =? 95)%nat.
(** [/\{\{\s*([a-zA-Z0-9_]+)\s*\}\}/] *)
Definition PLACEHOLDER : matcher text := fun s =>
  s1 ← strip "{{" s;
  let s2 := drop_while is_space s1 in
  let name := take_while is_word s2 in
  if bool_decide (name = []) then None
  else rest ← strip "}}" (drop_while is_space (drop_while is_word s2));
       Some (name, take (length s - length rest) s, rest).
Definition one_of (l : text) (c : Ascii.ascii) : bool := bool_decide (c ∈ l).
Definition in_url (c : Ascii.ascii) : bool := negb (is_space c || one_of ("<>'" ++ QUOTE) c).
Definition sentence_end : Ascii.ascii -> bool := one_of ".,;:!?)".
(** [/https?:\/\/[^\s<>"']+[^\s<>"'.,;:!?)]/]: the longest run that does not end a sentence, of two characters or more. *)
Definition URL_PATTERN : matcher text := fun s =>
  match (match strip "https://" s with Some x => Some (chars "https://", x) | None => match strip "http://" s with Some x => Some (chars "http://", x) | None => None end end) with
  | Some (scheme, after) =>
      let run := reverse (drop_while sentence_end (reverse (take_while in_url after))) in
      if (2 <=? length run)%nat then Some (scheme ++ run, scheme ++ run, drop (length run) after) else None
  | None => None
  end.

(** ** Merge fields *)
Definition MERGE_FIELDS : list text :=
  [chars "guest_name"; chars "guest_first_name"; chars "hotel_name"; chars "loyalty_tier"; chars "loyalty_points"; chars "unsubscribe_url"].
Record MergeContext := { guest_name : text; guest_first_name : text; hotel_name : text; loyalty_tier : text; loyalty_points : text; unsubscribe_url : text }.
(** [context[token]]; the names every object inherits are not in a template that was saved. *)
Definition field_of (c : MergeContext) (token : text) : option text :=
  if bool_decide (token = chars "guest_name") then Some (guest_name c) else if bool_decide (token = chars "guest_first_name") then Some (guest_first_name c)
  else if bool_decide (token = chars "hotel_name") then Some (hotel_name c) else if bool_decide (token = chars "loyalty_tier") then Some (loyalty_tier c)
  else if bool_decide (token = chars "loyalty_points") then Some (loyalty_points c) else if bool_decide (token = chars "unsubscribe_url") then Some (unsubscribe_url c) else None.
Definition unknownMergeFields (s : text) : list text := remove_dups (List.filter (fun name => negb (bool_decide (name ∈ MERGE_FIELDS))) (hits (scan PLACEHOLDER s))).
Definition renderMergeFields (s : text) (c : MergeContext) : text := replace_all PLACEHOLDER (fun name whole => default whole (field_of c name)) s.
Definition hasUnsubscribeField (s : text) : bool := existsb (fun name => bool_decide (name = chars "unsubscribe_url")) (hits (scan PLACEHOLDER s)).

(** ** Click tracking *)
Class Hmac := hmac_sha256_hex : text -> text -> text.
Definition hex_digit (n : nat) : Ascii.ascii := ascii_of_nat (if (n <? 10)%nat then 48 + n else 55 + n).
Definition unreserved (c : Ascii.ascii) : bool := between_codes 97 122 c || between_codes 65 90 c || between_codes 48 57 c || one_of "-_.!~*'()" c.
Definition encodeURIComponent (s : text) : text :=
  s ≫= fun c => if unreserved c then [c] else "%" ++ [hex_digit (nat_of_ascii c / 16); hex_digit (nat_of_ascii c mod 16)].
Section Tracking.
Context `{Hmac}.
Definition signTarget (token target secret : text) : text := take 32 (hmac_sha256_hex secret (token ++ NL ++ target)).
Definition verifyTarget (token target signature secret : text) : bool :=
  let expected := signTarget token target secret in
  if negb (length expected =? length signature)%nat then false else bool_decide (expected = signature).
Record TrackingUrls := { pixelUrl : text; unsubscribeUrl : text; clickUrlFor : text -> text }.
Definition trackingUrlsFor (baseUrl token secret : text) : TrackingUrls :=
  let base := reverse (drop_while (one_of "/") (reverse baseUrl)) in
  {| pixelUrl := base ++ "/api/v1/public/marketing/open/" ++ token ++ ".gif";
     unsubscribeUrl := base ++ "/api/v1/public/marketing/unsubscribe/" ++ token;
     clickUrlFor := fun target => base ++ "/api/v1/public/marketing/click/" ++ token ++ "?u=" ++ encodeURIComponent target ++ "&s=" ++ signTarget token target secret |}.
End Tracking.

(** ** The two parts *)
Record RenderedMessage := { rm_text : text; rm_html : text }.
Definition escapeHtml (s : text) : text :=
  s ≫= fun c => if bool_decide ([c] = chars "&") then chars "&amp;" else if bool_decide ([c] = chars "<") then chars "&lt;" else if bool_decide ([c] = chars ">") then chars "&gt;"
                else if bool_decide ([c] = QUOTE) then chars "&quot;" else if bool_decide ([c] = chars "'") then chars "&#39;" else [c].
Definition attr (name value : text) : text := name ++ "=" ++ QUOTE ++ value ++ QUOTE.
Definition linkify (block : text) : text :=
  scan URL_PATTERN block ≫= fun p => match p with
    | Chr c => escapeHtml [c]
    | Hit url _ => "<a " ++ attr "href" (escapeHtml url) ++ " " ++ attr "style" "color:#0f766e" ++ ">" ++ escapeHtml url ++ "</a>"
    end.
(** [split(/\n{2,}/)] and [split('\n')] *)
Definition BLANK_LINES : matcher unit := fun s =>
  let run := take_while (one_of NL) s in if (2 <=? length run)%nat then Some (tt, run, drop (length run) s) else None.
Fixpoint split_at_hits {A} (l : list (piece A)) : list text :=
  match l with
  | [] => [[]]
  | Hit _ _ :: l => [] :: split_at_hits l
  | Chr c :: l => match split_at_hits l with first :: more => (c :: first) :: more | [] => [[c]] end
  end.
Fixpoint join (sep : text) (l : list text) : text := match l with [] => [] | [x] => x | x :: l => x ++ sep ++ join sep l end.
Definition p_style : text := attr "style" "margin:0 0 16px".
Definition toHtml (s hotelName : text) (tracking : TrackingUrls) (needsFooter : bool) : text :=
  let blocks := split_at_hits (scan BLANK_LINES (trim_end s)) in
  let paragraphs := join (NL ++ "      ") ((fun block => "<p " ++ p_style ++ ">" ++ join "<br />" (split_at_hits (scan (literal NL) (linkify block))) ++ "</p>") <$> blocks) in
  let footer := if needsFooter then
    "<p " ++ attr "style" "margin:24px 0 0;padding-top:16px;border-top:1px solid #e5e5e5;color:#767676;font-size:12px" ++ ">You're receiving this because you asked " ++ escapeHtml hotelName ++
    " to send you offers. <a " ++ attr "href" (escapeHtml (unsubscribeUrl tracking)) ++ " " ++ attr "style" "color:#767676" ++ ">Unsubscribe</a>.</p>" else [] in
  "<!doctype html>" ++ NL ++ "<html " ++ attr "lang" "en" ++ ">" ++ NL ++
  "  <body " ++ attr "style" "margin:0;padding:24px;background:#f5f5f4;font-family:-apple-system,Segoe UI,Helvetica,Arial,sans-serif;color:#1c1917;font-size:15px;line-height:1.6" ++ ">" ++ NL ++
  "    <div " ++ attr "style" "max-width:560px;margin:0 auto;background:#ffffff;border-radius:8px;padding:28px" ++ ">" ++ NL ++
  "      " ++ paragraphs ++ NL ++ "      " ++ footer ++ NL ++ "    </div>" ++ NL ++
  "    <img " ++ attr "src" (escapeHtml (pixelUrl tracking)) ++ " " ++ attr "width" "1" ++ " " ++ attr "height" "1" ++ " " ++ attr "alt" "" ++ " " ++ attr "style" "display:none" ++ " />" ++ NL ++
  "  </body>" ++ NL ++ "</html>".
(** U+E000, a character of private use, around a word *)
Definition UNSUBSCRIBE_MARKER : text := let e000 := [ascii_of_nat 238; ascii_of_nat 128; ascii_of_nat 128] in e000 ++ "unsubscribe" ++ e000.
Definition with_unsubscribe_url (u : text) (c : MergeContext) : MergeContext :=
  {| guest_name := guest_name c; guest_first_name := guest_first_name c; hotel_name := hotel_name c; loyalty_tier := loyalty_tier c; loyalty_points := loyalty_points c; unsubscribe_url := u |}.
Definition renderForRecipient (body : text) (context : MergeContext) (tracking : TrackingUrls) : RenderedMessage :=
  let merged := renderMergeFields body (with_unsubscribe_url UNSUBSCRIBE_MARKER context) in
  let tracked := replace_all URL_PATTERN (fun url _ => clickUrlFor tracking url) merged in
  let withUnsubscribe := replace_all (literal UNSUBSCRIBE_MARKER) (fun _ _ => unsubscribeUrl tracking) tracked in
  let needsFooter := negb (hasUnsubscribeField body) in
  {| rm_text := if needsFooter then
                  trim_end withUnsubscribe ++ NL ++ NL ++ "—" ++ NL ++ "You're receiving this because you asked " ++ hotel_name context ++ " to send you offers. To stop: " ++ unsubscribeUrl tracking
                else withUnsubscribe;
     rm_html := toHtml withUnsubscribe (hotel_name context) tracking needsFooter |}.

(** ** The A/B split *)
(** [Math.round]: the nearest whole number, halves upwards *)
Definition round_double (f : spec_float) : Z :=
  match f with
  | S754_finite s m e => let z := if s then Z.neg m else Z.pos m in if 0 <=? e then z * 2 ^ e else (2 * z + 2 ^ (- e)) / (2 * 2 ^ (- e))
  | _ => 0
  end.
Definition onA (total : Z) (splitRatio : Qc) : Z := Z.max 1 (Z.min (total - 1) (round_double (Double.mul (Double.of_Z total) (Double.of_Qc splitRatio)))).
Inductive Variant_ := vA | vB.
Definition variantFor (index total : Z) (splitRatio : option Qc) : Variant_ :=
  match splitRatio with
  | None => vA
  | Some r => if index <? onA total r then vA else vB
  end.

(** ** Scanning *)
Definition matcher_ok {A} (m : matcher A) : Prop := forall s a w r, m s = Some (a, w, r) -> s = w ++ r /\ w <> [].
Lemma scan_fuel {A} (m : matcher A) n s : matcher_ok m -> (length s < n)%nat -> scan_from n m s = scan m s.
Proof.
  intros Hm. unfold scan. revert s. induction n as [n IH] using lt_wf_ind. intros s Hn. destruct n as [|n]; [lia|]. simpl.
  destruct (m s) as [[[a w] r]|] eqn:E.
  - apply Hm in E as [-> Hw]. assert (0 < length w)%nat by (destruct w; simpl; [done|lia]). rewrite length_app in *. f_equal. rewrite IH by lia. symmetry. apply IH; lia.
  - destruct s as [|c s]; [done|]. simpl in *. f_equal. rewrite IH by lia. done.
Qed.
Lemma scan_eq {A} (m : matcher A) s : matcher_ok m ->
  scan m s = match m s with Some (a, w, r) => Hit a w :: scan m r | None => match s with [] => [] | c :: s' => Chr c :: scan m s' end end.
Proof.
  intros Hm. unfold scan at 1. simpl. destruct (m s) as [[[a w] r]|] eqn:E.
  - apply Hm in E as [-> Hw]. f_equal. apply scan_fuel; [done|]. rewrite length_app. destruct w; simpl; [done|lia].
  - destruct s as [|c s]; [done|]. f_equal.
Qed.
Lemma scan_text {A} (m : matcher A) s : matcher_ok m -> replaced (fun _ w => w) (scan m s) = s.
Proof.
  intros Hm. induction s as [s IH] using (induction_ltof1 _ (@length Ascii.ascii)). unfold ltof in IH. rewrite scan_eq by done. destruct (m s) as [[[a w] r]|] eqn:E.
  - apply Hm in E as [-> Hw]. unfold replaced in *. simpl. rewrite IH; [done|]. rewrite length_app. destruct w; simpl; [done|lia].
  - destruct s as [|c s]; [done|]. unfold replaced in *. simpl. rewrite IH; [done|simpl; lia].
Qed.
Lemma replaced_app {A} (f : A -> text -> text) l1 l2 : replaced f (l1 ++ l2) = replaced f l1 ++ replaced f l2.
Proof. unfold replaced. by rewrite bind_app. Qed.

Lemma replaced_chr {A} (f : A -> text -> text) c l : replaced f (Chr c :: l) = c :: replaced f l.
Proof. done. Qed.
Lemma replaced_hit {A} (f : A -> text -> text) a w l : replaced f (Hit a w :: l) = f a w ++ replaced f l.
Proof. done. Qed.

Lemma strip_text p s r : strip p s = Some r -> s = p ++ r.
Proof. revert s. induction p as [|c p IH]; intros s; simpl; [by intros [= <-]|]. destruct s as [|d s]; [done|]. case_bool_decide as E; [|done]. intros Hs%IH. by subst. Qed.
Lemma strip_self p s : strip p (p ++ s) = Some s.
Proof. induction p as [|c p IH]; simpl; [done|]. by rewrite bool_decide_true. Qed.
Lemma take_drop_while f s : take_while f s ++ drop_while f s = s.
Proof. induction s as [|c s IH]; [done|]. simpl. destruct (f c); simpl; [by rewrite IH | done]. Qed.
Lemma literal_ok p : p <> [] -> matcher_ok (literal p).
Proof. intros Hp s a w r. unfold literal. destruct (strip p s) as [x|] eqn:E; [|done]. intros [= _ <- <-]. by apply strip_text in E. Qed.
Lemma drop_end_prefix f s : exists t, s = reverse (drop_while f (reverse s)) ++ t.
Proof.
  exists (reverse (take_while f (reverse s))). rewrite <- reverse_app, take_drop_while. by rewrite reverse_involutive.
Qed.
Lemma placeholder_ok : matcher_ok PLACEHOLDER.
Proof.
  intros s a w r. unfold PLACEHOLDER. destruct (strip "{{" s) as [s1|] eqn:E1; [|done]. cbn [mbind option_bind]. set (s2 := drop_while is_space s1). case_bool_decide as En; [done|].
  destruct (strip "}}" _) as [rest|] eqn:E2; [|done]. cbn [mbind option_bind]. intros [= _ <- <-]. apply strip_text in E1, E2.
  assert (exists p, s = p ++ rest /\ p <> []) as (p & -> & Hp).
  { exists (chars "{{" ++ take_while is_space s1 ++ take_while is_word s2 ++ take_while is_space (drop_while is_word s2) ++ chars "}}"). split; [|done].
    rewrite E1 at 1. rewrite <- !app_assoc. f_equal. rewrite <- E2, (take_drop_while is_space (drop_while is_word s2)), (take_drop_while is_word s2). unfold s2. by rewrite take_drop_while. }
  rewrite length_app, Nat.add_sub, take_app_length. done.
Qed.
Lemma url_ok : matcher_ok URL_PATTERN.
Proof.
  intros s a w r. unfold URL_PATTERN.
  assert (forall scheme after, scheme <> [] -> (if (2 <=? length (reverse (drop_while sentence_end (reverse (take_while in_url after)))))%nat
    then Some (scheme ++ reverse (drop_while sentence_end (reverse (take_while in_url after))), scheme ++ reverse (drop_while sentence_end (reverse (take_while in_url after))),
               drop (length (reverse (drop_while sentence_end (reverse (take_while in_url after))))) after) else None) = Some (a, w, r) -> scheme ++ after = w ++ r /\ w <> []) as Hgo.
  { intros scheme after Hsc. destruct (_ <=? _)%nat; [|done]. intros [= _ <- <-]. split; [|by destruct scheme]. rewrite <- app_assoc. f_equal.
    destruct (drop_end_prefix sentence_end (take_while in_url after)) as [t Ht]. set (run := reverse _) in *.
    assert (after = run ++ t ++ drop_while in_url after) as Ha by (rewrite app_assoc, <- Ht; by rewrite take_drop_while). 
    clearbody run. clear Ht. generalize dependent after. intros after ->. by rewrite drop_app_length. }
  destruct (strip "https://" s) as [x|] eqn:E1; [apply strip_text in E1 as ->; by apply Hgo|].
  destruct (strip "http://" s) as [x|] eqn:E2; [apply strip_text in E2 as ->; by apply Hgo|done].
Qed.

(** ** A link ends before a character it cannot hold *)
Lemma strip_cut p s c t : c ∉ p -> (exists s', strip p (s ++ [c]) = Some (s' ++ [c]) /\ strip p (s ++ c :: t) = Some (s' ++ c :: t)) \/ (strip p (s ++ [c]) = None /\ strip p (s ++ c :: t) = None).
Proof.
  revert s. induction p as [|d p IH]; intros s Hc; [left; by exists s|]. apply not_elem_of_cons in Hc as [Hd Hc].
  destruct s as [|x s]; simpl; [right; rewrite bool_decide_false by congruence; done|]. case_bool_decide; [by apply IH | by right].
Qed.
Lemma run_cut s c t : in_url c = false -> take_while in_url (s ++ c :: t) = take_while in_url (s ++ [c]).
Proof. intros Hc. induction s as [|x s IH]; simpl; [by rewrite Hc|]. by rewrite IH. Qed.
Lemma run_short s c : in_url c = false -> (length (take_while in_url (s ++ [c])) <= length s)%nat.
Proof. intros Hc. induction s as [|x s IH]; simpl; [by rewrite Hc|]. destruct (in_url x); simpl; lia. Qed.
Lemma url_cut s c t : in_url c = false ->
  (exists a w s', URL_PATTERN (s ++ [c]) = Some (a, w, s' ++ [c]) /\ URL_PATTERN (s ++ c :: t) = Some (a, w, s' ++ c :: t) /\ (length s' < length s)%nat) \/
  (URL_PATTERN (s ++ [c]) = None /\ URL_PATTERN (s ++ c :: t) = None).
Proof.
  intros Hc. unfold URL_PATTERN.
  assert (forall scheme after, scheme <> [] -> (length (scheme ++ after) <= length s)%nat ->
    let run x := reverse (drop_while sentence_end (reverse (take_while in_url x))) in
    let m x := if (2 <=? length (run x))%nat then Some (scheme ++ run x, scheme ++ run x, drop (length (run x)) x) else None in
    (exists a w s', m (after ++ [c]) = Some (a, w, s' ++ [c]) /\ m (after ++ c :: t) = Some (a, w, s' ++ c :: t) /\ (length s' < length s)%nat) \/
    (m (after ++ [c]) = None /\ m (after ++ c :: t) = None)) as Hgo.
  { intros scheme after Hsc Hlen run m. unfold m, run. rewrite (run_cut after c t Hc). set (r := reverse _).
    assert (length r <= length after)%nat as Hr.
    { etrans; [|apply (run_short after c Hc)]. unfold r. destruct (drop_end_prefix sentence_end (take_while in_url (after ++ [c]))) as [x Hx]. rewrite Hx at 2. rewrite length_app. lia. }
    destruct (2 <=? length r)%nat; [|by right]. left. exists (scheme ++ r), (scheme ++ r), (drop (length r) after). rewrite !drop_app_le by done. split; [done|]. split; [done|].
    rewrite length_drop. rewrite length_app in Hlen. destruct scheme; simpl in *; [done|lia]. }
  assert (forall p x, strip p (s ++ [c]) = Some (x ++ [c]) -> (length (p ++ x) <= length s)%nat) as Hlen.
  { intros p x Hs%strip_text. apply (f_equal length) in Hs. rewrite !length_app in *. simpl in Hs. lia. }
  assert (forall p, forallb in_url p = true -> c ∉ p) as Hno by (intros p Hp Hin; rewrite forallb_forall in Hp; rewrite (Hp c) in Hc by (by apply list_elem_of_In); done).
  destruct (strip_cut "https://" s c t (Hno "https://" eq_refl)) as [(x & E1 & E2)|[E1 E2]]; rewrite E1, E2.
  { apply (Hgo (chars "https://") x); [done|]. exact (Hlen _ _ E1). }
  destruct (strip_cut "http://" s c t (Hno "http://" eq_refl)) as [(x & F1 & F2)|[F1 F2]]; rewrite F1, F2; [|by right].
  apply (Hgo (chars "http://") x); [done|]. exact (Hlen _ _ F1).
Qed.
Lemma scan_cut s c t : in_url c = false -> scan URL_PATTERN (s ++ c :: t) = scan URL_PATTERN (s ++ [c]) ++ scan URL_PATTERN t.
Proof.
  intros Hc. induction s as [s IH] using (induction_ltof1 _ (@length Ascii.ascii)). unfold ltof in IH. rewrite (scan_eq _ (s ++ c :: t) url_ok), (scan_eq _ (s ++ [c]) url_ok).
  destruct (url_cut s c t Hc) as [(a & w & s' & -> & -> & Hs')|[-> ->]]; [by rewrite (IH s')|]. destruct s as [|x s]; simpl; [done | rewrite (IH s); [done|simpl; lia]].
Qed.
(** A text whose letters start no link is kept as it is. *)
Lemma scan_plain p t : "h"%char ∉ p -> scan URL_PATTERN (p ++ t) = (Chr <$> p) ++ scan URL_PATTERN t.
Proof.
  induction p as [|c p IH]; [done|]. intros [Hc Hp]%not_elem_of_cons. rewrite (scan_eq _ ((c :: p) ++ t) url_ok).
  assert (URL_PATTERN ((c :: p) ++ t) = None) as ->; [|csimpl; by rewrite IH]. unfold URL_PATTERN. simpl. rewrite !bool_decide_false by congruence. done.
Qed.
Lemma replaced_plain {A} (f : A -> text -> text) p : replaced f (Chr <$> p) = p.
Proof. induction p as [|c p IH]; [done|]. unfold replaced in *. csimpl. by rewrite IH. Qed.

(** ** The unsubscribe link *)
Definition contains (u s : text) : Prop := exists a b, s = a ++ u ++ b.
Lemma contains_app_l u a s : contains u s -> contains u (a ++ s).
Proof. intros (x & y & ->). exists (a ++ x), y. by rewrite app_assoc. Qed.
(** A literal that occurs is replaced at least once. *)
Lemma literal_found p a b : p <> [] -> exists l1 l2, scan (literal p) (a ++ p ++ b) = l1 ++ Hit tt p :: l2.
Proof.
  intros Hp. pose proof (literal_ok p Hp) as Hm. induction a as [a IH] using (induction_ltof1 _ (@length Ascii.ascii)). unfold ltof in IH. rewrite scan_eq by done.
  unfold literal at 1. destruct (strip p (a ++ p ++ b)) as [r|] eqn:E; [by exists [], (scan (literal p) r)|]. destruct a as [|c a]; simpl in E |- *; [by rewrite strip_self in E|].
  destruct (IH a) as (l1 & l2 & ->); [simpl; lia|]. by exists (Chr c :: l1), l2.
Qed.
Lemma literal_put p u s : p <> [] -> contains p s -> contains u (replace_all (literal p) (fun _ _ => u) s).
Proof.
  intros Hp (a & b & ->). unfold replace_all. destruct (literal_found p a b Hp) as (l1 & l2 & ->). rewrite replaced_app. unfold replaced at 2. simpl. by exists (replaced (fun _ _ => u) l1), (replaced (fun _ _ => u) l2).
Qed.
(** The author's field stands at the start of the text or after a character no link can hold. *)
Fixpoint apart (free : bool) (l : list (piece text)) : bool :=
  match l with
  | [] => false
  | Chr c :: l => apart (negb (in_url c)) l
  | Hit name _ :: l => (free && bool_decide (name = chars "unsubscribe_url")) || apart false l
  end.
Definition link_kept (body : text) : bool := negb (hasUnsubscribeField body) || apart true (scan PLACEHOLDER body).
Definition cut_before (s : text) : Prop := s = [] \/ exists s' c, s = s' ++ [c] /\ in_url c = false.
Lemma apart_merged f free l : (forall w, f (chars "unsubscribe_url") w = UNSUBSCRIBE_MARKER) -> apart free l = true ->
  exists pre post, replaced f l = pre ++ UNSUBSCRIBE_MARKER ++ post /\ ((pre = [] /\ free = true) \/ exists s' c, pre = s' ++ [c] /\ in_url c = false).
Proof.
  intros Hf. revert free. induction l as [|[c|name w] l IH]; intros free Ha; simpl in Ha; [done|..].
  - destruct (IH _ Ha) as (pre & post & E & Hpre). exists (c :: pre), post. split; [by rewrite replaced_chr, E|]. right.
    destruct Hpre as [[-> Hc%negb_true_iff]|(s' & d & -> & Hd)]; [by exists [], c | by exists (c :: s'), d].
  - apply orb_true_iff in Ha as [[-> ->%bool_decide_eq_true]%andb_true_iff|Ha].
    + exists [], (replaced f l). split; [by rewrite replaced_hit, Hf | by left].
    + destruct (IH _ Ha) as (pre & post & E & Hpre). exists (f name w ++ pre), post. split; [by rewrite replaced_hit, E, app_assoc|]. right.
      destruct Hpre as [[_ Hx]|(s' & d & -> & Hd)]; [done|]. exists (f name w ++ s'), d. by rewrite app_assoc.
Qed.
Lemma tracked_keeps f pre post : cut_before pre -> contains UNSUBSCRIBE_MARKER (replace_all URL_PATTERN f (pre ++ UNSUBSCRIBE_MARKER ++ post)).
Proof.
  intros Hpre. unfold replace_all. assert ("h"%char ∉ UNSUBSCRIBE_MARKER) as Hh by (vm_compute; set_solver).
  destruct Hpre as [->|(s' & c & -> & Hc)].
  - rewrite app_nil_l, scan_plain by done. rewrite replaced_app, replaced_plain. by exists [], (replaced f (scan URL_PATTERN post)).
  - rewrite <- app_assoc. change ([c] ++ UNSUBSCRIBE_MARKER ++ post) with (c :: (UNSUBSCRIBE_MARKER ++ post)). rewrite (scan_cut s' c _ Hc), (scan_plain _ post Hh). rewrite !replaced_app, replaced_plain. by exists (replaced f (scan URL_PATTERN (s' ++ [c]))), (replaced f (scan URL_PATTERN post)).
Qed.
Lemma marker_nonempty : UNSUBSCRIBE_MARKER <> [].
Proof. done. Qed.
Lemma unsubscribe_link body context tracking : link_kept body = true -> contains (unsubscribeUrl tracking) (rm_text (renderForRecipient body context tracking)).
Proof.
  unfold link_kept, renderForRecipient. cbn [rm_text]. destruct (hasUnsubscribeField body); simpl negb; [|intros _; repeat apply contains_app_l; exists [], []; by rewrite app_nil_r].
  intros Ha. simpl in Ha. apply literal_put; [exact marker_nonempty|].
  destruct (apart_merged (fun name whole => default whole (field_of (with_unsubscribe_url UNSUBSCRIBE_MARKER context) name)) true _ (fun w => eq_refl) Ha) as (pre & post & E & Hpre).
  unfold renderMergeFields, replace_all at 2. rewrite E. apply tracked_keeps. destruct Hpre as [[-> _]|Hpre]; [by left | by right].
Qed.

(** A link is followed only with the signature made for it and for its reader. *)
Lemma verify_signed `{Hmac} token target signature secret : verifyTarget token target signature secret = true <-> signature = signTarget token target secret.
Proof.
  unfold verifyTarget. destruct (Nat.eqb_spec (length (signTarget token target secret)) (length signature)) as [E|E]; simpl.
  - rewrite bool_decide_eq_true. split; congruence.
  - split; [done | congruence].
Qed.
(** Text that was escaped opens no tag and closes no attribute. *)
Lemma escaped_inert s c : c ∈ escapeHtml s -> c ∉ chars "<>'" ++ QUOTE.
Proof.
  unfold escapeHtml. intros (x & Hc & _)%list_elem_of_bind. repeat case_bool_decide; [vm_compute in Hc |- *; set_solver..|].
  apply list_elem_of_singleton in Hc as ->. intros [Hx|Hx]%elem_of_app; [|apply list_elem_of_singleton in Hx; subst; done].
  unfold chars in Hx. simpl in Hx. rewrite !elem_of_cons, elem_of_nil in Hx. destruct Hx as [->|[->|[->|[]]]]; done.
Qed.

(** ** The split *)
Definition variants (total : nat) (splitRatio : option Qc) : list Variant_ := (fun i => variantFor (Z.of_nat i) (Z.of_nat total) splitRatio) <$> seq 0 total.
#[global] Instance variant_eq_dec : EqDecision Variant_.
Proof. solve_decision. Defined.
Definition count (v : Variant_) (l : list Variant_) : nat := length (List.filter (fun x => bool_decide (x = v)) l).
Lemma onA_bounds total r : 2 <= total -> 1 <= onA total r <= total - 1.
Proof. unfold onA. lia. Qed.
Lemma variants_eq total r : (2 <= total)%nat -> variants total (Some r) = replicate (Z.to_nat (onA (Z.of_nat total) r)) vA ++ replicate (total - Z.to_nat (onA (Z.of_nat total) r)) vB.
Proof.
  intros Ht. unfold variants, variantFor. pose proof (onA_bounds (Z.of_nat total) r) as Hb. set (a := onA (Z.of_nat total) r) in *.
  replace total with (Z.to_nat a + (total - Z.to_nat a))%nat at 1 by lia. rewrite List.seq_app, fmap_app. f_equal.
  - symmetry. apply replicate_as_elem_of. split; [by rewrite length_fmap, length_seq|]. intros x (i & -> & [_ Hi]%elem_of_seq)%list_elem_of_fmap. by rewrite (proj2 (Z.ltb_lt _ _)) by lia.
  - symmetry. apply replicate_as_elem_of. split; [by rewrite length_fmap, length_seq|]. intros x (i & -> & [Hi _]%elem_of_seq)%list_elem_of_fmap. by rewrite (proj2 (Z.ltb_ge _ _)) by lia.
Qed.
Lemma count_app v l1 l2 : count v (l1 ++ l2) = (count v l1 + count v l2)%nat.
Proof. unfold count. by rewrite List.filter_app, length_app. Qed.
Lemma count_replicate v w n : count v (replicate n w) = if bool_decide (w = v) then n else 0%nat.
Proof. unfold count. induction n as [|n IH]; simpl; [by case_bool_decide|]. case_bool_decide; simpl; by rewrite IH. Qed.


(** An A/B test splits an audience exactly: as many guests get the first
    version as the share comes to, rounded, every other guest gets the second, and
    neither version is left without a reader. *)
Theorem ab_split_exact total r : (2 <= total)%nat ->
  Z.of_nat (count vA (variants total (Some r))) = onA (Z.of_nat total) r /\ Z.of_nat (count vB (variants total (Some r))) = Z.of_nat total - onA (Z.of_nat total) r /\
  1 <= onA (Z.of_nat total) r <= Z.of_nat total - 1.
Proof.
  intros Ht. pose proof (onA_bounds (Z.of_nat total) r) as Hb. rewrite variants_eq, !count_app, !count_replicate by done. repeat case_bool_decide; try done; lia.
Qed.

Module RenderWitness.
#[export] Instance plain_hmac : Hmac := fun secret s => secret ++ s.
Definition kemi : MergeContext := {|
  guest_name := chars "Kemi <Adeyemi>"; guest_first_name := chars "Kemi"; hotel_name := chars "Lekki Palms"; loyalty_tier := chars "Silver"; loyalty_points := chars "550"; unsubscribe_url := [] |}.
Definition links : TrackingUrls := trackingUrlsFor (chars "https://pms.example//") (chars "abc") (chars "k").
Definition offer : text := chars "Hello {{ guest_first_name }}, book at https://palms.example/now. Stop: {{unsubscribe_url}}".
Example offer_text : rm_text (renderForRecipient offer kemi links) =
  "Hello Kemi, book at https://pms.example/api/v1/public/marketing/click/abc?u=https%3A%2F%2Fpalms.example%2Fnow&s=kabc" ++ NL ++
  "https://palms.example/now. Stop: https://pms.example/api/v1/public/marketing/unsubscribe/abc".
Proof. vm_compute. reflexivity. Qed.
(** A field right after a link is taken into the link and lost, and no footer is added. *)
Definition run_together : text := chars "Book: https://palms.example/now?stop={{unsubscribe_url}}".
Example link_swallowed : unknownMergeFields run_together = [] /\ link_kept run_together = false /\
  rm_text (renderForRecipient run_together kemi links) =
  "Book: https://pms.example/api/v1/public/marketing/click/abc?u=https%3A%2F%2Fpalms.example%2Fnow%3Fstop%3D%EE%80%80unsubscribe%EE%80%80&s=kabc" ++ NL ++
  "https://palms.example/now?s".
Proof. vm_compute. auto. Qed.
Example unknown_named : unknownMergeFields (chars "Dear {{first_name}} and {{guest_name}}") = [chars "first_name"].
Proof. vm_compute. reflexivity. Qed.
Lemma ab_split_exact_witness : count vA (variants 10 (Some (decimal 35 (-2)))) = 4%nat /\ Z.of_nat (count vB (variants 10 (Some (decimal 35 (-2))))) = 10 - onA 10 (decimal 35 (-2)).
Proof. split; [vm_compute; reflexivity | apply (ab_split_exact 10 (decimal 35 (-2))); lia]. Defined.
End RenderWitness.
