(* ===== verification/Inbox.v ===== *)
(** Messages between a property and its guests
    (src/src/modules/comms-log/comms-log.service.ts): what staff and guests
    write, the guests' threads and the unified inbox. The rows are the log;
    sending them is another service's. *)
From stdpp Require Import pretty.
From S2P Require Import Prelude Decimal Dates Json Taxes Authority Transactions Db Folios Notices Guests.
Local Open Scope Z_scope.

Inductive GuestRequestType := late_checkout | housekeeping_request.
#[global] Instance GuestRequestType_eq_dec : EqDecision GuestRequestType.
Proof. solve_decision. Defined.
Definition GUEST_REQUEST_LABELS (t : GuestRequestType) : string :=
  match t with late_checkout => "Late check-out request" | housekeeping_request => "Housekeeping request" end.
Definition MARKETING_CAMPAIGN_TRIGGER : string := "marketing_campaign".
Definition INBOX_LIMIT : nat := 100.
Definition THREAD_LIMIT : nat := 200.
Definition GUEST_THREAD_LIMIT : nat := 100.
Definition GUEST_HISTORY_LIMIT : nat := 500.
Definition PREVIEW_LENGTH : nat := 160.

Record SendCommunicationDto := { sm_channel : CommsChannel; sm_subject : option string; sm_body : string }.
Record InboxConversation := { ic_guest : GuestProfile.t; ic_reservation : option Reservation.t; ic_last : CommunicationLog.t; ic_preview : MessageBody; ic_unread : Z }.

(** [orderBy: { sentAt: 'desc' }] *)
Definition latest_first (l : list CommunicationLog.t) : list CommunicationLog.t := sort_by (fun m => - CommunicationLog.sentAt m) l.
Definition from_guest (m : CommunicationLog.t) : bool := bool_decide (CommunicationLog.direction m = inbound).
Definition unread (m : CommunicationLog.t) : bool := from_guest m && isNone (CommunicationLog.readAt m).
Definition between (b g : string) (m : CommunicationLog.t) : bool := bool_decide (CommunicationLog.branchId m = b) && bool_decide (CommunicationLog.guestId m = g).
(** [distinct: ['guestId']]: the guests, in the order they are first met. *)
Definition writers (l : list CommunicationLog.t) : list string := unique_from [] (CommunicationLog.guestId <$> l).
(** The guest's stays at the branch, the last to arrive first. *)
Definition stays_with (b g : string) (r : Reservation.t) : bool :=
  bool_decide (Reservation.branchId r = b) && bool_decide (Reservation.guestId r = g) && isNone (Reservation.deletedAt r).
Definition last_arrival_first (l : list Reservation.t) : list Reservation.t := sort_by (fun r => - Reservation.checkInDate r) l.
Definition preview (m : MessageBody) : MessageBody :=
  match m with written s => if (PREVIEW_LENGTH <? String.length s)%nat then written (String.substring 0 PREVIEW_LENGTH s +:+ "…") else m | rendered _ => m end.

Definition create_message (row : CommunicationLog.t) : M CommunicationLog.t :=
  do! modify (upd_communicationLogs (fun l => l ++ [row])) in ret row.
Definition sendManual (reservationId : string) (dto : SendCommunicationDto) (actorId : string) : M CommunicationLog.t :=
  let! r := orThrow (findFirst reservations (fun r => bool_decide (Reservation.id r = reservationId))) not_found in
  let! at_ := now in
  create_message {|
    CommunicationLog.branchId := Reservation.branchId r; CommunicationLog.reservationId := Some reservationId; CommunicationLog.guestId := Reservation.guestId r;
    CommunicationLog.channel := sm_channel dto; CommunicationLog.subject := written <$> sm_subject dto; CommunicationLog.body := written (sm_body dto); CommunicationLog.trigger := "manual";
    CommunicationLog.direction := outbound; CommunicationLog.readAt := None; CommunicationLog.deliveryStatus := msg_queued; CommunicationLog.sentBy := Some actorId; CommunicationLog.sentAt := at_ |}.

Definition listForReservation (reservationId : string) : M (list CommunicationLog.t) :=
  let! found := findMany communicationLogs (fun m => bool_decide (CommunicationLog.reservationId m = Some reservationId)) in
  ret (latest_first found).
(** Both days included. *)
Definition listForGuest (g : string) (from to : option string) : M (list CommunicationLog.t) :=
  let! since := match set_string from with Some s => let! t := lift (or_throw (toBranchDate s) internal) in ret (Some t) | None => ret None end in
  let! until := match set_string to with Some s => let! t := lift (or_throw (toBranchDate s) internal) in ret (Some (t + DAY_MS)) | None => ret None end in
  let! found := findMany communicationLogs (fun m => bool_decide (CommunicationLog.guestId m = g) &&
    match since with Some t => t <=? CommunicationLog.sentAt m | None => true end && match until with Some t => CommunicationLog.sentAt m <? t | None => true end) in
  ret (take GUEST_HISTORY_LIMIT (latest_first found)).

(** ** The inbox *)
Definition conversation (b g : string) : M (option InboxConversation) :=
  let! guest := findFirst guests (guest_where g) in
  let! messages := findMany communicationLogs (fun m => between b g m && negb (bool_decide (CommunicationLog.trigger m = MARKETING_CAMPAIGN_TRIGGER))) in
  let! stays := findMany reservations (stays_with b g) in
  let! waiting := findMany communicationLogs (fun m => between b g m && unread m) in
  ret (match guest, latest_first messages with
       | Some x, last :: _ => Some {| ic_guest := x; ic_reservation := head (last_arrival_first stays); ic_last := last; ic_preview := preview (CommunicationLog.body last);
                                      ic_unread := Z.of_nat (length waiting) |}
       | _, _ => None
       end).
Definition listInbox (b : string) (unreadOnly : bool) : M (list InboxConversation) :=
  let! found := findMany communicationLogs (fun m => bool_decide (CommunicationLog.branchId m = b) && from_guest m && (if unreadOnly then isNone (CommunicationLog.readAt m) else true)) in
  let guestIds := take INBOX_LIMIT (writers (latest_first found)) in
  let! conversations := for_each guestIds [] (fun acc g => let! c := conversation b g in ret (match c with Some c => acc ++ [c] | None => acc end)) in
  ret (sort_by (fun c => - CommunicationLog.sentAt (ic_last c)) conversations).
Definition getThread (b g : string) : M (GuestProfile.t * list Reservation.t * list CommunicationLog.t) :=
  let! guest := orThrow (findFirst guests (guest_where g)) not_found in
  let! stays := findMany reservations (stays_with b g) in
  let! messages := findMany communicationLogs (fun m => between b g m && negb (bool_decide (CommunicationLog.trigger m = MARKETING_CAMPAIGN_TRIGGER))) in
  ret (guest, take 20 (last_arrival_first stays), reverse (take THREAD_LIMIT (latest_first messages))).
Definition mark_read (b g : string) : M Z :=
  let! at_ := now in
  let! waiting := findMany communicationLogs (fun m => between b g m && unread m) in
  do! modify (upd_communicationLogs (update_where (fun m => between b g m && unread m) (CommunicationLog.with_readAt (Some at_)))) in
  ret (Z.of_nat (length waiting)).
Definition markThreadRead (b g : string) : M Z := mark_read b g.
(** Where a reply goes: the booking the guest last wrote about, or else their last one here. *)
Definition reply_about (b g : string) : M (option string) :=
  let! written_ := findMany communicationLogs (fun m => between b g m && from_guest m && isSome (CommunicationLog.reservationId m)) in
  let! stays := findMany reservations (stays_with b g) in
  ret (match (m ← head (latest_first written_); CommunicationLog.reservationId m) with
       | Some i => Some i
       | None => Reservation.id <$> head (last_arrival_first stays)
       end).
Definition replyInThread (b g : string) (dto : SendCommunicationDto) (actorId : string) : M CommunicationLog.t :=
  let! about := reply_about b g in
  let! reservationId := lift (or_throw about not_found) in
  let! at_ := now in
  let! reply := create_message {|
    CommunicationLog.branchId := b; CommunicationLog.reservationId := Some reservationId; CommunicationLog.guestId := g;
    CommunicationLog.channel := sm_channel dto; CommunicationLog.subject := if bool_decide (sm_channel dto = by_email) then written <$> sm_subject dto else None;
    CommunicationLog.body := written (sm_body dto); CommunicationLog.trigger := "manual"; CommunicationLog.direction := outbound; CommunicationLog.readAt := None;
    CommunicationLog.deliveryStatus := if bool_decide (sm_channel dto = in_app_chat) then msg_sent else msg_queued; CommunicationLog.sentBy := Some actorId; CommunicationLog.sentAt := at_ |} in
  let! _ := mark_read b g in
  ret reply.

(** ** The guest's side *)
Definition logGuestMessageInTx (b reservationId guestId body : string) (requestType : option GuestRequestType) : M CommunicationLog.t :=
  let! at_ := now in
  create_message {|
    CommunicationLog.branchId := b; CommunicationLog.reservationId := Some reservationId; CommunicationLog.guestId := guestId; CommunicationLog.channel := in_app_chat;
    CommunicationLog.subject := (fun t => written (GUEST_REQUEST_LABELS t)) <$> requestType; CommunicationLog.body := written body;
    CommunicationLog.trigger := if isSome requestType then "guest_request" else "guest_message"; CommunicationLog.direction := inbound; CommunicationLog.readAt := None;
    CommunicationLog.deliveryStatus := msg_delivered; CommunicationLog.sentBy := None; CommunicationLog.sentAt := at_ |}.
(** What the guest wrote about the booking and what staff wrote back, oldest first. *)
Definition in_guest_thread (reservationId : string) (m : CommunicationLog.t) : bool :=
  bool_decide (CommunicationLog.reservationId m = Some reservationId) && (from_guest m || bool_decide (CommunicationLog.trigger m = "manual")).
Definition guestThreadInTx (reservationId : string) : M (list CommunicationLog.t) :=
  let! found := findMany communicationLogs (in_guest_thread reservationId) in
  ret (reverse (take GUEST_THREAD_LIMIT (latest_first found))).
