(* ===== verification/Marketing.v ===== *)
(** Email campaigns (src/src/modules/marketing/marketing.service.ts,
    campaign-scheduler.service.ts): segments, templates, campaigns, sending them,
    and what a guest's mail client reports back. A message is an ordinary row of
    the communication log; rows of the log are only ever added, so a recipient
    refers to its message by place. An index of tokens leads a guest's mail client
    to an organisation; the state here is one organisation's, with the rows of the
    index that name it. Sending is a sequence of transactions, each of which
    commits; prose (descriptions, reasons) is left out, as is the HTML part in the
    log. *)
From stdpp Require Import pretty.
From Stdlib Require Import QArith Qcanon.
From S2P Require Import Prelude Decimal Json Dates StayPolicies Taxes Authority Transactions Db LoyaltyRules Packages Folios Rooms SalesRules Inventory Guests SegmentRules CampaignRender Inbox.
Import Authority.BranchRoles.
Local Open Scope Z_scope.

(** ** Rows *)
Module GuestSegment.
Record t := { id : string; name : string; description : option string; criteria : json; createdBy : option string; deletedAt : option Z }.
Definition with_data (n : string) (desc : option string) (c : json) (x : t) : t :=
  {| id := id x; name := n; description := desc; criteria := c; createdBy := createdBy x; deletedAt := deletedAt x |}.
Definition with_deletedAt (d : option Z) (x : t) : t :=
  {| id := id x; name := name x; description := description x; criteria := criteria x; createdBy := createdBy x; deletedAt := d |}.
End GuestSegment.
Module MessageTemplate.
Record t := { id : string; name : string; subject : option string; body : string; createdBy : option string; deletedAt : option Z }.
Definition with_data (n : string) (s : option string) (b : string) (x : t) : t :=
  {| id := id x; name := n; subject := s; body := b; createdBy := createdBy x; deletedAt := deletedAt x |}.
Definition with_deletedAt (d : option Z) (x : t) : t :=
  {| id := id x; name := name x; subject := subject x; body := body x; createdBy := createdBy x; deletedAt := d |}.
End MessageTemplate.
Inductive CampaignStatus := c_draft | c_scheduled | c_sending | c_sent | c_cancelled | c_failed.
#[global] Instance CampaignStatus_eq_dec : EqDecision CampaignStatus.
Proof. solve_decision. Defined.
Module Campaign.
Record t := {
  id : string; branchId : string; name : string; channel : CommsChannel; segmentId : string; templateId : string; subject : option string; status : CampaignStatus; scheduledAt : option Z;
  sentAt : option Z; variantTemplateId : option string; splitRatio : option Qc; recipientCount : Z; failureReason : option error; createdBy : option string; updatedAt : Z }.
Definition with_status (s : CampaignStatus) (scheduled sent : option Z) (count : Z) (reason : option error) (at_ : Z) (x : t) : t :=
  {| id := id x; branchId := branchId x; name := name x; channel := channel x; segmentId := segmentId x; templateId := templateId x; subject := subject x; status := s; scheduledAt := scheduled;
     sentAt := sent; variantTemplateId := variantTemplateId x; splitRatio := splitRatio x; recipientCount := count; failureReason := reason; createdBy := createdBy x; updatedAt := at_ |}.
Definition with_content (n seg tpl : string) (s : option string) (variant : option string) (split : option Qc) (x : t) : t :=
  {| id := id x; branchId := branchId x; name := n; channel := channel x; segmentId := seg; templateId := tpl; subject := s; status := status x; scheduledAt := scheduledAt x;
     sentAt := sentAt x; variantTemplateId := variant; splitRatio := split; recipientCount := recipientCount x; failureReason := failureReason x; createdBy := createdBy x; updatedAt := updatedAt x |}.
End Campaign.
Module Recipient.
Record t := { id : string; campaignId : string; guestId : string; variant : Variant_; communicationLogId : nat; sentAt : Z; openedAt : option Z; clickedAt : option Z; unsubscribedAt : option Z }.
Definition with_times (o c u : option Z) (x : t) : t :=
  {| id := id x; campaignId := campaignId x; guestId := guestId x; variant := variant x; communicationLogId := communicationLogId x; sentAt := sentAt x; openedAt := o; clickedAt := c; unsubscribedAt := u |}.
End Recipient.
(** [marketing_token_index], the rows of this organisation *)
Module Token.
Record t := { token : string; recipientId : string }.
End Token.

(** The organisation's rows, the tags of its guests, the tables of this module, and how many tokens were drawn. *)
Record Mk := {
  hotel : Db; guestTags : gmap string (list string); segments : list GuestSegment.t; templates : list MessageTemplate.t; campaigns : list Campaign.t; recipients : list Recipient.t;
  tokens : list Token.t; draws : nat }.
Definition upd_hotel (f : Db -> Db) (k : Mk) : Mk :=
  {| hotel := f (hotel k); guestTags := guestTags k; segments := segments k; templates := templates k; campaigns := campaigns k; recipients := recipients k; tokens := tokens k; draws := draws k |}.
Definition upd_segments (f : list GuestSegment.t -> list GuestSegment.t) (k : Mk) : Mk :=
  {| hotel := hotel k; guestTags := guestTags k; segments := f (segments k); templates := templates k; campaigns := campaigns k; recipients := recipients k; tokens := tokens k; draws := draws k |}.
Definition upd_templates (f : list MessageTemplate.t -> list MessageTemplate.t) (k : Mk) : Mk :=
  {| hotel := hotel k; guestTags := guestTags k; segments := segments k; templates := f (templates k); campaigns := campaigns k; recipients := recipients k; tokens := tokens k; draws := draws k |}.
Definition upd_campaigns (f : list Campaign.t -> list Campaign.t) (k : Mk) : Mk :=
  {| hotel := hotel k; guestTags := guestTags k; segments := segments k; templates := templates k; campaigns := f (campaigns k); recipients := recipients k; tokens := tokens k; draws := draws k |}.
Definition upd_recipients (f : list Recipient.t -> list Recipient.t) (k : Mk) : Mk :=
  {| hotel := hotel k; guestTags := guestTags k; segments := segments k; templates := templates k; campaigns := campaigns k; recipients := f (recipients k); tokens := tokens k; draws := draws k |}.
Definition upd_tokens (f : list Token.t -> list Token.t) (k : Mk) : Mk :=
  {| hotel := hotel k; guestTags := guestTags k; segments := segments k; templates := templates k; campaigns := campaigns k; recipients := recipients k; tokens := f (tokens k); draws := draws k |}.
Definition upd_draws (f : nat -> nat) (k : Mk) : Mk :=
  {| hotel := hotel k; guestTags := guestTags k; segments := segments k; templates := templates k; campaigns := campaigns k; recipients := recipients k; tokens := tokens k; draws := f (draws k) |}.
Abbreviation T := (Tx Mk).
Definition inDb {A} (m : M A) : T A := fun k => match m (hotel k) with Ok (d', a) => Ok (upd_hotel (fun _ => d') k, a) | Err e => Err e end.
(** A process: each transaction in it commits, whatever comes after. *)
Definition P (A : Type) : Type := Mk -> Mk * res A.
Definition tx {A} (m : T A) : P A := fun k => match m k with Ok (k', a) => (k', Ok a) | Err e => (k, Err e) end.
Definition p_ret {A} (a : A) : P A := fun k => (k, Ok a).
Definition p_bind {A B} (p : P A) (f : A -> P B) : P B := fun k => match p k with (k', Ok a) => f a k' | (k', Err e) => (k', Err e) end.
(** [try { p } catch (e) { ... }] *)
Definition p_catch {A} (p : P A) (h : error -> P A) : P A := fun k => match p k with (k', Ok a) => (k', Ok a) | (k', Err e) => h e k' end.
Fixpoint p_each {A B} (l : list B) (a : A) (body : A -> B -> P A) : P A := match l with [] => p_ret a | x :: l => p_bind (body a x) (fun a' => p_each l a' body) end.

Definition CAMPAIGN_ROLES : list string := ["owner"; "manager"].
Definition MAX_CANDIDATES : Z := 20000.
Definition MAX_AUDIENCE : Z := 5000.
Definition SEND_CHUNK : nat := 100.
Definition PREVIEW_SAMPLE : nat := 10.
Definition EDITABLE : list CampaignStatus := [c_draft; c_scheduled; c_failed].
Definition SENDABLE : list CampaignStatus := [c_draft; c_scheduled; c_failed; c_sending].

(** ** Requests *)
Record SaveSegmentDto := { ss_name : string; ss_description : option string; ss_criteria : json }.
Record SaveTemplateDto := { st_name : string; st_subject : option string; st_body : string }.
Record AbTestDto := { ab_variantTemplateId : string; ab_splitRatio : Qc }.
(** A time given as text is the instant it denotes, or none. *)
Record CreateCampaignDto := {
  cc_name : string; cc_channel : CommsChannel; cc_segmentId : string; cc_templateId : string; cc_subject : option string; cc_scheduledAt : option (option Z); cc_abTest : option AbTestDto }.
Record UpdateCampaignDto := {
  uc_name : option string; uc_segmentId : option string; uc_templateId : option string; uc_subject : option string; uc_scheduledAt : option (option (option Z)); uc_abTest : option (option AbTestDto) }.

(** [randomBytes(24).toString('hex')]: the n-th draw. Draws do not repeat. *)
Class RandomTokens := { random_token : nat -> string; random_token_inj :: Inj (=) (=) random_token }.
(** The address of the API, the key of the click links, and which mail transport is plugged in. *)
Class MailSetup := { baseUrl : text; clickSecret : text; transportName : string }.

Section Marketing.
Context `{DecimalLib} `{Uuid} `{StringToNumber} `{Hmac} `{RandomTokens} `{MailSetup}.
(** Whether the database is lost during the k-th transaction of a send. *)
Context (outage : nat -> option error).

Definition at_now : T Z := inDb now.
Definition m_audit (b u : option string) (action entityType entityId : string) : T unit := inDb (auditLog b u action entityType entityId).
Definition segment_where (i : string) (x : GuestSegment.t) : bool := bool_decide (GuestSegment.id x = i).
Definition template_where (i : string) (x : MessageTemplate.t) : bool := bool_decide (MessageTemplate.id x = i).
Definition campaign_where (i : string) (x : Campaign.t) : bool := bool_decide (Campaign.id x = i).
Definition recipient_where (i : string) (x : Recipient.t) : bool := bool_decide (Recipient.id x = i).
Definition tags_of (k : Mk) (g : string) : list string := default [] (guestTags k !! g).

(** ** Segments *)
Definition loadSegment (i : string) : T GuestSegment.t := orThrow (findFirst segments (fun x => segment_where i x && isNone (GuestSegment.deletedAt x))) not_found.
(** [@@unique([tenantId, name])]: a deleted row still holds its name. *)
Definition segment_name_free (n : string) (self : option string) : T unit :=
  let! held := findFirst segments (fun x => bool_decide (GuestSegment.name x = n) && negb (bool_decide (self = Some (GuestSegment.id x)))) in
  lift (throw_if (isSome held) conflict).
Definition toSegmentView (x : GuestSegment.t) : T (GuestSegment.t * SegmentCriteria) := let! c := lift (parseCriteria (GuestSegment.criteria x)) in ret (x, c).
Definition saveSegment (dto : SaveSegmentDto) (actorId : string) (segmentId : option string) : T (GuestSegment.t * SegmentCriteria) :=
  let! c := lift (parseCriteria (ss_criteria dto)) in
  let! clash := findFirst segments (fun x => bool_decide (GuestSegment.name x = ss_name dto) && isNone (GuestSegment.deletedAt x) &&
                                             match segmentId with Some i => negb (bool_decide (GuestSegment.id x = i)) | None => true end) in
  throw! conflict when isSome clash in
  let! row := match segmentId with
              | Some i =>
                  let! existing := loadSegment i in
                  do! segment_name_free (ss_name dto) (Some i) in
                  do! modify (upd_segments (update_where (segment_where i) (GuestSegment.with_data (ss_name dto) (ss_description dto) (criteria_json c)))) in
                  ret (GuestSegment.with_data (ss_name dto) (ss_description dto) (criteria_json c) existing)
              | None =>
                  do! segment_name_free (ss_name dto) None in
                  let! i := inDb new_id in
                  let row := {| GuestSegment.id := i; GuestSegment.name := ss_name dto; GuestSegment.description := ss_description dto; GuestSegment.criteria := criteria_json c;
                                GuestSegment.createdBy := Some actorId; GuestSegment.deletedAt := None |} in
                  do! modify (upd_segments (fun l => l ++ [row])) in
                  ret row
              end in
  do! m_audit None (Some actorId) (if isSome segmentId then "marketing.segment_updated" else "marketing.segment_created") "guest_segment" (GuestSegment.id row) in
  toSegmentView row.
Definition pending (x : Campaign.t) : bool := bool_decide (Campaign.status x ∈ [c_draft; c_scheduled; c_sending]).
Definition deleteSegment (i actorId : string) : T unit :=
  let! _ := loadSegment i in
  let! waiting := findMany campaigns (fun x => bool_decide (Campaign.segmentId x = i) && pending x) in
  throw! conflict when bool_decide (0 < length waiting)%nat in
  let! at_ := at_now in
  do! modify (upd_segments (update_where (segment_where i) (GuestSegment.with_deletedAt (Some at_)))) in
  m_audit None (Some actorId) "marketing.segment_deleted" "guest_segment" i.

(** ** Audiences *)
Definition candidates (where_ : GuestProfile.t -> bool) : T (list GuestProfile.t) := inDb (findMany guests where_).
Definition applyAggregates (found : list GuestProfile.t) (c : SegmentCriteria) (at_ : Z) : T (list GuestProfile.t) :=
  gets (fun k => List.filter (fun g => matchesAggregates (aggregates_of (hotel k) (GuestProfile.id g)) c at_) found).
Definition resolveAudience (c : SegmentCriteria) (at_ : Z) : T (list GuestProfile.t) :=
  throw! internal when negb (askable c at_) in
  let! k := gets (fun k => k) in
  let! found := candidates (fun g => guestWhereFor (hotel k) (tags_of k) c at_ g && MARKETING_CONSENT_FLOOR g) in
  throw! invalid when (MAX_CANDIDATES <? Z.of_nat (length found)) in
  if needsAggregates c then applyAggregates found c at_ else ret found.
Record SegmentPreview := { sp_matching : Z; sp_reachable : Z; sp_sample : list GuestProfile.t; sp_tooLarge : bool }.
Definition previewSegment (rawCriteria : json) : T SegmentPreview :=
  let! c := lift (parseCriteria rawCriteria) in
  let! at_ := at_now in
  throw! internal when negb (askable c at_) in
  let! k := gets (fun k => k) in
  let! found := candidates (guestWhereFor (hotel k) (tags_of k) c at_) in
  if MAX_CANDIDATES <? Z.of_nat (length found) then ret {| sp_matching := Z.of_nat (length found); sp_reachable := 0; sp_sample := []; sp_tooLarge := true |}
  else
    let! matching := if needsAggregates c then applyAggregates found c at_ else ret found in
    let! audience := resolveAudience c at_ in
    ret {| sp_matching := Z.of_nat (length matching); sp_reachable := Z.of_nat (length audience); sp_sample := take PREVIEW_SAMPLE audience; sp_tooLarge := false |}.

(** ** Templates *)
Definition loadTemplate (i : string) : T MessageTemplate.t := orThrow (findFirst templates (fun x => template_where i x && isNone (MessageTemplate.deletedAt x))) not_found.
Definition assertMergeFields (body : string) (subject : option string) : res unit :=
  throw_if (negb (bool_decide (unknownMergeFields (chars body) ++ unknownMergeFields (chars (default "" subject)) = []))) invalid.
Definition template_name_free (n : string) (self : option string) : T unit :=
  let! held := findFirst templates (fun x => bool_decide (MessageTemplate.name x = n) && negb (bool_decide (self = Some (MessageTemplate.id x)))) in
  lift (throw_if (isSome held) conflict).
Definition saveTemplate (dto : SaveTemplateDto) (actorId : string) (templateId : option string) : T MessageTemplate.t :=
  do! lift (assertMergeFields (st_body dto) (st_subject dto)) in
  let! clash := findFirst templates (fun x => bool_decide (MessageTemplate.name x = st_name dto) && isNone (MessageTemplate.deletedAt x) &&
                                              match templateId with Some i => negb (bool_decide (MessageTemplate.id x = i)) | None => true end) in
  throw! conflict when isSome clash in
  let! row := match templateId with
              | Some i =>
                  let! existing := loadTemplate i in
                  do! template_name_free (st_name dto) (Some i) in
                  do! modify (upd_templates (update_where (template_where i) (MessageTemplate.with_data (st_name dto) (st_subject dto) (st_body dto)))) in
                  ret (MessageTemplate.with_data (st_name dto) (st_subject dto) (st_body dto) existing)
              | None =>
                  do! template_name_free (st_name dto) None in
                  let! i := inDb new_id in
                  let row := {| MessageTemplate.id := i; MessageTemplate.name := st_name dto; MessageTemplate.subject := st_subject dto; MessageTemplate.body := st_body dto;
                                MessageTemplate.createdBy := Some actorId; MessageTemplate.deletedAt := None |} in
                  do! modify (upd_templates (fun l => l ++ [row])) in
                  ret row
              end in
  do! m_audit None (Some actorId) (if isSome templateId then "marketing.template_updated" else "marketing.template_created") "message_template" (MessageTemplate.id row) in
  ret row.
Definition deleteTemplate (i actorId : string) : T unit :=
  let! _ := loadTemplate i in
  let! waiting := findMany campaigns (fun x => pending x && (bool_decide (Campaign.templateId x = i) || bool_decide (Campaign.variantTemplateId x = Some i))) in
  throw! conflict when bool_decide (0 < length waiting)%nat in
  let! at_ := at_now in
  do! modify (upd_templates (update_where (template_where i) (MessageTemplate.with_deletedAt (Some at_)))) in
  m_audit None (Some actorId) "marketing.template_deleted" "message_template" i.
Definition exampleContext : MergeContext := {|
  guest_name := chars "Kemi Adeyemi"; guest_first_name := chars "Kemi"; hotel_name := chars "Lekki Palms Hotel"; loyalty_tier := chars "Silver"; loyalty_points := chars "550";
  unsubscribe_url := [] |}.
Definition previewTemplate (body : string) (subject : option string) : res (text * RenderedMessage) :=
  let? _ := assertMergeFields body subject in
  let tracking := trackingUrlsFor baseUrl (chars "preview") clickSecret in
  Ok (renderMergeFields (chars (default "" subject)) (with_unsubscribe_url (unsubscribeUrl tracking) exampleContext), renderForRecipient (chars body) exampleContext tracking).
Definition deliversExternally : bool := negb (bool_decide (transportName = "log")).

(** ** Campaigns *)
Definition assertSendableChannel (c : CommsChannel) : res unit := throw_if (negb (bool_decide (c = by_email))) invalid.
Definition parseSchedule (value : option Z) (at_ : Z) : res Z :=
  let? when_ := or_throw value invalid in throw invalid when (when_ <? at_ - 60000) in Ok when_.
Definition assertVariant (templateId variantTemplateId : string) : T unit :=
  throw! invalid when bool_decide (templateId = variantTemplateId) in
  let! _ := loadTemplate variantTemplateId in ret tt.
Definition findCampaign (i : string) : T Campaign.t := orThrow (findFirst campaigns (campaign_where i)) not_found.
Definition status_for (scheduledAt : option Z) : CampaignStatus := if isSome scheduledAt then c_scheduled else c_draft.
Definition createCampaign (b : string) (dto : CreateCampaignDto) (actorId : string) : T Campaign.t :=
  do! lift (assertSendableChannel (cc_channel dto)) in
  let! _ := inDb (assertBranch b) in
  let! _ := loadSegment (cc_segmentId dto) in
  let! _ := loadTemplate (cc_templateId dto) in
  do! match cc_abTest dto with Some ab => assertVariant (cc_templateId dto) (ab_variantTemplateId ab) | None => ret tt end in
  let! at_ := at_now in
  let! scheduledAt := match cc_scheduledAt dto with Some v => let! t := lift (parseSchedule v at_) in ret (Some t) | None => ret None end in
  let! i := inDb new_id in
  let row := {| Campaign.id := i; Campaign.branchId := b; Campaign.name := cc_name dto; Campaign.channel := cc_channel dto; Campaign.segmentId := cc_segmentId dto;
                Campaign.templateId := cc_templateId dto; Campaign.subject := cc_subject dto; Campaign.status := status_for scheduledAt; Campaign.scheduledAt := scheduledAt; Campaign.sentAt := None;
                Campaign.variantTemplateId := ab_variantTemplateId <$> cc_abTest dto; Campaign.splitRatio := ab_splitRatio <$> cc_abTest dto; Campaign.recipientCount := 0;
                Campaign.failureReason := None; Campaign.createdBy := Some actorId; Campaign.updatedAt := at_ |} in
  do! modify (upd_campaigns (fun l => l ++ [row])) in
  do! m_audit (Some b) (Some actorId) "marketing.campaign_created" "marketing_campaign" i in
  ret row.
Definition updateCampaign (i : string) (dto : UpdateCampaignDto) (actor : JwtPayload) : T unit :=
  let! c := findCampaign i in
  do! lift (assertRoleAtBranch actor (Campaign.branchId c) CAMPAIGN_ROLES) in
  throw! conflict when negb (bool_decide (Campaign.status c ∈ EDITABLE)) in
  do! match set_string (uc_segmentId dto) with Some s => let! _ := loadSegment s in ret tt | None => ret tt end in
  do! match set_string (uc_templateId dto) with Some s => let! _ := loadTemplate s in ret tt | None => ret tt end in
  let templateId := default (Campaign.templateId c) (uc_templateId dto) in
  do! match uc_abTest dto with Some (Some ab) => assertVariant templateId (ab_variantTemplateId ab) | _ => ret tt end in
  let! at_ := at_now in
  let! scheduledAt := match uc_scheduledAt dto with
                      | None => ret (Campaign.scheduledAt c)
                      | Some None => ret None
                      | Some (Some v) => let! t := lift (parseSchedule v at_) in ret (Some t)
                      end in
  let ab := match uc_abTest dto with
            | None => (Campaign.variantTemplateId c, Campaign.splitRatio c)
            | Some ab => (ab_variantTemplateId <$> ab, ab_splitRatio <$> ab)
            end in
  do! modify (upd_campaigns (update_where (campaign_where i) (fun x =>
        Campaign.with_status (status_for scheduledAt) scheduledAt (Campaign.sentAt x) (Campaign.recipientCount x) None at_
          (Campaign.with_content (default (Campaign.name x) (uc_name dto)) (default (Campaign.segmentId x) (uc_segmentId dto)) templateId
             (match uc_subject dto with Some s => Some s | None => Campaign.subject x end) (fst ab) (snd ab) x)))) in
  m_audit (Some (Campaign.branchId c)) (Some (sub actor)) "marketing.campaign_updated" "marketing_campaign" i.
Definition cancelCampaign (i : string) (actor : JwtPayload) : T unit :=
  let! c := findCampaign i in
  do! lift (assertRoleAtBranch actor (Campaign.branchId c) CAMPAIGN_ROLES) in
  throw! conflict when bool_decide (Campaign.status c = c_sent) in
  if bool_decide (Campaign.status c = c_cancelled) then ret tt
  else
    let! at_ := at_now in
    do! modify (upd_campaigns (update_where (campaign_where i) (fun x => Campaign.with_status c_cancelled None (Campaign.sentAt x) (Campaign.recipientCount x) (Campaign.failureReason x) at_ x))) in
    m_audit (Some (Campaign.branchId c)) (Some (sub actor)) "marketing.campaign_cancelled" "marketing_campaign" i.

(** ** Sending *)
Record Prepared := { pr_campaign : Campaign.t; pr_hotel : string; pr_criteria : json; pr_template : MessageTemplate.t; pr_variant : option MessageTemplate.t }.
(** The first transaction: what is to be sent, claimed. *)
Definition claim (i : string) (actor : option JwtPayload) : T Prepared :=
  let! c := findCampaign i in
  let! branch := orThrow (inDb (findFirst branches (fun x => bool_decide (Branch.id x = Campaign.branchId c)))) internal in
  let! segment := orThrow (findFirst segments (segment_where (Campaign.segmentId c))) internal in
  let! template := orThrow (findFirst templates (template_where (Campaign.templateId c))) internal in
  let! variant := match Campaign.variantTemplateId c with Some v => let! t := orThrow (findFirst templates (template_where v)) internal in ret (Some t) | None => ret None end in
  do! match actor with Some a => lift (assertRoleAtBranch a (Campaign.branchId c) CAMPAIGN_ROLES) | None => ret tt end in
  do! lift (assertSendableChannel (Campaign.channel c)) in
  throw! conflict when negb (bool_decide (Campaign.status c ∈ SENDABLE)) in
  throw! invalid when isSome (GuestSegment.deletedAt segment) in
  let! at_ := at_now in
  let! hit := findMany campaigns (fun x => campaign_where i x && bool_decide (Campaign.status x ∈ SENDABLE)) in
  do! modify (upd_campaigns (update_where (fun x => campaign_where i x && bool_decide (Campaign.status x ∈ SENDABLE))
        (fun x => Campaign.with_status c_sending (Campaign.scheduledAt x) (Campaign.sentAt x) (Campaign.recipientCount x) None at_ x))) in
  throw! conflict when bool_decide (length hit = 0%nat) in
  ret {| pr_campaign := c; pr_hotel := Branch.name branch; pr_criteria := GuestSegment.criteria segment; pr_template := template; pr_variant := variant |}.
(** The second: who it goes to, and who has it already. *)
Definition resolve (i : string) (c : SegmentCriteria) (at_ : Z) : T (list GuestProfile.t * list string) :=
  let! audience := resolveAudience c at_ in
  let! rows := findMany recipients (fun x => bool_decide (Recipient.campaignId x = i)) in
  ret (audience, Recipient.guestId <$> rows).
Definition first_word (s : string) : text := take_while (fun c => negb (is_space c)) (chars (js_trim s)).
Definition contextFor (p : Prepared) (g : GuestProfile.t) : MergeContext := {|
  guest_name := chars (GuestProfile.name g); guest_first_name := first_word (GuestProfile.name g); hotel_name := chars (pr_hotel p);
  loyalty_tier := chars (default "Member" (GuestProfile.loyaltyTier g)); loyalty_points := chars (pretty (default 0 (GuestProfile.loyaltyPoints g))); unsubscribe_url := [] |}.
Definition unchars (s : text) : string := String.string_of_list_ascii s.
(** [@@unique([campaignId, guestId])] *)
Definition createRecipient (row : Recipient.t) : T unit :=
  let! held := findFirst recipients (fun x => bool_decide (Recipient.campaignId x = Recipient.campaignId row) && bool_decide (Recipient.guestId x = Recipient.guestId row)) in
  throw! conflict when isSome held in
  modify (upd_recipients (fun l => l ++ [row])).
Definition write_to (p : Prepared) (sentBy : option string) (total : nat) (index : nat) (g : GuestProfile.t) : T unit :=
  let c := pr_campaign p in
  let variant := variantFor (Z.of_nat index) (Z.of_nat total) (Campaign.splitRatio c) in
  let body := match variant, pr_variant p with vB, Some v => MessageTemplate.body v | _, _ => MessageTemplate.body (pr_template p) end in
  let! n := gets draws in
  do! modify (upd_draws S) in
  let token := random_token n in
  let tracking := trackingUrlsFor baseUrl (chars token) clickSecret in
  let context := contextFor p g in
  let subjectTemplate := default (default (Campaign.name c) (MessageTemplate.subject (pr_template p))) (Campaign.subject c) in
  let! at_ := at_now in
  let! place := gets (fun k => length (communicationLogs (hotel k))) in
  let! _ := inDb (create_message {|
    CommunicationLog.branchId := Campaign.branchId c; CommunicationLog.reservationId := None; CommunicationLog.guestId := GuestProfile.id g; CommunicationLog.channel := by_email;
    CommunicationLog.subject := Some (written (unchars (renderMergeFields (chars subjectTemplate) (with_unsubscribe_url (unsubscribeUrl tracking) context))));
    CommunicationLog.body := written (unchars (rm_text (renderForRecipient (chars body) context tracking))); CommunicationLog.trigger := MARKETING_CAMPAIGN_TRIGGER;
    CommunicationLog.direction := outbound; CommunicationLog.readAt := None; CommunicationLog.deliveryStatus := msg_queued; CommunicationLog.sentBy := sentBy; CommunicationLog.sentAt := at_ |}) in
  let! i := inDb new_id in
  do! createRecipient {| Recipient.id := i; Recipient.campaignId := Campaign.id c; Recipient.guestId := GuestProfile.id g; Recipient.variant := variant; Recipient.communicationLogId := place;
                         Recipient.sentAt := at_; Recipient.openedAt := None; Recipient.clickedAt := None; Recipient.unsubscribedAt := None |} in
  modify (upd_tokens (fun l => l ++ [{| Token.token := token; Token.recipientId := i |}])).
(** One chunk: each guest with their place in the whole audience. *)
Definition write_chunk (p : Prepared) (sentBy : option string) (total : nat) (alreadySent : list string) (chunk : list (nat * GuestProfile.t)) (written_ : Z) : T Z :=
  for_each chunk written_ (fun n x =>
    if bool_decide (GuestProfile.id (snd x) ∈ alreadySent) then ret n
    else do! write_to p sentBy total (fst x) (snd x) in ret (n + 1)).
Fixpoint chunks {A} (fuel size : nat) (l : list A) : list (list A) :=
  match fuel, l with S n, _ :: _ => take size l :: chunks n size (drop size l) | _, _ => [] end.
Definition finish (p : Prepared) (sentBy : option string) (written_ : Z) : T unit :=
  let i := Campaign.id (pr_campaign p) in
  let! at_ := at_now in
  do! modify (upd_campaigns (update_where (campaign_where i) (fun x => Campaign.with_status c_sent (Campaign.scheduledAt x) (Some at_) written_ None at_ x))) in
  m_audit (Some (Campaign.branchId (pr_campaign p))) sentBy "marketing.campaign_sent" "marketing_campaign" i.
Definition record_failure (i : string) (e : error) : T unit :=
  let! at_ := at_now in
  modify (upd_campaigns (update_where (campaign_where i) (fun x => Campaign.with_status c_failed (Campaign.scheduledAt x) (Campaign.sentAt x) (Campaign.recipientCount x) (Some e) at_ x))).
Definition transaction {A} (n : nat) (m : T A) : P A := tx (match outage n with Some e => raise e | None => m end).
Definition enumerate {A} (l : list A) : list (nat * A) := zip (List.seq 0 (length l)) l.
Definition deliver (i : string) (p : Prepared) (sentBy : option string) : P unit :=
  p_bind (tx at_now) (fun at_ =>
  p_bind (tx (lift (parseCriteria (pr_criteria p)))) (fun c =>
  p_bind (transaction 1 (resolve i c at_)) (fun '(audience, alreadySent) =>
  p_bind (tx (throw! invalid when bool_decide (length audience = 0%nat) in lift (throw_if (MAX_AUDIENCE <? Z.of_nat (length audience)) invalid))) (fun _ =>
  let total := length audience in
  p_bind (p_each (enumerate (chunks total SEND_CHUNK (enumerate audience))) (Z.of_nat (length (remove_dups alreadySent)))
            (fun n x => transaction (2 + fst x) (write_chunk p sentBy total alreadySent (snd x) n))) (fun written_ =>
  transaction (2 + length (chunks total SEND_CHUNK (enumerate audience))) (finish p sentBy written_)))))).
Definition sendCampaign (i : string) (actor : option JwtPayload) : P unit :=
  p_bind (transaction 0 (claim i actor)) (fun p =>
  p_catch (deliver i p (sub <$> actor))
          (fun e => p_bind (tx (record_failure i e)) (fun _ k => (k, Err e)))).

(** ** The sweep *)
Definition STALLED_AFTER_MS : Z := 600000.
Definition due (at_ : Z) (x : Campaign.t) : bool :=
  (bool_decide (Campaign.status x = c_scheduled) && match Campaign.scheduledAt x with Some t => t <=? at_ | None => false end) ||
  (bool_decide (Campaign.status x = c_sending) && (Campaign.updatedAt x <? at_ - STALLED_AFTER_MS)).
Definition sendDueForTenant : P (Z * Z) :=
  p_bind (tx (let! at_ := at_now in let! found := findMany campaigns (due at_) in ret (sort_by (fun x => default OPEN_ENDED (Campaign.scheduledAt x)) found))) (fun l =>
  p_each l (0, 0) (fun '(sent, failed) x => p_catch (p_bind (sendCampaign (Campaign.id x) None) (fun _ => p_ret (sent + 1, failed))) (fun _ => p_ret (sent, failed + 1)))).

(** ** What a mail client reports *)
Definition is_hex (c : Ascii.ascii) : bool := between_codes 48 57 c || between_codes 97 102 c.
Definition token_shaped (s : string) : bool := ((8 <=? String.length s)%nat && (String.length s <=? 64)%nat) && forallb is_hex (chars s).
Definition resolveToken (token : string) : T (option string) :=
  if negb (token_shaped token) then ret None
  else let! found := findFirst tokens (fun x => bool_decide (Token.token x = token)) in ret (Token.recipientId <$> found).
Definition update_at {A} (n : nat) (f : A -> A) (l : list A) : list A := alter f n l.
Definition with_delivery (s : DeliveryStatus) (x : CommunicationLog.t) : CommunicationLog.t := {|
  CommunicationLog.branchId := CommunicationLog.branchId x; CommunicationLog.reservationId := CommunicationLog.reservationId x; CommunicationLog.guestId := CommunicationLog.guestId x;
  CommunicationLog.channel := CommunicationLog.channel x; CommunicationLog.subject := CommunicationLog.subject x; CommunicationLog.body := CommunicationLog.body x;
  CommunicationLog.trigger := CommunicationLog.trigger x; CommunicationLog.direction := CommunicationLog.direction x; CommunicationLog.readAt := CommunicationLog.readAt x;
  CommunicationLog.deliveryStatus := s; CommunicationLog.sentBy := CommunicationLog.sentBy x; CommunicationLog.sentAt := CommunicationLog.sentAt x |}.
Definition opened_message (x : CommunicationLog.t) : CommunicationLog.t :=
  if bool_decide (CommunicationLog.deliveryStatus x ∈ [msg_queued; msg_sent; msg_delivered]) then with_delivery msg_opened x else x.
Definition unopened (r : string) (x : Recipient.t) : bool := recipient_where r x && isNone (Recipient.openedAt x).
Definition recordOpen (token : string) : T unit :=
  let! pointer := resolveToken token in
  match pointer with
  | None => ret tt
  | Some r =>
      let! at_ := at_now in
      let! hit := findMany recipients (unopened r) in
      do! modify (upd_recipients (update_where (unopened r) (fun x => Recipient.with_times (Some at_) (Recipient.clickedAt x) (Recipient.unsubscribedAt x) x))) in
      if bool_decide (length hit = 0%nat) then ret tt
      else let! rows := findMany recipients (recipient_where r) in
           modify (upd_hotel (upd_communicationLogs (fun l => foldl (fun l x => update_at (Recipient.communicationLogId x) opened_message l) l rows)))
  end.
Definition recordClick (token target signature : string) : T string :=
  throw! invalid when negb (verifyTarget (chars token) (chars target) (chars signature) clickSecret) in
  let! pointer := resolveToken token in
  do! match pointer with
      | None => ret tt
      | Some r =>
          let! at_ := at_now in
          do! modify (upd_recipients (update_where (fun x => recipient_where r x && isNone (Recipient.clickedAt x)) (fun x => Recipient.with_times (Recipient.openedAt x) (Some at_) (Recipient.unsubscribedAt x) x))) in
          modify (upd_recipients (update_where (unopened r) (fun x => Recipient.with_times (Some at_) (Recipient.clickedAt x) (Recipient.unsubscribedAt x) x)))
      end in
  ret target.
Record UnsubscribeResult := { ur_guestName : string; ur_hotelName : string; ur_already : bool }.
Definition behind_token (token : string) : T (Recipient.t * GuestProfile.t * Campaign.t * Branch.t) :=
  let! pointer := resolveToken token in
  let! r := lift (or_throw pointer not_found) in
  let! recipient := orThrow (findFirst recipients (recipient_where r)) not_found in
  let! g := orThrow (inDb (findFirst guests (guest_where (Recipient.guestId recipient)))) internal in
  let! c := orThrow (findFirst campaigns (campaign_where (Recipient.campaignId recipient))) internal in
  let! b := orThrow (inDb (findFirst branches (fun x => bool_decide (Branch.id x = Campaign.branchId c)))) internal in
  ret (recipient, g, c, b).
Definition describeUnsubscribe (token : string) : T UnsubscribeResult :=
  let! '(_, g, _, b) := behind_token token in
  ret {| ur_guestName := GuestProfile.name g; ur_hotelName := Branch.name b; ur_already := negb (GuestProfile.marketingOptIn g) |}.
Definition opted_out (at_ : Z) (x : GuestProfile.t) : GuestProfile.t := {|
  GuestProfile.id := GuestProfile.id x; GuestProfile.name := GuestProfile.name x; GuestProfile.email := GuestProfile.email x; GuestProfile.phone := GuestProfile.phone x;
  GuestProfile.phoneDigits := GuestProfile.phoneDigits x; GuestProfile.vipLevel := GuestProfile.vipLevel x; GuestProfile.idDocType := GuestProfile.idDocType x;
  GuestProfile.idDocNumber := GuestProfile.idDocNumber x; GuestProfile.idDocExpiryDate := GuestProfile.idDocExpiryDate x; GuestProfile.nationality := GuestProfile.nationality x;
  GuestProfile.loyaltyPoints := GuestProfile.loyaltyPoints x; GuestProfile.loyaltyTier := GuestProfile.loyaltyTier x; GuestProfile.loyaltyEnrolledAt := GuestProfile.loyaltyEnrolledAt x;
  GuestProfile.marketingOptIn := false; GuestProfile.marketingOptInAt := GuestProfile.marketingOptInAt x; GuestProfile.marketingOptInSource := GuestProfile.marketingOptInSource x;
  GuestProfile.marketingUnsubscribedAt := Some at_; GuestProfile.updatedAt := at_; GuestProfile.deletedAt := GuestProfile.deletedAt x |}.
Definition unsubscribe (token : string) : T UnsubscribeResult :=
  let! '(r, g, c, b) := behind_token token in
  let! at_ := at_now in
  do! (if GuestProfile.marketingOptIn g then modify (upd_hotel (upd_guests (update_where (guest_where (GuestProfile.id g)) (opted_out at_)))) else ret tt) in
  do! modify (upd_recipients (update_where (fun x => recipient_where (Recipient.id r) x && isNone (Recipient.unsubscribedAt x))
        (fun x => Recipient.with_times (Recipient.openedAt x) (Recipient.clickedAt x) (Some at_) x))) in
  do! m_audit (Some (Campaign.branchId c)) None "marketing.unsubscribed" "guest_profile" (GuestProfile.id g) in
  ret {| ur_guestName := GuestProfile.name g; ur_hotelName := Branch.name b; ur_already := negb (GuestProfile.marketingOptIn g) |}.
Definition opted_in (g : GuestProfile.t) (at_ : Z) : GuestProfile.t -> GuestProfile.t :=
  GuestProfile.with_marketing true (if GuestProfile.marketingOptIn g then Some (default at_ (GuestProfile.marketingOptInAt g)) else Some at_)
    (if GuestProfile.marketingOptIn g then GuestProfile.marketingOptInSource g else Some "front_desk") at_.
Definition setConsent (guestId : string) (optIn : bool) (actorId : string) : T bool :=
  let! g := orThrow (inDb (findFirst guests (fun x => guest_where guestId x && live_guest x))) not_found in
  let! at_ := at_now in
  do! modify (upd_hotel (upd_guests (update_where (guest_where guestId) (if optIn then opted_in g at_ else opted_out at_)))) in
  do! m_audit None (Some actorId) (if optIn then "marketing.consent_given" else "marketing.consent_withdrawn") "guest_profile" guestId in
  ret optIn.

(** ** How a campaign did *)
Record CampaignPerformance := { cp_recipients : Z; cp_sent : Z; cp_failed : Z; cp_queued : Z; cp_opened : Z; cp_clicked : Z; cp_unsubscribed : Z }.
Definition getPerformance (i : string) (actor : option JwtPayload) : T (Campaign.t * CampaignPerformance) :=
  let! c := findCampaign i in
  do! match actor with Some a => lift (assertRoleAtBranch a (Campaign.branchId c) CAMPAIGN_ROLES) | None => ret tt end in
  let! rows := findMany recipients (fun x => bool_decide (Recipient.campaignId x = i)) in
  let! log := gets (fun k => communicationLogs (hotel k)) in
  let how := rows ≫= fun x => option_list (CommunicationLog.deliveryStatus <$> log !! Recipient.communicationLogId x) in
  let countFor l := Z.of_nat (length (List.filter (fun s => bool_decide (s ∈ l)) how)) in
  let rows_with f := Z.of_nat (length (List.filter f rows)) in
  ret (c, {| cp_recipients := Z.of_nat (length rows); cp_sent := countFor [msg_sent; msg_delivered; msg_opened]; cp_failed := countFor [msg_failed; msg_bounced]; cp_queued := countFor [msg_queued];
             cp_opened := rows_with (fun x => isSome (Recipient.openedAt x)); cp_clicked := rows_with (fun x => isSome (Recipient.clickedAt x));
             cp_unsubscribed := rows_with (fun x => isSome (Recipient.unsubscribedAt x)) |}).
End Marketing.
