(* ===== verification/Campaigns.v ===== *)
(** What sending a campaign does: whom it reaches, that nobody is written to
    twice however often it is interrupted and taken up again, and that whoever
    opted out is left alone. *)
From stdpp Require Import pretty.
From Stdlib Require Import QArith Qcanon.
From S2P Require Import Prelude Decimal Json Dates StayPolicies Taxes Authority Transactions Db LoyaltyRules Packages Folios SampleHotel Rooms SalesRules Inventory Guests SegmentRules CampaignRender Inbox Marketing.
Local Open Scope Z_scope.

Lemma inDb_Ok {A} (m : M A) k k' a : inDb m k = Ok (k', a) <-> exists d', m (hotel k) = Ok (d', a) /\ k' = upd_hotel (fun _ => d') k.
Proof. unfold inDb. destruct (m (hotel k)) as [[d' x]|e]; naive_solver. Qed.
Lemma upd_hotel_same k : upd_hotel (fun _ => hotel k) k = k.
Proof. by destruct k. Qed.

Lemma inDb_find {A} (t : Db -> list A) w k k' o : inDb (findFirst t w) k = Ok (k', o) -> k' = k.
Proof. intros (d' & [-> _]%findFirst_Ok & ->)%inDb_Ok. apply upd_hotel_same. Qed.
Lemma at_now_run k : at_now k = Ok (k, clock (hotel k)).
Proof. unfold at_now, inDb, now, gets. by rewrite upd_hotel_same. Qed.

Section Sending.
Context `{DecimalLib} `{Uuid} `{StringToNumber} `{Hmac} `{RandomTokens} `{MailSetup} (outage : nat -> option error).

(** ** The audience *)
Definition reachable (k : Mk) (c : SegmentCriteria) (at_ : Z) : list GuestProfile.t :=
  List.filter (fun g => negb (needsAggregates c) || matchesAggregates (aggregates_of (hotel k) (GuestProfile.id g)) c at_)
    (List.filter (fun g => guestWhereFor (hotel k) (tags_of k) c at_ g && MARKETING_CONSENT_FLOOR g) (guests (hotel k))).
Lemma filter_all {A} (f : A -> bool) l : (forall x, f x = true) -> List.filter f l = l.
Proof. intros Hf. induction l as [|x l IH]; [done|]. simpl. by rewrite Hf, IH. Qed.
Lemma candidates_run w k : candidates w k = Ok (k, List.filter w (guests (hotel k))).
Proof. unfold candidates, inDb, findMany, gets. by rewrite upd_hotel_same. Qed.
Lemma audience_inv c at_ k k' l : resolveAudience c at_ k = Ok (k', l) -> k' = k /\ l = reachable k c at_ /\ Z.of_nat (length (reachable k c at_)) <= MAX_CANDIDATES.
Proof.
  unfold resolveAudience, reachable. intros (k1 & [] & [_ ->]%lift_Ok & Hm)%bind_Ok. apply bind_Ok in Hm as (k2 & x & Hx & Hm). injection Hx as <- <-.
  rewrite (bind_run _ _ _ _ _ (candidates_run _ k)) in Hm. apply bind_Ok in Hm as (k3 & [] & [Hlen%throw_if_Ok%Z.ltb_ge ->]%lift_Ok & Hm).
  assert (forall f, Z.of_nat (length (List.filter f (List.filter (fun g => guestWhereFor (hotel k) (tags_of k) c at_ g && MARKETING_CONSENT_FLOOR g) (guests (hotel k))))) <= MAX_CANDIDATES) as Hf
    by (intros f; etrans; [apply inj_le, filter_length_le | exact Hlen]).
  destruct (needsAggregates c); simpl.
  - unfold applyAggregates in Hm. injection Hm as <- <-. done.
  - injection Hm as <- <-. specialize (Hf (fun _ => true)). rewrite (filter_all (fun _ => true)) in Hf by done. rewrite (filter_all (fun _ => true)) by done. eauto.
Qed.
(** Everybody in it agreed to be written to, can be, and is who the segment describes. *)
Definition consents (g : GuestProfile.t) : Prop := GuestProfile.marketingOptIn g = true /\ isSome (GuestProfile.email g) = true /\ GuestProfile.deletedAt g = None.
Lemma reachable_consent k c at_ g : g ∈ reachable k c at_ -> g ∈ guests (hotel k) /\ consents g /\ guestWhereFor (hotel k) (tags_of k) c at_ g = true.
Proof.
  intros [[Hin [Hw [Ho He]%andb_true_iff]%andb_true_iff]%elem_of_filterb _]%elem_of_filterb. split; [done|]. split; [|done]. split; [done|]. split; [done|].
  unfold guestWhereFor in Hw. rewrite !andb_true_iff in Hw. destruct Hw as [[[[[[[Hd _] _] _] _] _] _] _]. by destruct (GuestProfile.deletedAt g).
Qed.

(** ** One message *)
Definition pair_of (x : Recipient.t) : string * string := (Recipient.campaignId x, Recipient.guestId x).
Definition one_row_each (k : Mk) : Prop := NoDup (pair_of <$> recipients k).
Definition campaign_message (m : CommunicationLog.t) : Prop :=
  CommunicationLog.trigger m = MARKETING_CAMPAIGN_TRIGGER /\ CommunicationLog.deliveryStatus m = msg_queued /\ CommunicationLog.channel m = by_email /\ CommunicationLog.direction m = outbound.
(** [mailed c gs]: the guests [gs] got one row and one message each of the campaign [c], and nobody got two. *)
Record mailed (c : string) (gs : list string) (k k' : Mk) : Prop := {
  ml_rows : exists new msgs, recipients k' = recipients k ++ new /\ communicationLogs (hotel k') = communicationLogs (hotel k) ++ msgs /\
    pair_of <$> new = pair c <$> gs /\ CommunicationLog.guestId <$> msgs = gs /\ Forall campaign_message msgs /\
    Recipient.communicationLogId <$> new = List.seq (length (communicationLogs (hotel k))) (length gs);
  ml_once : one_row_each k -> one_row_each k';
}.
Lemma mailed_none c k k' : recipients k' = recipients k -> communicationLogs (hotel k') = communicationLogs (hotel k) -> mailed c [] k k'.
Proof. intros R L. split; [|unfold one_row_each; by rewrite R]. exists [], []. by rewrite !app_nil_r. Qed.
Lemma mailed_app c gs1 gs2 k1 k2 k3 : mailed c gs1 k1 k2 -> mailed c gs2 k2 k3 -> mailed c (gs1 ++ gs2) k1 k3.
Proof.
  intros [(n1 & m1 & R1 & L1 & G1 & M1 & F1 & P1) O1] [(n2 & m2 & R2 & L2 & G2 & M2 & F2 & P2) O2].
  split; [|auto]. exists (n1 ++ n2), (m1 ++ m2). rewrite R2, R1, L2, L1, !app_assoc, !fmap_app, G1, G2, M1, M2, P1, P2. do 4 (split; [done|]).
  split; [by apply Forall_app|]. rewrite length_app, List.seq_app. f_equal. rewrite L1, length_app. f_equal. rewrite <- M1. by rewrite length_fmap.
Qed.
(** [wrote]: that, with the campaigns themselves as they were. *)
Definition wrote (c : string) (gs : list string) (k k' : Mk) : Prop := mailed c gs k k' /\ campaigns k' = campaigns k.
Lemma wrote_none c k : wrote c [] k k.
Proof. split; [by apply mailed_none | done]. Qed.
Lemma wrote_app c gs1 gs2 k1 k2 k3 : wrote c gs1 k1 k2 -> wrote c gs2 k2 k3 -> wrote c (gs1 ++ gs2) k1 k3.
Proof. intros [M1 C1] [M2 C2]. split; [by eapply mailed_app | congruence]. Qed.
Definition has_row (c g : string) (k : Mk) : bool := existsb (fun x => bool_decide (Recipient.campaignId x = c) && bool_decide (Recipient.guestId x = g)) (recipients k).
Lemma has_row_spec c g k : has_row c g k = true <-> (c, g) ∈ pair_of <$> recipients k.
Proof.
  unfold has_row. rewrite existsb_exists, list_elem_of_fmap. split.
  - intros (x & Hin%list_elem_of_In & [<-%bool_decide_eq_true <-%bool_decide_eq_true]%andb_true_iff). by exists x.
  - intros (x & [= -> ->] & Hin%list_elem_of_In). exists x. split; [done|]. by rewrite !bool_decide_true.
Qed.
(** A guest without a row of the campaign gets one, with its message; a second row is refused. *)
Lemma write_to_run p by_ total index g k : exists k',
  write_to p by_ total index g k = (if has_row (Campaign.id (pr_campaign p)) (GuestProfile.id g) k then Err conflict else Ok (k', tt)) /\
  exists x m, recipients k' = recipients k ++ [x] /\ communicationLogs (hotel k') = communicationLogs (hotel k) ++ [m] /\ campaigns k' = campaigns k /\
    pair_of x = (Campaign.id (pr_campaign p), GuestProfile.id g) /\ CommunicationLog.guestId m = GuestProfile.id g /\ campaign_message m /\
    Recipient.communicationLogId x = length (communicationLogs (hotel k)).
Proof.
  eexists. split.
  - unfold has_row. rewrite <- find_existsb. unfold write_to. rewrite (bind_run _ _ _ _ _ (eq_refl : gets draws k = Ok (k, draws k))). unfold createRecipient.
    cbv [bind modify gets inDb at_now now new_id create_message ret findFirst lift throw_if].
    cbn [hotel recipients upd_hotel upd_draws upd_communicationLogs Recipient.campaignId Recipient.guestId].
    destruct (List.find _ (recipients k)); reflexivity.
  - cbn. eexists _, _. repeat split.
Qed.
Lemma write_to_wrote p by_ total index g k k' : write_to p by_ total index g k = Ok (k', tt) ->
  wrote (Campaign.id (pr_campaign p)) [GuestProfile.id g] k k' /\ has_row (Campaign.id (pr_campaign p)) (GuestProfile.id g) k = false.
Proof.
  destruct (write_to_run p by_ total index g k) as (k2 & -> & x & m & R & L & C & E & G & M & Pl). destruct (has_row _ _ k) eqn:Hr; intros Hw; [done|]. injection Hw as <-.
  split; [|done]. split; [|done]. split.
  - exists [x], [m]. simpl. rewrite E, G, Pl. repeat split; try done; repeat constructor; try done; apply M.
  - unfold one_row_each. rewrite R, fmap_app. intros Hn. apply NoDup_app. split; [done|]. split; [|apply NoDup_singleton].
    intros y Hy Hin. simpl in Hin. apply list_elem_of_singleton in Hin as ->. rewrite E in Hy. apply has_row_spec in Hy. congruence.
Qed.

(** ** A chunk, and the run of chunks *)
Definition newcomers (already : list string) (l : list (nat * GuestProfile.t)) : list string :=
  List.filter (fun g => negb (bool_decide (g ∈ already))) (GuestProfile.id <$> (snd <$> l)).
Lemma newcomers_app already l1 l2 : newcomers already (l1 ++ l2) = newcomers already l1 ++ newcomers already l2.
Proof. unfold newcomers. by rewrite !fmap_app, List.filter_app. Qed.
Lemma newcomers_cons already ix g l : newcomers already ((ix, g) :: l) = (if bool_decide (GuestProfile.id g ∈ already) then [] else [GuestProfile.id g]) ++ newcomers already l.
Proof. unfold newcomers. csimpl. by case_bool_decide. Qed.
Lemma chunk_wrote p by_ total already l n k k' n' : write_chunk p by_ total already l n k = Ok (k', n') ->
  wrote (Campaign.id (pr_campaign p)) (newcomers already l) k k' /\ n' = n + Z.of_nat (length (newcomers already l)).
Proof.
  revert n k. induction l as [|[ix g] l IH]; intros n k.
  - intros [= <- <-]. split; [apply wrote_none | simpl; lia].
  - unfold write_chunk. cbn [for_each]. intros (k1 & n1 & Hw & Hl)%bind_Ok. apply (IH n1 k1) in Hl as [W2 ->]. rewrite newcomers_cons. cbn [fst snd] in Hw. case_bool_decide as Hin; simpl app.
    + injection Hw as <- <-. done.
    + apply bind_Ok in Hw as (k2 & [] & [W1 _]%write_to_wrote & Hr). injection Hr as <- <-. split; [exact (wrote_app _ [_] _ _ _ _ W1 W2) | cbn [length]; lia].
Qed.
Lemma chunks_concat {A} n size (l : list A) : (0 < size)%nat -> (length l <= n)%nat -> concat (chunks n size l) = l.
Proof.
  intros Hs. revert l. induction n as [|n IH]; intros [|x l] Hn; simpl in Hn |- *; try done; [lia|]. rewrite IH; [by rewrite take_drop|]. rewrite length_drop. simpl. lia.
Qed.
Lemma enumerate_snd {A} (l : list A) : snd <$> enumerate l = l.
Proof. unfold enumerate. apply snd_zip. by rewrite length_seq. Qed.
(** However far the run gets, what it leaves is whole chunks. *)
Lemma run_wrote p by_ total already (cs : list (nat * list (nat * GuestProfile.t))) n k k' r :
  p_each cs n (fun n x => transaction outage (2 + fst x) (write_chunk p by_ total already (snd x) n)) k = (k', r) ->
  exists done_, done_ `prefix_of` cs /\ wrote (Campaign.id (pr_campaign p)) (newcomers already (concat (snd <$> done_))) k k' /\
    forall n', r = Ok n' -> done_ = cs /\ n' = n + Z.of_nat (length (newcomers already (concat (snd <$> cs)))).
Proof.
  revert n k. induction cs as [|[ix c] cs IH]; intros n k.
  - intros [= <- <-]. exists []. split; [done|]. split; [apply wrote_none|]. intros n' [= <-]. split; [done|]. simpl. lia.
  - cbn [p_each]. unfold p_bind, transaction, tx at 1. cbn [fst snd]. destruct (outage (2 + ix)) as [e|]; [|destruct (write_chunk p by_ total already c n k) as [[k1 n1]|e] eqn:E].
    + intros [= <- <-]. exists []. split; [apply prefix_nil|]. split; [apply wrote_none|done].
    + apply chunk_wrote in E as [W1 ->]. intros (done_ & Hp & W2 & Hr)%IH. exists ((ix, c) :: done_). split; [by apply prefix_cons|]. csimpl.
      split; [rewrite newcomers_app; by eapply wrote_app|]. intros n' [-> ->]%Hr. split; [done|]. rewrite newcomers_app, length_app. lia.
    + intros [= <- <-]. exists []. split; [apply prefix_nil|]. split; [apply wrote_none|done].
Qed.

(** ** Taking it up *)
Definition audience_of (k : Mk) (i : string) : list GuestProfile.t :=
  match List.find (campaign_where i) (campaigns k) with
  | Some c => match List.find (segment_where (Campaign.segmentId c)) (segments k) with
              | Some s => match parseCriteria (GuestSegment.criteria s) with Ok cr => reachable k cr (clock (hotel k)) | Err _ => [] end
              | None => [] end
  | None => [] end.
Record claimed (i : string) (k k' : Mk) (p : Prepared) : Prop := {
  cl_id : Campaign.id (pr_campaign p) = i;
  cl_same : hotel k' = hotel k /\ guestTags k' = guestTags k /\ recipients k' = recipients k;
  cl_ids : Campaign.id <$> campaigns k' = Campaign.id <$> campaigns k;
  cl_there : i ∈ Campaign.id <$> campaigns k;
  cl_audience : forall c, parseCriteria (pr_criteria p) = Ok c -> audience_of k i = reachable k' c (clock (hotel k'));
}.
Lemma update_where_ids w f l : (forall x, Campaign.id (f x) = Campaign.id x) -> Campaign.id <$> update_where w f l = Campaign.id <$> l.
Proof. intros Hf. unfold update_where. rewrite <- list_fmap_compose. apply list_fmap_ext. intros _ x _. simpl. by destruct (w x). Qed.
Lemma claim_claimed i actor k k' p : claim i actor k = Ok (k', p) -> claimed i k k' p.
Proof.
  unfold claim, findCampaign. intros Hm. m_inv.
  match goal with E : inDb (findFirst _ _) _ = _ |- _ => apply inDb_find in E as -> end.
  match goal with E : at_now _ = _ |- _ => rewrite at_now_run in E; injection E as <- <- end.
  assert (d3 = k) as -> by (destruct (Campaign.variantTemplateId v); by m_inv). assert (d4 = k) as -> by (destruct actor; by m_inv).
  destruct (find_Some _ _ _ (eq_sym Efind1)) as [Hin Hid%bool_decide_eq_true]. split.
  - done.
  - done.
  - by apply update_where_ids.
  - rewrite <- Hid. by apply list_elem_of_fmap_2.
  - unfold audience_of. rewrite <- Efind1, <- Efind0. simpl. by intros c ->.
Qed.

(** ** The whole send *)
Definition standing_of (i : string) (k : Mk) : list (CampaignStatus * Z) :=
  (fun x => (Campaign.status x, Campaign.recipientCount x)) <$> List.filter (campaign_where i) (campaigns k).
Definition rows_of (i : string) (k : Mk) : list Recipient.t := List.filter (fun x => bool_decide (Recipient.campaignId x = i)) (recipients k).
(** What a send leaves: mail for people in its audience who had none; when it
    succeeds, for all of them, the campaign marked sent with as many recipients as it has rows. *)
Record sent_to (i : string) (audience : list GuestProfile.t) (k k' : Mk) (r : res unit) : Prop := {
  st_mail : exists gs, mailed i gs k k' /\ Forall (fun g => g ∈ GuestProfile.id <$> audience) gs;
  st_all : r = Ok tt -> forall g, g ∈ audience -> has_row i (GuestProfile.id g) k' = true;
  st_standing : r = Ok tt -> one_row_each k -> standing_of i k' <> [] /\ Forall (eq (c_sent, Z.of_nat (length (rows_of i k')))) (standing_of i k');
}.
Lemma sent_nothing i audience k k' e : recipients k' = recipients k -> communicationLogs (hotel k') = communicationLogs (hotel k) -> sent_to i audience k k' (Err e).
Proof. intros R L. split; [|done|done]. exists []. split; [by apply mailed_none | done]. Qed.
Lemma sent_stopped i audience gs k1 k k' k2 e : recipients k = recipients k1 -> communicationLogs (hotel k) = communicationLogs (hotel k1) ->
  mailed i gs k k' -> Forall (fun g => g ∈ GuestProfile.id <$> audience) gs -> recipients k2 = recipients k' -> communicationLogs (hotel k2) = communicationLogs (hotel k') -> sent_to i audience k1 k2 (Err e).
Proof.
  intros R1 L1 Hm Hg R L. split; [|done|done]. exists gs. split; [|done].
  assert (mailed i ([] ++ gs ++ []) k1 k2) as Hr; [|by rewrite app_nil_r in Hr].
  eapply mailed_app; [by apply (mailed_none i k1 k)|]. eapply mailed_app; [exact Hm | by apply mailed_none].
Qed.
Lemma newcomers_in already (l : list (nat * GuestProfile.t)) g : g ∈ newcomers already l <-> g ∈ GuestProfile.id <$> (snd <$> l) /\ g ∉ already.
Proof. unfold newcomers. rewrite elem_of_filterb, negb_true_iff, bool_decide_eq_false. done. Qed.
Lemma prefix_newcomers already (cs done_ : list (nat * list (nat * GuestProfile.t))) : done_ `prefix_of` cs ->
  Forall (fun g => g ∈ GuestProfile.id <$> (snd <$> concat (snd <$> cs))) (newcomers already (concat (snd <$> done_))).
Proof.
  intros [rest ->]. apply Forall_forall. intros g [Hg _]%newcomers_in. rewrite fmap_app, concat_app, !fmap_app, elem_of_app. by left.
Qed.
Lemma mailed_rows i gs k k' : mailed i gs k k' -> length (rows_of i k') = (length (rows_of i k) + length gs)%nat.
Proof.
  intros [(new & msgs & R & _ & G & _) _]. unfold rows_of. rewrite R, List.filter_app, length_app. f_equal.
  rewrite <- (length_fmap (pair i) gs), <- G, length_fmap. f_equal. assert (Forall (fun x => Recipient.campaignId x = i) new) as Hf.
  { apply Forall_forall. intros x Hx%(list_elem_of_fmap_2 pair_of). rewrite G in Hx. apply list_elem_of_fmap in Hx as (g & [= <- _] & _). done. }
  clear -Hf. induction Hf as [|x l Hx _ IH]; [done|]. simpl. rewrite bool_decide_true by done. by rewrite IH.
Qed.
Lemma mailed_has i gs k k' g : mailed i gs k k' -> has_row i g k' = true <-> has_row i g k = true \/ g ∈ gs.
Proof.
  intros [(new & msgs & R & _ & G & _) _]. rewrite !has_row_spec, R, fmap_app, elem_of_app, G. split; (intros [Hr|Hg]; [by left | right]); [|by apply list_elem_of_fmap_2].
  by apply list_elem_of_fmap in Hg as (y & [= <-] & Hy).
Qed.
Lemma rows_has i k g : g ∈ Recipient.guestId <$> rows_of i k -> has_row i g k = true.
Proof.
  intros (x & -> & [Hx Hi%bool_decide_eq_true]%elem_of_filterb)%list_elem_of_fmap. apply has_row_spec. rewrite <- Hi. exact (list_elem_of_fmap_2 pair_of _ _ Hx).
Qed.
Lemma once_rows i k : one_row_each k -> NoDup (Recipient.guestId <$> rows_of i k).
Proof.
  unfold one_row_each, rows_of. induction (recipients k) as [|x l IH]; [constructor|]. csimpl. intros [Hx Hl]%NoDup_cons. case_bool_decide as Hi; csimpl; [|by apply IH].
  apply NoDup_cons. split; [|by apply IH]. intros (y & Hg & [Hy Hi'%bool_decide_eq_true]%elem_of_filterb)%list_elem_of_fmap. apply Hx.
  replace (pair_of x) with (pair_of y) by (unfold pair_of; congruence). by apply list_elem_of_fmap_2.
Qed.
Lemma remove_dups_once (l : list string) : NoDup l -> remove_dups l = l.
Proof. induction 1 as [|x l Hx _ IH]; [done|]. simpl. case_decide; [done|]. by f_equal. Qed.
Lemma filter_update_where {A} (w : A -> bool) f l : (forall x, w (f x) = w x) -> List.filter w (update_where w f l) = f <$> List.filter w l.
Proof. intros Hf. induction l as [|x l IH]; [done|]. unfold update_where in *. csimpl. destruct (w x) eqn:E; csimpl; rewrite ?Hf, E, IH; done. Qed.
Lemma finish_run p by_ n k : exists k', finish p by_ n k = Ok (k', tt) /\ recipients k' = recipients k /\ communicationLogs (hotel k') = communicationLogs (hotel k) /\
  standing_of (Campaign.id (pr_campaign p)) k' = (fun _ => (c_sent, n)) <$> List.filter (campaign_where (Campaign.id (pr_campaign p))) (campaigns k).
Proof.
  eexists. split; [unfold finish; rewrite (bind_run _ _ _ _ _ (at_now_run k)); reflexivity|]. split; [done|]. split; [done|]. unfold standing_of. cbn.
  rewrite filter_update_where by done. by rewrite <- list_fmap_compose.
Qed.
Lemma campaign_there i k : i ∈ Campaign.id <$> campaigns k -> List.filter (campaign_where i) (campaigns k) <> [].
Proof.
  intros (x & -> & Hx)%list_elem_of_fmap. apply not_eq_sym. intros E. assert (x ∈ List.filter (campaign_where (Campaign.id x)) (campaigns k)) as Hin.
  { apply elem_of_filterb. split; [done|]. by apply bool_decide_eq_true. } rewrite <- E in Hin. by apply elem_of_nil in Hin.
Qed.
Lemma resolve_inv i c at_ k k' audience already : resolve i c at_ k = Ok (k', (audience, already)) ->
  k' = k /\ audience = reachable k c at_ /\ already = Recipient.guestId <$> rows_of i k.
Proof.
  unfold resolve. intros (k1 & l & [-> [-> _]]%audience_inv & Hm)%bind_Ok. m_inv. done.
Qed.
Lemma delivered i p by_ audience k k' r : Campaign.id (pr_campaign p) = i -> i ∈ Campaign.id <$> campaigns k ->
  (forall c, parseCriteria (pr_criteria p) = Ok c -> audience = reachable k c (clock (hotel k))) ->
  deliver outage i p by_ k = (k', r) -> sent_to i audience k k' r.
Proof.
  intros Hi Hthere Haud. unfold deliver, p_bind at 1. unfold tx at 1. rewrite at_now_run. unfold p_bind at 1, tx at 1.
  destruct (parseCriteria (pr_criteria p)) as [c|e]; simpl; [|intros [= <- <-]; by apply sent_nothing]. specialize (Haud c eq_refl).
  unfold p_bind at 1. unfold transaction at 1, tx at 1.
  destruct (outage 1) as [e|]; [intros [= <- <-]; by apply sent_nothing|].
  destruct (resolve i c _ k) as [[k1 [aud already]]|e] eqn:Er; [|intros [= <- <-]; by apply sent_nothing].
  apply resolve_inv in Er as (-> & -> & ->). rewrite <- Haud.
  unfold p_bind at 1, tx at 1. destruct (bind _ _ k) as [[k1 []]|e] eqn:Eg; [|intros [= <- <-]; by apply sent_nothing].
  assert (k1 = k) as -> by (m_inv; done). clear Eg Haud. unfold p_bind.
  set (already := Recipient.guestId <$> rows_of i k). set (cs := enumerate (chunks (length audience) SEND_CHUNK (enumerate audience))).
  assert (concat (snd <$> cs) = enumerate audience) as Hcs.
  { unfold cs. rewrite enumerate_snd. apply chunks_concat; [unfold SEND_CHUNK; lia|]. unfold enumerate. rewrite length_zip_with, length_seq. lia. }
  destruct (p_each cs _ _ k) as [k1 r1] eqn:Ep. apply run_wrote in Ep as (done_ & Hp & [Hm Hc] & Hr). rewrite Hi in Hm.
  assert (Forall (fun g => g ∈ GuestProfile.id <$> audience) (newcomers already (concat (snd <$> done_)))) as Hg.
  { apply prefix_newcomers with (already := already) in Hp. by rewrite Hcs, enumerate_snd in Hp. }
  destruct r1 as [n|e]; [|intros [= <- <-]; by eapply (sent_stopped i audience _ k k k1)].
  destruct (Hr n eq_refl) as [-> ->]. unfold transaction, tx. destruct (outage _) as [e|]; [intros [= <- <-]; by eapply (sent_stopped i audience _ k k k1)|].
  set (n := _ + _). destruct (finish_run p by_ n k1) as (k2 & -> & R & L & St). intros [= <- <-]. rewrite Hi, Hc in St. rewrite Hcs in *. split.
  - eexists. split; [|exact Hg]. rewrite <- (app_nil_r (newcomers _ _)). eapply mailed_app; [exact Hm | by apply mailed_none].
  - intros _ g Hgin. replace (has_row i (GuestProfile.id g) k2) with (has_row i (GuestProfile.id g) k1) by (unfold has_row; by rewrite R).
    eapply mailed_has; [exact Hm|]. destruct (decide (GuestProfile.id g ∈ already)); [left; by apply rows_has | right]. apply newcomers_in. split; [|done].
    rewrite enumerate_snd. by apply list_elem_of_fmap_2.
  - intros _ Hone. rewrite St. split; [intros E%fmap_nil_inv; by apply (campaign_there i k)|]. replace (rows_of i k2) with (rows_of i k1) by (unfold rows_of; by rewrite R).
    rewrite (mailed_rows _ _ _ _ Hm). apply Forall_forall. intros x (y & -> & _)%list_elem_of_fmap. f_equal. unfold n.
    rewrite Hcs, remove_dups_once by (by apply once_rows). unfold already. rewrite length_fmap. lia.
Qed.
Lemma send_sent i actor k k' r : sendCampaign outage i actor k = (k', r) -> sent_to i (audience_of k i) k k' r.
Proof.
  unfold sendCampaign, p_bind at 1. unfold transaction at 1, tx at 1. destruct (outage 0) as [e|]; [intros [= <- <-]; by apply sent_nothing|].
  destruct (claim i actor k) as [[k1 p]|e] eqn:Ec; [|intros [= <- <-]; by apply sent_nothing].
  apply claim_claimed in Ec as [Hi [Hh [_ Hr]] Hids Hin Ha]. unfold p_catch. destruct (deliver outage i p _ k1) as [k2 r2] eqn:Ed.
  apply (delivered i p _ (audience_of k i)) in Ed as [(gs & Hm & Hg) Hall Hst]; [|done|by rewrite Hids|done].
  destruct r2 as [[]|e].
  - intros [= <- <-]. split; [|done|unfold one_row_each in *; by rewrite Hr in Hst]. exists gs. split; [|done].
    exact (mailed_app _ [] _ _ _ _ (mailed_none i k k1 Hr (f_equal communicationLogs Hh)) Hm).
  - unfold p_bind, tx. unfold record_failure. rewrite (bind_run _ _ _ _ _ (at_now_run k2)). intros [= <- <-].
    eapply (sent_stopped i _ gs k k1 k2); [done | by rewrite Hh | done | done | done | done].
Qed.

(** ** Getting there *)
Definition unwritten (c : string) (k : Mk) (gs : list string) : Prop := NoDup gs /\ Forall (fun g => has_row c g k = false) gs.
Lemma unwritten_app c k gs1 gs2 : unwritten c k (gs1 ++ gs2) -> unwritten c k gs1 /\ forall k', mailed c gs1 k k' -> unwritten c k' gs2.
Proof.
  intros [(N1 & Hd & N2)%NoDup_app [F1 F2]%Forall_app]. split; [done|]. intros k' Hm. split; [done|]. apply Forall_forall. intros g Hg. rewrite Forall_forall in F2.
  apply not_true_iff_false. intros [Hr|Hr]%(mailed_has _ _ _ _ _ Hm); [by rewrite F2 in Hr|]. by eapply Hd.
Qed.
(** Guests without a row yet can all be given one. *)
Lemma chunk_goes p by_ total already l n k : unwritten (Campaign.id (pr_campaign p)) k (newcomers already l) -> exists k' n', write_chunk p by_ total already l n k = Ok (k', n').
Proof.
  revert n k. induction l as [|[ix g] l IH]; intros n k; [by exists k, n|]. rewrite newcomers_cons. unfold write_chunk. cbn [for_each fst snd]. case_bool_decide as Hin.
  - intros Hu. rewrite (bind_run _ _ _ _ _ (eq_refl : ret n k = Ok (k, n))). by apply IH.
  - intros [[_ Hf] Hu]%unwritten_app. assert (has_row (Campaign.id (pr_campaign p)) (GuestProfile.id g) k = false) as Hr by (inversion Hf; done). destruct (write_to_run p by_ total ix g k) as (k1 & Ew & _). rewrite Hr in Ew.
    rewrite (bind_run _ _ _ k1 (n + 1)) by (by rewrite (bind_run _ _ _ _ _ Ew)). apply IH, Hu. by apply write_to_wrote in Ew as [[? _] _].
Qed.
Lemma run_goes p by_ total already (cs : list (nat * list (nat * GuestProfile.t))) n k : (forall t, outage t = None) ->
  unwritten (Campaign.id (pr_campaign p)) k (newcomers already (concat (snd <$> cs))) ->
  exists k' n', p_each cs n (fun n x => transaction outage (2 + fst x) (write_chunk p by_ total already (snd x) n)) k = (k', Ok n').
Proof.
  intros Hup. revert n k. induction cs as [|[ix c] cs IH]; intros n k Hu; [by exists k, n|]. csimpl in Hu. rewrite newcomers_app in Hu. apply unwritten_app in Hu as [Hu1 Hu].
  destruct (chunk_goes p by_ total already c n k Hu1) as (k1 & n1 & Ec). cbn [p_each]. unfold p_bind, transaction, tx. rewrite Hup. cbn [snd]. rewrite Ec.
  apply IH, Hu. by apply chunk_wrote in Ec as [[? _] _].
Qed.
Lemma sublist_nodup (f : GuestProfile.t -> bool) l : NoDup (GuestProfile.id <$> l) -> NoDup (GuestProfile.id <$> List.filter f l).
Proof.
  induction l as [|x l IH]; [done|]. csimpl. intros [Hx Hl]%NoDup_cons. destruct (f x); csimpl; [|auto]. apply NoDup_cons. split; [|auto].
  intros (y & Hy & [Hin _]%elem_of_filterb)%list_elem_of_fmap. apply Hx. rewrite Hy. by apply list_elem_of_fmap_2.
Qed.
Definition candidates_of (k : Mk) (c : SegmentCriteria) : list GuestProfile.t :=
  List.filter (fun g => guestWhereFor (hotel k) (tags_of k) c (clock (hotel k)) g && MARKETING_CONSENT_FLOOR g) (guests (hotel k)).
Lemma resolve_goes i c k : askable c (clock (hotel k)) = true -> Z.of_nat (length (candidates_of k c)) <= MAX_CANDIDATES ->
  resolve i c (clock (hotel k)) k = Ok (k, (reachable k c (clock (hotel k)), Recipient.guestId <$> rows_of i k)).
Proof.
  intros Ha Hl. assert (resolveAudience c (clock (hotel k)) k = Ok (k, reachable k c (clock (hotel k)))) as Er.
  - unfold resolveAudience. rewrite Ha. simpl negb. cbn [throw_if]. rewrite (bind_run _ _ k k tt) by done. rewrite (bind_run _ _ k k k) by done.
    rewrite (bind_run _ _ _ _ _ (candidates_run _ k)). rewrite (bind_run _ _ k k tt) by (unfold candidates_of in Hl; by apply Z.ltb_ge in Hl as ->).
    unfold reachable. destruct (needsAggregates c); [done|]. by rewrite (filter_all (fun _ => negb false || _)) by done.
  - unfold resolve. by rewrite (bind_run _ _ _ _ _ Er).
Qed.
Lemma send_goes i actor k k1 p c : (forall t, outage t = None) -> NoDup (GuestProfile.id <$> guests (hotel k)) -> claim i actor k = Ok (k1, p) ->
  parseCriteria (pr_criteria p) = Ok c -> askable c (clock (hotel k)) = true -> Z.of_nat (length (candidates_of k c)) <= MAX_CANDIDATES ->
  0 < Z.of_nat (length (audience_of k i)) <= MAX_AUDIENCE -> exists k', sendCampaign outage i actor k = (k', Ok tt).
Proof.
  intros Hup Hn Ec Hp Ha Hl Hsize. unfold sendCampaign, p_bind at 1. unfold transaction at 1, tx at 1. rewrite Hup, Ec. apply claim_claimed in Ec as [Hi (Hh & Ht & Hr) _ _ Haud].
  specialize (Haud c Hp). rewrite <- Hh in Ha, Hn. unfold candidates_of in Hl. rewrite <- Hh in Hl. replace (tags_of k) with (tags_of k1) in Hl by (unfold tags_of; by rewrite Ht).
  cut (exists k', deliver outage i p (sub <$> actor) k1 = (k', Ok tt)); [intros (k' & E); exists k'; unfold p_catch; by rewrite E|].
  unfold deliver. unfold p_bind at 1, tx at 1. rewrite at_now_run. unfold p_bind at 1, tx at 1. rewrite Hp. simpl lift. unfold p_bind at 1. unfold transaction at 1, tx at 1.
  cbn [lift]. rewrite Hup, resolve_goes by done. rewrite <- Haud. unfold p_bind at 1, tx at 1.
  rewrite bool_decide_false by lia. cbn [throw_if]. rewrite (bind_run _ _ k1 k1 tt) by done. rewrite (proj2 (Z.ltb_ge _ _)) by lia. cbn [throw_if lift]. unfold p_bind.
  set (cs := enumerate (chunks _ _ _)). assert (concat (snd <$> cs) = enumerate (audience_of k i)) as Hcs.
  { unfold cs. rewrite enumerate_snd. apply chunks_concat; [unfold SEND_CHUNK; lia|]. unfold enumerate. rewrite length_zip_with, length_seq. lia. }
  destruct (run_goes p (sub <$> actor) (length (audience_of k i)) (Recipient.guestId <$> rows_of i k1) cs (Z.of_nat (length (remove_dups (Recipient.guestId <$> rows_of i k1)))) k1 Hup) as (k2 & n & ->).
  - rewrite Hcs, Hi. split.
    + unfold newcomers. rewrite enumerate_snd. apply NoDup_ListNoDup, List.NoDup_filter, NoDup_ListNoDup. rewrite Haud. by apply sublist_nodup, sublist_nodup.
    + apply Forall_forall. intros g [_ Hg]%newcomers_in. apply not_true_iff_false. intros (x & [= -> ->] & Hx)%has_row_spec%list_elem_of_fmap. apply Hg.
      apply list_elem_of_fmap_2, elem_of_filterb. split; [done|]. by apply bool_decide_eq_true.
  - unfold transaction, tx. rewrite Hup. destruct (finish_run p (sub <$> actor) n k2) as (k3 & -> & _). by exists k3.
Qed.

Lemma audience_reachable k i x : x ∈ audience_of k i -> exists c at_, x ∈ reachable k c at_.
Proof. unfold audience_of. repeat case_match; try (by intros ?%elem_of_nil). eauto. Qed.
Lemma audience_consents k i x : x ∈ audience_of k i -> x ∈ guests (hotel k) /\ consents x.
Proof. intros (c & at_ & (Hx & Hc & _)%reachable_consent)%audience_reachable. done. Qed.

(** ** Opting out *)
Definition guest_behind (token : string) (k : Mk) : option string :=
  match resolveToken token k with Ok (_, Some r) => Recipient.guestId <$> List.find (recipient_where r) (recipients k) | _ => None end.
Definition silent (g : string) (d : Db) : Prop := forall x, x ∈ guests d -> GuestProfile.id x = g -> GuestProfile.marketingOptIn x = false.
Lemma silent_unreached g k c at_ x : silent g (hotel k) -> x ∈ reachable k c at_ -> GuestProfile.id x <> g.
Proof. intros Hs (Hin & [Ho _] & _)%reachable_consent E. rewrite (Hs x Hin E) in Ho. done. Qed.
Lemma opted_out_silent g at_ d : silent g (upd_guests (update_where (guest_where g) (opted_out at_)) d).
Proof.
  intros x Hx Hid. cbn in Hx. unfold update_where in Hx. apply list_elem_of_fmap in Hx as (y & -> & _). unfold guest_where in *. by case_bool_decide.
Qed.
Lemma found_silent g d x : NoDup (GuestProfile.id <$> guests d) -> List.find (guest_where g) (guests d) = Some x -> GuestProfile.marketingOptIn x = false -> silent g d.
Proof.
  intros Hn [Hx Hg%bool_decide_eq_true]%find_Some Ho y Hy Hid. enough (y = x) by congruence.
  apply list_elem_of_lookup in Hx as [i Hi]. apply list_elem_of_lookup in Hy as [j Hj]. enough (i = j) by congruence.
  eapply NoDup_lookup; [exact Hn| |]; rewrite list_lookup_fmap, ?Hi, ?Hj; simpl; [reflexivity | congruence].
Qed.
Lemma resolveToken_same token k k' o : resolveToken token k = Ok (k', o) -> k' = k.
Proof. unfold resolveToken. destruct (negb _); intros Hm; by m_inv. Qed.
Lemma m_audit_hotel b u a e i k k' : m_audit b u a e i k = Ok (k', tt) -> guests (hotel k') = guests (hotel k).
Proof. unfold m_audit. intros (d' & Hd & ->)%inDb_Ok. unfold auditLog in Hd. m_inv. done. Qed.
Lemma unsubscribed_silent token k k' u : NoDup (GuestProfile.id <$> guests (hotel k)) -> unsubscribe token k = Ok (k', u) ->
  exists g, guest_behind token k = Some g /\ silent g (hotel k').
Proof.
  intros Hn. unfold unsubscribe, behind_token. intros Hm. m_inv. subst. destruct v8. apply m_audit_hotel in Hm7. cbn in Hm7.
  match goal with E : resolveToken _ _ = _ |- _ => pose proof (resolveToken_same _ _ _ _ E) as ->; exists (Recipient.guestId v2); unfold guest_behind; rewrite E end.
  rewrite <- Efind0. split; [done|]. destruct (proj1 (inDb_Ok _ _ _ _) Hm4) as (d' & [-> Hg]%findFirst_Ok & ->). rewrite upd_hotel_same in *.
  apply inDb_find in Hm6 as ->. rewrite at_now_run in Hm0. injection Hm0 as <- <-. unfold silent. rewrite Hm7.
  destruct (find_Some _ _ _ (eq_sym Hg)) as [_ Hid%bool_decide_eq_true]. destruct (GuestProfile.marketingOptIn v3) eqn:Eo; m_inv.
  - rewrite Hid. apply opted_out_silent.
  - by apply (found_silent _ _ v3).
Qed.

(** C18: Sending a campaign, however it ends, writes only to people of its audience who have no row of it yet: each
    agreed to marketing, has an address and is not deleted; each gets one row, leading to one queued message of theirs,
    and nobody has two. When it succeeds everybody in the audience has one and the campaign is marked sent, its count of
    recipients the number of its rows. *)
Theorem campaign_mails_the_willing_once i actor k k' r : one_row_each k -> sendCampaign outage i actor k = (k', r) ->
  one_row_each k' /\
  (exists gs, mailed i gs k k' /\ Forall (fun g => exists x, x ∈ audience_of k i /\ GuestProfile.id x = g /\ x ∈ guests (hotel k) /\ consents x) gs) /\
  (r = Ok tt -> (forall x, x ∈ audience_of k i -> has_row i (GuestProfile.id x) k' = true) /\
                standing_of i k' <> [] /\ Forall (eq (c_sent, Z.of_nat (length (rows_of i k')))) (standing_of i k')).
Proof.
  intros Hone [(gs & Hm & Hg) Hall Hst]%send_sent. split; [by apply (ml_once _ _ _ _ Hm)|]. split; [|auto]. exists gs. split; [done|].
  eapply Forall_impl; [exact Hg|]. intros g (x & -> & Hx)%list_elem_of_fmap. exists x. split; [done|]. split; [done|]. by apply audience_consents in Hx.
Qed.

(** ** Saved segments *)
Definition readable (k : Mk) : Prop := Forall (fun x => is_ok (parseCriteria (GuestSegment.criteria x)) = true) (segments k).
Lemma readable_update w f k : readable k -> (forall x, GuestSegment.criteria (f x) = GuestSegment.criteria x \/ is_ok (parseCriteria (GuestSegment.criteria (f x))) = true) ->
  readable (upd_segments (update_where w f) k).
Proof.
  unfold readable. cbn. intros Hk Hf. unfold update_where. apply Forall_fmap. eapply Forall_impl; [exact Hk|]. intros x Hx. simpl. destruct (w x); [|done].
  destruct (Hf x) as [->|]; done.
Qed.
Lemma inDb_segments {A} (m : M A) k k' a : inDb m k = Ok (k', a) -> segments k' = segments k.
Proof. by intros (d' & _ & ->)%inDb_Ok. Qed.
(** C22: A segment that is saved holds rules that read back as exactly the rules that were asked for, and saving or
    deleting one leaves every stored segment readable. *)
Theorem segments_stay_readable k : readable k ->
  (forall dto actor sid k' s c, saveSegment dto actor sid k = Ok (k', (s, c)) ->
     parseCriteria (ss_criteria dto) = Ok c /\ parseCriteria (GuestSegment.criteria s) = Ok c /\ readable k') /\
  (forall i actor k' u, deleteSegment i actor k = Ok (k', u) -> readable k').
Proof.
  intros Hk. split.
  - intros dto actor sid k' s c. unfold saveSegment. intros Hm. m_inv.
    match goal with E : parseCriteria (ss_criteria dto) = Ok ?v, E3 : match sid with _ => _ end k = Ok (?d2, ?v2) |- _ =>
      pose proof (stored_reads_back v (parse_ok _ _ E)) as Hback; assert (GuestSegment.criteria v2 = criteria_json v /\ readable d2) as [Hv2 Hd2] end.
    { destruct sid as [i|]; unfold segment_name_free in *; m_inv.
      - split; [done|]. apply readable_update; [|intros x; right; cbn [GuestSegment.criteria GuestSegment.with_data]; by rewrite Hback]. unfold loadSegment in *. by m_inv.
      - split; [done|]. match goal with E : inDb new_id _ = _ |- _ => apply inDb_segments in E as Es end. unfold readable. cbn. rewrite Es. apply Forall_app. split; [done|].
        constructor; [|done]. cbn [GuestSegment.criteria]. by rewrite Hback. }
    unfold toSegmentView in *. m_inv. match goal with E : m_audit _ _ _ _ _ _ = _ |- _ => apply inDb_segments in E as Es end. unfold readable. rewrite Es.
    rewrite Hv2, Hback in *. by simplify_eq.
  - intros i actor k' u. unfold deleteSegment, loadSegment. intros Hm. m_inv. match goal with E : m_audit _ _ _ _ _ _ = _ |- _ => apply inDb_segments in E as Es end.
    match goal with E : at_now _ = _ |- _ => rewrite at_now_run in E; injection E as <- <- end. unfold readable. rewrite Es. apply readable_update; [done|]. intros x. by left.
Qed.
End Sending.

Module CampaignWitness.
Import Hotel RenderWitness.
#[export] Instance no_numbers : StringToNumber := fun _ => None.
#[export] Instance counted_tokens : RandomTokens := {| random_token := fun n : nat => String.append "c0ffee00" (pretty n) |}.
#[export] Instance test_mail : MailSetup := {| baseUrl := chars "https://pms.example"; clickSecret := chars "k"; transportName := "log" |}.
Definition guest (i who : string) (agreed : bool) : GuestProfile.t := {|
  GuestProfile.id := i; GuestProfile.name := who; GuestProfile.email := Some (String.append i "@example.com"); GuestProfile.phone := None; GuestProfile.phoneDigits := None; GuestProfile.vipLevel := None;
  GuestProfile.idDocType := None; GuestProfile.idDocNumber := None; GuestProfile.idDocExpiryDate := None; GuestProfile.nationality := None; GuestProfile.loyaltyPoints := None;
  GuestProfile.loyaltyTier := None; GuestProfile.loyaltyEnrolledAt := None; GuestProfile.marketingOptIn := agreed; GuestProfile.marketingOptInAt := None; GuestProfile.marketingOptInSource := None;
  GuestProfile.marketingUnsubscribedAt := None; GuestProfile.updatedAt := 0; GuestProfile.deletedAt := None |}.
Definition easter : Campaign.t := {|
  Campaign.id := "c1"; Campaign.branchId := "b1"; Campaign.name := "Easter"; Campaign.channel := by_email; Campaign.segmentId := "s1"; Campaign.templateId := "m1"; Campaign.subject := None;
  Campaign.status := c_draft; Campaign.scheduledAt := None; Campaign.sentAt := None; Campaign.variantTemplateId := None; Campaign.splitRatio := None; Campaign.recipientCount := 0;
  Campaign.failureReason := None; Campaign.createdBy := None; Campaign.updatedAt := 0 |}.
Definition office : Mk := {|
  Marketing.hotel := upd_guests (fun _ => guest "ben" "Ben Eze" false :: ((fun n : nat => guest (pretty n) "Ada Obi" true) <$> List.seq 1 101)) Hotel.hotel; guestTags := ∅;
  segments := [{| GuestSegment.id := "s1"; GuestSegment.name := "Everybody"; GuestSegment.description := None; GuestSegment.criteria := JObj []; GuestSegment.createdBy := None; GuestSegment.deletedAt := None |}];
  templates := [{| MessageTemplate.id := "m1"; MessageTemplate.name := "Easter"; MessageTemplate.subject := None; MessageTemplate.body := "Dear {{guest_name}}"; MessageTemplate.createdBy := None; MessageTemplate.deletedAt := None |}];
  campaigns := [easter]; recipients := []; tokens := []; draws := 0 |}.
(** The database lost during the second hundred, or never. *)
Definition lost : nat -> option error := fun n => if decide (n = 3%nat) then Some internal else None.
Definition up : nat -> option error := fun _ => None.
Definition cut_off : Mk := fst (sendCampaign lost "c1" None office).
Definition sent_out : Mk := fst (sendCampaign up "c1" None cut_off).
Example hundred_then_the_rest :
  snd (sendCampaign lost "c1" None office) = Err internal /\ length (recipients cut_off) = 100%nat /\ standing_of "c1" cut_off = [(c_failed, 0)] /\
  snd (sendCampaign up "c1" None cut_off) = Ok tt /\ (Recipient.guestId <$> recipients sent_out) = (pretty <$> List.seq 1 101) /\ standing_of "c1" sent_out = [(c_sent, 101)].
Proof. vm_compute. repeat split. Qed.
Lemma campaign_mails_the_willing_once_witness : one_row_each cut_off.
Proof.
  apply (campaign_mails_the_willing_once lost "c1" None office cut_off (snd (sendCampaign lost "c1" None office))); [constructor | apply surjective_pairing].
Defined.
Definition everybody : SegmentCriteria := {|
  vipLevelMin := None; loyaltyTiers := None; tags := None; nationalities := None; branchIds := None; minStays := None; minTotalSpend := None; lastStayWithinDays := None; notStayedForDays := None |}.
Lemma ids_once (k : Mk) : bool_decide (NoDup (GuestProfile.id <$> guests (Marketing.hotel k))) = true -> NoDup (GuestProfile.id <$> guests (Marketing.hotel k)).
Proof. apply bool_decide_eq_true. Qed.
Lemma cut_off_claims : match claim "c1" None cut_off with Ok (_, p) => parseCriteria (pr_criteria p) = Ok everybody | Err _ => False end.
Proof. vm_compute. reflexivity. Qed.
Definition opted : Mk := match unsubscribe "c0ffee0041" cut_off with Ok (k, _) => k | Err _ => cut_off end.
Lemma opted_ok : is_ok (unsubscribe "c0ffee0041" cut_off) = true /\ guest_behind "c0ffee0041" cut_off = Some "42".
Proof. vm_compute. auto. Qed.
Definition vips : SaveSegmentDto := {| ss_name := "VIPs"; ss_description := None; ss_criteria := JObj [("tags", JArr [JStr " vip "]); ("minStays", JNum 2%Qc)] |}.
Lemma vips_saved : is_ok (saveSegment vips "u1" None office) = true.
Proof. vm_compute. reflexivity. Qed.
Lemma vips_read c : parseCriteria (ss_criteria vips) = Ok c -> tags c = Some ["vip"].
Proof. vm_compute. by intros [= <-]. Qed.
Lemma segments_stay_readable_witness : exists k' s c, saveSegment vips "u1" None office = Ok (k', (s, c)) /\ tags c = Some ["vip"] /\ readable k'.
Proof.
  destruct (segments_stay_readable office) as [Hsave _]; [repeat constructor|]. pose proof vips_saved as Hok.
  destruct (saveSegment vips "u1" None office) as [[k' [s c]]|e] eqn:Es; [|discriminate Hok]. destruct (Hsave _ _ _ _ _ _ Es) as (Hp & _ & Hr).
  exists k', s, c. split; [reflexivity|]. split; [exact (vips_read c Hp) | exact Hr].
Defined.
(** Two calls in a row both claim the campaign: [sending] is among the states it may be sent from. *)
Definition claimed_once : Mk := match claim "c1" None office with Ok (k, _) => k | Err _ => office end.
Example claimed_twice : standing_of "c1" claimed_once = [(c_sending, 0)] /\ is_ok (claim "c1" None claimed_once) = true.
Proof. vm_compute. auto. Qed.
(** A campaign called off while it is being sent is marked sent by the send that goes on. *)
Definition boss : JwtPayload := {| sub := "u1"; roles := [{| role := "owner"; Authority.branchId := None |}]; apiKey := None |}.
Example called_off_then_sent : match claim "c1" None office with
  | Ok (k, p) => match cancelCampaign "c1" boss k with
                 | Ok (k2, _) => standing_of "c1" k2 = [(c_cancelled, 0)] /\ match finish p None 1 k2 with Ok (k3, _) => standing_of "c1" k3 = [(c_sent, 1)] | Err _ => False end
                 | Err _ => False end
  | Err _ => False end.
Proof. vm_compute. auto. Qed.
End CampaignWitness.
