(* ===== verification/Journals.v ===== *)
(** Daily takings as double-entry journals
    (src/src/modules/marketplace/connectors/accounting-export.ts) and cells that
    are safe in a spreadsheet (src/src/common/utils/csv.ts). A text is its UTF-8
    bytes; the order of account names ([localeCompare]) is a parameter. *)
From Stdlib Require Import QArith Qcanon Ascii.
From S2P Require Import Prelude Decimal Json Taxes Transactions Db CampaignRender.
Local Open Scope Z_scope.

(** ** Cells *)
Definition TAB : text := [ascii_of_nat 9].
Definition CR : text := [ascii_of_nat 13].
Definition COMMA : text := ",".
Definition CRLF : text := CR ++ NL.
Definition is_digit (c : Ascii.ascii) : bool := between_codes 48 57 c.
(** [/^[=+\-@\t\r]/] *)
Definition formula_start (s : text) : bool := match s with c :: _ => one_of ("=+-@" ++ TAB ++ CR) c | [] => false end.
(** [/^-?\d+(\.\d+)?$/] *)
Definition plain_number (s : text) : bool :=
  let s := default s (strip "-" s) in
  negb (bool_decide (take_while is_digit s = [])) &&
  match drop_while is_digit s with
  | [] => true
  | c :: f => one_of "." c && negb (bool_decide (f = [])) && forallb is_digit f
  end.
Definition guarded (s : text) : text := if formula_start s && negb (plain_number s) then "'" ++ s else s.
Definition special : Ascii.ascii -> bool := one_of (QUOTE ++ COMMA ++ CR ++ NL).
Definition doubled (s : text) : text := s ≫= fun c => if one_of QUOTE c then QUOTE ++ QUOTE else [c].
Definition csvCell (s : text) : text := let s := guarded s in if existsb special s then QUOTE ++ doubled s ++ QUOTE else s.
Definition csvRow (cells : list text) : text := join COMMA (csvCell <$> cells).

(** ** Settings *)
Definition ACCOUNTING_PROVIDERS : list string := ["quickbooks_online"; "xero"].
Definition REVENUE_DEPARTMENTS : list string := ["room"; "fnb"; "spa"; "laundry"; "minibar"; "transport"; "penalty"; "misc"; "correction"].
Definition PAYMENT_METHODS : list string := ["cash"; "card"; "bank_transfer"; "voucher"; "loyalty_points"].
Definition DATE_FORMATS : list string := ["DD/MM/YYYY"; "MM/DD/YYYY"; "YYYY-MM-DD"].
Definition DEPARTMENT_LABELS : list (string * string) :=
  [("room", "Rooms"); ("fnb", "Food & beverage"); ("spa", "Spa"); ("laundry", "Laundry"); ("minibar", "Minibar"); ("transport", "Transport");
   ("penalty", "Cancellation & no-show fees"); ("misc", "Other charges"); ("correction", "Corrections")].
Definition METHOD_LABELS : list (string * string) :=
  [("cash", "Cash"); ("card", "Card"); ("bank_transfer", "Bank transfer"); ("voucher", "Voucher"); ("loyalty_points", "Loyalty points")].
(** [record[key]] *)
Fixpoint keyed {A} (k : string) (l : list (string * A)) : option A :=
  match l with [] => None | (k', v) :: l => if bool_decide (k = k') then Some v else keyed k l end.
Record AccountingConfig := { dateFormat : string; receivable : string; taxPayable : string; revenue : list (string * string); payments : list (string * string); xeroTaxRate : string }.
Definition defaultAccountingConfig (provider : string) : AccountingConfig :=
  if bool_decide (provider = "xero") then {|
    dateFormat := "DD/MM/YYYY"; receivable := "610"; taxPayable := "820";
    revenue := [("room", "200"); ("fnb", "200"); ("spa", "200"); ("laundry", "200"); ("minibar", "200"); ("transport", "200"); ("penalty", "260"); ("misc", "260"); ("correction", "260")];
    payments := [("cash", "090"); ("card", "090"); ("bank_transfer", "090"); ("voucher", "260"); ("loyalty_points", "260")]; xeroTaxRate := "Tax Exempt" |}
  else {|
    dateFormat := "DD/MM/YYYY"; receivable := "Accounts Receivable (A/R)"; taxPayable := "VAT Payable";
    revenue := [("room", "Room Revenue"); ("fnb", "Food & Beverage Revenue"); ("spa", "Other Revenue"); ("laundry", "Other Revenue"); ("minibar", "Food & Beverage Revenue");
                ("transport", "Other Revenue"); ("penalty", "Other Revenue"); ("misc", "Other Revenue"); ("correction", "Other Revenue")];
    payments := [("cash", "Cash on Hand"); ("card", "Card Clearing"); ("bank_transfer", "Bank"); ("voucher", "Vouchers Redeemed"); ("loyalty_points", "Loyalty Redemptions")];
    xeroTaxRate := "Tax Exempt" |}.
(** [s.length], in UTF-16 units, of a text in UTF-8 *)
Definition units (c : Ascii.ascii) : Z := let n := Z.of_nat (nat_of_ascii c) in if (128 <=? n) && (n <? 192) then 0 else if 240 <=? n then 2 else 1.
Definition js_length (s : string) : Z := foldr Z.add 0 (units <$> chars s).
(** [s.slice(0, n)], for a cut that falls between characters *)
Fixpoint take_units (n : Z) (s : string) : string :=
  match s with String c s' => if units c <=? n then String c (take_units (n - units c) s') else EmptyString | EmptyString => EmptyString end.
Definition account (value : option json) : res string :=
  match value with
  | Some (JStr s) =>
      let trimmed := js_trim s in
      throw invalid when negb (nonempty trimmed) in
      throw invalid when (100 <? js_length trimmed) in
      throw invalid when match chars trimmed with c :: _ => one_of ("=+@" ++ TAB ++ CR) c | [] => false end in
      Ok trimmed
  | _ => Err invalid
  end.
Definition account_map (keys : list string) (raw : option json) : res (list (string * string)) :=
  res_mapM (fun k => let? a := account (member k raw) in Ok (k, a)) keys.
Definition parseAccountingConfig (value : json) : res AccountingConfig :=
  match value with
  | JObj _ =>
      let raw := Some value in
      let? format := or_throw (as_string (member "dateFormat" raw)) invalid in
      throw invalid when negb (includes format DATE_FORMATS) in
      let accounts := member "accounts" raw in
      let? revenue := account_map REVENUE_DEPARTMENTS (member "revenue" accounts) in
      let? payments := account_map PAYMENT_METHODS (member "payments" accounts) in
      let rate := match as_string (member "xeroTaxRate" raw) with Some s => if nonempty (js_trim s) then take_units 50 (js_trim s) else "Tax Exempt" | None => "Tax Exempt" end in
      let? receivable := account (member "receivable" accounts) in
      let? taxPayable := account (member "taxPayable" accounts) in
      Ok {| dateFormat := format; receivable := receivable; taxPayable := taxPayable; revenue := revenue; payments := payments; xeroTaxRate := rate |}
  | _ => Err invalid
  end.
(** What is stored *)
Definition accounts_json (l : list (string * string)) : json := JObj (map (fun x => (fst x, JStr (snd x))) l).
Definition config_json (c : AccountingConfig) : json :=
  JObj [("dateFormat", JStr (dateFormat c));
        ("accounts", JObj [("receivable", JStr (receivable c)); ("taxPayable", JStr (taxPayable c)); ("revenue", accounts_json (revenue c)); ("payments", accounts_json (payments c))]);
        ("xeroTaxRate", JStr (xeroTaxRate c))].

(** ** Journals *)
Record FolioEntry := { fe_date : string; fe_department : string; fe_amount : Qc }.
Record Receipt := { rc_date : string; rc_method : string; rc_amount : Qc }.
Record PosSale := { ps_date : string; ps_department : string; ps_subtotal : Qc; ps_total : Qc; ps_tenders : list (string * Qc) }.
Record JournalInputs := { ji_folioLines : list FolioEntry; ji_payments : list Receipt; ji_posSales : list PosSale }.
Record JournalLine := { jl_account : string; jl_debit : Qc; jl_credit : Qc; jl_labels : list string }.
Record Journal := { j_date : string; j_number : string; j_narration : string; j_lines : list JournalLine; j_totalDebit : Qc; j_totalCredit : Qc }.
(** What one account moved by on a day, a debit positive, and the labels of the movements. *)
Record Entry := { net : Qc; labels : list string }.
(** One call of [post] *)
Record Posting := { po_date : string; po_account : string; po_amount : Qc; po_label : string }.
(** [localeCompare], negative, zero or positive *)
Class Collation := localeCompare : string -> string -> Z.

(** [map.set(k, f(map.get(k)))]: a new key goes last. *)
Fixpoint upsert {A} (k : string) (f : option A -> A) (l : list (string * A)) : list (string * A) :=
  match l with [] => [(k, f None)] | (k', v) :: l => if bool_decide (k = k') then (k', f (Some v)) :: l else (k', v) :: upsert k f l end.
(** A stable sort *)
Fixpoint insert_with {A} (le : A -> A -> bool) (x : A) (l : list A) : list A :=
  match l with [] => [x] | y :: l => if le x y then x :: y :: l else y :: insert_with le x l end.
Definition sort_with {A} (le : A -> A -> bool) (l : list A) : list A := foldr (insert_with le) [] l.

Section Build.
Context `{DecimalLib} `{Collation} (config : AccountingConfig).
Definition revenueAccount (department : string) : string :=
  if includes department REVENUE_DEPARTMENTS then default "" (keyed department (revenue config)) else default "" (keyed "misc" (revenue config)).
Definition revenueLabel (department : string) : string :=
  if includes department REVENUE_DEPARTMENTS then String.append (default "" (keyed department DEPARTMENT_LABELS)) " revenue" else "Other revenue".
Definition paymentAccount (method : string) : string :=
  if includes method PAYMENT_METHODS then default "" (keyed method (payments config)) else default "" (keyed "cash" (payments config)).
Definition paymentLabel (method : string) : string := if includes method PAYMENT_METHODS then default "" (keyed method METHOD_LABELS) else method.
Definition posting (date account : string) (amount : Qc) (label : string) : Posting := {| po_date := date; po_account := account; po_amount := amount; po_label := label |}.
(** The calls of [post], in order. *)
Definition of_line (x : FolioEntry) : list Posting :=
  [posting (fe_date x) (receivable config) (fe_amount x) "Guest charges";
   if bool_decide (fe_department x = "tax") then posting (fe_date x) (taxPayable config) (- fe_amount x)%Qc "Tax collected"
   else posting (fe_date x) (revenueAccount (fe_department x)) (- fe_amount x)%Qc (revenueLabel (fe_department x))].
Definition of_payment (x : Receipt) : list Posting :=
  [posting (rc_date x) (paymentAccount (rc_method x)) (rc_amount x) (String.append (paymentLabel (rc_method x)) " received");
   posting (rc_date x) (receivable config) (- rc_amount x)%Qc "Guest payments"].
Definition of_sale (x : PosSale) : list Posting :=
  ((fun t => posting (ps_date x) (paymentAccount (fst t)) (snd t) (String.append (paymentLabel (fst t)) " received (walk-in sales)")) <$> ps_tenders x) ++
  [posting (ps_date x) (revenueAccount (ps_department x)) (- ps_subtotal x)%Qc (String.append (revenueLabel (ps_department x)) " (walk-in sales)");
   posting (ps_date x) (taxPayable config) (- (ps_total x ⊖ ps_subtotal x))%Qc "Tax collected"].
Definition postings (inputs : JournalInputs) : list Posting := (ji_folioLines inputs ≫= of_line) ++ (ji_payments inputs ≫= of_payment) ++ (ji_posSales inputs ≫= of_sale).
Definition add_label (x : string) (l : list string) : list string := if includes x l then l else l ++ [x].
Definition post_entry (p : Posting) (e : option Entry) : Entry :=
  let e := default {| net := 0%Qc; labels := [] |} e in {| net := net e ⊕ po_amount p; labels := add_label (po_label p) (labels e) |}.
Abbreviation Day := (list (string * Entry)).
Definition post (days : list (string * Day)) (p : Posting) : list (string * Day) :=
  if dis_zero (po_amount p) then days
  else upsert (po_date p) (fun day => upsert (po_account p) (post_entry p) (default [] day)) days.
Definition line_of (x : string * Entry) : list JournalLine :=
  let n := net (snd x) in
  if dis_zero n then []
  else [{| jl_account := fst x; jl_debit := if dgt n 0%Qc then n else 0%Qc; jl_credit := if bool_decide (n < 0)%Qc then (- n)%Qc else 0%Qc; jl_labels := labels (snd x) |}].
Definition day_lines (day : Day) : list JournalLine :=
  sort_with (fun a b => dgt (jl_debit a) 0%Qc || negb (dgt (jl_debit b) 0%Qc)) (sort_with (fun a b => localeCompare (fst a) (fst b) <=? 0) day ≫= line_of).
(** [date.replace(/-/g, '')] *)
Definition without_dashes (s : string) : string := String.string_of_list_ascii (List.filter (fun c => negb (one_of "-" c)) (chars s)).
Definition journal_for (prefix propertyName : string) (x : string * Day) : res (list Journal) :=
  let lines := day_lines (snd x) in
  match lines with
  | [] => Ok []
  | _ =>
    let totalDebit := dsum (jl_debit <$> lines) in
    let totalCredit := dsum (jl_credit <$> lines) in
    throw internal when negb (bool_decide (totalDebit = totalCredit)) in
    Ok [{| j_date := fst x; j_number := String.append prefix (String.append "-" (without_dashes (fst x)));
           j_narration := String.append propertyName (String.append " — daily takings " (fst x)); j_lines := lines; j_totalDebit := totalDebit; j_totalCredit := totalCredit |}]
  end.
Definition buildJournals (inputs : JournalInputs) (prefix propertyName : string) : res (list Journal) :=
  let days := foldl post [] (postings inputs) in
  let? found := res_mapM (journal_for prefix propertyName) (sort_with (fun a b => String.leb (fst a) (fst b)) days) in
  Ok (mjoin found).
End Build.

Definition is_alnum (c : Ascii.ascii) : bool := between_codes 97 122 c || between_codes 65 90 c || is_digit c.
(** [s.split(/\s+/)], but for empty words, which have no initial. *)
Fixpoint words_from (word s : text) : list text :=
  match s with [] => [word] | c :: s' => if is_space c then word :: words_from [] s' else words_from (word ++ [c]) s' end.
Definition journalPrefixFor (propertyName : string) : string :=
  let initials := String.string_of_list_ascii (words_from [] (chars propertyName) ≫= fun w => option_list (List.find is_alnum w)) in
  let prefix := String.substring 0 6 (js_upper initials) in
  if nonempty prefix then prefix else "PMS".

(** ** The two files *)
Definition formatDate (isoDate format : string) : text :=
  let parts := split_at_hits (scan (literal "-") (chars isoDate)) in
  let part n := nth n parts ("undefined" : text) in
  if bool_decide (format = "DD/MM/YYYY") then part 2%nat ++ "/" ++ part 1%nat ++ "/" ++ part 0%nat
  else if bool_decide (format = "MM/DD/YYYY") then part 1%nat ++ "/" ++ part 2%nat ++ "/" ++ part 0%nat
  else chars isoDate.
Definition description (l : list string) : text := join "; " (chars <$> l).
Definition csv_file (rows : list (list text)) : text := join CRLF (csvRow <$> rows) ++ CRLF.
Section Files.
Context `{DecimalLib}.
Definition amount_cell (x : Qc) : text := if dis_zero x then [] else chars (to_fixed2 x).
Definition quickbooks_row (config : AccountingConfig) (j : Journal) (l : JournalLine) : list text :=
  [chars (j_number j); formatDate (j_date j) (dateFormat config); chars (jl_account l); amount_cell (jl_debit l); amount_cell (jl_credit l); description (jl_labels l)].
Definition toQuickBooksCsv (config : AccountingConfig) (journals : list Journal) : text :=
  csv_file ((chars <$> ["JournalNo"; "JournalDate"; "AccountName"; "Debits"; "Credits"; "Description"]) :: (journals ≫= fun j => quickbooks_row config j <$> j_lines j)).
Definition xero_row (config : AccountingConfig) (j : Journal) (l : JournalLine) : list text :=
  let amount := if dis_zero (jl_debit l) then (- jl_credit l)%Qc else jl_debit l in
  [chars (j_narration j); formatDate (j_date j) (dateFormat config); description (jl_labels l); chars (jl_account l); chars (xeroTaxRate config); chars (to_fixed2 amount); []; []; []; []].
Definition toXeroCsv (config : AccountingConfig) (journals : list Journal) : text :=
  csv_file ((chars <$> ["*Narration"; "*Date"; "Description"; "*AccountCode"; "*TaxRate"; "*Amount"; "TrackingName1"; "TrackingOption1"; "TrackingName2"; "TrackingOption2"]) ::
            (journals ≫= fun j => xero_row config j <$> j_lines j)).
End Files.
