(* ===== verification/JournalBooks.v ===== *)
(** What the exported journals are worth: they balance, they say exactly what
    moved on each account and day, and the file reads back as it was written. *)
From Stdlib Require Import QArith Qcanon Ascii.
From S2P Require Import Prelude Decimal Json Taxes Transactions Db CampaignRender Journals.
Local Open Scope Z_scope.

(** ** Reading a file (RFC 4180) *)
Inductive mode := plain | quoted | closed.
Definition quote : Ascii.ascii := ascii_of_nat 34.
Definition comma : Ascii.ascii := ascii_of_nat 44.
Definition cr : Ascii.ascii := ascii_of_nat 13.
Definition lf : Ascii.ascii := ascii_of_nat 10.
Fixpoint read_csv (m : mode) (cell : text) (row : list text) (s : text) : list (list text) :=
  match s with
  | [] => match row, cell with [], [] => [] | _, _ => [row ++ [cell]] end
  | c :: s' =>
      match m with
      | quoted => if bool_decide (c = quote) then read_csv closed cell row s' else read_csv quoted (cell ++ [c]) row s'
      | _ =>
          if bool_decide (c = comma) then read_csv plain [] (row ++ [cell]) s'
          else if bool_decide (c = quote) then
            match m with closed => read_csv quoted (cell ++ [c]) row s' | _ => if bool_decide (cell = []) then read_csv quoted [] row s' else read_csv plain (cell ++ [c]) row s' end
          else match s' with
               | d :: s'' => if bool_decide (c = cr) && bool_decide (d = lf) then (row ++ [cell]) :: read_csv plain [] [] s'' else read_csv m (cell ++ [c]) row s'
               | [] => read_csv m (cell ++ [c]) row s'
               end
      end
  end.
Definition ordinary (c : Ascii.ascii) : bool := negb (special c).
Lemma ordinary_spec c : ordinary c = true -> c <> quote /\ c <> comma /\ c <> cr.
Proof.
  unfold ordinary, special, one_of. rewrite negb_true_iff, bool_decide_eq_false. intros Hc. split_and!; intros ->; apply Hc, (bool_decide_unpack _); reflexivity.
Qed.
Lemma read_plain acc row g s : forallb ordinary g = true -> read_csv plain acc row (g ++ s) = read_csv plain (acc ++ g) row s.
Proof.
  revert acc. induction g as [|c g IH]; intros acc; [by rewrite app_nil_r|]. cbn [forallb]. intros [(Hq & Hc & Hr)%ordinary_spec Hg]%andb_true_iff.
  rewrite <- app_comm_cons. cbn [read_csv]. rewrite !bool_decide_false by done. replace (acc ++ c :: g) with ((acc ++ [c]) ++ g) by (by rewrite <- app_assoc).
  rewrite <- IH by done. by destruct (g ++ s).
Qed.
Lemma read_quoted acc row g s : read_csv quoted acc row (doubled g ++ quote :: s) = read_csv closed (acc ++ g) row s.
Proof.
  revert acc. induction g as [|c g IH]; intros acc; [by rewrite app_nil_r|]. unfold doubled in *. cbn [mbind list_bind]. unfold one_of at 1. case_bool_decide as Hc.
  - apply list_elem_of_singleton in Hc as ->. change (read_csv quoted acc row (quote :: quote :: (doubled g ++ quote :: s)) = read_csv closed (acc ++ quote :: g) row s).
    cbn [read_csv]. rewrite (bool_decide_true (quote = quote)), (bool_decide_false (quote = comma)) by done. unfold doubled. rewrite IH. by rewrite <- app_assoc.
  - rewrite <- app_assoc. cbn [app read_csv]. rewrite bool_decide_false by (intros ->; apply Hc; by left). rewrite IH. by rewrite <- app_assoc.
Qed.
Lemma ordinary_all g : existsb special g = false -> forallb ordinary g = true.
Proof. induction g as [|c g IH]; [done|]. simpl. rewrite orb_false_iff. intros [Hc Hg]. unfold ordinary at 1. rewrite Hc. simpl. auto. Qed.
(** A cell, then a comma or the end of the line. *)
Lemma read_cell row x s : read_csv plain [] row (csvCell x ++ comma :: s) = read_csv plain [] (row ++ [guarded x]) s /\
  read_csv plain [] row (csvCell x ++ cr :: lf :: s) = (row ++ [guarded x]) :: read_csv plain [] [] s.
Proof.
  unfold csvCell. destruct (existsb special (guarded x)) eqn:E.
  - rewrite <- !app_assoc. change QUOTE with [quote]. cbn [app read_csv]. rewrite (bool_decide_false (quote = comma)), (bool_decide_true (quote = quote)), (bool_decide_true (@nil Ascii.ascii = [])) by done.
    rewrite !read_quoted. cbn [app read_csv]. by rewrite (bool_decide_true (comma = comma)), (bool_decide_false (cr = comma)), (bool_decide_false (cr = quote)), (bool_decide_true (cr = cr)), (bool_decide_true (lf = lf)) by done.
  - apply ordinary_all in E. rewrite !read_plain by done. cbn [app read_csv].
    by rewrite (bool_decide_true (comma = comma)), (bool_decide_false (cr = comma)), (bool_decide_false (cr = quote)), (bool_decide_true (cr = cr)), (bool_decide_true (lf = lf)) by done.
Qed.
Lemma read_row row cells s : cells <> [] -> read_csv plain [] row (csvRow cells ++ CRLF ++ s) = (row ++ (guarded <$> cells)) :: read_csv plain [] [] s.
Proof.
  intros Hne. revert row. induction cells as [|x cells IH]; intros row; [done|]. destruct cells as [|y cells].
  - exact (proj2 (read_cell row x s)).
  - unfold csvRow in *. cbn [fmap list_fmap join] in *. rewrite <- !app_assoc. etrans; [exact (proj1 (read_cell row x _))|]. etrans; [apply (IH ltac:(done) (row ++ [guarded x]))|].
    by rewrite <- app_assoc.
Qed.
Lemma read_file rows : rows <> [] -> Forall (fun r => r <> []) rows -> read_csv plain [] [] (csv_file rows) = map (map guarded) rows.
Proof.
  unfold csv_file. intros Hne Hr. induction Hr as [|r rows Hr0 Hrs IH]; [done|]. destruct rows as [|r' rows].
  - csimpl. rewrite <- (app_nil_r CRLF). by rewrite read_row.
  - cbn [fmap list_fmap join] in *. rewrite <- !app_assoc. rewrite read_row by done. rewrite (map_cons _ r). apply (f_equal (cons (map guarded r))), IH. done.
Qed.

(** ** Sums in cents *)
Definition zsum (l : list Z) : Z := foldr Z.add 0 l.
(** [weighs W l]: amounts in cents that come to [W] at most, signs aside. *)
Definition weighs (W : Z) (l : list Qc) : Prop := exists zs, l = (cents <$> zs) /\ zsum (Z.abs <$> zs) <= W.
Lemma zsum_abs_nonneg zs : 0 <= zsum (Z.abs <$> zs).
Proof. unfold zsum. induction zs as [|z zs IH]; csimpl; lia. Qed.
Section Weights.
Context `{DecimalLib}.
Lemma qsum_cents zs : qsum (cents <$> zs) = cents (zsum zs).
Proof. induction zs as [|z zs IH]; [symmetry; apply decimal_0|]. change (cents z + qsum (cents <$> zs) = cents (z + zsum zs))%Qc. rewrite IH. apply decimal_plus. Qed.
Lemma weighs_money W l : weighs W l -> money W (qsum l).
Proof.
  intros (zs & -> & Hw). exists (zsum zs). split; [|apply qsum_cents]. etrans; [|exact Hw]. clear Hw. unfold zsum. induction zs as [|z zs IH]; csimpl; lia.
Qed.
Lemma weighs_app W1 W2 l1 l2 : weighs W1 l1 -> weighs W2 l2 -> weighs (W1 + W2) (l1 ++ l2).
Proof.
  intros (z1 & -> & H1) (z2 & -> & H2). exists (z1 ++ z2). rewrite fmap_app. split; [done|]. rewrite fmap_app. unfold zsum in *. rewrite foldr_app.
  clear -H1 H2. revert W1 H1. induction z1 as [|z z1 IH]; intros W1 H1; csimpl in *; [lia|]. specialize (IH (W1 - Z.abs z)). lia.
Qed.
Lemma weighs_weaken W W' l : W <= W' -> weighs W l -> weighs W' l.
Proof. intros ? (zs & -> & ?). exists zs. split; [done|lia]. Qed.
Lemma weighs_perm W l l' : l ≡ₚ l' -> weighs W l -> weighs W l'.
Proof.
  intros Hp%symmetry (zs & -> & Hw). apply Permutation_map_inv in Hp as (zs' & -> & Hp). exists zs'. split; [done|]. etrans; [|exact Hw]. apply Z.eq_le_incl.
  clear Hw. unfold zsum. induction Hp; csimpl; lia.
Qed.
Lemma weighs_dsum W l : weighs W l -> W < 10 ^ precision -> dsum l = qsum l.
Proof.
  intros (zs & -> & Hw) Hp. unfold dsum. enough (forall a, Z.abs a + zsum (Z.abs <$> zs) < 10 ^ precision -> foldl dplus (cents a) (cents <$> zs) = cents (a + zsum zs)) as Hf.
  { rewrite qsum_cents. rewrite <- (decimal_0 (-2)) at 1. fold (cents 0). rewrite Hf by (simpl; lia). done. }
  clear Hw. unfold zsum. induction zs as [|z zs IH]; intros a Ha; csimpl in *; [by rewrite Z.add_0_r|]. pose proof (zsum_abs_nonneg zs) as Hz. unfold zsum in Hz. rewrite dplus_cents by lia. rewrite IH by lia. f_equal. lia.
Qed.
End Weights.

(** ** The books of a day *)
Section Days.
Context `{DecimalLib}.
Abbreviation Day := (list (string * Entry)).
Definition nets (day : Day) : list Qc := (fun x => net (snd x)) <$> day.
Definition on_account (a : string) (day : Day) : Qc := qsum (nets (List.filter (fun x => bool_decide (fst x = a)) day)).
Lemma nets_cons x day : nets (x :: day) = net (snd x) :: nets day.
Proof. done. Qed.
Lemma weighs_cons W x l : weighs W (x :: l) <-> exists z, x = cents z /\ weighs (W - Z.abs z) l.
Proof.
  split.
  - intros ([|z zs] & E & Hw); [done|]. injection E as -> ->. exists z. split; [done|]. exists zs. split; [done|]. unfold zsum in *. csimpl in Hw. lia.
  - intros (z & -> & zs & -> & Hw). exists (z :: zs). split; [done|]. unfold zsum in *. csimpl. lia.
Qed.
Lemma weighs_nonneg W l : weighs W l -> 0 <= W.
Proof. intros (zs & _ & Hw). pose proof (zsum_abs_nonneg zs). lia. Qed.
Lemma on_account_cons a x day : on_account a (x :: day) = ((if bool_decide (fst x = a) then net (snd x) else 0) + on_account a day)%Qc.
Proof. unfold on_account. simpl. case_bool_decide; simpl; [done | ring]. Qed.
Lemma post_day p z W day : po_amount p = cents z -> weighs W (nets day) -> W + Z.abs z < 10 ^ precision ->
  let day' := upsert (po_account p) (post_entry p) day in
  weighs (W + Z.abs z) (nets day') /\ qsum (nets day') = (qsum (nets day) + po_amount p)%Qc /\
  forall a, on_account a day' = (on_account a day + if bool_decide (po_account p = a) then po_amount p else 0)%Qc.
Proof.
  intros Hp. cbv zeta. revert W. induction day as [|[k e] day IH]; intros W; cbn [upsert].
  - intros Hw0%weighs_nonneg Hb. assert (net (post_entry p None) = po_amount p) as Hn.
    { unfold post_entry. simpl. rewrite Hp, <- (decimal_0 (-2)). fold (cents 0). rewrite dplus_cents by lia. done. }
    rewrite nets_cons. simpl snd. rewrite Hn. split; [|split].
    + apply weighs_cons. exists z. split; [done|]. exists []. simpl. split; [done|]. unfold zsum. csimpl. lia.
    + simpl. ring.
    + intros a. rewrite on_account_cons. simpl fst. simpl snd. rewrite Hn. unfold on_account. simpl. case_bool_decide; ring.
  - rewrite nets_cons. simpl snd. intros (z0 & Hz0 & Hw)%weighs_cons Hb. pose proof (weighs_nonneg _ _ Hw). case_bool_decide as Hk.
    + assert (net (post_entry p (Some e)) = (net e + po_amount p)%Qc) as Hn.
      { unfold post_entry. simpl. rewrite Hp, Hz0. rewrite dplus_cents by lia. symmetry. apply decimal_plus. }
      rewrite nets_cons. simpl snd. split; [|split].
      * apply weighs_cons. exists (z0 + z). split; [rewrite Hn, Hp, Hz0; apply decimal_plus|]. eapply weighs_weaken; [|exact Hw]. lia.
      * rewrite Hn. simpl. ring.
      * intros a. rewrite !on_account_cons. simpl fst. simpl snd. rewrite Hn, Hk. case_bool_decide; ring.
    + destruct (IH _ Hw) as (Hw' & Hs & Ha); [lia|]. rewrite nets_cons. simpl snd. split; [|split].
      * apply weighs_cons. exists z0. split; [done|]. eapply weighs_weaken; [|exact Hw']. lia.
      * simpl. rewrite Hs. ring.
      * intros a. rewrite !on_account_cons, Ha. ring.
Qed.
End Days.

(** ** The books of every day *)
Lemma keyed_upsert {A} k k' (f : option A -> A) l : keyed k' (upsert k f l) = if bool_decide (k' = k) then Some (f (keyed k l)) else keyed k' l.
Proof.
  induction l as [|[k0 v] l IH]; simpl; [by case_bool_decide|]. destruct (decide (k = k0)) as [<-|Hk].
  - rewrite (bool_decide_true (k = k)) by done. simpl. by case_bool_decide.
  - rewrite (bool_decide_false (k = k0)) by done. simpl. rewrite IH. destruct (decide (k' = k0)) as [->|]; [|by rewrite (bool_decide_false (k' = k0))].
    rewrite (bool_decide_true (k0 = k0)) by done. rewrite bool_decide_false by (by apply not_eq_sym). done.
Qed.
Lemma upsert_keys {A} k (f : option A -> A) l x : x ∈ (upsert k f l).*1 <-> x = k \/ x ∈ l.*1.
Proof.
  induction l as [|[k0 v] l IH]; csimpl; [set_solver|]. case_bool_decide as Hk; csimpl; [set_solver|]. rewrite !elem_of_cons, IH. tauto.
Qed.
Lemma upsert_nodup {A} k (f : option A -> A) l : NoDup l.*1 -> NoDup (upsert k f l).*1.
Proof.
  induction l as [|[k0 v] l IH]; csimpl; intros Hn; [apply NoDup_singleton|]. apply NoDup_cons in Hn as [Hx Hn]. case_bool_decide as Hk; csimpl; apply NoDup_cons; [done|].
  split; [|auto]. rewrite upsert_keys. intros [->|]; done.
Qed.
Lemma keyed_in {A} k (v : A) l : NoDup l.*1 -> (k, v) ∈ l -> keyed k l = Some v.
Proof.
  induction l as [|[k0 v0] l IH]; csimpl; [by intros _ ?%elem_of_nil|]. intros [Hx Hn]%NoDup_cons [[= <- <-]|Hin]%elem_of_cons; [by rewrite bool_decide_true|].
  case_bool_decide as Hk; [|auto]. subst. destruct Hx. by apply (list_elem_of_fmap_2 fst) in Hin.
Qed.

Section AllDays.
Context `{DecimalLib}.
Definition on_day (ps : list Posting) (d : string) : Qc := qsum (po_amount <$> List.filter (fun p => bool_decide (po_date p = d)) ps).
(** What a list of postings moves on an account on a day *)
Definition movement (ps : list Posting) (d a : string) : Qc := qsum (po_amount <$> List.filter (fun p => bool_decide (po_date p = d) && bool_decide (po_account p = a)) ps).
Definition day_at (d : string) (days : list (string * list (string * Entry))) : list (string * Entry) := default [] (keyed d days).
Record books (W : Z) (ps : list Posting) (days : list (string * list (string * Entry))) : Prop := {
  bk_dates : NoDup days.*1;
  bk_weight d : weighs W (nets (day_at d days));
  bk_accounts d : NoDup (day_at d days).*1;
  bk_total d : qsum (nets (day_at d days)) = on_day ps d;
  bk_account d a : on_account a (day_at d days) = movement ps d a;
}.
Lemma sum_snoc (f : Posting -> bool) ps p : qsum (po_amount <$> List.filter f (ps ++ [p])) = (qsum (po_amount <$> List.filter f ps) + if f p then po_amount p else 0)%Qc.
Proof. rewrite List.filter_app, fmap_app, qsum_app. f_equal. simpl. destruct (f p); simpl; ring. Qed.
Lemma post_books W ps days p z : books W ps days -> po_amount p = cents z -> W + Z.abs z < 10 ^ precision -> books (W + Z.abs z) (ps ++ [p]) (post days p).
Proof.
  intros [Hd Hw Ha Ht Hm] Hp Hb. unfold post. destruct (dis_zero_spec (po_amount p)) as [E|_].
  - split; [done| | |intros d; rewrite Ht|intros d a; rewrite Hm]; [intros d; eapply weighs_weaken; [|apply Hw]; lia|done| |]; unfold on_day, movement; rewrite sum_snoc, E; repeat case_match; ring.
  - assert (forall d, day_at d (upsert (po_date p) (fun day => upsert (po_account p) (post_entry p) (default [] day)) days) =
                      if bool_decide (d = po_date p) then upsert (po_account p) (post_entry p) (day_at d days) else day_at d days) as Hat.
    { intros d. unfold day_at. rewrite keyed_upsert. by case_bool_decide; subst. }
    split; [by apply upsert_nodup| | | |]; intros d; rewrite Hat; destruct (decide (d = po_date p)) as [->|Hne].
    all: rewrite ?bool_decide_true by done.
    all: try rewrite (bool_decide_false (d = po_date p)) by done.
    all: try destruct (post_day p z W (day_at (po_date p) days) Hp (Hw _) Hb) as (Hw' & Ht' & Hm').
    + done.
    + eapply weighs_weaken; [|apply Hw]. lia.
    + by apply upsert_nodup.
    + done.
    + rewrite Ht', Ht. unfold on_day. by rewrite sum_snoc, bool_decide_true.
    + rewrite Ht. unfold on_day. rewrite sum_snoc, (bool_decide_false (po_date p = d)) by done. ring.
    + intros a. rewrite Hm', Hm. unfold movement. rewrite sum_snoc, (bool_decide_true (po_date p = po_date p)) by done. done.
    + intros a. rewrite Hm. unfold movement. rewrite sum_snoc, (bool_decide_false (po_date p = d)) by done. simpl. ring.
Qed.
Lemma all_books W ps : weighs W (po_amount <$> ps) -> W < 10 ^ precision -> books W ps (foldl post [] ps).
Proof.
  revert W. induction ps as [|p ps IH] using rev_ind; intros W Hw Hb.
  - apply weighs_nonneg in Hw. split; try done; try constructor. intros d. exists []. by split.
  - rewrite fmap_app in Hw. rewrite foldl_app. simpl. assert (exists z, po_amount p = cents z /\ weighs (W - Z.abs z) (po_amount <$> ps)) as (z & Hz & Hws).
    { apply weighs_cons. eapply weighs_perm; [|exact Hw]. symmetry. apply Permutation_cons_append. }
    replace W with (W - Z.abs z + Z.abs z) by lia. apply post_books; [|done|lia]. apply IH; [done|lia].
Qed.
End AllDays.

(** ** Journals *)
Lemma insert_with_perm {A} (le : A -> A -> bool) x l : insert_with le x l ≡ₚ x :: l.
Proof. induction l as [|y l IH]; [done|]. simpl. destruct (le x y); [done|]. rewrite IH. constructor. Qed.
Lemma sort_with_perm {A} (le : A -> A -> bool) l : sort_with le l ≡ₚ l.
Proof. induction l as [|x l IH]; [done|]. simpl. rewrite insert_with_perm. by constructor. Qed.

Section Balanced.
Context `{DecimalLib} `{Collation}.
Definition line_net (l : JournalLine) : Qc := (jl_debit l - jl_credit l)%Qc.
Definition one_sided (l : JournalLine) : Prop := ((0 < jl_debit l)%Qc /\ jl_credit l = 0%Qc) \/ (jl_debit l = 0%Qc /\ (0 < jl_credit l)%Qc).
(** A journal an accountant can post *)
Record journal_ok (j : Journal) : Prop := {
  jo_lines : j_lines j <> [] /\ Forall one_sided (j_lines j) /\ NoDup (jl_account <$> j_lines j);
  jo_debit : j_totalDebit j = qsum (jl_debit <$> j_lines j);
  jo_credit : j_totalCredit j = qsum (jl_credit <$> j_lines j);
  jo_balance : j_totalDebit j = j_totalCredit j;
}.
Definition lines_net (a : string) (l : list JournalLine) : Qc := qsum (line_net <$> List.filter (fun x => bool_decide (jl_account x = a)) l).
Definition journal_net (js : list Journal) (d a : string) : Qc := lines_net a (List.filter (fun j => bool_decide (j_date j = d)) js ≫= j_lines).
Lemma lines_net_app a l1 l2 : lines_net a (l1 ++ l2) = (lines_net a l1 + lines_net a l2)%Qc.
Proof. unfold lines_net. by rewrite List.filter_app, fmap_app, qsum_app. Qed.
Lemma cents_zero z : cents z = 0%Qc <-> z = 0.
Proof.
  split; [|intros ->; apply decimal_0]. intros E. destruct (Z.lt_trichotomy z 0) as [Hz|[?|Hz]]; [|done|].
  - assert (0 < cents (- z))%Qc as Hp by (apply cents_pos; lia). unfold cents in *. rewrite <- decimal_opp, E in Hp. done.
  - apply cents_pos in Hz. rewrite E in Hz. done.
Qed.
Lemma line_of_cents x z : net (snd x) = cents z -> line_of x =
  if bool_decide (z = 0) then [] else [{| jl_account := fst x; jl_debit := cents (Z.max z 0); jl_credit := cents (Z.max (- z) 0); jl_labels := labels (snd x) |}].
Proof.
  intros Hn. unfold line_of. rewrite Hn. destruct (dis_zero_spec (cents z)) as [E%cents_zero|Hz]; [by rewrite bool_decide_true|].
  rewrite cents_zero in Hz. rewrite (bool_decide_false (z = 0)) by done. pose proof (proj2 (cents_zero 0) eq_refl) as Hzero. do 2 f_equal.
  - destruct (dgt_spec (cents z) 0%Qc) as [Hp|Hp]; rewrite cents_pos in Hp; [by rewrite Z.max_l by lia | by rewrite Z.max_r by lia].
  - case_bool_decide as Hp; rewrite <- Hzero in Hp; unfold cents in Hp; rewrite decimal_lt in Hp.
    + rewrite Z.max_l by lia. apply decimal_opp.
    + rewrite Z.max_r by lia. done.
Qed.
Lemma line_of_ok x z : net (snd x) = cents z ->
  weighs (Z.abs z) (jl_debit <$> line_of x) /\ weighs (Z.abs z) (jl_credit <$> line_of x) /\
  Forall one_sided (line_of x) /\ (jl_account <$> line_of x) ⊆+ [fst x] /\
  qsum (jl_debit <$> line_of x) = (net (snd x) + qsum (jl_credit <$> line_of x))%Qc /\
  forall a, lines_net a (line_of x) = if bool_decide (fst x = a) then net (snd x) else 0%Qc.
Proof.
  intros Hn. rewrite (line_of_cents x z Hn), Hn. case_bool_decide as Hz.
  - subst. split; [by exists []|]. split; [by exists []|]. split; [done|]. split; [apply submseteq_nil_l|]. split; [simpl; rewrite (proj2 (cents_zero 0) eq_refl); ring|].
    intros a. rewrite (proj2 (cents_zero 0) eq_refl). by case_bool_decide.
  - assert (cents (Z.max z 0) - cents (Z.max (- z) 0) = cents z)%Qc as Hd by (unfold cents; rewrite decimal_minus; f_equal; lia).
    split; [exists [Z.max z 0]; split; [done|]; unfold zsum; csimpl; lia|]. split; [exists [Z.max (- z) 0]; split; [done|]; unfold zsum; csimpl; lia|].
    split; [|split; [done|split]].
    + constructor; [|constructor]. unfold one_sided. simpl. destruct (Z.lt_ge_cases 0 z).
      * left. rewrite Z.max_l, (Z.max_r (- z)) by lia. split; [by apply cents_pos | by apply cents_zero].
      * right. rewrite Z.max_r, (Z.max_l (- z)) by lia. split; [by apply cents_zero | apply cents_pos; lia].
    + simpl. rewrite <- Hd. ring.
    + intros a. unfold lines_net. simpl. case_bool_decide; simpl; [|done]. unfold line_net. simpl. rewrite Hd. ring.
Qed.
Lemma nodup_within {A} (l k : list A) : l ⊆+ k -> NoDup k -> NoDup l.
Proof. intros (k' & ->)%submseteq_Permutation. by intros [? _]%NoDup_app. Qed.
Record lines_ok (W : Z) (day : list (string * Entry)) (l : list JournalLine) : Prop := {
  lo_debit : weighs W (jl_debit <$> l);
  lo_credit : weighs W (jl_credit <$> l);
  lo_sided : Forall one_sided l;
  lo_accounts : (jl_account <$> l) ⊆+ day.*1;
  lo_total : qsum (jl_debit <$> l) = (qsum (nets day) + qsum (jl_credit <$> l))%Qc;
  lo_account a : lines_net a l = on_account a day;
}.
Lemma lines_perm W day l l' : l ≡ₚ l' -> lines_ok W day l -> lines_ok W day l'.
Proof.
  intros Hp [Hd Hc Hs Ha Ht Hn]. split.
  - eapply weighs_perm; [|exact Hd]. by apply Permutation_map.
  - eapply weighs_perm; [|exact Hc]. by apply Permutation_map.
  - by rewrite <- Hp.
  - by rewrite <- Hp.
  - by rewrite <- Hp.
  - intros a. rewrite <- Hn. unfold lines_net. apply qsum_perm, Permutation_map, filterb_perm. by symmetry.
Qed.
Lemma raw_lines W day : weighs W (nets day) -> lines_ok W day (day ≫= line_of).
Proof.
  revert W. induction day as [|x day IH]; intros W.
  - intros Hw%weighs_nonneg. assert (weighs W []) by (by exists []). by split.
  - rewrite nets_cons. intros (z & Hz & Hw)%weighs_cons. destruct (IH _ Hw) as [Hd Hc Hs Ha Ht Hn]. destruct (line_of_ok x z Hz) as (Xd & Xc & Xs & Xa & Xt & Xn).
    rewrite bind_cons. assert (W = Z.abs z + (W - Z.abs z)) as Hsum by lia. split.
    + rewrite fmap_app, Hsum. by apply weighs_app.
    + rewrite fmap_app, Hsum. by apply weighs_app.
    + by apply Forall_app.
    + rewrite fmap_app. exact (submseteq_app _ [fst x] _ _ Xa Ha).
    + rewrite !fmap_app, !qsum_app, Xt, Ht. simpl. ring.
    + intros a. by rewrite lines_net_app, Xn, Hn, on_account_cons.
Qed.
Lemma day_lines_ok W day : weighs W (nets day) -> lines_ok W day (day_lines day).
Proof.
  intros Hw. unfold day_lines. eapply lines_perm; [symmetry; apply sort_with_perm|].
  pose proof (sort_with_perm (fun a b => localeCompare (fst a) (fst b) <=? 0) day) as Hp. set (day' := sort_with _ day) in *.
  destruct (raw_lines W day') as [Hd Hc Hs Ha Ht Hn]; [eapply weighs_perm; [|exact Hw]; by apply Permutation_map|].
  split; try done.
  - etrans; [exact Ha|]. apply Permutation_submseteq. by apply Permutation_map.
  - rewrite Ht. f_equal. apply qsum_perm. by apply Permutation_map.
  - intros a. rewrite Hn. unfold on_account. apply qsum_perm, Permutation_map, filterb_perm. done.
Qed.
Lemma journal_for_ok W prefix name d day : weighs W (nets day) -> NoDup day.*1 -> W < 10 ^ precision -> qsum (nets day) = 0%Qc ->
  exists js, journal_for prefix name (d, day) = Ok js /\ Forall (fun j => j_date j = d /\ journal_ok j) js /\ (length js <= 1)%nat /\ forall a, lines_net a (js ≫= j_lines) = on_account a day.
Proof.
  intros Hw Hn Hb Hz. destruct (day_lines_ok W day Hw) as [Hd Hc Hs Ha Ht Hl]. unfold journal_for. simpl snd. simpl fst. destruct (day_lines day) as [|x lines] eqn:E.
  - exists []. split; [done|]. split; [done|]. split; [simpl; lia|]. done.
  - rewrite (weighs_dsum W _ Hd Hb), (weighs_dsum W _ Hc Hb). rewrite Ht, Hz. rewrite bool_decide_true by ring. eexists. split; [reflexivity|]. split; [|split; [simpl; lia|]].
    + constructor; [|constructor]. split; [done|]. split; cbn [j_lines j_totalDebit j_totalCredit]; [|by rewrite Ht, Hz | done | ring]. split; [done|]. split; [done|]. by eapply nodup_within.
    + intros a. rewrite <- Hl. simpl. by rewrite app_nil_r.
Qed.
Lemma keyed_Some {A} k (v : A) l : keyed k l = Some v -> (k, v) ∈ l.
Proof. induction l as [|[k0 v0] l IH]; simpl; [done|]. case_bool_decide; [intros [= <-]; subst; by left | right; auto]. Qed.
Lemma keyed_perm {A} k (l l' : list (string * A)) : l ≡ₚ l' -> NoDup l.*1 -> keyed k l = keyed k l'.
Proof.
  intros Hp Hn. assert (NoDup l'.*1) as Hn' by (by rewrite <- Hp). destruct (keyed k l) as [v|] eqn:E.
  - symmetry. apply keyed_in; [done|]. rewrite <- Hp. by apply keyed_Some.
  - destruct (keyed k l') as [v|] eqn:E'; [|done]. apply keyed_Some in E'. rewrite <- Hp in E'. apply keyed_in in E'; [congruence|done].
Qed.
Lemma res_mapM_total {A B} (f : A -> res B) (Q : A -> B -> Prop) l : (forall x, x ∈ l -> exists y, f x = Ok y /\ Q x y) -> exists ys, res_mapM f l = Ok ys /\ Forall2 Q l ys.
Proof.
  induction l as [|x l IH]; intros Hf; [by exists []|]. destruct (Hf x) as (y & Hy & HQ); [by left|]. destruct IH as (ys & Hys & HF); [intros; apply Hf; by right|].
  exists (y :: ys). simpl. rewrite Hy. simpl. rewrite Hys. split; [done | by constructor].
Qed.
Definition day_journal (x : string * list (string * Entry)) (js : list Journal) : Prop :=
  Forall (fun j => j_date j = fst x /\ journal_ok j) js /\ (length js <= 1)%nat /\ forall a, lines_net a (js ≫= j_lines) = on_account a (snd x).
Lemma filter_dates d0 d js : Forall (fun j => j_date j = d0 /\ journal_ok j) js -> List.filter (fun j => bool_decide (j_date j = d)) js = if bool_decide (d0 = d) then js else [].
Proof. induction 1 as [|j js [<- _] _ IH]; [by case_bool_decide|]. simpl. rewrite IH. by case_bool_decide. Qed.
Lemma days_journals l ys : NoDup l.*1 -> Forall2 day_journal l ys ->
  Forall journal_ok (mjoin ys) /\ NoDup (j_date <$> mjoin ys) /\ (forall d, d ∈ j_date <$> mjoin ys -> d ∈ l.*1) /\ forall d a, journal_net (mjoin ys) d a = on_account a (default [] (keyed d l)).
Proof.
  intros Hn HF. induction HF as [|[d0 day] js l ys (Hj & Hlen & Hnet) HF IH]; [split; [done|]; split; [constructor|]; split; [by intros d ?%elem_of_nil | done]|].
  csimpl in Hn. apply NoDup_cons in Hn as [Hx Hn]. destruct (IH Hn) as (Ho & Hd & Hin & Hjn). simpl in Hj, Hnet. change (mjoin (js :: ys)) with (js ++ mjoin ys).
  assert (forall d, d ∈ j_date <$> js -> d = d0) as Hds by (intros d (j & -> & Hjin)%list_elem_of_fmap; rewrite Forall_forall in Hj; by apply Hj).
  split_and!.
  - apply Forall_app. split; [|done]. eapply Forall_impl; [exact Hj|]. by intros j [_ ?].
  - rewrite fmap_app. apply NoDup_app. split; [destruct js as [|j [|]]; [constructor | apply NoDup_singleton | simpl in Hlen; lia]|]. split; [|done].
    intros d Hd0%Hds Hd1. subst. by apply Hin in Hd1.
  - intros d. rewrite fmap_app, elem_of_app. csimpl. intros [->%Hds|?%Hin]; [by left | by right].
  - intros d a. unfold journal_net in *. rewrite List.filter_app, bind_app, lines_net_app, Hjn, (filter_dates d0 d js Hj). simpl. destruct (decide (d = d0)) as [->|Hne].
    + rewrite !bool_decide_true by done. rewrite Hnet. simpl. destruct (keyed d0 l) as [v|] eqn:E; [|unfold on_account; simpl; ring].
      exfalso. apply Hx. apply keyed_Some in E. by apply (list_elem_of_fmap_2 fst) in E.
    + rewrite (bool_decide_false (d0 = d)), (bool_decide_false (d = d0)) by done. unfold lines_net at 1. simpl. ring.
Qed.
Lemma journals_ok config inputs W prefix name : let ps := postings config inputs in
  weighs W (po_amount <$> ps) -> W < 10 ^ precision -> (forall d, on_day ps d = 0%Qc) ->
  exists js, buildJournals config inputs prefix name = Ok js /\ Forall journal_ok js /\ NoDup (j_date <$> js) /\ forall d a, journal_net js d a = movement ps d a.
Proof.
  intros ps Hw Hb Hz. destruct (all_books W ps Hw Hb) as [Hd Hwd Ha Ht Hm]. unfold buildJournals. fold ps. set (days := foldl post [] ps) in *.
  pose proof (sort_with_perm (fun a b => String.leb (fst a) (fst b)) days) as Hp. set (sorted := sort_with _ days) in *.
  assert (NoDup sorted.*1) as Hs by (by rewrite Hp).
  destruct (res_mapM_total (journal_for prefix name) day_journal sorted) as (ys & -> & HF).
  { intros [d day] Hin. rewrite Hp in Hin. apply (keyed_in _ _ _ Hd) in Hin. specialize (Hwd d). specialize (Ha d). specialize (Ht d). unfold day_at in *. rewrite Hin in *.
    apply (journal_for_ok W); [done|done|done|]. simpl in Ht. by rewrite Ht, Hz. }
  simpl res_bind. destruct (days_journals sorted ys Hs HF) as (Ho & Hdates & _ & Hn). exists (mjoin ys). split; [done|]. split; [done|]. split; [done|].
  intros d a. rewrite Hn, <- Hm. unfold day_at. by rewrite (keyed_perm d sorted days).
Qed.
End Balanced.
