(* ===== verification/Marketplace.v ===== *)
(** The integrations marketplace
    (src/src/modules/marketplace/{marketplace.service,accounting-export.service,
    review-requests.service,marketplace-catalog}.ts, connectors/review-requests.ts):
    switching connectors on and off, the accounting export and the requests for
    reviews. Columns that only these services read (when a payment was recorded
    and a sale made) are kept beside the organisation's rows; the sentences on the
    settings page, and the sentence that says what the last run did, are left out. *)
From stdpp Require Import pretty.
From Stdlib Require Import QArith Qcanon Ascii.
From S2P Require Import Prelude Decimal Json Dates StayPolicies Taxes Authority Transactions Db Folios Guests SegmentRules CampaignRender Inbox Journals.
Local Open Scope Z_scope.

(** ** The catalogue *)
Definition AVAILABLE_PROVIDERS : list string := ["quickbooks_online"; "xero"; "review_requests"].
Definition CATALOG : list string := ["quickbooks_online"; "xero"; "review_requests"; "channel_manager"; "stripe"; "webhooks"; "smart_locks"].
Definition catalogEntry (key : string) : option string := List.find (fun k => bool_decide (k = key)) CATALOG.
Definition isAvailableProvider (key : string) : bool := includes key AVAILABLE_PROVIDERS.
Definition isAccountingProvider (key : string) : bool := includes key ACCOUNTING_PROVIDERS.
Definition WRITE_ROLES (provider : string) : list string :=
  if isAccountingProvider provider then ["owner"; "manager"; "accountant"] else if bool_decide (provider = "review_requests") then ["owner"; "manager"] else [].

(** ** Rows *)
Module Connection.
Record t := {
  id : string; provider : string; enabled : bool; config : json; enabledAt : Z; enabledBy : option string; disabledAt : option Z; lastRunAt : option Z; updatedBy : option string }.
Definition with_config (c : json) (by_ : string) (x : t) : t :=
  {| id := id x; provider := provider x; enabled := enabled x; config := c; enabledAt := enabledAt x; enabledBy := enabledBy x; disabledAt := disabledAt x; lastRunAt := lastRunAt x; updatedBy := Some by_ |}.
Definition switched_on (at_ : Z) (by_ : string) (x : t) : t :=
  {| id := id x; provider := provider x; enabled := true; config := config x; enabledAt := at_; enabledBy := Some by_; disabledAt := None; lastRunAt := lastRunAt x; updatedBy := updatedBy x |}.
Definition switched_off (at_ : Z) (by_ : string) (x : t) : t :=
  {| id := id x; provider := provider x; enabled := false; config := config x; enabledAt := enabledAt x; enabledBy := enabledBy x; disabledAt := Some at_; lastRunAt := lastRunAt x; updatedBy := Some by_ |}.
Definition with_run (at_ : Z) (x : t) : t :=
  {| id := id x; provider := provider x; enabled := enabled x; config := config x; enabledAt := enabledAt x; enabledBy := enabledBy x; disabledAt := disabledAt x; lastRunAt := Some at_; updatedBy := updatedBy x |}.
End Connection.
(** The rows, with [payments.recorded_at] and [pos_orders.created_at] by id. *)
Record Shop := { hotel : Db; recordedAt : string -> Z; soldAt : string -> Z; connections : list Connection.t }.
Definition upd_hotel (f : Db -> Db) (k : Shop) : Shop := {| hotel := f (hotel k); recordedAt := recordedAt k; soldAt := soldAt k; connections := connections k |}.
Definition upd_connections (f : list Connection.t -> list Connection.t) (k : Shop) : Shop :=
  {| hotel := hotel k; recordedAt := recordedAt k; soldAt := soldAt k; connections := f (connections k) |}.
Abbreviation T := (Tx Shop).
Definition inDb {A} (m : M A) : T A := fun k => match m (hotel k) with Ok (d', a) => Ok (upd_hotel (fun _ => d') k, a) | Err e => Err e end.

(** ** Review requests: the settings *)
Definition REVIEW_REQUEST_TRIGGER : string := "review_request".
Definition REVIEW_PLACEHOLDERS : list text := chars <$> ["guest_first_name"; "hotel_name"; "review_url"].
Definition REVIEW_LOOKBACK_DAYS : Z := 14.
Record ReviewRequestConfig := { delayHours : Z; links : list (string * string); rv_subject : string; rv_message : string }.
(** [new URL(s)]: its protocol and how it is written; [None] when it is no address. *)
Class UrlParser := parse_url : string -> option (string * string).
Section Reviews.
Context `{StringToNumber} `{UrlParser}.
Definition assertPlaceholders (s : string) : res unit := throw_if (existsb (fun name => negb (bool_decide (name ∈ REVIEW_PLACEHOLDERS))) (hits (scan PLACEHOLDER (chars s)))) invalid.
Definition review_link (known : list string) (x : string * json) : res (list (string * string)) :=
  match snd x with
  | JNull | JStr EmptyString => Ok []
  | v =>
      throw invalid when negb (includes (fst x) known) in
      match v with
      | JStr url =>
          throw invalid when (500 <? js_length url) in
          let? '(protocol, href) := or_throw (parse_url (js_trim url)) invalid in
          throw invalid when negb (bool_decide (protocol = "https:")) in
          Ok [(fst x, href)]
      | _ => Err invalid
      end
  end.
Definition trimmed_field (k : string) (raw : json) : string := match as_string (member k (Some raw)) with Some s => js_trim s | None => "" end.
Definition whole_number (x : Qc) : option Z := if is_integer x then Some (QArith_base.Qnum (this x)) else None.
Definition parseReviewRequestConfig (value : json) (knownBranchIds : list string) : res ReviewRequestConfig :=
  match value with
  | JObj _ =>
      let? hours := or_throw (match member "delayHours" (Some value) with Some v => to_number v | None => None end) invalid in
      let? delay := or_throw (whole_number hours) invalid in
      throw invalid when ((delay <? 1) || (168 <? delay)) in
      match member "links" (Some value) with
      | Some (JObj given) =>
          let? found := res_mapM (review_link knownBranchIds) given in
          let links := mjoin found in
          throw invalid when bool_decide (length links = 0%nat) in
          let subject := trimmed_field "subject" value in
          let message := trimmed_field "message" value in
          throw invalid when ((js_length subject <? 3) || (200 <? js_length subject)) in
          throw invalid when ((js_length message <? 10) || (5000 <? js_length message)) in
          let? _ := assertPlaceholders subject in
          let? _ := assertPlaceholders message in
          throw invalid when negb (existsb (fun name => bool_decide (name = chars "review_url")) (hits (scan PLACEHOLDER (chars message)))) in
          Ok {| delayHours := delay; links := links; rv_subject := subject; rv_message := message |}
      | _ => Err invalid
      end
  | _ => Err invalid
  end.
(** What is stored *)
Definition review_json (c : ReviewRequestConfig) : json :=
  JObj [("delayHours", JNum (Qc_of_Z (delayHours c))); ("links", accounts_json (links c)); ("subject", JStr (rv_subject c)); ("message", JStr (rv_message c))].
(** [name.trim().split(/\s+/)[0] || name] *)
Definition first_name (s : string) : text := match take_while (fun c => negb (is_space c)) (chars (js_trim s)) with [] => chars s | w => w end.
Definition renderReviewRequest (c : ReviewRequestConfig) (guestName hotelName : string) (reviewUrl : text) : text * text :=
  let fill s := replace_all PLACEHOLDER (fun name whole =>
    if bool_decide (name = chars "guest_first_name") then first_name guestName else if bool_decide (name = chars "hotel_name") then chars hotelName
    else if bool_decide (name = chars "review_url") then reviewUrl else whole) (chars s) in
  (fill (rv_subject c), fill (rv_message c)).
Definition reviewWindow (now enabledAt delay : Z) : Z * Z := (Z.max enabledAt (now - REVIEW_LOOKBACK_DAYS * DAY_MS), now - delay * 3600000).
End Reviews.

(** ** The connections *)
Section Connections.
Context `{StringToNumber} `{UrlParser} `{Uuid}.
Definition connection_for (provider : string) (x : Connection.t) : bool := bool_decide (Connection.provider x = provider).
Definition connection_where (i : string) (x : Connection.t) : bool := bool_decide (Connection.id x = i).
Definition at_now : T Z := inDb now.
Definition m_audit (u : option string) (action : string) : T unit := inDb (auditLog None u action "integration_connection" "").
Definition live_branches : T (list Branch.t) := inDb (findMany branches (fun x => isNone (Branch.deletedAt x))).
Definition assertCanWrite (provider : string) (actor : JwtPayload) : res unit :=
  let? _ := or_throw (catalogEntry provider) not_found in
  throw invalid when negb (isAvailableProvider provider) in
  throw_if (negb (existsb (fun r => includes (role r) (WRITE_ROLES provider)) (roles actor))) forbidden.
Definition stored_config (provider : string) (rawConfig : json) : T json :=
  if isAccountingProvider provider then let! c := lift (parseAccountingConfig rawConfig) in ret (config_json c)
  else let! l := live_branches in let! c := lift (parseReviewRequestConfig rawConfig (Branch.id <$> l)) in ret (review_json c).
Definition saveConnection (provider : string) (rawConfig : json) (actor : JwtPayload) : T unit :=
  do! lift (assertCanWrite provider actor) in
  let! config := stored_config provider rawConfig in
  let! existing := findFirst connections (connection_for provider) in
  let! at_ := at_now in
  do! match existing with
      | None =>
          let! i := inDb new_id in
          modify (upd_connections (fun l => l ++ [{| Connection.id := i; Connection.provider := provider; Connection.enabled := true; Connection.config := config; Connection.enabledAt := at_;
            Connection.enabledBy := Some (sub actor); Connection.disabledAt := None; Connection.lastRunAt := None; Connection.updatedBy := Some (sub actor) |}]))
      | Some x =>
          modify (upd_connections (update_where (connection_where (Connection.id x))
            (fun y => let y := Connection.with_config config (sub actor) y in if Connection.enabled x then y else Connection.switched_on at_ (sub actor) y)))
      end in
  m_audit (Some (sub actor)) (if match existing with Some x => Connection.enabled x | None => false end then "integration.configured" else "integration.enabled").
Definition disable (provider : string) (actor : JwtPayload) : T unit :=
  do! lift (assertCanWrite provider actor) in
  let! existing := findFirst connections (connection_for provider) in
  match existing with
  | None => ret tt
  | Some x =>
      if negb (Connection.enabled x) then ret tt
      else
        let! at_ := at_now in
        do! modify (upd_connections (update_where (connection_where (Connection.id x)) (Connection.switched_off at_ (sub actor)))) in
        m_audit (Some (sub actor)) "integration.disabled"
  end.
Definition enabledConnection (provider : string) : T Connection.t := orThrow (findFirst connections (fun x => connection_for provider x && Connection.enabled x)) conflict.
End Connections.

(** ** The accounting export *)
Definition MAX_RANGE_DAYS : Z := 31.
Definition charge_name (c : ChargeType) : string :=
  match c with room => "room" | fnb => "fnb" | spa => "spa" | laundry => "laundry" | minibar => "minibar" | transport => "transport" | tax => "tax" | penalty => "penalty" | correction => "correction" | misc => "misc" end.
Definition method_name (m : PaymentMethod) : string :=
  match m with cash => "cash" | card => "card" | bank_transfer => "bank_transfer" | voucher => "voucher" | Db.loyalty_points => "loyalty_points" end.
Section Exporting.
Context `{DecimalLib} `{Platform} `{Collation}.
Definition on_bill_of (d : Db) (b folioId : string) : bool := existsb (fun f => bool_decide (Folio.id f = folioId) && bool_decide (Folio.branchId f = b)) (folios d).
Definition between (lo hi t : Z) : bool := (lo <=? t) && (t <? hi).
Definition exported_lines (d : Db) (b : string) (lo hi : Z) : list FolioEntry :=
  List.filter (fun l => on_bill_of d b (LineItem.folioId l) && negb (LineItem.isVoid l) && isNone (LineItem.deletedAt l) &&
                        match LineItem.serviceDate l with Some t => between lo hi t | None => false end) (lineItems d) ≫= fun l =>
  match LineItem.serviceDate l with
  | None => []
  | Some t =>
      let original := match LineItem.correctsLineItemId l with Some i => List.find (fun o => bool_decide (LineItem.id o = i)) (lineItems d) | None => None end in
      [{| fe_date := iso_date t; fe_department := charge_name (match original with Some o => LineItem.chargeType o | None => LineItem.chargeType l end); fe_amount := LineItem.amount l |}]
  end.
Definition exported_payments (k : Shop) (b tz : string) (lo hi : Z) : list Receipt :=
  (fun p => {| rc_date := localDateOf (recordedAt k (Payment.id p)) tz; rc_method := method_name (Payment.method p); rc_amount := Payment.amount p |})
  <$> List.filter (fun p => on_bill_of (hotel k) b (Payment.folioId p) && negb (Payment.isVoid p) && isNone (Payment.deletedAt p) && between lo hi (recordedAt k (Payment.id p))) (Db.payments (hotel k)).
Definition outlet_type (d : Db) (i : string) : ChargeType := match List.find (fun o => bool_decide (Outlet.id o = i)) (outlets d) with Some o => Outlet.chargeType o | None => misc end.
Definition walk_in (k : Shop) (b : string) (lo hi : Z) (o : PosOrder.t) : bool :=
  bool_decide (PosOrder.branchId o = b) && negb (bool_decide (PosOrder.settlement o = settle_room)) && isNone (PosOrder.voidedAt o) && between lo hi (soldAt k (PosOrder.id o)).
Definition sale_of (k : Shop) (tz : string) (o : PosOrder.t) : PosSale := {|
  ps_date := localDateOf (soldAt k (PosOrder.id o)) tz; ps_department := charge_name (outlet_type (hotel k) (PosOrder.outletId o)); ps_subtotal := PosOrder.subtotal o; ps_total := PosOrder.total o;
  ps_tenders := List.filter (fun t => dgt (snd t) 0%Qc) [("cash", PosOrder.cashAmount o); ("card", PosOrder.cardAmount o)] |}.
Definition journal_inputs (k : Shop) (b tz : string) (day_lo day_hi lo hi : Z) : JournalInputs := {|
  ji_folioLines := exported_lines (hotel k) b day_lo day_hi; ji_payments := exported_payments k b tz lo hi; ji_posSales := sale_of k tz <$> List.filter (walk_in k b lo hi) (posOrders (hotel k)) |}.
(** [from] and [to] are dates (the request's validator). *)
Definition build (b provider from to : string) : T (list Journal * AccountingConfig * string * Branch.t) :=
  throw! invalid when String.ltb to from in
  let! first := lift (or_throw (toBranchDate from) internal) in
  let! last := lift (or_throw (toBranchDate to) internal) in
  throw! invalid when (MAX_RANGE_DAYS <? (last - first) / DAY_MS + 1) in
  let dayAfter := last + DAY_MS in
  let! connection := enabledConnection provider in
  let! config := lift (parseAccountingConfig (Connection.config connection)) in
  let! branch := inDb (assertBranch b) in
  let! k := gets (fun k => k) in
  let tz := Branch.timezone branch in
  let inputs := journal_inputs k b tz first dayAfter (branchCutoffInstant first 0 tz) (branchCutoffInstant dayAfter 0 tz) in
  let prefix := journalPrefixFor (Branch.name branch) in
  let! journals := lift (buildJournals config inputs prefix (Branch.name branch)) in
  ret (journals, config, prefix, branch).
Record JournalPreview := { jp_journals : list Journal; jp_lineCount : Z; jp_currency : string }.
Definition preview (b provider from to : string) : T JournalPreview :=
  let! '(journals, _, _, branch) := build b provider from to in
  ret {| jp_journals := journals; jp_lineCount := Z.of_nat (length (journals ≫= j_lines)); jp_currency := Branch.currency branch |}.
Definition exportCsv (b provider from to : string) : T (string * text) :=
  let! '(journals, config, prefix, _) := build b provider from to in
  let csv := if bool_decide (provider = "xero") then toXeroCsv config journals else toQuickBooksCsv config journals in
  let name := if bool_decide (provider = "xero") then "xero-manual-journals" else "quickbooks-journal-entries" in
  let! at_ := inDb now in
  do! modify (upd_connections (update_where (connection_for provider) (Connection.with_run at_))) in
  ret (String.append name (String.append "-" (String.append prefix (String.append "-" (String.append (without_dashes from) (String.append "-" (String.append (without_dashes to) ".csv")))))), csv).
End Exporting.

(** ** The sweep that asks for reviews *)
Section Sweep.
Context `{StringToNumber} `{UrlParser}.
Definition REVIEW_BATCH : nat := 200.
Definition asked (d : Db) (i : string) : bool := existsb (fun m => bool_decide (CommunicationLog.reservationId m = Some i) && bool_decide (CommunicationLog.trigger m = REVIEW_REQUEST_TRIGGER)) (communicationLogs d).
Definition may_be_asked (g : GuestProfile.t) : bool := isNone (GuestProfile.deletedAt g) && isSome (GuestProfile.email g) && isNone (GuestProfile.marketingUnsubscribedAt g).
Definition guest_of (d : Db) (r : Reservation.t) : option GuestProfile.t := List.find (guest_where (Reservation.guestId r)) (guests d).
Definition due_review (d : Db) (branches_ : list string) (from to : Z) (r : Reservation.t) : bool :=
  includes (Reservation.branchId r) branches_ && bool_decide (Reservation.status r = checked_out) && isNone (Reservation.deletedAt r) &&
  match Reservation.actualCheckOut r with Some t => (from <=? t) && (t <=? to) | None => false end &&
  match guest_of d r with Some g => may_be_asked g | None => false end && negb (asked d (Reservation.id r)).
Definition review_message (c : ReviewRequestConfig) (d : Db) (hotels : list Branch.t) (r : Reservation.t) : CommunicationLog.t :=
  let hotelName := match List.find (fun b => bool_decide (Branch.id b = Reservation.branchId r)) hotels with Some b => Branch.name b | None => "" end in
  let guestName := match guest_of d r with Some g => GuestProfile.name g | None => "" end in
  let '(subject, body) := renderReviewRequest c guestName hotelName (chars (default "" (keyed (Reservation.branchId r) (links c)))) in {|
  CommunicationLog.branchId := Reservation.branchId r; CommunicationLog.reservationId := Some (Reservation.id r); CommunicationLog.guestId := Reservation.guestId r; CommunicationLog.channel := by_email;
  CommunicationLog.subject := Some (written (String.string_of_list_ascii subject)); CommunicationLog.body := written (String.string_of_list_ascii body); CommunicationLog.trigger := REVIEW_REQUEST_TRIGGER;
  CommunicationLog.direction := outbound; CommunicationLog.readAt := None; CommunicationLog.deliveryStatus := msg_queued; CommunicationLog.sentBy := None; CommunicationLog.sentAt := clock d |}.
Definition sendDueForTenant : T Z :=
  let! connection := findFirst connections (fun x => connection_for "review_requests" x && Connection.enabled x) in
  match connection with
  | None => ret 0
  | Some x =>
      let! l := live_branches in
      let! c := lift (parseReviewRequestConfig (Connection.config x) (Branch.id <$> l)) in
      let! at_ := at_now in
      let '(from, to) := reviewWindow at_ (Connection.enabledAt x) (delayHours c) in
      if to <=? from then ret 0
      else
        let! found := inDb (gets (fun d => List.filter (due_review d (fst <$> links c) from to) (reservations d))) in
        let due := take REVIEW_BATCH (sort_by (fun r => default 0 (Reservation.actualCheckOut r)) found) in
        do! for_each due tt (fun _ r => let! d := gets hotel in let! _ := inDb (create_message (review_message c d l r)) in ret tt) in
        do! (if bool_decide (0 < length due)%nat then modify (upd_connections (update_where (connection_where (Connection.id x)) (Connection.with_run at_))) else ret tt) in
        ret (Z.of_nat (length due))
  end.
Definition preview_review (b : string) : T (text * text * option string) :=
  let! branch := inDb (assertBranch b) in
  let! x := enabledConnection "review_requests" in
  let! l := live_branches in
  let! c := lift (parseReviewRequestConfig (Connection.config x) (Branch.id <$> l)) in
  let url := keyed b (links c) in
  let '(subject, body) := renderReviewRequest c "Kemi Adeyemi" (Branch.name branch) (match url with Some u => chars u | None => chars "(no review page set for this property)" end) in
  ret (subject, body, url).
End Sweep.
