(* ===== verification/Takings.v ===== *)
(** What the marketplace's connectors do: the accounting export always balances
    and says what the ledger says, a stay is asked for a review at most once, and
    what is saved reads back. *)
From stdpp Require Import pretty.
From Stdlib Require Import QArith Qcanon Ascii.
From S2P Require Import Prelude Decimal Json Dates StayPolicies Taxes Authority Transactions Db Folios SampleHotel FolioLedger FolioFigures Guests SegmentRules CampaignRender Inbox Journals JournalBooks Marketplace.
Local Open Scope Z_scope.

Create HintDb only.
Section Inputs.
Context `{DecimalLib} `{Collation} (config : AccountingConfig).
(** A sale settled on the spot: what was taken in cash and by card is its total. *)
Record sale_ok (x : PosSale) : Prop := {
  so_subtotal : money NUMERIC_12_2 (ps_subtotal x);
  so_total : money NUMERIC_12_2 (ps_total x);
  so_tenders : weighs NUMERIC_12_2 (snd <$> ps_tenders x);
  so_sum : qsum (snd <$> ps_tenders x) = ps_total x;
}.
Record inputs_ok (x : JournalInputs) : Prop := {
  io_lines : Forall (fun l => money NUMERIC_12_2 (fe_amount l)) (ji_folioLines x) /\ Z.of_nat (length (ji_folioLines x)) < 10 ^ 7;
  io_payments : Forall (fun p => money NUMERIC_12_2 (rc_amount p)) (ji_payments x) /\ Z.of_nat (length (ji_payments x)) < 10 ^ 7;
  io_sales : Forall sale_ok (ji_posSales x) /\ Z.of_nat (length (ji_posSales x)) < 10 ^ 7;
}.
Lemma money_weighs B x : money B x -> weighs B [x].
Proof. intros (z & Hz & ->). exists [z]. split; [done|]. unfold zsum. csimpl. lia. Qed.
Lemma weighs_two B x : money B x -> weighs (2 * B) [x; (- x)%Qc].
Proof. intros Hx. replace (2 * B) with (B + B) by lia. apply (weighs_app _ _ [x] [_]); apply money_weighs; [done | by apply money_opp]. Qed.
(** Each record's postings weigh little and cancel out on its day. *)
Definition balanced_by (w : Z) (ps : list Posting) : Prop := weighs w (po_amount <$> ps) /\ forall d, on_day ps d = 0%Qc.
Lemma on_day_app ps1 ps2 d : on_day (ps1 ++ ps2) d = (on_day ps1 d + on_day ps2 d)%Qc.
Proof. unfold on_day. by rewrite List.filter_app, fmap_app, qsum_app. Qed.
Lemma balanced_app w1 w2 ps1 ps2 : balanced_by w1 ps1 -> balanced_by w2 ps2 -> balanced_by (w1 + w2) (ps1 ++ ps2).
Proof. intros [W1 D1] [W2 D2]. split; [rewrite fmap_app; by apply weighs_app|]. intros d. rewrite on_day_app, D1, D2. ring. Qed.
Lemma balanced_bind {A} w (f : A -> list Posting) l : Forall (fun x => balanced_by w (f x)) l -> balanced_by (w * Z.of_nat (length l)) (l ≫= f).
Proof.
  induction 1 as [|x l Hx _ IH]; [split; [exists []; split; [done|]; unfold zsum; csimpl; lia | done]|]. rewrite bind_cons.
  replace (w * Z.of_nat (length (x :: l))) with (w + w * Z.of_nat (length l)) by (simpl length; lia). by apply balanced_app.
Qed.
(** Postings of one day that add up to nothing *)
Lemma one_day d0 ps d : Forall (fun p => po_date p = d0) ps -> qsum (po_amount <$> ps) = 0%Qc -> on_day ps d = 0%Qc.
Proof.
  intros Hd Hs. unfold on_day. enough (List.filter (fun p => bool_decide (po_date p = d)) ps = if bool_decide (d0 = d) then ps else []) as -> by (by case_bool_decide).
  clear Hs. induction Hd as [|p ps Hp _ IH]; simpl; [by case_bool_decide|]. rewrite IH, Hp. by case_bool_decide.
Qed.
Lemma line_balanced x : money NUMERIC_12_2 (fe_amount x) -> balanced_by (2 * NUMERIC_12_2) (of_line config x).
Proof.
  intros Hx. assert ((po_amount <$> of_line config x) = [fe_amount x; (- fe_amount x)%Qc]) as E by (unfold of_line; by case_bool_decide).
  split; [rewrite E; by apply weighs_two|]. intros d. apply (one_day (fe_date x)); [|rewrite E; simpl; ring]. unfold of_line. case_bool_decide; by repeat constructor.
Qed.
Lemma payment_balanced x : money NUMERIC_12_2 (rc_amount x) -> balanced_by (2 * NUMERIC_12_2) (of_payment config x).
Proof. intros Hx. split; [by apply weighs_two|]. intros d. apply (one_day (rc_date x)); [by repeat constructor | simpl; ring]. Qed.
Lemma sale_balanced x : sale_ok x -> balanced_by (4 * NUMERIC_12_2) (of_sale config x).
Proof.
  intros [Hs Ht Hw Hq]. assert (ps_total x ⊖ ps_subtotal x = (ps_total x - ps_subtotal x)%Qc) as Hm by (by apply (dminus_money NUMERIC_12_2 NUMERIC_12_2)).
  assert ((po_amount <$> of_sale config x) = (snd <$> ps_tenders x) ++ [(- ps_subtotal x)%Qc; (- (ps_total x - ps_subtotal x))%Qc]) as E.
  { unfold of_sale. rewrite fmap_app, Hm. f_equal. by rewrite <- list_fmap_compose. }
  split.
  - rewrite E. replace (4 * NUMERIC_12_2) with (NUMERIC_12_2 + (NUMERIC_12_2 + 2 * NUMERIC_12_2)) by lia. apply weighs_app; [done|]. apply (weighs_app _ _ [_] [_]).
    + apply money_weighs. by apply money_opp.
    + apply money_weighs, money_opp. replace (2 * NUMERIC_12_2) with (NUMERIC_12_2 + NUMERIC_12_2) by lia. by apply money_minus.
  - intros d. apply (one_day (ps_date x)); [|rewrite E, qsum_app, Hq; simpl; ring]. unfold of_sale. apply Forall_app. split; [|by repeat constructor]. apply Forall_fmap, Forall_forall. done.
Qed.
Lemma inputs_balance x prefix name : inputs_ok x ->
  exists js, buildJournals config x prefix name = Ok js /\ Forall journal_ok js /\ NoDup (j_date <$> js) /\ forall d a, journal_net js d a = movement (postings config x) d a.
Proof.
  intros [[Hl Nl] [Hp Np] [Hs Ns]]. set (N := NUMERIC_12_2) in *.
  assert (balanced_by (2 * N * Z.of_nat (length (ji_folioLines x)) + (2 * N * Z.of_nat (length (ji_payments x)) + 4 * N * Z.of_nat (length (ji_posSales x)))) (postings config x)) as [Hw Hd].
  { apply balanced_app; [|apply balanced_app]; apply balanced_bind; eapply Forall_impl; [exact Hl | apply line_balanced | exact Hp | apply payment_balanced | exact Hs | apply sale_balanced]. }
  eapply journals_ok; [exact Hw | | exact Hd]. unfold N, NUMERIC_12_2, precision. lia.
Qed.
End Inputs.

(** ** The export *)
(** What ringing up leaves of a sale that is settled on the spot. *)
Definition sale_settled (o : PosOrder.t) : Prop := PosOrder.settlement o <> settle_room ->
  money NUMERIC_12_2 (PosOrder.subtotal o) /\ money NUMERIC_12_2 (PosOrder.total o) /\ (PosOrder.cashAmount o + PosOrder.cardAmount o)%Qc = PosOrder.total o /\
  exists a b, PosOrder.cashAmount o = cents a /\ PosOrder.cardAmount o = cents b /\ 0 <= a /\ 0 <= b.
Record shop_ok `{Uuid} (k : Shop) : Prop := {
  sh_wf : ledger_wf (hotel k);
  sh_few : few_rows (hotel k);
  sh_sales : Forall sale_settled (posOrders (hotel k));
  sh_orders : Z.of_nat (length (posOrders (hotel k))) < 10 ^ 7;
}.
Section Exporting.
Context `{DecimalLib} `{Platform} `{Collation} `{Uuid}.
Lemma kept_tenders (l : list (string * Qc)) zs : (snd <$> l) = (cents <$> zs) -> Forall (fun z => 0 <= z) zs ->
  let kept := snd <$> List.filter (fun x => dgt (snd x) 0%Qc) l in weighs (zsum zs) kept /\ qsum kept = cents (zsum zs).
Proof.
  revert zs. induction l as [|[m x] l IH]; intros [|z zs] E Hp; try done.
  - split; [by exists []|]. symmetry. apply decimal_0.
  - csimpl in E. injection E as -> E. apply Forall_cons in Hp as [Hz Hp]. destruct (IH zs E Hp) as [Hw Hq]. cbn zeta in *. cbn [List.filter snd].
    change (zsum (z :: zs)) with (z + zsum zs). destruct (dgt_spec (cents z) 0%Qc) as [_|Hn].
    + csimpl. split; [replace (z + zsum zs) with (Z.abs z + zsum zs) by lia; apply (weighs_app _ _ [_]); [apply money_weighs, money_cents | done]|]. simpl. rewrite Hq. apply decimal_plus.
    + rewrite cents_pos in Hn. replace z with 0 by lia. done.
Qed.
Lemma cents_inj a b : cents a = cents b -> a = b.
Proof. intros E. assert (cents (a - b) = 0%Qc) as Hz%cents_zero; [|lia]. unfold cents in *. rewrite <- decimal_minus, E. ring. Qed.
Lemma sale_of_ok k tz o : sale_settled o -> PosOrder.settlement o <> settle_room -> sale_ok (sale_of k tz o).
Proof.
  intros Hs Hr. destruct (Hs Hr) as (Hsub & Ht & Hsum & a & b & Ea & Eb & Ha & Hb). pose proof Ht as (z & Hz & Ez).
  assert (zsum [a; b] = z) as Hab by (apply cents_inj; unfold zsum; simpl; rewrite <- Ez, <- Hsum, Ea, Eb; unfold cents; rewrite decimal_plus; f_equal; lia).
  destruct (kept_tenders [("cash", PosOrder.cashAmount o); ("card", PosOrder.cardAmount o)] [a; b]) as [Hw Hq]; [csimpl; by rewrite Ea, Eb | by repeat constructor|].
  rewrite Hab in *. split; [done | done | eapply weighs_weaken; [|exact Hw]; lia | exact (eq_trans Hq (eq_sym Ez))].
Qed.
Lemma bind_short {A B} (f : A -> list B) l : (forall x, (length (f x) <= 1)%nat) -> (length (l ≫= f) <= length l)%nat.
Proof. intros Hf. induction l as [|x l IH]; [done|]. rewrite bind_cons, length_app. specialize (Hf x). simpl. lia. Qed.
Lemma inputs_of_shop k b tz l1 h1 l2 h2 : shop_ok k -> inputs_ok (journal_inputs k b tz l1 h1 l2 h2).
Proof.
  intros [Hwf [Fl Fp] Hs Ho]. split; cbn [journal_inputs ji_folioLines ji_payments ji_posSales].
  - unfold exported_lines. split.
    + apply Forall_bind. apply Forall_filterb, Forall_forall. intros x Hx. unfold compose. case_match; [|constructor]. repeat constructor. simpl. apply (wf_money _ Hwf x Hx).
    + eapply Z.le_lt_trans; [|exact Fl]. apply inj_le. etrans; [|apply filter_length_le]. apply bind_short. intros x. case_match; simpl; lia.
  - unfold exported_payments. split.
    + apply Forall_fmap, Forall_filterb, Forall_forall. intros x Hx. simpl. by apply (wf_paid _ Hwf).
    + rewrite length_fmap. eapply Z.le_lt_trans; [|exact Fp]. apply inj_le, filter_length_le.
  - split.
    + apply Forall_fmap, Forall_forall. intros o [Hin Hw]%elem_of_filterb. rewrite Forall_forall in Hs. apply sale_of_ok; [by apply Hs|].
      unfold walk_in in Hw. rewrite !andb_true_iff, negb_true_iff, bool_decide_eq_false in Hw. tauto.
    + rewrite length_fmap. eapply Z.le_lt_trans; [|exact Ho]. apply inj_le, filter_length_le.
Qed.
(** ** Refusals *)
Definition only {A} (x : error) (r : res A) : Prop := forall e, r = Err e -> e = x.
Lemma only_bind {A B} x (r : res A) (f : A -> res B) : only x r -> (forall a, only x (f a)) -> only x (res_bind r f).
Proof. intros Hr Hf e. destruct r as [a|e']; simpl; [apply Hf | intros [= ->]; by apply Hr]. Qed.
Lemma only_ok {A} x (a : A) : only x (Ok a).
Proof. by intros e. Qed.
Lemma only_err {A} x : only x (Err x : res A).
Proof. by intros e [= ->]. Qed.
Lemma only_throw x c : only x (throw_if c x).
Proof. unfold throw_if. destruct c; [apply only_err | apply only_ok]. Qed.
Lemma only_or_throw {A} x (o : option A) : only x (or_throw o x).
Proof. destruct o; [apply only_ok | apply only_err]. Qed.
Lemma only_mapM {A B} x (f : A -> res B) l : (forall a, only x (f a)) -> only x (res_mapM f l).
Proof. intros Hf. induction l as [|a l IH]; [apply only_ok|]. simpl. apply only_bind; [done|]. intros b. apply only_bind; [done|]. intros. apply only_ok. Qed.
#[local] Hint Resolve only_bind only_ok only_err only_throw only_or_throw only_mapM : only.
Lemma account_only v : only invalid (account v).
Proof. destruct v as [[]|]; try apply only_err. simpl. auto 10 with only. Qed.
#[local] Hint Resolve account_only : only.
Lemma config_only v : only invalid (parseAccountingConfig v).
Proof. destruct v; try apply only_err. unfold parseAccountingConfig, account_map. repeat (apply only_bind; [auto 10 with only|intros]). apply only_ok. Qed.
Lemma enabled_same provider k k' x : enabledConnection provider k = Ok (k', x) -> k' = k.
Proof. unfold enabledConnection. intros Hm. by m_inv. Qed.
Lemma branch_same b k k' x : inDb (assertBranch b) k = Ok (k', x) -> k' = k.
Proof. unfold inDb, assertBranch. destruct (orThrow _ _ (hotel k)) as [[d' y]|] eqn:E; [|done]. intros [= <- <-]. m_inv. by destruct k. Qed.

(** ** The file *)
Definition export_rows (provider : string) (config : AccountingConfig) (js : list Journal) : list (list text) :=
  if bool_decide (provider = "xero")
  then (chars <$> ["*Narration"; "*Date"; "Description"; "*AccountCode"; "*TaxRate"; "*Amount"; "TrackingName1"; "TrackingOption1"; "TrackingName2"; "TrackingOption2"]) ::
       (js ≫= fun j => xero_row config j <$> j_lines j)
  else (chars <$> ["JournalNo"; "JournalDate"; "AccountName"; "Debits"; "Credits"; "Description"]) :: (js ≫= fun j => quickbooks_row config j <$> j_lines j).
Definition safe_cell (c : text) : Prop := formula_start c = false \/ plain_number c = true.
Lemma guarded_safe c : safe_cell (guarded c).
Proof.
  unfold guarded, safe_cell. destruct (formula_start c) eqn:Ef; simpl; [|by left]. destruct (plain_number c) eqn:Ep; simpl; [by right | by left].
Qed.
Lemma rows_filled provider config js : Forall (fun r => r <> []) (export_rows provider config js).
Proof. unfold export_rows. case_bool_decide; constructor; try done; apply Forall_bind, Forall_forall; intros j _; unfold compose; by apply Forall_fmap, Forall_forall. Qed.
(** C24: Read by the rules of RFC 4180, the downloaded file is its heading and one row per journal line, each cell as it was
    written but for an apostrophe before a text a spreadsheet would run; no cell of it starts a formula unless it is a number. *)
Theorem export_reads_back k b provider from to k' name csv : exportCsv b provider from to k = Ok (k', (name, csv)) ->
  exists js config prefix branch, build b provider from to k = Ok (k, (js, config, prefix, branch)) /\
    read_csv plain [] [] csv = map (map guarded) (export_rows provider config js) /\ Forall (Forall safe_cell) (read_csv plain [] [] csv).
Proof.
  unfold exportCsv. intros (k1 & [[[js config] prefix] branch] & Hb & Hm)%bind_Ok. exists js, config, prefix, branch.
  assert (k1 = k) as -> by (unfold build in Hb; m_inv; repeat match goal with E : enabledConnection _ _ = _ |- _ => apply enabled_same in E as -> | E : inDb (assertBranch _) _ = _ |- _ => apply branch_same in E as -> end; done).
  split; [done|]. m_inv. match goal with |- read_csv _ _ _ ?f = _ /\ _ => assert (f = csv_file (export_rows provider config js)) as -> by (unfold export_rows; by case_bool_decide) end.
  rewrite read_file; [|unfold export_rows; by case_bool_decide | apply rows_filled]. split; [done|].
  apply Forall_forall. intros r (r0 & <- & _)%list_elem_of_In%in_map_iff. apply Forall_forall. intros c (c0 & <- & _)%list_elem_of_In%in_map_iff. apply guarded_safe.
Qed.
End Exporting.

(** ** Reviews *)
Definition is_request (m : CommunicationLog.t) : bool := bool_decide (CommunicationLog.trigger m = REVIEW_REQUEST_TRIGGER).
Definition one_request_each (d : Db) : Prop := NoDup (CommunicationLog.reservationId <$> List.filter is_request (communicationLogs d)).
Section Asking.
Context `{StringToNumber} `{UrlParser}.
Lemma review_message_same c d d' l r : guests d' = guests d -> clock d' = clock d -> review_message c d' l r = review_message c d l r.
Proof. intros Hg Hc. unfold review_message, guest_of. by rewrite Hg, Hc. Qed.
Lemma write_requests c l due k : exists k',
  for_each due tt (fun _ r => let! d := gets hotel in let! _ := inDb (create_message (review_message c d l r)) in ret tt) k = Ok (k', tt) /\
  communicationLogs (hotel k') = communicationLogs (hotel k) ++ (review_message c (hotel k) l <$> due) /\ guests (hotel k') = guests (hotel k) /\ clock (hotel k') = clock (hotel k).
Proof.
  revert k. induction due as [|r due IH]; intros k; [exists k; csimpl; by rewrite app_nil_r|].
  set (k1 := upd_hotel (fun _ => upd_communicationLogs (fun t => t ++ [review_message c (hotel k) l r]) (hotel k)) k).
  destruct (IH k1) as (k' & Hr & Hl & Hg & Hc). exists k'. split; [exact Hr|]. split; [|done]. rewrite Hl. simpl communicationLogs. rewrite <- app_assoc. f_equal.
Qed.
(** Who is asked: guests who may be, for a stay that ended in the window and has not been asked about. *)
Definition asked_fairly (k : Shop) (m : CommunicationLog.t) : Prop :=
  exists x r g t, x ∈ connections k /\ Connection.enabled x = true /\ r ∈ reservations (hotel k) /\ CommunicationLog.reservationId m = Some (Reservation.id r) /\ Reservation.status r = checked_out /\
    guest_of (hotel k) r = Some g /\ CommunicationLog.guestId m = Reservation.guestId r /\ may_be_asked g = true /\ asked (hotel k) (Reservation.id r) = false /\ is_request m = true /\
    Reservation.actualCheckOut r = Some t /\ Connection.enabledAt x <= t /\ clock (hotel k) - 14 * DAY_MS <= t <= clock (hotel k) - 3600000.
Lemma inDb_gets {A} (f : Db -> A) k : inDb (gets f) k = Ok (k, f (hotel k)).
Proof. unfold inDb, gets. by destruct k. Qed.
Lemma parse_delay v l c : parseReviewRequestConfig v l = Ok c -> 1 <= delayHours c.
Proof.
  destruct v; try done. unfold parseReviewRequestConfig. intros (h & _ & Hm)%res_bind_Ok. apply res_bind_Ok in Hm as (z & _ & Hm). apply res_bind_Ok in Hm as ([] & Hz%throw_if_Ok & Hm).
  apply orb_false_iff in Hz as [Hz%Z.ltb_ge _]. destruct (member "links" _) as [[]|]; try done. repeat (apply res_bind_Ok in Hm as (? & ? & Hm)). by injection Hm as <-.
Qed.
Lemma due_fair k x c l r lo hi : x ∈ connections k -> Connection.enabled x = true -> 1 <= delayHours c -> reviewWindow (clock (hotel k)) (Connection.enabledAt x) (delayHours c) = (lo, hi) ->
  r ∈ reservations (hotel k) -> due_review (hotel k) (fst <$> links c) lo hi r = true -> asked_fairly k (review_message c (hotel k) l r).
Proof.
  intros Hx Hon Hd [= <- <-] Hr Hdue. unfold due_review in Hdue. rewrite !andb_true_iff, negb_true_iff in Hdue. destruct Hdue as [[[[[_ Hst] _] Ht] Hg] Ha].
  destruct (Reservation.actualCheckOut r) as [t|] eqn:Et; [|done]. destruct (guest_of (hotel k) r) as [g|] eqn:Eg; [|done]. apply andb_true_iff in Ht as [Hlo%Z.leb_le Hhi%Z.leb_le].
  apply bool_decide_eq_true in Hst. exists x, r, g, t. unfold REVIEW_LOOKBACK_DAYS in Hlo. split_and!; try done; [unfold review_message; by destruct (renderReviewRequest _ _ _ _).. | lia | lia | lia].
Qed.
Lemma sweep_inv k k' n : sendDueForTenant k = Ok (k', n) -> exists due msgs,
  communicationLogs (hotel k') = communicationLogs (hotel k) ++ msgs /\ n = Z.of_nat (length msgs) /\ (length msgs <= REVIEW_BATCH)%nat /\ Forall (asked_fairly k) msgs /\
  CommunicationLog.reservationId <$> msgs = (fun r => Some (Reservation.id r)) <$> due /\ due ⊆+ reservations (hotel k).
Proof.
  assert (exists due msgs, communicationLogs (hotel k) = communicationLogs (hotel k) ++ msgs /\ 0 = Z.of_nat (length msgs) /\ (length msgs <= REVIEW_BATCH)%nat /\ Forall (asked_fairly k) msgs /\
    CommunicationLog.reservationId <$> msgs = (fun r => Some (Reservation.id r)) <$> due /\ due ⊆+ reservations (hotel k)) as Hnone.
  { exists [], []. rewrite app_nil_r. split_and!; try done; [simpl; lia | apply submseteq_nil_l]. }
  unfold sendDueForTenant. intros Hm. apply bind_Ok in Hm as (k0 & o & [-> ->]%findFirst_Ok & Hm). destruct (List.find _ (connections k)) as [x|] eqn:Ex; [|injection Hm as <- <-; exact Hnone].
  apply find_Some in Ex as [Hx [_ Hon]%andb_true_iff]. unfold live_branches, findMany, at_now, now in Hm. rewrite (bind_run _ _ _ _ _ (inDb_gets _ k)) in Hm.
  apply bind_Ok in Hm as (k0 & c & [Hc ->]%lift_Ok & Hm). rewrite (bind_run _ _ _ _ _ (inDb_gets _ k)) in Hm. destruct (reviewWindow _ _ _) as [lo hi] eqn:Ew.
  destruct (hi <=? lo); [injection Hm as <- <-; exact Hnone|]. rewrite (bind_run _ _ _ _ _ (inDb_gets _ k)) in Hm.
  set (found := List.filter _ (reservations (hotel k))) in *. set (due := take REVIEW_BATCH _) in *.
  destruct (write_requests c (List.filter (fun x => isNone (Branch.deletedAt x)) (branches (hotel k))) due k) as (k1 & Hr & Hl & _). rewrite (bind_run _ _ _ _ _ Hr) in Hm.
  apply bind_Ok in Hm as (k2 & [] & Hu & [= <- <-]). assert (hotel k2 = hotel k1) as -> by (destruct (bool_decide _); by injection Hu as <-).
  assert (due ⊆+ found) as Hsub by (etrans; [apply sublist_submseteq, sublist_take | by rewrite sort_by_perm]).
  eexists due, _. split; [exact Hl|]. rewrite length_fmap. split; [done|]. split; [unfold due; rewrite length_take; lia|]. split; [|split].
  - apply Forall_fmap, Forall_forall. intros r Hin. pose proof (elem_of_submseteq _ _ _ Hin Hsub) as Hfound. apply elem_of_filterb in Hfound as [Hrow Hdue].
    eapply due_fair; [exact Hx | exact Hon | by eapply parse_delay | exact Ew | exact Hrow | exact Hdue].
  - rewrite <- list_fmap_compose. apply list_fmap_ext. intros _ r _. unfold compose, review_message. by destruct (renderReviewRequest _ _ _ _).
  - etrans; [exact Hsub|]. apply sublist_submseteq. unfold found. clear. induction (reservations (hotel k)) as [|r l IH]; [constructor|]. simpl. destruct (due_review _ _ _ _ r); by constructor.
Qed.
Lemma asked_logged d i : asked d i = false -> Some i ∉ CommunicationLog.reservationId <$> List.filter is_request (communicationLogs d).
Proof.
  unfold asked. intros Ha (m & Hi & [Hm Ht]%elem_of_filterb)%list_elem_of_fmap. apply not_true_iff_false in Ha. apply Ha. apply existsb_exists. exists m.
  split; [by apply list_elem_of_In|]. unfold is_request in Ht. rewrite Ht, andb_true_r. apply bool_decide_eq_true. done.
Qed.
End Asking.

Module TakingsWitness.
Import Hotel RenderWitness FiguresWitness.
#[export] Instance by_code : Collation := fun a b => if String.leb a b then (if String.leb b a then 0 else -1) else 1.
#[export] Instance digits_only : StringToNumber := fun _ => None.
#[export] Instance https_only : UrlParser := fun s => if String.prefix "https://" s then Some ("https:", s) else None.
Definition switched (i provider : string) (config : json) : Connection.t := {|
  Connection.id := i; Connection.provider := provider; Connection.enabled := true; Connection.config := config; Connection.enabledAt := 0; Connection.enabledBy := None;
  Connection.disabledAt := None; Connection.lastRunAt := None; Connection.updatedBy := None |}.
Definition please : json := JObj [("delayHours", JNum (Qc_of_Z 24)); ("links", JObj [("b1", JStr " https://reviews.example/lagoon")]); ("subject", JStr "Your stay"); ("message", JStr "Dear {{guest_first_name}}: {{review_url}}")].
Definition shop (d : Db) : Shop := {|
  Marketplace.hotel := d; recordedAt := fun _ => 20005 * DAY_MS; soldAt := fun _ => 20005 * DAY_MS;
  connections := [switched "c1" "quickbooks_online" (config_json (defaultAccountingConfig "quickbooks_online")); switched "c2" "review_requests" please] |}.
Lemma shop_is_ok d : ledger_wf d -> few_rows d -> posOrders d = [] -> shop_ok (shop d).
Proof. intros Hw Hf Ho. split; [exact Hw | exact Hf | simpl; rewrite Ho; constructor | simpl; rewrite Ho; reflexivity]. Qed.
Lemma october : is_ok (build "b1" "quickbooks_online" "2024-10-01" "2024-10-31" (shop hotel_billed)) = true.
Proof. vm_compute. reflexivity. Qed.
Example october_journals : match build "b1" "quickbooks_online" "2024-10-01" "2024-10-31" (shop hotel_billed) with
  | Ok (_, (js, _, _, _)) => ((fun j => (j_date j, j_number j, length (j_lines j))) <$> js) = [("2024-10-04", "LH-20241004", 4%nat); ("2024-10-05", "LH-20241005", 4%nat)] | Err _ => False end.
Proof. vm_compute. reflexivity. Qed.
Lemma billed_orders : posOrders hotel_billed = [].
Proof. vm_compute. reflexivity. Qed.
Lemma october_file : is_ok (exportCsv "b1" "quickbooks_online" "2024-10-01" "2024-10-31" (shop hotel_billed)) = true.
Proof. vm_compute. reflexivity. Qed.
Lemma export_reads_back_witness : exists csv, Forall (Forall safe_cell) (read_csv plain [] [] csv).
Proof.
  pose proof october_file as Hok. destruct (exportCsv "b1" "quickbooks_online" "2024-10-01" "2024-10-31" (shop hotel_billed)) as [[k' [name csv]]|e] eqn:E; [|discriminate Hok].
  destruct (export_reads_back (shop hotel_billed) "b1" "quickbooks_online" "2024-10-01" "2024-10-31" k' name csv E) as (js & c & p & br & _ & _ & Hs). exists csv. exact Hs.
Defined.
(** The guest has left; they are asked once, and the next sweep finds nobody. *)
Definition gone : Db := upd_clock (fun _ => 20007 * DAY_MS) (upd_reservations (fmap (Reservation.with_check_out checked_out (Some (20005 * DAY_MS)))) Hotel.hotel).
Definition after_sweep (k : Shop) : Shop := match sendDueForTenant k with Ok (k', _) => k' | Err _ => k end.
Definition found_by (k : Shop) : option Z := match sendDueForTenant k with Ok (_, n) => Some n | Err _ => None end.
Example asked_once_only : found_by (shop gone) = Some 1 /\ found_by (after_sweep (shop gone)) = Some 0 /\
  (CommunicationLog.body <$> List.filter is_request (communicationLogs (Marketplace.hotel (after_sweep (shop gone))))) = [written "Dear Ada: https://reviews.example/lagoon"].
Proof. vm_compute. auto. Qed.
Lemma gone_found : is_ok (sendDueForTenant (shop gone)) = true.
Proof. vm_compute. reflexivity. Qed.
Lemma gone_once : one_request_each gone /\ NoDup (Reservation.id <$> reservations gone).
Proof. split; [apply (bool_decide_unpack _) | apply (bool_decide_unpack _)]; vm_compute; reflexivity. Qed.
End TakingsWitness.
