(* ===== verification/WebhookHttp.v ===== *)
(** Where a webhook may be sent (src/src/modules/integrations/webhook-http.ts): the
    private ranges, the addresses a server must never be made to call, the address a
    customer types in, and the connection itself. Of Node.js: [isIP] and the reading
    of an address, and [BlockList] as a list of prefixes; an IPv6 address with a zone
    is left out. [new URL] and the resolver are parameters; the words of an error are
    left out. *)
From Stdlib Require Import Ascii.
From S2P Require Import Prelude CampaignRender.
Local Open Scope Z_scope.

(** ** Reading addresses *)
Definition COLON : Ascii.ascii := ascii_of_nat 58.
Definition DOT : Ascii.ascii := ascii_of_nat 46.
(** [text.split(c)] *)
Fixpoint split_at (c : Ascii.ascii) (s : text) : list text :=
  match s with
  | [] => [[]]
  | d :: s => if bool_decide (d = c) then [] :: split_at c s else match split_at c s with x :: l => (d :: x) :: l | [] => [[d]] end
  end.
(** [text.split('::')] *)
Fixpoint split_double (s : text) : list text :=
  match s with
  | [] => [[]]
  | [d] => [[d]]
  | d :: (e :: s') as rest => if bool_decide (d = COLON) && bool_decide (e = COLON) then [] :: split_double s' else match split_double rest with x :: l => (d :: x) :: l | [] => [[d]] end
  end.
Definition digit (c : Ascii.ascii) : option Z := let n := Z.of_nat (nat_of_ascii c) in if (48 <=? n) && (n <=? 57) then Some (n - 48) else None.
Definition hex_value (c : Ascii.ascii) : option Z :=
  let n := Z.of_nat (nat_of_ascii c) in
  if (48 <=? n) && (n <=? 57) then Some (n - 48) else if (97 <=? n) && (n <=? 102) then Some (n - 87) else if (65 <=? n) && (n <=? 70) then Some (n - 55) else None.
Definition number (base : Z) (l : list Z) : Z := foldl (fun acc d => acc * base + d) 0 l.
(** [\d{1,3}] and [[0-9a-f]{1,4}], whole, with what they stand for *)
Definition short_number (s : text) : option Z := if bool_decide (1 <= length s <= 3)%nat then number 10 <$> mapM digit s else None.
Definition hex_group (s : text) : option Z := if bool_decide (1 <= length s <= 4)%nat then number 16 <$> mapM hex_value s else None.
(** An octet as [isIP] takes it: no leading zero *)
Definition octet (s : text) : option Z :=
  n ← short_number s; if (n <=? 255) && (bool_decide (length s = 1%nat) || negb (bool_decide (head s = Some (ascii_of_nat 48)))) then Some n else None.
Definition quad_of (f : text -> option Z) (s : text) : option (Z * Z * Z * Z) :=
  match split_at DOT s with [a; b; c; d] => a ← f a; b ← f b; c ← f c; d ← f d; Some (a, b, c, d) | _ => None end.
Definition parse_v4 : text -> option (Z * Z * Z * Z) := quad_of octet.
(** The groups of a part of an IPv6 address, the last of which may be a dotted quad *)
Definition segments (s : text) : list text := if bool_decide (s = []) then [] else split_at COLON s.
Fixpoint groups_of (last_ : bool) (l : list text) : option (list Z) :=
  match l with
  | [] => Some []
  | [s] => match hex_group s with
           | Some g => Some [g]
           | None => if last_ then '(a, b, c, d) ← parse_v4 s; Some [a * 256 + b; c * 256 + d] else None
           end
  | s :: l => g ← hex_group s; r ← groups_of last_ l; Some (g :: r)
  end.
Definition parse_v6 (s : text) : option (list Z) :=
  match split_double s with
  | [h] => g ← groups_of true (segments h); if bool_decide (length g = 8%nat) then Some g else None
  | [h; t] => g ← groups_of false (segments h); r ← groups_of true (segments t);
              if bool_decide (length g + length r <= 7)%nat then Some (g ++ replicate (8 - length g - length r) 0 ++ r) else None
  | _ => None
  end.
Definition isIP (s : text) : Z := if isSome (parse_v4 s) then 4 else if isSome (parse_v6 s) then 6 else 0.

(** ** Private addresses *)
Definition V4_RANGES : list (Z * Z * Z * Z * Z) :=
  [(0, 0, 0, 0, 8); (10, 0, 0, 0, 8); (100, 64, 0, 0, 10); (127, 0, 0, 0, 8); (169, 254, 0, 0, 16); (172, 16, 0, 0, 12); (192, 0, 0, 0, 24); (192, 0, 2, 0, 24); (192, 168, 0, 0, 16);
   (198, 18, 0, 0, 15); (198, 51, 100, 0, 24); (203, 0, 113, 0, 24); (224, 0, 0, 0, 4); (240, 0, 0, 0, 4)].
Definition V6_RANGES : list (text * Z) :=
  [(chars "::", 128); (chars "::1", 128); (chars "100::", 64); (chars "2001:db8::", 32); (chars "fc00::", 7); (chars "fe80::", 10); (chars "ff00::", 8)].
Definition v4_number (q : Z * Z * Z * Z) : Z := let '(a, b, c, d) := q in number 256 [a; b; c; d].
(** [list.check]: the first [prefix] of [width] bits agree *)
Definition in_subnet (width prefix net addr : Z) : bool := Z.shiftr addr (width - prefix) =? Z.shiftr net (width - prefix).
Definition check_v4 (q : Z * Z * Z * Z) : bool := existsb (fun '(a, b, c, d, p) => in_subnet 32 p (v4_number (a, b, c, d)) (v4_number q)) V4_RANGES.
Definition check_v6 (g : list Z) : bool :=
  existsb (fun '(net, p) => match parse_v6 net with Some n => in_subnet 128 p (number 65536 n) (number 65536 g) | None => false end) V6_RANGES.

(** [/(\d{1,3})\.(\d{1,3})\.(\d{1,3})\.(\d{1,3})$/.exec(text)]: what stands before it, and the numbers *)
Fixpoint dotted_end (s : text) : option (text * (Z * Z * Z * Z)) :=
  match quad_of short_number s with
  | Some q => Some ([], q)
  | None => match s with [] => None | c :: s => '(p, q) ← dotted_end s; Some (c :: p, q) end
  end.
(** [n.toString(16)], for 0 <= n < 2^20 *)
Definition hex_char (d : Z) : Ascii.ascii := ascii_of_nat (Z.to_nat (if d <? 10 then 48 + d else 87 + d)).
Fixpoint significant (l : list Z) : list Z := match l with d :: l' => if d =? 0 then significant l' else l | [] => [] end.
Definition to_hex (n : Z) : text :=
  hex_char <$> (significant [Z.shiftr n 16 mod 16; Z.shiftr n 12 mod 16; Z.shiftr n 8 mod 16; Z.shiftr n 4 mod 16] ++ [n mod 16]).
Definition ipv6Groups (address : text) : option (list Z) :=
  let s := match dotted_end address with Some (p, (a, b, c, d)) => p ++ to_hex (Z.lor (Z.shiftl a 8) b) ++ [COLON] ++ to_hex (Z.lor (Z.shiftl c 8) d) | None => address end in
  let halves := split_double s in
  if (2 <? length halves)%nat then None
  else
    let head := segments (default [] (halves !! 0%nat)) in
    let tail := if bool_decide (length halves = 2%nat) then segments (default [] (halves !! 1%nat)) else [] in
    let groups := if bool_decide (length halves = 2%nat) then head ++ replicate (8 - length head - length tail) (chars "0") ++ tail else head in
    if bool_decide (length groups = 8%nat) then mapM hex_group groups else None.
Definition zeros (g : list Z) (from to : nat) : bool := forallb (Z.eqb 0) (take (to - from) (drop from g)).
Definition group (g : list Z) (n : nat) : Z := default 0 (g !! n).
Definition embeddedIpv4 (address : text) : option (Z * Z * Z * Z) :=
  g ← ipv6Groups address;
  let mapped := zeros g 0 5 && (group g 5 =? 65535) in
  let compatible := zeros g 0 6 && negb ((group g 6 =? 0) && (group g 7 <=? 1)) in
  let nat64 := (group g 0 =? 100) && (group g 1 =? 65435) && zeros g 2 6 in
  if negb mapped && negb compatible && negb nat64 then None
  else Some (Z.shiftr (group g 6) 8, Z.land (group g 6) 255, Z.shiftr (group g 7) 8, Z.land (group g 7) 255).
(** [address.replace(/^\[|\]$/g, '')] *)
Definition bare (s : text) : text :=
  let s := match s with c :: r => if bool_decide (c = ascii_of_nat 91) then r else s | [] => [] end in
  match last s with Some c => if bool_decide (c = ascii_of_nat 93) then take (length s - 1) s else s | None => s end.
Definition isPrivateAddress (address : text) : bool :=
  let s := bare address in
  match parse_v4 s with
  | Some q => check_v4 q
  | None => match parse_v6 s with Some g => match embeddedIpv4 s with Some q => check_v4 q | None => check_v6 g end | None => false end
  end.

(** ** The address a customer types in *)
Record Url := { protocol : string; username : string; password : string; hostname : string }.
(** [new URL(raw)] *)
Class UrlReader := new_url : string -> option Url.
Definition lower_char (c : Ascii.ascii) : Ascii.ascii := if between_codes 65 90 c then ascii_of_nat (nat_of_ascii c + 32) else c.
Definition toLower (s : text) : text := lower_char <$> s.
Definition endsWith (t s : text) : bool := bool_decide (drop (length s - length t) s = t) && (length t <=? length s)%nat.
(** The host of an address is not one of this network's own. *)
Definition local_host (host : text) : bool :=
  bool_decide (host = chars "localhost") || endsWith (chars ".localhost") host || endsWith (chars ".local") host || endsWith (chars ".internal") host || isPrivateAddress host.
Definition some_text (s : string) : bool := negb (bool_decide (s = EmptyString)).
Definition webhookUrlProblem `{UrlReader} (raw : string) (production : bool) : bool :=
  match new_url raw with
  | None => true
  | Some url =>
      let secure := bool_decide (protocol url = "https:") in
      (negb secure && negb (bool_decide (protocol url = "http:"))) || (production && negb secure) || some_text (username url) || some_text (password url)
      || (production && local_host (toLower (bare (hostname url))))
  end.

(** ** Sending *)
(** [guardedLookup]: what the resolver found, unless any of it is private; all of it, or the first *)
Definition guardedLookup (dns : text -> option (list text)) (all : bool) (host : text) : option (list text) :=
  match dns host with
  | None => None
  | Some l => if bool_decide (l = []) || existsb isPrivateAddress l then None else Some (if all then l else take 1 l)
  end.
(** [dns.lookup] as the socket uses it *)
Definition plainLookup (dns : text -> option (list text)) (all : bool) (host : text) : option (list text) :=
  match dns host with Some l => Some (if all then l else take 1 l) | None => None end.
(** What [postWebhook] may connect to: a host that is an address is not looked up. [None]: nothing is sent. *)
Definition connects_to `{UrlReader} (dns : text -> option (list text)) (all allowPrivate : bool) (rawUrl : string) : option (list text) :=
  url ← new_url rawUrl;
  let host := bare (hostname url) in
  if negb allowPrivate && (bool_decide (toLower host = chars "localhost") || isPrivateAddress host) then None
  else if negb (isIP host =? 0) then Some [host]
  else (if allowPrivate then plainLookup else guardedLookup) dns all host.
(** What became of it: an answer's status, or no answer within the time given *)
Definition delivered_with (status : option Z) : bool := match status with Some n => (200 <=? n) && (n <? 300) | None => false end.

(** ** Addresses in writing *)
(** [n] in decimal, for 0 <= n < 1000, and an address of four octets *)
Definition dec (n : Z) : text := (fun d => ascii_of_nat (Z.to_nat (48 + d))) <$> (significant [n / 100; n / 10 mod 10] ++ [n mod 10]).
Definition v4_text (a b c d : Z) : text := dec a ++ [DOT] ++ dec b ++ [DOT] ++ dec c ++ [DOT] ++ dec d.
Definition is_octet (n : Z) : Prop := 0 <= n <= 255.
Definition octets : list Z := Z.of_nat <$> List.seq 0 256.
Lemma octets_all n : is_octet n -> n ∈ octets.
Proof. intros Hn. unfold octets. rewrite <- (Z2Nat.id n) by (unfold is_octet in Hn; lia). apply list_elem_of_fmap_2, elem_of_seq. unfold is_octet in Hn. lia. Qed.
Lemma for_octets (p : Z -> bool) n : forallb p octets = true -> is_octet n -> p n = true.
Proof. intros Hp Hn. rewrite forallb_forall in Hp. apply Hp, list_elem_of_In, octets_all, Hn. Qed.
Definition dec_fine (n : Z) : bool :=
  bool_decide (short_number (dec n) = Some n) && bool_decide (octet (dec n) = Some n) && forallb (fun c => isSome (digit c)) (dec n) && bool_decide (1 <= length (dec n))%nat.
Lemma dec_octet n : is_octet n -> short_number (dec n) = Some n /\ octet (dec n) = Some n /\ (forall c, c ∈ dec n -> isSome (digit c) = true) /\ (1 <= length (dec n))%nat.
Proof.
  intros Hn. assert (Hf : dec_fine n = true) by (apply (for_octets dec_fine); [vm_compute; reflexivity|done]).
  unfold dec_fine in Hf. rewrite !andb_true_iff, !bool_decide_eq_true, forallb_forall in Hf. setoid_rewrite list_elem_of_In. naive_solver.
Qed.
Ltac div_lia := Z.to_euclidean_division_equations; lia.
(** Two octets make a group, as it is written and as it is read. *)
Definition hex_digit_of (d : Z) : Prop := 0 <= d < 16.
Lemma hex_char_value d : hex_digit_of d -> hex_value (hex_char d) = Some d /\ hex_char d <> COLON.
Proof.
  intros Hd. assert (Hf : forallb (fun d => bool_decide (hex_value (hex_char d) = Some d) && negb (bool_decide (hex_char d = COLON))) (take 16 octets) = true) by (vm_compute; reflexivity).
  rewrite forallb_forall in Hf. specialize (Hf d). rewrite andb_true_iff, negb_true_iff, bool_decide_eq_true, bool_decide_eq_false in Hf. apply Hf, list_elem_of_In.
  unfold octets. rewrite <- fmap_take, <- (Z2Nat.id d) by (unfold hex_digit_of in Hd; lia). apply list_elem_of_fmap_2, list_elem_of_In. change (take 16 (List.seq 0 256)) with (List.seq 0 16).
  apply in_seq. unfold hex_digit_of in Hd. lia.
Qed.
Lemma hex_chars_value l : Forall hex_digit_of l -> mapM hex_value (hex_char <$> l) = Some l /\ (COLON ∉ hex_char <$> l).
Proof.
  induction 1 as [|d l Hd _ [IH1 IH2]]; [split; [done|apply not_elem_of_nil]|]. destruct (hex_char_value d Hd) as [Hv Hc]. rewrite fmap_cons. split.
  - cbn. rewrite Hv. cbn. by rewrite IH1.
  - apply not_elem_of_cons. split; [congruence|done].
Qed.
Lemma significant_number l x : number 16 (significant l ++ [x]) = number 16 (l ++ [x]).
Proof. induction l as [|d l IH]; [done|]. simpl. destruct (Z.eqb_spec d 0) as [->|]; [|done]. rewrite IH. done. Qed.
Lemma significant_sub (P : Z -> Prop) l : Forall P l -> Forall P (significant l).
Proof. induction 1; simpl; [constructor|]. destruct (_ =? 0); [done|by constructor]. Qed.
Lemma to_hex_group a1 a0 b1 b0 : hex_digit_of a1 -> hex_digit_of a0 -> hex_digit_of b1 -> hex_digit_of b0 -> let n := a1 * 4096 + a0 * 256 + b1 * 16 + b0 in
  hex_group (to_hex n) = Some n /\ (COLON ∉ to_hex n).
Proof.
  intros H1 H2 H3 H4 n. assert (E : to_hex n = hex_char <$> (significant [0; a1; a0; b1] ++ [b0])).
  { unfold to_hex. rewrite !Z.shiftr_div_pow2 by lia. change (2 ^ 16) with 65536. change (2 ^ 12) with 4096. change (2 ^ 8) with 256. change (2 ^ 4) with 16. unfold hex_digit_of in *.
    assert (n / 65536 mod 16 = 0 /\ n / 4096 mod 16 = a1 /\ n / 256 mod 16 = a0 /\ n / 16 mod 16 = b1 /\ n mod 16 = b0) as (-> & -> & -> & -> & ->) by (unfold n; split_and!; div_lia). done. }
  assert (Hl : Forall hex_digit_of (significant [0; a1; a0; b1] ++ [b0])) by (apply Forall_app; split; [apply significant_sub|]; rewrite !Forall_cons, Forall_nil; unfold hex_digit_of in *; lia).
  destruct (hex_chars_value _ Hl) as [Hv Hc]. rewrite E. split; [|done]. unfold hex_group. rewrite Hv. cbn [fmap option_fmap option_map]. rewrite significant_number. rewrite bool_decide_true.
  - cbn. f_equal. unfold n. lia.
  - rewrite length_fmap, length_app. cbn [significant Z.eqb]. repeat (destruct (_ =? 0)); simpl; lia.
Qed.
Lemma pair_octets a b : is_octet a -> is_octet b -> let n := a * 256 + b in
  Z.lor (Z.shiftl a 8) b = n /\ hex_group (to_hex n) = Some n /\ (COLON ∉ to_hex n) /\ Z.shiftr n 8 = a /\ Z.land n 255 = b.
Proof.
  intros Ha Hb n. unfold is_octet in *.
  assert (Hn : n = a / 16 * 4096 + a mod 16 * 256 + b / 16 * 16 + b mod 16) by (unfold n; div_lia).
  assert (hex_group (to_hex n) = Some n /\ (COLON ∉ to_hex n)) as [Hg Hc] by (rewrite Hn; apply to_hex_group; unfold hex_digit_of; div_lia).
  split_and!; [|done|done|..].
  - rewrite Z.shiftl_mul_pow2 by lia. change (2 ^ 8) with 256. apply (lor_low 8); lia.
  - rewrite Z.shiftr_div_pow2 by lia. change (2 ^ 8) with 256. unfold n. div_lia.
  - change 255 with (Z.ones 8). rewrite Z.land_ones by lia. change (2 ^ 8) with 256. unfold n. div_lia.
Qed.
Lemma split_at_none c (x : text) : c ∉ x -> split_at c x = [x].
Proof. induction x as [|d x IH]; [done|]. intros [Hd Hx]%not_elem_of_cons. simpl. rewrite bool_decide_false by done. by rewrite IH. Qed.
Lemma split_at_app c (x s : text) : c ∉ x -> split_at c (x ++ c :: s) = x :: split_at c s.
Proof. induction x as [|d x IH]; simpl; [by rewrite bool_decide_true|]. intros [Hd Hx]%not_elem_of_cons. rewrite bool_decide_false by done. by rewrite IH. Qed.
Lemma not_digit c (x : text) : isSome (digit c) = false -> (forall d, d ∈ x -> isSome (digit d) = true) -> c ∉ x.
Proof. intros Hc Hx Hin. rewrite (Hx c Hin) in Hc. done. Qed.
Lemma digits_only (x : text) f : short_number x = Some f -> forall c, c ∈ x -> isSome (digit c) = true.
Proof.
  unfold short_number. case_bool_decide; [|done]. destruct (mapM digit x) as [l|] eqn:E; [|done]. intros _ c Hc. apply mapM_Some in E.
  apply list_elem_of_lookup in Hc as [i Hi]. apply (Forall2_lookup_l _ _ _ _ _ E) in Hi as (y & _ & Hy). by rewrite Hy.
Qed.
(** A quad is read as it is written, and not with anything in front of it. *)
Lemma quad_read f (pre : text) a b c d : is_octet a -> is_octet b -> is_octet c -> is_octet d -> DOT ∉ pre ->
  quad_of f (pre ++ v4_text a b c d) = (a' ← f (pre ++ dec a); b' ← f (dec b); c' ← f (dec c); d' ← f (dec d); Some (a', b', c', d')).
Proof.
  intros Ha Hb Hc Hd Hp. unfold quad_of, v4_text. assert (Hn : forall n, is_octet n -> DOT ∉ dec n) by (intros n Hn; apply not_digit; [done|by apply dec_octet]).
  rewrite (assoc (++)). simpl. rewrite split_at_app by (rewrite elem_of_app; intros [?|?]; [done|by apply (Hn a)]).
  rewrite !split_at_app by auto. by rewrite split_at_none by auto.
Qed.
Lemma v4_read a b c d : is_octet a -> is_octet b -> is_octet c -> is_octet d -> parse_v4 (v4_text a b c d) = Some (a, b, c, d).
Proof.
  intros Ha Hb Hc Hd. unfold parse_v4. etransitivity; [exact (quad_read octet [] a b c d Ha Hb Hc Hd (not_elem_of_nil _))|]. simpl.
  destruct (dec_octet a Ha) as (_ & -> & _), (dec_octet b Hb) as (_ & -> & _), (dec_octet c Hc) as (_ & -> & _), (dec_octet d Hd) as (_ & -> & _). done.
Qed.
Lemma prefixed_short (pre x : text) : COLON ∈ pre -> short_number (pre ++ x) = None.
Proof.
  intros Hc. destruct (short_number (pre ++ x)) as [n|] eqn:E; [|done]. assert (isSome (digit COLON) = true) as Hd by (apply (digits_only _ _ E); rewrite elem_of_app; tauto).
  discriminate.
Qed.
Lemma prefixed_v4 (pre : text) a b c d : is_octet a -> is_octet b -> is_octet c -> is_octet d -> DOT ∉ pre -> COLON ∈ pre -> parse_v4 (pre ++ v4_text a b c d) = None.
Proof. intros. unfold parse_v4. rewrite quad_read by done. assert (octet (pre ++ dec a) = None) as ->; [|done]. unfold octet. by rewrite prefixed_short. Qed.
Lemma dotted_found (pre : text) a b c d : is_octet a -> is_octet b -> is_octet c -> is_octet d -> DOT ∉ pre -> (pre = [] \/ last pre = Some COLON) ->
  dotted_end (pre ++ v4_text a b c d) = Some (pre, (a, b, c, d)).
Proof.
  intros Ha Hb Hc Hd. pose proof (fun f pre => quad_read f pre a b c d Ha Hb Hc Hd) as Hq.
  assert (Hbase : dotted_end (v4_text a b c d) = Some ([], (a, b, c, d))).
  { specialize (Hq short_number [] (not_elem_of_nil _)). simpl in Hq.
    rewrite (proj1 (dec_octet a Ha)), (proj1 (dec_octet b Hb)), (proj1 (dec_octet c Hc)), (proj1 (dec_octet d Hd)) in Hq. simpl in Hq. destruct (v4_text a b c d); [discriminate Hq|]. cbn [dotted_end]. by rewrite Hq. }
  induction pre as [|e pre IH]; intros Hp Hl; [exact Hbase|]. destruct Hl as [|Hl]; [done|].
  assert (Hin : COLON ∈ e :: pre) by (by apply last_Some_elem_of).
  change ((e :: pre) ++ v4_text a b c d) with (e :: (pre ++ v4_text a b c d)). cbn [dotted_end].
  assert (quad_of short_number (e :: (pre ++ v4_text a b c d)) = None) as ->.
  { change (e :: (pre ++ v4_text a b c d)) with ((e :: pre) ++ v4_text a b c d). rewrite Hq by done. by rewrite prefixed_short. }
  rewrite IH; [done| |]. { intros ?. apply Hp. by right. } destruct pre; [by left|by right].
Qed.

(** Parts put together with single colons are taken apart again. *)
Fixpoint joined (l : list text) : text := match l with [] => [] | [x] => x | x :: l => x ++ COLON :: joined l end.
Definition parts_fine (l : list text) : Prop := l <> [] /\ forall x, x ∈ l -> (COLON ∉ x) /\ x <> [].
Lemma joined_segments l : parts_fine l -> segments (joined l) = l.
Proof.
  intros [Hl Hx]. assert (Hs : split_at COLON (joined l) = l).
  { induction l as [|x l IH]; [done|]. destruct (Hx x) as [Hc _]; [left|]. destruct l as [|y l]; [by apply split_at_none|].
    cbn [joined]. rewrite split_at_app by done. f_equal. apply IH; [done|]. intros z Hz. apply Hx. by right. }
  unfold segments. rewrite bool_decide_false; [done|]. intros E. destruct l as [|x l]; [done|]. destruct (Hx x) as [_ Hne]; [left|].
  destruct l; simpl in E; [done|]. by destruct x.
Qed.
Lemma split_double_step d s : d <> COLON \/ head s <> Some COLON -> split_double (d :: s) = match split_double s with x :: l => (d :: x) :: l | [] => [[d]] end.
Proof.
  intros Hd. destruct s as [|e s]; [done|]. cbn [split_double]. destruct (bool_decide (d = COLON) && bool_decide (e = COLON)) eqn:E; [|done].
  rewrite andb_true_iff, !bool_decide_eq_true in E. destruct E as [-> ->]. by destruct Hd as [[]|[]].
Qed.
Lemma single_app x s : (COLON ∉ x) -> split_double s = [s] -> split_double (x ++ s) = [x ++ s].
Proof. induction x as [|d x IH]; [done|]. intros [Hd Hx]%not_elem_of_cons Hs. cbn [app]. rewrite split_double_step by (left; congruence). by rewrite IH. Qed.
Lemma joined_single l : parts_fine l -> split_double (joined l) = [joined l].
Proof.
  intros [Hl Hx]. induction l as [|x l IH]; [done|]. destruct (Hx x) as [Hc _]; [left|]. destruct l as [|y l].
  - cbn [joined]. rewrite <- (app_nil_r x). by apply single_app.
  - change (joined (x :: y :: l)) with (x ++ COLON :: joined (y :: l)). apply single_app; [done|]. rewrite split_double_step.
    + rewrite IH; [done|done|]. intros z Hz. apply Hx. by right.
    + right. destruct (Hx y) as [Hcy Hny]; [right; left|]. destruct y as [|e y]; [done|]. apply not_elem_of_cons in Hcy as [Hcy _]. destruct l; simpl; congruence.
Qed.
(** The three ways an IPv6 address carries an IPv4 one: what stands before the two colons and after them *)
Definition CARRIERS : list (list text * list text) := [([], [chars "ffff"]); ([], []); ([chars "64"; chars "ff9b"], [])].
Definition spelled (h t : list text) : text := joined h ++ COLON :: COLON :: joined t.
Ltac carrier_cases Hin := unfold CARRIERS in Hin; rewrite !elem_of_cons, elem_of_nil in Hin; destruct Hin as [[= -> ->]|[[= -> ->]|[[= -> ->]|[]]]].
Lemma spelled_halves h t u : (h, t) ∈ CARRIERS -> parts_fine u -> split_double (spelled h u) = [joined h; joined u].
Proof.
  intros Hin Hu. pose proof (joined_single u Hu) as E. carrier_cases Hin; unfold spelled.
  1, 2: change (split_double (joined [] ++ COLON :: COLON :: joined u)) with ([] :: split_double (joined u)); by rewrite E.
  change (joined [chars "64"; chars "ff9b"]) with (chars "64:ff9b"). simpl app.
  do 7 (rewrite split_double_step; [|first [left; discriminate|right; discriminate]]).
  change (split_double (COLON :: COLON :: joined u)) with ([] :: split_double (joined u)). by rewrite E.
Qed.
Section Carried.
Context (a b c d : Z) (Ha : is_octet a) (Hb : is_octet b) (Hc : is_octet c) (Hd : is_octet d).
Let q := v4_text a b c d.
Let n1 := a * 256 + b.
Let n2 := c * 256 + d.
Lemma q_chars x : x ∈ q -> isSome (digit x) = true \/ x = DOT.
Proof.
  unfold q, v4_text. rewrite !elem_of_app, !list_elem_of_singleton. pose proof (fun n Hn => proj1 (proj2 (proj2 (dec_octet n Hn)))) as Hx.
  intros [?|[?|[?|[?|[?|[?|?]]]]]]; eauto.
Qed.
Lemma q_long : (7 <= length q)%nat.
Proof.
  unfold q, v4_text. rewrite !length_app. simpl. pose proof (fun n Hn => proj2 (proj2 (proj2 (dec_octet n Hn)))) as Hx.
  pose proof (Hx a Ha). pose proof (Hx b Hb). pose proof (Hx c Hc). pose proof (Hx d Hd). lia.
Qed.
Lemma q_part : (COLON ∉ q) /\ q <> [].
Proof. split; [intros [Hn|Hn]%q_chars; discriminate|]. pose proof q_long as Hl. intros E. rewrite E in Hl. simpl in Hl. lia. Qed.
Lemma group_part a' b' : is_octet a' -> is_octet b' -> (COLON ∉ to_hex (a' * 256 + b')) /\ to_hex (a' * 256 + b') <> [].
Proof. intros Ha' Hb'. destruct (pair_octets a' b' Ha' Hb') as (_ & Hg & Hn & _). split; [done|]. intros E. by rewrite E in Hg. Qed.
Lemma carrier_parts h t l : (h, t) ∈ CARRIERS -> l <> [] -> (forall x, x ∈ l -> (COLON ∉ x) /\ x <> []) -> parts_fine (t ++ l).
Proof.
  intros Hin Hl Hx. split; [by destruct t, l|]. intros x [Ht|Ht]%elem_of_app; [|auto]. carrier_cases Hin; [|by apply elem_of_nil in Ht..].
  apply list_elem_of_singleton in Ht as ->. split; [|done]. refine (bool_decide_unpack _ _). exact I.
Qed.
Lemma last_q pre : exists x, last (pre ++ q) = Some x /\ isSome (digit x) = true.
Proof.
  destruct (dec_octet d Hd) as (_ & _ & Hx & Hl). destruct (last (dec d)) as [x|] eqn:E; [|apply last_None in E; rewrite E in Hl; simpl in Hl; lia].
  exists x. split; [|by apply Hx, last_Some_elem_of]. unfold q, v4_text. rewrite !(assoc (++)), last_app, E. done.
Qed.
Lemma bare_address pre : head (pre ++ q) <> Some (ascii_of_nat 91) -> bare (pre ++ q) = pre ++ q.
Proof.
  intros Hh. unfold bare. assert (match pre ++ q with x :: r => if bool_decide (x = ascii_of_nat 91) then r else pre ++ q | [] => [] end = pre ++ q) as ->.
  { destruct (pre ++ q); [done|]. rewrite bool_decide_false; [done|]. simpl in Hh. congruence. }
  destruct (last_q pre) as (x & -> & Hx). rewrite bool_decide_false; [done|]. intros ->. discriminate.
Qed.
(** What is written in front of the quad *)
Definition carrier (h t : list text) : text := joined h ++ COLON :: COLON :: joined (t ++ [[]]).
Lemma carrier_spelled h t x : (h, t) ∈ CARRIERS -> spelled h (t ++ [x]) = carrier h t ++ x.
Proof. intros Hin. carrier_cases Hin; reflexivity. Qed.
Lemma carrier_spelled2 h t x y : (h, t) ∈ CARRIERS -> spelled h (t ++ [x; y]) = carrier h t ++ x ++ COLON :: y.
Proof. intros Hin. carrier_cases Hin; reflexivity. Qed.
Definition carrier_groups (h t : list text) : list Z := default [] (mapM hex_group (h ++ replicate (6 - length h - length t) (chars "0") ++ t)).
Lemma q_group : groups_of true [q] = Some [n1; n2].
Proof.
  cbn [groups_of]. assert (hex_group q = None) as ->. { unfold hex_group. rewrite bool_decide_false; [done|]. pose proof q_long. lia. }
  unfold q. by rewrite v4_read.
Qed.
Lemma carried_read h t : (h, t) ∈ CARRIERS -> parse_v6 (carrier h t ++ q) = Some (carrier_groups h t ++ [n1; n2]).
Proof.
  intros Hin. assert (Hp : parts_fine (t ++ [q])) by (apply (carrier_parts h t); [done|done|intros x ->%list_elem_of_singleton; apply q_part]).
  rewrite <- carrier_spelled by done. unfold parse_v6. rewrite (spelled_halves h t) by done. rewrite (joined_segments (t ++ [q])) by done.
  pose proof q_group as Hq. carrier_cases Hin.
  1: match goal with |- context [groups_of true ([?x] ++ [q])] => change (groups_of true ([x] ++ [q])) with (g ← hex_group x; r ← groups_of true [q]; Some (g :: r)) end.
  2, 3: change ([] ++ [q]) with [q].
  all: rewrite Hq; reflexivity.
Qed.
Lemma carrier_segments h t : (h, t) ∈ CARRIERS -> segments (joined h) = h.
Proof. intros Hin. carrier_cases Hin; vm_compute; reflexivity. Qed.
Lemma mapM_two {A B} (f : A -> option B) l g x y m n : mapM f l = Some g -> f x = Some m -> f y = Some n -> mapM f (l ++ [x; y]) = Some (g ++ [m; n]).
Proof.
  intros Hl Hx Hy. revert g Hl. induction l as [|z l IH]; intros g Hl; [injection Hl as <-; cbn; by rewrite Hx; cbn; rewrite Hy|].
  cbn in Hl. destruct (f z) as [w|] eqn:Ez; [|done]. cbn in Hl. destruct (mapM f l) as [g'|] eqn:El; [|done]. injection Hl as <-. cbn. rewrite Ez. cbn. by rewrite (IH g' eq_refl).
Qed.
Lemma carried_groups h t : (h, t) ∈ CARRIERS -> ipv6Groups (carrier h t ++ q) = Some (carrier_groups h t ++ [n1; n2]).
Proof.
  intros Hin. destruct (pair_octets a b Ha Hb) as (E1 & G1 & _), (pair_octets c d Hc Hd) as (E2 & G2 & _).
  assert (Hp : parts_fine (t ++ [to_hex n1; to_hex n2])).
  { apply (carrier_parts h t); [done|done|]. intros x. rewrite !elem_of_cons, elem_of_nil. intros [->|[->|[]]]; by apply group_part. }
  assert (Hdot : dotted_end (carrier h t ++ q) = Some (carrier h t, (a, b, c, d))).
  { apply dotted_found; [done..| |].
    - carrier_cases Hin; refine (bool_decide_unpack _ _); exact I.
    - right. carrier_cases Hin; reflexivity. }
  unfold ipv6Groups. rewrite Hdot, E1, E2. change (to_hex (a * 256 + b) ++ [COLON] ++ to_hex (c * 256 + d)) with (to_hex n1 ++ COLON :: to_hex n2).
  rewrite <- carrier_spelled2 by done. rewrite (spelled_halves h t) by done.
  change ([joined h; joined (t ++ [to_hex n1; to_hex n2])] !! 1%nat) with (Some (joined (t ++ [to_hex n1; to_hex n2]))).
  change ([joined h; joined (t ++ [to_hex n1; to_hex n2])] !! 0%nat) with (Some (joined h)). cbn [default from_option id].
  rewrite (joined_segments (t ++ _)) by done. fold n1 in G1. fold n2 in G2.
  cbn [length]. rewrite (bool_decide_true (2 = 2)%nat eq_refl). rewrite (carrier_segments h t Hin). cbn [Nat.ltb Nat.leb].
  revert G1 G2. generalize n1 n2. intros m1 m2 G1 G2. set (x1 := to_hex m1) in *. set (x2 := to_hex m2) in *.
  assert (h ++ replicate (8 - length h - length (t ++ [x1; x2])) (chars "0") ++ t ++ [x1; x2] = (h ++ replicate (6 - length h - length t) (chars "0") ++ t) ++ [x1; x2]) as -> by (carrier_cases Hin; reflexivity).
  rewrite bool_decide_true by (carrier_cases Hin; reflexivity). apply mapM_two; [|done..]. carrier_cases Hin; vm_compute; reflexivity.
Qed.
Lemma zeros_carrier h t : (h, t) ∈ CARRIERS -> let g := carrier_groups h t ++ [n1; n2] in
  group g 6 = n1 /\ group g 7 = n2 /\
  (zeros g 0 5 && (group g 5 =? 65535) || zeros g 0 6 || (group g 0 =? 100) && (group g 1 =? 65435) && zeros g 2 6) = true /\
  (zeros g 0 6 = true -> g = [0; 0; 0; 0; 0; 0; n1; n2]).
Proof. intros Hin. carrier_cases Hin; split_and!; try reflexivity; intros Hz; first [discriminate Hz|reflexivity]. Qed.
(** It is judged by the address it carries, or is [::] or [::1]. *)
Lemma carried_embedded h t : (h, t) ∈ CARRIERS ->
  embeddedIpv4 (carrier h t ++ q) = Some (a, b, c, d) \/ embeddedIpv4 (carrier h t ++ q) = None /\ a = 0 /\ b = 0 /\ c = 0 /\ 0 <= d <= 1 /\ carrier_groups h t ++ [n1; n2] = [0; 0; 0; 0; 0; 0; 0; d].
Proof.
  intros Hin. unfold embeddedIpv4. rewrite carried_groups by done. cbn [mbind option_bind]. destruct (zeros_carrier h t Hin) as (E6 & E7 & Hany & Hz). rewrite E6, E7.
  destruct (pair_octets a b Ha Hb) as (_ & _ & _ & S1 & L1), (pair_octets c d Hc Hd) as (_ & _ & _ & S2 & L2). fold n1 in S1, L1. fold n2 in S2, L2. rewrite S1, L1, S2, L2.
  destruct (_ && (group _ 5 =? _)) eqn:Em; [by left|]. destruct (_ && zeros _ 2 6) eqn:En; [left; by rewrite !andb_false_r|].
  rewrite orb_false_r in Hany. cbn [orb] in Hany. rewrite Hany. cbn [andb negb]. rewrite negb_involutive, andb_true_r.
  destruct ((n1 =? 0) && (n2 <=? 1)) eqn:E0; [|by left]. right. split; [done|]. apply andb_prop in E0 as [Ea%Z.eqb_eq Eb%Z.leb_le].
  unfold is_octet, n1, n2 in *. rewrite (Hz Hany). assert (a = 0 /\ b = 0 /\ c = 0) as (-> & -> & ->) by lia. split_and!; [done..|lia|lia|]. done.
Qed.
Lemma carried_private h t : (h, t) ∈ CARRIERS -> isPrivateAddress (carrier h t ++ q) = check_v4 (a, b, c, d).
Proof.
  intros Hin. unfold isPrivateAddress. rewrite bare_address by (carrier_cases Hin; discriminate).
  assert (parse_v4 (carrier h t ++ q) = None) as -> by (apply prefixed_v4; [done..| |]; carrier_cases Hin; refine (bool_decide_unpack _ _); exact I).
  rewrite carried_read by done. destruct (carried_embedded h t Hin) as [->|(-> & -> & -> & -> & Hd1 & ->)]; [done|].
  assert (d = 0 \/ d = 1) as [->| ->] by lia; vm_compute; reflexivity.
Qed.
Lemma plain_private : isPrivateAddress q = check_v4 (a, b, c, d).
Proof.
  unfold isPrivateAddress. assert (bare q = q) as ->; [|by unfold q; rewrite v4_read].
  apply (bare_address []). cbn [app]. intros Hh. assert (ascii_of_nat 91 ∈ q) as [Hx|Hx]%q_chars; [by apply head_Some_elem_of|discriminate..].
Qed.
End Carried.

(** The networks no webhook reaches: this host, private and shared networks, link-local, documentation, benchmarking, multicast and reserved addresses *)
Definition off_limits (a b c d : Z) : Prop :=
  a = 0 \/ a = 10 \/ a = 100 /\ 64 <= b <= 127 \/ a = 127 \/ a = 169 /\ b = 254 \/ a = 172 /\ 16 <= b <= 31 \/ a = 192 /\ b = 0 /\ (c = 0 \/ c = 2) \/ a = 192 /\ b = 168 \/
  a = 198 /\ 18 <= b <= 19 \/ a = 198 /\ b = 51 /\ c = 100 \/ a = 203 /\ b = 0 /\ c = 113 \/ 224 <= a.
Lemma in_subnet_range w p net addr : 0 <= p <= w -> (2 ^ (w - p) | net) -> in_subnet w p net addr = true <-> net <= addr < net + 2 ^ (w - p).
Proof.
  intros Hp [m ->]. unfold in_subnet. rewrite Z.eqb_eq, !Z.shiftr_div_pow2 by lia. assert (0 < 2 ^ (w - p)) as Hpos by (apply Z.pow_pos_nonneg; lia).
  rewrite Z.div_mul by lia. split; [intros <-|intros Hr; symmetry; apply Z.div_unique with (addr - m * 2 ^ (w - p)); lia].
  pose proof (Z.div_mod addr _ (Z.neq_sym _ _ (Z.lt_neq _ _ Hpos))). pose proof (Z.mod_pos_bound addr _ Hpos). lia.
Qed.
(** The first address of each range, and the first after it *)
Definition bounds (r : Z * Z * Z * Z * Z) : Z * Z := let '(a, b, c, d, p) := r in (v4_number (a, b, c, d), v4_number (a, b, c, d) + 2 ^ (32 - p)).
Definition between (x : Z) (r : Z * Z) : bool := (fst r <=? x) && (x <? snd r).
Definition V4_BOUNDS : list (Z * Z) :=
  [(0, 16777216); (167772160, 184549376); (1681915904, 1686110208); (2130706432, 2147483648); (2851995648, 2852061184); (2886729728, 2887778304); (3221225472, 3221225728);
   (3221225984, 3221226240); (3232235520, 3232301056); (3323068416, 3323199488); (3325256704, 3325256960); (3405803776, 3405804032); (3758096384, 4026531840); (4026531840, 4294967296)].
Lemma range_bounds r x : r ∈ V4_RANGES -> (let '(a, b, c, d, p) := r in in_subnet 32 p (v4_number (a, b, c, d)) x) = between x (bounds r).
Proof.
  intros Hr. assert (Hok : forallb (fun r => let '(a, b, c, d, p) := r in (0 <=? p) && (p <=? 32) && (v4_number (a, b, c, d) mod 2 ^ (32 - p) =? 0)) V4_RANGES = true) by (vm_compute; reflexivity).
  rewrite forallb_forall in Hok. apply list_elem_of_In in Hr. specialize (Hok r Hr). destruct r as [[[[a b] c] d] p].
  rewrite !andb_true_iff, !Z.leb_le, Z.eqb_eq in Hok. destruct Hok as [[Hp0 Hp] Hm]. apply eq_true_iff_eq. unfold between, bounds. cbn [fst snd].
  rewrite in_subnet_range, andb_true_iff, Z.leb_le, Z.ltb_lt; [done|done|]. apply Z.mod_divide; [|done]. apply Z.pow_nonzero; lia.
Qed.
Lemma check_v4_bounds q : check_v4 q = existsb (between (v4_number q)) V4_BOUNDS.
Proof.
  unfold check_v4. replace V4_BOUNDS with (bounds <$> V4_RANGES) by (vm_compute; reflexivity). pose proof (fun r => range_bounds r (v4_number q)) as Hr. revert Hr.
  generalize V4_RANGES. intros l Hr. induction l as [|r l IH]; [done|]. cbn. rewrite <- (Hr r) by left. f_equal. apply IH. intros r' Hr'. apply Hr. by right.
Qed.
Ltac pick_range := first [left; lia | right; pick_range | lia].
Lemma check_v4_exact a b c d : is_octet a -> is_octet b -> is_octet c -> is_octet d -> check_v4 (a, b, c, d) = true <-> off_limits a b c d.
Proof.
  unfold is_octet. intros Ha Hb Hc Hd. rewrite check_v4_bounds. unfold off_limits, v4_number, number. cbn [foldl existsb V4_BOUNDS]. unfold V4_BOUNDS, between. cbn [existsb fst snd].
  rewrite !orb_true_iff, !andb_true_iff, !Z.leb_le, !Z.ltb_lt. split; intros Hx; repeat (destruct Hx as [Hx|Hx]; [pick_range|]); try discriminate; pick_range.
Qed.
(** How an address of four octets is written: on its own, or in an IPv6 address (mapped, compatible, NAT64) *)
Definition spellings (a b c d : Z) : list text :=
  [v4_text a b c d; chars "::ffff:" ++ v4_text a b c d; chars "::" ++ v4_text a b c d; chars "64:ff9b::" ++ v4_text a b c d].
Lemma private_exact a b c d s : is_octet a -> is_octet b -> is_octet c -> is_octet d -> s ∈ spellings a b c d -> isPrivateAddress s = true <-> off_limits a b c d.
Proof.
  intros Ha Hb Hc Hd Hs. rewrite <- check_v4_exact by done. assert (isPrivateAddress s = check_v4 (a, b, c, d)) as ->; [|done]. pose proof (fun h t => carried_private a b c d Ha Hb Hc Hd h t) as Hp.
  unfold spellings in Hs. rewrite !elem_of_cons, elem_of_nil in Hs. destruct Hs as [->|[->|[->|[->|[]]]]].
  - by apply plain_private.
  - apply (Hp [] [chars "ffff"]). left.
  - apply (Hp [] []). right. left.
  - apply (Hp [chars "64"; chars "ff9b"] []). right. right. left.
Qed.
Lemma lookup_guarded dns all host l : guardedLookup dns all host = Some l -> l <> [] /\ forall x, x ∈ l -> isPrivateAddress x = false.
Proof.
  unfold guardedLookup. destruct (dns host) as [r|]; [|done]. destruct (_ || _) eqn:E; [done|]. apply orb_false_elim in E as [Hr Hn]. apply bool_decide_eq_false in Hr.
  intros [= <-]. split; [by destruct r, all|]. intros x Hx. destruct (isPrivateAddress x) eqn:Ep; [|done].
  assert (existsb isPrivateAddress r = true) as Ht; [|by rewrite Ht in Hn]. apply existsb_exists. exists x. split; [|done]. apply list_elem_of_In. destruct all; [done|].
  by apply elem_of_take in Hx as (i & Hi%list_elem_of_lookup_2 & _).
Qed.

Module HttpWitness.
(** An address is read as [https], and is its own host. *)
#[export] Instance host_only : UrlReader := fun s => Some {| protocol := "https:"; username := ""; password := ""; hostname := s |}.
Definition dns (host : text) : option (list text) :=
  if bool_decide (host = chars "partner.example.com") then Some [chars "93.184.216.34"; chars "2606:2800:220:1::"] else if bool_decide (host = chars "rebound.example.com") then Some [chars "93.184.216.34"; chars "::ffff:169.254.169.254"] else None.
Example typed_in : (fun s => webhookUrlProblem s true) <$> ["partner.example.com"; "localhost"; "db.internal"; "[::ffff:10.0.0.1]"; "127.0.0.1"; "[2606:2800:220:1::]"] = [false; true; true; true; true; false].
Proof. vm_compute. reflexivity. Qed.
End HttpWitness.
