(* ===== verification/Webhooks.v ===== *)
(** Telling other systems what happened
    (src/src/modules/integrations/{integrations.service,webhook-dispatcher.service}.ts,
    src/src/common/auth/api-key-auth.service.ts): webhooks, the queue of deliveries
    and how it is worked off, and API keys. One organisation's rows; the queue's
    filling from a change to a booking or a bill is [emit] of Db.v, here with the whole
    delivery. Sending lies between two transactions, so what dispatchers on several
    servers do is a sequence of claims and of recorded answers (WebhookRuns.v). The
    words of an error are left out. *)
From Stdlib Require Import Ascii.
From S2P Require Import Prelude Taxes CampaignRender WebhookHttp Transactions Db Guests.
Local Open Scope Z_scope.

Inductive Standing := pending | delivered | failed.
#[global] Instance Standing_eq_dec : EqDecision Standing.
Proof. solve_decision. Defined.
Module Hook.
Record t := { id : string; url : string; eventTypes : list string; secret : string; branchId : option string; isActive : bool; createdAt : Z; createdBy : option string }.
Definition with_settings (u : string) (e : list string) (b : option string) (a : bool) (x : t) : t := {| id := id x; url := u; eventTypes := e; secret := secret x; branchId := b; isActive := a; createdAt := createdAt x; createdBy := createdBy x |}.
Definition with_secret (s : string) (x : t) : t := {| id := id x; url := url x; eventTypes := eventTypes x; secret := s; branchId := branchId x; isActive := isActive x; createdAt := createdAt x; createdBy := createdBy x |}.
End Hook.
(** The body of a delivery; [data] says what changed. *)
Record WebhookPayload := { p_id : string; p_type : string; p_createdAt : Z; p_tenantId : string; p_branchId : option string; p_data : string }.
Module Delivery.
Record t := {
  id : string; webhookId : string; eventId : string; eventType : string; payload : WebhookPayload; status : Standing; attempts : Z; nextAttemptAt : Z; lockedUntil : option Z; lastAttemptAt : option Z;
  responseStatus : option Z; deliveredAt : option Z; createdAt : Z }.
Definition with_lock (l : option Z) (x : t) : t :=
  {| id := id x; webhookId := webhookId x; eventId := eventId x; eventType := eventType x; payload := payload x; status := status x; attempts := attempts x; nextAttemptAt := nextAttemptAt x;
     lockedUntil := l; lastAttemptAt := lastAttemptAt x; responseStatus := responseStatus x; deliveredAt := deliveredAt x; createdAt := createdAt x |}.
Definition with_status (s : Standing) (next : Z) (x : t) : t :=
  {| id := id x; webhookId := webhookId x; eventId := eventId x; eventType := eventType x; payload := payload x; status := s; attempts := attempts x; nextAttemptAt := next;
     lockedUntil := lockedUntil x; lastAttemptAt := lastAttemptAt x; responseStatus := responseStatus x; deliveredAt := deliveredAt x; createdAt := createdAt x |}.
Definition with_answer (n : Z) (at_ : Z) (r : option Z) (x : t) : t :=
  {| id := id x; webhookId := webhookId x; eventId := eventId x; eventType := eventType x; payload := payload x; status := status x; attempts := n; nextAttemptAt := nextAttemptAt x;
     lockedUntil := None; lastAttemptAt := Some at_; responseStatus := r; deliveredAt := deliveredAt x; createdAt := createdAt x |}.
Definition with_delivered (at_ : Z) (x : t) : t :=
  {| id := id x; webhookId := webhookId x; eventId := eventId x; eventType := eventType x; payload := payload x; status := delivered; attempts := attempts x; nextAttemptAt := nextAttemptAt x;
     lockedUntil := lockedUntil x; lastAttemptAt := lastAttemptAt x; responseStatus := responseStatus x; deliveredAt := Some at_; createdAt := createdAt x |}.
End Delivery.
Module ApiKey.
Record t := { id : string; name : string; keyPrefix : string; keyHash : string; scopes : list string; branchId : option string; createdAt : Z; createdBy : option string; lastUsedAt : option Z; revokedAt : option Z }.
Definition with_settings (n : string) (s : list string) (b : option string) (x : t) : t :=
  {| id := id x; name := n; keyPrefix := keyPrefix x; keyHash := keyHash x; scopes := s; branchId := b; createdAt := createdAt x; createdBy := createdBy x; lastUsedAt := lastUsedAt x; revokedAt := revokedAt x |}.
Definition with_times (used revoked : option Z) (x : t) : t :=
  {| id := id x; name := name x; keyPrefix := keyPrefix x; keyHash := keyHash x; scopes := scopes x; branchId := branchId x; createdAt := createdAt x; createdBy := createdBy x; lastUsedAt := used; revokedAt := revoked |}.
End ApiKey.
(** The organisation, the clock, how many ids and secrets were drawn, the branches that are open, and the tables; an entry of the audit log is who, what, and on which row. *)
Record Outbox := { org : string; time : Z; made : nat; drawn : nat; places : list string; hooks : list Hook.t; deliveries : list Delivery.t; keys : list ApiKey.t; log : list (string * string * string) }.
Definition upd_time (f : Z -> Z) (k : Outbox) : Outbox := {| org := org k; time := f (time k); made := made k; drawn := drawn k; places := places k; hooks := hooks k; deliveries := deliveries k; keys := keys k; log := log k |}.
Definition upd_made (f : nat -> nat) (k : Outbox) : Outbox := {| org := org k; time := time k; made := f (made k); drawn := drawn k; places := places k; hooks := hooks k; deliveries := deliveries k; keys := keys k; log := log k |}.
Definition upd_drawn (f : nat -> nat) (k : Outbox) : Outbox := {| org := org k; time := time k; made := made k; drawn := f (drawn k); places := places k; hooks := hooks k; deliveries := deliveries k; keys := keys k; log := log k |}.
Definition upd_hooks (f : list Hook.t -> list Hook.t) (k : Outbox) : Outbox := {| org := org k; time := time k; made := made k; drawn := drawn k; places := places k; hooks := f (hooks k); deliveries := deliveries k; keys := keys k; log := log k |}.
Definition upd_deliveries (f : list Delivery.t -> list Delivery.t) (k : Outbox) : Outbox :=
  {| org := org k; time := time k; made := made k; drawn := drawn k; places := places k; hooks := hooks k; deliveries := f (deliveries k); keys := keys k; log := log k |}.
Definition upd_keys (f : list ApiKey.t -> list ApiKey.t) (k : Outbox) : Outbox := {| org := org k; time := time k; made := made k; drawn := drawn k; places := places k; hooks := hooks k; deliveries := deliveries k; keys := f (keys k); log := log k |}.
Definition upd_log (f : list (string * string * string) -> list (string * string * string)) (k : Outbox) : Outbox :=
  {| org := org k; time := time k; made := made k; drawn := drawn k; places := places k; hooks := hooks k; deliveries := deliveries k; keys := keys k; log := f (log k) |}.
Abbreviation T := (Tx Outbox).

Definition MAX_ATTEMPTS : Z := 8.
Definition RETRY_DELAYS_MS : list Z := [60000; 5 * 60000; 15 * 60000; 60 * 60000; 3 * 3600000; 6 * 3600000; 12 * 3600000].
Definition CLAIM_MS : Z := 60000.
Definition BATCH_SIZE : nat := 25.
Definition TIMEOUT_MS : Z := 10000.
Definition RETENTION_DAYS : Z := 30.
Definition KICK_WINDOW_MS : Z := 20000.
Definition TEST_EVENT_TYPE : string := "webhook.test".
Record WebhookPostResult := { wp_ok : bool; wp_status : option Z }.
Record CreateWebhookDto := { cw_url : string; cw_eventTypes : list string; cw_branchId : option string }.
(** A field left out is [None]; a branch can be set to none. *)
Record UpdateWebhookDto := { uw_url : option string; uw_eventTypes : option (list string); uw_branchId : option (option string); uw_isActive : option bool }.
Record CreateApiKeyDto := { ck_name : string; ck_scopes : list string; ck_branchId : option string }.
Record UpdateApiKeyDto := { uk_name : option string; uk_scopes : option (list string); uk_branchId : option (option string) }.
(** Secrets of 48 hex digits, drawn one after the other; the cipher, with the draw for its random part; the hash of a key. *)
Class Secrets := { random_hex : nat -> string; encrypt : nat -> string -> string; decrypt : string -> string; sha256_hex : string -> string }.
(** [process.env.NODE_ENV === 'production'] *)
Class Environment := production : bool.

Section Webhooks.
Context `{Uuid} `{Secrets} `{UrlReader} `{Environment} `{Hmac}.
Definition now : T Z := gets time.
Definition new_id : T string := let! n := gets made in do! modify (upd_made S) in ret (gen_random_uuid n).
Definition draw : T string := let! n := gets drawn in do! modify (upd_drawn S) in ret (random_hex n).
Definition hook_where (i : string) (x : Hook.t) : bool := bool_decide (Hook.id x = i).
Definition delivery_where (i : string) (x : Delivery.t) : bool := bool_decide (Delivery.id x = i).
Definition key_where (i : string) (x : ApiKey.t) : bool := bool_decide (ApiKey.id x = i).

(** ** Sending *)
(** [OR: [{ lockedUntil: null }, { lockedUntil: { lt: now } }]] *)
Definition free (at_ : Z) (x : Delivery.t) : bool := match Delivery.lockedUntil x with None => true | Some t => t <? at_ end.
Definition claimable (i : string) (at_ : Z) (x : Delivery.t) : bool := delivery_where i x && bool_decide (Delivery.status x = pending) && free at_ x.
(** The first transaction of [attempt]. *)
Definition claim (i : string) : T (option (Delivery.t * Hook.t)) :=
  let! at_ := now in
  let! hit := findMany deliveries (claimable i at_) in
  do! modify (upd_deliveries (update_where (claimable i at_) (Delivery.with_lock (Some (at_ + CLAIM_MS))))) in
  if negb (bool_decide (length hit = 1%nat)) then ret None
  else
    let! row := orThrow (findFirst deliveries (delivery_where i)) internal in
    let! hook := orThrow (findFirst hooks (hook_where (Delivery.webhookId row))) internal in
    ret (Some (row, hook)).
Definition record_ (i : string) (data : Delivery.t -> Delivery.t) : T Delivery.t :=
  let! row := orThrow (findFirst deliveries (delivery_where i)) not_found in
  do! modify (upd_deliveries (update_where (delivery_where i) data)) in
  ret (data row).
Definition switched_off (x : Delivery.t) : Delivery.t := Delivery.with_lock None (Delivery.with_status failed (Delivery.nextAttemptAt x) x).
Definition lastTry (claimed : Delivery.t) : bool := (MAX_ATTEMPTS <=? Delivery.attempts claimed + 1) || bool_decide (Delivery.eventType claimed = TEST_EVENT_TYPE).
(** [RETRY_DELAYS_MS[attempts - 1]], for the number of tries so far *)
Definition retry_delay (n : Z) : option Z := if n <? 1 then None else RETRY_DELAYS_MS !! Z.to_nat (n - 1).
Definition outcome (claimed : Delivery.t) (result : WebhookPostResult) (at_ : Z) (x : Delivery.t) : Delivery.t :=
  let n := Delivery.attempts claimed + 1 in
  Delivery.with_answer n at_ (wp_status result)
    (if wp_ok result then Delivery.with_delivered at_ x
     else if lastTry claimed then Delivery.with_status failed (Delivery.nextAttemptAt x) x
     else Delivery.with_status pending (at_ + default 0 (retry_delay n)) x).
(** The rest of [attempt], once the receiver answered: a webhook that is off gets no call. *)
Definition finish (claimed : Delivery.t) (hook : Hook.t) (result : WebhookPostResult) : T Delivery.t :=
  if negb (Hook.isActive hook) then record_ (Delivery.id claimed) switched_off
  else let! at_ := now in record_ (Delivery.id claimed) (outcome claimed result at_).
(** What is sent along with the body *)
Definition signingSecret (stored : string) : string := if existsb (fun c => bool_decide (c = Ascii.ascii_of_nat 58)) (chars stored) then decrypt stored else stored.
Definition signatureHeader (secret : string) (body : text) (timestamp : text) : text := "t=" ++ timestamp ++ ",v1=" ++ hmac_sha256_hex (chars secret) (timestamp ++ "." ++ body).
(** [attempt] on its own: the receiver answers [result] after [took] milliseconds. *)
Definition attempt (i : string) (answer : Delivery.t -> Hook.t -> WebhookPostResult) (took : Z) (k : Outbox) : Outbox * res (option Delivery.t) :=
  match claim i k with
  | Err e => (k, Err e)
  | Ok (k1, None) => (k1, Ok None)
  | Ok (k1, Some (row, hook)) =>
      let k2 := upd_time (fun t => if Hook.isActive hook then t + took else t) k1 in
      match finish row hook (answer row hook) k2 with Ok (k3, x) => (k3, Ok (Some x)) | Err e => (k2, Err e) end
  end.
Definition due (at_ : Z) (x : Delivery.t) : bool := bool_decide (Delivery.status x = pending) && (Delivery.nextAttemptAt x <=? at_) && free at_ x.
Record DispatchSummary := { ds_delivered : Z; ds_retrying : Z; ds_failed : Z }.
Definition counted (o : res (option Delivery.t)) (s : DispatchSummary) : DispatchSummary :=
  match o with
  | Ok (Some x) =>
      match Delivery.status x with
      | delivered => {| ds_delivered := ds_delivered s + 1; ds_retrying := ds_retrying s; ds_failed := ds_failed s |}
      | pending => {| ds_delivered := ds_delivered s; ds_retrying := ds_retrying s + 1; ds_failed := ds_failed s |}
      | failed => {| ds_delivered := ds_delivered s; ds_retrying := ds_retrying s; ds_failed := ds_failed s + 1 |}
      end
  | _ => s
  end.
(** One pass with a pool of one; a pool of four interleaves the attempts ([step]). *)
Definition batch (k : Outbox) : list string := Delivery.id <$> take BATCH_SIZE (sort_by Delivery.nextAttemptAt (List.filter (due (time k)) (deliveries k))).
Fixpoint attempts_of (l : list string) (answer : Delivery.t -> Hook.t -> WebhookPostResult) (took : Z) (s : DispatchSummary) (k : Outbox) : Outbox * res DispatchSummary :=
  match l with
  | [] => (k, Ok s)
  | i :: l => match attempt i answer took k with (k', Err e) => (k', Err e) | (k', Ok o) => attempts_of l answer took (counted (Ok o) s) k' end
  end.
Definition dispatchForTenant (answer : Delivery.t -> Hook.t -> WebhookPostResult) (took : Z) (k : Outbox) : Outbox * res DispatchSummary :=
  attempts_of (batch k) answer took {| ds_delivered := 0; ds_retrying := 0; ds_failed := 0 |} k.
Definition prune : T Z :=
  let! at_ := now in
  let! old := findMany deliveries (fun x => Delivery.createdAt x <? at_ - RETENTION_DAYS * 86400000) in
  do! modify (upd_deliveries (List.filter (fun x => negb (Delivery.createdAt x <? at_ - RETENTION_DAYS * 86400000)))) in
  ret (Z.of_nat (length old)).
(** ** Queueing *)
Definition create_delivery (webhookId : string) (payload : WebhookPayload) : T Delivery.t :=
  let! at_ := now in
  let! i := new_id in
  let row := {| Delivery.id := i; Delivery.webhookId := webhookId; Delivery.eventId := p_id payload; Delivery.eventType := p_type payload; Delivery.payload := payload; Delivery.status := pending; Delivery.attempts := 0;
                Delivery.nextAttemptAt := at_; Delivery.lockedUntil := None; Delivery.lastAttemptAt := None; Delivery.responseStatus := None; Delivery.deliveredAt := None; Delivery.createdAt := at_ |} in
  do! modify (upd_deliveries (fun l => l ++ [row])) in
  ret row.
Definition new_payload (type : string) (branchId : option string) (data : string) : T WebhookPayload :=
  let! eventId := new_id in
  let! at_ := now in
  let! o := gets org in
  ret {| p_id := eventId; p_type := type; p_createdAt := at_; p_tenantId := o; p_branchId := branchId; p_data := data |}.
Definition listening (branch : string) (types : list string) (x : Hook.t) : bool :=
  Hook.isActive x && existsb (fun e => includes e types) (Hook.eventTypes x) && match Hook.branchId x with None => true | Some b => bool_decide (b = branch) end.
(** [emit]; [data] is what [build] reads. *)
Definition emit (branch : string) (types : list string) (data : string) : T unit :=
  let! l := findMany hooks (listening branch types) in
  if bool_decide (length l = 0%nat) then ret tt
  else for_each types tt (fun _ type =>
    let! payload := new_payload type (Some branch) data in
    for_each (List.filter (fun x => includes type (Hook.eventTypes x)) l) tt (fun _ x => do! create_delivery (Hook.id x) payload in ret tt)).
Definition test_message : string := "A test from Roomick. If you can read this, your endpoint receives webhooks.".
(** The first transaction of [sendTest] and of [retryNow]; [attempt] follows. *)
Definition queue_test (webhookId : string) : T Delivery.t :=
  let! hook := orThrow (findFirst hooks (hook_where webhookId)) not_found in
  throw! conflict when negb (Hook.isActive hook) in
  let! payload := new_payload TEST_EVENT_TYPE (Hook.branchId hook) test_message in
  create_delivery webhookId payload.
Definition retryable (i : string) (at_ : Z) (x : Delivery.t) : bool := delivery_where i x && negb (bool_decide (Delivery.status x = delivered)) && free at_ x.
Definition queue_retry (i : string) : T unit :=
  let! at_ := now in
  let! row := orThrow (findFirst deliveries (delivery_where i)) not_found in
  throw! conflict when bool_decide (Delivery.status row = delivered) in
  modify (upd_deliveries (update_where (retryable i at_) (Delivery.with_status pending at_))).
Definition sent_or_conflict (r : Outbox * res (option Delivery.t)) : Outbox * res Delivery.t :=
  match r with (k, Ok (Some x)) => (k, Ok x) | (k, Ok None) => (k, Err conflict) | (k, Err e) => (k, Err e) end.
Definition sendTest (webhookId : string) (answer : Delivery.t -> Hook.t -> WebhookPostResult) (took : Z) (k : Outbox) : Outbox * res Delivery.t :=
  match queue_test webhookId k with Ok (k1, row) => sent_or_conflict (attempt (Delivery.id row) answer took k1) | Err e => (k, Err e) end.
Definition retryNow (i : string) (answer : Delivery.t -> Hook.t -> WebhookPostResult) (took : Z) (k : Outbox) : Outbox * res Delivery.t :=
  match queue_retry i k with Ok (k1, _) => sent_or_conflict (attempt i answer took k1) | Err e => (k, Err e) end.

(** ** Which organisations to look at *)
Definition kick (tenantId : string) (at_ : Z) (kicked : gmap string Z) : gmap string Z := <[tenantId := at_ + KICK_WINDOW_MS]> kicked.
(** [dispatchKicked]: those whose window has passed are forgotten, the others looked at. *)
Definition still_kicked (at_ : Z) (kicked : gmap string Z) : gmap string Z := filter (fun x => at_ < snd x) kicked.

(** ** Webhooks *)
Definition audit (u action i : string) : T unit := modify (upd_log (fun l => l ++ [(u, action, i)])).
(** [toDeliveryView]: when the next try is due is shown only while there is one. *)
Definition next_shown (x : Delivery.t) : option Z := if bool_decide (Delivery.status x = pending) then Some (Delivery.nextAttemptAt x) else None.
Definition listDeliveries (webhookId : string) : T (list (Delivery.t * option Z)) :=
  let! _ := orThrow (findFirst hooks (hook_where webhookId)) not_found in
  let! rows := findMany deliveries (fun x => bool_decide (Delivery.webhookId x = webhookId)) in
  ret ((fun x => (x, next_shown x)) <$> take 50 (sort_by (fun x => - Delivery.createdAt x) rows)).
Record WebhookSummary := { ws_hook : Hook.t; ws_pending : Z; ws_failedThisWeek : Z; ws_lastDeliveredAt : option Z }.
Definition latest (l : list (option Z)) : option Z := foldr (fun x acc => match x, acc with Some a, Some b => Some (Z.max a b) | Some a, None => Some a | None, _ => acc end) None l.
Definition summary (k : Outbox) (h : Hook.t) : WebhookSummary :=
  let of_ s := List.filter (fun x => bool_decide (Delivery.webhookId x = Hook.id h) && bool_decide (Delivery.status x = s)) (deliveries k) in
  {| ws_hook := h; ws_pending := Z.of_nat (length (of_ pending));
     ws_failedThisWeek := Z.of_nat (length (List.filter (fun x => time k - 7 * 86400000 <=? Delivery.createdAt x) (of_ failed)));
     ws_lastDeliveredAt := latest (Delivery.deliveredAt <$> of_ delivered) |}.
Definition listWebhooks : T (list WebhookSummary) := gets (fun k => summary k <$> sort_by (fun h => - Hook.createdAt h) (hooks k)).
Definition assertBranch (b : string) : T unit := let! l := gets places in lift (throw_if (negb (includes b l)) not_found).
Definition assertUsableUrl (url : string) : res unit := throw_if (webhookUrlProblem url production) invalid.
Definition unique (l : list string) : list string := foldl (fun acc x => if includes x acc then acc else acc ++ [x]) [] l.
Definition createWebhook (dto : CreateWebhookDto) (actorId : string) : T (Hook.t * string) :=
  do! lift (assertUsableUrl (cw_url dto)) in
  let! secret := draw in
  do! match set_string (cw_branchId dto) with Some b => assertBranch b | None => ret tt end in
  let! n := gets drawn in
  do! modify (upd_drawn S) in
  let! i := new_id in
  let! at_ := now in
  let row := {| Hook.id := i; Hook.url := cw_url dto; Hook.eventTypes := unique (cw_eventTypes dto); Hook.secret := encrypt n secret; Hook.branchId := cw_branchId dto; Hook.isActive := true;
                Hook.createdAt := at_; Hook.createdBy := Some actorId |} in
  do! modify (upd_hooks (fun l => l ++ [row])) in
  do! audit actorId "webhook.created" i in
  ret (row, secret).
Definition dropWaiting (webhookId : string) : T unit :=
  modify (upd_deliveries (update_where (fun x => bool_decide (Delivery.webhookId x = webhookId) && bool_decide (Delivery.status x = pending)) switched_off)).
Definition updateWebhook (webhookId : string) (dto : UpdateWebhookDto) (actorId : string) : T unit :=
  do! match uw_url dto with Some u => lift (assertUsableUrl u) | None => ret tt end in
  let! hook := orThrow (findFirst hooks (hook_where webhookId)) not_found in
  do! match uw_branchId dto with Some (Some b) => if nonempty b then assertBranch b else ret tt | _ => ret tt end in
  throw! invalid when (bool_decide (uw_isActive dto = Some true) && isNone (uw_eventTypes dto) && bool_decide (Hook.eventTypes hook = [])) in
  let active := default (Hook.isActive hook) (uw_isActive dto) in
  do! modify (upd_hooks (update_where (hook_where webhookId)
        (Hook.with_settings (default (Hook.url hook) (uw_url dto)) (match uw_eventTypes dto with Some l => unique l | None => Hook.eventTypes hook end)
           (default (Hook.branchId hook) (uw_branchId dto)) active))) in
  do! (if Hook.isActive hook && negb active then dropWaiting webhookId else ret tt) in
  audit actorId "webhook.updated" webhookId.
Definition deactivateWebhook (webhookId actorId : string) : T unit := updateWebhook webhookId {| uw_url := None; uw_eventTypes := None; uw_branchId := None; uw_isActive := Some false |} actorId.
Definition plain_secret (s : string) : bool := negb (existsb (fun c => bool_decide (c = Ascii.ascii_of_nat 58)) (chars s)).
(** One organisation's turn of [encryptPlainWebhookSecrets] *)
Definition encryptSecrets : T Z :=
  let! plain := findMany hooks (fun x => plain_secret (Hook.secret x)) in
  for_each plain 0 (fun n x =>
    let! m := gets drawn in
    do! modify (upd_drawn S) in
    let! hit := findMany hooks (fun y => hook_where (Hook.id x) y && bool_decide (Hook.secret y = Hook.secret x)) in
    do! modify (upd_hooks (update_where (fun y => hook_where (Hook.id x) y && bool_decide (Hook.secret y = Hook.secret x)) (Hook.with_secret (encrypt m (Hook.secret x))))) in
    ret (n + Z.of_nat (length hit))).

(** ** API keys *)
Definition hashApiKey (rawKey : string) : string := sha256_hex rawKey.
Definition createApiKey (dto : CreateApiKeyDto) (actorId : string) : T (ApiKey.t * string) :=
  let! hex := draw in
  let rawKey := String.append "rk_" hex in
  do! match set_string (ck_branchId dto) with Some b => assertBranch b | None => ret tt end in
  let! i := new_id in
  let! at_ := now in
  let row := {| ApiKey.id := i; ApiKey.name := js_trim (ck_name dto); ApiKey.keyPrefix := String.substring 0 10 rawKey; ApiKey.keyHash := hashApiKey rawKey; ApiKey.scopes := unique (ck_scopes dto);
                ApiKey.branchId := ck_branchId dto; ApiKey.createdAt := at_; ApiKey.createdBy := Some actorId; ApiKey.lastUsedAt := None; ApiKey.revokedAt := None |} in
  do! modify (upd_keys (fun l => l ++ [row])) in
  do! audit actorId "api_key.created" i in
  ret (row, rawKey).
Definition updateApiKey (keyId : string) (dto : UpdateApiKeyDto) (actorId : string) : T unit :=
  let! key := orThrow (findFirst keys (key_where keyId)) not_found in
  throw! invalid when isSome (ApiKey.revokedAt key) in
  do! match uk_branchId dto with Some (Some b) => if nonempty b then assertBranch b else ret tt | _ => ret tt end in
  do! modify (upd_keys (update_where (key_where keyId)
    (ApiKey.with_settings (match uk_name dto with Some n => js_trim n | None => ApiKey.name key end) (match uk_scopes dto with Some l => unique l | None => ApiKey.scopes key end)
       (default (ApiKey.branchId key) (uk_branchId dto))))) in
  audit actorId "api_key.updated" keyId.
Definition revokeApiKey (keyId actorId : string) : T unit :=
  let! key := orThrow (findFirst keys (key_where keyId)) not_found in
  if isSome (ApiKey.revokedAt key) then ret tt
  else
    let! at_ := now in
    do! modify (upd_keys (update_where (key_where keyId) (fun x => ApiKey.with_times (ApiKey.lastUsedAt x) (Some at_) x))) in
    audit actorId "api_key.revoked" keyId.
Definition listApiKeys : T (list ApiKey.t) := gets (fun k => sort_by (fun x => - ApiKey.createdAt x) (keys k)).
Definition LAST_USED_GRANULARITY_MS : Z := 60000.
Definition is_hex (c : Ascii.ascii) : bool := between_codes 48 57 c || between_codes 97 102 c.
(** [/^rk_[0-9a-f]{48}$/] *)
Definition key_shaped (s : string) : bool := match strip "rk_" (chars s) with Some r => bool_decide (length r = 48%nat) && forallb is_hex r | None => false end.
(** [authenticate], for an organisation that is open ([tenant_open]). *)
Definition authenticate (tenant_open : bool) (rawKey : string) : T (option ApiKey.t) :=
  if negb (key_shaped rawKey) || negb tenant_open then ret None
  else
    let! found := findFirst keys (fun x => bool_decide (ApiKey.keyHash x = hashApiKey rawKey) && isNone (ApiKey.revokedAt x)) in
    match found with
    | None => ret None
    | Some key =>
        let! at_ := now in
        do! modify (upd_keys (update_where (fun x => key_where (ApiKey.id key) x && match ApiKey.lastUsedAt x with Some t => t <? at_ - LAST_USED_GRANULARITY_MS | None => true end)
              (fun x => ApiKey.with_times (Some at_) (ApiKey.revokedAt x) x))) in
        ret (Some key)
    end.
End Webhooks.
