(* ===== verification/WebhookRuns.v ===== *)
(** What the dispatchers of several servers, the people who manage webhooks and
    keys, and the changes that queue deliveries do together (Webhooks.v): a delivery
    is on its way between the transaction that claims it and the one that records
    the answer. Nobody sends a delivery somebody else is sending, as long as a
    webhook is not switched off under a delivery on its way; a revoked key stays
    revoked. *)
From stdpp Require Import pretty.
From S2P Require Import Prelude Taxes CampaignRender WebhookHttp Transactions Db SampleHotel Guests Webhooks.
Local Open Scope Z_scope.

(** A delivery on its way: the row and the webhook as they were read, and when it was claimed. *)
Record Flight := { fl_row : Delivery.t; fl_hook : Hook.t; fl_at : Z }.
Definition fl_id (f : Flight) : string := Delivery.id (fl_row f).
(** The rows, what is on its way, and the deliveries recorded as delivered. *)
Record World := { box : Outbox; flying : list Flight; landed : list string }.

Section Runs.
Context `{Uuid} `{Secrets} `{UrlReader} `{Environment} `{Hmac}.
(** Transactions of the services, other than claiming and recording *)
Inductive Request :=
  | Emit (branch : string) (types : list string) (data : string)
  | Test (webhookId : string)
  | Retry (deliveryId : string)
  | Prune
  | AddHook (dto : CreateWebhookDto) (actorId : string)
  | ChangeHook (webhookId : string) (dto : UpdateWebhookDto) (actorId : string)
  | Encrypt
  | AddKey (dto : CreateApiKeyDto) (actorId : string)
  | ChangeKey (keyId : string) (dto : UpdateApiKeyDto) (actorId : string)
  | RevokeKey (keyId actorId : string)
  | SignIn (tenant_open : bool) (rawKey : string).
Definition run (r : Request) : T unit :=
  match r with
  | Emit b types data => emit b types data
  | Test i => do! queue_test i in ret tt
  | Retry i => queue_retry i
  | Prune => do! prune in ret tt
  | AddHook dto u => do! createWebhook dto u in ret tt
  | ChangeHook i dto u => updateWebhook i dto u
  | Encrypt => do! encryptSecrets in ret tt
  | AddKey dto u => do! createApiKey dto u in ret tt
  | ChangeKey i dto u => updateApiKey i dto u
  | RevokeKey i u => revokeApiKey i u
  | SignIn o raw => do! authenticate o raw in ret tt
  end.
(** [switches_off r x]: the request may switch off the webhook the delivery goes to. *)
Definition switches_off (r : Request) (x : Delivery.t) : bool :=
  match r with ChangeHook i dto _ => bool_decide (uw_isActive dto = Some false) && bool_decide (Delivery.webhookId x = i) | _ => false end.
(** What happens next. An answer comes within the minute a delivery is claimed for
    (a send is cut off after [TIMEOUT_MS]), or never: the server went down. With
    [careful], no webhook is switched off under a delivery on its way. *)
Inductive step (careful : bool) (w : World) : World -> Prop :=
  | passes ms : 0 <= ms -> (forall f, f ∈ flying w -> time (box w) + ms <= fl_at f + CLAIM_MS) ->
      step careful w {| box := upd_time (fun t => t + ms) (box w); flying := flying w; landed := landed w |}
  | asked r k : (careful = true -> forall f, f ∈ flying w -> switches_off r (fl_row f) = false) -> run r (box w) = Ok (k, tt) ->
      step careful w {| box := k; flying := flying w; landed := landed w |}
  | left_alone i k : claim i (box w) = Ok (k, None) -> step careful w {| box := k; flying := flying w; landed := landed w |}
  | claims i k row hook : claim i (box w) = Ok (k, Some (row, hook)) ->
      step careful w {| box := k; flying := {| fl_row := row; fl_hook := hook; fl_at := time (box w) |} :: flying w; landed := landed w |}
  | records l1 f l2 result k x : flying w = l1 ++ f :: l2 -> finish (fl_row f) (fl_hook f) result (box w) = Ok (k, x) ->
      step careful w {| box := k; flying := l1 ++ l2; landed := if bool_decide (Delivery.status x = delivered) then fl_id f :: landed w else landed w |}
  | goes_down l1 f l2 : flying w = l1 ++ f :: l2 -> step careful w {| box := box w; flying := l1 ++ l2; landed := landed w |}.
Definition steps (careful : bool) : World -> World -> Prop := rtc (step careful).

(** ** What a transaction leaves as it was *)
(** [kept P k k']: rows keep their names and new ones get new names; rows with [P] are untouched. *)
Definition kept (P : Delivery.t -> Prop) (k k' : Outbox) : Prop :=
  (made k <= made k')%nat /\ time k' = time k /\ (named Delivery.id (made k) (deliveries k) -> named Delivery.id (made k') (deliveries k')) /\
  forall x', x' ∈ deliveries k' -> (exists n, (made k <= n)%nat /\ Delivery.id x' = gen_random_uuid n) \/ exists x, x ∈ deliveries k /\ Delivery.id x = Delivery.id x' /\ (P x -> x' = x).
#[local] Instance kept_preorder P : PreOrder (kept P).
Proof.
  split.
  - intros k. split_and!; [lia|done..|]. intros x Hx. right. eauto.
  - intros a b c (M1 & T1 & N1 & R1) (M2 & T2 & N2 & R2). split_and!; [lia|congruence|tauto|].
    intros z Hz. destruct (R2 z Hz) as [(n & Hn & E)|(y & Hy & E & HP)]; [left; exists n; split; [lia|done]|].
    destruct (R1 y Hy) as [(n & Hn & E1)|(x & Hx & E1 & HP1)]; [left; exists n; split; [done|congruence]|].
    right. exists x. split_and!; [done|congruence|]. intros HPx. pose proof (HP1 HPx) as ->. auto.
Qed.
Lemma kept_same P k k' : (made k <= made k')%nat -> time k' = time k -> deliveries k' = deliveries k -> kept P k k'.
Proof. intros Hm Ht Hd. unfold kept. rewrite Hd. split_and!; [done|done|by apply named_weaken|]. intros x Hx. right. eauto. Qed.
Lemma kept_update (P : Delivery.t -> Prop) w f k : (forall x, Delivery.id (f x) = Delivery.id x) -> (forall x, x ∈ deliveries k -> P x -> w x = true -> f x = x) -> kept P k (upd_deliveries (update_where w f) k).
Proof.
  intros Hid Hsame. split_and!; [simpl; lia|done|by apply named_update|]. intros x' (x & -> & Hx)%list_elem_of_fmap. right. exists x.
  destruct (w x) eqn:E; [|done]. split_and!; [done| |]; auto.
Qed.
Lemma kept_filter P p k : kept P k (upd_deliveries (List.filter p) k).
Proof. split_and!; [simpl; lia|done|apply named_filter|]. intros x [Hx _]%elem_of_filterb. right. eauto. Qed.
Hint Extern 4 (kept _ _ _) => apply kept_same; simpl; [lia|reflexivity|reflexivity] : keeps.
Hint Extern 5 (keeps _ (modify _)) => apply keeps_modify; intros; eauto with keeps : keeps.

Lemma new_id_kept P : keeps (kept P) new_id.
Proof. unfold new_id. keeps_tac. Qed.
Lemma draw_kept P : keeps (kept P) draw.
Proof. unfold draw. keeps_tac. Qed.
Hint Resolve new_id_kept draw_kept : keeps.
Lemma create_delivery_kept P i p : keeps (kept P) (create_delivery i p).
Proof.
  intros k k' x Hm. unfold create_delivery, new_id, now in Hm. m_inv. split_and!; [simpl; lia|done| |].
  - intros Hn. by apply named_app.
  - simpl. intros z [Hz| ->%list_elem_of_singleton]%elem_of_app; [right; eauto|]. left. eexists. split; [|done]. lia.
Qed.
Lemma assertBranch_kept P b : keeps (kept P) (assertBranch b).
Proof. unfold assertBranch. keeps_tac. Qed.
Lemma audit_kept P u a i : keeps (kept P) (audit u a i).
Proof. unfold audit. keeps_tac. Qed.
Lemma new_payload_kept P t b d : keeps (kept P) (new_payload t b d).
Proof. unfold new_payload, now. keeps_tac. Qed.
Hint Resolve create_delivery_kept assertBranch_kept audit_kept new_payload_kept : keeps.

(** Nobody but its dispatcher touches a delivery that is delivered or claimed. *)
Definition held (r : Request) (at_ : Z) (x : Delivery.t) : Prop :=
  Delivery.status x = delivered \/ (exists t, Delivery.lockedUntil x = Some t /\ at_ <= t) /\ switches_off r x = false.
Lemma retry_kept i k k' : queue_retry i k = Ok (k', tt) -> kept (held (Retry i) (time k)) k k'.
Proof.
  intros Hm. unfold queue_retry, now in Hm. m_inv. apply kept_update; [done|]. intros x _ Hh [[_ Hs%negb_true_iff]%andb_prop Hf]%andb_prop.
  apply bool_decide_eq_false in Hs. destruct Hh as [|[(t & Hl & Ht) _]]; [done|]. unfold free in Hf. rewrite Hl in Hf. apply Z.ltb_lt in Hf. lia.
Qed.
Lemma drop_kept i dto u at_ : uw_isActive dto = Some false -> keeps (kept (held (ChangeHook i dto u) at_)) (dropWaiting i).
Proof.
  intros Hoff. unfold dropWaiting. apply keeps_modify. intros k. apply kept_update; [done|].
  intros x _ Hh [Hw Hs]%andb_prop. apply bool_decide_eq_true in Hs. destruct Hh as [Hd|[_ Hn]]; [congruence|].
  simpl in Hn. rewrite (bool_decide_true _ Hoff), Hw in Hn. done.
Qed.
Lemma change_kept i dto u at_ : keeps (kept (held (ChangeHook i dto u) at_)) (updateWebhook i dto u).
Proof.
  unfold updateWebhook. repeat (cbn beta; match goal with |- keeps _ (if _ then dropWaiting _ else _) => fail 1 | _ => keeps_step end).
  destruct (_ && negb _) eqn:E; [|keeps_tac]. apply drop_kept.
  apply andb_prop in E as [Ha Hn%negb_true_iff]. destruct (uw_isActive dto) as [[]|]; simpl in Hn; congruence.
Qed.
Lemma emit_kept P b types data : keeps (kept P) (emit b types data).
Proof. unfold emit. keeps_tac. Qed.
Lemma prune_kept P : keeps (kept P) prune.
Proof. unfold prune, now. keeps_tac. apply keeps_modify. intros k. apply kept_filter. Qed.
Hint Resolve emit_kept prune_kept : keeps.
(** What a request leaves as it was *)
Lemma run_kept r k k' : run r k = Ok (k', tt) -> kept (held r (time k)) k k'.
Proof.
  intros Hm. assert ((exists i, r = Retry i) \/ keeps (kept (held r (time k))) (run r)) as [[i ->]|Hr]; [|by apply retry_kept|by eapply Hr].
  destruct r; try (left; eexists; reflexivity); right; simpl; [apply emit_kept|..].
  - unfold queue_test. keeps_tac.
  - keeps_tac.
  - unfold createWebhook, now. keeps_tac.
  - apply change_kept.
  - unfold encryptSecrets. keeps_tac.
  - unfold createApiKey, now. keeps_tac.
  - unfold updateApiKey. keeps_tac.
  - unfold revokeApiKey, now. keeps_tac.
  - unfold authenticate, now. keeps_tac.
Qed.

(** ** Order *)
(** A delivery on its way is pending and claimed for as long as it can be; one that
    was delivered says so, and is on nobody's way again. *)
Record in_order (w : World) : Prop := {
  io_named : named Delivery.id (made (box w)) (deliveries (box w));
  io_apart : NoDup (fl_id <$> flying w);
  io_known : forall f n, f ∈ flying w -> (made (box w) <= n)%nat -> fl_id f <> gen_random_uuid n;
  io_locked : forall f x, f ∈ flying w -> x ∈ deliveries (box w) -> Delivery.id x = fl_id f ->
    Delivery.status x = pending /\ Delivery.lockedUntil x = Some (fl_at f + CLAIM_MS) /\ Delivery.webhookId x = Delivery.webhookId (fl_row f);
  io_time : forall f, f ∈ flying w -> time (box w) <= fl_at f + CLAIM_MS;
  io_once : NoDup (landed w);
  io_old : forall i n, i ∈ landed w -> (made (box w) <= n)%nat -> i <> gen_random_uuid n;
  io_final : forall i x, i ∈ landed w -> x ∈ deliveries (box w) -> Delivery.id x = i -> Delivery.status x = delivered;
  io_settled : forall f, f ∈ flying w -> fl_id f ∉ landed w;
}.
Lemma passes_ok w ms : 0 <= ms -> (forall f, f ∈ flying w -> time (box w) + ms <= fl_at f + CLAIM_MS) -> in_order w ->
  in_order {| box := upd_time (fun t => t + ms) (box w); flying := flying w; landed := landed w |}.
Proof. intros Hms Ht []. by constructor. Qed.
(** A transaction that leaves what is delivered or on its way as it was *)
Lemma kept_ok w k P : kept P (box w) k -> (forall x, x ∈ deliveries (box w) -> Delivery.id x ∈ landed w \/ Delivery.id x ∈ fl_id <$> flying w -> P x) ->
  in_order w -> in_order {| box := k; flying := flying w; landed := landed w |}.
Proof.
  intros (Hm & Ht & Hn & Hx) HP [].
  assert (Hold : forall x', x' ∈ deliveries k -> Delivery.id x' ∈ landed w \/ Delivery.id x' ∈ fl_id <$> flying w -> x' ∈ deliveries (box w)).
  { intros x' Hx' Hi. destruct (Hx x' Hx') as [(n & Hn' & E)|(x & Hxx & E & Hs)].
    - exfalso. destruct Hi as [Hi|(f & E' & Hf)%list_elem_of_fmap]; [by eapply io_old0|]. eapply io_known0; [done|exact Hn'|]. congruence.
    - rewrite <- E in Hi. rewrite Hs by auto. done. }
  constructor; simpl; [auto|done| | |by rewrite Ht|done| | |done].
  - intros f n Hf Hn'. apply io_known0; [done|lia].
  - intros f x Hf Hxk E. apply io_locked0; [done| |done]. apply Hold; [done|]. right. rewrite E. by apply list_elem_of_fmap_2.
  - intros i n Hi Hn'. apply io_old0; [done|lia].
  - intros i x Hi Hxk E. eapply io_final0; [done| |done]. apply Hold; [done|]. left. by rewrite E.
Qed.
Lemma request_ok w r k : (forall f, f ∈ flying w -> switches_off r (fl_row f) = false) -> run r (box w) = Ok (k, tt) -> in_order w ->
  in_order {| box := k; flying := flying w; landed := landed w |}.
Proof.
  intros Hr Hm Ho. eapply kept_ok; [by apply run_kept| |done]. intros x Hx [Hi|(f & E & Hf)%list_elem_of_fmap].
  - left. by eapply io_final.
  - right. destruct (io_locked _ Ho f x Hf Hx E) as (_ & Hl & Hw). split.
    + eexists. split; [done|]. by apply io_time.
    + rewrite <- (Hr f Hf). destruct r; [done..| |done|done|done|done|done]. simpl. by rewrite Hw.
Qed.
Lemma claimable_not_flying w i x f : in_order w -> x ∈ deliveries (box w) -> claimable i (time (box w)) x = true -> f ∈ flying w -> fl_id f <> i.
Proof.
  intros Ho Hx [[Hi _]%andb_prop Hfree]%andb_prop Hf E. apply bool_decide_eq_true in Hi.
  destruct (io_locked _ Ho f x Hf Hx) as (_ & Hl & _); [congruence|]. unfold free in Hfree. rewrite Hl in Hfree. apply Z.ltb_lt in Hfree.
  pose proof (io_time _ Ho f Hf). lia.
Qed.
(** Claiming writes on the one row, and only where nobody is sending it. *)
Lemma claim_kept w i k o : in_order w -> claim i (box w) = Ok (k, o) ->
  kept (fun x => claimable i (time (box w)) x = false) (box w) k /\ k = upd_deliveries (update_where (claimable i (time (box w))) (Delivery.with_lock (Some (time (box w) + CLAIM_MS)))) (box w).
Proof.
  intros Ho Hm. assert (k = upd_deliveries (update_where (claimable i (time (box w))) (Delivery.with_lock (Some (time (box w) + CLAIM_MS)))) (box w)) as ->.
  { unfold claim, now in Hm. m_inv. destruct (negb _); m_inv; done. }
  split; [|done]. apply kept_update; [done|]. intros x _ Hc Hc'. congruence.
Qed.
(** What is delivered or on its way cannot be claimed. *)
Lemma not_claimable w i x : in_order w -> x ∈ deliveries (box w) -> Delivery.id x ∈ landed w \/ Delivery.id x ∈ fl_id <$> flying w -> claimable i (time (box w)) x = false.
Proof.
  intros Ho Hx Hi. destruct (claimable _ _ x) eqn:Hc; [|done]. destruct Hi as [Hi|(f & E & Hf)%list_elem_of_fmap].
  - pose proof (io_final _ Ho _ x Hi Hx eq_refl) as Hd. unfold claimable in Hc. rewrite Hd, andb_false_r in Hc. done.
  - exfalso. apply (claimable_not_flying w i x f Ho Hx Hc Hf). unfold claimable, delivery_where in Hc. rewrite !andb_true_iff, bool_decide_eq_true in Hc. naive_solver congruence.
Qed.
Lemma left_alone_ok w i k o : claim i (box w) = Ok (k, o) -> in_order w -> in_order {| box := k; flying := flying w; landed := landed w |}.
Proof. intros Hm Ho. destruct (claim_kept w i k o Ho Hm) as [Hk _]. eapply kept_ok; [exact Hk| |done]. intros x Hx Hi. by apply not_claimable. Qed.
(** The row that is claimed *)
Lemma claimed_row w i k row hook : in_order w -> claim i (box w) = Ok (k, Some (row, hook)) ->
  exists x, x ∈ deliveries (box w) /\ claimable i (time (box w)) x = true /\ row = Delivery.with_lock (Some (time (box w) + CLAIM_MS)) x /\ Delivery.id x = i.
Proof.
  intros Ho Hm. pose proof (io_named _ Ho) as Hn. unfold claim, now in Hm. m_inv. destruct (negb _) eqn:E; [m_inv; done|]. m_inv.
  rewrite negb_false_iff, bool_decide_eq_true in E. destruct (List.filter _ _) as [|x []] eqn:Ef; try done.
  assert (x ∈ List.filter (claimable i (time (box w))) (deliveries (box w))) as [Hx Hc]%elem_of_filterb by (rewrite Ef; constructor).
  assert (Delivery.id x = i) as <-. { unfold claimable, delivery_where in Hc. rewrite !andb_true_iff, bool_decide_eq_true in Hc. naive_solver. }
  exists x. split_and!; [done..| |done].
  symmetry in Efind0. apply find_Some in Efind0 as [(y & -> & Hy)%list_elem_of_fmap Hi]. apply bool_decide_eq_true in Hi.
  assert (y = x) as -> by (eapply named_inj; [done..|]; by destruct (claimable _ _ y)). by rewrite Hc.
Qed.
Lemma claims_ok w i k row hook : claim i (box w) = Ok (k, Some (row, hook)) -> in_order w ->
  in_order {| box := k; flying := {| fl_row := row; fl_hook := hook; fl_at := time (box w) |} :: flying w; landed := landed w |}.
Proof.
  intros Hm Ho. pose proof (left_alone_ok w i k _ Hm Ho) as Ho'. destruct (claimed_row w i k row hook Ho Hm) as (x & Hx & Hc & -> & Hi).
  destruct (claim_kept w i k _ Ho Hm) as [_ ->]. set (f := {| fl_row := _ |}).
  assert (Hid : fl_id f = Delivery.id x) by done.
  assert (Hnf : Delivery.id x ∉ fl_id <$> flying w) by (intros Hin; rewrite (not_claimable w i x Ho Hx (or_intror Hin)) in Hc; done).
  assert (Hnl : Delivery.id x ∉ landed w) by (intros Hin; rewrite (not_claimable w i x Ho Hx (or_introl Hin)) in Hc; done).
  pose proof (io_named _ Ho) as Hn. destruct Ho'. constructor; simpl in *.
  - done.
  - rewrite Hid. by constructor.
  - intros g n [->|Hg]%elem_of_cons; [|auto]. rewrite Hid. by apply Hn.
  - intros g y [->|Hg]%elem_of_cons Hy E; [|auto]. apply list_elem_of_fmap in Hy as (z & -> & Hz).
    assert (z = x) as ->. { eapply named_inj; [exact Hn|done..|]. rewrite <- Hid, <- E. by destruct (claimable _ _ z). }
    rewrite Hc. simpl. split_and!; [|done..]. unfold claimable in Hc. rewrite !andb_true_iff, !bool_decide_eq_true in Hc. naive_solver.
  - intros g [->|Hg]%elem_of_cons; [simpl; unfold CLAIM_MS; lia|auto].
  - done.
  - done.
  - done.
  - intros g [->|Hg]%elem_of_cons; auto.
Qed.
Lemma goes_down_ok w l1 f l2 : flying w = l1 ++ f :: l2 -> in_order w -> in_order {| box := box w; flying := l1 ++ l2; landed := landed w |}.
Proof.
  intros Hf []. assert (Hin : forall g, g ∈ l1 ++ l2 -> g ∈ flying w) by (intros g; rewrite Hf, !elem_of_app, elem_of_cons; tauto).
  constructor; simpl; eauto. rewrite Hf, fmap_app, fmap_cons in io_apart0. rewrite fmap_app. apply NoDup_app. apply NoDup_app in io_apart0 as (? & Hd & ?%NoDup_cons).
  split_and!; [done| |naive_solver]. intros i Hi Hi2. apply (Hd i Hi). by right.
Qed.
(** Recording writes on the one row of the delivery that was on its way. *)
Lemma finish_writes f result k k' x : finish (fl_row f) (fl_hook f) result k = Ok (k', x) ->
  exists data, k' = upd_deliveries (update_where (delivery_where (fl_id f)) data) k /\ (forall y, Delivery.id (data y) = Delivery.id y) /\ (forall y, Delivery.status x = delivered -> Delivery.status (data y) = delivered).
Proof.
  intros Hm. unfold finish in Hm. destruct (negb _).
  - unfold record_ in Hm. m_inv. by eexists.
  - unfold record_, now in Hm. m_inv. eexists. split_and!; [done|..]; intros y; unfold outcome; by destruct (wp_ok result), (lastTry (fl_row f)).
Qed.
Lemma records_ok w l1 f l2 result k x : flying w = l1 ++ f :: l2 -> finish (fl_row f) (fl_hook f) result (box w) = Ok (k, x) -> in_order w ->
  in_order {| box := k; flying := l1 ++ l2; landed := if bool_decide (Delivery.status x = delivered) then fl_id f :: landed w else landed w |}.
Proof.
  intros Hf Hm Ho. destruct (finish_writes f result _ _ _ Hm) as (data & -> & Hid & Hd).
  assert (Hff : f ∈ flying w) by (rewrite Hf, elem_of_app, elem_of_cons; tauto).
  assert (Hg : forall g, g ∈ l1 ++ l2 -> fl_id g <> fl_id f).
  { pose proof (io_apart _ Ho) as Hnd. rewrite Hf, fmap_app, fmap_cons in Hnd. apply NoDup_app in Hnd as (_ & Hnd & [Hn2 _]%NoDup_cons).
    intros g [Hg|Hg]%elem_of_app E; [apply (Hnd (fl_id g)); [by apply list_elem_of_fmap_2|rewrite E; left]|apply Hn2; rewrite <- E; by apply list_elem_of_fmap_2]. }
  pose proof (io_settled _ Ho f Hff) as Hns. pose proof (io_known _ Ho f) as Hkf.
  assert (Hk : in_order {| box := upd_deliveries (update_where (delivery_where (fl_id f)) data) (box w); flying := l1 ++ l2; landed := landed w |}).
  { refine (kept_ok {| box := box w; flying := l1 ++ l2; landed := landed w |} _ (fun y => Delivery.id y <> fl_id f) _ _ (goes_down_ok _ _ _ _ Hf Ho)); simpl.
    - apply kept_update; [done|]. intros y _ Hne Hw. by apply bool_decide_eq_true in Hw.
    - intros y Hy [Hi|(g & E & Hgl)%list_elem_of_fmap]; [by intros E; rewrite E in Hi|]. rewrite E. by apply Hg. }
  case_bool_decide as Hdel; [|done]. destruct Hk. constructor; simpl in *; [done..| | | |].
  - by constructor.
  - intros i n [->|Hi]%elem_of_cons Hn; [by apply Hkf|eauto].
  - intros i y [->|Hi]%elem_of_cons Hy E; [|eauto]. apply list_elem_of_fmap in Hy as (z & -> & Hz).
    destruct (delivery_where _ z) eqn:Ew; [auto|]. apply bool_decide_eq_false in Ew. congruence.
  - intros g Hgl [E|Hi]%elem_of_cons; [by apply (Hg g Hgl)|]. by apply (io_settled0 g Hgl).
Qed.
Lemma step_ok w w' : step true w w' -> in_order w -> in_order w'.
Proof. intros [] ?; eauto using passes_ok, request_ok, left_alone_ok, claims_ok, records_ok, goes_down_ok. Qed.
Lemma steps_ok w w' : steps true w w' -> in_order w -> in_order w'.
Proof. induction 1; eauto using step_ok. Qed.
Lemma claim_misses w i k o : in_order w -> claim i (box w) = Ok (k, o) -> i ∈ landed w \/ i ∈ fl_id <$> flying w -> o = None.
Proof.
  intros Ho Hm Hi. destruct o as [[row hook]|]; [|done]. destruct (claimed_row w i k row hook Ho Hm) as (x & Hx & Hc & _ & <-).
  by rewrite (not_claimable w _ x Ho Hx Hi) in Hc.
Qed.

(** ** Keys *)
(** Rows keep their names and new ones get new names; what was revoked stays so. *)
Definition keys_kept (k k' : Outbox) : Prop :=
  (made k <= made k')%nat /\ (named ApiKey.id (made k) (keys k) -> named ApiKey.id (made k') (keys k')) /\
  forall x', x' ∈ keys k' -> (exists n, (made k <= n)%nat /\ ApiKey.id x' = gen_random_uuid n) \/
    exists x, x ∈ keys k /\ ApiKey.id x = ApiKey.id x' /\ (isSome (ApiKey.revokedAt x) = true -> isSome (ApiKey.revokedAt x') = true).
#[local] Instance keys_kept_preorder : PreOrder keys_kept.
Proof.
  split.
  - intros k. split_and!; [lia|done|]. intros x Hx. right. eauto.
  - intros a b c (M1 & N1 & R1) (M2 & N2 & R2). split_and!; [lia|tauto|].
    intros z Hz. destruct (R2 z Hz) as [(n & Hn & E)|(y & Hy & E & HP)]; [left; exists n; split; [lia|done]|].
    destruct (R1 y Hy) as [(n & Hn & E1)|(x & Hx & E1 & HP1)]; [left; exists n; split; [done|congruence]|].
    right. exists x. split_and!; [done|congruence|auto].
Qed.
Lemma keys_same k k' : (made k <= made k')%nat -> keys k' = keys k -> keys_kept k k'.
Proof. intros Hm Hd. unfold keys_kept. rewrite Hd. split_and!; [done|by apply named_weaken|]. intros x Hx. right. eauto. Qed.
Lemma keys_update w f k : (forall x, ApiKey.id (f x) = ApiKey.id x) -> (forall x, isSome (ApiKey.revokedAt x) = true -> isSome (ApiKey.revokedAt (f x)) = true) -> keys_kept k (upd_keys (update_where w f) k).
Proof.
  intros Hid Hr. split_and!; [simpl; lia|by apply named_update|]. intros x' (x & -> & Hx)%list_elem_of_fmap. right. exists x.
  destruct (w x); split_and!; auto.
Qed.
Hint Extern 3 (keys_kept _ _) => apply keys_same; simpl; [lia|reflexivity] : keeps.
Hint Extern 4 (keys_kept _ _) => apply keys_update; [done|done] : keeps.
Lemma checked_kept b : keeps keys_kept (match set_string b with Some b => assertBranch b | None => ret tt end).
Proof. unfold assertBranch. keeps_tac. Qed.
Lemma created_key_kept dto u : keeps keys_kept (createApiKey dto u).
Proof.
  unfold createApiKey. apply keeps_bind; [typeclasses eauto|unfold draw; keeps_tac|intros hex].
  apply keeps_bind; [typeclasses eauto|apply checked_kept|intros _].
  intros k k' x Hm. unfold new_id, now, audit in Hm. m_inv. split_and!; [simpl; lia| |].
  - intros Hn. by apply named_app.
  - simpl. intros z [Hz| ->%list_elem_of_singleton]%elem_of_app; [right; eauto|]. left. eexists. split; [|done]. lia.
Qed.
Lemma revoke_kept i u : keeps keys_kept (revokeApiKey i u).
Proof. unfold revokeApiKey, now, audit. keeps_tac. Qed.
Lemma create_delivery_keys i p : keeps keys_kept (create_delivery i p).
Proof. unfold create_delivery, new_id, now. keeps_tac. Qed.
Lemma new_payload_keys t b d : keeps keys_kept (new_payload t b d).
Proof. unfold new_payload, new_id, now. keeps_tac. Qed.
Hint Resolve checked_kept created_key_kept revoke_kept create_delivery_keys new_payload_keys : keeps.
Lemma run_keys r : keeps keys_kept (run r).
Proof.
  destruct r; simpl; try keeps_tac.
  - unfold emit. keeps_tac.
  - unfold queue_test. keeps_tac.
  - unfold queue_retry, now. keeps_tac.
  - unfold prune, now. keeps_tac.
  - unfold createWebhook, draw, new_id, now, assertBranch, audit. keeps_tac.
  - unfold updateWebhook, assertBranch, dropWaiting, audit. keeps_tac.
  - unfold encryptSecrets. keeps_tac.
  - unfold updateApiKey, assertBranch, audit. keeps_tac.
  - unfold authenticate, now. keeps_tac.
Qed.
Lemma claim_keys i : keeps keys_kept (claim i).
Proof. unfold claim, now. keeps_tac. Qed.
Lemma finish_keys row hook result : keeps keys_kept (finish row hook result).
Proof. unfold finish, record_, now. keeps_tac. Qed.
Lemma step_keys b w w' : step b w w' -> keys_kept (box w) (box w').
Proof.
  intros []; simpl; try done; [by apply keys_same|by eapply run_keys|by eapply claim_keys|by eapply claim_keys|by eapply finish_keys].
Qed.
Lemma steps_keys b w w' : steps b w w' -> keys_kept (box w) (box w').
Proof. induction 1; [done|]. etransitivity; [by eapply step_keys|done]. Qed.
Lemma revoked_row i u k k' x : named ApiKey.id (made k) (keys k) -> revokeApiKey i u k = Ok (k', tt) -> x ∈ keys k' -> ApiKey.id x = i -> isSome (ApiKey.revokedAt x) = true.
Proof.
  intros Hn Hm Hx. unfold revokeApiKey, now, audit in Hm. m_inv. symmetry in Efind. apply find_Some in Efind as [Hv Hid]. apply bool_decide_eq_true in Hid.
  destruct (isSome (ApiKey.revokedAt v)) eqn:Er.
  - m_inv. intros Hid%symmetry. pose proof (named_inj _ _ _ _ _ Hn Hv Hx Hid) as <-. done.
  - m_inv. simpl in Hx. apply list_elem_of_fmap in Hx as (y & -> & Hy). unfold key_where in *.
    case_bool_decide; done.
Qed.
Lemma authenticate_Ok o raw k k' key : authenticate o raw k = Ok (k', Some key) -> key ∈ keys k /\ ApiKey.keyHash key = hashApiKey raw /\ ApiKey.revokedAt key = None.
Proof.
  unfold authenticate, now. intros Hm. destruct (_ || _); [m_inv; done|]. m_inv. destruct (List.find _ _) as [x|] eqn:Efind; m_inv; [|done].
  apply find_Some in Efind as [Hx [Hh%bool_decide_eq_true Hr]%andb_prop]. split_and!; [done..|]. by destruct (ApiKey.revokedAt key).
Qed.

(** A revoked key opens nothing, ever again. Whatever keys are made, changed and
    used and whatever else happens after a key was revoked, whoever is let in with a
    key comes in by another one, which has the presented key's hash and is not revoked. *)
Theorem revoked_key_opens_nothing b w0 k w i u open raw k' key :
  named ApiKey.id (made (box w0)) (keys (box w0)) -> revokeApiKey i u (box w0) = Ok (k, tt) ->
  steps b {| box := k; flying := flying w0; landed := landed w0 |} w -> authenticate open raw (box w) = Ok (k', Some key) ->
  ApiKey.id key <> i /\ ApiKey.keyHash key = hashApiKey raw /\ ApiKey.revokedAt key = None.
Proof.
  intros Hn Hrev Hs Ha. destruct (authenticate_Ok _ _ _ _ _ Ha) as (Hk & Hh & Hr). split_and!; [|done..]. intros E.
  pose proof (revoke_kept i u _ _ _ Hrev) as (_ & Hn1 & _). destruct (steps_keys _ _ _ Hs) as (_ & Hn2 & Hold). simpl in *.
  assert (Hfound : exists x, x ∈ keys k /\ ApiKey.id x = i).
  { unfold revokeApiKey in Hrev. m_inv. symmetry in Efind. apply find_Some in Efind as [Hv Hid]. apply bool_decide_eq_true in Hid.
    destruct (isSome _); unfold now, audit in Hrev; m_inv; [eauto|]. simpl.
    eexists. split; [by apply list_elem_of_fmap_2, Hv|]. by destruct (key_where _ v). }
  destruct (Hold key Hk) as [(n & Hle & En)|(x & Hx & Ex & Hrx)].
  - destruct Hfound as (x & Hx & Exi). destruct (Hn1 Hn) as [_ Hnew]. apply (Hnew x n Hx Hle). congruence.
  - rewrite Hr in Hrx. specialize (Hrx (revoked_row i u _ _ x Hn Hrev Hx ltac:(congruence))). done.
Qed.
End Runs.

(** ** When a receiver keeps refusing *)
(** One more try that is refused, made when it is due and answered after [took]. *)
Definition refused (took : Z) (x : Delivery.t) : Delivery.t := outcome x {| wp_ok := false; wp_status := Some 500 |} (Delivery.nextAttemptAt x + took) x.
(** There is a wait for every try that is not the last. *)
Lemma retry_delay_known x : 0 <= Delivery.attempts x -> lastTry x = false -> exists d, retry_delay (Delivery.attempts x + 1) = Some d /\ 60000 <= d.
Proof.
  unfold lastTry, retry_delay, MAX_ATTEMPTS. intros Ha [Hl%Z.leb_gt _]%orb_false_elim. assert ((Delivery.attempts x + 1 <? 1) = false) as -> by lia.
  assert (0 <= Delivery.attempts x < 7) as Hb by lia. replace (Delivery.attempts x + 1 - 1) with (Delivery.attempts x) by lia.
  generalize dependent (Delivery.attempts x). intros a _ _ Hb. assert (a = 0 \/ a = 1 \/ a = 2 \/ a = 3 \/ a = 4 \/ a = 5 \/ a = 6) as E by lia.
  destruct E as [->|[->|[->|[->|[->|[->| ->]]]]]]; eexists; (split; [reflexivity|lia]).
Qed.
Definition waits (n : nat) : Z := zsum (take n RETRY_DELAYS_MS).
Lemma waits_step n d : RETRY_DELAYS_MS !! n = Some d -> waits (S n) = waits n + d.
Proof. unfold waits. intros Hd. do 7 (destruct n as [|n]; [injection Hd as <-; reflexivity|]). discriminate. Qed.
Lemma refused_so_far took x n : Delivery.eventType x <> TEST_EVENT_TYPE -> Delivery.status x = pending -> Delivery.attempts x = 0 -> (n < 8)%nat ->
  let y := Nat.iter n (refused took) x in
  Delivery.eventType y = Delivery.eventType x /\ Delivery.status y = pending /\ Delivery.attempts y = Z.of_nat n /\
  Delivery.nextAttemptAt y = Delivery.nextAttemptAt x + waits n + Z.of_nat n * took.
Proof.
  intros Ht Hs Ha. induction n as [|n IH]; intros Hn; [simpl; split_and!; [done..|unfold waits; simpl; lia]|].
  destruct IH as (E1 & E2 & E3 & E4); [lia|]. simpl in *. set (y := Nat.iter n _ x) in *.
  assert (Hl : lastTry y = false). { unfold lastTry, MAX_ATTEMPTS. rewrite E3, E1, (bool_decide_false _ Ht). lia. }
  assert (exists d, retry_delay (Delivery.attempts y + 1) = Some d) as [d Hd] by (destruct (retry_delay_known y) as (d & Hd & _); [lia|done|eauto]).
  pose proof Hd as Hd'. unfold retry_delay in Hd'. rewrite E3 in Hd'. assert ((Z.of_nat n + 1 <? 1) = false) as Hlt by lia. rewrite Hlt in Hd'.
  replace (Z.to_nat (Z.of_nat n + 1 - 1)) with n in Hd' by lia. apply waits_step in Hd'.
  unfold refused, outcome. rewrite Hl, Hd. simpl. split_and!; [done|done|lia|]. rewrite E4, Hd'. lia.
Qed.
(** Eight tries, the last 22 hours 21 minutes after the first (and as long as the answers took). *)
Lemma given_up_after_eight took x : Delivery.eventType x <> TEST_EVENT_TYPE -> Delivery.status x = pending -> Delivery.attempts x = 0 ->
  (forall n, (n < 8)%nat -> Delivery.status (Nat.iter n (refused took) x) = pending /\ Delivery.attempts (Nat.iter n (refused took) x) = Z.of_nat n) /\
  Delivery.status (Nat.iter 8 (refused took) x) = failed /\
  Delivery.nextAttemptAt (Nat.iter 7 (refused took) x) = Delivery.nextAttemptAt x + 22 * 3600000 + 21 * 60000 + 7 * took.
Proof.
  intros Ht Hs Ha. pose proof (fun n => refused_so_far took x n Ht Hs Ha) as Hr. split_and!.
  - intros n Hn. specialize (Hr n Hn). naive_solver.
  - destruct (Hr 7%nat) as (_ & _ & E & _); [lia|]. change (Nat.iter 8 (refused took) x) with (refused took (Nat.iter 7 (refused took) x)).
    unfold refused at 1. unfold outcome, lastTry, MAX_ATTEMPTS. rewrite E. done.
  - destruct (Hr 7%nat) as (_ & _ & _ & E); [lia|]. rewrite E. replace (waits 7) with 80460000 by reflexivity. lia.
Qed.

Module WebhookWitness.
Import Hotel.
#[export] Instance plain_secrets : Secrets :=
  {| random_hex := fun n => String.append "00000000000000000000000000000000000000000000000" (pretty (N.of_nat n)); encrypt := fun _ s => String.append "a:b:" s; decrypt := fun s => s; sha256_hex := fun s => s |}.
#[export] Existing Instance HttpWitness.host_only.
#[export] Instance live : Environment := true.
Definition partner : Hook.t :=
  {| Hook.id := "w1"; Hook.url := "https://partner.example.com/hook"; Hook.eventTypes := ["reservation.created"]; Hook.secret := "a:b:c"; Hook.branchId := None; Hook.isActive := true; Hook.createdAt := 0; Hook.createdBy := None |}.
Definition empty : Outbox := {| org := "t1"; time := 0; made := 0; drawn := 0; places := ["b1"]; hooks := [partner]; deliveries := []; keys := []; log := [] |}.
Definition news : Delivery.t :=
  {| Delivery.id := "1"; Delivery.webhookId := "w1"; Delivery.eventId := "0"; Delivery.eventType := "reservation.created";
     Delivery.payload := {| p_id := "0"; p_type := "reservation.created"; p_createdAt := 0; p_tenantId := "t1"; p_branchId := Some "b1"; p_data := "r1" |}; Delivery.status := pending; Delivery.attempts := 0;
     Delivery.nextAttemptAt := 0; Delivery.lockedUntil := None; Delivery.lastAttemptAt := None; Delivery.responseStatus := None; Delivery.deliveredAt := None; Delivery.createdAt := 0 |}.
Definition after_ {A} (m : T A) (k : Outbox) : Outbox := match m k with Ok (k', _) => k' | Err _ => k end.
Definition queued : Outbox := after_ (emit "b1" ["reservation.created"] "r1") empty.
Definition world (k : Outbox) (l : list Flight) (d : list string) : World := {| box := k; flying := l; landed := d |}.
Example one_queued : deliveries queued = [news].
Proof. vm_compute. reflexivity. Qed.
Lemma empty_named : named Delivery.id (made empty) (deliveries empty).
Proof. split; [apply NoDup_nil_2|]. by intros x n ?%elem_of_nil. Qed.
(** A delivery queued, claimed and delivered: nobody can claim it again. *)
Definition claimed_box : Outbox := after_ (claim "1") queued.
Definition flight : Flight := {| fl_row := Delivery.with_lock (Some CLAIM_MS) news; fl_hook := partner; fl_at := 0 |}.
Definition yes : WebhookPostResult := {| wp_ok := true; wp_status := Some 200 |}.
Definition done_box : Outbox := after_ (finish (fl_row flight) partner yes) claimed_box.
Lemma delivered_run : steps true (world empty [] []) (world done_box [] ["1"]).
Proof.
  eapply rtc_l; [apply (asked true _ (Emit "b1" ["reservation.created"] "r1") queued); [by intros _ f ?%elem_of_nil|vm_compute; reflexivity]|].
  eapply rtc_l; [apply (claims true _ "1" claimed_box (fl_row flight) partner); vm_compute; reflexivity|].
  eapply rtc_l; [eapply (records true _ [] flight [] yes done_box); vm_compute; reflexivity|]. vm_compute. apply rtc_refl.
Qed.
(** Switched off and on again under a delivery on its way, the webhook is sent the
    same delivery twice at once by the first click on "Retry". *)
Definition off : UpdateWebhookDto := {| uw_url := None; uw_eventTypes := None; uw_branchId := None; uw_isActive := Some false |}.
Definition on : UpdateWebhookDto := {| uw_url := None; uw_eventTypes := None; uw_branchId := None; uw_isActive := Some true |}.
Definition dropped : Outbox := after_ (updateWebhook "w1" off "u1") claimed_box.
Definition reopened : Outbox := after_ (updateWebhook "w1" on "u1") dropped.
Definition requeued : Outbox := after_ (queue_retry "1") reopened.
Example switched_off_then_sent_twice : exists k l, steps false (world empty [] []) (world k l []) /\ fl_id <$> l = ["1"; "1"].
Proof.
  eexists (after_ (claim "1") requeued), [flight; flight]. split; [|reflexivity].
  eapply rtc_l; [apply (asked false _ (Emit "b1" ["reservation.created"] "r1") queued); [done|vm_compute; reflexivity]|].
  eapply rtc_l; [apply (claims false _ "1" claimed_box (fl_row flight) partner); vm_compute; reflexivity|].
  eapply rtc_l; [apply (asked false _ (ChangeHook "w1" off "u1") dropped); [done|vm_compute; reflexivity]|].
  eapply rtc_l; [apply (asked false _ (ChangeHook "w1" on "u1") reopened); [done|vm_compute; reflexivity]|].
  eapply rtc_l; [apply (asked false _ (Retry "1") requeued); [done|vm_compute; reflexivity]|].
  eapply rtc_l; [apply (claims false _ "1" (after_ (claim "1") requeued) (fl_row flight) partner); vm_compute; reflexivity|]. vm_compute. apply rtc_refl.
Qed.
(** A key made, revoked, and a second one made *)
Definition reads : CreateApiKeyDto := {| ck_name := "Accounting sync"; ck_scopes := ["folios"; "folios"]; ck_branchId := None |}.
Definition with_key : Outbox := after_ (createApiKey reads "u1") empty.
Definition with_revoked : Outbox := after_ (revokeApiKey "0" "u1") with_key.
Definition with_second : Outbox := after_ (createApiKey reads "u1") with_revoked.
Definition raw_key (n : nat) : string := String.append "rk_" (random_hex n).
Lemma key_named : named ApiKey.id (made with_key) (keys with_key).
Proof.
  split; [vm_compute; apply NoDup_singleton|]. intros x n Hx Hn E. apply list_elem_of_singleton in Hx as ->.
  assert (n = 0%nat) as -> by (symmetry; apply (inj gen_random_uuid); exact E). vm_compute in Hn. lia.
Qed.
Lemma revoked_key_opens_nothing_witness :
  (exists k, authenticate true (raw_key 0) with_second = Ok (k, None)) /\ exists k key, authenticate true (raw_key 1) with_second = Ok (k, Some key) /\ ApiKey.id key <> "0".
Proof.
  split; [eexists; vm_compute; reflexivity|]. destruct (authenticate true (raw_key 1) with_second) as [[k [key|]]|e] eqn:Ha; [|vm_compute in Ha; discriminate..].
  exists k, key. split; [reflexivity|]. refine (proj1 (revoked_key_opens_nothing true (world with_key [] []) with_revoked (world with_second [] []) "0" "u1" true (raw_key 1) k key key_named _ _ Ha)).
  - vm_compute. reflexivity.
  - apply rtc_once. apply (asked true (world with_revoked [] []) (AddKey reads "u1") with_second); [by intros _ f ?%elem_of_nil|vm_compute; reflexivity].
Defined.
(** A pass of the dispatcher: refused, then due again a minute later, then delivered *)
Definition no : WebhookPostResult := {| wp_ok := false; wp_status := Some 500 |}.
Example refused_then_delivered :
  let '(k1, s1) := dispatchForTenant (fun _ _ => no) 100 queued in
  let '(k2, s2) := dispatchForTenant (fun _ _ => yes) 100 k1 in
  let '(k3, s3) := dispatchForTenant (fun _ _ => yes) 100 (upd_time (fun t => t + 60000) k2) in
  (s1, s2, s3, Delivery.attempts <$> deliveries k3) =
    (Ok {| ds_delivered := 0; ds_retrying := 1; ds_failed := 0 |}, Ok {| ds_delivered := 0; ds_retrying := 0; ds_failed := 0 |}, Ok {| ds_delivered := 1; ds_retrying := 0; ds_failed := 0 |}, [2]).
Proof. vm_compute. reflexivity. Qed.
End WebhookWitness.
