(* ===== verification/Privacy.v ===== *)
(** Guests' personal data (src/src/modules/gdpr/{gdpr.service,retention.service}.ts):
    requests to see or erase it, erasing it, and how long registration cards and ID
    documents are kept. One organisation's rows, with the columns these services read
    and write; ciphers are left out (a stored file is what it holds), and so are the
    fields of an export that are not of the guest, the stays and the messages. *)
From Stdlib Require Import QArith Qcanon.
From S2P Require Import Prelude Decimal Dates Json Taxes Transactions Db Folios Guests.
Local Open Scope Z_scope.

(** ** Rows *)
Inductive GdprType := access | erasure | portability.
#[global] Instance GdprType_eq_dec : EqDecision GdprType.
Proof. solve_decision. Defined.
Inductive GdprStatus := waiting | in_progress | completed | rejected.
#[global] Instance GdprStatus_eq_dec : EqDecision GdprStatus.
Proof. solve_decision. Defined.
Module Person.
Record t := {
  id : string; name : string; email : option string; phone : option string; phoneDigits : option string; nationality : option string; idDocType : option string; idDocNumber : option string;
  idDocUrl : option string; idDocExpiryDate : option Z; preferences : option string; vipLevel : option Z; tags : list string; notes : option string; loyaltyPoints : option Z; marketingOptIn : bool;
  marketingOptInAt : option Z; marketingOptInSource : option string; marketingUnsubscribedAt : option Z; createdAt : Z; deletedAt : option Z }.
Definition without_id (x : t) : t :=
  {| id := id x; name := name x; email := email x; phone := phone x; phoneDigits := phoneDigits x; nationality := nationality x; idDocType := None; idDocNumber := None; idDocUrl := None;
     idDocExpiryDate := None; preferences := preferences x; vipLevel := vipLevel x; tags := tags x; notes := notes x; loyaltyPoints := loyaltyPoints x; marketingOptIn := marketingOptIn x;
     marketingOptInAt := marketingOptInAt x; marketingOptInSource := marketingOptInSource x; marketingUnsubscribedAt := marketingUnsubscribedAt x; createdAt := createdAt x; deletedAt := deletedAt x |}.
End Person.
Module Stay.
Record t := { id : string; guestId : string; status : ReservationStatus; checkOutDate : Z; specialRequests : option string; estimatedArrivalTime : option string; deletedAt : option Z }.
Definition plain (x : t) : t := {| id := id x; guestId := guestId x; status := status x; checkOutDate := checkOutDate x; specialRequests := None; estimatedArrivalTime := None; deletedAt := deletedAt x |}.
End Stay.
Module Bill.
Record t := { id : string; guestId : string; payerName : option string; payerEmail : option string; deletedAt : option Z }.
Definition with_payerName (n : option string) (x : t) : t := {| id := id x; guestId := guestId x; payerName := n; payerEmail := payerEmail x; deletedAt := deletedAt x |}.
Definition with_payerEmail (e : option string) (x : t) : t := {| id := id x; guestId := guestId x; payerName := payerName x; payerEmail := e; deletedAt := deletedAt x |}.
End Bill.
(** A charge or a payment *)
Module Entry.
Record t := { folioId : string; amount : Qc; isVoid : bool; deletedAt : option Z }.
End Entry.
Module Card.
Record t := { id : string; reservationId : string; guestId : string; fields : json; signatureData : option string; documentUrl : option string; purgedAt : option Z }.
Definition with_removed (f : json) (at_ : option Z) (x : t) : t := {| id := id x; reservationId := reservationId x; guestId := guestId x; fields := f; signatureData := None; documentUrl := None; purgedAt := at_ |}.
End Card.
Module Note.
Record t := { guestId : string; body : string }.
End Note.
Module Message.
Record t := { guestId : string; subject : option string; body : string; bodyHtml : option string }.
End Message.
Module Points.
Record t := { guestId : string; points : Z; description : string }.
End Points.
(** A delivery of an event, by the guests its payload names: of its booking, and its own *)
Module Event.
Record t := { reservationGuest : option string; guest : option string }.
End Event.
Module Trail.
Record t := { action : string; entityType : string; entityId : string; before : option string; after : string }.
End Trail.
Module Request.
Record t := { id : string; guestId : string; type : GdprType; status : GdprStatus; requestedBy : string; deadline : Z; completedAt : option Z; exportUrl : option string; notes : option string }.
Definition with_status (s : GdprStatus) (at_ : option Z) (n : option string) (x : t) : t :=
  {| id := id x; guestId := guestId x; type := type x; status := s; requestedBy := requestedBy x; deadline := deadline x; completedAt := at_; exportUrl := exportUrl x; notes := n |}.
Definition with_export (u : string) (x : t) : t :=
  {| id := id x; guestId := guestId x; type := type x; status := status x; requestedBy := requestedBy x; deadline := deadline x; completedAt := completedAt x; exportUrl := Some u; notes := notes x |}.
End Request.
Record Export := { ex_guest : Person.t; ex_stays : list Stay.t; ex_messages : list Message.t }.
(** A stored file: a document, or an export *)
Inductive File := Document | Exported (e : Export).
Record Registry := {
  time : Z; made : nat; retentionMonths : option Z; people : list Person.t; stays : list Stay.t; bills : list Bill.t; charges : list Entry.t; takings : list Entry.t; cards : list Card.t; notes : list Note.t;
  messages : list Message.t; ledger : list Points.t; events : list Event.t; trail : list Trail.t; requests : list Request.t; files : gmap string File }.
Definition upd_made (f : nat -> nat) (k : Registry) : Registry :=
  {| time := time k; made := f (made k); retentionMonths := retentionMonths k; people := people k; stays := stays k; bills := bills k; charges := charges k; takings := takings k; cards := cards k; notes := notes k; messages := messages k; ledger := ledger k; events := events k; trail := trail k; requests := requests k; files := files k |}.
Definition upd_retentionMonths (f : option Z -> option Z) (k : Registry) : Registry :=
  {| time := time k; made := made k; retentionMonths := f (retentionMonths k); people := people k; stays := stays k; bills := bills k; charges := charges k; takings := takings k; cards := cards k; notes := notes k; messages := messages k; ledger := ledger k; events := events k; trail := trail k; requests := requests k; files := files k |}.
Definition upd_people (f : list Person.t -> list Person.t) (k : Registry) : Registry :=
  {| time := time k; made := made k; retentionMonths := retentionMonths k; people := f (people k); stays := stays k; bills := bills k; charges := charges k; takings := takings k; cards := cards k; notes := notes k; messages := messages k; ledger := ledger k; events := events k; trail := trail k; requests := requests k; files := files k |}.
Definition upd_stays (f : list Stay.t -> list Stay.t) (k : Registry) : Registry :=
  {| time := time k; made := made k; retentionMonths := retentionMonths k; people := people k; stays := f (stays k); bills := bills k; charges := charges k; takings := takings k; cards := cards k; notes := notes k; messages := messages k; ledger := ledger k; events := events k; trail := trail k; requests := requests k; files := files k |}.
Definition upd_bills (f : list Bill.t -> list Bill.t) (k : Registry) : Registry :=
  {| time := time k; made := made k; retentionMonths := retentionMonths k; people := people k; stays := stays k; bills := f (bills k); charges := charges k; takings := takings k; cards := cards k; notes := notes k; messages := messages k; ledger := ledger k; events := events k; trail := trail k; requests := requests k; files := files k |}.
Definition upd_cards (f : list Card.t -> list Card.t) (k : Registry) : Registry :=
  {| time := time k; made := made k; retentionMonths := retentionMonths k; people := people k; stays := stays k; bills := bills k; charges := charges k; takings := takings k; cards := f (cards k); notes := notes k; messages := messages k; ledger := ledger k; events := events k; trail := trail k; requests := requests k; files := files k |}.
Definition upd_notes (f : list Note.t -> list Note.t) (k : Registry) : Registry :=
  {| time := time k; made := made k; retentionMonths := retentionMonths k; people := people k; stays := stays k; bills := bills k; charges := charges k; takings := takings k; cards := cards k; notes := f (notes k); messages := messages k; ledger := ledger k; events := events k; trail := trail k; requests := requests k; files := files k |}.
Definition upd_messages (f : list Message.t -> list Message.t) (k : Registry) : Registry :=
  {| time := time k; made := made k; retentionMonths := retentionMonths k; people := people k; stays := stays k; bills := bills k; charges := charges k; takings := takings k; cards := cards k; notes := notes k; messages := f (messages k); ledger := ledger k; events := events k; trail := trail k; requests := requests k; files := files k |}.
Definition upd_ledger (f : list Points.t -> list Points.t) (k : Registry) : Registry :=
  {| time := time k; made := made k; retentionMonths := retentionMonths k; people := people k; stays := stays k; bills := bills k; charges := charges k; takings := takings k; cards := cards k; notes := notes k; messages := messages k; ledger := f (ledger k); events := events k; trail := trail k; requests := requests k; files := files k |}.
Definition upd_events (f : list Event.t -> list Event.t) (k : Registry) : Registry :=
  {| time := time k; made := made k; retentionMonths := retentionMonths k; people := people k; stays := stays k; bills := bills k; charges := charges k; takings := takings k; cards := cards k; notes := notes k; messages := messages k; ledger := ledger k; events := f (events k); trail := trail k; requests := requests k; files := files k |}.
Definition upd_trail (f : list Trail.t -> list Trail.t) (k : Registry) : Registry :=
  {| time := time k; made := made k; retentionMonths := retentionMonths k; people := people k; stays := stays k; bills := bills k; charges := charges k; takings := takings k; cards := cards k; notes := notes k; messages := messages k; ledger := ledger k; events := events k; trail := f (trail k); requests := requests k; files := files k |}.
Definition upd_requests (f : list Request.t -> list Request.t) (k : Registry) : Registry :=
  {| time := time k; made := made k; retentionMonths := retentionMonths k; people := people k; stays := stays k; bills := bills k; charges := charges k; takings := takings k; cards := cards k; notes := notes k; messages := messages k; ledger := ledger k; events := events k; trail := trail k; requests := f (requests k); files := files k |}.
Definition upd_files (f : gmap string File -> gmap string File) (k : Registry) : Registry :=
  {| time := time k; made := made k; retentionMonths := retentionMonths k; people := people k; stays := stays k; bills := bills k; charges := charges k; takings := takings k; cards := cards k; notes := notes k; messages := messages k; ledger := ledger k; events := events k; trail := trail k; requests := requests k; files := f (files k) |}.
Definition or_else {A} (a b : option A) : option A := match a with Some _ => a | None => b end.
Abbreviation T := (Tx Registry).
Definition now : T Z := gets time.

Definition ERASED_GUEST_NAME : string := "Erased guest".
Definition ERASED_TEXT : string := "[erased]".
Definition RETENTION_REMOVED_NAME : string := "Removed after the retention period".
Definition MIN_RETENTION_MONTHS : Z := 6.
Definition MAX_RETENTION_MONTHS : Z := 240.
Definition BATCH : nat := 200.
Record CreateGdprRequestDto := { cr_guestId : string; cr_type : GdprType; cr_requestedBy : string; cr_verificationMethod : option string }.
Record UpdateGdprRequestStatusDto := { us_status : GdprStatus; us_notes : option string }.
Record RetentionRun := { registrationCards : nat; idDocuments : nat; filesDeleted : nat }.

Section Privacy.
Context `{Uuid} `{DecimalLib}.
Definition new_id : T string := let! n := gets made in do! modify (upd_made S) in ret (gen_random_uuid n).
Definition person_where (i : string) (x : Person.t) : bool := bool_decide (Person.id x = i).
Definition request_where (i : string) (x : Request.t) : bool := bool_decide (Request.id x = i).
Definition record (action entityType entityId after : string) : T unit :=
  modify (upd_trail (fun l => l ++ [{| Trail.action := action; Trail.entityType := entityType; Trail.entityId := entityId; Trail.before := None; Trail.after := after |}])).

(** ** Requests *)
Definition createDataRequest (dto : CreateGdprRequestDto) : T Request.t :=
  let! _ := orThrow (findFirst people (fun x => person_where (cr_guestId dto) x && isNone (Person.deletedAt x))) not_found in
  let! at_ := now in
  let! i := new_id in
  let row := {| Request.id := i; Request.guestId := cr_guestId dto; Request.type := cr_type dto; Request.status := waiting; Request.requestedBy := cr_requestedBy dto;
                Request.deadline := (day_of at_ + 30) * DAY_MS; Request.completedAt := None; Request.exportUrl := None;
                Request.notes := (fun m => String.append "Verification: " m) <$> set_string (cr_verificationMethod dto) |} in
  do! modify (upd_requests (fun l => l ++ [row])) in
  do! record "gdpr.request_created" "gdpr_request" i "" in
  ret row.
Definition finished (x : Request.t) : bool := bool_decide (Request.status x = completed) || bool_decide (Request.status x = rejected).
Definition updateStatus (requestId : string) (dto : UpdateGdprRequestStatusDto) : T Request.t :=
  let! request := orThrow (findFirst requests (request_where requestId)) not_found in
  throw! status_transition when finished request in
  let! at_ := now in
  let data x := Request.with_status (us_status dto) (if bool_decide (us_status dto = completed) then Some at_ else Request.completedAt x) (or_else (us_notes dto) (Request.notes x)) x in
  do! modify (upd_requests (update_where (request_where requestId) data)) in
  do! record "gdpr.status_changed" "gdpr_request" requestId "" in
  ret (data request).

(** ** Erasing *)
Definition erased (at_ : Z) (x : Person.t) : Person.t :=
  {| Person.id := Person.id x; Person.name := ERASED_GUEST_NAME; Person.email := None; Person.phone := None; Person.phoneDigits := None; Person.nationality := None; Person.idDocType := None;
     Person.idDocNumber := None; Person.idDocUrl := None; Person.idDocExpiryDate := None; Person.preferences := None; Person.vipLevel := Some 0; Person.tags := []; Person.notes := None;
     Person.loyaltyPoints := Person.loyaltyPoints x; Person.marketingOptIn := false; Person.marketingOptInAt := None; Person.marketingOptInSource := None;
     Person.marketingUnsubscribedAt := or_else (Person.marketingUnsubscribedAt x) (Some at_); Person.createdAt := Person.createdAt x; Person.deletedAt := Some at_ |}.
(** [{ ...fields, key: value }] *)
Fixpoint put (k : string) (v : json) (l : list (string * json)) : list (string * json) :=
  match l with [] => [(k, v)] | (k', w) :: l => if bool_decide (k = k') then (k, v) :: l else (k', w) :: put k v l end.
Definition card_fields (name : string) (f : json) : json :=
  JObj (put "guestPhone" JNull (put "guestEmail" JNull (put "guestName" (JStr name) (match f with JObj l => l | _ => [] end)))).
Definition live_stay (i : string) (x : Stay.t) : bool :=
  bool_decide (Stay.guestId x = i) && isNone (Stay.deletedAt x) && (bool_decide (Stay.status x = confirmed) || bool_decide (Stay.status x = checked_in)).
Definition standing (ids : list string) (x : Entry.t) : bool := bool_decide (Entry.folioId x ∈ ids) && negb (Entry.isVoid x) && isNone (Entry.deletedAt x).
Definition owed (ids : list string) (k : Registry) : Qc :=
  dminus (qsum (Entry.amount <$> List.filter (standing ids) (charges k))) (qsum (Entry.amount <$> List.filter (standing ids) (takings k))).
Definition same_text (a : string) (b : option string) : bool := match b with Some b => bool_decide (js_lower b = js_lower a) | None => false end.
Definition names_guest (i : string) (x : Event.t) : bool := bool_decide (Event.reservationGuest x = Some i) || bool_decide (Event.guest x = Some i).
(** The writes of [eraseGuestData] on one guest's rows *)
Definition erase_profile (g : Person.t) (at_ : Z) : T unit := modify (upd_people (update_where (person_where (Person.id g)) (erased at_))).
Definition erase_cards (g : Person.t) : T (list Card.t) :=
  let! found := findMany cards (fun x => bool_decide (Card.guestId x = Person.id g)) in
  do! for_each found tt (fun _ card => modify (upd_cards (update_where (fun x => bool_decide (Card.id x = Card.id card))
        (fun x => Card.with_removed (card_fields ERASED_GUEST_NAME (Card.fields card)) (Card.purgedAt x) x)))) in
  ret found.
Definition erase_texts (g : Person.t) : T unit :=
  let mine {A} (guest : A -> string) (x : A) := bool_decide (guest x = Person.id g) in
  do! modify (upd_ledger (update_where (mine Points.guestId) (fun x => {| Points.guestId := Points.guestId x; Points.points := Points.points x; Points.description := ERASED_TEXT |}))) in
  do! modify (upd_notes (update_where (mine Note.guestId) (fun x => {| Note.guestId := Note.guestId x; Note.body := ERASED_TEXT |}))) in
  do! modify (upd_messages (update_where (mine Message.guestId) (fun x => {| Message.guestId := Message.guestId x; Message.subject := None; Message.body := ERASED_TEXT; Message.bodyHtml := None |}))) in
  do! modify (upd_stays (update_where (mine Stay.guestId) Stay.plain)) in
  do! modify (upd_events (List.filter (fun x => negb (names_guest (Person.id g) x)))) in
  modify (upd_trail (update_where (fun x => bool_decide (Trail.entityType x = "guest_profile") && bool_decide (Trail.entityId x = Person.id g))
    (fun x => {| Trail.action := Trail.action x; Trail.entityType := Trail.entityType x; Trail.entityId := Trail.entityId x; Trail.before := None; Trail.after := "erased" |}))).
Definition erase_payer (g : Person.t) (ids : list string) : T unit :=
  if bool_decide (ids = []) then ret tt
  else
    do! modify (upd_bills (update_where (fun x => bool_decide (Bill.id x ∈ ids) && same_text (Person.name g) (Bill.payerName x)) (Bill.with_payerName (Some ERASED_GUEST_NAME)))) in
    match set_string (Person.email g) with
    | Some e => modify (upd_bills (update_where (fun x => bool_decide (Bill.id x ∈ ids) && same_text e (Bill.payerEmail x)) (Bill.with_payerEmail None)))
    | None => ret tt
    end.
(** The transaction; it returns the files to delete afterwards. *)
Definition erase (requestId : string) : T (Request.t * list string) :=
  let! request := orThrow (findFirst requests (request_where requestId)) not_found in
  throw! invalid when negb (bool_decide (Request.type request = erasure)) in
  throw! status_transition when finished request in
  let! guest := orThrow (findFirst people (person_where (Request.guestId request))) not_found in
  throw! conflict when isSome (Person.deletedAt guest) in
  let! live := findMany stays (live_stay (Person.id guest)) in
  throw! conflict when (0 <? Z.of_nat (length live)) in
  let! mine := findMany bills (fun x => bool_decide (Bill.guestId x = Person.id guest) && isNone (Bill.deletedAt x)) in
  let ids := Bill.id <$> mine in
  let! due := gets (owed ids) in
  throw! conflict when (negb (bool_decide (ids = [])) && dgt due 0) in
  let! at_ := now in
  do! erase_profile guest at_ in
  let! found := erase_cards guest in
  do! erase_texts guest in
  do! erase_payer guest ids in
  let data x := Request.with_status completed (Some at_) (Some (match set_string (Request.notes request) with Some n => String.append n "; erased" | None => "erased" end)) x in
  do! modify (upd_requests (update_where (request_where requestId) data)) in
  do! record "gdpr.guest_erased" "gdpr_request" requestId "" in
  ret (data request, option_list (set_string (Person.idDocUrl guest)) ++ (found ≫= fun x => option_list (set_string (Card.documentUrl x)))).
(** [documentStorage.remove], for each; one that cannot be removed is left. *)
Definition remove_files (removable : string -> bool) (l : list string) (k : Registry) : Registry := upd_files (fun m => foldr (fun u m => if removable u then delete u m else m) m l) k.
Definition eraseGuestData (removable : string -> bool) (requestId : string) (k : Registry) : res (Registry * Request.t) :=
  match erase requestId k with Ok (k', (r, l)) => Ok (remove_files removable l k', r) | Err e => Err e end.

(** ** Exports *)
Definition export_path (requestId : string) : string := String.append "gdpr-exports/" (String.append requestId ".enc").
Definition downloadExport (requestId : string) : T File :=
  let! request := orThrow (findFirst requests (request_where requestId)) not_found in
  throw! invalid when bool_decide (Request.type request = erasure) in
  let! url := match set_string (Request.exportUrl request) with
    | Some u => ret u
    | None =>
        let! guest := orThrow (findFirst people (fun x => person_where (Request.guestId request) x && isNone (Person.deletedAt x))) not_found in
        let! s := findMany stays (fun x => bool_decide (Stay.guestId x = Request.guestId request)) in
        let! m := findMany messages (fun x => bool_decide (Message.guestId x = Request.guestId request)) in
        let! at_ := now in
        let u := export_path requestId in
        do! modify (upd_files (<[u := Exported {| ex_guest := guest; ex_stays := s; ex_messages := m |}]>)) in
        do! modify (upd_requests (update_where (request_where requestId) (fun x => Request.with_export u (Request.with_status completed (Some at_) (Request.notes x) x)))) in
        do! record "gdpr.data_exported" "gdpr_request" requestId "" in
        ret u
    end in
  let! m := gets files in
  lift (or_throw (m !! url) internal).

(** ** Retention *)
(** [cutoff.setUTCMonth(cutoff.getUTCMonth() - months)]: a day the month does not have runs over into the next. *)
Definition cutoffFor (months now_ : Z) : Z :=
  let '(y, m, d) := civil_of_day (day_of now_) in
  let n := m - 1 - months in
  (day_of_civil (y + n / 12) (n mod 12 + 1) 1 + d - 1) * DAY_MS.
Definition assertPeriod (months : Z) : res unit := throw_if ((months <? MIN_RETENTION_MONTHS) || (MAX_RETENTION_MONTHS <? months)) invalid.
Definition stay_of (k : Registry) (x : Card.t) : option Stay.t := List.find (fun s => bool_decide (Stay.id s = Card.reservationId x)) (stays k).
Definition booked (s : ReservationStatus) : bool := bool_decide (s = confirmed) || bool_decide (s = checked_in).
Definition cardsDue (k : Registry) (cutoff : Z) (x : Card.t) : bool :=
  isNone (Card.purgedAt x) && match stay_of k x with Some s => (Stay.checkOutDate s <? cutoff) && negb (booked (Stay.status s)) | None => false end.
Definition holds_id (x : Person.t) : bool := isSome (Person.idDocType x) || isSome (Person.idDocNumber x) || isSome (Person.idDocUrl x) || isSome (Person.idDocExpiryDate x).
Definition keeps_id (cutoff : Z) (x : Person.t) (s : Stay.t) : bool := bool_decide (Stay.guestId s = Person.id x) && (booked (Stay.status s) || (cutoff <=? Stay.checkOutDate s)).
Definition idDocumentsDue (k : Registry) (cutoff : Z) (x : Person.t) : bool :=
  isNone (Person.deletedAt x) && (Person.createdAt x <? cutoff) && holds_id x && negb (existsb (keeps_id cutoff x) (stays k)).
Definition status (months : option (option Z)) (k : Registry) : res (option (Z * nat * nat)) :=
  match (match months with None => retentionMonths k | Some m => m end) with
  | None => Ok None
  | Some m =>
      let? _ := assertPeriod m in
      let c := cutoffFor m (time k) in
      Ok (Some (m, length (List.filter (cardsDue k c) (cards k)), length (List.filter (idDocumentsDue k c) (people k))))
  end.
Definition setPeriod (months : option Z) (tenantId : string) : T unit :=
  do! match months with Some m => lift (assertPeriod m) | None => ret tt end in
  do! modify (upd_retentionMonths (fun _ => months)) in
  record "retention.period_set" "tenant" tenantId "".
Definition purged (at_ : Z) (x : Card.t) : Card.t := Card.with_removed (card_fields RETENTION_REMOVED_NAME (Card.fields x)) (Some at_) x.
(** The loop writes each row it found by its id. *)
Definition purgeCards (cutoff : Z) : T (nat * list string) :=
  let! found := gets (fun k => take BATCH (List.filter (cardsDue k cutoff) (cards k))) in
  let! at_ := now in
  do! modify (upd_cards (update_where (fun x => bool_decide (Card.id x ∈ Card.id <$> found)) (purged at_))) in
  ret (length found, found ≫= fun x => option_list (set_string (Card.documentUrl x))).
Definition purgeIdDocuments (cutoff : Z) : T (nat * list string) :=
  let! found := gets (fun k => take BATCH (List.filter (idDocumentsDue k cutoff) (people k))) in
  do! modify (upd_people (update_where (fun x => bool_decide (Person.id x ∈ Person.id <$> found)) Person.without_id)) in
  ret (length found, found ≫= fun x => option_list (set_string (Person.idDocUrl x))).
Definition purge_pass (cutoff : Z) : T (nat * nat * list string) :=
  let! '(c, f) := purgeCards cutoff in
  let! '(i, g) := purgeIdDocuments cutoff in
  ret (c, i, f ++ g).
(** [for (;;)]; [None] when the fuel is used up. *)
Fixpoint purge_loop (fuel : nat) (removable : string -> bool) (cutoff : Z) (r : RetentionRun) (k : Registry) : option (res (Registry * RetentionRun)) :=
  match fuel with
  | O => None
  | S n =>
      match purge_pass cutoff k with
      | Err e => Some (Err e)
      | Ok (k1, (c, i, l)) =>
          let r1 := {| registrationCards := registrationCards r + c; idDocuments := idDocuments r + i; filesDeleted := filesDeleted r + length (List.filter removable l) |} in
          let k2 := remove_files removable l k1 in
          if (c <? BATCH)%nat && (i <? BATCH)%nat then Some (Ok (k2, r1)) else purge_loop n removable cutoff r1 k2
      end
  end.
Definition purgeTenant (fuel : nat) (removable : string -> bool) (tenantId : string) (k : Registry) : option (res (Registry * RetentionRun)) :=
  let none := {| registrationCards := 0; idDocuments := 0; filesDeleted := 0 |} in
  match retentionMonths k with
  | None => Some (Ok (k, none))
  | Some m =>
      match purge_loop fuel removable (cutoffFor m (time k)) none k with
      | Some (Ok (k', r)) =>
          if ((0 <? registrationCards r) || (0 <? idDocuments r))%nat then
            Some (match record "retention.purged" "tenant" tenantId "" k' with Ok (k2, _) => Ok (k2, r) | Err e => Err e end)
          else Some (Ok (k', r))
      | o => o
      end
  end.
End Privacy.
