(* ===== verification/Erasure.v ===== *)
(** What erasing a guest and a retention run come to (Privacy.v): an erasure leaves no
    trace of the guest and touches nothing else, and the batches of a retention run end
    and amount to one sweep. *)
From Stdlib Require Import QArith Qcanon.
From S2P Require Import Prelude Decimal Dates Json Taxes Transactions Db Folios SampleHotel Guests Privacy.
Local Open Scope Z_scope.

Section Erasure.
Context `{Uuid} `{DecimalLib}.
(** ** Retention: the batches come to one sweep *)
Section Batches.
Context {A} (id : A -> string) (p : A -> bool) (f : A -> A) (Hf : forall x, p (f x) = false).
Definition in_batch (n : nat) (l : list A) (x : A) : bool := bool_decide (id x ∈ id <$> take n (List.filter p l)).
Lemma in_batch_due n l x : NoDup (id <$> l) -> x ∈ l -> in_batch n l x = true -> p x = true.
Proof.
  unfold in_batch. intros Hnd Hx Hb. apply bool_decide_eq_true, list_elem_of_fmap in Hb as (y & E & Hy). apply elem_of_take in Hy as (j & Hy%list_elem_of_lookup_2 & _).
  apply elem_of_filterb in Hy as [Hy Hp]. assert (x = y) as -> by (by eapply NoDup_fmap_inj). done.
Qed.
Lemma batch_then_rest n l : NoDup (id <$> l) -> update_where p f (update_where (in_batch n l) f l) = update_where p f l.
Proof.
  intros Hnd. unfold update_where. rewrite <- list_fmap_compose. apply list_fmap_ext. intros j x Hx%list_elem_of_lookup_2. cbn. destruct (in_batch n l x) eqn:E; [|done].
  by rewrite Hf, (in_batch_due n l x).
Qed.
Lemma update_nothing_due l : List.filter p l = [] -> update_where p f l = l.
Proof.
  intros Hp. unfold update_where. rewrite <- (list_fmap_id l) at 2. apply list_fmap_ext. intros j x Hx%list_elem_of_lookup_2. destruct (p x) eqn:E; [|done].
  assert (x ∈ List.filter p l) as Hin by (apply elem_of_filterb; done). rewrite Hp in Hin. by apply elem_of_nil in Hin.
Qed.
End Batches.
Lemma batch_done {A} (id : A -> string) (p : A -> bool) (f : A -> A) n l : (forall x, p (f x) = false) -> NoDup (id <$> l) ->
  List.filter p (update_where (in_batch id p n l) f l) = drop n (List.filter p l).
Proof.
  intros Hf. revert n. induction l as [|x l IH]; intros n Hnd; [by destruct n|]. rewrite fmap_cons in Hnd. apply NoDup_cons in Hnd as [Hx Hnd].
  unfold update_where. rewrite fmap_cons. cbn [List.filter]. destruct (p x) eqn:Hp.
  - destruct n as [|n].
    + assert (Hb : forall y, in_batch id p 0 (x :: l) y = false) by (intros y; apply bool_decide_false; rewrite take_0; apply not_elem_of_nil).
      rewrite Hb, Hp. cbn [drop]. do 2 f_equal. rewrite <- (list_fmap_id l) at 2. apply list_fmap_ext. intros j y _. by rewrite Hb.
    + assert (in_batch id p (S n) (x :: l) x = true) as ->. { apply bool_decide_true. cbn [List.filter]. rewrite Hp. cbn. left. }
      rewrite Hf. cbn [drop]. rewrite <- (IH n Hnd). f_equal. apply list_fmap_ext. intros j y Hy%list_elem_of_lookup_2.
      assert (in_batch id p (S n) (x :: l) y = in_batch id p n l y) as ->; [|done]. unfold in_batch. cbn [List.filter]. rewrite Hp. cbn. apply bool_decide_ext. rewrite elem_of_cons.
      split; [|tauto]. intros [E|]; [|done]. destruct Hx. rewrite <- E. by apply list_elem_of_fmap_2.
  - assert (in_batch id p n (x :: l) x = false) as ->.
    { apply bool_decide_false. cbn [List.filter]. rewrite Hp. intros (y & E & Hy)%list_elem_of_fmap. apply elem_of_take in Hy as (j & [Hy _]%list_elem_of_lookup_2%elem_of_filterb & _).
      apply Hx. rewrite E. by apply list_elem_of_fmap_2. }
    rewrite Hp. rewrite <- (IH n Hnd). f_equal. apply list_fmap_ext. intros j y _. unfold in_batch. cbn [List.filter]. by rewrite Hp.
Qed.
(** What one pass does *)
Definition swept (c : Z) (k : Registry) : Registry :=
  upd_people (update_where (in_batch Person.id (idDocumentsDue k c) BATCH (people k)) Person.without_id) (upd_cards (update_where (in_batch Card.id (cardsDue k c) BATCH (cards k)) (purged (time k))) k).
Lemma purge_pass_run c k : exists l, purge_pass c k =
  Ok (swept c k, (length (take BATCH (List.filter (cardsDue k c) (cards k))), length (take BATCH (List.filter (idDocumentsDue k c) (people k))), l)).
Proof. eexists. reflexivity. Qed.
Definition due_cards (c : Z) (k : Registry) : list Card.t := List.filter (cardsDue k c) (cards k).
Definition due_ids (c : Z) (k : Registry) : list Person.t := List.filter (idDocumentsDue k c) (people k).
(** One sweep over everything that is due: what the loop should come to *)
Definition sweep (c : Z) (k : Registry) : Registry :=
  upd_people (update_where (idDocumentsDue k c) Person.without_id) (upd_cards (update_where (cardsDue k c) (purged (time k))) k).
(** The tables a retention run does not write *)
Definition rest (k : Registry) := (time k, made k, retentionMonths k, stays k, bills k, charges k, takings k, notes k, messages k, ledger k, events k, trail k, requests k).
(** The same rows, whatever files are stored *)
Definition same_rows (k k' : Registry) : Prop := people k' = people k /\ cards k' = cards k /\ rest k' = rest k.
Lemma purged_not_due k c t x : cardsDue k c (purged t x) = false.
Proof. reflexivity. Qed.
Lemma without_id_not_due k c x : idDocumentsDue k c (Person.without_id x) = false.
Proof. unfold idDocumentsDue, holds_id. cbn. by rewrite andb_false_r. Qed.
Definition rows_named (k : Registry) : Prop := NoDup (Card.id <$> cards k) /\ NoDup (Person.id <$> people k).
Lemma fmap_update {A} (g : A -> string) w f l : (forall x, g (f x) = g x) -> g <$> update_where w f l = g <$> l.
Proof. intros Hg. unfold update_where. rewrite <- list_fmap_compose. apply list_fmap_ext. intros i x _. cbn. by destruct (w x). Qed.
Lemma swept_facts c k l removable : rows_named k -> let k' := remove_files removable l (swept c k) in
  rows_named k' /\ due_cards c k' = drop BATCH (due_cards c k) /\ due_ids c k' = drop BATCH (due_ids c k) /\ same_rows (sweep c k) (sweep c k').
Proof.
  intros [Hc Hp] k'. split_and!.
  - split; [change (NoDup (Card.id <$> update_where (in_batch Card.id (cardsDue k c) BATCH (cards k)) (purged (time k)) (cards k)))|
            change (NoDup (Person.id <$> update_where (in_batch Person.id (idDocumentsDue k c) BATCH (people k)) Person.without_id (people k)))]; by rewrite fmap_update.
  - exact (batch_done Card.id (cardsDue k c) (purged (time k)) BATCH (cards k) (purged_not_due k c (time k)) Hc).
  - exact (batch_done Person.id (idDocumentsDue k c) Person.without_id BATCH (people k) (without_id_not_due k c) Hp).
  - split_and!; [..|reflexivity].
    + exact (batch_then_rest Person.id (idDocumentsDue k c) Person.without_id (without_id_not_due k c) BATCH (people k) Hp).
    + exact (batch_then_rest Card.id (cardsDue k c) (purged (time k)) (purged_not_due k c (time k)) BATCH (cards k) Hc).
Qed.
#[local] Instance same_rows_preorder : PreOrder same_rows.
Proof. split; [done|]. intros a b c (P1 & C1 & R1) (P2 & C2 & R2). split_and!; congruence. Qed.
Lemma sweep_nothing c k : due_cards c k = [] -> due_ids c k = [] -> same_rows (sweep c k) k.
Proof. intros Hc Hp. split_and!; [symmetry; by apply update_nothing_due..|reflexivity]. Qed.
Lemma purge_loop_ends fuel removable c r k : rows_named k -> (length (due_cards c k) + length (due_ids c k) < fuel)%nat ->
  exists k' r', purge_loop fuel removable c r k = Some (Ok (k', r')) /\ same_rows (sweep c k) k' /\
    registrationCards r' = (registrationCards r + length (due_cards c k))%nat /\ idDocuments r' = (idDocuments r + length (due_ids c k))%nat.
Proof.
  revert r k. induction fuel as [|fuel IH]; intros r k Hn Hm; [lia|]. cbn [purge_loop]. destruct (purge_pass_run c k) as [l ->]. fold (due_cards c k) (due_ids c k).
  destruct (swept_facts c k l removable Hn) as (Hn' & Hc & Hp & Hs). set (k1 := remove_files removable l (swept c k)) in *.
  rewrite !length_take. destruct (_ && _) eqn:E.
  - apply andb_prop in E as [E1%Nat.ltb_lt E2%Nat.ltb_lt]. eexists _, _. split; [reflexivity|]. cbn [registrationCards idDocuments]. split_and!; [|lia|lia].
    etransitivity; [exact Hs|]. apply sweep_nothing; [rewrite Hc|rewrite Hp]; apply drop_ge; lia.
  - apply andb_false_iff in E. rewrite !Nat.ltb_ge in E. pose proof (f_equal length Hc) as Lc. pose proof (f_equal length Hp) as Lp. rewrite length_drop in Lc. rewrite length_drop in Lp.
    assert (length (due_cards c k1) + length (due_ids c k1) < fuel)%nat as Hlt by (unfold BATCH in *; lia).
    match goal with |- context [purge_loop fuel removable c ?r1 k1] => destruct (IH r1 k1 Hn' Hlt) as (k' & r' & -> & Hs' & R1 & R2) end.
    exists k', r'. cbn [registrationCards idDocuments] in *. split_and!; [done|by etransitivity|..]; unfold BATCH in *; lia.
Qed.
Lemma filter_le {A} (p : A -> bool) l : (length (List.filter p l) <= length l)%nat.
Proof. induction l; simpl; [done|]. destruct (p a); simpl; lia. Qed.


(** ** Erasing leaves no trace *)
(** What the rows say of a guest *)
Definition profile_texts (x : Person.t) : list string :=
  Person.name x :: option_list (Person.email x) ++ option_list (Person.phone x) ++ option_list (Person.phoneDigits x) ++ option_list (Person.nationality x) ++ option_list (Person.idDocType x) ++
  option_list (Person.idDocNumber x) ++ option_list (Person.idDocUrl x) ++ option_list (Person.preferences x) ++ Person.tags x ++ option_list (Person.notes x) ++ option_list (Person.marketingOptInSource x).
Definition field_texts (f : json) : list string := ["guestName"; "guestEmail"; "guestPhone"] ≫= fun key => option_list (as_string (member key (Some f))).
Definition card_texts (x : Card.t) : list string := field_texts (Card.fields x) ++ option_list (Card.signatureData x) ++ option_list (Card.documentUrl x).
Definition message_texts (x : Message.t) : list string := Message.body x :: option_list (Message.subject x) ++ option_list (Message.bodyHtml x).
Definition stay_texts (x : Stay.t) : list string := option_list (Stay.specialRequests x) ++ option_list (Stay.estimatedArrivalTime x).
Definition trail_texts (x : Trail.t) : list string := Trail.after x :: option_list (Trail.before x).
Definition of_profile (i : string) (x : Trail.t) : bool := bool_decide (Trail.entityType x = "guest_profile") && bool_decide (Trail.entityId x = i).
Definition about {A} (mine : A -> bool) (texts : A -> list string) (l : list A) : list string := List.filter mine l ≫= texts.
Definition of_guest {A} (guest : A -> string) (i : string) (x : A) : bool := bool_decide (guest x = i).
Definition personal (i : string) (k : Registry) : list string :=
  about (of_guest Person.id i) profile_texts (people k) ++ about (of_guest Card.guestId i) card_texts (cards k) ++ about (of_guest Note.guestId i) (fun x => [Note.body x]) (notes k) ++
  about (of_guest Message.guestId i) message_texts (messages k) ++ about (of_guest Stay.guestId i) stay_texts (stays k) ++
  about (of_guest Points.guestId i) (fun x => [Points.description x]) (ledger k) ++ about (of_profile i) trail_texts (trail k).
Definition BLANKS : list string := [ERASED_GUEST_NAME; ERASED_TEXT; "erased"].
(** What the hotel keeps of everyone: stays and when they end, charges, payments, points *)
Definition business (k : Registry) :=
  ((fun x => (Stay.id x, Stay.guestId x, Stay.status x, Stay.checkOutDate x, Stay.deletedAt x)) <$> stays k, (fun x => (Bill.id x, Bill.guestId x, Bill.deletedAt x)) <$> bills k, charges k, takings k,
   (fun x => (Points.guestId x, Points.points x)) <$> ledger k).
(** The rows of everyone else *)
Definition others (i : string) (k : Registry) :=
  let rest {A} (guest : A -> string) (l : list A) := List.filter (fun x => negb (of_guest guest i x)) l in
  (rest Person.id (people k), rest Card.guestId (cards k), rest Note.guestId (notes k), rest Message.guestId (messages k), rest Stay.guestId (stays k), rest Points.guestId (ledger k), rest Bill.guestId (bills k)).

Lemma about_updated {A} (mine : A -> bool) (texts : A -> list string) (f : A -> A) (B : list string) l :
  (forall x s, mine x = true -> s ∈ texts (f x) -> s ∈ B) -> (forall x, mine (f x) = mine x) -> forall s, s ∈ about mine texts (update_where mine f l) -> s ∈ B.
Proof.
  intros Hf Hm s. unfold about. rewrite list_elem_of_bind. intros (x & Hs & [Hx Hmx]%elem_of_filterb). apply list_elem_of_fmap in Hx as (y & -> & Hy).
  destruct (mine y) eqn:E; [exact (Hf y s E Hs)|congruence].
Qed.
Lemma others_updated {A} (mine w : A -> bool) (f : A -> A) l : (forall x, w x = true -> mine x = true) -> (forall x, mine (f x) = mine x) ->
  List.filter (fun x => negb (mine x)) (update_where w f l) = List.filter (fun x => negb (mine x)) l.
Proof.
  intros Hw Hm. induction l as [|x l IH]; [done|]. unfold update_where in *. rewrite fmap_cons. cbn [List.filter]. rewrite IH. destruct (w x) eqn:E; [|done]. by rewrite Hm, (Hw x E).
Qed.
Lemma assoc_put k v l : assoc k (put k v l) = Some v.
Proof. induction l as [|[k' w] l IH]; cbn; [by rewrite bool_decide_true|]. destruct (bool_decide (k = k')) eqn:E; cbn; [by rewrite bool_decide_true|by rewrite E]. Qed.
Lemma assoc_put_ne k k1 v l : k <> k1 -> assoc k (put k1 v l) = assoc k l.
Proof.
  intros Hne. induction l as [|[k' w] l IH]; cbn; [by rewrite bool_decide_false|]. case_bool_decide as E; cbn; [subst; by rewrite !bool_decide_false|]. by rewrite IH.
Qed.
Lemma field_texts_blank name f : field_texts (card_fields name f) = [name].
Proof.
  unfold field_texts, card_fields, member. cbn [mbind list_bind app]. rewrite assoc_put, (assoc_put_ne "guestEmail" "guestPhone"), assoc_put by done.
  rewrite (assoc_put_ne "guestName" "guestPhone"), (assoc_put_ne "guestName" "guestEmail"), assoc_put by done. done.
Qed.
(** One card of the loop written on one row, and all of them *)
Definition hit (x card : Card.t) : Card.t := if bool_decide (Card.id x = Card.id card) then Card.with_removed (card_fields ERASED_GUEST_NAME (Card.fields card)) (Card.purgedAt x) x else x.
Definition hits (l : list Card.t) (x : Card.t) : Card.t := foldl hit x l.
Lemma upd_cards_eq f g k : f (cards k) = g (cards k) -> upd_cards f k = upd_cards g k.
Proof. unfold upd_cards. by intros ->. Qed.
Lemma upd_cards_id f k : f (cards k) = cards k -> upd_cards f k = k.
Proof. unfold upd_cards. intros ->. by destruct k. Qed.
Lemma card_loop_run l k k' u : for_each l tt (fun _ card => modify (upd_cards (update_where (fun x => bool_decide (Card.id x = Card.id card))
    (fun x => Card.with_removed (card_fields ERASED_GUEST_NAME (Card.fields card)) (Card.purgedAt x) x)))) k = Ok (k', u) -> k' = upd_cards (fmap (hits l)) k.
Proof.
  revert k. induction l as [|c l IH]; intros k Hm; cbn [for_each] in Hm.
  - m_inv. symmetry. apply upd_cards_id, list_fmap_id.
  - apply bind_Ok in Hm as (k1 & [] & H1 & Hm). apply IH in Hm as ->. unfold modify in H1. injection H1 as <-.
    change (upd_cards (fun r => hits l <$> ((fun x => hit x c) <$> r)) k = upd_cards (fmap (hits (c :: l))) k). apply upd_cards_eq. by rewrite <- list_fmap_compose.
Qed.
Lemma erase_cards_run g k k' found : erase_cards g k = Ok (k', found) -> found = List.filter (of_guest Card.guestId (Person.id g)) (cards k) /\ k' = upd_cards (fmap (hits found)) k.
Proof. unfold erase_cards. intros Hm. m_inv. split; [done|]. by eapply card_loop_run. Qed.
Lemma hits_keep l x : Card.id (hits l x) = Card.id x /\ Card.guestId (hits l x) = Card.guestId x.
Proof. revert x. induction l as [|c l IH]; intros x; [done|]. change (hits (c :: l) x) with (hits l (hit x c)). destruct (IH (hit x c)) as [-> ->]. unfold hit. by destruct (bool_decide _). Qed.
Lemma hits_others l x : (forall c, c ∈ l -> Card.id c <> Card.id x) -> hits l x = x.
Proof.
  induction l as [|c l IH]; intros Hl; [done|]. change (hits (c :: l) x) with (hits l (hit x c)). assert (hit x c = x) as ->. { unfold hit. rewrite bool_decide_false; [done|]. intros E. by apply (Hl c); [left|]. } apply IH. intros c' Hc'. apply Hl. by right.
Qed.
Lemma hits_clean l x : card_texts x = [ERASED_GUEST_NAME] \/ (exists c, c ∈ l /\ Card.id c = Card.id x) -> card_texts (hits l x) = [ERASED_GUEST_NAME].
Proof.
  revert x. induction l as [|c l IH]; intros x Hx; [destruct Hx as [|(c & []%elem_of_nil & _)]; done|]. change (hits (c :: l) x) with (hits l (hit x c)). apply IH. unfold hit.
  case_bool_decide as E; [left; unfold card_texts; cbn [Card.with_removed Card.fields Card.signatureData Card.documentUrl]; by rewrite field_texts_blank|]. destruct Hx as [Hx|(c' & [->|Hc]%elem_of_cons & Hid)]; [by left|congruence|right; eauto].
Qed.
Lemma erased_cards i k : NoDup (Card.id <$> cards k) -> let l := List.filter (of_guest Card.guestId i) (cards k) in
  (forall s, s ∈ about (of_guest Card.guestId i) card_texts (hits l <$> cards k) -> s = ERASED_GUEST_NAME) /\
  List.filter (fun x => negb (of_guest Card.guestId i x)) (hits l <$> cards k) = List.filter (fun x => negb (of_guest Card.guestId i x)) (cards k).
Proof.
  intros Hnd l. split.
  - intros s. unfold about. rewrite list_elem_of_bind. intros (x' & Hs & [(x & -> & Hx)%list_elem_of_fmap Hi]%elem_of_filterb). unfold of_guest in Hi. rewrite (proj2 (hits_keep l x)) in Hi.
    rewrite hits_clean in Hs; [by apply list_elem_of_singleton in Hs|]. right. exists x. split; [|done]. by apply elem_of_filterb.
  - assert (Hf : hits l <$> cards k = update_where (of_guest Card.guestId i) (hits l) (cards k)).
    { apply list_fmap_ext. intros j x Hx%list_elem_of_lookup_2. destruct (of_guest Card.guestId i x) eqn:E; [done|]. apply hits_others. intros c [Hc Hci]%elem_of_filterb Hid.
      assert (c = x) as -> by (by eapply NoDup_fmap_inj). congruence. }
    rewrite Hf. apply others_updated; [done|]. intros x. unfold of_guest. by rewrite (proj2 (hits_keep l x)).
Qed.
(** Who pays: only bills of the guest change, and only in who pays. *)
Definition payer_only (x : Bill.t) := (Bill.id x, Bill.guestId x, Bill.deletedAt x).
Lemma upd_bills_eq f g k : f (bills k) = g (bills k) -> upd_bills f k = upd_bills g k.
Proof. unfold upd_bills. by intros ->. Qed.
Lemma upd_bills_id f k : f (bills k) = bills k -> upd_bills f k = k.
Proof. unfold upd_bills. intros ->. by destruct k. Qed.
Lemma erase_payer_run g ids k k' : erase_payer g ids k = Ok (k', tt) -> exists f, k' = upd_bills (fmap f) k /\ (forall x, payer_only (f x) = payer_only x) /\ (forall x, Bill.id x ∉ ids -> f x = x) /\
  forall x, Bill.id x ∈ ids -> (same_text (Person.name g) (Bill.payerName (f x)) = true -> Bill.payerName (f x) = Some ERASED_GUEST_NAME) /\
    forall e, set_string (Person.email g) = Some e -> same_text e (Bill.payerEmail (f x)) = false.
Proof.
  unfold erase_payer. intros Hm. case_bool_decide as E.
  { m_inv. exists (fun x => x). split_and!; [symmetry; apply upd_bills_id, list_fmap_id|done..|]. intros x Hx. by apply elem_of_nil in Hx. }
  set (f1 := fun x => if bool_decide (Bill.id x ∈ ids) && same_text (Person.name g) (Bill.payerName x) then Bill.with_payerName (Some ERASED_GUEST_NAME) x else x) in *.
  assert (H1 : forall x, payer_only (f1 x) = payer_only x /\ Bill.payerEmail (f1 x) = Bill.payerEmail x /\ (Bill.id x ∉ ids -> f1 x = x) /\
    (Bill.id x ∈ ids -> same_text (Person.name g) (Bill.payerName (f1 x)) = true -> Bill.payerName (f1 x) = Some ERASED_GUEST_NAME)).
  { intros x. unfold f1. destruct (_ && _) eqn:Ex; split_and!; try done.
    - intros Hn. apply andb_prop in Ex as [Hin%bool_decide_eq_true _]. done.
    - intros Hin Hs. rewrite bool_decide_true in Ex by done. cbn in Ex. congruence. }
  m_inv. destruct (set_string (Person.email g)) as [e|] eqn:Ee; m_inv.
  - set (f2 := fun x => if bool_decide (Bill.id x ∈ ids) && same_text e (Bill.payerEmail x) then Bill.with_payerEmail None x else x).
    assert (H2 : forall x, payer_only (f2 x) = payer_only x /\ Bill.payerName (f2 x) = Bill.payerName x /\ (Bill.id x ∉ ids -> f2 x = x) /\ (Bill.id x ∈ ids -> same_text e (Bill.payerEmail (f2 x)) = false)).
    { intros x. unfold f2. destruct (_ && _) eqn:Ex; split_and!; try done.
      - intros Hn. apply andb_prop in Ex as [Hin%bool_decide_eq_true _]. done.
      - intros Hin. by rewrite bool_decide_true in Ex. }
    assert (Hid : forall x, Bill.id (f1 x) = Bill.id x) by (intros x; destruct (H1 x) as [Hp _]; unfold payer_only in Hp; congruence).
    exists (fun x => f2 (f1 x)). split_and!.
    + match goal with |- _ = upd_bills _ ?d => change (upd_bills (fun r => f2 <$> (f1 <$> r)) d = upd_bills (fmap (fun x => f2 (f1 x))) d) end. apply upd_bills_eq. by rewrite <- list_fmap_compose.
    + intros x. by rewrite (proj1 (H2 _)), (proj1 (H1 x)).
    + intros x Hx. destruct (H1 x) as (_ & _ & Hsame & _). rewrite (Hsame Hx). by apply H2.
    + intros x Hx. destruct (H2 (f1 x)) as (_ & -> & _ & He). split; [by apply H1|]. intros e' [= <-]. apply He. by rewrite Hid.
  - exists f1. split_and!; [done|intros x; apply H1|intros x; apply H1|]. intros x Hx. split; [by apply H1|done].
Qed.
Lemma removed_gone removable l (m : gmap string File) u : u ∈ l -> removable u = true -> foldr (fun u m => if removable u then delete u m else m) m l !! u = None.
Proof.
  intros Hu Hr. induction l as [|v l IH]; [by apply elem_of_nil in Hu|]. cbn. apply elem_of_cons in Hu as [<-|Hu]; [rewrite Hr; by rewrite lookup_delete_eq|].
  destruct (removable v); [|auto]. destruct (decide (v = u)) as [->|Hne]; [by rewrite lookup_delete_eq|]. rewrite lookup_delete_ne by done. auto.
Qed.
Definition documents (g : Person.t) (k : Registry) : list string :=
  option_list (set_string (Person.idDocUrl g)) ++ (List.filter (of_guest Card.guestId (Person.id g)) (cards k) ≫= fun x => option_list (set_string (Card.documentUrl x))).
Definition guest_bills (i : string) (k : Registry) : list string := Bill.id <$> List.filter (fun x => bool_decide (Bill.guestId x = i) && isNone (Bill.deletedAt x)) (bills k).
Definition blank_trail (x : Trail.t) : Trail.t := {| Trail.action := Trail.action x; Trail.entityType := Trail.entityType x; Trail.entityId := Trail.entityId x; Trail.before := None; Trail.after := "erased" |}.
Definition blank_message (x : Message.t) : Message.t := {| Message.guestId := Message.guestId x; Message.subject := None; Message.body := ERASED_TEXT; Message.bodyHtml := None |}.
Definition blank_note (x : Note.t) : Note.t := {| Note.guestId := Note.guestId x; Note.body := ERASED_TEXT |}.
Definition blank_points (x : Points.t) : Points.t := {| Points.guestId := Points.guestId x; Points.points := Points.points x; Points.description := ERASED_TEXT |}.
(** The tables once the guest is erased *)
Record erased_state (g : Person.t) (f : Bill.t -> Bill.t) (k k' : Registry) : Prop := {
  es_people : people k' = update_where (of_guest Person.id (Person.id g)) (erased (time k)) (people k);
  es_cards : cards k' = hits (List.filter (of_guest Card.guestId (Person.id g)) (cards k)) <$> cards k;
  es_notes : notes k' = update_where (of_guest Note.guestId (Person.id g)) blank_note (notes k);
  es_messages : messages k' = update_where (of_guest Message.guestId (Person.id g)) blank_message (messages k);
  es_ledger : ledger k' = update_where (of_guest Points.guestId (Person.id g)) blank_points (ledger k);
  es_stays : stays k' = update_where (of_guest Stay.guestId (Person.id g)) Stay.plain (stays k);
  es_events : events k' = List.filter (fun x => negb (names_guest (Person.id g) x)) (events k);
  es_trail : exists row, of_profile (Person.id g) row = false /\ trail k' = update_where (of_profile (Person.id g)) blank_trail (trail k) ++ [row];
  es_bills : bills k' = f <$> bills k;
  es_money : (charges k', takings k') = (charges k, takings k) }.
Lemma erase_Ok requestId k k' r l : erase requestId k = Ok (k', (r, l)) -> exists g f, erased_state g f k k' /\
  g ∈ people k /\ Person.id g = Request.guestId r /\ Request.status r = completed /\ l = documents g k /\ files k' = files k /\ List.filter (live_stay (Person.id g)) (stays k) = [] /\
  (guest_bills (Person.id g) k <> [] -> dgt (owed (guest_bills (Person.id g) k) k) 0 = false) /\
  (forall x, payer_only (f x) = payer_only x) /\ (forall x, Bill.id x ∉ guest_bills (Person.id g) k -> f x = x) /\
  forall x, Bill.id x ∈ guest_bills (Person.id g) k -> (same_text (Person.name g) (Bill.payerName (f x)) = true -> Bill.payerName (f x) = Some ERASED_GUEST_NAME) /\
    forall e, set_string (Person.email g) = Some e -> same_text e (Bill.payerEmail (f x)) = false.
Proof.
  unfold erase. intros Hm.
  apply bind_Ok in Hm as (k0 & request & Hreq & Hm). m_inv.
  match goal with Hp : Some ?g0 = List.find (person_where _) (people ?k0) |- _ => rename g0 into g; rename k0 into k; symmetry in Hp; apply find_Some in Hp as [Hg Hid] end.
  apply bool_decide_eq_true in Hid.
  match goal with Hc : erase_cards g _ = Ok (_, ?l0) |- _ => rename l0 into found; apply erase_cards_run in Hc as [Hfound ->] end.
  match goal with Hp : erase_payer g _ _ = Ok (_, ?u) |- _ => destruct u; rename Hp into Hpay; apply erase_payer_run in Hpay as (f & -> & Hkeep & Hout & Hin) end.
  unfold now, erase_profile, erase_texts, record in *. m_inv.
  exists g, f. split; [|split_and!; [done|done|done|done|done|..]].
  - constructor; try reflexivity. eexists. split; [|reflexivity]. reflexivity.
  - destruct (List.filter _ (stays _)); [done|discriminate].
  - intros Hne. unfold guest_bills in *. match goal with Ho : negb _ && dgt _ _ = false |- _ => rewrite (bool_decide_false _ Hne) in Ho; exact Ho end.
  - done.
  - exact Hout.
  - exact Hin.
Qed.
Lemma about_app {A} (mine : A -> bool) texts l1 l2 : about mine texts (l1 ++ l2) = about mine texts l1 ++ about mine texts l2.
Proof. unfold about. by rewrite List.filter_app, bind_app. Qed.
Lemma no_trace g f k k' : NoDup (Card.id <$> cards k) -> erased_state g f k k' -> forall s, s ∈ personal (Person.id g) k' -> s ∈ BLANKS.
Proof.
  intros Hc []. destruct es_trail0 as (row & Hrow & Ht). unfold personal. intros s. rewrite es_people0, es_cards0, es_notes0, es_messages0, es_stays0, es_ledger0, Ht, about_app, !elem_of_app.
  assert (about (of_profile (Person.id g)) trail_texts [row] = []) as -> by (unfold about; cbn [List.filter]; by rewrite Hrow).
  intros [Hs|[Hs|[Hs|[Hs|[Hs|[Hs|[Hs|Hs%elem_of_nil]]]]]]]; [| | | | | | |done].
  2: { rewrite (proj1 (erased_cards _ _ Hc) s Hs). left. }
  all: revert Hs; apply about_updated; [|done]; intros x t _ Hin; unfold BLANKS.
  all: first [change (t ∈ [ERASED_GUEST_NAME]) in Hin|change (t ∈ [ERASED_TEXT]) in Hin|change (t ∈ ["erased"]) in Hin|change (t ∈ @nil string) in Hin]; set_solver.
Qed.
Lemma fmap_updated {A B} (g : A -> B) w f l : (forall x, g (f x) = g x) -> g <$> update_where w f l = g <$> l.
Proof. intros Hg. unfold update_where. rewrite <- list_fmap_compose. apply list_fmap_ext. intros i x _. cbn. by destruct (w x). Qed.
Lemma business_kept g f k k' : erased_state g f k k' -> (forall x, payer_only (f x) = payer_only x) -> business k' = business k.
Proof.
  intros [] Hf. injection es_money0 as Hch Hta. unfold business. rewrite es_stays0, es_bills0, es_ledger0, Hch, Hta, !fmap_updated by done. do 4 f_equal.
  rewrite <- list_fmap_compose. apply list_fmap_ext. intros i x _. apply Hf.
Qed.
Lemma others_kept g f k k' : rows_named k -> NoDup (Bill.id <$> bills k) -> erased_state g f k k' ->
  (forall x, payer_only (f x) = payer_only x) -> (forall x, Bill.id x ∉ guest_bills (Person.id g) k -> f x = x) -> others (Person.id g) k' = others (Person.id g) k.
Proof.
  intros [Hc Hp] Hb [] Hf Hout. unfold others. rewrite es_people0, es_cards0, es_notes0, es_messages0, es_stays0, es_ledger0, es_bills0, !others_updated by done.
  rewrite (proj2 (erased_cards _ _ Hc)). f_equal.
  assert (f <$> bills k = update_where (of_guest Bill.guestId (Person.id g)) f (bills k)) as ->.
  { apply list_fmap_ext. intros j x Hx%list_elem_of_lookup_2. destruct (of_guest Bill.guestId (Person.id g) x) eqn:E; [done|]. apply Hout.
    intros (y & Eid & [Hy [Hyg _]%andb_prop]%elem_of_filterb)%list_elem_of_fmap. assert (x = y) as -> by (by eapply NoDup_fmap_inj). unfold of_guest in E. congruence. }
  apply others_updated; [done|]. intros x. unfold of_guest. specialize (Hf x). unfold payer_only in Hf. by injection Hf as _ -> _.
Qed.

End Erasure.

Module ErasureWitness.
Import Hotel.
Definition ada : Person.t :=
  {| Person.id := "g1"; Person.name := "Ada Obi"; Person.email := Some "ada@example.com"; Person.phone := Some "+234 803 000 0000"; Person.phoneDigits := Some "2348030000000"; Person.nationality := Some "NG";
     Person.idDocType := Some "passport"; Person.idDocNumber := Some "A1234567"; Person.idDocUrl := Some "ids/g1.enc"; Person.idDocExpiryDate := Some 0; Person.preferences := Some "high floor"; Person.vipLevel := Some 2;
     Person.tags := ["press"]; Person.notes := Some "allergic to nuts"; Person.loyaltyPoints := Some 120; Person.marketingOptIn := true; Person.marketingOptInAt := Some 0; Person.marketingOptInSource := Some "guest_portal";
     Person.marketingUnsubscribedAt := None; Person.createdAt := 0; Person.deletedAt := None |}.
Definition ben : Person.t :=
  {| Person.id := "g2"; Person.name := "Ben Ade"; Person.email := None; Person.phone := None; Person.phoneDigits := None; Person.nationality := None; Person.idDocType := Some "passport"; Person.idDocNumber := None;
     Person.idDocUrl := None; Person.idDocExpiryDate := None; Person.preferences := None; Person.vipLevel := Some 0; Person.tags := []; Person.notes := None; Person.loyaltyPoints := None; Person.marketingOptIn := false;
     Person.marketingOptInAt := None; Person.marketingOptInSource := None; Person.marketingUnsubscribedAt := None; Person.createdAt := 0; Person.deletedAt := None |}.
Definition day_time (n : Z) : Z := n * DAY_MS.
Definition request (i : string) (t : GdprType) : Request.t :=
  {| Request.id := i; Request.guestId := "g1"; Request.type := t; Request.status := waiting; Request.requestedBy := "ada@example.com"; Request.deadline := 0; Request.completedAt := None; Request.exportUrl := None; Request.notes := None |}.
(** A stay long over and paid for, another guest in the house, 31 August 2026 *)
Definition registry : Registry :=
  {| time := day_time 20696; made := 100; retentionMonths := Some 6; people := [ada; ben];
     stays := [{| Stay.id := "s1"; Stay.guestId := "g1"; Stay.status := checked_out; Stay.checkOutDate := day_time 20000; Stay.specialRequests := Some "cot"; Stay.estimatedArrivalTime := None; Stay.deletedAt := None |};
               {| Stay.id := "s2"; Stay.guestId := "g2"; Stay.status := checked_in; Stay.checkOutDate := day_time 20700; Stay.specialRequests := Some "late"; Stay.estimatedArrivalTime := None; Stay.deletedAt := None |}];
     bills := [{| Bill.id := "f1"; Bill.guestId := "g1"; Bill.payerName := Some "ADA OBI"; Bill.payerEmail := Some "Ada@example.com"; Bill.deletedAt := None |}];
     charges := [{| Entry.folioId := "f1"; Entry.amount := Qc_of_Z 100; Entry.isVoid := false; Entry.deletedAt := None |}];
     takings := [{| Entry.folioId := "f1"; Entry.amount := Qc_of_Z 100; Entry.isVoid := false; Entry.deletedAt := None |}];
     cards := [{| Card.id := "c1"; Card.reservationId := "s1"; Card.guestId := "g1"; Card.fields := JObj [("room", JStr "101"); ("guestName", JStr "Ada Obi")]; Card.signatureData := Some "svg"; Card.documentUrl := Some "cards/c1.enc"; Card.purgedAt := None |};
               {| Card.id := "c2"; Card.reservationId := "s2"; Card.guestId := "g2"; Card.fields := JObj [("guestName", JStr "Ben Ade")]; Card.signatureData := None; Card.documentUrl := None; Card.purgedAt := None |}];
     notes := [{| Note.guestId := "g1"; Note.body := "tips well" |}]; messages := [{| Message.guestId := "g1"; Message.subject := Some "Your stay"; Message.body := "Dear Ada"; Message.bodyHtml := None |}];
     ledger := [{| Points.guestId := "g1"; Points.points := 120; Points.description := "Stay RES-1" |}]; events := [{| Event.reservationGuest := Some "g1"; Event.guest := None |}; {| Event.reservationGuest := Some "g2"; Event.guest := None |}];
     trail := [{| Trail.action := "guest.updated"; Trail.entityType := "guest_profile"; Trail.entityId := "g1"; Trail.before := Some "Ada O."; Trail.after := "Ada Obi" |}];
     requests := [request "q1" access; request "q2" erasure]; files := <["ids/g1.enc" := Document]> (<["cards/c1.enc" := Document]> ∅) |}.
Lemma registry_named : rows_named registry /\ NoDup (Bill.id <$> bills registry).
Proof. split; [split|]; apply (bool_decide_unpack _); vm_compute; exact I. Qed.
Definition everything : string -> bool := fun _ => true.
Lemma erased_ok : is_ok (eraseGuestData everything "q2" registry) = true.
Proof. vm_compute. reflexivity. Qed.
Definition after_erasure : Registry := match eraseGuestData everything "q2" registry with Ok (k, _) => k | Err _ => registry end.
Example what_is_left : personal "g1" after_erasure = ["Erased guest"; "Erased guest"; "[erased]"; "[erased]"; "[erased]"; "erased"] /\ bills after_erasure ≫= (fun b => option_list (Bill.payerName b) ++ option_list (Bill.payerEmail b)) = ["Erased guest"].
Proof. split; vm_compute; reflexivity. Qed.
(** Six months before 31 August is taken to be 3 March: February has no 31st. *)
Example period_cut_short : cutoffFor 6 (day_time 20696) = day_time (day_of_civil 2026 3 3).
Proof. vm_compute. reflexivity. Qed.
(** An export made before the erasure is still served after it. *)
Definition exported : Registry := match downloadExport "q1" registry with Ok (k, _) => k | Err _ => registry end.
Example export_outlives_erasure :
  match eraseGuestData everything "q2" exported with
  | Ok (k, _) => match downloadExport "q1" k with Ok (_, Exported e) => Person.name (ex_guest e) = "Ada Obi" /\ Message.body <$> ex_messages e = ["Dear Ada"] | _ => False end
  | Err _ => False
  end.
Proof. vm_compute. split; reflexivity. Qed.
End ErasureWitness.
