(* ===== verification/GroupBlocks.v ===== *)
(** Group blocks (src/src/modules/sales-events/group-blocks.service.ts): rooms
    held for a group until a cut-off, bookings into the block, rooming lists.
    Availability is where the hold is counted ([Inventory.groupBlockHolds]);
    here it is shown that what a block takes off sale is exactly its allotment,
    and that releasing it gives exactly the rest back. *)
From stdpp Require Import pretty.
From Stdlib Require Import QArith Qcanon.
From S2P Require Import Prelude Decimal Json Dates StayPolicies Taxes Authority Transactions Db LoyaltyRules Packages Folios Notices SampleHotel Rooms Housekeeping SalesRules Inventory Rates Guests Bookings StayChanges StayEnds Frames Lifecycle NoOverbooking NightAudit.
Import BranchRoles StayFees StayFeesProps.
Local Open Scope Z_scope.

Definition MAX_BLOCK_NIGHTS : Z := 92.
Definition BOOKING_ROLES : list string := ["owner"; "manager"; "front_desk"].
Definition MANAGER_ROLES : list string := ["owner"; "manager"].

Record CreateGroupBlockDto := {
  gb_name : string; gb_roomTypeId : string; gb_blockSize : Z; gb_blockRate : Qc; gb_arrivalDate : string; gb_departureDate : string; gb_cutoffDate : string;
  gb_contactName : option string; gb_contactEmail : option string; gb_contactPhone : option string }.
Record BookIntoGroupBlockDto := {
  bg_guestId : option string; bg_guest : option CreateGuestDto; bg_checkInDate : option string; bg_checkOutDate : option string; bg_adults : Z; bg_children : option Z }.
Record RoomingListRowDto := {
  rl_guestName : string; rl_email : option string; rl_phone : option string; rl_checkInDate : option string; rl_checkOutDate : option string;
  rl_adults : option Z; rl_children : option Z }.

Inductive GroupBlockHoldState := hold_holding | hold_lapsed | hold_released | hold_none.
Record GroupBlockSummary := {
  gs_block : GroupBlock.t; gs_roomTypeName : string; gs_blockRate : string; gs_currency : string; gs_pickup : Z;
  gs_holdState : GroupBlockHoldState; gs_roomsHeld : Z }.
(** Guests booked (row, name, confirmation number, reservation) and refused (row, name, why). *)
Record RoomingListResult := { rr_created : list (Z * string * string * string); rr_failed : list (Z * string * string) }.

Definition block_where (i : string) (g : GroupBlock.t) : bool := bool_decide (GroupBlock.id g = i).
Definition counts_for (i : string) (r : Reservation.t) : bool := in_block i r && isNone (Reservation.deletedAt r) && in_block_pickup (Reservation.status r).
(** [isoDate(block.arrivalDate)] *)
Definition isoDate (o : option Z) : option string := iso_date <$> o.
Definition or_block (given own : option string) : option string := match given with Some s => Some s | None => own end.

Section GroupBlocks.
Context `{DecimalLib} `{TaxDb} `{Platform} `{Uuid}.
(** [messageOf(err)]; the texts are not modelled. *)
Context (messageOf : error -> string).

Definition toSummary (block : GroupBlock.t) (roomTypeName : string) (pickup today : Z) (currency : string) : GroupBlockSummary :=
  let holdState := if negb (bool_decide (GroupBlock.status block = "active")) then hold_released
                   else match GroupBlock.arrivalDate block, GroupBlock.departureDate block with
                        | Some _, Some _ => if today <=? GroupBlock.cutoffDate block then hold_holding else hold_lapsed
                        | _, _ => hold_none
                        end in
  {| gs_block := block; gs_roomTypeName := roomTypeName; gs_blockRate := to_fixed2 (GroupBlock.blockRate block); gs_currency := currency; gs_pickup := pickup;
     gs_holdState := holdState; gs_roomsHeld := match holdState with hold_holding => Z.max 0 (GroupBlock.blockSize block - pickup) | _ => 0 end |}.

Definition branchDay (b : string) : M (Z * string) :=
  let! branch := assertBranch b in
  let! today := branch_today branch in
  ret (today, Branch.currency branch).
Definition pickupOf (i : string) : M Z := let! l := findMany reservations (counts_for i) in ret (Z.of_nat (length l)).
(** [include: { roomType: { select: { name: true } } }] *)
Definition type_name_of (block : GroupBlock.t) : M string :=
  let! x := orThrow (findFirst roomTypes (fun x => bool_decide (RoomType.id x = GroupBlock.roomTypeId block))) internal in ret (RoomType.name x).

Definition createBlock (b : string) (dto : CreateGroupBlockDto) (actorId : string) : M GroupBlockSummary :=
  let! arrival := a_date (gb_arrivalDate dto) in
  let! departure := a_date (gb_departureDate dto) in
  let! cutoff := a_date (gb_cutoffDate dto) in
  throw! invalid when (departure <=? arrival) in
  throw! invalid when (MAX_BLOCK_NIGHTS * DAY_MS <? departure - arrival) in
  throw! invalid when (arrival <? cutoff) in
  let! '(today, currency) := branchDay b in
  throw! invalid when (cutoff <? today) in
  let! roomType := orThrow (findFirst roomTypes (type_at (gb_roomTypeId dto) b)) not_found in
  let! nights := availabilityPerNightInTx b (RoomType.id roomType) arrival departure in
  throw! not_available when existsb (fun n => snd n <? gb_blockSize dto) nights in
  let! at_ := now in
  let! rate := lift (numeric (gb_blockRate dto)) in
  let! i := new_id in
  let block := {| GroupBlock.id := i; GroupBlock.branchId := b; GroupBlock.roomTypeId := RoomType.id roomType; GroupBlock.name := js_trim (gb_name dto);
                  GroupBlock.blockSize := gb_blockSize dto; GroupBlock.blockRate := rate; GroupBlock.cutoffDate := cutoff; GroupBlock.status := "active";
                  GroupBlock.arrivalDate := Some arrival; GroupBlock.departureDate := Some departure; GroupBlock.contactName := trimmed (gb_contactName dto);
                  GroupBlock.contactEmail := set_string (gb_contactEmail dto); GroupBlock.contactPhone := trimmed (gb_contactPhone dto);
                  GroupBlock.createdBy := Some actorId; GroupBlock.createdAt := at_ |} in
  do! modify (upd_groupBlocks (fun l => l ++ [block])) in
  do! auditLog (Some b) (Some actorId) "group_block.created" "group_block" i in
  ret (toSummary block (RoomType.name roomType) 0 today currency).

Definition listBlocks (b : string) : M (list GroupBlockSummary) :=
  let! found := findMany groupBlocks (fun g => bool_decide (GroupBlock.branchId g = b)) in
  let blocks := sort_by (fun g => - GroupBlock.createdAt g) found in
  if bool_decide (length blocks = 0%nat) then ret []
  else
    let! names := for_each blocks [] (fun acc g => let! n := type_name_of g in ret (acc ++ [n])) in
    let! '(today, currency) := branchDay b in
    let! pickups := findMany reservations (fun r => existsb (fun g => counts_for (GroupBlock.id g) r) blocks) in
    ret ((fun p => toSummary (fst p) (snd p) (Z.of_nat (length (List.filter (in_block (GroupBlock.id (fst p))) pickups))) today currency) <$> zip blocks names).

Definition releaseBlock (i : string) (actor : JwtPayload) : M GroupBlockSummary :=
  let! block := orThrow (findFirst groupBlocks (block_where i)) not_found in
  do! lift (assertRoleAtBranch actor (GroupBlock.branchId block) MANAGER_ROLES) in
  throw! conflict when negb (bool_decide (GroupBlock.status block = "active")) in
  do! modify (upd_groupBlocks (update_where (block_where i) (GroupBlock.with_status "released"))) in
  let! name := type_name_of block in
  do! auditLog (Some (GroupBlock.branchId block)) (Some (sub actor)) "group_block.released" "group_block" i in
  let! pickup := pickupOf i in
  let! '(today, currency) := branchDay (GroupBlock.branchId block) in
  ret (toSummary (GroupBlock.with_status "released" block) name pickup today currency).

(** What the booking of a guest into a block asks for; the rest is an ordinary booking's. *)
Definition into_block (block : GroupBlock.t) (guestId : option string) (guest : option CreateGuestDto) (checkIn checkOut : string) (adults : Z) (children : option Z) : CreateReservationDto := {|
  cd_guestId := guestId; cd_guest := guest; cd_roomTypeId := GroupBlock.roomTypeId block; cd_checkInDate := checkIn; cd_checkOutDate := checkOut;
  cd_adults := adults; cd_children := children; cd_channel := None; cd_joinWaitlist := false; cd_dayUse := false;
  cd_packageIds := None; cd_promoCode := None; cd_corporateAccountId := None |}.

Definition bookIntoBlock (i : string) (dto : BookIntoGroupBlockDto) (actor : JwtPayload) : M (string * string) :=
  let! block := orThrow (findFirst groupBlocks (block_where i)) not_found in
  do! lift (assertRoleAtBranch actor (GroupBlock.branchId block) BOOKING_ROLES) in
  let! checkIn := lift (or_throw (set_string (or_block (bg_checkInDate dto) (isoDate (GroupBlock.arrivalDate block)))) invalid) in
  let! checkOut := lift (or_throw (set_string (or_block (bg_checkOutDate dto) (isoDate (GroupBlock.departureDate block)))) invalid) in
  throw! invalid when outsideGroupBlock (GroupBlock.arrivalDate block) (GroupBlock.departureDate block) checkIn checkOut in
  let! r := createReservation (GroupBlock.branchId block) (into_block block (bg_guestId dto) (bg_guest dto) checkIn checkOut (bg_adults dto) (bg_children dto))
              (Some (sub actor)) (Some (GroupBlock.id block)) false in
  ret (Reservation.id r, Reservation.confirmationNumber r).

(** A row is in order: a name, dates of its own or the block's, the right way round and in the block. *)
Definition row_ok (block : GroupBlock.t) (row : RoomingListRowDto) : bool :=
  nonempty (js_trim (rl_guestName row)) &&
  match set_string (or_block (rl_checkInDate row) (isoDate (GroupBlock.arrivalDate block))), set_string (or_block (rl_checkOutDate row) (isoDate (GroupBlock.departureDate block))) with
  | Some checkIn, Some checkOut => String.ltb checkIn checkOut && negb (outsideGroupBlock (GroupBlock.arrivalDate block) (GroupBlock.departureDate block) checkIn checkOut)
  | _, _ => false
  end.
Definition book_row (block : GroupBlock.t) (actor : JwtPayload) (row : RoomingListRowDto) : M Reservation.t :=
  createReservation (GroupBlock.branchId block)
    (into_block block None (Some {| cg_name := js_trim (rl_guestName row); cg_email := rl_email row; cg_phone := trimmed (rl_phone row) |})
      (default "" (or_block (rl_checkInDate row) (isoDate (GroupBlock.arrivalDate block)))) (default "" (or_block (rl_checkOutDate row) (isoDate (GroupBlock.departureDate block))))
      (default 1 (rl_adults row)) (Some (default 0 (rl_children row))))
    (Some (sub actor)) (Some (GroupBlock.id block)) false.
Definition import_row (block : GroupBlock.t) (actor : JwtPayload) (acc : Z * RoomingListResult) (row : RoomingListRowDto) : M (Z * RoomingListResult) :=
  let '(n, so_far) := acc in
  let guestName := js_trim (rl_guestName row) in
  let! outcome := attempt (book_row block actor row) in
  ret (n + 1, match outcome with
              | inl r => {| rr_created := rr_created so_far ++ [(n, guestName, Reservation.confirmationNumber r, Reservation.id r)]; rr_failed := rr_failed so_far |}
              | inr e => {| rr_created := rr_created so_far; rr_failed := rr_failed so_far ++ [(n, guestName, messageOf e)] |}
              end).
(** Every row is checked, then every row is booked in a transaction of its own. *)
Definition importRoomingList (i : string) (rows : list RoomingListRowDto) (actor : JwtPayload) : M RoomingListResult :=
  let! block := orThrow (findFirst groupBlocks (block_where i)) not_found in
  let! pickup := pickupOf i in
  do! lift (assertRoleAtBranch actor (GroupBlock.branchId block) BOOKING_ROLES) in
  throw! conflict when negb (bool_decide (GroupBlock.status block = "active")) in
  throw! invalid when existsb (fun row => negb (row_ok block row)) rows in
  throw! conflict when (GroupBlock.blockSize block - pickup <? Z.of_nat (length rows)) in
  let! result := for_each rows (1, {| rr_created := []; rr_failed := [] |}) (import_row block actor) in
  do! auditLog (Some (GroupBlock.branchId block)) (Some (sub actor)) "group_block.rooming_list_imported" "group_block" i in
  ret (snd result).
End GroupBlocks.

(** ** What a block takes off sale *)
Section Holds.
Context `{DecimalLib} `{TaxDb} `{Platform} {server : Z} `{!PlatformOk server} `{!ZonesWithinADay} `{Uuid}.

Definition added (g : GroupBlock.t) (d : Db) : Db := upd_groupBlocks (fun l => l ++ [g]) d.
Definition released (i : string) (d : Db) : Db := upd_groupBlocks (update_where (block_where i) (GroupBlock.with_status "released")) d.

Lemma left_on_added g d b t ex into today night : left_on (added g d) b t ex into today night = left_on d b t ex into today night - block_keeps d b t into today night g.
Proof.
  unfold left_on. assert (groups_keep (added g d) b t into today night = groups_keep d b t into today night + block_keeps d b t into today night g) as ->.
  { unfold groups_keep. simpl. rewrite fmap_app, zsum_app. f_equal. exact (Z.add_0_r _). }
  assert (capacity_on (added g d) b t night = capacity_on d b t night) as -> by done. assert (stays_on (added g d) b t ex night = stays_on d b t ex night) as -> by done. lia.
Qed.
Lemma block_keeps_into d b t today night g : block_keeps d b t (Some (GroupBlock.id g)) today night g = 0.
Proof.
  unfold block_keeps, other_than. rewrite (bool_decide_true (GroupBlock.id g = GroupBlock.id g)) by done. simpl negb. by rewrite andb_false_r.
Qed.
(** Nobody is booked into a block whose id nobody knows. *)
Lemma unbooked d g : (forall r, r ∈ reservations d -> Reservation.groupBlockId r <> Some (GroupBlock.id g)) -> block_pickup d g = 0 /\ forall night, block_booked d g night = 0.
Proof.
  intros Hf. assert (forall p, (forall r, in_block (GroupBlock.id g) r = false -> p r = false) -> Z.of_nat (length (List.filter p (reservations d))) = 0) as Hz.
  { intros p Hp. rewrite (filter_extb p (fun _ => false)); [clear; by induction (reservations d)|]. intros r Hr. apply Hp, bool_decide_eq_false_2. by apply Hf. }
  split; [|intros night]; apply Hz; by intros r ->.
Qed.
Lemma block_keeps_all d b t today night g arrival departure : (forall r, r ∈ reservations d -> Reservation.groupBlockId r <> Some (GroupBlock.id g)) ->
  GroupBlock.branchId g = b -> GroupBlock.roomTypeId g = t -> GroupBlock.status g = "active" -> today <= GroupBlock.cutoffDate g ->
  GroupBlock.arrivalDate g = Some arrival -> GroupBlock.departureDate g = Some departure -> 0 <= GroupBlock.blockSize g ->
  block_keeps d b t None today night g = if (arrival <=? night) && (night <? departure) then GroupBlock.blockSize g else 0.
Proof.
  intros [Hp Hk]%unbooked Hb Ht Hs Hc Ha Hd Hn. unfold block_keeps. rewrite Ha, Hd, !bool_decide_true, Hp, Hk by done. simpl other_than. apply Z.leb_le in Hc. rewrite Hc.
  simpl. destruct (_ && _); lia.
Qed.

Lemma keeps_into_other d b t today night i g : GroupBlock.id g <> i -> block_keeps d b t (Some i) today night g = block_keeps d b t None today night g.
Proof. intros Hne. unfold block_keeps, other_than. by rewrite (bool_decide_false (GroupBlock.id g = i)). Qed.
Lemma groups_keep_into d b t today night i : (forall g, g ∈ groupBlocks d -> GroupBlock.id g <> i) -> groups_keep d b t (Some i) today night = groups_keep d b t None today night.
Proof. intros Hi. unfold groups_keep. f_equal. apply list_fmap_ext. intros k g Hg. apply keeps_into_other, Hi. by eapply list_elem_of_lookup_2. Qed.

(** What a committed [createBlock] has found and written. *)
Lemma createBlock_run b dto u d d' s : createBlock b dto u d = Ok (d', s) -> exists branch roomType arrival departure today nights,
  List.find (fun x => bool_decide (Branch.id x = b) && isNone (Branch.deletedAt x)) (branches d) = Some branch /\ toBranchDate (todayInTimezone (Branch.timezone branch) (clock d)) = Some today /\
  toBranchDate (gb_arrivalDate dto) = Some arrival /\ toBranchDate (gb_departureDate dto) = Some departure /\ RoomType.id roomType = gb_roomTypeId dto /\
  (exists d1, computeAvailabilityPerNight b (gb_roomTypeId dto) arrival departure None None d = Ok (d1, nights) /\
     existsb (fun n => snd n <? gb_blockSize dto) nights = false /\ GroupBlock.id (gs_block s) = gen_random_uuid (seq d1) /\ stable (added (gs_block s) d1) d') /\
  GroupBlock.branchId (gs_block s) = b /\ GroupBlock.roomTypeId (gs_block s) = gb_roomTypeId dto /\ GroupBlock.status (gs_block s) = "active" /\ today <= GroupBlock.cutoffDate (gs_block s) /\
  GroupBlock.blockSize (gs_block s) = gb_blockSize dto /\ GroupBlock.arrivalDate (gs_block s) = Some arrival /\ GroupBlock.departureDate (gs_block s) = Some departure.
Proof.
  unfold createBlock, branchDay, assertBranch, a_date, availabilityPerNightInTx, auditLog. intros Hm. m_inv.
  match goal with H : branch_today _ _ = _ |- _ => apply branch_today_spec in H as (-> & _ & Htoday) end.
  unfold now in *. m_inv. match goal with H : new_id _ = _ |- _ => apply new_id_spec in H as [-> ->] end.
  match goal with H : Some ?x = List.find (type_at _ _) _ |- _ => symmetry in H; apply find_Some in H as [_ Ht]; unfold type_at in Ht; boolp; destruct Ht as [[Ht _] _] end.
  rewrite Ht in *. eexists _, _, _, _, _, _. split; [done|]. split; [done|]. split; [done|]. split; [done|]. split; [exact Ht|]. split_and!; try done.
  eexists. split; [done|]. split; [done|]. split; done.
Qed.
(** Ids the database has yet to give are on no block and on no booking. *)
Definition blocks_named (d : Db) : Prop :=
  named GroupBlock.id (seq d) (groupBlocks d) /\ forall r k, r ∈ reservations d -> (seq d <= k)%nat -> Reservation.groupBlockId r <> Some (gen_random_uuid k).
Lemma live_branch_zone d b branch : NoDup (Branch.id <$> branches d) ->
  List.find (fun x => bool_decide (Branch.id x = b) && isNone (Branch.deletedAt x)) (branches d) = Some branch -> branch_zone d b = Branch.timezone branch.
Proof.
  intros Hnd [Hin Hb]%find_Some. boolp. destruct Hb as [Hb _]. unfold branch_zone. destruct (List.find _ _) as [x|] eqn:E.
  - apply find_Some in E as [Hx Ex]. boolp. f_equal. apply (NoDup_fmap_inj Branch.id (branches d)); [done..|congruence].
  - apply (find_None _ _ _ E) in Hin. by rewrite bool_decide_true in Hin.
Qed.

(** C8: Opening a group block takes exactly its allotment off sale and nothing
    more: on every night of the group's stay there are [blockSize] fewer rooms of
    the type for everyone else than before, and never fewer than none; on every
    other night, and for a booking into the block itself, there are as many as
    before. *)
Theorem block_holds_its_rooms (b : string) (dto : CreateGroupBlockDto) (u : string) (d d' : Db) (s : GroupBlockSummary) (today : Z) :
  NoDup (Room.id <$> rooms d) -> NoDup (Branch.id <$> branches d) -> dates_wf d -> blocks_named d -> toBranchDate (todayInTimezone (branch_zone d b) (clock d)) = Some today ->
  0 < gb_blockSize dto -> createBlock b dto u d = Ok (d', s) ->
  let left_for db into night := left_on db b (gb_roomTypeId dto) None into today night in
  exists arrival departure, toBranchDate (gb_arrivalDate dto) = Some arrival /\ toBranchDate (gb_departureDate dto) = Some departure /\
  (forall night, left_for d' None night = left_for d None night - (if (arrival <=? night) && (night <? departure) then gb_blockSize dto else 0)) /\
  (forall night, night ∈ nights_between arrival departure -> 0 <= left_for d' None night) /\
  (forall night, left_for d' (Some (GroupBlock.id (gs_block s))) night = left_for d None night).
Proof.
  intros Hrooms Hbr Hdates [Hnamed Hfree] Htoday Hsize Hm. simpl. apply createBlock_run in Hm as (branch & x & arrival & departure & today' & nights & Hbranch & Htoday' & Ha & Hdep & _ & Hav & Hb & Ht & Hs & Hc & Hn & Hga & Hgd).
  rewrite (live_branch_zone _ _ _ Hbr Hbranch) in Htoday. assert (today' = today) as -> by congruence. destruct Hav as (d1 & Hav & Hfit & Hid & Hst).
  apply branch_date_range in Ha as Hra. apply branch_date_range in Hdep as Hrd.
  rewrite (availability_run (server := server) b (gb_roomTypeId dto) arrival departure today None None d) in Hav; [|try tauto..]; [|by rewrite (live_branch_zone _ _ _ Hbr Hbranch)].
  injection Hav as <- <-. exists arrival, departure. split; [done|]. split; [done|].
  assert (forall r, r ∈ reservations d -> Reservation.groupBlockId r <> Some (GroupBlock.id (gs_block s))) as Hnone by (intros r Hr; rewrite Hid; by apply Hfree).
  assert (forall night, left_on d' b (gb_roomTypeId dto) None None today night = left_on d b (gb_roomTypeId dto) None None today night - (if (arrival <=? night) && (night <? departure) then gb_blockSize dto else 0)) as Hdrop.
  { intros night. rewrite (left_on_stock _ _ _ _ _ _ _ _ Hst), left_on_added. rewrite <- Hn. by rewrite (block_keeps_all d b (gb_roomTypeId dto) today night (gs_block s) arrival departure) by (done || lia). }
  split; [done|]. split.
  - intros night Hnight. rewrite Hdrop. pose proof Hnight as (k & Hk & -> & Hlt)%elem_of_nights_between. replace (arrival <=? _) with true by (symmetry; apply Z.leb_le; unfold DAY_MS; lia). apply Z.ltb_lt in Hlt. rewrite Hlt. simpl.
    apply not_true_iff_false in Hfit. rewrite existsb_exists_elem in Hfit. apply Z.nlt_ge. intros Hneg. apply Hfit. eexists. split; [by apply list_elem_of_fmap_2|]. cbn [snd]. apply Z.ltb_lt. lia.
  - intros night. rewrite (left_on_stock _ _ _ _ _ _ _ _ Hst), left_on_added, block_keeps_into. unfold left_on. rewrite groups_keep_into; [lia|]. intros g Hg. rewrite Hid. by apply (proj2 Hnamed g).
Qed.

(** ** Releasing *)
Lemma zsum_update_one {A} (f : A -> Z) (key : A -> string) (i : string) (h : A -> A) l x : NoDup (key <$> l) -> x ∈ l -> key x = i ->
  zsum (f <$> update_where (fun y => bool_decide (key y = i)) h l) = zsum (f <$> l) + (f (h x) - f x).
Proof.
  intros Hnd Hx Hi. induction l as [|y l IH]; [by apply elem_of_nil in Hx|]. rewrite fmap_cons, NoDup_cons in Hnd. destruct Hnd as [Hy Hnd]. unfold update_where in *. rewrite !fmap_cons. simpl.
  apply elem_of_cons in Hx as [->|Hx].
  - rewrite bool_decide_true by done. assert ((fun y0 => if bool_decide (key y0 = i) then h y0 else y0) <$> l = l) as ->; [|lia].
    rewrite <- (list_fmap_id l) at 2. apply list_fmap_ext. intros k z Hz. rewrite bool_decide_false; [done|]. intros E. apply Hy. rewrite Hi, <- E. by eapply list_elem_of_fmap_2, list_elem_of_lookup_2.
  - rewrite bool_decide_false by (intros <-; apply Hy; rewrite <- Hi; by apply list_elem_of_fmap_2). rewrite (IH Hnd Hx). lia.
Qed.
Lemma left_on_released d i g b t ex into today night : NoDup (GroupBlock.id <$> groupBlocks d) -> g ∈ groupBlocks d -> GroupBlock.id g = i ->
  left_on (released i d) b t ex into today night = left_on d b t ex into today night + block_keeps d b t into today night g.
Proof.
  intros Hnd Hg Hi. unfold left_on. assert (capacity_on (released i d) b t night = capacity_on d b t night) as -> by done. assert (stays_on (released i d) b t ex night = stays_on d b t ex night) as -> by done.
  unfold groups_keep at 1. simpl. assert (block_keeps (released i d) b t into today night = block_keeps d b t into today night) as -> by done.
  unfold block_where. rewrite (zsum_update_one _ GroupBlock.id i _ _ g) by done.
  assert (block_keeps d b t into today night (GroupBlock.with_status "released" g) = 0) as ->; [|unfold groups_keep; lia].
  unfold block_keeps. simpl. by rewrite andb_false_r.
Qed.
Lemma releaseBlock_run i actor d d' s : releaseBlock i actor d = Ok (d', s) -> exists g, List.find (block_where i) (groupBlocks d) = Some g /\
  hasRoleAtBranch actor (GroupBlock.branchId g) MANAGER_ROLES = true /\ GroupBlock.status g = "active" /\ stable (released i d) d'.
Proof.
  unfold releaseBlock, assertRoleAtBranch, type_name_of, pickupOf, branchDay, assertBranch, auditLog. intros Hm. m_inv.
  match goal with H : branch_today _ _ = _ |- _ => apply branch_today_spec in H as (-> & _ & _) end. boolp. eexists. done.
Qed.

(** Releasing a group block gives back exactly what it still held: for every
    room type, night and booking there are as many rooms on sale as before, plus
    what the block kept of that night (its allotment less its own bookings, and
    nothing past its cut-off). Only an owner or a manager of the branch can, only
    while the block is active, and no booking into the block gets through
    afterwards. *)
Theorem release_gives_back (i : string) (actor : JwtPayload) (d d' : Db) (s : GroupBlockSummary) :
  NoDup (GroupBlock.id <$> groupBlocks d) -> releaseBlock i actor d = Ok (d', s) ->
  exists g, List.find (block_where i) (groupBlocks d) = Some g /\ hasRoleAtBranch actor (GroupBlock.branchId g) MANAGER_ROLES = true /\ GroupBlock.status g = "active" /\
  (forall b t except into today night, left_on d' b t except into today night = left_on d b t except into today night + block_keeps d b t into today night g) /\
  (forall b t, is_ok (assertGroupBlockOpen i b t d') = false).
Proof.
  intros Hnd (g & Hg & Hrole & Hactive & Hst)%releaseBlock_run. exists g. split; [done|]. split; [done|]. split; [done|]. apply find_Some in Hg as [Hin Hid%bool_decide_eq_true]. split.
  - intros. rewrite (left_on_stock _ _ _ _ _ _ _ _ Hst). by apply left_on_released.
  - intros b t. assert (groupBlocks d' = groupBlocks (released i d)) as E by (unfold stable, stock in Hst; congruence).
    destruct (assertGroupBlockOpen i b t d') as [[d1 x]|e] eqn:Em; [|done]. exfalso. unfold assertGroupBlockOpen in Em. m_inv.
    match goal with H : Some ?y = List.find _ _ |- _ => rewrite E in H; symmetry in H; apply find_Some in H as [Hy Hc] end. boolp. destruct Hc as [Hc _].
    simpl in Hy. unfold update_where in Hy. apply list_elem_of_fmap in Hy as (z & -> & Hz). unfold block_where in *. case_bool_decide; [done|]. naive_solver.
Qed.
End Holds.

(** ** Rooming lists *)
Section RoomingLists.
Context `{DecimalLib} `{TaxDb} `{Platform} `{Uuid} (messageOf : error -> string).

Lemma create_row_pinned n data d d' row : createReservationRow n data d = Ok (d', row) -> stored_amount (Reservation.overrideRate data) = Ok (Reservation.overrideRate row).
Proof.
  revert data d. induction n as [|n IH]; intros data d Hm; [discriminate|]. cbn [createReservationRow] in Hm.
  apply bind_Ok in Hm as (d1 & r & [Hrow ->]%lift_Ok & Hm). apply bind_Ok in Hm as (d2 & taken & [-> _]%findFirst_Ok & Hm). destruct taken as [t|].
  - destruct n as [|n]; [discriminate|]. apply bind_Ok in Hm as (d3 & m & Hn & Hm). by apply IH in Hm.
  - unfold stay_row in Hrow. apply res_bind_Ok in Hrow as (a & _ & Hrow). apply res_bind_Ok in Hrow as (b & Hb & Hrow). apply res_bind_Ok in Hrow as (c & _ & Hrow).
    apply res_bind_Ok in Hrow as ([] & _ & Hrow). injection Hrow as <-. m_inv. exact Hb.
Qed.
(** A room of the block for one of its guests, at the block's rate. *)
Definition in_group (g : GroupBlock.t) (r : Reservation.t) : Prop :=
  Reservation.groupBlockId r = Some (GroupBlock.id g) /\ Reservation.branchId r = GroupBlock.branchId g /\ Reservation.roomTypeId r = GroupBlock.roomTypeId g /\
  Reservation.status r = confirmed /\ Reservation.deletedAt r = None /\ exists rate, Reservation.overrideRate r = Some rate /\ numeric (GroupBlock.blockRate g) = Ok rate.
Lemma runs_row d0 n data k (Q : Db -> Reservation.t -> Prop) : (forall row, returns row (k row)) ->
  (forall i number a b c, let row := Reservation.with_id i (Reservation.with_money a b c (Reservation.with_number number data)) in
     stored_amount (Reservation.overrideRate data) = Ok b -> forall d', stable (booked row d0) d' -> Q d' row) -> runs d0 (bind (createReservationRow n data) k) Q.
Proof.
  intros Hk HQ d d' y Hd (d1 & row & Hm & Hkx)%bind_Ok. pose proof (create_row_stock _ _ _ _ _ Hm) as Hs. pose proof (create_row_pinned _ _ _ _ _ Hm) as Hp.
  apply create_row_inv in Hm as (i & number & a & b & c & -> & _). destruct (Hk _ _ _ _ Hkx) as [Hs' ->]. apply HQ; [exact Hp|]. etrans; [|exact Hs']. etrans; [|exact Hs].
  unfold stable, stock, booked in *. simpl. congruence.
Qed.
Lemma runs_ret {A B} d0 (x : A) (k : A -> M B) Q : runs d0 (k x) Q -> runs d0 (bind (ret x) k) Q.
Proof. intros Hk d d' y Hd Hm. by apply (Hk d). Qed.
Lemma runs_block_open {A} d0 i b t (k : GroupBlock.t -> M A) Q :
  (forall g, List.find (fun g => bool_decide (GroupBlock.id g = i) && bool_decide (GroupBlock.branchId g = b)) (groupBlocks d0) = Some g -> GroupBlock.roomTypeId g = t -> runs d0 (k g) Q) ->
  runs d0 (bind (assertGroupBlockOpen i b t) k) Q.
Proof.
  intros Hk d d' y Hd (d1 & g & Hm & Hkx)%bind_Ok. assert (groupBlocks d = groupBlocks d0) as E by (unfold stable, stock in Hd; congruence).
  unfold assertGroupBlockOpen in Hm. m_inv. boolp. eapply Hk; [|done|exact Hd|exact Hkx]. by rewrite <- E.
Qed.
#[local] Hint Resolve er_new_id er_auditLog er_emit bs_log bs_audit bs_today bs_assertBranch bs_guest bs_snapshots bs_violation bs_type bs_capacity bs_available bs_allotment
  bs_range bs_block_open bs_resolve bs_link bs_deal bs_confirmation bs_price_room bs_blockPricing bs_hours bs_dayUsePricing bs_deposit : keeps.
(** A booking into a block adds one row, the block's, and touches nothing else availability reads. *)
Lemma booking_into_block b guestId guest from to adults children u g d d' r : b = GroupBlock.branchId g -> nonempty (GroupBlock.id g) = true -> NoDup (GroupBlock.id <$> groupBlocks d) -> g ∈ groupBlocks d ->
  createReservation b (into_block g guestId guest from to adults children) u (Some (GroupBlock.id g)) false d = Ok (d', r) -> in_group g r /\ stable (booked r d) d'.
Proof.
  intros Hb Hne Hnd Hg Hrun. pose (Q := fun d' r => in_group g r /\ stable (booked r d) d').
  enough (runs d (createReservation b (into_block g guestId guest from to adults children) u (Some (GroupBlock.id g)) false) Q) as Hr by (by eapply Hr). clear Hrun.
  unfold createReservation. cbn [cd_dayUse cd_joinWaitlist into_block set_string cd_roomTypeId]. rewrite Hne. do 5 (apply runs_bind; [unfold a_date; keeps_tac | intros ?]).
  do 6 (apply runs_bind; [keeps_tac | intros ?]). apply runs_assoc. apply runs_block_open. intros g' Hf Ht.
  assert (g' = g) as ->. { apply find_Some in Hf as [Hin Hc]. boolp. destruct Hc as [Hc _]. by apply (NoDup_fmap_inj GroupBlock.id (groupBlocks d)). }
  apply runs_ret. cbn [fmap option_fmap option_map]. do 6 (apply runs_bind; [keeps_tac | intros ?]). apply runs_row.
  - intros row. do 3 (apply returns_bind; [keeps_tac | intros ?]). apply returns_ret.
  - intros i number rate pinned dep row Hp d1 Hs. split; [|exact Hs]. simpl in Hp. apply res_bind_Ok in Hp as (amount & Ha & [= <-]). split_and!; try done. by exists amount.
Qed.

(** What a row adds to the list's result, and to the tables. *)
Lemma import_rows g actor rows n so_far m result d d' : nonempty (GroupBlock.id g) = true -> NoDup (GroupBlock.id <$> groupBlocks d) -> g ∈ groupBlocks d ->
  for_each rows (n, so_far) (import_row messageOf g actor) d = Ok (d', (m, result)) -> exists news, reservations d' = reservations d ++ news /\ groupBlocks d' = groupBlocks d /\ Forall (in_group g) news /\
  snd <$> rr_created result = (snd <$> rr_created so_far) ++ (Reservation.id <$> news) /\
  (length (rr_created result) + length (rr_failed result) = length (rr_created so_far) + length (rr_failed so_far) + length rows)%nat.
Proof.
  intros Hne. revert n so_far d. induction rows as [|row rows IH]; intros n so_far d Hnd Hg Hm; cbn [for_each] in Hm.
  { m_inv. exists []. rewrite !app_nil_r. split_and!; [done..|by apply Forall_nil|done|simpl; lia]. }
  apply bind_Ok in Hm as (d1 & [k acc] & Hrow & Hm). unfold import_row in Hrow. apply bind_Ok in Hrow as (d2 & outcome & Hat & Hret). injection Hret as <- <- <-. unfold attempt in Hat.
  destruct (book_row g actor row d) as [[d3 r]|e] eqn:Eb; injection Hat as <- <-.
  - apply booking_into_block in Eb as [Hin Hs]; [|done..]. assert (groupBlocks d3 = groupBlocks d /\ reservations d3 = reservations d ++ [r]) as [Eg Er] by (unfold stable, stock, booked in Hs; simpl in Hs; split; congruence).
    apply IH in Hm as (news & Hr & Hb & Hf & Hc & Hl); [|by rewrite Eg..]. exists (r :: news). rewrite Hr, Hb, Er, Eg, Hc. simpl. rewrite fmap_app, <- !app_assoc. split_and!; [done|done|by apply Forall_cons|done|].
    rewrite Hl. simpl. rewrite length_app. simpl. lia.
  - apply IH in Hm as (news & Hr & Hb & Hf & Hc & Hl); [|done..]. exists news. split_and!; [done..|]. rewrite Hl. simpl. rewrite length_app. simpl. lia.
Qed.
Lemma import_runs g actor rows acc d : exists d' m result, for_each rows acc (import_row messageOf g actor) d = Ok (d', (m, result)).
Proof.
  revert acc d. induction rows as [|row rows IH]; intros [n so_far] d; cbn [for_each]; [by exists d, n, so_far|]. unfold bind at 1, import_row at 1, bind, attempt. destruct (book_row g actor row d) as [[d1 r]|e]; apply IH.
Qed.
Lemma pickup_grows d d' g news : reservations d' = reservations d ++ news -> Forall (in_group g) news -> block_pickup d' g = block_pickup d g + Z.of_nat (length news).
Proof.
  intros Hr Hf. unfold block_pickup. rewrite Hr, List.filter_app, length_app, Nat2Z.inj_add. do 2 f_equal. rewrite (filter_extb _ (fun _ => true)); [clear; induction news; simpl; congruence|].
  intros r Hin. rewrite Forall_forall in Hf. destruct (Hf r Hin) as (Hi & _ & _ & Hs & Hd & _). unfold in_block. by rewrite Hi, Hs, Hd, bool_decide_true.
Qed.

(** A rooming list is booked row by row and accounted for in full. When an
    import goes through, every row is either booked or reported as refused; what
    was booked is exactly one new reservation per row reported, in the list's
    order, each in the block, of its room type and at its rate; and the block has
    not taken more guests than it has rooms. Otherwise, when a row is out of order
    or the list is longer than the rooms left, nothing is booked at all. *)
Theorem rooming_list_accounted (i : string) (rows : list RoomingListRowDto) (actor : JwtPayload) (d : Db) (g : GroupBlock.t) :
  nonempty i = true -> NoDup (GroupBlock.id <$> groupBlocks d) -> g ∈ groupBlocks d -> GroupBlock.id g = i ->
  match importRoomingList messageOf i rows actor d with
  | Ok (d', result) =>
      exists news, reservations d' = reservations d ++ news /\ Forall (in_group g) news /\ snd <$> rr_created result = Reservation.id <$> news /\
      (length (rr_created result) + length (rr_failed result) = length rows)%nat /\
      block_pickup d' g = block_pickup d g + Z.of_nat (length news) /\ block_pickup d' g <= GroupBlock.blockSize g
  | Err _ =>
      hasRoleAtBranch actor (GroupBlock.branchId g) BOOKING_ROLES = false \/ GroupBlock.status g <> "active" \/ existsb (fun row => negb (row_ok g row)) rows = true \/
      GroupBlock.blockSize g < block_pickup d g + Z.of_nat (length rows)
  end.
Proof.
  intros Hne Hnd Hg <-. assert (List.find (block_where (GroupBlock.id g)) (groupBlocks d) = Some g) as Hf.
  { destruct (List.find _ _) as [y|] eqn:E; [|apply (find_None _ _ _ E) in Hg; unfold block_where in Hg; by rewrite bool_decide_true in Hg].
    apply find_Some in E as [Hy Ey%bool_decide_eq_true]. f_equal. by apply (NoDup_fmap_inj GroupBlock.id (groupBlocks d)). }
  assert (orThrow (findFirst groupBlocks (block_where (GroupBlock.id g))) not_found d = Ok (d, g)) as Hread by (unfold orThrow, findFirst, gets, bind; by rewrite Hf).
  unfold importRoomingList. rewrite (bind_run _ _ _ _ _ Hread). rewrite (bind_run (pickupOf _) _ d d (block_pickup d g)) by reflexivity. unfold assertRoleAtBranch, bind, lift.
  destruct (hasRoleAtBranch _ _ _) eqn:Erole; [|by left]. simpl throw_if. cbn iota beta. destruct (bool_decide (GroupBlock.status g = "active")) eqn:Es; boolp; [|by right; left]. simpl throw_if. cbn iota beta.
  destruct (existsb _ rows) eqn:Eok; [by right; right; left|]. simpl throw_if. cbn iota beta.
  destruct (Z.ltb_spec (GroupBlock.blockSize g - block_pickup d g) (Z.of_nat (length rows))); simpl throw_if; cbn iota beta; [right; right; right; lia|].
  destruct (import_runs g actor rows (1, {| rr_created := []; rr_failed := [] |}) d) as (d' & m & result & Hrun). rewrite Hrun. cbn [snd]. unfold auditLog, modify, ret.
  apply import_rows in Hrun as (news & Hr & _ & Hnews & Hc & Hl); [|done..]. exists news. simpl in *. rewrite (pickup_grows d _ g news) by done.
  assert (length (rr_created result) = length news) as Hcl by (rewrite <- (length_fmap snd), Hc, length_fmap; done). split_and!; [done..|lia].
Qed.
End RoomingLists.

Module GroupBlocksWitness.
Import Hotel InventoryWitness LifecycleWitness.
Definition manager : JwtPayload := {| sub := "u1"; roles := [{| role := "manager"; branchId := Some "b1" |}]; apiKey := None |}.
Definition no_text (e : error) : string := "".
(** Both doubles, for two nights. *)
Definition wedding : CreateGroupBlockDto := {|
  gb_name := " The wedding "; gb_roomTypeId := "rt1"; gb_blockSize := 2; gb_blockRate := cents 6000; gb_arrivalDate := "2024-10-06"; gb_departureDate := "2024-10-08"; gb_cutoffDate := "2024-10-05";
  gb_contactName := None; gb_contactEmail := None; gb_contactPhone := None |}.
Definition held : Db := after (createBlock "b1" wedding "u1") hotel.
Lemma wedding_ok : is_ok (createBlock "b1" wedding "u1" hotel) = true.
Proof. vm_compute. reflexivity. Qed.
Lemma hotel_blocks_named : blocks_named hotel.
Proof.
  split; [split; [apply NoDup_nil_2 | by intros g k ?%elem_of_nil]|]. intros r k Hr _. simpl in Hr. apply list_elem_of_singleton in Hr as ->. discriminate.
Qed.
(** Nothing is left for anybody else, and all of it for the wedding's guests. *)
Lemma block_holds_its_rooms_witness : exists s, createBlock "b1" wedding "u1" hotel = Ok (held, s) /\
  (forall night, night ∈ nights_between (day 20002) (day 20004) -> 0 <= left_on held "b1" "rt1" None None (day 20001) night) /\
  left_on held "b1" "rt1" None None (day 20001) (day 20002) = 0 /\ left_on held "b1" "rt1" None (Some (GroupBlock.id (gs_block s))) (day 20001) (day 20002) = 2.
Proof.
  destruct (after_ok _ _ wedding_ok) as [s Hs]. exists s. split; [exact Hs|].
  assert (NoDup (Room.id <$> rooms hotel)) as Hrooms by (apply (bool_decide_unpack _); vm_compute; exact I).
  assert (NoDup (Branch.id <$> branches hotel)) as Hbranches by (apply (bool_decide_unpack _); vm_compute; exact I).
  assert (dates_wf hotel) as Hdates by (split; intros r Hr; simpl in Hr; apply list_elem_of_singleton in Hr as ->; vm_compute; reflexivity).
  assert (toBranchDate (todayInTimezone (branch_zone hotel "b1") (clock hotel)) = Some (day 20001)) as Htoday by (vm_compute; reflexivity).
  destruct (block_holds_its_rooms (server := 0) "b1" wedding "u1" hotel held s (day 20001) Hrooms Hbranches Hdates hotel_blocks_named Htoday eq_refl Hs) as (a & x & Ha & Hx & Hdrop & Hfit & Hown).
  assert (a = day 20002) as -> by (clear -Ha; vm_compute in Ha; by injection Ha). assert (x = day 20004) as -> by (clear -Hx; vm_compute in Hx; by injection Hx). split; [exact Hfit|]. split; [vm_compute; reflexivity|].
  rewrite Hown. vm_compute. reflexivity.
Defined.

(** One guest is booked; the other brings more than a double sleeps and is refused. *)
Definition guest_row (name : string) (adults : Z) : RoomingListRowDto := {|
  rl_guestName := name; rl_email := None; rl_phone := None; rl_checkInDate := None; rl_checkOutDate := None; rl_adults := Some adults; rl_children := None |}.
Definition guest_list : list RoomingListRowDto := [guest_row "Bola Ade" 2; guest_row "Chidi Eze" 5].
Definition block_id : string := match groupBlocks held with g :: _ => GroupBlock.id g | [] => "" end.
Definition arrived : Db := after (importRoomingList no_text block_id guest_list manager) held.
Lemma rooming_list_accounted_witness : match groupBlocks held with
  | [g] => exists result news, importRoomingList no_text block_id guest_list manager held = Ok (arrived, result) /\ reservations arrived = reservations held ++ news /\
      length (rr_created result) = 1%nat /\ length (rr_failed result) = 1%nat /\ Forall (in_group g) news /\ block_pickup arrived g <= GroupBlock.blockSize g
  | _ => False
  end.
Proof.
  assert (exists g, groupBlocks held = [g]) as [g Hg] by (eexists; vm_compute; reflexivity). rewrite Hg.
  assert (is_ok (importRoomingList no_text block_id guest_list manager held) = true) as Hok by (vm_compute; reflexivity). 
  assert (exists result, importRoomingList no_text block_id guest_list manager held = Ok (arrived, result)) as [result Hr] by exact (after_ok _ _ Hok).
  pose proof (rooming_list_accounted no_text block_id guest_list manager held g) as Ht. rewrite Hr in Ht.
  destruct Ht as (news & Hn & Hf & _ & _ & _ & Hle); [vm_compute; reflexivity|apply (bool_decide_unpack _); vm_compute; exact I|rewrite Hg; left|unfold block_id; rewrite Hg; reflexivity|].
  exists result, news. split; [exact Hr|]. split; [exact Hn|].
  assert (match importRoomingList no_text block_id guest_list manager held with Ok (_, x) => bool_decide (length (rr_created x) = 1%nat /\ length (rr_failed x) = 1%nat) | Err _ => false end = true) as Hl by (vm_compute; reflexivity).
  rewrite Hr in Hl. apply bool_decide_eq_true in Hl as [H1 H2]. split; [exact H1|]. split; [exact H2|]. split; [exact Hf | exact Hle].
Defined.

(** Bola has one room of the two; releasing the block gives the other back. *)
Definition let_go : Db := after (releaseBlock block_id manager) arrived.
Lemma release_gives_back_witness : exists s, releaseBlock block_id manager arrived = Ok (let_go, s) /\
  (forall b t, is_ok (assertGroupBlockOpen block_id b t let_go) = false) /\
  left_on arrived "b1" "rt1" None None (day 20001) (day 20002) = 0 /\ left_on let_go "b1" "rt1" None None (day 20001) (day 20002) = 1.
Proof.
  assert (is_ok (releaseBlock block_id manager arrived) = true) as Hok by (vm_compute; reflexivity). destruct (after_ok _ _ Hok) as [s Hs]. exists s. split; [exact Hs|].
  destruct (release_gives_back block_id manager arrived let_go s) as (g & _ & _ & _ & _ & Hclosed); [apply (bool_decide_unpack _); vm_compute; exact I|exact Hs|].
  split; [exact Hclosed|]. split; vm_compute; reflexivity.
Defined.
End GroupBlocksWitness.
