(* ===== verification/EventSpaces.v ===== *)
(** Event spaces and banquet orders
    (src/src/modules/sales-events/event-spaces.service.ts): what is booked on a
    venue and for how long, what it costs, and putting it on a bill. Times are
    instants in milliseconds; the printed order (a PDF) is not modelled. *)
From stdpp Require Import pretty.
From Stdlib Require Import QArith Qcanon.
From S2P Require Import Prelude Decimal Json Dates Taxes Authority Transactions Db LoyaltyRules Packages Folios SampleHotel FolioLedger FolioFigures FolioEffects FolioPayments Rooms Guests.
Import BranchRoles.
Local Open Scope Z_scope.

Definition EVENT_STAFF_ROLES : list string := ["owner"; "manager"; "front_desk"].
Definition SETUP_STYLES : list string := ["theater"; "classroom"; "banquet"; "u_shape"].

Record CreateEventSpaceDto := { es_name : string; es_category : string; es_capacity : Z; es_setupCapacities : option (list (string * Z)) }.
Record CreateEventBookingDto := {
  eb_title : string; eb_startsAt : Z; eb_endsAt : Z; eb_contactName : option string; eb_notes : option string; eb_setupStyle : option string; eb_headcount : option Z;
  eb_contactEmail : option string; eb_contactPhone : option string; eb_catering : option (list CateringLine); eb_avRequirements : option string; eb_spaceHireFee : option Qc }.
(** [None] leaves a field, [Some None] is [null]. *)
Record UpdateEventBookingDto := {
  ub_title : option (option string); ub_startsAt : option Z; ub_endsAt : option Z; ub_contactName : option (option string); ub_notes : option (option string);
  ub_setupStyle : option (option string); ub_headcount : option (option Z); ub_contactEmail : option (option string); ub_contactPhone : option (option string);
  ub_catering : option (option (list CateringLine)); ub_avRequirements : option (option string); ub_spaceHireFee : option (option Qc) }.

(** ** Seats *)
(** The layouts a space names a positive number of seats for; [None] when it names none. *)
Definition parseCapacities (value : option json) : option (list (string * Qc)) :=
  match as_object value with
  | None => None
  | Some _ =>
      match SETUP_STYLES ≫= (fun style => match positive_number (member style value) with Some seats => [(style, seats)] | None => [] end) with
      | [] => None
      | capacities => Some capacities
      end
  end.
Definition capacities_json (capacities : list (string * Qc)) : json := JObj ((fun p => (fst p, JNum (snd p))) <$> capacities).
Definition parseCatering (value : option (list CateringLine)) : list CateringLine := default [] value.
Definition seats_named (capacities : option (list (string * Qc))) (style : string) : option Qc :=
  match capacities with Some l => snd <$> List.find (fun p => bool_decide (fst p = style)) l | None => None end.
Definition seatsFor (space : EventSpace.t) (setupStyle : option string) : Qc :=
  default (Qc_of_Z (EventSpace.capacity space))
    (match set_string setupStyle with Some style => seats_named (parseCapacities (EventSpace.setupCapacities space)) style | None => None end).
(** [if (!headcount) return; if (headcount > seats) throw] *)
Definition assertFits (space : EventSpace.t) (setupStyle : option string) (headcount : option Z) : res unit :=
  match headcount with
  | None => Ok tt
  | Some n => throw_if (negb (n =? 0) && bool_decide (seatsFor space setupStyle < Qc_of_Z n)%Qc) invalid
  end.

(** ** Fields *)
(** [None] leaves the field; a blank string clears it. *)
Definition optionalText (value : option (option string)) : option (option string) := trimmed <$> value.
Definition cateringJson (lines : list CateringLine) : list CateringLine :=
  (fun l => {| cat_description := js_trim (cat_description l); cat_quantity := cat_quantity l; cat_unitPrice := cat_unitPrice l |}) <$> lines.
(** [fee ? new Prisma.Decimal(fee) : null]: a fee of nothing is no fee. *)
Definition hire_fee (fee : option Qc) : res (option Qc) :=
  match fee with
  | Some x => if bool_decide (x = 0%Qc) then Ok None else let? y := numeric x in Ok (Some y)
  | None => Ok None
  end.

Definition booking_where (i : string) (x : EventBooking.t) : bool := bool_decide (EventBooking.id x = i).
Definition space_where (i : string) (x : EventSpace.t) : bool := bool_decide (EventSpace.id x = i).
(** Confirmed, on the space, and at some moment of the given time. *)
Definition event_clash (space : string) (startsAt endsAt : Z) (except : option string) (x : EventBooking.t) : bool :=
  bool_decide (EventBooking.eventSpaceId x = space) && bool_decide (EventBooking.status x = "confirmed") &&
  (EventBooking.startsAt x <? endsAt) && (startsAt <? EventBooking.endsAt x) && match except with Some i => negb (bool_decide (EventBooking.id x = i)) | None => true end.

Record EventTotals := { et_hire : Qc; et_catering : Qc; et_subtotal : Qc; et_taxTotal : Qc; et_taxIncluded : Qc; et_total : Qc }.
Record BilledTo := { bt_folioId : string; bt_guestName : string; bt_roomNumber : option string; bt_confirmationNumber : option string }.
Record EventBookingDetail := {
  ed_booking : EventBooking.t; ed_space : EventSpace.t; ed_currency : string; ed_amounts : list string; ed_totals : EventTotals; ed_billedTo : option BilledTo }.

Section EventSpaces.
Context `{DecimalLib} `{TaxDb} `{Platform} `{Uuid}.

Definition createSpace (b : string) (dto : CreateEventSpaceDto) (actorId : option string) : M EventSpace.t :=
  let capacities := parseCapacities ((fun l => JObj ((fun p => (fst p, JNum (Qc_of_Z (snd p)))) <$> l)) <$> es_setupCapacities dto) in
  let! i := new_id in
  let space := {| EventSpace.id := i; EventSpace.branchId := b; EventSpace.name := es_name dto; EventSpace.category := es_category dto; EventSpace.capacity := es_capacity dto;
                  EventSpace.setupCapacities := capacities_json <$> capacities |} in
  do! modify (upd_eventSpaces (fun l => l ++ [space])) in
  do! auditLog (Some b) actorId "event_space.created" "event_space" i in
  ret space.

(** The branch's calendar, at most a year of it. *)
Definition listBookings (b : string) (from to : Z) : M (list EventBooking.t) :=
  throw! invalid when (to <=? from) in
  throw! invalid when (366 * DAY_MS <? to - from) in
  let! spaces := findMany eventSpaces (fun x => bool_decide (EventSpace.branchId x = b)) in
  let! found := findMany eventBookings (fun x => existsb (space_where (EventBooking.eventSpaceId x)) spaces && bool_decide (EventBooking.status x = "confirmed") &&
    (EventBooking.startsAt x <? to) && (from <? EventBooking.endsAt x)) in
  ret (sort_by EventBooking.startsAt found).

Definition loadBooking (i : string) : M (EventBooking.t * EventSpace.t) :=
  let! booking := orThrow (findFirst eventBookings (booking_where i)) not_found in
  let! space := orThrow (findFirst eventSpaces (space_where (EventBooking.eventSpaceId booking))) internal in
  ret (booking, space).
Definition assertNoOverlap (space : EventSpace.t) (startsAt endsAt : Z) (except : option string) : M unit :=
  let! overlapping := findFirst eventBookings (event_clash (EventSpace.id space) startsAt endsAt except) in
  lift (throw_if (isSome overlapping) conflict).

(** ** Prices *)
Definition line_amount (l : CateringLine) : Qc := cat_unitPrice l ⊗ Qc_of_Z (cat_quantity l).
Definition eventTotals (b : string) (spaceHireFee : option Qc) (lines : list CateringLine) : M EventTotals :=
  let catering := foldl (fun sum l => sum ⊕ line_amount l) 0%Qc lines in
  let hire := default 0%Qc spaceHireFee in
  let! cateringPriced := previewCharge b fnb catering in
  let! hirePriced := previewCharge b misc hire in
  ret {| et_hire := hire; et_catering := catering; et_subtotal := catering ⊕ hire; et_taxTotal := addedTax cateringPriced ⊕ addedTax hirePriced;
         et_taxIncluded := includedTax cateringPriced ⊕ includedTax hirePriced; et_total := total cateringPriced ⊕ total hirePriced |}.
Definition billed_to (folioId : string) : M (option BilledTo) :=
  let! folio := findFirst folios (fun f => bool_decide (Folio.id f = folioId)) in
  match folio with
  | None => ret None
  | Some f =>
      let! guest := orThrow (findFirst guests (fun g => bool_decide (GuestProfile.id g = Folio.guestId f))) internal in
      let! stay := findFirst reservations (fun r => bool_decide (Reservation.id r = Folio.reservationId f)) in
      let! room := match (r ← stay; Reservation.roomId r) with Some i => findFirst rooms (fun x => bool_decide (Room.id x = i)) | None => ret None end in
      ret (Some {| bt_folioId := Folio.id f; bt_guestName := GuestProfile.name guest; bt_roomNumber := Room.number <$> room; bt_confirmationNumber := Reservation.confirmationNumber <$> stay |})
  end.
Definition detail (booking : EventBooking.t) (space : EventSpace.t) : M EventBookingDetail :=
  let! branch := findFirst branches (fun x => bool_decide (Branch.id x = EventSpace.branchId space)) in
  let lines := parseCatering (EventBooking.catering booking) in
  let! totals := eventTotals (EventSpace.branchId space) (EventBooking.spaceHireFee booking) lines in
  let! billedTo := match EventBooking.folioId booking with Some f => billed_to f | None => ret None end in
  ret {| ed_booking := booking; ed_space := space; ed_currency := match branch with Some x => Branch.currency x | None => "" end;
         ed_amounts := (fun l => to_fixed2 (line_amount l)) <$> lines; ed_totals := totals; ed_billedTo := billedTo |}.

(** ** Booking *)
(** What is read before a booking is written, and the writing. *)
Definition booking_checked (spaceId : string) (dto : CreateEventBookingDto) : M EventSpace.t :=
  throw! conflict when (eb_endsAt dto <=? eb_startsAt dto) in
  let! space := orThrow (findFirst eventSpaces (space_where spaceId)) not_found in
  do! lift (assertFits space (eb_setupStyle dto) (eb_headcount dto)) in
  do! assertNoOverlap space (eb_startsAt dto) (eb_endsAt dto) None in
  ret space.
Definition booking_written (space : EventSpace.t) (spaceId : string) (dto : CreateEventBookingDto) (actorId : string) : M EventBooking.t :=
  let! fee := lift (hire_fee (eb_spaceHireFee dto)) in
  let! i := new_id in
  let booking := {|
    EventBooking.id := i; EventBooking.eventSpaceId := spaceId; EventBooking.title := eb_title dto; EventBooking.startsAt := eb_startsAt dto; EventBooking.endsAt := eb_endsAt dto;
    EventBooking.contactName := eb_contactName dto; EventBooking.notes := eb_notes dto; EventBooking.status := "confirmed"; EventBooking.cancelledAt := None;
    EventBooking.setupStyle := eb_setupStyle dto; EventBooking.headcount := eb_headcount dto; EventBooking.contactEmail := eb_contactEmail dto; EventBooking.contactPhone := eb_contactPhone dto;
    EventBooking.catering := cateringJson <$> eb_catering dto; EventBooking.avRequirements := eb_avRequirements dto; EventBooking.spaceHireFee := fee;
    EventBooking.folioId := None; EventBooking.billedAt := None; EventBooking.billedBy := None |} in
  do! modify (upd_eventBookings (fun l => l ++ [booking])) in
  do! auditLog (Some (EventSpace.branchId space)) (Some actorId) "event_booking.created" "event_booking" i in
  ret booking.
Definition createBooking (spaceId : string) (dto : CreateEventBookingDto) (actorId : string) : M EventBooking.t :=
  let! space := booking_checked spaceId dto in
  booking_written space spaceId dto actorId.

Definition updateBooking (i : string) (dto : UpdateEventBookingDto) (actor : JwtPayload) : M EventBookingDetail :=
  let! '(booking, space) := loadBooking i in
  do! lift (assertRoleAtBranch actor (EventSpace.branchId space) EVENT_STAFF_ROLES) in
  throw! conflict when bool_decide (EventBooking.status booking = "cancelled") in
  throw! conflict when (isSome (EventBooking.billedAt booking) && (isSome (ub_catering dto) || isSome (ub_spaceHireFee dto))) in
  let startsAt := default (EventBooking.startsAt booking) (ub_startsAt dto) in
  let endsAt := default (EventBooking.endsAt booking) (ub_endsAt dto) in
  throw! conflict when (endsAt <=? startsAt) in
  do! (if negb (startsAt =? EventBooking.startsAt booking) || negb (endsAt =? EventBooking.endsAt booking)
       then assertNoOverlap space startsAt endsAt (Some (EventBooking.id booking)) else ret tt) in
  let setupStyle := default (EventBooking.setupStyle booking) (ub_setupStyle dto) in
  let headcount := default (EventBooking.headcount booking) (ub_headcount dto) in
  do! lift (assertFits space setupStyle headcount) in
  let! fee := match ub_spaceHireFee dto with Some f => lift (hire_fee f) | None => ret (EventBooking.spaceHireFee booking) end in
  let data := EventBooking.with_details (default (EventBooking.title booking) (t ← ub_title dto; trimmed t)) startsAt endsAt setupStyle headcount
                (default (EventBooking.contactName booking) (optionalText (ub_contactName dto))) (default (EventBooking.contactEmail booking) (optionalText (ub_contactEmail dto)))
                (default (EventBooking.contactPhone booking) (optionalText (ub_contactPhone dto)))
                (match ub_catering dto with Some c => Some (cateringJson (default [] c)) | None => EventBooking.catering booking end)
                (default (EventBooking.avRequirements booking) (optionalText (ub_avRequirements dto))) (default (EventBooking.notes booking) (optionalText (ub_notes dto))) fee in
  do! modify (upd_eventBookings (update_where (booking_where (EventBooking.id booking)) data)) in
  do! auditLog (Some (EventSpace.branchId space)) (Some (sub actor)) "event_booking.updated" "event_booking" (EventBooking.id booking) in
  detail (data booking) space.
Definition getBooking (i : string) (actor : JwtPayload) : M EventBookingDetail :=
  let! '(booking, space) := loadBooking i in
  do! lift (assertRoleAtBranch actor (EventSpace.branchId space) EVENT_STAFF_ROLES) in
  detail booking space.
Definition cancelBooking (i : string) (actorId : string) : M unit :=
  let! '(booking, space) := loadBooking i in
  if bool_decide (EventBooking.status booking = "cancelled") then ret tt
  else
    let! at_ := now in
    do! modify (upd_eventBookings (update_where (booking_where i) (EventBooking.with_cancelled "cancelled" (Some at_)))) in
    auditLog (Some (EventSpace.branchId space)) (Some actorId) "event_booking.cancelled" "event_booking" i.

(** ** Billing *)
Definition hire_due (booking : EventBooking.t) : option Qc := match EventBooking.spaceHireFee booking with Some fee => if dgt fee 0%Qc then Some fee else None | None => None end.
Definition billBooking (i folioId : string) (actor : JwtPayload) : M EventBookingDetail :=
  let! '(booking, space) := loadBooking i in
  do! lift (assertRoleAtBranch actor (EventSpace.branchId space) EVENT_STAFF_ROLES) in
  throw! conflict when bool_decide (EventBooking.status booking = "cancelled") in
  throw! conflict when isSome (EventBooking.billedAt booking) in
  let! folio := orThrow (findFirst folios (fun f => bool_decide (Folio.id f = folioId) && isNone (Folio.deletedAt f))) not_found in
  throw! not_found when negb (bool_decide (Folio.branchId folio = EventSpace.branchId space)) in
  throw! conflict when (bool_decide (Folio.status folio = settled) || bool_decide (Folio.status folio = pending)) in
  let lines := parseCatering (EventBooking.catering booking) in
  throw! invalid when (isNone (hire_due booking) && forallb (fun l => negb ((0 <? cat_quantity l) && bool_decide (0 < cat_unitPrice l)%Qc)) lines) in
  let! branch := findFirst branches (fun x => bool_decide (Branch.id x = EventSpace.branchId space)) in
  let! serviceDate := a_date (localDateOf (EventBooking.startsAt booking) (match branch with Some x => Branch.timezone x | None => "UTC" end)) in
  do! match hire_due booking with
      | Some fee => let! _ := postChargeInTx folio fee misc serviceDate (Some (sub actor)) in ret tt
      | None => ret tt
      end in
  do! for_each lines tt (fun _ l =>
    if negb (dgt (line_amount l) 0%Qc) then ret tt
    else let! _ := postChargeInTx folio (line_amount l) fnb serviceDate (Some (sub actor)) in ret tt) in
  let! at_ := now in
  let data := EventBooking.with_billed (Some (Folio.id folio)) (Some at_) (Some (sub actor)) in
  do! modify (upd_eventBookings (update_where (booking_where (EventBooking.id booking)) data)) in
  do! auditLog (Some (EventSpace.branchId space)) (Some (sub actor)) "event_booking.billed" "event_booking" (EventBooking.id booking) in
  detail (data booking) space.
End EventSpaces.

(** ** The calendar *)
Section Calendar.
Context `{DecimalLib} `{TaxDb} `{Platform} `{Uuid}.

(** The events are as they were, and ids move on. *)
Definition same_events (d d' : Db) : Prop := eventBookings d' = eventBookings d /\ (seq d <= seq d')%nat.
#[global] Instance same_events_preorder : PreOrder same_events.
Proof. split; [by split|]. intros a b c [] []. split; [congruence | lia]. Qed.
Lemma same_write f : (forall d, eventBookings (f d) = eventBookings d /\ (seq d <= seq (f d))%nat) -> keeps same_events (modify f).
Proof. intros Hf. apply keeps_modify. intros d. apply Hf. Qed.
Lemma same_charge f a ct t u : keeps same_events (postChargeInTx f a ct t u).
Proof.
  unfold postChargeInTx, writeChargeWithTaxes, create_lineItem, Folios.audit, paymentRecorded, emit, auditLog, new_id, now. keeps_tac.
  all: apply same_write; intros d; simpl; split; (done || lia).
Qed.
Lemma same_totals b fee lines : keeps same_events (eventTotals b fee lines).
Proof. unfold eventTotals, previewCharge. keeps_tac. Qed.
Lemma same_detail x s : keeps same_events (detail x s).
Proof. unfold detail, billed_to. keeps_tac; apply same_totals. Qed.

Definition confirmed_event (x : EventBooking.t) : Prop := EventBooking.status x = "confirmed".
(** At no moment are both on. *)
Definition apart (x y : EventBooking.t) : Prop := EventBooking.endsAt x <= EventBooking.startsAt y \/ EventBooking.endsAt y <= EventBooking.startsAt x.
Record calendar_ok (d : Db) : Prop := {
  co_named : named EventBooking.id (seq d) (eventBookings d);
  co_time x : x ∈ eventBookings d -> EventBooking.startsAt x < EventBooking.endsAt x;
  co_apart x y : x ∈ eventBookings d -> y ∈ eventBookings d -> EventBooking.id x <> EventBooking.id y -> confirmed_event x -> confirmed_event y ->
    EventBooking.eventSpaceId x = EventBooking.eventSpaceId y -> apart x y }.
Lemma calendar_same d d' : same_events d d' -> calendar_ok d -> calendar_ok d'.
Proof. intros [E Hs] [Hn Ht Ha]. split; rewrite E; [by eapply named_weaken | done | done]. Qed.

(** Nothing confirmed on the space is on at the time of [x], the event [except] apart. *)
Definition free_for (d : Db) (x : EventBooking.t) (except : option string) : Prop := forall y, y ∈ eventBookings d -> confirmed_event y ->
  EventBooking.eventSpaceId y = EventBooking.eventSpaceId x -> Some (EventBooking.id y) <> except -> apart x y.
Lemma no_overlap_free space startsAt endsAt except d d' u x : assertNoOverlap space startsAt endsAt except d = Ok (d', u) ->
  EventBooking.eventSpaceId x = EventSpace.id space -> EventBooking.startsAt x = startsAt -> EventBooking.endsAt x = endsAt -> d' = d /\ free_for d x except.
Proof.
  unfold assertNoOverlap. intros Hm Hs <- <-. m_inv. split; [done|]. intros y Hy Hc Hsp Hex.
  match goal with H : isSome (List.find _ _) = false |- _ => apply isSome_false in H; eapply find_None in H as Hf; [|exact Hy] end.
  apply not_true_iff_false in Hf. unfold apart. destruct (decide (EventBooking.endsAt x <= EventBooking.startsAt y)); [by left|]. right. apply Z.nlt_ge. intros Hlt. apply Hf. unfold event_clash.
  rewrite !andb_true_iff, !bool_decide_eq_true, !Z.ltb_lt. split_and!; [congruence|done|lia|done|]. destruct except as [i|]; [|done]. apply negb_true_iff, bool_decide_eq_false_2. congruence.
Qed.
Lemma no_overlap_reads space startsAt endsAt except d d' u : assertNoOverlap space startsAt endsAt except d = Ok (d', u) -> d' = d.
Proof. unfold assertNoOverlap. intros Hm. by m_inv. Qed.
Lemma apart_sym x y : apart x y -> apart y x.
Proof. unfold apart. tauto. Qed.
(** A new event, in a time of its own. *)
Lemma calendar_add d d' x : calendar_ok d -> EventBooking.id x = gen_random_uuid (seq d) -> EventBooking.startsAt x < EventBooking.endsAt x -> free_for d x None ->
  eventBookings d' = eventBookings d ++ [x] -> (seq d < seq d')%nat -> calendar_ok d'.
Proof.
  intros [Hn Ht Ha] Hid Hx Hfree E Hs. split; rewrite E.
  - eapply named_weaken; [|by apply named_app]. lia.
  - intros y [Hy| ->%list_elem_of_singleton]%elem_of_app; auto.
  - intros y z [Hy| ->%list_elem_of_singleton]%elem_of_app [Hz| ->%list_elem_of_singleton]%elem_of_app Hne Hcy Hcz Hsp; [by apply Ha|by apply apart_sym, Hfree|by apply Hfree|done].
Qed.
(** An event changed: to another time only where that is free. *)
Lemma calendar_update d d' x f : calendar_ok d -> x ∈ eventBookings d -> (forall y, EventBooking.id (f y) = EventBooking.id y) -> (confirmed_event (f x) -> confirmed_event x) ->
  EventBooking.eventSpaceId (f x) = EventBooking.eventSpaceId x -> EventBooking.startsAt (f x) < EventBooking.endsAt (f x) ->
  (EventBooking.startsAt (f x) = EventBooking.startsAt x /\ EventBooking.endsAt (f x) = EventBooking.endsAt x \/ free_for d (f x) (Some (EventBooking.id x))) ->
  eventBookings d' = update_where (booking_where (EventBooking.id x)) f (eventBookings d) -> (seq d <= seq d')%nat -> calendar_ok d'.
Proof.
  intros [Hn Ht Ha] Hx Hid Hconf Hsp Htime Hfree E Hs.
  assert (forall y, y ∈ eventBookings d' -> y ∈ eventBookings d /\ EventBooking.id y <> EventBooking.id x \/ y = f x) as Hin.
  { intros y. rewrite E. intros (z & -> & Hz)%list_elem_of_fmap. unfold booking_where. case_bool_decide as Ez; [right|by left]. f_equal. by eapply named_inj. }
  assert (forall y, y ∈ eventBookings d -> EventBooking.id y <> EventBooking.id x -> confirmed_event (f x) -> confirmed_event y -> EventBooking.eventSpaceId y = EventBooking.eventSpaceId (f x) -> apart (f x) y) as Hnew.
  { intros y Hy Hne Hcx Hcy Hspy. destruct Hfree as [[E1 E2]|Hfree]; [|apply Hfree; [done..|congruence]]. unfold apart. rewrite E1, E2. apply Ha; [done..|by apply not_eq_sym|auto|done|congruence]. }
  split.
  - rewrite E. eapply named_weaken; [exact Hs|]. by apply named_update.
  - intros y [[Hy _]| ->]%Hin; auto.
  - intros y z [[Hy Hiy]| ->]%Hin [[Hz Hiz]| ->]%Hin Hne Hcy Hcz Hspe; [by apply Ha|apply apart_sym; by apply Hnew|by apply Hnew|done].
Qed.

(** ** The operations *)
Lemma loadBooking_run i d d' x s : loadBooking i d = Ok (d', (x, s)) -> d' = d /\ x ∈ eventBookings d /\ EventBooking.id x = i /\ EventSpace.id s = EventBooking.eventSpaceId x.
Proof.
  unfold loadBooking. intros Hm. m_inv. repeat match goal with H : Some _ = List.find _ _ |- _ => symmetry in H; apply find_Some in H as [? ?] end. simplify_eq.
  unfold booking_where, space_where in *. boolp. done.
Qed.

Lemma createBooking_run i dto u d d' x : createBooking i dto u d = Ok (d', x) -> eventBookings d' = eventBookings d ++ [x] /\ (seq d < seq d')%nat /\ EventBooking.id x = gen_random_uuid (seq d) /\
  EventBooking.startsAt x < EventBooking.endsAt x /\ free_for d x None.
Proof.
  unfold createBooking, booking_checked, booking_written, auditLog. intros Hm. m_inv. match goal with H : new_id _ = _ |- _ => apply new_id_spec in H as [-> ->] end.
  match goal with H : Some _ = List.find (space_where _) _ |- _ => symmetry in H; apply find_Some in H as [_ Hsp]; unfold space_where in Hsp end.
  boolp. match goal with H : assertNoOverlap _ _ _ _ _ = Ok _ |- _ => pose proof (no_overlap_reads _ _ _ _ _ _ _ H) as ->; rename H into Hfree end.
  split_and!; [done|simpl; lia|done|done|]. eapply no_overlap_free; [exact Hfree|done..].
Qed.
(** What an update leaves of an event. *)
Definition same_deal (x y : EventBooking.t) : Prop := EventBooking.folioId y = EventBooking.folioId x /\ EventBooking.billedAt y = EventBooking.billedAt x /\ EventBooking.billedBy y = EventBooking.billedBy x /\
  EventBooking.catering y = EventBooking.catering x /\ EventBooking.spaceHireFee y = EventBooking.spaceHireFee x.
(** The space is looked at again only when the event moves. *)
Lemma moved_free x y space d d' u : EventSpace.id space = EventBooking.eventSpaceId x -> EventBooking.eventSpaceId y = EventBooking.eventSpaceId x ->
  (if negb (EventBooking.startsAt y =? EventBooking.startsAt x) || negb (EventBooking.endsAt y =? EventBooking.endsAt x)
   then assertNoOverlap space (EventBooking.startsAt y) (EventBooking.endsAt y) (Some (EventBooking.id x)) else ret tt) d = Ok (d', u) ->
  d' = d /\ (EventBooking.startsAt y = EventBooking.startsAt x /\ EventBooking.endsAt y = EventBooking.endsAt x \/ free_for d y (Some (EventBooking.id x))).
Proof.
  intros Hsp Hy Hm. destruct (_ || _) eqn:E.
  - eapply no_overlap_free in Hm as [-> Hf]; [|by rewrite Hsp|done|done]. auto.
  - m_inv. boolp. auto.
Qed.
Lemma updateBooking_run i dto actor d d' out : updateBooking i dto actor d = Ok (d', out) -> exists x f, x ∈ eventBookings d /\ EventBooking.id x = i /\
  eventBookings d' = update_where (booking_where (EventBooking.id x)) f (eventBookings d) /\ (seq d <= seq d')%nat /\
  (forall y, EventBooking.id (f y) = EventBooking.id y /\ EventBooking.status (f y) = EventBooking.status y /\ EventBooking.eventSpaceId (f y) = EventBooking.eventSpaceId y /\
     EventBooking.folioId (f y) = EventBooking.folioId y /\ EventBooking.billedAt (f y) = EventBooking.billedAt y /\ EventBooking.billedBy (f y) = EventBooking.billedBy y) /\
  EventBooking.startsAt (f x) < EventBooking.endsAt (f x) /\
  (EventBooking.startsAt (f x) = EventBooking.startsAt x /\ EventBooking.endsAt (f x) = EventBooking.endsAt x \/ free_for d (f x) (Some (EventBooking.id x))) /\
  (isSome (EventBooking.billedAt x) = true -> same_deal x (f x)).
Proof.
  unfold updateBooking, auditLog. intros Hm. m_step. destruct v as [x space]. apply loadBooking_run in Hm0 as (-> & Hx & Hid & Hsp). m_inv.
  match goal with H : detail (EventBooking.with_details ?a ?b ?c ?e ?f ?g ?h ?i ?j ?k ?l ?m x) _ _ = _ |- _ => set (data := EventBooking.with_details a b c e f g h i j k l m) in *; rename H into Hd end.
  match goal with H : (if _ then assertNoOverlap _ _ _ _ else _) _ = _ |- _ => apply (moved_free x (data x)) in H as [-> Hfree]; [|done..] end.
  match goal with H : match ub_spaceHireFee dto with _ => _ end _ = Ok (?d6, ?v) |- _ => assert (d6 = d /\ (ub_spaceHireFee dto = None -> v = EventBooking.spaceHireFee x)) as [-> Hfee];
    [destruct (ub_spaceHireFee dto); m_inv; done|] end.
  assert (isSome (EventBooking.billedAt x) = true -> ub_catering dto = None /\ ub_spaceHireFee dto = None) as Hbilled.
  { intros Hb. match goal with H : isSome _ && _ = false |- _ => rewrite Hb in H; apply orb_false_iff in H as [?%isSome_false ?%isSome_false] end. done. }
  apply same_detail in Hd as [Ed Hs]. simpl in Ed, Hs. exists x, data. split; [done|]. split; [done|]. split; [exact Ed|]. split; [exact Hs|]. split; [done|].
  split; [by boolp|]. split; [exact Hfree|]. intros [Hc Hh]%Hbilled. split_and!; try done; simpl; [by rewrite Hc | auto].
Qed.
Lemma cancelBooking_run i u d d' r : cancelBooking i u d = Ok (d', r) -> exists x, x ∈ eventBookings d /\ EventBooking.id x = i /\ (seq d <= seq d')%nat /\
  (eventBookings d' = eventBookings d \/ exists at_, eventBookings d' = update_where (booking_where (EventBooking.id x)) (EventBooking.with_cancelled "cancelled" at_) (eventBookings d)).
Proof.
  unfold cancelBooking, auditLog, now. intros Hm. m_step. destruct v as [x space]. apply loadBooking_run in Hm0 as (-> & Hx & <- & Hsp). exists x. split; [done|]. split; [done|].
  case_bool_decide; m_inv; [by split; [|left]|]. split; [done|]. right. by eexists.
Qed.

(** ** What an event costs *)
Definition event_charges (x : EventBooking.t) : list (Qc * ChargeType) :=
  match hire_due x with Some fee => [(fee, misc)] | None => [] end ++
  ((fun l => (line_amount l, fnb)) <$> List.filter (fun l => dgt (line_amount l) 0%Qc) (parseCatering (EventBooking.catering x))).
Definition post_all (folio : Folio.t) (date : Z) (u : string) (charges : list (Qc * ChargeType)) : M unit :=
  for_each charges tt (fun _ c => let! _ := postChargeInTx folio (fst c) (snd c) date (Some u) in ret tt).
Lemma bind_ext {St A B} (m : Tx St A) (k k' : A -> Tx St B) d : (forall a d1, k a d1 = k' a d1) -> bind m k d = bind m k' d.
Proof. intros Hk. unfold bind. destruct (m d) as [[d1 a]|e]; [apply Hk | done]. Qed.
Lemma post_lines folio date u lines d : for_each lines tt (fun _ l => if negb (dgt (line_amount l) 0%Qc) then ret tt else let! _ := postChargeInTx folio (line_amount l) fnb date (Some u) in ret tt) d =
  post_all folio date u ((fun l => (line_amount l, fnb)) <$> List.filter (fun l => dgt (line_amount l) 0%Qc) lines) d.
Proof.
  unfold post_all. revert d. induction lines as [|l lines IH]; intros d; [done|]. cbn [for_each List.filter]. destruct (dgt (line_amount l) 0%Qc); simpl negb; cbn iota.
  - rewrite fmap_cons. cbn [for_each fst snd]. apply bind_ext. intros [] d1. apply IH.
  - erewrite bind_run by reflexivity. apply IH.
Qed.
(** The hire and the catering are posted one charge after the other. *)
Lemma post_event folio date u x d : (do! match hire_due x with Some fee => let! _ := postChargeInTx folio fee misc date (Some u) in ret tt | None => ret tt end in
    for_each (parseCatering (EventBooking.catering x)) tt (fun _ l => if negb (dgt (line_amount l) 0%Qc) then ret tt else let! _ := postChargeInTx folio (line_amount l) fnb date (Some u) in ret tt)) d =
  post_all folio date u (event_charges x) d.
Proof.
  unfold event_charges, post_all at 1. destruct (hire_due x) as [fee|]; simpl app; [cbn [for_each fst snd]|].
  - apply bind_ext. intros [] d1. apply post_lines.
  - rewrite (bind_run _ _ _ _ _ eq_refl). apply post_lines.
Qed.
Lemma event_charges_positive x : Forall (fun c => (0 < fst c)%Qc) (event_charges x).
Proof.
  unfold event_charges. apply Forall_app. split.
  - unfold hire_due. destruct (EventBooking.spaceHireFee x) as [fee|]; [|apply Forall_nil_2]. destruct (dgt_spec fee 0%Qc); [by apply Forall_singleton | apply Forall_nil_2].
  - apply Forall_fmap, Forall_forall. intros l [_ Hl]%elem_of_filterb. simpl. by destruct (dgt_spec (line_amount l) 0%Qc).
Qed.
End Calendar.

Section Billing.
Context `{DecimalLib} `{TaxDb} `{!TaxDbOk} `{Platform} `{Uuid}.

Lemma post_all_priced folio date u charges d d' r : Forall (fun c => charge_ok (taxRules d) (fst c) 1) charges -> Forall (fun c => (0 < fst c)%Qc) charges ->
  post_all folio date u charges d = Ok (d', r) ->
  same_events d d' /\ taxRules d' = taxRules d /\
  exists priced, Forall2 (fun c p => priceCharge (taxRules d) (Folio.branchId folio) (snd c) (fst c) 1 = Ok p) charges priced /\
  forall f, balance d' f = (balance d f + if_on (Folio.id folio) f (qsum (total <$> priced)))%Qc.
Proof.
  intros Hok Hpos. revert d Hok. induction charges as [|c charges IH]; intros d Hok Hm; unfold post_all in Hm; cbn [for_each] in Hm.
  { m_inv. split_and!; [done..|]. exists []. split; [by apply Forall2_nil|]. intros f. simpl. unfold if_on. case_bool_decide; by rewrite Qcplus_0_r. }
  apply Forall_cons in Hpos as [Hp Hpos]. apply Forall_cons in Hok as [Hc Hok]. apply bind_Ok in Hm as (d1 & [] & Hpost & Hm).
  apply bind_Ok in Hpost as (d1' & item & Hpost & Hret). injection Hret as ->. pose proof (same_charge _ _ _ _ _ _ _ _ Hpost) as Hsame. unfold postChargeInTx in Hpost. m_inv.
  destruct item as [item|]; [|apply writeCharge_inv in Hpost as [(_ & _ & E)|(? & ? & ? & ? & ? & _ & _ & _ & _ & _ & [=])]; simpl in E; rewrite E in Hp; by apply Qclt_not_eq in Hp].
  pose proof (writeCharge_rows _ _ _ _ Hpost) as [Hfr _]. apply posting_quoted in Hpost as (p & Hp1 & _ & _ & Hbal); [|exact Hc].
  assert (taxRules d1 = taxRules d) as Et by apply (fr_taxRules _ _ Hfr). rewrite <- Et in Hok. apply IH in Hm as (Hs & Ht & priced & Hall & Hb); [|done|done].
  rewrite Et in *. split; [by etrans|]. split; [done|]. exists (p :: priced). split.
  - apply Forall2_cons. split; [|done]. unfold previewCharge in Hp1. m_inv. done.
  - intros f. rewrite Hb, Hbal. rewrite fmap_cons. simpl. unfold if_on. case_bool_decide; ring.
Qed.
Lemma detail_reads x s : keeps eq (detail x s).
Proof. unfold detail, eventTotals, previewCharge, billed_to. keeps_tac. Qed.

(** What a committed bill has found and written. *)
Lemma billBooking_run i f actor d d' out : billBooking i f actor d = Ok (d', out) -> exists x folio date d1 r at_, x ∈ eventBookings d /\ EventBooking.id x = i /\ EventBooking.billedAt x = None /\ 
  EventBooking.status x <> "cancelled" /\ folio ∈ folios d /\ Folio.id folio = f /\ Folio.status folio <> settled /\ post_all folio date (sub actor) (event_charges x) d = Ok (d1, r) /\
  eventBookings d' = update_where (booking_where (EventBooking.id x)) (EventBooking.with_billed (Some f) (Some at_) (Some (sub actor))) (eventBookings d1) /\ seq d' = seq d1 /\
  forall g, balance d' g = balance d1 g.
Proof.
  unfold billBooking, auditLog, now, a_date. intros Hm. m_step. destruct v as [x space]. apply loadBooking_run in Hm0 as (-> & Hx & Hid & Hsp).  m_inv.
  match goal with Hh : match hire_due x with _ => _ end d = Ok _, Hl : for_each _ _ _ _ = Ok (?d11, ?u) |- _ =>
    assert (post_all v2 v7 (sub actor) (event_charges x) d = Ok (d11, u)) as Hpost by (rewrite <- post_event; by rewrite (bind_run _ _ _ _ _ Hh)) end.
  match goal with H : Some _ = List.find _ (folios _) |- _ => symmetry in H; apply find_Some in H as [Hfol Hf] end. boolp. destruct Hf as [Hf _].
  apply detail_reads in Hm as <-. rewrite Hf. eexists x, v2, v7, d11, v9, (clock d11). split_and!; try done; [by apply isSome_false|tauto].
Qed.

(** ** Histories *)
(** A committed operation on the events, or one of another service, which leaves them alone. *)
Inductive event_step (d d' : Db) : Prop :=
| ev_create i dto u x : createBooking i dto u d = Ok (d', x) -> event_step d d'
| ev_update i dto actor x : updateBooking i dto actor d = Ok (d', x) -> event_step d d'
| ev_cancel i u r : cancelBooking i u d = Ok (d', r) -> event_step d d'
| ev_bill i f actor x : billBooking i f actor d = Ok (d', x) -> event_step d d'
| ev_other : same_events d d' -> event_step d d'.

Lemma same_post_all folio date u charges : keeps same_events (post_all folio date u charges).
Proof. unfold post_all. keeps_tac. apply same_charge. Qed.
Lemma calendar_step d d' : calendar_ok d -> event_step d d' -> calendar_ok d'.
Proof.
  intros Hd [i dto u x Hm|i dto actor out Hm|i u r Hm|i f actor out Hm|Hs].
  - apply createBooking_run in Hm as (E & Hs & Hid & Ht & Hf). by eapply calendar_add.
  - apply updateBooking_run in Hm as (x & f & Hx & _ & E & Hs & Hf & Ht & Hfree & _). apply (calendar_update d d' x f); try done; [apply Hf| |apply Hf]. unfold confirmed_event. by rewrite (proj1 (proj2 (Hf x))).
  - apply cancelBooking_run in Hm as (x & Hx & _ & Hs & [E|[at_ E]]); [by eapply calendar_same; [split|]|]. apply (calendar_update d d' x (EventBooking.with_cancelled "cancelled" at_)); try done; [exact (co_time d Hd x Hx)|by left].
  - apply billBooking_run in Hm as (x & folio & date & d1 & r & at_ & Hx & _ & _ & _ & _ & _ & _ & Hpost & E & Hs & _). apply same_post_all in Hpost as [E1 Hs1]. rewrite E1 in E.
    apply (calendar_update d d' x (EventBooking.with_billed (Some f) (Some at_) (Some (sub actor)))); try done; [exact (co_time d Hd x Hx)|by left|lia].
  - by eapply calendar_same.
Qed.

Lemma calendar_history d d' : calendar_ok d -> rtc event_step d d' -> calendar_ok d'.
Proof. intros Hd Hs. induction Hs as [d|d d1 d' Hstep _ IH]; [done|]. by eapply IH, calendar_step. Qed.
(** C9: A venue is never sold twice. From a calendar in order, whatever bookings,
    changes, cancellations and bills of events commit one after the other, no two
    confirmed events on the same space are ever on at the same moment, every event
    ends after it starts, and no two events share an id. *)
Theorem no_venue_sold_twice (d d' : Db) : calendar_ok d -> rtc event_step d d' -> calendar_ok d'.
Proof. apply calendar_history. Qed.

(** What a change makes of an event that is not its own. *)
Lemma updated_deal d d' i f x : named EventBooking.id (seq d) (eventBookings d) -> x ∈ eventBookings d -> (forall y, EventBooking.id (f y) = EventBooking.id y) ->
  eventBookings d' = update_where (booking_where i) f (eventBookings d) -> (EventBooking.id x = i -> same_deal x (f x)) ->
  exists y, y ∈ eventBookings d' /\ EventBooking.id y = EventBooking.id x /\ same_deal x y.
Proof.
  intros Hn Hx Hid E Hf. exists (if booking_where i x then f x else x). split; [rewrite E; exact (list_elem_of_fmap_2 (fun x => if booking_where i x then f x else x) _ _ Hx)|].
  unfold booking_where. case_bool_decide; [split; [apply Hid | auto] | done].
Qed.
(** Billed is billed: what it cost and which bill it went on stay. *)
Lemma billed_step d d' x : calendar_ok d -> event_step d d' -> x ∈ eventBookings d -> isSome (EventBooking.billedAt x) = true ->
  exists y, y ∈ eventBookings d' /\ EventBooking.id y = EventBooking.id x /\ same_deal x y.
Proof.
  intros Hd Hstep Hx Hb. pose proof (co_named d Hd) as Hn. destruct Hstep as [i dto u z Hm|i dto actor out Hm|i u r Hm|i f actor out Hm|[E _]].
  - apply createBooking_run in Hm as (E & _). exists x. rewrite E. split; [by apply elem_of_app; left | done].
  - apply updateBooking_run in Hm as (z & f & Hz & _ & E & _ & Hf & _ & _ & Hdeal). eapply updated_deal; [exact Hn|done|apply Hf|exact E|]. intros Ez.
    assert (x = z) as -> by (by eapply named_inj). auto.
  - apply cancelBooking_run in Hm as (z & Hz & _ & _ & [E|[at_ E]]); [exists x; by rewrite E|]. by eapply (updated_deal d d' (EventBooking.id z) (EventBooking.with_cancelled "cancelled" at_)).
  - apply billBooking_run in Hm as (z & folio & date & d1 & r & at_ & Hz & _ & Hnot & _ & _ & _ & _ & Hpost & E & _). apply same_post_all in Hpost as [E1 _]. rewrite E1 in E.
    eapply (updated_deal d d' (EventBooking.id z) (EventBooking.with_billed (Some f) (Some at_) (Some (sub actor)))); [done..|]. intros Ez. assert (x = z) as -> by (by eapply named_inj). by rewrite Hnot in Hb.
  - exists x. by rewrite E.
Qed.
Lemma billed_stands d d' x : calendar_ok d -> rtc event_step d d' -> x ∈ eventBookings d -> isSome (EventBooking.billedAt x) = true ->
  exists y, y ∈ eventBookings d' /\ EventBooking.id y = EventBooking.id x /\ same_deal x y.
Proof.
  intros Hd Hs. revert x. induction Hs as [d|d d1 d' Hstep _ IH]; intros x Hx Hb; [by exists x|].
  destruct (billed_step _ _ _ Hd Hstep Hx Hb) as (y & Hy & Hid & Hdeal). destruct (IH (calendar_step _ _ Hd Hstep) y Hy) as (z & Hz & Hid' & Hdeal'); [by rewrite (proj1 (proj2 Hdeal))|].
  exists z. split; [done|]. split; [congruence|]. unfold same_deal in *. destruct_and!. split_and!; congruence.
Qed.
Lemma billed_refused d y f actor : calendar_ok d -> y ∈ eventBookings d -> isSome (EventBooking.billedAt y) = true -> is_ok (billBooking (EventBooking.id y) f actor d) = false.
Proof.
  intros Hd Hy Hb. destruct (billBooking _ f actor d) as [[d' out]|e] eqn:E; [|done]. apply billBooking_run in E as (x & folio & date & d1 & r & at_ & Hx & Hid & Hnot & _).
  assert (x = y) as -> by (eapply named_inj; [apply (co_named d Hd)|done..]). by rewrite Hnot in Hb.
Qed.

(** C10: An event is billed once and in full. When billing it commits, the bill it
    goes on owes more by exactly the hire and each line of the catering, priced
    with the branch's taxes, and no other bill changes; and however the events go
    on afterwards, it cannot be billed again, and what it cost and the bill it
    went on stay as they were. *)
Theorem event_billed_once (i f : string) (actor : JwtPayload) (d d1 : Db) (out : EventBookingDetail) (x : EventBooking.t) :
  calendar_ok d -> x ∈ eventBookings d -> EventBooking.id x = i -> Forall (fun c => charge_ok (taxRules d) (fst c) 1) (event_charges x) -> billBooking i f actor d = Ok (d1, out) ->
  (exists folio priced, folio ∈ folios d /\ Folio.id folio = f /\ Forall2 (fun c p => priceCharge (taxRules d) (Folio.branchId folio) (snd c) (fst c) 1 = Ok p) (event_charges x) priced /\
     forall g, balance d1 g = (balance d g + if_on f g (qsum (total <$> priced)))%Qc) /\
  forall d2, rtc event_step d1 d2 ->
    (forall f' actor', is_ok (billBooking i f' actor' d2) = false) /\
    exists y, y ∈ eventBookings d2 /\ EventBooking.id y = i /\ EventBooking.folioId y = Some f /\ EventBooking.catering y = EventBooking.catering x /\ EventBooking.spaceHireFee y = EventBooking.spaceHireFee x.
Proof.
  intros Hd Hx Hi Hok Hm. pose proof (calendar_step _ _ Hd (ev_bill _ _ _ _ _ _ Hm)) as Hd1.
  apply billBooking_run in Hm as (z & folio & date & d3 & r & at_ & Hz & Hid & Hnot & _ & Hfol & Hf & _ & Hpost & E & _ & Hb). assert (z = x) as -> by (eapply named_inj; [apply (co_named d Hd)|done..|congruence]).
  pose proof (same_post_all _ _ _ _ _ _ _ Hpost) as [E3 _]. apply post_all_priced in Hpost as (_ & _ & priced & Hall & Hbal); [|done|apply event_charges_positive]. split.
  - exists folio, priced. split_and!; try done. intros g. by rewrite Hb, Hbal, Hf.
  - set (y := EventBooking.with_billed (Some f) (Some at_) (Some (sub actor)) x).
    assert (y ∈ eventBookings d1) as Hy.
    { rewrite E, E3. apply list_elem_of_fmap. exists x. split; [|done]. unfold booking_where. by rewrite bool_decide_true. }
    intros d2 Hs. destruct (billed_stands d1 d2 y Hd1 Hs Hy eq_refl) as (w & Hw & Hidw & Hdeal). split.
    + intros f' actor'. replace i with (EventBooking.id w) by (rewrite Hidw; done). apply billed_refused; [by eapply calendar_history|done|]. by rewrite (proj1 (proj2 Hdeal)).
    + exists w. unfold same_deal in Hdeal. destruct_and!. split_and!; [done|by rewrite Hidw|done..].
Qed.
End Billing.

Module EventsWitness.
Import Hotel PostingWitness.
Definition manager : JwtPayload := {| sub := "u1"; roles := [{| role := "manager"; branchId := Some "b1" |}]; apiKey := None |}.
Definition hour : Z := 3600000.
Definition meal (what : string) (n price : Z) : CateringLine := {| cat_description := what; cat_quantity := n; cat_unitPrice := cents price |}.
Definition event (title : string) (from to : Z) (fee : option Qc) (catering : option (list CateringLine)) : CreateEventBookingDto := {|
  eb_title := title; eb_startsAt := day 20010 + from * hour; eb_endsAt := day 20010 + to * hour; eb_contactName := None; eb_notes := None; eb_setupStyle := Some "theater"; eb_headcount := Some 80;
  eb_contactEmail := None; eb_contactPhone := None; eb_catering := catering; eb_avRequirements := None; eb_spaceHireFee := fee |}.
(** A launch from 9 to 12, and a lunch from 12 to 14, in the hall. *)
Definition launch : CreateEventBookingDto := event "Launch" 9 12 (Some (cents 100000)) (Some [meal "Coffee" 1 1006; meal "Water" 4 0]).
Definition lunch : CreateEventBookingDto := event "Lunch" 12 14 None (Some [meal "Buffet" 1 1006; meal "Dessert" 1 1006]).
Definition d_launch : Db := after (createBooking "hall" launch "u1") hotel.
Definition d_lunch : Db := after (createBooking "hall" lunch "u1") d_launch.
Definition launch_id : string := "0".
Definition d_paid : Db := after (billBooking launch_id "f2" manager) d_lunch.
Lemma events_ok : is_ok (createBooking "hall" launch "u1" hotel) && is_ok (createBooking "hall" lunch "u1" d_launch) && is_ok (billBooking launch_id "f2" manager d_lunch) = true.
Proof. vm_compute. reflexivity. Qed.
Lemma hotel_calendar : calendar_ok hotel.
Proof. split; [split; [apply NoDup_nil_2 | by intros x k ?%elem_of_nil]| by intros x ?%elem_of_nil | by intros x y ?%elem_of_nil]. Qed.
Lemma events_step : event_step hotel d_launch /\ event_step d_launch d_lunch.
Proof.
  pose proof events_ok as Hok. rewrite !andb_true_iff in Hok. destruct Hok as [[H1 H2] _]. destruct (after_ok _ _ H1) as [x Hx]. destruct (after_ok _ _ H2) as [y Hy].
  split; [exact (ev_create _ _ _ _ _ _ Hx) | exact (ev_create _ _ _ _ _ _ Hy)].
Qed.
(** The hall takes both; a third event across them is turned away. *)
Lemma no_venue_sold_twice_witness : calendar_ok d_lunch /\ length (eventBookings d_lunch) = 2%nat /\ is_ok (createBooking "hall" (event "Workshop" 11 13 None None) "u1" d_lunch) = false.
Proof.
  split; [|split; vm_compute; reflexivity]. apply (no_venue_sold_twice hotel d_lunch hotel_calendar). destruct events_step as [H1 H2]. eapply rtc_l; [exact H1|]. by apply rtc_once.
Defined.

Definition whole_cents (x : Qc) : bool := let z := half_up (x * p10 2)%Qc in bool_decide (0 < z < NUMERIC_12_2) && Qc_eq_bool x (cents z).
Lemma launch_charges : forallb (fun x => forallb (fun c => whole_cents (fst c)) (event_charges x)) (eventBookings d_lunch) = true.
Proof. vm_compute. reflexivity. Qed.
Lemma events_charged x : x ∈ eventBookings d_lunch -> Forall (fun c => charge_ok (taxRules d_lunch) (fst c) 1) (event_charges x).
Proof.
  intros Hx%list_elem_of_In. pose proof launch_charges as Hall. rewrite List.forallb_forall in Hall. apply Hall in Hx as Hc. apply Forall_forall. intros c Hin%list_elem_of_In.
  rewrite List.forallb_forall in Hc. apply Hc, andb_true_iff in Hin as [Hz%bool_decide_eq_true He%Qc_eq_bool_correct]. rewrite He. apply (hotel_charge_ok _ Hz).
Qed.
(** The launch goes on the company's bill (1000.00 for the hall and 10.06 of coffee, with VAT at 7.5%), once. *)
Lemma event_billed_once_witness : exists x out, x ∈ eventBookings d_lunch /\ billBooking launch_id "f2" manager d_lunch = Ok (d_paid, out) /\
  (forall f' actor', is_ok (billBooking launch_id f' actor' d_paid) = false) /\ balance d_paid "f2" = cents 108581.
Proof.
  assert (exists x, List.find (booking_where launch_id) (eventBookings d_lunch) = Some x) as [x Hx].
  { destruct (List.find (booking_where launch_id) (eventBookings d_lunch)) as [x|] eqn:E; [eauto|]. exfalso. revert E. vm_compute. discriminate. }
  apply find_Some in Hx as [Hin Hid%bool_decide_eq_true]. pose proof events_ok as Hok. rewrite !andb_true_iff in Hok. destruct Hok as [_ Hb].
  destruct (after_ok _ _ Hb) as [out Hout]. exists x, out. split; [exact Hin|]. split; [exact Hout|].
  assert (calendar_ok d_lunch) as Hcal by (destruct events_step as [H1 H2]; eapply calendar_step; [eapply calendar_step; [exact hotel_calendar | exact H1] | exact H2]).
  destruct (event_billed_once launch_id "f2" manager d_lunch d_paid out x Hcal Hin Hid (events_charged x Hin) Hout) as [_ Hafter].
  destruct (Hafter d_paid (rtc_refl _ _)) as [Hrefused _]. split; [exact Hrefused|]. apply Qc_is_canon. vm_compute. reflexivity.
Defined.

(** A quote can differ from the bill: two lines of 10.06 are quoted as one charge
    (21.63 with VAT) and posted as two (21.62). *)
Example quote_not_what_is_billed :
  match eventTotals "b1" None (default [] (eb_catering lunch)) hotel with Ok (_, t) => Qc_eq_bool (et_total t) (cents 2163) | Err _ => false end = true /\
  match billBooking "1" "f1" manager d_lunch with Ok (d', _) => Qc_eq_bool (balance d' "f1" - balance d_lunch "f1") (cents 2162) | Err _ => false end = true.
Proof. split; vm_compute; reflexivity. Qed.
(** Two requests that both look at the calendar before either writes are both
    taken: nothing locks the space, and the table has no constraint of its own. *)
Example crossed_bookings_clash : match booking_checked "hall" launch hotel, booking_checked "hall" (event "Workshop" 11 13 None None) hotel with
  | Ok (_, s1), Ok (_, s2) =>
      match (let! _ := booking_written s1 "hall" launch "u1" in booking_written s2 "hall" (event "Workshop" 11 13 None None) "u2") hotel with
      | Ok (d', y) => match eventBookings d' with [x; _] => negb (event_clash "hall" (EventBooking.startsAt x) (EventBooking.endsAt x) None y) | _ => true end
      | Err _ => true
      end
  | _, _ => true
  end = false.
Proof. vm_compute. reflexivity. Qed.
End EventsWitness.
