(* ===== verification/Maintenance.v ===== *)
(** Maintenance: work orders, the rooms they take out of service, and assets
    (src/src/modules/maintenance/maintenance.service.ts). *)
From stdpp Require Import pretty.
From S2P Require Import Prelude Dates Taxes Authority Transactions Db LoyaltyRules Packages Folios SampleHotel FolioLedger Rooms Housekeeping Guests.
Local Open Scope Z_scope.

Definition RESOLVED_OR_CANCELLED : list MaintenanceStatus := [order_resolved; order_cancelled].

Record CreateWorkOrderDto := {
  wo_title : string; wo_description : option string; wo_roomId : option string; wo_assetId : option string; wo_priority : option MaintenancePriority;
  wo_photoUrls : option (list string); wo_blockRoom : bool }.
(** [assignedTo] may be left out, or be [null]. *)
Record UpdateWorkOrderDto := { uo_status : option MaintenanceStatus; uo_assignedTo : option (option string); uo_completionNotes : option string; uo_partsUsed : option (list string) }.
Record CreateAssetDto := {
  as_name : string; as_category : option string; as_roomId : option string; as_serialNumber : option string; as_purchaseDate : option string; as_warrantyUntil : option string;
  as_serviceIntervalDays : option Z; as_notes : option string }.

Definition audit (b userId action entityId : string) : M unit := auditLog (Some b) (Some userId) action "maintenance" entityId.
Definition room_at (b i : string) (x : Room.t) : bool := bool_decide (Room.id x = i) && bool_decide (Room.branchId x = b) && isNone (Room.deletedAt x).
Definition order_where (i : string) (x : MaintenanceOrder.t) : bool := bool_decide (MaintenanceOrder.id x = i).
Definition order_closed (x : MaintenanceOrder.t) : bool := bool_decide (MaintenanceOrder.status x ∈ RESOLVED_OR_CANCELLED).
(** [tx.room.update({ where: { id }, data: { heldStatus, heldUntil: null } })] *)
Definition held_rooms (i : string) (held : option HeldStatus) (l : list Room.t) : list Room.t :=
  update_where (room_where i) (fun x => Room.with_held held None (Room.statusChangedAt x) (Room.statusChangedBy x) x) l.
Definition hold_room (i : string) (held : option HeldStatus) : M unit := modify (upd_rooms (held_rooms i held)).

Section Maintenance.
Context `{Uuid}.

Definition createWorkOrder (b : string) (dto : CreateWorkOrderDto) (actor : JwtPayload) : M MaintenanceOrder.t :=
  let! room := match set_string (wo_roomId dto) with Some i => findFirst rooms (room_at b i) | None => ret None end in
  throw! not_found when (isSome (set_string (wo_roomId dto)) && isNone room) in
  do! match set_string (wo_assetId dto) with
      | Some i => let! asset := findFirst assets (fun x => bool_decide (Asset.id x = i) && bool_decide (Asset.branchId x = b)) in throw! not_found when isNone asset in ret tt
      | None => ret tt
      end in
  let takes := wo_blockRoom dto && isSome room in
  do! match room with
      | Some r => if takes then throw! forbidden when negb (isSupervisorAt actor b) in throw! conflict when bool_decide (Room.occupancyStatus r = occupied) in ret tt else ret tt
      | None => ret tt
      end in
  let! i := new_id in
  let order := {| MaintenanceOrder.id := i; MaintenanceOrder.branchId := b; MaintenanceOrder.roomId := wo_roomId dto; MaintenanceOrder.assetId := wo_assetId dto;
                  MaintenanceOrder.title := wo_title dto; MaintenanceOrder.description := wo_description dto; MaintenanceOrder.priority := default prio_medium (wo_priority dto);
                  MaintenanceOrder.status := order_open; MaintenanceOrder.takesRoomOutOfService := takes; MaintenanceOrder.photoUrls := default [] (wo_photoUrls dto);
                  MaintenanceOrder.reportedBy := Some (sub actor); MaintenanceOrder.assignedTo := None; MaintenanceOrder.completionNotes := None; MaintenanceOrder.partsUsed := [];
                  MaintenanceOrder.resolvedAt := None |} in
  do! modify (upd_maintenanceOrders (fun l => l ++ [order])) in
  do! match room with Some r => if takes then hold_room (Room.id r) (Some out_of_order) else ret tt | None => ret tt end in
  do! audit b (sub actor) "maintenance.work_order_created" i in
  ret order.

Definition listWorkOrders (b : string) (status : option MaintenanceStatus) : M (list MaintenanceOrder.t) :=
  findMany maintenanceOrders (fun x => bool_decide (MaintenanceOrder.branchId x = b) && match status with Some s => bool_decide (MaintenanceOrder.status x = s) | None => true end).

(** A member of staff at the branch, or at all of them. *)
Definition on_staff (b userId : string) : M bool :=
  let! live := findMany users (fun x => bool_decide (User.id x = userId) && isNone (User.deletedAt x)) in
  let! role := findFirst userBranchRoles (fun x => bool_decide (UserBranchRole.userId x = userId) &&
    match UserBranchRole.branchId x with None => true | Some b' => bool_decide (b' = b) end) in
  ret (isSome role && negb (bool_decide (length live = 0%nat))).
Definition updateWorkOrder (orderId : string) (dto : UpdateWorkOrderDto) (actorId : string) : M MaintenanceOrder.t :=
  let! existing := orThrow (findFirst maintenanceOrders (order_where orderId)) not_found in
  do! match uo_assignedTo dto ≫= set_string with
      | Some userId => let! ok := on_staff (MaintenanceOrder.branchId existing) userId in throw! invalid when negb ok in ret tt
      | None => ret tt
      end in
  let! at_ := now in
  let data x := MaintenanceOrder.with_work (default (MaintenanceOrder.status x) (uo_status dto)) (default (MaintenanceOrder.assignedTo x) (uo_assignedTo dto))
                  (match uo_completionNotes dto with Some n => Some n | None => MaintenanceOrder.completionNotes x end) (default (MaintenanceOrder.partsUsed x) (uo_partsUsed dto))
                  (if bool_decide (uo_status dto = Some order_resolved) then Some at_ else MaintenanceOrder.resolvedAt x) x in
  do! modify (upd_maintenanceOrders (update_where (order_where orderId) data)) in
  do! match set_string (MaintenanceOrder.roomId existing), uo_status dto with
      | Some roomId, Some s =>
          if MaintenanceOrder.takesRoomOutOfService existing && bool_decide (s ∈ RESOLVED_OR_CANCELLED) then
            let! stillOut := findFirst maintenanceOrders (fun x => negb (order_where orderId x) && bool_decide (MaintenanceOrder.roomId x = Some roomId) &&
                               MaintenanceOrder.takesRoomOutOfService x && negb (order_closed x)) in
            let! room := findFirst rooms (fun x => bool_decide (Room.id x = roomId)) in
            if bool_decide ((room ≫= Room.heldStatus) = Some out_of_order) && isNone stillOut then hold_room roomId None else ret tt
          else ret tt
      | _, _ => ret tt
      end in
  do! audit (MaintenanceOrder.branchId existing) actorId "maintenance.work_order_updated" orderId in
  ret (data existing).

(** ** Assets *)
Record AssetWithService := { aw_asset : Asset.t; aw_nextServiceDue : option Z }.
Definition withNextServiceDue (asset : Asset.t) : AssetWithService :=
  {| aw_asset := asset; aw_nextServiceDue := match Asset.purchaseDate asset, Asset.serviceIntervalDays asset with
                                             | Some p, Some n => if n =? 0 then None else Some (p + n * DAY_MS)
                                             | _, _ => None
                                             end |}.
Definition opt_date (s : option string) : M (option Z) := match set_string s with Some x => let! t := lift (or_throw (toBranchDate x) internal) in ret (Some t) | None => ret None end.
Definition createAsset (b : string) (dto : CreateAssetDto) (actorId : string) : M AssetWithService :=
  do! match set_string (as_roomId dto) with Some i => let! room := findFirst rooms (room_at b i) in throw! not_found when isNone room in ret tt | None => ret tt end in
  let! purchased := opt_date (as_purchaseDate dto) in
  let! until := opt_date (as_warrantyUntil dto) in
  let! i := new_id in
  let asset := {| Asset.id := i; Asset.branchId := b; Asset.roomId := as_roomId dto; Asset.name := as_name dto; Asset.category := as_category dto;
                  Asset.serialNumber := as_serialNumber dto; Asset.purchaseDate := purchased; Asset.warrantyUntil := until;
                  Asset.serviceIntervalDays := as_serviceIntervalDays dto; Asset.notes := as_notes dto |} in
  do! modify (upd_assets (fun l => l ++ [asset])) in
  do! audit b actorId "maintenance.asset_created" i in
  ret (withNextServiceDue asset).
Definition listAssets (b : string) : M (list AssetWithService) :=
  let! found := findMany assets (fun x => bool_decide (Asset.branchId x = b)) in ret (withNextServiceDue <$> found).
End Maintenance.

(** ** A room an open order takes out is out *)
Section HeldRooms.
Context `{Uuid}.
Definition holds_room (o : MaintenanceOrder.t) : bool := MaintenanceOrder.takesRoomOutOfService o && negb (order_closed o).
Record maintenance_ok (d : Db) : Prop := {
  mo_ids : named MaintenanceOrder.id (seq d) (maintenanceOrders d);
  mo_room o : o ∈ maintenanceOrders d -> MaintenanceOrder.takesRoomOutOfService o = true -> set_string (MaintenanceOrder.roomId o) = MaintenanceOrder.roomId o /\ isSome (MaintenanceOrder.roomId o) = true;
  mo_held o x : o ∈ maintenanceOrders d -> holds_room o = true -> x ∈ rooms d -> MaintenanceOrder.roomId o = Some (Room.id x) -> Room.heldStatus x = Some out_of_order;
}.
(** An order that was resolved or cancelled stays so. *)
Definition no_reopening (i : string) (dto : UpdateWorkOrderDto) (d : Db) : Prop :=
  forall o s, o ∈ maintenanceOrders d -> MaintenanceOrder.id o = i -> order_closed o = true -> uo_status dto = Some s -> bool_decide (s ∈ RESOLVED_OR_CANCELLED) = true.
Inductive maintenance_step (d d' : Db) : Prop :=
| ms_create b dto actor o : createWorkOrder b dto actor d = Ok (d', o) -> maintenance_step d d'
| ms_update i dto u o : no_reopening i dto d -> updateWorkOrder i dto u d = Ok (d', o) -> maintenance_step d d'
| ms_asset b dto u a : createAsset b dto u d = Ok (d', a) -> maintenance_step d d'.

(** What creating an order does. *)
Lemma createWorkOrder_inv b dto actor d d' o : createWorkOrder b dto actor d = Ok (d', o) ->
  MaintenanceOrder.id o = gen_random_uuid (seq d) /\ MaintenanceOrder.roomId o = wo_roomId dto /\ maintenanceOrders d' = maintenanceOrders d ++ [o] /\ seq d' = S (seq d) /\
  (if MaintenanceOrder.takesRoomOutOfService o
   then exists r, r ∈ rooms d /\ set_string (wo_roomId dto) = Some (Room.id r) /\ isSupervisorAt actor b = true /\ Room.occupancyStatus r <> occupied /\
          rooms d' = held_rooms (Room.id r) (Some out_of_order) (rooms d)
   else rooms d' = rooms d).
Proof.
  unfold createWorkOrder, audit, hold_room, auditLog. intros Hm. m_inv.
  match goal with E : match set_string (wo_roomId dto) with _ => _ end d = Ok (?e, ?v) |- _ => assert (e = d /\ forall r, v = Some r -> r ∈ rooms d /\ set_string (wo_roomId dto) = Some (Room.id r)) as [-> Hroom] end.
  { destruct (set_string (wo_roomId dto)) as [i|]; m_inv; [|done]. split; [done|]. intros r [Hr Hi]%find_Some. split; [done|]. unfold room_at in Hi. rewrite !andb_true_iff in Hi.
    destruct Hi as [[Hi%bool_decide_eq_true _] _]. by rewrite Hi. }
  match goal with E : match set_string (wo_assetId dto) with _ => _ end d = Ok (?e, _) |- _ => assert (e = d) as -> by (destruct (set_string (wo_assetId dto)); by m_inv) end.
  match goal with E : new_id ?e = _, E2 : _ d = Ok (?e, _) |- _ => apply new_id_spec in E as [-> ->]; rename E2 into Hguard end.
  match goal with E : context [held_rooms] |- _ => rename E into Hhold end.
  destruct v as [r|]; [destruct (wo_blockRoom dto)|]; simpl in *; m_inv; rewrite ?andb_false_r; simpl; try done.
  destruct (Hroom r eq_refl). split_and!; try done. exists r. split_and!; try done; [by apply negb_false_iff | by eapply bool_decide_eq_false_1].
Qed.
Lemma updateWorkOrder_inv i dto u d d' o : updateWorkOrder i dto u d = Ok (d', o) ->
  exists existing f, existing ∈ maintenanceOrders d /\ MaintenanceOrder.id existing = i /\ seq d' = seq d /\ maintenanceOrders d' = update_where (order_where i) f (maintenanceOrders d) /\
    (forall x, MaintenanceOrder.id (f x) = MaintenanceOrder.id x /\ MaintenanceOrder.roomId (f x) = MaintenanceOrder.roomId x /\
       MaintenanceOrder.takesRoomOutOfService (f x) = MaintenanceOrder.takesRoomOutOfService x /\ MaintenanceOrder.status (f x) = default (MaintenanceOrder.status x) (uo_status dto)) /\
    (rooms d' = rooms d \/ exists j s, MaintenanceOrder.roomId existing = Some j /\ uo_status dto = Some s /\ bool_decide (s ∈ RESOLVED_OR_CANCELLED) = true /\
       (forall x, x ∈ maintenanceOrders d' -> MaintenanceOrder.id x <> i -> MaintenanceOrder.roomId x = Some j -> holds_room x = false) /\ rooms d' = held_rooms j None (rooms d)).
Proof.
  unfold updateWorkOrder, audit, hold_room, auditLog, on_staff, now. intros Hm. m_inv. symmetry in Efind. apply find_Some in Efind as [Hin Hid%bool_decide_eq_true].
  match goal with E : match uo_assignedTo dto ≫= set_string with _ => _ end d = Ok (?e, _) |- _ => assert (e = d) as -> by (destruct (uo_assignedTo dto ≫= set_string); by m_inv) end.
  match goal with E : _ (upd_maintenanceOrders (update_where _ ?f) d) = Ok (?e, _) |- _ => exists v, f; rename E into Hhold; set (d1 := upd_maintenanceOrders (update_where (order_where i) f) d) in *;
    assert (e = d1 \/ exists j s, set_string (MaintenanceOrder.roomId v) = Some j /\ uo_status dto = Some s /\ bool_decide (s ∈ RESOLVED_OR_CANCELLED) = true /\
      (forall x, x ∈ maintenanceOrders d1 -> MaintenanceOrder.id x <> i -> MaintenanceOrder.roomId x = Some j -> holds_room x = false) /\ e = upd_rooms (held_rooms j None) d1) as Hcase end.
  { destruct (set_string (MaintenanceOrder.roomId v)) as [j|]; [|m_inv; by left]. destruct (uo_status dto) as [s|]; [|m_inv; by left].
    destruct (MaintenanceOrder.takesRoomOutOfService v); simpl in Hhold; [|m_inv; by left]. destruct (bool_decide (s ∈ RESOLVED_OR_CANCELLED)) eqn:Es; [|m_inv; by left].
    m_inv. destruct (bool_decide (_ = Some out_of_order)); cbn [andb] in Hhold; [|m_inv; by left]. destruct (List.find _ (maintenanceOrders d1)) eqn:Ef; cbn [isNone] in Hhold; m_inv; [by left|].
    right. exists j, s. split_and!; try done. intros x Hx Hne Hj. pose proof (find_None _ _ _ Ef Hx) as Hn. simpl in Hn. unfold order_where, holds_room in *. rewrite bool_decide_eq_false_2 in Hn by done.
    rewrite Hj, bool_decide_eq_true_2 in Hn by done. exact Hn. }
  split_and!; try done; [by destruct Hcase as [->|(j & s & _ & _ & _ & _ & ->)]..|].
  destruct Hcase as [->|(j & s & Hj & Hs & Hc & Hnone & ->)]; [by left | right; exists j, s]. split_and!; try done. by apply GuestMatching.set_string_Some in Hj as [? _].
Qed.
Lemma held_elem i h l x : x ∈ held_rooms i h l -> (Room.id x = i /\ Room.heldStatus x = h) \/ (Room.id x <> i /\ x ∈ l).
Proof.
  intros (y & -> & Hy)%list_elem_of_fmap. unfold room_where. case_bool_decide; [by left | by right].
Qed.
Lemma create_ok b dto actor d d' o : maintenance_ok d -> createWorkOrder b dto actor d = Ok (d', o) -> maintenance_ok d'.
Proof.
  intros [Hids Hroom Hheld] Hm.
  apply createWorkOrder_inv in Hm as (Hid & Hr & Ho & Hsq & Hcase). split; rewrite Ho; [rewrite Hsq; by apply named_app|..].
  + intros x [Hx| ->%list_elem_of_singleton]%elem_of_app Ht; [by apply Hroom|]. rewrite Ht in Hcase. destruct Hcase as (r & _ & Hset & _). rewrite Hr, Hset. by apply GuestMatching.set_string_Some in Hset as [-> _].
  + intros x y Hx Hh Hy Hxy. unfold holds_room in Hh. apply andb_true_iff in Hh as [Ht Hop]. destruct (MaintenanceOrder.takesRoomOutOfService o) eqn:Eo.
    * destruct Hcase as (r & Hrin & Hset & _ & _ & Hrooms). rewrite Hrooms in Hy. apply held_elem in Hy as [[_ ?]|[Hne Hy]]; [done|].
      apply elem_of_app in Hx as [Hx| ->%list_elem_of_singleton]; [by apply (Hheld x); [|unfold holds_room; rewrite Ht|..]|].
      exfalso. apply GuestMatching.set_string_Some in Hset as [? _]. congruence.
    * rewrite Hcase in Hy. apply elem_of_app in Hx as [Hx| ->%list_elem_of_singleton]; [by apply (Hheld x); [|unfold holds_room; rewrite Ht|..]|congruence].
Qed.
Lemma update_ok i dto u d d' o : maintenance_ok d -> no_reopening i dto d -> updateWorkOrder i dto u d = Ok (d', o) -> maintenance_ok d'.
Proof.
  intros [Hids Hroom Hheld] Hno Hm.
  apply updateWorkOrder_inv in Hm as (e & f & He & Hid & Hsq & Ho & Hf & Hcase). split; rewrite Ho.
  + rewrite Hsq. apply named_update; [intros; apply Hf | done].
  + intros x (y & -> & Hy)%list_elem_of_fmap Ht. destruct (Hf y) as (Hf1 & Hf2 & Hf3 & Hf4). destruct (order_where i y); [rewrite Hf2; rewrite Hf3 in Ht|]; by apply Hroom.
  + intros x r (y & -> & Hy)%list_elem_of_fmap Hh Hr Hxr. destruct (Hf y) as (Hf1 & Hf2 & Hf3 & Hf4).
    assert (holds_room y = true /\ MaintenanceOrder.roomId y = Some (Room.id r)) as [Hhy Hyr].
    { unfold order_where in *. case_bool_decide as Ei; [|done]. split; [|by rewrite Hf2 in Hxr]. unfold holds_room in *. rewrite Hf3 in Hh. apply andb_true_iff in Hh as [-> Hopen]. simpl.
      destruct (order_closed y) eqn:Ec; [|done]. exfalso. unfold order_closed in *. rewrite Hf4 in Hopen. destruct (uo_status dto) as [s|] eqn:Es; simpl in Hopen; [|by rewrite Ec in Hopen].
      by rewrite (Hno y s Hy Ei Ec Es) in Hopen. }
    destruct Hcase as [Hrooms|(j & s & Hj & Hs & Hc & Hnone & Hrooms)]; rewrite Hrooms in Hr; [by eapply Hheld|].
    apply held_elem in Hr as [[Er _]|[_ Hr]]; [exfalso|by eapply Hheld].
    destruct (decide (MaintenanceOrder.id y = i)) as [Ei|Ei]; unfold order_where in Hh; [rewrite bool_decide_true in Hh by done | rewrite bool_decide_false in Hh by done].
    * unfold holds_room, order_closed in Hh. rewrite Hf4, Hs in Hh. simpl in Hh. rewrite Hc, andb_false_r in Hh. done.
    * rewrite (Hnone y) in Hh; [done| |done|congruence]. rewrite Ho. apply list_elem_of_fmap. exists y. unfold order_where. by rewrite bool_decide_false.
Qed.
Definition same_orders (d d' : Db) : Prop := maintenanceOrders d' = maintenanceOrders d /\ rooms d' = rooms d /\ (seq d <= seq d')%nat.
#[local] Instance same_orders_preorder : PreOrder same_orders.
Proof. split; [by split | intros a b c (H1' & H2' & H3') (H4' & H5' & H6'); split; [congruence | split; [congruence | lia]]]. Qed.
Lemma asset_ok b dto u d d' a : maintenance_ok d -> createAsset b dto u d = Ok (d', a) -> maintenance_ok d'.
Proof.
  assert (keeps same_orders (createAsset b dto u)) as Hk.
  { unfold createAsset, opt_date, audit, auditLog, new_id. keeps_tac; apply keeps_modify; intros; split; simpl; auto. }
  intros [Hids Hroom Hheld] (Ho & Hr & Hs)%Hk. split; rewrite ?Ho, ?Hr; [by eapply named_weaken | done..].
Qed.

(** C7: a room an open work order has taken out of service stays out: whatever
    orders are raised and worked on, and so long as a closed order is not opened
    again, every order that blocks its room and is not yet resolved or cancelled
    finds that room held out of order; resolving one of two orders on the same
    room does not put it back on sale. *)
Theorem blocked_rooms_stay_out d d' : maintenance_ok d -> rtc maintenance_step d d' -> maintenance_ok d'.
Proof.
  intros Hd Hs. induction Hs as [d|d d1 d' Hstep _ IH]; [done|]. apply IH. destruct Hstep; eauto using create_ok, update_ok, asset_ok.
Qed.
End HeldRooms.

Module MaintenanceWitness.
Import Hotel.
Definition manager : JwtPayload := {| sub := "u1"; roles := [{| branchId := None; role := "owner" |}]; apiKey := None |}.
Definition leak : CreateWorkOrderDto := {| wo_title := "Leak"; wo_description := None; wo_roomId := Some "102"; wo_assetId := None; wo_priority := None; wo_photoUrls := None; wo_blockRoom := true |}.
Definition to_status (s : MaintenanceStatus) : UpdateWorkOrderDto := {| uo_status := Some s; uo_assignedTo := None; uo_completionNotes := None; uo_partsUsed := None |}.
Definition held (d : Db) : list (string * option HeldStatus) := (fun r => (Room.id r, Room.heldStatus r)) <$> rooms d.
(** Two leaks in 102, one of them mended. *)
Definition m1 : Db := after (createWorkOrder "b1" leak manager) hotel.
Definition m2 : Db := after (createWorkOrder "b1" leak manager) m1.
Definition m3 : Db := after (updateWorkOrder "0" (to_status order_resolved) "u1") m2.
Definition m4 : Db := after (updateWorkOrder "1" (to_status order_resolved) "u1") m3.
Lemma orders_ok : is_ok (createWorkOrder "b1" leak manager hotel) && is_ok (createWorkOrder "b1" leak manager m1) && is_ok (updateWorkOrder "0" (to_status order_resolved) "u1" m2)
  && is_ok (updateWorkOrder "1" (to_status order_resolved) "u1" m3) = true.
Proof. vm_compute. reflexivity. Qed.
Lemma rooms_held : held m1 = [("101", None); ("102", Some out_of_order)] /\ held m3 = held m1 /\ held m4 = held hotel.
Proof. vm_compute. done. Qed.
Lemma orders_start : maintenance_ok hotel.
Proof. split; [split; [constructor | intros x k Hx; by apply elem_of_nil in Hx] | intros o Ho; by apply elem_of_nil in Ho | intros o x Ho; by apply elem_of_nil in Ho]. Qed.
Definition all_open (d : Db) : bool := forallb (fun o => negb (order_closed o)) (maintenanceOrders d).
Lemma no_reopening_closing i s d : bool_decide (s ∈ RESOLVED_OR_CANCELLED) = true -> no_reopening i (to_status s) d.
Proof. intros Hs o s' _ _ _ [= <-]. exact Hs. Qed.
Lemma order_steps : rtc maintenance_step hotel m3.
Proof.
  pose proof orders_ok as Hok. rewrite !andb_true_iff in Hok. destruct Hok as [[[H1' H2'] H3'] _].
  destruct (after_ok (createWorkOrder "b1" leak manager) hotel H1') as [o1 E1]. destruct (after_ok (createWorkOrder "b1" leak manager) m1 H2') as [o2 E2].
  destruct (after_ok (updateWorkOrder "0" (to_status order_resolved) "u1") m2 H3') as [o3 E3].
  apply (rtc_l _ hotel m1); [exact (ms_create _ _ _ _ _ _ E1)|]. apply (rtc_l _ m1 m2); [exact (ms_create _ _ _ _ _ _ E2)|].
  apply rtc_once. exact (ms_update _ _ _ _ _ _ (no_reopening_closing "0" order_resolved m2 eq_refl) E3).
Qed.
Lemma blocked_rooms_stay_out_witness : held m3 = [("101", None); ("102", Some out_of_order)] /\ maintenance_ok m3.
Proof. split; [vm_compute; reflexivity | exact (blocked_rooms_stay_out hotel m3 orders_start order_steps)]. Defined.
(** Opening a closed order again does not take its room out again: the order then
    says it blocks 102, and 102 is on sale. *)
Definition m5 : Db := after (updateWorkOrder "1" (to_status order_open) "u1") m4.
Lemma reopened_order_leaves_room_on_sale : is_ok (updateWorkOrder "1" (to_status order_open) "u1" m4) = true /\ List.map holds_room (maintenanceOrders m5) = [false; true] /\ held m5 = [("101", None); ("102", None)].
Proof. vm_compute. done. Qed.
End MaintenanceWitness.
