(* ===== verification/Totp.v ===== *)
(** One-time codes for the second step of a sign-in
    (src/src/modules/auth/totp.ts): base32 secrets on JavaScript's 32-bit
    integers, RFC 4226 and RFC 6238 codes, recovery codes. HMAC-SHA1 and SHA-256
    are the platform's. *)
From Stdlib Require Import ZArith Ascii.
From S2P Require Import Prelude.
Local Open Scope Z_scope.

(** ** 32-bit integers *)
(** The signed 32-bit value of a number, and JavaScript's shifts on it. *)
Definition to_int32 (z : Z) : Z := (z + 2 ^ 31) mod 2 ^ 32 - 2 ^ 31.
Definition js_shl (z k : Z) : Z := to_int32 (Z.shiftl z k).
Definition js_shr_unsigned (z k : Z) : Z := Z.shiftr (z mod 2 ^ 32) k.

(** ** Base 32 *)
Definition BASE32_ALPHABET : string := "ABCDEFGHIJKLMNOPQRSTUVWXYZ234567".
Definition alphabet_char (alphabet : string) (i : Z) : ascii := default "000"%char (String.get (Z.to_nat i) alphabet).
(** [alphabet.indexOf(char)]: the position, or [None] for -1 *)
Fixpoint index_of (c : ascii) (s : string) : option Z :=
  match s with EmptyString => None | String d s => if bool_decide (c = d) then Some 0 else Z.succ <$> index_of c s end.

(** [while (bits >= 5) ...]; a byte leaves at most 12 bits, so two turns. *)
Fixpoint base32_drain (fuel : nat) (bits value : Z) : Z * list Z :=
  match fuel with
  | O => (bits, [])
  | S fuel =>
      if 5 <=? bits then
        let i := Z.land (js_shr_unsigned value (bits - 5)) 31 in
        let '(b, out) := base32_drain fuel (bits - 5) value in (b, i :: out)
      else (bits, [])
  end.
Fixpoint base32_loop (bytes : list Z) (bits value : Z) : list Z :=
  match bytes with
  | [] => if 0 <? bits then [Z.land (js_shl value (5 - bits)) 31] else []
  | byte :: bytes =>
      let value := Z.lor (js_shl value 8) byte in
      let '(b, out) := base32_drain 2 (bits + 8) value in
      out ++ base32_loop bytes b value
  end.
Definition base32Encode (bytes : list Z) : string := foldr (fun i s => String (alphabet_char BASE32_ALPHABET i) s) EmptyString (base32_loop bytes 0 0).

Fixpoint base32_decode_loop (text : string) (bits value : Z) : option (list Z) :=
  match text with
  | EmptyString => Some []
  | String c text =>
      match index_of c BASE32_ALPHABET with
      | None => None
      | Some index =>
          let value := Z.lor (js_shl value 5) index in
          let bits := bits + 5 in
          if 8 <=? bits then
            let byte := Z.land (js_shr_unsigned value (bits - 8)) 255 in
            cons byte <$> base32_decode_loop text (bits - 8) value
          else base32_decode_loop text bits value
      end
  end.
(** [/[\s=-]/] *)
Definition base32_filler (c : ascii) : bool := is_space c || bool_decide (c = "="%char) || bool_decide (c = "-"%char).
Definition base32Decode (text : string) : option (list Z) := base32_decode_loop (string_filter (fun c => negb (base32_filler c)) (js_upper text)) 0 0.

(** ** Codes *)
Definition TOTP_STEP_SECONDS : Z := 30.
Definition TOTP_DIGITS : nat := 6.
Definition TOTP_WINDOW : Z := 1.
Definition digit_char (n : Z) : ascii := ascii_of_nat (48 + Z.to_nat n).
(** [String(n % 10 ** digits).padStart(digits, '0')]: the last [digits] decimal digits *)
Fixpoint padded_digits (digits : nat) (n : Z) : string :=
  match digits with O => EmptyString | S k => string_snoc (padded_digits k (n / 10)) (digit_char (n mod 10)) end.
(** [writeBigUInt64BE] *)
Definition big_endian (n : Z) : list Z := (fun i => (n / 2 ^ (8 * i)) mod 256) <$> [7; 6; 5; 4; 3; 2; 1; 0].

Section Codes.
(** [createHmac('sha1', key).update(message).digest()] *)
Context (hmac_sha1 : list Z -> list Z -> list Z) (sha256 : string -> string).
(** [None]: a byte the digest does not have, or a counter that is no unsigned 64-bit number. *)
Definition hotp (secret : list Z) (counter : Z) : option string :=
  if (counter <? 0) || (2 ^ 64 <=? counter) then None
  else
    let hmac := hmac_sha1 secret (big_endian counter) in
    last ← last hmac;
    let offset := Z.to_nat (Z.land last 15) in
    b0 ← hmac !! offset; b1 ← hmac !! (offset + 1)%nat; b2 ← hmac !! (offset + 2)%nat; b3 ← hmac !! (offset + 3)%nat;
    let binary := Z.lor (Z.lor (Z.lor (js_shl (Z.land b0 127) 24) (js_shl b1 16)) (js_shl b2 8)) b3 in
    Some (padded_digits TOTP_DIGITS binary).
Definition stepAt (timeMs : Z) : Z := timeMs / (1000 * TOTP_STEP_SECONDS).
Definition totp (secretBase32 : string) (timeMs : Z) : option string := secret ← base32Decode secretBase32; hotp secret (stepAt timeMs).

Definition is_six_digits (s : string) : bool := (String.length s =? TOTP_DIGITS)%nat && forallb (fun c => isSome (index_of c "0123456789")) (String.list_ascii_of_string s).
Definition no_spaces (s : string) : string := string_filter (fun c => negb (is_space c)) s.
(** [Err]: [hotp] or [timingSafeEqual] throws (the texts compared must be as long). *)
Fixpoint match_step (secret : list Z) (clean : string) (lastUsedStep : option Z) (steps : list Z) : res (option Z) :=
  match steps with
  | [] => Ok None
  | step :: steps =>
      if match lastUsedStep with Some l => step <=? l | None => false end then match_step secret clean lastUsedStep steps
      else match hotp secret step with
           | None => Err (Throw InternalServerError INTERNAL)
           | Some expected =>
               if (String.length expected =? String.length clean)%nat then if bool_decide (expected = clean) then Ok (Some step) else match_step secret clean lastUsedStep steps
               else Err (Throw InternalServerError INTERNAL)
           end
  end.
Definition verifyTotp (secretBase32 code : string) (nowMs : Z) (lastUsedStep : option Z) : res (option Z) :=
  let clean := no_spaces code in
  if negb (is_six_digits clean) then Ok None
  else match base32Decode secretBase32 with
       | None => Err (Throw InternalServerError INTERNAL)
       | Some secret => match_step secret clean lastUsedStep ((fun delta => stepAt nowMs + delta) <$> [- TOTP_WINDOW; 0; TOTP_WINDOW])
       end.

(** ** Recovery codes *)
Definition RECOVERY_ALPHABET : string := "abcdefghjkmnpqrstuvwxyz23456789".
Definition RECOVERY_CODE_COUNT : nat := 10.
(** One code from the ten random positions [randomInt] gives. *)
Definition recovery_code (random : list Z) : string :=
  let chars := String.string_of_list_ascii (alphabet_char RECOVERY_ALPHABET <$> random) in
  String.substring 0 5 chars +:+ "-" +:+ String.substring 5 (String.length chars - 5) chars.
Definition generateRecoveryCodes (random : list (list Z)) : list string := recovery_code <$> random.
Definition normaliseRecoveryCode (code : string) : string := string_filter (fun c => negb (is_space c || bool_decide (c = "-"%char))) (js_lower code).
Definition hashRecoveryCode (code : string) : string := sha256 (normaliseRecoveryCode code).
Definition looksLikeRecoveryCode (code : string) : bool :=
  let s := normaliseRecoveryCode code in
  (String.length s =? 10)%nat && forallb (fun c => isSome (index_of c "abcdefghijklmnopqrstuvwxyz0123456789")) (String.list_ascii_of_string s).
End Codes.

Definition rfc_secret : list Z := (fun c => Z.of_nat (nat_of_ascii c)) <$> String.list_ascii_of_string "12345678901234567890".
Example rfc_encoding : base32Encode rfc_secret = "GEZDGNBVGY3TQOJQGEZDGNBVGY3TQOJQ" /\ base32Decode "gezd gnbv-gy3t qojq gezd gnbv gy3t qojq" = Some rfc_secret.
Proof. vm_compute. done. Qed.

(** ** A secret survives being written down and typed back *)
Definition number (B : Z) (l : list Z) : Z := foldl (fun acc x => acc * B + x) 0 l.
Definition digits_below (B : Z) (l : list Z) : Prop := Forall (fun x => 0 <= x < B) l.
Lemma number_acc B l a : foldl (fun acc x => acc * B + x) a l = a * B ^ Z.of_nat (length l) + number B l.
Proof.
  unfold number. revert a. induction l as [|x l IH]; intros a; cbn [foldl length]; [rewrite Z.pow_0_r; lia|].
  rewrite (IH (a * B + x)), (IH (0 * B + x)), Nat2Z.inj_succ, Z.pow_succ_r by lia. ring.
Qed.
Lemma number_cons B x l : number B (x :: l) = x * B ^ Z.of_nat (length l) + number B l.
Proof. unfold number at 1. cbn [foldl]. by rewrite number_acc. Qed.
Lemma number_app B l k : number B (l ++ k) = number B l * B ^ Z.of_nat (length k) + number B k.
Proof. unfold number at 1. by rewrite foldl_app, number_acc. Qed.
Lemma number_bounds B l : 0 < B -> digits_below B l -> 0 <= number B l < B ^ Z.of_nat (length l).
Proof.
  intros HB. induction 1 as [|x l Hx _ IH]; [rewrite Z.pow_0_r; unfold number; simpl; lia|].
  rewrite number_cons. cbn [length]. rewrite Nat2Z.inj_succ, Z.pow_succ_r by lia. nia.
Qed.
Lemma number_inj B l k : 0 < B -> digits_below B l -> digits_below B k -> length l = length k -> number B l = number B k -> l = k.
Proof.
  intros HB Hl. revert k. induction Hl as [|x l Hx Hl IH]; intros k Hk Hlen Hn; [by destruct k|].
  destruct Hk as [|y k Hy Hk]; [done|]. injection Hlen as Hlen. rewrite !number_cons, Hlen in Hn.
  pose proof (number_bounds B l HB Hl) as Hbl. pose proof (number_bounds B k HB Hk) as Hbk. rewrite Hlen in Hbl.
  set (p := B ^ Z.of_nat (length k)) in *. assert (x = y) as -> by nia. f_equal. apply IH; [done..|lia].
Qed.

(** The low bits of the accumulator are what the loops work with; the wrap to 32 bits leaves them. *)
Lemma int32_shift z : exists q, to_int32 z = z + q * 2 ^ 32.
Proof. unfold to_int32. exists (- ((z + 2 ^ 31) / 2 ^ 32)). pose proof (Z.div_mod (z + 2 ^ 31) (2 ^ 32) ltac:(lia)). lia. Qed.
Lemma pow2_split a b : 0 <= a <= b -> 2 ^ b = 2 ^ (b - a) * 2 ^ a.
Proof. intros. rewrite <- Z.pow_add_r by lia. f_equal. lia. Qed.
Lemma mod_drop a b k : 0 <= k <= 32 -> (a + b * 2 ^ 32) mod 2 ^ k = a mod 2 ^ k.
Proof. intros Hk. rewrite (pow2_split k 32 Hk), Z.mul_assoc. apply Z_mod_plus_full. Qed.
Lemma push_low v w x k : 0 <= w -> 0 <= k -> k + w <= 32 -> 0 <= x < 2 ^ w -> Z.lor (js_shl v w) x mod 2 ^ (k + w) = (v mod 2 ^ k) * 2 ^ w + x.
Proof.
  intros Hw Hk Hkw Hx. unfold js_shl. rewrite Z.shiftl_mul_pow2 by done. destruct (int32_shift (v * 2 ^ w)) as [q ->].
  rewrite (pow2_split w 32 ltac:(lia)), Z.mul_assoc, <- Z.mul_add_distr_r, lor_low by done.
  rewrite Z.pow_add_r by lia. rewrite (Z.mul_comm (2 ^ k)). rewrite Z.rem_mul_r by (try apply Z.pow_nonzero; try apply Z.pow_pos_nonneg; lia).
  set (u := v + q * 2 ^ (32 - w)). assert ((u * 2 ^ w + x) mod 2 ^ w = x) as -> by (rewrite Z.add_comm, Z_mod_plus_full; by apply Z.mod_small).
  assert ((u * 2 ^ w + x) / 2 ^ w = u) as -> by (rewrite Z.div_add_l by (apply Z.pow_nonzero; lia); rewrite Z.div_small by done; lia).
  unfold u. rewrite (pow2_split k (32 - w) ltac:(lia)), Z.mul_assoc, Z_mod_plus_full. ring.
Qed.
Lemma pull_low v w k : 0 <= w <= k -> k <= 32 -> Z.land (js_shr_unsigned v (k - w)) (Z.ones w) = v mod 2 ^ k / 2 ^ (k - w).
Proof.
  intros Hw Hk. unfold js_shr_unsigned. rewrite Z.land_ones, Z.shiftr_div_pow2 by lia.
  replace (v mod 2 ^ k) with ((v mod 2 ^ 32) mod 2 ^ k).
  2:{ pose proof (Z.div_mod v (2 ^ 32) ltac:(lia)) as E. rewrite E at 2. rewrite Z.add_comm, (Z.mul_comm (2 ^ 32)), mod_drop by lia. done. }
  set (m := v mod 2 ^ 32). replace (2 ^ k) with (2 ^ (k - w) * 2 ^ w) by (rewrite <- Z.pow_add_r by lia; f_equal; lia).
  rewrite Z.rem_mul_r by (try apply Z.pow_nonzero; try apply Z.pow_pos_nonneg; lia). rewrite (Z.add_comm (m mod _)), Z.mul_comm, Z.div_add_l by (apply Z.pow_nonzero; lia).
  rewrite (Z.div_small (m mod _)) by (apply Z.mod_pos_bound, Z.pow_pos_nonneg; lia). lia.
Qed.
Lemma split_low v k w : 0 <= w <= k -> v mod 2 ^ k = v mod 2 ^ k / 2 ^ (k - w) * 2 ^ (k - w) + v mod 2 ^ (k - w) /\ 0 <= v mod 2 ^ k / 2 ^ (k - w) < 2 ^ w.
Proof.
  intros Hw. pose proof (Z.pow_pos_nonneg 2 (k - w) ltac:(lia) ltac:(lia)) as Hp. pose proof (Z.pow_pos_nonneg 2 w ltac:(lia) ltac:(lia)) as Hpw.
  assert (2 ^ k = 2 ^ (k - w) * 2 ^ w) as Ek by (rewrite <- Z.pow_add_r by lia; f_equal; lia).
  pose proof (Z.mod_pos_bound v (2 ^ k) ltac:(nia)) as Hb. split.
  - assert (v mod 2 ^ (k - w) = (v mod 2 ^ k) mod 2 ^ (k - w)) as ->.
    { pose proof (Z.div_mod v (2 ^ k) ltac:(nia)) as E. rewrite E at 1. rewrite Ek at 1. rewrite <- Z.mul_assoc, Z.mul_comm, Z.add_comm, Z_mod_plus_full. done. }
    pose proof (Z.div_mod (v mod 2 ^ k) (2 ^ (k - w)) ltac:(lia)). lia.
  - split; [apply Z.div_pos; lia|]. apply Z.div_lt_upper_bound; [lia|]. rewrite <- Ek. lia.
Qed.
Lemma drain_spec fuel bits v : 0 <= bits <= 32 -> bits < 5 * Z.of_nat fuel + 5 ->
  let '(b, out) := base32_drain fuel bits v in
  0 <= b < 5 /\ 5 * Z.of_nat (length out) + b = bits /\ digits_below 32 out /\ v mod 2 ^ bits = number 32 out * 2 ^ b + v mod 2 ^ b.
Proof.
  revert bits. induction fuel as [|fuel IH]; intros bits Hb Hf; cbn [base32_drain].
  - split_and!; [simpl; lia..|constructor|unfold number; simpl; lia].
  - destruct (Z.leb_spec 5 bits) as [H5|H5]; [|split_and!; [simpl; lia..|constructor|unfold number; simpl; lia]].
    specialize (IH (bits - 5) ltac:(lia) ltac:(lia)). destruct (base32_drain fuel (bits - 5) v) as [b out]. destruct IH as (Hb1 & Hlen & Hd & Hv).
    change 31 with (Z.ones 5). rewrite pull_low by lia. destruct (split_low v bits 5 ltac:(lia)) as [Hs Hi]. set (i := v mod 2 ^ bits / 2 ^ (bits - 5)) in *.
    split_and!; [lia..|cbn [length]; lia|by constructor|]. rewrite number_cons, Hs, Hv. replace (bits - 5) with (5 * Z.of_nat (length out) + b) by lia.
    rewrite Z.pow_add_r, Z.pow_mul_r by lia. change (2 ^ 5) with 32. ring.
Qed.
Lemma encode_spec bytes bits v : 0 <= bits < 5 -> digits_below 256 bytes ->
  exists pad, 0 <= pad < 5 /\ 5 * Z.of_nat (length (base32_loop bytes bits v)) = bits + 8 * Z.of_nat (length bytes) + pad /\ digits_below 32 (base32_loop bytes bits v) /\
    number 32 (base32_loop bytes bits v) = (v mod 2 ^ bits * 256 ^ Z.of_nat (length bytes) + number 256 bytes) * 2 ^ pad.
Proof.
  revert bits v. induction bytes as [|byte bytes IH]; intros bits v Hb Hd; cbn [base32_loop].
  - destruct (Z.ltb_spec 0 bits) as [Hp|Hp].
    + exists (5 - bits). change 31 with (Z.ones 5). rewrite Z.land_ones by lia. unfold js_shl. rewrite Z.shiftl_mul_pow2 by lia. destruct (int32_shift (v * 2 ^ (5 - bits))) as [q ->].
      rewrite mod_drop by lia. replace (2 ^ 5) with (2 ^ bits * 2 ^ (5 - bits)) by (rewrite <- Z.pow_add_r by lia; f_equal; lia).
      rewrite Z.mul_mod_distr_r by (apply Z.pow_nonzero; lia). pose proof (Z.mod_pos_bound v (2 ^ bits) ltac:(apply Z.pow_pos_nonneg; lia)) as Hm.
      assert (2 ^ bits * 2 ^ (5 - bits) = 32) as E by (rewrite <- Z.pow_add_r by lia; replace (bits + (5 - bits)) with 5 by lia; done).
      pose proof (Z.pow_pos_nonneg 2 (5 - bits) ltac:(lia) ltac:(lia)). split_and!; [lia..|simpl; lia| |].
      * constructor; [nia | constructor].
      * unfold number. simpl. rewrite ?Z.pow_0_r. lia.
    + exists 0. assert (bits = 0) as -> by lia. split_and!; [lia..|simpl; lia|constructor|]. unfold number. simpl. rewrite Z.mod_1_r. lia.
  - inversion Hd as [|? ? Hbyte Hd']; subst. set (v' := Z.lor (js_shl v 8) byte). pose proof (drain_spec 2 (bits + 8) v' ltac:(lia) ltac:(lia)) as Hdr.
    destruct (base32_drain 2 (bits + 8) v') as [b out]. destruct Hdr as (Hb1 & Hlen & Hdo & Hv). destruct (IH b v' Hb1 Hd') as (pad & Hpad & Hlen2 & Hd2 & Hn).
    exists pad. rewrite length_app, number_app. split_and!; [lia..|cbn [length]; lia|by apply Forall_app|]. rewrite Hn.
    unfold v' in Hv at 1. rewrite push_low in Hv by lia. change (2 ^ 8) with 256 in Hv. rewrite number_cons. cbn [length]. rewrite Nat2Z.inj_succ, Z.pow_succ_r by lia.
    set (m := base32_loop bytes b v') in *. set (n := Z.of_nat (length bytes)) in *. assert (32 ^ Z.of_nat (length m) = 2 ^ b * 256 ^ n * 2 ^ pad) as ->.
    { change 32 with (2 ^ 5). change 256 with (2 ^ 8). rewrite <- !Z.pow_mul_r, <- !Z.pow_add_r by lia. f_equal. lia. }
    transitivity ((number 32 out * 2 ^ b + v' mod 2 ^ b) * 256 ^ n * 2 ^ pad + number 256 bytes * 2 ^ pad); [ring|]. rewrite <- Hv. ring.
Qed.
(** A character of the alphabet reads as the digit it was written for, upper case already and no filler. *)
Lemma alphabet_ok i : 0 <= i < 32 -> index_of (alphabet_char BASE32_ALPHABET i) BASE32_ALPHABET = Some i /\
  ascii_map (fun n => if (97 <=? n) && (n <=? 122) then n - 32 else n) (alphabet_char BASE32_ALPHABET i) = alphabet_char BASE32_ALPHABET i /\
  base32_filler (alphabet_char BASE32_ALPHABET i) = false.
Proof.
  intros Hi. set (ok c i := bool_decide (index_of c BASE32_ALPHABET = Some i) && bool_decide (ascii_map (fun n => if (97 <=? n) && (n <=? 122) then n - 32 else n) c = c) && negb (base32_filler c)).
  assert (List.forallb (fun i => ok (alphabet_char BASE32_ALPHABET i) i) (seqZ 0 32) = true) as Hall by (vm_compute; reflexivity).
  rewrite List.forallb_forall in Hall. specialize (Hall i). unfold ok in Hall. rewrite !andb_true_iff, !bool_decide_eq_true, negb_true_iff in Hall.
  destruct Hall as [[H1 H2] H3]; [by apply list_elem_of_In, elem_of_seqZ; lia | done].
Qed.
Definition written (is_ : list Z) : string := foldr (fun i s => String (alphabet_char BASE32_ALPHABET i) s) EmptyString is_.
Lemma clean_written is_ : digits_below 32 is_ -> string_filter (fun c => negb (base32_filler c)) (js_upper (written is_)) = written is_.
Proof.
  induction 1 as [|i is_ Hi _ IH]; [done|]. cbn [written foldr]. destruct (alphabet_ok i Hi) as (_ & Hup & Hf). unfold js_upper in *. cbn [string_map]. rewrite Hup. cbn [string_filter].
  rewrite Hf. cbn [negb]. f_equal. exact IH.
Qed.
Lemma decode_spec is_ bits v : 0 <= bits < 8 -> digits_below 32 is_ ->
  exists out r low, base32_decode_loop (written is_) bits v = Some out /\ digits_below 256 out /\ 0 <= r < 8 /\ bits + 5 * Z.of_nat (length is_) = 8 * Z.of_nat (length out) + r /\
    0 <= low < 2 ^ r /\ v mod 2 ^ bits * 32 ^ Z.of_nat (length is_) + number 32 is_ = number 256 out * 2 ^ r + low.
Proof.
  revert bits v. induction is_ as [|i is_ IH]; intros bits v Hb Hd.
  - exists [], bits, (v mod 2 ^ bits). pose proof (Z.mod_pos_bound v (2 ^ bits) ltac:(apply Z.pow_pos_nonneg; lia)).
    split_and!; try done; try lia; [by apply Forall_nil|simpl; lia|unfold number; simpl; rewrite ?Z.pow_0_r; lia].
  - inversion Hd as [|? ? Hi Hd']; subst. cbn [written foldr base32_decode_loop]. destruct (alphabet_ok i Hi) as (-> & _). fold (written is_).
    set (v' := Z.lor (js_shl v 5) i). assert (v' mod 2 ^ (bits + 5) = v mod 2 ^ bits * 32 + i) as Hv by (unfold v'; rewrite push_low by lia; done).
    rewrite number_cons. cbn [length]. rewrite Nat2Z.inj_succ, Z.pow_succ_r by lia.
    destruct (Z.leb_spec 8 (bits + 5)) as [H8|H8].
    + destruct (IH (bits + 5 - 8) v' ltac:(lia) Hd') as (out & r & low & -> & Ho & Hr & Hlen & Hlow & Hn). change 255 with (Z.ones 8). rewrite pull_low by lia.
      destruct (split_low v' (bits + 5) 8 ltac:(lia)) as [Hs Hbyte]. set (byte := v' mod 2 ^ (bits + 5) / 2 ^ (bits + 5 - 8)) in *.
      exists (byte :: out), r, low. cbn [length]. split_and!; first [done | lia | by constructor | idtac]. rewrite number_cons.
      assert (2 ^ (bits + 5 - 8) * 32 ^ Z.of_nat (length is_) = 256 ^ Z.of_nat (length out) * 2 ^ r) as Ep.
      { change 32 with (2 ^ 5). change 256 with (2 ^ 8). rewrite <- !Z.pow_mul_r, <- !Z.pow_add_r by lia. f_equal. lia. }
      transitivity ((v' mod 2 ^ (bits + 5)) * 32 ^ Z.of_nat (length is_) + number 32 is_); [rewrite Hv; ring|]. rewrite Hs.
      transitivity (byte * (2 ^ (bits + 5 - 8) * 32 ^ Z.of_nat (length is_)) + (v' mod 2 ^ (bits + 5 - 8) * 32 ^ Z.of_nat (length is_) + number 32 is_)); [ring|]. rewrite Ep, Hn. ring.
    + destruct (IH (bits + 5) v' ltac:(lia) Hd') as (out & r & low & -> & Ho & Hr & Hlen & Hlow & Hn). exists out, r, low. cbn [length] in *. split_and!; first [done | lia | rewrite <- Hn, Hv; ring].
Qed.

(** a secret survives being written down: for bytes of any number, decoding
    their base-32 text gives them back, although both loops let their accumulator
    overflow 32-bit integers after the fourth byte. *)
Theorem base32_roundtrip bytes : digits_below 256 bytes -> base32Decode (base32Encode bytes) = Some bytes.
Proof.
  intros Hd. destruct (encode_spec bytes 0 0 ltac:(lia) Hd) as (pad & Hpad & Hlen & Hd32 & Hn). set (is_ := base32_loop bytes 0 0) in *.
  unfold base32Decode, base32Encode. fold is_. fold (written is_). rewrite clean_written by done.
  destruct (decode_spec is_ 0 0 ltac:(lia) Hd32) as (out & r & low & -> & Ho & Hr & Hlen2 & Hlow & Hn2). f_equal.
  assert (length out = length bytes /\ r = pad) as [Hl ->] by lia. rewrite Z.pow_0_r, Z.mod_1_r in *.
  apply (number_inj 256); [lia|done..|]. pose proof (Z.pow_pos_nonneg 2 pad ltac:(lia) ltac:(lia)). nia.
Qed.
Lemma base32_roundtrip_witness : base32Decode (base32Encode rfc_secret) = Some rfc_secret.
Proof. apply base32_roundtrip. apply (bool_decide_unpack (Forall (fun x => 0 <= x < 256) rfc_secret)). vm_compute. exact I. Defined.

(** ** Codes are six digits, and none is accepted twice *)
Section CodeFacts.
Context (hmac_sha1 : list Z -> list Z -> list Z).
(** A SHA-1 digest is twenty bytes. *)
Context (Hmac : forall key message, length (hmac_sha1 key message) = 20%nat /\ digits_below 256 (hmac_sha1 key message)).
Lemma snoc_length s c : String.length (string_snoc s c) = S (String.length s).
Proof. induction s as [|d s IH]; simpl; [done | by rewrite IH]. Qed.
Lemma padded_length k n : String.length (padded_digits k n) = k.
Proof. revert n. induction k as [|k IH]; intros n; [done|]. cbn [padded_digits]. by rewrite snoc_length, IH. Qed.
Lemma hotp_total secret counter : 0 <= counter < 2 ^ 64 -> exists s, hotp hmac_sha1 secret counter = Some s /\ String.length s = TOTP_DIGITS.
Proof.
  intros Hc. unfold hotp. destruct (Z.ltb_spec counter 0); [lia|]. destruct (Z.leb_spec (2 ^ 64) counter); [lia|]. cbn [orb].
  destruct (Hmac secret (big_endian counter)) as [Hlen Hd]. set (h := hmac_sha1 secret (big_endian counter)) in *.
  destruct (last h) as [l|] eqn:El; [|by apply last_None in El; rewrite El in Hlen]. cbn [mbind option_bind].
  assert (0 <= Z.land l 15 < 16) as Hoff by (change 15 with (Z.ones 4); rewrite Z.land_ones by lia; apply Z.mod_pos_bound; lia).
  set (o := Z.to_nat (Z.land l 15)). assert (o < 16)%nat as Ho by lia.
  assert (forall i, (i < 20)%nat -> exists x, h !! i = Some x) as Hget by (intros i Hi; apply lookup_lt_is_Some_2; lia).
  destruct (Hget o ltac:(lia)) as [b0 ->], (Hget (o + 1)%nat ltac:(lia)) as [b1 E1], (Hget (o + 2)%nat ltac:(lia)) as [b2 E2], (Hget (o + 3)%nat ltac:(lia)) as [b3 E3].
  cbn [mbind option_bind]. rewrite E1. cbn [mbind option_bind]. rewrite E2. cbn [mbind option_bind]. rewrite E3. cbn [mbind option_bind].
  eexists. split; [reflexivity|]. apply padded_length.
Qed.
Lemma match_step_spec secret clean used steps : String.length clean = TOTP_DIGITS -> Forall (fun s => 0 <= s < 2 ^ 64) steps ->
  match match_step hmac_sha1 secret clean used steps with
  | Ok (Some s) => s ∈ steps /\ match used with Some l => l < s | None => True end /\ hotp hmac_sha1 secret s = Some clean
  | Ok None => forall s, s ∈ steps -> match used with Some l => l < s | None => True end -> hotp hmac_sha1 secret s <> Some clean
  | Err _ => False
  end.
Proof.
  intros Hc. induction 1 as [|s steps Hs _ IH]; cbn [match_step]; [by intros s Hs%elem_of_nil|].
  destruct (match used with Some l => s <=? l | None => false end) eqn:Eu.
  - destruct (match_step _ _ _ _ _) as [[x|]|e]; [|intros y [->|Hy]%elem_of_cons Hlt; [|by apply IH]|done].
    + destruct IH as (Hx & ? & ?). split_and!; [by right|done..].
    + destruct used as [l|]; [|done]. apply Z.leb_le in Eu. lia.
  - destruct (hotp_total secret s Hs) as (e & He & Hl). rewrite He, Hl, Hc, Nat.eqb_refl. case_bool_decide as Ee.
    + subst. split_and!; [by left| |done]. destruct used as [l|]; [|done]. by apply Z.leb_gt in Eu.
    + destruct (match_step _ _ _ _ _) as [[x|]|e']; [|intros y [->|Hy]%elem_of_cons Hlt; [congruence|by apply IH]|done]. destruct IH as (Hx & ? & ?). split_and!; [by right|done..].
Qed.

(** a code is accepted exactly when it is the six-digit code of a step at
    most one away from now that is later than the last one used, so no code works
    twice and none works a minute late; and checking one never fails otherwise,
    whatever is typed. *)
Theorem code_accepted_exactly secret32 secret code nowMs used : base32Decode secret32 = Some secret -> 30000 <= nowMs < 2 ^ 64 ->
  match verifyTotp hmac_sha1 secret32 code nowMs used with
  | Ok (Some s) => Z.abs (s - stepAt nowMs) <= 1 /\ match used with Some l => l < s | None => True end /\ hotp hmac_sha1 secret s = Some (no_spaces code)
  | Ok None => is_six_digits (no_spaces code) = false \/
      forall s, Z.abs (s - stepAt nowMs) <= 1 -> match used with Some l => l < s | None => True end -> hotp hmac_sha1 secret s <> Some (no_spaces code)
  | Err _ => False
  end.
Proof.
  intros Hs Hnow. unfold verifyTotp. destruct (is_six_digits (no_spaces code)) eqn:E6; cbn [negb]; [|by left]. rewrite Hs.
  assert (String.length (no_spaces code) = TOTP_DIGITS) as Hlen by (unfold is_six_digits in E6; apply andb_true_iff in E6 as [E _]; by apply Nat.eqb_eq).
  set (steps := (fun delta => stepAt nowMs + delta) <$> [- TOTP_WINDOW; 0; TOTP_WINDOW]).
  assert (forall s, s ∈ steps <-> Z.abs (s - stepAt nowMs) <= 1) as Hsteps.
  { intros s. unfold steps, TOTP_WINDOW. simpl. rewrite !elem_of_cons, elem_of_nil. lia. }
  assert (1 <= stepAt nowMs < 2 ^ 64 - 1) as Hstep.
  { unfold stepAt, TOTP_STEP_SECONDS. split; [apply Z.div_le_lower_bound; lia | apply Z.div_lt_upper_bound; lia]. }
  assert (Forall (fun s => 0 <= s < 2 ^ 64) steps) as Hr by (apply Forall_forall; intros s Hin%Hsteps; lia).
  pose proof (match_step_spec secret (no_spaces code) used steps Hlen Hr) as Hm. destruct (match_step _ _ _ _ _) as [[s|]|e]; [|right|done].
  - destruct Hm as (Hin%Hsteps & ? & ?). done.
  - intros s Hin%Hsteps. by apply Hm.
Qed.
End CodeFacts.

Module TotpWitness.
(** A digest that is twenty bytes, if nothing else. *)
Definition toy_hmac (key message : list Z) : list Z := (fun i => (Z.of_nat i * 37 + number 256 message + number 256 key) mod 256) <$> List.seq 0 20.
Lemma toy_digest key message : length (toy_hmac key message) = 20%nat /\ digits_below 256 (toy_hmac key message).
Proof.
  split; [done|]. apply Forall_forall. intros x (i & -> & _)%list_elem_of_fmap. apply Z.mod_pos_bound. lia.
Qed.
Definition toy_code : string := default "" (totp toy_hmac (base32Encode rfc_secret) 59000).
Lemma code_accepted_exactly_witness : verifyTotp toy_hmac (base32Encode rfc_secret) toy_code 59000 (Some 0) = Ok (Some 1) /\ hotp toy_hmac rfc_secret 1 = Some (no_spaces toy_code).
Proof.
  pose proof (code_accepted_exactly toy_hmac toy_digest (base32Encode rfc_secret) rfc_secret toy_code 59000 (Some 0) ltac:(vm_compute; reflexivity) ltac:(lia)) as H.
  assert (verifyTotp toy_hmac (base32Encode rfc_secret) toy_code 59000 (Some 0) = Ok (Some 1)) as E by (vm_compute; reflexivity).
  rewrite E in H. split; [exact E|]. apply H.
Defined.
End TotpWitness.
