(* ===== verification/Accounts.v ===== *)
(** Staff accounts: the organisations, their people, roles, invitations, sessions
    and reset links (prisma/schema.prisma), and the cryptography the sign-in code
    calls. A tenant-scoped table keeps the rows of every tenant; a transaction of
    a tenant ([withTenant]) sees the rows of that tenant only, as row-level
    security has it. *)
From S2P Require Import Prelude Transactions Json Authority Totp.
Local Open Scope Z_scope.

Inductive TenantStatus := trial | active | suspended | cancelled.
#[global] Instance TenantStatus_eq_dec : EqDecision TenantStatus.
Proof. solve_decision. Defined.

(** An organisation. *)
Module Tenant.
Record t := {
  id : string;
  subdomain : string;
  groupName : string;
  status : TenantStatus;
  country : option string;
  isDemo : bool;
  demoExpiresAt : option Z;
}.
End Tenant.

(** Which organisation an address belongs to. *)
Module UserEmailIndex.
Record t := {
  email : string;
  tenantId : string;
  userId : string;
}.
End UserEmailIndex.

(** A member of staff: the account, and its second factor. *)
Module User.
Record t := {
  id : string;
  tenantId : string;
  email : string;
  passwordHash : option string;
  name : string;
  phone : option string;
  emailVerified : bool;
  lastLoginAt : option Z;
  deletedAt : option Z;
  mfaSecret : option string;
  mfaEnabledAt : option Z;
  mfaLastUsedStep : option Z;
  mfaFailedAttempts : Z;
  mfaLockedUntil : option Z;
  mfaRecoveryCodes : list string;
}.
Definition with_verified (v_emailVerified : bool) (x : t) : t := {| id := id x; tenantId := tenantId x; email := email
     x; passwordHash := passwordHash x; name := name x; phone := phone x; emailVerified := v_emailVerified;
     lastLoginAt := lastLoginAt x; deletedAt := deletedAt x; mfaSecret := mfaSecret x; mfaEnabledAt := mfaEnabledAt x;
     mfaLastUsedStep := mfaLastUsedStep x; mfaFailedAttempts := mfaFailedAttempts x; mfaLockedUntil := mfaLockedUntil
     x; mfaRecoveryCodes := mfaRecoveryCodes x |}.
Definition with_login (v_lastLoginAt : option Z) (x : t) : t := {| id := id x; tenantId := tenantId x; email := email
     x; passwordHash := passwordHash x; name := name x; phone := phone x; emailVerified := emailVerified x;
     lastLoginAt := v_lastLoginAt; deletedAt := deletedAt x; mfaSecret := mfaSecret x; mfaEnabledAt := mfaEnabledAt x;
     mfaLastUsedStep := mfaLastUsedStep x; mfaFailedAttempts := mfaFailedAttempts x; mfaLockedUntil := mfaLockedUntil
     x; mfaRecoveryCodes := mfaRecoveryCodes x |}.
Definition with_password (v_passwordHash : option string) (x : t) : t := {| id := id x; tenantId := tenantId x; email
     := email x; passwordHash := v_passwordHash; name := name x; phone := phone x; emailVerified := emailVerified x;
     lastLoginAt := lastLoginAt x; deletedAt := deletedAt x; mfaSecret := mfaSecret x; mfaEnabledAt := mfaEnabledAt x;
     mfaLastUsedStep := mfaLastUsedStep x; mfaFailedAttempts := mfaFailedAttempts x; mfaLockedUntil := mfaLockedUntil
     x; mfaRecoveryCodes := mfaRecoveryCodes x |}.
Definition with_deletedAt (v_deletedAt : option Z) (x : t) : t := {| id := id x; tenantId := tenantId x; email :=
     email x; passwordHash := passwordHash x; name := name x; phone := phone x; emailVerified := emailVerified x;
     lastLoginAt := lastLoginAt x; deletedAt := v_deletedAt; mfaSecret := mfaSecret x; mfaEnabledAt := mfaEnabledAt x;
     mfaLastUsedStep := mfaLastUsedStep x; mfaFailedAttempts := mfaFailedAttempts x; mfaLockedUntil := mfaLockedUntil
     x; mfaRecoveryCodes := mfaRecoveryCodes x |}.
Definition with_mfa (v_mfaSecret : option string) (v_mfaEnabledAt : option Z) (v_mfaLastUsedStep : option Z)
     (v_mfaFailedAttempts : Z) (v_mfaLockedUntil : option Z) (v_mfaRecoveryCodes : list string) (x : t) : t := {| id
     := id x; tenantId := tenantId x; email := email x; passwordHash := passwordHash x; name := name x; phone := phone
     x; emailVerified := emailVerified x; lastLoginAt := lastLoginAt x; deletedAt := deletedAt x; mfaSecret :=
     v_mfaSecret; mfaEnabledAt := v_mfaEnabledAt; mfaLastUsedStep := v_mfaLastUsedStep; mfaFailedAttempts :=
     v_mfaFailedAttempts; mfaLockedUntil := v_mfaLockedUntil; mfaRecoveryCodes := v_mfaRecoveryCodes |}.
End User.

(** A role of the organisation. *)
Module Role.
Record t := {
  id : string;
  tenantId : string;
  name : string;
  isSystem : bool;
  permissions : option json;
}.
Definition with_scope (v_name : string) (v_permissions : option json) (x : t) : t := {| id := id x; tenantId :=
     tenantId x; name := v_name; isSystem := isSystem x; permissions := v_permissions |}.
End Role.

(** Who holds which role where; no branch is every branch. *)
Module UserBranchRole.
Record t := {
  id : string;
  tenantId : string;
  userId : string;
  roleId : string;
  branchId : option string;
  assignedBy : option string;
}.
End UserBranchRole.

(** An invitation. *)
Module InviteToken.
Record t := {
  id : string;
  tenantId : string;
  email : string;
  token : string;
  roleId : string;
  branchId : option string;
  invitedBy : option string;
  createdAt : Z;
  expiresAt : Z;
  acceptedAt : option Z;
}.
Definition with_accepted (v_acceptedAt : option Z) (x : t) : t := {| id := id x; tenantId := tenantId x; email :=
     email x; token := token x; roleId := roleId x; branchId := branchId x; invitedBy := invitedBy x; createdAt :=
     createdAt x; expiresAt := expiresAt x; acceptedAt := v_acceptedAt |}.
End InviteToken.

(** A session: the hash of the token that renews it. *)
Module RefreshToken.
Record t := {
  id : string;
  tenantId : string;
  userId : string;
  tokenHash : string;
  sessionId : option string;
  expiresAt : Z;
  revokedAt : option Z;
}.
Definition with_revoked (v_revokedAt : option Z) (x : t) : t := {| id := id x; tenantId := tenantId x; userId :=
     userId x; tokenHash := tokenHash x; sessionId := sessionId x; expiresAt := expiresAt x; revokedAt := v_revokedAt
     |}.
End RefreshToken.

(** A reset link: the hash of its secret. *)
Module PasswordResetToken.
Record t := {
  id : string;
  tenantId : string;
  userId : string;
  tokenHash : string;
  expiresAt : Z;
  usedAt : option Z;
  createdBy : option string;
  createdAt : Z;
}.
Definition with_used (v_usedAt : option Z) (x : t) : t := {| id := id x; tenantId := tenantId x; userId := userId x;
     tokenHash := tokenHash x; expiresAt := expiresAt x; usedAt := v_usedAt; createdBy := createdBy x; createdAt :=
     createdAt x |}.
End PasswordResetToken.

(** An entry of the audit log. *)
Module AuditLog.
Record t := {
  tenantId : string;
  branchId : option string;
  userId : option string;
  action : string;
  entityType : string;
  entityId : option string;
}.
End AuditLog.

(** A hotel of the organisation. *)
Module Branch.
Record t := {
  id : string;
  tenantId : string;
  name : string;
  deletedAt : option Z;
}.
End Branch.

(** A point of sale at a hotel. *)
Module Outlet.
Record t := {
  id : string;
  tenantId : string;
  branchId : string;
}.
End Outlet.

(** The outlets someone works at. *)
Module UserOutlet.
Record t := {
  tenantId : string;
  userId : string;
  outletId : string;
  branchId : string;
  assignedBy : option string;
}.
End UserOutlet.

(** What the server remembers of an open account: until when, and the roles it holds. *)
Module OpenAccount.
Record t := { until : Z; tenantId : string; roles : list HeldRole }.
End OpenAccount.

(** The tables, the clock, the counter random values come from, and the answers the server remembers. *)
Record Accounts := {
  clock : Z;
  random : nat;
  tenants : list Tenant.t;
  userEmailIndex : list UserEmailIndex.t;
  users : list User.t;
  roleTable : list Role.t;
  userBranchRoles : list UserBranchRole.t;
  inviteTokens : list InviteToken.t;
  refreshTokens : list RefreshToken.t;
  passwordResetTokens : list PasswordResetToken.t;
  branches : list Branch.t;
  outlets : list Outlet.t;
  userOutlets : list UserOutlet.t;
  auditLogs : list AuditLog.t;
  openAccounts : gmap string OpenAccount.t;
}.
Definition upd_clock (g : Z -> Z) (a : Accounts) : Accounts := {| clock := g (clock a); random := random a; tenants :=
     tenants a; userEmailIndex := userEmailIndex a; users := users a; roleTable := roleTable a; userBranchRoles :=
     userBranchRoles a; inviteTokens := inviteTokens a; refreshTokens := refreshTokens a; passwordResetTokens :=
     passwordResetTokens a; branches := branches a; outlets := outlets a; userOutlets := userOutlets a; auditLogs :=
     auditLogs a; openAccounts := openAccounts a |}.
Definition upd_random (g : nat -> nat) (a : Accounts) : Accounts := {| clock := clock a; random := g (random a);
     tenants := tenants a; userEmailIndex := userEmailIndex a; users := users a; roleTable := roleTable a;
     userBranchRoles := userBranchRoles a; inviteTokens := inviteTokens a; refreshTokens := refreshTokens a;
     passwordResetTokens := passwordResetTokens a; branches := branches a; outlets := outlets a; userOutlets :=
     userOutlets a; auditLogs := auditLogs a; openAccounts := openAccounts a |}.
Definition upd_tenants (g : list Tenant.t -> list Tenant.t) (a : Accounts) : Accounts := {| clock := clock a; random
     := random a; tenants := g (tenants a); userEmailIndex := userEmailIndex a; users := users a; roleTable :=
     roleTable a; userBranchRoles := userBranchRoles a; inviteTokens := inviteTokens a; refreshTokens := refreshTokens
     a; passwordResetTokens := passwordResetTokens a; branches := branches a; outlets := outlets a; userOutlets :=
     userOutlets a; auditLogs := auditLogs a; openAccounts := openAccounts a |}.
Definition upd_userEmailIndex (g : list UserEmailIndex.t -> list UserEmailIndex.t) (a : Accounts) : Accounts := {|
     clock := clock a; random := random a; tenants := tenants a; userEmailIndex := g (userEmailIndex a); users :=
     users a; roleTable := roleTable a; userBranchRoles := userBranchRoles a; inviteTokens := inviteTokens a;
     refreshTokens := refreshTokens a; passwordResetTokens := passwordResetTokens a; branches := branches a; outlets
     := outlets a; userOutlets := userOutlets a; auditLogs := auditLogs a; openAccounts := openAccounts a |}.
Definition upd_users (g : list User.t -> list User.t) (a : Accounts) : Accounts := {| clock := clock a; random :=
     random a; tenants := tenants a; userEmailIndex := userEmailIndex a; users := g (users a); roleTable := roleTable
     a; userBranchRoles := userBranchRoles a; inviteTokens := inviteTokens a; refreshTokens := refreshTokens a;
     passwordResetTokens := passwordResetTokens a; branches := branches a; outlets := outlets a; userOutlets :=
     userOutlets a; auditLogs := auditLogs a; openAccounts := openAccounts a |}.
Definition upd_roleTable (g : list Role.t -> list Role.t) (a : Accounts) : Accounts := {| clock := clock a; random :=
     random a; tenants := tenants a; userEmailIndex := userEmailIndex a; users := users a; roleTable := g (roleTable
     a); userBranchRoles := userBranchRoles a; inviteTokens := inviteTokens a; refreshTokens := refreshTokens a;
     passwordResetTokens := passwordResetTokens a; branches := branches a; outlets := outlets a; userOutlets :=
     userOutlets a; auditLogs := auditLogs a; openAccounts := openAccounts a |}.
Definition upd_userBranchRoles (g : list UserBranchRole.t -> list UserBranchRole.t) (a : Accounts) : Accounts := {|
     clock := clock a; random := random a; tenants := tenants a; userEmailIndex := userEmailIndex a; users := users a;
     roleTable := roleTable a; userBranchRoles := g (userBranchRoles a); inviteTokens := inviteTokens a; refreshTokens
     := refreshTokens a; passwordResetTokens := passwordResetTokens a; branches := branches a; outlets := outlets a;
     userOutlets := userOutlets a; auditLogs := auditLogs a; openAccounts := openAccounts a |}.
Definition upd_inviteTokens (g : list InviteToken.t -> list InviteToken.t) (a : Accounts) : Accounts := {| clock :=
     clock a; random := random a; tenants := tenants a; userEmailIndex := userEmailIndex a; users := users a;
     roleTable := roleTable a; userBranchRoles := userBranchRoles a; inviteTokens := g (inviteTokens a); refreshTokens
     := refreshTokens a; passwordResetTokens := passwordResetTokens a; branches := branches a; outlets := outlets a;
     userOutlets := userOutlets a; auditLogs := auditLogs a; openAccounts := openAccounts a |}.
Definition upd_refreshTokens (g : list RefreshToken.t -> list RefreshToken.t) (a : Accounts) : Accounts := {| clock :=
     clock a; random := random a; tenants := tenants a; userEmailIndex := userEmailIndex a; users := users a;
     roleTable := roleTable a; userBranchRoles := userBranchRoles a; inviteTokens := inviteTokens a; refreshTokens :=
     g (refreshTokens a); passwordResetTokens := passwordResetTokens a; branches := branches a; outlets := outlets a;
     userOutlets := userOutlets a; auditLogs := auditLogs a; openAccounts := openAccounts a |}.
Definition upd_passwordResetTokens (g : list PasswordResetToken.t -> list PasswordResetToken.t) (a : Accounts) :
     Accounts := {| clock := clock a; random := random a; tenants := tenants a; userEmailIndex := userEmailIndex a;
     users := users a; roleTable := roleTable a; userBranchRoles := userBranchRoles a; inviteTokens := inviteTokens a;
     refreshTokens := refreshTokens a; passwordResetTokens := g (passwordResetTokens a); branches := branches a;
     outlets := outlets a; userOutlets := userOutlets a; auditLogs := auditLogs a; openAccounts := openAccounts a |}.
Definition upd_branches (g : list Branch.t -> list Branch.t) (a : Accounts) : Accounts := {| clock := clock a; random
     := random a; tenants := tenants a; userEmailIndex := userEmailIndex a; users := users a; roleTable := roleTable
     a; userBranchRoles := userBranchRoles a; inviteTokens := inviteTokens a; refreshTokens := refreshTokens a;
     passwordResetTokens := passwordResetTokens a; branches := g (branches a); outlets := outlets a; userOutlets :=
     userOutlets a; auditLogs := auditLogs a; openAccounts := openAccounts a |}.
Definition upd_outlets (g : list Outlet.t -> list Outlet.t) (a : Accounts) : Accounts := {| clock := clock a; random
     := random a; tenants := tenants a; userEmailIndex := userEmailIndex a; users := users a; roleTable := roleTable
     a; userBranchRoles := userBranchRoles a; inviteTokens := inviteTokens a; refreshTokens := refreshTokens a;
     passwordResetTokens := passwordResetTokens a; branches := branches a; outlets := g (outlets a); userOutlets :=
     userOutlets a; auditLogs := auditLogs a; openAccounts := openAccounts a |}.
Definition upd_userOutlets (g : list UserOutlet.t -> list UserOutlet.t) (a : Accounts) : Accounts := {| clock := clock
     a; random := random a; tenants := tenants a; userEmailIndex := userEmailIndex a; users := users a; roleTable :=
     roleTable a; userBranchRoles := userBranchRoles a; inviteTokens := inviteTokens a; refreshTokens := refreshTokens
     a; passwordResetTokens := passwordResetTokens a; branches := branches a; outlets := outlets a; userOutlets := g
     (userOutlets a); auditLogs := auditLogs a; openAccounts := openAccounts a |}.
Definition upd_auditLogs (g : list AuditLog.t -> list AuditLog.t) (a : Accounts) : Accounts := {| clock := clock a;
     random := random a; tenants := tenants a; userEmailIndex := userEmailIndex a; users := users a; roleTable :=
     roleTable a; userBranchRoles := userBranchRoles a; inviteTokens := inviteTokens a; refreshTokens := refreshTokens
     a; passwordResetTokens := passwordResetTokens a; branches := branches a; outlets := outlets a; userOutlets :=
     userOutlets a; auditLogs := g (auditLogs a); openAccounts := openAccounts a |}.
Definition upd_openAccounts (g : gmap string OpenAccount.t -> gmap string OpenAccount.t) (a : Accounts) : Accounts :=
     {| clock := clock a; random := random a; tenants := tenants a; userEmailIndex := userEmailIndex a; users := users
     a; roleTable := roleTable a; userBranchRoles := userBranchRoles a; inviteTokens := inviteTokens a; refreshTokens
     := refreshTokens a; passwordResetTokens := passwordResetTokens a; branches := branches a; outlets := outlets a;
     userOutlets := userOutlets a; auditLogs := auditLogs a; openAccounts := g (openAccounts a) |}.

(** ** Transactions and requests *)
Abbreviation M := (Tx Accounts).
Definition now : M Z := gets clock.
(** A request is one transaction after another: each commits or is rolled back, and what was committed stays when a later one throws. *)
Definition Req (A : Type) : Type := Accounts -> Accounts * res A.
Definition commit {A} (m : M A) : Req A := fun a => match m a with Ok (a', x) => (a', Ok x) | Err e => (a, Err e) end.
Definition stop {A} (e : error) : Req A := fun a => (a, Err e).
Definition done_with {A} (x : A) : Req A := fun a => (a, Ok x).
Definition and_then {A B} (m : Req A) (k : A -> Req B) : Req B := fun a => match m a with (a', Ok x) => k x a' | (a', Err e) => (a', Err e) end.

(** ** What the platform provides *)
(** The claims of a signed token. *)
Inductive Claims :=
| access_claims (user tenantId email : string) (roles : list HeldRole) (exp : Z)
| refresh_claims (user tenantId jti : string) (exp : Z)
| mfa_challenge_claims (user tenantId : string) (exp : Z)
| email_verify_claims (user tenantId : string) (exp : Z).
Definition claims_exp (c : Claims) : Z :=
  match c with access_claims _ _ _ _ exp | refresh_claims _ _ _ exp | mfa_challenge_claims _ _ exp | email_verify_claims _ _ exp => exp end.
Inductive Secret := access_secret | refresh_secret.
Class Crypto := {
  (** [randomUUID()], [gen_random_uuid()], [randomBytes(n).toString('hex')]: never the same value twice *)
  fresh : nat -> string;
  fresh_inj :: Inj (=) (=) fresh;
  random_bytes : nat -> list Z;
  random_positions : nat -> list (list Z);
  (** bcrypt with a salt *)
  bcrypt_hash : string -> nat -> string;
  bcrypt_compare : string -> string -> bool;
  bcrypt_right password salt : bcrypt_compare password (bcrypt_hash password salt) = true;
  (** SHA-256, taken to be free of collisions *)
  sha256 : string -> string;
  sha256_inj :: Inj (=) (=) sha256;
  hmac_sha1 : list Z -> list Z -> list Z;
  (** AES-256-GCM under the application's key *)
  encrypt : string -> string;
  decrypt : string -> string;
  decrypt_encrypt s : decrypt (encrypt s) = s;
  (** signing, and reading back what the signature proves *)
  jwt_sign : Secret -> Claims -> string;
  jwt_claims : Secret -> string -> option Claims;
  jwt_read k c : jwt_claims k (jwt_sign k c) = Some c;
}.
(** The settings the server runs with, its mail transport and the web app's address. *)
Class Server := {
  JWT_ACCESS_TTL : Z;
  JWT_REFRESH_TTL : Z;
  mail_delivers : bool;
  mail_sent : string -> bool;
  webUrl : string -> string;
}.

(** ** What every service does *)
(** Row-level security: the rows of the tenant the transaction runs for. *)
Definition mine (t : string) (row_tenant : string) : bool := bool_decide (row_tenant = t).
Lemma mine_true t x : mine t x = true <-> x = t.
Proof. apply bool_decide_eq_true. Qed.
#[export] Hint Rewrite mine_true : boolprop.
Definition audit_at (t : string) (b u : option string) (action entityType : string) (entityId : option string) : M unit :=
  modify (upd_auditLogs (fun l => l ++ [{| AuditLog.tenantId := t; AuditLog.branchId := b; AuditLog.userId := u; AuditLog.action := action; AuditLog.entityType := entityType; AuditLog.entityId := entityId |}])).
Definition audit (t : string) (u : option string) (action entityType : string) (entityId : option string) : M unit := audit_at t None u action entityType entityId.
Section Services.
Context `{Crypto}.
Definition new_value : M string := let! n := gets random in do! modify (upd_random S) in ret (fresh n).
Definition new_salt : M nat := let! n := gets random in do! modify (upd_random S) in ret n.
(** [jwt.verifyAsync(token, { secret })]: the signature, then the expiry *)
Definition jwt_verify (k : Secret) (token : string) (at_ : Z) : option Claims :=
  c ← jwt_claims k token; if at_ / 1000 <? claims_exp c then Some c else None.
(** [jwt.signAsync(payload, { secret, expiresIn })]: a lifetime in seconds from now *)
Definition exp_in (seconds at_ : Z) : Z := at_ / 1000 + seconds.
End Services.

(** Someone signed in: their organisation and the token's payload. *)
Record Actor := { actor_tenant : string; who : JwtPayload }.

Definition find_user (t : string) (where_ : User.t -> bool) : M (option User.t) := findFirst users (fun u => mine t (User.tenantId u) && where_ u).
Definition not_deleted (u : User.t) : bool := isNone (User.deletedAt u).
Definition active_user (t userId : string) : M (option User.t) := find_user t (fun u => bool_decide (User.id u = userId) && not_deleted u).
Definition update_user (t userId : string) (data : User.t -> User.t) : M unit :=
  modify (upd_users (update_where (fun u => mine t (User.tenantId u) && bool_decide (User.id u = userId)) data)).
(** [include: { role: { select: { name: true } } }] on an assignment *)
Definition role_name (a : Accounts) (t roleId : string) : string :=
  default "" (Role.name <$> List.find (fun r => mine t (Role.tenantId r) && bool_decide (Role.id r = roleId)) (roleTable a)).
(** The roles someone holds, at every branch. *)
Definition held_roles (a : Accounts) (t userId : string) : list HeldRole :=
  (fun r => {| branchId := UserBranchRole.branchId r; role := role_name a t (UserBranchRole.roleId r) |})
  <$> List.filter (fun r => mine t (UserBranchRole.tenantId r) && bool_decide (UserBranchRole.userId r = userId)) (userBranchRoles a).
