(* ===== verification/SecondFactor.v ===== *)
(** Two-step sign-in (src/src/modules/auth/mfa.service.ts): setting it up, turning
    it off, the check of a code with its lock, and the bound on guessing. *)
From S2P Require Import Prelude Transactions Json Authority Totp Accounts.
Local Open Scope Z_scope.

Definition MFA_MAX_FAILED_ATTEMPTS : Z := 5.
Definition MFA_LOCK_MINUTES : Z := 15.
Record MfaStatus := { enabled : bool; enabledAt : option Z; pendingSetup : bool; recoveryCodesLeft : Z }.
Inductive method := by_totp | by_recovery.
Inductive SecondFactorResult :=
| passed (m : method) (codesLeft : Z)
| failed (lockedUntil : option Z) (attemptsLeft : Z).

Definition user_not_found : error := Throw NotFoundException NOT_FOUND.
Definition loadUser (t userId : string) : M User.t := orThrow (active_user t userId) user_not_found.
Definition toStatus (u : User.t) : MfaStatus :=
  {| enabled := isSome (User.mfaEnabledAt u); enabledAt := User.mfaEnabledAt u; pendingSetup := isNone (User.mfaEnabledAt u) && isSome (User.mfaSecret u);
     recoveryCodesLeft := if isSome (User.mfaEnabledAt u) then Z.of_nat (length (User.mfaRecoveryCodes u)) else 0 |}.
Definition clearedMfa : User.t -> User.t := User.with_mfa None None None 0 None [].
Definition status (t userId : string) : M MfaStatus := let! u := loadUser t userId in ret (toStatus u).

(** The second factor's columns an update sets, the rest as they are. *)
Definition start_setup (secret : string) (u : User.t) : User.t := User.with_mfa (Some secret) (User.mfaEnabledAt u) None 0 None (User.mfaRecoveryCodes u) u.
Definition switch_on (at_ step : Z) (codes : list string) (u : User.t) : User.t := User.with_mfa (User.mfaSecret u) (Some at_) (Some step) 0 None codes u.
Definition claim_step (step : Z) (u : User.t) : User.t := User.with_mfa (User.mfaSecret u) (User.mfaEnabledAt u) (Some step) 0 None (User.mfaRecoveryCodes u) u.
Definition with_codes (codes : list string) (u : User.t) : User.t := User.with_mfa (User.mfaSecret u) (User.mfaEnabledAt u) (User.mfaLastUsedStep u) (User.mfaFailedAttempts u) (User.mfaLockedUntil u) codes u.
Definition spend_code (hash : string) (u : User.t) : User.t :=
  User.with_mfa (User.mfaSecret u) (User.mfaEnabledAt u) (User.mfaLastUsedStep u) 0 None (List.filter (fun h => negb (bool_decide (h = hash))) (User.mfaRecoveryCodes u)) u.
Definition record_failure (failures : Z) (lockedUntil : option Z) (u : User.t) : User.t :=
  match lockedUntil with
  | Some l => User.with_mfa (User.mfaSecret u) (User.mfaEnabledAt u) (User.mfaLastUsedStep u) 0 (Some l) (User.mfaRecoveryCodes u) u
  | None => User.with_mfa (User.mfaSecret u) (User.mfaEnabledAt u) (User.mfaLastUsedStep u) failures (User.mfaLockedUntil u) (User.mfaRecoveryCodes u) u
  end.
(** [updateMany({ where, data })] on people, and how many rows it changed *)
Definition update_users_where (t : string) (where_ : User.t -> bool) (data : User.t -> User.t) : M Z :=
  let! hit := findMany users (fun u => mine t (User.tenantId u) && where_ u) in
  do! modify (upd_users (update_where (fun u => mine t (User.tenantId u) && where_ u) data)) in
  ret (Z.of_nat (length hit)).

Section SecondFactor.
Context `{Crypto}.

Definition generateSecret : M string := let! n := new_salt in ret (base32Encode (random_bytes n)).
(** The secret to show, and the address its label in the app carries. *)
Definition beginSetup (t userId : string) : M (string * string) :=
  let! u := loadUser t userId in
  throw! Throw ConflictException CONFLICT when isSome (User.mfaEnabledAt u) in
  let! secret := generateSecret in
  do! update_user t userId (start_setup (encrypt secret)) in
  ret (secret, User.email u).
Definition enable (t userId code : string) : M (list string * MfaStatus) :=
  let! u := loadUser t userId in
  throw! Throw ConflictException CONFLICT when isSome (User.mfaEnabledAt u) in
  let! secret := lift (or_throw (User.mfaSecret u) (Throw BadRequestException VALIDATION_FAILED)) in
  let! at_ := now in
  let! found := lift (verifyTotp hmac_sha1 (decrypt secret) code at_ None) in
  let! step := lift (or_throw found (Throw UnauthorizedException MFA_INVALID_CODE)) in
  let! n := new_salt in
  let codes := generateRecoveryCodes (random_positions n) in
  let data := switch_on at_ step (hashRecoveryCode sha256 <$> codes) in
  do! update_user t userId data in
  do! audit t (Some userId) "auth.mfa_enabled" "user" (Some userId) in
  ret (codes, toStatus (data u)).

(** The code, the right kind of it, is spent in the same update that finds it unspent. *)
Definition accept_code (t : string) (u : User.t) (code : string) (now_ : Z) : M (option SecondFactorResult) :=
  let trimmed := js_trim code in
  if is_six_digits (no_spaces trimmed) then
    let! secret := lift (or_throw (User.mfaSecret u) (Throw InternalServerError INTERNAL)) in
    let! found := lift (verifyTotp hmac_sha1 (decrypt secret) trimmed now_ (User.mfaLastUsedStep u)) in
    match found with
    | None => ret None
    | Some step =>
        let! claimed := update_users_where t (fun x => bool_decide (User.id x = User.id u) && match User.mfaLastUsedStep x with None => true | Some l => l <? step end) (claim_step step) in
        ret (if claimed =? 1 then Some (passed by_totp (Z.of_nat (length (User.mfaRecoveryCodes u)))) else None)
    end
  else if looksLikeRecoveryCode trimmed then
    let hash := hashRecoveryCode sha256 trimmed in
    let! spent := update_users_where t (fun x => bool_decide (User.id x = User.id u) && bool_decide (hash ∈ User.mfaRecoveryCodes x)) (spend_code hash) in
    if spent =? 1 then
      do! audit t (Some (User.id u)) "auth.mfa_recovery_code_used" "user" (Some (User.id u)) in
      ret (Some (passed by_recovery (Z.of_nat (length (User.mfaRecoveryCodes u)) - 1)))
    else ret None
  else ret None.
Definition checkSecondFactor (t userId code : string) : M SecondFactorResult :=
  let! now_ := now in
  let! u := loadUser t userId in
  if isNone (User.mfaEnabledAt u) || isNone (User.mfaSecret u) then ret (failed None 0)
  else if match User.mfaLockedUntil u with Some l => now_ <? l | None => false end then ret (failed (User.mfaLockedUntil u) 0)
  else
    let! accepted := accept_code t u code now_ in
    match accepted with
    | Some r => ret r
    | None =>
        let failures := User.mfaFailedAttempts u + 1 in
        let lockedUntil := if MFA_MAX_FAILED_ATTEMPTS <=? failures then Some (now_ + MFA_LOCK_MINUTES * 60000) else None in
        do! update_user t userId (record_failure failures lockedUntil) in
        do! audit t (Some userId) (if isSome lockedUntil then "auth.mfa_locked" else "auth.mfa_failed") "user" (Some userId) in
        ret (failed lockedUntil (if isSome lockedUntil then 0 else MFA_MAX_FAILED_ATTEMPTS - failures))
    end.
Definition failureFor (lockedUntil : option Z) : error :=
  if isSome lockedUntil then Throw TooManyRequests MFA_LOCKED else Throw UnauthorizedException MFA_INVALID_CODE.
(** The check's own transaction commits before its outcome is thrown. *)
Definition requireSecondFactor (t userId code : string) : Req (method * Z) :=
  and_then (commit (checkSecondFactor t userId code)) (fun r => match r with passed m n => done_with (m, n) | failed l _ => stop (failureFor l) end).
Definition assertPassword (t userId password : string) : M unit :=
  let! u := loadUser t userId in
  throw! Throw UnauthorizedException INVALID_CREDENTIALS when negb (match User.passwordHash u with Some h => bcrypt_compare password h | None => false end) in
  ret tt.
(** [tx.user.update({ where: { id } })]: throws when the row is gone. *)
Definition updated_user (t userId : string) (data : User.t -> User.t) : M User.t :=
  let! u := orThrow (find_user t (fun u => bool_decide (User.id u = userId))) (Throw InternalServerError INTERNAL) in
  do! update_user t userId data in
  ret (data u).
Definition disable (t userId password code : string) : Req MfaStatus :=
  and_then (commit (assertPassword t userId password)) (fun _ =>
  and_then (requireSecondFactor t userId code) (fun _ =>
  commit (let! u := updated_user t userId clearedMfa in
          do! audit t (Some userId) "auth.mfa_disabled" "user" (Some userId) in
          ret (toStatus u)))).
Definition regenerateRecoveryCodes (t userId code : string) : Req (list string * MfaStatus) :=
  and_then (requireSecondFactor t userId code) (fun _ =>
  commit (let! n := new_salt in
          let codes := generateRecoveryCodes (random_positions n) in
          let! u := updated_user t userId (with_codes (hashRecoveryCode sha256 <$> codes)) in
          do! audit t (Some userId) "auth.mfa_recovery_codes_regenerated" "user" (Some userId) in
          ret (codes, toStatus u))).
Definition resetForUser (actor : Actor) (target : string) : M unit :=
  let t := actor_tenant actor in
  throw! Throw ForbiddenException FORBIDDEN when negb (existsb (fun r => bool_decide (role r = "owner")) (roles (who actor))) in
  throw! Throw BadRequestException VALIDATION_FAILED when bool_decide (sub (who actor) = target) in
  let! u := orThrow (find_user t (fun u => bool_decide (User.id u = target))) user_not_found in
  if isNone (User.mfaEnabledAt u) && isNone (User.mfaSecret u) then ret tt
  else
    do! update_user t target clearedMfa in
    audit t (Some (sub (who actor))) "auth.mfa_reset" "user" (Some target).
End SecondFactor.
