(* ===== verification/SignIn.v ===== *)
(** Sign-up, sign-in, sessions, invitations and roles
    (src/src/modules/auth/auth.service.ts). *)
From Stdlib Require Import Ascii.
From S2P Require Import Prelude Transactions Json Authority Totp Accounts SecondFactor.
Import StaffAuthority Permissions.
Local Open Scope Z_scope.

Definition SYSTEM_ROLE_NAMES : list string := ["owner"; "manager"; "front_desk"; "housekeeper"; "accountant"; "pos_staff"].
Definition DUMMY_HASH : string := "$2b$12$C6UzMDM.H6dfI/f/IKcEeO7ZBpDLhAuxrTNqtC1sTEIOhKkBUeRlq".
Definition MFA_CHALLENGE_SECONDS : Z := 300.
Definition SESSION_ENDED : error := Throw UnauthorizedException TOKEN_INVALID.
Definition bad_credentials : error := Throw UnauthorizedException INVALID_CREDENTIALS.
Definition invite_invalid : error := Throw BadRequestException INVITE_INVALID.
Definition email_taken : error := Throw ConflictException EMAIL_TAKEN.

(** [isTenantOpen(status)] *)
Definition OPEN_TENANT_STATUSES : list TenantStatus := [trial; active].
Definition isTenantOpen (s : option TenantStatus) : bool := match s with Some s => bool_decide (s ∈ OPEN_TENANT_STATUSES) | None => false end.
Definition tenant_of (a : Accounts) (t : string) : option Tenant.t := List.find (fun x => bool_decide (Tenant.id x = t)) (tenants a).
Definition assertTenantOpen (t : string) : M unit :=
  let! o := gets (fun a => tenant_of a t) in
  throw! Throw ForbiddenException TENANT_SUSPENDED when negb (isTenantOpen (Tenant.status <$> o)) in ret tt.

(** ** Texts *)
Definition in_range (lo hi : Z) (c : Ascii.ascii) : bool := let n := Z.of_nat (Ascii.nat_of_ascii c) in (lo <=? n) && (n <=? hi).
Definition is_lower_ (c : Ascii.ascii) : bool := in_range 97 122 c.
Definition is_upper_ (c : Ascii.ascii) : bool := in_range 65 90 c.
Definition is_digit_ (c : Ascii.ascii) : bool := in_range 48 57 c.
Definition is_hex (c : Ascii.ascii) : bool := is_digit_ c || in_range 97 102 c || in_range 65 70 c.
Definition no_line_break (c : Ascii.ascii) : bool := negb (in_range 10 10 c || in_range 13 13 c).
(** [/^(?=.*[a-z])(?=.*[A-Z])(?=.*\d).{8,}$/]: no [.] crosses a line break *)
Definition STRONG_PASSWORD (s : string) : bool :=
  let l := String.list_ascii_of_string s in
  existsb is_lower_ l && existsb is_upper_ l && existsb is_digit_ l && (8 <=? length l)%nat && forallb no_line_break l.
(** [/^[0-9a-f]{8}-[0-9a-f]{4}-[0-9a-f]{4}-[0-9a-f]{4}-[0-9a-f]{12}$/i] *)
Definition is_dash (c : Ascii.ascii) : bool := bool_decide (c = "-"%char).
Definition uuid_pattern : list (Ascii.ascii -> bool) :=
  let hex n := List.repeat is_hex n in
  hex 8%nat ++ [is_dash] ++ hex 4%nat ++ [is_dash] ++ hex 4%nat ++ [is_dash] ++ hex 4%nat ++ [is_dash] ++ hex 12%nat.
Fixpoint matches (pattern : list (Ascii.ascii -> bool)) (s : string) : bool :=
  match pattern, s with
  | [], EmptyString => true
  | p :: pattern, String c s => p c && matches pattern s
  | _, _ => false
  end.
Definition is_uuid (s : string) : bool := matches uuid_pattern s.
(** [s.slice(0, s.indexOf('.'))] and [s.slice(s.indexOf('.') + 1)] *)
Fixpoint split_dot (s : string) : option (string * string) :=
  match s with
  | EmptyString => None
  | String c s => if bool_decide (c = "."%char) then Some (EmptyString, s) else p ← split_dot s; Some (String c p.1, p.2)
  end.
(** A public link's token, [<tenantId>.<secret>]; nothing before the dot is no token. *)
Definition parse_link (e : error) (publicToken : string) : res (string * string) :=
  let '(t, secret) := match split_dot publicToken with Some (String c t, secret) => (String c t, secret) | _ => (EmptyString, EmptyString) end in
  throw e when negb (is_uuid t) || (String.length secret <? 32)%nat in Ok (t, secret).
Definition parseInviteToken : string -> res (string * string) := parse_link invite_invalid.

Record AuthenticatedUser := { auth_id : string; auth_tenantId : string; auth_email : string; auth_name : string; auth_roles : list HeldRole }.
Record LoginResult := { accessToken : string; refreshToken : string; login_user : AuthenticatedUser }.
Inductive LoginOutcome :=
| signed_in (r : LoginResult)
| mfa_challenge (challengeToken : string) (expiresInSeconds : Z).
Inductive InviteOutcome :=
| invite_signed_in (r : LoginResult)
| invite_joined (email : string).

Section SignIn.
Context `{Crypto} `{!Server}.

Definition hashToken (token : string) : string := sha256 token.

(** ** Sessions *)
Definition buildLoginResult (u : User.t) (held : list HeldRole) (sessionId : option string) : M LoginResult :=
  let! session := (match sessionId with Some s => ret s | None => new_value end) in
  let! at_ := now in
  let! jti := new_value in
  let exp := exp_in JWT_REFRESH_TTL at_ in
  let access := jwt_sign access_secret (access_claims (User.id u) (User.tenantId u) (User.email u) held (exp_in JWT_ACCESS_TTL at_)) in
  let refresh := jwt_sign refresh_secret (refresh_claims (User.id u) (User.tenantId u) jti exp) in
  let! rowId := new_value in
  do! modify (upd_refreshTokens (fun l => l ++ [{| RefreshToken.id := rowId; RefreshToken.tenantId := User.tenantId u; RefreshToken.userId := User.id u; RefreshToken.tokenHash := hashToken refresh;
        RefreshToken.sessionId := Some session; RefreshToken.expiresAt := exp * 1000; RefreshToken.revokedAt := None |}])) in
  ret {| accessToken := access; refreshToken := refresh;
         login_user := {| auth_id := User.id u; auth_tenantId := User.tenantId u; auth_email := User.email u; auth_name := User.name u; auth_roles := held |} |}.
Definition loadRolesClaim (t userId : string) : M (list HeldRole) := gets (fun a => held_roles a t userId).
Definition startSession (u : User.t) : M LoginResult :=
  let! held := loadRolesClaim (User.tenantId u) (User.id u) in
  buildLoginResult u held None.

(** What is common to the end of both kinds of sign-in. *)
Definition record_login (t : string) (u : User.t) : M LoginResult :=
  let! held := loadRolesClaim t (User.id u) in
  let! at_ := now in
  do! update_user t (User.id u) (User.with_login (Some at_)) in
  do! audit t (Some (User.id u)) "auth.login" "user" (Some (User.id u)) in
  buildLoginResult u held None.
Definition index_row (a : Accounts) (email : string) : option UserEmailIndex.t := List.find (fun i => bool_decide (UserEmailIndex.email i = email)) (userEmailIndex a).
Definition password_ok (password : string) (u : option User.t) : bool := bcrypt_compare password (default DUMMY_HASH (u ≫= User.passwordHash)).
Definition login (email password : string) : M LoginOutcome :=
  let! row := orThrow (gets (fun a => index_row a email)) bad_credentials in
  let t := UserEmailIndex.tenantId row in
  let! found := find_user t (fun u => bool_decide (User.email u = email) && not_deleted u) in
  let! u := lift (or_throw (if password_ok password found then found else None) bad_credentials) in
  throw! Throw ForbiddenException EMAIL_NOT_VERIFIED when negb (User.emailVerified u) in
  do! assertTenantOpen t in
  if isSome (User.mfaEnabledAt u) then
    do! audit t (Some (User.id u)) "auth.mfa_challenged" "user" (Some (User.id u)) in
    let! at_ := now in
    ret (mfa_challenge (jwt_sign refresh_secret (mfa_challenge_claims (User.id u) (User.tenantId u) (exp_in MFA_CHALLENGE_SECONDS at_))) MFA_CHALLENGE_SECONDS)
  else
    let! r := record_login t u in
    ret (signed_in r).

Definition took_too_long : error := Throw UnauthorizedException TOKEN_INVALID.
Definition verified_user (t userId : string) : M (option User.t) := find_user t (fun u => bool_decide (User.id u = userId) && not_deleted u && User.emailVerified u).
Definition verifyMfaLogin (challengeToken code : string) : Req (LoginResult * method * Z) := fun a =>
  match jwt_verify refresh_secret challengeToken (clock a) with
  | Some (mfa_challenge_claims userId t _) =>
      and_then (requireSecondFactor t userId code) (fun r =>
      commit (let! found := verified_user t userId in
              let! u := lift (or_throw (u ← found; if isSome (User.mfaEnabledAt u) then Some u else None) took_too_long) in
              do! assertTenantOpen t in
              let! session := record_login t u in
              ret (session, r.1, r.2))) a
  | _ => stop took_too_long a
  end.

Definition session_row (t token : string) : M (option RefreshToken.t) :=
  findFirst refreshTokens (fun r => mine t (RefreshToken.tenantId r) && bool_decide (RefreshToken.tokenHash r = hashToken token)).
(** [updateMany({ where, data: { revokedAt } })], and how many it ended *)
Definition revoke_where (t : string) (where_ : RefreshToken.t -> bool) : M Z :=
  let hit r := mine t (RefreshToken.tenantId r) && where_ r && isNone (RefreshToken.revokedAt r) in
  let! at_ := now in
  let! ended := findMany refreshTokens hit in
  do! modify (upd_refreshTokens (update_where hit (RefreshToken.with_revoked (Some at_)))) in
  ret (Z.of_nat (length ended)).
Definition renew (token t userId : string) : M LoginResult :=
  let! row := orThrow (session_row t token) SESSION_ENDED in
  let! at_ := now in
  throw! SESSION_ENDED when isSome (RefreshToken.revokedAt row) || (RefreshToken.expiresAt row <=? at_) || negb (bool_decide (RefreshToken.userId row = userId)) in
  let! retired := revoke_where t (fun r => bool_decide (RefreshToken.id r = RefreshToken.id row)) in
  throw! SESSION_ENDED when retired =? 0 in
  let! u := orThrow (verified_user t userId) SESSION_ENDED in
  do! assertTenantOpen t in
  let! held := loadRolesClaim t (User.id u) in
  buildLoginResult u held (Some (default (RefreshToken.id row) (RefreshToken.sessionId row))).
Definition refresh (token : string) : Req LoginResult := fun a =>
  match jwt_verify refresh_secret token (clock a) with
  | Some (refresh_claims userId t _ _) => commit (renew token t userId) a
  | _ => stop (Throw UnauthorizedException TOKEN_INVALID) a
  end.
Definition logout (token : string) : Req unit :=
  match jwt_claims refresh_secret token with
  | Some (refresh_claims userId t _ _) =>
      commit (let! found := session_row t token in
              match found with
              | None => ret tt
              | Some row =>
                  let! ended := revoke_where t (fun r => bool_decide (RefreshToken.id r = RefreshToken.id row) || match RefreshToken.sessionId row with Some s => bool_decide (RefreshToken.sessionId r = Some s) | None => false end) in
                  if 0 <? ended then audit t (Some userId) "auth.logout" "user" (Some userId) else ret tt
              end)
  | _ => done_with tt
  end.
Definition ended_before (cutoff : Z) (r : RefreshToken.t) : bool := (RefreshToken.expiresAt r <? cutoff) || match RefreshToken.revokedAt r with Some v => v <? cutoff | None => false end.
Definition prune_tenant (cutoff : Z) (t : string) : M Z :=
  let hit r := mine t (RefreshToken.tenantId r) && ended_before cutoff r in
  let! gone := findMany refreshTokens hit in
  do! modify (upd_refreshTokens (List.filter (fun r => negb (hit r)))) in
  ret (Z.of_nat (length gone)).
(** Each organisation in its own transaction. *)
Fixpoint prune_each (cutoff : Z) (pruned : Z) (ts : list Tenant.t) : Req Z :=
  match ts with
  | [] => done_with pruned
  | t :: ts => and_then (commit (prune_tenant cutoff (Tenant.id t))) (fun n => prune_each cutoff (pruned + n) ts)
  end.
Definition pruneEndedSessions : Req Z := fun a => prune_each (clock a - 7 * 86400000) 0 (tenants a) a.
End SignIn.
