(* ===== verification/Membership.v ===== *)
(** Joining an organisation: sign-up, the confirmation of an address, invitations,
    and the roles an organisation invents (src/src/modules/auth/auth.service.ts). *)
From Stdlib Require Import Ascii.
From S2P Require Import Prelude Transactions Json Authority Totp Accounts SecondFactor SignIn.
Import StaffAuthority Permissions.
Local Open Scope Z_scope.

(** ** Sign-up *)
Definition slug_char (c : ascii) : bool := is_lower_ c || is_digit_ c.
(** [.replace(/[^a-z0-9]+/g, '-')] *)
Fixpoint dashes (after_dash : bool) (s : string) : string :=
  match s with
  | EmptyString => EmptyString
  | String c s => if slug_char c then String c (dashes false s) else if after_dash then dashes true s else String "-" (dashes true s)
  end.
Fixpoint strip_start (s : string) : string :=
  match s with String c s' => if is_dash c then strip_start s' else s | EmptyString => EmptyString end.
(** [.replace(/^-+|-+$/g, '')] *)
Definition strip_dashes (s : string) : string := string_rev (strip_start (string_rev (strip_start s))).
Definition slugify (s : string) : string := strip_dashes (dashes false (js_trim (js_lower s))).
Definition subdomain_taken (a : Accounts) (s : string) : bool := existsb (fun t => bool_decide (Tenant.subdomain t = s)) (tenants a).

Record RegisterDto := { reg_email : string; reg_password : string; reg_name : string; reg_phone : option string; reg_groupName : string; reg_country : option string; reg_isDemo : option bool }.
Record Registered := { registered_tenant : string; registered_user : string; registered_subdomain : string; verificationToken_shown : option string; reg_emailed : bool }.
Definition DEMO_TENANT_TTL_DAYS : Z := 30.
Definition demoExpiryFromNow (now_ : Z) : Z := now_ + DEMO_TENANT_TTL_DAYS * 24 * 60 * 60 * 1000.
Definition EMAIL_LINK_SECONDS : Z := 72 * 3600.

Section Membership.
Context `{Crypto} `{!Server}.

(** The suffix is random: the first characters of a fresh value. *)
Definition with_suffix (base : string) (chars : nat) : M string := let! v := new_value in ret (base +:+ "-" +:+ String.substring 0 chars v).
Fixpoint try_subdomains (attempts : nat) (base : string) : M string :=
  match attempts with
  | O => with_suffix base 12
  | S attempts =>
      let! candidate := with_suffix base 6 in
      let! taken := gets (fun a => subdomain_taken a candidate) in
      if taken then try_subdomains attempts base else ret candidate
  end.
Definition generateUniqueSubdomain (groupName : string) : M string :=
  let slug := String.substring 0 50 (slugify groupName) in
  let base := if nonempty slug then slug else "tenant" in
  let! taken := gets (fun a => subdomain_taken a base) in
  if taken then try_subdomains 4 base else ret base.

Definition verificationToken (userId t : string) : M string :=
  let! at_ := now in ret (jwt_sign access_secret (email_verify_claims userId t (exp_in EMAIL_LINK_SECONDS at_))).
Definition new_user (id t email hash name : string) (phone : option string) (verified : bool) : User.t :=
  {| User.id := id; User.tenantId := t; User.email := email; User.passwordHash := Some hash; User.name := name; User.phone := phone; User.emailVerified := verified;
     User.lastLoginAt := None; User.deletedAt := None; User.mfaSecret := None; User.mfaEnabledAt := None; User.mfaLastUsedStep := None; User.mfaFailedAttempts := 0;
     User.mfaLockedUntil := None; User.mfaRecoveryCodes := [] |}.
(** [tx.user.create] and [tx.userEmailIndex.create]: the unique index on the address, and the primary key of the email index, refuse an address twice. *)
Definition create_user (t email hash name : string) (phone : option string) (verified : bool) (clash : error) : M User.t :=
  let! id := new_value in
  let u := new_user id t email hash name phone verified in
  let! used := gets (fun a => existsb (fun x => bool_decide (User.email x = email)) (users a)) in
  throw! clash when used in
  do! modify (upd_users (fun l => l ++ [u])) in
  let! taken := gets (fun a => isSome (index_row a email)) in
  throw! clash when taken in
  do! modify (upd_userEmailIndex (fun l => l ++ [{| UserEmailIndex.email := email; UserEmailIndex.tenantId := t; UserEmailIndex.userId := id |}])) in
  ret u.
Definition assign_role (t userId roleId : string) (b assignedBy : option string) : M unit :=
  let! id := new_value in
  modify (upd_userBranchRoles (fun l => l ++ [{| UserBranchRole.id := id; UserBranchRole.tenantId := t; UserBranchRole.userId := userId; UserBranchRole.roleId := roleId; UserBranchRole.branchId := b; UserBranchRole.assignedBy := assignedBy |}])).
Definition create_role (t name : string) (isSystem : bool) (permissions : option json) : M Role.t :=
  let! id := new_value in
  let r := {| Role.id := id; Role.tenantId := t; Role.name := name; Role.isSystem := isSystem; Role.permissions := permissions |} in
  do! modify (upd_roleTable (fun l => l ++ [r])) in ret r.
Definition found_organisation (dto : RegisterDto) (passwordHash subdomain : string) : M (Tenant.t * User.t) :=
  let! at_ := now in
  let! t := new_value in
  let demo := default false (reg_isDemo dto) in
  let tenant := {| Tenant.id := t; Tenant.subdomain := subdomain; Tenant.groupName := reg_groupName dto; Tenant.status := trial; Tenant.country := reg_country dto;
                   Tenant.isDemo := demo; Tenant.demoExpiresAt := if demo then Some (demoExpiryFromNow at_) else None |} in
  do! modify (upd_tenants (fun l => l ++ [tenant])) in
  do! for_each SYSTEM_ROLE_NAMES tt (fun _ name => do! create_role t name true None in ret tt) in
  let! ownerRole := orThrow (findFirst roleTable (fun r => mine t (Role.tenantId r) && bool_decide (Role.name r = "owner"))) (Throw InternalServerError INTERNAL) in
  let! owner := create_user t (reg_email dto) passwordHash (reg_name dto) (reg_phone dto) false email_taken in
  do! assign_role t (User.id owner) (Role.id ownerRole) None None in
  do! audit t (Some (User.id owner)) "auth.register" "tenant" (Some t) in
  ret (tenant, owner).
Definition register (dto : RegisterDto) : Req Registered :=
  and_then (commit (let! existing := gets (fun a => index_row a (reg_email dto)) in throw! email_taken when isSome existing in ret tt)) (fun _ =>
  and_then (commit new_salt) (fun salt =>
  and_then (commit (generateUniqueSubdomain (reg_groupName dto))) (fun subdomain =>
  and_then (commit (found_organisation dto (bcrypt_hash (reg_password dto) salt) subdomain)) (fun '(tenant, owner) =>
  and_then (commit (verificationToken (User.id owner) (Tenant.id tenant))) (fun token =>
  done_with {| registered_tenant := Tenant.id tenant; registered_user := User.id owner; registered_subdomain := Tenant.subdomain tenant;
               verificationToken_shown := if mail_delivers then None else Some token; reg_emailed := mail_sent (reg_email dto) |}))))).

(** ** Confirming an address *)
Definition unverifiedUser (email : string) : M (option User.t) :=
  let! row := gets (fun a => index_row a email) in
  match row with
  | None => ret None
  | Some row => let! u := active_user (UserEmailIndex.tenantId row) (UserEmailIndex.userId row) in ret (u ← u; if User.emailVerified u then None else Some u)
  end.
(** With mail set up the answer is the same for any address; the link it mails is the second part. *)
Definition resendVerification (email : string) (password : option string) : M (bool * option string * option string) :=
  let! found := unverifiedUser email in
  if mail_delivers then
    match found with
    | None => ret (true, None, None)
    | Some u => let! token := verificationToken (User.id u) (User.tenantId u) in ret (true, None, Some token)
    end
  else
    match found, password with
    | Some u, Some p =>
        if nonempty p && password_ok p found then let! token := verificationToken (User.id u) (User.tenantId u) in ret (false, Some token, None)
        else ret (false, None, None)
    | _, _ => ret (false, None, None)
    end.
Definition link_invalid : error := Throw BadRequestException TOKEN_INVALID.
Definition verifyEmail (token : string) : Req unit := fun a =>
  match jwt_verify access_secret token (clock a) with
  | Some (email_verify_claims userId t _) =>
      commit (let! u := orThrow (active_user t userId) link_invalid in
              if User.emailVerified u then ret tt
              else do! update_user t (User.id u) (User.with_verified true) in audit t (Some (User.id u)) "auth.verify_email" "user" (Some (User.id u))) a
  | _ => stop link_invalid a
  end.

(** ** Invitations *)
Record InvitePreview := { preview_email : string; organisation : string; preview_branch : option string; preview_role : string; preview_expiresAt : Z; existingAccount : bool }.
Definition find_invite (t secret : string) : M InviteToken.t :=
  let! at_ := now in
  let! found := findFirst inviteTokens (fun i => mine t (InviteToken.tenantId i) && bool_decide (InviteToken.token i = secret)) in
  lift (or_throw (i ← found; if isSome (InviteToken.acceptedAt i) || (InviteToken.expiresAt i <? at_) then None else Some i) invite_invalid).
Definition previewInvite (publicToken : string) : M InvitePreview :=
  let! '(t, secret) := lift (parseInviteToken publicToken) in
  let! i := find_invite t secret in
  let! existing := find_user t (fun u => bool_decide (User.email u = InviteToken.email i)) in
  let! role := gets (fun a => role_name a t (InviteToken.roleId i)) in
  let! org := gets (fun a => default "" (Tenant.groupName <$> tenant_of a t)) in
  let! branch := gets (fun a => b ← InviteToken.branchId i; Branch.name <$> List.find (fun x => mine t (Branch.tenantId x) && bool_decide (Branch.id x = b)) (branches a)) in
  ret {| preview_email := InviteToken.email i; organisation := org; preview_branch := branch; preview_role := role; preview_expiresAt := InviteToken.expiresAt i;
         existingAccount := match existing with Some u => not_deleted u | None => false end |}.
Definition attachInvitedRole (t userId : string) (i : InviteToken.t) : M unit :=
  let! existing := findFirst userBranchRoles (fun r => mine t (UserBranchRole.tenantId r) && bool_decide (UserBranchRole.userId r = userId) && bool_decide (UserBranchRole.roleId r = InviteToken.roleId i) && bool_decide (UserBranchRole.branchId r = InviteToken.branchId i)) in
  do! (if isSome existing then ret tt else assign_role t userId (InviteToken.roleId i) (InviteToken.branchId i) None) in
  let! at_ := now in
  do! modify (upd_inviteTokens (update_where (fun x => mine t (InviteToken.tenantId x) && bool_decide (InviteToken.id x = InviteToken.id i)) (InviteToken.with_accepted (Some at_)))) in
  audit t (Some userId) "auth.accept_invite" "user" (Some userId).
Definition acceptInvite (publicToken : string) (name : option string) (password : string) (phone : option string) : M InviteOutcome :=
  let! '(t, secret) := lift (parseInviteToken publicToken) in
  let! i := find_invite t secret in
  do! assertTenantOpen t in
  let! existing := find_user t (fun u => bool_decide (User.email u = InviteToken.email i)) in
  throw! Throw ConflictException CONFLICT when match existing with Some u => negb (not_deleted u) | None => false end in
  match existing with
  | Some u =>
      throw! bad_credentials when negb (password_ok password (Some u)) in
      do! attachInvitedRole t (User.id u) i in
      ret (invite_joined (User.email u))
  | None =>
      let trimmed := js_trim (default "" name) in
      throw! Throw BadRequestException VALIDATION_FAILED when (String.length trimmed <? 2)%nat in
      throw! Throw BadRequestException VALIDATION_FAILED when negb (STRONG_PASSWORD password) in
      let! elsewhere := gets (fun a => index_row a (InviteToken.email i)) in
      throw! email_taken when match elsewhere with Some e => negb (bool_decide (UserEmailIndex.tenantId e = t)) | None => false end in
      let! salt := new_salt in
      let! u := create_user t (InviteToken.email i) (bcrypt_hash password salt) trimmed phone true (Throw InternalServerError INTERNAL) in
      do! attachInvitedRole t (User.id u) i in
      let! r := startSession u in
      ret (invite_signed_in r)
  end.
Definition createInviteSecret (t : string) : M (string * string) := let! secret := new_value in ret (secret, t +:+ "." +:+ secret).

(** ** Roles *)
Definition spaces_to_underscores : string -> string := string_map (fun c => if bool_decide (c = " "%char) then "_"%char else c).
Definition assertRoleName (name : string) : res string :=
  let clean := collapse_spaces false (js_trim name) in
  throw invalid when (String.length clean <? 2)%nat || (60 <? String.length clean)%nat in
  throw invalid when includes (spaces_to_underscores (js_lower clean)) SYSTEM_ROLE_NAMES in
  Ok clean.
Definition assertCustomRole (t roleId : string) : M Role.t :=
  let! r := orThrow (findFirst roleTable (fun r => mine t (Role.tenantId r) && bool_decide (Role.id r = roleId))) (Throw NotFoundException NOT_FOUND) in
  throw! invalid when Role.isSystem r in ret r.
(** [name: { equals, mode: 'insensitive' }] *)
Definition named_like (t name : string) (r : Role.t) : bool := mine t (Role.tenantId r) && bool_decide (js_lower (Role.name r) = js_lower name).
Definition action_name (p : PermissionAction) : string := match p with read => "read" | create => "create" | update => "update" | delete_ => "delete" end.
Definition permissions_json (p : PermissionMap) : json := JObj ((fun '(k, actions) => (k, JArr (JStr ∘ action_name <$> actions))) <$> map_to_list p).
Definition listRoles (t : string) : M (list Role.t) := findMany roleTable (fun r => mine t (Role.tenantId r)).
Definition createRole (t name : string) (rawPermissions : option json) (actorUserId : string) : M Role.t :=
  let! clean := lift (assertRoleName name) in
  let! permissions := lift (parsePermissions rawPermissions) in
  let! clash := findFirst roleTable (named_like t clean) in
  throw! Throw ConflictException CONFLICT when isSome clash in
  let! created := create_role t clean false (Some (permissions_json permissions)) in
  do! audit t (Some actorUserId) "role.created" "role" (Some (Role.id created)) in
  ret created.
Definition res_option {A B} (f : A -> res B) (o : option A) : res (option B) := match o with None => Ok None | Some x => let? y := f x in Ok (Some y) end.
Definition updateRole (t roleId : string) (name : option string) (rawPermissions : option (option json)) (actorUserId : string) : M Role.t :=
  let! clean := lift (res_option assertRoleName name) in
  let! permissions := lift (res_option parsePermissions rawPermissions) in
  let! existing := assertCustomRole t roleId in
  let! clash := (match clean with
                 | Some n => if bool_decide (n = Role.name existing) then ret None else findFirst roleTable (fun r => named_like t n r && negb (bool_decide (Role.id r = roleId)))
                 | None => ret None
                 end) in
  throw! Throw ConflictException CONFLICT when isSome clash in
  let data r := Role.with_scope (default (Role.name r) clean) (match permissions with Some p => Some (permissions_json p) | None => Role.permissions r end) r in
  do! modify (upd_roleTable (update_where (fun r => mine t (Role.tenantId r) && bool_decide (Role.id r = roleId)) data)) in
  do! audit t (Some actorUserId) "role.updated" "role" (Some roleId) in
  ret (data existing).
Definition deleteRole (t roleId actorUserId : string) : M unit :=
  let! r := assertCustomRole t roleId in
  let! holders := findMany userBranchRoles (fun x => mine t (UserBranchRole.tenantId x) && bool_decide (UserBranchRole.roleId x = roleId)) in
  let! invites := findMany inviteTokens (fun x => mine t (InviteToken.tenantId x) && bool_decide (InviteToken.roleId x = roleId) && isNone (InviteToken.acceptedAt x)) in
  throw! Throw ConflictException CONFLICT when negb (bool_decide (length holders = 0%nat)) || negb (bool_decide (length invites = 0%nat)) in
  do! modify (upd_roleTable (List.filter (fun x => negb (mine t (Role.tenantId x) && bool_decide (Role.id x = roleId))))) in
  (** the foreign key of [invite_tokens] cascades *)
  do! modify (upd_inviteTokens (List.filter (fun x => negb (bool_decide (InviteToken.roleId x = roleId))))) in
  audit t (Some actorUserId) "role.deleted" "role" (Some roleId).
End Membership.
