(* ===== verification/Passwords.v ===== *)
(** Passwords (src/src/modules/auth/password.service.ts): the reset links, using
    one, and changing one's own. *)
From S2P Require Import Prelude Transactions Json Authority Totp Accounts SecondFactor SignIn Membership.
Import StaffAuthority.
Local Open Scope Z_scope.

Definition SELF_SERVICE_MINUTES : Z := 60.
Definition HANDED_OVER_MINUTES : Z := 24 * 60.
Definition RESEND_GAP_MS : Z := 60000.
Definition LINK_INVALID : error := Throw BadRequestException TOKEN_INVALID.

(** Every open reset link of a person is used up. *)
Definition use_links (t userId : string) (at_ : Z) : M unit :=
  modify (upd_passwordResetTokens (update_where
    (fun r => mine t (PasswordResetToken.tenantId r) && bool_decide (PasswordResetToken.userId r = userId) && isNone (PasswordResetToken.usedAt r))
    (PasswordResetToken.with_used (Some at_)))).

Section Passwords.
Context `{Crypto} `{!Server}.

Definition hashSecret (secret : string) : string := sha256 secret.
(** A UUID, a dot and hexadecimal digits: [encodeURIComponent] leaves them as they are. *)
Definition issue (u : User.t) (validForMinutes : Z) (createdBy : option string) : M string :=
  let! at_ := now in
  do! use_links (User.tenantId u) (User.id u) at_ in
  let! secret := new_value in
  let! id := new_value in
  do! modify (upd_passwordResetTokens (fun l => l ++ [{| PasswordResetToken.id := id; PasswordResetToken.tenantId := User.tenantId u; PasswordResetToken.userId := User.id u;
        PasswordResetToken.tokenHash := hashSecret secret; PasswordResetToken.expiresAt := at_ + validForMinutes * 60000; PasswordResetToken.usedAt := None;
        PasswordResetToken.createdBy := createdBy; PasswordResetToken.createdAt := at_ |}])) in
  ret (webUrl ("/reset-password?token=" +:+ User.tenantId u +:+ "." +:+ secret)).
Definition endEverything (t userId : string) (at_ : Z) : M unit :=
  do! revoke_where t (fun r => bool_decide (RefreshToken.userId r = userId)) in
  use_links t userId at_.

(** The mail: the address, and the link in it. *)
Definition sendResetLink (email : string) : M (option (string * string)) :=
  let! row := gets (fun a => index_row a email) in
  match row with
  | None => ret None
  | Some row =>
      let t := UserEmailIndex.tenantId row in
      let! found := active_user t (UserEmailIndex.userId row) in
      match found with
      | None => ret None
      | Some u =>
          let! at_ := now in
          let! recent := findFirst passwordResetTokens (fun r => mine t (PasswordResetToken.tenantId r) && bool_decide (PasswordResetToken.userId r = User.id u) &&
                           isNone (PasswordResetToken.createdBy r) && (at_ - RESEND_GAP_MS <? PasswordResetToken.createdAt r)) in
          if isSome recent then ret None
          else
            let! link := issue u SELF_SERVICE_MINUTES None in
            do! audit (User.tenantId u) (Some (User.id u)) "auth.password_reset_requested" "user" (Some (User.id u)) in
            ret (Some (User.email u, link))
      end
  end.
Definition forgot (email : string) : Req bool :=
  if mail_delivers then and_then (commit (sendResetLink email)) (fun _ => done_with true) else done_with false.
Definition createLink (actor : Actor) (userId : string) : M (string * bool * Z) :=
  let t := actor_tenant actor in
  let! u := orThrow (active_user t userId) user_not_found in
  let! held := gets (fun a => held_roles a t userId) in
  do! lift (assertMayManageAccount (who actor) userId held) in
  let! link := issue u HANDED_OVER_MINUTES (Some (sub (who actor))) in
  do! audit t (Some (sub (who actor))) "auth.password_reset_link_created" "user" (Some (User.id u)) in
  let! at_ := now in
  ret (link, mail_sent (User.email u), at_ + HANDED_OVER_MINUTES * 60000).

Definition set_password (hash : string) (verifies : bool) (u : User.t) : User.t :=
  let u := User.with_password (Some hash) u in if verifies then User.with_verified true u else u.
Definition use_link (t secret passwordHash : string) : M unit :=
  let! at_ := now in
  let! found := findFirst passwordResetTokens (fun r => mine t (PasswordResetToken.tenantId r) && bool_decide (PasswordResetToken.tokenHash r = hashSecret secret)) in
  let! row := lift (or_throw (r ← found; if isSome (PasswordResetToken.usedAt r) || (PasswordResetToken.expiresAt r <=? at_) then None else Some r) LINK_INVALID) in
  let hit r := mine t (PasswordResetToken.tenantId r) && bool_decide (PasswordResetToken.id r = PasswordResetToken.id row) && isNone (PasswordResetToken.usedAt r) in
  let! claimed := findMany passwordResetTokens hit in
  do! modify (upd_passwordResetTokens (update_where hit (PasswordResetToken.with_used (Some at_)))) in
  throw! LINK_INVALID when bool_decide (length claimed = 0%nat) in
  let! u := orThrow (active_user t (PasswordResetToken.userId row)) LINK_INVALID in
  do! update_user t (User.id u) (set_password passwordHash (isNone (PasswordResetToken.createdBy row))) in
  do! endEverything t (User.id u) at_ in
  audit t (Some (User.id u)) "auth.password_reset" "user" (Some (User.id u)).
Definition reset (publicToken password : string) : Req unit :=
  match parse_link LINK_INVALID publicToken with
  | Err e => stop e
  | Ok (t, secret) => and_then (commit new_salt) (fun salt => commit (use_link t secret (bcrypt_hash password salt)))
  end.
Definition change_own (actor : Actor) (currentPassword newPassword passwordHash : string) : M LoginResult :=
  let t := actor_tenant actor in
  let! u := orThrow (active_user t (sub (who actor))) SESSION_ENDED in
  let! old := lift (or_throw (h ← User.passwordHash u; if bcrypt_compare currentPassword h then Some h else None) (Throw BadRequestException INVALID_CREDENTIALS)) in
  throw! Throw BadRequestException VALIDATION_FAILED when bcrypt_compare newPassword old in
  let! at_ := now in
  do! update_user t (User.id u) (User.with_password (Some passwordHash)) in
  do! endEverything t (User.id u) at_ in
  do! audit t (Some (User.id u)) "auth.password_changed" "user" (Some (User.id u)) in
  startSession (User.with_password (Some passwordHash) u).
Definition changePassword (actor : Actor) (currentPassword newPassword : string) : Req LoginResult :=
  and_then (commit new_salt) (fun salt => commit (change_own actor currentPassword newPassword (bcrypt_hash newPassword salt))).
End Passwords.
