(* ===== verification/Staff.v ===== *)
(** Staff management (src/src/modules/users/users.service.ts) and the check on
    every signed-in request (src/src/common/auth/account-status.service.ts). *)
From S2P Require Import Prelude Transactions Json Authority Totp Accounts SecondFactor SignIn Membership.
Import StaffAuthority.
Local Open Scope Z_scope.

Definition INVITE_TTL_HOURS : Z := 72.
Record Invite := { invite_email : string; invite_roleId : string }.
Record InviteResult := { result_email : string; inviteId : string; publicToken : string; result_link : string; result_emailed : bool; result_expiresAt : Z }.
Record StaffRole := { staff_branchId : option string; staff_role : string; staff_roleId : string }.
Record StaffListEntry := { staff_id : string; staff_email : string; staff_name : string; staff_active : bool; staff_mfaEnabled : bool; staff_roles : list StaffRole; outletIds : list string; canChangeRole : bool; canManageAccount : bool }.
Record PatchStaffDto := { patch_roleId : option string; patch_outletIds : option (list string); patch_active : option bool; patch_branchId : option string }.
Record PendingInvite := { pending_id : string; pending_email : string; pending_roleId : string; pending_role : string; pending_invitedBy : option string; pending_createdAt : Z; pending_expiresAt : Z; expired : bool; pending_link : option string }.

Definition assertBranch (t b : string) : M Branch.t :=
  orThrow (findFirst branches (fun x => mine t (Branch.tenantId x) && bool_decide (Branch.id x = b) && isNone (Branch.deletedAt x))) (Throw NotFoundException NOT_FOUND).
Definition staff_roles_of (a : Accounts) (t userId : string) : list StaffRole :=
  (fun r => {| staff_branchId := UserBranchRole.branchId r; staff_role := role_name a t (UserBranchRole.roleId r); staff_roleId := UserBranchRole.roleId r |})
  <$> List.filter (fun r => mine t (UserBranchRole.tenantId r) && bool_decide (UserBranchRole.userId r = userId)) (userBranchRoles a).
Definition can (why : option reason) : bool := match why with None => true | Some _ => false end.
Definition staffEntry (actor : Actor) (userId : string) (b : option string) : M StaffListEntry :=
  let t := actor_tenant actor in
  let! u := orThrow (find_user t (fun u => bool_decide (User.id u = userId))) (Throw InternalServerError INTERNAL) in
  let! rs := gets (fun a => staff_roles_of a t userId) in
  let! outlets := findMany userOutlets (fun o => mine t (UserOutlet.tenantId o) && bool_decide (UserOutlet.userId o = userId) && match b with Some b => bool_decide (UserOutlet.branchId o = b) | None => true end) in
  let! held := gets (fun a => held_roles a t userId) in
  ret {| staff_id := User.id u; staff_email := User.email u; staff_name := User.name u; staff_active := not_deleted u; staff_mfaEnabled := isSome (User.mfaEnabledAt u);
         staff_roles := rs; outletIds := UserOutlet.outletId <$> outlets;
         canChangeRole := can (whyCannotChangeRoleAt (who actor) userId held b); canManageAccount := can (whyCannotManageAccount (who actor) userId held) |}.

(** ** Outlets *)
Definition assertMayAssignOutlets (actor : JwtPayload) (userId : string) (held : list HeldRole) (b : string) : res unit :=
  throw forbidden when negb (managesBranch actor (Some b)) in
  throw_if (negb (bool_decide (userId = sub actor)) && negb (isOwner actor) && existsb (fun r => bool_decide (role r = "owner") || bool_decide (role r = "manager")) held) forbidden.
Definition replaceOutlets (t userId b : string) (ids : list string) (actorUserId : string) : M unit :=
  let! known := findMany outlets (fun o => mine t (Outlet.tenantId o) && includes (Outlet.id o) ids && bool_decide (Outlet.branchId o = b)) in
  throw! Throw BadRequestException VALIDATION_FAILED when negb (bool_decide (ids = [])) && negb (bool_decide (length known = length (remove_dups ids))) in
  (** the unique index on a person and an outlet *)
  throw! Throw InternalServerError INTERNAL when negb (bool_decide (NoDup ids)) in
  modify (upd_userOutlets (fun l => List.filter (fun o => negb (mine t (UserOutlet.tenantId o) && bool_decide (UserOutlet.userId o = userId) && bool_decide (UserOutlet.branchId o = b))) l
     ++ ((fun o => {| UserOutlet.tenantId := t; UserOutlet.userId := userId; UserOutlet.outletId := o; UserOutlet.branchId := b; UserOutlet.assignedBy := Some actorUserId |}) <$> ids))).
Definition managed_outlets (actor : Actor) (userId : string) : M (list UserOutlet.t) :=
  let t := actor_tenant actor in
  let! rows := findMany userOutlets (fun o => mine t (UserOutlet.tenantId o) && bool_decide (UserOutlet.userId o = userId)) in
  gets (fun a => List.filter (fun o => managesBranch (who actor) (Outlet.branchId <$> List.find (fun x => bool_decide (Outlet.id x = UserOutlet.outletId o)) (outlets a))) rows).
Definition getUserOutlets : Actor -> string -> M (list UserOutlet.t) := managed_outlets.
Definition setUserOutlets (actor : Actor) (userId b : string) (ids : list string) : M (list UserOutlet.t) :=
  let t := actor_tenant actor in
  do! orThrow (active_user t userId) user_not_found in
  let! held := gets (fun a => held_roles a t userId) in
  do! lift (assertMayAssignOutlets (who actor) userId held b) in
  do! replaceOutlets t userId b ids (sub (who actor)) in
  do! audit_at t (Some b) (Some (sub (who actor))) "staff.outlets_set" "user" (Some userId) in
  managed_outlets actor userId.

Section Staff.
Context `{Crypto} `{!Server}.

(** ** Invitations *)
Definition inviteLink (token : string) : string := webUrl ("/accept-invite?token=" +:+ token).
Definition invite_one (actor : Actor) (b : string) (i : Invite) : M InviteResult :=
  let t := actor_tenant actor in
  do! modify (upd_inviteTokens (List.filter (fun x => negb (mine t (InviteToken.tenantId x) && bool_decide (InviteToken.email x = invite_email i) && bool_decide (InviteToken.roleId x = invite_roleId i)
        && bool_decide (InviteToken.branchId x = Some b) && isNone (InviteToken.acceptedAt x))))) in
  let! '(secret, token) := createInviteSecret t in
  let! at_ := now in
  let! id := new_value in
  do! modify (upd_inviteTokens (fun l => l ++ [{| InviteToken.id := id; InviteToken.tenantId := t; InviteToken.email := invite_email i; InviteToken.token := secret; InviteToken.roleId := invite_roleId i;
        InviteToken.branchId := Some b; InviteToken.invitedBy := Some (sub (who actor)); InviteToken.createdAt := at_; InviteToken.expiresAt := at_ + INVITE_TTL_HOURS * 3600000; InviteToken.acceptedAt := None |}])) in
  ret {| result_email := invite_email i; inviteId := id; publicToken := token; result_link := inviteLink token; result_emailed := mail_sent (invite_email i); result_expiresAt := at_ + INVITE_TTL_HOURS * 3600000 |}.
Definition bulkInvite (actor : Actor) (b : string) (invites : list Invite) : M (list InviteResult) :=
  let t := actor_tenant actor in
  do! assertBranch t b in
  let roleIds := unique_from [] (invite_roleId <$> invites) in
  let! found := findMany roleTable (fun r => mine t (Role.tenantId r) && includes (Role.id r) roleIds) in
  throw! Throw BadRequestException NOT_FOUND when negb (bool_decide (length found = length roleIds)) in
  do! for_each found tt (fun _ r => lift (assertMayGrant (who actor) (Role.name r) (Some b))) in
  let! deactivated := findMany users (fun u => mine t (User.tenantId u) && includes (User.email u) (invite_email <$> invites) && negb (not_deleted u)) in
  throw! Throw ConflictException CONFLICT when negb (bool_decide (length deactivated = 0%nat)) in
  do! orThrow (gets (fun a => tenant_of a t)) (Throw InternalServerError INTERNAL) in
  let! rows := for_each invites [] (fun rows i => let! r := invite_one actor b i in ret (rows ++ [r])) in
  do! audit_at t (Some b) (Some (sub (who actor))) "staff.bulk_invite" "invite_token" None in
  ret rows.
Definition listInvites (actor : Actor) (b : string) : M (list PendingInvite) :=
  let t := actor_tenant actor in
  let! found := findMany inviteTokens (fun i => mine t (InviteToken.tenantId i) && bool_decide (InviteToken.branchId i = Some b) && isNone (InviteToken.acceptedAt i)) in
  let! at_ := now in
  gets (fun a => (fun i =>
    let name := role_name a t (InviteToken.roleId i) in
    {| pending_id := InviteToken.id i; pending_email := InviteToken.email i; pending_roleId := InviteToken.roleId i; pending_role := name;
       pending_invitedBy := u ← InviteToken.invitedBy i; User.name <$> List.find (fun x => mine t (User.tenantId x) && bool_decide (User.id x = u)) (users a);
       pending_createdAt := InviteToken.createdAt i; pending_expiresAt := InviteToken.expiresAt i; expired := InviteToken.expiresAt i <=? at_;
       pending_link := if can (whyCannotGrant (who actor) name (InviteToken.branchId i)) then Some (inviteLink (t +:+ "." +:+ InviteToken.token i)) else None |})
    <$> sort_by (fun i => - InviteToken.createdAt i) found).
Definition cancelInvite (actor : Actor) (id : string) : M unit :=
  let t := actor_tenant actor in
  let! i := orThrow (findFirst inviteTokens (fun x => mine t (InviteToken.tenantId x) && bool_decide (InviteToken.id x = id) && isNone (InviteToken.acceptedAt x))) (Throw NotFoundException NOT_FOUND) in
  let! name := gets (fun a => role_name a t (InviteToken.roleId i)) in
  do! lift (assertMayGrant (who actor) name (InviteToken.branchId i)) in
  do! modify (upd_inviteTokens (List.filter (fun x => negb (mine t (InviteToken.tenantId x) && bool_decide (InviteToken.id x = InviteToken.id i))))) in
  audit_at t (InviteToken.branchId i) (Some (sub (who actor))) "staff.invite_cancelled" "invite_token" (Some (InviteToken.id i)).

(** ** The check on every request *)
Inductive AccountState := open_ | closed_ | suspended_.
Definition ACCOUNT_STATUS_TTL_MS : Z := 30000.
Definition SWEEP_ABOVE : nat := 5000.
Definition forget (userId : string) : M unit := modify (upd_openAccounts (delete userId)).
Definition forgetTenant (t : string) : M unit := modify (upd_openAccounts (filter (fun e => OpenAccount.tenantId e.2 <> t))).
Definition sweep (now_ : Z) (m : gmap string OpenAccount.t) : gmap string OpenAccount.t := filter (fun e => now_ < OpenAccount.until e.2) m.
Definition read_account (userId t : string) (at_ : Z) : M (AccountState * option (list HeldRole)) :=
  let! row := active_user t userId in
  let! held := gets (fun a => held_roles a t userId) in
  let! tenant := gets (fun a => tenant_of a t) in
  if isNone row then do! forget userId in ret (closed_, None)
  else if negb (isTenantOpen (Tenant.status <$> tenant)) then do! forget userId in ret (suspended_, None)
  else
    let! known := gets openAccounts in
    do! (if (SWEEP_ABOVE <=? size known)%nat then modify (upd_openAccounts (sweep at_)) else ret tt) in
    do! modify (upd_openAccounts (insert userId {| OpenAccount.until := at_ + ACCOUNT_STATUS_TTL_MS; OpenAccount.tenantId := t; OpenAccount.roles := held |})) in
    ret (open_, Some held).
Definition current (userId t : string) : M (AccountState * option (list HeldRole)) :=
  let! at_ := now in
  let! known := gets (fun a => openAccounts a !! userId) in
  match (e ← known; if at_ <? OpenAccount.until e then Some e else None) with
  | Some e => ret (open_, Some (OpenAccount.roles e))
  | None => read_account userId t at_
  end.

(** ** Changing someone's account *)
(** [assertMayManageAccount], [whyCannotChangeRoleAt] and [assertMayGrant], before anything is written. *)
Definition may_change_role (actor : Actor) (userId roleId : string) (held : list HeldRole) (b : option string) : M unit :=
  let t := actor_tenant actor in
  let! r := orThrow (findFirst roleTable (fun r => mine t (Role.tenantId r) && bool_decide (Role.id r = roleId))) (Throw BadRequestException NOT_FOUND) in
  do! lift (refuse_with (whyCannotChangeRoleAt (who actor) userId held b)) in
  do! lift (assertMayGrant (who actor) (Role.name r) b) in
  match b with Some b => do! assertBranch t b in ret tt | None => ret tt end.
Definition set_active (t userId : string) (u : User.t) (is_active : bool) : M unit :=
  let! at_ := now in
  do! update_user t userId (User.with_deletedAt (if is_active then None else Some (default at_ (User.deletedAt u)))) in
  if is_active then ret tt
  else do! revoke_where t (fun r => bool_decide (RefreshToken.userId r = userId)) in forget userId.
Definition replace_role (t userId roleId : string) (b : option string) (by_ : string) : M unit :=
  do! forget userId in
  do! modify (upd_userBranchRoles (List.filter (fun r => negb (mine t (UserBranchRole.tenantId r) && bool_decide (UserBranchRole.userId r = userId) && bool_decide (UserBranchRole.branchId r = b))))) in
  assign_role t userId roleId b (Some by_).
Definition patchStaff (actor : Actor) (userId : string) (dto : PatchStaffDto) : M StaffListEntry :=
  let t := actor_tenant actor in
  let b := patch_branchId dto in
  throw! Throw BadRequestException VALIDATION_FAILED when isNone (patch_roleId dto) && isNone (patch_outletIds dto) && isNone (patch_active dto) in
  throw! Throw BadRequestException VALIDATION_FAILED when isSome (patch_outletIds dto) && isNone b in
  let! u := orThrow (find_user t (fun u => bool_decide (User.id u = userId))) user_not_found in
  let! held := gets (fun a => held_roles a t userId) in
  do! (if isSome (patch_active dto) then lift (assertMayManageAccount (who actor) userId held) else ret tt) in
  do! (match patch_roleId dto with Some r => may_change_role actor userId r held b | None => ret tt end) in
  do! (match patch_outletIds dto, b with Some _, Some b => lift (assertMayAssignOutlets (who actor) userId held b) | _, _ => ret tt end) in
  do! (match patch_active dto with Some is_active => set_active t userId u is_active | None => ret tt end) in
  do! (match patch_roleId dto with Some r => replace_role t userId r b (sub (who actor)) | None => ret tt end) in
  do! (match patch_outletIds dto, b with Some ids, Some b => replaceOutlets t userId b ids (sub (who actor)) | _, _ => ret tt end) in
  do! audit_at t b (Some (sub (who actor))) "staff.updated" "user" (Some userId) in
  staffEntry actor userId b.

(** ** Deleting an organisation *)
(** Every row of the tenant goes, the email index and the tenant itself with it. *)
Definition delete_rows (t : string) (a : Accounts) : Accounts :=
  let others {A} (tenant_of_row : A -> string) : list A -> list A := List.filter (fun x => negb (bool_decide (tenant_of_row x = t))) in
  {| clock := clock a; random := random a; tenants := others Tenant.id (tenants a); userEmailIndex := others UserEmailIndex.tenantId (userEmailIndex a); users := others User.tenantId (users a);
     roleTable := others Role.tenantId (roleTable a); userBranchRoles := others UserBranchRole.tenantId (userBranchRoles a); inviteTokens := others InviteToken.tenantId (inviteTokens a);
     refreshTokens := others RefreshToken.tenantId (refreshTokens a); passwordResetTokens := others PasswordResetToken.tenantId (passwordResetTokens a);
     branches := others Branch.tenantId (branches a); outlets := others Outlet.tenantId (outlets a); userOutlets := others UserOutlet.tenantId (userOutlets a); auditLogs := others AuditLog.tenantId (auditLogs a);
     openAccounts := openAccounts a |}.
Definition deleteOrganization (t : string) : M unit :=
  let! people := findMany users (fun u => mine t (User.tenantId u)) in
  do! orThrow (gets (fun a => tenant_of a t)) (Throw InternalServerError INTERNAL) in
  do! modify (delete_rows t) in
  for_each people tt (fun _ u => forget (User.id u)).
Definition deleteOrganizationAsOwner (t actorId password : string) (mfaCode : option string) : Req unit :=
  and_then (commit (active_user t actorId)) (fun owner =>
  match (u ← owner; h ← User.passwordHash u; if bcrypt_compare password h then Some u else None) with
  | None => stop bad_credentials
  | Some u =>
      and_then (if isSome (User.mfaEnabledAt u) then match mfaCode with
                | Some code => if nonempty code then and_then (requireSecondFactor t actorId code) (fun _ => done_with tt) else stop (Throw UnauthorizedException MFA_REQUIRED)
                | None => stop (Throw UnauthorizedException MFA_REQUIRED)
                end else done_with tt) (fun _ =>
      commit (deleteOrganization t))
  end).
(** One organisation's failure does not stop the sweep. *)
Fixpoint sweep_each (ts : list Tenant.t) : Req unit :=
  match ts with
  | [] => done_with tt
  | t :: ts => fun a => sweep_each ts (commit (deleteOrganization (Tenant.id t)) a).1
  end.
Definition sweepExpiredDemoTenants : Req unit := fun a =>
  sweep_each (List.filter (fun t => Tenant.isDemo t && match Tenant.demoExpiresAt t with Some e => e <? clock a | None => false end) (tenants a)) a.
End Staff.
