(* ===== verification/AccountHistory.v ===== *)
(** What happens to accounts over time: every request the services answer as one
    step, the clock, and the platform's own change of an organisation's status;
    and what a step can do to sessions. *)
From S2P Require Import Prelude Transactions Json Authority Totp Accounts SecondFactor SignIn Membership Passwords Staff.
Local Open Scope Z_scope.

(** ** Requests *)
Section Kept.
Context (R : Accounts -> Accounts -> Prop) `{!PreOrder R}.
(** Whatever the request answers, its effect is within [R]. *)
Definition kept {A} (m : Req A) : Prop := forall a, R a (m a).1.
Lemma kept_commit {A} (m : M A) : keeps R m -> kept (commit m).
Proof. intros Hm a. unfold commit. destruct (m a) as [[a' x]|e] eqn:E; [by eapply Hm | reflexivity]. Qed.
Lemma kept_stop {A} e : kept (stop (A := A) e).
Proof. intros a. reflexivity. Qed.
Lemma kept_done {A} (x : A) : kept (done_with x).
Proof. intros a. reflexivity. Qed.
Lemma kept_and_then {A B} (m : Req A) (k : A -> Req B) : kept m -> (forall x, kept (k x)) -> kept (and_then m k).
Proof. intros Hm Hk a. specialize (Hm a). unfold and_then. destruct (m a) as [a' [x|e]]; simpl in *; [|done]. etransitivity; [done | apply Hk]. Qed.
End Kept.
Lemma kept_when (R : Accounts -> Accounts -> Prop) {A B} (m : B -> Req A) (f : Accounts -> B) : (forall x, kept R (m x)) -> kept R (fun a => m (f a) a).
Proof. intros Hm a. apply Hm. Qed.
#[export] Hint Resolve kept_stop kept_done : keeps.
Ltac kept_step :=
  match goal with
  | |- kept _ (commit _) => apply kept_commit; [typeclasses eauto|]
  | |- kept _ (and_then _ _) => apply kept_and_then; [typeclasses eauto| |intros]
  | |- kept _ (match ?x with _ => _ end) => destruct x
  | |- kept _ _ => solve [eauto with keeps typeclass_instances]
  | |- keeps _ _ => progress keeps_tac
  end.
Ltac kept_tac := repeat (cbn beta; kept_step).

Section Ops.
Context `{Crypto} `{!Server}.

(** ** Steps *)
Inductive account_op :=
| op_register (dto : RegisterDto)
| op_verifyEmail (token : string)
| op_login (email password : string)
| op_verifyMfaLogin (challengeToken code : string)
| op_refresh (token : string)
| op_logout (token : string)
| op_prune
| op_acceptInvite (token : string) (name : option string) (password : string) (phone : option string)
| op_createRole (t name : string) (permissions : option json) (actor : string)
| op_updateRole (t roleId : string) (name : option string) (permissions : option (option json)) (actor : string)
| op_deleteRole (t roleId actor : string)
| op_beginSetup (t userId : string)
| op_enable (t userId code : string)
| op_disable (t userId password code : string)
| op_regenerate (t userId code : string)
| op_resetForUser (actor : Actor) (target : string)
| op_forgot (email : string)
| op_createLink (actor : Actor) (userId : string)
| op_reset (token password : string)
| op_changePassword (actor : Actor) (currentPassword newPassword : string)
| op_bulkInvite (actor : Actor) (b : string) (invites : list Invite)
| op_cancelInvite (actor : Actor) (id : string)
| op_patchStaff (actor : Actor) (userId : string) (dto : PatchStaffDto)
| op_setUserOutlets (actor : Actor) (userId b : string) (ids : list string)
| op_request (userId t : string)
| op_deleteOrganization (t actorId password : string) (mfaCode : option string)
| op_sweepDemos
| op_set_status (t : string) (s : TenantStatus)
| op_tick (ms : nat).

Definition set_status (t : string) (s : TenantStatus) (x : Tenant.t) : Tenant.t :=
  if bool_decide (Tenant.id x = t) then {| Tenant.id := Tenant.id x; Tenant.subdomain := Tenant.subdomain x; Tenant.groupName := Tenant.groupName x; Tenant.status := s; Tenant.country := Tenant.country x; Tenant.isDemo := Tenant.isDemo x; Tenant.demoExpiresAt := Tenant.demoExpiresAt x |} else x.
(** What a step leaves behind. *)
Definition effect {A} (m : Req A) (a : Accounts) : Accounts := (m a).1.
Definition run (op : account_op) : Accounts -> Accounts :=
  match op with
  | op_register dto => effect (register dto)
  | op_verifyEmail token => effect (verifyEmail token)
  | op_login email password => effect (commit (login email password))
  | op_verifyMfaLogin token code => effect (verifyMfaLogin token code)
  | op_refresh token => effect (refresh token)
  | op_logout token => effect (logout token)
  | op_prune => effect pruneEndedSessions
  | op_acceptInvite token name password phone => effect (commit (acceptInvite token name password phone))
  | op_createRole t name p u => effect (commit (createRole t name p u))
  | op_updateRole t r name p u => effect (commit (updateRole t r name p u))
  | op_deleteRole t r u => effect (commit (deleteRole t r u))
  | op_beginSetup t u => effect (commit (beginSetup t u))
  | op_enable t u code => effect (commit (enable t u code))
  | op_disable t u password code => effect (disable t u password code)
  | op_regenerate t u code => effect (regenerateRecoveryCodes t u code)
  | op_resetForUser actor target => effect (commit (resetForUser actor target))
  | op_forgot email => effect (forgot email)
  | op_createLink actor u => effect (commit (createLink actor u))
  | op_reset token password => effect (reset token password)
  | op_changePassword actor p q => effect (changePassword actor p q)
  | op_bulkInvite actor b invites => effect (commit (bulkInvite actor b invites))
  | op_cancelInvite actor id => effect (commit (cancelInvite actor id))
  | op_patchStaff actor u dto => effect (commit (patchStaff actor u dto))
  | op_setUserOutlets actor u b ids => effect (commit (setUserOutlets actor u b ids))
  | op_request u t => effect (commit (current u t))
  | op_deleteOrganization t u password code => effect (deleteOrganizationAsOwner t u password code)
  | op_sweepDemos => effect sweepExpiredDemoTenants
  | op_set_status t s => upd_tenants (fmap (set_status t s))
  | op_tick ms => upd_clock (fun c => c + Z.of_nat ms)
  end.
Definition account_step (a a' : Accounts) : Prop := exists op, a' = run op a.
Definition later : Accounts -> Accounts -> Prop := rtc account_step.
Lemma later_keeps (P : Accounts -> Prop) : (forall op a, P a -> P (run op a)) -> forall a b, later a b -> P a -> P b.
Proof. intros HP a b Hl. induction Hl as [|x y z [op ->] _ IH]; auto. Qed.
End Ops.
