(* ===== verification/Sessions.v ===== *)
(** Sessions: what any request can do to them, that a renewed token is spent and a
    signed-out session stays over, and who gets a session in the first place. *)
From S2P Require Import Prelude Transactions Json Authority Totp Accounts SecondFactor SignIn Membership Passwords Staff AccountHistory.
Local Open Scope Z_scope.

(** ** Relations that look at sessions and reset links only *)
Class SessionFrame (R : Accounts -> Accounts -> Prop) := {
  sf_preorder :: PreOrder R;
  sf_clock f a : R a (upd_clock f a);
  sf_random a : R a (upd_random S a);
  sf_tenants f a : R a (upd_tenants f a);
  sf_index f a : R a (upd_userEmailIndex f a);
  sf_users f a : R a (upd_users f a);
  sf_roles f a : R a (upd_roleTable f a);
  sf_assignments f a : R a (upd_userBranchRoles f a);
  sf_invites f a : R a (upd_inviteTokens f a);
  sf_links_used w n a : R a (upd_passwordResetTokens (update_where w (PasswordResetToken.with_used (Some n))) a);
  sf_outlets f a : R a (upd_userOutlets f a);
  sf_audit f a : R a (upd_auditLogs f a);
  sf_open f a : R a (upd_openAccounts f a);
}.
Ltac sf_write :=
  apply keeps_modify; intros;
  first [apply sf_random | apply sf_users | apply sf_audit | apply sf_invites | apply sf_assignments | apply sf_links_used | apply sf_roles | apply sf_index | apply sf_tenants | apply sf_outlets | apply sf_open].
#[export] Hint Extern 5 (keeps _ (modify _)) => sf_write : keeps.

Section Frame.
Context `{Crypto} `{!Server} (R : Accounts -> Accounts -> Prop) `{!SessionFrame R}.

Lemma sf_new_value : keeps R new_value.
Proof. unfold new_value. keeps_tac. Qed.
Lemma sf_new_salt : keeps R new_salt.
Proof. unfold new_salt. keeps_tac. Qed.
Lemma sf_audit_at t b u x y z : keeps R (audit_at t b u x y z).
Proof. sf_write. Qed.
Lemma sf_audit_ t u x y z : keeps R (audit t u x y z).
Proof. apply sf_audit_at. Qed.
Lemma sf_update_user t u f : keeps R (update_user t u f).
Proof. sf_write. Qed.
Lemma sf_update_users t w f : keeps R (update_users_where t w f).
Proof. unfold update_users_where. keeps_tac. Qed.
Lemma sf_now : keeps R now.
Proof. apply keeps_gets, _. Qed.
Lemma sf_active_user t u : keeps R (active_user t u).
Proof. apply keeps_gets, _. Qed.
Lemma sf_find_user t w : keeps R (find_user t w).
Proof. apply keeps_gets, _. Qed.
Lemma sf_load_user t u : keeps R (loadUser t u).
Proof. apply keeps_orThrow; [apply _|]. apply sf_active_user. Qed.
Lemma sf_tenant_open t : keeps R (assertTenantOpen t).
Proof. unfold assertTenantOpen. keeps_tac. Qed.
#[local] Hint Resolve sf_new_value sf_new_salt sf_audit_at sf_audit_ sf_update_user sf_update_users sf_now sf_active_user sf_find_user sf_load_user sf_tenant_open : keeps.
Lemma sf_accept_code t u code n : keeps R (accept_code t u code n).
Proof. unfold accept_code. keeps_tac. Qed.
#[local] Hint Resolve sf_accept_code : keeps.
Lemma sf_check t u code : keeps R (checkSecondFactor t u code).
Proof. unfold checkSecondFactor. keeps_tac. Qed.
#[local] Hint Resolve sf_check : keeps.
Lemma sf_require t u code : kept R (requireSecondFactor t u code).
Proof. unfold requireSecondFactor. kept_tac. Qed.
#[local] Hint Resolve sf_require : keeps.
Lemma sf_updated_user t u f : keeps R (updated_user t u f).
Proof. unfold updated_user. keeps_tac. Qed.
Lemma sf_assign t u r b x : keeps R (assign_role t u r b x).
Proof. unfold assign_role. keeps_tac. Qed.
Lemma sf_create_role t n s p : keeps R (create_role t n s p).
Proof. unfold create_role. keeps_tac. Qed.
Lemma sf_create_user t e h n p v c : keeps R (create_user t e h n p v c).
Proof. unfold create_user. keeps_tac. Qed.
#[local] Hint Resolve sf_updated_user sf_assign sf_create_role sf_create_user : keeps.
Lemma sf_find_invite t s : keeps R (find_invite t s).
Proof. unfold find_invite. keeps_tac. Qed.
Lemma sf_attach t u i : keeps R (attachInvitedRole t u i).
Proof. unfold attachInvitedRole. keeps_tac. Qed.
Lemma sf_use_links t u n : keeps R (use_links t u n).
Proof. sf_write. Qed.
Lemma sf_suffix b n : keeps R (with_suffix b n).
Proof. unfold with_suffix. keeps_tac. Qed.
#[local] Hint Resolve sf_find_invite sf_attach sf_use_links sf_suffix : keeps.
(** Issuing a reset link, where links do not matter. *)
Lemma issue_quiet : (forall f a, R a (upd_passwordResetTokens f a)) -> forall u n c, keeps R (issue u n c).
Proof. intros Hf u n c. unfold issue. keeps_tac. apply keeps_modify. auto. Qed.
Context (Hissue : forall u n c, keeps R (issue u n c)).
Lemma sf_try k b : keeps R (try_subdomains k b).
Proof. induction k as [|k IH]; simpl; keeps_tac. Qed.
#[local] Hint Resolve Hissue sf_try : keeps.
Lemma sf_subdomain g : keeps R (generateUniqueSubdomain g).
Proof. unfold generateUniqueSubdomain. keeps_tac. Qed.
#[local] Hint Resolve sf_subdomain : keeps.
Lemma sf_found dto h s : keeps R (found_organisation dto h s).
Proof. unfold found_organisation. keeps_tac. Qed.
Lemma sf_token u t : keeps R (verificationToken u t).
Proof. unfold verificationToken. keeps_tac. Qed.
Lemma sf_custom t r : keeps R (assertCustomRole t r).
Proof. unfold assertCustomRole. keeps_tac. Qed.
Lemma sf_secret t : keeps R (createInviteSecret t).
Proof. unfold createInviteSecret. keeps_tac. Qed.
#[local] Hint Resolve sf_found sf_token sf_custom sf_secret : keeps.
Lemma sf_invite_one x b i : keeps R (invite_one x b i).
Proof. unfold invite_one. keeps_tac. Qed.
Lemma sf_branch t b : keeps R (assertBranch t b).
Proof. unfold assertBranch. keeps_tac. Qed.
Lemma sf_forget u : keeps R (forget u).
Proof. sf_write. Qed.
#[local] Hint Resolve sf_invite_one sf_branch sf_forget : keeps.
Lemma sf_replace_role t u r b x : keeps R (replace_role t u r b x).
Proof. unfold replace_role. keeps_tac. Qed.
Lemma sf_may t u r h b : keeps R (may_change_role t u r h b).
Proof. unfold may_change_role. keeps_tac. Qed.
Lemma sf_replace_outlets t u b ids x : keeps R (replaceOutlets t u b ids x).
Proof. unfold replaceOutlets. keeps_tac. Qed.
Lemma sf_entry x u b : keeps R (staffEntry x u b).
Proof. unfold staffEntry. keeps_tac. Qed.
Lemma sf_managed x u : keeps R (managed_outlets x u).
Proof. unfold managed_outlets. keeps_tac. Qed.
Lemma sf_generate : keeps R generateSecret.
Proof. unfold generateSecret. keeps_tac. Qed.
Lemma sf_read_account u t n : keeps R (read_account u t n).
Proof. unfold read_account. keeps_tac. Qed.
#[local] Hint Resolve sf_replace_role sf_may sf_replace_outlets sf_entry sf_managed sf_generate sf_read_account : keeps.

(** ** Every step, from the four that touch sessions *)
Definition signs_in (op : account_op) : bool :=
  match op with op_login _ _ | op_verifyMfaLogin _ _ | op_refresh _ | op_acceptInvite _ _ _ _ | op_changePassword _ _ _ => true | _ => false end.
Context (Hrevoke : forall t w, keeps R (revoke_where t w)) (Hprune : forall n t, keeps R (prune_tenant n t)) (Hdelete : forall t a, R a (delete_rows t a)).
#[local] Hint Resolve Hrevoke Hprune : keeps.
Lemma sf_delete t : keeps R (deleteOrganization t).
Proof. unfold deleteOrganization. keeps_tac. apply keeps_modify. auto. Qed.
#[local] Hint Resolve sf_delete : keeps.
Lemma sf_sweep ts : kept R (sweep_each ts).
Proof. induction ts as [|x ts IH]; simpl; [kept_tac|]. intros a. etransitivity; [|apply IH]. apply (kept_commit R), sf_delete. Qed.
Lemma sf_end t u n : keeps R (endEverything t u n).
Proof. unfold endEverything. keeps_tac. Qed.
Lemma sf_verified t u : keeps R (verified_user t u).
Proof. apply keeps_gets, _. Qed.
Lemma sf_set_active t u x b : keeps R (set_active t u x b).
Proof. unfold set_active. keeps_tac. Qed.
#[local] Hint Resolve sf_end sf_verified sf_set_active : keeps.
Lemma sf_prune_each n k ts : kept R (prune_each n k ts).
Proof. revert k. induction ts as [|t ts IH]; intros k; simpl; kept_tac. Qed.
Ltac within_req := match goal with |- R ?a (?m ?a).1 => enough (kept R m) by auto end.
Lemma run_quiet op a : signs_in op = false -> R a (run op a).
Proof.
  intros Hop. destruct op; try discriminate Hop; simpl; unfold effect.
  - unfold register. within_req; kept_tac.
  - unfold verifyEmail. destruct (jwt_verify _ _ _) as [[]|]; try apply kept_stop, _. within_req; kept_tac.
  - unfold logout, session_row. within_req; kept_tac.
  - apply sf_prune_each.
  - unfold createRole. within_req; kept_tac.
  - unfold updateRole. within_req; kept_tac.
  - unfold deleteRole. within_req; kept_tac.
  - unfold beginSetup. within_req; kept_tac.
  - unfold enable. within_req; kept_tac.
  - unfold disable, assertPassword. within_req; kept_tac.
  - unfold regenerateRecoveryCodes. within_req; kept_tac.
  - unfold resetForUser. within_req; kept_tac.
  - unfold forgot, sendResetLink. within_req; kept_tac.
  - unfold createLink. within_req; kept_tac.
  - unfold reset, use_link. within_req; kept_tac.
  - unfold bulkInvite. within_req; kept_tac.
  - unfold cancelInvite. within_req; kept_tac.
  - unfold patchStaff. within_req; kept_tac.
  - unfold setUserOutlets. within_req; kept_tac.
  - unfold current. within_req; kept_tac.
  - unfold deleteOrganizationAsOwner. within_req; kept_tac.
  - apply sf_sweep.
  - apply sf_tenants.
  - apply sf_clock.
Qed.
Context (Hbuild : forall u h, keeps R (buildLoginResult u h None)) (Hrenew : forall token t u, keeps R (renew token t u)).
#[local] Hint Resolve Hbuild Hrenew : keeps.
Lemma sf_record t u : keeps R (record_login t u).
Proof. unfold record_login, loadRolesClaim. keeps_tac. Qed.
Lemma sf_start u : keeps R (startSession u).
Proof. unfold startSession, loadRolesClaim. keeps_tac. Qed.
#[local] Hint Resolve sf_record sf_start : keeps.
Lemma run_within op a : R a (run op a).
Proof.
  destruct (signs_in op) eqn:E; [|by apply run_quiet]. destruct op; try discriminate E; simpl; unfold effect.
  - unfold login. within_req; kept_tac.
  - unfold verifyMfaLogin. destruct (jwt_verify _ _ _) as [[]|]; try apply kept_stop, _. within_req; kept_tac.
  - unfold refresh. destruct (jwt_verify _ _ _) as [[]|]; try apply kept_stop, _. within_req; kept_tac.
  - unfold acceptInvite. within_req; kept_tac.
  - unfold changePassword, change_own. within_req; kept_tac.
Qed.
End Frame.

Lemma isNone_true {A} (o : option A) : isNone o = true -> o = None.
Proof. by destruct o. Qed.
Lemma filterb_all {A} (l : list A) : List.filter (fun _ => true) l = l.
Proof. induction l as [|x l IH]; [done|]. simpl. by rewrite IH. Qed.

(** ** How sessions evolve *)
Section Evolution.
Context `{Crypto} `{!Server}.

Definition revoked (r : RefreshToken.t) : Prop := RefreshToken.revokedAt r <> None.
(** The sign-in a token belongs to; one stored before sign-ins were recorded is its own. *)
Definition session_of (r : RefreshToken.t) : string := default (RefreshToken.id r) (RefreshToken.sessionId r).
(** The hash of a token issued with the [n]-th random value. *)
Definition issued_with (n : nat) (h : string) : Prop := exists u t exp, h = hashToken (jwt_sign refresh_secret (refresh_claims u t (fresh n) exp)).
Lemma issued_inj n m h : issued_with n h -> issued_with m h -> n = m.
Proof.
  intros (u & t & e & ->) (u' & t' & e' & E). unfold hashToken in E. apply (inj sha256) in E.
  apply (f_equal (jwt_claims refresh_secret)) in E. rewrite !jwt_read in E. injection E as _ _ E _. by apply (inj fresh) in E.
Qed.
Record sessions_ok (a : Accounts) : Prop := {
  so_unique : NoDup (RefreshToken.tokenHash <$> refreshTokens a);
  so_keys : NoDup (RefreshToken.id <$> refreshTokens a);
  so_ids r n : r ∈ refreshTokens a -> (random a <= n)%nat -> RefreshToken.id r <> fresh n;
  so_sessions r n : r ∈ refreshTokens a -> (random a <= n)%nat -> RefreshToken.sessionId r <> Some (fresh n);
  so_hashes r n : r ∈ refreshTokens a -> (random a <= n)%nat -> ~ issued_with n (RefreshToken.tokenHash r);
  so_tenant r r' : r ∈ refreshTokens a -> r' ∈ refreshTokens a -> session_of r = session_of r' -> RefreshToken.tenantId r = RefreshToken.tenantId r';
  (** a token renewed into a sign-in named after it is spent *)
  so_roots r r0 : r ∈ refreshTokens a -> r0 ∈ refreshTokens a -> RefreshToken.sessionId r = Some (RefreshToken.id r0) -> RefreshToken.sessionId r0 = None -> revoked r0;
}.
Definition same_session (r r' : RefreshToken.t) : Prop :=
  RefreshToken.id r' = RefreshToken.id r /\ RefreshToken.tenantId r' = RefreshToken.tenantId r /\ RefreshToken.userId r' = RefreshToken.userId r /\
  RefreshToken.tokenHash r' = RefreshToken.tokenHash r /\ RefreshToken.sessionId r' = RefreshToken.sessionId r.
(** Where a row comes from: an older one, which stays ended if it was, or a fresh token of a new or of a live sign-in. *)
Definition row_evolves (a a' : Accounts) (r' : RefreshToken.t) : Prop :=
  (exists r, r ∈ refreshTokens a /\ same_session r r' /\ (revoked r -> revoked r')) \/
  (exists n, (random a <= n < random a')%nat /\ issued_with n (RefreshToken.tokenHash r') /\
     ((exists m, (random a <= m < random a')%nat /\ RefreshToken.sessionId r' = Some (fresh m)) \/
      (exists r, r ∈ refreshTokens a /\ ~ revoked r /\ RefreshToken.sessionId r' = Some (session_of r)))).
Definition evolves (a a' : Accounts) : Prop := (random a <= random a')%nat /\ forall r', r' ∈ refreshTokens a' -> row_evolves a a' r'.
Definition sessions_keep (a a' : Accounts) : Prop := sessions_ok a -> sessions_ok a' /\ evolves a a'.

Lemma same_session_of r r' : same_session r r' -> session_of r' = session_of r.
Proof. intros (E1 & _ & _ & _ & E2). unfold session_of. by rewrite E1, E2. Qed.
Lemma evolves_same a a' : refreshTokens a' = refreshTokens a -> (random a <= random a')%nat -> evolves a a'.
Proof. intros E Hn. split; [done|]. rewrite E. intros r Hr. left. exists r. by repeat split. Qed.
Lemma evolves_trans a b c : evolves a b -> evolves b c -> evolves a c.
Proof.
  intros [Hab Hr] [Hbc Hs]. split; [lia|]. intros r' Hr'. destruct (Hs _ Hr') as [(r & Hin & Hsame & Hrev)|(n & Hn & Hi & Hfrom)].
  - destruct (Hr _ Hin) as [(r0 & Hin0 & Hsame0 & Hrev0)|(n & Hn & Hi & Hfrom)].
    + left. exists r0. split; [done|]. split; [|auto]. unfold same_session in *. naive_solver congruence.
    + right. exists n. destruct Hsame as (_ & _ & _ & -> & ->). split; [lia|]. split; [done|]. destruct Hfrom as [(m & Hm & E)|?]; [left; exists m; split; [lia | done] | by right].
  - right. exists n. split; [lia|]. split; [done|]. destruct Hfrom as [(m & Hm & E)|(r & Hin & Hlive & E)]; [left; exists m; split; [lia | done]|].
    destruct (Hr _ Hin) as [(r0 & Hin0 & Hsame0 & Hrev0)|(k & Hk & _ & [(m & Hm & E')|(r0 & Hin0 & Hlive0 & E')])].
    + right. exists r0. split_and!; [done | tauto |]. by rewrite E, (same_session_of _ _ Hsame0).
    + left. exists m. split; [lia|]. rewrite E. unfold session_of. by rewrite E'.
    + right. exists r0. split_and!; [done..|]. rewrite E. unfold session_of at 1. by rewrite E'.
Qed.
Lemma sessions_ok_same a a' : refreshTokens a' = refreshTokens a -> (random a <= random a')%nat -> sessions_ok a -> sessions_ok a'.
Proof. intros E Hn [H1 H1' H2 H3 H4 H6 H5]. split; rewrite E; auto; intros r n Hr Hle; [apply H2 | apply H3 | apply H4]; auto; lia. Qed.
Lemma sessions_keep_same a a' : refreshTokens a' = refreshTokens a -> (random a <= random a')%nat -> sessions_keep a a'.
Proof. intros E Hn Hok. split; [by eapply sessions_ok_same | by apply evolves_same]. Qed.
#[global] Instance sessions_keep_frame : SessionFrame sessions_keep.
Proof.
  split; try (intros; by apply sessions_keep_same). 2: intros; apply sessions_keep_same; simpl; [done | lia].
  split; [intros a; by apply sessions_keep_same|].
  intros a b c Hab Hbc Hok. destruct (Hab Hok) as [Hok' He]. destruct (Hbc Hok') as [Hok'' He']. split; [done | by eapply evolves_trans].
Qed.

(** Ending and deleting rows. *)
Lemma ends_ok a a' f p : (forall r, same_session r (f r) /\ (revoked r -> revoked (f r))) ->
  refreshTokens a' = f <$> List.filter p (refreshTokens a) -> random a' = random a -> sessions_keep a a'.
Proof.
  intros Hf Et En Hok.
  assert (forall r', r' ∈ refreshTokens a' -> exists r, r ∈ refreshTokens a /\ same_session r r' /\ (revoked r -> revoked r')) as Hfrom.
  { rewrite Et. intros r' (r & -> & [Hr _]%elem_of_filterb)%list_elem_of_fmap. exists r. split; [done | apply Hf]. }
  split; [|split; [lia|]; intros r' Hr'; left; by apply Hfrom]. destruct Hok as [H1 H1' H2 H3 H4 H6 H5]. split; try rewrite En.
  - rewrite Et, <- list_fmap_compose, (list_fmap_ext _ RefreshToken.tokenHash); [by apply NoDup_fmap_filterb|].
    intros i r _. apply (Hf r).
  - rewrite Et, <- list_fmap_compose, (list_fmap_ext _ RefreshToken.id); [by apply NoDup_fmap_filterb|].
    intros i r _. apply (Hf r).
  - intros r n (r0 & Hr0 & (E & _) & _)%Hfrom Hn. rewrite E. by apply H2.
  - intros r n (r0 & Hr0 & (_ & _ & _ & _ & E) & _)%Hfrom Hn. rewrite E. by apply H3.
  - intros r n (r0 & Hr0 & (_ & _ & _ & E & _) & _)%Hfrom Hn. rewrite E. by apply H4.
  - intros r x (r1 & Hr1 & Hs1 & _)%Hfrom (x1 & Hx1 & Hs2 & _)%Hfrom E. rewrite (same_session_of _ _ Hs1), (same_session_of _ _ Hs2) in E.
    destruct Hs1 as (_ & -> & _), Hs2 as (_ & -> & _). by apply H6.
  - intros r x (r1 & Hr1 & (_ & _ & _ & _ & E1) & _)%Hfrom (x1 & Hx1 & (E2 & _ & _ & _ & E3) & Hrev)%Hfrom Es Ex.
    apply Hrev. apply (H5 r1 x1); congruence.
Qed.
Lemma sk_revoke t w : keeps sessions_keep (revoke_where t w).
Proof.
  unfold revoke_where. keeps_tac. apply keeps_modify. intros d.
  eapply (ends_ok _ _ _ (fun _ => true)); [|simpl; rewrite filterb_all; done|done].
  intros r. simpl. case_match; [|by repeat split]. by repeat split.
Qed.
Lemma sk_prune n t : keeps sessions_keep (prune_tenant n t).
Proof.
  unfold prune_tenant. keeps_tac. apply keeps_modify. intros d.
  eapply (ends_ok _ _ id); [|simpl; by rewrite list_fmap_id|done]. by repeat split.
Qed.
Lemma sk_delete t a : sessions_keep a (delete_rows t a).
Proof. eapply (ends_ok _ _ id); [|simpl; by rewrite list_fmap_id|done]. by repeat split. Qed.

(** A new row. *)
Record new_row (a : Accounts) (N : nat) (r : RefreshToken.t) : Prop := {
  nr_id : exists k, (random a <= k < N)%nat /\ RefreshToken.id r = fresh k;
  nr_hash : exists n, (random a <= n < N)%nat /\ issued_with n (RefreshToken.tokenHash r);
  nr_session : exists s, RefreshToken.sessionId r = Some s /\ (forall n, (N <= n)%nat -> s <> fresh n) /\
    forall r0, r0 ∈ refreshTokens a -> RefreshToken.sessionId r0 = None -> RefreshToken.id r0 = s -> revoked r0;
  nr_tenant r0 : r0 ∈ refreshTokens a -> session_of r0 = session_of r -> RefreshToken.tenantId r0 = RefreshToken.tenantId r;
}.
Lemma new_row_ok a a' r : new_row a (random a') r -> (random a <= random a')%nat -> refreshTokens a' = refreshTokens a ++ [r] -> sessions_ok a -> sessions_ok a'.
Proof.
  intros [(k & Hk & Eid) (n & Hn & Hh) (s & Es & Hs & Hroot) Hten] Hle Et [H1 H1' H2 H3 H4 H6 H5]. split; rewrite Et.
  - rewrite fmap_app. apply NoDup_app. split_and!; [done| |apply NoDup_singleton].
    intros h (x & -> & Hx)%list_elem_of_fmap E%list_elem_of_singleton. apply (H4 x n); [done | lia|]. by rewrite E.
  - rewrite fmap_app. apply NoDup_app. split_and!; [done| |apply NoDup_singleton].
    intros h (x & -> & Hx)%list_elem_of_fmap E%list_elem_of_singleton. apply (H2 x k); [done | lia|]. by rewrite E.
  - intros x m [Hx| ->%list_elem_of_singleton]%elem_of_app Hm; [apply H2; [done | lia]|]. rewrite Eid. intros E%(inj fresh). lia.
  - intros x m [Hx| ->%list_elem_of_singleton]%elem_of_app Hm; [apply H3; [done | lia]|]. rewrite Es. intros E. injection E. by apply Hs.
  - intros x m [Hx| ->%list_elem_of_singleton]%elem_of_app Hm; [apply H4; [done | lia]|]. intros Hh'. pose proof (issued_inj _ _ _ Hh Hh'). lia.
  - intros x y [Hx| ->%list_elem_of_singleton]%elem_of_app [Hy| ->%list_elem_of_singleton]%elem_of_app E; [by apply H6 | by apply Hten | symmetry; by apply Hten | done].
  - intros x x0 Hx [Hx0| ->%list_elem_of_singleton]%elem_of_app E E0; [|congruence].
    apply elem_of_app in Hx as [Hx| ->%list_elem_of_singleton]; [by eapply (H5 x)|]. rewrite Es in E. injection E as E. by apply Hroot.
Qed.
(** What signing someone in commits. *)
Lemma build_Ok u h o a a' res : buildLoginResult u h o a = Ok (a', res) -> exists k n r,
  (random a <= k < n)%nat /\ (n < random a')%nat /\ refreshTokens a' = refreshTokens a ++ [r] /\ users a' = users a /\
  issued_with k (RefreshToken.tokenHash r) /\ RefreshToken.tokenHash r = hashToken (refreshToken res) /\ RefreshToken.id r = fresh n /\ RefreshToken.userId r = User.id u /\ RefreshToken.tenantId r = User.tenantId u /\ RefreshToken.revokedAt r = None /\
  RefreshToken.sessionId r = Some (match o with Some s => s | None => fresh (random a) end) /\ (o = None -> (random a < k)%nat).
Proof.
  intros Hb. unfold buildLoginResult, new_value, now in Hb.
  destruct o as [s|]; m_inv; simpl;
    match goal with |- context [hashToken (jwt_sign _ (refresh_claims _ _ (fresh ?k) _))] => eexists k, (S k), _ end;
    (split; [lia|]; split; [lia|]; split; [reflexivity|]; split; [done|]; split; [by eexists _, _, _|]; split_and!; first [done | lia]).
Qed.
Lemma session_not_future a r n : sessions_ok a -> r ∈ refreshTokens a -> (random a <= n)%nat -> session_of r <> fresh n.
Proof.
  intros Hok Hr Hn. pose proof (so_ids _ Hok r n Hr Hn). pose proof (so_sessions _ Hok r n Hr Hn).
  unfold session_of. destruct (RefreshToken.sessionId r); naive_solver.
Qed.
Lemma sk_build u h : keeps sessions_keep (buildLoginResult u h None).
Proof.
  intros a a' res (k & n & r & Hk & Hn & Et & _ & Hh & _ & Eid & _ & _ & _ & Es & Hlt)%build_Ok Hok. specialize (Hlt eq_refl). split.
  - apply (new_row_ok a a' r); [|lia|done|done]. split; [exists n; split; [lia | done] | exists k; split; [lia | done]| |].
    { eexists. split; [done|]. split; [intros m Hm E%(inj fresh); lia|]. intros r0 Hr0 _ E. by destruct (so_ids _ Hok r0 (random a) Hr0). }
    intros r0 Hr0 E. destruct (session_not_future a r0 (random a)); [done..|]. rewrite E. unfold session_of. by rewrite Es.
  - split; [lia|]. rewrite Et. intros x [Hx| ->%list_elem_of_singleton]%elem_of_app; [left; exists x; by repeat split|].
    right. exists k. split; [lia|]. split; [done|]. left. exists (random a). split; [lia | done].
Qed.
Lemma revoke_Ok t w a a1 v : revoke_where t w a = Ok (a1, v) ->
  a1 = upd_refreshTokens (update_where (fun r => mine t (RefreshToken.tenantId r) && w r && isNone (RefreshToken.revokedAt r)) (RefreshToken.with_revoked (Some (clock a)))) a.
Proof. intros Hr. unfold revoke_where, now in Hr. by m_inv. Qed.
(** What renewing commits: the token is ended, and one more issued for its sign-in. *)
Lemma renew_Ok token t u a a' res : renew token t u a = Ok (a', res) -> exists row a1 v x h,
  row ∈ refreshTokens a /\ RefreshToken.tokenHash row = hashToken token /\ RefreshToken.revokedAt row = None /\ clock a < RefreshToken.expiresAt row /\ RefreshToken.userId row = u /\ RefreshToken.tenantId row = t /\
  revoke_where t (fun r => bool_decide (RefreshToken.id r = RefreshToken.id row)) a = Ok (a1, v) /\
  x ∈ users a /\ User.id x = u /\ User.tenantId x = t /\ buildLoginResult x h (Some (session_of row)) a1 = Ok (a', res).
Proof.
  intros Hr. unfold renew, session_row, assertTenantOpen, loadRolesClaim, verified_user, find_user, now in Hr. m_inv.
  symmetry in Efind0, Efind. apply find_Some in Efind0 as [Hin Hw]. apply find_Some in Efind as [Hx Hu].
  boolp. rewrite (revoke_Ok _ _ _ _ _ Hm2) in Hx. destruct Hm1 as [[?%isSome_false ?] ?].
  eexists _, _, _, _, _. split_and!; [done | tauto | done | lia | by destruct (decide (RefreshToken.userId v = u)) | tauto | done | done | tauto | tauto | done].
Qed.
Lemma revoke_rows t w a a1 v r : revoke_where t w a = Ok (a1, v) -> r ∈ refreshTokens a1 ->
  exists r0, r0 ∈ refreshTokens a /\ same_session r0 r /\ (revoked r0 -> revoked r) /\ (w r0 = true -> RefreshToken.tenantId r0 = t -> revoked r).
Proof.
  intros ->%revoke_Ok (r0 & -> & Hr0)%list_elem_of_fmap. exists r0. split; [done|].
  destruct (mine t _ && w r0 && _) eqn:E; [by repeat split|]. split; [by repeat split|]. split; [done|]. intros Hw Ht.
  unfold revoked. destruct (RefreshToken.revokedAt r0); [done|]. rewrite Hw, (proj2 (mine_true _ _) Ht) in E. done.
Qed.
Lemma renewed_root a row t a1 v : sessions_ok a -> row ∈ refreshTokens a -> RefreshToken.tenantId row = t ->
  revoke_where t (fun r => bool_decide (RefreshToken.id r = RefreshToken.id row)) a = Ok (a1, v) ->
  forall r0, r0 ∈ refreshTokens a1 -> RefreshToken.sessionId r0 = None -> RefreshToken.id r0 = session_of row -> revoked r0.
Proof.
  intros Hok Hrow Ht Hrev r0 (x & Hx & Hsame & Hkeep & Hhit)%(revoke_rows _ _ _ _ _ _ Hrev) Enone Eid.
  destruct Hsame as (Ei & _ & _ & _ & Es). rewrite Ei in Eid. rewrite Es in Enone. unfold session_of in Eid.
  destruct (RefreshToken.sessionId row) as [s|] eqn:Erow; simpl in Eid.
  - apply Hkeep. eapply (so_roots _ Hok row x); congruence.
  - apply Hhit; [by apply bool_decide_eq_true|]. rewrite (NoDup_fmap_inj _ _ x row (so_keys _ Hok)); done.
Qed.
Lemma sk_renew token t u : keeps sessions_keep (renew token t u).
Proof.
  intros a a' res (row & a1 & v & x & h & Hrow & _ & Hlive & _ & _ & Ht & Hrev & _ & _ & Ext & Hb)%renew_Ok Hok.
  destruct (sk_revoke _ _ _ _ _ Hrev Hok) as [Hok1 He1].
  pose proof (revoke_Ok _ _ _ _ _ Hrev) as E1. assert (random a1 = random a) as En by by rewrite E1.
  apply build_Ok in Hb as (k & n & r & Hk & Hn & Et & _ & Hh & _ & Eid & _ & Etr & _ & Es & _). split.
  - apply (new_row_ok a1 a' r); [|lia|done|done]. split; [exists n; split; [lia | done] | exists k; split; [lia | done]| |].
    { eexists. split; [done|]. split; [|by apply (renewed_root _ _ _ _ _ Hok Hrow Ht Hrev)]. intros m Hm. apply (session_not_future a); [done | done | lia]. }
    intros r0 (r1 & Hr1 & Hs1 & _)%(revoke_rows _ _ _ _ _ _ Hrev) E. rewrite (same_session_of _ _ Hs1) in E. destruct Hs1 as (_ & -> & _).
    rewrite Etr, Ext, <- Ht. apply (so_tenant _ Hok); [done | done|]. rewrite E. unfold session_of at 1. by rewrite Es.
  - split; [lia|]. rewrite Et. intros y [Hy| ->%list_elem_of_singleton]%elem_of_app.
    + destruct (proj2 He1 _ Hy) as [?|(n' & ? & _)]; [by left | lia].
    + right. exists k. split; [lia|]. split; [done|]. right. exists row. unfold revoked. rewrite Hlive. naive_solver.
Qed.
(** Every step keeps the session table in order, and moves it only so. *)
Lemma run_sessions op a : sessions_keep a (run op a).
Proof. apply (run_within sessions_keep); [apply issue_quiet; [apply _|]; intros; by apply sessions_keep_same | apply sk_revoke | apply sk_prune | apply sk_delete | apply sk_build | apply sk_renew]. Qed.
Lemma later_sessions a b : later a b -> sessions_ok a -> sessions_ok b.
Proof. apply later_keeps. intros op x Hx. by apply run_sessions. Qed.

(** ** Over for good *)
Definition spent (h : string) (a : Accounts) : Prop := (forall r, r ∈ refreshTokens a -> RefreshToken.tokenHash r = h -> revoked r) /\ forall n, (random a <= n)%nat -> ~ issued_with n h.
Definition over (s : string) (a : Accounts) : Prop := (forall r, r ∈ refreshTokens a -> session_of r = s -> revoked r) /\ forall n, (random a <= n)%nat -> s <> fresh n.
Lemma spent_evolves h a a' : evolves a a' -> spent h a -> spent h a'.
Proof.
  intros [Hn He] [Hs Hf]. split; [|intros n ?; apply Hf; lia]. intros r' Hr' Eh. destruct (He _ Hr') as [(r & Hr & Hsame & Hrev)|(n & ? & Hi & _)].
  - apply Hrev, Hs; [done|]. rewrite <- Eh. symmetry. apply Hsame.
  - destruct (Hf n); [lia|]. by rewrite <- Eh.
Qed.
Lemma over_evolves s a a' : evolves a a' -> over s a -> over s a'.
Proof.
  intros [Hn He] [Hs Hf]. split; [|intros n ?; apply Hf; lia].
  intros r' Hr' Es. destruct (He _ Hr') as [(r & Hr & Hsame & Hrev)|(n & _ & _ & [(m & ? & E)|(r & Hr & Hlive & E)])].
  - apply Hrev, Hs; [done|]. by rewrite <- (same_session_of _ _ Hsame).
  - destruct (Hf m); [lia|]. rewrite <- Es. unfold session_of. by rewrite E.
  - destruct Hlive. apply Hs; [done|]. rewrite <- Es. unfold session_of at 2. by rewrite E.
Qed.
Lemma later_evolves (P : Accounts -> Prop) a b : (forall x y, evolves x y -> P x -> P y) -> later a b -> sessions_ok a -> P a -> P b.
Proof.
  intros HP Hl Hok Ha. enough (sessions_ok b /\ P b) by tauto. apply (later_keeps (fun x => sessions_ok x /\ P x)) in Hl; [done| |done].
  intros op x [Hx HPx]. destruct (run_sessions op x Hx) as [? ?]. split; [done | by eapply HP].
Qed.
Lemma spent_refused h a : forall token, hashToken token = h -> spent h a -> exists e, refresh token a = (a, Err e).
Proof.
  intros token Eh [Hs _]. unfold refresh, commit. destruct (jwt_verify _ _ _) as [[| u t ? ?| |]|]; try (by eexists).
  destruct (renew token t u a) as [[a' res]|e] eqn:E; [|by eexists]. exfalso.
  apply renew_Ok in E as (row & _ & _ & _ & _ & Hrow & Ehash & Hlive & _). apply (Hs row Hrow); [by rewrite Ehash | done].
Qed.
Lemma refresh_spends a token a' res : sessions_ok a -> refresh token a = (a', Ok res) -> spent (hashToken token) a' /\ sessions_ok a'.
Proof.
  intros Hok Hr. unfold refresh, commit in Hr. destruct (jwt_verify _ _ _) as [[| u t ? ?| |]|]; try done.
  destruct (renew token t u a) as [[b res']|e] eqn:E; [|done]. injection Hr as -> ->.
  destruct (sk_renew _ _ _ _ _ _ E Hok) as [Hok' [Hn He]]. split; [|done].
  apply renew_Ok in E as (row & a1 & v & x & h & Hrow & Eh & Hlive & _ & _ & Ht & Hrev & _ & _ & _ & Hb).
  split; [|intros n ?; rewrite <- Eh; apply (so_hashes _ Hok); [done | lia]].
  apply build_Ok in Hb as (k & n & r & Hk & _ & Et & _ & Hh & _). rewrite (revoke_Ok _ _ _ _ _ Hrev) in Hk. simpl in Hk.
  rewrite Et. intros y [Hy| ->%list_elem_of_singleton]%elem_of_app Ey.
  - apply (revoke_rows _ _ _ _ _ _ Hrev) in Hy as (y0 & Hy0 & Hsame & _ & Hhit).
    assert (y0 = row) as -> by (apply (NoDup_fmap_inj _ _ _ _ (so_unique _ Hok)); [done | done | rewrite Eh, <- Ey; symmetry; apply Hsame]).
    apply Hhit; [by apply bool_decide_eq_true | done].
  - destruct (so_hashes _ Hok row k); [done | lia|]. by rewrite Eh, <- Ey.
Qed.
Lemma logout_ends a token row u jti exp s : sessions_ok a -> row ∈ refreshTokens a -> RefreshToken.tokenHash row = hashToken token ->
  jwt_claims refresh_secret token = Some (refresh_claims u (RefreshToken.tenantId row) jti exp) -> RefreshToken.sessionId row = Some s -> over s (effect (logout token) a).
Proof.
  intros Hok Hrow Eh Ejwt Es. unfold effect, logout. rewrite Ejwt. unfold commit.
  match goal with |- context [?m a] => destruct (m a) as [[a' []]|e] eqn:E end.
  2: { exfalso. revert E. unfold session_row, bind, findFirst, gets. destruct (List.find _ _); [|done]. cbv -[Z.ltb List.filter List.length Z.of_nat]. by case_match. }
  simpl. unfold session_row in E. m_inv.
  destruct (List.find _ _) as [row'|] eqn:Ef; [|pose proof (find_None _ _ row Ef Hrow) as Hf; simpl in Hf; unfold mine in Hf; by rewrite !bool_decide_true in Hf].
  apply find_Some in Ef as [Hrow' Hw]. boolp. destruct Hw as [_ Ehash].
  assert (row' = row) as -> by (apply (NoDup_fmap_inj _ _ _ _ (so_unique _ Hok)); congruence).
  m_inv. assert (over s d) as Hover; [|case_match; [unfold audit, audit_at in E|]; m_inv; exact Hover].
  split; [|intros n Hn ->; rewrite (revoke_Ok _ _ _ _ _ Hm) in Hn; by destruct (so_sessions _ Hok row n Hrow Hn)].
  intros r (r0 & Hr0 & Hsame & Hkeep & Hhit)%(revoke_rows _ _ _ _ _ _ Hm) Er. rewrite (same_session_of _ _ Hsame) in Er.
  destruct (RefreshToken.sessionId r0) as [s0|] eqn:E0.
  - apply Hhit; [|apply (so_tenant _ Hok); [done | done | rewrite Er; unfold session_of; by rewrite Es]]. rewrite Es. unfold session_of in Er. rewrite E0 in Er. simpl in Er. subst s0. rewrite (bool_decide_true (Some s = Some s)) by done. apply orb_true_r.
  - apply Hkeep, (so_roots _ Hok row r0); [done | done | | done]. unfold session_of in Er. rewrite E0 in Er. by rewrite Es, <- Er.
Qed.

(** A refresh token renews a session once. Whatever is asked of the services after a
    renewal, in any order and after any time, the token that was renewed is refused. *)
Theorem renewed_token_is_spent a token a' result b : sessions_ok a -> refresh token a = (a', Ok result) -> later a' b ->
  exists e, refresh token b = (b, Err e).
Proof.
  intros Hok Hr Hl. destruct (refresh_spends _ _ _ _ Hok Hr) as [Hs Hok']. apply (spent_refused (hashToken token)); [done|].
  revert Hl Hok' Hs. apply later_evolves, spent_evolves.
Qed.


(** ** Who gets a session *)
Definition right_password (password : string) (x : User.t) : Prop := exists h, User.passwordHash x = Some h /\ bcrypt_compare password h = true.
(** What the one asking has shown, for a session of [u]. *)
Definition proven (op : account_op) (a : Accounts) (u : string) : Prop :=
  match op with
  | op_login email password => exists x, x ∈ users a /\ User.id x = u /\ User.email x = email /\ User.deletedAt x = None /\ User.emailVerified x = true /\ User.mfaEnabledAt x = None /\
      password_ok password (Some x) = true /\ isTenantOpen (Tenant.status <$> tenant_of a (User.tenantId x)) = true
  | op_verifyMfaLogin challenge code => exists t exp a1 m n, jwt_verify refresh_secret challenge (clock a) = Some (mfa_challenge_claims u t exp) /\
      checkSecondFactor t u code a = Ok (a1, passed m n) /\ isTenantOpen (Tenant.status <$> tenant_of a1 t) = true
  | op_refresh token => exists row, row ∈ refreshTokens a /\ RefreshToken.tokenHash row = hashToken token /\ RefreshToken.userId row = u /\ RefreshToken.revokedAt row = None /\ clock a < RefreshToken.expiresAt row
  | op_acceptInvite token _ _ _ => exists t secret i, parseInviteToken token = Ok (t, secret) /\ i ∈ inviteTokens a /\ InviteToken.tenantId i = t /\ InviteToken.token i = secret /\ InviteToken.acceptedAt i = None /\ clock a <= InviteToken.expiresAt i /\
      (forall x, x ∈ users a -> User.email x <> InviteToken.email i) /\ exists n, u = fresh n /\ (random a <= n)%nat
  | op_changePassword actor old _ => sub (who actor) = u /\ exists x, x ∈ users a /\ User.id x = u /\ User.tenantId x = actor_tenant actor /\ User.deletedAt x = None /\ right_password old x
  | _ => False
  end.
(** New rows are someone's: [P] of them. *)
Definition adds (P : string -> Prop) (a a' : Accounts) : Prop := forall r', r' ∈ refreshTokens a' ->
  (exists r, r ∈ refreshTokens a /\ RefreshToken.tokenHash r = RefreshToken.tokenHash r' /\ RefreshToken.userId r = RefreshToken.userId r') \/ P (RefreshToken.userId r').
#[global] Instance adds_frame P : SessionFrame (adds P).
Proof.
  split; try (intros; intros r' Hr'; left; by exists r').
  split; [intros a r' Hr'; left; by exists r'|]. intros a b c Hab Hbc r' Hr'.
  destruct (Hbc _ Hr') as [(r & Hr & E & Eu)|?]; [|by right].
  destruct (Hab _ Hr) as [(r0 & Hr0 & E0 & Eu0)|HP]; [left; exists r0; split_and!; congruence | right; by rewrite <- Eu].
Qed.
Lemma adds_mono (P Q : string -> Prop) a a' : (forall u, P u -> Q u) -> adds P a a' -> adds Q a a'.
Proof. intros HPQ Ha r Hr. destruct (Ha r Hr); auto. Qed.
Lemma adds_build (P : string -> Prop) u h o : P (User.id u) -> keeps (adds P) (buildLoginResult u h o).
Proof.
  intros HP a a' res (k & n & r & _ & _ & Et & _ & _ & _ & _ & Eu & _)%build_Ok. rewrite <- Eu in HP. intros r'. rewrite Et.
  intros [Hr| ->%list_elem_of_singleton]%elem_of_app; [left; by exists r' | by right].
Qed.
Lemma adds_revoke P t w : keeps (adds P) (revoke_where t w).
Proof. intros a a' v Hr r' (r & Hin & Hs & _)%(revoke_rows _ _ _ _ _ _ Hr). left. exists r. destruct Hs as (_ & _ & ? & ? & _). auto. Qed.
Lemma adds_prune P n t : keeps (adds P) (prune_tenant n t).
Proof. unfold prune_tenant. keeps_tac. apply keeps_modify. intros d r' [Hr _]%elem_of_filterb. left. by exists r'. Qed.
Lemma adds_delete P t a : adds P a (delete_rows t a).
Proof. intros r' [Hr _]%elem_of_filterb. left. by exists r'. Qed.
#[local] Hint Resolve adds_build adds_revoke adds_prune : keeps.
Lemma adds_record (P : string -> Prop) t u : P (User.id u) -> keeps (adds P) (record_login t u).
Proof. intros HP. unfold record_login, loadRolesClaim, now, update_user, audit, audit_at. keeps_tac. Qed.
Lemma adds_start (P : string -> Prop) u : P (User.id u) -> keeps (adds P) (startSession u).
Proof. intros HP. unfold startSession, loadRolesClaim. keeps_tac. Qed.
#[local] Hint Resolve adds_record adds_start : keeps.

Lemma tenant_open_Ok t a a' v : assertTenantOpen t a = Ok (a', v) -> a' = a /\ isTenantOpen (Tenant.status <$> tenant_of a t) = true.
Proof. intros Ho. unfold assertTenantOpen in Ho. m_inv. by apply negb_false_iff in Hm0. Qed.
Lemma login_adds e p a a' r : login e p a = Ok (a', r) -> adds (proven (op_login e p) a) a a'.
Proof.
  intros Hl. unfold login, find_user in Hl. m_inv. destruct (password_ok p _) eqn:Ep; [|done]. rewrite Hm1 in Ep.
  apply find_Some in Hm1 as [Hx Hw]. boolp. destruct Hw as (Et & Ee & Hnd%isNone_true). apply tenant_open_Ok in Hm3 as [-> Hopen].
  destruct (isSome (User.mfaEnabledAt v1)) eqn:Emfa; [unfold now, audit, audit_at in Hl; m_inv; by apply (adds_frame _)|].
  m_inv. eapply adds_record; [|exact Hm]. exists v1. apply isSome_false in Emfa. rewrite Et. by repeat split.
Qed.
Lemma mfa_adds ch code a : adds (proven (op_verifyMfaLogin ch code) a) a (effect (verifyMfaLogin ch code) a).
Proof.
  unfold effect, verifyMfaLogin. set (P := proven _ _). destruct (jwt_verify _ _ _) as [[| |u t exp|]|] eqn:Ejwt; try apply (adds_frame P).
  unfold and_then. pose proof (sf_require (adds P) t u code a) as Hreq. destruct (requireSecondFactor t u code a) as [a1 [r|e]] eqn:Er; simpl in *; [|done].
  etransitivity; [done|]. unfold commit. match goal with |- context [?m a1] => destruct (m a1) as [[a2 v]|e] eqn:E end; [simpl|apply (adds_frame P)].
  unfold verified_user, find_user in E. m_inv. apply tenant_open_Ok in Hm1 as [-> Hopen].
  destruct (List.find _ _) as [x|] eqn:Ef; [|done]. simpl in Hm0. case_match; [|done]. injection Hm0 as ->.
  apply find_Some in Ef as [Hx Hw]. boolp. destruct Hw as [_ [[Eu _] _]].
  eapply (adds_record P); [|exact Hm2]. unfold P, proven. rewrite Eu. exists t, exp. unfold requireSecondFactor, and_then, commit in Er.
  destruct (checkSecondFactor t u code a) as [[b [m n|]]|e] eqn:Ec; [|done|done]. unfold done_with in Er. simplify_eq. by exists a1, m, n.
Qed.
Lemma refresh_adds token a : adds (proven (op_refresh token) a) a (effect (refresh token) a).
Proof.
  unfold effect, refresh. set (P := proven _ _). destruct (jwt_verify _ _ _) as [[|u t ? ?| |]|] eqn:Ejwt; try apply (adds_frame P).
  unfold commit. destruct (renew token t u a) as [[a' res]|e] eqn:E; [simpl|apply (adds_frame P)].
  apply renew_Ok in E as (row & a1 & v & x & h & Hrow & Eh & Hlive & Hexp & Eu & _ & Hrev & _ & Ex & _ & Hb).
  etransitivity; [by eapply (adds_revoke P)|]. eapply (adds_build P); [|done]. exists row. by rewrite Ex.
Qed.
Lemma change_adds actor p q a : adds (proven (op_changePassword actor p q) a) a (effect (changePassword actor p q) a).
Proof.
  unfold effect, changePassword, and_then, commit, new_salt. set (P := proven _ _). simpl.
  match goal with |- context [change_own _ _ _ _ ?a1] => destruct (change_own actor p q (bcrypt_hash q (random a)) a1) as [[a' res]|e] eqn:E end; simpl; [|apply sf_random].
  etransitivity; [apply (sf_random a)|]. unfold change_own, active_user, find_user, update_user, now in E. m_inv.
  symmetry in Efind. apply find_Some in Efind as [Hx Hw]. boolp. destruct Hw as (Et & Eu & Hnd%isNone_true).
  etransitivity; [apply (sf_users (R := adds P))|]. etransitivity; [by eapply (sf_end (adds P) (adds_revoke P))|]. etransitivity; [by eapply (sf_audit_ (adds P))|].
  eapply (adds_start P); [|exact E]. split; [done|]. exists v. split_and!; [done..|].
  destruct (User.passwordHash v) as [h|] eqn:Eh; [|done]. exists h. split; [done|]. simpl in Hm0. by case_match.
Qed.
Lemma create_user_Ok t e h n p v c a a' u : create_user t e h n p v c a = Ok (a', u) ->
  u = new_user (fresh (random a)) t e h n p v /\ (forall x, x ∈ users a -> User.email x <> e) /\ index_row a e = None /\
  a' = upd_userEmailIndex (fun l => l ++ [{| UserEmailIndex.email := e; UserEmailIndex.tenantId := t; UserEmailIndex.userId := fresh (random a) |}]) (upd_users (fun l => l ++ [u]) (upd_random S a)).
Proof.
  intros Hc. unfold create_user, new_value in Hc. m_inv. split; [done|]. split_and!; [|by apply isSome_false|done].
  intros x Hx Ex. match goal with Hm : existsb _ _ = false |- _ => apply not_true_iff_false in Hm; apply Hm end. apply existsb_exists_elem. exists x. split; [done | by apply bool_decide_eq_true].
Qed.
Lemma find_invite_Ok t s a a' i : find_invite t s a = Ok (a', i) ->
  a' = a /\ i ∈ inviteTokens a /\ InviteToken.tenantId i = t /\ InviteToken.token i = s /\ InviteToken.acceptedAt i = None /\ clock a <= InviteToken.expiresAt i.
Proof.
  intros Hf. unfold find_invite, now in Hf. m_inv. destruct (List.find _ _) as [x|] eqn:E; [|done]. simpl in Hf. case_match; [done|]. injection Hf as ->.
  apply find_Some in E as [Hi Hw]. boolp. naive_solver eauto using isSome_false.
Qed.
Lemma accept_adds token name p phone a a' r : acceptInvite token name p phone a = Ok (a', r) -> adds (proven (op_acceptInvite token name p phone) a) a a'.
Proof.
  intros Ha. set (P := proven _ _). unfold acceptInvite, find_user in Ha. m_inv. destruct v as [t secret]. m_inv.
  apply find_invite_Ok in Hm0 as (-> & Hi & Eit & Eis & Eia & Hexp). apply tenant_open_Ok in Hm1 as [-> _].
  destruct (List.find _ _); m_inv; [by eapply (sf_attach (adds P))|].
  unfold new_salt in *. m_inv. match goal with Hc : create_user _ _ _ _ _ _ _ _ = _ |- _ => apply create_user_Ok in Hc as (-> & Hnone & _ & ->) end.
  etransitivity; [apply (sf_random (R := adds P))|]. etransitivity; [apply (sf_random (R := adds P))|]. etransitivity; [apply (sf_users (R := adds P))|]. etransitivity; [apply (sf_index (R := adds P))|].
  etransitivity; [by eapply (sf_attach (adds P))|]. eapply (adds_start P); [|done].
  eexists _, _, v. split; [done|]. split_and!; [done..|]. eexists. split; [reflexivity|]. simpl. lia.
Qed.

(** C11: A session is only ever started for someone who has just proven who they are. A
    request that leaves a session for a person with a token that was not there before
    is a sign-in with the right password of an active, confirmed account without the
    second factor, in an organisation that is open; the second step, with a challenge
    for that person and a code that passed; a renewal of a live session of theirs; an
    invitation not yet used, accepted by someone with no account; or a change of
    their own password with the old one. *)
Theorem sessions_only_for_the_proven op a r : r ∈ refreshTokens (run op a) -> (forall r0, r0 ∈ refreshTokens a -> RefreshToken.tokenHash r0 <> RefreshToken.tokenHash r) ->
  proven op a (RefreshToken.userId r).
Proof.
  intros Hr Hnew. assert (adds (proven op a) a (run op a)) as Hadds; [|destruct (Hadds r Hr) as [(r0 & Hr0 & E & _)|?]; [by destruct (Hnew r0) | done]].
  destruct (signs_in op) eqn:E; [|apply (run_quiet (adds _)); auto using adds_revoke, adds_prune, adds_delete; apply issue_quiet; [apply _|]; intros; intros r' Hr'; left; by exists r'].
  destruct op; try discriminate E; simpl run.
  - unfold effect, commit. destruct (login _ _ a) as [[a' x]|] eqn:El; [by eapply login_adds | apply (adds_frame _)].
  - apply mfa_adds.
  - apply refresh_adds.
  - unfold effect, commit. destruct (acceptInvite _ _ _ _ a) as [[a' x]|] eqn:El; [by eapply accept_adds | apply (adds_frame _)].
  - apply change_adds.
Qed.
End Evolution.
