(* ===== verification/SampleAccounts.v ===== *)
(** An organisation to try the account services on: a signature scheme, hashes and
    random values that can be computed with, its owner, a manager and a clerk. *)
From stdpp Require Import pretty countable.
From Stdlib Require Import Ascii.
From S2P Require Import Prelude Transactions Json Authority Totp Accounts SecondFactor SignIn Membership Passwords Staff AccountHistory Sessions.
Local Open Scope Z_scope.

(** ** A platform *)
#[global] Instance HeldRole_countable : Countable HeldRole :=
  inj_countable' (fun r => (branchId r, role r)) (fun p => {| branchId := p.1; role := p.2 |}) ltac:(by intros []).
Definition claims_code : Type := (string * string * string * list HeldRole * Z) + (string * string * string * Z) + (string * string * Z) + (string * string * Z).
Definition claims_to (c : Claims) : claims_code :=
  match c with
  | access_claims u t e r x => inl (inl (inl (u, t, e, r, x)))
  | refresh_claims u t j x => inl (inl (inr (u, t, j, x)))
  | mfa_challenge_claims u t x => inl (inr (u, t, x))
  | email_verify_claims u t x => inr (u, t, x)
  end.
Definition claims_from (c : claims_code) : Claims :=
  match c with
  | inl (inl (inl (u, t, e, r, x))) => access_claims u t e r x
  | inl (inl (inr (u, t, j, x))) => refresh_claims u t j x
  | inl (inr (u, t, x)) => mfa_challenge_claims u t x
  | inr (u, t, x) => email_verify_claims u t x
  end.
#[global] Instance Claims_eq_dec : EqDecision Claims.
Proof. solve_decision. Defined.
#[global] Instance Claims_countable : Countable Claims := inj_countable' claims_to claims_from ltac:(by intros []).
Fixpoint bits (p : positive) : string := match p with xH => "" | xO p => String "0" (bits p) | xI p => String "1" (bits p) end.
Fixpoint unbits (s : string) : positive := match s with EmptyString => xH | String c s => if bool_decide (c = "1"%char) then xI (unbits s) else xO (unbits s) end.
Lemma unbits_bits p : unbits (bits p) = p.
Proof. induction p as [p IH|p IH|]; simpl; by rewrite ?IH. Qed.
Definition key_char (k : Secret) : ascii := match k with access_secret => "a"%char | refresh_secret => "r"%char end.
Definition toy_sign (k : Secret) (c : Claims) : string := String (key_char k) (bits (encode c)).
Definition toy_claims (k : Secret) (s : string) : option Claims :=
  match s with String c s => if bool_decide (c = key_char k) then decode (unbits s) else None | EmptyString => None end.
Lemma toy_read k c : toy_claims k (toy_sign k c) = Some c.
Proof. simpl. rewrite bool_decide_true by done. by rewrite unbits_bits, decode_encode. Qed.
Definition toy_fresh (n : nat) : string := "0123456789abcdef0123456789abcdef" +:+ pretty n.
#[global] Instance toy_fresh_inj : Inj (=) (=) toy_fresh.
Proof. intros n m E. unfold toy_fresh in E. apply (inj (String.append _)) in E. by apply (inj pretty) in E. Qed.
Definition toy_hash (password : string) (salt : nat) : string := "$" +:+ password.
Definition toy_compare (password hash : string) : bool := bool_decide (hash = "$" +:+ password).
Lemma toy_right p salt : toy_compare p (toy_hash p salt) = true.
Proof. by apply bool_decide_eq_true. Qed.
#[global] Instance toy_crypto : Crypto := {|
  fresh := toy_fresh; random_bytes n := Z.of_nat <$> List.seq n 20; random_positions n := [[1; 2; 3; 4; 5; 6; 7; 8; 9; 10]];
  bcrypt_hash := toy_hash; bcrypt_compare := toy_compare; bcrypt_right := toy_right;
  sha256 s := s; sha256_inj := ltac:(by intros x y); hmac_sha1 := TotpWitness.toy_hmac;
  encrypt s := s; decrypt s := s; decrypt_encrypt := ltac:(done);
  jwt_sign := toy_sign; jwt_claims := toy_claims; jwt_read := toy_read |}.
#[global] Instance toy_server : Server := {| JWT_ACCESS_TTL := 900; JWT_REFRESH_TTL := 604800; mail_delivers := true; mail_sent _ := true; webUrl s := "https://app" +:+ s |}.

(** ** An organisation *)
Definition org : string := "00000000-0000-4000-8000-000000000001".
Definition person (id email : string) (mfa : option Z) : User.t :=
  {| User.id := id; User.tenantId := org; User.email := email; User.passwordHash := Some ("$Secret-" +:+ id); User.name := id; User.phone := None; User.emailVerified := true; User.lastLoginAt := None; User.deletedAt := None;
     User.mfaSecret := if isSome mfa then Some (base32Encode rfc_secret) else None; User.mfaEnabledAt := mfa; User.mfaLastUsedStep := None; User.mfaFailedAttempts := 0; User.mfaLockedUntil := None; User.mfaRecoveryCodes := ["abcde23456"] |}.
Definition system_role (name : string) : Role.t := {| Role.id := "role-" +:+ name; Role.tenantId := org; Role.name := name; Role.isSystem := true; Role.permissions := None |}.
Definition assignment (u name : string) (b : option string) : UserBranchRole.t :=
  {| UserBranchRole.id := "as-" +:+ u; UserBranchRole.tenantId := org; UserBranchRole.userId := u; UserBranchRole.roleId := "role-" +:+ name; UserBranchRole.branchId := b; UserBranchRole.assignedBy := None |}.
Definition sample : Accounts := {|
  clock := 1700000000000; random := 1;
  tenants := [{| Tenant.id := org; Tenant.subdomain := "org"; Tenant.groupName := "Org"; Tenant.status := active; Tenant.country := None; Tenant.isDemo := false; Tenant.demoExpiresAt := None |}];
  userEmailIndex := (fun u => {| UserEmailIndex.email := u +:+ "@x"; UserEmailIndex.tenantId := org; UserEmailIndex.userId := u |}) <$> ["olu"; "mia"; "cid"];
  users := [person "olu" "olu@x" None; person "mia" "mia@x" (Some 1690000000000); person "cid" "cid@x" None];
  roleTable := system_role <$> SYSTEM_ROLE_NAMES;
  userBranchRoles := [assignment "olu" "owner" None; assignment "mia" "manager" (Some "b1"); assignment "cid" "front_desk" (Some "b1")];
  inviteTokens := []; refreshTokens := []; passwordResetTokens := [];
  branches := [{| Branch.id := "b1"; Branch.tenantId := org; Branch.name := "One"; Branch.deletedAt := None |}]; outlets := []; userOutlets := []; auditLogs := []; openAccounts := ∅ |}.
Definition owner_actor : Actor := {| actor_tenant := org; who := {| sub := "olu"; roles := [{| branchId := None; role := "owner" |}]; apiKey := None |} |}.
Definition manager_actor : Actor := {| actor_tenant := org; who := {| sub := "mia"; roles := [{| branchId := Some "b1"; role := "manager" |}]; apiKey := None |} |}.

(** Someone signs in: the session, and the token that renews it. *)
Definition signed : Accounts := run (op_login "cid@x" "Secret-cid") sample.
Definition cid_token : string := match (commit (login "cid@x" "Secret-cid") sample).2 with Ok (signed_in r) => refreshToken r | _ => "" end.
Lemma sample_sessions_ok : sessions_ok sample.
Proof. split; simpl; try constructor; by intros ? ? ?%elem_of_nil. Qed.
Lemma signed_sessions_ok : sessions_ok signed.
Proof. apply run_sessions, sample_sessions_ok. Qed.

(** ** The theorems at work *)
Definition renewed : Accounts * res LoginResult := refresh cid_token signed.
Definition renewed_result : LoginResult := match renewed.2 with Ok r => r | Err _ => {| accessToken := ""; refreshToken := ""; login_user := {| auth_id := ""; auth_tenantId := ""; auth_email := ""; auth_name := ""; auth_roles := [] |} |} end.
Lemma renewed_token_is_spent_witness : is_ok renewed.2 = true /\ exists e, refresh cid_token (run (op_tick 60) renewed.1) = (run (op_tick 60) renewed.1, Err e).
Proof.
  split; [vm_compute; reflexivity|]. apply (renewed_token_is_spent signed cid_token renewed.1 renewed_result).
  - apply signed_sessions_ok.
  - vm_compute. reflexivity.
  - apply rtc_once. by exists (op_tick 60).
Defined.
Definition cid_row : RefreshToken.t := match refreshTokens signed with r :: _ => r | [] => {| RefreshToken.id := ""; RefreshToken.tenantId := ""; RefreshToken.userId := ""; RefreshToken.tokenHash := ""; RefreshToken.sessionId := None; RefreshToken.expiresAt := 0; RefreshToken.revokedAt := None |} end.
Lemma sessions_only_for_the_proven_witness : proven (op_login "cid@x" "Secret-cid") sample (RefreshToken.userId cid_row).
Proof. apply (sessions_only_for_the_proven (op_login "cid@x" "Secret-cid") sample cid_row); [vm_compute; left | by intros r0 ?%elem_of_nil]. Defined.

(** A token from before sign-ins were recorded: the renewal that crosses with its sign-out survives it. *)
Definition legacy_row : RefreshToken.t := {| RefreshToken.id := "legacy"; RefreshToken.tenantId := org; RefreshToken.userId := "cid"; RefreshToken.tokenHash := RefreshToken.tokenHash cid_row; RefreshToken.sessionId := None; RefreshToken.expiresAt := RefreshToken.expiresAt cid_row; RefreshToken.revokedAt := None |}.
Definition legacy : Accounts := upd_refreshTokens (fun _ => [legacy_row]) signed.
Definition successor_token (r : res LoginResult) : string := match r with Ok r => refreshToken r | Err _ => "" end.
Lemma legacy_sign_out_leaves_successor :
  let crossed := refresh cid_token legacy in
  let out := effect (logout cid_token) crossed.1 in
  is_ok crossed.2 = true /\ is_ok (refresh (successor_token crossed.2) out).2 = true.
Proof. vm_compute. done. Qed.
