(* ===== verification/Lockout.v ===== *)
(** Guessing a second factor: how many codes are ever looked at. *)
From S2P Require Import Prelude Transactions Json Authority Totp Accounts SecondFactor SignIn AccountHistory Sessions SampleAccounts.
Local Open Scope Z_scope.

Section Lockout.
Context `{Crypto}.

(** The account a check reads. *)
Definition account_row (t u : string) (x : User.t) : bool := mine t (User.tenantId x) && (bool_decide (User.id x = u) && not_deleted x).
Definition account (t u : string) (a : Accounts) : option User.t := List.find (account_row t u) (users a).
Definition locked_at (now_ : Z) (x : User.t) : bool := match User.mfaLockedUntil x with Some l => now_ <? l | None => false end.
(** An attempt that comes [wait] milliseconds after the one before; the code is looked at when the account is not locked. *)
Record attempt := { wait : nat; typed : string }.
Definition looked_at (t u : string) (a : Accounts) : bool := match account t u a with Some x => negb (locked_at (clock a) x) | None => false end.
(** The answers to a list of attempts, each with whether its code was looked at. *)
Fixpoint attempts (t u : string) (l : list attempt) (a : Accounts) : list (bool * res SecondFactorResult) :=
  match l with
  | [] => []
  | x :: l =>
      let a := upd_clock (fun c => c + Z.of_nat (wait x)) a in
      let r := commit (checkSecondFactor t u (typed x)) a in
      (looked_at t u a, r.2) :: attempts t u l r.1
  end.
Definition wrong (r : res SecondFactorResult) : bool := match r with Ok (failed _ _) => true | _ => false end.
Definition guesses (l : list (bool * res SecondFactorResult)) : Z := Z.of_nat (length (List.filter fst l)).
Definition duration (l : list attempt) : Z := zsum (Z.of_nat ∘ wait <$> l).

Lemma find_update {A} (p w : A -> bool) f l : (forall x, w x = true -> p (f x) = p x) -> List.find p (update_where w f l) = (fun x => if w x then f x else x) <$> List.find p l.
Proof.
  intros Hp. induction l as [|x l IH]; [done|]. simpl. destruct (w x) eqn:E; [rewrite Hp by done|]; destruct (p x) eqn:Ex; simpl; rewrite ?E; done.
Qed.
Lemma update_none {A} (w : A -> bool) f l : List.filter w l = [] -> update_where w f l = l.
Proof. induction l as [|x l IH]; [done|]. simpl. destruct (w x); [done|]. intros E. f_equal. by apply IH. Qed.
Lemma one_hit (t i : string) (w : User.t -> bool) l : NoDup (User.id <$> l) -> (length (List.filter (fun x => mine t (User.tenantId x) && (bool_decide (User.id x = i) && w x)) l) <= 1)%nat.
Proof.
  intros Hnd. apply (NoDup_fmap_filterb _ (fun x => mine t (User.tenantId x) && (bool_decide (User.id x = i) && w x))) in Hnd.
  destruct (List.filter _ l) as [|x [|y k]] eqn:E; simpl; try lia.
  assert (forall z, z ∈ x :: y :: k -> User.id z = i) as Hz by (intros z; rewrite <- E; intros [_ Hz]%elem_of_filterb; boolp; tauto).
  pose proof (Hz x ltac:(set_solver)). pose proof (Hz y ltac:(set_solver)). rewrite !fmap_cons in Hnd. apply NoDup_cons in Hnd as [Hn _]. destruct Hn. apply list_elem_of_In. left. congruence.
Qed.
(** An update that hits no row, or is counted as one. *)
Lemma update_users_Ok t i w f a a' n : NoDup (User.id <$> users a) -> update_users_where t (fun x => bool_decide (User.id x = i) && w x) f a = Ok (a', n) -> n = 1 \/ (n = 0 /\ users a' = users a /\ clock a' = clock a).
Proof.
  intros Hnd Hu. unfold update_users_where in Hu. m_inv. pose proof (one_hit t i w _ Hnd) as Hone.
  destruct (List.filter _ (users _)) as [|x [|y k]] eqn:E; simpl in *; [right | left; lia | lia].
  split_and!; [done| |done]. by apply update_none.
Qed.
Lemma accept_none t x code n a a' : NoDup (User.id <$> users a) -> accept_code t x code n a = Ok (a', None) -> users a' = users a /\ clock a' = clock a.
Proof.
  intros Hnd Ha. unfold accept_code in Ha. case_match; [|case_match]; m_inv; [|..|done].
  - case_match; m_inv; [|done]. by apply update_users_Ok in Hm1 as [->|(-> & ? & ?)].
  - case_match; unfold audit, audit_at in *; m_inv; [done|]. by apply update_users_Ok in Hm as [->|(-> & ? & ?)].
Qed.
Lemma accept_passed t x code n a a' r : accept_code t x code n a = Ok (a', Some r) -> exists m k, r = passed m k.
Proof.
  intros Ha. unfold accept_code in Ha. repeat (case_match; m_inv); try done; try (eexists _, _; done).
  all: repeat case_match; simplify_eq; by eexists _, _.
Qed.
(** A wrong code: refused unseen while locked; else one more failure on record. *)
Lemma check_wrong t u code a a' l n x : NoDup (User.id <$> users a) -> account t u a = Some x -> isSome (User.mfaEnabledAt x) && isSome (User.mfaSecret x) = true ->
  checkSecondFactor t u code a = Ok (a', failed l n) ->
  clock a' = clock a /\ User.id <$> users a' = User.id <$> users a /\
  account t u a' = Some (if locked_at (clock a) x then x else
    record_failure (User.mfaFailedAttempts x + 1) (if MFA_MAX_FAILED_ATTEMPTS <=? User.mfaFailedAttempts x + 1 then Some (clock a + MFA_LOCK_MINUTES * 60000) else None) x).
Proof.
  intros Hnd Hx Hon Hc. unfold checkSecondFactor, loadUser, active_user, find_user, now in Hc. m_inv.
  assert (v0 = x) as -> by (unfold account, account_row in Hx; congruence). apply andb_true_iff in Hon as [H1 H2].
  unfold isSome in H1, H2. rewrite (proj1 (negb_true_iff _) H1), (proj1 (negb_true_iff _) H2) in Hc. simpl in Hc. fold (locked_at (clock d) x) in Hc.
  destruct (locked_at (clock d) x); m_inv; [done|].
  destruct v as [r|]; [apply accept_passed in Hm as (m & k & ->); m_inv; done|].
  apply accept_none in Hm as [Eu Ec]; [|done]. unfold update_user, audit, audit_at in Hc. m_inv. simpl. rewrite Eu. split; [done|]. split.
  - unfold update_where. rewrite <- list_fmap_compose. apply list_fmap_ext. intros i y _. simpl. case_match; [|done]. unfold record_failure. by case_match.
  - unfold account. simpl. rewrite Eu, find_update; [|intros y _; unfold record_failure; by case_match]. fold (account t u d). rewrite Hx. simpl.
    apply find_Some in Hx as [_ Hw]. unfold account_row in Hw. boolp. destruct Hw as (-> & -> & _). unfold mine. by rewrite !bool_decide_true.
Qed.
Definition mfa_on (x : User.t) : bool := isSome (User.mfaEnabledAt x) && isSome (User.mfaSecret x).
(** An account being attacked: on record once, with two-step sign-in on. *)
Definition under_attack (t u : string) (a : Accounts) (x : User.t) : Prop :=
  NoDup (User.id <$> users a) /\ account t u a = Some x /\ mfa_on x = true /\ 0 <= User.mfaFailedAttempts x.
Definition after_wrong (now_ : Z) (x : User.t) : User.t :=
  if locked_at now_ x then x
  else record_failure (User.mfaFailedAttempts x + 1) (if MFA_MAX_FAILED_ATTEMPTS <=? User.mfaFailedAttempts x + 1 then Some (now_ + MFA_LOCK_MINUTES * 60000) else None) x.
Lemma attempt_wrong t u a x y l : under_attack t u a x -> forallb (wrong ∘ snd) (attempts t u (y :: l) a) = true ->
  let now_ := clock a + Z.of_nat (wait y) in exists a', clock a' = now_ /\ under_attack t u a' (after_wrong now_ x) /\
  forallb (wrong ∘ snd) (attempts t u l a') = true /\ guesses (attempts t u (y :: l) a) = (if locked_at now_ x then 0 else 1) + guesses (attempts t u l a').
Proof.
  intros (Hnd & Hx & Hon & Hf) Hw. cbn [attempts forallb] in Hw. apply andb_true_iff in Hw as [Hw Hws].
  set (a1 := upd_clock _ a) in *. exists (commit (checkSecondFactor t u (typed y)) a1).1. cbn [attempts]. fold a1.
  unfold commit in *. destruct (checkSecondFactor t u (typed y) a1) as [[a' [|l' n]]|e] eqn:E; try done. simpl in *.
  apply (check_wrong t u _ a1 a' _ _ x) in E as (Ec & Ei & Ea); [|done..]. rewrite Ec. split; [done|]. split; [|split; [done|]].
  - split; [by rewrite Ei|]. split; [exact Ea|]. unfold after_wrong, record_failure. repeat case_match; simpl; split; first [done | lia | exact Hon].
  - unfold guesses. simpl. unfold looked_at. change (account t u a1) with (account t u a). rewrite Hx. simpl. destruct (locked_at _ x); simpl; lia.
Qed.
Lemma locked_out t u l a x until : under_attack t u a x -> User.mfaLockedUntil x = Some until -> clock a + duration l < until ->
  forallb (wrong ∘ snd) (attempts t u l a) = true -> guesses (attempts t u l a) = 0.
Proof.
  revert a. induction l as [|y l IH]; intros a Hx Hl Hd Hw; [done|].
  assert (duration (y :: l) = Z.of_nat (wait y) + duration l) as Ed by done. assert (0 <= duration l) by (apply zsum_nonneg, Forall_fmap, Forall_forall; simpl; lia).
  destruct (attempt_wrong _ _ _ _ _ _ Hx Hw) as (a' & Ec & Hx' & Hw' & ->).
  assert (locked_at (clock a + Z.of_nat (wait y)) x = true) as Elock by (unfold locked_at; rewrite Hl; apply Z.ltb_lt; lia).
  unfold after_wrong in Hx'. rewrite Elock in *. rewrite (IH a'); [done | done | done | lia | done].
Qed.
Lemma guesses_left t u l a x : under_attack t u a x -> duration l < MFA_LOCK_MINUTES * 60000 -> forallb (wrong ∘ snd) (attempts t u l a) = true ->
  guesses (attempts t u l a) <= Z.max 1 (MFA_MAX_FAILED_ATTEMPTS - User.mfaFailedAttempts x).
Proof.
  revert a x. induction l as [|y l IH]; intros a x Hx Hd Hw; [unfold guesses; simpl; lia|].
  assert (duration (y :: l) = Z.of_nat (wait y) + duration l) as Ed by done.
  destruct (attempt_wrong _ _ _ _ _ _ Hx Hw) as (a' & Ec & Hx' & Hw' & ->). unfold after_wrong in Hx'.
  destruct (locked_at _ x); [rewrite Z.add_0_l; apply IH; [done | lia | done]|].
  destruct (MFA_MAX_FAILED_ATTEMPTS <=? User.mfaFailedAttempts x + 1) eqn:E; boolp.
  - rewrite (locked_out _ _ _ _ _ (clock a + Z.of_nat (wait y) + MFA_LOCK_MINUTES * 60000) Hx'); [lia | done | lia | done].
  - apply IH in Hx' as Hle; [|lia|done]. unfold MFA_MAX_FAILED_ATTEMPTS in *. simpl in Hle. lia.
Qed.

End Lockout.

(** Seven wrong codes, a second apart: five are looked at. *)
Definition wrong_codes : list attempt := (fun c => {| wait := 1000; typed := c |}) <$> ["000001"; "000002"; "zzzzz-99999"; "000004"; "hello"; "000006"; "000007"].
