(* ===== verification/ResetLinks.v ===== *)
(** Reset links: what a request can do to them, and that using one ends every
    session of the account, and the link itself, for good. *)
From S2P Require Import Prelude Transactions Json Authority Totp Accounts SecondFactor SignIn Membership Passwords Staff AccountHistory Sessions SampleAccounts Lockout.
Local Open Scope Z_scope.

Section Links.
Context `{Crypto} `{!Server}.

Abbreviation used r := (PasswordResetToken.usedAt r <> None).
Definition linked_with (n : nat) (h : string) : Prop := h = hashSecret (fresh n).
Record links_ok (a : Accounts) : Prop := {
  lo_unique : NoDup (PasswordResetToken.tokenHash <$> passwordResetTokens a);
  lo_hashes r n : r ∈ passwordResetTokens a -> (random a <= n)%nat -> ~ linked_with n (PasswordResetToken.tokenHash r);
}.
Definition same_link (r r' : PasswordResetToken.t) : Prop := PasswordResetToken.tokenHash r' = PasswordResetToken.tokenHash r /\ (used r -> used r').
Definition links_evolve (a a' : Accounts) : Prop := (random a <= random a')%nat /\ forall r', r' ∈ passwordResetTokens a' ->
  (exists r, r ∈ passwordResetTokens a /\ same_link r r') \/ (exists n, (random a <= n < random a')%nat /\ linked_with n (PasswordResetToken.tokenHash r')).
Definition links_keep (a a' : Accounts) : Prop := links_ok a -> links_ok a' /\ links_evolve a a'.

Lemma links_same a a' : passwordResetTokens a' = passwordResetTokens a -> (random a <= random a')%nat -> links_keep a a'.
Proof.
  intros E Hn [H1 H2]. split.
  - split; rewrite E; [done|]. intros r n Hr Hle. apply H2; [done | lia].
  - split; [done|]. rewrite E. intros r Hr. left. by exists r.
Qed.
Lemma links_update a w n : links_keep a (upd_passwordResetTokens (update_where w (PasswordResetToken.with_used (Some n))) a).
Proof.
  intros [H1 H2]. assert (forall r', r' ∈ update_where w (PasswordResetToken.with_used (Some n)) (passwordResetTokens a) -> exists r, r ∈ passwordResetTokens a /\ same_link r r') as Hfrom.
  { intros r' (r & -> & Hr)%list_elem_of_fmap. exists r. split; [done|]. by case_match. }
  split; [|split; [done|]; intros r' Hr'; left; by apply Hfrom]. split; simpl.
  - unfold update_where. rewrite <- list_fmap_compose, (list_fmap_ext _ PasswordResetToken.tokenHash); [done|]. intros i r _. simpl. by case_match.
  - intros r k (r0 & Hr0 & [-> _])%Hfrom. by apply H2.
Qed.
#[global] Instance links_keep_frame : SessionFrame links_keep.
Proof.
  split; try (intros; by apply links_same); [|intros; apply links_same; simpl; [done | lia] | intros; apply links_update].
  split; [intros a; by apply links_same|]. intros a b c Hab Hbc Hok. destruct (Hab Hok) as [Hok1 [Hn1 He1]]. destruct (Hbc Hok1) as [Hok2 [Hn2 He2]].
  split; [done|]. split; [lia|]. intros r' Hr'. destruct (He2 _ Hr') as [(r & Hr & [E Hu])|(n & ? & E)]; [|right; exists n; split; [lia | done]].
  destruct (He1 _ Hr) as [(r0 & Hr0 & [E0 Hu0])|(n & ? & E0)]; [left; exists r0; split; [done|]; split; [congruence | auto]|].
  right. exists n. split; [lia|]. by rewrite E.
Qed.
Lemma links_issue u n c : keeps links_keep (issue u n c).
Proof.
  intros a a' l Hi. unfold issue, now, use_links, new_value in Hi. m_inv.
  match goal with |- context [upd_passwordResetTokens (update_where ?w ?f) ?d] => transitivity (upd_passwordResetTokens (update_where w f) d); [apply links_update|]; generalize (upd_passwordResetTokens (update_where w f) d) end.
  intros a1.
  intros [H1 H2]. split.
  - split; simpl.
    + rewrite fmap_app. apply NoDup_app. split_and!; [done| |apply NoDup_singleton].
      intros h (x & -> & Hx)%list_elem_of_fmap E%list_elem_of_singleton. by apply (H2 x (random a1)).
    + intros r k [Hr| ->%list_elem_of_singleton]%elem_of_app Hk; [apply H2; [done | lia]|]. intros E%(inj sha256)%(inj fresh). lia.
  - split; [simpl; lia|]. intros r' [Hr| ->%list_elem_of_singleton]%elem_of_app; [left; by exists r'|]. right. exists (random a1). simpl. split; [lia | done].
Qed.
Lemma links_revoke t w : keeps links_keep (revoke_where t w).
Proof. intros x x' v ->%revoke_Ok. by apply links_same. Qed.
Lemma links_build u h o : keeps links_keep (buildLoginResult u h o).
Proof. unfold buildLoginResult, now. pose proof (sf_new_value links_keep). keeps_tac. apply keeps_modify. intros d. by apply links_same. Qed.
Lemma links_delete t a : links_keep a (delete_rows t a).
Proof.
  intros [H1 H2]. split; [split|split; [done|]]; simpl.
  - by apply NoDup_fmap_filterb.
  - intros r n [Hr _]%elem_of_filterb. by apply H2.
  - intros r [Hr _]%elem_of_filterb. left. by exists r.
Qed.
Lemma run_links op a : links_keep a (run op a).
Proof.
  apply (run_within links_keep); [apply links_issue | apply links_revoke | | apply links_delete | intros; apply links_build |].
  - intros n t. unfold prune_tenant. keeps_tac. apply keeps_modify. intros d. by apply links_same.
  - intros token t u. unfold renew, session_row, now, verified_user, find_user, assertTenantOpen, loadRolesClaim. pose proof links_revoke. pose proof links_build. keeps_tac.
Qed.
Lemma later_links (P : Accounts -> Prop) a b : (forall x y, links_evolve x y -> P x -> P y) -> later a b -> links_ok a -> P a -> P b.
Proof.
  intros HP Hl Hok Ha. enough (links_ok b /\ P b) by tauto. apply (later_keeps (fun x => links_ok x /\ P x)) in Hl; [done| |done].
  intros op x [Hx HPx]. destruct (run_links op x Hx) as [? ?]. split; [done | by eapply HP].
Qed.
(** ** A link that is used up *)
Definition used_up (h : string) (a : Accounts) : Prop := (forall r, r ∈ passwordResetTokens a -> PasswordResetToken.tokenHash r = h -> used r) /\ forall n, (random a <= n)%nat -> ~ linked_with n h.
Lemma used_up_evolves h a a' : links_evolve a a' -> used_up h a -> used_up h a'.
Proof.
  intros [Hn He] [Hs Hf]. split; [|intros n ?; apply Hf; lia]. intros r' Hr' Eh. destruct (He _ Hr') as [(r & Hr & [E Hu])|(n & ? & E)].
  - apply Hu, Hs; [done|]. by rewrite <- E.
  - destruct (Hf n); [lia|]. by rewrite <- Eh.
Qed.
(** What using a link commits. *)
Lemma use_link_Ok t secret hash a a' : links_ok a -> use_link t secret hash a = Ok (a', tt) -> exists row x,
  row ∈ passwordResetTokens a /\ PasswordResetToken.tokenHash row = hashSecret secret /\ PasswordResetToken.tenantId row = t /\ PasswordResetToken.usedAt row = None /\ clock a < PasswordResetToken.expiresAt row /\
  account t (PasswordResetToken.userId row) a = Some x /\ (forall r, r ∈ refreshTokens a' -> RefreshToken.userId r = User.id x -> RefreshToken.tenantId r = t -> revoked r) /\
  (forall r, r ∈ passwordResetTokens a' -> PasswordResetToken.tokenHash r = hashSecret secret -> used r) /\
  account t (PasswordResetToken.userId row) a' = Some (set_password hash (isNone (PasswordResetToken.createdBy row)) x).
Proof.
  intros Hok Hu. unfold use_link, now, active_user, find_user in Hu. m_inv.
  destruct (List.find _ (passwordResetTokens _)) as [row|] eqn:Ef; [|done]. simpl in Hm1. destruct (isSome _ || _) eqn:Eu; [done|]. injection Hm1 as <-.
  apply find_Some in Ef as [Hrow Hw]. boolp. destruct Hw as [Et Eh], Eu as [Eu%isSome_false Hexp]. symmetry in Efind.
  unfold update_user, endEverything, use_links, audit, audit_at in *. m_inv.
  pose proof (revoke_Ok _ _ _ _ _ Hm) as E1.
  exists row, v5. do 5 (split; [done|]). split; [exact Efind|]. pose proof Efind as Efind0. apply find_Some in Efind as [Hin Hx]. boolp. destruct Hx as (Etx & Eidx & Hnd). split_and!.
  - intros r (r0 & Hr0 & (_ & E2 & E3 & _) & _ & Hhit)%(revoke_rows _ _ _ _ _ _ Hm) Er Etr. apply Hhit; [apply bool_decide_eq_true|]; congruence.
  - simpl. rewrite E1. intros r (r1 & -> & (r0 & -> & Hr0)%list_elem_of_fmap)%list_elem_of_fmap Er.
    assert (PasswordResetToken.tokenHash r0 = PasswordResetToken.tokenHash row) as E0 by (rewrite Eh; revert Er; by repeat case_match).
    assert (r0 = row) as -> by by apply (NoDup_fmap_inj _ _ _ _ (lo_unique _ Hok)).
    match goal with |- context [if ?c then PasswordResetToken.with_used _ row else row] => assert (c = true) as -> end; [unfold mine; by rewrite Eu, !bool_decide_true|]. match goal with |- context [if ?c then _ else _] => destruct c end; simpl; done.
  - unfold account. simpl. rewrite E1. simpl. rewrite find_update; [|intros y _; unfold set_password, account_row; by case_match].
    unfold account_row. simpl in Efind0. rewrite Efind0. simpl. unfold mine. by rewrite !bool_decide_true.
Qed.
Lemma reset_refused token secret t a : parse_link LINK_INVALID token = Ok (t, secret) -> used_up (hashSecret secret) a -> forall password, (reset token password a).2 = Err LINK_INVALID.
Proof.
  intros Ep [Hs _] password. unfold reset. rewrite Ep. unfold and_then, commit, new_salt. simpl. unfold use_link, now, bind, gets, findFirst, gets. simpl.
  destruct (List.find _ _) as [row|] eqn:E; [|done]. apply find_Some in E as [Hrow Hw]. boolp. destruct Hw as [_ Eh]. simpl.
  pose proof (Hs row Hrow Eh). by destruct (PasswordResetToken.usedAt row).
Qed.

(** C13: Using a reset link shuts everyone else out. A reset that succeeds was asked for with
    a link on record, unused and not expired, of an active account, whose password is
    the new one afterwards; and whatever follows, the link is refused, and so is every
    session token the account had. *)
Theorem password_reset_ends_sessions a token password a' b : sessions_ok a -> links_ok a -> reset token password a = (a', Ok tt) -> later a' b ->
  exists t secret row x, parse_link LINK_INVALID token = Ok (t, secret) /\ row ∈ passwordResetTokens a /\ PasswordResetToken.tokenHash row = hashSecret secret /\
  PasswordResetToken.usedAt row = None /\ clock a < PasswordResetToken.expiresAt row /\ account t (PasswordResetToken.userId row) a = Some x /\
  (exists x', account t (User.id x) a' = Some x' /\ right_password password x' /\ User.mfaEnabledAt x' = User.mfaEnabledAt x) /\
  (forall again, (reset token again b).2 = Err LINK_INVALID) /\
  forall r old, r ∈ refreshTokens a -> RefreshToken.userId r = User.id x -> RefreshToken.tenantId r = t -> RefreshToken.tokenHash r = hashToken old -> exists e, refresh old b = (b, Err e).
Proof.
  intros Hso Hlo Hr Hl. pose proof (run_sessions (op_reset token password) a Hso) as [Hso' He]. pose proof (run_links (op_reset token password) a Hlo) as [Hlo' Hle].
  simpl in Hso', He, Hlo', Hle. unfold effect in *. rewrite Hr in Hso', He, Hlo', Hle. simpl in *.
  unfold reset in Hr. destruct (parse_link LINK_INVALID token) as [[t secret]|] eqn:Ep; [|done]. unfold and_then, commit, new_salt in Hr. simpl in Hr.
  destruct (use_link _ _ _ _) as [[a1 []]|] eqn:E; [|done]. injection Hr as ->.
  apply use_link_Ok in E as (row & x & Hrow & Eh & Et & Eu & Hexp & Hx & Hsess & Hlink & Hx'); [|by apply (links_same a); simpl; [|lia|]].
  simpl in Hrow, Hexp. assert (User.id x = PasswordResetToken.userId row) as Eid by (apply find_Some in Hx as [_ Hw]; unfold account_row in Hw; boolp; tauto).
  exists t, secret, row, x. do 6 (split; [done|]). split; [|split].
  - rewrite Eid. eexists. split; [exact Hx'|]. split; [|unfold set_password; by case_match]. exists (bcrypt_hash password (random a)). split; [unfold set_password; by case_match | apply bcrypt_right].
  - apply (reset_refused token secret t); [done|]. apply (later_links (used_up _) a' b (used_up_evolves _) Hl Hlo').
    split; [done|]. intros n Hn. rewrite <- Eh. apply (lo_hashes _ Hlo); [done|]. destruct Hle. lia.
  - intros r old Hin Er Etr Ehr. apply (spent_refused (RefreshToken.tokenHash r)); [done|]. apply (later_evolves (spent _) a' b (spent_evolves _) Hl Hso').
    split; [|intros n Hn; apply (so_hashes _ Hso); [done | destruct He; lia]].
    intros r' Hr' Ehash. destruct (proj2 He _ Hr') as [(r0 & Hr0 & Hsame & _)|(n & Hn & Hi & _)].
    + destruct Hsame as (_ & E2 & E3 & E4 & _). assert (r0 = r) as -> by (apply (NoDup_fmap_inj _ _ _ _ (so_unique _ Hso)); [done | done | congruence]). apply Hsess; congruence.
    + destruct (so_hashes _ Hso r n); [done | lia|]. by rewrite <- Ehash.
Qed.
End Links.

(** Cid forgot the password: the link from the mail, used. *)
Definition asked : Accounts := run (op_forgot "cid@x") signed.
Definition cid_link : string := org +:+ "." +:+ fresh 4.
Definition reset_state : Accounts := run (op_reset cid_link "New-Secret-1") asked.
Lemma asked_ok : sessions_ok asked /\ links_ok asked.
Proof.
  split; [apply run_sessions, signed_sessions_ok|]. apply run_links, run_links. split; [constructor | by intros r n ?%elem_of_nil].
Qed.
Lemma password_reset_ends_sessions_witness : (exists e, refresh cid_token reset_state = (reset_state, Err e)) /\ (forall again, (reset cid_link again reset_state).2 = Err LINK_INVALID).
Proof.
  destruct (password_reset_ends_sessions asked cid_link "New-Secret-1" reset_state reset_state) as (t & secret & row & x & Ep & Hrow & Eh & _ & _ & Hx & _ & Hagain & Hold);
    [apply asked_ok | apply asked_ok | vm_compute; reflexivity | apply rtc_refl |]. split; [|exact Hagain].
  assert (t = org) as -> by (vm_compute in Ep; by injection Ep as <- _).
  assert (PasswordResetToken.userId row = "cid") as Eu by (vm_compute in Hrow; apply list_elem_of_singleton in Hrow; by rewrite Hrow).
  assert (User.id x = "cid") as Ex by (rewrite Eu in Hx; vm_compute in Hx; by injection Hx as <-).
  apply (Hold cid_row); [vm_compute; left | rewrite Ex; vm_compute; reflexivity | vm_compute; reflexivity | vm_compute; reflexivity].
Defined.
