(* ===== verification/Ownership.v ===== *)
(** An organisation has one owner, from the day it signs up: no request gives the
    role to anyone else, takes it from its holder, or shuts the holder out. *)
From S2P Require Import Prelude Transactions Json Authority Totp Accounts SecondFactor SignIn Membership Passwords Staff AccountHistory Sessions SampleAccounts Lockout.
Import StaffAuthority Permissions.
Local Open Scope Z_scope.

Section Ownership.
Context `{Crypto} `{!Server} (t rid uid : string).

(** The owner role [rid] of the organisation [t], held by [uid] and by nobody else. *)
Record owner_ok (a : Accounts) : Prop := {
  ok_tenant n : (random a <= n)%nat -> t <> fresh n;
  ok_role_id n : (random a <= n)%nat -> rid <> fresh n;
  ok_role : exists r, r ∈ roleTable a /\ Role.tenantId r = t /\ Role.id r = rid;
  ok_roles r : r ∈ roleTable a -> Role.tenantId r = t -> (Role.id r = rid <-> Role.name r = "owner") /\ (Role.id r = rid -> Role.isSystem r = true);
  ok_held : exists x, x ∈ userBranchRoles a /\ UserBranchRole.tenantId x = t /\ UserBranchRole.roleId x = rid /\ UserBranchRole.userId x = uid;
  ok_only x : x ∈ userBranchRoles a -> UserBranchRole.tenantId x = t -> UserBranchRole.roleId x = rid -> UserBranchRole.userId x = uid;
  ok_invites i : i ∈ inviteTokens a -> InviteToken.tenantId i = t -> InviteToken.roleId i <> rid;
  ok_user : exists u, u ∈ users a /\ User.tenantId u = t /\ User.id u = uid;
  ok_active u : u ∈ users a -> User.tenantId u = t -> User.id u = uid -> User.deletedAt u = None;
}.
Definition owned (a a' : Accounts) : Prop := owner_ok a -> owner_ok a'.
#[global] Instance owned_preorder : PreOrder owned.
Proof. split; [by intros a Ha|]. intros a b c Hab Hbc Ha. auto. Qed.

(** Writes that the ownership does not look at. *)
Lemma owned_same a a' : roleTable a' = roleTable a -> userBranchRoles a' = userBranchRoles a -> inviteTokens a' = inviteTokens a -> users a' = users a -> (random a <= random a')%nat -> owned a a'.
Proof. intros E1 E2 E3 E4 Hn [O1 O2 O3 O4 O5 O6 O7 O8 O9]. split; rewrite ?E1, ?E2, ?E3, ?E4; auto; intros n ?; [apply O1 | apply O2]; lia. Qed.
Definition same_person (u u' : User.t) : Prop := User.id u' = User.id u /\ User.tenantId u' = User.tenantId u /\ User.deletedAt u' = User.deletedAt u.
Lemma owned_update_users w f a : (forall u, same_person u (f u)) -> owned a (upd_users (update_where w f) a).
Proof.
  intros Hf [O1 O2 O3 O4 O5 O6 O7 (u & Hu & Et & Ei) O9]. split; auto.
  - exists (if w u then f u else u). split; [apply list_elem_of_fmap; eauto|]. destruct (w u); [|done]. destruct (Hf u) as (-> & -> & _). done.
  - intros u' (u0 & -> & Hu0)%list_elem_of_fmap. destruct (w u0); [|auto]. destruct (Hf u0) as (-> & -> & ->). auto.
Qed.
Lemma owned_add_user u a : User.deletedAt u = None -> owned a (upd_users (fun l => l ++ [u]) a).
Proof.
  intros Hd [O1 O2 O3 O4 O5 O6 O7 (u0 & Hu0 & E) O9]. split; auto.
  - exists u0. split; [apply elem_of_app; by left | done].
  - intros u' [Hu'| ->%list_elem_of_singleton]%elem_of_app; auto.
Qed.
Lemma owned_add_role r a : (Role.tenantId r = t -> Role.id r <> rid /\ Role.name r <> "owner") -> owned a (upd_roleTable (fun l => l ++ [r]) a).
Proof.
  intros Hr [O1 O2 (r0 & Hr0 & E) O4 O5 O6 O7 O8 O9]. split; auto.
  - exists r0. split; [apply elem_of_app; by left | done].
  - intros r' [Hr'| ->%list_elem_of_singleton]%elem_of_app Et; [auto|]. destruct (Hr Et). split; [split|]; done.
Qed.
Lemma owned_add_assignment x a : (UserBranchRole.tenantId x = t -> UserBranchRole.roleId x <> rid) -> owned a (upd_userBranchRoles (fun l => l ++ [x]) a).
Proof.
  intros Hx [O1 O2 O3 O4 (x0 & Hx0 & E) O6 O7 O8 O9]. split; auto.
  - exists x0. split; [apply elem_of_app; by left | done].
  - intros x' [Hx'| ->%list_elem_of_singleton]%elem_of_app Et Er; [auto|]. by destruct (Hx Et).
Qed.
Lemma owned_invites f a : (forall i, i ∈ f (inviteTokens a) -> InviteToken.tenantId i = t -> (exists i0, i0 ∈ inviteTokens a /\ InviteToken.tenantId i0 = t /\ InviteToken.roleId i0 = InviteToken.roleId i) \/ InviteToken.roleId i <> rid) ->
  owned a (upd_inviteTokens f a).
Proof.
  intros Hf [O1 O2 O3 O4 O5 O6 O7 O8 O9]. split; auto. intros i Hi Et. destruct (Hf i Hi Et) as [(i0 & Hi0 & Et0 & <-)|?]; auto.
Qed.
Lemma owned_drop_invites p a : owned a (upd_inviteTokens (List.filter p) a).
Proof. apply owned_invites. intros i [Hi _]%elem_of_filterb Et. left. by exists i. Qed.

Ltac owned_write :=
  apply keeps_modify; intros;
  first [ by apply owned_same; simpl; first [done | lia] | apply owned_update_users; intros u; by repeat split | by apply owned_add_user | apply owned_drop_invites ].
#[local] Hint Extern 5 (keeps owned (modify _)) => owned_write : keeps.
Lemma ow_new_value : keeps owned new_value.
Proof. unfold new_value. keeps_tac. Qed.
Lemma ow_new_salt : keeps owned new_salt.
Proof. unfold new_salt. keeps_tac. Qed.
Lemma ow_audit_at t' b u x y z : keeps owned (audit_at t' b u x y z).
Proof. owned_write. Qed.
Lemma ow_audit t' u x y z : keeps owned (audit t' u x y z).
Proof. apply ow_audit_at. Qed.
Lemma ow_update_user t' u f : (forall x, same_person x (f x)) -> keeps owned (update_user t' u f).
Proof. intros Hf. apply keeps_modify. intros a. by apply owned_update_users. Qed.
Lemma ow_update_users t' w f : (forall x, same_person x (f x)) -> keeps owned (update_users_where t' w f).
Proof. intros Hf. unfold update_users_where. keeps_tac. apply keeps_modify. intros d. by apply owned_update_users. Qed.
Lemma ow_gets {A} (f : Accounts -> A) : keeps owned (gets f).
Proof. apply keeps_gets, _. Qed.
#[local] Hint Resolve ow_new_value ow_new_salt ow_audit_at ow_audit ow_gets : keeps.
#[local] Hint Extern 5 (keeps owned (update_user _ _ _)) => apply ow_update_user; intros; by repeat split : keeps.
#[local] Hint Extern 5 (keeps owned (update_users_where _ _ _)) => apply ow_update_users; intros; by repeat split : keeps.
Lemma ow_build u h o : keeps owned (buildLoginResult u h o).
Proof. unfold buildLoginResult, now. keeps_tac. Qed.
Lemma ow_revoke t' w : keeps owned (revoke_where t' w).
Proof. unfold revoke_where, now. keeps_tac. Qed.
Lemma ow_record t' u : keeps owned (record_login t' u).
Proof. pose proof ow_build. unfold record_login, loadRolesClaim, now. keeps_tac. Qed.
#[local] Hint Resolve ow_build ow_revoke ow_record : keeps.
Lemma ow_record_failure n l x : same_person x (record_failure n l x).
Proof. unfold record_failure. case_match; by repeat split. Qed.
Lemma ow_check t' u code : keeps owned (checkSecondFactor t' u code).
Proof.
  unfold checkSecondFactor, loadUser, active_user, find_user, now, accept_code. keeps_tac.
  apply ow_update_user. intros x. apply ow_record_failure.
Qed.
#[local] Hint Resolve ow_check : keeps.
Lemma ow_require t' u code : kept owned (requireSecondFactor t' u code).
Proof. unfold requireSecondFactor. kept_tac. Qed.
Lemma ow_tenant_open t' : keeps owned (assertTenantOpen t').
Proof. unfold assertTenantOpen. keeps_tac. Qed.
Lemma ow_issue u n c : keeps owned (issue u n c).
Proof. unfold issue, now, use_links. keeps_tac. Qed.
Lemma ow_updated t' u f : (forall x, same_person x (f x)) -> keeps owned (updated_user t' u f).
Proof. intros Hf. pose proof (ow_update_user t' u f Hf). unfold updated_user, find_user. keeps_tac. Qed.
#[local] Hint Resolve ow_require ow_tenant_open ow_issue : keeps.
#[local] Hint Extern 5 (keeps owned (updated_user _ _ _)) => apply ow_updated; intros; by repeat split : keeps.

(** ** Who is given what *)
Lemma owned_bind {A B} (Q : A -> Prop) (m : M A) (k : A -> M B) : keeps owned m -> (forall d d1 x, m d = Ok (d1, x) -> owner_ok d -> Q x) -> (forall x, Q x -> keeps owned (k x)) -> keeps owned (bind m k).
Proof. intros Hm HQ Hk d d' b (d1 & x & H1 & H2)%bind_Ok Hok. eapply Hk; [by eapply HQ | done | by eapply Hm]. Qed.
Lemma keeps_for_each_in {A B} (l : list B) (a : A) body : (forall a x, x ∈ l -> keeps owned (body a x)) -> keeps owned (for_each l a body).
Proof.
  revert a. induction l as [|x l IH]; intros a Hb; simpl; [apply keeps_ret, _|].
  apply keeps_bind; [apply _ | apply Hb; by left | intros a'; apply IH; intros; apply Hb; by right].
Qed.
Lemma ow_assign t' u r b x : (t' = t -> r <> rid) -> keeps owned (assign_role t' u r b x).
Proof. intros Hr. unfold assign_role. keeps_tac. apply keeps_modify. intros d. by apply owned_add_assignment. Qed.
Lemma ow_attach t' u i : (t' = t -> InviteToken.roleId i <> rid) -> keeps owned (attachInvitedRole t' u i).
Proof.
  intros Hi. pose proof (ow_assign t' u (InviteToken.roleId i) (InviteToken.branchId i) None Hi). unfold attachInvitedRole, now. keeps_tac.
  apply keeps_modify. intros d. apply owned_invites. intros j (j0 & -> & Hj0)%list_elem_of_fmap Et. left. exists j0. revert Et. by case_match.
Qed.
Lemma ow_create_user t' e h n p v c : keeps owned (create_user t' e h n p v c).
Proof. unfold create_user. keeps_tac. Qed.
Lemma ow_create_role t' n s p : (t' = t -> n <> "owner") -> keeps owned (create_role t' n s p).
Proof.
  intros Hn d d' r Hc Hok. unfold create_role, new_value in Hc. m_inv. apply owned_add_role.
  - simpl. intros Et. split; [|by apply Hn]. by apply not_eq_sym, (ok_role_id _ Hok).
  - revert Hok. apply owned_same; simpl; first [done | lia].
Qed.
Lemma role_name_not_owner n c : assertRoleName n = Ok c -> c <> "owner".
Proof.
  unfold assertRoleName, throw_if. destruct (_ || _); [done|]. destruct (includes _ _) eqn:E; [done|]. simpl. intros Ha ->. injection Ha as Ha. rewrite Ha in E. by vm_compute in E.
Qed.
Lemma ow_find_invite t' secret : keeps owned (find_invite t' secret).
Proof. unfold find_invite, now. keeps_tac. Qed.
Lemma ow_accept token name p phone : keeps owned (acceptInvite token name p phone).
Proof.
  pose proof ow_create_user. unfold acceptInvite, find_user. apply keeps_bind_lift. intros [t' secret] _.
  apply (owned_bind (fun i => t' = t -> InviteToken.roleId i <> rid)); [apply ow_find_invite| |].
  - intros d d1 i (-> & Hi & Et & _)%find_invite_Ok Hok E. apply (ok_invites _ Hok i Hi). congruence.
  - intros i Hi. unfold startSession, loadRolesClaim. pose proof (fun u => ow_attach t' u i Hi). keeps_tac.
Qed.

(** ** Roles *)
Lemma ow_custom t' r : keeps owned (assertCustomRole t' r).
Proof. unfold assertCustomRole. keeps_tac. Qed.
Lemma custom_not_owner t' r d d1 x : assertCustomRole t' r d = Ok (d1, x) -> owner_ok d -> t' = t -> r <> rid.
Proof.
  intros Hc Hok -> ->. unfold assertCustomRole in Hc. m_inv. symmetry in Efind. apply find_Some in Efind as [Hx Hw]. boolp.
  destruct Hw as [Et Ei]. destruct (ok_roles _ Hok x Hx Et) as [_ Hs]. rewrite Hs in Hm0 by done. done.
Qed.
Lemma ow_createRole t' n p u : keeps owned (createRole t' n p u).
Proof.
  unfold createRole. apply keeps_bind_lift. intros c Hc%role_name_not_owner.
  pose proof (fun s p => ow_create_role t' c s p (fun _ => Hc)). keeps_tac.
Qed.
Lemma owned_update_roles w f a : (forall r, Role.id (f r) = Role.id r /\ Role.tenantId (f r) = Role.tenantId r) ->
  (forall r, w r = true -> Role.tenantId r = t -> Role.id r <> rid /\ (Role.name r <> "owner" -> Role.name (f r) <> "owner")) -> owned a (upd_roleTable (update_where w f) a).
Proof.
  intros Hf Hw [O1 O2 (r0 & Hr0 & E0 & E1) O4 O5 O6 O7 O8 O9]. split; auto.
  - exists (if w r0 then f r0 else r0). split; [apply list_elem_of_fmap; eauto|]. destruct (w r0); [|done]. destruct (Hf r0) as [-> ->]. done.
  - intros r (r1 & -> & Hr1)%list_elem_of_fmap Et. destruct (w r1) eqn:E; [|by apply O4]. destruct (Hf r1) as [Ei Et']. rewrite Et' in Et.
    destruct (Hw r1 E Et) as [Hne Hname]. destruct (O4 r1 Hr1 Et) as [Hiff _]. rewrite Ei. split; [split; [done|]|done]. intros Hn. destruct Hname; [naive_solver | done].
Qed.
Lemma owned_drop_roles p a : (forall r, Role.tenantId r = t -> Role.id r = rid -> p r = true) -> owned a (upd_roleTable (List.filter p) a).
Proof.
  intros Hp [O1 O2 (r0 & Hr0 & E0 & E1) O4 O5 O6 O7 O8 O9]. split; auto.
  - exists r0. split; [apply elem_of_filterb; auto | done].
  - intros r [Hr _]%elem_of_filterb. by apply O4.
Qed.
Lemma owned_drop_assignments p a : (forall x, UserBranchRole.tenantId x = t -> UserBranchRole.userId x = uid -> p x = true) -> owned a (upd_userBranchRoles (List.filter p) a).
Proof.
  intros Hp [O1 O2 O3 O4 (x0 & Hx0 & E0 & E1 & E2) O6 O7 O8 O9]. split; auto.
  - exists x0. split; [apply elem_of_filterb; auto | done].
  - intros x [Hx _]%elem_of_filterb. by apply O6.
Qed.
Lemma ow_updateRole t' r n p u : keeps owned (updateRole t' r n p u).
Proof.
  unfold updateRole. apply keeps_bind_lift. intros c Hc. apply keeps_bind_lift. intros q _.
  apply (owned_bind (fun _ => t' = t -> r <> rid)); [apply ow_custom | apply custom_not_owner|]. intros x Hr. keeps_tac.
  all: apply keeps_modify; intros d; apply owned_update_roles; [done|]; intros y Hy Ey; boolp; destruct Hy as [Et Ei].
  all: rewrite Ei; split; [apply Hr; congruence|]; intros Hn; destruct c as [c|]; [|done]; simpl.
  all: destruct n as [n|]; [|done]; simpl in Hc; destruct (assertRoleName n) eqn:E; [|done]; simpl in Hc; injection Hc as <-; by eapply role_name_not_owner.
Qed.
Lemma ow_deleteRole t' r u : keeps owned (deleteRole t' r u).
Proof.
  unfold deleteRole. apply (owned_bind (fun _ => t' = t -> r <> rid)); [apply ow_custom | apply custom_not_owner|]. intros x Hr. keeps_tac.
  apply keeps_modify. intros d. apply owned_drop_roles. intros y Ey Ei. apply negb_true_iff, andb_false_iff. destruct (decide (t' = t)) as [->|Hne].
  - right. apply bool_decide_eq_false. rewrite Ei. by apply not_eq_sym, Hr.
  - left. apply bool_decide_eq_false. congruence.
Qed.

(** ** Staff *)
Lemma owner_named a : owner_ok a -> role_name a t rid = "owner".
Proof.
  intros Hok. unfold role_name. destruct (List.find _ _) as [r|] eqn:E.
  - apply find_Some in E as [Hr Hw]. boolp. destruct Hw as [Et Ei]. simpl. by apply (ok_roles _ Hok r Hr Et).
  - destruct (ok_role _ Hok) as (r & Hr & Et & Ei). apply (find_None _ _ r) in E; [|done]. unfold mine in E. by rewrite !bool_decide_true in E.
Qed.
Lemma owner_holds a : owner_ok a -> holds "owner" (held_roles a t uid) = true.
Proof.
  intros Hok. destruct (ok_held _ Hok) as (x & Hx & Et & Er & Eu). apply existsb_exists_elem.
  eexists. split; [apply list_elem_of_fmap; exists x; split; [reflexivity|]; apply elem_of_filterb; split; [done | unfold mine; by rewrite !bool_decide_true]|].
  apply bool_decide_eq_true. simpl. rewrite Er. by apply owner_named.
Qed.
Lemma grant_not_owner actor n b x : assertMayGrant actor n b = Ok x -> n <> "owner".
Proof. intros Hg ->. unfold assertMayGrant, whyCannotGrant in Hg. by rewrite bool_decide_true in Hg. Qed.
Lemma manage_not_owner actor u held x : assertMayManageAccount actor u held = Ok x -> holds "owner" held = false.
Proof. unfold assertMayManageAccount, whyCannotManageAccount. destruct (bool_decide _); [done|]. by destruct (holds "owner" held). Qed.
Lemma change_not_owner actor u held b x : refuse_with (whyCannotChangeRoleAt actor u held b) = Ok x -> holds "owner" held = false.
Proof. unfold whyCannotChangeRoleAt. destruct (bool_decide _); [done|]. by destruct (holds "owner" held). Qed.
Lemma ow_invite_one actor b i : (actor_tenant actor = t -> invite_roleId i <> rid) -> keeps owned (invite_one actor b i).
Proof.
  intros Hi. unfold invite_one, createInviteSecret, now. keeps_tac. apply keeps_modify. intros d. apply owned_invites.
  intros j [Hj| ->%list_elem_of_singleton]%elem_of_app Et; [left; by exists j | right; by apply Hi].
Qed.
Lemma granted_all actor b (l : list Role.t) (d d1 : Accounts) x : for_each l tt (fun _ r => lift (assertMayGrant actor (Role.name r) b)) d = Ok (d1, x) -> d1 = d /\ forall r, r ∈ l -> Role.name r <> "owner".
Proof.
  revert d. induction l as [|r l IH]; intros d Hf; simpl in Hf; m_inv; [split; [done|]; by intros r ?%elem_of_nil|].
  destruct v. apply IH in Hf as [-> Hl]. split; [done|]. intros r' [->|Hr']%elem_of_cons; [by eapply grant_not_owner | auto].
Qed.
Lemma ow_bulkInvite actor b l : keeps owned (bulkInvite actor b l).
Proof.
  intros a a' res Hb Hok. unfold bulkInvite, assertBranch in Hb. m_inv.
  apply granted_all in Hm2 as [-> Hnames].
  assert (forall i, i ∈ l -> actor_tenant actor = t -> invite_roleId i <> rid) as Hids.
  { intros i Hi Et Er. destruct (ok_role _ Hok) as (r & Hr & Etr & Eir). apply (Hnames r); [|by apply (ok_roles _ Hok r Hr Etr)].
    apply elem_of_filterb. split; [done|]. apply andb_true_iff. split; [apply mine_true; congruence|].
    apply includes_spec, elem_of_unique_from. split; [|apply not_elem_of_nil]. apply list_elem_of_fmap. exists i. split; [congruence | done]. }
  eapply ow_audit_at; [exact Hm7|]. eapply (keeps_for_each_in l); [|exact Hm6|exact Hok].
  intros rows i Hi. pose proof (ow_invite_one actor b i (Hids i Hi)). keeps_tac.
Qed.
Lemma owned_set_active t' userId (o : option Z) a : (t' = t -> userId = uid -> o = None) ->
  owned a (upd_users (update_where (fun x => mine t' (User.tenantId x) && bool_decide (User.id x = userId)) (User.with_deletedAt o)) a).
Proof.
  intros Hne [O1 O2 O3 O4 O5 O6 O7 (x & Hx & Et & Ei) O9]. split; auto.
  - eexists. split; [apply list_elem_of_fmap; exists x; split; [reflexivity | done]|]. by case_match.
  - intros y (z & -> & Hz)%list_elem_of_fmap. case_match; [|by apply O9]. boolp. simpl. intros Ety Eiy. apply Hne; naive_solver congruence.
Qed.
Lemma ow_set_active t' userId u is_active : (t' = t -> userId = uid -> is_active = true) -> keeps owned (set_active t' userId u is_active).
Proof.
  intros Hne. unfold set_active, now, forget. keeps_tac. apply keeps_modify. intros d. apply owned_set_active. intros Et Eu. by rewrite Hne.
Qed.
Lemma ow_replace_role t' userId roleId b x : (t' = t -> userId <> uid /\ roleId <> rid) -> keeps owned (replace_role t' userId roleId b x).
Proof.
  intros Hne. pose proof (ow_assign t' userId roleId b (Some x) (fun E => proj2 (Hne E))). unfold replace_role, forget. keeps_tac.
  apply keeps_modify. intros d. apply owned_drop_assignments. intros y Et Eu. apply negb_true_iff. rewrite !andb_false_iff. left.
  destruct (decide (t' = t)) as [E|E]; [right; apply bool_decide_eq_false; destruct (Hne E); congruence | left; apply bool_decide_eq_false; congruence].
Qed.
Lemma ow_may actor u r h b : keeps owned (may_change_role actor u r h b).
Proof. unfold may_change_role, assertBranch. keeps_tac. Qed.
Lemma may_not_owner actor u r h b d d1 x : may_change_role actor u r h b d = Ok (d1, x) -> owner_ok d -> holds "owner" h = false /\ (actor_tenant actor = t -> r <> rid).
Proof.
  intros Hm Hok. unfold may_change_role in Hm. m_inv. split; [by eapply change_not_owner|]. intros Et ->.
  match goal with Hf : Some _ = List.find _ (roleTable _) |- _ => symmetry in Hf; apply find_Some in Hf as [Hr Hw] end. boolp. destruct Hw as [Et' Ei].
  match goal with Hg : assertMayGrant _ _ _ = Ok _ |- _ => apply grant_not_owner in Hg; apply Hg end. apply (ok_roles _ Hok _ Hr); congruence.
Qed.
Lemma ow_patchStaff actor u dto : keeps owned (patchStaff actor u dto).
Proof.
  unfold patchStaff, find_user. apply keeps_bind_lift; intros _ _. apply keeps_bind_lift; intros _ _.
  apply keeps_bind; [apply _ | keeps_tac|]. intros x.
  apply (owned_bind (fun held => actor_tenant actor = t -> u = uid -> holds "owner" held = true)); [apply ow_gets| |].
  { intros d d1 held Hg Hok Et Eu. m_inv. rewrite Et. by apply owner_holds. }
  intros held Hheld. apply (owned_bind (fun _ => isSome (patch_active dto) = true -> holds "owner" held = false)); [keeps_tac| |].
  { intros d d1 [] Hc _ Ha. rewrite Ha in Hc. m_inv. by eapply manage_not_owner. }
  intros _ Hactive. apply (owned_bind (fun _ => forall r, patch_roleId dto = Some r -> holds "owner" held = false /\ (actor_tenant actor = t -> r <> rid))).
  { pose proof ow_may. keeps_tac. }
  { intros d d1 [] Hc Hok r Er. rewrite Er in Hc. by eapply may_not_owner. }
  intros _ Hrole. assert (forall v, patch_active dto = Some v -> keeps owned (set_active (actor_tenant actor) u x v)) as Hset.
  { intros v Ev. apply ow_set_active. intros Et Eu. rewrite Ev in Hactive. rewrite Hheld in Hactive by done. discriminate (Hactive eq_refl). }
  assert (forall r, patch_roleId dto = Some r -> keeps owned (replace_role (actor_tenant actor) u r (patch_branchId dto) (sub (who actor)))) as Hrep.
  { intros r Er. destruct (Hrole r Er) as [Hno Hne]. apply ow_replace_role. intros Et. split; [|by apply Hne]. intros Eu. rewrite Hheld in Hno; done. }
  apply keeps_bind; [apply _ | keeps_tac|]. intros _. apply keeps_bind; [apply _ | destruct (patch_active dto); [by apply Hset | keeps_tac]|]. intros _.
  apply keeps_bind; [apply _ | destruct (patch_roleId dto); [by apply Hrep | keeps_tac]|]. intros _. unfold staffEntry, find_user, replaceOutlets. keeps_tac.
Qed.

(** ** Sign-up *)
Lemma ow_found dto h s : keeps owned (found_organisation dto h s).
Proof.
  unfold found_organisation, now. apply keeps_bind; [apply _ | keeps_tac|]. intros at_.
  apply (owned_bind (fun t' => t' <> t)); [apply ow_new_value | intros d d1 x Hn Hok; unfold new_value in Hn; m_inv; by apply not_eq_sym, (ok_tenant _ Hok)|].
  intros t' Hne. pose proof ow_create_user. pose proof (fun n s p => ow_create_role t' n s p (fun E => match Hne E with end)).
  pose proof (fun u r b x => ow_assign t' u r b x (fun E => match Hne E with end)). keeps_tac.
Qed.
Lemma ow_try k b : keeps owned (try_subdomains k b).
Proof. induction k as [|k IH]; simpl; unfold with_suffix; keeps_tac. Qed.
Lemma ow_prune_each n k ts : kept owned (prune_each n k ts).
Proof. revert k. induction ts as [|x ts IH]; intros k; simpl; unfold prune_tenant; kept_tac. Qed.
#[local] Hint Resolve ow_found ow_try ow_accept ow_createRole ow_updateRole ow_deleteRole ow_bulkInvite ow_patchStaff : keeps.

(** ** Other organisations deleted *)
Lemma owned_delete t' a : t' <> t -> owned a (delete_rows t' a).
Proof.
  intros Hne [O1 O2 (r & Hr & Er & Ei) O4 (x & Hx & Ex & Exr) O6 O7 (u & Hu & Eu & Eui) O9].
  assert (forall y, y = t -> negb (bool_decide (y = t')) = true) as Hkeep by (intros y ->; by apply negb_true_iff, bool_decide_eq_false).
  split; simpl; auto; try (intros ? [? _]%elem_of_filterb; auto).
  - exists r. split; [apply elem_of_filterb; auto | done].
  - exists x. split; [apply elem_of_filterb; auto | done].
  - exists u. split; [apply elem_of_filterb; auto | done].
Qed.
Lemma ow_delete t' : t' <> t -> keeps owned (deleteOrganization t').
Proof. intros Hne. unfold deleteOrganization, forget. keeps_tac. apply keeps_modify. intros d. by apply owned_delete. Qed.
Lemma ow_sweep ts : Forall (fun x => Tenant.id x <> t) ts -> kept owned (sweep_each ts).
Proof.
  induction 1 as [|x ts Hx _ IH]; simpl; [kept_tac|]. intros a. etransitivity; [|apply IH]. by apply (kept_commit owned), ow_delete.
Qed.
(** The step does not delete the organisation. *)
Definition spares (op : account_op) (a : Accounts) : Prop :=
  match op with
  | op_deleteOrganization t' _ _ _ => t' <> t
  | op_sweepDemos => forall x, x ∈ tenants a -> Tenant.id x = t -> Tenant.isDemo x = false
  | _ => True
  end.
Ltac owned_req := match goal with |- owned ?a (?m ?a).1 => cut (kept owned m); [by auto|] end; kept_tac.
Lemma run_owned op a : spares op a -> owned a (run op a).
Proof.
  intros Hspares. destruct op; simpl in *; unfold effect.
  - unfold register, generateUniqueSubdomain, verificationToken, now. owned_req.
  - unfold verifyEmail. destruct (jwt_verify _ _ _) as [[]|]; try by intros Hok. unfold active_user, find_user. owned_req.
  - unfold login, find_user, now. owned_req.
  - unfold verifyMfaLogin. destruct (jwt_verify _ _ _) as [[]|]; try by intros Hok. unfold verified_user, find_user. owned_req.
  - unfold refresh. destruct (jwt_verify _ _ _) as [[]|]; try by intros Hok. unfold renew, session_row, verified_user, find_user, now, loadRolesClaim. owned_req.
  - unfold logout, session_row. owned_req.
  - apply ow_prune_each.
  - owned_req.
  - owned_req.
  - owned_req.
  - owned_req.
  - unfold beginSetup, loadUser, active_user, find_user, generateSecret. owned_req.
  - unfold enable, loadUser, active_user, find_user, now. owned_req.
  - unfold disable, assertPassword, loadUser, active_user, find_user. owned_req.
  - unfold regenerateRecoveryCodes. owned_req.
  - unfold resetForUser, find_user. owned_req.
  - unfold forgot, sendResetLink, active_user, find_user, now. owned_req.
  - unfold createLink, active_user, find_user, now. owned_req.
  - unfold reset, use_link, active_user, find_user, now, endEverything, use_links. owned_req.
    apply ow_update_user. intros y. unfold set_password. case_match; by repeat split.
  - unfold changePassword, change_own, active_user, find_user, now, endEverything, use_links, startSession, loadRolesClaim. owned_req.
  - owned_req.
  - unfold cancelInvite. owned_req.
  - owned_req.
  - unfold setUserOutlets, active_user, find_user, replaceOutlets, managed_outlets. owned_req.
  - unfold current, read_account, active_user, find_user, now, forget. owned_req.
  - pose proof (ow_delete _ Hspares). unfold deleteOrganizationAsOwner, active_user, find_user. owned_req.
  - apply ow_sweep, Forall_forall. intros x [Hx Hw]%elem_of_filterb E. rewrite (Hspares x Hx E) in Hw. done.
  - by apply owned_same.
  - by apply owned_same.
Qed.
Definition later_sparing : Accounts -> Accounts -> Prop := rtc (fun a a' => exists op, spares op a /\ a' = run op a).
Lemma later_owned a b : later_sparing a b -> owner_ok a -> owner_ok b.
Proof. intros Hl. induction Hl as [|x y z (op & Hop & ->) _ IH]; [done|]. intros Hx. by apply IH, run_owned. Qed.
Lemma owner_alone a u : owner_ok a -> holds "owner" (held_roles a t u) = true -> u = uid.
Proof.
  intros Hok Hh. apply existsb_exists_elem in Hh as (h & (x & -> & [Hx Hw]%elem_of_filterb)%list_elem_of_fmap & Hn). boolp. destruct Hw as [Et Eu]. simpl in Hn.
  rewrite <- Eu. apply (ok_only _ Hok x Hx Et). unfold role_name in Hn. destruct (List.find _ _) as [r|] eqn:E; [|done]. simpl in Hn.
  apply find_Some in E as [Hr Hw]. boolp. destruct Hw as [Etr Eir]. rewrite <- Eir. by apply (ok_roles _ Hok r Hr Etr).
Qed.
Lemma owner_account a : owner_ok a -> exists x, account t uid a = Some x.
Proof.
  intros Hok. destruct (account t uid a) as [x|] eqn:E; [by exists x|]. destruct (ok_user _ Hok) as (u & Hu & Et & Ei).
  apply (find_None _ _ u) in E; [|done]. unfold account_row, mine, not_deleted in E. rewrite (ok_active _ Hok u Hu Et Ei), !bool_decide_true in E; done.
Qed.
End Ownership.

(** ** Requests and values taken apart *)
Lemma and_then_Ok {A B} (m : Req A) (k : A -> Req B) a b y : and_then m k a = (b, Ok y) <-> exists a1 x, m a = (a1, Ok x) /\ k x a1 = (b, Ok y).
Proof. unfold and_then. destruct (m a) as [a1 [x|e]]; naive_solver. Qed.
Lemma commit_Ok {A} (m : M A) a a' x : commit m a = (a', Ok x) -> m a = Ok (a', x).
Proof. unfold commit. destruct (m a) as [[a1 y]|e]; naive_solver. Qed.
Lemma new_value_Ok `{Crypto} d d' v : new_value d = Ok (d', v) -> v = fresh (random d) /\ d' = upd_random S d.
Proof. intros Hn. unfold new_value in Hn. by m_inv. Qed.
Lemma new_value_salt d d' v : new_salt d = Ok (d', v) -> v = random d /\ d' = upd_random S d.
Proof. intros Hn. unfold new_salt in Hn. by m_inv. Qed.

Section SignUp.
Context `{Crypto} `{!Server}.
(** No row belongs to an organisation whose id is still to be drawn. *)
Record tenants_past (a : Accounts) : Prop := {
  tp_roles r n : r ∈ roleTable a -> (random a <= n)%nat -> Role.tenantId r <> fresh n;
  tp_assignments x n : x ∈ userBranchRoles a -> (random a <= n)%nat -> UserBranchRole.tenantId x <> fresh n;
  tp_invites i n : i ∈ inviteTokens a -> (random a <= n)%nat -> InviteToken.tenantId i <> fresh n;
  tp_users u n : u ∈ users a -> (random a <= n)%nat -> User.tenantId u <> fresh n;
}.
(** The system roles of a new organisation. *)
Lemma system_roles t' l d d1 x : for_each l tt (fun _ name => do! create_role t' name true None in ret tt) d = Ok (d1, x) -> exists rs,
  roleTable d1 = roleTable d ++ rs /\ Role.name <$> rs = l /\ Forall (fun r => Role.tenantId r = t' /\ Role.isSystem r = true) rs /\
  NoDup (Role.id <$> rs) /\ Forall (fun r => exists n, Role.id r = fresh n /\ (random d <= n < random d1)%nat) rs /\
  userBranchRoles d1 = userBranchRoles d /\ users d1 = users d /\ inviteTokens d1 = inviteTokens d /\ (random d <= random d1)%nat.
Proof.
  revert d. induction l as [|name l IH]; intros d Hf; simpl in Hf; unfold create_role, new_value in Hf; m_inv.
  - exists []. rewrite app_nil_r. by repeat split; constructor.
  - match goal with Hl : for_each _ _ _ _ = Ok _ |- _ => apply IH in Hl as (rs & E1 & E2 & E3 & E4 & E5 & E6 & E7 & E8 & E9) end. simpl in *.
    eexists (_ :: rs). rewrite E1, <- app_assoc. split; [reflexivity|]. rewrite !fmap_cons, E2. cbn [Role.name Role.id]. split_and!; first [done | lia | by constructor | idtac].
    + apply NoDup_cons. split; [|done]. intros (r & E & Hr)%list_elem_of_fmap. rewrite Forall_forall in E5. destruct (E5 r Hr) as (n & En & ?). rewrite En in E. apply (inj fresh) in E. lia.
    + constructor; [eexists; split; [reflexivity | simpl; lia]|]. eapply Forall_impl; [exact E5|]. intros r (n & ? & ?). exists n. split; [done | lia].
Qed.
Lemma system_names_distinct : NoDup SYSTEM_ROLE_NAMES.
Proof. apply (bool_decide_unpack (NoDup _)). vm_compute. exact I. Qed.
(** An organisation with its roles, one assignment and one person is owned by that person. *)
Lemma founded a a' rs ro x u : tenants_past a -> let t := fresh (random a) in
  roleTable a' = roleTable a ++ rs -> Role.name <$> rs = SYSTEM_ROLE_NAMES -> Forall (fun r => Role.tenantId r = t /\ Role.isSystem r = true) rs -> NoDup (Role.id <$> rs) ->
  Forall (fun r => exists n, Role.id r = fresh n /\ (S (random a) <= n < random a')%nat) rs -> ro ∈ rs -> Role.name ro = "owner" ->
  userBranchRoles a' = userBranchRoles a ++ [x] -> UserBranchRole.tenantId x = t -> UserBranchRole.roleId x = Role.id ro -> UserBranchRole.userId x = User.id u ->
  users a' = users a ++ [u] -> User.tenantId u = t -> User.deletedAt u = None -> inviteTokens a' = inviteTokens a -> owner_ok t (Role.id ro) (User.id u) a'.
Proof.
  intros [T1 T2 T3 T4] t E1 E2 E3 E4 E5 Hro En E6 Etx Erx Eux E7 Etu Edu E8. rewrite Forall_forall in E3, E5. destruct (E5 _ Hro) as (k & Ek & Hk). destruct (E3 _ Hro) as [Etro _].
  pose proof system_names_distinct as Hnd. rewrite <- E2 in Hnd. split.
  - intros n Hn E%(inj fresh). lia.
  - rewrite Ek. intros n Hn E%(inj fresh). lia.
  - exists ro. rewrite E1. split; [apply elem_of_app; by right | done].
  - rewrite E1. intros r [Hr0|Hr0]%elem_of_app Etr; [by destruct (T1 _ _ Hr0 (le_n _))|]. split; [|intros _; by apply E3].
    split; intros E; [by rewrite (NoDup_fmap_inj _ _ r ro E4) | rewrite (NoDup_fmap_inj _ _ r ro Hnd); [done..|congruence]].
  - exists x. rewrite E6. split; [apply elem_of_app; right; by apply list_elem_of_singleton | done].
  - rewrite E6. intros y [Hy| ->%list_elem_of_singleton]%elem_of_app Ety; [by destruct (T2 _ _ Hy (le_n _)) | done].
  - rewrite E8. intros i Hi Eti. by destruct (T3 _ _ Hi (le_n _)).
  - exists u. rewrite E7. split; [apply elem_of_app; right; by apply list_elem_of_singleton | done].
  - rewrite E7. intros y [Hy| ->%list_elem_of_singleton]%elem_of_app Ety; [by destruct (T4 _ _ Hy (le_n _)) | done].
Qed.
(** Unfold the operation before running it: its loop over the role names would be run by the kernel otherwise. *)
Local Strategy expand [found_organisation].
Lemma found_owned dto h s a a' tenant owner : tenants_past a -> found_organisation dto h s a = Ok (a', (tenant, owner)) -> exists rid, owner_ok (Tenant.id tenant) rid (User.id owner) a'.
Proof.
  intros Hp Hf. unfold found_organisation, now, assign_role, audit, audit_at in Hf. m_inv.
  apply new_value_Ok in Hm0 as [-> ->]. apply new_value_Ok in Hm7 as [-> ->].
  apply system_roles in Hm2 as (rs & E1 & E2 & E3 & E4 & E5 & E6 & E7 & E8 & E9). apply create_user_Ok in Hm4 as (-> & _ & _ & ->).
  symmetry in Efind. apply find_Some in Efind as [Hr Hw]. boolp. destruct Hw as [Et En].
  rewrite E1 in Hr. apply elem_of_app in Hr as [Hr|Hr]; [by destruct (tp_roles _ Hp _ _ Hr (le_n _))|].
  exists (Role.id v3). eapply (founded d _ rs v3 _ _ Hp); [exact E1 | exact E2 | exact E3 | exact E4 | | exact Hr | exact En | cbn; by rewrite E6 | done | done | done | cbn; by rewrite E7 | done | done | exact E8].
  eapply Forall_impl; [exact E5|]. intros r (n & ? & Hn). exists n. cbn in *. split; [done | lia].
Qed.
Definition past_keep (a a' : Accounts) : Prop := tenants_past a -> tenants_past a'.
#[global] Instance past_keep_preorder : PreOrder past_keep.
Proof. split; [by intros a Ha|]. intros a b c Hab Hbc Ha. auto. Qed.
Lemma past_random a : past_keep a (upd_random S a).
Proof. intros [T1 T2 T3 T4]. split; simpl; intros x n Hx Hn; [apply T1 | apply T2 | apply T3 | apply T4]; auto; lia. Qed.
Lemma past_new_value : keeps past_keep new_value.
Proof. unfold new_value. keeps_tac. apply keeps_modify, past_random. Qed.
#[local] Hint Resolve past_new_value : keeps.
Lemma past_try k b : keeps past_keep (try_subdomains k b).
Proof. induction k as [|k IH]; simpl; unfold with_suffix; keeps_tac. Qed.
#[local] Hint Resolve past_try : keeps.
Lemma past_subdomain g : keeps past_keep (generateUniqueSubdomain g).
Proof. unfold generateUniqueSubdomain. keeps_tac. Qed.
Lemma register_owned dto a a' r : tenants_past a -> register dto a = (a', Ok r) -> exists rid, owner_ok (registered_tenant r) rid (registered_user r) a'.
Proof.
  intros Hp Hr. unfold register, verificationToken, now in Hr.
  apply and_then_Ok in Hr as (a1 & [] & H1 & Hr). apply commit_Ok in H1. m_inv.
  apply and_then_Ok in Hr as (a2 & salt & H2 & Hr). apply commit_Ok, new_value_salt in H2 as [_ ->].
  apply and_then_Ok in Hr as (a3 & sub & H3 & Hr). apply commit_Ok, past_subdomain in H3.
  apply and_then_Ok in Hr as (a4 & [tenant owner] & H4 & Hr). apply commit_Ok, found_owned in H4 as [rid Ho]; [|by apply H3, past_random].
  apply and_then_Ok in Hr as (a5 & token & H5 & Hr). apply commit_Ok in H5. m_inv. unfold done_with in Hr. injection Hr as <- <-. by exists rid.
Qed.

(** C14: An organisation has one owner, from sign-up until it is deleted. Whatever anyone in
    any organisation does meanwhile, the person who signed up holds the owner role, their account is
    never deactivated, and nobody else ever holds that role in the organisation. *)
Theorem owner_for_ever dto a a' r b : tenants_past a -> register dto a = (a', Ok r) -> later_sparing (registered_tenant r) a' b ->
  (forall u, holds "owner" (held_roles b (registered_tenant r) u) = true <-> u = registered_user r) /\ exists x, account (registered_tenant r) (registered_user r) b = Some x.
Proof.
  intros Hp Hr Hl. destruct (register_owned _ _ _ _ Hp Hr) as [rid Ho]. apply (later_owned _ _ _ _ _ Hl) in Ho. split; [|by eapply owner_account].
  intros u. split; [by apply (owner_alone _ _ _ _ _ Ho) | intros ->; by eapply owner_holds].
Qed.
End SignUp.

(** ** A sign-up *)
Definition nia : RegisterDto := {| reg_email := "nia@y"; reg_password := "Secret-nia-1"; reg_name := "Nia"; reg_phone := None; reg_groupName := "Lake & Hill Hotels"; reg_country := None; reg_isDemo := None |}.
Definition joined : Accounts * res Registered := register nia sample.
Definition joined_as : Registered := match joined.2 with Ok r => r | Err _ => {| registered_tenant := ""; registered_user := ""; registered_subdomain := ""; verificationToken_shown := None; reg_emailed := false |} end.
Example subdomain_of_nia : registered_subdomain joined_as = "lake-hill-hotels".
Proof. vm_compute. reflexivity. Qed.
Lemma org_past n : org <> fresh n.
Proof. intros E. apply (f_equal (String.substring 0 2)) in E. vm_compute in E. discriminate E. Qed.
Lemma sample_tenants_past : tenants_past sample.
Proof.
  split; intros x n Hx _; simpl in Hx; repeat (apply elem_of_cons in Hx as [->|Hx]; [apply org_past|]); by apply elem_of_nil in Hx.
Qed.
Lemma owner_for_ever_witness : registered_user joined_as <> "" /\
  (forall u, holds "owner" (held_roles (run (op_login "nia@y" "Secret-nia-1") joined.1) (registered_tenant joined_as) u) = true <-> u = registered_user joined_as).
Proof.
  split; [vm_compute; discriminate|]. apply (owner_for_ever nia sample joined.1 joined_as).
  - apply sample_tenants_past.
  - vm_compute. reflexivity.
  - apply rtc_once. by exists (op_login "nia@y" "Secret-nia-1").
Defined.
