(* ===== verification/PublicBooking.v ===== *)
(** The direct booking engine
    (src/src/modules/public-booking/public-booking.service.ts): what anybody can
    do without signing in. A web address leads to a property through an index
    that belongs to no organisation; everything after that runs in the
    organisation's own transactions. Texts (summaries, messages) and the fields
    of a property or a room type that are only shown are left out. *)
From stdpp Require Import pretty.
From Stdlib Require Import QArith Qcanon.
From S2P Require Import Accounts Prelude Decimal Json Dates StayPolicies Taxes Authority Transactions Db LoyaltyRules Packages Folios FolioLedger FolioFigures FolioPayments Notices SampleHotel Loyalty Refunds Rooms Housekeeping SalesRules Inventory Rates Guests Bookings StayChanges StayEnds Frames Lifecycle Inbox.
Import StayFees StayFeesProps.
Local Open Scope Z_scope.

(** ** Every organisation *)
(** [booking_slug_index] *)
Module BookingSlug.
Record t := { slug : string; tenantId : string; branchId : string }.
End BookingSlug.
(** The index, the organisations, and the rows of each: row-level security shows a
    transaction of a tenant that tenant's rows only, and none for a tenant there is not. *)
Record World := { slugIndex : list BookingSlug.t; organisations : list (string * TenantStatus); rows : gmap string Db }.
Definition no_rows : Db :=
  {| clock := 0; seq := 0%nat; reservationSeq := 0; loyaltyProgram := None; branches := []; taxRules := []; exchangeRates := []; roomTypes := []; corporateAccounts := [];
     reservations := []; ratePlans := []; rateAuditLogs := []; buildings := []; floors := []; rooms := []; roomBlocks := []; overbookingConfigs := []; groupBlocks := [];
     availabilityRestrictions := []; channelAllotments := []; packages := []; guestNotes := []; noShowRecords := []; walkRecords := []; housekeepingTasks := [];
     registrationCards := []; guests := []; folios := []; lineItems := []; payments := []; refunds := []; folioTransfers := []; shifts := []; posOrders := [];
     loyaltyTransactions := []; webhooks := []; webhookDeliveries := []; auditLogs := []; shiftIssues := []; outlets := []; userOutlets := []; menuItems := [];
     communicationLogs := []; users := []; userBranchRoles := []; nightAuditLogs := []; maintenanceOrders := []; assets := []; eventSpaces := []; eventBookings := [] |}.
Definition rows_of (w : World) (t : string) : Db := default no_rows (rows w !! t).
Definition upd_slugIndex (g : list BookingSlug.t -> list BookingSlug.t) (w : World) : World :=
  {| slugIndex := g (slugIndex w); organisations := organisations w; rows := rows w |}.
Definition set_rows (t : string) (d : Db) (w : World) : World :=
  {| slugIndex := slugIndex w; organisations := organisations w; rows := if isSome (rows w !! t) then <[t := d]> (rows w) else rows w |}.
Abbreviation W := (Tx World).
(** [prisma.withTenant(tenantId, ...)] *)
Definition withTenant {A} (t : string) (m : M A) : W A :=
  fun w => match m (rows_of w t) with Ok (d', a) => Ok (set_rows t d' w, a) | Err e => Err e end.

Module Public.
Definition BOOKABLE_TENANT_STATUSES : list TenantStatus := [trial; active].
Definition PRE_ARRIVAL_ELIGIBLE_STATUSES : list ReservationStatus := [confirmed].
Definition FOLIO_VISIBLE_STATUSES : list ReservationStatus := [checked_in; checked_out].

(** ** Requests *)
(** The confirmation number and the email: what proves a booking is yours. *)
Record Credentials := { confirmationNumber : string; email : string }.
Record PublicCreateReservationDto := {
  pd_roomTypeId : string; pd_checkInDate : string; pd_checkOutDate : string; pd_adults : Z; pd_children : option Z; pd_guestName : string; pd_guestEmail : string;
  pd_guestPhone : option string; pd_promoCode : option string; pd_marketingOptIn : bool; pd_acceptTerms : bool; pd_packageIds : option (list string) }.
Record PublicQuoteQueryDto := {
  qd_roomTypeId : string; qd_checkInDate : string; qd_checkOutDate : string; qd_promoCode : option string; qd_adults : option Z; qd_children : option Z; qd_packageIds : option (list string) }.
Record PreArrivalCheckInDto := {
  pa_phone : option string; pa_nationality : option string; pa_estimatedArrivalTime : option string; pa_acceptHouseRules : bool; pa_marketingOptIn : bool }.

(** ** Answers *)
Record PublicPropertyInfo := {
  pi_slug : string; pi_name : string; pi_currency : string; pi_timezone : string; pi_checkInTime : Z; pi_checkOutTime : Z; pi_policy : Cancellation.CancellationPolicy;
  pi_privacyNotice : option string; pi_bookingTerms : option string }.
Record PublicDeposit := { dp_amount : string; dp_dueDate : option Z; dp_paid : string }.
Record PublicBookingConfirmation := {
  pc_confirmationNumber : string; pc_checkInDate : Z; pc_checkOutDate : Z; pc_roomTypeName : string; pc_guestName : string; pc_totalRate : string; pc_currency : string;
  pc_deposit : option PublicDeposit }.
Record PublicBookingDetail := {
  bd_confirmationNumber : string; bd_status : ReservationStatus; bd_checkInDate : Z; bd_checkOutDate : Z; bd_adults : Z; bd_children : Z; bd_roomTypeName : string; bd_guestName : string;
  bd_guestEmail : option string; bd_guestPhoneEnding : option string; bd_totalRate : string; bd_currency : string; bd_preArrivalCompletedAt : option Z; bd_estimatedArrivalTime : option string;
  bd_houseRules : option json; bd_policy : Cancellation.CancellationPolicy; bd_deposit : option PublicDeposit; bd_property : PublicPropertyInfo }.
Record PublicQuote := {
  pq_currency : string; pq_nightlyRate : string; pq_subtotal_ : string; pq_tax : string; pq_taxIncluded : string; pq_totalWithTax : string; pq_nights : Z; pq_occupancySurcharge : string;
  pq_freeCancellationUntil : Z; pq_freeCancellationAvailable : bool; pq_packages : option PackagesQuote; pq_grandTotal : string }.
Record PublicCancellationQuote := {
  pcq_confirmationNumber : string; pcq_currency : string; pcq_canCancelOnline : bool; pcq_freeUntil : Z; pcq_withinFreeWindow : bool; pcq_charge : Qc * Qc * Qc * Qc; pcq_paidSoFar : Qc; pcq_refundDue : Qc }.
Record PublicGuestFolio := {
  gf_confirmationNumber : string; gf_currency : string; gf_lineItems : list LineItem.t; gf_payments : list Payment.t; gf_totals : FolioTotals; gf_stillAccruing : bool;
  gf_roomTotalForStay : option string; gf_otherFoliosExist : bool; gf_asOf : Z }.
Record PublicMessage := { ms_fromYou : bool; ms_body : MessageBody; ms_requestLabel : option MessageBody; ms_sentAt : Z }.
Definition toPublicMessage (row : CommunicationLog.t) : PublicMessage := {|
  ms_fromYou := from_guest row; ms_body := CommunicationLog.body row; ms_requestLabel := if from_guest row then CommunicationLog.subject row else None; ms_sentAt := CommunicationLog.sentAt row |}.

Section Public.
Context `{DecimalLib} `{TaxDb} `{Platform} `{Uuid}.

(** ** The address *)
Definition resolveBookableBranch (slug : string) : W (string * string) :=
  let! pointer := orThrow (findFirst slugIndex (fun p => bool_decide (BookingSlug.slug p = slug))) not_found in
  let t := BookingSlug.tenantId pointer in
  let b := BookingSlug.branchId pointer in
  let! _ := orThrow (withTenant t (findFirst branches (fun x => bool_decide (Branch.id x = b) && Branch.bookingEngineEnabled x && isNone (Branch.deletedAt x)))) not_found in
  let! tenant := findFirst organisations (fun o => bool_decide (fst o = t)) in
  throw! not_found when match tenant with Some o => negb (bool_decide (snd o ∈ BOOKABLE_TENANT_STATUSES)) | None => true end in
  ret (t, b).

(** [findFirstOrThrow] *)
Definition branch_row (b : string) : M Branch.t := orThrow (findFirst branches (fun x => bool_decide (Branch.id x = b))) not_found.
Definition property_info (slug b : string) : M PublicPropertyInfo :=
  let! branch := branch_row b in
  ret {| pi_slug := slug; pi_name := Branch.name branch; pi_currency := Branch.currency branch; pi_timezone := Branch.timezone branch; pi_checkInTime := Branch.checkInTime branch;
         pi_checkOutTime := Branch.checkOutTime branch; pi_policy := Cancellation.resolveCancellationPolicy (Branch.cancellationPolicy branch);
         pi_privacyNotice := Branch.privacyNotice branch; pi_bookingTerms := Branch.bookingTerms branch |}.
Definition getProperty (slug : string) : W PublicPropertyInfo :=
  let! '(t, b) := resolveBookableBranch slug in
  withTenant t (property_info slug b).

(** ** Availability and quotes *)
Definition cap_nights (left : list (string * Z)) (nights : list (string * Z)) : list (string * Z) :=
  (fun n => match List.find (fun l => bool_decide (fst l = fst n)) left with Some l => (fst n, Z.min (snd n) (snd l)) | None => n end) <$> nights.
Definition withinWebsiteAllotments (b : string) (from to : Z) (types : list (string * list (string * Z))) : M (list (string * list (string * Z))) :=
  for_each types [] (fun capped type =>
    let! left := remainingByNight b (fst type) website from to in
    ret (capped ++ [(fst type, if bool_decide (length left = 0%nat) then snd type else cap_nights left (snd type))])).
Definition getAvailability (slug from to : string) (roomTypeId : option string) : W (list (string * list (string * Z))) :=
  let! '(t, b) := resolveBookableBranch slug in
  let! since := lift (or_throw (toBranchDate from) internal) in
  let! until := lift (or_throw (toBranchDate to) internal) in
  match set_string roomTypeId with
  | None =>
      let! types := withTenant t (getAvailabilityForRange b since until) in
      withTenant t (withinWebsiteAllotments b since until types)
  | Some rt =>
      let! nights := withTenant t (Inventory.getAvailability b rt from to) in
      let! x := orThrow (withTenant t (findFirst roomTypes (type_at rt b))) not_found in
      withTenant t (withinWebsiteAllotments b since until [(RoomType.id x, nights)])
  end.

Definition getQuote (slug : string) (dto : PublicQuoteQueryDto) : W PublicQuote :=
  let! '(t, b) := resolveBookableBranch slug in
  let! '(resolution, _) := withTenant t (calculateQuote b {| cq_roomTypeId := qd_roomTypeId dto; cq_checkInDate := qd_checkInDate dto; cq_checkOutDate := qd_checkOutDate dto;
    cq_promoCode := qd_promoCode dto; cq_corporateAccountId := None; cq_adults := qd_adults dto; cq_children := qd_children dto |} None false) in
  let! checkIn := lift (or_throw (toBranchDate (qd_checkInDate dto)) internal) in
  let! checkOut := lift (or_throw (toBranchDate (qd_checkOutDate dto)) internal) in
  let nights := round_days checkIn checkOut in
  let! packages := match qd_packageIds dto with
                   | Some (_ :: _ as ids) => let! q := withTenant t (quoteForStay b (qd_roomTypeId dto) ids nights (default 1 (qd_adults dto) + default 0 (qd_children dto)) true) in ret (Some q)
                   | _ => ret None
                   end in
  let! branch := withTenant t (branch_row b) in
  let! at_ := withTenant t now in
  let! terms := lift (Cancellation.cancellationTermsFor
    {| Cancellation.confirmedRate := sr_subtotal resolution; Cancellation.overrideRate := None; Cancellation.checkInDate := checkIn; Cancellation.checkOutDate := checkOut; Cancellation.nightlyRates := None |}
    "confirmed" (Branch.timezone branch) (Branch.checkInTime branch) (Cancellation.resolveCancellationPolicy (Branch.cancellationPolicy branch)) at_) in
  let! extras := match packages with Some q => lift (new_decimal (pq_total q)) | None => ret 0%Qc end in
  ret {| pq_currency := Branch.currency branch; pq_nightlyRate := to_fixed2 (sr_nightlyRate resolution); pq_subtotal_ := to_fixed2 (sr_subtotal resolution); pq_tax := to_fixed2 (sr_taxTotal resolution);
         pq_taxIncluded := to_fixed2 (sr_taxIncluded resolution); pq_totalWithTax := to_fixed2 (sr_totalWithTax resolution); pq_nights := nights;
         pq_occupancySurcharge := to_fixed2 (sr_occupancySurcharge resolution); pq_freeCancellationUntil := Cancellation.freeUntil terms;
         pq_freeCancellationAvailable := Cancellation.withinFreeWindow terms; pq_packages := packages; pq_grandTotal := to_fixed2 (sr_totalWithTax resolution ⊕ extras) |}.

(** ** Booking *)
(** Offers: only ever turned on, and never for a guest who unsubscribed. *)
Definition may_opt_in (guestId : string) (g : GuestProfile.t) : bool :=
  guest_where guestId g && negb (GuestProfile.marketingOptIn g) && isNone (GuestProfile.marketingUnsubscribedAt g) && isNone (GuestProfile.deletedAt g).
Definition recordMarketingOptIn (guestId source : string) : M unit :=
  let! at_ := now in
  modify (upd_guests (update_where (may_opt_in guestId) (GuestProfile.with_marketing true (Some at_) (Some source) at_))).
Definition assertNotInThePast (checkInDate timezone : string) (at_ : Z) : res unit := throw_if (String.ltb checkInDate (todayInTimezone timezone at_)) invalid.
Definition termsRequired (branch : Branch.t) : bool := isSome (set_string (Branch.privacyNotice branch)) || isSome (set_string (Branch.bookingTerms branch)).
Definition stay_type (r : Reservation.t) : M RoomType.t := orThrow (findFirst roomTypes (fun x => bool_decide (RoomType.id x = Reservation.roomTypeId r))) internal.
Definition stay_guest (r : Reservation.t) : M GuestProfile.t := orThrow (findFirst guests (guest_where (Reservation.guestId r))) internal.
Definition toConfirmation (i : string) : M PublicBookingConfirmation :=
  let! full := orThrow (findFirst reservations (stay_where i)) not_found in
  let! x := stay_type full in
  let! guest := stay_guest full in
  let! branch := orThrow (findFirst branches (fun x => bool_decide (Branch.id x = Reservation.branchId full))) internal in
  ret {| pc_confirmationNumber := Reservation.confirmationNumber full; pc_checkInDate := Reservation.checkInDate full; pc_checkOutDate := Reservation.checkOutDate full;
         pc_roomTypeName := RoomType.name x; pc_guestName := GuestProfile.name guest; pc_totalRate := to_fixed2 (Reservation.confirmedRate full); pc_currency := Branch.currency branch;
         pc_deposit := (fun a => {| dp_amount := to_fixed2 a; dp_dueDate := Reservation.depositDueDate full; dp_paid := "0.00" |}) <$> Reservation.depositAmount full |}.
(** The booking of the desk, with the channel, the waitlist, the guest's id and the company fixed. *)
Definition as_booking (dto : PublicCreateReservationDto) : CreateReservationDto := {|
  cd_guestId := None; cd_guest := Some {| cg_name := pd_guestName dto; cg_email := Some (pd_guestEmail dto); cg_phone := pd_guestPhone dto |}; cd_roomTypeId := pd_roomTypeId dto;
  cd_checkInDate := pd_checkInDate dto; cd_checkOutDate := pd_checkOutDate dto; cd_adults := pd_adults dto; cd_children := pd_children dto; cd_channel := Some website; cd_joinWaitlist := false;
  cd_dayUse := false; cd_packageIds := pd_packageIds dto; cd_promoCode := pd_promoCode dto; cd_corporateAccountId := None |}.
Definition createReservation (slug : string) (dto : PublicCreateReservationDto) : W PublicBookingConfirmation :=
  let! '(t, b) := resolveBookableBranch slug in
  let! branch := withTenant t (branch_row b) in
  let! at_ := withTenant t now in
  do! lift (assertNotInThePast (pd_checkInDate dto) (Branch.timezone branch) at_) in
  throw! invalid when (termsRequired branch && negb (pd_acceptTerms dto)) in
  let! r := withTenant t (Bookings.createReservation b (as_booking dto) None None true) in
  do! (if pd_marketingOptIn dto then withTenant t (recordMarketingOptIn (Reservation.guestId r) "booking_engine") else ret tt) in
  do! (if termsRequired branch then
         withTenant t (let! agreed := now in modify (upd_reservations (update_where (stay_where (Reservation.id r)) (Reservation.with_terms (Some agreed)))))
       else ret tt) in
  withTenant t (toConfirmation (Reservation.id r)).

(** ** One's own booking *)
Definition bookingCredentialsWhere (d : Db) (b : string) (c : Credentials) (r : Reservation.t) : bool :=
  bool_decide (Reservation.branchId r = b) && bool_decide (Reservation.confirmationNumber r = js_upper (js_trim (confirmationNumber c))) && isNone (Reservation.deletedAt r) &&
  existsb (fun g => guest_where (Reservation.guestId r) g && has_email (js_trim (email c)) g) (guests d).
Definition findBooking (b : string) (c : Credentials) : M Reservation.t :=
  let! d := gets (fun d => d) in
  orThrow (findFirst reservations (bookingCredentialsWhere d b c)) not_found.
Definition deposit_paid (d : Db) (r : Reservation.t) : Qc :=
  foldl (fun sum p => sum ⊕ Payment.amount p) 0%Qc
    (List.filter (fun f => bool_decide (Folio.reservationId f = Reservation.id r) && isNone (Folio.deletedAt f)) (folios d) ≫= fun f =>
     List.filter (fun p => standing_payment (Folio.id f) p && bool_decide (Payment.paymentPurpose p = deposit)) (payments d)).
Definition booking_detail (b : string) (c : Credentials) (property : PublicPropertyInfo) : M PublicBookingDetail :=
  let! r := findBooking b c in
  let! x := stay_type r in
  let! guest := stay_guest r in
  let! branch := orThrow (findFirst branches (fun x => bool_decide (Branch.id x = Reservation.branchId r))) internal in
  let! d := gets (fun d => d) in
  ret {| bd_confirmationNumber := Reservation.confirmationNumber r; bd_status := Reservation.status r; bd_checkInDate := Reservation.checkInDate r; bd_checkOutDate := Reservation.checkOutDate r;
         bd_adults := Reservation.adults r; bd_children := Reservation.children r; bd_roomTypeName := RoomType.name x; bd_guestName := GuestProfile.name guest; bd_guestEmail := GuestProfile.email guest;
         bd_guestPhoneEnding := (fun digits => if (4 <? String.length digits)%nat then last_chars 4 digits else digits) <$> phoneDigitsOf (GuestProfile.phone guest);
         bd_totalRate := to_fixed2 (Reservation.confirmedRate r); bd_currency := Branch.currency branch; bd_preArrivalCompletedAt := Reservation.preArrivalCompletedAt r;
         bd_estimatedArrivalTime := Reservation.estimatedArrivalTime r; bd_houseRules := member "houseRules" (Branch.regCardTemplate branch);
         bd_policy := match Reservation.cancellationPolicy r with Some p => Cancellation.resolveCancellationPolicy (Some p) | None => pi_policy property end;
         bd_deposit := (fun a => {| dp_amount := to_fixed2 a; dp_dueDate := Reservation.depositDueDate r; dp_paid := to_fixed2 (deposit_paid d r) |}) <$> Reservation.depositAmount r;
         bd_property := property |}.
(** The booking is looked up before the property is read; both are reads. *)
Definition lookupBooking (slug : string) (c : Credentials) : W PublicBookingDetail :=
  let! '(t, b) := resolveBookableBranch slug in
  let! _ := withTenant t (findBooking b c) in
  let! property := getProperty slug in
  withTenant t (booking_detail b c property).

(** ** Checking in online *)
(** What the form gives that the profile lacks, and what it gives that the profile has otherwise. *)
Definition fills_phone (g : GuestProfile.t) (phone : option string) : bool := isSome phone && isNone (set_string (GuestProfile.phone g)).
Definition fills_nationality (g : GuestProfile.t) (nationality : option string) : bool := isSome nationality && isNone (set_string (GuestProfile.nationality g)).
Definition phone_differs (g : GuestProfile.t) (phone : option string) : bool := isSome phone && negb (fills_phone g phone) && negb (samePhone (GuestProfile.phone g) phone).
Definition nationality_differs (g : GuestProfile.t) (nationality : option string) : bool :=
  isSome nationality && negb (fills_nationality g nationality) && negb (bool_decide (nationality = GuestProfile.nationality g)).
Definition desk_note (r : Reservation.t) (g : GuestProfile.t) (phone nationality : option string) : string :=
  let differs := (if phone_differs g phone then ["phone " +:+ default "" phone +:+ " (on file: " +:+ default "null" (GuestProfile.phone g) +:+ ")"] else []) ++
                 (if nationality_differs g nationality then ["nationality " +:+ default "" nationality +:+ " (on file: " +:+ default "null" (GuestProfile.nationality g) +:+ ")"] else []) in
  "Online check-in for " +:+ Reservation.confirmationNumber r +:+ " gave " +:+ String.concat " and " differs +:+ ". Check which is right at arrival.".
Definition preArrival (b : string) (c : Credentials) (dto : PreArrivalCheckInDto) : M unit :=
  let! r := findBooking b c in
  let! g := stay_guest r in
  throw! status_transition when negb (bool_decide (Reservation.status r ∈ PRE_ARRIVAL_ELIGIBLE_STATUSES)) in
  let phone := trimmed (pa_phone dto) in
  let nationality := js_upper <$> trimmed (pa_nationality dto) in
  let! at_ := now in
  do! (if fills_phone g phone || fills_nationality g nationality then
         modify (upd_guests (update_where (guest_where (Reservation.guestId r)) (fun x =>
           GuestProfile.with_pre_arrival (if fills_phone g phone then phone else GuestProfile.phone x) (if fills_phone g phone then phoneDigitsOf phone else GuestProfile.phoneDigits x)
             (if fills_nationality g nationality then nationality else GuestProfile.nationality x) at_ x)))
       else ret tt) in
  do! (if phone_differs g phone || nationality_differs g nationality then
         modify (upd_guestNotes (fun l => l ++ [{| GuestNote.guestId := Reservation.guestId r; GuestNote.authorId := None; GuestNote.body := desk_note r g phone nationality |}]))
       else ret tt) in
  do! (if pa_marketingOptIn dto then recordMarketingOptIn (Reservation.guestId r) "guest_portal" else ret tt) in
  do! modify (upd_reservations (update_where (stay_where (Reservation.id r)) (Reservation.with_pre_arrival (Some at_) (Some at_) (pa_estimatedArrivalTime dto)))) in
  auditLog (Some b) None "reservation.pre_arrival_completed" "reservation" (Reservation.id r).
Definition preArrivalCheckIn (slug : string) (c : Credentials) (dto : PreArrivalCheckInDto) : W PublicBookingDetail :=
  let! '(t, b) := resolveBookableBranch slug in
  throw! invalid when negb (pa_acceptHouseRules dto) in
  do! withTenant t (preArrival b c dto) in
  lookupBooking slug c.

(** ** Cancelling online *)
Definition assertGuestCancellable (s : ReservationStatus) : res unit := throw_if (negb (includes (status_name s) Cancellation.CANCELLABLE_STATUSES)) status_transition.
(** Whether something stands in the way; the reason's text is left out. *)
Definition onlineCancellationBlock (quote : CancellationQuote) : bool :=
  negb (Cancellation.allowOnlineCancellation (cq_policy quote)) || Cancellation.pastCheckInTime (cq_terms quote).
Definition quote_own (b : string) (c : Credentials) : M (Reservation.t * CancellationQuote) :=
  let! r := findBooking b c in
  do! lift (assertGuestCancellable (Reservation.status r)) in
  let! at_ := now in
  let! quote := quoteCancellationInTx (Reservation.id r) at_ in
  ret (r, quote).
Definition getCancellationQuote (slug : string) (c : Credentials) : W PublicCancellationQuote :=
  let! '(t, b) := resolveBookableBranch slug in
  let! property := getProperty slug in
  let! '(r, quote) := withTenant t (quote_own b c) in
  ret {| pcq_confirmationNumber := Reservation.confirmationNumber r; pcq_currency := pi_currency property; pcq_canCancelOnline := negb (onlineCancellationBlock quote);
         pcq_freeUntil := Cancellation.freeUntil (cq_terms quote); pcq_withinFreeWindow := Cancellation.withinFreeWindow (cq_terms quote);
         pcq_charge := (cq_penaltyAmount quote, cq_penaltyTax quote, cq_penaltyTaxIncluded quote, cq_penaltyTotal quote); pcq_paidSoFar := cq_paidSoFar quote; pcq_refundDue := cq_refundDue quote |}.
Definition cancel_own (b : string) (c : Credentials) (acknowledged : Qc) : M Qc :=
  let! '(r, quote) := quote_own b c in
  throw! conflict when onlineCancellationBlock quote in
  let! '(_, _, charged) := cancelInTx (Reservation.id r) {| co_actorId := None; co_waiver := None; co_acknowledgedPenaltyTotal := Some acknowledged |} in
  ret charged.
Definition cancelBooking (slug : string) (c : Credentials) (acknowledged : Qc) : W (PublicBookingDetail * Qc * string) :=
  let! '(t, b) := resolveBookableBranch slug in
  let! property := getProperty slug in
  let! charged := withTenant t (cancel_own b c acknowledged) in
  let! booking := lookupBooking slug c in
  ret (booking, charged, pi_currency property).

(** ** Writing to the property *)
Definition getGuestMessages (slug : string) (c : Credentials) : W (string * string * list PublicMessage) :=
  let! '(t, b) := resolveBookableBranch slug in
  let! property := getProperty slug in
  withTenant t (let! r := findBooking b c in
                let! thread := guestThreadInTx (Reservation.id r) in
                ret (Reservation.confirmationNumber r, pi_name property, toPublicMessage <$> thread)).
Definition write_in (b : string) (c : Credentials) (body : string) (requestType : option GuestRequestType) : M (string * list PublicMessage * bool) :=
  let! r := findBooking b c in
  let! branch := orThrow (findFirst branches (fun x => bool_decide (Branch.id x = Reservation.branchId r))) internal in
  let! _ := logGuestMessageInTx b (Reservation.id r) (Reservation.guestId r) body requestType in
  let! onTheBoard := match requestType, Reservation.roomId r with
                     | Some housekeeping_request, Some roomId =>
                         if bool_decide (Reservation.status r = checked_in) && nonempty roomId then
                           let! today := branch_today branch in
                           let! _ := createTaskInTx b {| to_roomId := roomId; to_priority := Some 2;
                             to_notes := Some (String.substring 0 1000 ("Guest request (" +:+ Reservation.confirmationNumber r +:+ "): " +:+ body)); to_triggerEvent := "guest_request";
                             to_reservationId := Some (Reservation.id r); to_taskDate := today; to_actorId := None |} in
                           ret true
                         else ret false
                     | _, _ => ret false
                     end in
  let! thread := guestThreadInTx (Reservation.id r) in
  ret (Reservation.confirmationNumber r, toPublicMessage <$> thread, onTheBoard).
Definition sendGuestMessage (slug : string) (c : Credentials) (body : string) (requestType : option GuestRequestType) : W (string * list PublicMessage * bool) :=
  throw! invalid when negb (nonempty (js_trim body)) in
  let! '(t, b) := resolveBookableBranch slug in
  let! _ := getProperty slug in
  withTenant t (write_in b c (js_trim body) requestType).

(** ** One's own bill *)
Definition own_folio (b : string) (c : Credentials) : M (Reservation.t * string * bool) :=
  let! r := findBooking b c in
  throw! conflict when negb (bool_decide (Reservation.status r ∈ FOLIO_VISIBLE_STATUSES)) in
  let! primary := findFirst folios (primary_of (Reservation.id r)) in
  let! others := findMany folios (fun f => bool_decide (Folio.reservationId f = Reservation.id r) && isNone (Folio.deletedAt f) && isSome (Folio.label f)) in
  let! folio := lift (or_throw primary conflict) in
  ret (r, Folio.id folio, bool_decide (0 < length others)%nat).
Definition getGuestFolio (slug : string) (c : Credentials) : W PublicGuestFolio :=
  let! '(t, b) := resolveBookableBranch slug in
  let! '(r, f, others) := withTenant t (own_folio b c) in
  let! bill := withTenant t (getFolio f) in
  let! at_ := withTenant t now in
  let stillAccruing := bool_decide (Reservation.status r = checked_in) in
  ret {| gf_confirmationNumber := Reservation.confirmationNumber r; gf_currency := fv_currency bill; gf_lineItems := List.filter (fun l => negb (LineItem.isVoid l)) (fv_lineItems bill);
         gf_payments := List.filter (fun p => negb (Payment.isVoid p)) (fv_payments bill); gf_totals := fv_totals bill; gf_stillAccruing := stillAccruing;
         gf_roomTotalForStay := if stillAccruing then Some (to_fixed2 (Reservation.confirmedRate r)) else None; gf_otherFoliosExist := others; gf_asOf := at_ |}.

(** ** Publishing *)
Definition live_branch (b : string) (x : Branch.t) : bool := bool_decide (Branch.id x = b) && isNone (Branch.deletedAt x).
(** The address is unique among the branches of every organisation. *)
Definition address_held (w : World) (t b slug : string) : bool :=
  existsb (fun o => existsb (fun x => bool_decide (Branch.bookingSlug x = Some slug) && negb (bool_decide (fst o = t) && bool_decide (Branch.id x = b))) (branches (rows_of w (fst o)))) (organisations w).
Definition publish (t b slug : string) : W string :=
  let! existing := findFirst slugIndex (fun p => bool_decide (BookingSlug.slug p = slug)) in
  throw! conflict when match existing with Some p => negb (bool_decide (BookingSlug.branchId p = b)) | None => false end in
  let! _ := orThrow (withTenant t (findFirst branches (live_branch b))) not_found in
  do! modify (upd_slugIndex (List.filter (fun p => negb (bool_decide (BookingSlug.branchId p = b))))) in
  let! taken := findFirst slugIndex (fun p => bool_decide (BookingSlug.slug p = slug)) in
  throw! conflict when isSome taken in
  do! modify (upd_slugIndex (fun l => l ++ [{| BookingSlug.slug := slug; BookingSlug.tenantId := t; BookingSlug.branchId := b |}])) in
  let! w := gets (fun w => w) in
  throw! conflict when address_held w t b slug in
  do! withTenant t (modify (upd_branches (update_where (fun x => bool_decide (Branch.id x = b)) (Branch.with_published (Some slug) true)))) in
  ret slug.
Definition unpublish (t b : string) : W unit :=
  let! _ := orThrow (withTenant t (findFirst branches (live_branch b))) not_found in
  do! withTenant t (modify (upd_branches (update_where (fun x => bool_decide (Branch.id x = b)) (fun x => Branch.with_published (Branch.bookingSlug x) false x)))) in
  modify (upd_slugIndex (List.filter (fun p => negb (bool_decide (BookingSlug.branchId p = b))))).
Definition getBookingEngineStatus (t b : string) : W (option string * bool) :=
  let! x := orThrow (withTenant t (findFirst branches (live_branch b))) not_found in
  ret (Branch.bookingSlug x, Branch.bookingEngineEnabled x).
End Public.
End Public.
