(* ===== verification/PublicSafety.v ===== *)
(** What the public pages may and may not do: nothing is told to somebody who
    cannot name a booking and its email, nothing leaves the organisation the
    address belongs to, no profile is overwritten and no consent withdrawn, the
    bill a guest sees adds up, and an address leads where it was published. *)
From stdpp Require Import pretty.
From Stdlib Require Import QArith Qcanon.
From S2P Require Import Accounts Prelude Decimal Json Dates StayPolicies Taxes Authority Transactions Db LoyaltyRules Packages Folios FolioLedger FolioFigures FolioPayments Notices SampleHotel Loyalty Refunds Rooms Housekeeping SalesRules Inventory Rates Guests Bookings StayChanges StayEnds Frames Lifecycle Inbox PublicBooking.
Import StayFees StayFeesProps Public.
Local Open Scope Z_scope.

(** ** Transactions of one organisation *)
Lemma set_rows_same w t : set_rows t (rows_of w t) w = w.
Proof. unfold set_rows, rows_of. destruct w as [index orgs r]. simpl. destruct (r !! t) as [d|] eqn:E; simpl; [|done]. by rewrite insert_id. Qed.
Lemma withTenant_Ok {A} t (m : M A) w w' a : withTenant t m w = Ok (w', a) <-> exists d', m (rows_of w t) = Ok (d', a) /\ w' = set_rows t d' w.
Proof. unfold withTenant. destruct (m (rows_of w t)) as [[d' x]|e]; naive_solver. Qed.
Lemma withTenant_Err {A} t (m : M A) w e : m (rows_of w t) = Err e -> withTenant t m w = Err e.
Proof. unfold withTenant. by intros ->. Qed.

(** [touches t]: only the rows of [t] may differ. *)
Definition touches (t : string) (w w' : World) : Prop :=
  slugIndex w' = slugIndex w /\ organisations w' = organisations w /\ forall u, u <> t -> rows w' !! u = rows w !! u.
#[global] Instance touches_preorder t : PreOrder (touches t).
Proof. split; [by intros w; split|]. intros a b c (E1 & E2 & E3) (F1 & F2 & F3). split; [congruence|]. split; [congruence|]. intros u Hu. by rewrite F3, E3. Qed.
Lemma touches_tenant {A} t (m : M A) : keeps (touches t) (withTenant t m).
Proof. intros w w' a (d' & _ & ->)%withTenant_Ok. split; [done|]. split; [done|]. intros u Hu. simpl. destruct (isSome _); [by rewrite lookup_insert_ne|done]. Qed.
Lemma touches_reads {A} t (m : W A) : keeps eq m -> keeps (touches t) m.
Proof. intros Hm w w' a Hr%Hm. by subst. Qed.
Lemma reads_tenant {A} t (m : M A) : keeps eq m -> keeps eq (withTenant t m).
Proof. intros Hm w w' a (d' & Hd%Hm & ->)%withTenant_Ok. by rewrite <- Hd, set_rows_same. Qed.

Lemma bind_Err {St A B} (m : Tx St A) (k : A -> Tx St B) d e : m d = Err e -> bind m k d = Err e.
Proof. unfold bind. by intros ->. Qed.

Section Public.
Context `{DecimalLib} `{TaxDb} `{Platform} `{Uuid}.

Lemma resolve_reads slug : keeps eq (resolveBookableBranch slug).
Proof. unfold resolveBookableBranch. keeps_tac. all: apply reads_tenant; keeps_tac. Qed.
Lemma resolve_same slug w w' x : resolveBookableBranch slug w = Ok (w', x) -> w' = w.
Proof. intros Hm%resolve_reads. done. Qed.
Lemma property_reads slug : keeps eq (getProperty slug).
Proof. unfold getProperty. keeps_tac; [apply resolve_reads|]. apply reads_tenant. unfold property_info, branch_row. keeps_tac. Qed.
Lemma find_reads b c : keeps eq (findBooking b c).
Proof. unfold findBooking. keeps_tac. Qed.
Lemma booking_detail_reads b c p : keeps eq (booking_detail b c p).
Proof. unfold booking_detail, findBooking, stay_type, stay_guest. keeps_tac. Qed.
Lemma lookup_reads slug c : keeps eq (lookupBooking slug c).
Proof. unfold lookupBooking. keeps_tac; [apply resolve_reads|apply reads_tenant, find_reads|apply property_reads|apply reads_tenant, booking_detail_reads]. Qed.

(** ** Nothing is told *)
(** A booking of the property whose number and whose guest's email were given. *)
Definition names (d : Db) (b : string) (c : Credentials) (r : Reservation.t) : Prop :=
  r ∈ reservations d /\ Reservation.branchId r = b /\ Reservation.confirmationNumber r = js_upper (js_trim (confirmationNumber c)) /\ Reservation.deletedAt r = None /\
  exists g e, g ∈ guests d /\ GuestProfile.id g = Reservation.guestId r /\ GuestProfile.email g = Some e /\ js_lower e = js_lower (js_trim (email c)).
Lemma names_iff d b c r : names d b c r <-> r ∈ reservations d /\ bookingCredentialsWhere d b c r = true.
Proof.
  unfold names, bookingCredentialsWhere. rewrite !andb_true_iff, !bool_decide_eq_true, existsb_exists_elem.
  assert (isNone (Reservation.deletedAt r) = true <-> Reservation.deletedAt r = None) as -> by (by destruct (Reservation.deletedAt r)).
  unfold guest_where, has_email. split.
  - intros (Hr & Hb & Hn & Hd & g & e & Hg & Hi & He & Hl). split; [done|]. split; [done|]. exists g. split; [done|]. rewrite bool_decide_true, He by done. by apply bool_decide_eq_true.
  - intros (Hr & [[Hb Hn] Hd] & g & Hg & [Hi%bool_decide_eq_true He]%andb_true_iff). do 4 (split; [done|]). destruct (GuestProfile.email g) as [e|] eqn:Ee; [|done]. apply bool_decide_eq_true in He. by exists g, e.
Qed.
Definition known (d : Db) (b : string) (c : Credentials) : bool := existsb (bookingCredentialsWhere d b c) (reservations d).
Lemma known_names d b c : known d b c = false <-> forall r, ~ names d b c r.
Proof.
  rewrite <- not_true_iff_false. unfold known. rewrite existsb_exists_elem. setoid_rewrite names_iff. naive_solver.
Qed.
(** Nothing at the address, or no booking there with this number and email. *)
Definition unknown (w : World) (slug : string) (c : Credentials) : Prop := forall t b, resolveBookableBranch slug w = Ok (w, (t, b)) -> forall r, ~ names (rows_of w t) b c r.
(** What a guest can ask about a booking of theirs. *)
Inductive self_service (slug : string) : forall {A}, (Credentials -> W A) -> Prop :=
| ss_lookup : self_service slug (lookupBooking slug)
| ss_check_in dto : self_service slug (fun c => preArrivalCheckIn slug c dto)
| ss_quote : self_service slug (getCancellationQuote slug)
| ss_cancel acknowledged : self_service slug (fun c => cancelBooking slug c acknowledged)
| ss_messages : self_service slug (getGuestMessages slug)
| ss_write body requestType : self_service slug (fun c => sendGuestMessage slug c body requestType)
| ss_folio : self_service slug (getGuestFolio slug).

Lemma find_unknown d b c : known d b c = false -> findBooking b c d = Err not_found.
Proof.
  intros Hk. unfold findBooking. erewrite bind_run by reflexivity. unfold orThrow, findFirst, bind, gets, lift. destruct (List.find _ _) as [r|] eqn:E; [|done].
  apply find_Some in E as [Hr Hc]. assert (known d b c = true) by (apply existsb_exists_elem; by exists r). congruence.
Qed.
(** A transaction that first looks for the booking. *)
Lemma starts_unknown {A} t b c (k : Reservation.t -> M A) w : known (rows_of w t) b c = false -> withTenant t (bind (findBooking b c) k) w = Err not_found.
Proof. intros Hk. by apply withTenant_Err, bind_Err, find_unknown. Qed.
Lemma property_same slug w : (exists p, getProperty slug w = Ok (w, p)) \/ exists e, getProperty slug w = Err e.
Proof. destruct (getProperty slug w) as [[w' p]|e] eqn:E; [|eauto]. apply property_reads in E as E'. subst. eauto. Qed.

Lemma own_unknown b c d : known d b c = false -> quote_own b c d = Err not_found /\ own_folio b c d = Err not_found /\ (forall x, preArrival b c x d = Err not_found) /\
  (forall x, cancel_own b c x d = Err not_found) /\ forall body t, write_in b c body t d = Err not_found.
Proof.
  intros Hk%find_unknown. assert (quote_own b c d = Err not_found) as Hq by (by apply bind_Err). split; [done|]. split; [by apply bind_Err|]. split; [intros x; by apply bind_Err|].
  split; [intros x; by apply bind_Err | intros body t; by apply bind_Err].
Qed.
(** Runs an operation up to the step that fails. *)
Ltac asked Er Hp :=
  repeat first
    [ rewrite (bind_run _ _ _ _ _ Er) | rewrite (bind_run _ _ _ _ _ Hp) | apply bind_Err; exact Er | apply bind_Err; exact Hp
    | apply withTenant_Err; eauto using find_unknown; fail | apply bind_Err, withTenant_Err; eauto using find_unknown; fail | erewrite bind_run by reflexivity ].

(** Whatever is asked, the answer to credentials that fit nothing does not depend on them. *)
Lemma self_service_unknown slug A (op : Credentials -> W A) w : self_service slug op -> exists e, forall c, unknown w slug c -> op c w = Err e.
Proof.
  intros Hop. destruct (resolveBookableBranch slug w) as [[w1 [t b]]|e] eqn:Er.
  - pose proof (resolve_same _ _ _ _ Er) as ->.
    assert (forall c, unknown w slug c -> known (rows_of w t) b c = false) as Hun by (intros c Hc; by apply known_names, Hc).
    destruct (property_same slug w) as [[p Hp]|[ep Hp]]; destruct Hop;
      unfold lookupBooking, preArrivalCheckIn, getCancellationQuote, cancelBooking, getGuestMessages, sendGuestMessage, getGuestFolio.
    all: try (exists not_found; intros c Hc%Hun; destruct (own_unknown _ _ _ Hc) as (? & ? & ? & ? & ?); solve [asked Er Hp]).
    all: try (exists ep; intros c _; solve [asked Er Hp]).
    all: try (exists ep; intros c _; by asked Er Hp).
    all: try (destruct (pa_acceptHouseRules dto)).
    all: try (destruct (nonempty (js_trim body))).
    all: try (exists invalid; intros c _; solve [asked Er Hp; done]).
    all: try (exists ep; intros c _; solve [asked Er Hp; done]).
    all: try (exists not_found; intros c Hc%Hun; destruct (own_unknown _ _ _ Hc) as (? & ? & ? & ? & ?); simpl throw_if; solve [asked Er Hp; auto using starts_unknown]).
  - destruct Hop; unfold lookupBooking, preArrivalCheckIn, getCancellationQuote, cancelBooking, getGuestMessages, sendGuestMessage, getGuestFolio.
    all: try (exists e; intros c _; by apply bind_Err).
    destruct (nonempty (js_trim body)); [exists e; intros c _; erewrite bind_run by reflexivity; by apply bind_Err | by exists invalid].
Qed.

(** ** Nobody else's booking *)
Definition others (i : string) (d : Db) : list Reservation.t := List.filter (fun r => negb (stay_where i r)) (reservations d).
(** [only_stay i]: no stay but [i] is written. *)
Definition only_stay (i : string) (d d' : Db) : Prop := others i d' = others i d.
#[local] Instance only_stay_preorder i : PreOrder (only_stay i).
Proof. split; [done | intros x y z E1 E2; unfold only_stay in *; congruence]. Qed.
#[local] Instance only_stay_upkeep i : Upkeep (only_stay i).
Proof. split; [split; [apply _|..]; done|done|done]. Qed.
#[local] Instance only_stay_bills i : BillTables (only_stay i).
Proof. by split. Qed.
Lemma others_update i f l : (forall r, Reservation.id (f r) = Reservation.id r) ->
  List.filter (fun r => negb (stay_where i r)) (update_where (stay_where i) f l) = List.filter (fun r => negb (stay_where i r)) l.
Proof.
  intros Hf. induction l as [|r l IH]; [done|]. simpl. destruct (stay_where i r) eqn:E; simpl; [|by rewrite E; simpl; f_equal].
  assert (stay_where i (f r) = true) as -> by (unfold stay_where in *; by rewrite Hf). done.
Qed.
Lemma update_stay_only r f : (forall x, Reservation.id (f x) = Reservation.id x) -> keeps (only_stay (Reservation.id r)) (update_stay r f).
Proof.
  intros Hf d d' row (-> & _ & a & b & c & Hrow)%update_stay_inv. unfold only_stay, others, put. simpl. induction (reservations d) as [|x l IH]; [done|]. simpl.
  destruct (stay_where (Reservation.id r) x) eqn:E; simpl; [|by rewrite E; simpl; f_equal].
  assert (stay_where (Reservation.id r) row = true) as -> by (unfold stay_where; rewrite Hrow; simpl; rewrite Hf; by rewrite bool_decide_true). done.
Qed.
#[local] Hint Resolve er_new_id er_auditLog bs_today bs_assertBranch bs_log bs_audit bs_quote bs_find_stay bs_folio op_ensurePrimaryFolio op_postAdHocCharge op_settleIfFullyPaid uk_task update_stay_only : keeps.
Lemma found_only {A} i (k : Reservation.t -> M A) : (forall r, Reservation.id r = i -> keeps (only_stay i) (k r)) -> keeps (only_stay i) (bind (findReservation i) k).
Proof. intros Hk d d' x (d1 & r & (-> & _ & Hi)%find_stay_inv & Hm)%bind_Ok. by eapply Hk. Qed.
Lemma cancelInTx_only i opts : keeps (only_stay i) (cancelInTx i opts).
Proof. apply found_only. intros r <-. unfold now. keeps_tac. Qed.
(** What a transaction that starts at one's own booking may do. *)
Definition own_tx (b : string) (c : Credentials) (d d' : Db) : Prop :=
  exists r, names d b c r /\ only_stay (Reservation.id r) d d'.
Lemma find_inv b c d d' r : findBooking b c d = Ok (d', r) -> d' = d /\ names d b c r.
Proof. unfold findBooking. intros (d1 & x & Hx & Hm)%bind_Ok. injection Hx as <- <-. apply orThrow_Ok, findFirst_Ok in Hm as [-> Hf]. symmetry in Hf. apply find_Some in Hf. by rewrite names_iff. Qed.
Lemma begun {A} b c (k : Reservation.t -> M A) : (forall r, keeps (only_stay (Reservation.id r)) (k r)) -> keeps (own_tx b c) (bind (findBooking b c) k).
Proof. intros Hk d d' a (d1 & r & (-> & Hc)%find_inv & Hm)%bind_Ok. exists r. split; [done|]. by eapply Hk. Qed.
Ltac written_stay := apply keeps_modify; intros; unfold only_stay, others; simpl; by apply others_update.
Ltac elsewhere := apply keeps_modify; intros; done.
Lemma preArrival_own b c dto : keeps (own_tx b c) (preArrival b c dto).
Proof. apply begun. intros r. unfold stay_guest, recordMarketingOptIn, now. keeps_tac; first [written_stay | elsewhere]. Qed.
Lemma write_own b c body t : keeps (own_tx b c) (write_in b c body t).
Proof. apply begun. intros r. unfold logGuestMessageInTx, create_message, guestThreadInTx, now. keeps_tac; elsewhere. Qed.
Lemma messages_own b c (p : PublicPropertyInfo) : keeps (own_tx b c)
  (let! r := findBooking b c in let! thread := guestThreadInTx (Reservation.id r) in ret (Reservation.confirmationNumber r, pi_name p, toPublicMessage <$> thread)).
Proof. apply begun. intros r. unfold guestThreadInTx. keeps_tac. Qed.
Lemma own_folio_own b c : keeps (own_tx b c) (own_folio b c).
Proof. apply begun. intros r. keeps_tac. Qed.
Lemma quote_own_inv b c d d' x : quote_own b c d = Ok (d', x) -> d' = d /\ findBooking b c d = Ok (d, fst x).
Proof.
  intros (d1 & r & Hf & Hm)%bind_Ok. destruct (find_inv _ _ _ _ _ Hf) as [-> _]. apply bind_Ok in Hm as (d2 & [] & [_ ->]%lift_Ok & Hm).
  apply bind_Ok in Hm as (d3 & t & Ht & Hm). injection Ht as <- <-. apply bind_Ok in Hm as (d4 & q & Hq & Hm). injection Hm as <- <-. split; [|done].
  assert (keeps eq (quoteCancellationInTx (Reservation.id r) (clock d))) as Hk; [|symmetry; by apply Hk in Hq].
  unfold quoteCancellationInTx, findReservation, assertBranch, buildCancellationQuote, previewCharge, paidOnPrimaryFolio, computeTotals. keeps_tac.
Qed.
Lemma cancel_own_own b c x : keeps (own_tx b c) (cancel_own b c x).
Proof.
  intros d d' a (d1 & [r q] & [-> (_ & Hc)%find_inv]%quote_own_inv & Hm)%bind_Ok. exists r. split; [done|].
  apply bind_Ok in Hm as (d2 & [] & [_ ->]%lift_Ok & Hm). apply bind_Ok in Hm as (d3 & [[? ?] ?] & Hm%cancelInTx_only & Hret). by injection Hret as <- <-.
Qed.

(** Of every organisation, only the one of the address is written, and there no booking but the asker's. *)
Definition own_only (slug : string) (c : Credentials) (w w' : World) : Prop := exists t b r,
  resolveBookableBranch slug w = Ok (w, (t, b)) /\ names (rows_of w t) b c r /\
  touches t w w' /\ only_stay (Reservation.id r) (rows_of w t) (rows_of w' t).
Lemma tenant_own {A} slug t b c (m : M A) w w' a : resolveBookableBranch slug w = Ok (w, (t, b)) -> keeps (own_tx b c) m -> withTenant t m w = Ok (w', a) -> own_only slug c w w'.
Proof.
  intros Hr Hk Hm. pose proof (touches_tenant _ _ _ _ _ Hm) as Ht. apply withTenant_Ok in Hm as (d' & (r & Hc & Ho)%Hk & ->). exists t, b, r. split; [done|]. split; [done|].
  split; [done|]. unfold rows_of, set_rows in *. simpl. destruct (rows w !! t) as [d|] eqn:E; simpl; [by rewrite lookup_insert_eq | by rewrite E].
Qed.
Lemma read_first {A B} (m : W A) (k : A -> W B) w x : keeps eq m -> bind m k w = Ok x -> exists a, m w = Ok (w, a) /\ k a w = Ok x.
Proof. intros Hk. destruct x as [w' x]. intros (w1 & a & Hm & Hx)%bind_Ok. pose proof (Hk _ _ _ Hm) as <-. eauto. Qed.
Lemma then_read {A B} (m : W A) (k : A -> W B) w w' x : (forall a, keeps eq (k a)) -> bind m k w = Ok (w', x) -> exists a, m w = Ok (w', a).
Proof. intros Hk (w1 & a & Hm & Hx%Hk)%bind_Ok. subst w1. eauto. Qed.
Lemma folio_reads f : keeps eq (getFolio f).
Proof. unfold getFolio, findFolioOrThrow, computeTotals, assertBranch. keeps_tac. Qed.
Lemma found_own b c : keeps (own_tx b c) (findBooking b c).
Proof. intros d d' r (-> & Hc)%find_inv. by exists r. Qed.
Lemma quote_reads b c : keeps (own_tx b c) (quote_own b c).
Proof. intros d d' [r q] [-> (_ & Hc)%find_inv]%quote_own_inv. by exists r. Qed.
Create HintDb own.
#[local] Hint Resolve resolve_reads property_reads lookup_reads reads_tenant folio_reads preArrival_own write_own messages_own own_folio_own cancel_own_own quote_reads found_own booking_detail_reads : own.
(** Resolves the address, passes the reads before the transaction, and leaves the transaction. *)
Ltac at_address Hm := apply read_first in Hm as ([?t ?b] & ?Hr & Hm); [|by auto with own]; cbn beta iota in Hm.
Ltac looked_at Hm := apply read_first in Hm as (? & _ & Hm); [|first [solve [auto with own] | apply keeps_lift; apply _]].
Ltac now_read Hm := apply then_read in Hm as [? Hm]; [|intros; repeat case_match; unfold now; keeps_tac; auto with own; try (apply reads_tenant; by keeps_tac)].
Ltac left_it Hr Hm := eapply tenant_own; [exact Hr | | exact Hm]; auto with own.
Lemma self_service_own slug A (op : Credentials -> W A) c w w' a : self_service slug op -> op c w = Ok (w', a) -> own_only slug c w w'.
Proof.
  intros Hop. destruct Hop; unfold lookupBooking, preArrivalCheckIn, getCancellationQuote, cancelBooking, getGuestMessages, sendGuestMessage, getGuestFolio; intros Hm.
  - at_address Hm. now_read Hm. left_it Hr Hm.
  - at_address Hm. looked_at Hm. now_read Hm. left_it Hr Hm.
  - at_address Hm. looked_at Hm. now_read Hm. left_it Hr Hm.
  - at_address Hm. looked_at Hm. now_read Hm. left_it Hr Hm.
  - at_address Hm. looked_at Hm. left_it Hr Hm.
  - looked_at Hm. at_address Hm. looked_at Hm. left_it Hr Hm.
  - at_address Hm. now_read Hm. left_it Hr Hm.
Qed.

(** ** The bill a guest sees *)
Lemma filter_perm {A} (f : A -> bool) l l' : l ≡ₚ l' -> List.filter f l ≡ₚ List.filter f l'.
Proof. induction 1; simpl; repeat case_match; eauto using Permutation. Qed.
Lemma qsum_perm l l' : l ≡ₚ l' -> qsum l = qsum l'.
Proof. induction 1; simpl; [done|by f_equal|ring|congruence]. Qed.
Lemma filter_twice {A} (f g : A -> bool) l : List.filter f (List.filter g l) = List.filter (fun x => g x && f x) l.
Proof. induction l as [|x l IH]; [done|]. simpl. destruct (g x); simpl; by rewrite IH. Qed.
(** The lines and payments shown are those that count. *)
Lemma shown_lines f d : List.filter (fun l => negb (LineItem.isVoid l)) (List.filter (fun l => bool_decide (LineItem.folioId l = f) && isNone (LineItem.deletedAt l)) (lineItems d)) =
  List.filter (standing f) (lineItems d).
Proof. rewrite filter_twice. apply List.filter_ext. intros l. unfold standing. by rewrite <- !andb_assoc, (andb_comm (isNone _)). Qed.
Lemma shown_payments f d : List.filter (fun p => negb (Payment.isVoid p)) (List.filter (fun p => bool_decide (Payment.folioId p = f) && isNone (Payment.deletedAt p)) (payments d)) =
  List.filter (standing_payment f) (payments d).
Proof. rewrite filter_twice. apply List.filter_ext. intros l. unfold standing_payment. by rewrite <- !andb_assoc, (andb_comm (isNone _)). Qed.
Lemma getFolio_inv f d d' v : getFolio f d = Ok (d', v) ->
  List.filter (fun l => negb (LineItem.isVoid l)) (fv_lineItems v) ≡ₚ List.filter (standing f) (lineItems d) /\
  List.filter (fun p => negb (Payment.isVoid p)) (fv_payments v) = List.filter (standing_payment f) (payments d) /\ fv_totals v = totals_in d f.
Proof.
  unfold getFolio, findFolioOrThrow, computeTotals, assertBranch. intros Hm. m_inv. simpl. rewrite <- shown_lines, <- shown_payments. split; [|done]. apply filter_perm, sort_by_perm.
Qed.
Lemma own_folio_inv b c d d' r f x : own_folio b c d = Ok (d', (r, f, x)) -> d' = d /\ names d b c r /\
  exists folio, folio ∈ folios d /\ Folio.id folio = f /\ primary_of (Reservation.id r) folio = true.
Proof.
  unfold own_folio. intros (d1 & y & (-> & Hc)%find_inv & Hm)%bind_Ok. apply bind_Ok in Hm as (d2 & [] & [_ ->]%lift_Ok & Hm).
  apply bind_Ok in Hm as (d3 & primary & [-> Hp]%findFirst_Ok & Hm). apply bind_Ok in Hm as (d4 & others & [-> _]%findMany_Ok & Hm).
  apply bind_Ok in Hm as (d5 & folio & [Hf%or_throw_Ok ->]%lift_Ok & Hm). injection Hm as <- <- <- _. subst primary. apply find_Some in Hf as [Hin Hprim].
  split; [done|]. split; [done|]. by exists folio.
Qed.
(** The bill of a booking: its lines and payments that stand. *)
Definition bill_of (d : Db) (r : Reservation.t) (g : PublicGuestFolio) : Prop := exists f, f ∈ folios d /\ primary_of (Reservation.id r) f = true /\
  gf_lineItems g ≡ₚ List.filter (standing (Folio.id f)) (lineItems d) /\ gf_payments g = List.filter (standing_payment (Folio.id f)) (payments d) /\ gf_totals g = totals_in d (Folio.id f).
Lemma guest_folio_inv slug c w w' g t b : getGuestFolio slug c w = Ok (w', g) -> resolveBookableBranch slug w = Ok (w, (t, b)) ->
  exists r, names (rows_of w t) b c r /\ bill_of (rows_of w t) r g.
Proof.
  unfold getGuestFolio. intros Hm Hr. apply read_first in Hm as ([t' b'] & Hr' & Hm); [|by auto with own]. rewrite Hr in Hr'. simplify_eq. cbn beta iota in Hm.
  apply bind_Ok in Hm as (w1 & [[r f] others] & (d1 & (-> & Hc & folio & Hf & Hid & Hp)%own_folio_inv & ->)%withTenant_Ok & Hm). rewrite set_rows_same in Hm.
  apply bind_Ok in Hm as (w2 & v & (d2 & Hv & ->)%withTenant_Ok & Hm). apply bind_Ok in Hm as (w3 & at_ & _ & Hm). injection Hm as _ <-. apply getFolio_inv in Hv as (Hl & Hpay & Ht).
  exists r. split; [done|]. exists folio. by rewrite Hid.
Qed.
Lemma bill_sums d r g : ledger_wf d -> few_rows d -> bill_of d r g ->
  qsum (LineItem.amount <$> gf_lineItems g) = totalCost (gf_totals g) /\ qsum (Payment.amount <$> gf_payments g) = paymentsTotal (gf_totals g) /\
  (subTotal (gf_totals g) + taxTotal_ (gf_totals g) = totalCost (gf_totals g) /\ totalCost (gf_totals g) - paymentsTotal (gf_totals g) = balanceDue (gf_totals g))%Qc.
Proof.
  intros Hwf Hfew (f & _ & _ & Hl & Hp & ->). destruct (totals_exact_lemma d (Folio.id f) Hwf Hfew) as (Hc & Hs & Hpaid & Hb). rewrite Hp.
  split; [rewrite Hc; unfold charges_on; by apply qsum_perm; rewrite Hl|]. split; [by rewrite Hpaid|]. split; [done|]. by rewrite Hb, Hc, Hpaid.
Qed.

(** ** Where an address leads *)
(** The index is keyed by the address, and a property has one. *)
Record index_ok (w : World) : Prop := { ix_slug : NoDup (BookingSlug.slug <$> slugIndex w); ix_branch : NoDup (BookingSlug.branchId <$> slugIndex w) }.
Definition leads (w : World) (slug t b : string) : Prop := resolveBookableBranch slug w = Ok (w, (t, b)).
Definition open_org (w : World) (t : string) : bool :=
  match List.find (fun o => bool_decide (fst o = t)) (organisations w) with Some o => bool_decide (snd o ∈ BOOKABLE_TENANT_STATUSES) | None => false end.
Definition open_branch (b : string) (x : Branch.t) : bool := bool_decide (Branch.id x = b) && Branch.bookingEngineEnabled x && isNone (Branch.deletedAt x).
Definition pointer (w : World) (slug : string) : option BookingSlug.t := List.find (fun p => bool_decide (BookingSlug.slug p = slug)) (slugIndex w).
Lemma resolve_eq slug w : resolveBookableBranch slug w =
  match pointer w slug with
  | Some p => if existsb (open_branch (BookingSlug.branchId p)) (branches (rows_of w (BookingSlug.tenantId p))) && open_org w (BookingSlug.tenantId p)
              then Ok (w, (BookingSlug.tenantId p, BookingSlug.branchId p)) else Err not_found
  | None => Err not_found
  end.
Proof.
  unfold resolveBookableBranch, pointer, open_org, orThrow, findFirst, withTenant, bind, gets, lift, ret. simpl.
  destruct (List.find _ (slugIndex w)) as [[s t b]|]; simpl; [|done]. rewrite <- find_existsb. change (open_branch b) with (fun x => bool_decide (Branch.id x = b) && Branch.bookingEngineEnabled x && isNone (Branch.deletedAt x)).
  destruct (List.find _ (branches (rows_of w t))) as [x|]; simpl; [|done]. rewrite set_rows_same. simpl. destruct (List.find _ (organisations w)) as [o|]; simpl; [|done].
  by destruct (bool_decide _).
Qed.
Lemma pointer_slug w slug p : pointer w slug = Some p -> p ∈ slugIndex w /\ BookingSlug.slug p = slug.
Proof. intros [Hin Hs%bool_decide_eq_true]%find_Some. done. Qed.
Lemma leads_iff w slug t b : leads w slug t b <->
  exists p, pointer w slug = Some p /\ BookingSlug.tenantId p = t /\ BookingSlug.branchId p = b /\ existsb (open_branch b) (branches (rows_of w t)) = true /\ open_org w t = true.
Proof.
  unfold leads. rewrite resolve_eq. split.
  - destruct (pointer w slug) as [p|]; [|done]. destruct (existsb _ _) eqn:Eb; [|done]. destruct (open_org _ _) eqn:Eo; [|done]. simpl. intros [= <- <-]. by exists p.
  - intros (p & -> & <- & <- & Hb & Ho). by rewrite Hb, Ho.
Qed.
(** With the addresses distinct, an entry is found by its own. *)
Lemma pointer_in w p : index_ok w -> p ∈ slugIndex w -> pointer w (BookingSlug.slug p) = Some p.
Proof.
  intros [Hnd _] Hp. unfold pointer. induction (slugIndex w) as [|x l IH]; [by apply elem_of_nil in Hp|]. csimpl in Hnd. apply NoDup_cons in Hnd as [Hx Hnd]. simpl.
  apply elem_of_cons in Hp as [->|Hp]; [by rewrite bool_decide_true|]. rewrite bool_decide_false; [by apply IH|]. intros E. apply Hx. rewrite E. by apply list_elem_of_fmap_2.
Qed.
Definition elsewhere_than (b : string) (p : BookingSlug.t) : bool := negb (bool_decide (BookingSlug.branchId p = b)).
Definition enter (t b slug : string) (l : list BookingSlug.t) : list BookingSlug.t :=
  List.filter (elsewhere_than b) l ++ [{| BookingSlug.slug := slug; BookingSlug.tenantId := t; BookingSlug.branchId := b |}].
Definition publishes (b slug : string) : Db -> Db := upd_branches (update_where (fun x => bool_decide (Branch.id x = b)) (Branch.with_published (Some slug) true)).
Lemma live_found t b w w' x : orThrow (withTenant t (findFirst branches (live_branch b))) not_found w = Ok (w', x) -> w' = w /\ existsb (live_branch b) (branches (rows_of w t)) = true.
Proof.
  intros (d' & [-> Hf]%findFirst_Ok & ->)%orThrow_Ok%withTenant_Ok. rewrite set_rows_same. split; [done|]. by rewrite <- find_existsb, <- Hf.
Qed.
Lemma publish_inv t b slug w w' x : publish t b slug w = Ok (w', x) -> existsb (live_branch b) (branches (rows_of w t)) = true /\
  ~ slug ∈ (BookingSlug.slug <$> List.filter (elsewhere_than b) (slugIndex w)) /\
  w' = set_rows t (publishes b slug (rows_of w t)) (upd_slugIndex (enter t b slug) w).
Proof.
  unfold publish. intros (w1 & existing & [-> _]%findFirst_Ok & Hm)%bind_Ok. apply bind_Ok in Hm as (w2 & [] & [_ ->]%lift_Ok & Hm).
  apply bind_Ok in Hm as (w3 & branch & [-> Hlive]%live_found & Hm). apply bind_Ok in Hm as (w4 & [] & Hmod & Hm). injection Hmod as <-.
  apply bind_Ok in Hm as (w5 & taken & [-> Htaken]%findFirst_Ok & Hm). apply bind_Ok in Hm as (w6 & [] & [Hnone%throw_if_Ok ->]%lift_Ok & Hm).
  apply bind_Ok in Hm as (w7 & [] & Hmod & Hm). injection Hmod as <-. apply bind_Ok in Hm as (w8 & y & Hy & Hm). injection Hy as <- <-.
  apply bind_Ok in Hm as (w9 & [] & [_ ->]%lift_Ok & Hm). apply bind_Ok in Hm as (w10 & [] & (d' & Hd & ->)%withTenant_Ok & Hm). injection Hd as <-. injection Hm as <- _.
  split; [done|]. split; [|done]. destruct taken; [done|]. symmetry in Htaken. simpl in Htaken. intros (p & Hs & Hp)%list_elem_of_fmap.
  eapply List.find_none in Htaken; [|by apply list_elem_of_In]. simpl in Htaken. by rewrite bool_decide_true in Htaken.
Qed.
Lemma unpublish_inv t b w w' x : unpublish t b w = Ok (w', x) ->
  w' = upd_slugIndex (List.filter (elsewhere_than b)) (set_rows t (upd_branches (update_where (fun x => bool_decide (Branch.id x = b)) (fun x => Branch.with_published (Branch.bookingSlug x) false x)) (rows_of w t)) w).
Proof.
  unfold unpublish. intros (w1 & branch & [-> Hlive]%live_found & Hm)%bind_Ok. apply bind_Ok in Hm as (w2 & [] & (d' & Hd & ->)%withTenant_Ok & Hm). injection Hd as <-. by injection Hm as <- _.
Qed.
Lemma pointer_iff w slug p : index_ok w -> pointer w slug = Some p <-> p ∈ slugIndex w /\ BookingSlug.slug p = slug.
Proof. intros Hw. split; [apply pointer_slug|]. intros [Hp <-]. by apply pointer_in. Qed.
Lemma elem_elsewhere b p l : p ∈ List.filter (elsewhere_than b) l <-> p ∈ l /\ BookingSlug.branchId p <> b.
Proof. rewrite elem_of_filterb. unfold elsewhere_than. by rewrite negb_true_iff, bool_decide_eq_false. Qed.
Lemma index_left b w w' : index_ok w -> slugIndex w' = List.filter (elsewhere_than b) (slugIndex w) -> index_ok w'.
Proof. intros [Hs Hb] E. split; rewrite E; by apply NoDup_fmap_filterb. Qed.
Lemma index_entered t b slug w w' : index_ok w -> slug ∉ (BookingSlug.slug <$> List.filter (elsewhere_than b) (slugIndex w)) -> slugIndex w' = enter t b slug (slugIndex w) -> index_ok w'.
Proof.
  intros [Hs Hb] Hn E. split; rewrite E; unfold enter; rewrite fmap_app; apply NoDup_app; (split; [by apply NoDup_fmap_filterb|]); (split; [|apply NoDup_singleton]).
  - intros s Hin ->%list_elem_of_singleton. done.
  - intros s (p & -> & [_ Hp]%elem_elsewhere)%list_elem_of_fmap Hin%list_elem_of_singleton. done.
Qed.
Lemma rows_other t u d w : u <> t -> rows_of (set_rows t d w) u = rows_of w u.
Proof. intros Hu. unfold rows_of, set_rows. simpl. destruct (isSome _); [by rewrite lookup_insert_ne|done]. Qed.
Lemma rows_this t d w (f : Branch.t -> bool) : existsb f (branches (rows_of w t)) = true -> rows_of (set_rows t d w) t = d.
Proof. unfold rows_of, set_rows. simpl. destruct (rows w !! t) eqn:E; simpl; [by rewrite lookup_insert_eq | done]. Qed.
(** Writing on one property opens and closes no other. *)
Lemma open_other b b' f l : b' <> b -> (forall x, Branch.id (f x) = Branch.id x) ->
  existsb (open_branch b') (update_where (fun x => bool_decide (Branch.id x = b)) f l) = existsb (open_branch b') l.
Proof.
  intros Hb Hf. induction l as [|x l IH]; [done|]. simpl. rewrite IH. case_bool_decide as E; [|done]. unfold open_branch. rewrite Hf, E. by rewrite bool_decide_false.
Qed.
Lemma open_elsewhere t b f w u b' : b' <> b -> (forall x, Branch.id (f x) = Branch.id x) ->
  existsb (open_branch b') (branches (rows_of (set_rows t (upd_branches (update_where (fun x => bool_decide (Branch.id x = b)) f) (rows_of w t)) w) u)) = existsb (open_branch b') (branches (rows_of w u)).
Proof.
  intros Hb Hf. destruct (decide (u = t)) as [->|Hu]; [|by rewrite rows_other]. unfold rows_of, set_rows. simpl. destruct (rows w !! t) as [d|] eqn:E; simpl.
  - rewrite lookup_insert_eq. simpl. by apply open_other.
  - by rewrite E.
Qed.
Lemma open_published b slug l : existsb (live_branch b) l = true -> existsb (open_branch b) (update_where (fun x => bool_decide (Branch.id x = b)) (Branch.with_published (Some slug) true) l) = true.
Proof.
  intros (x & Hx & [Hb%bool_decide_eq_true Hl]%andb_true_iff)%existsb_exists_elem. apply existsb_exists_elem. exists (Branch.with_published (Some slug) true x). split.
  - unfold update_where. apply list_elem_of_fmap. exists x. by rewrite bool_decide_true.
  - unfold open_branch. simpl. by rewrite bool_decide_true, Hl.
Qed.
Lemma published t b slug w w' x : index_ok w -> publish t b slug w = Ok (w', x) -> index_ok w' /\
  forall s u b', leads w' s u b' <-> (b' = b /\ s = slug /\ u = t /\ open_org w t = true) \/ (b' <> b /\ leads w s u b').
Proof.
  intros Hw (Hlive & Hfree & Hw')%publish_inv. assert (index_ok w') as Hok by (eapply index_entered; [done..|by rewrite Hw']). split; [done|]. intros s u b'.
  assert (open_org w' = open_org w) as Ho by (by rewrite Hw'). assert (slugIndex w' = enter t b slug (slugIndex w)) as Hix by (by rewrite Hw').
  assert (b' <> b -> existsb (open_branch b') (branches (rows_of w' u)) = existsb (open_branch b') (branches (rows_of w u))) as He by (intros; rewrite Hw'; by apply (open_elsewhere t b _ (upd_slugIndex _ w))).
  assert (existsb (open_branch b) (branches (rows_of w' t)) = true) as Hb by (rewrite Hw', (rows_this t _ (upd_slugIndex _ w) _ Hlive); by apply open_published).
  clear Hw'. rewrite !leads_iff, Ho. split.
  - intros (p & [Hp Hs]%pointer_iff & Ht & Hb' & Hopen & Horg); [|done]. rewrite Hix in Hp. apply elem_of_app in Hp as [[Hp Hne]%elem_elsewhere|Hp%list_elem_of_singleton].
    + right. split; [congruence|]. exists p. rewrite pointer_iff by done. rewrite He in Hopen by congruence. done.
    + subst p. simpl in *. subst. by left.
  - intros [(-> & -> & -> & Horg)|(Hne & p & [Hp Hs]%pointer_iff & Ht & Hb' & Hopen & Horg)]; [| |done].
    + exists {| BookingSlug.slug := slug; BookingSlug.tenantId := t; BookingSlug.branchId := b |}. rewrite pointer_iff by done. rewrite Hix. unfold enter. set_solver.
    + exists p. rewrite pointer_iff, Hix, He by done. split; [|done]. split; [|done]. apply elem_of_app. left. apply elem_elsewhere. split; congruence.
Qed.
Lemma unpublished t b w w' x : index_ok w -> unpublish t b w = Ok (w', x) -> index_ok w' /\ forall s u b', leads w' s u b' <-> b' <> b /\ leads w s u b'.
Proof.
  intros Hw Hw'%unpublish_inv. assert (index_ok w') as Hok by (eapply index_left; [done|by rewrite Hw']). split; [done|]. intros s u b'.
  assert (open_org w' = open_org w) as Ho by (by rewrite Hw'). assert (slugIndex w' = List.filter (elsewhere_than b) (slugIndex w)) as Hix by (by rewrite Hw').
  assert (b' <> b -> existsb (open_branch b') (branches (rows_of w' u)) = existsb (open_branch b') (branches (rows_of w u))) as He by (intros; rewrite Hw'; by apply (open_elsewhere t b _ w)).
  clear Hw'. rewrite !leads_iff, Ho. split.
  - intros (p & [Hp Hs]%pointer_iff & Ht & Hb' & Hopen & Horg); [|done]. rewrite Hix in Hp. apply elem_elsewhere in Hp as [Hp Hne]. rewrite He in Hopen by congruence.
    split; [congruence|]. exists p. by rewrite pointer_iff.
  - intros (Hne & p & [Hp Hs]%pointer_iff & Ht & Hb' & Hopen & Horg); [|done]. exists p. rewrite pointer_iff, Hix, He by done. split; [|done]. split; [|done]. apply elem_elsewhere. split; congruence.
Qed.

(** ** What a form may do to a profile *)
(** Gaps are filled, nothing on file is overwritten; consent is given, never taken back, and not for whoever unsubscribed. *)
Record completed (g g' : GuestProfile.t) : Prop := {
  cp_who : (GuestProfile.id g', GuestProfile.name g', GuestProfile.email g', GuestProfile.loyaltyPoints g', GuestProfile.idDocNumber g', GuestProfile.deletedAt g') =
           (GuestProfile.id g, GuestProfile.name g, GuestProfile.email g, GuestProfile.loyaltyPoints g, GuestProfile.idDocNumber g, GuestProfile.deletedAt g);
  cp_phone : isSome (set_string (GuestProfile.phone g)) = true -> GuestProfile.phone g' = GuestProfile.phone g;
  cp_nationality : isSome (set_string (GuestProfile.nationality g)) = true -> GuestProfile.nationality g' = GuestProfile.nationality g;
  cp_consent : GuestProfile.marketingOptIn g = true -> GuestProfile.marketingOptIn g' = true;
  cp_unsubscribed : isSome (GuestProfile.marketingUnsubscribedAt g) = true -> GuestProfile.marketingOptIn g' = GuestProfile.marketingOptIn g;
  cp_kept : GuestProfile.marketingUnsubscribedAt g' = GuestProfile.marketingUnsubscribedAt g;
}.
#[local] Instance completed_preorder : PreOrder completed.
Proof.
  split; [by split|]. intros x y z [E1 E2 E3 E4 E5 E6] [F1 F2 F3 F4 F5 F6]. split; [congruence|..|auto| |congruence].
  - intros Hx. rewrite F2; [by apply E2|]. by rewrite E2.
  - intros Hx. rewrite F3; [by apply E3|]. by rewrite E3.
  - intros Hx. rewrite F5; [by apply E5|]. by rewrite E6.
Qed.
Definition profiles (d d' : Db) : Prop := Forall2 completed (guests d) (guests d').
#[local] Instance profiles_preorder : PreOrder profiles.
Proof. split; [intros d; unfold profiles; reflexivity | intros x y z Hxy Hyz; unfold profiles in *; by etrans]. Qed.
Lemma profiles_update w f l : (forall g, g ∈ l -> w g = true -> completed g (f g)) -> Forall2 completed l (update_where w f l).
Proof.
  intros Hf. induction l as [|g l IH]; [constructor|]. constructor; [|apply IH; intros; apply Hf; [by right|done]]. simpl. destruct (w g) eqn:E; [apply Hf; [by left|done]|reflexivity].
Qed.
Lemma profiles_opt_in i source : keeps profiles (recordMarketingOptIn i source).
Proof.
  unfold recordMarketingOptIn, now. keeps_tac. apply keeps_modify. intros d. apply profiles_update. intros g _ Hg. unfold may_opt_in in Hg.
  apply andb_true_iff in Hg as [[[_ _]%andb_true_iff Hu]%andb_true_iff _]. split; simpl; try done. by destruct (GuestProfile.marketingUnsubscribedAt g).
Qed.
Lemma preArrival_profiles b c dto d d' x : NoDup (GuestProfile.id <$> guests d) -> preArrival b c dto d = Ok (d', x) -> profiles d d'.
Proof.
  intros Hnd. unfold preArrival. intros (d1 & r & (-> & _)%find_inv & Hm)%bind_Ok. apply bind_Ok in Hm as (d2 & g & Hg & Hm).
  unfold stay_guest in Hg. apply orThrow_Ok, findFirst_Ok in Hg as [-> Hg]. symmetry in Hg. apply find_Some in Hg as [Hin Hid%bool_decide_eq_true].
  apply bind_Ok in Hm as (d3 & [] & [_ ->]%lift_Ok & Hm). apply bind_Ok in Hm as (d4 & t & Ht & Hm). injection Ht as <- <-. apply bind_Ok in Hm as (d5 & [] & Hfill & Hm).
  trans d5.
  - destruct (fills_phone _ _ || fills_nationality _ _); [|by injection Hfill as <-]. injection Hfill as <-. apply profiles_update. intros y Hy Hw%bool_decide_eq_true.
    assert (y = g) as ->. { eapply (NoDup_fmap_inj GuestProfile.id); [done..|congruence]. }
    unfold fills_phone, fills_nationality. split; simpl; try done; destruct (set_string _); simpl; by rewrite ?andb_false_r.
  - revert Hm. match goal with |- ?m d5 = _ -> _ => assert (keeps profiles m) as Hk; [|by apply Hk] end. unfold auditLog.
    keeps_tac; first [apply profiles_opt_in | apply keeps_modify; intros; unfold profiles; simpl; reflexivity].
Qed.
Lemma check_in_profiles slug c dto w w' x t b : resolveBookableBranch slug w = Ok (w, (t, b)) -> NoDup (GuestProfile.id <$> guests (rows_of w t)) ->
  preArrivalCheckIn slug c dto w = Ok (w', x) -> profiles (rows_of w t) (rows_of w' t).
Proof.
  intros Hr Hnd Hm. unfold preArrivalCheckIn in Hm. apply read_first in Hm as ([t' b'] & Hr' & Hm); [|by auto with own]. rewrite Hr in Hr'. simplify_eq. cbn beta iota in Hm.
  looked_at Hm. now_read Hm. apply withTenant_Ok in Hm as (d' & Hm%preArrival_profiles & ->); [|done]. unfold rows_of, set_rows in *. simpl.
  destruct (rows w !! t') eqn:E; simpl; [by rewrite lookup_insert_eq | rewrite E; reflexivity].
Qed.
End Public.

Lemma unknown_at `{Platform} w slug t b c : resolveBookableBranch slug w = Ok (w, (t, b)) -> known (rows_of w t) b c = false -> unknown w slug c.
Proof. intros Hr Hk t' b' Hr'. rewrite Hr in Hr'. injection Hr' as <- <-. by apply known_names. Qed.

(** ** The claims *)
Section Claims.
Context `{DecimalLib} `{TaxDb} `{Platform} `{Uuid}.

(** C16: Looking a booking up, checking in, asking what cancelling costs, cancelling,
    reading or sending messages and reading the bill all give one and the same
    answer to everybody who cannot name a booking of the property together with
    its guest's email: the answer does not tell which of the two was wrong, nor
    whether the number exists. *)
Theorem nothing_told_to_strangers slug A (op : Credentials -> W A) w : self_service slug op -> exists e, forall c, unknown w slug c -> op c w = Err e.
Proof. apply self_service_unknown. Qed.


(** The bill a guest sees online is the booking's own, with exactly the lines
    and payments that stand on it, and it adds up: the lines to the total, the
    payments to what was paid, and the balance to the difference. *)
Theorem guest_bill_adds_up slug c w w' g t b : getGuestFolio slug c w = Ok (w', g) -> resolveBookableBranch slug w = Ok (w, (t, b)) -> ledger_wf (rows_of w t) -> few_rows (rows_of w t) ->
  (exists r, names (rows_of w t) b c r /\ bill_of (rows_of w t) r g) /\
  qsum (LineItem.amount <$> gf_lineItems g) = totalCost (gf_totals g) /\ qsum (Payment.amount <$> gf_payments g) = paymentsTotal (gf_totals g) /\
  (subTotal (gf_totals g) + taxTotal_ (gf_totals g) = totalCost (gf_totals g) /\ totalCost (gf_totals g) - paymentsTotal (gf_totals g) = balanceDue (gf_totals g))%Qc.
Proof. intros Hm Hr Hwf Hfew. destruct (guest_folio_inv _ _ _ _ _ _ _ Hm Hr) as (r & Hc & Hb). split; [by exists r | by eapply bill_sums]. Qed.

(** An online check-in completes a profile and never overwrites it: a phone
    number or nationality on file stays, nobody's consent to offers is withdrawn,
    and nobody who unsubscribed is subscribed again. *)
Theorem check_in_only_completes slug c dto w w' x t b : resolveBookableBranch slug w = Ok (w, (t, b)) -> NoDup (GuestProfile.id <$> guests (rows_of w t)) ->
  preArrivalCheckIn slug c dto w = Ok (w', x) -> Forall2 completed (guests (rows_of w t)) (guests (rows_of w' t)).
Proof. apply check_in_profiles. Qed.

(** After a property is published at an address, that address leads to it (as
    long as its organisation is open) and no other address does; every other
    property is reached where it was. After it is unpublished nothing leads to it,
    and again nothing else changes. *)
Theorem addresses_lead w : index_ok w ->
  (forall t b slug w' x, publish t b slug w = Ok (w', x) -> index_ok w' /\
     forall s u b', leads w' s u b' <-> (b' = b /\ s = slug /\ u = t /\ open_org w t = true) \/ (b' <> b /\ leads w s u b')) /\
  (forall t b w' x, unpublish t b w = Ok (w', x) -> index_ok w' /\ forall s u b', leads w' s u b' <-> b' <> b /\ leads w s u b').
Proof. intros Hw. split; [intros; by eapply published | intros; by eapply unpublished]. Qed.
End Claims.

Module PublicWitness.
Import Hotel.
(** The hotel on the web, beside an organisation with nothing in it. *)
Definition online (d : Db) : Db := upd_branches (fmap (Branch.with_published (Some "lagoon") true)) d.
Definition web (d : Db) : World := {|
  slugIndex := [{| BookingSlug.slug := "lagoon"; BookingSlug.tenantId := "t1"; BookingSlug.branchId := "b1" |}];
  organisations := [("t1", active); ("t2", trial)]; rows := <["t1" := online d]> ∅ |}.
Definition ada : Credentials := {| confirmationNumber := " res-2024-00001 "; email := "ada@example.com" |}.
Definition stranger : Credentials := {| confirmationNumber := "RES-2024-00001"; email := "eve@example.com" |}.
Lemma web_rows d : rows_of (web d) "t1" = online d.
Proof. unfold rows_of, web. simpl. by rewrite lookup_insert_eq. Qed.
Lemma web_leads : resolveBookableBranch "lagoon" (web hotel_billed) = Ok (web hotel_billed, ("t1", "b1")).
Proof. vm_compute. reflexivity. Qed.
Lemma stranger_unknown : unknown (web hotel_billed) "lagoon" stranger.
Proof. apply (unknown_at _ _ _ _ _ web_leads). vm_compute. reflexivity. Qed.
Lemma nothing_told_to_strangers_witness : exists e, lookupBooking "lagoon" stranger (web hotel_billed) = Err e.
Proof.
  destruct (nothing_told_to_strangers "lagoon" _ (lookupBooking "lagoon") (web hotel_billed) (ss_lookup _)) as [e He]. exists e. apply He. exact stranger_unknown.
Defined.
Definition after_web {A} (m : W A) (w : World) : World := match m w with Ok (w', _) => w' | Err _ => w end.
Lemma web_ok {A} (m : W A) w : is_ok (m w) = true -> exists a, m w = Ok (after_web m w, a).
Proof. unfold after_web. destruct (m w) as [[w' a]|e]; [eauto | done]. Qed.
Lemma wrote_ok : is_ok (sendGuestMessage "lagoon" ada "Two more towels, please" (Some housekeeping_request) (web hotel_billed)) = true.
Proof. vm_compute. reflexivity. Qed.
Lemma billed_ok : is_ok (getGuestFolio "lagoon" ada (web hotel_billed)) = true.
Proof. vm_compute. reflexivity. Qed.
Lemma wf_online d : ledger_wf d -> ledger_wf (online d).
Proof. exact (wf_other d (online d) eq_refl eq_refl (le_n _)). Qed.
Lemma web_wf : ledger_wf (rows_of (web hotel_billed) "t1").
Proof. rewrite web_rows. apply wf_online, FiguresWitness.hotel_billed_wf. Qed.
Lemma few_online d : few_rows d -> few_rows (online d).
Proof. intros [Hl Hp]. split; [exact Hl | exact Hp]. Qed.
Lemma web_few : few_rows (rows_of (web hotel_billed) "t1").
Proof. rewrite web_rows. apply few_online, FiguresWitness.hotel_billed_few. Qed.
Lemma guest_bill_adds_up_witness : exists w' g, getGuestFolio "lagoon" ada (web hotel_billed) = Ok (w', g) /\ qsum (LineItem.amount <$> gf_lineItems g) = totalCost (gf_totals g).
Proof.
  destruct (web_ok _ _ billed_ok) as [g Hg]. exists (after_web (getGuestFolio "lagoon" ada) (web hotel_billed)), g. split; [exact Hg|].
  exact (proj1 (proj2 (guest_bill_adds_up "lagoon" ada _ _ g "t1" "b1" Hg web_leads web_wf web_few))).
Defined.
(** A stay that is still to come, and a form for it. *)
Definition ahead : Db := upd_reservations (fmap (Reservation.with_status confirmed)) hotel.
Definition form : PreArrivalCheckInDto := {|
  pa_phone := Some "0801 234 5678"; pa_nationality := Some "ng"; pa_estimatedArrivalTime := Some "16:00"; pa_acceptHouseRules := true; pa_marketingOptIn := true |}.
Lemma ahead_leads : resolveBookableBranch "lagoon" (web ahead) = Ok (web ahead, ("t1", "b1")).
Proof. vm_compute. reflexivity. Qed.
Lemma filled_ok : is_ok (preArrivalCheckIn "lagoon" ada form (web ahead)) = true.
Proof. vm_compute. reflexivity. Qed.
Lemma ahead_one : NoDup (GuestProfile.id <$> guests (rows_of (web ahead) "t1")).
Proof. rewrite web_rows. apply NoDup_singleton. Qed.
Lemma check_in_only_completes_witness : exists w', Forall2 completed (guests (rows_of (web ahead) "t1")) (guests (rows_of w' "t1")) /\
  GuestProfile.nationality <$> guests (rows_of w' "t1") = [Some "NG"].
Proof.
  destruct (web_ok _ _ filled_ok) as [x Hx]. exists (after_web (preArrivalCheckIn "lagoon" ada form) (web ahead)).
  split; [exact (check_in_only_completes "lagoon" ada form _ _ x "t1" "b1" ahead_leads ahead_one Hx) | clear; vm_compute; reflexivity].
Defined.
Definition offline : World := {| slugIndex := []; organisations := [("t1", active); ("t2", trial)]; rows := <["t1" := hotel]> ∅ |}.
Lemma published_ok : is_ok (publish "t1" "b1" "lagoon" offline) = true.
Proof. vm_compute. reflexivity. Qed.
Lemma offline_ok : index_ok offline.
Proof. split; constructor. Qed.
Lemma addresses_lead_witness : exists w', publish "t1" "b1" "lagoon" offline = Ok (w', "lagoon") /\ leads w' "lagoon" "t1" "b1".
Proof.
  assert (exists w', publish "t1" "b1" "lagoon" offline = Ok (w', "lagoon")) as [w' Hw'] by (eexists; vm_compute; reflexivity). exists w'. split; [exact Hw'|].
  apply (proj2 (proj1 (addresses_lead offline offline_ok) "t1" "b1" "lagoon" w' "lagoon" Hw')). left. by repeat split.
Defined.
End PublicWitness.
